(* ===== verification/_CoqProject ===== *)
-Q . S2P
Prelude.v
HfiQueue.v
HfiTypes.v
HfiPacket.v
HfiDefs.v
Driver.v
Evolve.v
Local.v
Instance.v
HfiSession.v
Response.v
Session.v
Scenario.v
Registry.v
SysError.v
Power.v
Machine.v
Reply.v
Store.v
Smem.v
Buffers.v
BufferView.v
BufferInv.v
BufferCache.v
BufferFrames.v
BufferSafe.v
SessionBuffers.v
UserMem.v
Wncc.v
WnccSafe.v
Fences.v
Commands.v
Enqueue.v
FenceSafe.v
Populate.v
Send.v
Deliver.v
Ioctl.v
IoctlSafe.v
Sysprop.v
Control.v
Life.v
LifeSafe.v
ControlSafe.v
Partial.v
Dsp.v
DspCmd.v
DspRegistry.v
DspSafe.v
DspRuns.v
DspMessages.v
QueueMem.v
QueueSetup.v
QueueReady.v
QueueInit.v
QdssMap.v
HawiIo.v
KaanapaliIo.v
GlymurIo.v
PakalaIo.v
Hw.v
HwRules.v
Hal.v
HalHawi.v
HalKaanapali.v
HalGlymur.v
HalPakala.v
OldTargets.v
HwPower.v
HwPowerRules.v
HwMain.v
Bringup.v
BringupLaws.v
BringupMain.v
Platform.v
Resources.v
ResourceLaws.v
Probe.v
ProbeLaws.v
ProbeMain.v
