(* ===== verification/Prelude.v ===== *)
(** * EVA (computer-vision processor) driver: a verification development

    The program under src/msm/eva/ is the kernel driver of Qualcomm's EVA (CVP) processor.
    Clients open a session through a device file and send it packets with ioctls; the driver
    checks the packets, maps their buffers and waits for their fences, and passes them to the
    firmware through ring queues in shared memory; the firmware's replies come back through a
    second queue, from the interrupt handler to the client that waits.  The processor's DSP
    opens sessions of its own over a message channel.

    ** Conventions

    Machine integers are [Z] with the wrap-around of their C type written out ([u32], [u64],
    [s32] of this file).  A pointer is an address, 0 for NULL; objects live in association
    lists or maps, so that a use after free or an access out of bounds is a [Fault] of the
    monads: [outcome], and over it [M] (Driver.v) for the session layer, [St S] (Store.v) for
    the components with a state of their own.  A routine returns the code's error number.

    What is not under src/ (the kernel, the synx framework, the firmware, the DSP, a client's
    memory) is a parameter: a class such as [Env], [BufEnv], [FenceEnv], [UserMem], [DspEnv]
    answers the [n]-th call, whatever it wants unless a theorem says otherwise, and says what
    arrives while the driver waits.  [RbTree] with [RbLaws] stands for lib/rbtree.c.  The
    operations run one after the other; what other threads and the firmware do meanwhile is
    modelled where the code has to cope with it: the firmware's writes to a shared queue
    (HfiQueue.v), a client's writes to its memory during a system call (UserMem.v, Wncc.v,
    Ioctl.v), packets that arrive while a thread waits (Session.v, Commands.v, Life.v).
    Locks, logging, tracing and the debug file system are left out everywhere.

    ** The files

    The interface to the firmware:
    - HfiQueue.v: [__write_queue] and [__read_queue] of cvp_hfi.c on a ring shared with the
      firmware.  Theorems: a sequence of operations is a bounded FIFO; a poll is safe whatever
      the firmware does; no wake-up is lost; what a hostile index does to a write.
    - HfiTypes.v: packet types, error codes and enumerations of cvp_hfi_v2.h, cvp_hfi_api.h.
    - HfiPacket.v: hfi_packetization.c, every packet built store by store.  Theorems: packets
      are well formed, and arrive as they were built.
    - HfiDefs.v: the packet tables of msm_cvp_platform.c and the check of client packets.
      Theorems: exactly what is admitted, lookups in bounds, the rows that are overwritten.

    Sessions:
    - Driver.v: the state of the session layer and its monad.  Evolve.v and Local.v: how an
      instance may change, with the rules to show that an operation respects it.
    - Instance.v (msm_cvp_common.c): lookup, references, destruction.  HfiSession.v
      (cvp_hfi.c): the hardware layer's sessions.  Registry.v: validation, the registry's
      round trip, the last reference.
    - Response.v (hfi_response_handler.c): from a raw packet to a reply or a message.
      Reply.v: what a waiting caller is told, and the bounds of the drain.
    - Session.v (msm_cvp_common.c): waits, time-outs, errors and the state machine.
      Machine.v: a state never moves backwards, what a result means.  SysError.v: what a
      system error leaves.  Power.v (cvp_power.c): votes for clock and bandwidth.
      Scenario.v: a small concrete system, used by the examples.

    Buffers:
    - Store.v: the state monad with its triples.  Smem.v (cvp_smem.c, msm_cvp_buf.c): mappings,
      references, the cache.  Buffers.v (msm_cvp_buf.c): frames, persistent and Warp-NCC
      buffers.  BufferView.v, BufferInv.v, BufferCache.v, BufferFrames.v, BufferSafe.v: the
      accounting invariant and its preservation; SessionBuffers.v: the theorems over any
      history of operations.
    - UserMem.v: a client's memory.  Wncc.v, WnccSafe.v: out-of-band data of Warp-NCC frames.

    Commands:
    - Fences.v (msm_cvp_synx.c, msm_cvp.c): fences of a command.  Commands.v (msm_cvp.c):
      sending a packet, receiving messages, the fence threads.  Enqueue.v, FenceSafe.v,
      Populate.v, Send.v: a command is sent with all its buffers and fences or undone;
      Deliver.v: the message that is waited for is delivered.

    The client's view:
    - Ioctl.v, IoctlSafe.v (msm_cvp_ioctl.c): the argument of a system call is well formed
      whatever the client does.  Sysprop.v: properties of a session.
    - Control.v (msm_cvp.c): start, stop, the dispatch of system calls.  Life.v
      (msm_cvp_core.c): open and close.  LifeSafe.v: the invariant of the whole session layer
      over every run of clients and firmware, and that a closing session's queue is emptied;
      ControlSafe.v: the references of the fence threads.

    The DSP (msm_cvp_dsp.c):
    - Partial.v: triples for operations whose faults are the subject of other files.  Dsp.v:
      the message channel, the registry of the DSP's processes, the states of the interface
      and the memory lent to it, over the whole session layer; DspCmd.v: the commands of the
      DSP and the thread that serves them.
    - DspRegistry.v: the invariant of the registry, and the rules for taking and giving back
      references; DspSafe.v: every operation respects it.  DspRuns.v: the theorems over every
      run of the DSP, the driver and its clients.  DspMessages.v: which reply a command gets,
      what a command in an unknown format does, and that all processes are removed.

    The interface memory (cvp_hfi.c, [__interface_queues_init] and what it calls):
    - QueueMem.v: shared memory as blocks of bytes, the headers of a queue table in their
      little-endian encoding, and the view of a laid-out block as a ring of HfiQueue.v.
      QueueSetup.v: the operations that allocate, map, lay out and announce the queues.
    - QueueReady.v, QueueInit.v: the set-up always returns; when it succeeds every queue of
      the host and of the DSP is an empty ring of the expected size and type inside its
      memory, no two of them overlap, and the invariant says which regions belong to the
      driver.  QdssMap.v: the register windows of the trace unit are mapped all or none.

    The hardware (cvp_hfi.c, msm_cvp_clocks.c, target/):
    - HawiIo.v, KaanapaliIo.v, GlymurIo.v, PakalaIo.v: the register headers of the targets.
      Hw.v: registers, power domains, regulators, clocks and buses; every call to a framework
      is recorded with its answer, and what the driver owes is read off the record.
      HwRules.v: the calculus of these accounts, and a small device for the examples.
    - Hal.v: the interface of a target and its laws ([HalLaws]).  HalHawi.v, HalKaanapali.v:
      two targets and the proof that they keep them; HalGlymur.v, HalPakala.v and OldTargets.v:
      two that release a clock twice, and exactly when.
    - HwPower.v: power on and off, the boot of the firmware, suspend, resume, power collapse,
      system cache, for any target.  HwPowerRules.v, HwMain.v: a power cycle is balanced, the
      boot ends and what decides it, the outcomes of a resume, and that power is collapsed
      only while the processor is idle.
    - Bringup.v (also cvp_fw_load.c): the handles of clocks, resets, buses and system cache,
      the register windows, the firmware, and [iris_hfi_core_init] and
      [iris_hfi_core_release], over the hardware, the interface memory and the list of what is
      held.  BringupLaws.v, BringupMain.v: what is held and how the votes stand after every
      way a start or an end of the core can go.

    Platforms and probe (msm_cvp_platform.c, msm_cvp_res_parse.c, cvp.c, cvp_core_hfi.c):
    - Platform.v: the platforms and the table that selects one.  Resources.v: what is read
      from it and from the device tree, and the devices of the context banks.
      ResourceLaws.v: tables as long as their counts, rates sorted, and where reading faults.
    - Probe.v: the probe with its unwinding, removal, module init and exit, over the things
      that are held.  ProbeLaws.v, ProbeMain.v: the outcomes of a probe and of a removal.

    ** Fuel and bounds

    A loop that takes an element of a list in every round has the length of the list as fuel;
    a loop with a retry counter has the counter: 5000 looks at the status of a booting
    firmware, 150 at that of a processor going idle, 10 to 2000 in the handshakes of the
    targets.  Running out of fuel is a [Fault] where it would be wrong, and the theorems of
    totality ([total], "returns [Done]") exclude it.  The drain of the message queue has as
    many rounds as there are packets.

    ** The build that is modelled

    The one cvp_comm_def.h selects for targets other than SUN: HFI version 2, the OPP clock
    framework, no Qualcomm heap; with the DSP and FastRPC.  HFI version 1 is a value of
    [env_hfi_ver] where the code tests it at run time.

    ** Not modelled

    The debug buffer of the interface memory (CVP_SW_DBG_BUF_ENABLED is off), and its release,
    whose body this build compiles out.  Delays, and the branches of the simulation layer and
    of the virtual machine.  Loading the firmware under a hypervisor, and the client of the
    clock manager, which this build compiles out; the snapshot and debug code (cvp_dump.c, msm_cvp_debug.c, msm_cvp_sw_dbg.c); the
    allocator of the DMA heap (msm_cvp_dma_buf.c); the simulation layer (cvp_presil.c) and
    the channel to the trusted virtual machine (vm/), whose code only passes values to kernel
    interfaces or prints them. *)

From Stdlib Require Export ZArith Lia.
From stdpp Require Export base list gmap sets option.

Open Scope Z_scope.

(** * Machine integers *)

(** The C types the driver computes with.  A value of a [w]-bit type is a [Z] and every
    operation that can overflow writes out its wrap-around. *)

Definition u32 (z : Z) : Z := z mod 2 ^ 32.
Definition u64 (z : Z) : Z := z mod 2 ^ 64.

(** Conversion to a signed 32-bit [int] (two's complement). *)
Definition s32 (z : Z) : Z :=
  let r := z mod 2 ^ 32 in if r <? 2 ^ 31 then r else r - 2 ^ 32.

Definition is_u32 (z : Z) : Prop := 0 <= z < 2 ^ 32.
Definition is_u64 (z : Z) : Prop := 0 <= z < 2 ^ 64.

Definition u32_add (a b : Z) : Z := u32 (a + b).
Definition u32_sub (a b : Z) : Z := u32 (a - b).
Definition u32_mul (a b : Z) : Z := u32 (a * b).
Definition u32_shl (a n : Z) : Z := u32 (Z.shiftl a n).
Definition u32_shr (a n : Z) : Z := Z.shiftr a n.

Definition u64_add (a b : Z) : Z := u64 (a + b).
Definition u64_sub (a b : Z) : Z := u64 (a - b).

#[global] Instance is_u32_dec z : Decision (is_u32 z).
Proof. unfold is_u32. apply _. Defined.
#[global] Instance is_u64_dec z : Decision (is_u64 z).
Proof. unfold is_u64. apply _. Defined.

Create HintDb cvp discriminated.
#[export] Hint Constants Opaque : cvp.

Lemma u32_range z : is_u32 (u32 z).
Proof. unfold is_u32, u32. apply Z.mod_pos_bound. lia. Qed.

Lemma u64_range z : is_u64 (u64 z).
Proof. unfold is_u64, u64. apply Z.mod_pos_bound. lia. Qed.

Lemma u32_small z : is_u32 z → u32 z = z.
Proof. unfold is_u32, u32. intros. by apply Z.mod_small. Qed.

Lemma u64_small z : is_u64 z → u64 z = z.
Proof. unfold is_u64, u64. intros. by apply Z.mod_small. Qed.

Lemma u32_idemp z : u32 (u32 z) = u32 z.
Proof. apply u32_small, u32_range. Qed.

Lemma u32_add_small a b : is_u32 (a + b) → u32_add a b = a + b.
Proof. apply u32_small. Qed.

Lemma u32_sub_small a b : is_u32 (a - b) → u32_sub a b = a - b.
Proof. apply u32_small. Qed.

Lemma u64_add_small a b : is_u64 (a + b) → u64_add a b = a + b.
Proof. apply u64_small. Qed.

Lemma s32_small z : 0 <= z < 2 ^ 31 → s32 z = z.
Proof.
  intros H. unfold s32. rewrite Z.mod_small by lia.
  by rewrite (proj2 (Z.ltb_lt _ _)) by lia.
Qed.

(** Shifting by two is the conversion between byte counts and 32-bit word counts. *)
Lemma shl2_mul z : Z.shiftl z 2 = 4 * z.
Proof. rewrite Z.shiftl_mul_pow2 by lia. lia. Qed.

Lemma shr2_div z : Z.shiftr z 2 = z / 4.
Proof. rewrite Z.shiftr_div_pow2 by lia. done. Qed.

(** Byte offset of a word index, computed in 32 bits: the index is reduced modulo 2^30. *)
Lemma u32_shl2_words z : u32_shl z 2 / 4 = z mod 2 ^ 30.
Proof.
  unfold u32_shl, u32. rewrite shl2_mul.
  replace (2 ^ 32) with (4 * 2 ^ 30) by lia.
  rewrite Z.mul_mod_distr_l by lia.
  by rewrite Z.mul_comm, Z.div_mul by lia.
Qed.

#[export] Hint Resolve u32_range u64_range : cvp.

(** * Error numbers *)

(** [linux/errno.h]: a function that fails returns the negated number. *)
Definition ENOENT : Z := 2.
Definition E2BIG : Z := 7.
Definition EAGAIN : Z := 11.
Definition ENOMEM : Z := 12.
Definition EFAULT : Z := 14.
Definition EBUSY : Z := 16.
Definition EEXIST : Z := 17.
Definition ENODEV : Z := 19.
Definition EINVAL : Z := 22.
Definition ENOSPC : Z := 28.
Definition ENOTEMPTY : Z := 39.
Definition ENODATA : Z := 61.
Definition EIO : Z := 5.
Definition EPERM : Z := 1.
Definition EBADHANDLE : Z := 521.
Definition ENOTSUPP : Z := 524.
Definition ECONNRESET : Z := 104.
Definition ETIMEDOUT : Z := 110.

(** * Outcomes of code that touches memory *)

(** [Fault] stands for an access outside the object it is made in, which C leaves
    undefined; a theorem that a routine never yields [Fault] is memory safety. *)
Inductive outcome (A : Type) : Type :=
| Done (a : A)
| Fault.
Arguments Done {A} a.
Arguments Fault {A}.

Definition obind {A B} (f : A → outcome B) (o : outcome A) : outcome B :=
  match o with Done a => f a | Fault => Fault end.

Declare Scope cvp_scope.
Delimit Scope cvp_scope with cvp.
Notation "'let!' x := c 'in' k" := (obind (fun x => k) c)
  (at level 10, x pattern, c at level 100, k at level 200) : cvp_scope.
Open Scope cvp_scope.

(** * Word memory *)

(** [n] words of [m] from word [off] on ([memcpy] from [m]). *)
Definition words_read (m : list Z) (off n : Z) : outcome (list Z) :=
  if (0 <=? off) && (0 <=? n) && (off + n <=? Z.of_nat (length m))
  then Done (take (Z.to_nat n) (drop (Z.to_nat off) m))
  else Fault.

(** [m] with [data] stored from word [off] on ([memcpy] into [m]). *)
Definition words_write (m : list Z) (off : Z) (data : list Z) : outcome (list Z) :=
  if (0 <=? off) && (off + Z.of_nat (length data) <=? Z.of_nat (length m))
  then Done (take (Z.to_nat off) m ++ data ++
             drop (Z.to_nat off + length data) m)
  else Fault.

(** One word ([*ptr]). *)
Definition word_at (m : list Z) (off : Z) : outcome Z :=
  if 0 <=? off then
    match m !! Z.to_nat off with Some w => Done w | None => Fault end
  else Fault.

Lemma words_read_ok m off n :
  0 <= off → 0 <= n → off + n <= Z.of_nat (length m) →
  words_read m off n = Done (take (Z.to_nat n) (drop (Z.to_nat off) m)).
Proof.
  intros. unfold words_read.
  by rewrite !(proj2 (Z.leb_le _ _)) by lia.
Qed.

Lemma words_write_ok m off data :
  0 <= off → off + Z.of_nat (length data) <= Z.of_nat (length m) →
  words_write m off data =
    Done (take (Z.to_nat off) m ++ data ++ drop (Z.to_nat off + length data) m).
Proof.
  intros. unfold words_write.
  by rewrite !(proj2 (Z.leb_le _ _)) by lia.
Qed.

Lemma word_at_ok m off :
  0 <= off < Z.of_nat (length m) →
  word_at m off = Done (m !!! Z.to_nat off).
Proof.
  intros. unfold word_at. rewrite (proj2 (Z.leb_le _ _)) by lia.
  destruct (lookup_lt_is_Some_2 m (Z.to_nat off)) as [w Hw]; [lia|].
  by rewrite (list_lookup_total_correct _ _ _ Hw), Hw.
Qed.

Lemma length_words_read m off n l :
  words_read m off n = Done l → length l = Z.to_nat n.
Proof.
  unfold words_read. case_match eqn:E; [|done]. intros [= <-].
  rewrite !andb_true_iff, !Z.leb_le in E. rewrite length_take, length_drop. lia.
Qed.

Lemma length_words_write m off data m' :
  words_write m off data = Done m' → length m' = length m.
Proof.
  unfold words_write. case_match eqn:E; [|done]. intros [= <-].
  rewrite !andb_true_iff, !Z.leb_le in E.
  rewrite !length_app, length_take, length_drop. lia.
Qed.

Lemma words_write_before pkt off d pkt' j :
  words_write pkt off d = Done pkt' → j < off → word_at pkt' j = word_at pkt j.
Proof.
  intros E Hj. unfold words_write in E. case_match eqn:Eb; [|done]. injection E as <-.
  apply andb_true_iff in Eb as [Ho%Z.leb_le Hl%Z.leb_le]. unfold word_at.
  destruct (0 <=? j) eqn:E0; [|done]. apply Z.leb_le in E0.
  rewrite lookup_app_l by (rewrite length_take; lia). by rewrite lookup_take_lt by lia.
Qed.

Lemma words_write_after pkt off d pkt' j :
  words_write pkt off d = Done pkt' → off + Z.of_nat (length d) <= j →
  word_at pkt' j = word_at pkt j.
Proof.
  intros E Hj. unfold words_write in E. case_match eqn:Eb; [|done]. injection E as <-.
  apply andb_true_iff in Eb as [Ho%Z.leb_le Hl%Z.leb_le]. unfold word_at.
  rewrite (proj2 (Z.leb_le 0 j)) by lia.
  rewrite lookup_app_r by (rewrite length_take; lia).
  rewrite lookup_app_r by (rewrite length_take; lia).
  rewrite lookup_drop, length_take.
  replace (Z.to_nat off + length d + (Z.to_nat j - (Z.to_nat off `min` length pkt) - length d))%nat
    with (Z.to_nat j) by lia. done.
Qed.

Lemma words_write_at pkt off v pkt' :
  words_write pkt off [v] = Done pkt' → word_at pkt' off = Done v.
Proof.
  intros E. unfold words_write in E. case_match eqn:Eb; [|done]. injection E as <-.
  apply andb_true_iff in Eb as [Ho Hl%Z.leb_le]. unfold word_at. rewrite Ho.
  cbn [length] in Hl. apply Z.leb_le in Ho.
  rewrite lookup_app_r by (rewrite length_take; lia).
  rewrite length_take. replace (_ - _)%nat with 0%nat by lia. done.
Qed.

(** * Automation *)

(** Turns boolean comparisons of [Z] in hypotheses into propositions. *)
Ltac zify_bool :=
  repeat match goal with
  | H : _ && _ = true |- _ => apply andb_true_iff in H; destruct H
  | H : _ || _ = false |- _ => apply orb_false_iff in H; destruct H
  | H : negb _ = true |- _ => apply negb_true_iff in H
  | H : negb _ = false |- _ => apply negb_false_iff in H
  | H : (_ <=? _) = true |- _ => apply Z.leb_le in H
  | H : (_ <=? _) = false |- _ => apply Z.leb_gt in H
  | H : (_ <? _) = true |- _ => apply Z.ltb_lt in H
  | H : (_ <? _) = false |- _ => apply Z.ltb_ge in H
  | H : (_ >=? _) = _ |- _ => rewrite Z.geb_leb in H
  | H : (_ >? _) = _ |- _ => rewrite Z.gtb_ltb in H
  | H : (_ =? _) = true |- _ => apply Z.eqb_eq in H
  | H : (_ =? _) = false |- _ => apply Z.eqb_neq in H
  end.

(** Case analysis on every [if]/[match] of the goal, with the comparisons decoded. *)
Ltac cases :=
  repeat (case_match; zify_bool; simplify_eq/=; try done).

(** Arithmetic on the lengths of list expressions. *)
Ltac list_len :=
  repeat rewrite ?length_app, ?length_take, ?length_drop, ?length_replicate in *;
  simpl length in *; lia.

(** Normalises [take]/[drop] of appended lists; the side conditions are length goals. *)
Ltac list_simp :=
  repeat match goal with
  | |- context [take 0 ?l] => rewrite (take_0 l)
  | |- context [drop 0 ?l] => rewrite (drop_0 l)
  | |- context [take ?n (?l ++ ?k)] =>
      first [ rewrite (take_app_le l k n) by list_len
            | rewrite (take_app_ge l k n) by list_len ]
  | |- context [drop ?n (?l ++ ?k)] =>
      first [ rewrite (drop_app_le l k n) by list_len
            | rewrite (drop_app_ge l k n) by list_len ]
  | |- context [drop ?n (take ?m ?l)] => rewrite (skipn_firstn_comm n m l)
  | |- context [take ?n ?l] => rewrite (take_ge l n) by list_len
  | |- context [drop ?n ?l] => rewrite (drop_ge l n) by list_len
  | |- context [drop ?n (drop ?m ?l)] => rewrite (drop_drop l n m)
  | |- context [take ?n (take ?m ?l)] => rewrite (take_take l n m)
  | |- context [[] ++ ?l] => rewrite (app_nil_l l)
  | |- context [?l ++ []] => rewrite (app_nil_r l)
  end.

(** Closes equalities of list expressions that agree up to arithmetic. *)
Ltac list_congr := repeat first [ reflexivity | list_len | progress f_equal ].

Lemma drop_drop_take (A : Type) (l : list A) n m :
  (n <= m)%nat → take (m - n) (drop n l) ++ drop m l = drop n l.
Proof.
  intros H. transitivity (take (m - n) (drop n l) ++ drop (m - n) (drop n l)).
  - f_equal. rewrite drop_drop. f_equal. lia.
  - apply take_drop.
Qed.

(** * Record update

    [r <| f := v |>] is [r] with field [f] replaced.  A record type opts in by an [Eta]
    instance that rebuilds a record from its fields; the setter is read off it. *)
Class Eta (R : Type) := eta : R → R.

Class Setter {R E : Type} (f : R → E) := put_field : (E → E) → R → R.

Ltac field_setter R f :=
  let e := constr:(_ : Eta R) in
  let h := match e with ?h => h end in
  exact (λ g (r : R), ltac:(
    let b := eval cbv beta delta [h] in (h r) in
    match b with context C [f r] => let b' := context C [g (f r)] in exact b' end)).

#[export] Hint Extern 1 (@Setter ?R _ ?f) => field_setter R f : typeclass_instances.

Definition put_field_to {R E} (f : R → E) `{s : !Setter f} (g : E → E) : R → R := s g.

Notation "r <| f := v |>" := (put_field_to f (λ _, v) r)
  (at level 12, f at next level, v at level 99, left associativity).
Notation "r <| f ::= g |>" := (put_field_to f g r)
  (at level 12, f at next level, g at level 99, left associativity).

(** * Objects by address

    A kernel list of objects is an association list from addresses, in list order. *)
Section objects.
Context {A : Type}.

Fixpoint obj_find (p : Z) (l : list (Z * A)) : option A :=
  match l with
  | [] => None
  | (q, a) :: l' => if p =? q then Some a else obj_find p l'
  end.

Fixpoint obj_alter (f : A → A) (p : Z) (l : list (Z * A)) : list (Z * A) :=
  match l with
  | [] => []
  | (q, a) :: l' => if p =? q then (q, f a) :: l' else (q, a) :: obj_alter f p l'
  end.

Fixpoint obj_del (p : Z) (l : list (Z * A)) : list (Z * A) :=
  match l with
  | [] => []
  | (q, a) :: l' => if p =? q then obj_del p l' else (q, a) :: obj_del p l'
  end.

Lemma obj_find_alter f p q l :
  obj_find q (obj_alter f p l) =
  if q =? p then f <$> obj_find p l else obj_find q l.
Proof.
  induction l as [|[r a] l IH]; cbn [obj_find obj_alter]; [by destruct (q =? p)|].
  destruct (Z.eqb_spec p r) as [->|Hp]; cbn [obj_find].
  - by destruct (q =? r) eqn:E; rewrite ?E.
  - rewrite IH. destruct (Z.eqb_spec q r) as [->|]; [|done].
    by rewrite (proj2 (Z.eqb_neq r p)) by congruence.
Qed.

Lemma obj_alter_ext f g p l :
  (∀ a, obj_find p l = Some a → f a = g a) → obj_alter f p l = obj_alter g p l.
Proof.
  induction l as [|[q a] l IH]; [done|]. cbn [obj_find obj_alter]. intros Hfg.
  destruct (p =? q); [by rewrite Hfg|]. by rewrite IH.
Qed.

Lemma obj_alter_comp f g p l : obj_alter f p (obj_alter g p l) = obj_alter (λ a, f (g a)) p l.
Proof.
  induction l as [|[q a] l IH]; [done|]. cbn [obj_alter].
  destruct (p =? q) eqn:E; cbn [obj_alter]; rewrite E; [done|]. by rewrite IH.
Qed.

Lemma obj_alter_id p l : obj_alter (λ a, a) p l = l.
Proof.
  induction l as [|[q a] l IH]; [done|]. cbn [obj_alter]. destruct (p =? q); [done|].
  by rewrite IH.
Qed.

Lemma obj_alter_dom f p l : (obj_alter f p l).*1 = l.*1.
Proof.
  induction l as [|[r a] l IH]; [done|]. cbn [obj_alter].
  destruct (p =? r); [done|]. rewrite !fmap_cons. by rewrite IH.
Qed.

Lemma obj_find_del p q l :
  obj_find q (obj_del p l) = if q =? p then None else obj_find q l.
Proof.
  induction l as [|[r a] l IH]; cbn [obj_find obj_del]; [by destruct (q =? p)|].
  destruct (Z.eqb_spec p r) as [->|Hp]; cbn [obj_find]; rewrite IH.
  - by destruct (q =? r).
  - destruct (Z.eqb_spec q r) as [->|]; [|done].
    by rewrite (proj2 (Z.eqb_neq r p)) by congruence.
Qed.

Lemma obj_find_app p l l' :
  obj_find p (l ++ l') = match obj_find p l with Some a => Some a | None => obj_find p l' end.
Proof. induction l as [|[q a] l IH]; cbn; [done|]. by destruct (p =? q). Qed.

Lemma obj_del_sublist p l : (obj_del p l).*1 `sublist_of` l.*1.
Proof.
  induction l as [|[q a] l IH]; cbn; [done|].
  destruct (p =? q); [by apply sublist_cons|by apply sublist_skip].
Qed.

Lemma obj_del_alter f p l : obj_del p (obj_alter f p l) = obj_del p l.
Proof.
  induction l as [|[q a] l IH]; cbn; [done|].
  destruct (p =? q) eqn:E; cbn; rewrite E; [done|by rewrite IH].
Qed.

Lemma obj_find_elem p a l : obj_find p l = Some a → (p, a) ∈ l.
Proof.
  induction l as [|[r b] l IH]; cbn [obj_find]; [done|].
  destruct (Z.eqb_spec p r) as [->|]; [intros [= ->]; by left|right; auto].
Qed.

Lemma obj_find_none p l : obj_find p l = None ↔ p ∉ l.*1.
Proof.
  induction l as [|[r b] l IH]; cbn [obj_find]; [by split; [intros _; apply not_elem_of_nil|]|].
  rewrite fmap_cons, not_elem_of_cons. cbn [fst].
  destruct (Z.eqb_spec p r) as [->|]; [split; [done|naive_solver]|]. rewrite IH. naive_solver.
Qed.

End objects.
