(* ===== verification/HfiQueue.v ===== *)
(** The shared HFI ring queues (src/msm/eva/cvp_hfi.c, [__write_queue] and [__read_queue];
    structures and sizes from src/msm/eva/cvp_core_hfi.h).

    A queue is a header shared with the firmware and an array of 32-bit words shared with
    the firmware.  [Queue] translates the two routines with the C arithmetic at its width,
    the memory accesses checked ([Fault]), and the firmware's concurrent writes as explicit
    interference at the points where the routine fetches shared data again. *)

From S2P Require Import Prelude.

(** * Data *)

Definition CVP_IFACEQ_MAX_PKT_SIZE : Z := 1024.
Definition CVP_IFACEQ_VAR_HUGE_PKT_SIZE : Z := 1024 * 12.
Definition CVP_IFACEQ_MAX_BUF_COUNT : Z := 50.
Definition CVP_IFACE_MAX_PARALLEL_CLNTS : Z := 16.
Definition CVP_IFACEQ_QUEUE_SIZE : Z :=
  CVP_IFACEQ_MAX_PKT_SIZE * CVP_IFACEQ_MAX_BUF_COUNT * CVP_IFACE_MAX_PARALLEL_CLNTS.
Definition CVP_IFACEQ_DFLT_QHDR : Z := 0x01010000.
Definition HFI_Q_ID_HOST_TO_CTRL_CMD_Q : Z := 0x00.
Definition HFI_Q_ID_CTRL_TO_HOST_MSG_Q : Z := 0x01.
Definition HFI_Q_ID_CTRL_TO_HOST_DEBUG_Q : Z := 0x02.

(** [struct cvp_hfi_queue_header]. *)
Record cvp_hfi_queue_header := mkQhdr {
  qhdr_status : Z;
  qhdr_start_addr : Z;
  qhdr_type : Z;
  qhdr_q_size : Z;
  qhdr_pkt_size : Z;
  qhdr_pkt_drop_cnt : Z;
  qhdr_rx_wm : Z;
  qhdr_tx_wm : Z;
  qhdr_rx_req : Z;
  qhdr_tx_req : Z;
  qhdr_rx_irq_status : Z;
  qhdr_tx_irq_status : Z;
  qhdr_read_idx : Z;
  qhdr_write_idx : Z
}.

Definition set_rx_req (v : Z) (h : cvp_hfi_queue_header) : cvp_hfi_queue_header :=
  mkQhdr (qhdr_status h) (qhdr_start_addr h) (qhdr_type h) (qhdr_q_size h)
    (qhdr_pkt_size h) (qhdr_pkt_drop_cnt h) (qhdr_rx_wm h) (qhdr_tx_wm h)
    v (qhdr_tx_req h) (qhdr_rx_irq_status h) (qhdr_tx_irq_status h)
    (qhdr_read_idx h) (qhdr_write_idx h).
Definition set_tx_req (v : Z) (h : cvp_hfi_queue_header) : cvp_hfi_queue_header :=
  mkQhdr (qhdr_status h) (qhdr_start_addr h) (qhdr_type h) (qhdr_q_size h)
    (qhdr_pkt_size h) (qhdr_pkt_drop_cnt h) (qhdr_rx_wm h) (qhdr_tx_wm h)
    (qhdr_rx_req h) v (qhdr_rx_irq_status h) (qhdr_tx_irq_status h)
    (qhdr_read_idx h) (qhdr_write_idx h).
Definition set_read_idx (v : Z) (h : cvp_hfi_queue_header) : cvp_hfi_queue_header :=
  mkQhdr (qhdr_status h) (qhdr_start_addr h) (qhdr_type h) (qhdr_q_size h)
    (qhdr_pkt_size h) (qhdr_pkt_drop_cnt h) (qhdr_rx_wm h) (qhdr_tx_wm h)
    (qhdr_rx_req h) (qhdr_tx_req h) (qhdr_rx_irq_status h) (qhdr_tx_irq_status h)
    v (qhdr_write_idx h).
Definition set_write_idx (v : Z) (h : cvp_hfi_queue_header) : cvp_hfi_queue_header :=
  mkQhdr (qhdr_status h) (qhdr_start_addr h) (qhdr_type h) (qhdr_q_size h)
    (qhdr_pkt_size h) (qhdr_pkt_drop_cnt h) (qhdr_rx_wm h) (qhdr_tx_wm h)
    (qhdr_rx_req h) (qhdr_tx_req h) (qhdr_rx_irq_status h) (qhdr_tx_irq_status h)
    (qhdr_read_idx h) v.

(** The memory host and firmware share: the header and the words of the ring. *)
Record qshared := mkShared { sh_hdr : cvp_hfi_queue_header; sh_mem : list Z }.

Definition upd_hdr (f : cvp_hfi_queue_header → cvp_hfi_queue_header) (s : qshared)
  : qshared := mkShared (f (sh_hdr s)) (sh_mem s).
Definition set_mem (m : list Z) (s : qshared) : qshared := mkShared (sh_hdr s) m.

(** [struct cvp_iface_q_info] with its [struct cvp_mem_addr]: the header pointer and the
    ring's virtual address may be NULL; [mem_size] is in bytes and is private to the host. *)
Record cvp_iface_q_info := mkQinfo {
  q_hdr_present : bool;
  align_virtual_addr_present : bool;
  align_device_addr : Z;
  mem_size : Z;
  q_shared : qshared
}.

Definition set_shared (s : qshared) (q : cvp_iface_q_info) : cvp_iface_q_info :=
  mkQinfo (q_hdr_present q) (align_virtual_addr_present q) (align_device_addr q)
    (mem_size q) s.

(** Result of [__write_queue]: the return code, the caller's [*rx_req_is_set] cell (when
    the pointer is not NULL) and the queue. *)
Record write_result := mkWres {
  w_rc : Z; w_rx_req_is_set : option bool; w_q : option cvp_iface_q_info }.

(** Result of [__read_queue]: return code, packet buffer, [*pb_tx_req_is_set], queue. *)
Record read_result := mkRres {
  r_rc : Z; r_packet : option (list Z); r_tx_req_is_set : option Z;
  r_q : option cvp_iface_q_info }.

(** The points at which the firmware's writes to shared memory can become visible between
    two fetches the routine makes. *)
Inductive fw_point :=
| FW_rx_req          (** write: before [qhdr_rx_req] is read *)
| FW_recheck         (** read: before [qhdr_write_idx] is read again on an empty queue *)
| FW_size            (** read: between the two fetches of [*read_ptr] *)
| FW_copy            (** read: before the packet is copied out *)
| FW_update          (** read: before [qhdr_write_idx] is compared with the new index *)
| FW_tx_req.         (** read: before [qhdr_tx_req] is read *)

Definition interference := fw_point → qshared → qshared.
Definition no_interference : interference := λ _ s, s.

(** Firmware may write anything but cannot resize the ring. *)
Definition fw_ok (fw : interference) : Prop :=
  ∀ p s, length (sh_mem (fw p s)) = length (sh_mem s).

(** * Operations *)
Module Queue.

(** [__set_queue_hdr_defaults]: [qhdr_start_addr] and [qhdr_pkt_drop_cnt] are kept. *)
Definition __set_queue_hdr_defaults (h : cvp_hfi_queue_header) : cvp_hfi_queue_header :=
  mkQhdr 0x1 (qhdr_start_addr h) CVP_IFACEQ_DFLT_QHDR (CVP_IFACEQ_QUEUE_SIZE / 4)
    0 (qhdr_pkt_drop_cnt h) 0x1 0x1 0x1 0x0 0x0 0x0 0x0 0x0.

Definition queue_words (q : cvp_iface_q_info) : Z := u32_shr (mem_size q) 2.

(** Free words as the writer computes them. *)
Definition empty_space (q : cvp_iface_q_info) (read_idx write_idx : Z) : Z :=
  if write_idx >=? read_idx
  then u32_sub (queue_words q) (u32_sub write_idx read_idx)
  else u32_sub read_idx write_idx.

(** The two [memcpy] calls of [__write_queue]; [off] is the word [write_ptr] points to. *)
Definition copy_in (q : cvp_iface_q_info) (m packet : list Z) (off words new_idx : Z)
  : outcome (list Z * Z) :=
  if new_idx <? queue_words q then
    let! d := words_read packet 0 (u32_shl words 2 / 4) in
    let! m' := words_write m off d in
    Done (m', new_idx)
  else
    let new_idx := u32_sub new_idx (queue_words q) in
    let first := u32_sub words new_idx in
    let! d1 := words_read packet 0 (u32_shl first 2 / 4) in
    let! m1 := words_write m off d1 in
    let! d2 := words_read packet (u32_shl first 2 / 4) (u32_shl new_idx 2 / 4) in
    let! m2 := words_write m1 0 d2 in
    Done (m2, new_idx).

Definition __write_queue (fw : interference) (qinfo : option cvp_iface_q_info)
    (packet : option (list Z)) (rx_req_is_set : option bool) : outcome write_result :=
  match qinfo, packet with
  | Some q, Some pkt =>
    if negb (align_virtual_addr_present q) then Done (mkWres (- EINVAL) rx_req_is_set (Some q))
    else if negb (q_hdr_present q) then Done (mkWres (- ENOENT) rx_req_is_set (Some q))
    else
      let! size := word_at pkt 0 in
      let packet_size_in_words := u32_shr size 2 in
      if (packet_size_in_words =? 0) || (packet_size_in_words >? queue_words q)
      then Done (mkWres (- ENODATA) rx_req_is_set (Some q))
      else
        let sh := q_shared q in
        let read_idx := qhdr_read_idx (sh_hdr sh) in
        let write_idx := qhdr_write_idx (sh_hdr sh) in
        if empty_space q read_idx write_idx <=? packet_size_in_words then
          Done (mkWres (- ENOTEMPTY) rx_req_is_set
                  (Some (set_shared (upd_hdr (set_tx_req 1) sh) q)))
        else
          let sh := upd_hdr (set_tx_req 0) sh in
          let new_write_idx := u32_add write_idx packet_size_in_words in
          let off := u32_shl write_idx 2 in
          if off >? mem_size q then Done (mkWres (- ENODATA) rx_req_is_set (Some (set_shared sh q)))
          else
            let! r := copy_in q (sh_mem sh) pkt (off / 4) packet_size_in_words
                        new_write_idx in
            let '(m, new_write_idx) := r in
            let sh := upd_hdr (set_write_idx new_write_idx) (set_mem m sh) in
            let sh := fw FW_rx_req sh in
            let rx := match rx_req_is_set with
                      | None => None
                      | Some _ => Some (qhdr_rx_req (sh_hdr sh) =? 1)
                      end in
            Done (mkWres 0 rx (Some (set_shared sh q)))
  | _, _ => Done (mkWres (- EINVAL) rx_req_is_set qinfo)
  end.

(** The [memcpy] calls of [__read_queue] into the caller's buffer [packet]; [off] is the
    word [read_ptr] points to. *)
Definition copy_out (q : cvp_iface_q_info) (m packet : list Z) (off words new_idx : Z)
  : outcome (list Z * Z) :=
  if new_idx <? queue_words q then
    let! d := words_read m off (u32_shl words 2 / 4) in
    let! p := words_write packet 0 d in
    Done (p, new_idx)
  else
    let new_idx := u32_sub new_idx (queue_words q) in
    let first := u32_sub words new_idx in
    let! d1 := words_read m off (u32_shl first 2 / 4) in
    let! p1 := words_write packet 0 d1 in
    let! d2 := words_read m 0 (u32_shl new_idx 2 / 4) in
    let! p2 := words_write p1 (u32_shl first 2 / 4) d2 in
    Done (p2, new_idx).

(** From the computation of [read_ptr] to the end of [__read_queue]. *)
Definition read_packet (fw : interference) (q : cvp_iface_q_info) (sh : qshared)
    (pkt : list Z) (pb receive_request read_idx write_idx : Z) : outcome read_result :=
  let off := u32_shl read_idx 2 in
  if off >? mem_size q - 4
  then Done (mkRres (- ENODATA) (Some pkt) (Some pb) (Some (set_shared sh q)))
  else
    let! w := word_at (sh_mem sh) (off / 4) in
    let packet_size_in_words := u32_shr w 2 in
    let sh := fw FW_size sh in
    let! packet_size_in_bytes := word_at (sh_mem sh) (off / 4) in
    if packet_size_in_words =? 0
    then Done (mkRres (- ENODATA) (Some pkt) (Some pb) (Some (set_shared sh q)))
    else
      let new_read_idx := u32_add read_idx packet_size_in_words in
      let! r :=
        (if (u32_shl packet_size_in_words 2 <=? CVP_IFACEQ_VAR_HUGE_PKT_SIZE)
            && (read_idx <=? queue_words q) then
           let sh := fw FW_copy sh in
           let! c := copy_out q (sh_mem sh) pkt (off / 4) packet_size_in_words
                       new_read_idx in
           let '(p, new_read_idx) := c in
           let! p := words_write p 0 [packet_size_in_bytes] in
           Done (0, p, new_read_idx, sh)
         else Done (- ENODATA, pkt, write_idx, sh)) in
      let '(rc, p, new_read_idx, sh) := r in
      let sh := fw FW_update sh in
      let sh := upd_hdr (set_rx_req
                  (if negb (new_read_idx =? qhdr_write_idx (sh_hdr sh)) then 0
                   else receive_request)) sh in
      let sh := upd_hdr (set_read_idx new_read_idx) sh in
      let sh := fw FW_tx_req sh in
      let pb := if qhdr_tx_req (sh_hdr sh) =? 1 then 1 else 0 in
      Done (mkRres rc (Some p) (Some pb) (Some (set_shared sh q))).

Definition __read_queue (fw : interference) (qinfo : option cvp_iface_q_info)
    (packet : option (list Z)) (pb_tx_req_is_set : option Z) : outcome read_result :=
  match qinfo, packet, pb_tx_req_is_set with
  | Some q, Some pkt, Some pb =>
    if negb (align_virtual_addr_present q)
    then Done (mkRres (- EINVAL) packet pb_tx_req_is_set qinfo)
    else if negb (q_hdr_present q)
    then Done (mkRres (- ENOMEM) packet pb_tx_req_is_set qinfo)
    else
      let sh := q_shared q in
      let receive_request :=
        if Z.land (qhdr_type (sh_hdr sh)) HFI_Q_ID_CTRL_TO_HOST_MSG_Q =? 0
        then 0 else 1 in
      let read_idx := qhdr_read_idx (sh_hdr sh) in
      let write_idx := qhdr_write_idx (sh_hdr sh) in
      if read_idx =? write_idx then
        let sh := fw FW_recheck (upd_hdr (set_rx_req receive_request) sh) in
        if negb (write_idx =? qhdr_write_idx (sh_hdr sh)) then
          read_packet fw q (upd_hdr (set_rx_req 0) sh) pkt 0 receive_request
            read_idx write_idx
        else Done (mkRres (- ENODATA) packet (Some 0) (Some (set_shared sh q)))
      else read_packet fw q sh pkt pb receive_request read_idx write_idx
  | _, _, _ => Done (mkRres (- EINVAL) packet pb_tx_req_is_set qinfo)
  end.

(** * The ring as a sequence of words *)

(** Words between the read and the write index. *)
Definition ring_contents (m : list Z) (r w : nat) : list Z :=
  if (r <=? w)%nat then take (w - r) (drop r m) else drop r m ++ take w m.

(** [r] advanced by [n] around a ring of [Q] words. *)
Definition ring_next (Q r n : nat) : nat := if (r + n <? Q)%nat then r + n else r + n - Q.

(** What [copy_in] stores and what [copy_out] fetches, as list operations. *)
Definition ring_put (m : list Z) (w : nat) (d : list Z) : list Z :=
  if (w + length d <? length m)%nat
  then take w m ++ d ++ drop (w + length d) m
  else let k := (w + length d - length m)%nat in
       drop (length d - k) d ++ drop k (take w m) ++ take (length d - k) d.

Definition ring_get (m : list Z) (r n : nat) : list Z :=
  if (r + n <? length m)%nat then take n (drop r m)
  else drop r m ++ take (r + n - length m) m.

Definition contents (q : cvp_iface_q_info) : list Z :=
  ring_contents (sh_mem (q_shared q))
    (Z.to_nat (qhdr_read_idx (sh_hdr (q_shared q))))
    (Z.to_nat (qhdr_write_idx (sh_hdr (q_shared q)))).

(** A packet as both sides use it: its first word is its size in bytes, it is not empty
    and no longer than the largest packet. *)
Definition packet_ok (p : list Z) : bool :=
  match p with
  | [] => false
  | size :: _ =>
      (0 <=? size) && (Z.shiftr size 2 =? Z.of_nat (length p))
      && (4 * Z.of_nat (length p) <=? CVP_IFACEQ_VAR_HUGE_PKT_SIZE)
  end.

(** The ring as set up by [__interface_queues_init]: buffers present, [mem_size] bytes of
    words, room for the largest packet. *)
Record queue_mem_ok (q : cvp_iface_q_info) : Prop := {
  qm_hdr : q_hdr_present q = true;
  qm_addr : align_virtual_addr_present q = true;
  qm_size : is_u32 (mem_size q);
  qm_aligned : mem_size q mod 4 = 0;
  qm_length : Z.of_nat (length (sh_mem (q_shared q))) = queue_words q;
  qm_huge : CVP_IFACEQ_VAR_HUGE_PKT_SIZE / 4 <= queue_words q
}.

(** Both indices inside the ring. *)
Record queue_ok (q : cvp_iface_q_info) : Prop := {
  qo_mem : queue_mem_ok q;
  qo_read : 0 <= qhdr_read_idx (sh_hdr (q_shared q)) < queue_words q;
  qo_write : 0 <= qhdr_write_idx (sh_hdr (q_shared q)) < queue_words q
}.

(** [q] holds the packets [ps], oldest first. *)
Definition holds (q : cvp_iface_q_info) (ps : list (list Z)) : Prop :=
  queue_ok q ∧ contents q = concat ps ∧ Forall (λ p, packet_ok p = true) ps.


Lemma length_ring_put m w d :
  (w < length m)%nat → (length d <= length m)%nat →
  length (ring_put m w d) = length m.
Proof.
  intros. unfold ring_put. case_match eqn:E.
  - apply Nat.ltb_lt in E. list_len.
  - apply Nat.ltb_ge in E. list_len.
Qed.

Lemma length_ring_contents m r w :
  (r < length m)%nat → (w < length m)%nat →
  length (ring_contents m r w) = (if (r <=? w)%nat then w - r else length m - r + w)%nat.
Proof.
  intros. unfold ring_contents. case_match eqn:E.
  - apply Nat.leb_le in E. list_len.
  - list_len.
Qed.
Lemma ring_put_contents m r w d :
  (r < length m)%nat → (w < length m)%nat →
  (length (ring_contents m r w) + length d < length m)%nat →
  ring_contents (ring_put m w d) r (ring_next (length m) w (length d))
  = ring_contents m r w ++ d.
Proof.
  intros Hr Hw. rewrite length_ring_contents by done.
  unfold ring_put, ring_next, ring_contents.
  destruct (r <=? w)%nat eqn:E1; [apply Nat.leb_le in E1 | apply Nat.leb_gt in E1];
    intros Hn.
  - destruct (w + length d <? length m)%nat eqn:E2;
      [apply Nat.ltb_lt in E2 | apply Nat.ltb_ge in E2].
    + rewrite (proj2 (Nat.leb_le _ _)) by lia. list_simp.
      done.
    + rewrite (proj2 (Nat.leb_gt _ _)) by lia. list_simp.
      match goal with |- context [drop ?a m] => replace a with r by list_len end.
      rewrite <- app_assoc, take_drop, length_drop. f_equal. f_equal. lia.
  - rewrite (proj2 (Nat.ltb_lt (w + length d) (length m))) by lia.
    rewrite (proj2 (Nat.leb_gt _ _)) by lia. list_simp.
    rewrite <- app_assoc. f_equal. f_equal. list_len.
Qed.

(** Reading [n] words at the read index takes the first [n] words of the contents. *)
Lemma ring_get_contents m r w n :
  (r < length m)%nat → (w < length m)%nat →
  (n <= length (ring_contents m r w))%nat →
  ring_get m r n = take n (ring_contents m r w)
  ∧ ring_contents m (ring_next (length m) r n) w = drop n (ring_contents m r w).
Proof.
  intros Hr Hw. rewrite length_ring_contents by done.
  unfold ring_get, ring_next, ring_contents.
  destruct (r <=? w)%nat eqn:E1; [apply Nat.leb_le in E1 | apply Nat.leb_gt in E1];
    intros Hn.
  - rewrite (proj2 (Nat.ltb_lt _ _)) by lia. rewrite (proj2 (Nat.leb_le _ _)) by lia.
    split; list_simp; list_congr.
  - destruct (r + n <? length m)%nat eqn:E2;
      [apply Nat.ltb_lt in E2 | apply Nat.ltb_ge in E2].
    + rewrite (proj2 (Nat.leb_gt _ _)) by lia. split; list_simp; list_congr.
    + rewrite (proj2 (Nat.leb_le _ _)) by lia. split; list_simp; list_congr.
Qed.


(** ** Lemmas on the copies *)

Lemma word_range n : 0 <= n < 2 ^ 30 → u32_shl n 2 / 4 = n.
Proof. intros. rewrite u32_shl2_words. apply Z.mod_small. lia. Qed.

Lemma queue_words_bound q : queue_mem_ok q → 0 <= queue_words q < 2 ^ 30.
Proof.
  intros [_ _ Hs _ _ _]. unfold queue_words, u32_shr, is_u32 in *.
  rewrite shr2_div. split; [apply Z.div_pos; lia|]. apply Z.div_lt_upper_bound; lia.
Qed.

Lemma queue_words_mem_size q : queue_mem_ok q → mem_size q = 4 * queue_words q.
Proof.
  intros [_ _ _ Ha _ _]. unfold queue_words, u32_shr. rewrite shr2_div.
  pose proof (Z.div_mod (mem_size q) 4). lia.
Qed.

Lemma read_offset q i :
  queue_mem_ok q → is_u32 i → u32_shl i 2 <= mem_size q - 4 →
  u32_shl i 2 / 4 = i mod 2 ^ 30 ∧ 0 <= i mod 2 ^ 30 < queue_words q.
Proof.
  intros Hq Hi Hle. rewrite (queue_words_mem_size q) in Hle by done.
  rewrite <- u32_shl2_words. split; [done|]. split.
  - apply Z.div_pos; [apply u32_range|lia].
  - apply Z.div_lt_upper_bound; lia.
Qed.

(** [copy_in] is [ring_put] when the packet fits in the ring. *)
Lemma copy_in_ok q m packet w n :
  queue_mem_ok q → Z.of_nat (length m) = queue_words q →
  0 <= w < queue_words q → 0 <= n <= queue_words q →
  n <= Z.of_nat (length packet) →
  copy_in q m packet w n (w + n) =
    Done (ring_put m (Z.to_nat w) (take (Z.to_nat n) packet),
          Z.of_nat (ring_next (length m) (Z.to_nat w) (Z.to_nat n))).
Proof.
  intros Hq Hm Hw Hn Hp. pose proof (queue_words_bound q Hq) as HQ.
  unfold copy_in, ring_put, ring_next. rewrite length_take.
  destruct (Z.ltb_spec (w + n) (queue_words q)) as [Hlt|Hge].
  - rewrite !(proj2 (Nat.ltb_lt _ _)) by lia. rewrite word_range by lia.
    rewrite words_read_ok by lia. cbn [obind].
    rewrite words_write_ok by list_len. cbn [obind].
    f_equal. f_equal; [|lia]. change (Z.to_nat 0) with 0%nat. rewrite drop_0. list_congr.
  - rewrite !(proj2 (Nat.ltb_ge _ _)) by lia.
    rewrite (u32_sub_small (w + n)) by (unfold is_u32; lia).
    rewrite u32_sub_small by (unfold is_u32; lia).
    rewrite !word_range by lia.
    rewrite !words_read_ok by lia. cbn [obind].
    do 2 (rewrite words_write_ok by list_len; cbn [obind]).
    f_equal. f_equal; [|lia]. change (Z.to_nat 0) with 0%nat. list_simp. list_congr.
Qed.

Lemma copy_out_ok q m packet r n :
  queue_mem_ok q → Z.of_nat (length m) = queue_words q →
  0 <= r < queue_words q → 0 <= n <= queue_words q →
  n <= Z.of_nat (length packet) →
  copy_out q m packet r n (r + n) =
    Done (ring_get m (Z.to_nat r) (Z.to_nat n) ++ drop (Z.to_nat n) packet,
          Z.of_nat (ring_next (length m) (Z.to_nat r) (Z.to_nat n))).
Proof.
  intros Hq Hm Hr Hn Hp. pose proof (queue_words_bound q Hq) as HQ.
  unfold copy_out, ring_get, ring_next.
  destruct (Z.ltb_spec (r + n) (queue_words q)) as [Hlt|Hge].
  - rewrite !(proj2 (Nat.ltb_lt _ _)) by lia. rewrite word_range by lia.
    rewrite words_read_ok by lia. cbn [obind].
    rewrite words_write_ok by list_len. cbn [obind].
    f_equal. f_equal; [|lia]. change (Z.to_nat 0) with 0%nat. list_simp. list_congr.
  - rewrite !(proj2 (Nat.ltb_ge _ _)) by lia.
    rewrite (u32_sub_small (r + n)) by (unfold is_u32; lia).
    rewrite u32_sub_small by (unfold is_u32; lia).
    rewrite !word_range by lia.
    rewrite !words_read_ok by lia. cbn [obind].
    do 2 (rewrite words_write_ok by list_len; cbn [obind]).
    f_equal. f_equal; [|lia]. change (Z.to_nat 0) with 0%nat. list_simp. rewrite <- ?app_assoc. list_congr.
Qed.

(** ** Lemmas on the routines *)

Lemma contents_length q :
  queue_ok q →
  Z.of_nat (length (contents q)) =
    let r := qhdr_read_idx (sh_hdr (q_shared q)) in
    let w := qhdr_write_idx (sh_hdr (q_shared q)) in
    if r <=? w then w - r else queue_words q - r + w.
Proof.
  intros [Hm Hr Hw]. destruct Hm as [_ _ _ _ Hl _]. unfold contents; cbv zeta.
  rewrite length_ring_contents by lia.
  destruct (Z.leb_spec (qhdr_read_idx (sh_hdr (q_shared q)))
              (qhdr_write_idx (sh_hdr (q_shared q)))).
  - rewrite (proj2 (Nat.leb_le _ _)) by lia. lia.
  - rewrite (proj2 (Nat.leb_gt _ _)) by lia. lia.
Qed.

Lemma empty_space_ok q :
  queue_ok q →
  empty_space q (qhdr_read_idx (sh_hdr (q_shared q))) (qhdr_write_idx (sh_hdr (q_shared q)))
  = queue_words q - Z.of_nat (length (contents q)).
Proof.
  intros Hq. rewrite contents_length by done. destruct Hq as [Hm Hr Hw].
  pose proof (queue_words_bound q Hm). unfold empty_space. rewrite Z.geb_leb.
  cbv zeta. case_match; zify_bool.
  - rewrite (u32_sub_small (qhdr_write_idx _)) by (unfold is_u32; lia).
    rewrite u32_sub_small by (unfold is_u32; lia). done.
  - rewrite u32_sub_small by (unfold is_u32; lia). lia.
Qed.

Lemma packet_ok_size p :
  packet_ok p = true →
  ∃ size, word_at p 0 = Done size ∧ p !! 0%nat = Some size ∧ 0 <= size ∧
          u32_shr size 2 = Z.of_nat (length p)
          ∧ 0 < Z.of_nat (length p) <= CVP_IFACEQ_VAR_HUGE_PKT_SIZE / 4.
Proof.
  destruct p as [|size p']; [done|]. unfold packet_ok. intros H. zify_bool.
  change (CVP_IFACEQ_VAR_HUGE_PKT_SIZE / 4) with 3072.
  unfold CVP_IFACEQ_VAR_HUGE_PKT_SIZE in *.
  exists size. split_and!; try done; simpl length in *; lia.
Qed.

(** The words of the packet in a receive buffer, by the size in its first word. *)
Definition packet_of (buf : list Z) : list Z :=
  take (Z.to_nat (u32_shr (buf !!! 0%nat) 2)) buf.

Lemma packet_of_prefix p buf :
  packet_ok p = true → take (length p) buf = p → packet_of buf = p.
Proof.
  intros Hp Ht. destruct (packet_ok_size p Hp) as (size & _ & Hh & _ & Hsz & _).
  unfold packet_of. assert (Hb : buf !! 0%nat = Some size).
  { rewrite <- Ht in Hh. rewrite lookup_take in Hh. by case_decide. }
  rewrite (list_lookup_total_correct _ _ _ Hb), Hsz, Nat2Z.id. done.
Qed.

Lemma packet_of_exact p : packet_ok p = true → packet_of p = p.
Proof. intros. by apply packet_of_prefix, firstn_all. Qed.

(** A buffer whose packet is sound starts with the packet's size word. *)
Lemma packet_of_head buf :
  packet_ok (packet_of buf) = true →
  ∃ size, word_at buf 0 = Done size ∧ u32_shr size 2 = Z.of_nat (length (packet_of buf))
    ∧ take (length (packet_of buf)) buf = packet_of buf
    ∧ (length (packet_of buf) <= length buf)%nat.
Proof.
  intros Hp. destruct (packet_ok_size _ Hp) as (size & _ & Hh & _ & Hsz & Hl).
  exists size. assert (Hb : buf !! 0%nat = Some size).
  { unfold packet_of in Hh. rewrite lookup_take in Hh. by case_decide. }
  split_and!; [by unfold word_at; change (Z.to_nat 0) with 0%nat; rewrite Hb|done| |unfold packet_of; list_len].
  unfold packet_of. rewrite length_take. destruct (Nat.le_ge_cases (length buf)
    (Z.to_nat (u32_shr (buf !!! 0%nat) 2))).
  - rewrite Nat.min_r, !take_ge by lia. done.
  - by rewrite Nat.min_l by lia.
Qed.

(** The queue after a successful write of [p]. *)
Definition enqueue (p : list Z) (q : cvp_iface_q_info) : cvp_iface_q_info :=
  let sh := q_shared q in
  let m := sh_mem sh in
  let w := Z.to_nat (qhdr_write_idx (sh_hdr sh)) in
  set_shared
    (mkShared (set_write_idx (Z.of_nat (ring_next (length m) w (length p)))
                 (set_tx_req 0 (sh_hdr sh)))
       (ring_put m w p)) q.

(** The queue after its first [n] words have been read. *)
Definition dequeue (n : nat) (rx_req : Z) (q : cvp_iface_q_info) : cvp_iface_q_info :=
  let sh := q_shared q in
  let r := Z.to_nat (qhdr_read_idx (sh_hdr sh)) in
  set_shared
    (mkShared (set_read_idx (Z.of_nat (ring_next (length (sh_mem sh)) r n))
                 (set_rx_req rx_req (sh_hdr sh))) (sh_mem sh)) q.

Lemma ring_next_lt Q r n : (r < Q)%nat → (n <= Q)%nat → (ring_next Q r n < Q)%nat.
Proof.
  unfold ring_next. intros. case_match eqn:E; [apply Nat.ltb_lt in E|apply Nat.ltb_ge in E]; lia.
Qed.

Lemma queue_mem_ok_set_shared s q :
  queue_mem_ok q → length (sh_mem s) = length (sh_mem (q_shared q)) →
  queue_mem_ok (set_shared s q).
Proof. intros [] Hl. split; try done. cbn. by rewrite Hl. Qed.

Lemma enqueue_holds q ps p :
  holds q ps → packet_ok p = true →
  Z.of_nat (length (contents q)) + Z.of_nat (length p) < queue_words q →
  holds (enqueue p q) (ps ++ [p]).
Proof.
  intros (Hq & Hc & Hf) Hp Hfit. destruct Hq as [Hm Hr Hw].
  pose proof (qm_length q Hm) as Hlen.
  split; [split|split].
  - apply queue_mem_ok_set_shared; [done|]. cbn. apply length_ring_put; lia.
  - cbn. done.
  - cbn. change (queue_words _) with (queue_words q). rewrite <- Hlen.
    pose proof (ring_next_lt (length (sh_mem (q_shared q)))
      (Z.to_nat (qhdr_write_idx (sh_hdr (q_shared q)))) (length p)). lia.
  - unfold contents. cbn. rewrite Nat2Z.id.
    rewrite ring_put_contents by (unfold contents in Hfit; lia).
    fold (contents q). rewrite Hc, concat_app. cbn. by rewrite app_nil_r.
  - by apply Forall_app_2; [|apply Forall_singleton].
Qed.

Lemma dequeue_holds q p ps rx :
  holds q (p :: ps) → holds (dequeue (length p) rx q) ps.
Proof.
  intros (Hq & Hc & Hf). destruct Hq as [Hm Hr Hw].
  pose proof (qm_length q Hm) as Hlen. inversion_clear Hf.
  assert (Hle : (length p <= length (contents q))%nat) by (rewrite Hc; cbn; list_len).
  pose proof (contents_length q ltac:(by split)) as Hcl. cbv zeta in Hcl.
  assert (length (contents q) < length (sh_mem (q_shared q)))%nat
    by (case_match; zify_bool; lia).
  split; [split|split].
  - by apply queue_mem_ok_set_shared.
  - cbn. change (queue_words _) with (queue_words q). rewrite <- Hlen.
    pose proof (ring_next_lt (length (sh_mem (q_shared q)))
      (Z.to_nat (qhdr_read_idx (sh_hdr (q_shared q)))) (length p)). lia.
  - cbn. done.
  - unfold contents. cbn. rewrite Nat2Z.id.
    edestruct (λ A B, ring_get_contents _ _ _ _ A B Hle) as [_ G]; [lia|lia|]. rewrite G.
    fold (contents q). rewrite Hc. cbn. apply drop_app_length.
  - done.
Qed.

Lemma contents_nil_iff q :
  queue_ok q →
  contents q = [] ↔
  qhdr_read_idx (sh_hdr (q_shared q)) = qhdr_write_idx (sh_hdr (q_shared q)).
Proof.
  intros Hq. pose proof (contents_length q Hq) as Hl. cbv zeta in Hl.
  destruct Hq as [Hm Hr Hw]. rewrite <- length_zero_iff_nil.
  case_match; zify_bool; lia.
Qed.

(** [__write_queue] on a sound queue and a buffer holding a sound packet: both outcomes,
    exactly. *)
Lemma write_queue_buf_eq fw q buf rx :
  queue_ok q → packet_ok (packet_of buf) = true →
  let p := packet_of buf in
  __write_queue fw (Some q) (Some buf) rx =
  if queue_words q - Z.of_nat (length (contents q)) <=? Z.of_nat (length p)
  then Done (mkWres (- ENOTEMPTY) rx
               (Some (set_shared (upd_hdr (set_tx_req 1) (q_shared q)) q)))
  else let sh := fw FW_rx_req (q_shared (enqueue p q)) in
       Done (mkWres 0 (match rx with None => None
                       | Some _ => Some (qhdr_rx_req (sh_hdr sh) =? 1) end)
               (Some (set_shared sh q))).
Proof.
  intros Hq Hp p. pose proof Hq as [Hm Hr Hw].
  destruct (packet_of_head buf Hp) as (size & Hs & Hsz & Htk & Hle).
  destruct (packet_ok_size _ Hp) as (_ & _ & _ & _ & _ & Hlen). fold p in Hsz, Htk, Hle, Hlen |- *.
  pose proof (queue_words_bound q Hm) as HQ. pose proof (qm_huge q Hm) as Hhuge.
  pose proof (qm_length q Hm) as Hml. pose proof (queue_words_mem_size q Hm) as Hms.
  unfold __write_queue.
  rewrite (qm_hdr q Hm), (qm_addr q Hm), Hs. cbn [negb obind]. rewrite Hsz.
  rewrite (proj2 (Z.eqb_neq _ 0)), Z.gtb_ltb, (proj2 (Z.ltb_ge _ _)) by lia.
  cbn [orb]. rewrite empty_space_ok by done. case_match; zify_bool; [done|].
  rewrite Z.gtb_ltb, (proj2 (Z.ltb_ge (mem_size q) _)).
  2: { unfold u32_shl. rewrite shl2_mul, u32_small; unfold is_u32; lia. }
  rewrite u32_add_small by (unfold is_u32; lia). rewrite word_range by lia.
  cbn [upd_hdr sh_mem]. rewrite copy_in_ok by (try done; lia). cbn [obind].
  by rewrite Nat2Z.id, Htk.
Qed.

Lemma write_queue_eq fw q p rx :
  queue_ok q → packet_ok p = true →
  __write_queue fw (Some q) (Some p) rx =
  if queue_words q - Z.of_nat (length (contents q)) <=? Z.of_nat (length p)
  then Done (mkWres (- ENOTEMPTY) rx
               (Some (set_shared (upd_hdr (set_tx_req 1) (q_shared q)) q)))
  else let sh := fw FW_rx_req (q_shared (enqueue p q)) in
       Done (mkWres 0 (match rx with None => None
                       | Some _ => Some (qhdr_rx_req (sh_hdr sh) =? 1) end)
               (Some (set_shared sh q))).
Proof.
  intros Hq Hp. pose proof (packet_of_exact p Hp) as He.
  rewrite write_queue_buf_eq by (rewrite ?He; done). by rewrite He.
Qed.

(** Only the packet in the caller's buffer matters. *)
Lemma write_queue_buf fw q buf rx :
  queue_ok q → packet_ok (packet_of buf) = true →
  __write_queue fw (Some q) (Some buf) rx = __write_queue fw (Some q) (Some (packet_of buf)) rx.
Proof. intros Hq Hp. by rewrite write_queue_buf_eq, write_queue_eq. Qed.

Lemma ring_get_head m r n :
  (r < length m)%nat → (0 < n)%nat → ring_get m r n !! 0%nat = m !! r.
Proof.
  intros. unfold ring_get. case_match.
  - rewrite lookup_take_lt, lookup_drop by lia. f_equal. lia.
  - rewrite lookup_app_l by list_len. rewrite lookup_drop. f_equal. lia.
Qed.

(** Storing the size word a packet already carries changes nothing. *)
Lemma write_size_id p rest size :
  p !! 0%nat = Some size → words_write (p ++ rest) 0 [size] = Done (p ++ rest).
Proof.
  destruct p as [|? p]; [done|]. intros [= ->].
  rewrite words_write_ok by list_len. change (Z.to_nat 0) with 0%nat.
  cbn. by rewrite !drop_0.
Qed.

(** Firmware that stays quiet except, perhaps, around the re-check of an empty queue. *)
Definition quiet (fw : interference) : Prop := ∀ p s, p ≠ FW_recheck → fw p s = s.

(** [read_packet] on a queue holding at least one packet. *)
Lemma read_packet_eq fw q p ps buf pb rr w0 :
  quiet fw →
  holds q (p :: ps) → CVP_IFACEQ_VAR_HUGE_PKT_SIZE / 4 <= Z.of_nat (length buf) →
  read_packet fw q (q_shared q) buf pb rr (qhdr_read_idx (sh_hdr (q_shared q))) w0 =
  Done (mkRres 0 (Some (p ++ drop (length p) buf))
          (Some (if qhdr_tx_req (sh_hdr (q_shared q)) =? 1 then 1 else 0))
          (Some (dequeue (length p) (match ps with [] => rr | _ => 0 end) q))).
Proof.
  intros Hfw Hh Hbuf. pose proof (λ rx, dequeue_holds q p ps rx Hh) as Hd.
  destruct Hh as (Hq & Hc & Hf). pose proof Hq as [Hm Hr Hw].
  inversion_clear Hf as [|?? Hp Hps].
  destruct (packet_ok_size p Hp) as (size & Hs & Hhead & Hsize0 & Hsz & Hlen).
  pose proof (queue_words_bound q Hm) as HQ. pose proof (qm_huge q Hm) as Hhuge.
  pose proof (qm_length q Hm) as Hml. pose proof (queue_words_mem_size q Hm) as Hms.
  set (r := qhdr_read_idx (sh_hdr (q_shared q))) in *.
  set (w := qhdr_write_idx (sh_hdr (q_shared q))) in *.
  assert (Hle : (length p <= length (contents q))%nat) by (rewrite Hc; cbn; list_len).
  edestruct (λ A B, ring_get_contents (sh_mem (q_shared q)) (Z.to_nat r) (Z.to_nat w)
               (length p) A B Hle) as [G1 G2]; [lia|lia|].
  unfold read_packet. rewrite !Hfw by done. rewrite Z.gtb_ltb, (proj2 (Z.ltb_ge _ _)).
  2: { unfold u32_shl. rewrite shl2_mul, u32_small; unfold is_u32; lia. }
  rewrite word_range by lia.
  assert (Hat : word_at (sh_mem (q_shared q)) r = Done size).
  { unfold word_at. rewrite (proj2 (Z.leb_le 0 r)) by lia.
    rewrite <- (ring_get_head _ _ (length p)), G1 by lia.
    change (ring_contents _ (Z.to_nat r) (Z.to_nat w)) with (contents q). rewrite lookup_take_lt, Hc by lia. cbn.
    by rewrite lookup_app_l, Hhead by lia. }
  rewrite Hat. cbn [obind]. rewrite Hsz.
  rewrite (proj2 (Z.eqb_neq _ 0)) by lia.
  rewrite (proj2 (Z.leb_le (u32_shl _ _) _)), (proj2 (Z.leb_le r _)).
  2: lia.
  2: { change (CVP_IFACEQ_VAR_HUGE_PKT_SIZE / 4) with 3072 in *.
       unfold u32_shl, CVP_IFACEQ_VAR_HUGE_PKT_SIZE.
       rewrite shl2_mul, u32_small; unfold is_u32; lia. }
  cbn [andb]. rewrite ?Hfw by done. rewrite u32_add_small by (unfold is_u32; lia).
  rewrite copy_out_ok by (try done; lia). cbn [obind].
  rewrite !Nat2Z.id, G1. change (ring_contents _ (Z.to_nat r) (Z.to_nat w)) with (contents q). rewrite Hc. cbn [concat].
  rewrite take_app_length, write_size_id by done. cbn [obind].
  rewrite !Hfw by done. unfold dequeue. fold r. cbn [upd_hdr sh_hdr]. fold w.
  assert (Hrx : (Z.of_nat (ring_next (length (sh_mem (q_shared q))) (Z.to_nat r) (length p))
                =? w) = match ps with [] => true | _ => false end).
  { pose proof (contents_nil_iff _ (proj1 (Hd 0))) as Hn.
    destruct (Hd 0) as (_ & Hc' & Hf'). rewrite Hc' in Hn.
    cbn in Hn. fold r w in Hn. destruct ps as [|p2 ps2].
    - apply Z.eqb_eq, Hn. done.
    - apply Z.eqb_neq. intros E. apply Hn in E. inversion_clear Hps as [|?? Hp2].
      by destruct p2. }
  rewrite Hrx. by destruct ps.
Qed.

(** [__read_queue] on a queue holding at least one packet. *)
Lemma read_queue_eq q p ps buf pb :
  holds q (p :: ps) → CVP_IFACEQ_VAR_HUGE_PKT_SIZE / 4 <= Z.of_nat (length buf) →
  __read_queue no_interference (Some q) (Some buf) (Some pb) =
  let sh := q_shared q in
  let receive_request :=
    if Z.land (qhdr_type (sh_hdr sh)) HFI_Q_ID_CTRL_TO_HOST_MSG_Q =? 0 then 0 else 1 in
  let rx := match ps with [] => receive_request | _ => 0 end in
  Done (mkRres 0 (Some (p ++ drop (length p) buf))
          (Some (if qhdr_tx_req (sh_hdr sh) =? 1 then 1 else 0))
          (Some (dequeue (length p) rx q))).
Proof.
  intros Hh Hbuf. pose proof Hh as (Hq & Hc & Hf). pose proof Hq as [Hm Hr Hw].
  inversion_clear Hf as [|?? Hp _]. destruct (packet_ok_size p Hp) as (_ & _ & _ & _ & _ & Hl).
  unfold __read_queue. rewrite (qm_hdr q Hm), (qm_addr q Hm). cbn [negb].
  rewrite (proj2 (Z.eqb_neq (qhdr_read_idx _) _)).
  - by rewrite (read_packet_eq _ _ _ _ _ _ _ _ (λ _ _ _, eq_refl) Hh Hbuf).
  - intros E. apply (contents_nil_iff q Hq) in E. rewrite E in Hc.
    apply (f_equal length) in Hc. cbn in Hc. rewrite length_app in Hc. lia.
Qed.


Lemma length_ring_get m r n :
  (r < length m)%nat → (n <= length m)%nat → length (ring_get m r n) = n.
Proof.
  intros. unfold ring_get.
  case_match eqn:E; [apply Nat.ltb_lt in E|apply Nat.ltb_ge in E]; list_len.
Qed.

(** The words a hostile firmware can put in shared memory are still 32-bit words. *)
Definition shared_u32 (s : qshared) : Prop :=
  Forall is_u32 (sh_mem s) ∧ is_u32 (qhdr_read_idx (sh_hdr s)) ∧
  is_u32 (qhdr_write_idx (sh_hdr s)).

Definition fw_u32 (fw : interference) : Prop :=
  ∀ p s, shared_u32 s → shared_u32 (fw p s).

Lemma word_at_u32 s off w : shared_u32 s → word_at (sh_mem s) off = Done w → is_u32 w.
Proof.
  intros [Hf _]. unfold word_at. repeat case_match; try done. intros [= <-].
  by eapply Forall_lookup_1.
Qed.

Lemma shared_u32_set_rx_req v s :
  shared_u32 s → shared_u32 (upd_hdr (set_rx_req v) s).
Proof. by intros (?&?&?). Qed.

(** [read_packet] never leaves the ring or the caller's buffer, whatever the header and the
    ring hold and whatever the firmware does meanwhile. *)
Lemma read_packet_safe fw q sh buf pb rr r w :
  queue_mem_ok q → fw_ok fw → fw_u32 fw →
  length (sh_mem sh) = length (sh_mem (q_shared q)) → shared_u32 sh → is_u32 r →
  CVP_IFACEQ_VAR_HUGE_PKT_SIZE / 4 <= Z.of_nat (length buf) →
  ∃ rc p pb' sh', read_packet fw q sh buf pb rr r w =
    Done (mkRres rc (Some p) (Some pb') (Some (set_shared sh' q)))
    ∧ length p = length buf ∧ length (sh_mem sh') = length (sh_mem (q_shared q)).
Proof.
  intros Hm Hfw Hfu Hlen Hsh Hr Hbuf.
  pose proof (queue_words_bound q Hm) as HQ. pose proof (qm_huge q Hm) as Hhuge.
  pose proof (qm_length q Hm) as Hml.
  unfold read_packet. rewrite Z.gtb_ltb. case_match eqn:Eoff; zify_bool; [by eauto 10|].
  destruct (read_offset q r Hm Hr Eoff) as [Ho Hob]. rewrite Ho.
  destruct (word_at (sh_mem sh) (r mod 2 ^ 30)) as [wd|] eqn:Ew.
  2: { rewrite word_at_ok in Ew; [done|lia]. }
  pose proof (word_at_u32 _ _ _ Hsh Ew) as Hwd. cbn [obind].
  rewrite (word_at_ok (sh_mem (fw FW_size sh))) by (rewrite Hfw; lia). cbn [obind].
  set (n := u32_shr wd 2).
  assert (Hn : 0 <= n < 2 ^ 30).
  { subst n. unfold u32_shr, is_u32 in *. rewrite shr2_div.
    split; [apply Z.div_pos; lia | apply Z.div_lt_upper_bound; lia]. }
  case_match eqn:E0; zify_bool.
  { do 4 eexists. split; [done|]. by rewrite Hfw. }
  case_match eqn:Eg; zify_bool; cbn [obind].
  - rewrite u32_add_small by (unfold is_u32 in *; lia).
    unfold u32_shl, CVP_IFACEQ_VAR_HUGE_PKT_SIZE in *.
    change (1024 * 12 / 4) with 3072 in *.
    rewrite shl2_mul, u32_small in * by (unfold is_u32; lia).
    rewrite (Z.mod_small r) in * by (unfold is_u32 in *; lia).
    rewrite copy_out_ok by (try done; rewrite ?Hfw; lia). cbn [obind].
    match goal with |- context [words_write ?P 0 [?v]] =>
      assert (HP : length P = length buf)
        by (rewrite length_app, length_ring_get, length_drop; rewrite ?Hfw; lia);
      rewrite (words_write_ok P 0 [v]) by list_len
    end.
    cbn [obind]. do 4 eexists. split; [done|].
    split; [list_len | cbn; rewrite Hfw; cbn; by rewrite !Hfw].
  - do 4 eexists. split; [done|]. split; [done|]. cbn; rewrite Hfw; cbn; by rewrite !Hfw.
Qed.

(** * What the transport promises its clients *)

(** A bounded channel of packets.  [ch_send] and [ch_recv] return the C return code; a
    received packet is what the caller finds in its buffer. *)
Class Channel (C : Type) := {
  ch_send : C → list Z → outcome (Z * C);
  ch_recv : C → outcome (Z * list Z * C);
  ch_capacity : C → Z;
  ch_holds : C → list (list Z) → Prop
}.

(** The contract: a packet is accepted exactly when it leaves at least one word of the
    ring free, packets come out in the order they went in, and a failed operation changes
    nothing a client can see. *)
Class ChannelSpec (C : Type) `{Channel C} := {
  ch_send_spec c ps p :
    ch_holds c ps → packet_ok p = true →
    ∃ rc c', ch_send c p = Done (rc, c') ∧ ch_capacity c' = ch_capacity c ∧
      if ch_capacity c - Z.of_nat (length (concat ps)) <=? Z.of_nat (length p)
      then rc = - ENOTEMPTY ∧ ch_holds c' ps
      else rc = 0 ∧ ch_holds c' (ps ++ [p]);
  ch_holds_ok c ps : ch_holds c ps → Forall (λ p, packet_ok p = true) ps;
  ch_recv_spec c ps :
    ch_holds c ps →
    ∃ rc buf c', ch_recv c = Done (rc, buf, c') ∧ ch_capacity c' = ch_capacity c ∧
      match ps with
      | [] => rc = - ENODATA ∧ ch_holds c' []
      | p :: ps' => rc = 0 ∧ take (length p) buf = p ∧ ch_holds c' ps'
      end
}.

(** The caller's buffer ([device->raw_packet]): one largest packet. *)
Definition raw_packet : list Z :=
  replicate (Z.to_nat (CVP_IFACEQ_VAR_HUGE_PKT_SIZE / 4)) 0.

#[export] Instance hfi_channel : Channel cvp_iface_q_info := {
  ch_send q p :=
    let! r := __write_queue no_interference (Some q) (Some p) None in
    Done (w_rc r, default q (w_q r));
  ch_recv q :=
    let! r := __read_queue no_interference (Some q) (Some raw_packet) (Some 0) in
    Done (r_rc r, default [] (r_packet r), default q (r_q r));
  ch_capacity q := queue_words q;
  ch_holds := holds
}.

Lemma holds_upd_hdr f q ps :
  (∀ h, qhdr_read_idx (f h) = qhdr_read_idx h ∧ qhdr_write_idx (f h) = qhdr_write_idx h) →
  holds q ps → holds (set_shared (upd_hdr f (q_shared q)) q) ps.
Proof.
  intros Hf ([Hm Hr Hw] & Hc & Hp). destruct (Hf (sh_hdr (q_shared q))) as [E1 E2].
  split; [split|split]; cbn; rewrite ?E1, ?E2; try done.
  - by apply queue_mem_ok_set_shared.
  - unfold contents. cbn. by rewrite E1, E2.
Qed.

Lemma read_queue_empty_eq q buf pb :
  holds q [] →
  __read_queue no_interference (Some q) (Some buf) (Some pb) =
  let rr := if Z.land (qhdr_type (sh_hdr (q_shared q))) HFI_Q_ID_CTRL_TO_HOST_MSG_Q =? 0
            then 0 else 1 in
  Done (mkRres (- ENODATA) (Some buf) (Some 0)
          (Some (set_shared (upd_hdr (set_rx_req rr) (q_shared q)) q))).
Proof.
  intros (Hq & Hc & _). pose proof Hq as [Hm Hr Hw].
  apply (contents_nil_iff q Hq) in Hc.
  unfold __read_queue. rewrite (qm_hdr q Hm), (qm_addr q Hm). cbn [negb].
  rewrite (proj2 (Z.eqb_eq _ _) Hc). unfold no_interference. cbn [upd_hdr sh_hdr].
  cbn [set_rx_req qhdr_write_idx]. by rewrite Z.eqb_refl.
Qed.

#[export] Instance hfi_channel_spec : ChannelSpec cvp_iface_q_info.
Proof.
  split; cbn [ch_send ch_recv ch_capacity ch_holds hfi_channel].
  - intros q ps p Hh Hp. pose proof Hh as (Hq & Hc & _).
    rewrite (write_queue_eq _ _ _ _ Hq Hp), <- Hc.
    case_match eqn:E; cbn [obind]; do 2 eexists; (split; [done|]); (split; [done|]).
    + split; [done|]. cbn. by apply holds_upd_hdr.
    + zify_bool. split; [done|]. apply enqueue_holds; [done..|lia].
  - by intros q ps (_ & _ & Hf).
  - intros q [|p ps] Hh.
    + rewrite read_queue_empty_eq by done. cbn [obind].
      do 3 eexists. split; [done|]. split; [done|]. split; [done|].
      cbn. by apply holds_upd_hdr.
    + rewrite (read_queue_eq _ _ _ _ _ Hh) by done. cbn [obind].
      do 3 eexists. split; [done|]. split; [done|]. split; [done|]. cbn.
      split; [apply take_app_length|]. by apply dequeue_holds.
Qed.

(** ** The abstract machine and its clients *)
Section client.
Context {C : Type} `{ChannelSpec C}.

(** A client's use of the channel: what it sends and when it polls. *)
Inductive chan_op := Send (p : list Z) | Recv.

(** What a client observes: return codes, and the packet a successful poll delivers. *)
Inductive chan_obs := Sent (rc : Z) | Received (rc : Z) (p : list Z).

Definition chan_step (c : C) (op : chan_op) : outcome (chan_obs * C) :=
  match op with
  | Send p => let! r := ch_send c p in Done (Sent (fst r), snd r)
  | Recv => let! r := ch_recv c in
            let '(rc, buf, c') := r in
            Done (Received rc (if rc =? 0 then packet_of buf else []), c')
  end.

Fixpoint chan_run (c : C) (ops : list chan_op) : outcome (list chan_obs * C) :=
  match ops with
  | [] => Done ([], c)
  | op :: ops' =>
      let! r := chan_step c op in
      let! rs := chan_run (snd r) ops' in
      Done (fst r :: fst rs, snd rs)
  end.

(** The specification: a FIFO of packets of at most [cap - 1] words in all. *)
Definition fifo_step (cap : Z) (ps : list (list Z)) (op : chan_op)
  : chan_obs * list (list Z) :=
  match op with
  | Send p =>
      if cap - Z.of_nat (length (concat ps)) <=? Z.of_nat (length p)
      then (Sent (- ENOTEMPTY), ps) else (Sent 0, ps ++ [p])
  | Recv =>
      match ps with
      | [] => (Received (- ENODATA) [], [])
      | p :: ps' => (Received 0 p, ps')
      end
  end.

Fixpoint fifo_run (cap : Z) (ps : list (list Z)) (ops : list chan_op)
  : list chan_obs * list (list Z) :=
  match ops with
  | [] => ([], ps)
  | op :: ops' =>
      let '(o, ps1) := fifo_step cap ps op in
      let '(os, ps2) := fifo_run cap ps1 ops' in (o :: os, ps2)
  end.

Definition op_ok (op : chan_op) : bool :=
  match op with Send p => packet_ok p | Recv => true end.

Lemma chan_step_refines c ps op :
  ch_holds c ps → op_ok op = true →
  ∃ c', chan_step c op = Done (fst (fifo_step (ch_capacity c) ps op), c')
    ∧ ch_capacity c' = ch_capacity c
    ∧ ch_holds c' (snd (fifo_step (ch_capacity c) ps op)).
Proof.
  intros Hh Ho. destruct op as [p|]; cbn [chan_step fifo_step].
  - destruct (ch_send_spec c ps p Hh Ho) as (rc & c' & -> & Hcap & Hr).
    case_match; destruct Hr as [-> Hr]; exists c'; done.
  - destruct (ch_recv_spec c ps Hh) as (rc & buf & c' & -> & Hcap & Hr).
    pose proof (ch_holds_ok _ _ Hh) as Hf.
    destruct ps as [|p ps']; [destruct Hr as [-> Hr]; by exists c'|].
    destruct Hr as (-> & Ht & Hr). exists c'. split; [|done]. cbn [obind Z.eqb].
    inversion_clear Hf. by rewrite (packet_of_prefix p).
Qed.

Lemma chan_run_refines ops : ∀ c ps,
  ch_holds c ps → Forall (λ op, op_ok op = true) ops →
  ∃ c', chan_run c ops = Done (fst (fifo_run (ch_capacity c) ps ops), c')
    ∧ ch_holds c' (snd (fifo_run (ch_capacity c) ps ops)).
Proof.
  induction ops as [|op ops IH]; intros c ps Hh Hf; cbn; [by exists c|].
  inversion_clear Hf as [|?? Ho Hos].
  destruct (chan_step_refines c ps op Hh Ho) as (c1 & -> & Hcap & Hh1).
  destruct (fifo_step (ch_capacity c) ps op) as [o ps1]. cbn in *.
  destruct (IH c1 ps1 Hh1 Hos) as (c2 & -> & Hh2). rewrite Hcap in *.
  destruct (fifo_run (ch_capacity c) ps1 ops) as [os ps2]. by exists c2.
Qed.
End client.

(** * Theorems *)

(** C1. The HFI ring, driven through [__write_queue] and [__read_queue] by any sequence of
    sends and polls of well-formed packets, behaves as a bounded FIFO: every return code
    and every delivered packet is the one the FIFO gives, including [-ENOTEMPTY] when at
    most the packet's size is free and [-ENODATA] when it is empty, across any number of
    wrap-arounds, and the ring ends up holding what the FIFO holds. *)
Theorem hfi_queue_refines_fifo (q : cvp_iface_q_info) (ps : list (list Z))
    (ops : list chan_op) :
  holds q ps → Forall (λ op, op_ok op = true) ops →
  ∃ q', chan_run q ops = Done (fst (fifo_run (queue_words q) ps ops), q')
    ∧ holds q' (snd (fifo_run (queue_words q) ps ops)).
Proof. exact (chan_run_refines ops q ps). Qed.

(** A sound queue for the examples: [Q] words, empty, both indices at [i]. *)
Definition demo_queue (type : Z) (Q : nat) (i : Z) : cvp_iface_q_info :=
  mkQinfo true true 0x1000 (4 * Z.of_nat Q)
    (mkShared (mkQhdr 1 0x1000 type (Z.of_nat Q) 0 0 1 1 1 0 0 0 i i) (replicate Q 0)).

Lemma demo_queue_mem_ok type Q i :
  3072 <= Z.of_nat Q < 2 ^ 30 → queue_mem_ok (demo_queue type Q i).
Proof.
  intros HQ. assert (Hw : queue_words (demo_queue type Q i) = Z.of_nat Q).
  { unfold queue_words, u32_shr. cbn [mem_size demo_queue].
    by rewrite shr2_div, Z.mul_comm, Z.div_mul by lia. }
  split; rewrite ?Hw; cbn [mem_size demo_queue q_shared sh_mem];
    [done|done|unfold is_u32; lia| |by rewrite length_replicate|].
  - by rewrite Z.mul_comm, Z.mod_mul by lia.
  - change (CVP_IFACEQ_VAR_HUGE_PKT_SIZE / 4) with 3072. lia.
Qed.

Lemma demo_queue_holds type Q i :
  3072 <= Z.of_nat Q < 2 ^ 30 → 0 <= i < Z.of_nat Q → holds (demo_queue type Q i) [].
Proof.
  intros HQ Hi. pose proof (demo_queue_mem_ok type Q i HQ) as Hm.
  pose proof (qm_length _ Hm) as Hl. cbn [q_shared demo_queue sh_mem] in Hl.
  rewrite length_replicate in Hl.
  assert (Hq : queue_ok (demo_queue type Q i)).
  { split; [done| |]; rewrite <- Hl; cbn; lia. }
  split; [done|]. split; [by apply contents_nil_iff|done].
Qed.

Lemma hfi_queue_refines_fifo_witness :
  ∃ q', chan_run (demo_queue 0x01010001 3072 3070) [Recv; Send [16; 7; 8; 9]; Recv; Recv]
    = Done ([Received (- ENODATA) []; Sent 0; Received 0 [16; 7; 8; 9];
             Received (- ENODATA) []], q').
Proof.
  edestruct (hfi_queue_refines_fifo (demo_queue 0x01010001 3072 3070) []
    [Recv; Send [16; 7; 8; 9]; Recv; Recv]) as (q' & Hr & _).
  - apply demo_queue_holds; lia.
  - repeat constructor.
  - exists q'. exact Hr.
Defined.

(** C3. No lost wake-up: when the firmware's enqueue lands exactly between the host's
    emptiness test and its re-check, [__read_queue] delivers that packet in the same call
    instead of reporting an empty queue, and [qhdr_rx_req] is left as on any other read
    that empties the queue. *)
Theorem read_queue_no_lost_wakeup (q : cvp_iface_q_info) (p buf : list Z) (pb : Z) :
  holds q [] → packet_ok p = true → Z.of_nat (length p) < queue_words q →
  CVP_IFACEQ_VAR_HUGE_PKT_SIZE / 4 <= Z.of_nat (length buf) →
  let fw := λ pt s, match pt with
                    | FW_recheck => q_shared (enqueue p (set_shared s q))
                    | _ => s
                    end in
  ∃ tx q', __read_queue fw (Some q) (Some buf) (Some pb) =
    Done (mkRres 0 (Some (p ++ drop (length p) buf)) (Some tx) (Some q'))
    ∧ holds q' []
    ∧ qhdr_rx_req (sh_hdr (q_shared q')) =
      (if Z.land (qhdr_type (sh_hdr (q_shared q))) HFI_Q_ID_CTRL_TO_HOST_MSG_Q =? 0
       then 0 else 1).
Proof.
  intros Hh Hp Hfit Hbuf fw. pose proof Hh as (Hq & Hc & _). pose proof Hq as [Hm Hr Hw].
  set (rr := if Z.land _ _ =? 0 then 0 else 1).
  set (q1 := set_shared (upd_hdr (set_rx_req rr) (q_shared q)) q).
  assert (Hh1 : holds q1 []) by (by apply holds_upd_hdr).
  assert (Hfit1 : Z.of_nat (length (contents q1)) + Z.of_nat (length p) < queue_words q1).
  { destruct Hh1 as (_ & -> & _). cbn. change (queue_words q1) with (queue_words q). lia. }
  pose proof (enqueue_holds q1 [] p Hh1 Hp Hfit1) as Hh2. cbn [app] in Hh2.
  pose proof (holds_upd_hdr (set_rx_req 0) _ _ (λ h, conj eq_refl eq_refl) Hh2) as Hh3.
  set (q3 := set_shared (upd_hdr (set_rx_req 0) (q_shared (enqueue p q1))) (enqueue p q1)) in *.
  assert (Hempty : qhdr_read_idx (sh_hdr (q_shared q)) = qhdr_write_idx (sh_hdr (q_shared q)))
    by (by apply contents_nil_iff).
  assert (Hne : (qhdr_write_idx (sh_hdr (q_shared q)) =?
                 qhdr_write_idx (sh_hdr (q_shared (enqueue p q1)))) = false).
  { apply Z.eqb_neq. intros E. destruct Hh2 as (Hq2 & Hc2 & _).
    rewrite <- Hempty in E. apply (contents_nil_iff _ Hq2) in E. rewrite Hc2 in E.
    destruct (packet_ok_size p Hp) as (_ & _ & _ & _ & _ & Hl).
    apply (f_equal length) in E. cbn in E. rewrite length_app in E. cbn in *. lia. }
  assert (Hquiet : quiet fw) by (by intros []).
  do 2 eexists. unfold __read_queue. rewrite (qm_hdr q Hm), (qm_addr q Hm). cbn [negb].
  rewrite (proj2 (Z.eqb_eq _ _) Hempty). fold rr.
  change (fw FW_recheck (upd_hdr (set_rx_req rr) (q_shared q)))
    with (q_shared (enqueue p q1)).
  rewrite Hne. cbn [negb].
  change (upd_hdr (set_rx_req 0) (q_shared (enqueue p q1))) with (q_shared q3).
  change (qhdr_read_idx (sh_hdr (q_shared q)))
    with (qhdr_read_idx (sh_hdr (q_shared q3))).
  split; [exact (read_packet_eq fw q3 p [] buf 0 rr _ Hquiet Hh3 Hbuf)|].
  split; [by apply dequeue_holds|done].
Qed.

Lemma read_queue_no_lost_wakeup_witness :
  ∃ q', holds q' [] ∧ qhdr_rx_req (sh_hdr (q_shared q')) = 1.
Proof.
  destruct (read_queue_no_lost_wakeup (demo_queue 0x01010001 3072 3071) [8; 5]
    raw_packet 0) as (tx & q' & _ & Hh & Hrx).
  - apply demo_queue_holds; lia.
  - reflexivity.
  - reflexivity.
  - vm_compute. discriminate.
  - exists q'. split; [exact Hh | exact Hrx].
Defined.

(** C2. Memory safety against a hostile firmware: whatever 32-bit values the shared header
    and ring hold, and whatever the firmware writes there while the routine runs,
    [__read_queue] never accesses memory outside the ring or outside a caller buffer of the
    largest packet size; the buffer and the ring keep their sizes. *)
Theorem read_queue_memory_safe (fw : interference) (q : cvp_iface_q_info)
    (buf : list Z) (pb : option Z) :
  queue_mem_ok q → fw_ok fw → fw_u32 fw → shared_u32 (q_shared q) →
  CVP_IFACEQ_VAR_HUGE_PKT_SIZE / 4 <= Z.of_nat (length buf) →
  ∃ rc p pb' sh', __read_queue fw (Some q) (Some buf) pb =
      Done (mkRres rc (Some p) pb' (Some (set_shared sh' q)))
    ∧ length p = length buf ∧ length (sh_mem sh') = length (sh_mem (q_shared q)).
Proof.
  intros Hm Hfw Hfu Hsh Hbuf. unfold __read_queue.
  destruct pb as [pb|]; [|exists (- EINVAL), buf, None, (q_shared q); by destruct q].
  rewrite (qm_hdr q Hm), (qm_addr q Hm). cbn [negb].
  set (rr := if Z.land _ _ =? 0 then 0 else 1).
  assert (Hsafe : ∀ sh pb', length (sh_mem sh) = length (sh_mem (q_shared q)) →
    shared_u32 sh → ∃ rc p pb2 sh',
    read_packet fw q sh buf pb' rr (qhdr_read_idx (sh_hdr (q_shared q)))
      (qhdr_write_idx (sh_hdr (q_shared q))) =
      Done (mkRres rc (Some p) (Some pb2) (Some (set_shared sh' q)))
    ∧ length p = length buf ∧ length (sh_mem sh') = length (sh_mem (q_shared q))).
  { intros sh pb' Hl Hs. apply read_packet_safe; try done. apply Hsh. }
  case_match; [case_match|].
  - destruct (Hsafe (upd_hdr (set_rx_req 0)
      (fw FW_recheck (upd_hdr (set_rx_req rr) (q_shared q)))) 0) as (?&?&?&?&->&?&?);
      [cbn; by rewrite Hfw| |by eauto 10].
    apply shared_u32_set_rx_req, Hfu, shared_u32_set_rx_req, Hsh.
  - do 4 eexists. split; [done|]. split; [done|]. by rewrite Hfw.
  - destruct (Hsafe (q_shared q) pb) as (?&?&?&?&->&?&?); [done..|by eauto 10].
Qed.

Lemma read_queue_memory_safe_witness :
  ∃ rc p pb' sh',
    __read_queue (λ _ s, upd_hdr (set_write_idx 0xFFFFFFFF) s)
      (Some (demo_queue 2 3072 0)) (Some raw_packet) (Some 0) =
      Done (mkRres rc (Some p) pb' (Some (set_shared sh' (demo_queue 2 3072 0))))
    ∧ length p = length raw_packet
    ∧ length (sh_mem sh') = length (sh_mem (q_shared (demo_queue 2 3072 0))).
Proof.
  apply read_queue_memory_safe.
  - apply demo_queue_mem_ok. lia.
  - intros p s. reflexivity.
  - intros p s (H1 & H2 & H3). split; [exact H1|]. split; [exact H2|].
    vm_compute. split; [discriminate | reflexivity].
  - split; [apply Forall_replicate; vm_compute; split; [discriminate|reflexivity]|].
    split; vm_compute; (split; [discriminate|reflexivity]).
  - vm_compute. discriminate.
Defined.

(** [__write_queue] on a sound ring, for any well-formed packet and whatever the
    firmware does to the header around the [qhdr_rx_req] fetch: it never faults, it
    succeeds exactly when strictly more than the packet's words are free, it then asks for
    an interrupt exactly when the firmware requested one, and on [-ENOTEMPTY] it leaves
    ring, indices and stored packets untouched and raises [qhdr_tx_req]. *)
Theorem write_queue_outcome (fw : interference) (q : cvp_iface_q_info)
    (ps : list (list Z)) (p : list Z) (rx : bool) :
  holds q ps → packet_ok p = true →
  let free := queue_words q - Z.of_nat (length (concat ps)) in
  if Z.of_nat (length p) <? free
  then ∃ sh, sh = fw FW_rx_req (q_shared (enqueue p q)) ∧ holds (enqueue p q) (ps ++ [p])
    ∧ __write_queue fw (Some q) (Some p) (Some rx) =
      Done (mkWres 0 (Some (qhdr_rx_req (sh_hdr sh) =? 1)) (Some (set_shared sh q)))
  else ∃ q', __write_queue fw (Some q) (Some p) (Some rx) =
      Done (mkWres (- ENOTEMPTY) (Some rx) (Some q'))
    ∧ holds q' ps ∧ sh_mem (q_shared q') = sh_mem (q_shared q)
    ∧ qhdr_tx_req (sh_hdr (q_shared q')) = 1.
Proof.
  intros Hh Hp free. pose proof Hh as (Hq & Hc & _).
  rewrite (write_queue_eq fw q p _ Hq Hp), Hc. fold free.
  destruct (Z.ltb_spec (Z.of_nat (length p)) free).
  - rewrite (proj2 (Z.leb_gt _ _)) by done. eexists. split; [done|].
    split; [apply enqueue_holds; [done..|rewrite Hc; subst free; lia]|done].
  - rewrite (proj2 (Z.leb_le _ _)) by done. eexists. split; [done|].
    split; [by apply holds_upd_hdr|done].
Qed.

Lemma write_queue_outcome_witness :
  ∃ sh, sh = q_shared (enqueue [8; 5] (demo_queue 0 3072 3071))
    ∧ holds (enqueue [8; 5] (demo_queue 0 3072 3071)) [[8; 5]]
    ∧ __write_queue no_interference (Some (demo_queue 0 3072 3071)) (Some [8; 5])
        (Some false) =
      Done (mkWres 0 (Some (qhdr_rx_req (sh_hdr sh) =? 1))
              (Some (set_shared sh (demo_queue 0 3072 3071)))).
Proof.
  apply (write_queue_outcome no_interference (demo_queue 0 3072 3071) [] [8; 5] false).
  - apply demo_queue_holds; lia.
  - reflexivity.
Defined.

(** The write side does not have the protection of the read side: with a write index
    outside the ring in the shared header (still a 32-bit value, and the ring otherwise
    sound) the byte offset wraps past the range check of [write_ptr] and a two-word packet
    makes [__write_queue] copy out of bounds. *)
Theorem write_queue_hostile_index_faults :
  let q := set_shared (upd_hdr (set_write_idx (2 ^ 30)) (upd_hdr (set_read_idx (2 ^ 30))
             (q_shared (demo_queue 0 3072 0)))) (demo_queue 0 3072 0) in
  queue_mem_ok q ∧ shared_u32 (q_shared q) ∧ packet_ok [8; 5] = true
  ∧ __write_queue no_interference (Some q) (Some [8; 5]) None = Fault.
Proof.
  split; [|split; [|split]].
  - apply queue_mem_ok_set_shared; [apply demo_queue_mem_ok; lia | done].
  - split; [|split; vm_compute; by split].
    cbn [set_shared q_shared upd_hdr sh_mem demo_queue]. apply Forall_replicate.
    unfold is_u32. lia.
  - done.
  - vm_compute. reflexivity.
Qed.

(** The size [__read_queue] writes back into the delivered packet is not the one it
    validated: the check rounds down to whole words, so a packet whose size field exceeds
    the receive buffer by up to three bytes is delivered with return code 0 and that
    field; more than three bytes over is always refused. *)
Theorem read_queue_size_writeback :
  (∃ q p tx q', queue_mem_ok q ∧ shared_u32 (q_shared q)
    ∧ __read_queue no_interference (Some q) (Some raw_packet) (Some 0) =
      Done (mkRres 0 (Some p) (Some tx) (Some q'))
    ∧ p !!! 0%nat = CVP_IFACEQ_VAR_HUGE_PKT_SIZE + 3)
  ∧ ∀ n, is_u32 n → CVP_IFACEQ_VAR_HUGE_PKT_SIZE + 3 < n →
    (u32_shl (u32_shr n 2) 2 <=? CVP_IFACEQ_VAR_HUGE_PKT_SIZE) = false.
Proof.
  split.
  - set (q0 := demo_queue 2 3072 0).
    set (sh := mkShared (set_write_idx 1 (sh_hdr (q_shared q0)))
                 (<[0%nat := 12291]> (sh_mem (q_shared q0)))).
    set (q := set_shared sh q0).
    assert (Hq : queue_mem_ok q).
    { apply queue_mem_ok_set_shared; [apply demo_queue_mem_ok; lia|].
      subst sh. cbn [sh_mem]. by rewrite length_insert. }
    assert (Hs : shared_u32 (q_shared q)).
    { split; [|split; by vm_compute].
      apply Forall_insert; [apply Forall_replicate|]; by vm_compute. }
    exists q. do 3 eexists. split; [exact Hq|]. split; [exact Hs|].
    split; vm_compute; reflexivity.
  - intros n Hn Hgt. apply Z.leb_gt. unfold u32_shl, u32_shr, is_u32 in *.
    rewrite shl2_mul, shr2_div. unfold CVP_IFACEQ_VAR_HUGE_PKT_SIZE in *.
    pose proof (Z.div_mod n 4). pose proof (Z.mod_pos_bound n 4).
    rewrite u32_small; unfold is_u32; lia.
Qed.

End Queue.
