(* ===== verification/HfiTypes.v ===== *)
(** Numeric vocabulary of the HFI interface: packet types, error codes and property ids of
    src/msm/eva/cvp_hfi_v2.h (the version cvp_hfi.h selects for every target but SUN), and
    the enumerations of src/msm/eva/cvp_hfi_api.h, cvp_comm_def.h and msm_cvp_internal.h. *)

From S2P Require Import Prelude.

(** [enum hfi_cmd_sys_crtl] and the SSR test command. *)
Definition HFI_CMD_SYS_TEST_START : Z := 0x1101100.
Definition HFI_CMD_SYS_INIT : Z := 0x1101001.
Definition HFI_CMD_SYS_PC_PREP : Z := 0x1101002.
Definition HFI_CMD_SYS_SET_RESOURCE : Z := 0x1101003.
Definition HFI_CMD_SYS_RELEASE_RESOURCE : Z := 0x1101004.
Definition HFI_CMD_SYS_DEBUG : Z := 0x1101005.
Definition HFI_CMD_SYS_SET_PROPERTY : Z := 0x1101006.
Definition HFI_CMD_SYS_GET_PROPERTY : Z := 0x1101007.
Definition HFI_CMD_SYS_SESSION_INIT : Z := 0x1101008.
Definition HFI_CMD_SYS_SET_BUFFERS : Z := 0x1101009.
Definition HFI_CMD_SYS_SESSION_END : Z := 0x110100a.
Definition HFI_CMD_SYS_IDLE : Z := 0x110100b.
Definition HFI_CMD_SYS_COV : Z := 0x110100c.
Definition HFI_CMD_SYS_PROPERTY_INFO : Z := 0x110100d.
Definition HFI_CMD_SYS_PING : Z := 0x110100e.
Definition HFI_CMD_SYS_SESSION_ABORT : Z := 0x110100f.
Definition HFI_CMD_SYS_TEST_SSR : Z := 0x1101101.

(** [enum hfi_msg_sys_crtl]. *)
Definition HFI_MSG_SYS_INIT_DONE : Z := 0x2101001.
Definition HFI_MSG_SYS_PC_PREP_DONE : Z := 0x2101002.
Definition HFI_MSG_SYS_SET_RESOURCE_DONE : Z := 0x2101003.
Definition HFI_MSG_SYS_RELEASE_RESOURCE : Z := 0x2101004.
Definition HFI_MSG_SYS_DEBUG : Z := 0x2101005.
Definition HFI_MSG_SYS_SESSION_INIT_DONE : Z := 0x2101006.
Definition HFI_MSG_SYS_SET_PROPERTY_DONE : Z := 0x2101007.
Definition HFI_MSG_SYS_GET_PROPERTY_DONE : Z := 0x2101008.
Definition HFI_MSG_SYS_SET_BUFFERS_DONE : Z := 0x2101009.
Definition HFI_MSG_SYS_SESSION_END_DONE : Z := 0x210100a.
Definition HFI_MSG_SYS_IDLE : Z := 0x210100b.
Definition HFI_MSG_SYS_COV : Z := 0x210100c.
Definition HFI_MSG_SYS_PROPERTY_INFO : Z := 0x210100d.
Definition HFI_MSG_SYS_PING_ACK : Z := 0x210100e.
Definition HFI_MSG_SYS_SESSION_ABORT_DONE : Z := 0x210100f.

(** [enum hfi_session_msg_crtl]. *)
Definition HFI_MSG_SESSION_CVP_SET_BUFFERS : Z := 0x2201001.
Definition HFI_MSG_SESSION_CVP_SET_PERSIST_BUFFERS : Z := 0x2201002.
Definition HFI_MSG_SESSION_CVP_RELEASE_PERSIST_BUFFERS : Z := 0x2201003.
Definition HFI_MSG_SESSION_CVP_RELEASE_BUFFERS : Z := 0x2201004.
Definition HFI_MSG_SESSION_EVA_START_DONE : Z := 0x2201005.
Definition HFI_MSG_SESSION_EVA_STOP_DONE : Z := 0x2201006.
Definition HFI_MSG_SESSION_CVP_FLUSH : Z := 0x2201007.
Definition HFI_MSG_SESSION_CVP_SYNX : Z := 0x2201008.
Definition HFI_MSG_EVENT_NOTIFY : Z := 0x2201009.
Definition HFI_MSG_SESSION_EVA_FUSA_INJECTION_DONE : Z := 0x220100a.
Definition HFI_MSG_SESSION_EVA_FUSA_INTR : Z := 0x220100b.
Definition HFI_MSG_EVENT_NOTIFY_SNAPSHOT_READY : Z := 0x2200047.

(** [enum eva_session_cmd_type]. *)
Definition HFI_CMD_SESSION_CVP_SET_BUFFERS : Z := 0x1201001.
Definition HFI_CMD_SESSION_CVP_SET_PERSIST_BUFFERS : Z := 0x1201002.
Definition HFI_CMD_SESSION_CVP_RELEASE_PERSIST_BUFFERS : Z := 0x1201003.
Definition HFI_CMD_SESSION_CVP_RELEASE_BUFFERS : Z := 0x1201004.
Definition HFI_CMD_SESSION_EVA_START : Z := 0x1201005.
Definition HFI_CMD_SESSION_EVA_STOP : Z := 0x1201006.
Definition HFI_CMD_SESSION_CVP_FLUSH : Z := 0x1201007.
Definition HFI_CMD_SESSION_CVP_SYNX : Z := 0x1201008.
Definition HFI_CMD_EVENT_NOTIFY : Z := 0x1201009.
Definition HFI_CMD_SESSION_FUSA_INJECTION : Z := 0x120100a.

(** Bases of the session command and message spaces. *)
Definition HFI_CMD_SESSION_EVA_OFFSET : Z := 0x1200000.
Definition HFI_CMD_SESSION_EVA_CTRL_OFFSET : Z := 0x1201000.
Definition HFI_CMD_SESSION_CONFIG_OFFSET : Z := 0x1202000.
Definition HFI_CMD_SESSION_FRAME_OFFSET : Z := 0x1203000.
Definition HFI_CMD_SESSION_CVP_START : Z := 0x4011000.
Definition HFI_MSG_SESSION_CVP_START : Z := 0x4021000.
Definition HFI_MSG_SESSION_EVA_OFFSET : Z := 0x2200000.
Definition HFI_MSG_SESSION_EVA_CTRL_OFFSET : Z := 0x2201000.
Definition HFI_MSG_SESSION_OFFSET : Z := 0x2203000.
Definition HFI_CMD_OFFSET : Z := 0x1000000.
Definition HFI_MSG_OFFSET : Z := 0x2000000.

(** [enum hfi_sys_err]. *)
Definition HFI_ERR_NONE : Z := 0x0.
Definition HFI_ERR_SYS_FATAL : Z := 0x1.
Definition HFI_ERR_SYS_INVALID_PARAMETER : Z := 0x2.
Definition HFI_ERR_SYS_VERSION_MISMATCH : Z := 0x3.
Definition HFI_ERR_SYS_INSUFFICIENT_RESOURCES : Z := 0x4.
Definition HFI_ERR_SYS_MAX_SESSIONS_REACHED : Z := 0x5.
Definition HFI_ERR_SYS_SESSION_IN_USE : Z := 0x6.
Definition HFI_ERR_SYS_SESSION_ID_OUT_OF_RANGE : Z := 0x7.
Definition HFI_ERR_SYS_UNSUPPORTED_TRIGCMD : Z := 0x8.
Definition HFI_ERR_SYS_UNSUPPORTED_RESOURCES : Z := 0x9.
Definition HFI_ERR_SYS_UNSUPPORT_CMD : Z := 0xa.
Definition HFI_ERR_SYS_CMDSIZE : Z := 0xb.
Definition HFI_ERR_SYS_UNSUPPORT_PROPERTY : Z := 0xc.
Definition HFI_ERR_SYS_INIT_EXPECTED : Z := 0xd.
Definition HFI_ERR_SYS_INIT_IGNORED : Z := 0xe.
Definition HFI_ERR_SYS_MAX_DME_SESSIONS_REACHED : Z := 0xf.
Definition HFI_ERR_SYS_MAX_FD_SESSIONS_REACHED : Z := 0x10.
Definition HFI_ERR_SYS_MAX_ODT_SESSIONS_REACHED : Z := 0x11.
Definition HFI_ERR_SYS_MAX_CV_SESSIONS_REACHED : Z := 0x12.
Definition HFI_ERR_SYS_INVALID_SESSION_TYPE : Z := 0x13.
Definition HFI_ERR_SYS_NOC_ERROR : Z := 0x14.
Definition HFI_ERR_SYS_MAX_DLFDFL_SESSIONS_REACHED : Z := 0x15.
Definition HFI_SYS_FUSA_ERROR_FATAL : Z := 0x16.
Definition HFI_SYS_FUSA_ERROR_NON_FATAL : Z := 0x17.

(** [enum hfi_session_err]. *)
Definition HFI_ERR_SESSION_FATAL : Z := 0x1001.
Definition HFI_ERR_SESSION_INVALID_PARAMETER : Z := 0x1002.
Definition HFI_ERR_SESSION_BAD_POINTER : Z := 0x1003.
Definition HFI_ERR_SESSION_INVALID_SESSION_ID : Z := 0x1004.
Definition HFI_ERR_SESSION_INVALID_STREAM_ID : Z := 0x1005.
Definition HFI_ERR_SESSION_INCORRECT_STATE_OPERATION : Z := 0x1006.
Definition HFI_ERR_SESSION_UNSUPPORTED_PROPERTY : Z := 0x1007.
Definition HFI_ERR_SESSION_UNSUPPORTED_SETTING : Z := 0x1008.
Definition HFI_ERR_SESSION_INSUFFICIENT_RESOURCES : Z := 0x1009.
Definition HFI_ERR_SESSION_STREAM_CORRUPT_OUTPUT_STALLED : Z := 0x100a.
Definition HFI_ERR_SESSION_STREAM_CORRUPT : Z := 0x100b.
Definition HFI_ERR_SESSION_RESERVED : Z := 0x100c.
Definition HFI_ERR_SESSION_UNSUPPORTED_STREAM : Z := 0x100d.
Definition HFI_ERR_SESSION_CMDSIZE : Z := 0x100e.
Definition HFI_ERR_SESSION_UNSUPPORT_CMD : Z := 0x100f.
Definition HFI_ERR_SESSION_UNSUPPORT_BUFFERTYPE : Z := 0x1010.
Definition HFI_ERR_SESSION_BUFFERCOUNT_TOOSMALL : Z := 0x1011.
Definition HFI_ERR_SESSION_INVALID_SCALE_FACTOR : Z := 0x1012.
Definition HFI_ERR_SESSION_UPSCALE_NOT_SUPPORTED : Z := 0x1013.
Definition HFI_ERR_SESSION_CANNOT_KEEP_ASPECT_RATIO : Z := 0x1014.
Definition HFI_ERR_SESSION_ADDRESS_NOT_ALIGNED : Z := 0x1015.
Definition HFI_ERR_SESSION_BUFFERSIZE_TOOSMALL : Z := 0x1016.
Definition HFI_ERR_SESSION_ABORTED : Z := 0x1017.
Definition HFI_ERR_SESSION_BUFFER_ALREADY_SET : Z := 0x1018.
Definition HFI_ERR_SESSION_BUFFER_ALREADY_RELEASED : Z := 0x1019.
Definition HFI_ERR_SESSION_END_BUFFER_NOT_RELEASED : Z := 0x101a.
Definition HFI_ERR_SESSION_FLUSHED : Z := 0x101b.
Definition HFI_ERR_SESSION_KERNEL_MAX_STREAMS_REACHED : Z := 0x101c.
Definition HFI_ERR_SESSION_MAX_STREAMS_REACHED : Z := 0x101d.
Definition HFI_ERR_SESSION_HW_HANG_DETECTED : Z := 0x101e.
Definition HFI_ERR_SESSION_CRC_MISMATCH : Z := 0x101f.
Definition HFI_ERR_SESSION_SYNX_FENCE_TIMEOUT : Z := 0x1020.
Definition HFI_ERR_SESSION_WORKER_TIMEOUT : Z := 0x1021.
Definition HFI_ERR_SESSION_START_NOT_SENT : Z := 0x1022.
Definition HFI_ERR_SESSION_STOP_NOT_SENT : Z := 0x1023.
Definition HFI_ERR_SESSION_INCORRECT_COMMAND_SEQUENCE : Z := 0x1024.
Definition HFI_ERR_SYNX_INIT_FENCES_FAILURE : Z := 0x1025.

(** [enum hfi_property_sys_crtl] and related constants. *)
Definition HFI_PROPERTY_SYS_DEBUG_CONFIG : Z := 0x1.
Definition HFI_PROPERTY_SYS_RESOURCE_OCMEM_REQUIREMENT_INFO : Z := 0x2.
Definition HFI_PROPERTY_SYS_DISABLE_BUFFER_CHECK : Z := 0x3.
Definition HFI_PROPERTY_SYS_COMMON_IDLE_INDICATOR : Z := 0x4.
Definition HFI_PROPERTY_SYS_CODEC_POWER_PLANE_CTRL : Z := 0x5.
Definition HFI_PROPERTY_SYS_CONFIG_COVERAGE : Z := 0x6.
Definition HFI_PROPERTY_SYS_UBWC_CONFIG : Z := 0x7.
Definition HFI_PROPERTY_SYS_UBWC_STREAM_TYPE : Z := 0x8.
Definition HFI_PROPERTY_SYS_SET_MTP_VERSION : Z := 0x9.
Definition HFI_PROPERTY_SYS_HFI_VERSION : Z := 0xa.
Definition HFI_PROPERTY_SYS_EVA_FW_VERSION : Z := 0xb.
Definition HFI_PROPERTY_SYS_IDLE_INDICATOR : Z := 0x4.
Definition HFI_DEBUG_MODE_QUEUE : Z := 0x1.
Definition HFI_DEBUG_MODE_QDSS : Z := 0x2.
Definition HFI_RESOURCE_SYSCACHE : Z := 0x2.
Definition HFI_TEST_SSR_SW_ERR_FATAL : Z := 0x1.
Definition HFI_TEST_SSR_SW_DIV_BY_ZERO : Z := 0x2.
Definition HFI_TEST_SSR_HW_WDOG_IRQ : Z := 0x3.
Definition HFI_TEST_SSR_XTENSA_NOC : Z := 0x6.
Definition HFI_EVENT_SYS_ERROR : Z := 0x1.
Definition HFI_EVENT_SESSION_ERROR : Z := 0x2.

(** [enum hal_command_response]: what a response packet announces. *)
Inductive hal_command_response : Set :=
  | HAL_NO_RESP
  | HAL_SYS_INIT_DONE
  | HAL_SYS_SET_RESOURCE_DONE
  | HAL_SYS_RELEASE_RESOURCE_DONE
  | HAL_SYS_PING_ACK_DONE
  | HAL_SYS_PC_PREP_DONE
  | HAL_SYS_IDLE
  | HAL_SYS_DEBUG
  | HAL_SYS_WATCHDOG_TIMEOUT
  | HAL_SYS_ERROR
  | HAL_SESSION_EVENT_CHANGE
  | HAL_SESSION_INIT_DONE
  | HAL_SESSION_END_DONE
  | HAL_SESSION_SET_BUFFER_DONE
  | HAL_SESSION_ABORT_DONE
  | HAL_SESSION_START_DONE
  | HAL_SESSION_STOP_DONE
  | HAL_SESSION_CVP_OPERATION_CONFIG
  | HAL_SESSION_FLUSH_DONE
  | HAL_SESSION_SUSPEND_DONE
  | HAL_SESSION_RESUME_DONE
  | HAL_SESSION_SET_PROP_DONE
  | HAL_SESSION_GET_PROP_DONE
  | HAL_SESSION_RELEASE_BUFFER_DONE
  | HAL_SESSION_REGISTER_BUFFER_DONE
  | HAL_SESSION_UNREGISTER_BUFFER_DONE
  | HAL_SESSION_RELEASE_RESOURCE_DONE
  | HAL_SESSION_PROPERTY_INFO
  | HAL_SESSION_DUMP_NOTIFY
  | HAL_SESSION_ERROR
  | HAL_RESPONSE_UNUSED.

#[global] Instance hal_command_response_eq_dec : EqDecision hal_command_response.
Proof. solve_decision. Defined.

Definition hal_command_response_to_Z (x : hal_command_response) : Z :=
  match x with
  | HAL_NO_RESP => 0x0
  | HAL_SYS_INIT_DONE => 0x1
  | HAL_SYS_SET_RESOURCE_DONE => 0x2
  | HAL_SYS_RELEASE_RESOURCE_DONE => 0x3
  | HAL_SYS_PING_ACK_DONE => 0x4
  | HAL_SYS_PC_PREP_DONE => 0x5
  | HAL_SYS_IDLE => 0x6
  | HAL_SYS_DEBUG => 0x7
  | HAL_SYS_WATCHDOG_TIMEOUT => 0x8
  | HAL_SYS_ERROR => 0x9
  | HAL_SESSION_EVENT_CHANGE => 0xa
  | HAL_SESSION_INIT_DONE => 0xb
  | HAL_SESSION_END_DONE => 0xc
  | HAL_SESSION_SET_BUFFER_DONE => 0xd
  | HAL_SESSION_ABORT_DONE => 0xe
  | HAL_SESSION_START_DONE => 0xf
  | HAL_SESSION_STOP_DONE => 0x10
  | HAL_SESSION_CVP_OPERATION_CONFIG => 0x11
  | HAL_SESSION_FLUSH_DONE => 0x12
  | HAL_SESSION_SUSPEND_DONE => 0x13
  | HAL_SESSION_RESUME_DONE => 0x14
  | HAL_SESSION_SET_PROP_DONE => 0x15
  | HAL_SESSION_GET_PROP_DONE => 0x16
  | HAL_SESSION_RELEASE_BUFFER_DONE => 0x17
  | HAL_SESSION_REGISTER_BUFFER_DONE => 0x18
  | HAL_SESSION_UNREGISTER_BUFFER_DONE => 0x19
  | HAL_SESSION_RELEASE_RESOURCE_DONE => 0x1a
  | HAL_SESSION_PROPERTY_INFO => 0x1b
  | HAL_SESSION_DUMP_NOTIFY => 0x1c
  | HAL_SESSION_ERROR => 0x1d
  | HAL_RESPONSE_UNUSED => 0x10000000
  end.

(** [enum cvp_status]. *)
Inductive cvp_status : Set :=
  | CVP_ERR_NONE
  | CVP_ERR_FAIL
  | CVP_ERR_ALLOC_FAIL
  | CVP_ERR_ILLEGAL_OP
  | CVP_ERR_BAD_PARAM
  | CVP_ERR_BAD_HANDLE
  | CVP_ERR_NOT_SUPPORTED
  | CVP_ERR_BAD_STATE
  | CVP_ERR_MAX_CLIENTS
  | CVP_ERR_IFRAME_EXPECTED
  | CVP_ERR_HW_FATAL
  | CVP_ERR_BITSTREAM_ERR
  | CVP_ERR_INDEX_NOMORE
  | CVP_ERR_SEQHDR_PARSE_FAIL
  | CVP_ERR_INSUFFICIENT_BUFFER
  | CVP_ERR_BAD_POWER_STATE
  | CVP_ERR_NO_VALID_SESSION
  | CVP_ERR_TIMEOUT
  | CVP_ERR_CMDQFULL
  | CVP_ERR_START_CODE_NOT_FOUND
  | CVP_ERR_NOC_ERROR
  | CVP_ERR_CLIENT_PRESENT
  | CVP_ERR_CLIENT_FATAL
  | CVP_ERR_CMD_QUEUE_FULL
  | CVP_ERR_UNUSED.

#[global] Instance cvp_status_eq_dec : EqDecision cvp_status.
Proof. solve_decision. Defined.

Definition cvp_status_to_Z (x : cvp_status) : Z :=
  match x with
  | CVP_ERR_NONE => 0x0
  | CVP_ERR_FAIL => 0x80000000
  | CVP_ERR_ALLOC_FAIL => 0x80000001
  | CVP_ERR_ILLEGAL_OP => 0x80000002
  | CVP_ERR_BAD_PARAM => 0x80000003
  | CVP_ERR_BAD_HANDLE => 0x80000004
  | CVP_ERR_NOT_SUPPORTED => 0x80000005
  | CVP_ERR_BAD_STATE => 0x80000006
  | CVP_ERR_MAX_CLIENTS => 0x80000007
  | CVP_ERR_IFRAME_EXPECTED => 0x80000008
  | CVP_ERR_HW_FATAL => 0x80000009
  | CVP_ERR_BITSTREAM_ERR => 0x8000000a
  | CVP_ERR_INDEX_NOMORE => 0x8000000b
  | CVP_ERR_SEQHDR_PARSE_FAIL => 0x8000000c
  | CVP_ERR_INSUFFICIENT_BUFFER => 0x8000000d
  | CVP_ERR_BAD_POWER_STATE => 0x8000000e
  | CVP_ERR_NO_VALID_SESSION => 0x8000000f
  | CVP_ERR_TIMEOUT => 0x80000010
  | CVP_ERR_CMDQFULL => 0x80000011
  | CVP_ERR_START_CODE_NOT_FOUND => 0x80000012
  | CVP_ERR_NOC_ERROR => 0x80000013
  | CVP_ERR_CLIENT_PRESENT => 0x90000001
  | CVP_ERR_CLIENT_FATAL => 0x90000002
  | CVP_ERR_CMD_QUEUE_FULL => 0x90000003
  | CVP_ERR_UNUSED => 0x10000000
  end.

(** [enum hal_ssr_trigger_type]. *)
Inductive hal_ssr_trigger_type : Set :=
  | SSR_ERR_FATAL
  | SSR_SW_DIV_BY_ZERO
  | SSR_HW_WDOG_IRQ
  | SSR_SESSION_ABORT
  | SSR_SESSION_ERROR
  | SSR_FW_SMMU_FAULT
  | SSR_CORE_SMMU_FAULT
  | SSR_SESSION_TIMEOUT.

#[global] Instance hal_ssr_trigger_type_eq_dec : EqDecision hal_ssr_trigger_type.
Proof. solve_decision. Defined.

Definition hal_ssr_trigger_type_to_Z (x : hal_ssr_trigger_type) : Z :=
  match x with
  | SSR_ERR_FATAL => 0x1
  | SSR_SW_DIV_BY_ZERO => 0x2
  | SSR_HW_WDOG_IRQ => 0x3
  | SSR_SESSION_ABORT => 0x4
  | SSR_SESSION_ERROR => 0x5
  | SSR_FW_SMMU_FAULT => 0x6
  | SSR_CORE_SMMU_FAULT => 0x7
  | SSR_SESSION_TIMEOUT => 0x8
  end.

(** [enum queue_state]: life cycle of a session or fence queue. *)
Inductive queue_state : Set :=
  | QUEUE_INIT
  | QUEUE_ACTIVE
  | QUEUE_START
  | QUEUE_STOP
  | QUEUE_INVALID.

#[global] Instance queue_state_eq_dec : EqDecision queue_state.
Proof. solve_decision. Defined.

Definition queue_state_to_Z (x : queue_state) : Z :=
  match x with
  | QUEUE_INIT => 0x0
  | QUEUE_ACTIVE => 0x1
  | QUEUE_START => 0x2
  | QUEUE_STOP => 0x3
  | QUEUE_INVALID => 0x4
  end.

(** [enum instance_state]: life cycle of a session. *)
Inductive instance_state : Set :=
  | MSM_CVP_CORE_UNINIT_DONE
  | MSM_CVP_CORE_INIT
  | MSM_CVP_CORE_INIT_DONE
  | MSM_CVP_OPEN
  | MSM_CVP_OPEN_DONE
  | MSM_CVP_CLOSE
  | MSM_CVP_CLOSE_DONE
  | MSM_CVP_CORE_UNINIT
  | MSM_CVP_CORE_INVALID.

#[global] Instance instance_state_eq_dec : EqDecision instance_state.
Proof. solve_decision. Defined.

Definition instance_state_to_Z (x : instance_state) : Z :=
  match x with
  | MSM_CVP_CORE_UNINIT_DONE => 0x1
  | MSM_CVP_CORE_INIT => 0x2
  | MSM_CVP_CORE_INIT_DONE => 0x3
  | MSM_CVP_OPEN => 0x4
  | MSM_CVP_OPEN_DONE => 0x5
  | MSM_CVP_CLOSE => 0x6
  | MSM_CVP_CLOSE_DONE => 0x7
  | MSM_CVP_CORE_UNINIT => 0x8
  | MSM_CVP_CORE_INVALID => 0x9
  end.

(** Bit 63 of [kdata] marks a packet with fences. *)
Definition FENCE_BIT : Z := 2 ^ 63.
