(* ===== verification/HfiPacket.v ===== *)
(** Packet construction (src/msm/eva/hfi_packetization.c).

    A packet is built in place in a buffer of 32-bit words the caller owns; a store outside
    the buffer is a [Fault].  Each [cvp_create_pkt_*] is translated store by store, in
    source order; [hfi_default] is the operations table the rest of the driver calls. *)

From S2P Require Import Prelude HfiTypes HfiQueue.
Import Queue.

(** * Word stores *)

(** [buf->field = v], the field being word [i] of the packet. *)
Definition store (m : list Z) (i : nat) (v : Z) : outcome (list Z) :=
  if (i <? length m)%nat then Done (<[i := v]> m) else Fault.

Fixpoint stores (m : list Z) (l : list (nat * Z)) : outcome (list Z) :=
  match l with
  | [] => Done m
  | (i, v) :: l' => let! m' := store m i v in stores m' l'
  end.

Fixpoint inserts (m : list Z) (l : list (nat * Z)) : list Z :=
  match l with
  | [] => m
  | (i, v) :: l' => inserts (<[i := v]> m) l'
  end.

Lemma stores_ok l : ∀ m,
  Forall (λ iv, (fst iv < length m)%nat) l → stores m l = Done (inserts m l).
Proof.
  induction l as [|[i v] l IH]; intros m Hf; [done|].
  inversion_clear Hf as [|?? Hi Hl]. cbn [fst] in Hi. cbn [stores inserts]. unfold store.
  rewrite (proj2 (Nat.ltb_lt _ _) Hi). cbn [obind]. apply IH.
  by rewrite length_insert.
Qed.

Lemma length_inserts l : ∀ m, length (inserts m l) = length m.
Proof. induction l as [|[i v] l IH]; intros m; cbn; [done|]. by rewrite IH, length_insert. Qed.

(** Word offsets of the header fields every packet starts with. *)
Abbreviation F_size := 0%nat.
Abbreviation F_packet_type := 1%nat.
Abbreviation F_session_id := 2%nat.

(** * Inputs *)

(** What packet construction reads of [struct msm_cvp_inst] (through
    [session->session_id]). *)
Record inst_info := mkInstInfo {
  sess_id : Z;
  prop_type : Z;
  prop_kernel_mask : Z;
  prop_priority : Z;
  prop_is_secure : Z;
  prop_dsp_mask : Z
}.

(** [struct cvp_hal_session], as far as packets go: its instance pointer may be NULL. *)
Record hal_session := mkHalSession { session_inst : option inst_info }.

(** [enum cvp_resource_id] and [struct cvp_resource_hdr]. *)
Inductive cvp_resource_id := CVP_RESOURCE_NONE | CVP_RESOURCE_SYSCACHE.
Record cvp_resource_hdr := mkResourceHdr {
  resource_id : cvp_resource_id; resource_handle : Z }.

(** [struct cvp_hfi_resource_syscache_info_type]: the entry count and the (target_hw,
    sc_id) pairs that follow it. *)
Record syscache_info := mkSyscache {
  num_entries : Z; rg_subcache_entries : list (Z * Z) }.

(** [struct msm_cvp_ubwc_config_data]; the override bits are one-bit fields. *)
Record msm_cvp_ubwc_config_data := mkUbwc {
  max_channel_override : bool; mal_length_override : bool; hb_override : bool;
  bank_swzl_level_override : bool; bank_spreading_override : bool;
  max_channels : Z; mal_length : Z; highest_bank_bit : Z; bank_swzl_level : Z;
  bank_spreading : Z
}.

(** [w] with bit [i] set to [b]: assignment to a one-bit field of an override word. *)
Definition set_bit (w : Z) (i : Z) (b : bool) : Z :=
  if b then Z.setbit w i else Z.clearbit w i.

Definition pkt_result : Type := outcome (Z * list Z).

Definition built (l : outcome (list Z)) : pkt_result := let! m := l in Done (0, m).

(** * The construction routines *)
Section packets.

(** [hash32_ptr] of the kernel, and the module parameter [msm_cvp_fw_debug_mode]. *)
Context (hash32_ptr : Z → Z) (msm_cvp_fw_debug_mode : Z).

(** A NULL packet pointer is refused before anything else. *)
Definition with_pkt (pkt : option (list Z)) (k : list Z → pkt_result) : pkt_result :=
  match pkt with None => Done (- EINVAL, []) | Some m => k m end.

Definition cvp_create_pkt_cmd_sys_init (pkt : option (list Z)) (arch_type : Z) :=
  with_pkt pkt (λ m, built (stores m
    [(F_packet_type, HFI_CMD_SYS_INIT); (F_size, 12); (2%nat, arch_type)])).

Definition cvp_create_pkt_cmd_sys_pc_prep (pkt : option (list Z)) :=
  with_pkt pkt (λ m, built (stores m
    [(F_packet_type, HFI_CMD_SYS_PC_PREP); (F_size, 8)])).

Definition cvp_create_pkt_cmd_sys_debug_config (pkt : option (list Z)) (mode : Z) :=
  with_pkt pkt (λ m,
    let! m := stores m
      [(F_size, u32 (12 + 8 + 4)); (F_packet_type, HFI_CMD_SYS_SET_PROPERTY);
       (2%nat, 1); (3%nat, HFI_PROPERTY_SYS_DEBUG_CONFIG);
       (4%nat, mode); (5%nat, HFI_DEBUG_MODE_QUEUE)] in
    if msm_cvp_fw_debug_mode <=? Z.lor HFI_DEBUG_MODE_QUEUE HFI_DEBUG_MODE_QDSS
    then built (store m 5 msm_cvp_fw_debug_mode)
    else Done (0, m)).

Definition cvp_create_pkt_cmd_sys_coverage_config (pkt : option (list Z)) (mode : Z) :=
  with_pkt pkt (λ m, built (stores m
    [(F_size, u32 (12 + 2 * 4)); (F_packet_type, HFI_CMD_SYS_SET_PROPERTY);
     (2%nat, 1); (3%nat, HFI_PROPERTY_SYS_CONFIG_COVERAGE); (4%nat, mode)])).

Definition cvp_create_pkt_cmd_sys_set_idle_indicator (pkt : option (list Z)) (mode : Z) :=
  with_pkt pkt (λ m, built (stores m
    [(F_size, u32 (12 + 2 * 4)); (F_packet_type, HFI_CMD_SYS_SET_PROPERTY);
     (2%nat, 1); (3%nat, HFI_PROPERTY_SYS_IDLE_INDICATOR); (4%nat, mode)])).

(** The copy loop of the SYSCACHE case, from entry [i] on. *)
Fixpoint copy_subcaches (m : list Z) (i : nat) (n : nat) (res_sc : list (Z * Z))
  : outcome (list Z) :=
  match n with
  | O => Done m
  | S n' =>
      match res_sc !! i with
      | None => Fault
      | Some (target_hw, sc_id) =>
          let! m' := stores m [((5 + 2 * i)%nat, target_hw); ((6 + 2 * i)%nat, sc_id)] in
          copy_subcaches m' (S i) n' res_sc
      end
  end.

Definition cvp_create_pkt_cmd_sys_set_resource (pkt : option (list Z))
    (res_hdr : option cvp_resource_hdr) (res_value : option syscache_info) : pkt_result :=
  match pkt, res_hdr, res_value with
  | Some m, Some h, Some sc =>
      let! m := stores m
        [(F_packet_type, HFI_CMD_SYS_SET_RESOURCE); (F_size, u32 (16 + 4));
         (2%nat, hash32_ptr (resource_handle h))] in
      match resource_id h with
      | CVP_RESOURCE_SYSCACHE =>
          let! m := stores m
            [(3%nat, HFI_RESOURCE_SYSCACHE); (4%nat, num_entries sc);
             (F_size, u32_add (u32 (16 + 4)) (u32_mul 8 (num_entries sc)))] in
          built (copy_subcaches m 0 (Z.to_nat (num_entries sc)) (rg_subcache_entries sc))
      | CVP_RESOURCE_NONE => Done (- ENOTSUPP, m)
      end
  | _, _, _ => Done (- EINVAL, default [] pkt)
  end.

Definition cvp_create_pkt_cmd_sys_release_resource (pkt : option (list Z))
    (res_hdr : option cvp_resource_hdr) : pkt_result :=
  match pkt, res_hdr with
  | Some m, Some h =>
      let! m := stores m
        [(F_size, 16); (F_packet_type, HFI_CMD_SYS_RELEASE_RESOURCE);
         (3%nat, hash32_ptr (resource_handle h))] in
      match resource_id h with
      | CVP_RESOURCE_SYSCACHE => built (store m 2 HFI_RESOURCE_SYSCACHE)
      | CVP_RESOURCE_NONE => Done (- ENOTSUPP, m)
      end
  | _, _ => Done (- EINVAL, default [] pkt)
  end.

(** The [session], [session->session_id] and packet checks of the session routines. *)
Definition with_session (pkt : option (list Z)) (session : option hal_session)
    (k : list Z → inst_info → pkt_result) : pkt_result :=
  match session with
  | None => Done (- EINVAL, default [] pkt)
  | Some s =>
      match pkt, session_inst s with
      | Some m, Some inst => k m inst
      | _, _ => Done (- EINVAL, default [] pkt)
      end
  end.

Definition cvp_create_pkt_cmd_sys_session_init (pkt : option (list Z))
    (session : option hal_session) :=
  with_session pkt session (λ m inst, built (stores m
    [(F_size, 32); (F_packet_type, HFI_CMD_SYS_SESSION_INIT);
     (F_session_id, sess_id inst); (3%nat, prop_type inst);
     (4%nat, prop_kernel_mask inst); (5%nat, prop_priority inst);
     (6%nat, prop_is_secure inst); (7%nat, prop_dsp_mask inst)])).

(** Words 4 to 13 hold [struct cvp_hfi_cmd_sys_set_ubwc_config_packet_type]; its override
    bits are assigned one by one into whatever word 6 holds. *)
Definition create_pkt_cmd_sys_ubwc_config (pkt : option (list Z))
    (c : msm_cvp_ubwc_config_data) :=
  with_pkt pkt (λ m,
    let! m := stores m
      [(F_size, u32 (12 + 40 + 4)); (F_packet_type, HFI_CMD_SYS_SET_PROPERTY);
       (2%nat, 1); (3%nat, HFI_PROPERTY_SYS_UBWC_CONFIG); (7%nat, max_channels c)] in
    let! w := word_at m 6 in
    let! m := stores m
      [(6%nat, set_bit w 0 (max_channel_override c)); (8%nat, mal_length c)] in
    let! w := word_at m 6 in
    let! m := stores m
      [(6%nat, set_bit w 1 (mal_length_override c)); (9%nat, highest_bank_bit c)] in
    let! w := word_at m 6 in
    let! m := stores m
      [(6%nat, set_bit w 2 (hb_override c)); (10%nat, bank_swzl_level c)] in
    let! w := word_at m 6 in
    let! m := stores m
      [(6%nat, set_bit w 3 (bank_swzl_level_override c)); (11%nat, bank_spreading c)] in
    let! w := word_at m 6 in
    built (stores m [(6%nat, set_bit w 4 (bank_spreading_override c)); (4%nat, 40)])).

Definition cvp_create_pkt_cmd_session_cmd (pkt : option (list Z)) (pkt_type : Z)
    (session : option hal_session) :=
  with_session pkt session (λ m inst, built (stores m
    [(F_size, 12); (F_packet_type, pkt_type); (F_session_id, sess_id inst)])).

(** [client_data.kdata] is the 64-bit field at words 8 and 9. *)
Definition cvp_session_cmd_ktid (pkt : option (list Z)) (pkt_type : Z)
    (session : option hal_session) (ktid : Z) :=
  with_session pkt session (λ m inst, built (stores m
    [(F_size, 64); (F_packet_type, pkt_type); (F_session_id, sess_id inst);
     (8%nat, u32 ktid); (9%nat, u32 (Z.shiftr ktid 32))])).

Definition cvp_create_pkt_cmd_sys_power_control (pkt : option (list Z)) (enable : Z) :=
  with_pkt pkt (λ m, built (stores m
    [(F_size, u32 (12 + 4 + 4)); (F_packet_type, HFI_CMD_SYS_SET_PROPERTY);
     (2%nat, 1); (3%nat, HFI_PROPERTY_SYS_CODEC_POWER_PLANE_CTRL); (4%nat, enable)])).

Definition cvp_create_pkt_cmd_session_set_buffers (cmd : option (list Z))
    (session : option hal_session) (iova size : Z) :=
  with_session cmd session (λ m inst, built (stores m
    [(F_packet_type, HFI_CMD_SESSION_CVP_SET_BUFFERS); (F_session_id, sess_id inst);
     (14%nat, size); (F_size, 96); (13%nat, iova)])).

Definition cvp_create_pkt_cmd_session_release_buffers (cmd : option (list Z))
    (session : option hal_session) :=
  with_session cmd session (λ m inst, built (stores m
    [(F_packet_type, HFI_CMD_SESSION_CVP_RELEASE_BUFFERS); (F_session_id, sess_id inst);
     (15%nat, 1); (14%nat, 0); (F_size, u32 (68 + (1 - 1) * 4))])).

Definition get_hfi_ssr_type (type : hal_ssr_trigger_type) : Z :=
  match type with
  | SSR_ERR_FATAL => HFI_TEST_SSR_SW_ERR_FATAL
  | SSR_SW_DIV_BY_ZERO => HFI_TEST_SSR_SW_DIV_BY_ZERO
  | SSR_HW_WDOG_IRQ => HFI_TEST_SSR_HW_WDOG_IRQ
  | SSR_SESSION_ERROR => HFI_TEST_SSR_SW_ERR_FATAL
  | SSR_SESSION_TIMEOUT => HFI_TEST_SSR_SW_ERR_FATAL
  | SSR_FW_SMMU_FAULT => HFI_TEST_SSR_XTENSA_NOC
  | _ => hal_ssr_trigger_type_to_Z type
  end.

Definition cvp_create_pkt_ssr_cmd (type : hal_ssr_trigger_type) (pkt : option (list Z)) :=
  with_pkt pkt (λ m, built (stores m
    [(F_size, 12); (F_packet_type, HFI_CMD_SYS_TEST_SSR); (2%nat, get_hfi_ssr_type type)])).

Definition cvp_create_pkt_cmd_sys_image_version (pkt : option (list Z)) :=
  with_pkt pkt (λ m, built (stores m
    [(F_size, u32 (12 + 4)); (F_packet_type, HFI_CMD_SYS_GET_PROPERTY);
     (2%nat, 1); (3%nat, HFI_PROPERTY_SYS_EVA_FW_VERSION)])).

(** * The operations table *)

(** A call through [hfi_default], with the routine's arguments. *)
Inductive pkt_op :=
| sys_init (arch_type : Z)
| sys_pc_prep
| sys_power_control (enable : Z)
| sys_set_resource (h : cvp_resource_hdr) (sc : syscache_info)
| sys_debug_config (mode : Z)
| sys_coverage_config (mode : Z)
| sys_set_idle_indicator (mode : Z)
| sys_release_resource (h : cvp_resource_hdr)
| sys_image_version
| sys_ubwc_config (c : msm_cvp_ubwc_config_data)
| ssr_cmd (type : hal_ssr_trigger_type)
| session_init (s : hal_session)
| session_cmd (pkt_type : Z) (s : hal_session)
| session_cmd_ktid (pkt_type : Z) (s : hal_session) (ktid : Z)
| session_set_buffers (s : hal_session) (iova size : Z)
| session_release_buffers (s : hal_session).

(** [hfi_default]. *)
Definition hfi_default (op : pkt_op) (pkt : option (list Z)) : pkt_result :=
  match op with
  | sys_init a => cvp_create_pkt_cmd_sys_init pkt a
  | sys_pc_prep => cvp_create_pkt_cmd_sys_pc_prep pkt
  | sys_power_control e => cvp_create_pkt_cmd_sys_power_control pkt e
  | sys_set_resource h sc => cvp_create_pkt_cmd_sys_set_resource pkt (Some h) (Some sc)
  | sys_debug_config mode => cvp_create_pkt_cmd_sys_debug_config pkt mode
  | sys_coverage_config mode => cvp_create_pkt_cmd_sys_coverage_config pkt mode
  | sys_set_idle_indicator mode => cvp_create_pkt_cmd_sys_set_idle_indicator pkt mode
  | sys_release_resource h => cvp_create_pkt_cmd_sys_release_resource pkt (Some h)
  | sys_image_version => cvp_create_pkt_cmd_sys_image_version pkt
  | sys_ubwc_config c => create_pkt_cmd_sys_ubwc_config pkt c
  | ssr_cmd t => cvp_create_pkt_ssr_cmd t pkt
  | session_init s => cvp_create_pkt_cmd_sys_session_init pkt (Some s)
  | session_cmd t s => cvp_create_pkt_cmd_session_cmd pkt t (Some s)
  | session_cmd_ktid t s k => cvp_session_cmd_ktid pkt t (Some s) k
  | session_set_buffers s iova size =>
      cvp_create_pkt_cmd_session_set_buffers pkt (Some s) iova size
  | session_release_buffers s => cvp_create_pkt_cmd_session_release_buffers pkt (Some s)
  end.

End packets.

(** * What each operation builds *)

(** Words of the packet, and its type word. *)
Definition op_words (op : pkt_op) : nat :=
  match op with
  | sys_init _ => 3 | sys_pc_prep => 2 | sys_power_control _ => 5
  | sys_set_resource _ sc => 5 + 2 * Z.to_nat (num_entries sc)
  | sys_debug_config _ => 6 | sys_coverage_config _ => 5 | sys_set_idle_indicator _ => 5
  | sys_release_resource _ => 4 | sys_image_version => 4 | sys_ubwc_config _ => 14
  | ssr_cmd _ => 3 | session_init _ => 8 | session_cmd _ _ => 3
  | session_cmd_ktid _ _ _ => 16 | session_set_buffers _ _ _ => 24
  | session_release_buffers _ => 17
  end.

Definition op_type (op : pkt_op) : Z :=
  match op with
  | sys_init _ => HFI_CMD_SYS_INIT | sys_pc_prep => HFI_CMD_SYS_PC_PREP
  | sys_set_resource _ _ => HFI_CMD_SYS_SET_RESOURCE
  | sys_release_resource _ => HFI_CMD_SYS_RELEASE_RESOURCE
  | sys_image_version => HFI_CMD_SYS_GET_PROPERTY
  | ssr_cmd _ => HFI_CMD_SYS_TEST_SSR
  | session_init _ => HFI_CMD_SYS_SESSION_INIT
  | session_cmd t _ => t | session_cmd_ktid t _ _ => t
  | session_set_buffers _ _ _ => HFI_CMD_SESSION_CVP_SET_BUFFERS
  | session_release_buffers _ => HFI_CMD_SESSION_CVP_RELEASE_BUFFERS
  | _ => HFI_CMD_SYS_SET_PROPERTY
  end.

Definition session_ok (s : hal_session) : bool :=
  match session_inst s with Some _ => true | None => false end.

(** The inputs for which the routine does not refuse: a session with an instance, a
    SYSCACHE resource, and as many entries as the resource announces (and no more than
    fit in a packet). *)
Definition op_valid (op : pkt_op) : bool :=
  match op with
  | sys_set_resource h sc =>
      match resource_id h with CVP_RESOURCE_SYSCACHE => true | _ => false end
      && (0 <=? num_entries sc) && (num_entries sc <=? 1533)
      && (num_entries sc <=? Z.of_nat (length (rg_subcache_entries sc)))
  | sys_release_resource h =>
      match resource_id h with CVP_RESOURCE_SYSCACHE => true | _ => false end
  | session_init s | session_cmd _ s | session_cmd_ktid _ s _ | session_set_buffers s _ _
  | session_release_buffers s => session_ok s
  | _ => true
  end.

(** ** Lemmas *)

Definition flat_entries (l : list (Z * Z)) : list Z := concat ((λ e, [fst e; snd e]) <$> l).

Lemma length_flat_entries l : length (flat_entries l) = (2 * length l)%nat.
Proof. unfold flat_entries. induction l as [|[a b] l IH]; [done|]. cbn in *. lia. Qed.

Lemma copy_subcaches_ok n : ∀ i pre old rest res,
  length pre = (5 + 2 * i)%nat → length old = (2 * n)%nat → (i + n <= length res)%nat →
  copy_subcaches (pre ++ old ++ rest) i n res =
    Done (pre ++ flat_entries (take n (drop i res)) ++ rest).
Proof.
  induction n as [|n IH]; intros i pre old rest res Hpre Hold Hres.
  - destruct old; [done|]. cbn in Hold. lia.
  - destruct old as [|a [|b old]]; cbn in Hold; try lia.
    destruct (lookup_lt_is_Some_2 res i) as [[hw id] He]; [lia|].
    cbn [copy_subcaches]. rewrite He, stores_ok
      by (repeat constructor; cbn; list_len).
    cbn [obind inserts].
    replace (<[_:=id]> _) with ((pre ++ [hw; id]) ++ old ++ rest).
    + rewrite IH by (cbn; list_len). rewrite (drop_S _ _ _ He). cbn [take].
      unfold flat_entries at 2. cbn. by rewrite <- !app_assoc.
    + rewrite insert_app_r_alt by lia. rewrite insert_app_r_alt by lia.
      rewrite <- app_assoc. f_equal.
      replace (5 + 2 * i - length pre)%nat with 0%nat by lia.
      by replace (6 + 2 * i - length pre)%nat with 1%nat by lia.
Qed.

Ltac destruct_words m n :=
  match n with
  | O => idtac
  | S ?n' => destruct m as [|? m]; [exfalso; cbn in *; lia|]; destruct_words m n'
  end.

Section packet_lemmas.
Context (hash32_ptr : Z → Z) (msm_cvp_fw_debug_mode : Z).

(** The shape of a successful construction of [op] in [m]. *)
Definition op_built (op : pkt_op) (m m' : list Z) : Prop :=
  length m' = length m ∧ packet_ok (packet_of m') = true
  ∧ length (packet_of m') = op_words op
  ∧ drop (op_words op) m' = drop (op_words op) m
  ∧ m' !! F_packet_type = Some (op_type op).

Lemma op_built_app op m p rest :
  p !! 0%nat = Some (4 * Z.of_nat (length p)) → p !! 1%nat = Some (op_type op) →
  length p = op_words op → 4 * Z.of_nat (length p) <= CVP_IFACEQ_VAR_HUGE_PKT_SIZE →
  (length p <= length m)%nat → rest = drop (op_words op) m →
  op_built op m (p ++ rest).
Proof.
  intros H0 H1 Hl Hmax Hlen ->.
  assert (Hhd : (p ++ drop (op_words op) m) !!! 0%nat = 4 * Z.of_nat (length p)).
  { apply list_lookup_total_correct. rewrite lookup_app_l; [done|].
    by eapply lookup_lt_Some. }
  assert (Hp : packet_of (p ++ drop (op_words op) m) = p).
  { unfold packet_of. rewrite Hhd. unfold u32_shr. rewrite shr2_div.
    rewrite Z.mul_comm, Z.div_mul, Nat2Z.id by lia. apply take_app_length. }
  split; [list_len|]. split; [|split; [by rewrite Hp|split]].
  - rewrite Hp. destruct p as [|size p]; [done|]. cbn [length] in *. injection H0 as ->.
    unfold packet_ok. cbn [length]. set (k := Z.of_nat _) in *.
    rewrite shr2_div, (Z.mul_comm 4 k), Z.div_mul, Z.eqb_refl by lia.
    rewrite (proj2 (Z.leb_le 0 _)), (proj2 (Z.leb_le _ _)) by lia. done.
  - rewrite <- Hl. apply drop_app_length.
  - rewrite lookup_app_l; [done|]. by eapply lookup_lt_Some.
Qed.

Lemma set_resource_built h sc m :
  op_valid (sys_set_resource h sc) = true →
  (op_words (sys_set_resource h sc) <= length m)%nat →
  ∃ m', cvp_create_pkt_cmd_sys_set_resource hash32_ptr (Some m) (Some h) (Some sc) =
    Done (0, m') ∧ op_built (sys_set_resource h sc) m m'.
Proof.
  cbn [op_valid op_words]. intros Hv Hl. zify_bool.
  destruct h as [[] hd]; cbn in *; [done|].
  set (n := Z.to_nat (num_entries sc)) in *.
  destruct_words m 5%nat. rewrite <- (take_drop (2 * n) m).
  unfold cvp_create_pkt_cmd_sys_set_resource. cbn [resource_id resource_handle].
  set (rest := take (2 * n) m ++ drop (2 * n) m). fold n.
  cbn [stores store length Nat.ltb Nat.leb obind insert list_insert].
  set (size := u32_add _ _).
  match goal with |- context [copy_subcaches (?a :: ?b :: ?c :: ?d :: ?e :: rest) _ _ _] =>
    change (a :: b :: c :: d :: e :: rest) with ([a; b; c; d; e] ++ rest) end.
  subst rest. rewrite copy_subcaches_ok by (try done; cbn in Hl; list_len).
  cbn [obind built drop]. eexists. split; [done|].
  assert (Hsz : size = 20 + 8 * num_entries sc).
  { subst size. unfold u32_add, u32_mul. rewrite (u32_small (8 * _)) by (unfold is_u32; lia).
    change (u32 (16 + 4)) with 20. apply u32_small. unfold is_u32; lia. }
  rewrite app_assoc, drop_0.
  assert (Hfl : length (flat_entries (take n (rg_subcache_entries sc))) = (2 * n)%nat)
    by (rewrite length_flat_entries; list_len).
  apply op_built_app; cbn [app length op_words num_entries]; fold n; rewrite ?Hfl;
    unfold CVP_IFACEQ_VAR_HUGE_PKT_SIZE; try done; try lia.
  - cbn [lookup list_lookup]. f_equal. lia.
  - cbn in Hl. rewrite length_app, length_take, length_drop. lia.
  - cbn. rewrite <- (take_drop (2 * n) m) at 1. list_simp. list_congr.
Qed.

(** Every fixed-size routine, by running it on a buffer of that many words. *)
Ltac run_packet m n :=
  destruct_words m n; eexists; split; [reflexivity|];
  match goal with |- op_built ?op _ ?m' =>
    let p := eval cbv [op_words] in (op_words op) in
    rewrite <- (take_drop p m'); apply op_built_app; try reflexivity;
      unfold CVP_IFACEQ_VAR_HUGE_PKT_SIZE; rewrite ?length_take; cbn; lia
  end.

Lemma hfi_default_built op m :
  op_valid op = true → (op_words op <= length m)%nat →
  ∃ m', hfi_default hash32_ptr msm_cvp_fw_debug_mode op (Some m) = Done (0, m')
    ∧ op_built op m m'.
Proof.
  intros Hv Hl. destruct op; cbn [op_words] in Hl; cbn [hfi_default].
  - run_packet m 3%nat.
  - run_packet m 2%nat.
  - run_packet m 5%nat.
  - by apply set_resource_built.
  - unfold cvp_create_pkt_cmd_sys_debug_config, with_pkt.
    destruct (msm_cvp_fw_debug_mode <=? _); run_packet m 6%nat.
  - run_packet m 5%nat.
  - run_packet m 5%nat.
  - destruct h as [[] hd]; [done|]. run_packet m 4%nat.
  - run_packet m 4%nat.
  - run_packet m 14%nat.
  - run_packet m 3%nat.
  - destruct s as [[inst|]]; [|done]. run_packet m 8%nat.
  - destruct s as [[inst|]]; [|done]. run_packet m 3%nat.
  - destruct s as [[inst|]]; [|done]. run_packet m 16%nat.
  - destruct s as [[inst|]]; [|done]. run_packet m 24%nat.
  - destruct s as [[inst|]]; [|done]. run_packet m 17%nat.
Qed.

End packet_lemmas.

(** * Theorems *)

(** C4. Every routine of the operations table, on inputs it does not refuse and a buffer
    with room for its packet, succeeds without touching memory outside the packet, and
    builds a packet whose size field is its length in bytes, whose type word is the one of
    the operation and which the HFI queue accepts as well-formed; the rest of the buffer is
    unchanged. *)
Theorem create_packet_well_formed (hash32_ptr : Z → Z) (msm_cvp_fw_debug_mode : Z)
    (op : pkt_op) (m : list Z) :
  op_valid op = true → (op_words op <= length m)%nat →
  ∃ m', hfi_default hash32_ptr msm_cvp_fw_debug_mode op (Some m) = Done (0, m')
    ∧ op_built op m m'.
Proof. apply hfi_default_built. Qed.

(** A SYSCACHE resource with three subcaches, as [__set_subcaches] builds it. *)
Definition demo_set_resource : pkt_op :=
  sys_set_resource (mkResourceHdr CVP_RESOURCE_SYSCACHE 0xAB)
    (mkSyscache 3 [(0, 17); (1, 18); (2, 19)]).

Lemma create_packet_well_formed_witness :
  ∃ m', hfi_default (λ h, h) 3 demo_set_resource (Some (replicate 11 0)) = Done (0, m')
    ∧ op_built demo_set_resource (replicate 11 0) m'.
Proof.
  apply create_packet_well_formed; [reflexivity|]. vm_compute. lia.
Defined.

(** C5. End to end: a command built by any routine of the operations table and handed, in
    its caller's buffer, to [__write_queue] on an empty ring is accepted, and the next read
    of the ring returns exactly the words of that packet. *)
Theorem command_reaches_reader (hash32_ptr : Z → Z) (msm_cvp_fw_debug_mode : Z)
    (op : pkt_op) (m : list Z) (q : cvp_iface_q_info) :
  op_valid op = true → (op_words op <= length m)%nat → holds q [] →
  ∃ m' q1 buf q2,
    hfi_default hash32_ptr msm_cvp_fw_debug_mode op (Some m) = Done (0, m')
    ∧ __write_queue no_interference (Some q) (Some m') None =
        Done (mkWres 0 None (Some q1))
    ∧ ch_recv q1 = Done (0, buf, q2)
    ∧ take (op_words op) buf = take (op_words op) m' ∧ holds q2 [].
Proof.
  intros Hv Hl Hh. destruct (hfi_default_built hash32_ptr msm_cvp_fw_debug_mode op m Hv Hl)
    as (m' & Hb & Hlen & Hok & Hw & _ & _).
  destruct (packet_of_head m' Hok) as (_ & _ & _ & Htk & _). rewrite Hw in Htk.
  destruct (@ch_send_spec _ hfi_channel _ q [] (packet_of m') Hh Hok) as (rc & q1 & Hs & Hcap & Hr).
  assert (Hlt : (op_words op <= 3071)%nat).
  { destruct op; cbn in *; zify_bool; lia. }
  pose proof (qm_huge q (qo_mem q (proj1 Hh))) as Hq.
  change (CVP_IFACEQ_VAR_HUGE_PKT_SIZE / 4) with 3072 in Hq.
  rewrite (proj2 (Z.leb_gt _ _)) in Hr by (cbn; rewrite Hw; lia).
  destruct Hr as [-> Hr]. cbn [app] in Hr.
  destruct (@ch_recv_spec _ hfi_channel _ q1 [packet_of m'] Hr) as (rc & buf & q2 & Hrv & _ & Hpost).
  destruct Hpost as (Hz & Hbuf & Hh2). subst rc.
  exists m'. cbn [ch_send hfi_channel] in Hs.
  rewrite (write_queue_eq _ _ _ _ (proj1 Hh) Hok) in Hs.
  rewrite (write_queue_buf_eq _ _ _ _ (proj1 Hh) Hok). cbv zeta.
  case_match; cbn [obind w_rc w_q] in Hs; [discriminate Hs|].
  injection Hs as Hs. subst q1. do 3 eexists. split; [exact Hb|]. split; [reflexivity|].
  split; [exact Hrv|]. rewrite Hw in Hbuf. by rewrite Hbuf, Htk.
Qed.

Lemma command_reaches_reader_witness :
  ∃ m' q1 buf q2,
    hfi_default (λ h, h) 3 demo_set_resource (Some (replicate 25 0)) = Done (0, m')
    ∧ __write_queue no_interference (Some (demo_queue 0 3072 3066)) (Some m') None =
        Done (mkWres 0 None (Some q1))
    ∧ ch_recv q1 = Done (0, buf, q2)
    ∧ take (op_words demo_set_resource) buf = take (op_words demo_set_resource) m'
    ∧ holds q2 [].
Proof.
  apply command_reaches_reader; [reflexivity|vm_compute; lia|].
  apply demo_queue_holds; lia.
Defined.

Lemma set_bit_spec w i b j :
  0 <= i → Z.testbit (set_bit w i b) j = if j =? i then b else Z.testbit w j.
Proof.
  intros Hi. unfold set_bit. destruct (Z.eqb_spec j i) as [->|Hne]; destruct b.
  - by apply Z.setbit_eq.
  - apply Z.clearbit_eq.
  - rewrite Z.setbit_neq; done.
  - rewrite Z.clearbit_neq; done.
Qed.

(** The UBWC packet carries the configuration: its override word holds each override
    flag at its bit and keeps the buffer's other bits, and the five parameters follow. *)
Theorem ubwc_packet_carries_config (c : msm_cvp_ubwc_config_data) (m : list Z) (w : Z) :
  (14 <= length m)%nat → m !! 6%nat = Some w →
  ∃ m' w', create_pkt_cmd_sys_ubwc_config (Some m) c = Done (0, m')
    ∧ m' !! 6%nat = Some w'
    ∧ (∀ j, Z.testbit w' j =
         if j =? 0 then max_channel_override c else if j =? 1 then mal_length_override c
         else if j =? 2 then hb_override c else if j =? 3 then bank_swzl_level_override c
         else if j =? 4 then bank_spreading_override c else Z.testbit w j)
    ∧ take 5 (drop 7 m') = [max_channels c; mal_length c; highest_bank_bit c;
                            bank_swzl_level c; bank_spreading c].
Proof.
  intros Hl Hw. destruct_words m 14%nat. cbn in Hw. injection Hw as ->.
  do 2 eexists. split; [reflexivity|]. split; [reflexivity|]. split; [|reflexivity].
  intros j. rewrite !set_bit_spec by lia.
  destruct (Z.eqb_spec j 4) as [->|]; [done|]. destruct (Z.eqb_spec j 3) as [->|]; [done|].
  destruct (Z.eqb_spec j 2) as [->|]; [done|]. destruct (Z.eqb_spec j 1) as [->|]; [done|].
  done.
Qed.

Lemma ubwc_packet_carries_config_witness :
  ∃ m' w', create_pkt_cmd_sys_ubwc_config (Some (replicate 14 0))
      (mkUbwc true true false true false 4 32 16 0 1) = Done (0, m')
    ∧ m' !! 6%nat = Some w' ∧ Z.testbit w' 3 = true.
Proof.
  destruct (ubwc_packet_carries_config (mkUbwc true true false true false 4 32 16 0 1)
    (replicate 14 0) 0) as (m' & w' & H1 & H2 & H3 & _).
  - vm_compute. lia.
  - reflexivity.
  - exists m', w'. split; [exact H1|]. split; [exact H2|]. exact (H3 3).
Defined.

(** What the routines refuse: a NULL packet, a session without an instance and a
    resource other than SYSCACHE, with the error of the source. *)
Theorem create_packet_refusals (hash32_ptr : Z → Z) (msm_cvp_fw_debug_mode : Z)
    (op : pkt_op) (m : list Z) :
  hfi_default hash32_ptr msm_cvp_fw_debug_mode op None = Done (- EINVAL, [])
  ∧ (∀ s, session_inst s = None →
       op = session_init s ∨ (∃ t, op = session_cmd t s) ∨
       (∃ t k, op = session_cmd_ktid t s k) ∨ (∃ i z, op = session_set_buffers s i z) ∨
       op = session_release_buffers s →
       hfi_default hash32_ptr msm_cvp_fw_debug_mode op (Some m) = Done (- EINVAL, m))
  ∧ (∀ hd sc, (5 <= length m)%nat →
       op = sys_set_resource (mkResourceHdr CVP_RESOURCE_NONE hd) sc ∨
       op = sys_release_resource (mkResourceHdr CVP_RESOURCE_NONE hd) →
       ∃ m', hfi_default hash32_ptr msm_cvp_fw_debug_mode op (Some m) =
             Done (- ENOTSUPP, m')).
Proof.
  split; [|split].
  - by destruct op as [| | | | | | | | | | | [[|]] | ? [[|]] | ? [[|]] | [[|]] | [[|]]].
  - intros [inst] Hs Hop. cbn in Hs. subst inst.
    by destruct Hop as [->|[[? ->]|[(? & ? & ->)|[(? & ? & ->)| ->]]]].
  - intros hd sc Hl [-> | ->]; destruct_words m 5%nat; eexists; reflexivity.
Qed.
