(* ===== verification/HfiDefs.v ===== *)
(** The packet definition tables and the lookups on them
    (src/msm/eva/msm_cvp_platform.c), and the check every user packet passes before it is
    sent ([cvp_create_pkt_cmd_session_send] of src/msm/eva/hfi_packetization.c).

    The tables are those of HFI version 2, row by row in source order with the index each
    row's designator evaluates to; as in C, a later row for the same index replaces an
    earlier one.  The lookups take the table and the version as arguments, the way the code
    reaches them through [cvp_hfi_defs] and [pdata->hfi_ver]. *)

From S2P Require Import Prelude HfiTypes HfiQueue HfiPacket.
From stdpp Require Import strings.
Open Scope Z_scope.

(** * Data *)

Definition MAX_PKT_IDX : Z := 0x200.
Definition CTRL_OFFSET : Z := 0x32.
Definition CONFIG_OFFSET : Z := 0x64.
Definition FRAME_OFFSET : Z := 0x96.
Definition MSG_SESSION_EVA_CTRL_INDEX : Z := 0x32.
Definition MSG_SESSION_INDEX : Z := 0x64.
Definition MAX_HFI_PKT_SIZE : Z := 600.

(** [struct msm_cvp_hfi_defs]. *)
Record msm_cvp_hfi_defs := mkHfiDef {
  def_size : Z;
  def_type : Z;
  def_is_config_pkt : bool;
  def_checksum_enabled : bool;
  def_resp : hal_command_response;
  def_name : string;
  def_force_kernel_fence : bool
}.

(** An element no designator names. *)
Definition zero_def : msm_cvp_hfi_defs := mkHfiDef 0 0 false false HAL_NO_RESP "" false.

(** An array of [MAX_PKT_IDX] definitions. *)
Definition hfi_table : Type := gmap Z msm_cvp_hfi_defs.

(** The array a designated initialiser denotes: rows applied in order. *)
Definition init_table (rows : list (Z * msm_cvp_hfi_defs)) : hfi_table :=
  foldl (λ t r, <[fst r := snd r]> t) ∅ rows.

(** [defs[i]]; an index outside the array is an access out of bounds. *)
Definition table_at (t : hfi_table) (i : Z) : outcome msm_cvp_hfi_defs :=
  if (0 <=? i) && (i <? MAX_PKT_IDX) then Done (default zero_def (t !! i)) else Fault.

(** [cvp_hfi_defs_v2], lines 2179 to 2322. *)
Definition cvp_hfi_defs_v2_1 : list (Z * msm_cvp_hfi_defs) := [
  (0x67, mkHfiDef 0x26 0x1202003 true false HAL_NO_RESP "HFI_CMD_SESSION_EVA_DFS_CONFIG" false);
  (0x99, mkHfiDef 0x10 0x1203003 false false HAL_NO_RESP "HFI_CMD_SESSION_EVA_DFS_FRAME" false);
  (0x79, mkHfiDef 0xffffffff 0x1202015 true false HAL_NO_RESP "HFI_CMD_SESSION_CVP_SGM_OF_CONFIG" false);
  (0xab, mkHfiDef 0xffffffff 0x1203015 false false HAL_NO_RESP "HFI_CMD_SESSION_CVP_SGM_OF_FRAME" false);
  (0x7f, mkHfiDef 0xffffffff 0x120201b true false HAL_NO_RESP "HFI_CMD_SESSION_CVP_WARP_NCC_CONFIG" false);
  (0xb2, mkHfiDef 0xffffffff 0x120301c false false HAL_NO_RESP "HFI_CMD_SESSION_CVP_WARP_NCC_FRAME" false);
  (0x83, mkHfiDef 0xffffffff 0x120201f true false HAL_NO_RESP "HFI_CMD_SESSION_EVA_WARP_CONFIG" false);
  (0xb5, mkHfiDef 0xffffffff 0x120301f false false HAL_NO_RESP "HFI_CMD_SESSION_EVA_WARP_FRAME" false);
  (0x75, mkHfiDef 0xc2 0x1202011 true false HAL_NO_RESP "HFI_CMD_SESSION_CVP_DMM_CONFIG" false);
  (0xa7, mkHfiDef 0x1c 0x1203011 false false HAL_NO_RESP "HFI_CMD_SESSION_CVP_DMM_FRAME" false);
  (0x34, mkHfiDef 0xb 0x1201002 true false HAL_NO_RESP "HFI_CMD_SESSION_CVP_SET_PERSIST_BUFFERS" false);
  (0x35, mkHfiDef 0xffffffff 0x1201003 false false HAL_NO_RESP "HFI_CMD_SESSION_CVP_RELEASE_PERSIST_BUFFERS" false);
  (0x66, mkHfiDef 0x2f 0x1202002 true false HAL_NO_RESP "HFI_CMD_SESSION_CVP_NCC_CONFIG" false);
  (0x98, mkHfiDef 0x16 0x1203002 false false HAL_NO_RESP "HFI_CMD_SESSION_CVP_NCC_FRAME" false);
  (0x7c, mkHfiDef 0x14 0x1202018 true false HAL_NO_RESP "HFI_CMD_SESSION_CVP_DC_CONFIG" false);
  (0xaf, mkHfiDef 0x13 0x1203019 false false HAL_NO_RESP "HFI_CMD_SESSION_CVP_DC_FRAME" false);
  (0x7e, mkHfiDef 0x14 0x120201a true false HAL_NO_RESP "HFI_CMD_SESSION_CVP_DCM_CONFIG" false);
  (0xb1, mkHfiDef 0x13 0x120301b false false HAL_NO_RESP "HFI_CMD_SESSION_CVP_DCM_FRAME" false);
  (0x82, mkHfiDef 0x1cd 0x120201e true false HAL_NO_RESP "HFI_CMD_SESSION_CVP_PYS_HCD_CONFIG" false)
].

(** [cvp_hfi_defs_v2], lines 2323 to 2470. *)
Definition cvp_hfi_defs_v2_2 : list (Z * msm_cvp_hfi_defs) := [
  (0xae, mkHfiDef 0x42 0x1203018 false false HAL_NO_RESP "HFI_CMD_SESSION_CVP_PYS_HCD_FRAME" false);
  (0x70, mkHfiDef 0xffffffff 0x1200070 false false HAL_NO_RESP "HFI_CMD_SESSION_CVP_SET_SNAPSHOT_BUFFERS" false);
  (0x71, mkHfiDef 0xffffffff 0x1200071 false false HAL_NO_RESP "HFI_CMD_SESSION_CVP_RELEASE_SNAPSHOT_BUFFERS" false);
  (0x73, mkHfiDef 0xffffffff 0x1200073 true false HAL_NO_RESP "HFI_CMD_SESSION_CVP_SET_SNAPSHOT_MODE" false);
  (0x72, mkHfiDef 0xffffffff 0x1200072 true false HAL_NO_RESP "HFI_CMD_SESSION_CVP_SNAPSHOT_WRITE_DONE" false);
  (0x9a, mkHfiDef 0xffffffff 0x1203004 false false HAL_NO_RESP "EVA_BLOB_FRAME" false);
  (0x68, mkHfiDef 0xffffffff 0x1202004 true false HAL_NO_RESP "EVA_BLOB_CONFIG" false);
  (0x9c, mkHfiDef 0xffffffff 0x1203006 false false HAL_NO_RESP "EVA_MATCH_FRAME" false);
  (0x6a, mkHfiDef 0xffffffff 0x1202006 true false HAL_NO_RESP "EVA_MATCH_CONFIG" false);
  (0xa8, mkHfiDef 0xffffffff 0x1203012 false false HAL_NO_RESP "HFI_CMD_SESSION_CVP_RGE_FRAME" false);
  (0x76, mkHfiDef 0xffffffff 0x1202012 true false HAL_NO_RESP "HFI_CMD_SESSION_CVP_RGE_CONFIG" false);
  (0xa4, mkHfiDef 0xffffffff 0x120300e false false HAL_NO_RESP "HFI_CMD_SESSION_EVA_ITOF_FRAME" false);
  (0x72, mkHfiDef 0xffffffff 0x120200e true false HAL_NO_RESP "HFI_CMD_SESSION_EVA_ITOF_CONFIG" false);
  (0xb4, mkHfiDef 0xffffffff 0x120301e false false HAL_NO_RESP "HFI_CMD_SESSION_EVA_SCALER_FRAME" false);
  (0x81, mkHfiDef 0xffffffff 0x120201d true false HAL_NO_RESP "HFI_CMD_SESSION_EVA_SCALER_CONFIG" false);
  (0x9b, mkHfiDef 0xffffffff 0x1203005 false false HAL_NO_RESP "HFI_CMD_SESSION_EVA_DESCRIPTOR_FRAME" false);
  (0x69, mkHfiDef 0xffffffff 0x1202005 true false HAL_NO_RESP "HFI_CMD_SESSION_EVA_DESCRIPTOR_CONFIG" false);
  (0xa3, mkHfiDef 0xffffffff 0x120300d false false HAL_NO_RESP "HFI_CMD_SESSION_EVA_DLFD_FRAME" false);
  (0x71, mkHfiDef 0xffffffff 0x120200d true false HAL_NO_RESP "HFI_CMD_SESSION_EVA_DLFD_CONFIG" false);
  (0xa2, mkHfiDef 0xffffffff 0x120300c false false HAL_NO_RESP "HFI_CMD_SESSION_EVA_DLFL_FRAME" false)
].

(** [cvp_hfi_defs_v2], lines 2471 to 2559. *)
Definition cvp_hfi_defs_v2_3 : list (Z * msm_cvp_hfi_defs) := [
  (0x70, mkHfiDef 0xffffffff 0x120200c true false HAL_NO_RESP "HFI_CMD_SESSION_EVA_DLFL_CONFIG" false);
  (0x3a, mkHfiDef 0xffffffff 0x1201008 true false HAL_NO_RESP "HFI_CMD_SESSION_CVP_SYNX" false);
  (0x73, mkHfiDef 0xffffffff 0x120200f true false HAL_NO_RESP "HFI_CMD_SESSION_EVA_DME_ONLY_CONFIG" false);
  (0xa5, mkHfiDef 0xffffffff 0x120300f false false HAL_NO_RESP "HFI_CMD_SESSION_EVA_DME_ONLY_FRAME" false);
  (0x7b, mkHfiDef 0xffffffff 0x1202017 true false HAL_NO_RESP "HFI_CMD_SESSION_CVP_GME_CONFIG" false);
  (0xad, mkHfiDef 0xffffffff 0x1203017 false false HAL_NO_RESP "HFI_CMD_SESSION_CVP_GME_FRAME" false);
  (0x7a, mkHfiDef 0xffffffff 0x1202016 true false HAL_NO_RESP "HFI_CMD_SESSION_CVP_LME_CONFIG" false);
  (0xac, mkHfiDef 0xffffffff 0x1203016 false false HAL_NO_RESP "HFI_CMD_SESSION_CVP_LME_FRAME" false);
  (0x80, mkHfiDef 0xffffffff 0x120201c true false HAL_NO_RESP "HFI_CMD_SESSION_EVA_SPSTAT_CONFIG" false);
  (0xb3, mkHfiDef 0xffffffff 0x120301d false false HAL_NO_RESP "HFI_CMD_SESSION_EVA_SPSTAT_FRAME" false);
  (0x65, mkHfiDef 0xffffffff 0x1202001 true false HAL_NO_RESP "FPX_CONFIG" false);
  (0x97, mkHfiDef 0xffffffff 0x1203001 false false HAL_NO_RESP "FPX_FRAME" false)
].

Definition cvp_hfi_defs_v2 : list (Z * msm_cvp_hfi_defs) :=
  cvp_hfi_defs_v2_1 ++ cvp_hfi_defs_v2_2 ++ cvp_hfi_defs_v2_3.

(** [cvp_hfi_msg_defs_v2], lines 2566 to 2714. *)
Definition cvp_hfi_msg_defs_v2_1 : list (Z * msm_cvp_hfi_defs) := [
  (0x65, mkHfiDef 0xffffffff 0x2203001 false false HAL_NO_RESP "HFI_MSG_SESSION_CVP_FPX" false);
  (0x33, mkHfiDef 0xffffffff 0x2201001 false false HAL_NO_RESP "HFI_MSG_SESSION_CVP_SET_BUFFERS" false);
  (0x36, mkHfiDef 0xffffffff 0x2201004 false false HAL_NO_RESP "HFI_MSG_SESSION_CVP_RELEASE_BUFFERS " false);
  (0x67, mkHfiDef 0xffffffff 0x2203003 false false HAL_NO_RESP "HFI_MSG_SESSION_EVA_DFS" false);
  (0x66, mkHfiDef 0xffffffff 0x2203002 false false HAL_NO_RESP "HFI_MSG_SESSION_CVP_NCC" false);
  (0x81, mkHfiDef 0xffffffff 0x220301d false false HAL_NO_RESP "HFI_MSG_SESSION_EVA_SPSTAT" false);
  (0x74, mkHfiDef 0xffffffff 0x2203010 false false HAL_NO_RESP "HFI_MSG_SESSION_CVP_DME" false);
  (0x73, mkHfiDef 0xffffffff 0x220300f false false HAL_NO_RESP "HFI_MSG_SESSION_EVA_DME_ONLY" false);
  (0x30, mkHfiDef 0xffffffff 0x2200030 false false HAL_NO_RESP "HFI_MSG_SESSION_CVP_OPERATION_CONFIG" false);
  (0x34, mkHfiDef 0xffffffff 0x2201002 false false HAL_NO_RESP "HFI_MSG_SESSION_CVP_SET_PERSIST_BUFFERS" false);
  (0x35, mkHfiDef 0xffffffff 0x2201003 false false HAL_NO_RESP "HFI_MSG_SESSION_CVP_RELEASE_PERSIST_BUFFERS" false);
  (0x79, mkHfiDef 0xffffffff 0x2203015 false false HAL_NO_RESP "HFI_MSG_SESSION_CVP_SGM_OF" false);
  (0x6e, mkHfiDef 0xffffffff 0x220300a false false HAL_NO_RESP "HFI_MSG_SESSION_CVP_OPERATION_CONFIG" false);
  (0x80, mkHfiDef 0xffffffff 0x220301c false false HAL_NO_RESP "HFI_MSG_SESSION_CVP_WARP_NCC" false);
  (0x75, mkHfiDef 0xffffffff 0x2203011 false false HAL_NO_RESP "HFI_MSG_SESSION_CVP_DMM" false);
  (0x78, mkHfiDef 0xffffffff 0x2203014 false false HAL_NO_RESP "HFI_MSG_SESSION_CVP_SGM_DFS" false);
  (0x45, mkHfiDef 0xffffffff 0x2200045 false false HAL_NO_RESP "HFI_MSG_SESSION_CVP_SET_SNAPSHOT_BUFFERS" false);
  (0x46, mkHfiDef 0xffffffff 0x2200046 false false HAL_NO_RESP "HFI_MSG_SESSION_CVP_RELEASE_SNAPSHOT_BUFFERS" false)
].

(** [cvp_hfi_msg_defs_v2], lines 2715 to 2813. *)
Definition cvp_hfi_msg_defs_v2_2 : list (Z * msm_cvp_hfi_defs) := [
  (0x47, mkHfiDef 0xffffffff 0x2200047 false false HAL_NO_RESP "HFI_MSG_EVENT_NOTIFY_SNAPSHOT_READY" false);
  (0x83, mkHfiDef 0xffffffff 0x220301f false false HAL_NO_RESP "HFI_MSG_SESSION_EVA_WARP" false);
  (0x7a, mkHfiDef 0xffffffff 0x2203016 false false HAL_NO_RESP "HFI_MSG_SESSION_EVA_LME" false);
  (0x39, mkHfiDef 0xffffffff 0x2201007 false false HAL_NO_RESP "HFI_MSG_SESSION_CVP_FLUSH" false);
  (0x37, mkHfiDef 0xffffffff 0x2201005 false false HAL_NO_RESP "HFI_MSG_SESSION_EVA_START_DONE" false);
  (0x38, mkHfiDef 0xffffffff 0x2201006 false false HAL_NO_RESP "HFI_MSG_SESSION_EVA_STOP_DONE" false);
  (0x7c, mkHfiDef 0xffffffff 0x2203018 false false HAL_NO_RESP "HFI_MSG_SESSION_CVP_PYS_HCD" false);
  (0x69, mkHfiDef 0xffffffff 0x2203005 false false HAL_NO_RESP "HFI_MSG_SESSION_EVA_DESCRIPTOR" false);
  (0x6a, mkHfiDef 0xffffffff 0x2203006 false false HAL_NO_RESP "HFI_MSG_SESSION_EVA_MATCH" false);
  (0x7b, mkHfiDef 0xffffffff 0x2203017 false false HAL_NO_RESP "HFI_MSG_SESSION_EVA_GME" false);
  (0x82, mkHfiDef 0xffffffff 0x220301e false false HAL_NO_RESP "HFI_MSG_SESSION_EVA_SCALER" false);
  (0x65, mkHfiDef 0xffffffff 0x2203001 false false HAL_NO_RESP "HFI_MSG_SESSION_CVP_FPX" false)
].

Definition cvp_hfi_msg_defs_v2 : list (Z * msm_cvp_hfi_defs) :=
  cvp_hfi_msg_defs_v2_1 ++ cvp_hfi_msg_defs_v2_2.

(** * Lookups *)
Section lookups.

(** [pdata->hfi_ver], [cvp_hfi_defs] and [cvp_hfi_msg_defs]. *)
Context (hfi_ver : Z) (cvp_hfi_defs cvp_hfi_msg_defs : hfi_table).

(** The version-2 index of a packet type, an [int] computed in [u32]: bits 12 and 13
    choose the frame, configuration, control or base space. *)
Definition v2_index (packet_type : Z) : Z :=
  let thirteenth_bit := Z.testbit packet_type 12 in
  let fourteenth_bit := Z.testbit packet_type 13 in
  s32 (if thirteenth_bit && fourteenth_bit
       then u32 (packet_type - HFI_CMD_SESSION_FRAME_OFFSET + FRAME_OFFSET)
       else if negb thirteenth_bit && fourteenth_bit
       then u32 (packet_type - HFI_CMD_SESSION_CONFIG_OFFSET + CONFIG_OFFSET)
       else if thirteenth_bit && negb fourteenth_bit
       then u32 (packet_type - HFI_CMD_SESSION_EVA_CTRL_OFFSET + CTRL_OFFSET)
       else u32 (packet_type - HFI_CMD_SESSION_EVA_OFFSET)).

(** [get_pkt_index]: the header pointer may be NULL; only its packet type is read. *)
Definition get_pkt_index (hdr : option Z) : outcome Z :=
  if hfi_ver =? 1 then
    match hdr with
    | None => Done (- EINVAL)
    | Some packet_type =>
        if (packet_type <? HFI_CMD_SESSION_CVP_START)
           || (packet_type >=? HFI_CMD_SESSION_CVP_START + MAX_PKT_IDX)
        then Done (- EINVAL)
        else
          let! d := table_at cvp_hfi_defs (packet_type - HFI_CMD_SESSION_CVP_START) in
          if negb (def_size d =? 0)
          then Done (s32 (packet_type - HFI_CMD_SESSION_CVP_START))
          else Done (- EINVAL)
    end
  else
    match hdr with
    | None => Done (- EINVAL)
    | Some packet_type =>
        let pkt_idx := v2_index packet_type in
        if (pkt_idx <? 0) || (pkt_idx >=? MAX_PKT_IDX) then Done (- EINVAL)
        else
          let! d := table_at cvp_hfi_defs pkt_idx in
          if negb (def_size d =? 0) then Done pkt_idx else Done (- EINVAL)
    end.

(** [get_pkt_fenceoverride]: reads the table at the index without checking it. *)
Definition get_pkt_fenceoverride (packet_type : Z) : outcome bool :=
  let! d :=
    (if hfi_ver =? 1
     then table_at cvp_hfi_defs (u32 (packet_type - HFI_CMD_SESSION_CVP_START))
     else table_at cvp_hfi_defs (v2_index packet_type)) in
  Done (def_force_kernel_fence d).

Definition get_pkt_index_from_type (pkt_type : Z) : outcome Z :=
  if hfi_ver =? 1 then
    if (pkt_type <? HFI_CMD_SESSION_CVP_START)
       || (pkt_type >=? HFI_CMD_SESSION_CVP_START + MAX_PKT_IDX)
    then Done (- EINVAL)
    else
      let! d := table_at cvp_hfi_defs (pkt_type - HFI_CMD_SESSION_CVP_START) in
      if negb (def_size d =? 0) then Done (s32 (pkt_type - HFI_CMD_SESSION_CVP_START))
      else Done (- EINVAL)
  else
    let pkt_idx := v2_index pkt_type in
    if (pkt_idx <? 0) || (pkt_idx >=? MAX_PKT_IDX) then Done (- EINVAL)
    else
      let! d := table_at cvp_hfi_defs pkt_idx in
      if negb (def_size d =? 0) then Done pkt_idx else Done (- EINVAL).

Definition is_config_pkt (packet_type : Z) : outcome bool :=
  let! pkt_idx := get_pkt_index (Some packet_type) in
  if pkt_idx <? 0 then Done false
  else
    let! d := table_at cvp_hfi_defs pkt_idx in Done (def_is_config_pkt d).

Definition get_pkt_name_from_type (pkt_type : Z) : outcome string :=
  if hfi_ver =? 1 then
    if (pkt_type >? HFI_CMD_SESSION_CVP_START)
       && (pkt_type <=? HFI_CMD_SESSION_CVP_START + MAX_PKT_IDX)
    then let! d := table_at cvp_hfi_defs (pkt_type - HFI_CMD_SESSION_CVP_START) in
         Done (def_name d)
    else if (pkt_type >? HFI_MSG_SESSION_CVP_START)
            && (pkt_type <=? HFI_MSG_SESSION_CVP_START + MAX_PKT_IDX)
    then let! d := table_at cvp_hfi_msg_defs (pkt_type - HFI_MSG_SESSION_CVP_START) in
         Done (def_name d)
    else Done ""%string
  else if Z.land pkt_type 0x03000000 =? HFI_CMD_OFFSET then
    let! pkt_idx := get_pkt_index_from_type pkt_type in
    if (pkt_idx <? 0) || (pkt_idx >=? MAX_PKT_IDX) then Done ""%string
    else let! d := table_at cvp_hfi_defs pkt_idx in Done (def_name d)
  else if Z.land pkt_type 0x03000000 =? HFI_MSG_OFFSET then
    let mask := Z.land pkt_type 0x3000 in
    let pkt_idx :=
      if mask =? 0x3000
      then s32 (u32 (pkt_type - HFI_MSG_SESSION_OFFSET + MSG_SESSION_INDEX))
      else if mask =? 0x1000
      then s32 (u32 (pkt_type - HFI_MSG_SESSION_EVA_CTRL_OFFSET
                     + MSG_SESSION_EVA_CTRL_INDEX))
      else if mask =? 0 then s32 (u32 (pkt_type - HFI_MSG_SESSION_EVA_OFFSET))
      else - EINVAL in
    if (pkt_idx <? 0) || (pkt_idx >=? MAX_PKT_IDX) then Done ""%string
    else let! d := table_at cvp_hfi_msg_defs pkt_idx in Done (def_name d)
  else Done ""%string.

(** [cvp_create_pkt_cmd_session_send]: the check of a packet that came from user space.
    [in_pkt] is the user packet's words, whose first three are size, type and session. *)
Definition cvp_create_pkt_cmd_session_send (session : option hal_session)
    (in_pkt : option (list Z)) : outcome Z :=
  match session with
  | None => Done (- EINVAL)
  | Some s =>
      match in_pkt, session_inst s with
      | Some p, Some inst =>
          let! size := word_at p 0 in
          let! packet_type := word_at p 1 in
          let! session_id := word_at p 2 in
          if size >? MAX_HFI_PKT_SIZE * 4 then Done (- EINVAL)
          else if negb (session_id =? sess_id inst) then Done (- EINVAL)
          else
            let! def_idx := get_pkt_index (Some packet_type) in
            if def_idx <? 0 then Done (- EINVAL)
            else
              let! d := table_at cvp_hfi_defs def_idx in
              if negb (def_type d =? packet_type) then Done (- EINVAL) else Done 0
      | _, _ => Done (- EINVAL)
      end
  end.

(** * Lemmas *)

Lemma table_at_ok t i : 0 <= i < MAX_PKT_IDX → table_at t i = Done (default zero_def (t !! i)).
Proof.
  intros. unfold table_at.
  by rewrite (proj2 (Z.leb_le _ _)), (proj2 (Z.ltb_lt _ _)) by lia.
Qed.

(** The two index lookups agree on every type. *)
Lemma get_pkt_index_from_type_eq t : get_pkt_index_from_type t = get_pkt_index (Some t).
Proof. unfold get_pkt_index_from_type, get_pkt_index. by destruct (hfi_ver =? 1). Qed.

Lemma get_pkt_index_range hdr :
  ∃ i, get_pkt_index hdr = Done i ∧
    (i = - EINVAL ∨
     0 <= i < MAX_PKT_IDX ∧ def_size (default zero_def (cvp_hfi_defs !! i)) ≠ 0).
Proof.
  unfold get_pkt_index.
  destruct hdr as [t|]; [|destruct (hfi_ver =? 1); exists (- EINVAL); by auto].
  destruct (hfi_ver =? 1).
  - destruct ((t <? _) || _) eqn:E; zify_bool; [exists (- EINVAL); by auto|].
    rewrite table_at_ok by (unfold MAX_PKT_IDX in *; lia). cbn [obind].
    destruct (negb _) eqn:Es; zify_bool; [|exists (- EINVAL); by auto].
    eexists; split; [reflexivity|right].
    rewrite s32_small by (unfold MAX_PKT_IDX in *; lia). split; [lia|done].
  - destruct ((v2_index t <? _) || _) eqn:E; zify_bool; [exists (- EINVAL); by auto|].
    rewrite table_at_ok by lia. cbn [obind].
    destruct (negb _) eqn:Es; zify_bool; [|exists (- EINVAL); by auto].
    eexists; split; [reflexivity|right]. split; [lia|done].
Qed.

(** A type whose lookup succeeds can be used for the lookup without a check. *)
Lemma get_pkt_fenceoverride_ok t i :
  is_u32 t → get_pkt_index (Some t) = Done i → 0 <= i →
  get_pkt_fenceoverride t =
    Done (def_force_kernel_fence (default zero_def (cvp_hfi_defs !! i))).
Proof.
  unfold is_u32, get_pkt_index, get_pkt_fenceoverride. intros Ht Hi H0.
  destruct (hfi_ver =? 1).
  - destruct ((t <? _) || _) eqn:E; zify_bool; [injection Hi as Hi; unfold EINVAL in *; lia|].
    zify_bool. unfold MAX_PKT_IDX, HFI_CMD_SESSION_CVP_START in *.
    rewrite u32_small by (unfold is_u32; lia).
    rewrite table_at_ok in Hi |- * by (unfold MAX_PKT_IDX; lia). cbn [obind] in *.
    destruct (negb _); injection Hi as Hi; [|unfold EINVAL in *; lia].
    rewrite s32_small in Hi by lia. by subst i.
  - destruct ((v2_index t <? _) || _) eqn:E; zify_bool;
      [injection Hi as Hi; unfold EINVAL in *; lia|].
    zify_bool. rewrite table_at_ok in Hi |- * by lia. cbn [obind] in *.
    destruct (negb _); injection Hi as Hi; [by subst i|unfold EINVAL in *; lia].
Qed.

End lookups.

(** The version-2 tables as the driver sees them. *)
Definition table_v2 : hfi_table := init_table cvp_hfi_defs_v2.
Definition msg_table_v2 : hfi_table := init_table cvp_hfi_msg_defs_v2.

(** * Theorems *)

(** For both HFI versions, any table and any header, [get_pkt_index] stays inside the
    table and answers [-EINVAL] or the in-range index of a row that is defined; the
    unchecked [get_pkt_fenceoverride] is then safe on that type. *)
Theorem get_pkt_index_safe (hfi_ver : Z) (defs : hfi_table) (t : Z) :
  is_u32 t →
  ∃ i, get_pkt_index hfi_ver defs (Some t) = Done i ∧
    (i = - EINVAL ∨
     0 <= i < MAX_PKT_IDX ∧ def_size (default zero_def (defs !! i)) ≠ 0
     ∧ get_pkt_fenceoverride hfi_ver defs t =
         Done (def_force_kernel_fence (default zero_def (defs !! i)))).
Proof.
  intros Ht. destruct (get_pkt_index_range hfi_ver defs (Some t)) as (i & Hi & Hr).
  exists i. split; [exact Hi|]. destruct Hr as [->|[Hr Hs]]; [by left|right].
  split; [done|]. split; [done|]. apply (get_pkt_fenceoverride_ok _ _ _ _ Ht Hi). lia.
Qed.

Lemma get_pkt_index_safe_witness :
  ∃ i, get_pkt_index 2 table_v2 (Some 0x1203003) = Done i ∧
    (i = - EINVAL ∨
     0 <= i < MAX_PKT_IDX ∧ def_size (default zero_def (table_v2 !! i)) ≠ 0
     ∧ get_pkt_fenceoverride 2 table_v2 0x1203003 =
         Done (def_force_kernel_fence (default zero_def (table_v2 !! i)))).
Proof. apply get_pkt_index_safe. vm_compute. split; [discriminate|reflexivity]. Defined.

(** The four snapshot commands, whose base-space indices 0x70 to 0x73 are also the
    configuration-space indices of the DLFL, DLFD, ITOF and DME_ONLY configurations. *)
Definition snapshot_types : list Z := [0x1200070; 0x1200071; 0x1200072; 0x1200073].

(** The command table of HFI version 2: every row's designator is the index
    [get_pkt_index] computes for the row's type, and the row found there is the row itself
    for every command except the four snapshot commands, whose rows are overwritten by the
    rows of four configuration commands at the same indices. *)
Theorem hfi_defs_v2_lookup :
  Forall (λ r, get_pkt_index 2 table_v2 (Some (def_type (snd r))) = Done (fst r))
    cvp_hfi_defs_v2
  ∧ Forall (λ r, if bool_decide (def_type (snd r) ∈ snapshot_types)
                 then def_type (default zero_def (table_v2 !! fst r)) ≠ def_type (snd r)
                 else table_v2 !! fst r = Some (snd r)) cvp_hfi_defs_v2.
Proof.
  split.
  - unfold cvp_hfi_defs_v2, cvp_hfi_defs_v2_1, cvp_hfi_defs_v2_2, cvp_hfi_defs_v2_3.
    repeat (apply Forall_cons; split); try apply Forall_nil; try done; vm_compute; reflexivity.
  - unfold cvp_hfi_defs_v2, cvp_hfi_defs_v2_1, cvp_hfi_defs_v2_2, cvp_hfi_defs_v2_3.
    repeat (apply Forall_cons; split); try apply Forall_nil; try done;
      vm_compute; first [reflexivity | discriminate].
Qed.

(** The types of the commands that can be looked up: those of the source table that are not
    overwritten. *)
Definition v2_command_types : list Z :=
  filter (λ t, t ∉ snapshot_types) ((λ r, def_type (snd r)) <$> cvp_hfi_defs_v2).

(** What the lookup finds is a row of [v2_command_types] with that row's own type, or not a
    row of the packet's type. *)
Lemma table_v2_types t i :
  def_size (default zero_def (table_v2 !! i)) ≠ 0 →
  def_type (default zero_def (table_v2 !! i)) = t → t ∈ v2_command_types.
Proof.
  assert (H : map_Forall (λ _ d, def_type d ∈ v2_command_types) table_v2).
  { apply map_Forall_to_list. refine (bool_decide_unpack _ _). by vm_compute. }
  destruct (table_v2 !! i) as [d|] eqn:E; [|done].
  intros _ <-. exact (H i d E).
Qed.

Lemma v2_command_accepted t :
  t ∈ v2_command_types →
  ∃ i, get_pkt_index 2 table_v2 (Some t) = Done i ∧ 0 <= i < MAX_PKT_IDX ∧
       def_type (default zero_def (table_v2 !! i)) = t.
Proof.
  assert (H : forallb (λ t, match get_pkt_index 2 table_v2 (Some t) with
      | Done i => (0 <=? i) && (i <? MAX_PKT_IDX)
                  && (def_type (default zero_def (table_v2 !! i)) =? t)
      | Fault => false end) v2_command_types = true) by (by vm_compute).
  rewrite forallb_forall in H. intros Ht%list_elem_of_In. specialize (H t Ht).
  destruct (get_pkt_index _ _ _) as [i|]; [|done]. zify_bool. eauto.
Qed.

(** C6. Which user packets HFI version 2 lets through: those of at most
    [MAX_HFI_PKT_SIZE] words, addressed to the session, whose type is a command of the table
    that has a row of its own.  Every other packet, and a missing session or instance, is
    refused with [-EINVAL]; no packet makes the check fault.  The four snapshot commands
    are commands of the source table and are refused. *)
Theorem session_send_v2 (inst : inst_info) (size t sid : Z) (rest : list Z) :
  is_u32 t →
  cvp_create_pkt_cmd_session_send 2 table_v2 (Some (mkHalSession (Some inst)))
    (Some (size :: t :: sid :: rest)) =
  Done (if bool_decide (size <= MAX_HFI_PKT_SIZE * 4 ∧ sid = sess_id inst
                        ∧ t ∈ v2_command_types) then 0 else - EINVAL)
  ∧ Forall (λ t, t ∉ v2_command_types ∧ t ∈ ((λ r, def_type (snd r)) <$> cvp_hfi_defs_v2))
      snapshot_types.
Proof.
  intros Ht. split.
  2:{ unfold snapshot_types. repeat (apply Forall_cons; split); try apply Forall_nil;
      refine (bool_decide_unpack _ _); by vm_compute. }
  unfold cvp_create_pkt_cmd_session_send. cbn [session_inst].
  change (word_at (size :: t :: sid :: rest) 0) with (Done size).
  change (word_at (size :: t :: sid :: rest) 1) with (Done t).
  change (word_at (size :: t :: sid :: rest) 2) with (Done sid). cbn [obind].
  destruct (size >? _) eqn:E1; zify_bool; [rewrite bool_decide_false; [done|lia]|].
  destruct (negb (sid =? _)) eqn:E2; zify_bool; [rewrite bool_decide_false; naive_solver|].
  destruct (get_pkt_index_range 2 table_v2 (Some t)) as (i & Hi & Hr).
  destruct (decide (t ∈ v2_command_types)) as [Hin|Hout].
  - rewrite bool_decide_true by (repeat split; [lia|done|done]).
    destruct (v2_command_accepted t Hin) as (j & Hj & Hjr & Hjt). rewrite Hj. cbn [obind].
    rewrite (proj2 (Z.ltb_ge _ _)) by lia. rewrite table_at_ok by done. cbn [obind].
    by rewrite Hjt, Z.eqb_refl.
  - rewrite bool_decide_false by naive_solver. rewrite Hi. cbn [obind].
    destruct Hr as [->|[Hr Hs]]; [done|].
    rewrite (proj2 (Z.ltb_ge _ _)) by lia. rewrite table_at_ok by done. cbn [obind].
    destruct (negb _) eqn:E3; zify_bool; [done|].
    destruct Hout. by eapply table_v2_types.
Qed.

Lemma session_send_v2_witness :
  cvp_create_pkt_cmd_session_send 2 table_v2
    (Some (mkHalSession (Some (mkInstInfo 0x1234 0 0 0 0 0))))
    (Some [0x40; 0x1200070; 0x1234]) = Done (- EINVAL).
Proof.
  rewrite (proj1 (session_send_v2 (mkInstInfo 0x1234 0 0 0 0 0) 0x40 0x1200070 0x1234 []
             ltac:(split; [lia|reflexivity]))).
  vm_compute. reflexivity.
Defined.

Lemma table_at_name_fault t i :
  obind (λ d, Done (def_name d)) (table_at t i) = Fault ↔ ¬ (0 <= i < MAX_PKT_IDX).
Proof.
  destruct (decide (0 <= i < MAX_PKT_IDX)) as [H|H].
  - rewrite table_at_ok by done. by split.
  - unfold table_at. destruct ((0 <=? i) && (i <? MAX_PKT_IDX)) eqn:E; zify_bool; [lia|done].
Qed.

(** A name looked up behind a range check is always in bounds. *)
Lemma checked_name_safe t i :
  (if (i <? 0) || (i >=? MAX_PKT_IDX) then Done ""%string
   else let! d := table_at t i in Done (def_name d)) ≠ Fault.
Proof.
  destruct ((i <? 0) || (i >=? MAX_PKT_IDX)) eqn:E; zify_bool; [done|].
  rewrite table_at_name_fault. lia.
Qed.

(** With HFI version 1, [get_pkt_name_from_type] reads one row past the end of the
    command table, and of the message table, for the type just above their last index; for
    every other 32-bit type, and for every type in version 2, the lookup is in bounds. *)
Theorem get_pkt_name_bounds (hfi_ver : Z) (defs msgs : hfi_table) (t : Z) :
  is_u32 t →
  get_pkt_name_from_type hfi_ver defs msgs t = Fault ↔
  hfi_ver = 1 ∧ (t = HFI_CMD_SESSION_CVP_START + MAX_PKT_IDX
                 ∨ t = HFI_MSG_SESSION_CVP_START + MAX_PKT_IDX).
Proof.
  intros Ht. unfold get_pkt_name_from_type.
  destruct (hfi_ver =? 1) eqn:Ev; zify_bool.
  - subst. unfold HFI_CMD_SESSION_CVP_START, HFI_MSG_SESSION_CVP_START, MAX_PKT_IDX in *.
    repeat case_match; zify_bool; rewrite ?table_at_name_fault; unfold MAX_PKT_IDX;
      (split; [intros|intros [_ ?]]; try done; try (split; [done|]); lia).
  - split; [intros Hf; exfalso|naive_solver]. revert Hf.
    destruct (get_pkt_index_range hfi_ver defs (Some t)) as (i & Hi & _).
    rewrite get_pkt_index_from_type_eq, Hi. cbn [obind].
    destruct (Z.land t 0x03000000 =? HFI_CMD_OFFSET); [apply checked_name_safe|].
    destruct (Z.land t 0x03000000 =? HFI_MSG_OFFSET); [apply checked_name_safe|done].
Qed.

Lemma get_pkt_name_bounds_witness :
  get_pkt_name_from_type 1 ∅ ∅ (HFI_CMD_SESSION_CVP_START + MAX_PKT_IDX) = Fault.
Proof.
  apply (get_pkt_name_bounds 1 ∅ ∅); [split; [discriminate|reflexivity]|].
  split; [reflexivity|by left].
Defined.
