(* ===== verification/Driver.v ===== *)
(** The state the session layer works on, and the monad its operations run in.

    Records follow [struct msm_cvp_core], [struct msm_cvp_inst] and their parts
    (src/msm/eva/msm_cvp_internal.h, msm_cvp_synx.h), the session list of [struct
    iris_hfi_device] (cvp_core_hfi.h) and [struct cvp_hal_session] (cvp_hfi_v2.h).  Pointers
    to instances and sessions are addresses ([Z], 0 for NULL) into association lists, so
    that a use after free is an access to an address that is no longer there, a [Fault].
    Mutexes, spin locks, logging and the fields no modelled operation reads are left out.

    Everything outside src/ that an operation calls, and the command queue below it, is a
    [call]: its answer comes from the environment, which sees how many calls were made
    before, and the call is recorded in the trace of the world.  The environment also says
    which firmware packets arrive while the driver waits. *)

From S2P Require Import Prelude HfiTypes HfiPacket HfiDefs.
From stdpp Require Import strings.
Open Scope Z_scope.

(** * Data *)

(** [enum cvp_core_state]. *)
Inductive cvp_core_state := CVP_CORE_UNINIT | CVP_CORE_INIT | CVP_CORE_INIT_DONE.

#[global] Instance cvp_core_state_eq_dec : EqDecision cvp_core_state.
Proof. solve_decision. Defined.

Definition cvp_core_state_to_Z (s : cvp_core_state) : Z :=
  match s with CVP_CORE_UNINIT => 0 | CVP_CORE_INIT => 1 | CVP_CORE_INIT_DONE => 2 end.

(** [enum op_mode]: mode of a fence queue. *)
Inductive op_mode := OP_NORMAL | OP_DRAINING | OP_FLUSH | OP_INVALID.

#[global] Instance op_mode_eq_dec : EqDecision op_mode.
Proof. solve_decision. Defined.

(** [enum session_type] and [enum cvp_event_t]. *)
Inductive session_type :=
  MSM_CVP_USER | MSM_CVP_KERNEL | MSM_CVP_BOOT | MSM_CVP_DSP | MSM_CVP_UNKNOWN.

#[global] Instance session_type_eq_dec : EqDecision session_type.
Proof. solve_decision. Defined.

Inductive cvp_event_t :=
  CVP_NO_EVENT | EVA_EVENT | CVP_SYS_ERROR_EVENT | CVP_MAX_CLIENTS_EVENT
| CVP_HW_UNSUPPORTED_EVENT | CVP_INVALID_EVENT | CVP_DUMP_EVENT.

(** [enum cvp_session_state] and [enum cvp_session_errorcode], as the numbers that are
    packed into [session_error_code]. *)
Definition SESSION_ERROR : Z := 1.
Definition SECURE_SESSION_ERROR : Z := 2.
Definition EVA_SYS_ERROR : Z := 1.
Definition EVA_SESSION_ERROR : Z := 2.
Definition EVA_SECURE_SESSION_ERROR : Z := 3.
Definition EVA_SESSION_TIMEOUT : Z := 4.
Definition MAX_CVP_ERROR_COUNT : Z := 65535.

(** [(s_state << 28) | (s_ecode << 16) | count] on a [u32]. *)
Definition pack_error (s_state s_ecode count : Z) : Z :=
  u32 (Z.lor (Z.lor (Z.shiftl s_state 28) (Z.shiftl s_ecode 16)) count).

Definition MAX_NUM_MSGS_PER_SESSION : Z := 128.

(** [struct cvp_session_queue]; a message is the words of its packet. *)
Record cvp_session_queue := mkSq {
  sq_state : queue_state;
  sq_msg_count : Z;
  sq_msgs : list (list Z)
}.

(** [struct cvp_fence_command]; [f_pkt] is the words of the packet it carries. *)
Record cvp_fence_command := mkFence {
  f_frame_id : Z;
  f_signature : Z;
  f_num_fences : Z;
  f_output_index : Z;
  f_type : Z;
  f_synx : list Z;
  f_pkt : list Z
}.

(** [struct cvp_fence_queue]. *)
Record cvp_fence_queue := mkFq {
  fq_state : queue_state;
  fq_mode : op_mode;
  fq_wait_list : list cvp_fence_command;
  fq_sched_list : list cvp_fence_command;
  fq_send_count : Z
}.

(** [enum hfi_hw_thread]: the index of each hardware block in the per-block arrays. *)
Definition HFI_HW_FDU : nat := 0.
Definition HFI_HW_MPU : nat := 1.
Definition HFI_HW_OD : nat := 2.
Definition HFI_HW_ICA : nat := 3.
Definition HFI_HW_VADL : nat := 4.
Definition HFI_HW_TOF : nat := 5.
Definition HFI_HW_RGE : nat := 6.
Definition HFI_HW_XRA : nat := 7.
Definition HFI_HW_LSR : nat := 8.
Definition HFI_MAX_HW_THREADS : nat := 9.

(** [struct cvp_session_prop]; the per-block arrays have [HFI_MAX_HW_THREADS] elements, the
    name is [SESSION_NAME_MAX_LEN / 4] words. *)
Record cvp_session_prop := mkProp {
  p_type : Z;
  p_kernel_mask : Z;
  p_priority : Z;
  p_is_secure : Z;
  p_dsp_mask : Z;
  p_pkt_concurrency : Z;
  p_fthread_nr : Z;
  p_cycles : list Z;
  p_fw_cycles : Z;
  p_op_cycles : list Z;
  p_fw_op_cycles : Z;
  p_ddr_bw : Z;
  p_ddr_op_bw : Z;
  p_dump_offset : Z;
  p_dump_size : Z;
  p_ddr_cache : Z;
  p_ddr_op_cache : Z;
  p_fps : list Z;
  p_session_name : list Z
}.

(** [struct msm_cvp_inst].  [i_completions] counts, per session message, the completions
    signalled and not yet consumed. *)
Record msm_cvp_inst := mkInst {
  i_session_type : session_type;
  i_session_queue : cvp_session_queue;
  i_session_queue_fence : cvp_session_queue;
  i_event : cvp_event_t;
  i_session : Z;
  i_sess_id : Z;
  i_state : instance_state;
  i_completions : list nat;
  i_kref : Z;
  i_prop : cvp_session_prop;
  i_hfi_error_code : Z;
  i_prev_hfi_error_code : Z;
  i_session_error_code : Z;
  i_fence_cmd_queue : cvp_fence_queue;
  i_arp : bool;
  i_pm_qos_latency : Z
}.

(** [struct msm_cvp_core]; [c_instances] is the list [instances] with each instance at its
    address, [c_sess_idr] the map [sess_idr] from session ids to session addresses. *)
Record msm_cvp_core := mkCore {
  c_instances : list (Z * msm_cvp_inst);
  c_state : cvp_core_state;
  c_completions : list nat;
  c_sess_idr : gmap Z Z;
  c_capabilities : bool;
  c_trigger_ssr : bool;
  c_ssr_count : Z;
  c_max_inst_count : Z;
  c_curr_freq : Z;
  c_orig_core_sum : Z;
  c_bw_sum : Z;
  c_kernel_trans_id : Z;
  c_cvp_error_count : Z
}.

(** [struct cvp_hal_session]: the instance it belongs to, and whether [device] is set. *)
Record cvp_hal_session := mkHs { hs_session_id : Z; hs_device : bool }.

(** Of [struct iris_hfi_device]: the session list (addresses in list order), the session
    objects that are allocated, the clock vote, the last error, and whether [state] is
    [IRIS_STATE_INIT]. *)
Record iris_hfi_device := mkHdev {
  hd_sess_head : list Z;
  hd_sessions : list (Z * cvp_hal_session);
  hd_clk_freq : Z;
  hd_error : Z;
  hd_init : bool
}.

#[global] Instance eta_sq : Eta cvp_session_queue :=
  λ r, mkSq (sq_state r) (sq_msg_count r) (sq_msgs r).
#[global] Instance eta_fq : Eta cvp_fence_queue :=
  λ r, mkFq (fq_state r) (fq_mode r) (fq_wait_list r) (fq_sched_list r) (fq_send_count r).
#[global] Instance eta_prop : Eta cvp_session_prop :=
  λ r, mkProp (p_type r) (p_kernel_mask r) (p_priority r) (p_is_secure r) (p_dsp_mask r)
    (p_pkt_concurrency r) (p_fthread_nr r) (p_cycles r) (p_fw_cycles r) (p_op_cycles r)
    (p_fw_op_cycles r) (p_ddr_bw r) (p_ddr_op_bw r) (p_dump_offset r) (p_dump_size r)
    (p_ddr_cache r) (p_ddr_op_cache r) (p_fps r) (p_session_name r).
#[global] Instance eta_inst : Eta msm_cvp_inst :=
  λ r, mkInst (i_session_type r) (i_session_queue r) (i_session_queue_fence r) (i_event r)
    (i_session r) (i_sess_id r) (i_state r) (i_completions r) (i_kref r) (i_prop r)
    (i_hfi_error_code r) (i_prev_hfi_error_code r) (i_session_error_code r)
    (i_fence_cmd_queue r) (i_arp r) (i_pm_qos_latency r).
#[global] Instance eta_core : Eta msm_cvp_core :=
  λ r, mkCore (c_instances r) (c_state r) (c_completions r) (c_sess_idr r)
    (c_capabilities r) (c_trigger_ssr r) (c_ssr_count r) (c_max_inst_count r)
    (c_curr_freq r) (c_orig_core_sum r) (c_bw_sum r) (c_kernel_trans_id r)
    (c_cvp_error_count r).
#[global] Instance eta_hs : Eta cvp_hal_session :=
  λ r, mkHs (hs_session_id r) (hs_device r).
#[global] Instance eta_hdev : Eta iris_hfi_device :=
  λ r, mkHdev (hd_sess_head r) (hd_sessions r) (hd_clk_freq r) (hd_error r)
    (hd_init r).

(** The two message queues of an instance: the fence queue and the plain one. *)
Definition get_sq (fenced : bool) (i : msm_cvp_inst) : cvp_session_queue :=
  if fenced then i_session_queue_fence i else i_session_queue i.

Definition mod_sq (fenced : bool) (f : cvp_session_queue → cvp_session_queue)
    (i : msm_cvp_inst) : msm_cvp_inst :=
  if fenced then i <| i_session_queue_fence ::= f |> else i <| i_session_queue ::= f |>.

(** * The world *)

(** Calls out of the session layer: the allocator, the id allocator (with what is in use),
    the command queue, the hardware layer of cvp_hfi.c, buffers, fences and threads. *)
Inductive call :=
| Kzalloc (live : list Z)
| Kmalloc (words : nat)
| Idr_alloc (used : gset Z)
| Cmdq_write (pkt : list Z)
| Core_init
| Core_release
| Resume
| Scale_clocks (freq : Z)
| Vote_bus (bw : Z)
| Flush_debug_queue
| Alloc_arp (size : Z)
| Unmap_frame (ktid : Z)
| Cancel_synx (input : bool) (f : cvp_fence_command)
| Release_synx (f : cvp_fence_command)
| Kthread_run
| Sleep
| Pm_qos_update
| Init_synx
| Deinit_synx
| Session_deinit_buffers
| Free_arp
| Fw_hung
| Wait_for (what : hal_command_response)
| Wait_msg (fenced : bool)
| Synx_import (h : Z)
| Synx_imported (h : Z)
| Synx_release (h : Z)
| Synx_signal (h state : Z)
| Synx_wait (h : Z)
| Synx_get_status (h : Z)
| Kcalloc (n : Z)
| Sfr_dma_buf_fd.

(** [w_msgq] is what the firmware has put in the message queue and the driver has not read
    yet: each element is the content of the receive buffer after reading one packet. *)
Record world := mkWorld {
  w_core : msm_cvp_core;
  w_hdev : iris_hfi_device;
  w_msgq : list (list Z);
  w_trace : list call
}.

#[global] Instance eta_world : Eta world :=
  λ r, mkWorld (w_core r) (w_hdev r) (w_msgq r) (w_trace r).

(** The environment: its answer to the [n]-th call, the firmware packets that are in the
    message queue when the [n]-th call is a wait, what an uninitialised stack buffer of so
    many words holds at that time, the platform data and the module parameters. *)
Class Env := {
  answer : nat → call → Z;
  arrivals : nat → list (list Z);
  stack : nat → nat → list Z;
  hash32_ptr : Z → Z;
  env_hfi_ver : Z;
  env_cvp_hfi_defs : hfi_table;
  max_supported_inst_count : Z;
  allowed_clks_tbl : list Z;
  msm_cvp_hw_rsp_timeout : Z;
  fatal_ssr : bool;
  msm_cvp_session_error_recovery : bool;
  msm_cvp_hw_hang_recovery : bool;
  has_hw_power_collapse : bool;
  msm_cvp_fw_debug : Z;
  msm_cvp_fw_debug_mode : Z;
  msm_cvp_fw_low_power_mode : Z;
  msm_cvp_fw_coverage : Z
}.

(** * The monad *)

Definition M (A : Type) : Type := world → outcome (A * world).

#[global] Instance M_ret : MRet M := λ A a w, Done (a, w).
#[global] Instance M_bind : MBind M := λ A B f m w, let! r := m w in f (fst r) (snd r).

Definition fault {A} : M A := λ w, Fault.
Definition get_world : M world := λ w, Done (w, w).
Definition mod_world (f : world → world) : M unit := λ w, Done (tt, f w).

Definition get_core : M msm_cvp_core := λ w, Done (w_core w, w).
Definition mod_core (f : msm_cvp_core → msm_cvp_core) : M unit :=
  mod_world (λ w, w <| w_core ::= f |>).
Definition get_hdev : M iris_hfi_device := λ w, Done (w_hdev w, w).
Definition mod_hdev (f : iris_hfi_device → iris_hfi_device) : M unit :=
  mod_world (λ w, w <| w_hdev ::= f |>).

(** Access to an instance through its address: a [Fault] when it has been freed. *)
Definition inst_at (p : Z) (w : world) : option msm_cvp_inst :=
  obj_find p (c_instances (w_core w)).

Definition get_i (p : Z) : M msm_cvp_inst :=
  λ w, match inst_at p w with Some i => Done (i, w) | None => Fault end.

Definition put_i (p : Z) (f : msm_cvp_inst → msm_cvp_inst) (w : world) : world :=
  w <| w_core ::= λ c, c <| c_instances ::= obj_alter f p |> |>.

Definition mod_i (p : Z) (f : msm_cvp_inst → msm_cvp_inst) : M unit :=
  λ w, match inst_at p w with Some _ => Done (tt, put_i p f w) | None => Fault end.

(** A call out of the layer. *)
Definition ext `{Env} (c : call) : M Z :=
  λ w, Done (answer (length (w_trace w)) c, w <| w_trace ::= λ t, t ++ [c] |>).

(** [BUG_ON]: the kernel stops. *)
Definition msm_cvp_bug_on (flag : bool) : M unit :=
  if flag then fault else mret tt.

Definition when (b : bool) (m : M unit) : M unit := if b then m else mret tt.

(** [m] on every element in turn. *)
Fixpoint for_each {A} (l : list A) (m : A → M unit) : M unit :=
  match l with [] => mret tt | a :: l' => m a ;; for_each l' m end.

(** [list_for_each_entry]: the walk reads the addresses up front; the loop bodies modelled
    do not remove elements other than the current one. *)
Definition for_each_inst (m : Z → M unit) : M unit :=
  c ← get_core; for_each (c_instances c).*1 m.

(** * Laws *)

Lemma bind_run {A B} (m : M A) (f : A → M B) w :
  (m ≫= f) w = let! r := m w in f (fst r) (snd r).
Proof. reflexivity. Qed.

Lemma ret_run {A} (a : A) w : (mret a : M A) w = Done (a, w).
Proof. reflexivity. Qed.

Lemma get_core_run w : get_core w = Done (w_core w, w).
Proof. reflexivity. Qed.

Lemma mod_core_run f w : mod_core f w = Done (tt, w <| w_core ::= f |>).
Proof. reflexivity. Qed.

Lemma get_world_run w : get_world w = Done (w, w).
Proof. reflexivity. Qed.

Lemma mod_world_run f w : mod_world f w = Done (tt, f w).
Proof. reflexivity. Qed.

Lemma get_hdev_run w : get_hdev w = Done (w_hdev w, w).
Proof. reflexivity. Qed.

Lemma mod_hdev_run f w : mod_hdev f w = Done (tt, w <| w_hdev ::= f |>).
Proof. reflexivity. Qed.

Lemma ext_run `{Env} c w :
  ext c w = Done (answer (length (w_trace w)) c, w <| w_trace ::= λ t, t ++ [c] |>).
Proof. reflexivity. Qed.

Lemma get_i_some p i w : inst_at p w = Some i → get_i p w = Done (i, w).
Proof. intros H. unfold get_i. by rewrite H. Qed.

Lemma mod_i_some p f i w : inst_at p w = Some i → mod_i p f w = Done (tt, put_i p f w).
Proof. intros H. unfold mod_i. by rewrite H. Qed.

Lemma inst_at_put p q f w :
  inst_at q (put_i p f w) = if q =? p then f <$> inst_at p w else inst_at q w.
Proof. apply obj_find_alter. Qed.

Lemma put_i_ext p f g w :
  (∀ i, inst_at p w = Some i → f i = g i) → put_i p f w = put_i p g w.
Proof.
  intros Hfg. unfold put_i, put_field_to. cbn. do 2 f_equal. by apply obj_alter_ext.
Qed.

Lemma put_i_comp p f g w : put_i p f (put_i p g w) = put_i p (λ i, f (g i)) w.
Proof. unfold put_i, put_field_to. cbn. do 2 f_equal. apply obj_alter_comp. Qed.

Lemma put_i_id p w : put_i p (λ i, i) w = w.
Proof.
  destruct w as [c d q t]. unfold put_i, put_field_to. cbn. f_equal. rewrite obj_alter_id.
  by destruct c.
Qed.

(** Runs the monad's plumbing: what is left are the operations whose outcome is not known. *)
Ltac mrun :=
  repeat first
    [ rewrite bind_run | rewrite ret_run | rewrite get_core_run | rewrite mod_core_run
    | rewrite get_hdev_run | rewrite mod_hdev_run | rewrite ext_run
    | rewrite get_world_run | rewrite mod_world_run
    | progress cbn [obind fst snd when msm_cvp_bug_on] ].

(** One access to an instance that is known to be there. *)
Ltac minst H := first [rewrite (get_i_some _ _ _ H) | rewrite (mod_i_some _ _ _ _ H)]; mrun.
