(* ===== verification/Evolve.v ===== *)
(** How an instance may change while the driver runs, and a small program logic that shows
    an operation respects it.

    [evolves w w'] says that every instance of [w'] is one of [w], changed only in allowed
    ways: its state stays or becomes invalid, the session type and the number of completions stay,
    the properties' arrays keep their sizes, a message queue that counts its messages
    correctly and within the limit keeps doing so, and a reference count stays positive; and that no address joins the
    list.  [pres P m] says that [m], run where [P] holds, goes from a world to one it
    evolves to; the rules follow the structure of operations, and the lemma of each
    operation is a hint of the database [pres]. *)

From S2P Require Import Prelude HfiTypes HfiPacket Driver.
Open Scope Z_scope.

(** * The relation *)

(** The message count is the number of messages, within the limit. *)
Definition sq_ok (q : cvp_session_queue) : Prop :=
  sq_msg_count q = Z.of_nat (length (sq_msgs q)) ∧ sq_msg_count q <= MAX_NUM_MSGS_PER_SESSION.

(** The arrays of the properties have their sizes. *)
Definition prop_sized (p : cvp_session_prop) : Prop :=
  length (p_cycles p) = HFI_MAX_HW_THREADS ∧ length (p_op_cycles p) = HFI_MAX_HW_THREADS ∧
  length (p_fps p) = HFI_MAX_HW_THREADS ∧ length (p_session_name p) = 64%nat.

Record evolve (i i' : msm_cvp_inst) : Prop := mkEvolve {
  ev_state : i_state i' = i_state i ∨ i_state i' = MSM_CVP_CORE_INVALID;
  ev_type : i_session_type i' = i_session_type i;
  ev_completions : length (i_completions i') = length (i_completions i);
  ev_queues : ∀ fenced, sq_ok (get_sq fenced i) → sq_ok (get_sq fenced i');
  ev_prop : prop_sized (i_prop i) → prop_sized (i_prop i');
  ev_kref : 0 < i_kref i → 0 < i_kref i'
}.

#[export] Instance evolve_preorder : PreOrder evolve.
Proof.
  split.
  - intros i. constructor; auto.
  - intros i j k [a1 b1 c1 d1 e1 f1] [a2 b2 c2 d2 e2 f2].
    constructor; [|congruence|congruence|auto..].
    destruct a2 as [->|]; auto.
Qed.

Definition addresses (w : world) : list Z := (c_instances (w_core w)).*1.

(** Every instance of [w'] is one of [w], changed as [R] allows. *)
Record along (R : relation msm_cvp_inst) (w w' : world) : Prop := mkAlong {
  al_insts : ∀ p i', inst_at p w' = Some i' → ∃ i, inst_at p w = Some i ∧ R i i';
  al_addresses : addresses w' `sublist_of` addresses w
}.

#[export] Instance along_preorder R : PreOrder R → PreOrder (along R).
Proof.
  intros HR. split.
  - intros w. split; [|done]. intros p i H. by exists i.
  - intros w1 w2 w3 [H1 A1] [H2 A2]. split; [|by trans (addresses w2)]. intros p i3 H3.
    destruct (H2 p i3 H3) as (i2 & E2 & V2).
    destruct (H1 p i2 E2) as (i1 & E1 & V1). exists i1. split; [done|]. by trans i2.
Qed.

Lemma along_mono (R R' : relation msm_cvp_inst) w w' :
  (∀ i i', R i i' → R' i i') → along R w w' → along R' w w'.
Proof.
  intros HR [Hw A]. split; [|done]. intros p i' Hi. destruct (Hw p i' Hi) as (i & ? & ?). eauto.
Qed.

Abbreviation evolves := (along evolve).

Lemma along_put R `{!Reflexive R} p f w :
  (∀ i, inst_at p w = Some i → R i (f i)) → along R w (put_i p f w).
Proof.
  intros Hf. split; [|by unfold addresses, put_i, put_field_to; cbn; rewrite obj_alter_dom].
  intros q i'. rewrite inst_at_put. destruct (Z.eqb_spec q p) as [->|].
  - destruct (inst_at p w) as [i|] eqn:E; [|done]. cbn. intros [= <-]. eauto.
  - intros E. by exists i'.
Qed.

Lemma evolves_same w w' : c_instances (w_core w') = c_instances (w_core w) → evolves w w'.
Proof.
  intros E. split; [|by unfold addresses; rewrite E].
  intros p i'. unfold inst_at. rewrite E. by exists i'.
Qed.

(** * The logic *)

Definition pres {A} (P : world → Prop) (m : M A) : Prop :=
  ∀ w a w', P w → m w = Done (a, w') → evolves w w'.

Definition anywhere (w : world) : Prop := True.

Section rules.
Context {A B : Type}.

Lemma pres_weaken P (m : M A) : pres anywhere m → pres P m.
Proof. intros Hm w a w' _. by apply Hm. Qed.

Lemma pres_ret P (a : A) : pres P (mret a).
Proof. intros w b w' _ [= <- <-]. done. Qed.

Lemma pres_fault P : pres P (@fault A).
Proof. intros w b w' _ [=]. Qed.

Lemma pres_bind P (m : M A) (f : A → M B) :
  pres P m → (∀ a, pres anywhere (f a)) → pres P (m ≫= f).
Proof.
  intros Hm Hf w b w' HP. rewrite bind_run.
  destruct (m w) as [[a w1]|] eqn:E; [|done]. cbn [obind fst snd]. intros Hb.
  trans w1; [by eapply Hm|by eapply Hf].
Qed.

Lemma pres_bind_get_i P p (f : msm_cvp_inst → M B) :
  (∀ i, pres (λ w, P w ∧ inst_at p w = Some i) (f i)) → pres P (get_i p ≫= f).
Proof.
  intros Hf w b w' HP. rewrite bind_run. unfold get_i.
  destruct (inst_at p w) as [i|] eqn:E; [|done]. cbn [obind fst snd]. by apply Hf.
Qed.

Lemma pres_get_i P p : pres P (get_i p).
Proof. intros w b w' _. unfold get_i. destruct (inst_at p w); [|done]. by intros [= <- <-]. Qed.

Lemma pres_mod_i (P : world → Prop) p f :
  (∀ w i, P w → inst_at p w = Some i → evolve i (f i)) → pres P (mod_i p f).
Proof.
  intros Hf w b w' HP. unfold mod_i. destruct (inst_at p w) as [i|] eqn:E; [|done].
  intros [= <- <-]. apply along_put; [apply _|]. eauto.
Qed.

Lemma pres_mod_world P f :
  (∀ w, c_instances (w_core (f w)) = c_instances (w_core w)) → pres P (mod_world f).
Proof. intros Hf w b w' _ [= <- <-]. by apply evolves_same. Qed.

Lemma pres_mod_core P f :
  (∀ c, c_instances (f c) = c_instances c) → pres P (mod_core f).
Proof. intros Hf. apply pres_mod_world. intros w. apply Hf. Qed.

Lemma pres_mod_hdev P f : pres P (mod_hdev f).
Proof. by apply pres_mod_world. Qed.

Lemma pres_ext P `{Env} c : pres P (ext c).
Proof. intros w b w' _ [= <- <-]. by apply evolves_same. Qed.

Lemma pres_get_core P : pres P get_core.
Proof. by intros w b w' _ [= <- <-]. Qed.

Lemma pres_get_hdev P : pres P get_hdev.
Proof. by intros w b w' _ [= <- <-]. Qed.

Lemma pres_get_world P : pres P get_world.
Proof. by intros w b w' _ [= <- <-]. Qed.

Lemma pres_when P b (m : M unit) : (b = true → pres P m) → pres P (when b m).
Proof. destruct b; [auto|]. intros _ w a w' _ [= <- <-]. done. Qed.

Lemma pres_bug P b : pres P (msm_cvp_bug_on b).
Proof. destruct b; [by intros w a w' _|]. by intros w a w' _ [= <- <-]. Qed.

End rules.

Lemma pres_for_each {A} P (l : list A) (m : A → M unit) :
  (∀ a, pres anywhere (m a)) → pres P (for_each l m).
Proof.
  intros Hm. apply pres_weaken. induction l as [|a l IH]; cbn; [apply pres_ret|].
  apply pres_bind; [apply Hm|done].
Qed.

Lemma pres_for_each_inst P (m : Z → M unit) :
  (∀ a, pres anywhere (m a)) → pres P (for_each_inst m).
Proof. intros Hm. apply pres_bind; [apply pres_get_core|]. intros c. by apply pres_for_each. Qed.

(** A computation that only reads, lifted from [outcome]. *)
Lemma pres_lift {A} P (o : world → outcome A) : pres P (λ w, let! a := o w in Done (a, w)).
Proof. intros w a w' _. destruct (o w); [|done]. by intros [= <- <-]. Qed.

(** Removing an instance. *)
Lemma evolves_del p w :
  evolves w (w <| w_core ::= λ c, c <| c_instances ::= obj_del p |> |>).
Proof.
  split; [|apply obj_del_sublist].
  intros q i'. unfold inst_at, put_field_to. cbn. rewrite obj_find_del.
  destruct (q =? p); [done|]. intros Hl. by exists i'.
Qed.

Lemma pres_del P p : pres P (mod_core (λ c, c <| c_instances ::= obj_del p |>)).
Proof. intros w a w' _ [= <- <-]. apply evolves_del. Qed.

Create HintDb pres.

(** Side conditions on updates of an instance: the update leaves the fields alone. *)
Ltac evolve_tac :=
  intros; first
    [ constructor; unfold put_field_to; cbn;
      [ first [by left | by right] | done
      | rewrite ?length_alter, ?length_insert, ?length_fmap; done
      | intros []; cbn;
        first [done | naive_solver | intros _; split; [reflexivity|discriminate]]
      | first [done | by unfold prop_sized; cbn]
      | cbn; lia ] ].

Ltac pres1 :=
  match goal with
  | |- pres _ (get_i _ ≫= _) => apply pres_bind_get_i; intros ?
  | |- pres _ (_ ≫= _) => apply pres_bind; [|intros ?]
  | |- pres _ (mret _) => apply pres_ret
  | |- pres _ fault => apply pres_fault
  | |- pres _ (get_i _) => apply pres_get_i
  | |- pres _ (mod_i _ _) => apply pres_mod_i; first [solve [evolve_tac] | intros ? ?]
  | |- pres _ (mod_core _) => first [apply pres_del | apply pres_mod_core; intros; reflexivity]
  | |- pres _ (mod_hdev _) => apply pres_mod_hdev
  | |- pres _ (mod_world _) => apply pres_mod_world; intros; reflexivity
  | |- pres _ (ext _) => apply pres_ext
  | |- pres _ get_core => apply pres_get_core
  | |- pres _ get_hdev => apply pres_get_hdev
  | |- pres _ get_world => apply pres_get_world
  | |- pres _ (when _ _) => apply pres_when; intros ?
  | |- pres _ (msm_cvp_bug_on _) => apply pres_bug
  | |- pres _ (for_each _ _) => apply pres_for_each; intros ?
  | |- pres _ (for_each_inst _) => apply pres_for_each_inst; intros ?
  | |- pres _ (if ?b then _ else _) => destruct b eqn:?
  | |- pres _ (match ?x with _ => _ end) => destruct x eqn:?
  | |- pres _ (λ w, let! _ := _ in Done (_, w)) => apply pres_lift
  | |- pres _ _ => apply pres_weaken; solve [eauto with pres nocore]
  end.

Ltac pres_tac := repeat pres1.
