(* ===== verification/Local.v ===== *)
(** Operations that work on one instance.

    [upd p i t w] is the world [w] with the instance at [p] and the trace replaced; runs of
    operations on one instance are sequences of such updates.  [local R p m] says that [m],
    run where there is an instance at [p], returns, changes nothing but that instance and
    the trace of calls, and the instance only as [R] says. *)

From S2P Require Import Prelude HfiTypes HfiPacket Driver.
Open Scope Z_scope.

(** * Operations that work on one instance *)

(** The world with the instance at [p] and the trace replaced. *)
Definition upd (p : Z) (i : msm_cvp_inst) (t : list call) (w : world) : world :=
  put_i p (λ _, i) w <| w_trace := t |>.

Lemma upd_upd p i j t u w : upd p i t (upd p j u w) = upd p i t w.
Proof.
  unfold upd. change (put_i p (λ _, i) (put_i p (λ _, j) w <| w_trace := u |>))
    with (put_i p (λ _, i) (put_i p (λ _, j) w) <| w_trace := u |>).
  by rewrite put_i_comp.
Qed.

Lemma upd_same p i w : inst_at p w = Some i → upd p i (w_trace w) w = w.
Proof.
  intros Hi. unfold upd. rewrite (put_i_ext p _ (λ j, j)); [|intros; congruence].
  rewrite put_i_id. by destruct w.
Qed.

Lemma inst_at_upd p q i t w :
  inst_at q (upd p i t w) = if q =? p then (λ _, i) <$> inst_at p w else inst_at q w.
Proof. exact (inst_at_put p q (λ _, i) w). Qed.

Lemma inst_at_upd_same p i j t w : inst_at p w = Some i → inst_at p (upd p j t w) = Some j.
Proof. intros Hi. by rewrite inst_at_upd, Z.eqb_refl, Hi. Qed.

Lemma get_i_upd p i j t w :
  inst_at p w = Some i → get_i p (upd p j t w) = Done (j, upd p j t w).
Proof. intros Hi. by apply get_i_some, (inst_at_upd_same p i). Qed.

Lemma put_i_upd p f j t w : put_i p f (upd p j t w) = upd p (f j) t w.
Proof.
  change (put_i p f (put_i p (λ _, j) w) <| w_trace := t |> = upd p (f j) t w).
  by rewrite put_i_comp.
Qed.

Lemma mod_i_upd p f i j t w :
  inst_at p w = Some i → mod_i p f (upd p j t w) = Done (tt, upd p (f j) t w).
Proof.
  intros Hi. rewrite (mod_i_some p f j); [|by eapply inst_at_upd_same]. by rewrite put_i_upd.
Qed.

Definition local (R : relation msm_cvp_inst) (p : Z) {A} (m : M A) : Prop :=
  ∀ w i, inst_at p w = Some i → ∃ a i' t, m w = Done (a, upd p i' t w) ∧ R i i'.

Section local_rules.
Context (R : relation msm_cvp_inst) `{!PreOrder R} (p : Z).

Lemma local_ret {A} (a : A) : local R p (mret a).
Proof. intros w i Hi. exists a, i, (w_trace w). by rewrite upd_same. Qed.

Lemma local_bind {A B} (m : M A) (f : A → M B) :
  local R p m → (∀ a, local R p (f a)) → local R p (m ≫= f).
Proof.
  intros Hm Hf w i Hi. destruct (Hm w i Hi) as (a & i1 & t1 & E1 & R1).
  destruct (Hf a _ i1 (inst_at_upd_same p i i1 t1 w Hi)) as (b & i2 & t2 & E2 & R2).
  exists b, i2, t2. rewrite bind_run, E1. cbn [obind fst snd].
  rewrite E2, upd_upd. split; [done|by trans i1].
Qed.

Lemma local_get_i : local R p (get_i p).
Proof.
  intros w i Hi. exists i, i, (w_trace w). by rewrite (get_i_some p i w Hi), upd_same.
Qed.

Lemma local_mod_i f : (∀ i, R i (f i)) → local R p (mod_i p f).
Proof.
  intros Hf w i Hi. exists tt, (f i), (w_trace w). rewrite (mod_i_some p f i w Hi).
  split; [|done]. unfold upd. rewrite (put_i_ext p f (λ _, f i)); [by destruct w|].
  intros; congruence.
Qed.

Lemma local_ext `{Env} c : local R p (ext c).
Proof.
  intros w i Hi. exists (answer (length (w_trace w)) c), i, (w_trace w ++ [c]).
  split; [|done]. rewrite ext_run. do 2 f_equal. unfold upd.
  rewrite (put_i_ext p _ (λ j, j)); [|intros; congruence]. by rewrite put_i_id.
Qed.

Lemma local_for_each {A} (l : list A) m :
  (∀ a, local R p (m a)) → local R p (for_each l m).
Proof.
  intros Hm. induction l as [|a l IH]; cbn; [apply local_ret|].
  apply local_bind; [apply Hm|done].
Qed.

Lemma local_when b (m : M unit) : local R p m → local R p (when b m).
Proof. destruct b; [done|]. intros _. apply local_ret. Qed.

End local_rules.
