(* ===== verification/Instance.v ===== *)
(** Instances and their references: lookup, validation, reference counting and destruction
    of [struct msm_cvp_inst] (src/msm/eva/msm_cvp_common.c, hfi_response_handler.c,
    msm_cvp_core.c), and the session registry they are validated against (msm_cvp.c,
    cvp_hfi.c).

    The lock retries of [cvp_get_inst_from_id] are not modelled: it runs as if the core lock
    were free. *)

From S2P Require Import Prelude HfiTypes HfiPacket Driver Evolve.
Open Scope Z_scope.

(** * Operations *)
Section operations.
Context `{Env}.

(** [get_sess_from_idr]: 0 when the id is not registered. *)
Definition get_sess_from_idr (p : Z) : M Z :=
  if p =? 0 then mret 0
  else i ← get_i p; c ← get_core; mret (default 0 (c_sess_idr c !! i_sess_id i)).

(** [__is_session_valid]: walks the device's session list. *)
Definition __is_session_valid (session : Z) : M bool :=
  if session =? 0 then mret false
  else d ← get_hdev; mret (bool_decide (session ∈ hd_sess_head d)).

(** A session object through its address. *)
Definition get_session (session : Z) : M cvp_hal_session :=
  d ← get_hdev;
  match obj_find session (hd_sessions d) with Some s => mret s | None => fault end.

(** [iris_hfi_validate_session]. *)
Definition iris_hfi_validate_session (sess : Z) : M Z :=
  if sess =? 0 then mret (- EINVAL)
  else
    s ← get_session sess;
    if negb (hs_device s) then mret (- EINVAL)
    else v ← __is_session_valid sess; mret (if v : bool then 0 else - ECONNRESET).

(** [__deinit_session_queue] and [__deinit_fence_queue]. *)
Definition __deinit_session_queue (p : Z) : M unit :=
  mod_i p (λ i, i <| i_session_queue ::= λ q,
    q <| sq_msgs := [] |> <| sq_msg_count := 0 |> <| sq_state := QUEUE_INVALID |> |>).

Definition __deinit_fence_queue (p : Z) : M unit :=
  mod_i p (λ i, i <| i_fence_cmd_queue ::= λ q,
    q <| fq_state := QUEUE_INVALID |> <| fq_mode := OP_INVALID |> |>).

(** [msm_cvp_destroy]: the instance leaves the list and its memory is freed. *)
Definition msm_cvp_destroy (p : Z) : M unit :=
  get_i p ;;
  __deinit_session_queue p ;;
  __deinit_fence_queue p ;;
  ext Deinit_synx ;;
  mod_core (λ c, c <| c_instances ::= obj_del p |>).

(** [cvp_put_inst]: an invalid reference count is reported and nothing else happens; the
    last reference destroys the instance. *)
Definition cvp_put_inst (p : Z) : M unit :=
  if p =? 0 then mret tt
  else
    i ← get_i p;
    if i_kref i <? 1 then mret tt
    else
      mod_i p (λ i, i <| i_kref ::= Z.pred |>) ;;
      when (i_kref i =? 1) (msm_cvp_destroy p).

(** [kref_get_unless_zero] on the instance at [p]. *)
Definition kref_get_unless_zero (p : Z) : M bool :=
  i ← get_i p;
  if i_kref i =? 0 then mret false
  else mod_i p (λ i, i <| i_kref ::= Z.succ |>) ;; mret true.

(** [cvp_get_inst]: 0 unless the address is that of a listed instance with a session. *)
Definition cvp_get_inst (session_id : Z) : M Z :=
  if session_id =? 0 then mret 0
  else
    c ← get_core;
    match obj_find session_id (c_instances c) with
    | None => mret 0
    | Some inst =>
        if i_session inst =? 0 then mret 0
        else
          ok ← kref_get_unless_zero session_id;
          mret (if ok : bool then session_id else 0)
    end.

(** [cvp_get_inst_validate]. *)
Definition cvp_get_inst_validate (session_id : Z) : M Z :=
  inst ← cvp_get_inst session_id;
  if inst =? 0 then mret 0
  else
    sess ← get_sess_from_idr inst;
    i ← get_i inst;
    if (sess =? 0) || negb (sess =? i_session i) then mret 0
    else
      rc ← iris_hfi_validate_session sess;
      if negb (rc =? 0) then cvp_put_inst inst ;; mret 0 else mret inst.

(** The first listed instance with a given session id. *)
Fixpoint find_sess_id (session_id : Z) (l : list (Z * msm_cvp_inst)) : option Z :=
  match l with
  | [] => None
  | (p, i) :: l' => if i_sess_id i =? session_id then Some p else find_sess_id session_id l'
  end.

(** [cvp_get_inst_from_id]. *)
Definition cvp_get_inst_from_id (session_id : Z) : M Z :=
  if session_id =? 0 then mret 0
  else
    c ← get_core;
    match find_sess_id session_id (c_instances c) with
    | None => mret 0
    | Some p => ok ← kref_get_unless_zero p; mret (if ok : bool then p else 0)
    end.

(** [is_cvp_inst_valid]: the instance is listed and referenced. *)
Definition is_cvp_inst_valid (p : Z) : M bool :=
  c ← get_core;
  mret (match obj_find p (c_instances c) with
        | Some i => negb (i_kref i =? 0)
        | None => false
        end).

(** [__get_session]: the first session of the device whose instance has the session id. *)
Fixpoint __get_session_in (l : list Z) (session_id : Z) : M Z :=
  match l with
  | [] => mret 0
  | s :: l' =>
      hs ← get_session s;
      i ← get_i (hs_session_id hs);
      if i_sess_id i =? session_id then mret s else __get_session_in l' session_id
  end.

Definition __get_session (session_id : Z) : M Z :=
  d ← get_hdev; __get_session_in (hd_sess_head d) session_id.

(** [msm_cvp_get_session_info]: the session id, or an error. *)
Definition msm_cvp_get_session_info (p : Z) : M (Z * option Z) :=
  if p =? 0 then mret (- EINVAL, None)
  else
    s ← cvp_get_inst_validate p;
    if s =? 0 then mret (- ECONNRESET, None)
    else
      i ← get_i p;
      cvp_put_inst s ;;
      mret (0, Some (i_sess_id i)).

End operations.

(** * The effect of a reference *)

Definition kref_add (n : Z) (p : Z) (w : world) : world :=
  put_i p (λ i, i <| i_kref ::= Z.add n |>) w.

Section lemmas.
Context `{Env}.

(** [cvp_get_inst] hands out a reference exactly to listed, referenced instances with a
    session. *)
Lemma cvp_get_inst_eq p w :
  cvp_get_inst p w =
  match inst_at p w with
  | Some i =>
      if (p =? 0) || (i_session i =? 0) || (i_kref i =? 0) then Done (0, w)
      else Done (p, kref_add 1 p w)
  | None => Done (0, w)
  end.
Proof.
  unfold cvp_get_inst. destruct (p =? 0) eqn:Ep; [by destruct (inst_at p w)|].
  mrun. fold (inst_at p w).
  destruct (inst_at p w) as [i|] eqn:Ei; [|done]. cbn [orb].
  destruct (i_session i =? 0); [done|]. cbn [orb]. unfold kref_get_unless_zero. mrun.
  minst Ei. destruct (i_kref i =? 0); [done|]. mrun. minst Ei.
  unfold kref_add. do 2 f_equal. apply put_i_ext. intros j _.
  unfold put_field_to. cbn. f_equal. lia.
Qed.

(** Dropping a reference that is not the last one. *)
Lemma cvp_put_inst_eq p i w :
  inst_at p w = Some i → p ≠ 0 → 1 < i_kref i →
  cvp_put_inst p w = Done (tt, kref_add (-1) p w).
Proof.
  intros Hi Hp Hk. unfold cvp_put_inst. rewrite (proj2 (Z.eqb_neq _ _) Hp). mrun. minst Hi.
  rewrite (proj2 (Z.ltb_ge _ _)) by lia. mrun. minst Hi.
  rewrite (proj2 (Z.eqb_neq _ _)) by lia. mrun. unfold kref_add.
  do 2 f_equal. apply put_i_ext. intros j _. unfold put_field_to. cbn. f_equal. lia.
Qed.

(** ** Evolution *)

Lemma pres_get_sess_from_idr p : pres anywhere (get_sess_from_idr p).
Proof. unfold get_sess_from_idr. pres_tac. Qed.
Hint Resolve pres_get_sess_from_idr : pres.

Lemma pres_is_session_valid s : pres anywhere (__is_session_valid s).
Proof. unfold __is_session_valid. pres_tac. Qed.
Hint Resolve pres_is_session_valid : pres.

Lemma pres_get_session s : pres anywhere (get_session s).
Proof. unfold get_session. pres_tac. Qed.
Hint Resolve pres_get_session : pres.

Lemma pres_validate_session s : pres anywhere (iris_hfi_validate_session s).
Proof. unfold iris_hfi_validate_session. pres_tac. Qed.
Hint Resolve pres_validate_session : pres.

Lemma pres_destroy p : pres anywhere (msm_cvp_destroy p).
Proof.
  unfold msm_cvp_destroy, __deinit_session_queue, __deinit_fence_queue.
  pres_tac.
Qed.
Hint Resolve pres_destroy : pres.

Lemma destroy_run p i w :
  inst_at p w = Some i →
  ∃ w', msm_cvp_destroy p w = Done (tt, w')
    ∧ c_instances (w_core w') = obj_del p (c_instances (w_core w)).
Proof.
  intros Hi. unfold msm_cvp_destroy, __deinit_session_queue, __deinit_fence_queue.
  mrun. minst Hi. minst Hi. eassert (inst_at p (put_i p _ w) = Some _) as Hi1.
  { rewrite inst_at_put, Z.eqb_refl, Hi. reflexivity. }
  minst Hi1. eexists. split; [reflexivity|].
  unfold put_i, put_field_to. cbn. by rewrite !obj_del_alter.
Qed.

(** Dropping a positive count, and destroying the instance with the last reference. *)
Lemma drop_reference p i w a w' :
  inst_at p w = Some i → 0 < i_kref i →
  (mod_i p (λ i, i <| i_kref ::= Z.pred |>) ;; when (i_kref i =? 1) (msm_cvp_destroy p)) w = Done (a, w') →
  evolves w w'.
Proof.
  intros Hi Hk. mrun. minst Hi. destruct (Z.eqb_spec (i_kref i) 1) as [Hk1|Hk1]; cbn [when].
  - edestruct (destroy_run p) as (w2 & E & Ed); [by rewrite inst_at_put, Z.eqb_refl, Hi|].
    rewrite E. intros [= <- <-]. trans (w <| w_core ::= λ c, c <| c_instances ::= obj_del p |> |>);
      [apply evolves_del|]. apply evolves_same. rewrite Ed. unfold put_i, put_field_to. cbn.
    by rewrite obj_del_alter.
  - intros [= <- <-]. apply along_put; [apply _|]. intros j Hj. simplify_eq. evolve_tac.
Qed.

Lemma pres_put_inst p : pres anywhere (cvp_put_inst p).
Proof.
  unfold cvp_put_inst. pres1; [pres_tac|]. apply pres_bind_get_i. intros i. pres1; [pres_tac|].
  intros w a w' [_ Hi]. zify_bool. apply (drop_reference p i); [done|lia].
Qed.
Hint Resolve pres_put_inst : pres.

Lemma pres_kref_get p : pres anywhere (kref_get_unless_zero p).
Proof. unfold kref_get_unless_zero. pres_tac. Qed.
Hint Resolve pres_kref_get : pres.

Lemma pres_get_inst p : pres anywhere (cvp_get_inst p).
Proof. unfold cvp_get_inst. pres_tac. Qed.
Hint Resolve pres_get_inst : pres.

Lemma pres_get_inst_validate p : pres anywhere (cvp_get_inst_validate p).
Proof. unfold cvp_get_inst_validate. pres_tac. Qed.
Hint Resolve pres_get_inst_validate : pres.

Lemma pres_get_inst_from_id n : pres anywhere (cvp_get_inst_from_id n).
Proof. unfold cvp_get_inst_from_id. pres_tac. Qed.
Hint Resolve pres_get_inst_from_id : pres.

End lemmas.

#[export] Hint Resolve pres_get_sess_from_idr pres_is_session_valid pres_get_session
  pres_validate_session pres_destroy pres_put_inst pres_kref_get pres_get_inst
  pres_get_inst_validate pres_get_inst_from_id : pres.
