(* ===== verification/HfiSession.v ===== *)
(** Sessions as the hardware layer keeps them (the session operations of
    src/msm/eva/cvp_hfi.c): creation and removal of [struct cvp_hal_session], the id
    registry [sess_idr], and the session commands sent to the firmware.

    Packets are built by HfiPacket.v in buffers of the sizes the code declares; putting one
    on the command queue is the call [Cmdq_write]. *)

From S2P Require Import Prelude HfiTypes HfiPacket Driver Evolve Instance.
Open Scope Z_scope.

(** * Operations *)
Section operations.
Context `{Env}.

(** [ktid = atomic64_inc_return(&core->kernel_trans_id) & (FENCE_BIT - 1)]. *)
Definition next_ktid : M Z :=
  mod_core (λ c, c <| c_kernel_trans_id ::= λ t, u64 (t + 1) |>) ;;
  c ← get_core; mret (Z.land (c_kernel_trans_id c) (FENCE_BIT - 1)).

(** What packet construction reads of an instance. *)
Definition inst_info_of (i : msm_cvp_inst) : inst_info :=
  mkInstInfo (i_sess_id i) (p_type (i_prop i)) (p_kernel_mask (i_prop i))
    (p_priority (i_prop i)) (p_is_secure (i_prop i)) (p_dsp_mask (i_prop i)).

Definition packet_session (session : Z) : M hal_session :=
  hs ← get_session session;
  if hs_session_id hs =? 0 then mret (mkHalSession None)
  else i ← get_i (hs_session_id hs); mret (mkHalSession (Some (inst_info_of i))).

(** [call_hfi_pkt_op] on a packet buffer (NULL when its allocation failed). *)
Definition call_hfi_pkt_op (op : pkt_op) (pkt : option (list Z)) : M (Z * list Z) :=
  λ w, let! r := hfi_default hash32_ptr msm_cvp_fw_debug_mode op pkt in Done (r, w).

(** An uninitialised packet of [n] words on the stack. *)
Definition stack_packet (n : nat) : M (list Z) :=
  λ w, Done (take n (stack (length (w_trace w)) n ++ replicate n 0), w).

(** [kzalloc] of a packet of [n] words. *)
Definition kzalloc_packet (n : nat) : M (option (list Z)) :=
  r ← ext (Kmalloc n); mret (if r =? 0 then None else Some (replicate n 0)).

(** [__iface_cmdq_write]. *)
Definition __iface_cmdq_write (pkt : option (list Z)) : M Z :=
  match pkt with None => mret (- EINVAL) | Some m => ext (Cmdq_write m) end.

(** The packet after construction: NULL stays NULL. *)
Definition built_in (pkt : option (list Z)) (m : list Z) : option (list Z) :=
  match pkt with None => None | Some _ => Some m end.

Definition __sys_set_debug (debug : Z) : M Z :=
  pkt ← kzalloc_packet 6;
  r ← call_hfi_pkt_op (sys_debug_config debug) pkt;
  if negb (fst r =? 0) then mret (- ENOTEMPTY)
  else
    e ← __iface_cmdq_write (built_in pkt (snd r));
    if negb (e =? 0) then mret (- ENOTEMPTY) else mret (fst r).

(** [__sys_set_coverage] returns 0 on its failure paths too. *)
Definition __sys_set_coverage (mode : Z) : M Z :=
  pkt ← kzalloc_packet 5;
  r ← call_hfi_pkt_op (sys_coverage_config mode) pkt;
  if negb (fst r =? 0) then mret 0
  else __iface_cmdq_write (built_in pkt (snd r)) ;; mret 0.

Definition __sys_set_idle_indicator (enable : Z) : M Z :=
  pkt ← kzalloc_packet 5;
  r ← call_hfi_pkt_op (sys_set_idle_indicator enable) pkt;
  e ← __iface_cmdq_write (built_in pkt (snd r));
  if negb (e =? 0) then mret (- ENOTEMPTY) else mret 0.

Definition __sys_set_power_control (enable : Z) : M Z :=
  if negb has_hw_power_collapse then mret 0
  else
    pkt ← kzalloc_packet 5;
    r ← call_hfi_pkt_op (sys_power_control enable) pkt;
    e ← __iface_cmdq_write (built_in pkt (snd r));
    if negb (e =? 0) then mret (- ENOTEMPTY) else mret 0.

Definition __set_default_sys_properties : M unit :=
  __sys_set_debug msm_cvp_fw_debug ;;
  __sys_set_power_control msm_cvp_fw_low_power_mode ;;
  mret tt.

Fixpoint remove_first (s : Z) (l : list Z) : list Z :=
  match l with
  | [] => []
  | t :: l' => if s =? t then l' else t :: remove_first s l'
  end.

(** [__session_clean]. *)
Definition __session_clean (session : Z) : M unit :=
  if session =? 0 then mret tt
  else
    hs ← get_session session;
    if negb (hs_device hs) then mret tt
    else
      mod_hdev (λ d, d <| hd_sess_head ::= remove_first session |>) ;;
      i ← get_i (hs_session_id hs);
      mod_core (λ c, c <| c_sess_idr ::= delete (i_sess_id i) |>) ;;
      mod_hdev (λ d, d <| hd_sessions ::= obj_del session |>).

(** The failure exit of [iris_hfi_session_init]. *)
Definition session_init_fail (p s : Z) : M Z :=
  when (negb (s =? 0)) (__session_clean s) ;;
  mod_i p (λ i, i <| i_sess_id := 0 |> <| i_session := 0 |>) ;;
  mret (- EINVAL).

(** [iris_hfi_session_init] for the instance at [p]; [new_session] is [&inst->session]. *)
Definition iris_hfi_session_init (p : Z) : M Z :=
  d ← get_hdev;
  s ← ext (Kzalloc (hd_sessions d).*1);
  if s =? 0 then session_init_fail p 0
  else
    mod_hdev (λ d, d <| hd_sessions ::= cons (s, mkHs p true) |>) ;;
    c ← get_core;
    id ← ext (Idr_alloc (dom (c_sess_idr c)));
    if id <? 0 then session_init_fail p s
    else
      mod_core (λ c, c <| c_sess_idr ::= <[id := s]> |>) ;;
      mod_hdev (λ d, d <| hd_sess_head ::= λ l, l ++ [s] |>) ;;
      __set_default_sys_properties ;;
      mod_i p (λ i, i <| i_sess_id := id |>) ;;
      hal ← packet_session s;
      pkt ← stack_packet 8;
      r ← call_hfi_pkt_op (session_init hal) (Some pkt);
      if negb (fst r =? 0) then
        mod_i p (λ i, i <| i_sess_id := 0xDEAD |>) ;; session_init_fail p s
      else
        mod_i p (λ i, i <| i_session := s |>) ;;
        e ← __iface_cmdq_write (Some (snd r));
        if negb (e =? 0) then session_init_fail p s else mret 0.

(** [iris_hfi_session_clean]. *)
Definition iris_hfi_session_clean (session : Z) : M Z :=
  if session =? 0 then mret (- EINVAL)
  else
    hs ← get_session session;
    if negb (hs_device hs) then mret (- EINVAL)
    else __session_clean session ;; mret 0.

(** The session commands without and with a transaction id. *)
Definition __send_session_cmd (session pkt_type : Z) : M Z :=
  get_session session ;;
  v ← __is_session_valid session;
  if negb v then mret (- ECONNRESET)
  else
    hal ← packet_session session;
    pkt ← stack_packet 3;
    r ← call_hfi_pkt_op (session_cmd pkt_type hal) (Some pkt);
    if fst r =? - EPERM then mret 0
    else if negb (fst r =? 0) then mret (fst r)
    else
      e ← __iface_cmdq_write (Some (snd r));
      if negb (e =? 0) then mret (- ENOTEMPTY) else mret 0.

Definition __send_session_cmd_ktid (session pkt_type ktid : Z) : M Z :=
  if session =? 0 then mret (- EINVAL)
  else
    hs ← get_session session;
    if negb (hs_device hs) then mret (- EINVAL)
    else
      v ← __is_session_valid session;
      if negb v then mret (- ECONNRESET)
      else
        hal ← packet_session session;
        pkt ← stack_packet 16;
        r ← call_hfi_pkt_op (session_cmd_ktid pkt_type hal ktid) (Some pkt);
        if fst r =? - EPERM then mret 0
        else if negb (fst r =? 0) then mret (fst r)
        else
          e ← __iface_cmdq_write (Some (snd r));
          if negb (e =? 0) then mret (- ENOTEMPTY) else mret 0.

(** The checks [session_end], [session_abort], [session_flush], [session_start] and
    [session_stop] make before the command. *)
Definition with_device (session : Z) (m : M Z) : M Z :=
  if session =? 0 then mret (- EINVAL)
  else
    hs ← get_session session;
    if negb (hs_device hs) then mret (- EINVAL) else m.

Definition iris_hfi_session_end (session : Z) : M Z :=
  with_device session
    (when (negb (msm_cvp_fw_coverage =? 0)) (__sys_set_coverage msm_cvp_fw_coverage ;; mret tt) ;;
     __send_session_cmd session HFI_CMD_SYS_SESSION_END).

Definition iris_hfi_session_abort (session : Z) : M Z :=
  with_device session (__send_session_cmd session HFI_CMD_SYS_SESSION_ABORT).

Definition iris_hfi_session_flush (session ktid : Z) : M Z :=
  with_device session (__send_session_cmd_ktid session HFI_CMD_SESSION_CVP_FLUSH ktid).

Definition iris_hfi_session_start (session ktid : Z) : M Z :=
  with_device session (__send_session_cmd_ktid session HFI_CMD_SESSION_EVA_START ktid).

Definition iris_hfi_session_stop (session ktid : Z) : M Z :=
  with_device session (__send_session_cmd_ktid session HFI_CMD_SESSION_EVA_STOP ktid).

(** [iris_hfi_session_set_buffers] and [iris_hfi_session_release_buffers]: the packet's
    transaction id is set before the packet is built. *)
Definition buffers_cmd (session : Z) (op : hal_session → pkt_op) (n : nat) : M Z :=
  v ← __is_session_valid session;
  if negb v then mret (- ECONNRESET)
  else
    hs ← get_session session;
    i ← get_i (hs_session_id hs);
    inst ← cvp_get_inst_from_id (i_sess_id i);
    if inst =? 0 then mret (- EINVAL)
    else
      ktid ← next_ktid;
      hal ← packet_session session;
      pkt ← stack_packet n;
      r ← call_hfi_pkt_op (op hal)
            (Some (<[7%nat := u32 ktid]> (<[8%nat := Z.shiftr ktid 32]> pkt)));
      rc ← (if negb (fst r =? 0) then mret (fst r)
            else
              e ← __iface_cmdq_write (Some (snd r));
              mret (if negb (e =? 0) then - ENOTEMPTY else 0));
      cvp_put_inst inst ;; mret rc.

Definition iris_hfi_session_set_buffers (session iova size : Z) : M Z :=
  if (session =? 0) then mret (- EINVAL)
  else
    hs ← get_session session;
    if negb (hs_device hs) || (iova =? 0) || (size =? 0) then mret (- EINVAL)
    else buffers_cmd session (λ hal, session_set_buffers hal iova size) 24.

Definition iris_hfi_session_release_buffers (session : Z) : M Z :=
  with_device session (buffers_cmd session session_release_buffers 17).

(** [iris_hfi_scale_clocks] and [msm_cvp_opp_set_rate]: the device's power is resumed, then
    the rate is remembered and the call asks the OPP framework for it. *)
Definition msm_cvp_opp_set_rate (freq : Z) : M Z :=
  mod_hdev (λ d, d <| hd_clk_freq := freq |>) ;; ext (Scale_clocks freq).

Definition iris_hfi_scale_clocks (freq : Z) : M Z :=
  r ← ext Resume;
  if negb (r =? 0) then mret (- ENODEV) else msm_cvp_opp_set_rate freq.

(** [iris_hfi_vote_buses]. *)
Definition iris_hfi_vote_buses (bw : Z) : M Z := ext (Vote_bus bw).

(** The part of [iris_hfi_core_release] that touches sessions: every session of the device
    is unlinked and loses its device. *)
Definition unlink_sessions : M unit :=
  d ← get_hdev;
  for_each (hd_sess_head d) (λ s,
    mod_hdev (λ d, d <| hd_sessions ::= obj_alter (λ hs, hs <| hs_device := false |>) s |>)) ;;
  mod_hdev (λ d, d <| hd_sess_head := [] |>).

(** [iris_hfi_core_init] and [iris_hfi_core_release] as the session layer sees them: the
    hardware part is a call. *)
Definition iris_hfi_core_init : M Z :=
  rc ← ext Core_init;
  mod_hdev (λ d, d <| hd_init := (rc =? 0) |>) ;; mret rc.

Definition iris_hfi_core_release : M Z :=
  rc ← ext Core_release;
  mod_hdev (λ d, d <| hd_init := false |>) ;;
  unlink_sessions ;; mret rc.

End operations.

(** * Evolution *)
Section evolution.
Context `{Env}.

Lemma pres_next_ktid : pres anywhere (next_ktid).
Proof. unfold next_ktid. pres_tac. Qed.
Hint Resolve pres_next_ktid : pres.

Lemma pres_packet_session s : pres anywhere (packet_session s).
Proof. unfold packet_session. pres_tac. Qed.
Hint Resolve pres_packet_session : pres.

Lemma pres_scale_clocks f : pres anywhere (iris_hfi_scale_clocks f).
Proof. unfold iris_hfi_scale_clocks, msm_cvp_opp_set_rate. pres_tac. Qed.
Hint Resolve pres_scale_clocks : pres.

Lemma pres_vote_buses bw : pres anywhere (iris_hfi_vote_buses bw).
Proof. unfold iris_hfi_vote_buses. pres_tac. Qed.
Hint Resolve pres_vote_buses : pres.

Lemma pres_pkt_op op pkt : pres anywhere (call_hfi_pkt_op op pkt).
Proof. unfold call_hfi_pkt_op. pres_tac. Qed.
Hint Resolve pres_pkt_op : pres.

Lemma pres_stack_packet n : pres anywhere (stack_packet n).
Proof. intros w a w' _ [= <- <-]. done. Qed.
Hint Resolve pres_stack_packet : pres.

Lemma pres_kzalloc_packet n : pres anywhere (kzalloc_packet n).
Proof. unfold kzalloc_packet. pres_tac. Qed.
Hint Resolve pres_kzalloc_packet : pres.

Lemma pres_cmdq_write pkt : pres anywhere (__iface_cmdq_write pkt).
Proof. unfold __iface_cmdq_write. pres_tac. Qed.
Hint Resolve pres_cmdq_write : pres.

Lemma pres_set_debug d : pres anywhere (__sys_set_debug d).
Proof. unfold __sys_set_debug. pres_tac. Qed.
Hint Resolve pres_set_debug : pres.

Lemma pres_set_coverage d : pres anywhere (__sys_set_coverage d).
Proof. unfold __sys_set_coverage. pres_tac. Qed.
Hint Resolve pres_set_coverage : pres.

Lemma pres_set_power d : pres anywhere (__sys_set_power_control d).
Proof. unfold __sys_set_power_control. pres_tac. Qed.
Hint Resolve pres_set_power : pres.

Lemma pres_default_props : pres anywhere (__set_default_sys_properties).
Proof. unfold __set_default_sys_properties. pres_tac. Qed.
Hint Resolve pres_default_props : pres.

Lemma pres_session_clean_dev s : pres anywhere (__session_clean s).
Proof. unfold __session_clean. pres_tac. Qed.
Hint Resolve pres_session_clean_dev : pres.

Lemma pres_session_init_fail p s : pres anywhere (session_init_fail p s).
Proof. unfold session_init_fail. pres_tac. Qed.
Hint Resolve pres_session_init_fail : pres.

Lemma pres_hfi_session_init p : pres anywhere (iris_hfi_session_init p).
Proof. unfold iris_hfi_session_init. pres_tac. Qed.
Hint Resolve pres_hfi_session_init : pres.

Lemma pres_hfi_session_clean s : pres anywhere (iris_hfi_session_clean s).
Proof. unfold iris_hfi_session_clean. pres_tac. Qed.
Hint Resolve pres_hfi_session_clean : pres.

Lemma pres_send_cmd s t : pres anywhere (__send_session_cmd s t).
Proof. unfold __send_session_cmd. pres_tac. Qed.
Hint Resolve pres_send_cmd : pres.

Lemma pres_send_cmd_ktid s t k : pres anywhere (__send_session_cmd_ktid s t k).
Proof. unfold __send_session_cmd_ktid. pres_tac. Qed.
Hint Resolve pres_send_cmd_ktid : pres.

Lemma pres_hfi_end s : pres anywhere (iris_hfi_session_end s).
Proof. unfold iris_hfi_session_end, with_device. pres_tac. Qed.
Hint Resolve pres_hfi_end : pres.

Lemma pres_hfi_flush s k : pres anywhere (iris_hfi_session_flush s k).
Proof. unfold iris_hfi_session_flush, with_device. pres_tac. Qed.
Hint Resolve pres_hfi_flush : pres.

Lemma pres_hfi_start s k : pres anywhere (iris_hfi_session_start s k).
Proof. unfold iris_hfi_session_start, with_device. pres_tac. Qed.
Hint Resolve pres_hfi_start : pres.

Lemma pres_hfi_stop s k : pres anywhere (iris_hfi_session_stop s k).
Proof. unfold iris_hfi_session_stop, with_device. pres_tac. Qed.
Hint Resolve pres_hfi_stop : pres.

Lemma pres_buffers_cmd s op n : pres anywhere (buffers_cmd s op n).
Proof. unfold buffers_cmd. pres_tac. Qed.
Hint Resolve pres_buffers_cmd : pres.

Lemma pres_set_buffers s a b : pres anywhere (iris_hfi_session_set_buffers s a b).
Proof. unfold iris_hfi_session_set_buffers. pres_tac. Qed.
Hint Resolve pres_set_buffers : pres.

Lemma pres_release_buffers s : pres anywhere (iris_hfi_session_release_buffers s).
Proof. unfold iris_hfi_session_release_buffers, with_device. pres_tac. Qed.
Hint Resolve pres_release_buffers : pres.

Lemma pres_unlink : pres anywhere (unlink_sessions).
Proof. unfold unlink_sessions. pres_tac. Qed.
Hint Resolve pres_unlink : pres.

Lemma pres_core_init : pres anywhere (iris_hfi_core_init).
Proof. unfold iris_hfi_core_init. pres_tac. Qed.
Hint Resolve pres_core_init : pres.

Lemma pres_core_release : pres anywhere (iris_hfi_core_release).
Proof. unfold iris_hfi_core_release. pres_tac. Qed.
Hint Resolve pres_core_release : pres.

End evolution.

#[export] Hint Resolve pres_scale_clocks pres_vote_buses
  pres_next_ktid pres_packet_session pres_pkt_op pres_stack_packet
  pres_kzalloc_packet pres_cmdq_write pres_set_debug pres_set_coverage
  pres_set_power pres_default_props pres_session_clean_dev pres_session_init_fail
  pres_hfi_session_init pres_hfi_session_clean pres_send_cmd pres_send_cmd_ktid
  pres_hfi_end pres_hfi_flush pres_hfi_start pres_hfi_stop
  pres_buffers_cmd pres_set_buffers pres_release_buffers pres_unlink
  pres_core_init pres_core_release : pres.
