(* ===== verification/Response.v ===== *)
(** Firmware messages: how a packet read from the message queue becomes a response or a
    message in a session's queue (src/msm/eva/hfi_response_handler.c), and the loop that
    drains the message queue ([__response_handler] of cvp_hfi.c).

    A raw packet is the content of the receive buffer [raw_packet], 3072 words with the
    packet at the front; reading past the buffer is a [Fault]. *)

From S2P Require Import Prelude HfiTypes HfiPacket HfiDefs Driver Evolve Instance HfiSession.
From stdpp Require Import strings.
Open Scope Z_scope.

(** * Data *)

(** [struct msm_cvp_cb_cmd_done]: [cd_session_id] is the firmware's session id until the
    response handler replaces it by the instance's address. *)
Record msm_cvp_cb_cmd_done := mkCmdDone {
  cd_device_id : Z;
  cd_session_id : Z;
  cd_status : cvp_status;
  cd_size : Z
}.

(** [struct msm_cvp_cb_info]. *)
Record msm_cvp_cb_info := mkInfo {
  info_response_type : hal_command_response;
  info_cmd : msm_cvp_cb_cmd_done
}.

Definition zero_cmd_done : msm_cvp_cb_cmd_done := mkCmdDone 0 0 CVP_ERR_NONE 0.

Definition cvp_max_packets : nat := 32.
Definition CVP_IFACEQ_MIN_PKT_SIZE : Z := 8.

(** * Error status *)

Definition hfi_map_err_status (hfi_err : Z) : cvp_status :=
  if hfi_err =? HFI_ERR_NONE then CVP_ERR_NONE
  else if hfi_err =? HFI_ERR_SYS_FATAL then CVP_ERR_HW_FATAL
  else if hfi_err =? HFI_ERR_SYS_NOC_ERROR then CVP_ERR_NOC_ERROR
  else if (hfi_err =? HFI_ERR_SYS_VERSION_MISMATCH)
       || (hfi_err =? HFI_ERR_SYS_INVALID_PARAMETER)
       || (hfi_err =? HFI_ERR_SYS_SESSION_ID_OUT_OF_RANGE)
       || (hfi_err =? HFI_ERR_SESSION_INVALID_PARAMETER)
       || (hfi_err =? HFI_ERR_SESSION_INVALID_SESSION_ID)
       || (hfi_err =? HFI_ERR_SESSION_INVALID_STREAM_ID) then CVP_ERR_BAD_PARAM
  else if (hfi_err =? HFI_ERR_SYS_INSUFFICIENT_RESOURCES)
       || (hfi_err =? HFI_ERR_SESSION_UNSUPPORTED_PROPERTY)
       || (hfi_err =? HFI_ERR_SESSION_UNSUPPORTED_SETTING)
       || (hfi_err =? HFI_ERR_SESSION_INSUFFICIENT_RESOURCES)
       || (hfi_err =? HFI_ERR_SESSION_UNSUPPORTED_STREAM) then CVP_ERR_NOT_SUPPORTED
  else if hfi_err =? HFI_ERR_SYS_MAX_SESSIONS_REACHED then CVP_ERR_MAX_CLIENTS
  else if hfi_err =? HFI_ERR_SYS_SESSION_IN_USE then CVP_ERR_CLIENT_PRESENT
  else if hfi_err =? HFI_ERR_SESSION_FATAL then CVP_ERR_CLIENT_FATAL
  else if hfi_err =? HFI_ERR_SESSION_BAD_POINTER then CVP_ERR_BAD_PARAM
  else if hfi_err =? HFI_ERR_SESSION_INCORRECT_STATE_OPERATION then CVP_ERR_BAD_STATE
  else CVP_ERR_FAIL.

(** * Message handlers *)
Section handlers.
Context `{Env}.

(** A handler's result: its return code and the response it filled in. *)
Definition reply : Type := Z * msm_cvp_cb_info.

(** Word [i] of the packet. *)
Definition word (m : list Z) (i : Z) : M Z := λ w, let! v := word_at m i in Done (v, w).

Definition hfi_process_sys_error (device_id : Z) (pkt : list Z) (info : msm_cvp_cb_info)
  : M reply :=
  event_data1 ← word pkt 4;
  mret (0, mkInfo HAL_SYS_ERROR (mkCmdDone device_id 0 (hfi_map_err_status event_data1) 0)).

Definition hfi_process_session_error (device_id : Z) (pkt : list Z) (info : msm_cvp_cb_info)
  : M reply :=
  session_id ← word pkt 2;
  event_data1 ← word pkt 4;
  event_data2 ← word pkt 5;
  mret (0, mkInfo
    (if (event_data1 =? HFI_ERR_SESSION_INVALID_SCALE_FACTOR)
        || (event_data1 =? HFI_ERR_SESSION_UPSCALE_NOT_SUPPORTED)
     then HAL_RESPONSE_UNUSED else HAL_SESSION_ERROR)
    (mkCmdDone device_id session_id (hfi_map_err_status event_data1) event_data2)).

Definition hfi_process_event_notify (device_id : Z) (hdr : list Z) (info : msm_cvp_cb_info)
  : M reply :=
  size ← word hdr 0;
  if size <? 24 then mret (- E2BIG, info)
  else
    event_id ← word hdr 3;
    if event_id =? HFI_EVENT_SYS_ERROR then hfi_process_sys_error device_id hdr info
    else if event_id =? HFI_EVENT_SESSION_ERROR
         then hfi_process_session_error device_id hdr info
    else mret (0, mkInfo HAL_RESPONSE_UNUSED zero_cmd_done).

(** [hfi_process_sys_init_done]: the size reported is that of [struct
    cvp_hal_sys_init_done]. *)
Definition hfi_process_sys_init_done (device_id : Z) (hdr : list Z)
    (info : msm_cvp_cb_info) : M reply :=
  size ← word hdr 0;
  if size <? 16 then mret (- E2BIG, info)
  else
    num_properties ← word hdr 3;
    status ← (if num_properties =? 0 then mret CVP_ERR_NONE
              else error_type ← word hdr 2; mret (hfi_map_err_status error_type));
    mret (0, mkInfo HAL_SYS_INIT_DONE (mkCmdDone device_id 0 status 32)).

(** [cvp_hfi_process_sys_init_done_prop_read]: the status, and whether the capabilities
    pointer is cleared. *)
Definition cvp_hfi_process_sys_init_done_prop_read (pkt : list Z) : M (cvp_status * bool) :=
  size ← word pkt 0;
  if u32 (size - 16) =? 0 then mret (CVP_ERR_FAIL, false)
  else
    error_type ← word pkt 2;
    if bool_decide (hfi_map_err_status error_type = CVP_ERR_NONE)
    then mret (CVP_ERR_NONE, true)
    else mret (hfi_map_err_status error_type, false).

(** The tail the session replies share: session id at word 2, error at word 3. *)
Definition session_reply (response_type : hal_command_response) (device_id size : Z)
    (pkt : list Z) : M reply :=
  session_id ← word pkt 2;
  error_type ← word pkt 3;
  mret (0, mkInfo response_type
             (mkCmdDone device_id session_id (hfi_map_err_status error_type) size)).

Definition hfi_process_session_init_done (device_id : Z) (hdr : list Z)
    (info : msm_cvp_cb_info) : M reply :=
  size ← word hdr 0;
  if size <? 20 then mret (- E2BIG, info)
  else session_reply HAL_SESSION_INIT_DONE device_id 732 hdr.

Definition hfi_process_session_end_done (device_id : Z) (hdr : list Z)
    (info : msm_cvp_cb_info) : M reply :=
  size ← word hdr 0;
  if negb (size =? 16) then mret (- E2BIG, info)
  else session_reply HAL_SESSION_END_DONE device_id 0 hdr.

Definition hfi_process_session_abort_done (device_id : Z) (hdr : list Z)
    (info : msm_cvp_cb_info) : M reply :=
  size ← word hdr 0;
  if negb (size =? 16) then mret (- E2BIG, info)
  else session_reply HAL_SESSION_ABORT_DONE device_id 0 hdr.

Definition hfi_process_session_set_buf_done (device_id : Z) (hdr : list Z)
    (info : msm_cvp_cb_info) : M reply :=
  size ← word hdr 0;
  if size <? 60 then mret (- E2BIG, info)
  else session_reply HAL_SESSION_SET_BUFFER_DONE device_id 0 hdr.

Definition hfi_process_session_flush_done (device_id : Z) (hdr : list Z)
    (info : msm_cvp_cb_info) : M reply :=
  size ← word hdr 0;
  if size <? 56 then mret (- E2BIG, info)
  else session_reply HAL_SESSION_FLUSH_DONE device_id 0 hdr.

Definition hfi_process_session_start_done (device_id : Z) (hdr : list Z)
    (info : msm_cvp_cb_info) : M reply :=
  size ← word hdr 0;
  if size <? 56 then mret (- E2BIG, info)
  else session_reply HAL_SESSION_START_DONE device_id 0 hdr.

Definition hfi_process_session_stop_done (device_id : Z) (hdr : list Z)
    (info : msm_cvp_cb_info) : M reply :=
  size ← word hdr 0;
  if size <? 56 then mret (- E2BIG, info)
  else session_reply HAL_SESSION_STOP_DONE device_id 0 hdr.

Definition hfi_process_session_rel_buf_done (device_id : Z) (hdr : list Z)
    (info : msm_cvp_cb_info) : M reply :=
  size ← word hdr 0;
  if size <? 60 then mret (- E2BIG, info)
  else session_reply HAL_SESSION_RELEASE_BUFFER_DONE device_id 0 hdr.

Definition hfi_process_session_dump_notify (device_id : Z) (hdr : list Z)
    (info : msm_cvp_cb_info) : M reply :=
  size ← word hdr 0;
  if negb (size =? 76) then mret (if size >? 76 then - E2BIG else - EINVAL, info)
  else
    session_id ← word hdr 2;
    inst ← cvp_get_inst_from_id session_id;
    if inst =? 0 then mret (- EINVAL, info)
    else
      error_type ← word hdr 16;
      dump_offset ← word hdr 17;
      dump_size ← word hdr 18;
      mod_i inst (λ i, i <| i_prop ::= λ p,
        p <| p_dump_offset := dump_offset |> <| p_dump_size := dump_size |> |>) ;;
      cvp_put_inst inst ;;
      mret (0, mkInfo HAL_SESSION_DUMP_NOTIFY
                 (mkCmdDone device_id session_id (hfi_map_err_status error_type) 0)).

(** [get_msg_size], in bytes. *)
Definition get_msg_size (pkt : list Z) : M Z :=
  packet_type ← word pkt 1;
  mret (if packet_type =? HFI_MSG_SESSION_CVP_RELEASE_BUFFERS then 60 else 68).

(** The queue a message goes to: the fence queue when bit 63 of [kdata] (words 8 and 9)
    is set, in both header formats. *)
Definition msg_is_fenced (pkt : list Z) : M bool :=
  hi ← word pkt 9; mret (Z.testbit hi 31).

(** [memcpy] of the message into a fresh [struct cvp_session_msg]. *)
Definition copy_msg (pkt : list Z) (size : Z) : M (list Z) :=
  λ w, let! l := words_read pkt 0 (Z.shiftr size 2) in Done (l, w).

Definition push_msg (msg : list Z) (q : cvp_session_queue) : cvp_session_queue :=
  q <| sq_msgs ::= λ l, l ++ [msg] |> <| sq_msg_count ::= λ n, u32 (n + 1) |>.

Definition hfi_process_session_cvp_msg (device_id : Z) (hdr : list Z)
    (info : msm_cvp_cb_info) : M reply :=
  size ← word hdr 0;
  msg_size ← get_msg_size hdr;
  if size >? MAX_HFI_PKT_SIZE * 4 then mret (- E2BIG, info)
  else if size <? msg_size then mret (- EINVAL, info)
  else
    session_id ← word hdr 2;
    inst ← cvp_get_inst_from_id session_id;
    if inst =? 0 then mret (- EINVAL, info)
    else
      fenced ← msg_is_fenced hdr;
      sess_msg ← ext (Kmalloc 0);
      if sess_msg =? 0 then cvp_put_inst inst ;; mret (- ENOMEM, info)
      else
        msg ← copy_msg hdr msg_size;
        i ← get_i inst;
        if sq_msg_count (get_sq fenced i) >=? MAX_NUM_MSGS_PER_SESSION
        then cvp_put_inst inst ;; mret (- ENOMEM, info)
        else
          mod_i inst (mod_sq fenced (push_msg msg)) ;;
          error_type ← word hdr 16;
          when (error_type =? HFI_ERR_SESSION_HW_HANG_DETECTED)
            (msm_cvp_bug_on (negb msm_cvp_hw_hang_recovery)) ;;
          cvp_put_inst inst ;;
          mret (0, mkInfo HAL_NO_RESP (info_cmd info)).

(** [hfi_process_sys_property_info]; the version string is only logged and parsed for
    debugging, and is not kept. *)
Definition hfi_process_sys_property_info (device_id : Z) (hdr : list Z)
    (info : msm_cvp_cb_info) : M reply :=
  size ← word hdr 0;
  if size >? 12 + 128 * 4 then mret (- E2BIG, info)
  else
    num_properties ← word hdr 2;
    if num_properties =? 0 then mret (- EINVAL, info)
    else
      prop ← word hdr 3;
      if prop =? HFI_PROPERTY_SYS_EVA_FW_VERSION
      then mret (0, mkInfo HAL_RESPONSE_UNUSED zero_cmd_done)
      else mret (- ENOTSUPP, info).

(** [cvp_hfi_process_msg_packet]: dispatch on the packet type. *)
Definition cvp_hfi_process_msg_packet (device_id : Z) (hdr : list Z)
    (info : msm_cvp_cb_info) : M reply :=
  size ← word hdr 0;
  if size <? CVP_IFACEQ_MIN_PKT_SIZE then mret (- EINVAL, info)
  else
    packet ← word hdr 1;
    (if packet =? HFI_MSG_EVENT_NOTIFY then hfi_process_event_notify
     else if packet =? HFI_MSG_SYS_INIT_DONE then hfi_process_sys_init_done
     else if packet =? HFI_MSG_SYS_SESSION_INIT_DONE then hfi_process_session_init_done
     else if packet =? HFI_MSG_SYS_PROPERTY_INFO then hfi_process_sys_property_info
     else if packet =? HFI_MSG_SYS_SESSION_END_DONE then hfi_process_session_end_done
     else if packet =? HFI_MSG_SESSION_CVP_SET_BUFFERS then hfi_process_session_set_buf_done
     else if packet =? HFI_MSG_SESSION_CVP_RELEASE_BUFFERS
          then hfi_process_session_rel_buf_done
     else if packet =? HFI_MSG_SYS_SESSION_ABORT_DONE then hfi_process_session_abort_done
     else if packet =? HFI_MSG_SESSION_CVP_FLUSH then hfi_process_session_flush_done
     else if packet =? HFI_MSG_SESSION_EVA_START_DONE then hfi_process_session_start_done
     else if packet =? HFI_MSG_SESSION_EVA_STOP_DONE then hfi_process_session_stop_done
     else if packet =? HFI_MSG_EVENT_NOTIFY_SNAPSHOT_READY
          then hfi_process_session_dump_notify
     else hfi_process_session_cvp_msg) device_id hdr info.

(** * Draining the message queue *)

(** [get_session_id]: the responses that name a session. *)
Definition has_session_id (r : hal_command_response) : bool :=
  match r with
  | HAL_SESSION_INIT_DONE | HAL_SESSION_END_DONE | HAL_SESSION_ABORT_DONE
  | HAL_SESSION_START_DONE | HAL_SESSION_STOP_DONE | HAL_SESSION_FLUSH_DONE
  | HAL_SESSION_SET_BUFFER_DONE | HAL_SESSION_SUSPEND_DONE | HAL_SESSION_RESUME_DONE
  | HAL_SESSION_SET_PROP_DONE | HAL_SESSION_GET_PROP_DONE | HAL_SESSION_RELEASE_BUFFER_DONE
  | HAL_SESSION_REGISTER_BUFFER_DONE | HAL_SESSION_UNREGISTER_BUFFER_DONE
  | HAL_SESSION_PROPERTY_INFO | HAL_SESSION_EVENT_CHANGE | HAL_SESSION_DUMP_NOTIFY
  | HAL_SESSION_ERROR => true
  | _ => false
  end.

(** [process_system_msg]: on SYS_INIT_DONE the properties are read; SYS_ERROR only prints
    the firmware's last words. *)
Definition process_system_msg (info : msm_cvp_cb_info) (raw_packet : list Z) : M unit :=
  match info_response_type info with
  | HAL_SYS_INIT_DONE => cvp_hfi_process_sys_init_done_prop_read raw_packet ;; mret tt
  | _ => mret tt
  end.

(** One round of the loop of [__response_handler]: the packet becomes a new element of the
    response array, or is dropped; the flag says whether the loop stops.  [packets] is the
    filled part of the array, which has [cvp_max_packets] elements. *)
Definition response_round (packets : list msm_cvp_cb_info) (raw_packet : list Z)
  : M (list msm_cvp_cb_info * bool) :=
  if (cvp_max_packets <=? length packets)%nat then fault
  else
    r ← cvp_hfi_process_msg_packet 0 raw_packet (mkInfo HAL_NO_RESP zero_cmd_done);
    let info := snd r in
    if negb (fst r =? 0) || bool_decide (info_response_type info = HAL_NO_RESP)
    then mret (packets, false)
    else
      process_system_msg info raw_packet ;;
      let stop ps := (cvp_max_packets <=? length ps)%nat
                     || bool_decide (info_response_type info = HAL_SYS_ERROR) in
      if has_session_id (info_response_type info) then
        session ← __get_session (u32 (cd_session_id (info_cmd info)));
        if session =? 0 then mret (packets, false)
        else
          hs ← get_session session;
          let ps := packets ++ [mkInfo (info_response_type info)
            (mkCmdDone (cd_device_id (info_cmd info)) (hs_session_id hs)
               (cd_status (info_cmd info)) (cd_size (info_cmd info)))] in
          mret (ps, stop ps)
      else mret (packets ++ [info], stop (packets ++ [info])).

(** The loop: what is left of the message queue when it stops early stays queued. *)
Fixpoint response_loop (packets : list msm_cvp_cb_info) (msgq : list (list Z))
  : M (list msm_cvp_cb_info * list (list Z)) :=
  match msgq with
  | [] => mret (packets, [])
  | m :: rest =>
      r ← response_round packets m;
      if snd r : bool then mret (fst r, rest) else response_loop (fst r) rest
  end.

(** [__response_handler]. *)
Definition __response_handler (msgq : list (list Z))
  : M (list msm_cvp_cb_info * list (list Z)) :=
  d ← get_hdev;
  if negb (hd_init d) then mret ([], msgq) else response_loop [] msgq.

End handlers.

(** * Evolution *)
Section evolution.
Context `{Env}.

Lemma pres_word m i : pres anywhere (word m i).
Proof. unfold word. pres_tac. Qed.
Hint Resolve pres_word : pres.

Lemma pres_copy_msg m n : pres anywhere (copy_msg m n).
Proof. unfold copy_msg. pres_tac. Qed.
Hint Resolve pres_copy_msg : pres.

Lemma pres_session_reply r d n m : pres anywhere (session_reply r d n m).
Proof. unfold session_reply. pres_tac. Qed.
Hint Resolve pres_session_reply : pres.

Lemma pres_get_msg_size m : pres anywhere (get_msg_size m).
Proof. unfold get_msg_size. pres_tac. Qed.
Hint Resolve pres_get_msg_size : pres.

Lemma pres_msg_is_fenced m : pres anywhere (msg_is_fenced m).
Proof. unfold msg_is_fenced. pres_tac. Qed.
Hint Resolve pres_msg_is_fenced : pres.

(** A queue below its limit still counts correctly after one more message. *)
Lemma sq_ok_push msg q :
  sq_msg_count q < MAX_NUM_MSGS_PER_SESSION → sq_ok q → sq_ok (push_msg msg q).
Proof.
  unfold sq_ok, push_msg, put_field_to, MAX_NUM_MSGS_PER_SESSION. cbn.
  intros Hlt [Hn _]. rewrite length_app. cbn. rewrite u32_small by (unfold is_u32; lia). lia.
Qed.

Lemma evolve_push fenced msg i :
  sq_msg_count (get_sq fenced i) < MAX_NUM_MSGS_PER_SESSION →
  evolve i (mod_sq fenced (push_msg msg) i).
Proof.
  intros Hlt. destruct fenced; (constructor; [by left|done|done| |done|done]);
    intros [] Hq; cbn in *; try done; by apply sq_ok_push.
Qed.

Lemma pres_cvp_msg d m i : pres anywhere (hfi_process_session_cvp_msg d m i).
Proof.
  unfold hfi_process_session_cvp_msg. pres_tac. intros [_ Hj] Hj'. simplify_eq.
  apply evolve_push. lia.
Qed.
Hint Resolve pres_cvp_msg : pres.

Lemma pres_event_notify d m i : pres anywhere (hfi_process_event_notify d m i).
Proof. unfold hfi_process_event_notify, hfi_process_sys_error, hfi_process_session_error. pres_tac. Qed.
Hint Resolve pres_event_notify : pres.

Lemma pres_sys_init_done d m i : pres anywhere (hfi_process_sys_init_done d m i).
Proof. unfold hfi_process_sys_init_done. pres_tac. Qed.
Hint Resolve pres_sys_init_done : pres.

Lemma pres_prop_read m : pres anywhere (cvp_hfi_process_sys_init_done_prop_read m).
Proof. unfold cvp_hfi_process_sys_init_done_prop_read. pres_tac. Qed.
Hint Resolve pres_prop_read : pres.

Lemma pres_property_info d m i : pres anywhere (hfi_process_sys_property_info d m i).
Proof. unfold hfi_process_sys_property_info. pres_tac. Qed.
Hint Resolve pres_property_info : pres.

Lemma pres_dump_notify d m i : pres anywhere (hfi_process_session_dump_notify d m i).
Proof. unfold hfi_process_session_dump_notify. pres_tac. Qed.
Hint Resolve pres_dump_notify : pres.

Lemma pres_process_msg d m i : pres anywhere (cvp_hfi_process_msg_packet d m i).
Proof.
  unfold cvp_hfi_process_msg_packet, hfi_process_session_init_done, hfi_process_session_end_done,
  hfi_process_session_set_buf_done, hfi_process_session_rel_buf_done,
  hfi_process_session_abort_done, hfi_process_session_flush_done,
  hfi_process_session_start_done, hfi_process_session_stop_done. pres_tac.
  repeat (case_match; [solve [pres_tac]|]). pres_tac.
Qed.
Hint Resolve pres_process_msg : pres.

Lemma pres_get_session_in l n : pres anywhere (__get_session_in l n).
Proof. induction l as [|s l IH]; cbn [__get_session_in]; pres_tac. Qed.
Hint Resolve pres_get_session_in : pres.

Lemma pres_dev_get_session n : pres anywhere (__get_session n).
Proof. unfold __get_session. pres_tac. Qed.
Hint Resolve pres_dev_get_session : pres.

Lemma pres_process_system_msg i m : pres anywhere (process_system_msg i m).
Proof. unfold process_system_msg. pres_tac. Qed.
Hint Resolve pres_process_system_msg : pres.

Lemma pres_response_round ps m : pres anywhere (response_round ps m).
Proof. unfold response_round. pres_tac. Qed.
Hint Resolve pres_response_round : pres.

Lemma pres_response_loop q : ∀ ps, pres anywhere (response_loop ps q).
Proof. induction q as [|m q IH]; intros ps; cbn [response_loop]; pres_tac. Qed.
Hint Resolve pres_response_loop : pres.

Lemma pres_response_handler q : pres anywhere (__response_handler q).
Proof. unfold __response_handler. pres_tac. Qed.
Hint Resolve pres_response_handler : pres.

End evolution.

#[export] Hint Resolve
  pres_word pres_copy_msg pres_session_reply pres_get_msg_size
  pres_msg_is_fenced pres_cvp_msg pres_event_notify pres_sys_init_done
  pres_prop_read pres_property_info pres_dump_notify pres_process_msg
  pres_get_session_in pres_dev_get_session pres_process_system_msg pres_response_round
  pres_response_loop pres_response_handler : pres.
