(* ===== verification/Session.v ===== *)
(** The session state machine (src/msm/eva/msm_cvp_common.c): the callbacks that process
    firmware responses, the waits, time-outs and system errors, and the handlers that move
    an instance from state to state; with the flush and stop of a session from msm_cvp.c
    that a time-out triggers.

    While the driver waits, the interrupt handler runs: the packets that have arrived go
    through Response.v and the responses through the callbacks below.  A wait ends when its
    completion is signalled, else it times out. *)

From S2P Require Import Prelude HfiTypes HfiPacket HfiDefs Driver Evolve Instance HfiSession Response.
Open Scope Z_scope.

Definition IS_HAL_SYS_CMD (cmd : hal_command_response) : bool :=
  let c := hal_command_response_to_Z cmd in
  (hal_command_response_to_Z HAL_SYS_INIT_DONE <=? c)
  && (c <=? hal_command_response_to_Z HAL_SYS_ERROR).

Definition IS_HAL_SESSION_CMD (cmd : hal_command_response) : bool :=
  let c := hal_command_response_to_Z cmd in
  (hal_command_response_to_Z HAL_SESSION_EVENT_CHANGE <=? c)
  && (c <=? hal_command_response_to_Z HAL_SESSION_ERROR).

Definition SYS_MSG_INDEX (cmd : hal_command_response) : nat :=
  Z.to_nat (hal_command_response_to_Z cmd - hal_command_response_to_Z HAL_SYS_INIT_DONE).

Definition SESSION_MSG_INDEX (cmd : hal_command_response) : nat :=
  Z.to_nat (hal_command_response_to_Z cmd
            - hal_command_response_to_Z HAL_SESSION_EVENT_CHANGE).

Definition st (s : instance_state) : Z := instance_state_to_Z s.
Definition qst (s : queue_state) : Z := queue_state_to_Z s.

(** * Callbacks *)
Section callbacks.
Context `{Env}.

Definition complete (p : Z) (cmd : hal_command_response) : M unit :=
  mod_i p (λ i, i <| i_completions ::= alter S (SESSION_MSG_INDEX cmd) |>).

(** [change_cvp_inst_state]: an invalid instance stays invalid. *)
Definition change_cvp_inst_state (p : Z) (state : instance_state) : M unit :=
  if p =? 0 then mret tt
  else
    i ← get_i p;
    if bool_decide (i_state i = MSM_CVP_CORE_INVALID) then mret tt
    else mod_i p (λ i, i <| i_state := state |>).

Definition signal_session_msg_receipt (cmd : hal_command_response) (p : Z) : M Z :=
  if p =? 0 then mret (- EINVAL)
  else if IS_HAL_SESSION_CMD cmd then complete p cmd ;; mret 0
  else mret (- EINVAL).

Definition set_event (p : Z) (e : cvp_event_t) : M unit :=
  mod_i p (λ i, i <| i_event := e |>).

(** [atomic_inc] of [cvp_error_count] below its limit. *)
Definition count_error : M unit :=
  mod_core (λ c, c <| c_cvp_error_count ::= λ n,
    if n <? MAX_CVP_ERROR_COUNT then n + 1 else n |>).

(** [handle_sys_init_done]: the firmware reports no session limit, so the platform's
    holds. *)
Definition handle_sys_init_done (cmd : hal_command_response) : M unit :=
  if negb (IS_HAL_SYS_CMD cmd) then mret tt
  else
    mod_core (λ c, c <| c_max_inst_count := max_supported_inst_count |>
                     <| c_completions ::= alter S (SYS_MSG_INDEX cmd) |>).

Definition handle_sys_release_res_done : M unit :=
  mod_core (λ c, c <| c_completions ::=
    alter S (SYS_MSG_INDEX HAL_SYS_RELEASE_RESOURCE_DONE) |>).

(** What [handle_session_init_done], [handle_session_ctrl] and [handle_session_close] do:
    record the firmware's status and signal the waiter. *)
Definition record_and_signal (cmd : hal_command_response) (response : msm_cvp_cb_cmd_done)
  : M unit :=
  inst ← cvp_get_inst (cd_session_id response);
  if inst =? 0 then mret tt
  else
    mod_i inst (λ i, i <| i_hfi_error_code := cvp_status_to_Z (cd_status response) |>) ;;
    signal_session_msg_receipt cmd inst ;;
    cvp_put_inst inst.

Definition handle_session_init_done := record_and_signal.
Definition handle_session_ctrl := record_and_signal.
Definition handle_session_close := record_and_signal.

(** [handle_session_set_buf_done] and [handle_session_release_buf_done]: the same, with the
    check of the command in place; the buffers are only logged. *)
Definition handle_session_set_buf_done (cmd : hal_command_response)
    (response : msm_cvp_cb_cmd_done) : M unit :=
  inst ← cvp_get_inst (cd_session_id response);
  if inst =? 0 then mret tt
  else
    mod_i inst (λ i, i <| i_hfi_error_code := cvp_status_to_Z (cd_status response) |>) ;;
    when (IS_HAL_SESSION_CMD cmd) (complete inst cmd) ;;
    cvp_put_inst inst.

Definition handle_session_release_buf_done := handle_session_set_buf_done.

Definition handle_release_res_done (cmd : hal_command_response)
    (response : msm_cvp_cb_cmd_done) : M unit :=
  inst ← cvp_get_inst (cd_session_id response);
  if inst =? 0 then mret tt
  else signal_session_msg_receipt cmd inst ;; cvp_put_inst inst.

Definition handle_session_dump_notify (response : msm_cvp_cb_cmd_done) : M unit :=
  inst ← cvp_get_inst (cd_session_id response);
  if inst =? 0 then mret tt
  else set_event inst CVP_DUMP_EVENT ;; cvp_put_inst inst.

Definition handle_session_error (response : msm_cvp_cb_cmd_done) : M unit :=
  inst ← cvp_get_inst (cd_session_id response);
  if inst =? 0 then mret tt
  else
    count_error ;;
    c ← get_core;
    mod_i inst (λ i, i <| i_session_error_code :=
      pack_error SESSION_ERROR EVA_SESSION_ERROR (c_cvp_error_count c) |>) ;;
    i ← get_i inst;
    when (negb (bool_decide (i_state i = MSM_CVP_CORE_INVALID)))
      (set_event inst EVA_EVENT) ;;
    msm_cvp_bug_on (negb msm_cvp_session_error_recovery) ;;
    cvp_put_inst inst.

(** ** Fence queues, as far as errors clean them (msm_cvp.c) *)

Definition SOC_FENCE : Z := 0xB0BABABE.

(** [f->pkt->header.client_data.kdata]. *)
Definition fence_kdata (f : cvp_fence_command) : Z :=
  (f_pkt f !!! 8%nat) + Z.shiftl (f_pkt f !!! 9%nat) 32.

Definition mod_fq (p : Z) (f : cvp_fence_queue → cvp_fence_queue) : M unit :=
  mod_i p (λ i, i <| i_fence_cmd_queue ::= f |>).

(** A bounded wait for other threads: 0 when they got there in time. *)
Definition others_done : M bool := r ← ext Sleep; mret (r =? 0).

Definition cvp_clean_fence_queue (p : Z) : M Z :=
  mod_fq p (λ q, q <| fq_mode := OP_DRAINING |>) ;;
  i ← get_i p;
  sent ← (if fq_send_count (i_fence_cmd_queue i) =? 0 then mret true else others_done);
  if negb sent then mret (- ETIMEDOUT)
  else
    i ← get_i p;
    for_each (fq_wait_list (i_fence_cmd_queue i)) (λ f,
      when (negb (f_signature f =? SOC_FENCE))
        (ext (Unmap_frame (fence_kdata f)) ;; ext (Cancel_synx false f) ;;
         ext (Release_synx f) ;; mret tt)) ;;
    mod_fq p (λ q, q <| fq_wait_list ::= filter (λ f, f_signature f = SOC_FENCE) |>) ;;
    for_each (fq_sched_list (i_fence_cmd_queue i)) (λ f,
      when (negb (f_signature f =? SOC_FENCE)) (ext (Cancel_synx true f) ;; mret tt)) ;;
    mret 0.

Definition cvp_fence_thread_stop (p : Z) : M Z :=
  i ← get_i p;
  if p_fthread_nr (i_prop i) =? 0 then mret 0
  else
    mod_fq p (λ q, q <| fq_state := QUEUE_STOP |>) ;;
    mod_i p (λ i, i <| i_session_queue_fence ::= λ q, q <| sq_state := QUEUE_STOP |> |>) ;;
    mret 0.

(** The wait, with retries, for the fence threads to empty the scheduled list; [err] when
    they do not. *)
Definition wait_sched_list (p err : Z) : M Z :=
  i ← get_i p;
  match fq_sched_list (i_fence_cmd_queue i) with
  | [] => mret 0
  | _ =>
      ok ← others_done;
      if ok : bool then mod_fq p (λ q, q <| fq_sched_list := [] |>) ;; mret 0
      else mret err
  end.

Definition cvp_drain_fence_sched_list (p : Z) : M Z := wait_sched_list p (- ETIMEDOUT).

Definition cvp_clean_session_queues (p : Z) : M Z :=
  i ← get_i p;
  when (bool_decide (fq_state (i_fence_cmd_queue i) = QUEUE_START)
        || bool_decide (fq_state (i_fence_cmd_queue i) = QUEUE_ACTIVE))
    (cvp_clean_fence_queue p ;; mret tt) ;;
  cvp_fence_thread_stop p ;;
  wait_sched_list p (- EBUSY).

(** ** System errors *)

(** What [handle_sys_error] does to each instance that is not invalid yet. *)
Definition invalidate_inst (p : Z) : M unit :=
  i ← get_i p;
  if bool_decide (i_state i = MSM_CVP_CORE_INVALID) then mret tt
  else
    c ← get_core;
    mod_i p (λ i, i <| i_session_error_code :=
      pack_error SESSION_ERROR EVA_SYS_ERROR (c_cvp_error_count c) |>) ;;
    change_cvp_inst_state p MSM_CVP_CORE_INVALID ;;
    cvp_clean_session_queues p ;;
    mod_i p (λ i, i <| i_completions ::= fmap S |>) ;;
    set_event p EVA_EVENT.

Definition handle_sys_error : M unit :=
  c ← get_core;
  if bool_decide (c_state c = CVP_CORE_UNINIT) then mret tt
  else
    let cur_state := c_state c in
    mod_core (λ c, c <| c_ssr_count ::= λ n, u32 (n + 1) |>
                     <| c_state := CVP_CORE_UNINIT |>) ;;
    ext Flush_debug_queue ;;
    count_error ;;
    for_each_inst invalidate_inst ;;
    rc ← iris_hfi_core_release;
    if negb (rc =? 0) then mod_core (λ c, c <| c_state := cur_state |>)
    else msm_cvp_bug_on fatal_ssr.

Definition cvp_handle_cmd_response (cmd : hal_command_response)
    (data : msm_cvp_cb_cmd_done) : M unit :=
  match cmd with
  | HAL_SYS_INIT_DONE => handle_sys_init_done cmd
  | HAL_SYS_RELEASE_RESOURCE_DONE => handle_sys_release_res_done
  | HAL_SESSION_INIT_DONE => handle_session_init_done cmd data
  | HAL_SESSION_RELEASE_RESOURCE_DONE => handle_release_res_done cmd data
  | HAL_SESSION_END_DONE | HAL_SESSION_ABORT_DONE => handle_session_close cmd data
  | HAL_SESSION_EVENT_CHANGE => mret tt
  | HAL_SESSION_FLUSH_DONE | HAL_SESSION_START_DONE | HAL_SESSION_STOP_DONE =>
      handle_session_ctrl cmd data
  | HAL_SYS_WATCHDOG_TIMEOUT | HAL_SYS_ERROR => handle_sys_error
  | HAL_SESSION_ERROR => handle_session_error data
  | HAL_SESSION_SET_BUFFER_DONE => handle_session_set_buf_done cmd data
  | HAL_SESSION_RELEASE_BUFFER_DONE => handle_session_release_buf_done cmd data
  | HAL_SESSION_DUMP_NOTIFY => handle_session_dump_notify data
  | _ => mret tt
  end.

(** ** The interrupt handler *)

(** The callbacks of a round of responses; a response that finds the device released stops
    the round. *)
Fixpoint run_callbacks (l : list msm_cvp_cb_info) : M unit :=
  match l with
  | [] => mret tt
  | r :: l' =>
      d ← get_hdev;
      if negb (hd_init d) then mret tt
      else cvp_handle_cmd_response (info_response_type r) (info_cmd r) ;; run_callbacks l'
  end.

(** [iris_hfi_core_work_handler]. *)
Definition iris_hfi_core_work_handler : M unit :=
  d ← get_hdev;
  if negb (hd_init d) then mret tt
  else
    w ← get_world;
    r ← __response_handler (w_msgq w);
    mod_world (λ w, w <| w_msgq := snd r |>) ;;
    run_callbacks (fst r).

(** Interrupts until the message queue is empty: a round that does anything removes a
    packet, so as many rounds as packets are enough. *)
Fixpoint interrupts (n : nat) : M unit :=
  match n with
  | O => mret tt
  | S n' => iris_hfi_core_work_handler ;; interrupts n'
  end.

(** The firmware's packets that arrive during a wait, and the interrupts they raise. *)
Definition receive_during (cmd : hal_command_response) : M unit :=
  w ← get_world;
  ext (Wait_for cmd) ;;
  mod_world (λ w', w' <| w_msgq ::= λ q, q ++ arrivals (length (w_trace w)) |>) ;;
  w' ← get_world;
  interrupts (length (w_msgq w')).

End callbacks.

(** * Waiting for the firmware *)
Section waits.
Context `{Env}.

(** [msm_cvp_set_fmax] and [msm_cvp_set_clocks]. *)
Definition msm_cvp_set_fmax : M Z :=
  match allowed_clks_tbl !! (length allowed_clks_tbl - 1)%nat with
  | Some max_rate => iris_hfi_scale_clocks max_rate
  | None => fault
  end.

Definition msm_cvp_set_clocks : M Z := c ← get_core; iris_hfi_scale_clocks (c_curr_freq c).

Definition mod_session_queue (p : Z) (f : cvp_session_queue → cvp_session_queue) : M unit :=
  mod_i p (λ i, i <| i_session_queue ::= f |>).

(** The commands whose time-out does not stop the session. *)
Definition is_control_cmd (cmd : hal_command_response) : bool :=
  bool_decide (cmd ∈ [HAL_SESSION_STOP_DONE; HAL_SESSION_FLUSH_DONE;
                      HAL_SESSION_SET_BUFFER_DONE; HAL_SESSION_INIT_DONE;
                      HAL_SESSION_START_DONE]).

(** [handle_session_timeout] and [wait_for_sess_signal_receipt] stop the session through
    [msm_cvp_session_flush_stop], which waits in turn, but only for control commands; the
    knot is tied below. *)
Section stopping.
Context (flush_stop : Z → M Z).

Definition handle_session_timeout_with (p : Z) (stop_required : bool) : M unit :=
  s ← cvp_get_inst_validate p;
  if s =? 0 then mret tt
  else
    i ← get_i p;
    let s_state := Z.shiftr (Z.land 0xF0000000 (i_session_error_code i)) 28 in
    let s_ecode := Z.shiftr (Z.land 0x0FFF0000 (i_session_error_code i)) 16 in
    if (s_state =? SESSION_ERROR) && (s_ecode =? EVA_SYS_ERROR) then cvp_put_inst p
    else
      hung ← ext Fw_hung;
      if negb (hung =? 0) then handle_sys_error ;; cvp_put_inst p
      else
        count_error ;;
        c ← get_core;
        mod_i p (λ i, i <| i_session_error_code :=
          pack_error SESSION_ERROR EVA_SESSION_TIMEOUT (c_cvp_error_count c) |>) ;;
        set_event p EVA_EVENT ;;
        msm_cvp_bug_on (negb msm_cvp_session_error_recovery) ;;
        when stop_required (flush_stop p ;; mret tt) ;;
        cvp_put_inst p.

(** [wait_for_completion_timeout] on a completion of the session: true when it was
    signalled. *)
Definition wait_completion (p : Z) (cmd : hal_command_response) : M bool :=
  receive_during cmd ;;
  i ← get_i p;
  match default 0%nat (i_completions i !! SESSION_MSG_INDEX cmd) with
  | O => mret false
  | S n =>
      mod_i p (λ i, i <| i_completions ::= <[SESSION_MSG_INDEX cmd := n]> |>) ;; mret true
  end.

Definition wait_for_sess_signal_receipt_with (p : Z) (cmd : hal_command_response) : M Z :=
  if negb (IS_HAL_SESSION_CMD cmd) then mret (- EINVAL)
  else
    done ← wait_completion p cmd;
    i ← get_i p;
    if negb done then
      when (negb (bool_decide (i_state i = MSM_CVP_CORE_INVALID)))
        (ext Flush_debug_queue ;; mret tt) ;;
      handle_session_timeout_with p (negb (is_control_cmd cmd)) ;;
      mret (- ETIMEDOUT)
    else if bool_decide (i_state i = MSM_CVP_CORE_INVALID) then mret (- ECONNRESET)
    else
      mod_i p (λ i, i <| i_prev_hfi_error_code := i_hfi_error_code i |>
                      <| i_hfi_error_code := 0 |>) ;;
      mret (s32 (i_hfi_error_code i)).

End stopping.

(** The wait for a control command never stops the session. *)
Definition wait_control : Z → hal_command_response → M Z :=
  wait_for_sess_signal_receipt_with (λ _, fault).

Definition cvp_session_flush_all (p : Z) : M Z :=
  if p =? 0 then mret (- EINVAL)
  else
    s ← cvp_get_inst_validate p;
    if s =? 0 then mret (- ECONNRESET)
    else
      msm_cvp_set_fmax ;;
      rc ← cvp_clean_fence_queue p;
      rc ← (if negb (rc =? 0) then mret rc
            else
              ktid ← next_ktid;
              i ← get_i p;
              rc ← iris_hfi_session_flush (i_session i) ktid;
              if negb (rc =? 0) then mret rc else wait_control p HAL_SESSION_FLUSH_DONE);
      msm_cvp_set_clocks ;;
      rc ← (if rc =? 0 then cvp_drain_fence_sched_list p else mret rc);
      mod_fq p (λ q, q <| fq_mode := OP_NORMAL |>) ;;
      cvp_put_inst s ;;
      mret rc.

(** The common exit of the stop operations: label [stop_thread]. *)
Definition stop_thread (p rc : Z) : M unit :=
  mod_session_queue p (λ q, q <| sq_state := if rc =? 0 then QUEUE_STOP else QUEUE_INVALID |>) ;;
  cvp_fence_thread_stop p ;; mret tt.

Definition send_stop_and_wait (p : Z) : M Z :=
  ktid ← next_ktid;
  i ← get_i p;
  rc ← iris_hfi_session_stop (i_session i) ktid;
  if negb (rc =? 0) then mret rc else wait_control p HAL_SESSION_STOP_DONE.

Definition msm_cvp_session_flush_stop (p : Z) : M Z :=
  if p =? 0 then mret (- EINVAL)
  else
    s ← cvp_get_inst_validate p;
    if s =? 0 then mret (- ECONNRESET)
    else
      i ← get_i p;
      let q_state := sq_state (i_session_queue i) in
      if bool_decide (q_state = QUEUE_STOP) then cvp_put_inst s ;; mret 0
      else if qst q_state <? qst QUEUE_START then
        stop_thread p 0 ;; cvp_put_inst s ;; mret 0
      else
        rc ← cvp_session_flush_all p;
        rc ← (if negb (rc =? 0) then mret rc else send_stop_and_wait p);
        stop_thread p rc ;; cvp_put_inst s ;; mret rc.

Definition handle_session_timeout : Z → bool → M unit :=
  handle_session_timeout_with msm_cvp_session_flush_stop.

Definition wait_for_sess_signal_receipt : Z → hal_command_response → M Z :=
  wait_for_sess_signal_receipt_with msm_cvp_session_flush_stop.

End waits.

(** * The state machine *)
Section state_machine.
Context `{Env}.

(** [IS_ALREADY_IN_STATE]. *)
Definition IS_ALREADY_IN_STATE (p d : Z) : bool := p >=? d.

Definition wait_for_state (p flipped_state : Z) (desired_state : instance_state)
    (hal_cmd : hal_command_response) : M Z :=
  if IS_ALREADY_IN_STATE flipped_state (st desired_state) then mret 0
  else
    rc ← wait_for_sess_signal_receipt p hal_cmd;
    when (rc =? 0) (change_cvp_inst_state p desired_state) ;; mret rc.

Definition msm_cvp_comm_generate_sys_error (p : Z) : M unit :=
  if p =? 0 then mret tt else handle_sys_error.

Definition msm_comm_session_abort (p : Z) : M Z :=
  if p =? 0 then mret (- EINVAL) else ext Flush_debug_queue ;; mret 0.

Definition msm_cvp_comm_kill_session (p : Z) : M Z :=
  if p =? 0 then mret (- EINVAL)
  else
    i ← get_i p;
    if i_session i =? 0 then mret 0
    else
      when ((st MSM_CVP_OPEN_DONE <=? st (i_state i)) && (st (i_state i) <? st MSM_CVP_CLOSE_DONE))
        (msm_comm_session_abort p ;; change_cvp_inst_state p MSM_CVP_CORE_INVALID) ;;
      i ← get_i p;
      when (st MSM_CVP_CORE_UNINIT <=? st (i_state i)) (set_event p EVA_EVENT) ;;
      mret 0.

Definition msm_cvp_comm_session_clean (p : Z) : M unit :=
  if p =? 0 then mret tt
  else
    i ← get_i p;
    if i_session i =? 0 then mret tt
    else
      iris_hfi_session_clean (i_session i) ;;
      mod_i p (λ i, i <| i_session := 0 |>).

(** [msm_cvp_comm_check_core_init].  The core lock is held over the wait, so of the
    responses the interrupt handler delivers only those before the first one that needs the
    lock are processed in it; that one and the later ones follow once it is released. *)
Definition needs_core_lock (r : msm_cvp_cb_info) : bool :=
  negb (bool_decide (info_response_type r ∈
    [HAL_SYS_INIT_DONE; HAL_SYS_RELEASE_RESOURCE_DONE; HAL_SESSION_EVENT_CHANGE;
     HAL_RESPONSE_UNUSED; HAL_NO_RESP])).

Fixpoint before_lock (l : list msm_cvp_cb_info) : list msm_cvp_cb_info * list msm_cvp_cb_info :=
  match l with
  | [] => ([], [])
  | r :: l' =>
      if needs_core_lock r then ([], l)
      else let '(a, b) := before_lock l' in (r :: a, b)
  end.

Definition msm_cvp_comm_check_core_init : M Z :=
  c ← get_core;
  if cvp_core_state_to_Z CVP_CORE_INIT_DONE <=? cvp_core_state_to_Z (c_state c) then mret 0
  else
    w ← get_world;
    ext (Wait_for HAL_SYS_INIT_DONE) ;;
    d ← get_hdev;
    r ← __response_handler (w_msgq w ++ arrivals (length (w_trace w)));
    mod_world (λ w', w' <| w_msgq := snd r |>) ;;
    run_callbacks (fst (before_lock (fst r))) ;;
    c ← get_core;
    rc ← (match default 0%nat (c_completions c !! SYS_MSG_INDEX HAL_SYS_INIT_DONE) with
          | O => ext Flush_debug_queue ;; mret (- EIO)
          | S n =>
              mod_core (λ c, c <| c_completions ::= <[SYS_MSG_INDEX HAL_SYS_INIT_DONE := n]> |>
                               <| c_state := CVP_CORE_INIT_DONE |>) ;;
              mret 0
          end);
    run_callbacks (snd (before_lock (fst r))) ;;
    mret rc.

Definition msm_comm_init_core_done (p : Z) : M Z :=
  rc ← msm_cvp_comm_check_core_init;
  if negb (rc =? 0) then msm_cvp_comm_generate_sys_error p ;; mret rc
  else change_cvp_inst_state p MSM_CVP_CORE_INIT_DONE ;; mret 0.

Definition msm_comm_init_core (p : Z) : M Z :=
  if p =? 0 then mret (- EINVAL)
  else
    c ← get_core;
    let fail rc :=
      mod_core (λ c, c <| c_capabilities := false |> <| c_state := CVP_CORE_UNINIT |>) ;;
      mret rc in
    if cvp_core_state_to_Z CVP_CORE_INIT <=? cvp_core_state_to_Z (c_state c)
    then change_cvp_inst_state p MSM_CVP_CORE_INIT ;; mret 0
    else
      ok ← (if c_capabilities c then mret true
            else r ← ext (Kmalloc 0); mret (negb (r =? 0)));
      if negb ok then fail (- ENOMEM)
      else
        mod_core (λ c, c <| c_capabilities := true |>) ;;
        rc ← iris_hfi_core_init;
        if negb (rc =? 0) then fail rc
        else
          mod_core (λ c, c <| c_state := CVP_CORE_INIT |> <| c_trigger_ssr := false |>) ;;
          change_cvp_inst_state p MSM_CVP_CORE_INIT ;; mret 0.

Definition msm_cvp_deinit_core (p : Z) : M Z :=
  if p =? 0 then mret (- EINVAL)
  else change_cvp_inst_state p MSM_CVP_CORE_UNINIT ;; mret 0.

Definition msm_comm_session_init_done (flipped_state p : Z) : M Z :=
  wait_for_state p flipped_state MSM_CVP_OPEN_DONE HAL_SESSION_INIT_DONE.

Definition msm_comm_session_init (flipped_state p : Z) : M Z :=
  if p =? 0 then mret (- EINVAL)
  else if IS_ALREADY_IN_STATE flipped_state (st MSM_CVP_OPEN) then mret 0
  else
    rc ← iris_hfi_session_init p;
    i ← get_i p;
    if negb (rc =? 0) || (i_session i =? 0) then mret (- EINVAL)
    else change_cvp_inst_state p MSM_CVP_OPEN ;; mret rc.

Definition msm_comm_session_close (flipped_state p : Z) : M Z :=
  if p =? 0 then mret (- EINVAL)
  else if IS_ALREADY_IN_STATE flipped_state (st MSM_CVP_CLOSE) then mret 0
  else
    i ← get_i p;
    rc ← iris_hfi_session_end (i_session i);
    if negb (rc =? 0) then mret rc
    else change_cvp_inst_state p MSM_CVP_CLOSE ;; mret rc.

Definition get_flipped_state (present_state desired_state : Z) : Z :=
  if (present_state <? 0) || (present_state >? st MSM_CVP_CORE_INVALID)
     || (desired_state <? 0) || (desired_state >? st MSM_CVP_CORE_INVALID)
  then - EINVAL
  else if (present_state =? st MSM_CVP_CORE_INIT_DONE) && (desired_state >? st MSM_CVP_CLOSE)
       then st MSM_CVP_CORE_UNINIT
  else if present_state =? st MSM_CVP_CORE_INVALID then st MSM_CVP_CLOSE
  else present_state.

Definition msm_cvp_state_result_check (p input : Z) : M Z :=
  i ← get_i p;
  if input =? - ETIMEDOUT then
    when (negb (bool_decide (i_state i = MSM_CVP_CORE_INVALID)))
      (msm_cvp_comm_kill_session p ;; mret tt) ;;
    mret (- ETIMEDOUT)
  else if negb (input =? 0) && negb (i_prev_hfi_error_code i =? 0) then mret (- EINVAL)
  else mret 0.

(** [if (rc || state <= get_flipped_state(inst->state, state)) return rc; else next]. *)
Definition unless_there (p state rc : Z) (next : M Z) : M Z :=
  i ← get_i p;
  if negb (rc =? 0) || (state <=? get_flipped_state (st (i_state i)) state)
  then mret rc else next.

(** One handler per state: the step to the next state, then the next handler. *)
Definition cvp_invalid_handler (p state flipped_state : Z) : M Z :=
  rc ← msm_cvp_deinit_core p; unless_there p state rc (mret (- EINVAL)).

Definition cvp_uninit_handler (p state flipped_state : Z) : M Z :=
  cvp_invalid_handler p state flipped_state.

Definition cvp_close_done_handler (p state flipped_state : Z) : M Z :=
  rc ← wait_for_state p flipped_state MSM_CVP_CLOSE_DONE HAL_SESSION_END_DONE;
  unless_there p state rc
    (msm_cvp_comm_session_clean p ;; cvp_uninit_handler p state flipped_state).

Definition cvp_close_handler (p state flipped_state : Z) : M Z :=
  rc ← msm_comm_session_close flipped_state p;
  unless_there p state rc (cvp_close_done_handler p state flipped_state).

Definition cvp_open_done_handler (p state flipped_state : Z) : M Z :=
  rc ← msm_comm_session_init_done flipped_state p;
  unless_there p state rc (cvp_close_handler p state flipped_state).

Definition cvp_open_handler (p state flipped_state : Z) : M Z :=
  rc ← msm_comm_session_init flipped_state p;
  unless_there p state rc (cvp_open_done_handler p state flipped_state).

Definition cvp_init_done_handler (p state flipped_state : Z) : M Z :=
  rc ← msm_comm_init_core_done p;
  unless_there p state rc (cvp_open_handler p state flipped_state).

Definition cvp_init_handler (p state flipped_state : Z) : M Z :=
  rc ← msm_comm_init_core p;
  unless_there p state rc (cvp_init_done_handler p state flipped_state).

Definition cvp_uninit_done_handler (p state flipped_state : Z) : M Z :=
  cvp_init_handler p state flipped_state.

(** [cvp_state_handler]: ten elements, nine of them initialised; calling the tenth is a
    [Fault]. *)
Definition cvp_state_handler : list (Z → Z → Z → M Z) :=
  [cvp_uninit_done_handler; cvp_init_handler; cvp_init_done_handler; cvp_open_handler;
   cvp_open_done_handler; cvp_close_handler; cvp_close_done_handler; cvp_uninit_handler;
   cvp_invalid_handler].

Definition msm_cvp_comm_try_state (p state : Z) : M Z :=
  if p =? 0 then mret (- EINVAL)
  else
    c ← get_core;
    i ← get_i p;
    if bool_decide (i_state i = MSM_CVP_CORE_INVALID)
       && bool_decide (c_state c = CVP_CORE_UNINIT)
    then mret (- EINVAL)
    else
      let flipped_state := get_flipped_state (st (i_state i)) state in
      if (flipped_state <? 0) || (flipped_state >? st MSM_CVP_CORE_INVALID)
      then mret (- EINVAL)
      else
        rc ← (match cvp_state_handler !! Z.to_nat flipped_state with
              | Some handler => handler p state flipped_state
              | None => fault
              end);
        msm_cvp_state_result_check p rc.

End state_machine.

(** * Evolution *)
Section evolution.
Context `{Env}.

Lemma pres_invalid_state p :
  pres anywhere (change_cvp_inst_state p MSM_CVP_CORE_INVALID).
Proof. unfold change_cvp_inst_state. pres_tac. Qed.
Hint Resolve pres_invalid_state : pres.

Lemma pres_complete p cmd : pres anywhere (complete p cmd).
Proof. unfold complete. pres_tac. Qed.
Hint Resolve pres_complete : pres.

Lemma pres_signal cmd p : pres anywhere (signal_session_msg_receipt cmd p).
Proof. unfold signal_session_msg_receipt. pres_tac. Qed.
Hint Resolve pres_signal : pres.

Lemma pres_set_event p e : pres anywhere (set_event p e).
Proof. unfold set_event. pres_tac. Qed.
Hint Resolve pres_set_event : pres.

Lemma pres_count_error : pres anywhere count_error.
Proof. unfold count_error. pres_tac. Qed.
Hint Resolve pres_count_error : pres.

Lemma pres_record_and_signal cmd d : pres anywhere (record_and_signal cmd d).
Proof. unfold record_and_signal. pres_tac. Qed.
Hint Resolve pres_record_and_signal : pres.

Lemma pres_set_buf_done cmd d : pres anywhere (handle_session_set_buf_done cmd d).
Proof. unfold handle_session_set_buf_done. pres_tac. Qed.
Hint Resolve pres_set_buf_done : pres.

Lemma pres_mod_fq p f : pres anywhere (mod_fq p f).
Proof. unfold mod_fq. pres_tac. Qed.
Hint Resolve pres_mod_fq : pres.

Lemma pres_others_done : pres anywhere others_done.
Proof. unfold others_done. pres_tac. Qed.
Hint Resolve pres_others_done : pres.

Lemma pres_clean_fence_queue p : pres anywhere (cvp_clean_fence_queue p).
Proof. unfold cvp_clean_fence_queue. pres_tac. Qed.
Hint Resolve pres_clean_fence_queue : pres.

Lemma pres_fence_thread_stop p : pres anywhere (cvp_fence_thread_stop p).
Proof. unfold cvp_fence_thread_stop. pres_tac. Qed.
Hint Resolve pres_fence_thread_stop : pres.

Lemma pres_wait_sched p e : pres anywhere (wait_sched_list p e).
Proof. unfold wait_sched_list. pres_tac. Qed.
Hint Resolve pres_wait_sched : pres.

Lemma pres_clean_queues p : pres anywhere (cvp_clean_session_queues p).
Proof. unfold cvp_clean_session_queues. pres_tac. Qed.
Hint Resolve pres_clean_queues : pres.

Lemma pres_invalidate p : pres anywhere (invalidate_inst p).
Proof. unfold invalidate_inst. pres_tac. Qed.
Hint Resolve pres_invalidate : pres.

Lemma pres_handle_sys_error : pres anywhere handle_sys_error.
Proof. unfold handle_sys_error. pres_tac. Qed.
Hint Resolve pres_handle_sys_error : pres.

Lemma pres_handle_session_error d : pres anywhere (handle_session_error d).
Proof. unfold handle_session_error. pres_tac. Qed.
Hint Resolve pres_handle_session_error : pres.

Lemma pres_handle_cmd_response cmd d : pres anywhere (cvp_handle_cmd_response cmd d).
Proof.
  unfold cvp_handle_cmd_response, handle_sys_init_done, handle_sys_release_res_done,
    handle_session_init_done, handle_session_ctrl, handle_session_close,
    handle_release_res_done, handle_session_dump_notify, handle_session_release_buf_done.
  pres_tac.
Qed.
Hint Resolve pres_handle_cmd_response : pres.

Lemma pres_run_callbacks l : pres anywhere (run_callbacks l).
Proof. induction l as [|r l IH]; cbn [run_callbacks]; pres_tac. Qed.
Hint Resolve pres_run_callbacks : pres.

Lemma pres_work_handler : pres anywhere iris_hfi_core_work_handler.
Proof. unfold iris_hfi_core_work_handler. pres_tac. Qed.
Hint Resolve pres_work_handler : pres.

Lemma pres_interrupts n : pres anywhere (interrupts n).
Proof. induction n as [|n IH]; cbn [interrupts]; pres_tac. Qed.
Hint Resolve pres_interrupts : pres.

Lemma pres_receive_during cmd : pres anywhere (receive_during cmd).
Proof. unfold receive_during. pres_tac. Qed.
Hint Resolve pres_receive_during : pres.

Lemma pres_wait_completion p cmd : pres anywhere (wait_completion p cmd).
Proof. unfold wait_completion. pres_tac. Qed.
Hint Resolve pres_wait_completion : pres.

Lemma pres_timeout_with fs p b :
  pres anywhere (fs p) → pres anywhere (handle_session_timeout_with fs p b).
Proof. intros Hfs. unfold handle_session_timeout_with. pres_tac. Qed.

Lemma pres_wait_with fs p cmd :
  pres anywhere (fs p) → pres anywhere (wait_for_sess_signal_receipt_with fs p cmd).
Proof.
  intros Hfs. pose proof (pres_timeout_with fs p (negb (is_control_cmd cmd)) Hfs).
  unfold wait_for_sess_signal_receipt_with. pres_tac.
Qed.

Lemma pres_wait_control p cmd : pres anywhere (wait_control p cmd).
Proof. apply pres_wait_with, pres_fault. Qed.
Hint Resolve pres_wait_control : pres.

Lemma pres_flush_all p : pres anywhere (cvp_session_flush_all p).
Proof. unfold cvp_session_flush_all, msm_cvp_set_fmax, msm_cvp_set_clocks,
  cvp_drain_fence_sched_list. pres_tac. Qed.
Hint Resolve pres_flush_all : pres.

Lemma pres_stop_thread p rc : pres anywhere (stop_thread p rc).
Proof. unfold stop_thread, mod_session_queue. pres_tac. Qed.
Hint Resolve pres_stop_thread : pres.

Lemma pres_send_stop p : pres anywhere (send_stop_and_wait p).
Proof. unfold send_stop_and_wait. pres_tac. Qed.
Hint Resolve pres_send_stop : pres.

Lemma pres_flush_stop p : pres anywhere (msm_cvp_session_flush_stop p).
Proof. unfold msm_cvp_session_flush_stop. pres_tac. Qed.
Hint Resolve pres_flush_stop : pres.

Lemma pres_wait p cmd : pres anywhere (wait_for_sess_signal_receipt p cmd).
Proof. apply pres_wait_with, pres_flush_stop. Qed.
Hint Resolve pres_wait : pres.

Lemma pres_kill_session p : pres anywhere (msm_cvp_comm_kill_session p).
Proof. unfold msm_cvp_comm_kill_session, msm_comm_session_abort. pres_tac. Qed.
Hint Resolve pres_kill_session : pres.

Lemma pres_comm_session_clean p : pres anywhere (msm_cvp_comm_session_clean p).
Proof. unfold msm_cvp_comm_session_clean. pres_tac. Qed.
Hint Resolve pres_comm_session_clean : pres.

Lemma pres_check_core_init : pres anywhere msm_cvp_comm_check_core_init.
Proof. unfold msm_cvp_comm_check_core_init. pres_tac. Qed.
Hint Resolve pres_check_core_init : pres.

Lemma pres_result_check p n : pres anywhere (msm_cvp_state_result_check p n).
Proof. unfold msm_cvp_state_result_check. pres_tac. Qed.
Hint Resolve pres_result_check : pres.

End evolution.

#[export] Hint Resolve
  pres_invalid_state pres_complete pres_signal pres_set_event pres_count_error
  pres_record_and_signal pres_set_buf_done pres_mod_fq pres_others_done
  pres_clean_fence_queue pres_fence_thread_stop pres_wait_sched pres_clean_queues
  pres_invalidate pres_handle_sys_error pres_handle_session_error
  pres_handle_cmd_response pres_run_callbacks pres_work_handler pres_interrupts
  pres_receive_during pres_wait_completion pres_wait_control pres_flush_all
  pres_stop_thread pres_send_stop pres_flush_stop pres_wait pres_kill_session
  pres_comm_session_clean pres_check_core_init pres_result_check : pres.
