(* ===== verification/Scenario.v ===== *)
(** A small system for concrete runs: one client, firmware that answers every command, and
    calls that succeed, except those the parameter [fails] names. *)

From S2P Require Import Prelude HfiTypes HfiPacket HfiDefs Driver Instance HfiSession Response Session.
Open Scope Z_scope.

(** A receive buffer of 64 words with the packet at its front. *)
Definition received (l : list Z) : list Z := l ++ replicate 60 0.

Definition client_prop : cvp_session_prop :=
  mkProp 1 0xFFFFFFFF 0 0 0 0 3 (replicate 9 0) 0 (replicate 9 0) 0 0 0 0 0 0 0
    (replicate 9 0) (replicate 64 0).

(** A client with session object [session] (0 for none) in state [s]. *)
Definition client (s : instance_state) (session : Z) : msm_cvp_inst :=
  mkInst MSM_CVP_USER (mkSq QUEUE_ACTIVE 0 []) (mkSq QUEUE_ACTIVE 0 []) CVP_NO_EVENT session
    (if session =? 0 then 0 else 0x7FFF0000) s (replicate 20 0%nat) 1 client_prop 0 0 0
    (mkFq QUEUE_ACTIVE OP_NORMAL [] [] 0) false 0.

(** The client lives at address 64, its session at 4096. *)
Definition world_with (s : instance_state) (core : cvp_core_state) (session : bool) : world :=
  mkWorld
    (mkCore [(64, client s (if session then 4096 else 0))] core (replicate 9 0%nat)
       (if session then {[0x7FFF0000 := 4096]} else ∅) false false 0 8 0 0 0 0x200 0)
    (mkHdev (if session then [4096] else []) (if session then [(4096, mkHs 64 true)] else [])
       0 0 (bool_decide (core ≠ CVP_CORE_UNINIT)))
    [] [].

(** What the firmware sends while the driver makes its [n]-th call. *)
Definition firmware : Type := nat → list (list Z).

Definition silent : firmware := λ _, [].

(** It acknowledges initialisation, then the session, then its end. *)
Definition life : firmware := λ n,
  [received (if (n =? 2)%nat then [16; HFI_MSG_SYS_INIT_DONE; 0; 0]
             else if (n =? 8)%nat then [20; HFI_MSG_SYS_SESSION_INIT_DONE; 0x7FFF0000; 0; 0]
             else [16; HFI_MSG_SYS_SESSION_END_DONE; 0x7FFF0000; 0; 0])].

(** The system with these answers, that supports so many sessions. *)
Definition env_of (ans : nat → call → Z) (fw : firmware) (sessions : Z) : Env := {|
  answer := ans;
  arrivals := fw;
  stack _ n := replicate n 0;
  Driver.hash32_ptr z := z;
  env_hfi_ver := 2;
  env_cvp_hfi_defs := init_table cvp_hfi_defs_v2;
  max_supported_inst_count := sessions;
  allowed_clks_tbl := [100; 200];
  msm_cvp_hw_rsp_timeout := 100;
  fatal_ssr := false;
  msm_cvp_session_error_recovery := true;
  msm_cvp_hw_hang_recovery := true;
  has_hw_power_collapse := false;
  msm_cvp_fw_debug := 0;
  Driver.msm_cvp_fw_debug_mode := 0;
  msm_cvp_fw_low_power_mode := 0;
  msm_cvp_fw_coverage := 0
|}.

Definition small_answer (fails : call → bool) (n : nat) (c : call) : Z :=
  if fails c then 7
  else match c with
       | Kzalloc _ => 4096 + Z.of_nat n | Kmalloc _ => 1 | Idr_alloc _ => 0x7FFF0000
       | _ => 0
       end.

Definition small_env (fails : call → bool) (fw : firmware) : Env := env_of (small_answer fails) fw 8.

Definition no_call (c : call) : bool := false.
Definition core_init_call (c : call) : bool := match c with Core_init => true | _ => false end.
