(* ===== verification/Registry.v ===== *)
(** The registry of sessions and references (Instance.v, HfiSession.v): what validation
    accepts and what it costs, how references are given back, and how a session enters and
    leaves the registry. *)

From S2P Require Import Prelude HfiTypes HfiPacket HfiDefs Driver Evolve Local Instance HfiSession Response Session Scenario.
Open Scope Z_scope.

(** * References *)
Section references.
Context `{Env}.

(** The id of the instance is registered with its session. *)
Definition registered (i : msm_cvp_inst) (w : world) : bool :=
  bool_decide (c_sess_idr (w_core w) !! i_sess_id i = Some (i_session i)).

(** Its session has a device and is on the device's list. *)
Definition device_knows (s : Z) (w : world) : bool :=
  match obj_find s (hd_sessions (w_hdev w)) with
  | Some hs => hs_device hs && bool_decide (s ∈ hd_sess_head (w_hdev w))
  | None => false
  end.

Lemma kref_round_trip p w : kref_add (-1) p (kref_add 1 p w) = w.
Proof.
  unfold kref_add. rewrite put_i_comp. rewrite (put_i_ext p _ (λ i, i)); [apply put_i_id|].
  intros [] _. unfold put_field_to. cbn. f_equal. lia.
Qed.

Lemma inst_at_kref p n w :
  inst_at p (kref_add n p w) = (λ i, i <| i_kref ::= Z.add n |>) <$> inst_at p w.
Proof. unfold kref_add. by rewrite inst_at_put, Z.eqb_refl. Qed.

Lemma validate_run p i w :
  inst_at p w = Some i → p ≠ 0 → 0 < i_kref i → i_session i ≠ 0 →
  (registered i w = true → is_Some (obj_find (i_session i) (hd_sessions (w_hdev w)))) →
  cvp_get_inst_validate p w =
    if registered i w then
      if device_knows (i_session i) w then Done (p, kref_add 1 p w) else Done (0, w)
    else Done (0, kref_add 1 p w).
Proof.
  intros Hi Hp Hk Hs Hreg. unfold cvp_get_inst_validate. rewrite bind_run, cvp_get_inst_eq, Hi.
  rewrite !(proj2 (Z.eqb_neq _ _)) by (done || lia). cbn [orb obind fst snd].
  set (w1 := kref_add 1 p w). set (i1 := i <| i_kref ::= Z.add 1 |>).
  assert (Hi1 : inst_at p w1 = Some i1) by (unfold w1; by rewrite inst_at_kref, Hi).
  rewrite (proj2 (Z.eqb_neq _ _)) by done. unfold get_sess_from_idr.
  rewrite (proj2 (Z.eqb_neq _ _)) by done. mrun. minst Hi1. minst Hi1.
  change (c_sess_idr (w_core w1)) with (c_sess_idr (w_core w)).
  change (i_sess_id i1) with (i_sess_id i). change (i_session i1) with (i_session i).
  unfold registered in *. case_bool_decide as Hr.
  - rewrite Hr. change (default 0 (Some (i_session i))) with (i_session i).
    rewrite (proj2 (Z.eqb_neq _ _) Hs), Z.eqb_refl. cbn [negb orb]. mrun.
    destruct (Hreg eq_refl) as [hs Hhs]. unfold device_knows. rewrite Hhs.
    unfold iris_hfi_validate_session, get_session, __is_session_valid.
    rewrite (proj2 (Z.eqb_neq _ _) Hs). mrun.
    change (w_hdev w1) with (w_hdev w). rewrite Hhs. mrun.
    destruct (hs_device hs); cbn [negb andb]; mrun.
    + change (w_hdev w1) with (w_hdev w). case_bool_decide; mrun; [done|].
      change (negb (- ECONNRESET =? 0)) with true. cbn iota.
      mrun. rewrite (cvp_put_inst_eq p i1) by (done || (cbn; lia)). mrun.
      unfold w1. by rewrite kref_round_trip.
    + change (negb (- EINVAL =? 0)) with true. cbn iota. mrun.
      rewrite (cvp_put_inst_eq p i1) by (done || (cbn; lia)). mrun.
      unfold w1. by rewrite kref_round_trip.
  - assert (((default 0 (c_sess_idr (w_core w) !! i_sess_id i) =? 0)
            || negb (default 0 (c_sess_idr (w_core w) !! i_sess_id i) =? i_session i)) = true)
      as ->.
    { destruct (c_sess_idr (w_core w) !! i_sess_id i) as [s|]; cbn; [|done].
      destruct (Z.eqb_spec s (i_session i)); [congruence|]. by rewrite orb_true_r. }
    done.
Qed.

(** Validation of an instance: it is accepted, with a reference for the caller, exactly
    when it has a session whose id is registered and which the device knows.  A session the
    device does not know costs nothing, but for a session whose id is not registered the
    reference taken on the way is never given back. *)
Theorem validate_spec p i w :
  inst_at p w = Some i → p ≠ 0 → 0 < i_kref i → i_session i ≠ 0 →
  (registered i w = true → is_Some (obj_find (i_session i) (hd_sessions (w_hdev w)))) →
  cvp_get_inst_validate p w =
    if registered i w then
      if device_knows (i_session i) w then Done (p, kref_add 1 p w) else Done (0, w)
    else Done (0, kref_add 1 p w).
Proof. apply validate_run. Qed.

(** The last reference frees the instance, and only that one: afterwards it cannot be
    looked up any more; every other reference is only counted. *)
Theorem put_inst_frees_at_zero p i w :
  inst_at p w = Some i → p ≠ 0 → 0 < i_kref i →
  ∃ w', cvp_put_inst p w = Done (tt, w') ∧
    (∀ q, inst_at q w' = if q =? p then
       (if i_kref i =? 1 then None else Some (i <| i_kref := i_kref i - 1 |>))
       else inst_at q w) ∧
    (i_kref i = 1 → cvp_get_inst p w' = Done (0, w')).
Proof.
  intros Hi Hp Hk. destruct (Z.eq_dec (i_kref i) 1) as [H1|H1].
  - unfold cvp_put_inst. rewrite (proj2 (Z.eqb_neq _ _) Hp). mrun. minst Hi. rewrite H1.
    change (1 <? 1) with false. cbn iota. mrun. minst Hi. change (1 =? 1) with true. mrun.
    set (w1 := put_i p _ w).
    assert (Hi1 : inst_at p w1 = Some (i <| i_kref ::= Z.pred |>))
      by (unfold w1; by rewrite inst_at_put, Z.eqb_refl, Hi).
    unfold msm_cvp_destroy, __deinit_session_queue, __deinit_fence_queue.
    rewrite <- (upd_same p _ _ Hi1). mrun.
    rewrite (get_i_upd p (i <| i_kref ::= Z.pred |>)) by done. mrun.
    rewrite !(mod_i_upd p _ (i <| i_kref ::= Z.pred |>)) by done. mrun.
    rewrite !(mod_i_upd p _ (i <| i_kref ::= Z.pred |>)) by done. mrun.
    eexists. split; [reflexivity|]. set (w2 := upd p _ _ _).
    assert (∀ t f, ∀ q, inst_at q (w2 <| w_trace ::= t |> <| w_core ::= λ c, c
        <| c_instances ::= obj_del p |> |> <| w_trace ::= f |>)
      = if q =? p then None else inst_at q w) as Hq.
    { intros t f q. unfold inst_at at 1. cbn. rewrite obj_find_del.
      destruct (q =? p) eqn:Eq; [done|]. change (inst_at q w2 = inst_at q w).
      unfold w2, w1. by rewrite inst_at_upd, Eq, inst_at_put, Eq. }
    split; [exact (Hq _ (λ t, t))|]. intros _. rewrite cvp_get_inst_eq.
    pose proof (Hq (λ t, t ++ [Deinit_synx]) (λ t, t) p) as Hqp. rewrite Z.eqb_refl in Hqp.
    by match goal with |- context [inst_at p ?v] =>
      change (inst_at p v = None) in Hqp; rewrite Hqp end.
  - exists (kref_add (-1) p w). rewrite (cvp_put_inst_eq p i) by (done || lia).
    split; [done|]. split; [|done]. intros q. rewrite (proj2 (Z.eqb_neq _ _) H1).
    unfold kref_add. rewrite inst_at_put, Hi. destruct (q =? p); [|done]. cbn. f_equal.
    destruct i. unfold put_field_to. cbn. f_equal. lia.
Qed.

End references.

(** * Sessions enter and leave *)
Section sessions.
Context `{Env}.

(** [m] only makes calls. *)
Definition only_calls {A} (m : M A) : Prop :=
  ∀ w, ∃ a t, m w = Done (a, w <| w_trace := t |>).

Lemma only_calls_ret {A} (a : A) : only_calls (mret a).
Proof. intros w. exists a, (w_trace w). by destruct w. Qed.

Lemma only_calls_ext c : only_calls (ext c).
Proof. intros w. by eexists _, _. Qed.

Lemma only_calls_bind {A B} (m : M A) (f : A → M B) :
  only_calls m → (∀ a, only_calls (f a)) → only_calls (m ≫= f).
Proof.
  intros Hm Hf w. destruct (Hm w) as (a & t & E). destruct (Hf a (w <| w_trace := t |>)) as (b & u & E').
  exists b, u. rewrite bind_run, E. cbn [obind fst snd]. by rewrite E'.
Qed.

Lemma only_calls_cmdq pkt : only_calls (__iface_cmdq_write pkt).
Proof. destruct pkt; [apply only_calls_ext|apply only_calls_ret]. Qed.

Lemma only_calls_op op pkt :
  op_valid op = true → (∀ m, pkt = Some m → (op_words op <= length m)%nat) →
  only_calls (call_hfi_pkt_op op pkt).
Proof.
  intros Hv Hn w. unfold call_hfi_pkt_op. destruct pkt as [m|].
  - destruct (hfi_default_built hash32_ptr msm_cvp_fw_debug_mode op m Hv (Hn m eq_refl))
      as (m' & -> & _). exists (0, m'), (w_trace w). by destruct w.
  - exists (- EINVAL, []), (w_trace w). destruct w. by destruct op.
Qed.

(** A packet allocated and built, whatever becomes of it. *)
Lemma only_calls_build {B} op n (f : option (list Z) → Z * list Z → M B) :
  op_valid op = true → (op_words op <= n)%nat → (∀ pkt r, only_calls (f pkt r)) →
  only_calls (pkt ← kzalloc_packet n; r ← call_hfi_pkt_op op pkt; f pkt r).
Proof.
  intros Hv Hn Hf w. unfold kzalloc_packet. mrun.
  match goal with |- context [call_hfi_pkt_op op ?pkt ?v] =>
    destruct (only_calls_op op pkt Hv) with (w := v) as (r & t & E);
    [|destruct (Hf pkt r (v <| w_trace := t |>)) as (b & u & E')]
  end.
  - intros m. case_match; [done|]. intros [= <-]. by rewrite length_replicate.
  - rewrite E. mrun. rewrite E'. by eexists _, _.
Qed.

Lemma only_calls_defaults : only_calls __set_default_sys_properties.
Proof.
  unfold __set_default_sys_properties, __sys_set_debug, __sys_set_power_control.
  apply only_calls_bind; [|intros _; apply only_calls_bind; [|intros _; apply only_calls_ret]].
  - apply (only_calls_build _ 6); [done|done|]. intros pkt r.
    destruct (negb _); [apply only_calls_ret|]. apply only_calls_bind; [apply only_calls_cmdq|].
    intros e. destruct (negb _); apply only_calls_ret.
  - destruct (negb _); [apply only_calls_ret|]. apply (only_calls_build _ 5); [done|done|].
    intros pkt r. apply only_calls_bind; [apply only_calls_cmdq|].
    intros e. destruct (negb _); apply only_calls_ret.
Qed.

Lemma stack_packet_run n w : ∃ m, stack_packet n w = Done (m, w) ∧ length m = n.
Proof. eexists. split; [done|]. rewrite length_take, length_app, length_replicate. lia. Qed.

Lemma remove_first_snoc s l : s ∉ l → remove_first s (l ++ [s]) = l.
Proof.
  induction l as [|t l IH]; cbn; [by rewrite Z.eqb_refl|].
  intros [Hst Hl]%not_elem_of_cons. rewrite (proj2 (Z.eqb_neq _ _) Hst). by rewrite IH.
Qed.

Lemma remove_first_absent s l : s ∉ l → remove_first s l = l.
Proof.
  induction l as [|t l IH]; cbn; [done|].
  intros [Hst Hl]%not_elem_of_cons. rewrite (proj2 (Z.eqb_neq _ _) Hst). by rewrite IH.
Qed.

Lemma obj_del_absent {A} s (l : list (Z * A)) : s ∉ l.*1 → obj_del s l = l.
Proof.
  induction l as [|[t a] l IH]; cbn [obj_del fmap list_fmap fst]; [done|].
  intros [Hst Hl]%not_elem_of_cons. rewrite (proj2 (Z.eqb_neq _ _) Hst). by rewrite IH.
Qed.

(** Fresh addresses and ids, and a device list of live sessions. *)
Record allocators_ok (i : msm_cvp_inst) (w : world) : Prop := mkAlloc {
  al_addr : ∀ n, answer n (Kzalloc (hd_sessions (w_hdev w)).*1) ∉ (hd_sessions (w_hdev w)).*1;
  al_id : ∀ n, answer n (Idr_alloc (dom (c_sess_idr (w_core w)))) ∉ dom (c_sess_idr (w_core w));
  al_head : ∀ s, s ∈ hd_sess_head (w_hdev w) → s ∈ (hd_sessions (w_hdev w)).*1;
  al_old : c_sess_idr (w_core w) !! i_sess_id i = None
}.

(** What a world says about sessions. *)
Definition registry (w : world) : gmap Z Z * list Z * list (Z * cvp_hal_session) :=
  (c_sess_idr (w_core w), hd_sess_head (w_hdev w), hd_sessions (w_hdev w)).

(** Removing a registered session. *)
Lemma session_clean_run p s i w idr hd ss :
  inst_at p w = Some i → s ≠ 0 → s ∉ hd → (s ∉ ss.*1) →
  registry w = (idr, hd ++ [s], (s, mkHs p true) :: ss) ∨
    registry w = (idr, hd, (s, mkHs p true) :: ss) →
  ∃ w', __session_clean s w = Done (tt, w') ∧ (∀ q, inst_at q w' = inst_at q w) ∧
    registry w' = (delete (i_sess_id i) idr, hd, ss).
Proof.
  intros Hi Hs Hh Hss Hr. unfold __session_clean, get_session.
  assert (c_sess_idr (w_core w) = idr ∧ remove_first s (hd_sess_head (w_hdev w)) = hd ∧
          hd_sessions (w_hdev w) = (s, mkHs p true) :: ss) as (Hidr & Hhd & Hses).
  { destruct Hr as [[= -> -> ->]|[= -> -> ->]]; split; [done| |done|];
      split; [|done| |done]; auto using remove_first_snoc, remove_first_absent. }
  rewrite (proj2 (Z.eqb_neq _ _) Hs). mrun. rewrite Hses.
  cbn [obj_find]. rewrite Z.eqb_refl. mrun. cbn [hs_device hs_session_id negb]. mrun.
  set (w1 := w <| w_hdev ::= _ |>). assert (Hi1 : inst_at p w1 = Some i) by done.
  minst Hi1. eexists. split; [reflexivity|]. split; [done|].
  unfold registry. cbn. rewrite Hidr, Hhd, Hses. cbn [obj_del]. rewrite Z.eqb_refl.
  by rewrite obj_del_absent.
Qed.

(** Failure takes back what was done. *)
Lemma session_init_fail_run p s i id w idr hd ss :
  inst_at p w = Some i → p ≠ 0 → s ≠ 0 → s ∉ hd → (s ∉ ss.*1) → i_sess_id i = id →
  registry w = (idr, hd ++ [s], (s, mkHs p true) :: ss) ∨
    registry w = (idr, hd, (s, mkHs p true) :: ss) →
  ∃ w', session_init_fail p s w = Done (- EINVAL, w') ∧
    inst_at p w' = Some (i <| i_sess_id := 0 |> <| i_session := 0 |>) ∧
    (∀ q, q ≠ p → inst_at q w' = inst_at q w) ∧
    registry w' = (delete id idr, hd, ss).
Proof.
  intros Hi Hp Hs Hh Hss <- Hr. unfold session_init_fail.
  destruct (session_clean_run p s i w idr hd ss Hi Hs Hh Hss Hr) as (w1 & E & Hsame & Hreg).
  rewrite (proj2 (Z.eqb_neq _ _) Hs). cbn [negb]. mrun. rewrite E. mrun.
  rewrite <- (Hsame p) in Hi. minst Hi.
  eexists. split; [reflexivity|]. split; [by rewrite inst_at_put, Z.eqb_refl, Hi|].
  split; [|exact Hreg].
  intros q Hq. rewrite inst_at_put. by rewrite (proj2 (Z.eqb_neq _ _) Hq).
Qed.

(** [iris_hfi_session_init] once the session is registered. *)
Definition session_init_tail (p s id : Z) : M Z :=
  __set_default_sys_properties ;;
  mod_i p (λ i, i <| i_sess_id := id |>) ;;
  hal ← packet_session s;
  pkt ← stack_packet 8;
  r ← call_hfi_pkt_op (session_init hal) (Some pkt);
  if negb (fst r =? 0) then
    mod_i p (λ i, i <| i_sess_id := 0xDEAD |>) ;; session_init_fail p s
  else
    mod_i p (λ i, i <| i_session := s |>) ;;
    e ← __iface_cmdq_write (Some (snd r));
    if negb (e =? 0) then session_init_fail p s else mret 0.

Lemma session_init_tail_run p s id i w idr hd ss :
  inst_at p w = Some i → p ≠ 0 → s ≠ 0 → s ∉ hd → s ∉ ss.*1 → idr !! id = None →
  registry w = (<[id := s]> idr, hd ++ [s], (s, mkHs p true) :: ss) →
  ∃ rc w', session_init_tail p s id w = Done (rc, w') ∧
    (∀ q, q ≠ p → inst_at q w' = inst_at q w) ∧
    if rc =? 0 then
      inst_at p w' = Some (i <| i_sess_id := id |> <| i_session := s |>) ∧
      registry w' = (<[id := s]> idr, hd ++ [s], (s, mkHs p true) :: ss)
    else
      rc = - EINVAL ∧ inst_at p w' = Some (i <| i_sess_id := 0 |> <| i_session := 0 |>) ∧
      registry w' = (idr, hd, ss).
Proof.
  intros Hi Hp Hs Hsh Hss Hid Hr. unfold session_init_tail. mrun.
  destruct (only_calls_defaults w) as ([] & t & E). rewrite E. mrun.
  set (w0 := w <| w_trace := t |>). assert (Hi0 : inst_at p w0 = Some i) by done.
  assert (Hr0 : registry w0 = registry w) by done. rewrite Hr in Hr0.
  assert (Ho : hd_sessions (w_hdev w0) = (s, mkHs p true) :: ss) by (by injection Hr0).
  rewrite <- (upd_same p i w0 Hi0). rewrite (mod_i_upd p _ i) by done. mrun.
  unfold packet_session, get_session. mrun.
  change (w_hdev (upd p _ _ _)) with (w_hdev w0). rewrite Ho. cbn [obj_find].
  rewrite Z.eqb_refl. mrun. cbn [hs_session_id].
  rewrite (proj2 (Z.eqb_neq _ _) Hp). mrun. rewrite (get_i_upd p i) by done. mrun.
  set (w1 := upd p _ _ w0). destruct (stack_packet_run 8 w1) as (pkt & -> & Hlen). mrun.
  unfold call_hfi_pkt_op. set (hal := mkHalSession _).
  destruct (hfi_default_built hash32_ptr msm_cvp_fw_debug_mode (session_init hal) pkt
    eq_refl ltac:(cbn; lia)) as (m' & -> & _). mrun. change (negb (0 =? 0)) with false. cbn iota.
  mrun. unfold w1. rewrite (mod_i_upd p _ i) by done. mrun. cbn [__iface_cmdq_write].
  mrun. set (w2 := upd p _ _ w0 <| w_trace ::= _ |>).
  assert (Hi2 : inst_at p w2 = Some (i <| i_sess_id := id |> <| i_session := s |>)).
  { change (inst_at p w2) with (inst_at p (put_i p (λ _, i <| i_sess_id := id |> <| i_session := s |>) w0)).
    by rewrite inst_at_put, Z.eqb_refl, Hi0. }
  assert (Hq2 : ∀ q, q ≠ p → inst_at q w2 = inst_at q w).
  { intros q Hq. change (inst_at q w2) with (inst_at q (put_i p (λ _, i <| i_sess_id := id |> <| i_session := s |>) w0)).
    rewrite inst_at_put. by rewrite (proj2 (Z.eqb_neq _ _) Hq). }
  assert (Hr2 : registry w2 = (<[id := s]> idr, hd ++ [s], (s, mkHs p true) :: ss)) by exact Hr0.
  destruct (negb _).
  - destruct (session_init_fail_run p s _ id w2 (<[id := s]> idr) hd ss Hi2) as (w' & E' & Hp' & Hq & Hr');
      [done..|by left|]. exists (- EINVAL), w'. split; [done|].
    split; [intros q Hqp; by rewrite Hq, Hq2|]. change (- EINVAL =? 0) with false. cbn iota.
    split; [done|]. split; [exact Hp'|]. by rewrite Hr', delete_insert_id.
  - exists 0, w2. done.
Qed.

Lemma session_init_run p i w :
  inst_at p w = Some i → p ≠ 0 → allocators_ok i w →
  ∃ rc w', iris_hfi_session_init p w = Done (rc, w') ∧
    (∀ q, q ≠ p → inst_at q w' = inst_at q w) ∧
    let '(idr, hd, ss) := registry w in
    if rc =? 0 then
      ∃ s id, s ≠ 0 ∧ (s ∉ ss.*1) ∧ idr !! id = None ∧
        inst_at p w' = Some (i <| i_sess_id := id |> <| i_session := s |>) ∧
        registry w' = (<[id := s]> idr, hd ++ [s], (s, mkHs p true) :: ss)
    else
      rc = - EINVAL ∧ inst_at p w' = Some (i <| i_sess_id := 0 |> <| i_session := 0 |>) ∧
      registry w' = (idr, hd, ss).
Proof.
  intros Hi Hp [Haddr Hid Hhead Hold]. unfold iris_hfi_session_init. mrun.
  set (idr := c_sess_idr (w_core w)) in *. set (hd := hd_sess_head (w_hdev w)) in *.
  set (ss := hd_sessions (w_hdev w)) in *. change (registry w) with (idr, hd, ss). cbn iota.
  match goal with |- context [answer ?n (Kzalloc ?l)] =>
    pose proof (Haddr n) as Hs; set (s := answer n (Kzalloc l)) in * end.
  set (w0 := w <| w_trace ::= _ |>). assert (Hi0 : inst_at p w0 = Some i) by done.
  destruct (Z.eqb_spec s 0) as [Hs0|Hs0].
  { unfold session_init_fail. change (negb (0 =? 0)) with false. mrun. minst Hi0.
    eexists _, _. split; [reflexivity|].
    split; [intros q Hq; rewrite inst_at_put; by rewrite (proj2 (Z.eqb_neq _ _) Hq)|].
    change (- EINVAL =? 0) with false. cbn iota. split; [done|]. split; [|done].
    by rewrite inst_at_put, Z.eqb_refl, Hi0. }
  assert (Hsh : s ∉ hd) by (intros Hin; by apply Hs, Hhead).
  mrun. match goal with |- context [answer ?n (Idr_alloc ?u)] =>
    pose proof (Hid n) as Hid'; set (id := answer n (Idr_alloc u)) in * end.
  set (w1 := w0 <| w_hdev ::= _ |> <| w_trace ::= _ |>).
  assert (Hi1 : inst_at p w1 = Some i) by done.
  change (c_sess_idr (w_core (w0 <| w_hdev ::= _ |>))) with idr in Hid'.
  apply not_elem_of_dom in Hid'.
  assert (Hr1 : registry w1 = (idr, hd, (s, mkHs p true) :: ss)) by done.
  destruct (id <? 0).
  { destruct (session_init_fail_run p s i (i_sess_id i) w1 idr hd ss)
      as (w' & E & Hp' & Hq & Hr); [done..|by right|].
    exists (- EINVAL), w'. split; [done|]. split; [done|].
    change (- EINVAL =? 0) with false. cbn iota. split; [done|]. split; [done|].
    by rewrite Hr, delete_id. }
  destruct (session_init_tail_run p s id i
    (w1 <| w_core ::= λ c, c <| c_sess_idr ::= <[id := s]> |> |>
        <| w_hdev ::= λ d, d <| hd_sess_head ::= λ l, l ++ [s] |> |>) idr hd ss)
    as (rc & w' & E & Hq & Hr); [done..|].
  exists rc, w'. split; [exact E|]. split; [exact Hq|]. destruct (rc =? 0); [|done].
  exists s, id. by destruct Hr.
Qed.

(** Creating a session either registers it - a fresh object, listed last on the device,
    under a fresh id that the instance carries - or fails with -EINVAL and leaves the
    registry, the device's list and every other instance as they were, the instance having
    no session. *)
Theorem session_init_registers p i w :
  inst_at p w = Some i → p ≠ 0 → allocators_ok i w →
  ∃ rc w', iris_hfi_session_init p w = Done (rc, w') ∧
    (∀ q, q ≠ p → inst_at q w' = inst_at q w) ∧
    let '(idr, hd, ss) := registry w in
    if rc =? 0 then
      ∃ s id, s ≠ 0 ∧ (s ∉ ss.*1) ∧ idr !! id = None ∧
        inst_at p w' = Some (i <| i_sess_id := id |> <| i_session := s |>) ∧
        registry w' = (<[id := s]> idr, hd ++ [s], (s, mkHs p true) :: ss)
    else
      rc = - EINVAL ∧ inst_at p w' = Some (i <| i_sess_id := 0 |> <| i_session := 0 |>) ∧
      registry w' = (idr, hd, ss).
Proof. apply session_init_run. Qed.

(** C11. Round trip: cleaning a session that was just created gives back the registry and
    the device's list as they were before, and leaves the other instances alone. *)
Theorem session_round_trip p i w w1 :
  inst_at p w = Some i → p ≠ 0 → 0 < i_kref i → allocators_ok i w →
  iris_hfi_session_init p w = Done (0, w1) →
  ∃ s w2, (i_session <$> inst_at p w1) = Some s ∧
    cvp_get_inst_validate p w1 = Done (p, kref_add 1 p w1) ∧
    iris_hfi_session_clean s w1 = Done (0, w2) ∧ registry w2 = registry w ∧
    ∀ q, q ≠ p → inst_at q w2 = inst_at q w.
Proof.
  intros Hi Hp Hk Ha E. destruct (session_init_run p i w Hi Hp Ha) as (rc & v & E' & Hq & Hr).
  rewrite E in E'. injection E' as <- <-. destruct (registry w) as [[idr hd] ss] eqn:Hreg.
  cbn in Hr. destruct Hr as (s & id & Hs & Hss & Hid & Hi1 & Hr1).
  assert (Hsh : s ∉ hd).
  { destruct Ha as [_ _ Hhead _]. injection Hreg as _ <- <-. auto. }
  set (i1 := i <| i_sess_id := id |> <| i_session := s |>) in Hi1.
  destruct (session_clean_run p s i1 w1 (<[id := s]> idr) hd ss Hi1 Hs Hsh Hss (or_introl Hr1))
    as (w2 & E2 & Hsame & Hreg2).
  injection Hr1 as Hr1 Hr2 Hr3. exists s, w2. split; [by rewrite Hi1|]. split; [|split; [|split]].
  - rewrite (validate_run p i1 w1 Hi1)
      by (done || (cbn; intros _; rewrite Hr3; cbn; by rewrite Z.eqb_refl)).
    unfold registered, device_knows. cbn [i_session i_sess_id put_field_to i1].
    rewrite Hr1, Hr2, Hr3. cbn [obj_find]. rewrite Z.eqb_refl, lookup_insert_eq.
    rewrite bool_decide_eq_true_2 by done. cbn [hs_device andb].
    by rewrite bool_decide_eq_true_2 by (apply elem_of_app; right; by left).
  - unfold iris_hfi_session_clean, get_session. rewrite (proj2 (Z.eqb_neq _ _) Hs). mrun.
    rewrite Hr3. cbn [obj_find]. rewrite Z.eqb_refl. mrun. cbn [hs_device negb]. mrun.
    by rewrite E2.
  - rewrite Hreg2. cbn. by rewrite delete_insert_id.
  - intros q Hqp. by rewrite Hsame, Hq.
Qed.

End sessions.

(** * Witnesses *)

Definition quiet_env : Env := small_env no_call silent.

(** A client that has a session, one whose id has gone from the registry, and one that is
    about to get a session. *)
Definition registered_world : world := world_with MSM_CVP_OPEN_DONE CVP_CORE_INIT_DONE true.
Definition unregistered_world : world :=
  registered_world <| w_core ::= λ c, c <| c_sess_idr := ∅ |> |>.
Definition new_client_world : world := world_with MSM_CVP_CORE_INIT_DONE CVP_CORE_INIT_DONE false.

Lemma validate_spec_witness :
  @cvp_get_inst_validate quiet_env 64 registered_world = Done (64, kref_add 1 64 registered_world) ∧
  @cvp_get_inst_validate quiet_env 64 unregistered_world = Done (0, kref_add 1 64 unregistered_world).
Proof.
  split.
  - rewrite (@validate_spec quiet_env 64 (client MSM_CVP_OPEN_DONE 4096) registered_world);
      [by vm_compute|done|done|done|done|intros _; by eexists].
  - rewrite (@validate_spec quiet_env 64 (client MSM_CVP_OPEN_DONE 4096) unregistered_world);
      [by vm_compute|done|done|done|done|intros _; by eexists].
Defined.

Lemma put_inst_frees_at_zero_witness :
  ∃ w', @cvp_put_inst quiet_env 64 registered_world = Done (tt, w') ∧ inst_at 64 w' = None.
Proof.
  destruct (@put_inst_frees_at_zero quiet_env 64 (client MSM_CVP_OPEN_DONE 4096) registered_world
    eq_refl ltac:(done) ltac:(done)) as (w' & E & Hq & _). exists w'. split; [done|]. apply Hq.
Defined.

Lemma quiet_allocators :
  @allocators_ok quiet_env (client MSM_CVP_CORE_INIT_DONE 0) new_client_world.
Proof.
  constructor; [intros n; apply not_elem_of_nil| |by intros s ?%elem_of_nil|done].
  intros n. cbn. set_solver.
Qed.

Lemma session_init_registers_witness :
  ∃ rc w', @iris_hfi_session_init quiet_env 64 new_client_world = Done (rc, w').
Proof.
  destruct (@session_init_registers quiet_env 64 (client MSM_CVP_CORE_INIT_DONE 0)
    new_client_world eq_refl ltac:(done) quiet_allocators) as (rc & w' & E & _).
  by exists rc, w'.
Defined.

Lemma session_round_trip_witness :
  ∃ w1 s w2, @iris_hfi_session_init quiet_env 64 new_client_world = Done (0, w1) ∧
    @iris_hfi_session_clean s w1 = Done (0, w2) ∧ registry w2 = registry new_client_world.
Proof.
  assert (∃ w1, @iris_hfi_session_init quiet_env 64 new_client_world = Done (0, w1)) as [w1 E]
    by (eexists; by vm_compute).
  destruct (@session_round_trip quiet_env 64 (client MSM_CVP_CORE_INIT_DONE 0)
    new_client_world w1 eq_refl ltac:(done) ltac:(done) quiet_allocators E)
    as (s & w2 & _ & _ & Hc & Hr & _).
  by exists w1, s, w2.
Defined.
