(* ===== verification/SysError.v ===== *)
(** A system error (Session.v, [handle_sys_error]): it always runs to its end, and leaves
    every instance invalid, its owner woken up and told, the device released and every
    session without a device. *)

From S2P Require Import Prelude HfiTypes HfiPacket HfiDefs Driver Evolve Local Instance HfiSession Response Session Scenario.
Open Scope Z_scope.

(** The fence queue and the state of the fence message queue may change. *)
Definition quiet (i i' : msm_cvp_inst) : Prop :=
  ∃ fq s, i' = i <| i_fence_cmd_queue := fq |>
                 <| i_session_queue_fence ::= λ q, q <| sq_state := s |> |>.

#[export] Instance quiet_preorder : PreOrder quiet.
Proof.
  split.
  - intros i. exists (i_fence_cmd_queue i), (sq_state (i_session_queue_fence i)).
    by destruct i as [? ? [] ? ? ? ? ? ? ? ? ? ? ? ?].
  - intros i j k (f & s & ->) (f' & s' & ->). exists f', s'. done.
Qed.

Lemma quiet_fq f i : quiet i (i <| i_fence_cmd_queue ::= f |>).
Proof.
  exists (f (i_fence_cmd_queue i)), (sq_state (i_session_queue_fence i)).
  by destruct i as [? ? [] ? ? ? ? ? ? ? ? ? ? ? ?].
Qed.

Lemma quiet_stop s i :
  quiet i (i <| i_session_queue_fence ::= λ q, q <| sq_state := s |> |>).
Proof. exists (i_fence_cmd_queue i), s. by destruct i. Qed.

Ltac local1 :=
  match goal with
  | |- local _ _ (_ ≫= _) => apply local_bind; [apply _| |intros ?]
  | |- local _ _ (mret _) => apply local_ret; apply _
  | |- local _ _ (get_i _) => apply local_get_i; apply _
  | |- local _ _ (ext _) => apply local_ext; apply _
  | |- local _ _ (mod_i _ _) =>
      apply local_mod_i; first [apply quiet_fq | apply quiet_stop]
  | |- local _ _ (when _ _) => apply local_when; [apply _|]
  | |- local _ _ (for_each _ _) => apply local_for_each; [apply _|intros ?]
  | |- local _ _ (if ?b then _ else _) => destruct b
  | |- local _ _ (match ?x with _ => _ end) => destruct x
  end.
Ltac local_tac := repeat local1.

Section sys_error.
Context `{Env}.

Lemma local_clean_queues p : local quiet p (cvp_clean_session_queues p).
Proof.
  unfold cvp_clean_session_queues, cvp_clean_fence_queue, cvp_fence_thread_stop,
    wait_sched_list, others_done, mod_fq. local_tac.
Qed.

(** * What becomes of an instance *)

(** The instance [i'] after a system error, [n] errors being counted. *)
Definition errored (n : Z) (i i' : msm_cvp_inst) : Prop :=
  if bool_decide (i_state i = MSM_CVP_CORE_INVALID) then i' = i
  else ∃ j, quiet (i <| i_session_error_code := pack_error SESSION_ERROR EVA_SYS_ERROR n |>
                     <| i_state := MSM_CVP_CORE_INVALID |>) j
            ∧ i' = j <| i_completions ::= fmap S |> <| i_event := EVA_EVENT |>.

Lemma invalidate_inst_run p i w :
  p ≠ 0 → inst_at p w = Some i →
  ∃ i' t, invalidate_inst p w = Done (tt, upd p i' t w)
          ∧ errored (c_cvp_error_count (w_core w)) i i'.
Proof.
  intros Hp Hi. unfold errored. set (n := c_cvp_error_count (w_core w)).
  rewrite <- (upd_same p i w Hi). set (t := w_trace w). unfold invalidate_inst. mrun.
  rewrite (get_i_upd p i) by done. mrun.
  case_bool_decide as Hs; [exists i, t; by rewrite upd_upd|].
  unfold change_cvp_inst_state. rewrite (proj2 (Z.eqb_neq _ _) Hp).
  mrun. rewrite (mod_i_upd p _ i) by done. mrun. rewrite (get_i_upd p i) by done. mrun.
  rewrite bool_decide_eq_false_2 by done. rewrite (mod_i_upd p _ i) by done. mrun.
  match goal with |- context [cvp_clean_session_queues p (upd p ?k t w)] =>
    destruct (local_clean_queues p (upd p k t w) k) as (a & j & u & E & Hq);
    [by eapply inst_at_upd_same|]; rewrite E end.
  rewrite upd_upd. mrun. unfold set_event. rewrite !(mod_i_upd p _ i) by done. mrun.
  rewrite (mod_i_upd p _ i) by done. eexists _, u. rewrite upd_upd. split; [done|].
  exists j. by split.
Qed.

(** [w'] differs from [w] in instances and trace only. *)
Definition insts_only (w w' : world) : Prop :=
  ∃ l t, w' = w <| w_core ::= λ c, c <| c_instances := l |> |> <| w_trace := t |>.

Lemma insts_only_upd p i t w : insts_only w (upd p i t w).
Proof. by eexists _, t. Qed.

#[export] Instance insts_only_preorder : PreOrder insts_only.
Proof.
  split.
  - intros [[] d q t]. by eexists _, t.
  - intros w1 w2 w3 (l & t & ->) (l' & t' & ->). by exists l', t'.
Qed.

Lemma errored_idemp n i j k : errored n i j → errored n j k → errored n i k.
Proof.
  unfold errored. case_bool_decide as Hi; [by intros ->; rewrite bool_decide_eq_true_2|].
  intros (j' & Hq & ->). rewrite bool_decide_eq_true_2; [by intros ->; eauto|].
  by destruct Hq as (f & s & ->).
Qed.

Lemma invalidate_all l w :
  0 ∉ l → (∀ p, p ∈ l → is_Some (inst_at p w)) →
  ∃ w', for_each l invalidate_inst w = Done (tt, w') ∧ insts_only w w' ∧
        (∀ p, p ∉ l → inst_at p w' = inst_at p w) ∧
        (∀ p i, p ∈ l → inst_at p w = Some i →
           ∃ i', inst_at p w' = Some i' ∧ errored (c_cvp_error_count (w_core w)) i i').
Proof.
  revert w. induction l as [|p l IH]; intros w H0 Hl.
  { exists w. cbn. split; [done|]. split; [done|]. split; [done|]. by intros p i ?%elem_of_nil. }
  apply not_elem_of_cons in H0 as [Hp H0]. cbn [for_each]. mrun.
  destruct (Hl p) as [i Hi]; [by left|].
  destruct (invalidate_inst_run p i w) as (i' & t & E & He); [done|done|]. rewrite E. mrun.
  set (w1 := upd p i' t w) in *.
  assert (Hw1 : ∀ q, inst_at q w1 = if q =? p then Some i' else inst_at q w)
    by (intros q; unfold w1; by rewrite inst_at_upd, Hi).
  destruct (IH w1) as (w' & E' & Hw & Hout & Hin); [done| |].
  { intros q Hq. rewrite Hw1. destruct (q =? p); [done|]. apply Hl. by right. }
  exists w'. split; [done|]. split; [trans w1; [apply insts_only_upd|done]|].
  change (c_cvp_error_count (w_core w1)) with (c_cvp_error_count (w_core w)) in Hin.
  split.
  - intros q [Hq Hq']%not_elem_of_cons. rewrite Hout, Hw1 by done. by rewrite (proj2 (Z.eqb_neq q p) Hq).
  - intros q j Hq Hj. destruct (decide (q ∈ l)) as [Hql|Hql].
    + pose proof (Hw1 q) as Hq1. destruct (decide (q = p)) as [Hqp|Hqp].
      * subst q. rewrite Z.eqb_refl in Hq1.
        destruct (Hin p i' Hql Hq1) as (k & Hk & Hek). exists k. simplify_eq.
        eauto using errored_idemp.
      * rewrite (proj2 (Z.eqb_neq q p) Hqp) in Hq1. apply Hin; congruence.
    + rewrite Hout, Hw1 by done. apply elem_of_cons in Hq as [->|]; [|done].
      rewrite Z.eqb_refl. simplify_eq. eauto.
Qed.

(** Unlinking the sessions touches only the device. *)
Definition unlinked (d : iris_hfi_device) : iris_hfi_device :=
  foldl (λ d s, d <| hd_sessions ::= obj_alter (λ hs, hs <| hs_device := false |>) s |>) d
    (hd_sess_head d) <| hd_sess_head := [] |>.

Lemma unlink_sessions_run w : unlink_sessions w = Done (tt, w <| w_hdev ::= unlinked |>).
Proof.
  unfold unlink_sessions, unlinked. mrun.
  assert (∀ l v, for_each l (λ s, mod_hdev (λ d,
      d <| hd_sessions ::= obj_alter (λ hs, hs <| hs_device := false |>) s |>)) v
    = Done (tt, v <| w_hdev ::= λ d, foldl (λ d s,
        d <| hd_sessions ::= obj_alter (λ hs, hs <| hs_device := false |>) s |>) d l |>)) as ->.
  { induction l as [|s l IH]; intros v; cbn; [by destruct v|]. mrun. by rewrite IH. }
  done.
Qed.

Lemma unlinked_init d : hd_init (unlinked d) = hd_init d.
Proof.
  unfold unlinked. cbn. generalize (hd_sess_head d). intros l. revert d.
  induction l as [|s l IH]; intros d; [done|]. cbn. by rewrite IH.
Qed.

Lemma unlinked_session d s hs :
  s ∈ hd_sess_head d → obj_find s (hd_sessions (unlinked d)) = Some hs → hs_device hs = false.
Proof.
  unfold unlinked. cbn. set (F := λ d s, _). intros Hs.
  assert (∀ l d, (∀ x, obj_find s (hd_sessions d) = Some x → hs_device x = false) ∨ s ∈ l →
    obj_find s (hd_sessions (foldl F d l)) = Some hs → hs_device hs = false) as Hl.
  2:{ apply Hl. by right. }
  induction l as [|q l IH]; intros e He; cbn [foldl].
  { destruct He as [He|He%elem_of_nil]; [apply He|done]. }
  apply IH. destruct He as [He|[->|]%elem_of_cons]; [left|left|by right]; unfold F; cbn;
    intros x; rewrite obj_find_alter.
  - destruct (s =? q); [|apply He]. destruct (obj_find q _); [|done]. by intros [= <-].
  - rewrite Z.eqb_refl. destruct (obj_find q _); [|done]. by intros [= <-].
Qed.

Lemma unlinked_find d s :
  is_Some (obj_find s (hd_sessions d)) → is_Some (obj_find s (hd_sessions (unlinked d))).
Proof.
  unfold unlinked. cbn. generalize (hd_sess_head d). intros l. revert d.
  induction l as [|q l IH]; intros d Hd; [done|]. cbn [foldl]. apply IH. cbn.
  rewrite obj_find_alter. destruct (Z.eqb_spec s q) as [->|]; [by apply fmap_is_Some|done].
Qed.

End sys_error.

(** * The theorems *)
Section theorems.
Context `{Env}.

(** The world after the counters and the core state are set. *)
Definition marked (w : world) : world :=
  w <| w_core ::= λ c, c <| c_ssr_count ::= λ n, u32 (n + 1) |>
                         <| c_state := CVP_CORE_UNINIT |> |>
    <| w_trace ::= λ t, t ++ [Flush_debug_queue] |>
    <| w_core ::= λ c, c <| c_cvp_error_count ::= λ n,
                              if n <? MAX_CVP_ERROR_COUNT then n + 1 else n |> |>.

(** The run of a system error on an initialised core: the instances change first, then the
    device is released; when that fails the core gets its state back. *)
Lemma handle_sys_error_run w :
  c_state (w_core w) ≠ CVP_CORE_UNINIT → fatal_ssr = false → inst_at 0 w = None →
  ∃ w1,
    handle_sys_error w = Done (tt,
      w1 <| w_trace ::= λ t, t ++ [Core_release] |>
         <| w_hdev ::= λ d, unlinked (d <| hd_init := false |>) |>
         <| w_core ::= λ c, c <| c_state :=
              if answer (length (w_trace w1)) Core_release =? 0 then CVP_CORE_UNINIT
              else c_state (w_core w) |> |>) ∧
    insts_only (marked w) w1 ∧
    (∀ p i, inst_at p w = Some i → ∃ i', inst_at p w1 = Some i'
        ∧ errored (c_cvp_error_count (w_core w1)) i i') ∧
    (∀ p, inst_at p w = None → inst_at p w1 = None).
Proof.
  intros Hc Hf H0. unfold handle_sys_error, count_error, for_each_inst. mrun.
  rewrite bool_decide_eq_false_2 by done. mrun. fold (marked w).
  assert (Hsame : ∀ p, inst_at p (marked w) = inst_at p w) by done.
  destruct (invalidate_all (c_instances (w_core (marked w))).*1 (marked w))
    as (w1 & E & Hw & Hout & Hin).
  - by apply obj_find_none in H0.
  - intros p Hp. rewrite Hsame. destruct (inst_at p w) eqn:Ep; [done|].
    by apply obj_find_none in Ep.
  - rewrite E. mrun. unfold iris_hfi_core_release. mrun. rewrite unlink_sessions_run. mrun.
    exists w1. repeat split; [|done| |].
    + destruct Hw as (l & t & ->). cbn. destruct (answer _ Core_release =? 0); [|done].
      rewrite Hf. done.
    + intros p i Hi. destruct Hw as (l & t & Hl).
      replace (c_cvp_error_count (w_core w1)) with (c_cvp_error_count (w_core (marked w)))
        by (by rewrite Hl).
      apply Hin; [|by rewrite Hsame]. apply obj_find_elem in Hi. by apply (list_elem_of_fmap_2 fst) in Hi.
    + intros p Hp. rewrite Hout; [done|]. by apply obj_find_none in Hp.
Qed.

(** C8. A system error on an initialised core always runs to its end, and then every
    instance is invalid; one that was not before has its owner woken for every session
    message, an event and the error code to read. *)
Theorem sys_error_invalidates w :
  c_state (w_core w) ≠ CVP_CORE_UNINIT → fatal_ssr = false → inst_at 0 w = None →
  ∃ w', handle_sys_error w = Done (tt, w') ∧
    ∀ p, match inst_at p w, inst_at p w' with
         | None, None => True
         | Some i, Some i' =>
             i_state i' = MSM_CVP_CORE_INVALID ∧
             i_kref i' = i_kref i ∧ i_session i' = i_session i ∧
             (i_state i ≠ MSM_CVP_CORE_INVALID →
                i_event i' = EVA_EVENT ∧ i_completions i' = S <$> i_completions i ∧
                i_session_error_code i' =
                  pack_error SESSION_ERROR EVA_SYS_ERROR (c_cvp_error_count (w_core w')))
         | _, _ => False
         end.
Proof.
  intros Hc Hf H0. destruct (handle_sys_error_run w Hc Hf H0) as (w1 & E & Hw & Hin & Hout).
  eexists. split; [exact E|]. intros p. change (inst_at p (_ <| w_core ::= _ |>)) with (inst_at p w1).
  destruct (inst_at p w) as [i|] eqn:Hi; [|by rewrite Hout].
  destruct (Hin p i Hi) as (i' & -> & He). unfold errored in He.
  case_bool_decide as Hs; [by subst i'|]. destruct He as (j & (f & s & ->) & ->). done.
Qed.

(** A system error releases the device: no session is listed and every session that
    was has lost its device, while the id registry keeps its entries; the core is
    uninitialised unless the release failed, in which case it keeps the state it had. *)
Theorem sys_error_releases w :
  c_state (w_core w) ≠ CVP_CORE_UNINIT → fatal_ssr = false → inst_at 0 w = None →
  ∃ w' rc, handle_sys_error w = Done (tt, w') ∧
    (∃ n, rc = answer n Core_release ∧ w_trace w' !! n = Some Core_release) ∧
    c_state (w_core w') = (if rc =? 0 then CVP_CORE_UNINIT else c_state (w_core w)) ∧
    hd_init (w_hdev w') = false ∧ hd_sess_head (w_hdev w') = [] ∧
    (∀ s hs, s ∈ hd_sess_head (w_hdev w) →
       obj_find s (hd_sessions (w_hdev w')) = Some hs → hs_device hs = false) ∧
    c_sess_idr (w_core w') = c_sess_idr (w_core w).
Proof.
  intros Hc Hf H0. destruct (handle_sys_error_run w Hc Hf H0) as (w1 & E & Hw & _ & _).
  destruct Hw as (l & t & ->).
  exists (default w (match handle_sys_error w with Done (_, v) => Some v | Fault => None end)),
    (answer (length t) Core_release).
  rewrite E. split; [done|]. split.
  { exists (length t). split; [reflexivity|]. cbn. by apply list_lookup_middle. }
  split; [reflexivity|]. split; [apply unlinked_init|]. split; [reflexivity|].
  split; [|reflexivity].
  intros s hs Hs Hhs. by eapply unlinked_session; [|exact Hhs].
Qed.

(** The session of an instance whose device is gone is not cleaned. *)
Lemma session_clean_refused p i hs w :
  p ≠ 0 → inst_at p w = Some i → i_session i ≠ 0 →
  obj_find (i_session i) (hd_sessions (w_hdev w)) = Some hs → hs_device hs = false →
  msm_cvp_comm_session_clean p w = Done (tt, put_i p (λ i, i <| i_session := 0 |>) w).
Proof.
  intros Hp Hi Hs Hhs Hd. unfold msm_cvp_comm_session_clean, iris_hfi_session_clean, get_session.
  rewrite (proj2 (Z.eqb_neq _ _) Hp). mrun. minst Hi.
  rewrite (proj2 (Z.eqb_neq _ _) Hs). mrun. rewrite Hhs. mrun. rewrite Hd.
  cbn [negb]. mrun. by minst Hi.
Qed.

(** Closing a session after a system error does not free it: the clean-up finds the
    session without a device and leaves both the session object and its id registered,
    while the instance forgets them. *)
Theorem clean_after_sys_error_leaks w p i s :
  c_state (w_core w) ≠ CVP_CORE_UNINIT → fatal_ssr = false → inst_at 0 w = None →
  inst_at p w = Some i → i_session i = s → s ≠ 0 → s ∈ hd_sess_head (w_hdev w) →
  is_Some (obj_find s (hd_sessions (w_hdev w))) →
  ∃ w', (handle_sys_error ;; msm_cvp_comm_session_clean p) w = Done (tt, w') ∧
    (i_session <$> inst_at p w') = Some 0 ∧
    is_Some (obj_find s (hd_sessions (w_hdev w'))) ∧
    c_sess_idr (w_core w') = c_sess_idr (w_core w).
Proof.
  intros Hc Hf H0 Hi <- Hs Hh Ho.
  destruct (handle_sys_error_run w Hc Hf H0) as (w1 & E & Hw & Hin & _).
  destruct (Hin p i Hi) as (i' & Hi' & He).
  assert (i_session i' = i_session i) as Hses.
  { unfold errored in He. case_bool_decide; [by subst|].
    by destruct He as (j & (f & s & ->) & ->). }
  destruct Hw as (l & t & ->). rewrite bind_run, E. cbn [obind fst snd].
  destruct (unlinked_find (w_hdev w <| hd_init := false |>) (i_session i)) as [hs Hhs];
    [exact Ho|].
  rewrite (session_clean_refused p i' hs); [| |done| | |].
  - eexists. split; [done|]. rewrite inst_at_put, Z.eqb_refl. split; [|by eauto].
    match goal with |- i_session <$> (_ <$> inst_at p ?v) = _ =>
      change (inst_at p v) with
        (inst_at p (marked w <| w_core ::= λ c, c <| c_instances := l |> |> <| w_trace := t |>))
    end. by rewrite Hi'.
  - intros ->. congruence.
  - by rewrite Hses.
  - rewrite Hses. exact Hhs.
  - by eapply unlinked_session; [|exact Hhs].
Qed.
End theorems.

(** * Witnesses *)

Definition busy : world := world_with MSM_CVP_OPEN_DONE CVP_CORE_INIT_DONE true.

Lemma sys_error_invalidates_witness :
  ∃ w', @handle_sys_error (small_env no_call silent) busy = Done (tt, w') ∧
    (i_state <$> inst_at 64 w') = Some MSM_CVP_CORE_INVALID.
Proof.
  destruct (@sys_error_invalidates (small_env no_call silent) busy ltac:(done) eq_refl eq_refl)
    as (w' & E & Hw). exists w'. split; [done|]. specialize (Hw 64).
  change (inst_at 64 busy) with (Some (client MSM_CVP_OPEN_DONE 4096)) in Hw.
  destruct (inst_at 64 w'); [|done]. cbn. f_equal. apply Hw.
Defined.

Lemma sys_error_releases_witness :
  ∃ w', @handle_sys_error (small_env no_call silent) busy = Done (tt, w') ∧
    hd_sess_head (w_hdev w') = [].
Proof.
  destruct (@sys_error_releases (small_env no_call silent) busy ltac:(done) eq_refl eq_refl)
    as (w' & rc & E & _ & _ & _ & Hw & _). by exists w'.
Defined.

Lemma clean_after_sys_error_leaks_witness :
  ∃ w', (i_session <$> inst_at 64 w') = Some 0 ∧
    is_Some (obj_find 4096 (hd_sessions (w_hdev w'))).
Proof.
  destruct (@clean_after_sys_error_leaks (small_env no_call silent) busy 64
    (client MSM_CVP_OPEN_DONE 4096) 4096 ltac:(done) eq_refl eq_refl eq_refl eq_refl ltac:(done)
    ltac:(cbn; by left) ltac:(by eexists)) as (w' & _ & Hs & Ho & _).
  by exists w'.
Defined.
