(* ===== verification/Power.v ===== *)
(** Clock and bandwidth votes (src/msm/eva/cvp_power.c): how the demands of the sessions are
    summed up, the rate and bandwidth that are voted for, and what a failed vote leaves.

    [unsigned long] is a 64-bit number with wrap-around; [find_max] goes through an [int]. *)

From S2P Require Import Prelude HfiTypes HfiPacket HfiDefs Driver Evolve Local Instance HfiSession Response Session Scenario.
From Stdlib Require Import Sorted.
From stdpp Require Import strings.
Open Scope Z_scope.

(** * The votes *)

(** [find_max]: the comparison is between [unsigned long]s, the result an [int]. *)
Definition find_max (array : list Z) : Z :=
  foldl (λ max a, s32 (if a >? u64 max then a else u64 max)) 0 array.

Definition is_subblock_profile_existed (i : msm_cvp_inst) : bool :=
  existsb (λ j, negb ((p_cycles (i_prop i) !!! j) =? 0))
    [HFI_HW_OD; HFI_HW_MPU; HFI_HW_FDU; HFI_HW_ICA; HFI_HW_VADL; HFI_HW_TOF; HFI_HW_RGE;
     HFI_HW_XRA; HFI_HW_LSR].

(** The instances the votes count. *)
Definition counted (i : msm_cvp_inst) : bool :=
  negb (bool_decide (i_state i = MSM_CVP_CORE_INVALID)
        || bool_decide (i_state i = MSM_CVP_CORE_UNINIT)
        || negb (is_subblock_profile_existed i)).

Definition CVP_RT_PRIO_THRESHOLD : Z := 1.

(** Index 1 of the arrays is for real-time sessions. *)
Definition is_rt (i : msm_cvp_inst) : bool :=
  negb (p_priority (i_prop i) <=? CVP_RT_PRIO_THRESHOLD).

(** One column of the arrays of [aggregate_power_update]. *)
Record power_sums := mkSums {
  blocks_sum : list Z;
  fw_sum : Z;
  op_blocks_max : list Z;
  op_fw_max : Z;
  bw_sum : Z;
  op_bw_max : Z
}.

Definition zero_sums : power_sums :=
  mkSums (replicate HFI_MAX_HW_THREADS 0) 0 (replicate HFI_MAX_HW_THREADS 0) 0 0 0.

(** [(a >= b) ? a : b]. *)
Definition max_of (a b : Z) : Z := if a >=? b then a else b.

Definition add_prop (s : power_sums) (p : cvp_session_prop) : power_sums :=
  mkSums (zip_with u64_add (blocks_sum s) (p_cycles p))
         (u64_add (fw_sum s) (p_fw_cycles p))
         (zip_with max_of (op_blocks_max s) (p_op_cycles p))
         (max_of (op_fw_max s) (p_fw_op_cycles p))
         (u64_add (bw_sum s) (p_ddr_bw p))
         (max_of (op_bw_max s) (p_ddr_op_bw p)).

(** The walk over the instances; the two columns are (non-real-time, real-time). *)
Definition sum_instances (l : list (Z * msm_cvp_inst)) : power_sums * power_sums :=
  foldl (λ s x, let i := snd x in
    if negb (counted i) then s
    else if is_rt i then (fst s, add_prop (snd s) (i_prop i))
    else (add_prop (fst s) (i_prop i), snd s)) (zero_sums, zero_sums) l.

(** [struct cvp_power_level]. *)
Record cvp_power_level := mkLevel { core_sum : Z; op_core_sum : Z; level_bw_sum : Z }.

(** The second loop, on one column, and the update of a level that is zero before. *)
Definition level_of (max_clk_rate : Z) (s : power_sums) : cvp_power_level :=
  let max_cycle := u64 (find_max (blocks_sum s)) in
  let op_max_cycle := u64 (find_max (op_blocks_max s)) in
  let max_cycle := max_of max_cycle (fw_sum s) in
  let op_max_cycle := max_of op_max_cycle (op_fw_max s) in
  let op_max_cycle := if op_max_cycle >? max_clk_rate then max_clk_rate else op_max_cycle in
  mkLevel (u64_add 0 max_cycle) (max_of 0 op_max_cycle)
          (u64_add 0 (max_of (bw_sum s) (op_bw_max s))).

Definition aggregate_power_update (c : msm_cvp_core) (max_clk_rate : Z)
  : cvp_power_level * cvp_power_level :=
  let s := sum_instances (c_instances c) in
  (level_of max_clk_rate (fst s), level_of max_clk_rate (snd s)).

(** The search of [adjust_bw_freqs]: the first rate from index 1 on that is enough; past the
    end of the table the access is a [Fault]. *)
Fixpoint first_rate (demand : Z) (tbl : list Z) : option Z :=
  match tbl with
  | [] => None
  | r :: tbl' => if demand <=? r then Some r else first_rate demand tbl'
  end.

Section votes.
Context `{Env}.

Definition adjust_bw_freqs (max_bw min_bw : Z) : M Z :=
  c ← get_core;
  match allowed_clks_tbl, allowed_clks_tbl !! (length allowed_clks_tbl - 1)%nat with
  | cvp_min_rate :: tbl', Some cvp_max_rate =>
      let '(nrt_pwr, rt_pwr) := aggregate_power_update c cvp_max_rate in
      let sum := u64_add (core_sum rt_pwr) (core_sum nrt_pwr) in
      if sum >? cvp_max_rate then mret (- ENOTSUPP)
      else
        let op := max_of (op_core_sum rt_pwr) (op_core_sum nrt_pwr) in
        let sum := max_of sum op in
        freq ← (if sum >? cvp_max_rate then mret cvp_max_rate
                else if sum <=? cvp_min_rate then mret cvp_min_rate
                else match first_rate sum tbl' with Some r => mret r | None => fault end);
        let bw := u64_add (level_bw_sum rt_pwr) (level_bw_sum nrt_pwr) in
        let bw := if bw >? max_bw then max_bw else bw in
        let bw := if bw <? min_bw then min_bw else bw in
        mod_core (λ c, c <| c_orig_core_sum := c_curr_freq c |> <| c_curr_freq := freq |>) ;;
        mod_hdev (λ d, d <| hd_clk_freq := freq |>) ;;
        mod_core (λ c, c <| c_bw_sum := bw |>) ;;
        mret 0
  | _, _ => fault
  end.

(** The buses of the platform: name and upper limit. *)
Context (bus_tbl : list (string * Z)).

(** The last bus named eva-ddr. *)
Definition eva_ddr : option Z :=
  foldl (λ b x, if bool_decide (fst x = "eva-ddr"%string) then Some (snd x) else b) None bus_tbl.

Definition msm_cvp_update_power (p : Z) : M Z :=
  if p =? 0 then mret (- EINVAL)
  else
    s ← cvp_get_inst_validate p;
    if s =? 0 then mret (- ECONNRESET)
    else
      c ← get_core;
      rc ← (if bool_decide (c_state c = CVP_CORE_UNINIT) then mret (- ECONNRESET)
            else
              match eva_ddr with
              | None => mret (- EINVAL)
              | Some max_bw =>
                  rc ← adjust_bw_freqs max_bw (max_bw / 100);
                  if negb (rc =? 0) then mret rc
                  else
                    rc ← msm_cvp_set_clocks;
                    if negb (rc =? 0) then
                      mod_core (λ c, c <| c_curr_freq := c_orig_core_sum c |>) ;; mret rc
                    else c ← get_core; iris_hfi_vote_buses (c_bw_sum c)
              end);
      cvp_put_inst s ;;
      mret rc.

(** [msm_cvp_get_hw_aggregate_cycles]; a block number past the last one counts nothing. *)
Definition msm_cvp_get_hw_aggregate_cycles (hwblk : nat) : M Z :=
  c ← get_core;
  mret (Z.land (foldl (λ n x,
    if counted (snd x) && (hwblk <? HFI_MAX_HW_THREADS)%nat
    then u64_add n (p_cycles (i_prop (snd x)) !!! hwblk) else n) 0 (c_instances c)) 0xFFFFFFFF).

End votes.

(** * What the sums are *)

(** Sum and maximum of a demand over sessions, in plain arithmetic. *)
Definition total (f : cvp_session_prop → Z) (ps : list cvp_session_prop) : Z :=
  foldr (λ p n, f p + n) 0 ps.
Definition peak (f : cvp_session_prop → Z) (ps : list cvp_session_prop) : Z :=
  foldr (λ p n, Z.max (f p) n) 0 ps.
Definition largest (l : list Z) : Z := foldr Z.max 0 l.

Definition block (j : nat) (p : cvp_session_prop) : Z := p_cycles p !!! j.
Definition op_block (j : nat) (p : cvp_session_prop) : Z := p_op_cycles p !!! j.

Definition blocks (f : nat → Z) : list Z := f <$> seq 0 HFI_MAX_HW_THREADS.

(** Counted sessions of a class. *)
Definition class_props (rt : bool) (l : list (Z * msm_cvp_inst)) : list cvp_session_prop :=
  (λ x, i_prop (snd x)) <$> filter (λ x, counted (snd x) && Bool.eqb (is_rt (snd x)) rt) l.

(** Clock demand, burst demand and bandwidth demand of a class. *)
Definition demand (ps : list cvp_session_prop) : Z :=
  Z.max (largest (blocks (λ j, total (block j) ps))) (total p_fw_cycles ps).
Definition op_demand (ps : list cvp_session_prop) : Z :=
  Z.max (largest (blocks (λ j, peak (op_block j) ps))) (peak p_fw_op_cycles ps).
Definition bw_demand (ps : list cvp_session_prop) : Z :=
  Z.max (total p_ddr_bw ps) (peak p_ddr_op_bw ps).

(** The fields are [u32]s and the arrays have their size. *)
Definition prop_ok (p : cvp_session_prop) : Prop :=
  length (p_cycles p) = HFI_MAX_HW_THREADS ∧ length (p_op_cycles p) = HFI_MAX_HW_THREADS ∧
  (∀ j, is_u32 (block j p)) ∧ (∀ j, is_u32 (op_block j p)) ∧
  is_u32 (p_fw_cycles p) ∧ is_u32 (p_fw_op_cycles p) ∧
  is_u32 (p_ddr_bw p) ∧ is_u32 (p_ddr_op_bw p).

(** The demands of a class fit in an [int] per block and do not wrap around. *)
Definition class_ok (ps : list cvp_session_prop) : Prop :=
  Forall prop_ok ps ∧
  (∀ j, total (block j) ps < 2 ^ 31) ∧ (∀ j, peak (op_block j) ps < 2 ^ 31) ∧
  total p_fw_cycles ps < 2 ^ 62 ∧ total p_ddr_bw ps < 2 ^ 62.

Lemma max_of_max a b : max_of a b = Z.max a b.
Proof. unfold max_of. destruct (a >=? b) eqn:?; lia. Qed.

Lemma total_snoc f ps p : total f (ps ++ [p]) = total f ps + f p.
Proof. unfold total. induction ps as [|q ps IH]; cbn in *; lia. Qed.

Lemma peak_snoc f ps p : 0 <= f p → peak f (ps ++ [p]) = Z.max (peak f ps) (f p).
Proof. intros Hp. unfold peak. induction ps as [|q ps IH]; cbn in *; lia. Qed.

Lemma total_nonneg f ps : Forall (λ p, 0 <= f p) ps → 0 <= total f ps.
Proof. unfold total. induction 1; cbn in *; lia. Qed.

Lemma peak_nonneg f ps : 0 <= peak f ps.
Proof. unfold peak. induction ps; cbn in *; lia. Qed.

Lemma peak_u32 f ps : Forall (λ p, is_u32 (f p)) ps → is_u32 (peak f ps).
Proof. unfold is_u32, peak. induction 1; cbn in *; lia. Qed.

Lemma find_max_small l :
  Forall (λ a, 0 <= a < 2 ^ 31) l → find_max l = largest l ∧ 0 <= largest l < 2 ^ 31.
Proof.
  intros Hl. unfold find_max.
  assert (∀ m, 0 <= m < 2 ^ 31 →
    foldl (λ max a, s32 (if a >? u64 max then a else u64 max)) m l = Z.max m (largest l)
    ∧ 0 <= largest l < 2 ^ 31) as Hm.
  { induction Hl as [|a l Ha Hl IH]; intros m Hm; cbn [foldl largest foldr]; [cbn; lia|].
    rewrite u64_small by (unfold is_u64; lia).
    replace (if a >? m then a else m) with (Z.max m a) by (destruct (a >? m) eqn:?; lia).
    rewrite s32_small by lia. destruct (IH (Z.max m a)) as [-> Hb]; [lia|]. unfold largest in *. lia. }
  destruct (Hm 0) as [-> Hb]; [lia|]. lia.
Qed.

(** Element by element on the nine blocks. *)
Lemma blocks_zip (g : Z → Z → Z) f (l : list Z) :
  length l = HFI_MAX_HW_THREADS → zip_with g (blocks f) l = blocks (λ j, g (f j) (l !!! j)).
Proof. intros Hl. do 9 (destruct l as [|? l]; [done|]). by destruct l. Qed.

Lemma blocks_ext f g : (∀ j, f j = g j) → blocks f = blocks g.
Proof. intros Hfg. unfold blocks. apply list_fmap_ext. auto. Qed.

Lemma blocks_forall (P : Z → Prop) f : (∀ j, P (f j)) → Forall P (blocks f).
Proof. intros Hf. unfold blocks. apply Forall_fmap, Forall_forall. intros x _. apply Hf. Qed.

(** The folds of the code, on a class that is in range, are the plain sums and maxima. *)
Definition plain_sums (ps : list cvp_session_prop) : power_sums :=
  mkSums (blocks (λ j, total (block j) ps)) (total p_fw_cycles ps)
         (blocks (λ j, peak (op_block j) ps)) (peak p_fw_op_cycles ps)
         (total p_ddr_bw ps) (peak p_ddr_op_bw ps).

Lemma class_ok_init ps p : class_ok (ps ++ [p]) → class_ok ps ∧ prop_ok p.
Proof.
  intros (Hf & Hc & Ho & Hfw & Hbw). apply Forall_app in Hf as [Hf Hp].
  rewrite Forall_singleton in Hp. split; [|exact Hp].
  destruct Hp as (_ & _ & Hb & Hob & [? _] & _ & [? _] & _).
  split; [done|]. split; [intros j; specialize (Hc j); rewrite total_snoc in Hc; destruct (Hb j); lia|].
  split; [intros j; specialize (Ho j); rewrite peak_snoc in Ho; destruct (Hob j); lia|].
  rewrite total_snoc in Hfw, Hbw. lia.
Qed.

Lemma add_prop_sums ps : class_ok ps → foldl add_prop zero_sums ps = plain_sums ps.
Proof.
  induction ps as [|p ps IH] using rev_ind; [done|]. intros Hok.
  destruct (class_ok_init _ _ Hok) as [Hps (Hlc & Hlo & Hb & Hob & Hfw & Hofw & Hbw & Hobw)].
  destruct Hok as (Hf & Hc & Ho & Hfw' & Hbw').
  assert (∀ f, (∀ q, prop_ok q → 0 <= f q) → 0 <= total f ps) as Hpos.
  { intros f Hfp. apply total_nonneg. destruct Hps as [Hps _]. by eapply Forall_impl. }
  rewrite foldl_snoc, IH by done. unfold add_prop, plain_sums.
  cbn [blocks_sum fw_sum op_blocks_max op_fw_max bw_sum op_bw_max]. f_equal.
  - rewrite blocks_zip by done. apply blocks_ext. intros j.
    change (p_cycles p !!! j) with (block j p). rewrite total_snoc.
    apply u64_add_small. specialize (Hc j). rewrite total_snoc in Hc.
    assert (0 <= total (block j) ps) by (apply Hpos; intros q (_ & _ & Hq & _); apply Hq).
    destruct (Hb j). unfold is_u64. lia.
  - rewrite total_snoc in *. apply u64_add_small.
    assert (0 <= total p_fw_cycles ps) by (apply Hpos; intros q (_ & _ & _ & _ & Hq & _); apply Hq).
    destruct Hfw. unfold is_u64. lia.
  - rewrite blocks_zip by done. apply blocks_ext. intros j.
    change (p_op_cycles p !!! j) with (op_block j p). rewrite max_of_max, peak_snoc; [done|apply Hob].
  - rewrite max_of_max, peak_snoc; [done|apply Hofw].
  - rewrite total_snoc in *. apply u64_add_small.
    assert (0 <= total p_ddr_bw ps) by (apply Hpos; intros q (_ & _ & _ & _ & _ & _ & Hq & _); apply Hq).
    destruct Hbw. unfold is_u64. lia.
  - rewrite max_of_max, peak_snoc; [done|apply Hobw].
Qed.

Lemma sum_instances_classes l :
  sum_instances l = (foldl add_prop zero_sums (class_props false l),
                     foldl add_prop zero_sums (class_props true l)).
Proof.
  unfold sum_instances, class_props. generalize zero_sums at 1 3. generalize zero_sums.
  induction l as [|[p i] l IH]; intros s1 s0; [done|]. cbn [foldl snd fst].
  rewrite !filter_cons. cbn [snd]. destruct (counted i); cbn [negb andb].
  - destruct (is_rt i); cbn [Bool.eqb]; rewrite IH; cbn [fst snd];
      by repeat (case_decide; [|done || naive_solver]).
  - rewrite IH. by repeat (case_decide; [naive_solver|]).
Qed.

Lemma plain_level max_rate ps :
  class_ok ps → 0 <= max_rate →
  level_of max_rate (plain_sums ps) =
    mkLevel (demand ps) (Z.min (op_demand ps) max_rate) (bw_demand ps) ∧
  0 <= demand ps < 2 ^ 62 ∧ 0 <= op_demand ps ∧ 0 <= bw_demand ps < 2 ^ 62.
Proof.
  intros (Hf & Hc & Ho & Hfw & Hbw) Hmax.
  assert (∀ f, (∀ q, prop_ok q → 0 <= f q) → 0 <= total f ps) as Hpos.
  { intros f Hfp. apply total_nonneg. by eapply Forall_impl. }
  assert (0 <= total p_fw_cycles ps) by (apply Hpos; intros q (_ & _ & _ & _ & Hq & _); apply Hq).
  assert (0 <= total p_ddr_bw ps) by (apply Hpos; intros q (_ & _ & _ & _ & _ & _ & Hq & _); apply Hq).
  assert (is_u32 (peak p_ddr_op_bw ps)) as [? ?].
  { apply peak_u32. eapply Forall_impl; [done|]. intros q (_ & _ & _ & _ & _ & _ & _ & Hq). apply Hq. }
  pose proof (peak_nonneg p_fw_op_cycles ps).
  destruct (find_max_small (blocks (λ j, total (block j) ps))) as [E1 [Hl1 Hu1]].
  { apply (blocks_forall (λ a, 0 <= a < 2 ^ 31)). intros j. split; [|apply Hc].
    apply Hpos. intros q (_ & _ & Hq & _). apply Hq. }
  destruct (find_max_small (blocks (λ j, peak (op_block j) ps))) as [E2 [Hl2 Hu2]].
  { apply (blocks_forall (λ a, 0 <= a < 2 ^ 31)). intros j. split; [apply peak_nonneg|apply Ho]. }
  unfold level_of, plain_sums, demand, op_demand, bw_demand.
  cbn [blocks_sum fw_sum op_blocks_max op_fw_max bw_sum op_bw_max].
  rewrite E1, E2, !max_of_max, !(u64_small (largest _)) by (unfold is_u64; lia).
  set (d := Z.max (largest (blocks (λ j, total (block j) ps))) _).
  set (o := Z.max (largest (blocks (λ j, peak (op_block j) ps))) _).
  set (b := Z.max (total p_ddr_bw ps) _).
  rewrite !u64_add_small by (unfold is_u64; lia). split; [|lia].
  f_equal. destruct (o >? max_rate) eqn:?; lia.
Qed.

(** ** The rate *)

(** [f] is the least rate of the table that covers the demand [d]. *)
Definition least_rate (tbl : list Z) (d f : Z) : Prop :=
  f ∈ tbl ∧ d <= f ∧ ∀ r, r ∈ tbl → d <= r → f <= r.

Lemma first_rate_least d tbl :
  StronglySorted Z.le tbl → (∃ r, r ∈ tbl ∧ d <= r) →
  ∃ f, first_rate d tbl = Some f ∧ least_rate tbl d f.
Proof.
  induction 1 as [|r tbl Hs IH Hr]; intros (q & Hq & Hd); [by apply elem_of_nil in Hq|].
  cbn [first_rate]. destruct (Z.leb_spec d r) as [Hle|Hlt].
  - exists r. split; [done|]. split; [by left|]. split; [done|]. intros x Hx _.
    apply elem_of_cons in Hx as [->|Hx]; [done|]. rewrite Forall_forall in Hr. auto.
  - apply elem_of_cons in Hq as [->|Hq]; [lia|]. destruct IH as (f & Ef & Hin & Hdf & Hleast).
    { by exists q. }
    exists f. split; [done|]. split; [by right|]. split; [done|]. intros x Hx Hdx.
    apply elem_of_cons in Hx as [->|Hx]; [lia|]. auto.
Qed.

Lemma last_is_largest (tbl : list Z) m :
  StronglySorted Z.le tbl → tbl !! (length tbl - 1)%nat = Some m → m ∈ tbl ∧ ∀ r, r ∈ tbl → r <= m.
Proof.
  intros Hs Hm. split; [by eapply list_elem_of_lookup_2|]. revert Hm.
  induction Hs as [|r tbl Hs IH Hr]; [done|]. destruct tbl as [|s tbl].
  - intros [= ->] x Hx. apply list_elem_of_singleton in Hx. lia.
  - cbn [length]. replace (S (S (length tbl)) - 1)%nat with (S (length tbl)) by lia.
    cbn [lookup list_lookup]. intros Hm. 
    assert (Hall : ∀ x, x ∈ s :: tbl → x <= m).
    { apply IH. cbn [length]. by replace (S (length tbl) - 1)%nat with (length tbl) by lia. }
    intros x Hx. apply elem_of_cons in Hx as [->|Hx]; [|auto].
    rewrite Forall_forall in Hr. trans s; [apply Hr; by left|apply Hall; by left].
Qed.

Section theorems.
Context `{Env}.

(** The table of rates is usable: not empty, sorted, of 32-bit rates. *)
Definition table_ok (max_rate : Z) : Prop :=
  StronglySorted Z.le allowed_clks_tbl ∧ Forall is_u32 allowed_clks_tbl ∧
  allowed_clks_tbl !! (length allowed_clks_tbl - 1)%nat = Some max_rate.

(** The world after a vote. *)
Definition voted (freq bw : Z) (w : world) : world :=
  w <| w_core ::= λ c, c <| c_orig_core_sum := c_curr_freq c |> <| c_curr_freq := freq |> |>
    <| w_hdev ::= λ d, d <| hd_clk_freq := freq |> |>
    <| w_core ::= λ c, c <| c_bw_sum := bw |> |>.

Lemma adjust_run max_bw min_bw max_rate w :
  table_ok max_rate →
  let nrt := class_props false (c_instances (w_core w)) in
  let rt := class_props true (c_instances (w_core w)) in
  class_ok nrt → class_ok rt →
  let d := demand rt + demand nrt in
  let need := Z.max d (Z.min (Z.max (op_demand rt) (op_demand nrt)) max_rate) in
  let bw := Z.max min_bw (Z.min max_bw (bw_demand rt + bw_demand nrt)) in
  if d >? max_rate then adjust_bw_freqs max_bw min_bw w = Done (- ENOTSUPP, w)
  else ∃ f, least_rate allowed_clks_tbl need f ∧
            adjust_bw_freqs max_bw min_bw w = Done (0, voted f bw w).
Proof.
  intros (Hsort & Hu32 & Hlast) nrt rt Hnrt Hrt d need bw.
  destruct (last_is_largest _ _ Hsort Hlast) as [Hin Hmax].
  assert (0 <= max_rate < 2 ^ 32) as Hm by (rewrite Forall_forall in Hu32; by apply Hu32).
  destruct (plain_level max_rate nrt Hnrt) as (En & Hdn & Hon & Hbn); [lia|].
  destruct (plain_level max_rate rt Hrt) as (Er & Hdr & Hor & Hbr); [lia|].
  unfold adjust_bw_freqs. mrun. rewrite Hlast.
  unfold aggregate_power_update. rewrite sum_instances_classes. fold nrt rt.
  cbn [fst snd]. rewrite !add_prop_sums, En, Er by done.
  cbn [core_sum op_core_sum level_bw_sum].
  rewrite !max_of_max, !u64_add_small by (unfold is_u64; lia). fold d.
  replace (Z.max d (Z.max (Z.min (op_demand rt) max_rate) (Z.min (op_demand nrt) max_rate)))
    with need by (unfold need; lia).
  assert (∀ b, (if (if b >? max_bw then max_bw else b) <? min_bw then min_bw
                else if b >? max_bw then max_bw else b) = Z.max min_bw (Z.min max_bw b)) as Hclamp.
  { intros b. destruct (b >? max_bw) eqn:?; case_match; lia. }
  rewrite Hclamp. fold bw. unfold table_ok in *.
  destruct allowed_clks_tbl as [|cmin tbl']; [done|].
  destruct (d >? max_rate) eqn:Hd; [done|].
  replace (need >? max_rate) with false by (unfold need; lia).
  apply StronglySorted_inv in Hsort as [Hsort Hcmin]. rewrite Forall_forall in Hcmin.
  destruct (need <=? cmin) eqn:Hmin.
  - exists cmin. split; [|done]. split; [by left|]. split; [lia|]. intros r Hr Hnr.
    apply elem_of_cons in Hr as [->|Hr]; [done|auto].
  - destruct (first_rate_least need tbl' Hsort) as (f & Hf & Hin' & Hnf & Hleast).
    { exists max_rate. split; [|unfold need; lia].
      apply elem_of_cons in Hin as [->|?]; [unfold need in *; lia|done]. }
    exists f. rewrite Hf. split; [|done]. split; [by right|]. split; [done|].
    intros r Hr Hnr. apply elem_of_cons in Hr as [->|Hr]; [lia|auto].
Qed.


Lemma class_props_alter rt f p l :
  (∀ i, i_prop (f i) = i_prop i ∧ i_state (f i) = i_state i) →
  class_props rt (obj_alter f p l) = class_props rt l.
Proof.
  intros Hf. unfold class_props. induction l as [|[q i] l IH]; [done|]. cbn [obj_alter].
  assert (counted (f i) = counted i ∧ is_rt (f i) = is_rt i) as [Hc Hr].
  { unfold counted, is_subblock_profile_existed, is_rt. by destruct (Hf i) as [-> ->]. }
  destruct (p =? q); rewrite !filter_cons; cbn [snd]; rewrite ?Hc, ?Hr;
    case_decide; rewrite ?fmap_cons, ?IH; cbn [snd]; try done. f_equal. apply Hf.
Qed.

(** The reference taken for an update is given back, whatever else changed. *)
Lemma put_back p i w v :
  inst_at p w = Some i → p ≠ 0 → 0 < i_kref i →
  c_instances (w_core v) = c_instances (w_core (kref_add 1 p w)) →
  cvp_put_inst p v = Done (tt, kref_add (-1) p v) ∧
  ∀ q, inst_at q (kref_add (-1) p v) = inst_at q w.
Proof.
  intros Hi Hp Hk Hv.
  assert (∀ q, inst_at q v = inst_at q (kref_add 1 p w)) as Hq by (intros q; unfold inst_at; by rewrite Hv).
  split.
  - apply (cvp_put_inst_eq p (i <| i_kref ::= Z.add 1 |>)); [|done|cbn; lia].
    rewrite Hq. unfold kref_add. by rewrite inst_at_put, Z.eqb_refl, Hi.
  - intros q. unfold kref_add in *. rewrite inst_at_put, !Hq, !inst_at_put, Z.eqb_refl.
    destruct (Z.eqb_spec q p) as [->|]; [|done]. rewrite Hi. cbn. f_equal.
    destruct i. unfold put_field_to. cbn. f_equal. lia.
Qed.

(** What an update ends with: the instances as they were, and a refusal that changes
    nothing, a failed rate, or a new one. *)
Definition vote_effect (w : world) (rc : Z) (w' : world) : Prop :=
  (∀ q, inst_at q w' = inst_at q w) ∧
  (rc = - ENOTSUPP ∧ w' = w ∨
   ∃ f, f ∈ allowed_clks_tbl ∧ hd_clk_freq (w_hdev w') = f ∧
     (rc ≠ 0 ∧ c_curr_freq (w_core w') = c_curr_freq (w_core w) ∨
      c_curr_freq (w_core w') = f ∧
      ∃ n bw, rc = answer n (Vote_bus bw) ∧ bw = c_bw_sum (w_core w'))).

Lemma vote_done p i w rc u f :
  inst_at p w = Some i → p ≠ 0 → 0 < i_kref i → f ∈ allowed_clks_tbl →
  c_instances (w_core u) = c_instances (w_core (kref_add 1 p w)) → hd_clk_freq (w_hdev u) = f →
  (rc ≠ 0 ∧ c_curr_freq (w_core u) = c_curr_freq (w_core w) ∨
   c_curr_freq (w_core u) = f ∧ ∃ n b, rc = answer n (Vote_bus b) ∧ b = c_bw_sum (w_core u)) →
  ∃ rc' w', (let! r := cvp_put_inst p u in (mret rc : M Z) (snd r)) = Done (rc', w') ∧
            vote_effect w rc' w'.
Proof.
  intros Hi Hp Hk Hf Hu Hdu Hcase. destruct (put_back p i w u Hi Hp Hk Hu) as [E Hq].
  exists rc, (kref_add (-1) p u). rewrite E. split; [done|]. split; [done|].
  right. by exists f.
Qed.

(** An update of the votes for a valid instance gives its reference back, and does one of
    three things.  A demand above the highest rate is refused and nothing changes.  When the
    rate cannot be set, the core's frequency is put back, but the device keeps the rate that
    failed as its own.  Otherwise core and device agree on the new rate and the result is
    that of the bandwidth vote. *)
Theorem update_power_outcome bus_tbl p i max_bw max_rate w :
  inst_at p w = Some i → p ≠ 0 → 0 < i_kref i →
  cvp_get_inst_validate p w = Done (p, kref_add 1 p w) →
  c_state (w_core w) ≠ CVP_CORE_UNINIT → eva_ddr bus_tbl = Some max_bw →
  table_ok max_rate →
  class_ok (class_props false (c_instances (w_core w))) →
  class_ok (class_props true (c_instances (w_core w))) →
  ∃ rc w', msm_cvp_update_power bus_tbl p w = Done (rc, w') ∧ vote_effect w rc w'.
Proof.
  intros Hi Hp Hk Hv Hc Hd Ht Hnrt Hrt. unfold msm_cvp_update_power.
  rewrite (proj2 (Z.eqb_neq _ _) Hp). mrun. rewrite Hv. mrun.
  rewrite (proj2 (Z.eqb_neq _ _) Hp). mrun. set (w1 := kref_add 1 p w).
  change (w_core w1) with (w_core w <| c_instances ::= obj_alter (λ i, i <| i_kref ::= Z.add 1 |>) p |>).
  cbn [c_state put_field_to]. rewrite bool_decide_eq_false_2 by done. rewrite Hd.
  pose proof (adjust_run max_bw (max_bw / 100) max_rate w1 Ht) as Ha. cbn zeta in Ha.
  change (c_instances (w_core w1))
    with (obj_alter (λ i, i <| i_kref ::= Z.add 1 |>) p (c_instances (w_core w))) in Ha.
  rewrite !class_props_alter in Ha by done. specialize (Ha Hnrt Hrt). rewrite bind_run.
  destruct (_ >? max_rate).
  { rewrite Ha. cbn [obind fst snd]. mrun. change (negb (- ENOTSUPP =? 0)) with true.
    cbn iota. mrun. destruct (put_back p i w w1 Hi Hp Hk eq_refl) as [-> Hq]. mrun.
    eexists _, _. split; [reflexivity|]. split; [exact Hq|]. left. split; [done|].
    unfold w1, kref_add. rewrite put_i_comp, (put_i_ext p _ (λ i, i)); [apply put_i_id|].
    intros [] _. unfold put_field_to. cbn. f_equal. lia. }
  destruct Ha as (f & [Hf _] & ->). cbn [obind fst snd]. change (negb (0 =? 0)) with false.
  cbn iota. unfold msm_cvp_set_clocks, iris_hfi_scale_clocks, msm_cvp_opp_set_rate. mrun.
  match goal with |- context [negb (answer ?n Resume =? 0)] => destruct (answer n Resume =? 0) end;
    cbn [negb]; mrun.
  2:{ change (negb (- ENODEV =? 0)) with true. cbn iota. mrun.
      match goal with |- context [cvp_put_inst p ?u] => apply (vote_done p i w _ u f) end;
        [done..|by left]. }
  match goal with |- context [negb (answer ?n ?c =? 0)] => destruct (answer n c =? 0) eqn:Hs end;
    cbn [negb]; unfold iris_hfi_vote_buses; mrun;
    match goal with |- context [cvp_put_inst p ?u] =>
      apply (vote_done p i w _ u f); [done..|] end.
  - right. split; [done|]. by eexists _, _.
  - left. split; [by apply Z.eqb_neq|done].
Qed.

(** The range condition of the clock vote is needed: with one session that is not
    real-time asking for 2^32 - 1 cycles and a real-time one asking for 5, the conversions
    wrap around, and instead of being refused the demand gets the lowest rate. *)
Theorem oversized_demand_gets_lowest_rate :
  let ask prio n := client MSM_CVP_OPEN_DONE 4096
    <| i_prop ::= λ p, p <| p_priority := prio |> <| p_cycles := n :: replicate 8 0 |> |> in
  let w := world_with MSM_CVP_OPEN_DONE CVP_CORE_INIT_DONE false
    <| w_core ::= λ c, c <| c_instances := [(64, ask 0 (2 ^ 32 - 1)); (128, ask 2 5)] |> |> in
  match @adjust_bw_freqs (small_env no_call silent) 1000 10 w with
  | Done (rc, w') => rc = 0 ∧ hd_clk_freq (w_hdev w') = 100
  | Fault => False
  end ∧
  demand (class_props true (c_instances (w_core w))) +
  demand (class_props false (c_instances (w_core w))) > 200.
Proof. by vm_compute. Qed.

End theorems.

(** * Witnesses *)

Definition voting_env : Env := small_env no_call silent.

Definition voting_world : world :=
  put_i 64 (λ i, i <| i_prop ::= λ p, p <| p_cycles := 150 :: replicate 8 0 |> |>)
    (world_with MSM_CVP_OPEN_DONE CVP_CORE_INIT_DONE true).

Lemma voting_table : @table_ok voting_env 200.
Proof.
  split; [repeat constructor; lia|]. split; [|done]. repeat constructor; by vm_compute.
Qed.

Lemma voting_classes :
  class_props false (c_instances (w_core voting_world)) =
    [client_prop <| p_cycles := 150 :: replicate 8 0 |>] ∧
  class_props true (c_instances (w_core voting_world)) = [].
Proof. by vm_compute. Qed.

Definition voting_prop : cvp_session_prop := client_prop <| p_cycles := 150 :: replicate 8 0 |>.

Lemma voting_blocks j : 0 <= block j voting_prop <= 150 ∧ 0 <= op_block j voting_prop <= 1.
Proof.
  do 9 (destruct j as [|j]; [split; split; apply Z.leb_le; by vm_compute|]).
  split; split; apply Z.leb_le; by vm_compute.
Qed.

Lemma voting_class_ok rt : class_ok (class_props rt (c_instances (w_core voting_world))).
Proof.
  destruct voting_classes as [E0 E1]. destruct rt; rewrite ?E0, ?E1.
  { split; [constructor|]. by vm_compute. }
  fold voting_prop. unfold class_ok, total, peak. cbn [foldr].
  split; [|split; [intros j; pose proof (voting_blocks j); lia|]].
  - apply Forall_singleton. do 2 (split; [done|]).
    split; [intros j; pose proof (voting_blocks j); unfold is_u32; lia|].
    split; [intros j; pose proof (voting_blocks j); unfold is_u32; lia|]. by vm_compute.
  - split; [intros j; pose proof (voting_blocks j); lia|]. by vm_compute.
Qed.


Lemma update_power_outcome_witness :
  ∃ rc w', @msm_cvp_update_power voting_env [("eva-ddr"%string, 1000)] 64 voting_world
    = Done (rc, w') ∧ @vote_effect voting_env voting_world rc w'.
Proof.
  apply (@update_power_outcome voting_env [("eva-ddr"%string, 1000)] 64
    (client MSM_CVP_OPEN_DONE 4096 <| i_prop ::= λ p, p <| p_cycles := 150 :: replicate 8 0 |> |>)
    1000 200); [done|done|done| |done|done|apply voting_table|apply voting_class_ok..].
  by vm_compute.
Defined.
