(* ===== verification/Machine.v ===== *)
(** What the session state machine guarantees (Session.v, from msm_cvp_common.c): along the
    transitions the state of an instance only moves forward, and the result of a transition
    says how far it went. *)

From S2P Require Import Prelude HfiTypes HfiPacket HfiDefs Driver Evolve Instance HfiSession Response Session Scenario.
Open Scope Z_scope.

(** * Moving forward *)

(** Like [evolve], but the state may also move up in the order of the life cycle, in which
    the invalid state is the last. *)
Record advance (i i' : msm_cvp_inst) : Prop := mkAdvance {
  ad_state : st (i_state i) <= st (i_state i');
  ad_type : i_session_type i' = i_session_type i;
  ad_completions : length (i_completions i') = length (i_completions i);
  ad_queues : ∀ fenced, sq_ok (get_sq fenced i) → sq_ok (get_sq fenced i');
  ad_prop : prop_sized (i_prop i) → prop_sized (i_prop i');
  ad_kref : 0 < i_kref i → 0 < i_kref i'
}.

#[export] Instance advance_preorder : PreOrder advance.
Proof.
  split.
  - intros i. constructor; auto; lia.
  - intros i j k [a1 b1 c1 d1 e1 f1] [a2 b2 c2 d2 e2 f2].
    constructor; [lia|congruence|congruence|auto..].
Qed.

Abbreviation advances := (along advance).

Lemma st_invalid_max s : st s <= st MSM_CVP_CORE_INVALID.
Proof. by destruct s. Qed.

Lemma st_inj s s' : st s = st s' → s = s'.
Proof. by destruct s, s'. Qed.

Lemma evolve_advance i i' : evolve i i' → advance i i'.
Proof.
  intros [[E|E] b c d e f]; constructor; auto; rewrite E; [lia|apply st_invalid_max].
Qed.

Lemma evolves_advances w w' : evolves w w' → advances w w'.
Proof. apply along_mono, evolve_advance. Qed.

(** The instance at [p], if any, is invalid or in a state not past [k]. *)
Definition at_most (p k : Z) (w : world) : Prop :=
  ∀ i, inst_at p w = Some i → st (i_state i) <= k ∨ i_state i = MSM_CVP_CORE_INVALID.

Lemma at_most_evolves p k w w' : evolves w w' → at_most p k w → at_most p k w'.
Proof.
  intros Hw Hk i' Hi'. destruct (al_insts _ _ _ Hw p i' Hi') as (i & Hi & [[-> | ->] _ _ _ _ _]); eauto.
Qed.

Lemma at_most_le p k k' w : k <= k' → at_most p k w → at_most p k' w.
Proof. intros ? Hk i Hi. destruct (Hk i Hi); [left; lia|by right]. Qed.

(** From an instance not past [k], [m] moves forward, and not past [k']. *)
Definition climbs {A} (p k k' : Z) (m : M A) : Prop :=
  ∀ w a w', at_most p k w → m w = Done (a, w') → advances w w' ∧ at_most p k' w'.

Section rules.
Context {A B : Type} (p k : Z).

Lemma climbs_pres (m : M A) : pres anywhere m → climbs p k k m.
Proof.
  intros Hm w a w' Hk Hd. pose proof (Hm w a w' I Hd).
  split; [by apply evolves_advances|by eapply at_most_evolves].
Qed.

Lemma climbs_le k' k'' (m : M A) : k' <= k'' → climbs p k k' m → climbs p k k'' m.
Proof.
  intros Hle Hm w a w' Hk Hd. destruct (Hm w a w' Hk Hd). eauto using at_most_le.
Qed.

Lemma climbs_bind k1 k2 (m : M A) (f : A → M B) :
  climbs p k k1 m → (∀ a, climbs p k1 k2 (f a)) → climbs p k k2 (m ≫= f).
Proof.
  intros Hm Hf w b w' Hk. rewrite bind_run.
  destruct (m w) as [[a w1]|] eqn:E; [|done]. cbn [obind fst snd]. intros Hd.
  destruct (Hm w a w1 Hk E) as [Ha Hk1]. destruct (Hf a w1 b w' Hk1 Hd).
  split; [by trans w1|done].
Qed.

End rules.

(** Changing the state to a later one. *)
Lemma climbs_change `{Env} p k s :
  k <= st s → climbs p k (st s) (change_cvp_inst_state p s).
Proof.
  intros Hs w a w' Hk. unfold change_cvp_inst_state.
  destruct (Z.eqb_spec p 0); [intros [= <- <-]; split; [done|eauto using at_most_le]|].
  rewrite bind_run. unfold get_i. destruct (inst_at p w) as [i|] eqn:Hi; [|done].
  cbn [obind fst snd]. case_bool_decide as Hn; [intros [= <- <-]; split; [done|eauto using at_most_le]|].
  minst Hi. intros [= <- <-]. destruct (Hk i Hi) as [Hle|]; [|done]. split.
  - apply along_put; [apply _|]. intros j Hj. simplify_eq.
    constructor; [cbn; lia|done|done|by intros []|done|done].
  - intros i'. rewrite inst_at_put, Z.eqb_refl, Hi. cbn. intros [= <-]. left. cbn. lia.
Qed.

Section handlers.
Context `{Env}.

Lemma climbs_unless p k k' s rc (m : M Z) :
  k <= k' → climbs p k k' m → climbs p k k' (unless_there p s rc m).
Proof.
  intros Hle Hm. unfold unless_there. eapply climbs_bind; [apply climbs_pres, pres_get_i|].
  intros i. case_match; [|done]. eapply climbs_le; [done|]. apply climbs_pres, pres_ret.
Qed.

(** A step that changes the state, or returns an error. *)
Ltac climb :=
  repeat first
    [ match goal with
      | |- climbs _ _ _ (change_cvp_inst_state _ _ ≫= _) =>
          eapply climbs_bind; [apply climbs_change; done|intros ?]
      | |- climbs _ _ _ (if ?b then _ else _) => destruct b
      | |- climbs _ _ _ (match ?x with _ => _ end) => destruct x
      | |- climbs _ _ _ (when ?b _) => destruct b; cbn [when]
      | |- climbs _ _ _ (change_cvp_inst_state _ _) => apply climbs_change; done
      | |- climbs _ ?k _ (_ ≫= _) =>
          eapply (climbs_bind _ k k); [apply climbs_pres; solve [pres_tac]|intros ?]
      end
    | eapply climbs_le; [|apply climbs_pres; solve [pres_tac]]; done ].

Lemma climbs_wait p f s cmd k :
  k <= st s → climbs p k (st s) (wait_for_state p f s cmd).
Proof.
  intros Hs. unfold wait_for_state. climb. eapply (climbs_bind _ _ (st s)).
  - destruct (a =? 0); cbn [when]; [by apply climbs_change|].
    eapply climbs_le; [done|]. apply climbs_pres, pres_ret.
  - intros _. apply climbs_pres, pres_ret.
Qed.

Lemma climbs_init_core p k :
  k <= st MSM_CVP_CORE_INIT → climbs p k (st MSM_CVP_CORE_INIT) (msm_comm_init_core p).
Proof. intros Hk. unfold msm_comm_init_core. climb. Qed.

Lemma climbs_init_core_done p k :
  k <= st MSM_CVP_CORE_INIT_DONE →
  climbs p k (st MSM_CVP_CORE_INIT_DONE) (msm_comm_init_core_done p).
Proof. intros Hk. unfold msm_comm_init_core_done, msm_cvp_comm_generate_sys_error. climb. Qed.

Lemma climbs_session_init f p k :
  k <= st MSM_CVP_OPEN → climbs p k (st MSM_CVP_OPEN) (msm_comm_session_init f p).
Proof. intros Hk. unfold msm_comm_session_init. climb. Qed.

Lemma climbs_session_close f p k :
  k <= st MSM_CVP_CLOSE → climbs p k (st MSM_CVP_CLOSE) (msm_comm_session_close f p).
Proof. intros Hk. unfold msm_comm_session_close. climb. Qed.

Lemma climbs_deinit p k :
  k <= st MSM_CVP_CORE_UNINIT → climbs p k (st MSM_CVP_CORE_UNINIT) (msm_cvp_deinit_core p).
Proof. intros Hk. unfold msm_cvp_deinit_core. climb. Qed.

(** A handler: its step, then, unless it is done, the rest. *)
Lemma climbs_handler p k k' s (step : M Z) (next : M Z) :
  k' <= st MSM_CVP_CORE_UNINIT → climbs p k k' step →
  climbs p k' (st MSM_CVP_CORE_UNINIT) next →
  climbs p k (st MSM_CVP_CORE_UNINIT) (rc ← step; unless_there p s rc next).
Proof. intros Hle Hs Hn. eapply climbs_bind; [done|]. intros rc. by apply climbs_unless. Qed.

Abbreviation handled p k m := (climbs p k (st MSM_CVP_CORE_UNINIT) m).

Lemma handled_invalid p s f k :
  k <= st MSM_CVP_CORE_UNINIT → handled p k (cvp_invalid_handler p s f).
Proof.
  intros Hk. eapply climbs_handler; [reflexivity|by apply climbs_deinit|].
  apply climbs_pres, pres_ret.
Qed.

Lemma handled_close_done p s f k :
  k <= st MSM_CVP_CLOSE_DONE → handled p k (cvp_close_done_handler p s f).
Proof.
  intros Hk. eapply climbs_handler; [|by apply climbs_wait|]; [done|].
  eapply climbs_bind; [apply climbs_pres; solve [pres_tac]|]. intros ?. by apply handled_invalid.
Qed.

Lemma handled_close p s f k :
  k <= st MSM_CVP_CLOSE → handled p k (cvp_close_handler p s f).
Proof.
  intros Hk. eapply climbs_handler; [|by apply climbs_session_close|by apply handled_close_done].
  done.
Qed.

Lemma handled_open_done p s f k :
  k <= st MSM_CVP_OPEN_DONE → handled p k (cvp_open_done_handler p s f).
Proof.
  intros Hk. eapply climbs_handler; [|by apply climbs_wait|by apply handled_close]. done.
Qed.

Lemma handled_open p s f k :
  k <= st MSM_CVP_OPEN → handled p k (cvp_open_handler p s f).
Proof.
  intros Hk. eapply climbs_handler; [|by apply climbs_session_init|by apply handled_open_done].
  done.
Qed.

Lemma handled_init_done p s f k :
  k <= st MSM_CVP_CORE_INIT_DONE → handled p k (cvp_init_done_handler p s f).
Proof.
  intros Hk. eapply climbs_handler; [|by apply climbs_init_core_done|by apply handled_open].
  done.
Qed.

Lemma handled_init p s f k :
  k <= st MSM_CVP_CORE_INIT → handled p k (cvp_init_handler p s f).
Proof.
  intros Hk. eapply climbs_handler; [|by apply climbs_init_core|by apply handled_init_done].
  done.
Qed.

Lemma handled_table n h p s f k :
  cvp_state_handler !! Z.to_nat n = Some h → 0 <= n → k <= n →
  k <= st MSM_CVP_CORE_UNINIT → handled p k (h p s f).
Proof.
  intros Hh Hn Hk Hk'. rewrite <- (Z2Nat.id n Hn) in Hk. revert Hh Hk.
  generalize (Z.to_nat n). intros m.
  do 9 (try (destruct m as [|m]; [intros [= <-] Hk|])); try done;
  unfold cvp_uninit_done_handler, cvp_uninit_handler.
  all: first [apply handled_init | apply handled_init_done | apply handled_open
    | apply handled_open_done | apply handled_close | apply handled_close_done
    | apply handled_invalid]; cbn in *; lia.
Qed.

(** The state a transition starts from is not past the one its handler is for. *)
Lemma flipped_at_most p i s w :
  inst_at p w = Some i → 0 <= get_flipped_state (st (i_state i)) s →
  ∃ k, at_most p k w ∧ k <= get_flipped_state (st (i_state i)) s ∧ k <= st MSM_CVP_CORE_UNINIT.
Proof.
  intros Hi. unfold get_flipped_state.
  destruct (_ || _); [done|]. destruct (_ && _) eqn:E1; [|destruct (st (i_state i) =? st MSM_CVP_CORE_INVALID) eqn:E2].
  - exists (st (i_state i)). split; [intros j Hj; simplify_eq; by left|].
    destruct (i_state i); done.
  - exists (st MSM_CVP_CLOSE). split; [|done]. intros j Hj. simplify_eq. right.
    by apply st_inj, Z.eqb_eq.
  - exists (st (i_state i)). split; [intros j Hj; simplify_eq; by left|].
    split; [done|]. by destruct (i_state i).
Qed.

(** ** What a handler's 0 means *)

(** The instance is where the transition asks for, up to the state the code takes it for. *)
Definition reached (p state : Z) (w : world) : Prop :=
  ∃ i, inst_at p w = Some i ∧ state <= get_flipped_state (st (i_state i)) state.

Definition honest (p state : Z) (m : M Z) : Prop :=
  ∀ w w', m w = Done (0, w') → reached p state w'.

Lemma honest_handler p state (step next : M Z) :
  honest p state next → honest p state (rc ← step; unless_there p state rc next).
Proof.
  intros Hn w w'. rewrite bind_run. destruct (step w) as [[rc w1]|]; [|done].
  cbn [obind fst snd]. unfold unless_there. mrun. unfold get_i.
  destruct (inst_at p w1) as [i|] eqn:Hi; [|done]. cbn [obind fst snd].
  destruct (_ || _) eqn:E; [|by apply Hn]. intros [= -> <-]. exists i. split; [done|].
  cbn in E. lia.
Qed.

Lemma honest_bind {A} p state (m : M A) (f : A → M Z) :
  (∀ a, honest p state (f a)) → honest p state (m ≫= f).
Proof.
  intros Hf w w'. rewrite bind_run. destruct (m w) as [[a w1]|]; [|done]. apply Hf.
Qed.

Lemma honest_table n h p s f :
  cvp_state_handler !! n = Some h → honest p s (h p s f).
Proof.
  assert (honest p s (cvp_invalid_handler p s f)) as H8
    by (by apply honest_handler; intros w w' [=]).
  assert (honest p s (cvp_close_done_handler p s f)) as H6
    by (by apply honest_handler, honest_bind; intros _).
  pose proof (honest_handler p s (msm_comm_session_close f p) _ H6) as H5.
  pose proof (honest_handler p s (msm_comm_session_init_done f p) _ H5) as H4.
  pose proof (honest_handler p s (msm_comm_session_init f p) _ H4) as H3.
  pose proof (honest_handler p s (msm_comm_init_core_done p) _ H3) as H2.
  pose proof (honest_handler p s (msm_comm_init_core p) _ H2) as H1.
  do 9 (try (destruct n as [|n]; [intros [= <-]|]));
    [exact H1|exact H1|exact H2|exact H3|exact H4|exact H5|exact H6|exact H8|exact H8|done].
Qed.

End handlers.

(** * The theorems *)
Section theorems.
Context `{Env}.

(** The run of a transition: the checks, a handler, and the reading of its result. *)
Lemma try_state_run p state w rc w' :
  msm_cvp_comm_try_state p state w = Done (rc, w') →
  rc = - EINVAL ∧ w' = w ∨
  ∃ i h r w1,
    inst_at p w = Some i ∧
    cvp_state_handler !! Z.to_nat (get_flipped_state (st (i_state i)) state) = Some h ∧
    0 <= get_flipped_state (st (i_state i)) state ∧
    h p state (get_flipped_state (st (i_state i)) state) w = Done (r, w1) ∧
    msm_cvp_state_result_check p r w1 = Done (rc, w').
Proof.
  unfold msm_cvp_comm_try_state. case_match; [intros [= <- <-]; by left|].
  mrun. unfold get_i. destruct (inst_at p w) as [i|] eqn:Hi; [|done].
  cbn [obind fst snd]. case_match; [intros [= <- <-]; by left|].
  set (f := get_flipped_state _ _). case_match eqn:Hf; [intros [= <- <-]; by left|].
  rewrite bind_run. case_match eqn:Hh; [|done].
  destruct (m p state f w) as [[r w1]|] eqn:E; [|done]. cbn [obind fst snd].
  intros Hr. right. exists i, m, r, w1. split; [done|]. split; [done|]. split; [lia|]. done.
Qed.

Lemma try_state_forward p state w rc w' :
  msm_cvp_comm_try_state p state w = Done (rc, w') → advances w w'.
Proof.
  intros [[_ ->]|(i & h & r & w1 & Hi & Hh & Hf & E & Hr)]%try_state_run; [done|].
  destruct (flipped_at_most p i state w Hi Hf) as (k & Hk & Hle & Hle').
  destruct (handled_table _ h p state _ k Hh Hf Hle Hle' w r w1 Hk E) as [Ha _].
  trans w1; [done|]. apply evolves_advances. by eapply (pres_result_check p r w1 rc w').
Qed.

(** What the session layer does, operation by operation: transitions, interrupts with any
    packets in the queue, waits, system errors, the stop of a session after a time-out and
    its forced end. *)
Inductive driver_step : world → world → Prop :=
| step_transition p state w rc w' :
    msm_cvp_comm_try_state p state w = Done (rc, w') → driver_step w w'
| step_packets w q : driver_step w (w <| w_msgq := q |>)
| step_interrupt w w' : iris_hfi_core_work_handler w = Done (tt, w') → driver_step w w'
| step_wait p cmd w rc w' :
    wait_for_sess_signal_receipt p cmd w = Done (rc, w') → driver_step w w'
| step_sys_error w w' : handle_sys_error w = Done (tt, w') → driver_step w w'
| step_flush_stop p w rc w' :
    msm_cvp_session_flush_stop p w = Done (rc, w') → driver_step w w'
| step_kill p w rc w' :
    msm_cvp_comm_kill_session p w = Done (rc, w') → driver_step w w'.

Lemma driver_step_advances w w' : driver_step w w' → advances w w'.
Proof.
  intros [p1 s w1 rc w2 E|w1 q|w1 w2 E|p1 c w1 rc w2 E|w1 w2 E|p1 w1 rc w2 E|p1 w1 rc w2 E];
    [by eapply try_state_forward|apply evolves_advances..].
  - by apply evolves_same.
  - exact (pres_work_handler w1 tt w2 I E).
  - exact (pres_wait p1 c w1 rc w2 I E).
  - exact (pres_handle_sys_error w1 tt w2 I E).
  - exact (pres_flush_stop p1 w1 rc w2 I E).
  - exact (pres_kill_session p1 w1 rc w2 I E).
Qed.

(** C7. However the session layer runs, whatever the firmware sends and the calls answer:
    every instance there at the end was there at the start with the same type, its state
    has only moved forward, an invalid one is still invalid, and a message queue that
    counted its messages and kept the limit still does. *)
Theorem driver_runs_forward w w' :
  rtc driver_step w w' → ∀ p i', inst_at p w' = Some i' →
  ∃ i, inst_at p w = Some i ∧ st (i_state i) <= st (i_state i') ∧
    (i_state i = MSM_CVP_CORE_INVALID → i_state i' = MSM_CVP_CORE_INVALID) ∧
    i_session_type i' = i_session_type i ∧
    ∀ fenced, sq_ok (get_sq fenced i) → sq_ok (get_sq fenced i').
Proof.
  intros Hrun p i' Hi'. assert (advances w w') as Ha.
  { clear Hi'. induction Hrun as [w|w1 w2 w3 Hstep _ IH]; [done|]. trans w2; [|done].
    by apply driver_step_advances. }
  destruct (al_insts _ _ _ Ha p i' Hi') as (i & Hi & [Hst Ht _ Hq _ _]). exists i.
  split; [done|]. split; [done|]. split; [|done].
  intros Hinv. apply st_inj. rewrite Hinv in Hst. pose proof (st_invalid_max (i_state i')). lia.
Qed.

(** What a transition returns: 0, -EINVAL or -ETIMEDOUT.  A 0 means that the instance
    reached the state, or that the handler failed, not by a time-out, while the last reply of
    the firmware had been good: then the error is dropped. *)
Theorem try_state_result p state w rc w' :
  msm_cvp_comm_try_state p state w = Done (rc, w') →
  rc = - EINVAL ∨ rc = - ETIMEDOUT ∨
  rc = 0 ∧ (reached p state w' ∨
            ∃ h f r i', h ∈ cvp_state_handler ∧ h p state f w = Done (r, w') ∧
                        r ≠ 0 ∧ r ≠ - ETIMEDOUT ∧
                        inst_at p w' = Some i' ∧ i_prev_hfi_error_code i' = 0).
Proof.
  intros [[-> _]|(i & h & r & w1 & Hi & Hh & Hf & E & Hr)]%try_state_run; [by left|].
  unfold msm_cvp_state_result_check in Hr. rewrite bind_run in Hr. unfold get_i in Hr.
  destruct (inst_at p w1) as [i'|] eqn:Hi'; [|done]. cbn [obind fst snd] in Hr.
  destruct (Z.eqb_spec r (- ETIMEDOUT)) as [->|Hr1].
  { rewrite bind_run in Hr. destruct (when _ _ w1) as [[[] w2]|]; [|done]. injection Hr; auto. }
  destruct (negb (r =? 0) && _) eqn:Ec; injection Hr as <- <-; [by left|].
  right; right. split; [done|]. destruct (decide (r = 0)) as [->|Hr0].
  - left. by eapply honest_table.
  - right. apply list_elem_of_lookup_2 in Hh. exists h, (get_flipped_state (st (i_state i)) state), r, i'.
    repeat split; try done. lia.
Qed.

(** What the core initialisation does when the hardware refuses. *)
Lemma init_core_refused p w :
  p ≠ 0 → c_state (w_core w) = CVP_CORE_UNINIT →
  (∀ n, answer n Core_init ≠ 0 ∧ answer n Core_init ≠ - ETIMEDOUT) →
  ∃ rc w1, msm_comm_init_core p w = Done (rc, w1) ∧ rc ≠ 0 ∧ rc ≠ - ETIMEDOUT ∧
    c_state (w_core w1) = CVP_CORE_UNINIT ∧ ∀ q, inst_at q w1 = inst_at q w.
Proof.
  intros Hp Hc Ha. unfold msm_comm_init_core, iris_hfi_core_init.
  rewrite (proj2 (Z.eqb_neq _ _) Hp). mrun. rewrite Hc.
  change (cvp_core_state_to_Z CVP_CORE_INIT <=? _) with false. cbn iota. destruct (c_capabilities (w_core w)).
  - mrun. cbn [negb]. mrun. match goal with |- context [answer ?n Core_init] => destruct (Ha n) as [Ha0 Ha1] end.
    rewrite (proj2 (Z.eqb_neq _ _) Ha0). eexists _, _. by split.
  - mrun. destruct (_ =? 0); cbn [negb]; [by eexists _, _|]. mrun.
    match goal with |- context [answer ?n Core_init] => destruct (Ha n) as [Ha0 Ha1] end.
    rewrite (proj2 (Z.eqb_neq _ _) Ha0). eexists _, _. by split.
Qed.

(** A client whose core fails to initialise is told that all is well: the transition to
    any later state returns 0 and leaves it where it was, the core being uninitialised. *)
Theorem init_failure_is_swallowed p i state w :
  p ≠ 0 → inst_at p w = Some i → i_state i = MSM_CVP_CORE_UNINIT_DONE →
  i_prev_hfi_error_code i = 0 → 0 <= state <= st MSM_CVP_CORE_INVALID →
  c_state (w_core w) = CVP_CORE_UNINIT →
  (∀ n, answer n Core_init ≠ 0 ∧ answer n Core_init ≠ - ETIMEDOUT) →
  ∃ w', msm_cvp_comm_try_state p state w = Done (0, w') ∧
    inst_at p w' = Some i ∧ c_state (w_core w') = CVP_CORE_UNINIT.
Proof.
  intros Hp Hi Hs He Hst Hc Ha.
  destruct (init_core_refused p w Hp Hc Ha) as (rc & w1 & E & Hrc & Hrc' & Hc1 & Hi1).
  exists w1. rewrite Hi1. split; [|done]. unfold msm_cvp_comm_try_state.
  rewrite (proj2 (Z.eqb_neq _ _) Hp). mrun. minst Hi. rewrite Hs.
  rewrite bool_decide_eq_false_2 by done. cbn [andb].
  assert (get_flipped_state (st MSM_CVP_CORE_UNINIT_DONE) state = 1) as ->.
  { unfold get_flipped_state. change (st MSM_CVP_CORE_UNINIT_DONE) with 1.
    change (st MSM_CVP_CORE_INVALID) with 9 in Hst |- *.
    rewrite (proj2 (Z.ltb_ge state 0)) by lia. rewrite (Z.gtb_ltb state 9).
    by rewrite (proj2 (Z.ltb_ge 9 state)) by lia. }
  change ((1 <? 0) || _) with false. cbn iota.
  change (cvp_state_handler !! Z.to_nat 1) with (Some cvp_init_handler). cbn iota.
  unfold cvp_init_handler. mrun. rewrite E. mrun.
  unfold unless_there. rewrite <- (Hi1 p) in Hi. mrun. minst Hi.
  rewrite (proj2 (Z.eqb_neq _ _) Hrc). cbn [negb orb]. mrun.
  unfold msm_cvp_state_result_check. mrun. minst Hi.
  rewrite (proj2 (Z.eqb_neq _ _) Hrc'), (proj2 (Z.eqb_neq _ _) Hrc), He. done.
Qed.

End theorems.

(** * Witnesses *)

(** The client is opened by firmware that answers. *)
Definition fresh : world := world_with MSM_CVP_CORE_UNINIT_DONE CVP_CORE_UNINIT false.
Definition answering : Env := small_env no_call life.

Definition opened : world :=
  match @msm_cvp_comm_try_state answering 64 (st MSM_CVP_CORE_INIT_DONE) fresh with
  | Done (_, w) => w | Fault => fresh
  end.

Lemma driver_runs_forward_witness :
  (i_state <$> inst_at 64 opened) = Some MSM_CVP_CORE_INIT_DONE ∧
  ∃ i, inst_at 64 fresh = Some i ∧ st (i_state i) <= 3.
Proof.
  split; [by vm_compute|].
  assert (∃ i', inst_at 64 opened = Some i' ∧ i_state i' = MSM_CVP_CORE_INIT_DONE)
    as (i' & Hi' & Hs) by (eexists; split; [by vm_compute|done]).
  assert (rtc (@driver_step answering) fresh opened) as Hrun.
  { apply rtc_once. apply (@step_transition answering 64 (st MSM_CVP_CORE_INIT_DONE) _ 0).
    by vm_compute. }
  destruct (@driver_runs_forward answering fresh opened Hrun 64 i' Hi') as (i & Hi & Hle & _).
  exists i. split; [done|]. by rewrite Hs in Hle.
Defined.

Lemma try_state_result_witness :
  @msm_cvp_comm_try_state answering 64 (st MSM_CVP_CORE_INIT_DONE) fresh = Done (0, opened) ∧
  (0 = - EINVAL ∨ 0 = - ETIMEDOUT ∨
   0 = 0 ∧ (reached 64 (st MSM_CVP_CORE_INIT_DONE) opened ∨
            ∃ h f r i', h ∈ @cvp_state_handler answering ∧
                        h 64 (st MSM_CVP_CORE_INIT_DONE) f fresh = Done (r, opened) ∧
                        r ≠ 0 ∧ r ≠ - ETIMEDOUT ∧
                        inst_at 64 opened = Some i' ∧ i_prev_hfi_error_code i' = 0)).
Proof.
  split; [by vm_compute|].
  apply (@try_state_result answering 64 (st MSM_CVP_CORE_INIT_DONE) fresh 0). by vm_compute.
Defined.

Lemma init_failure_is_swallowed_witness :
  ∃ w', @msm_cvp_comm_try_state (small_env core_init_call silent) 64
          (st MSM_CVP_CORE_INIT_DONE) fresh = Done (0, w') ∧
        c_state (w_core w') = CVP_CORE_UNINIT.
Proof.
  destruct (@init_failure_is_swallowed (small_env core_init_call silent) 64
    (client MSM_CVP_CORE_UNINIT_DONE 0) (st MSM_CVP_CORE_INIT_DONE) fresh
    ltac:(done) eq_refl eq_refl eq_refl ltac:(by vm_compute) eq_refl ltac:(done))
    as (w' & E & _ & Hc). by exists w'.
Defined.
