(* ===== verification/Reply.v ===== *)
(** From the firmware's reply to the waiting caller: the dispatch of session replies, the
    drain of the message queue, and the round trip of a command's wait (Response.v and
    Session.v). *)

From S2P Require Import Prelude HfiTypes HfiPacket HfiDefs Driver Evolve Local Instance HfiSession Response Session Scenario.
Open Scope Z_scope.

(** * Session replies *)

(** The replies to session commands: packet type, response, whether the size is accepted. *)
Definition session_replies : list (Z * hal_command_response * (Z → bool)) :=
  [ (HFI_MSG_SYS_SESSION_INIT_DONE, HAL_SESSION_INIT_DONE, λ n, 20 <=? n);
    (HFI_MSG_SYS_SESSION_END_DONE, HAL_SESSION_END_DONE, λ n, n =? 16);
    (HFI_MSG_SYS_SESSION_ABORT_DONE, HAL_SESSION_ABORT_DONE, λ n, n =? 16);
    (HFI_MSG_SESSION_CVP_SET_BUFFERS, HAL_SESSION_SET_BUFFER_DONE, λ n, 60 <=? n);
    (HFI_MSG_SESSION_CVP_RELEASE_BUFFERS, HAL_SESSION_RELEASE_BUFFER_DONE, λ n, 60 <=? n);
    (HFI_MSG_SESSION_CVP_FLUSH, HAL_SESSION_FLUSH_DONE, λ n, 56 <=? n);
    (HFI_MSG_SESSION_EVA_START_DONE, HAL_SESSION_START_DONE, λ n, 56 <=? n);
    (HFI_MSG_SESSION_EVA_STOP_DONE, HAL_SESSION_STOP_DONE, λ n, 56 <=? n) ].

(** The packet [m] answers session [sid] with error [err]. *)
Definition replies_to (m : list Z) (r : hal_command_response) (sid err : Z) : Prop :=
  ∃ n t ok, (t, r, ok) ∈ session_replies ∧ ok n = true ∧
    m !! 0%nat = Some n ∧ m !! 1%nat = Some t ∧ m !! 2%nat = Some sid ∧ m !! 3%nat = Some err.

(** The cases of the response to a session command. *)
Ltac reply_cases H :=
  repeat (apply elem_of_cons in H as [->|H]; [|]); [..|by apply elem_of_nil in H].

Section dispatch.
Context `{Env}.

Lemma word_run m i v w : 0 <= i → m !! Z.to_nat i = Some v → word m i w = Done (v, w).
Proof. intros Hi Hm. unfold word, word_at. by rewrite (proj2 (Z.leb_le _ _) Hi), Hm. Qed.

Lemma session_reply_run r dev size m sid err w :
  m !! 2%nat = Some sid → m !! 3%nat = Some err →
  session_reply r dev size m w =
    Done ((0, mkInfo r (mkCmdDone dev sid (hfi_map_err_status err) size)), w).
Proof.
  intros Hs He. unfold session_reply. mrun. rewrite (word_run m 2 sid) by done. mrun.
  by rewrite (word_run m 3 err) by done.
Qed.

(** Every reply to a session command is recognised, with the session it is for and the
    status of its error. *)
Lemma dispatch_reply m r sid err dev info w :
  replies_to m r sid err →
  ∃ size, cvp_hfi_process_msg_packet dev m info w =
    Done ((0, mkInfo r (mkCmdDone dev sid (hfi_map_err_status err) size)), w).
Proof.
  intros (n & t & ok & Hin & Hok & Hn & Ht & Hs & He).
  unfold cvp_hfi_process_msg_packet. mrun. rewrite (word_run m 0 n) by done. mrun.
  assert ((n <? CVP_IFACEQ_MIN_PKT_SIZE) = false) as ->.
  { unfold CVP_IFACEQ_MIN_PKT_SIZE. unfold session_replies in Hin.
    repeat (apply elem_of_cons in Hin as [[= -> -> ->]|Hin]; [cbn in Hok; lia|]).
    by apply elem_of_nil in Hin. }
  mrun. rewrite (word_run m 1 t) by done. mrun.
  unfold session_replies in Hin.
  repeat (apply elem_of_cons in Hin as [[= -> -> ->]|Hin]; [|]); [..|by apply elem_of_nil in Hin].
  all: repeat (match goal with |- context [if ?a =? ?b then _ else _] =>
                 first [change (a =? b) with false | change (a =? b) with true] end; cbn iota).
  all: unfold hfi_process_session_init_done, hfi_process_session_end_done,
    hfi_process_session_set_buf_done, hfi_process_session_rel_buf_done,
    hfi_process_session_abort_done, hfi_process_session_flush_done,
    hfi_process_session_start_done, hfi_process_session_stop_done;
    mrun; rewrite (word_run m 0 n) by done; mrun.
  all: match goal with |- context [if ?b then _ else _] => replace b with false by lia end.
  all: eexists; by apply session_reply_run.
Qed.

(** What the commands of session replies have in common. *)
Lemma reply_kind m r sid err :
  replies_to m r sid err →
  r ∈ [HAL_SESSION_INIT_DONE; HAL_SESSION_END_DONE; HAL_SESSION_ABORT_DONE;
       HAL_SESSION_SET_BUFFER_DONE; HAL_SESSION_RELEASE_BUFFER_DONE;
       HAL_SESSION_FLUSH_DONE; HAL_SESSION_START_DONE; HAL_SESSION_STOP_DONE].
Proof.
  intros (n & t & ok & Hin & _). unfold session_replies in Hin.
  repeat (apply elem_of_cons in Hin as [[= -> -> ->]|Hin];
    [refine (bool_decide_unpack _ _); by vm_compute|]).
  by apply elem_of_nil in Hin.
Qed.

Lemma round_reply m r sid err s hs w :
  replies_to m r sid err → __get_session (u32 sid) w = Done (s, w) → s ≠ 0 →
  obj_find s (hd_sessions (w_hdev w)) = Some hs →
  ∃ size, response_round [] m w =
    Done (([mkInfo r (mkCmdDone 0 (hs_session_id hs) (hfi_map_err_status err) size)], false), w).
Proof.
  intros Hm Hg Hs Hhs. destruct (dispatch_reply m r sid err 0 (mkInfo HAL_NO_RESP zero_cmd_done) w Hm)
    as [size E]. exists size. unfold response_round.
  change (cvp_max_packets <=? length [])%nat with false. mrun. rewrite E. mrun.
  pose proof (reply_kind _ _ _ _ Hm) as Hr.
  assert (bool_decide (r = HAL_NO_RESP) = false ∧ bool_decide (r = HAL_SYS_ERROR) = false ∧
          has_session_id r = true ∧ ∀ c, process_system_msg (mkInfo r c) m = mret tt)
    as (H1 & H2 & H3 & H4) by (by reply_cases Hr).
  cbn [info_response_type info_cmd cd_session_id]. rewrite H1. change (negb (0 =? 0)) with false.
  cbn [orb]. mrun. rewrite H4. mrun. rewrite H3. mrun. rewrite Hg. mrun.
  rewrite (proj2 (Z.eqb_neq _ _) Hs). unfold get_session. mrun. rewrite Hhs. mrun. by rewrite H2.
Qed.

End dispatch.

(** * Signalling *)
Section signal.
Context `{Env}.

Lemma get_inst_upd p i j t w :
  inst_at p w = Some i → p ≠ 0 → i_session j ≠ 0 → i_kref j ≠ 0 →
  cvp_get_inst p (upd p j t w) = Done (p, upd p (j <| i_kref ::= Z.add 1 |>) t w).
Proof.
  intros Hi Hp Hs Hk. rewrite cvp_get_inst_eq, (inst_at_upd_same p i) by done.
  rewrite !(proj2 (Z.eqb_neq _ _)) by done. cbn [orb]. unfold kref_add.
  by rewrite put_i_upd.
Qed.

Lemma put_inst_upd p i j t w :
  inst_at p w = Some i → p ≠ 0 → 1 < i_kref j →
  cvp_put_inst p (upd p j t w) = Done (tt, upd p (j <| i_kref ::= Z.add (-1) |>) t w).
Proof.
  intros Hi Hp Hk. rewrite (cvp_put_inst_eq p j); [|by eapply inst_at_upd_same|done|done].
  unfold kref_add. by rewrite put_i_upd.
Qed.

(** What a reply does to the instance: its status is recorded and its completion signalled. *)
Definition signalled (r : hal_command_response) (s : cvp_status) (i : msm_cvp_inst)
  : msm_cvp_inst :=
  i <| i_hfi_error_code := cvp_status_to_Z s |>
    <| i_completions ::= alter S (SESSION_MSG_INDEX r) |>.

Lemma handle_reply m r sid err p i t w dev sz s :
  replies_to m r sid err → inst_at p w = Some i → p ≠ 0 → i_session i ≠ 0 → 0 < i_kref i →
  cvp_handle_cmd_response r (mkCmdDone dev p s sz) (upd p i t w) =
    Done (tt, upd p (signalled r s i) t w).
Proof.
  intros Hm Hi Hp Hs Hk. pose proof (reply_kind _ _ _ _ Hm) as Hr.
  assert (IS_HAL_SESSION_CMD r = true) as Hc by (by reply_cases Hr).
  assert (upd p (signalled r s i) t w =
    upd p ((signalled r s (i <| i_kref ::= Z.add 1 |>)) <| i_kref ::= Z.add (-1) |>) t w) as ->.
  { f_equal. destruct i. unfold signalled, put_field_to. cbn. f_equal. lia. }
  assert (cvp_handle_cmd_response r (mkCmdDone dev p s sz) =
            record_and_signal r (mkCmdDone dev p s sz) ∨
          cvp_handle_cmd_response r (mkCmdDone dev p s sz) =
            handle_session_set_buf_done r (mkCmdDone dev p s sz)) as [-> | ->]
    by (clear - Hr; reply_cases Hr; cbn; auto).
  - unfold record_and_signal. cbn [cd_session_id cd_status]. mrun.
    rewrite (get_inst_upd p i) by (done || lia). mrun. rewrite (proj2 (Z.eqb_neq _ _) Hp). mrun.
    rewrite (mod_i_upd p _ i) by done. mrun. unfold signal_session_msg_receipt, complete.
    rewrite (proj2 (Z.eqb_neq _ _) Hp), Hc. mrun. rewrite (mod_i_upd p _ i) by done. mrun.
    rewrite (put_inst_upd p i); [done|done|done|cbn; lia].
  - unfold handle_session_set_buf_done. cbn [cd_session_id cd_status]. mrun.
    rewrite (get_inst_upd p i) by (done || lia). mrun. rewrite (proj2 (Z.eqb_neq _ _) Hp). mrun.
    rewrite (mod_i_upd p _ i) by done. mrun. unfold complete. rewrite Hc. mrun.
    rewrite (mod_i_upd p _ i) by done. mrun.
    rewrite (put_inst_upd p i); [done|done|done|cbn; lia].
Qed.

End signal.

(** * The wait *)
Section wait.
Context `{Env}.

(** The reply [m], from session object [s], is what arrives while the instance [i] at [p]
    waits in the world [w]. *)
Record awaits (p : Z) (i : msm_cvp_inst) (r : hal_command_response) (m : list Z) (sid err s : Z)
    (hs : cvp_hal_session) (w : world) : Prop := mkAwaits {
  aw_inst : inst_at p w = Some i;
  aw_null : p ≠ 0;
  aw_kref : 0 < i_kref i;
  aw_session : i_session i ≠ 0;
  aw_msgs : w_msgq w ++ arrivals (length (w_trace w)) = [m];
  aw_reply : replies_to m r sid err;
  aw_init : hd_init (w_hdev w) = true;
  aw_listed : ∀ q t, __get_session (u32 sid) (w <| w_msgq := q |> <| w_trace := t |>)
                     = Done (s, w <| w_msgq := q |> <| w_trace := t |>);
  aw_found : s ≠ 0 ∧ obj_find s (hd_sessions (w_hdev w)) = Some hs;
  aw_owner : hs_session_id hs = p
}.

(** The interrupt during the wait reads the reply and signals the instance. *)
Lemma receive_reply p i r m sid err s hs w :
  awaits p i r m sid err s hs w →
  receive_during r w =
    Done (tt, upd p (signalled r (hfi_map_err_status err) i) (w_trace w ++ [Wait_for r])
                (w <| w_msgq := [] |>)).
Proof.
  intros [Hi Hp Hk Hs Hq Hm Hd Hg [Hs0 Hhs] Ho]. unfold receive_during. mrun.
  match goal with |- interrupts _ ?v = _ =>
    assert (v = w <| w_msgq := [m] |> <| w_trace := w_trace w ++ [Wait_for r] |>) as ->
      by (rewrite <- Hq; by destruct w)
  end.
  set (w1 := w <| w_msgq := [m] |> <| w_trace := w_trace w ++ [Wait_for r] |>).
  change (length (w_msgq w1)) with 1%nat. cbn [interrupts].
  unfold iris_hfi_core_work_handler, __response_handler. mrun.
  change (w_hdev w1) with (w_hdev w). rewrite Hd. cbn [negb]. mrun.
  change (w_hdev w1) with (w_hdev w). rewrite Hd. cbn [negb].
  change (w_msgq w1) with [m]. cbn [response_loop]. mrun.
  destruct (round_reply m r sid err s hs w1 Hm (Hg _ _) Hs0 Hhs) as [sz E]. rewrite E. mrun.
  cbn [run_callbacks]. mrun.
  match goal with |- context [hd_init (w_hdev ?v)] => change (w_hdev v) with (w_hdev w) end.
  rewrite Hd. cbn [negb info_response_type info_cmd]. mrun. rewrite Ho.
  match goal with |- context [cvp_handle_cmd_response r _ ?v] =>
    assert (v = upd p i (w_trace w ++ [Wait_for r]) (w <| w_msgq := [] |>)) as ->
  end.
  { assert (inst_at p (w1 <| w_msgq := [] |>) = Some i) as Hi1 by exact Hi.
    rewrite <- (upd_same p i (w1 <| w_msgq := [] |>) Hi1). clear. by destruct w as [[] ? ? ?]. }
  rewrite (handle_reply m r sid err p i) by done. done.
Qed.

Lemma wait_run fs p i r m sid err s hs w n :
  awaits p i r m sid err s hs w →
  i_state i ≠ MSM_CVP_CORE_INVALID → i_completions i !! SESSION_MSG_INDEX r = Some n →
  let status := cvp_status_to_Z (hfi_map_err_status err) in
  wait_for_sess_signal_receipt_with fs p r w =
    Done (s32 status,
          upd p (i <| i_hfi_error_code := 0 |> <| i_prev_hfi_error_code := status |>)
              (w_trace w ++ [Wait_for r]) (w <| w_msgq := [] |>)).
Proof.
  intros Ha Hst Hn status. pose proof (receive_reply _ _ _ _ _ _ _ _ _ Ha) as E.
  destruct Ha as [Hi Hp _ _ _ Hm _ _ _ _]. pose proof (reply_kind _ _ _ _ Hm) as Hr.
  assert (IS_HAL_SESSION_CMD r = true) as Hc by (by reply_cases Hr).
  unfold wait_for_sess_signal_receipt_with, wait_completion.
  rewrite Hc. cbn [negb]. mrun. rewrite E. mrun. clear E.
  set (w0 := w <| w_msgq := [] |>). assert (Hi0 : inst_at p w0 = Some i) by done.
  rewrite (get_i_upd p i) by done. mrun.
  assert (i_completions (signalled r (hfi_map_err_status err) i) !! SESSION_MSG_INDEX r
          = Some (S n)) as -> by (cbn; by rewrite list_lookup_alter_eq, Hn).
  change (default 0%nat (Some (S n))) with (S n). cbn iota.
  mrun. rewrite (mod_i_upd p _ i) by done. mrun.
  rewrite (get_i_upd p i) by done. mrun. cbn [negb].
  rewrite bool_decide_eq_false_2 by done.
  mrun. rewrite (mod_i_upd p _ i) by done. mrun. do 3 f_equal.
  unfold signalled, put_field_to. destruct i. cbn. cbn in Hn. f_equal.
  apply list_eq. intros k. destruct (decide (SESSION_MSG_INDEX r = k)) as [<-|Hk].
  - rewrite list_lookup_insert_eq; [done|]. rewrite length_alter. by eapply lookup_lt_Some.
  - by rewrite list_lookup_insert_ne, list_lookup_alter_ne.
Qed.

(** The status is 0 exactly for no error. *)
Lemma status_zero err : s32 (cvp_status_to_Z (hfi_map_err_status err)) = 0 ↔ err = HFI_ERR_NONE.
Proof.
  unfold hfi_map_err_status. destruct (Z.eqb_spec err HFI_ERR_NONE) as [->|]; [done|].
  split; [|done]. repeat (case_match; [by intros|]). by intros.
Qed.

(** What the firmware says is what the waiting caller hears: when the reply to a session
    command arrives in time, the wait returns the status of its error, which is remembered
    as the previous one, and consumes the completion, so that the next wait is not woken by
    it. *)
Theorem wait_returns_status p i r m sid err s hs w n :
  awaits p i r m sid err s hs w →
  i_state i ≠ MSM_CVP_CORE_INVALID → i_completions i !! SESSION_MSG_INDEX r = Some n →
  let status := cvp_status_to_Z (hfi_map_err_status err) in
  wait_for_sess_signal_receipt p r w =
    Done (s32 status,
          upd p (i <| i_hfi_error_code := 0 |> <| i_prev_hfi_error_code := status |>)
              (w_trace w ++ [Wait_for r]) (w <| w_msgq := [] |>)).
Proof. apply wait_run. Qed.

(** C9. A step of the life cycle that waits for the firmware succeeds exactly when the reply
    carries no error: then the instance is in the new state, otherwise it stays and the
    caller gets a code that is not 0. *)
Theorem reply_moves_state p i r m sid err s hs w n flipped target :
  awaits p i r m sid err s hs w →
  i_state i ≠ MSM_CVP_CORE_INVALID → i_completions i !! SESSION_MSG_INDEX r = Some n →
  flipped < st target →
  ∃ rc i', wait_for_state p flipped target r w =
      Done (rc, upd p i' (w_trace w ++ [Wait_for r]) (w <| w_msgq := [] |>)) ∧
    (rc = 0 ↔ err = HFI_ERR_NONE) ∧
    i_state i' = (if rc =? 0 then target else i_state i) ∧
    i_completions i' = i_completions i.
Proof.
  intros Ha Hst Hn Hf. unfold wait_for_state, IS_ALREADY_IN_STATE.
  replace (flipped >=? st target) with false by lia. mrun.
  unfold wait_for_sess_signal_receipt. rewrite (wait_run _ _ _ _ _ _ _ _ _ _ _ Ha Hst Hn). mrun.
  set (rc := s32 _). exists rc. destruct (Z.eqb_spec rc 0) as [Hrc|Hrc]; mrun.
  - unfold change_cvp_inst_state. destruct Ha as [Hi Hp _ _ _ _ _ _ _ _].
    rewrite (proj2 (Z.eqb_neq _ _) Hp). mrun.
    rewrite (get_i_upd p i) by exact Hi. mrun. rewrite bool_decide_eq_false_2 by done.
    rewrite (mod_i_upd p _ i) by exact Hi. mrun. eexists. split; [done|].
    split; [apply status_zero|done].
  - eexists. split; [done|]. split; [apply status_zero|done].
Qed.

End wait.

(** * Draining the queue *)
Section drain.
Context `{Env}.

(** The array is full, or its last response is a system error. *)
Definition must_stop (ps : list msm_cvp_cb_info) : bool :=
  (cvp_max_packets <=? length ps)%nat ||
  match ps !! pred (length ps) with
  | Some x => bool_decide (info_response_type x = HAL_SYS_ERROR)
  | None => false
  end.

Lemma last_elem {A} (l : list A) x : (l ++ [x]) !! pred (length (l ++ [x])) = Some x.
Proof. apply list_lookup_middle. rewrite length_app. cbn. lia. Qed.

Lemma response_round_grows ps m w ps' stop w' :
  response_round ps m w = Done ((ps', stop), w') →
  (length ps < cvp_max_packets)%nat ∧
  (ps' = ps ∧ stop = false ∨ ∃ x, ps' = ps ++ [x] ∧ stop = must_stop ps').
Proof.
  unfold response_round, must_stop. destruct (Nat.leb_spec cvp_max_packets (length ps)); [done|].
  rewrite bind_run. intros Hr. split; [done|]. revert Hr.
  destruct (cvp_hfi_process_msg_packet _ _ _ _) as [[[rc info] w1]|]; [|done].
  cbn [obind fst snd]. destruct (_ || _); [by intros [= <- <- <-]; left|].
  rewrite bind_run. destruct (process_system_msg _ _ _) as [[[] w2]|]; [|done].
  cbn [obind fst snd]. destruct (has_session_id _).
  - rewrite bind_run. destruct (__get_session _ _) as [[s w3]|]; [|done].
    cbn [obind fst snd]. destruct (s =? 0); [by intros [= <- <- <-]; left|].
    rewrite bind_run. destruct (get_session _ _) as [[hs w4]|]; [|done].
    cbn [obind fst snd]. intros [= <- <- <-]. right. eexists. split; [done|]. by rewrite last_elem.
  - intros [= <- <- <-]. right. eexists. split; [done|]. by rewrite last_elem.
Qed.

(** C10. Draining the message queue reads a prefix of it, in order, and appends at most one
    response per packet; the response array never gets more than its 32 elements; and
    packets are left in the queue only when it is full or a system error was read. *)
Theorem response_loop_drains ps msgq w ps' rest w' :
  response_loop ps msgq w = Done ((ps', rest), w') →
  (length ps <= cvp_max_packets)%nat →
  ∃ read new, msgq = read ++ rest ∧ ps' = ps ++ new ∧
    (length new <= length read)%nat ∧ (length ps' <= cvp_max_packets)%nat ∧
    (rest ≠ [] → must_stop ps' = true).
Proof.
  revert ps w. induction msgq as [|m q IH]; intros ps w.
  { intros [= <- <- <-] Hl. exists [], []. rewrite !app_nil_r. by repeat split. }
  cbn [response_loop]. rewrite bind_run.
  destruct (response_round ps m w) as [[[ps1 stop] w1]|] eqn:E; [|done].
  cbn [obind fst snd]. intros Hr _.
  destruct (response_round_grows _ _ _ _ _ _ E) as [Hlt [[-> ->]|(x & -> & Hs)]].
  - destruct (IH ps w1 Hr ltac:(lia)) as (read & new & -> & -> & Hle & H32 & Hst).
    exists (m :: read), new. cbn. split; [done|]. split; [done|]. split; [lia|done].
  - assert (length (ps ++ [x]) <= cvp_max_packets)%nat as Hl by (rewrite length_app; cbn; lia).
    destruct stop.
    + injection Hr as <- <- <-. exists [m], [x]. split; [done|]. split; [done|].
      split; [cbn; lia|]. by split.
    + destruct (IH (ps ++ [x]) w1 Hr Hl) as (read & new & -> & -> & Hle & H32 & Hst).
      exists (m :: read), (x :: new). split; [done|]. rewrite <- app_assoc in *.
      split; [done|]. split; [cbn; lia|done].
Qed.

End drain.

(** * Messages for a session's owner *)
Section messages.
Context `{Env}.

Lemma get_inst_from_id_run p i sid w :
  sid ≠ 0 → p ≠ 0 → find_sess_id sid (c_instances (w_core w)) = Some p →
  inst_at p w = Some i → i_kref i ≠ 0 →
  cvp_get_inst_from_id sid w = Done (p, upd p (i <| i_kref ::= Z.succ |>) (w_trace w) w).
Proof.
  intros Hs Hp Hf Hi Hk. unfold cvp_get_inst_from_id, kref_get_unless_zero.
  rewrite (proj2 (Z.eqb_neq _ _) Hs). mrun. rewrite Hf. mrun. minst Hi.
  rewrite (proj2 (Z.eqb_neq _ _) Hk). mrun. rewrite <- (upd_same p i w Hi).
  rewrite (mod_i_upd p _ i) by done. mrun. by rewrite !upd_upd.
Qed.

(** Bytes of a message that are kept, by packet type. *)
Definition kept_bytes (t : Z) : Z :=
  if t =? HFI_MSG_SESSION_CVP_RELEASE_BUFFERS then 60 else 68.

(** The message [m] of [n] bytes and type [t] is for the instance [i] at [p]. *)
Record message_for (p : Z) (i : msm_cvp_inst) (m : list Z) (n t hi : Z) (w : world) : Prop :=
  mkMessage {
    mf_size : m !! 0%nat = Some n;
    mf_type : m !! 1%nat = Some t;
    mf_kdata : m !! 9%nat = Some hi;
    mf_length : (17 <= length m)%nat;
    mf_session : ∃ sid, m !! 2%nat = Some sid ∧ sid ≠ 0 ∧
                        find_sess_id sid (c_instances (w_core w)) = Some p;
    mf_inst : inst_at p w = Some i;
    mf_null : p ≠ 0;
    mf_kref : 0 < i_kref i;
    mf_fits : kept_bytes t <= n <= MAX_HFI_PKT_SIZE * 4
  }.

Lemma copy_kept m t w :
  (17 <= length m)%nat →
  copy_msg m (kept_bytes t) w = Done (take (Z.to_nat (kept_bytes t / 4)) m, w).
Proof.
  intros Hl. unfold copy_msg. rewrite Z.shiftr_div_pow2 by lia. change (2 ^ 2) with 4.
  assert (0 <= kept_bytes t / 4 <= 17) as Hk.
  { unfold kept_bytes. destruct (_ =? _); by vm_compute. }
  rewrite words_read_ok by lia. by rewrite drop_0.
Qed.

(** A message for a session is appended to its fence queue when bit 63 of its [kdata] is
    set and to its plain queue otherwise, cut to the bytes kept for its type, and the count
    goes up by one; when the queue holds 128 messages or there is no memory, it is dropped
    with -ENOMEM.  In every case nothing else changes, and the reference taken to find the
    instance is given back. *)
Theorem message_is_queued p i m n t hi info w :
  message_for p i m n t hi w → msm_cvp_hw_hang_recovery = true →
  let fenced := Z.testbit hi 31 in
  let dropped := (answer (length (w_trace w)) (Kmalloc 0) =? 0)
                 || (sq_msg_count (get_sq fenced i) >=? MAX_NUM_MSGS_PER_SESSION) in
  hfi_process_session_cvp_msg 0 m info w =
    Done (if dropped then (- ENOMEM, info) else (0, mkInfo HAL_NO_RESP (info_cmd info)),
          upd p (if dropped then i
                 else mod_sq fenced (push_msg (take (Z.to_nat (kept_bytes t / 4)) m)) i)
            (w_trace w ++ [Kmalloc 0]) w).
Proof.
  intros [Hn Ht Hhi Hl (sid & Hsid & Hs0 & Hf) Hi Hp Hk [Hn1 Hn2]] Hrec fenced dropped.
  unfold hfi_process_session_cvp_msg, get_msg_size, msg_is_fenced. mrun.
  rewrite (word_run m 0 n) by done. mrun. rewrite (word_run m 1 t) by done. mrun.
  fold (kept_bytes t). replace (n >? MAX_HFI_PKT_SIZE * 4) with false by lia.
  replace (n <? kept_bytes t) with false by lia. mrun.
  rewrite (word_run m 2 sid) by done. mrun.
  rewrite (get_inst_from_id_run p i sid w) by (done || lia). mrun.
  rewrite (proj2 (Z.eqb_neq _ _) Hp). mrun. rewrite (word_run m 9 hi) by done. mrun.
  fold fenced. set (i1 := i <| i_kref ::= Z.succ |>). set (tr := w_trace w ++ [Kmalloc 0]).
  change (upd p i1 (w_trace w) w <| w_trace ::= _ |>) with (upd p i1 tr w).
  change (w_trace (upd p i1 (w_trace w) w)) with (w_trace w).
  assert (Hback : ∀ f, upd p ((mod_sq fenced f i1) <| i_kref ::= Z.add (-1) |>) tr w
                       = upd p (mod_sq fenced f i) tr w).
  { intros f. f_equal. unfold i1. destruct i, fenced; unfold mod_sq, put_field_to; cbn; f_equal; lia. }
  assert (Hput : ∀ j, i_kref j = Z.succ (i_kref i) → cvp_put_inst p (upd p j tr w) =
    Done (tt, upd p (j <| i_kref ::= Z.add (-1) |>) tr w)).
  { intros j Hj. apply (put_inst_upd p i); [done|done|lia]. }
  assert (Hid : mod_sq fenced (λ q, q) i1 = i1) by (unfold i1; by destruct i, fenced).
  assert (Hid' : mod_sq fenced (λ q, q) i = i) by (by destruct i, fenced).
  specialize (Hback (λ q, q)) as Hb0. rewrite Hid, Hid' in Hb0.
  unfold dropped. destruct (answer _ (Kmalloc 0) =? 0); cbn [orb].
  { rewrite bind_run, Hput, Hb0 by done. done. }
  mrun. rewrite copy_kept by done. mrun. rewrite (get_i_upd p i) by done. mrun.
  replace (get_sq fenced i1) with (get_sq fenced i) by (by destruct fenced).
  destruct (_ >=? _).
  { rewrite bind_run, Hput, Hb0 by done. done. }
  mrun. rewrite (mod_i_upd p _ i) by done. mrun.
  destruct (lookup_lt_is_Some_2 m 16) as [e He]; [lia|]. rewrite (word_run m 16 e) by done.
  mrun. rewrite Hrec. cbn [negb msm_cvp_bug_on].
  assert (∀ b : bool, when b (mret tt) = mret tt) as -> by (by intros []). mrun.
  rewrite Hput by (by destruct fenced). mrun. by rewrite Hback.
Qed.

End messages.

(** * Witnesses *)

Definition ack_init (err : Z) : list Z :=
  received [20; HFI_MSG_SYS_SESSION_INIT_DONE; 0x7FFF0000; err; 0].

Definition acking (err : Z) : Env := small_env no_call (λ _, [ack_init err]).

Definition opening : world := world_with MSM_CVP_OPEN CVP_CORE_INIT_DONE true.

Lemma opening_awaits err :
  @awaits (acking err) 64 (client MSM_CVP_OPEN 4096) HAL_SESSION_INIT_DONE (ack_init err)
    0x7FFF0000 err 4096 (mkHs 64 true) opening.
Proof.
  constructor; [done|done|done|done|done| |done|intros; by vm_compute|done|done].
  exists 20, HFI_MSG_SYS_SESSION_INIT_DONE, (λ n, 20 <=? n).
  split; [by apply elem_of_cons; left|done].
Qed.

Lemma wait_returns_status_witness :
  ∃ w', @wait_for_sess_signal_receipt (acking 0) 64 HAL_SESSION_INIT_DONE opening = Done (0, w').
Proof.
  eexists. exact (@wait_returns_status (acking 0) _ _ _ _ _ _ _ _ _ 0 (opening_awaits 0)
    ltac:(done) eq_refl).
Defined.

Lemma reply_moves_state_witness :
  ∃ w', @wait_for_state (acking 0) 64 (st MSM_CVP_OPEN) MSM_CVP_OPEN_DONE
          HAL_SESSION_INIT_DONE opening = Done (0, w') ∧
        (i_state <$> inst_at 64 w') = Some MSM_CVP_OPEN_DONE.
Proof.
  destruct (@reply_moves_state (acking 0) _ _ _ _ _ _ _ _ _ 0 (st MSM_CVP_OPEN)
    MSM_CVP_OPEN_DONE (opening_awaits 0) ltac:(done) eq_refl ltac:(done))
    as (rc & i' & E & [_ Hrc] & Hs & _).
  rewrite (Hrc eq_refl) in E, Hs. eexists. split; [exact E|]. cbn. by rewrite Hs.
Defined.

Lemma response_loop_drains_witness :
  ∃ ps rest w', @response_loop (acking 0) [] [ack_init 0; ack_init 1] opening
                  = Done ((ps, rest), w') ∧ (length ps <= 32)%nat ∧ ps ≠ [].
Proof.
  eexists _, _, _. split; [by vm_compute|]. split; [|done].
  edestruct (@response_loop_drains (acking 0) [] [ack_init 0; ack_init 1] opening)
    as (read & new & _ & _ & _ & H & _); [by vm_compute|cbn; lia|]. exact H.
Defined.

Definition frame_done : list Z :=
  received (<[2%nat := 0x7FFF0000]> (<[1%nat := HFI_MSG_SESSION_CVP_SYNX]> (68 :: replicate 16 0))).

Definition running : world := world_with MSM_CVP_OPEN_DONE CVP_CORE_INIT_DONE true.

Lemma message_is_queued_witness :
  ∃ w', @hfi_process_session_cvp_msg (small_env no_call silent) 0 frame_done
          (mkInfo HAL_NO_RESP zero_cmd_done) running
        = Done ((0, mkInfo HAL_NO_RESP zero_cmd_done), w') ∧
        (sq_msg_count ∘ i_session_queue <$> inst_at 64 w') = Some 1.
Proof.
  eexists. split.
  - apply (@message_is_queued (small_env no_call silent) 64 (client MSM_CVP_OPEN_DONE 4096)
      frame_done 68 HFI_MSG_SESSION_CVP_SYNX 0); [|done].
    constructor; [done|done|done|by vm_compute; lia| |done|done|done|by vm_compute].
    by exists 0x7FFF0000.
  - by vm_compute.
Defined.
