(* ===== verification/Store.v ===== *)
(** A state monad with faults, for the components whose state is their own: buffers, power
    sequences, the virtual-machine channel, the user interface.

    [St S A] takes a state and gives a result and a new state, or [Fault] where C would
    touch memory that is not there.  [total P m Q] is its total-correctness triple: from
    every state in [P] the operation completes, without a fault, in [Q]. *)

From S2P Require Import Prelude.
Open Scope Z_scope.

Definition St (S A : Type) : Type := S → outcome (A * S).

#[global] Instance St_ret S : MRet (St S) := λ A a s, Done (a, s).
#[global] Instance St_bind S : MBind (St S) := λ A B f m s, let! r := m s in f (fst r) (snd r).

Section operations.
Context {S : Type}.

Definition stuck {A} : St S A := λ _, Fault.
Definition gets {A} (f : S → A) : St S A := λ s, Done (f s, s).
Definition modify (f : S → S) : St S unit := λ s, Done (tt, f s).
Definition of_outcome {A} (o : outcome A) : St S A :=
  λ s, let! a := o in Done (a, s).
Definition unless (b : bool) (m : St S unit) : St S unit := if b then mret tt else m.
Definition whenS (b : bool) (m : St S unit) : St S unit := if b then m else mret tt.

(** [m] on every element in turn. *)
Fixpoint each {A} (l : list A) (m : A → St S unit) : St S unit :=
  match l with [] => mret tt | a :: l' => m a ;; each l' m end.

End operations.

(** * Triples *)
Section triples.
Context {S : Type}.

Definition total {A} (P : S → Prop) (m : St S A) (Q : A → S → Prop) : Prop :=
  ∀ s, P s → ∃ a s', m s = Done (a, s') ∧ Q a s'.

Lemma total_ret {A} (P : S → Prop) (a : A) (Q : A → S → Prop) :
  (∀ s, P s → Q a s) → total P (mret a) Q.
Proof. intros HQ s Hs. exists a, s. split; [done|auto]. Qed.

Lemma total_bind {A B} P (m : St S A) (R : A → S → Prop) (f : A → St S B) Q :
  total P m R → (∀ a, total (R a) (f a) Q) → total P (m ≫= f) Q.
Proof.
  intros Hm Hf s Hs. destruct (Hm s Hs) as (a & s1 & E & Ha).
  destruct (Hf a s1 Ha) as (b & s2 & E2 & Hb). exists b, s2. split; [|done].
  unfold mbind, St_bind. by rewrite E.
Qed.

Lemma total_gets {A} (f : S → A) P (Q : A → S → Prop) :
  (∀ s, P s → Q (f s) s) → total P (gets f) Q.
Proof. intros HQ s Hs. exists (f s), s. split; [done|auto]. Qed.

Lemma total_modify f (P : S → Prop) (Q : unit → S → Prop) :
  (∀ s, P s → Q tt (f s)) → total P (modify f) Q.
Proof. intros HQ s Hs. exists tt, (f s). split; [done|auto]. Qed.

Lemma total_of_outcome {A} (o : outcome A) a P (Q : A → S → Prop) :
  o = Done a → (∀ s, P s → Q a s) → total P (of_outcome o) Q.
Proof. intros -> HQ s Hs. exists a, s. split; [done|auto]. Qed.

Lemma total_conseq {A} (P P' : S → Prop) (m : St S A) (Q Q' : A → S → Prop) :
  total P' m Q' → (∀ s, P s → P' s) → (∀ a s, Q' a s → Q a s) → total P m Q.
Proof.
  intros Hm HP HQ s Hs. destruct (Hm s (HP s Hs)) as (a & s' & E & Ha). eauto 6.
Qed.

Lemma total_pre {A} (P P' : S → Prop) (m : St S A) Q :
  total P' m Q → (∀ s, P s → P' s) → total P m Q.
Proof. intros Hm HP. eapply total_conseq; eauto. Qed.

Lemma total_post {A} (P : S → Prop) (m : St S A) (Q Q' : A → S → Prop) :
  total P m Q' → (∀ a s, Q' a s → Q a s) → total P m Q.
Proof. intros Hm HQ. eapply total_conseq; eauto. Qed.

Lemma total_if {A} (b : bool) P (m1 m2 : St S A) Q :
  (b = true → total P m1 Q) → (b = false → total P m2 Q) → total P (if b then m1 else m2) Q.
Proof. destruct b; auto. Qed.

Lemma total_whenS b P m (Q : unit → S → Prop) :
  (b = true → total P m Q) → (∀ s, b = false → P s → Q tt s) → total P (whenS b m) Q.
Proof. destruct b; intros H1 H2; [by apply H1|]. apply total_ret. auto. Qed.

(** A precondition about values, moved to the context. *)
Lemma total_pure {A} (φ : Prop) P (m : St S A) Q :
  (φ → total P m Q) → total (λ s, φ ∧ P s) m Q.
Proof. intros Hm s [Hφ Hs]. by apply Hm. Qed.

Lemma total_ex {A X} (P : X → S → Prop) (m : St S A) Q :
  (∀ x, total (P x) m Q) → total (λ s, ∃ x, P x s) m Q.
Proof. intros Hm s [x Hs]. by apply (Hm x). Qed.

(** The loop over a list, with an invariant on what has been done and what is left. *)
Lemma total_each {A} (l : list A) m (I : list A → S → Prop) :
  (∀ a l', total (I (a :: l')) (m a) (λ _, I l')) → total (I l) (each l m) (λ _, I []).
Proof.
  induction l as [|a l IH]; intros Hm; cbn [each]; [by apply total_ret|].
  eapply total_bind; [apply Hm|]. intros []. by apply IH.
Qed.

Lemma total_each_inv {A} (l : list A) m (I : S → Prop) :
  (∀ a, a ∈ l → total I (m a) (λ _, I)) → total I (each l m) (λ _, I).
Proof.
  induction l as [|a l IH]; intros Hm; cbn [each]; [by apply total_ret|].
  eapply total_bind; [apply Hm; left|]. intros []. apply IH. intros b Hb. apply Hm. by right.
Qed.

(** A triple read off at one state. *)
Lemma total_run {A} P (m : St S A) Q s :
  total P m Q → P s → ∃ a s', m s = Done (a, s') ∧ Q a s'.
Proof. intros Hm. apply Hm. Qed.

End triples.

(** * Laws for computing *)
Section laws.
Context {S : Type}.

Lemma St_bind_run {A B} (m : St S A) (f : A → St S B) s :
  (m ≫= f) s = let! r := m s in f (fst r) (snd r).
Proof. reflexivity. Qed.
Lemma St_ret_run {A} (a : A) (s : S) : (mret a : St S A) s = Done (a, s).
Proof. reflexivity. Qed.
Lemma gets_run {A} (f : S → A) s : gets f s = Done (f s, s).
Proof. reflexivity. Qed.
Lemma modify_run f (s : S) : modify f s = Done (tt, f s).
Proof. reflexivity. Qed.

End laws.

(** Runs the monad's plumbing at a known state. *)
Ltac srun :=
  repeat first
    [ rewrite St_bind_run | rewrite St_ret_run | rewrite gets_run | rewrite modify_run
    | progress cbn [obind fst snd whenS unless of_outcome] ].
