(* ===== verification/Smem.v ===== *)
(** Shared memory: the mappings of client buffers, their reference counts and the mapping
    cache of a session.

    Source: src/msm/eva/cvp_smem.c, the cache part of src/msm/eva/msm_cvp_buf.c and the
    structures of msm_cvp_buf.h.  One session's buffers are the state [bufs]; an [msm_cvp_smem]
    is an object at an address, so that a use after free is a [Fault].  [b_refs] counts the
    references the driver holds on each dma_buf: dropping one it does not hold is a [Fault]
    too.  The kernel's dma_buf and allocation calls are answered by the environment [BufEnv];
    the red-black tree library is the class [RbTree] with the laws [RbLaws], which say what
    lib/rbtree.c documents: rebalancing and erasing keep the in-order sequence.

    The build modelled is the one cvp_comm_def.h selects: no Qualcomm heap, no SUN target.
    Locks, logging and the debug check sums are left out. *)

From S2P Require Import Prelude Store HfiTypes HfiDefs.
From stdpp Require Import strings.
Open Scope Z_scope.

(** * Data *)

(** [enum smem_prop], [enum smem_cache_ops], [enum cp_context_bank]. *)
Definition SMEM_UNCACHED : Z := 0x1.
Definition SMEM_CACHED : Z := 0x2.
Definition SMEM_SECURE : Z := 0x4.
Definition SMEM_CDSP : Z := 0x8.
Definition SMEM_NON_PIXEL : Z := 0x10.
Definition SMEM_PIXEL : Z := 0x20.
Definition SMEM_CAMERA : Z := 0x40.
Definition SMEM_PERSIST : Z := 0x100.

Inductive smem_cache_ops :=
  SMEM_CACHE_CLEAN | SMEM_CACHE_INVALIDATE | SMEM_CACHE_CLEAN_INVALIDATE.

Definition CP_CB_0 : Z := 0.
Definition CP_CB_3 : Z := 3.
Definition CP_CB_4 : Z := 4.
Definition CP_CB_7 : Z := 7.

Definition MAX_FRAME_BUFFER_NUMS : Z := 40.
Definition IOVA_THRESHOLD : Z := 2147483648.
Definition PAGE_SIZE : Z := 4096.
Definition NUM_WNCC_BUFS : Z := 8.
Definition EVA_KMD_BUFTYPE_INPUT : Z := 1.
Definition EVA_KMD_BUFTYPE_OUTPUT : Z := 2.
Definition EVA_KMD_BUFTYPE_INTERNAL_1 : Z := 3.
Definition EVA_KMD_WNCC_MAX_SRC_BUFS : Z := 2400.
Definition EVA_KMD_WNCC_SRC_BUF_ID_OFFSET : Z := 1.
Definition EDQUOT : Z := 122.

(** [enum buffer_owner]. *)
Inductive buffer_owner := DRIVER | CLIENT | DSP.

#[global] Instance buffer_owner_eq_dec : EqDecision buffer_owner.
Proof. solve_decision. Defined.

(** [struct msm_cvp_smem]; [sm_mapped] says whether [mapping_info] is filled in: its fields
    are set and cleared together. *)
Record msm_cvp_smem := mkSmem {
  sm_refcount : Z;
  sm_dma_buf : Z;
  sm_kvaddr : Z;
  sm_device_addr : Z;
  sm_size : Z;
  sm_cached : bool;
  sm_flags : Z;
  sm_pkt_type : Z;
  sm_buf_idx : Z;
  sm_fd : Z;
  sm_mapped : bool
}.

(** An object fresh from [kmem_cache_zalloc]. *)
Definition smem_zero : msm_cvp_smem := mkSmem 0 0 0 0 0 false 0 0 0 0 false.

(** [struct rb_node]: a node stands for the [msm_cvp_smem] it is embedded in. *)
Inductive rb_node := rb_null | rb_at (rb_left : rb_node) (smem : Z) (rb_right : rb_node).

Fixpoint inorder (t : rb_node) : list Z :=
  match t with rb_null => [] | rb_at l p r => inorder l ++ p :: inorder r end.

(** [struct cvp_internal_buf], [struct msm_cvp_frame] ([nr] is the length of [fr_bufs]),
    [struct cvp_frame_bufs] and [struct msm_cvp_wncc_buffer]. *)
Record cvp_internal_buf := mkIbuf {
  ib_fd : Z;
  ib_size : Z;
  ib_offset : Z;
  ib_type : Z;
  ib_index : Z;
  ib_ktid : Z;
  ib_ownership : buffer_owner;
  ib_smem : Z
}.

Record msm_cvp_frame := mkFrame {
  fr_bufs : list cvp_internal_buf;
  fr_ktid : Z;
  fr_pkt_type : Z;
  fr_stream_idx : Z
}.

Record cvp_frame_bufs := mkFbufs {
  fb_ktid : Z;
  fb_nr : Z;
  fb_smem : gmap Z msm_cvp_smem
}.

Record msm_cvp_wncc_buffer := mkWncc { wb_fd : Z; wb_iova : Z; wb_size : Z }.

(** Of [struct cvp_buf_type], a buffer descriptor inside a packet, what the driver reads
    or writes. *)
Record cvp_buf_type := mkBt {
  bt_fd : Z;
  bt_size : Z;
  bt_offset : Z;
  bt_context_bank_id : Z
}.

(** Calls out of the component. *)
Inductive bcall :=
| Zalloc_buf
| Zalloc_smem (live : gset Z)
| Zalloc_frame
| Kzalloc_wncc_table
| Dma_buf_get (fd : Z)
| Dma_buf_attach (dma_buf : Z) (cb : string)
| Dma_buf_map (attach : Z)
| Sgl_dma_address (table : Z)
| Dma_buf_unmap (dma_buf : Z)
| Dma_buf_detach (dma_buf : Z)
| Begin_cpu_access (dma_buf : Z)
| End_cpu_access (dma_buf : Z)
| Vmap (dma_buf : Z)
| Vunmap (dma_buf : Z)
| Cache_op (dma_buf : Z) (op : smem_cache_ops) (offset size : Z)
| Alloc_dma_buffer (size : Z)
| Session_release_buffers
| Wait_release_done.

(** The buffers of one session: the live smem objects, the dma_buf references, the mapping
    cache ([dma_cache]), the lists and the counters of [struct msm_cvp_inst], and of
    [struct msm_cvp_core] the watermark, the clean-up work and the transaction counter. *)
Record bufs := mkBufs {
  b_smems : gmap Z msm_cvp_smem;
  b_refs : gmap Z Z;
  b_rbtree : rb_node;
  b_nr : Z;
  b_max_capacity : Z;
  b_persistbufs : list cvp_internal_buf;
  b_frames : list msm_cvp_frame;
  b_cvpwnccbufs : list cvp_internal_buf;
  b_cvpwnccbufs_num : Z;
  b_cvpwnccbufs_table : option (list msm_cvp_wncc_buffer);
  b_unused_wncc_bufs : cvp_frame_bufs;
  b_last_frame : cvp_frame_bufs;
  b_smem_count : Z;
  b_persist_usage : Z;
  b_frame_usage : Z;
  b_va_inst_watermark : Z;
  b_va_watermark : Z;
  b_cleanup_pending : bool;
  b_kernel_trans_id : Z;
  b_trigger_smmu_fault : bool;
  b_frame_count : Z;
  b_trace : list bcall
}.

#[global] Instance eta_smem : Eta msm_cvp_smem :=
  λ r, mkSmem (sm_refcount r) (sm_dma_buf r) (sm_kvaddr r) (sm_device_addr r) (sm_size r)
    (sm_cached r) (sm_flags r) (sm_pkt_type r) (sm_buf_idx r) (sm_fd r) (sm_mapped r).
#[global] Instance eta_ibuf : Eta cvp_internal_buf :=
  λ r, mkIbuf (ib_fd r) (ib_size r) (ib_offset r) (ib_type r) (ib_index r) (ib_ktid r)
    (ib_ownership r) (ib_smem r).
#[global] Instance eta_frame : Eta msm_cvp_frame :=
  λ r, mkFrame (fr_bufs r) (fr_ktid r) (fr_pkt_type r) (fr_stream_idx r).
#[global] Instance eta_fbufs : Eta cvp_frame_bufs :=
  λ r, mkFbufs (fb_ktid r) (fb_nr r) (fb_smem r).
#[global] Instance eta_bt : Eta cvp_buf_type :=
  λ r, mkBt (bt_fd r) (bt_size r) (bt_offset r) (bt_context_bank_id r).
#[global] Instance eta_bufs : Eta bufs :=
  λ r, mkBufs (b_smems r) (b_refs r) (b_rbtree r) (b_nr r) (b_max_capacity r)
    (b_persistbufs r) (b_frames r) (b_cvpwnccbufs r) (b_cvpwnccbufs_num r)
    (b_cvpwnccbufs_table r) (b_unused_wncc_bufs r) (b_last_frame r) (b_smem_count r)
    (b_persist_usage r) (b_frame_usage r) (b_va_inst_watermark r) (b_va_watermark r)
    (b_cleanup_pending r) (b_kernel_trans_id r) (b_trigger_smmu_fault r) (b_frame_count r)
    (b_trace r).

(** The red-black tree library: rebalancing after an insertion, and erasure. *)
Class RbTree := {
  rb_insert_color : Z → rb_node → rb_node;
  rb_erase : Z → rb_node → rb_node
}.

Class RbLaws (R : RbTree) := {
  rb_insert_color_inorder p t : inorder (rb_insert_color p t) = inorder t;
  rb_erase_inorder p t : inorder (rb_erase p t) = filter (λ q, q ≠ p) (inorder t)
}.

(** The kernel below the component, the platform data and the module parameters. *)
Class BufEnv := {
  b_answer : nat → bcall → Z;
  b_dma_buf_size : Z → Z;
  b_hfi_ver : Z;
  b_cvp_hfi_defs : hfi_table;
  b_context_banks : list (string * bool);
  is_iommu_present : bool;
  msm_cvp_cacheop_disabled : bool;
  msm_cvp_iova_leak_recovery : bool;
  ipcc_reg_base_iova : Z;
  ipcc_reg_size : Z
}.

Abbreviation B := (St bufs).

(** * Operations *)
Section operations.
Context `{BufEnv}.

Definition bext (c : bcall) : B Z :=
  n ← gets (λ s, length (b_trace s));
  modify (λ s, s <| b_trace ::= λ t, t ++ [c] |>) ;;
  mret (b_answer n c).

(** Access to an smem object through its address. *)
Definition smem_get (p : Z) : B msm_cvp_smem :=
  o ← gets (λ s, b_smems s !! p);
  match o with Some a => mret a | None => stuck end.

Definition smem_mod (p : Z) (f : msm_cvp_smem → msm_cvp_smem) : B unit :=
  a ← smem_get p; modify (λ s, s <| b_smems ::= <[p := f a]> |>).

Definition smem_kfree (p : Z) : B unit :=
  _ ← smem_get p; modify (λ s, s <| b_smems ::= delete p |>).

(** [cvp_kmem_cache_zalloc(&cvp_driver->smem_cache)]. *)
Definition smem_zalloc : B Z :=
  live ← gets (λ s, dom (b_smems s));
  p ← bext (Zalloc_smem live);
  whenS (negb (p =? 0)) (modify (λ s, s <| b_smems ::= <[p := smem_zero]> |>)) ;;
  mret p.

(** [atomic_inc], [atomic_dec_and_test] on the reference count. *)
Definition ref_inc (p : Z) : B unit := smem_mod p (λ a, a <| sm_refcount ::= Z.succ |>).
Definition ref_dec (p : Z) : B bool :=
  smem_mod p (λ a, a <| sm_refcount ::= Z.pred |>) ;;
  a ← smem_get p; mret (sm_refcount a =? 0).

Definition ref_of (d : Z) (m : gmap Z Z) : Z := default 0 (m !! d).

Definition msm_cvp_smem_get_dma_buf (fd : Z) : B Z :=
  d ← bext (Dma_buf_get fd);
  if d <=? 0 then mret 0
  else modify (λ s, s <| b_refs ::= λ m, <[d := ref_of d m + 1]> m |>) ;; mret d.

Definition msm_cvp_smem_put_dma_buf (d : Z) : B unit :=
  if d =? 0 then mret tt
  else
    n ← gets (λ s, ref_of d (b_refs s));
    if n <=? 0 then stuck
    else modify (λ s, s <| b_refs ::= λ m, <[d := n - 1]> m |>).

(** [PTR_ERR(p) ?: -ENOMEM] on a pointer that is an error or NULL. *)
Definition ptr_err_or_nomem (p : Z) : Z := if p =? 0 then - ENOMEM else p.

Fixpoint find_cb (search_str : string) (is_secure : bool) (l : list (string * bool)) :
    option string :=
  match l with
  | [] => None
  | (name, secure) :: l' =>
      if eqb secure is_secure && bool_decide (search_str = name) then Some name
      else find_cb search_str is_secure l'
  end.

Definition flag (flags f : Z) : bool := negb (Z.land flags f =? 0).

Definition msm_cvp_smem_get_context_bank (flags : Z) : option string :=
  let is_secure := flag flags SMEM_SECURE in
  let search_str :=
    (if flag flags SMEM_PIXEL then "eva_sec_pixel"
     else if flag flags SMEM_NON_PIXEL then "eva_sec_nonpixel"
     else if flag flags SMEM_CAMERA then "cvp_camera"
     else if flag flags SMEM_CDSP then "cvp_dsp" else "eva_hlos")%string in
  find_cb search_str is_secure b_context_banks.

(** Returns the error code and the device address, 0 when it was not written; on success
    with an IOMMU the mapping of smem [p] is filled in. *)
Definition msm_dma_get_device_address (p dbuf flags : Z) : B (Z * Z) :=
  if is_iommu_present then
    match msm_cvp_smem_get_context_bank flags with
    | None => mret (- EIO, 0)
    | Some cb =>
        attach ← bext (Dma_buf_attach dbuf cb);
        if attach <=? 0 then mret (ptr_err_or_nomem attach, 0)
        else
          table ← bext (Dma_buf_map attach);
          if table <=? 0 then
            _ ← bext (Dma_buf_detach dbuf); mret (ptr_err_or_nomem table, 0)
          else
            iova ← bext (Sgl_dma_address table);
            if iova <? 0 then
              _ ← bext (Dma_buf_unmap dbuf); _ ← bext (Dma_buf_detach dbuf);
              mret (- ENOMEM, 0)
            else smem_mod p (λ a, a <| sm_mapped := true |>) ;; mret (0, iova)
    end
  else mret (0, 0).

Definition msm_dma_put_device_address (p : Z) : B Z :=
  a ← smem_get p;
  if negb (sm_mapped a) then mret (- EINVAL)
  else
    _ ← bext (Dma_buf_unmap (sm_dma_buf a)); _ ← bext (Dma_buf_detach (sm_dma_buf a));
    smem_mod p (λ a, a <| sm_mapped := false |>) ;; mret 0.

(** Whether packets of this type have check sums, the debug option that maps a buffer into
    the kernel. *)
Definition checksum_enabled (pkt_type : Z) : B bool :=
  i ← of_outcome (get_pkt_index_from_type b_hfi_ver b_cvp_hfi_defs pkt_type);
  if i >? 0 then
    d ← of_outcome (table_at b_cvp_hfi_defs i); mret (def_checksum_enabled d)
  else mret false.

Definition msm_cvp_map_smem_helper (p : Z) : B Z :=
  a ← smem_get p;
  let dma_buf := sm_dma_buf a in
  '(rc, iova) ← msm_dma_get_device_address p dma_buf (sm_flags a);
  if negb (rc =? 0) then smem_mod p (λ a, a <| sm_device_addr := 0 |>) ;; mret rc
  else if negb (u32 iova =? iova) then
    smem_mod p (λ a, a <| sm_device_addr := 0 |>) ;; mret (- EINVAL)
  else
    smem_mod p (λ a, a <| sm_size := u32 (b_dma_buf_size dma_buf) |>
                       <| sm_device_addr := u32 iova |>) ;;
    ck ← checksum_enabled (sm_pkt_type a);
    whenS ck (
      _ ← bext (Begin_cpu_access dma_buf);
      v ← bext (Vmap dma_buf);
      smem_mod p (λ a, a <| sm_kvaddr := v |>) ;;
      whenS (v =? 0) (_ ← bext (End_cpu_access dma_buf); mret tt)) ;;
    mret 0.

(** [msm_cvp_bug_on(!msm_cvp_iova_leak_recovery, false)] stops the kernel. *)
Definition msm_cvp_map_smem (p : Z) : B Z :=
  rc ← msm_cvp_map_smem_helper p;
  (if rc =? 0 then modify (λ s, s <| b_smem_count ::= Z.succ |>)
   else if negb msm_cvp_iova_leak_recovery then stuck else mret tt) ;;
  mret rc.

Definition msm_cvp_unmap_smem_helper (p : Z) : B Z :=
  a ← smem_get p;
  ck ← checksum_enabled (sm_pkt_type a);
  whenS ck (
    if sm_kvaddr a =? 0 then _ ← bext (End_cpu_access (sm_dma_buf a)); mret tt
    else
      _ ← bext (Vunmap (sm_dma_buf a));
      smem_mod p (λ a, a <| sm_kvaddr := 0 |>) ;;
      _ ← bext (End_cpu_access (sm_dma_buf a)); mret tt) ;;
  rc ← msm_dma_put_device_address p;
  if negb (rc =? 0) then mret rc
  else smem_mod p (λ a, a <| sm_device_addr := 0 |>) ;; mret rc.

Definition msm_cvp_unmap_smem (p : Z) : B Z :=
  rc ← msm_cvp_unmap_smem_helper p;
  whenS (rc =? 0) (modify (λ s, s <| b_smem_count ::= Z.pred |>)) ;;
  mret rc.

(** ** Driver-owned memory: [msm_cvp_smem_alloc] and [msm_cvp_smem_free] *)

Definition align_page (size : Z) : Z := u64 (Z.land (u64 (size + (PAGE_SIZE - 1))) (Z.lnot (PAGE_SIZE - 1))).

Definition alloc_dma_mem (size : Z) (map_kernel : bool) (p : Z) : B Z :=
  let size := align_page size in
  dbuf ← bext (Alloc_dma_buffer size);
  if dbuf <=? 0 then mret (- ENOMEM)
  else
    modify (λ s, s <| b_refs ::= λ m, <[dbuf := ref_of dbuf m + 1]> m |>) ;;
    smem_mod p (λ a, a <| sm_size := u32 size |> <| sm_dma_buf := dbuf |> <| sm_kvaddr := 0 |>) ;;
    a ← smem_get p;
    '(rc, iova) ← msm_dma_get_device_address p dbuf (sm_flags a);
    if negb (rc =? 0) then msm_cvp_smem_put_dma_buf dbuf ;; mret rc
    else
      smem_mod p (λ a, a <| sm_device_addr := u32 iova |>) ;;
      if negb (u32 iova =? iova) then msm_cvp_smem_put_dma_buf dbuf ;; mret rc
      else if negb map_kernel then mret rc
      else
        _ ← bext (Begin_cpu_access dbuf);
        v ← bext (Vmap dbuf);
        smem_mod p (λ a, a <| sm_kvaddr := v |>) ;;
        if v =? 0 then
          _ ← bext (End_cpu_access dbuf);
          msm_cvp_smem_put_dma_buf dbuf ;; mret (- EIO)
        else mret rc.

Definition free_dma_mem (p : Z) : B Z :=
  a ← smem_get p;
  whenS (negb (sm_device_addr a =? 0)) (
    _ ← msm_dma_put_device_address p;
    smem_mod p (λ a, a <| sm_device_addr := 0 |>)) ;;
  whenS (negb (sm_kvaddr a =? 0)) (
    _ ← bext (Vunmap (sm_dma_buf a));
    smem_mod p (λ a, a <| sm_kvaddr := 0 |>) ;;
    _ ← bext (End_cpu_access (sm_dma_buf a)); mret tt) ;;
  whenS (negb (sm_dma_buf a =? 0)) (
    msm_cvp_smem_put_dma_buf (sm_dma_buf a) ;;
    smem_mod p (λ a, a <| sm_dma_buf := 0 |>)) ;;
  mret 0.

Definition msm_cvp_smem_alloc (size : Z) (map_kernel : bool) (p : Z) : B Z :=
  if (p =? 0) || (size =? 0) then mret (- EINVAL) else alloc_dma_mem size map_kernel p.

Definition msm_cvp_smem_free (p : Z) : B Z :=
  if p =? 0 then mret (- EINVAL) else free_dma_mem p.

(** ** Cache maintenance on a mapped buffer *)

Definition msm_cvp_smem_cache_operations (dbuf : Z) (op : smem_cache_ops) (offset size : Z) :
    B Z :=
  if dbuf =? 0 then mret (- EINVAL) else bext (Cache_op dbuf op offset size).

Definition cache_op_of (type : Z) : smem_cache_ops :=
  if type =? EVA_KMD_BUFTYPE_INPUT then SMEM_CACHE_CLEAN
  else if type =? EVA_KMD_BUFTYPE_OUTPUT then SMEM_CACHE_INVALIDATE
  else SMEM_CACHE_CLEAN_INVALIDATE.

Definition msm_cvp_cache_operations (p type offset size : Z) : B unit :=
  if msm_cvp_cacheop_disabled then mret tt
  else if p =? 0 then mret tt
  else
    a ← smem_get p;
    _ ← msm_cvp_smem_cache_operations (sm_dma_buf a) (cache_op_of type) offset size;
    mret tt.

(** ** The mapping cache of a session *)

(** [IS_CVP_BUF_VALID(buf, smem)], in 32-bit arithmetic. *)
Definition IS_CVP_BUF_VALID (buf : cvp_buf_type) (a : msm_cvp_smem) : bool :=
  (bt_size buf <=? sm_size a) && (bt_size buf <=? u32_sub (sm_size a) (bt_offset buf)).

Definition is_params_pkt (pkt_type : Z) : bool := false.

Definition msm_cvp_get_cb (flags : Z) : Z :=
  if flags =? Z.lor SMEM_SECURE SMEM_PIXEL then CP_CB_3
  else if flags =? Z.lor SMEM_SECURE SMEM_NON_PIXEL then CP_CB_4
  else if flags =? Z.lor SMEM_SECURE SMEM_CAMERA then CP_CB_7
  else CP_CB_0.

(** The descent of [find_smem_rb_node]. *)
Fixpoint find_node (m : gmap Z msm_cvp_smem) (dma_buf : Z) (t : rb_node) :
    outcome (option Z) :=
  match t with
  | rb_null => Done None
  | rb_at l p r =>
      match m !! p with
      | None => Fault
      | Some data =>
          if dma_buf <? sm_dma_buf data then find_node m dma_buf l
          else if dma_buf >? sm_dma_buf data then find_node m dma_buf r
          else Done (Some p)
      end
  end.

Definition find_smem_rb_node (dma_buf : Z) : B (option Z) :=
  o ← gets (λ s, find_node (b_smems s) dma_buf (b_rbtree s)); of_outcome o.

(** The first entry of a buffer list with this dma_buf. *)
Fixpoint find_dma (m : gmap Z msm_cvp_smem) (dma_buf : Z) (l : list cvp_internal_buf) :
    outcome (option Z) :=
  match l with
  | [] => Done None
  | b :: l' =>
      if ib_smem b =? 0 then find_dma m dma_buf l'
      else
        match m !! ib_smem b with
        | None => Fault
        | Some a =>
            if sm_dma_buf a =? dma_buf then Done (Some (ib_smem b)) else find_dma m dma_buf l'
        end
  end.

(** The entries the search of the frame list goes through, frame after frame. *)
Definition frame_bufs (l : list msm_cvp_frame) : list cvp_internal_buf := l ≫= fr_bufs.

Definition msm_cvp_session_find_smem (dma_buf pkt_type : Z) : B (option Z) :=
  o ← find_smem_rb_node dma_buf;
  match o with
  | Some p =>
      smem_mod p (λ a, a <| sm_pkt_type := pkt_type |> <| sm_cached := true |>) ;;
      ref_inc p ;;
      a ← smem_get p;
      msm_cvp_smem_put_dma_buf (sm_dma_buf a) ;;
      mret (Some p)
  | None =>
      r ← gets (λ s, find_dma (b_smems s) dma_buf (b_persistbufs s));
      o ← of_outcome r;
      match o with
      | Some p => ref_inc p ;; mret (Some p)
      | None =>
          r ← gets (λ s, find_dma (b_smems s) dma_buf (frame_bufs (b_frames s)));
          o ← of_outcome r;
          match o with
          | Some p => ref_inc p ;; mret (Some p)
          | None => mret None
          end
      end
  end.

Context `{RbTree}.

Definition va_sub (size : Z) : B unit :=
  modify (λ s, s <| b_va_inst_watermark ::= λ v, s32 (v - size) |>
                 <| b_va_watermark ::= λ v, s32 (v - size) |>).

(** The body of the loop of [msm_cvp_free_unused_mapping] on one node; says whether a
    mapping was freed. *)
Definition free_if_unused (p : Z) : B Z :=
  a ← smem_get p;
  if sm_refcount a =? 0 then
    modify (λ s, s <| b_rbtree ::= rb_erase p |>) ;;
    rc ← msm_cvp_unmap_smem p;
    whenS (rc =? 0) (msm_cvp_smem_put_dma_buf (sm_dma_buf a) ;; va_sub (sm_size a)) ;;
    smem_kfree p ;;
    modify (λ s, s <| b_nr ::= Z.pred |>) ;;
    mret 1
  else mret 0.

(** [rb_next] is taken before a node is erased, so the loop visits the nodes of the tree it
    started from, in order. *)
Fixpoint free_unused_in (l : list Z) (num_freed_mappings : Z) : B Z :=
  match l with
  | [] => mret num_freed_mappings
  | p :: l' => n ← free_if_unused p; free_unused_in l' (num_freed_mappings + n)
  end.

Definition msm_cvp_free_unused_mapping : B Z :=
  l ← gets (λ s, inorder (b_rbtree s)); free_unused_in l 0.

(** The insertion point: [smem] becomes a leaf below the last node of the descent. *)
Fixpoint link_node (m : gmap Z msm_cvp_smem) (dma_buf smem : Z) (t : rb_node) :
    outcome rb_node :=
  match t with
  | rb_null => Done (rb_at rb_null smem rb_null)
  | rb_at l p r =>
      match m !! p with
      | None => Fault
      | Some smem2 =>
          if dma_buf <? sm_dma_buf smem2
          then let! l' := link_node m dma_buf smem l in Done (rb_at l' p r)
          else let! r' := link_node m dma_buf smem r in Done (rb_at l p r')
      end
  end.

Definition msm_cvp_add_smem_rb_node (p : Z) : B unit :=
  a ← smem_get p;
  o ← gets (λ s, link_node (b_smems s) (sm_dma_buf a) p (b_rbtree s));
  t ← of_outcome o;
  smem_mod p (λ a, a <| sm_cached := true |>) ;;
  modify (λ s, s <| b_rbtree := rb_insert_color p t |> <| b_nr ::= Z.succ |>) ;;
  modify (λ s, s <| b_va_inst_watermark ::= λ v, s32 (v + sm_size a) |>
                 <| b_va_watermark ::= λ v, s32 (v + sm_size a) |>).

Definition msm_cvp_session_add_smem (p : Z) : B Z :=
  nr ← gets b_nr; cap ← gets b_max_capacity;
  full ← (if nr <? cap then msm_cvp_add_smem_rb_node p ;; mret false
          else
            freed_mappings ← msm_cvp_free_unused_mapping;
            modify (λ s, s <| b_max_capacity ::= λ c, if c <? 256 then 256 else c |>) ;;
            if freed_mappings =? 0 then mret true
            else msm_cvp_add_smem_rb_node p ;; mret false);
  ref_inc p ;;
  if full : bool then mret (- ENOMEM)
  else
    va ← gets b_va_watermark;
    whenS (va >? IOVA_THRESHOLD) (modify (λ s, s <| b_cleanup_pending := true |>)) ;;
    mret 0.

(** [exit2] and [exit] of [msm_cvp_session_get_smem]: both give the buffer up. *)
Definition get_smem_exit (p dma_buf : Z) : B Z :=
  msm_cvp_smem_put_dma_buf dma_buf ;; smem_kfree p ;; mret 0.

Definition get_smem_exit2 (p dma_buf : Z) : B Z :=
  rc ← msm_cvp_unmap_smem p;
  if negb (rc =? 0) then get_smem_exit p dma_buf
  else msm_cvp_smem_put_dma_buf dma_buf ;; smem_kfree p ;; mret 0.

(** The address of the smem of a buffer, or 0. *)
Definition msm_cvp_session_get_smem (buf : cvp_buf_type) (is_persist : bool) (pkt_type : Z) :
    B Z :=
  dma_buf ← msm_cvp_smem_get_dma_buf (bt_fd buf);
  if dma_buf =? 0 then mret 0
  else if is_persist then
    p ← smem_zalloc;
    if p =? 0 then mret 0
    else
      smem_mod p (λ a, a <| sm_dma_buf := dma_buf |> <| sm_pkt_type := pkt_type |>
                         <| sm_cached := false |> <| sm_flags ::= Z.lor SMEM_PERSIST |>
                         <| sm_fd := bt_fd buf |>) ;;
      ref_inc p ;;
      rc ← msm_cvp_map_smem p;
      if negb (rc =? 0) then get_smem_exit p dma_buf
      else
        a ← smem_get p;
        if negb (IS_CVP_BUF_VALID buf a) then get_smem_exit2 p dma_buf else mret p
  else
    o ← msm_cvp_session_find_smem dma_buf pkt_type;
    match o with
    | None =>
        p ← smem_zalloc;
        if p =? 0 then mret 0
        else
          smem_mod p (λ a, a <| sm_dma_buf := dma_buf |> <| sm_cached := false |>
                             <| sm_pkt_type := pkt_type |> <| sm_fd := bt_fd buf |>) ;;
          whenS (is_params_pkt pkt_type)
            (smem_mod p (λ a, a <| sm_flags ::= Z.lor SMEM_PERSIST |>)) ;;
          rc ← msm_cvp_map_smem p;
          if negb (rc =? 0) then get_smem_exit p dma_buf
          else
            a ← smem_get p;
            if negb (IS_CVP_BUF_VALID buf a) then get_smem_exit2 p dma_buf
            else
              rc ← msm_cvp_session_add_smem p;
              if negb (rc =? 0) && negb (rc =? - ENOMEM) then get_smem_exit2 p dma_buf
              else mret p
    | Some p =>
        a ← smem_get p;
        if negb (IS_CVP_BUF_VALID buf a) then _ ← ref_dec p; mret 0
        else mret p
    end.

End operations.
