(* ===== verification/Buffers.v ===== *)
(** The buffers of a session: frames, persistent buffers, Warp-NCC source buffers, and their
    release.

    Source: src/msm/eva/msm_cvp_buf.c on top of Smem.v, and [is_buf_param_valid] of
    msm_cvp.h.  A packet is the words of [struct eva_kmd_hfi_packet]: 600 words of data and
    the two words of [oob_buf], which [is_buf_param_valid] counts in.  Buffer descriptors
    are read from the packet and written back to it.  Debug dumps are left out. *)

From S2P Require Import Prelude Store HfiTypes HfiDefs Smem.
Open Scope Z_scope.

(** * Packets *)

Definition hfi_packet_words : Z := MAX_HFI_PKT_SIZE + 2.

(** [sizeof(struct cvp_buf_type) >> 2] and [sizeof(struct cvp_hfi_cmd_session_hdr) / 4]. *)
Definition buf_type_words : Z := 12.
Definition session_hdr_words : Z := 16.

(** [is_buf_param_valid]: [max_buf_num] is an [int] compared as unsigned; the other
    computations are in 64 bits. *)
Definition is_buf_param_valid (buf_num offset : Z) : bool :=
  let max_buf_num := (4 * hfi_packet_words) / (4 * buf_type_words) in
  if buf_num >? max_buf_num then false
  else if (offset >? (2 ^ 32 - 1) / 4)
          || (offset * 4 >? 2 ^ 32 - 1 - buf_num * (4 * buf_type_words)) then false
  else if offset * 4 + buf_num * (4 * buf_type_words) >? 4 * hfi_packet_words then false
  else true.

(** The descriptor at word [off]. *)
Definition get_buf (pkt : list Z) (off : Z) : outcome cvp_buf_type :=
  let! fd := word_at pkt off in
  let! size := word_at pkt (off + 1) in
  let! offset := word_at pkt (off + 2) in
  let! cb := word_at pkt (off + 11) in
  Done (mkBt fd size offset cb).

Definition put_buf (pkt : list Z) (off : Z) (b : cvp_buf_type) : outcome (list Z) :=
  let! pkt := words_write pkt off [bt_fd b; bt_size b] in
  words_write pkt (off + 11) [bt_context_bank_id b].

(** [kdata] is the 64-bit field at words 8 and 9. *)
Definition set_kdata (pkt : list Z) (ktid : Z) : outcome (list Z) :=
  words_write pkt 8 [u32 ktid; u32 (Z.shiftr ktid 32)].

(** * Operations *)
Section operations.
Context `{BufEnv} `{RbTree}.

(** [atomic64_inc_return(&core->kernel_trans_id) & (FENCE_BIT - 1)]. *)
Definition next_trans_id : B Z :=
  modify (λ s, s <| b_kernel_trans_id ::= λ k, u64 (k + 1) |>) ;;
  k ← gets b_kernel_trans_id; mret (Z.land k (FENCE_BIT - 1)).

(** ** Frames *)

(** [is_mapped_persist_buf]: the device address when there is such a buffer. *)
Fixpoint find_persist (m : gmap Z msm_cvp_smem) (fd size : Z) (l : list cvp_internal_buf) :
    outcome (option Z) :=
  match l with
  | [] => Done None
  | b :: l' =>
      if (u32 (ib_fd b) =? fd) && (ib_size b =? size) then
        match m !! ib_smem b with
        | None => Fault
        | Some a => Done (Some (sm_device_addr a))
        end
      else find_persist m fd size l'
  end.

Definition is_mapped_persist_buf (fd size : Z) : B (option Z) :=
  o ← gets (λ s, find_persist (b_smems s) fd size (b_persistbufs s)); of_outcome o.

(** The debug switch that makes the device fault on every 200th buffer. *)
Definition smmu_fault_iova (iova : Z) : B Z :=
  t ← gets b_trigger_smmu_fault;
  if negb t then mret iova
  else
    modify (λ s, s <| b_frame_count ::= λ n, u32 (n + 1) |>) ;;
    n ← gets b_frame_count;
    if n mod 200 =? 0 then
      let iova := u32_sub iova 0x1000000 in
      let iova :=
        if (iova >=? ipcc_reg_base_iova) && (iova <=? u32_add ipcc_reg_base_iova ipcc_reg_size)
        then u32_add iova (u32_mul ipcc_reg_size 2) else iova in
      modify (λ s, s <| b_frame_count := 0 |> <| b_trigger_smmu_fault := false |>) ;;
      mret iova
    else mret iova.

(** The device address (0 on failure), the frame with the buffer added and the descriptor
    with its context bank. *)
Definition msm_cvp_map_frame_buf (buf : cvp_buf_type) (frame : msm_cvp_frame)
    (pkt_type buf_idx : Z) : B (Z * msm_cvp_frame * cvp_buf_type) :=
  if Z.of_nat (length (fr_bufs frame)) =? MAX_FRAME_BUFFER_NUMS then mret (0, frame, buf)
  else
    p ← msm_cvp_session_get_smem buf false pkt_type;
    if p =? 0 then mret (0, frame, buf)
    else
      a ← smem_get p;
      let buf := buf <| bt_context_bank_id := msm_cvp_get_cb (sm_flags a) |> in
      smem_mod p (λ a, a <| sm_buf_idx := buf_idx |>) ;;
      let frame := frame <| fr_bufs ::= λ l,
        l ++ [mkIbuf (bt_fd buf) (bt_size buf) (bt_offset buf) 0 0 0 DRIVER p] |> in
      modify (λ s, s <| b_frame_usage ::= λ v, s32 (v + bt_size buf) |>) ;;
      msm_cvp_cache_operations p (Z.lor EVA_KMD_BUFTYPE_INPUT EVA_KMD_BUFTYPE_OUTPUT)
        (bt_offset buf) (bt_size buf) ;;
      a ← smem_get p;
      iova ← smmu_fault_iova (u32_add (sm_device_addr a) (bt_offset buf));
      mret (iova, frame, buf).

(** One buffer of a frame that is given up. *)
Definition unmap_one (b : cvp_internal_buf) : B unit :=
  let p := ib_smem b in
  msm_cvp_cache_operations p EVA_KMD_BUFTYPE_OUTPUT (ib_offset b) (ib_size b) ;;
  if p =? 0 then mret tt
  else
    a ← smem_get p;
    (if sm_cached a then
       z ← ref_dec p;
       whenS z (smem_mod p (λ a, a <| sm_buf_idx ::= Z.lor 0x10000000 |>))
     else
       z ← ref_dec p;
       whenS z (
         rc ← msm_cvp_unmap_smem p;
         whenS (rc =? 0) (msm_cvp_smem_put_dma_buf (sm_dma_buf a)) ;;
         smem_mod p (λ a, a <| sm_buf_idx ::= Z.lor 0xdead0000 |>) ;;
         smem_kfree p)) ;;
    modify (λ s, s <| b_frame_usage ::= λ v, s32 (v - ib_size b) |>).

Definition msm_cvp_unmap_frame_buf (frame : msm_cvp_frame) : B unit :=
  each (fr_bufs frame) unmap_one.

(** The buffers are saved from the last one down; a cached one ends it. *)
Fixpoint backup_bufs (l : list cvp_internal_buf) (i : Z) : B unit :=
  match l with
  | [] => mret tt
  | b :: l' =>
      a ← smem_get (ib_smem b);
      if sm_cached a then modify (λ s, s <| b_last_frame ::= λ f, f <| fb_nr := 0 |> |>)
      else
        modify (λ s, s <| b_last_frame ::= λ f, f <| fb_smem ::= <[i := a]> |> |>) ;;
        backup_bufs l' (i - 1)
  end.

Definition backup_frame_buffers (frame : msm_cvp_frame) : B unit :=
  let i := Z.of_nat (length (fr_bufs frame)) in
  if (i =? 0) || (i >? MAX_FRAME_BUFFER_NUMS) then mret tt
  else
    modify (λ s, s <| b_last_frame ::= λ f, f <| fb_ktid := fr_ktid frame |> <| fb_nr := i |> |>) ;;
    backup_bufs (rev (fr_bufs frame)) (i - 1).

(** The first frame with this transaction id, and the list without it. *)
Fixpoint take_frame (ktid : Z) (l : list msm_cvp_frame) :
    option (msm_cvp_frame * list msm_cvp_frame) :=
  match l with
  | [] => None
  | f :: l' =>
      if fr_ktid f =? ktid then Some (f, l')
      else match take_frame ktid l' with Some (g, r) => Some (g, f :: r) | None => None end
  end.

Definition msm_cvp_unmap_frame (ktid : Z) : B unit :=
  let ktid := Z.land ktid (FENCE_BIT - 1) in
  l ← gets b_frames;
  match take_frame ktid l with
  | None => mret tt
  | Some (frame, rest) =>
      modify (λ s, s <| b_frames := rest |>) ;;
      backup_frame_buffers frame ;;
      msm_cvp_unmap_frame_buf frame
  end.

(** The loop of [msm_cvp_map_frame] over the descriptors: [None] when a buffer could not be
    mapped, after the frame has been given up. *)
Fixpoint map_frame_bufs (n : nat) (i : Z) (pkt : list Z) (offset : Z) (frame : msm_cvp_frame) :
    B (option msm_cvp_frame * list Z) :=
  match n with
  | O => mret (Some frame, pkt)
  | S n' =>
      buf ← of_outcome (get_buf pkt offset);
      if bt_size buf =? 0 then
        pkt ← of_outcome (put_buf pkt offset (buf <| bt_fd := 0 |> <| bt_size := 0 |>));
        map_frame_bufs n' (i + 1) pkt (offset + buf_type_words) frame
      else
        config ← of_outcome (is_config_pkt b_hfi_ver b_cvp_hfi_defs (fr_pkt_type frame));
        mapped ← (if config : bool then is_mapped_persist_buf (bt_fd buf) (bt_size buf)
                  else mret None);
        match mapped with
        | Some iova =>
            pkt ← of_outcome (put_buf pkt offset (buf <| bt_fd := iova |>));
            map_frame_bufs n' (i + 1) pkt (offset + buf_type_words) frame
        | None =>
            '(iova, frame, buf) ← msm_cvp_map_frame_buf buf frame (fr_pkt_type frame) i;
            if iova =? 0 then
              pkt ← of_outcome (put_buf pkt offset buf);
              msm_cvp_unmap_frame_buf frame ;; mret (None, pkt)
            else
              pkt ← of_outcome (put_buf pkt offset (buf <| bt_fd := iova |>));
              map_frame_bufs n' (i + 1) pkt (offset + buf_type_words) frame
        end
  end.

Definition msm_cvp_map_frame (pkt : list Z) (offset buf_num : Z) : B (Z * list Z) :=
  ktid ← next_trans_id;
  pkt ← of_outcome (set_kdata pkt ktid);
  if (offset =? 0) || (buf_num =? 0) then mret (0, pkt)
  else if offset <? session_hdr_words then mret (- EINVAL, pkt)
  else
    f ← bext Zalloc_frame;
    if f =? 0 then mret (- ENOMEM, pkt)
    else
      pkt_type ← of_outcome (word_at pkt 1);
      stream_idx ← of_outcome (word_at pkt 14);
      '(r, pkt) ← map_frame_bufs (Z.to_nat buf_num) 0 pkt offset
                    (mkFrame [] ktid pkt_type stream_idx);
      match r with
      | None => mret (- EINVAL, pkt)
      | Some frame => modify (λ s, s <| b_frames ::= λ l, l ++ [frame] |>) ;; mret (0, pkt)
      end.

(** ** Persistent buffers *)

Fixpoint find_pbuf (m : gmap Z msm_cvp_smem) (dma_buf : Z) (i : nat)
    (l : list cvp_internal_buf) : outcome (option nat) :=
  match l with
  | [] => Done None
  | b :: l' =>
      match m !! ib_smem b with
      | None => Fault
      | Some a => if dma_buf =? sm_dma_buf a then Done (Some i) else find_pbuf m dma_buf (S i) l'
      end
  end.

(** [dma_buf_put] of the reference the lookup took. *)
Definition dma_buf_put (d : Z) : B unit := msm_cvp_smem_put_dma_buf d.

(** The error code, the device address it writes and the descriptor. *)
Definition msm_cvp_map_user_persist_buf (buf : cvp_buf_type) (pkt_type buf_idx : Z) :
    B (Z * Z * cvp_buf_type) :=
  dma_buf ← msm_cvp_smem_get_dma_buf (bt_fd buf);
  if dma_buf =? 0 then mret (- EINVAL, 0, buf)
  else
    r ← gets (λ s, find_pbuf (b_smems s) dma_buf 0 (b_persistbufs s));
    o ← of_outcome r;
    pbufs ← gets b_persistbufs;
    match o ≫= λ i, (i,.) <$> pbufs !! i with
    | Some (i, pbuf) =>
        let size := if ib_size pbuf >=? bt_size buf then ib_size pbuf else bt_size buf in
        a ← smem_get (ib_smem pbuf);
        modify (λ s, s <| b_persistbufs ::= <[i := pbuf <| ib_size := size |>]> |>
                       <| b_persist_usage ::= λ v, s32 (s32 (v - ib_size pbuf) + size) |>) ;;
        ref_inc (ib_smem pbuf) ;;
        dma_buf_put dma_buf ;;
        mret (0, u32_add (sm_device_addr a) (bt_offset buf), buf)
    | None =>
        dma_buf_put dma_buf ;;
        n ← bext Zalloc_buf;
        if n =? 0 then mret (- ENOMEM, 0, buf)
        else
          p ← msm_cvp_session_get_smem buf (negb (is_params_pkt pkt_type)) pkt_type;
          if p =? 0 then mret (- ENOMEM, 0, buf)
          else
            a ← smem_get p;
            let buf := buf <| bt_context_bank_id := msm_cvp_get_cb (sm_flags a) |> in
            smem_mod p (λ a, a <| sm_pkt_type := pkt_type |> <| sm_buf_idx := buf_idx |>
                               <| sm_fd := bt_fd buf |>) ;;
            modify (λ s, s
              <| b_persist_usage ::= λ v, s32 (v + bt_size buf) |>
              <| b_persistbufs ::= λ l,
                 l ++ [mkIbuf (bt_fd buf) (bt_size buf) (bt_offset buf) 0 0 0 CLIENT p] |>) ;;
            mret (0, u32_add (sm_device_addr a) (bt_offset buf), buf)
    end.

(** [fd_arr] has an element for every descriptor. *)
Fixpoint map_persist_bufs (n : nat) (i : Z) (pkt : list Z) (offset pkt_type : Z)
    (fd_arr : list Z) : B (Z * list Z * list Z) :=
  match n with
  | O => mret (0, pkt, fd_arr)
  | S n' =>
      buf ← of_outcome (get_buf pkt offset);
      if bt_size buf =? 0 then
        map_persist_bufs n' (i + 1) pkt (offset + buf_type_words) pkt_type fd_arr
      else
        '(ret, iova, buf) ← msm_cvp_map_user_persist_buf buf pkt_type i;
        if negb (ret =? 0) then
          pkt ← of_outcome (put_buf pkt offset buf); mret (ret, pkt, fd_arr)
        else
          fd_arr ← of_outcome (words_write fd_arr i [bt_fd buf]);
          pkt ← of_outcome (put_buf pkt offset (buf <| bt_fd := iova |>));
          map_persist_bufs n' (i + 1) pkt (offset + buf_type_words) pkt_type fd_arr
  end.

Definition msm_cvp_map_user_persist (pkt : list Z) (offset buf_num : Z) (fd_arr : list Z) :
    B (Z * list Z * list Z) :=
  if (offset =? 0) || (buf_num =? 0) then mret (0, pkt, fd_arr)
  else if offset <? session_hdr_words then mret (- EINVAL, pkt, fd_arr)
  else
    ktid ← next_trans_id;
    pkt ← of_outcome (set_kdata pkt ktid);
    pkt_type ← of_outcome (word_at pkt 1);
    map_persist_bufs (Z.to_nat buf_num) 0 pkt offset pkt_type fd_arr.

(** The request is not supported any more: the code after the first return is dead. *)
Definition msm_cvp_unmap_user_persist (pkt : list Z) (offset buf_num : Z) : B Z :=
  mret (- EINVAL).

(** ** Buffers a client registers *)

(** Of [struct eva_kmd_buffer], what is read or written: [kb_reserved0] is the id of a
    Warp-NCC source buffer. *)
Record eva_kmd_buffer := mkKbuf {
  kb_index : Z;
  kb_type : Z;
  kb_fd : Z;
  kb_size : Z;
  kb_offset : Z;
  kb_reserved0 : Z
}.

(** [session] tells whether [inst->session] is set. *)
Definition msm_cvp_map_feature_persist (session : bool) (buf : eva_kmd_buffer) : B Z :=
  if negb session || negb (kb_index buf =? 0) then mret (- EINVAL)
  else
    mapped ← is_mapped_persist_buf (kb_fd buf) (kb_size buf);
    match mapped with
    | Some _ => mret 0
    | None =>
        n ← bext Zalloc_buf;
        if n =? 0 then mret (- ENOMEM)
        else
          p ← msm_cvp_session_get_smem (mkBt (kb_fd buf) (kb_size buf) 0 0) true 0;
          if p =? 0 then mret (- ENOMEM)
          else
            smem_mod p (λ a, a <| sm_pkt_type := 0 |> <| sm_fd := kb_fd buf |>) ;;
            modify (λ s, s <| b_persistbufs ::= λ l,
              l ++ [mkIbuf (kb_fd buf) (kb_size buf) 0 (kb_type buf) 0 0 CLIENT p] |>) ;;
            mret 0
    end.

(** The loop of [msm_cvp_unmap_feature_persist]: [kept] is what it has passed. *)
Fixpoint free_feature_persist (fd size : Z) (kept l : list cvp_internal_buf) : B Z :=
  match l with
  | [] => mret 0
  | b :: l' =>
      if ib_smem b =? 0 then mret (- EINVAL)
      else if (ib_type b =? EVA_KMD_BUFTYPE_INTERNAL_1) && (u32 (ib_fd b) =? fd)
              && (ib_size b =? size) then
        modify (λ s, s <| b_persistbufs := kept ++ l' |>) ;;
        _ ← ref_dec (ib_smem b);
        modify (λ s, s <| b_smem_count ::= Z.pred |>) ;;
        _ ← msm_cvp_smem_free (ib_smem b);
        smem_kfree (ib_smem b) ;;
        mret 0
      else free_feature_persist fd size (kept ++ [b]) l'
  end.

Definition msm_cvp_unmap_feature_persist (session : bool) (buf : eva_kmd_buffer) : B Z :=
  if negb session || negb (kb_index buf =? 0) then mret (- EINVAL)
  else
    mapped ← is_mapped_persist_buf (kb_fd buf) (kb_size buf);
    match mapped with
    | None => mret 0
    | Some _ =>
        l ← gets b_persistbufs; free_feature_persist (kb_fd buf) (kb_size buf) [] l
    end.

(** *** Warp-NCC source buffers *)

(** The first free slot of the table. *)
Fixpoint free_slot (i : nat) (t : list msm_cvp_wncc_buffer) : option nat :=
  match t with
  | [] => None
  | b :: t' => if wb_iova b =? 0 then Some i else free_slot (S i) t'
  end.

Fixpoint find_fd (fd : Z) (l : list cvp_internal_buf) : option cvp_internal_buf :=
  match l with
  | [] => None
  | b :: l' => if u32 (ib_fd b) =? fd then Some b else find_fd fd l'
  end.

Fixpoint del_fd (fd : Z) (l : list cvp_internal_buf) : list cvp_internal_buf :=
  match l with
  | [] => []
  | b :: l' => if u32 (ib_fd b) =? fd then l' else b :: del_fd fd l'
  end.

(** The label [exit] of [msm_cvp_map_buf_wncc]. *)
Definition map_wncc_exit (p rc : Z) : B Z :=
  a ← smem_get p;
  rc ← (if sm_device_addr a =? 0 then mret rc
        else
          rc ← msm_cvp_unmap_smem p;
          whenS (rc =? 0) (msm_cvp_smem_put_dma_buf (sm_dma_buf a)) ;; mret rc);
  smem_kfree p ;; mret rc.

(** The error code, and the buffer id it gives the client. *)
Definition msm_cvp_map_buf_wncc (session : bool) (buf : eva_kmd_buffer) : B (Z * Z) :=
  if negb session || negb (kb_index buf =? 0) || negb (kb_offset buf =? 0)
  then mret (- EINVAL, kb_reserved0 buf)
  else
    l ← gets b_cvpwnccbufs;
    match find_fd (kb_fd buf) l with
    | Some _ => mret (- EINVAL, kb_reserved0 buf)
    | None =>
        dma_buf ← msm_cvp_smem_get_dma_buf (kb_fd buf);
        if dma_buf =? 0 then mret (- EINVAL, kb_reserved0 buf)
        else
          n ← bext Zalloc_buf;
          if n =? 0 then
            msm_cvp_smem_put_dma_buf dma_buf ;; mret (- ENOMEM, kb_reserved0 buf)
          else
            p ← smem_zalloc;
            if p =? 0 then
              msm_cvp_smem_put_dma_buf dma_buf ;; mret (- ENOMEM, kb_reserved0 buf)
            else
              smem_mod p (λ a, a <| sm_dma_buf := dma_buf |> <| sm_cached := false |>
                                 <| sm_pkt_type := 0 |> <| sm_buf_idx := 0 |>
                                 <| sm_fd := kb_fd buf |>) ;;
              rc ← msm_cvp_map_smem p;
              if negb (rc =? 0) then
                rc ← map_wncc_exit p rc; mret (rc, kb_reserved0 buf)
              else
                t ← gets b_cvpwnccbufs_table;
                t ← (match t with
                     | Some t => mret (Some t)
                     | None =>
                         m ← bext Kzalloc_wncc_table;
                         if m =? 0 then mret None
                         else
                           let t := replicate (Z.to_nat EVA_KMD_WNCC_MAX_SRC_BUFS)
                                      (mkWncc 0 0 0) in
                           modify (λ s, s <| b_cvpwnccbufs_table := Some t |>) ;;
                           mret (Some t)
                     end);
                match t with
                | None => rc ← map_wncc_exit p rc; mret (rc, kb_reserved0 buf)
                | Some t =>
                    match free_slot 0 t with
                    | None => rc ← map_wncc_exit p (- EDQUOT); mret (rc, kb_reserved0 buf)
                    | Some i =>
                        a ← smem_get p;
                        let id := Z.of_nat i + EVA_KMD_WNCC_SRC_BUF_ID_OFFSET in
                        modify (λ s, s
                          <| b_cvpwnccbufs ::= λ l,
                             l ++ [mkIbuf (kb_fd buf) (kb_size buf) (kb_offset buf) 0
                                     (kb_index buf) id CLIENT p] |>
                          <| b_cvpwnccbufs_num ::= λ n, u32 (n + 1) |>
                          <| b_cvpwnccbufs_table :=
                             Some (<[i := mkWncc (kb_fd buf) (sm_device_addr a) (sm_size a)]> t) |>) ;;
                        mret (rc, id)
                    end
                end
    end.

(** The record of a buffer that is given up, in a ring of [NUM_WNCC_BUFS]. *)
Definition save_unused_wncc (a : msm_cvp_smem) : B unit :=
  modify (λ s, s <| b_unused_wncc_bufs ::= λ f,
    f <| fb_smem ::= <[fb_ktid f := a]> |>
      <| fb_nr ::= λ n, if u32 (n + 1) >? NUM_WNCC_BUFS then NUM_WNCC_BUFS else u32 (n + 1) |>
      <| fb_ktid ::= λ idx, (idx + 1) mod NUM_WNCC_BUFS |> |>).

Definition msm_cvp_unmap_buf_wncc (session : bool) (buf : eva_kmd_buffer) : B Z :=
  if negb session || negb (kb_index buf =? 0) then mret (- EINVAL)
  else
    let buf_id := kb_reserved0 buf in
    if (buf_id <? EVA_KMD_WNCC_SRC_BUF_ID_OFFSET)
       || (buf_id >=? EVA_KMD_WNCC_MAX_SRC_BUFS + EVA_KMD_WNCC_SRC_BUF_ID_OFFSET)
    then mret (- EINVAL)
    else
      num ← gets b_cvpwnccbufs_num;
      if num =? 0 then mret (- EINVAL)
      else
        let buf_idx := Z.to_nat (buf_id - EVA_KMD_WNCC_SRC_BUF_ID_OFFSET) in
        table ← gets b_cvpwnccbufs_table;
        match table ≫= (.!! buf_idx) with
        | None => stuck
        | Some wb =>
            if wb_iova wb =? 0 then mret (- EINVAL)
            else
              l ← gets b_cvpwnccbufs;
              match find_fd (wb_fd wb) l with
              | None => mret (- EINVAL)
              | Some cbuf =>
                  let p := ib_smem cbuf in
                  a ← smem_get p;
                  rc ← (if sm_device_addr a =? 0 then mret 0
                        else
                          save_unused_wncc a ;;
                          rc ← msm_cvp_unmap_smem p;
                          whenS (rc =? 0) (msm_cvp_smem_put_dma_buf (sm_dma_buf a)) ;;
                          mret rc);
                  modify (λ s, s
                    <| b_cvpwnccbufs ::= del_fd (wb_fd wb) |>
                    <| b_cvpwnccbufs_table ::= fmap (<[buf_idx := mkWncc 0 0 0]>) |>
                    <| b_cvpwnccbufs_num ::= λ n, u32 (n - 1) |>) ;;
                  num ← gets b_cvpwnccbufs_num;
                  whenS (num =? 0) (modify (λ s, s <| b_cvpwnccbufs_table := None |>)) ;;
                  smem_kfree p ;;
                  mret rc
              end
        end.

(** [msm_cvp_register_buffer] and [msm_cvp_unregister_buffer] for an instance that
    validates; a buffer with an index goes to the DSP part of the driver. *)
Definition msm_cvp_register_buffer (map_buf_dsp : eva_kmd_buffer → B (Z * Z))
    (session : bool) (buf : eva_kmd_buffer) : B (Z * Z) :=
  if negb session then mret (- EINVAL, kb_reserved0 buf)
  else if negb (kb_index buf =? 0) then map_buf_dsp buf
  else if kb_type buf =? EVA_KMD_BUFTYPE_INTERNAL_1 then
    rc ← msm_cvp_map_feature_persist session buf; mret (rc, kb_reserved0 buf)
  else msm_cvp_map_buf_wncc session buf.

Definition msm_cvp_unregister_buffer (unmap_buf_dsp : eva_kmd_buffer → B Z)
    (session : bool) (buf : eva_kmd_buffer) : B Z :=
  if negb (kb_index buf =? 0) then unmap_buf_dsp buf
  else if kb_type buf =? EVA_KMD_BUFTYPE_INTERNAL_1
  then msm_cvp_unmap_feature_persist session buf
  else msm_cvp_unmap_buf_wncc session buf.

(** ** Driver-owned persistent buffers *)

(** [HFI_BUFFER_INTERNAL_PERSIST_1]: [HFI_COMMON_BASE + 5]. *)
Definition HFI_BUFFER_INTERNAL_PERSIST_1 : Z := 0x5.

(** Whether a buffer was added to the list. *)
Definition cvp_allocate_arp_bufs (buffer_size : Z) : B bool :=
  if buffer_size =? 0 then mret false
  else
    n ← bext Zalloc_buf;
    if n =? 0 then mret false
    else
      p ← smem_zalloc;
      if p =? 0 then mret false
      else
        smem_mod p (λ a, a <| sm_flags := SMEM_UNCACHED |>) ;;
        rc ← msm_cvp_smem_alloc buffer_size false p;
        if negb (rc =? 0) then smem_kfree p ;; mret false
        else
          smem_mod p (λ a, a <| sm_pkt_type := 0 |> <| sm_buf_idx := 0 |>) ;;
          ref_inc p ;;
          a ← smem_get p;
          modify (λ s, s
            <| b_persist_usage ::= λ v, s32 (v + sm_size a) |>
            <| b_persistbufs ::= λ l,
               l ++ [mkIbuf 0 (sm_size a) 0 HFI_BUFFER_INTERNAL_PERSIST_1 0 0 DRIVER p] |>) ;;
          mret true.

Fixpoint release_arp (kept l : list cvp_internal_buf) (rc : Z) : B Z :=
  match l with
  | [] => mret rc
  | b :: l' =>
      if ib_smem b =? 0 then mret (- EINVAL)
      else if bool_decide (ib_ownership b = DRIVER) then
        modify (λ s, s <| b_persist_usage ::= λ v, s32 (v - ib_size b) |>
                       <| b_persistbufs := kept ++ l' |>) ;;
        _ ← ref_dec (ib_smem b);
        _ ← msm_cvp_smem_free (ib_smem b);
        smem_kfree (ib_smem b) ;;
        release_arp kept l' rc
      else release_arp (kept ++ [b]) l' rc
  end.

(** [live] says whether [inst->state] is after [MSM_CVP_CORE_INIT_DONE] and not after
    [MSM_CVP_CLOSE_DONE]: only then is the firmware told. *)
Definition cvp_release_arp_buffers (live : bool) : B Z :=
  rc ← (if live then
          rc ← bext Session_release_buffers;
          if rc =? 0 then bext Wait_release_done else mret rc
        else mret 0);
  l ← gets b_persistbufs;
  release_arp [] l rc.

(** ** The end of a session: [msm_cvp_session_deinit_buffers] *)

Definition deinit_frames : B unit :=
  l ← gets b_frames;
  each l (λ frame, modify (λ s, s <| b_frames ::= tail |>) ;; msm_cvp_unmap_frame_buf frame).

(** [None]: the early return. *)
Fixpoint deinit_persist (kept l : list cvp_internal_buf) (rc : Z) : B (option Z) :=
  match l with
  | [] => mret (Some rc)
  | b :: l' =>
      let p := ib_smem b in
      if p =? 0 then mret None
      else if bool_decide (ib_ownership b = DRIVER) then deinit_persist (kept ++ [b]) l' rc
      else
        modify (λ s, s <| b_persist_usage ::= λ v, s32 (v - ib_size b) |>
                       <| b_persistbufs := kept ++ l' |>) ;;
        a ← smem_get p;
        if sm_cached a then deinit_persist kept l' rc
        else
          rc ← (if sm_device_addr a =? 0 then mret rc
                else
                  rc ← msm_cvp_unmap_smem p;
                  whenS (rc =? 0) (msm_cvp_smem_put_dma_buf (sm_dma_buf a)) ;;
                  smem_mod p (λ a, a <| sm_device_addr := 0 |>) ;; mret rc);
          smem_kfree p ;;
          deinit_persist kept l' rc
  end.

(** [while (node && nr > 0)] on the first node of the cache; [fuel] bounds the nodes. *)
Fixpoint drain_cache (fuel : nat) (rc : Z) : B Z :=
  t ← gets (λ s, inorder (b_rbtree s)); nr ← gets b_nr;
  match t with
  | [] => mret rc
  | p :: _ =>
      if nr <=? 0 then mret rc
      else
        match fuel with
        | O => stuck
        | S fuel' =>
            a ← smem_get p;
            modify (λ s, s <| b_rbtree ::= rb_erase p |>) ;;
            rc ← msm_cvp_unmap_smem p;
            whenS (rc =? 0) (msm_cvp_smem_put_dma_buf (sm_dma_buf a) ;; va_sub (sm_size a)) ;;
            smem_kfree p ;;
            modify (λ s, s <| b_nr ::= Z.pred |>) ;;
            drain_cache fuel' rc
        end
  end.

(** [stack_index] is what the uninitialised field [index] of the local [buf] holds. *)
Definition deinit_wncc (session : bool) (stack_index : Z) : B unit :=
  l ← gets b_cvpwnccbufs;
  each l (λ cbuf,
    _ ← msm_cvp_unmap_buf_wncc session
          (mkKbuf stack_index 0 (u32 (ib_fd cbuf)) 0 0 (u32 (ib_ktid cbuf)));
    mret tt).

Definition msm_cvp_session_deinit_buffers (session : bool) (stack_index : Z) : B Z :=
  deinit_frames ;;
  l ← gets b_persistbufs;
  o ← deinit_persist [] l 0;
  match o with
  | None => mret (- EINVAL)
  | Some rc =>
      n ← gets (λ s, length (inorder (b_rbtree s)));
      rc ← drain_cache n rc;
      deinit_wncc session stack_index ;;
      mret rc
  end.

End operations.
