(* ===== verification/BufferView.v ===== *)
(** What the accounting of a session's buffers depends on, and how the operations of Smem.v
    change it.

    A [view] keeps of each smem object its dma_buf, whether it is cached and its reference
    count, of the tree its in-order sequence, and the lists.  [from v m Q] is the triple that
    starts from view [v]; most operations leave the view alone. *)

From S2P Require Import Prelude Store HfiTypes HfiDefs Smem Buffers.
Open Scope Z_scope.

Record aobj := mkA { a_dma : Z; a_cached : bool; a_cnt : Z }.

Definition abs_smem (a : msm_cvp_smem) : aobj :=
  mkA (sm_dma_buf a) (sm_cached a) (sm_refcount a).

Record view := mkV {
  v_heap : gmap Z aobj;
  v_refs : gmap Z Z;
  v_tree : list Z;
  v_nr : Z;
  v_cap : Z;
  v_frames : list msm_cvp_frame;
  v_persist : list cvp_internal_buf;
  v_wncc : list cvp_internal_buf;
  v_num : Z;
  v_table : option (list msm_cvp_wncc_buffer)
}.

#[global] Instance eta_view : Eta view :=
  λ r, mkV (v_heap r) (v_refs r) (v_tree r) (v_nr r) (v_cap r) (v_frames r) (v_persist r)
    (v_wncc r) (v_num r) (v_table r).

Definition view_of (s : bufs) : view :=
  mkV (abs_smem <$> b_smems s) (b_refs s) (inorder (b_rbtree s)) (b_nr s) (b_max_capacity s)
    (b_frames s) (b_persistbufs s) (b_cvpwnccbufs s) (b_cvpwnccbufs_num s)
    (b_cvpwnccbufs_table s).

Definition from {A} (v : view) (m : B A) (Q : A → view → Prop) : Prop :=
  total (λ s, view_of s = v) m (λ a s, Q a (view_of s)).

(** * Rules *)
Section rules.

Lemma from_ret {A} v (a : A) (Q : A → view → Prop) : Q a v → from v (mret a) Q.
Proof. intros HQ. apply total_ret. by intros s ->. Qed.

Lemma from_bind {A C} v (m : B A) (f : A → B C) R Q :
  from v m R → (∀ a v', R a v' → from v' (f a) Q) → from v (m ≫= f) Q.
Proof.
  intros Hm Hf. eapply total_bind; [exact Hm|]. intros a s Hs. by apply (Hf a _ Hs s).
Qed.

(** A step that keeps the view. *)
Definition keeps {A} (v : view) (m : B A) : Prop := from v m (λ _ v', v' = v).

Lemma from_keeps {A C} v (m : B A) (f : A → B C) Q :
  keeps v m → (∀ a, from v (f a) Q) → from v (m ≫= f) Q.
Proof. intros Hm Hf. eapply (from_bind _ _ _ (λ _ v', v' = v)); [exact Hm|]. by intros a ? ->. Qed.

Lemma keeps_bind {A C} v (m : B A) (f : A → B C) :
  keeps v m → (∀ a, keeps v (f a)) → keeps v (m ≫= f).
Proof. apply from_keeps. Qed.

Lemma keeps_ret {A} v (a : A) : keeps v (mret a).
Proof. by apply from_ret. Qed.

Lemma keeps_modify v f : (∀ s, view_of (f s) = view_of s) → keeps v (modify f).
Proof. intros Hf. apply total_modify. intros s <-. apply Hf. Qed.

Lemma keeps_whenS v b m : (b = true → keeps v m) → keeps v (whenS b m).
Proof. intros Hm. apply total_whenS; [exact Hm|]. by intros s _ ->. Qed.

Lemma keeps_gets {A} v (f : bufs → A) : keeps v (gets f).
Proof. apply total_gets. auto. Qed.

Lemma from_post {A} v (m : B A) (Q Q' : A → view → Prop) :
  from v m Q' → (∀ a v', Q' a v' → Q a v') → from v m Q.
Proof. intros Hm HQ. eapply total_post; [exact Hm|]. cbn. auto. Qed.

(** Reads of what the view determines. *)
Lemma from_gets {A C} v (g : bufs → A) (w : view → A) (f : A → B C) Q :
  (∀ s, g s = w (view_of s)) → from v (f (w v)) Q → from v (gets g ≫= f) Q.
Proof.
  intros Hg Hf s Hs. destruct (Hf s Hs) as (c & s' & E & Hc). exists c, s'. split; [|done].
  rewrite St_bind_run, gets_run. cbn [obind fst snd]. by rewrite Hg, Hs.
Qed.

(** A read of which only some facts are known. *)
Lemma from_gets_spec {A C} v (g : bufs → A) (R : A → Prop) (f : A → B C) Q :
  (∀ s, view_of s = v → R (g s)) → (∀ x, R x → from v (f x) Q) → from v (gets g ≫= f) Q.
Proof.
  intros Hg Hf. eapply (from_bind _ _ _ (λ x v', R x ∧ v' = v)).
  - apply total_gets. auto.
  - intros x ? [Hx ->]. by apply Hf.
Qed.

Lemma from_modify {C} v (g : bufs → bufs) (w : view → view) (f : B C) Q :
  (∀ s, view_of (g s) = w (view_of s)) → from (w v) f Q → from v (modify g ;; f) Q.
Proof.
  intros Hg Hf. eapply (from_bind _ _ _ (λ _ v', v' = w v)).
  - apply total_modify. intros s <-. exact (Hg s).
  - intros [] v' ->. exact Hf.
Qed.

Lemma from_modify_last v (g : bufs → bufs) (w : view → view) (Q : unit → view → Prop) :
  (∀ s, view_of (g s) = w (view_of s)) → Q tt (w v) → from v (modify g) Q.
Proof. intros Hg HQ. apply total_modify. intros s Hs. by rewrite Hg, Hs. Qed.

Lemma from_if {A} (b : bool) v (m1 m2 : B A) Q :
  (b = true → from v m1 Q) → (b = false → from v m2 Q) → from v (if b then m1 else m2) Q.
Proof. destruct b; auto. Qed.

Lemma from_outcome {A C} v (o : outcome A) a (f : A → B C) Q :
  o = Done a → from v (f a) Q → from v (of_outcome o ≫= f) Q.
Proof. intros -> Hf. exact Hf. Qed.

Lemma from_ret_bind {A C} v (a : A) (f : A → B C) Q :
  from v (f a) Q → from v (mret a ≫= f) Q.
Proof. intros Hf. exact Hf. Qed.

(** Composition is associative: what lets a rule for the first step apply below a bind. *)
Lemma from_assoc {A C D} v (m : B A) (f : A → B C) (g : C → B D) Q :
  from v (m ≫= λ a, f a ≫= g) Q → from v ((m ≫= f) ≫= g) Q.
Proof.
  intros Hm s Hs. destruct (Hm s Hs) as (d & s' & E & Hd). exists d, s'. split; [|done].
  revert E. unfold mbind, St_bind. destruct (m s) as [[a s1]|]; [|done]. cbn. auto.
Qed.

End rules.

(** What the theorems assume of the environment: the allocator hands out addresses that are
    not in use, and the debug switch that stops the kernel when a mapping fails is off. *)
Class BufLaws `{BufEnv} := {
  zalloc_fresh n live : b_answer n (Zalloc_smem live) ∉ live;
  recovery_on : msm_cvp_iova_leak_recovery = true
}.

(** * Operations *)
Section operations.
Context `{BufEnv}.
Implicit Types (v : view) (p d : Z).

Lemma keeps_bext v c : keeps v (bext c).
Proof.
  apply keeps_bind; [apply keeps_gets|]. intros n.
  apply keeps_bind; [by apply keeps_modify|]. intros []. apply keeps_ret.
Qed.

(** The object at an address, seen through its abstraction. *)
Lemma view_heap s p : v_heap (view_of s) !! p = abs_smem <$> b_smems s !! p.
Proof. apply lookup_fmap. Qed.

Lemma from_smem_get {A} v p o (f : msm_cvp_smem → B A) Q :
  v_heap v !! p = Some o →
  (∀ a, abs_smem a = o → from v (f a) Q) → from v (smem_get p ≫= f) Q.
Proof.
  intros Hp Hf s Hs. pose proof Hp as Hp'. rewrite <- Hs, view_heap in Hp'.
  apply fmap_Some in Hp' as (a & Ha & ->).
  destruct (Hf a eq_refl s Hs) as (c & s' & E & Hc). exists c, s'. split; [|done].
  unfold smem_get. srun. rewrite Ha. exact E.
Qed.

Lemma keeps_get_bind {A} v p o (f : msm_cvp_smem → B A) :
  v_heap v !! p = Some o → (∀ a, abs_smem a = o → keeps v (f a)) → keeps v (smem_get p ≫= f).
Proof. apply from_smem_get. Qed.

Lemma keeps_get v p o : v_heap v !! p = Some o → keeps v (smem_get p).
Proof.
  intros Hp s Hs. pose proof Hp as Hp'. rewrite <- Hs, view_heap in Hp'.
  apply fmap_Some in Hp' as (a & Ha & ->). exists a, s. split; [|done].
  unfold smem_get. srun. by rewrite Ha.
Qed.

Lemma view_insert s p a :
  view_of (s <| b_smems ::= <[p := a]> |>) = view_of s <| v_heap ::= <[p := abs_smem a]> |>.
Proof. unfold view_of, put_field_to. cbn. by rewrite fmap_insert. Qed.

Lemma view_delete s p :
  view_of (s <| b_smems ::= delete p |>) = view_of s <| v_heap ::= delete p |>.
Proof. unfold view_of, put_field_to. cbn. by rewrite fmap_delete. Qed.

Lemma from_smem_mod v p f o o' :
  v_heap v !! p = Some o → (∀ a, abs_smem a = o → abs_smem (f a) = o') →
  from v (smem_mod p f) (λ _ v', v' = v <| v_heap ::= <[p := o']> |>).
Proof.
  intros Hp Hf. eapply from_smem_get; [exact Hp|]. intros a Ha.
  eapply (from_modify_last _ _ (λ v, v <| v_heap ::= <[p := o']> |>)); [|done].
  intros s. rewrite view_insert. by rewrite (Hf a Ha).
Qed.

Lemma view_heap_same v p o :
  v_heap v !! p = Some o → v <| v_heap ::= <[p := o]> |> = v.
Proof. intros Hp. destruct v. unfold put_field_to. cbn in *. by rewrite insert_id. Qed.

Lemma keeps_smem_mod v p f o :
  v_heap v !! p = Some o → (∀ a, abs_smem (f a) = abs_smem a) → keeps v (smem_mod p f).
Proof.
  intros Hp Hf. eapply from_post; [apply (from_smem_mod v p f o o Hp)|].
  - intros a <-. apply Hf.
  - intros [] v' ->. by apply view_heap_same.
Qed.

Lemma from_kfree v p o :
  v_heap v !! p = Some o →
  from v (smem_kfree p) (λ _ v', v' = v <| v_heap ::= delete p |>).
Proof.
  intros Hp. eapply from_smem_get; [exact Hp|]. intros a _.
  eapply (from_modify_last _ _ (λ v, v <| v_heap ::= delete p |>)); [|done].
  intros s. apply view_delete.
Qed.

Definition add_cnt (n : Z) (o : aobj) : aobj := mkA (a_dma o) (a_cached o) (a_cnt o + n).

Lemma from_ref_inc v p o :
  v_heap v !! p = Some o →
  from v (ref_inc p) (λ _ v', v' = v <| v_heap ::= <[p := add_cnt 1 o]> |>).
Proof. intros Hp. apply (from_smem_mod _ _ _ _ _ Hp). by intros a <-. Qed.

Lemma from_ref_dec v p o :
  v_heap v !! p = Some o →
  from v (ref_dec p) (λ z v', z = (a_cnt o - 1 =? 0) ∧
                              v' = v <| v_heap ::= <[p := add_cnt (-1) o]> |>).
Proof.
  intros Hp. eapply from_bind.
  - apply (from_smem_mod _ _ _ _ (add_cnt (-1) o) Hp). by intros a <-.
  - intros [] v' ->. eapply from_smem_get.
    + unfold put_field_to. cbn. by rewrite lookup_insert_eq.
    + intros a Ha. apply from_ret. split; [|done].
      apply (f_equal a_cnt) in Ha. cbn in Ha. rewrite Ha. f_equal; lia.
Qed.

Lemma from_zalloc `{!BufLaws} v :
  from v smem_zalloc (λ p v', p = 0 ∧ v' = v ∨
    p ≠ 0 ∧ v_heap v !! p = None ∧ v' = v <| v_heap ::= <[p := mkA 0 false 0]> |>).
Proof.
  unfold smem_zalloc.
  apply (from_gets _ _ (λ v, dom (v_heap v))).
  { intros s. cbn. by rewrite dom_fmap_L. }
  eapply (from_bind _ _ _ (λ p v', p ∉ dom (v_heap v) ∧ v' = v)).
  { unfold bext. eapply from_keeps; [apply keeps_gets|]. intros n.
    eapply from_keeps; [by apply keeps_modify|]. intros []. apply from_ret.
    split; [apply zalloc_fresh|done]. }
  intros p v' [Hp ->]. destruct (Z.eqb_spec p 0) as [->|Hp0]; cbn [negb].
  - eapply from_keeps; [apply keeps_ret|]. intros []. apply from_ret. by left.
  - eapply (from_bind _ _ _ (λ _ v', v' = v <| v_heap ::= <[p := mkA 0 false 0]> |>)).
    + eapply (from_modify_last _ _ (λ v, v <| v_heap ::= <[p := mkA 0 false 0]> |>)); [|done].
      intros s. apply view_insert.
    + intros [] v' ->. apply from_ret. right. split_and!; [done| |done].
      by apply not_elem_of_dom.
Qed.

Lemma from_get_dma v fd :
  from v (msm_cvp_smem_get_dma_buf fd) (λ d v', d = 0 ∧ v' = v ∨
    0 < d ∧ v' = v <| v_refs ::= λ m, <[d := ref_of d m + 1]> m |>).
Proof.
  unfold msm_cvp_smem_get_dma_buf. eapply from_keeps; [apply keeps_bext|]. intros d.
  apply from_if; intros Hd; zify_bool; [apply from_ret; by left|].
  eapply (from_modify _ _ (λ v, v <| v_refs ::= λ m, <[d := ref_of d m + 1]> m |>)); [done|].
  apply from_ret. right. split; [lia|done].
Qed.

Lemma from_put_dma v d :
  (d ≠ 0 → 0 < ref_of d (v_refs v)) →
  from v (msm_cvp_smem_put_dma_buf d) (λ _ v',
    v' = if d =? 0 then v else v <| v_refs ::= λ m, <[d := ref_of d m - 1]> m |>).
Proof.
  intros Hd. unfold msm_cvp_smem_put_dma_buf.
  destruct (Z.eqb_spec d 0) as [->|Hd0]; [by apply from_ret|].
  apply (from_gets _ _ (λ v, ref_of d (v_refs v))); [done|].
  rewrite (proj2 (Z.leb_gt _ _)) by auto.
  by eapply (from_modify_last _ _
    (λ w, w <| v_refs ::= λ m, <[d := ref_of d (v_refs v) - 1]> m |>)).
Qed.

(** ** Mapping and unmapping leave the view alone *)

Lemma keeps_outcome {A} v (o : outcome A) a : o = Done a → keeps v (of_outcome o).
Proof. intros ->. by apply from_ret. Qed.

Lemma keeps_if {A} v (b : bool) (m1 m2 : B A) :
  (b = true → keeps v m1) → (b = false → keeps v m2) → keeps v (if b then m1 else m2).
Proof. apply from_if. Qed.

Lemma keeps_checksum v t : keeps v (checksum_enabled t).
Proof.
  unfold checksum_enabled. rewrite get_pkt_index_from_type_eq.
  destruct (get_pkt_index_range b_hfi_ver b_cvp_hfi_defs (Some t)) as (i & E & Hi).
  eapply from_outcome; [exact E|]. apply keeps_if; intros Hpos; [|apply keeps_ret].
  rewrite Z.gtb_ltb in Hpos. zify_bool.
  destruct Hi as [->|[Hi _]]; [unfold EINVAL in *; lia|].
  eapply from_outcome; [by apply table_at_ok|]. apply keeps_ret.
Qed.

End operations.

(** One step of a proof that an operation keeps the view. *)
Ltac keeps_step :=
  lazymatch goal with
  | |- keeps _ (mret _) => apply keeps_ret
  | |- keeps _ (bext _) => apply keeps_bext
  | |- keeps _ (checksum_enabled _) => apply keeps_checksum
  | |- keeps ?v (smem_mod _ _) => eapply keeps_smem_mod; [eassumption|done]
  | |- keeps ?v (modify _) => apply keeps_modify; done
  | |- keeps _ (whenS _ _) => apply keeps_whenS; intros ?
  | |- keeps _ (if _ then _ else _) => apply keeps_if; intros ?
  | |- keeps _ (smem_get _ ≫= _) => eapply keeps_get_bind; [eassumption|intros ? ?]
  | |- keeps _ (smem_get _) => eapply keeps_get; eassumption
  | |- keeps _ (_ ≫= _) => apply keeps_bind; [|intros ?]
  | |- keeps _ (let '(_, _) := ?x in _) => destruct x
  end.

Ltac keeps_tac := repeat keeps_step.

Section mapping.
Context `{BufEnv}.
Implicit Types (v : view) (p d : Z).

Lemma keeps_get_address v p o d flags :
  v_heap v !! p = Some o → keeps v (msm_dma_get_device_address p d flags).
Proof.
  intros Hp. unfold msm_dma_get_device_address. keeps_tac.
  destruct (msm_cvp_smem_get_context_bank flags); keeps_tac.
Qed.

Lemma keeps_put_address v p o :
  v_heap v !! p = Some o → keeps v (msm_dma_put_device_address p).
Proof. intros Hp. unfold msm_dma_put_device_address. keeps_tac. Qed.

Lemma keeps_map_helper v p o :
  v_heap v !! p = Some o → keeps v (msm_cvp_map_smem_helper p).
Proof.
  intros Hp. unfold msm_cvp_map_smem_helper. keeps_step.
  apply keeps_bind; [by eapply keeps_get_address|]. intros []. keeps_tac.
Qed.

Lemma keeps_map_smem `{!BufLaws} v p o :
  v_heap v !! p = Some o → keeps v (msm_cvp_map_smem p).
Proof.
  intros Hp. unfold msm_cvp_map_smem.
  apply keeps_bind; [by eapply keeps_map_helper|]. intros rc.
  rewrite recovery_on. cbn [negb]. keeps_tac.
Qed.

Lemma keeps_unmap_smem v p o :
  v_heap v !! p = Some o → keeps v (msm_cvp_unmap_smem p).
Proof.
  intros Hp. unfold msm_cvp_unmap_smem, msm_cvp_unmap_smem_helper.
  apply keeps_bind; [|intros rc; keeps_tac].
  eapply keeps_get_bind; [exact Hp|]. intros a _.
  apply keeps_bind; [keeps_tac|]. intros ck.
  apply keeps_bind; [keeps_tac|]. intros [].
  apply keeps_bind; [by eapply keeps_put_address|]. intros rc. keeps_tac.
Qed.

Lemma keeps_cache_ops v p t off size :
  (p ≠ 0 → is_Some (v_heap v !! p)) → keeps v (msm_cvp_cache_operations p t off size).
Proof.
  intros Hp. unfold msm_cvp_cache_operations. keeps_step; [keeps_tac|].
  destruct (Z.eqb_spec p 0) as [->|Hp0]; [keeps_tac|]. destruct (Hp Hp0) as [o Ho].
  eapply keeps_get_bind; [exact Ho|]. intros a _.
  unfold msm_cvp_smem_cache_operations. keeps_tac.
Qed.

(** Updates of the counters outside the view. *)
Lemma keeps_va_sub v size : keeps v (va_sub size).
Proof. unfold va_sub. keeps_tac. Qed.

End mapping.
