(* ===== verification/BufferInv.v ===== *)
(** The accounting invariant of a session's buffers, and how single steps preserve it.

    [okv T X D E k v]: every reference to an smem object is counted.  [T] are references
    held by the operation in progress on top of those in the lists, [X] objects it owns
    alone, [D] dma_buf references it holds, [E] dma_buf references already given back for
    objects that are still there, and [k] by how much [nr] exceeds the cache.  Between
    operations all of them are empty. *)

From S2P Require Import Prelude Store HfiTypes HfiDefs Smem Buffers BufferView.
From Stdlib Require Import Sorted.
From stdpp Require Import list sorting.
Open Scope Z_scope.

(** * Counting *)

Fixpoint count (p : Z) (l : list Z) : Z :=
  match l with [] => 0 | q :: l' => (if q =? p then 1 else 0) + count p l' end.

Lemma count_app p l k : count p (l ++ k) = count p l + count p k.
Proof. induction l as [|q l IH]; cbn [app count]; lia. Qed.

Lemma count_nonneg p l : 0 <= count p l.
Proof. induction l as [|q l IH]; cbn [count]; [done|]. destruct (q =? p); lia. Qed.

Lemma count_pos p l : 0 < count p l ↔ p ∈ l.
Proof.
  induction l as [|q l IH]; cbn [count]; [split; [lia|by intros ?%elem_of_nil]|].
  rewrite elem_of_cons, <- IH. pose proof (count_nonneg p l).
  destruct (Z.eqb_spec q p); [naive_solver lia|naive_solver lia].
Qed.

Lemma count_absent p l : p ∉ l → count p l = 0.
Proof. intros Hp. pose proof (count_nonneg p l). rewrite <- count_pos in Hp. lia. Qed.

#[global] Instance count_perm p : Proper ((≡ₚ) ==> (=)) (count p).
Proof.
  induction 1 as [|q l k _ IH|q r l|l k j _ IH1 _ IH2]; cbn [count]; lia.
Qed.

(** How many live objects refer to a dma_buf. *)
Definition dmas (m : gmap Z aobj) : list Z := a_dma <$> (map_to_list m).*2.
Definition holds (d : Z) (m : gmap Z aobj) : Z := count d (dmas m).

Lemma holds_insert d p o m :
  m !! p = None → holds d (<[p := o]> m) = (if a_dma o =? d then 1 else 0) + holds d m.
Proof. intros Hp. unfold holds, dmas. by rewrite (map_to_list_insert _ _ _ Hp). Qed.

Lemma holds_delete d p o m :
  m !! p = Some o → holds d m = (if a_dma o =? d then 1 else 0) + holds d (delete p m).
Proof. intros Hp. unfold holds, dmas. by rewrite <- (map_to_list_delete _ _ _ Hp). Qed.

Lemma holds_update d p o o' m :
  m !! p = Some o →
  holds d (<[p := o']> m) + (if a_dma o =? d then 1 else 0) =
  holds d m + (if a_dma o' =? d then 1 else 0).
Proof.
  intros Hp. rewrite <- (insert_delete_eq m p o'), holds_insert by apply lookup_delete_eq.
  rewrite (holds_delete d p o m Hp). lia.
Qed.

Lemma holds_pos p o m : m !! p = Some o → 0 < holds (a_dma o) m.
Proof.
  intros Hp. rewrite (holds_delete _ _ _ _ Hp), Z.eqb_refl.
  pose proof (count_nonneg (a_dma o) (dmas (delete p m))). unfold holds in *. lia.
Qed.

(** Filtering out an element that is not there. *)
Lemma filter_absent (p : Z) (l : list Z) : p ∉ l → filter (λ q, q ≠ p) l = l.
Proof.
  induction l as [|q l IH]; [done|]. rewrite not_elem_of_cons. intros [Hq Hl].
  rewrite filter_cons_True by congruence. by rewrite IH.
Qed.

(** * The invariant *)

Definition uses (v : view) : list Z := ib_smem <$> frame_bufs (v_frames v) ++ v_persist v.
Definition pers (v : view) : list Z := ib_smem <$> v_persist v.
Definition wnccs (v : view) : list Z := ib_smem <$> v_wncc v.

Definition dma_of (m : gmap Z aobj) (p : Z) : Z := from_option a_dma 0 (m !! p).

Record okv (T X D E : list Z) (k : Z) (v : view) : Prop := mkOk {
  ok_zero : v_heap v !! 0 = None;
  ok_live : ∀ p, p ∈ T ++ uses v → is_Some (v_heap v !! p);
  ok_cnt : ∀ p o, v_heap v !! p = Some o → count p (T ++ uses v) <= a_cnt o;
  ok_nodup : NoDup (X ++ wnccs v);
  ok_excl : ∀ p, p ∈ X ++ wnccs v →
    is_Some (v_heap v !! p) ∧ p ∉ T ++ uses v ∧ p ∉ v_tree v;
  ok_pers : NoDup (pers v) ∧ ∀ p, p ∈ pers v → p ∉ v_tree v;
  ok_tree : ∀ p, p ∈ v_tree v → ∃ o, v_heap v !! p = Some o ∧ a_cached o = true;
  ok_cached : ∀ p o, v_heap v !! p = Some o → a_cached o = true → p ∈ v_tree v ∨ p ∈ X;
  ok_sorted : StronglySorted Z.lt (dma_of (v_heap v) <$> v_tree v);
  ok_refs : ∀ d, d ≠ 0 →
    holds d (v_heap v) + count d D <= ref_of d (v_refs v) + count d E;
  ok_nr : v_nr v = Z.of_nat (length (v_tree v)) + k ∧ v_nr v <= v_cap v
          ∧ (v_cap v = 128 ∨ v_cap v = 256);
  ok_table : (v_num v = 0 ∨ is_Some (v_table v))
             ∧ ∀ t, v_table v = Some t → Z.of_nat (length t) = EVA_KMD_WNCC_MAX_SRC_BUFS
}.

(** The state between operations. *)
Definition buffers_ok (s : bufs) : Prop := okv [] [] [] [] 0 (view_of s).

(** Projects an updated view, keeping the derived lists of [v] folded. *)
Ltac vred v :=
  unfold put_field_to, uses, pers, wnccs;
  cbn [v_heap v_refs v_tree v_nr v_cap v_frames v_persist v_wncc v_num v_table];
  fold (uses v) (pers v) (wnccs v).

Lemma sorted_nodup l : StronglySorted Z.lt l → NoDup l.
Proof.
  induction 1 as [|x l _ IH Hx]; constructor; [|done].
  intros Hin. rewrite Forall_forall in Hx. apply Hx in Hin. lia.
Qed.

Section steps.
Implicit Types (v : view) (p d : Z) (T X D E : list Z).

Lemma ok_tree_nodup T X D E k v : okv T X D E k v → NoDup (v_tree v).
Proof. intros Hok. eapply NoDup_fmap_1, sorted_nodup, Hok. Qed.

Lemma ok_nonzero T X D E k v p o : okv T X D E k v → v_heap v !! p = Some o → p ≠ 0.
Proof. intros Hok Hp ->. by rewrite (ok_zero _ _ _ _ _ _ Hok) in Hp. Qed.

(** The count of one object changes, and with it the references that are held. *)
Lemma ok_recount T T' X D E k v p o n :
  okv T X D E k v → v_heap v !! p = Some o →
  (∀ q, q ≠ p → count q T' = count q T) →
  count p T' + count p (uses v) <= a_cnt o + n →
  (0 < count p T' → p ∉ X ++ wnccs v) →
  okv T' X D E k (v <| v_heap ::= <[p := add_cnt n o]> |>).
Proof.
  intros Hok Hp Hq Hn Hx. pose proof Hok as [? Hl Hc ? He ? Ht Hca Hs Hr ? ?].
  assert (Helem : ∀ q, q ∈ T' ++ uses v → q = p ∨ q ∈ T ++ uses v).
  { intros q Hin. destruct (decide (q = p)) as [|Hne]; [by left|right].
    rewrite <- count_pos, count_app in *. rewrite Hq in Hin by done. lia. }
  split; vred v; try done.
  - rewrite lookup_insert_ne; [done|]. by apply (ok_nonzero _ _ _ _ _ _ _ _ Hok Hp).
  - intros q Hin%Helem. destruct (decide (p = q)) as [->|]; [by rewrite lookup_insert_eq|].
    rewrite lookup_insert_ne by done. apply Hl. naive_solver.
  - intros q oq. destruct (decide (p = q)) as [->|].
    + rewrite lookup_insert_eq. intros [= <-]. rewrite count_app. cbn. lia.
    + rewrite lookup_insert_ne by done. intros Hoq%Hc.
      rewrite count_app in *. rewrite Hq by done. lia.
  - intros q Hin. destruct (He q Hin) as (Hsome & Hu & Htr). split_and!; [| |done].
    + destruct (decide (p = q)) as [->|]; [by rewrite lookup_insert_eq|].
      by rewrite lookup_insert_ne.
    + intros Hin'. destruct (Helem q Hin') as [->|]; [|done].
      apply (Hx); [|done]. rewrite <- count_pos, count_app in Hin'.
      assert (count p (uses v) = 0) by (apply count_absent; intros ?; apply Hu, elem_of_app; by right). lia.
  - intros q Hin. destruct (Ht q Hin) as (oq & Hoq & Hcq).
    destruct (decide (p = q)) as [->|]; [|by rewrite lookup_insert_ne; eauto].
    rewrite lookup_insert_eq. eexists. split; [done|]. by simplify_eq.
  - intros q oq. destruct (decide (p = q)) as [->|].
    + rewrite lookup_insert_eq. intros [= <-] Hcq. by apply (Hca q o).
    + rewrite lookup_insert_ne by done. apply Hca.
  - erewrite list_fmap_ext; [exact Hs|]. intros i q _. unfold dma_of.
    destruct (decide (p = q)) as [->|]; [by rewrite lookup_insert_eq, Hp|].
    by rewrite lookup_insert_ne.
  - intros d Hd. pose proof (holds_update d p o (add_cnt n o) _ Hp) as Hh. cbn in Hh.
    specialize (Hr d Hd). lia.
Qed.

Lemma ok_inc T X D E k v p o :
  okv T X D E k v → v_heap v !! p = Some o → p ∉ X ++ wnccs v →
  okv (p :: T) X D E k (v <| v_heap ::= <[p := add_cnt 1 o]> |>).
Proof.
  intros Hok Hp Hx. eapply ok_recount; [done..| | |done].
  - intros q Hq. cbn [count]. by rewrite (proj2 (Z.eqb_neq p q)) by congruence.
  - cbn [count]. rewrite Z.eqb_refl. pose proof (ok_cnt _ _ _ _ _ _ Hok p o Hp) as Hc.
    rewrite count_app in Hc. lia.
Qed.

(** A count that is raised without a reference to go with it. *)
Lemma ok_raise T X D E k v p o :
  okv T X D E k v → v_heap v !! p = Some o →
  okv T X D E k (v <| v_heap ::= <[p := add_cnt 1 o]> |>).
Proof.
  intros Hok Hp. eapply ok_recount; [done..| |].
  - pose proof (ok_cnt _ _ _ _ _ _ Hok p o Hp) as Hc. rewrite count_app in Hc. lia.
  - intros Hc Hx. destruct (ok_excl _ _ _ _ _ _ Hok p Hx) as (_ & Hu & _). apply Hu.
    rewrite elem_of_app, <- !count_pos. by left.
Qed.

Lemma ok_dec T X D E k v p o :
  okv (p :: T) X D E k v → v_heap v !! p = Some o →
  okv T X D E k (v <| v_heap ::= <[p := add_cnt (-1) o]> |>).
Proof.
  intros Hok Hp. eapply ok_recount; [done..| | |].
  - intros q Hq. cbn [count]. by rewrite (proj2 (Z.eqb_neq p q)) by congruence.
  - pose proof (ok_cnt _ _ _ _ _ _ Hok p o Hp) as Hc. rewrite count_app in Hc.
    cbn [count] in Hc. rewrite Z.eqb_refl in Hc. lia.
  - intros _ Hx. destruct (ok_excl _ _ _ _ _ _ Hok p Hx) as (_ & Hu & _). apply Hu.
    left.
Qed.

(** A fresh object. *)
Lemma ok_alloc T X D E k v p :
  okv T X D E k v → v_heap v !! p = None → p ≠ 0 →
  okv T (p :: X) D E k (v <| v_heap ::= <[p := mkA 0 false 0]> |>).
Proof.
  intros Hok Hp Hp0. pose proof Hok as [Hz Hl Hc Hn He Hpe Ht Hca Hs Hr ? ?].
  assert (Hne : ∀ q, is_Some (v_heap v !! q) → p ≠ q).
  { intros q Hq ->. rewrite Hp in Hq. by destruct Hq. }
  assert (Htr : ∀ q, q ∈ v_tree v → p ≠ q).
  { intros q Hq. destruct (Ht q Hq) as (o & Ho & _). apply Hne. eauto. }
  split; vred v; try done.
  - by rewrite lookup_insert_ne.
  - intros q Hq. rewrite lookup_insert_ne by auto. auto.
  - intros q o. destruct (decide (p = q)) as [<-|]; [|rewrite lookup_insert_ne by done; apply Hc].
    rewrite lookup_insert_eq. intros [= <-]. cbn [a_cnt].
    rewrite count_absent; [done|]. intros Hin. by apply (Hne p (Hl p Hin)).
  - cbn [app]. constructor; [|done]. intros Hin. destruct (He p Hin) as [Hsome _].
    by apply (Hne p Hsome).
  - intros q. cbn [app]. rewrite elem_of_cons. intros [->|Hin].
    + rewrite lookup_insert_eq. split_and!; [done| |].
      * intros Hin. by apply (Hne p (Hl p Hin)).
      * intros Hin. by apply (Htr p Hin).
    + destruct (He q Hin) as (Hsome & ? & ?). rewrite lookup_insert_ne by auto. done.
  - intros q Hq. rewrite lookup_insert_ne by auto. auto.
  - intros q o. destruct (decide (p = q)) as [->|].
    + rewrite lookup_insert_eq. by intros [= <-].
    + rewrite lookup_insert_ne by done. intros Ho Hco. destruct (Hca q o Ho Hco); [by left|].
      right. by right.
  - erewrite list_fmap_ext; [exact Hs|]. intros i q Hq%list_elem_of_lookup_2. unfold dma_of.
    by rewrite lookup_insert_ne by auto.
  - intros d Hd. rewrite holds_insert by done. cbn [a_dma].
    rewrite (proj2 (Z.eqb_neq 0 d)) by congruence. by apply Hr.
Qed.

(** An object of ours gets the dma_buf whose reference we hold. *)
Lemma ok_set_dma T X D E k v p d o :
  okv T X (d :: D) E k v → v_heap v !! p = Some o → a_dma o = 0 → p ∈ X → d ≠ 0 →
  okv T X D E k (v <| v_heap ::= <[p := mkA d (a_cached o) (a_cnt o)]> |>).
Proof.
  intros Hok Hp Ho Hx Hd0. pose proof Hok as [Hz Hl Hc Hn He Hpe Ht Hca Hs Hr ? ?].
  assert (Hpt : p ∉ v_tree v) by (apply (He p); apply elem_of_app; by left).
  split; vred v; try done.
  - rewrite lookup_insert_ne; [done|]. by apply (ok_nonzero _ _ _ _ _ _ _ _ Hok Hp).
  - intros q Hq. destruct (decide (p = q)) as [->|]; [by rewrite lookup_insert_eq|].
    rewrite lookup_insert_ne by done. auto.
  - intros q oq. destruct (decide (p = q)) as [->|]; [|rewrite lookup_insert_ne by done; apply Hc].
    rewrite lookup_insert_eq. intros [= <-]. exact (Hc q o Hp).
  - intros q Hq. destruct (He q Hq) as (Hsome & ? & ?). split_and!; [|done..].
    destruct (decide (p = q)) as [->|]; [by rewrite lookup_insert_eq|by rewrite lookup_insert_ne].
  - intros q Hq. rewrite lookup_insert_ne by congruence. auto.
  - intros q oq. destruct (decide (p = q)) as [->|]; [|rewrite lookup_insert_ne by done; apply Hca].
    rewrite lookup_insert_eq. intros [= <-] Hco. by apply (Hca q o).
  - erewrite list_fmap_ext; [exact Hs|]. intros i q Hq%list_elem_of_lookup_2. unfold dma_of.
    by rewrite lookup_insert_ne by congruence.
  - intros d' Hd'. pose proof (holds_update d' p o (mkA d (a_cached o) (a_cnt o)) _ Hp) as Hh.
    cbn [a_dma] in Hh. rewrite Ho, (proj2 (Z.eqb_neq 0 d')) in Hh by congruence.
    specialize (Hr d' Hd'). cbn [count] in Hr. lia.
Qed.

(** References to dma_bufs. *)
Lemma ref_of_insert d d' n m : ref_of d' (<[d := n]> m) = if d =? d' then n else ref_of d' m.
Proof.
  unfold ref_of. destruct (Z.eqb_spec d d') as [->|]; [by rewrite lookup_insert_eq|].
  by rewrite lookup_insert_ne.
Qed.

Lemma ok_with_refs T X D E D' E' k v g :
  okv T X D E k v →
  (∀ d, d ≠ 0 → holds d (v_heap v) + count d D' <= ref_of d (g (v_refs v)) + count d E') →
  okv T X D' E' k (v <| v_refs ::= g |>).
Proof. intros [] Hr. by split; vred v. Qed.

Lemma ok_get_ref T X D E k v d :
  okv T X D E k v → okv T X (d :: D) E k (v <| v_refs ::= λ m, <[d := ref_of d m + 1]> m |>).
Proof.
  intros Hok. eapply ok_with_refs; [exact Hok|]. intros d' Hd'.
  pose proof (ok_refs _ _ _ _ _ _ Hok d' Hd'). rewrite ref_of_insert. cbn [count].
  destruct (Z.eqb_spec d d') as [->|]; lia.
Qed.

Lemma ok_leak T X D E k v d : okv T X (d :: D) E k v → okv T X D E k v.
Proof.
  intros [Hz Hl Hc Hn He Hpe Ht Hca Hs Hr ? ?]. split; try done. intros d' Hd'.
  specialize (Hr d' Hd'). cbn [count] in Hr. destruct (d =? d'); lia.
Qed.

Lemma ok_put_pos T X D k v d :
  okv T X (d :: D) [] k v → d ≠ 0 → 0 < ref_of d (v_refs v).
Proof.
  intros Hok Hd. pose proof (ok_refs _ _ _ _ _ _ Hok d Hd) as Hr. cbn [count] in Hr.
  rewrite Z.eqb_refl in Hr. pose proof (count_nonneg d (dmas (v_heap v))).
  pose proof (count_nonneg d D). unfold holds in *. lia.
Qed.

Lemma ok_debt_pos T X D k v p o :
  okv T X D [] k v → v_heap v !! p = Some o → a_dma o ≠ 0 → 0 < ref_of (a_dma o) (v_refs v).
Proof.
  intros Hok Hp Hd. pose proof (ok_refs _ _ _ _ _ _ Hok _ Hd) as Hr. cbn [count] in Hr.
  pose proof (holds_pos p o _ Hp). pose proof (count_nonneg (a_dma o) D). lia.
Qed.

(** What [msm_cvp_smem_put_dma_buf] leaves of a view. *)
Definition put_ref (d : Z) (v : view) : view :=
  if d =? 0 then v else v <| v_refs ::= λ m, <[d := ref_of d m - 1]> m |>.

Lemma ok_put T X D k v d : okv T X (d :: D) [] k v → okv T X D [] k (put_ref d v).
Proof.
  intros Hok. unfold put_ref. destruct (Z.eqb_spec d 0) as [->|Hd]; [by eapply ok_leak|].
  eapply ok_with_refs; [exact Hok|]. intros d' Hd'.
  pose proof (ok_refs _ _ _ _ _ _ Hok d' Hd') as Hr. rewrite ref_of_insert. cbn [count] in *.
  destruct (Z.eqb_spec d d') as [->|]; lia.
Qed.

Lemma ok_put_debt T X D k v d : okv T X D [] k v → okv T X D [d] k (put_ref d v).
Proof.
  intros Hok. unfold put_ref. destruct (Z.eqb_spec d 0) as [->|Hd].
  - destruct Hok as [Hz Hl Hc Hn He Hpe Ht Hca Hs Hr ? ?]. split; try done. intros d' Hd'.
    specialize (Hr d' Hd'). cbn [count] in *. destruct (0 =? d'); lia.
  - eapply ok_with_refs; [exact Hok|]. intros d' Hd'.
    pose proof (ok_refs _ _ _ _ _ _ Hok d' Hd') as Hr. rewrite ref_of_insert. cbn [count] in *.
    destruct (Z.eqb_spec d d') as [->|]; lia.
Qed.

(** An object of ours is freed, with its reference given back before or lost. *)
Lemma ok_free T X D E k v p o :
  okv T (p :: X) D E k v → v_heap v !! p = Some o → E = [] ∨ E = [a_dma o] →
  okv T X D [] k (v <| v_heap ::= delete p |>).
Proof.
  intros Hok Hp HE. pose proof Hok as [Hz Hl Hc Hn He Hpe Ht Hca Hs Hr ? ?].
  cbn [app] in *. apply NoDup_cons in Hn as [Hpx Hn].
  destruct (He p) as (_ & Hpu & Hpt); [by left|].
  split; vred v; try done.
  - rewrite lookup_delete_ne; [done|]. by apply (ok_nonzero _ _ _ _ _ _ _ _ Hok Hp).
  - intros q Hq. rewrite lookup_delete_ne by congruence. auto.
  - intros q oq. destruct (decide (p = q)) as [->|]; [by rewrite lookup_delete_eq|].
    rewrite lookup_delete_ne by done. apply Hc.
  - intros q Hq. rewrite lookup_delete_ne by congruence. apply He. by right.
  - intros q Hq. rewrite lookup_delete_ne by congruence. auto.
  - intros q oq. destruct (decide (p = q)) as [->|]; [by rewrite lookup_delete_eq|].
    rewrite lookup_delete_ne by done. intros Hoq Hco.
    destruct (Hca q oq Hoq Hco) as [|Hin]; [by left|]. right.
    apply elem_of_cons in Hin as [->|]; done.
  - erewrite list_fmap_ext; [exact Hs|]. intros i q Hq%list_elem_of_lookup_2. unfold dma_of.
    by rewrite lookup_delete_ne by congruence.
  - intros d Hd. specialize (Hr d Hd). rewrite (holds_delete d p o _ Hp) in Hr.
    destruct HE as [->| ->]; cbn [count] in *; destruct (a_dma o =? d); lia.
Qed.

(** A reference we hold is forgotten. *)
Lemma ok_forget T X D E k v p : okv (p :: T) X D E k v → okv T X D E k v.
Proof.
  intros [Hz Hl Hc Hn He Hpe Ht Hca Hs Hr ? ?]. split; try done.
  - intros q Hq. apply Hl. by right.
  - intros q o Hq%Hc. cbn [app count] in Hq. destruct (p =? q); lia.
  - intros q Hq. destruct (He q Hq) as (? & Hu & ?). split_and!; [done| |done].
    intros Hin. apply Hu. by right.
Qed.

(** An object nobody refers to any more becomes ours. *)
Lemma ok_own T X D E k v p :
  okv T X D E k v → is_Some (v_heap v !! p) → p ∉ T ++ uses v → p ∉ v_tree v →
  p ∉ X ++ wnccs v → okv T (p :: X) D E k v.
Proof.
  intros [Hz Hl Hc Hn He Hpe Ht Hca Hs Hr ? ?] Hp Hpu Hpt Hpx. split; try done.
  - cbn [app]. by constructor.
  - intros q. cbn [app]. rewrite elem_of_cons. intros [->|Hin]; [done|by apply He].
  - intros q oq Hoq Hco. destruct (Hca q oq Hoq Hco); [by left|]. right. by right.
Qed.

(** No count, no reference. *)
Lemma ok_unused T X D E k v p o :
  okv T X D E k v → v_heap v !! p = Some o → a_cnt o <= 0 → p ∉ T ++ uses v.
Proof.
  intros Hok Hp Hn. rewrite <- count_pos. pose proof (ok_cnt _ _ _ _ _ _ Hok p o Hp). lia.
Qed.

(** An object of ours gives up its dma_buf, whose reference has been given back. *)
Lemma ok_clear_dma T X D k v p o :
  okv T (p :: X) D [a_dma o] k v → v_heap v !! p = Some o →
  okv T (p :: X) D [] k (v <| v_heap ::= <[p := mkA 0 (a_cached o) (a_cnt o)]> |>).
Proof.
  intros Hok Hp. pose proof Hok as [Hz Hl Hc Hn He Hpe Ht Hca Hs Hr ? ?].
  destruct (He p) as (_ & Hpu & Hpt); [by left|].
  split; vred v; try done.
  - rewrite lookup_insert_ne; [done|]. by apply (ok_nonzero _ _ _ _ _ _ _ _ Hok Hp).
  - intros q Hq. rewrite lookup_insert_ne by congruence. auto.
  - intros q oq. destruct (decide (p = q)) as [<-|]; [|rewrite lookup_insert_ne by done; apply Hc].
    rewrite lookup_insert_eq. intros [= <-]. exact (Hc p o Hp).
  - intros q Hq. destruct (He q Hq) as (Hsome & ? & ?). split_and!; [|done..].
    destruct (decide (p = q)) as [->|]; [by rewrite lookup_insert_eq|by rewrite lookup_insert_ne].
  - intros q Hq. rewrite lookup_insert_ne by congruence. auto.
  - intros q oq. destruct (decide (p = q)) as [<-|]; [|rewrite lookup_insert_ne by done; apply Hca].
    intros _ _. right. left.
  - erewrite list_fmap_ext; [exact Hs|]. intros i q Hq%list_elem_of_lookup_2. unfold dma_of.
    by rewrite lookup_insert_ne by congruence.
  - intros d Hd. pose proof (holds_update d p o (mkA 0 (a_cached o) (a_cnt o)) _ Hp) as Hh.
    cbn [a_dma] in Hh. rewrite (proj2 (Z.eqb_neq 0 d)) in Hh by congruence.
    specialize (Hr d Hd). cbn [count] in *. lia.
Qed.

(** An object of ours becomes one that is used, with the reference it was given. *)
Lemma ok_share T X D E k v p o :
  okv T (p :: X) D E k v → v_heap v !! p = Some o → 1 <= a_cnt o → a_cached o = false →
  okv (p :: T) X D E k v.
Proof.
  intros [Hz Hl Hc Hn He Hpe Ht Hca Hs Hr ? ?] Hp H1 Hco. cbn [app] in *.
  apply NoDup_cons in Hn as [Hpx Hn]. destruct (He p) as (_ & Hpu & _); [by left|].
  split; try done.
  - intros q. cbn [app]. rewrite elem_of_cons. intros [->|Hin]; [by eexists|auto].
  - intros q oq Hq. cbn [app count]. destruct (Z.eqb_spec p q) as [->|]; [|by apply Hc].
    rewrite count_absent by done. simplify_eq. lia.
  - intros q Hq. destruct (He q) as (? & Hu & ?); [by right|]. split_and!; [done| |done].
    cbn [app]. rewrite elem_of_cons. intros [->|]; done.
  - intros q oq Hoq Hcq. destruct (Hca q oq Hoq Hcq) as [|Hin]; [by left|].
    apply elem_of_cons in Hin as [->|]; [|by right]. simplify_eq. congruence.
Qed.

Lemma pers_uses v p : p ∈ pers v → p ∈ uses v.
Proof. unfold pers, uses. rewrite fmap_app, elem_of_app. auto. Qed.

(** A node with no references leaves the tree and becomes ours; [nr] follows later. *)
Lemma ok_unlink T X D E k v p o :
  okv T X D E k v → p ∈ v_tree v → v_heap v !! p = Some o → p ∉ T ++ uses v →
  okv T (p :: X) D E (k + 1) (v <| v_tree ::= filter (λ q, q ≠ p) |>).
Proof.
  intros Hok Hpt Hp Hpu.
  assert (Hnt : NoDup (v_tree v)) by by eapply ok_tree_nodup.
  pose proof Hok as [Hz Hl Hc Hn He Hpe Ht Hca Hs Hr Hnr ?].
  assert (Hpx : p ∉ X ++ wnccs v) by by intros (_ & _ & ?)%He.
  destruct (list_elem_of_split _ _ Hpt) as (l1 & l2 & E12).
  rewrite E12 in Hnt. apply NoDup_app in Hnt as (Hn1 & Hd12 & Hn2).
  apply NoDup_cons in Hn2 as [Hp2 Hn2].
  assert (Hf : filter (λ q, q ≠ p) (v_tree v) = l1 ++ l2).
  { rewrite E12, filter_app, filter_cons_False by naive_solver.
    rewrite !filter_absent; [done|done|]. intros Hq. apply (Hd12 p Hq). left. }
  split; vred v; try done; rewrite ?Hf.
  - cbn [app]. by constructor.
  - intros q. cbn [app]. rewrite elem_of_cons. intros [->|Hin].
    + split_and!; [by eexists|done|]. intros Hq. apply elem_of_app in Hq as [Hq|Hq]; [|done].
      apply (Hd12 p Hq). left.
    + destruct (He q Hin) as (? & ? & Hq). split_and!; [done..|]. rewrite E12 in Hq.
      rewrite elem_of_app, elem_of_cons in Hq. rewrite elem_of_app. naive_solver.
  - split; [apply Hpe|]. intros q Hq. apply Hpe in Hq. rewrite E12 in Hq.
    rewrite elem_of_app, elem_of_cons in Hq. rewrite elem_of_app. naive_solver.
  - intros q Hq. apply Ht. rewrite E12, elem_of_app, elem_of_cons.
    apply elem_of_app in Hq. naive_solver.
  - intros q oq Hoq Hco. destruct (Hca q oq Hoq Hco) as [Hq|]; [|right; by right].
    rewrite E12, elem_of_app, elem_of_cons in Hq. rewrite elem_of_app, elem_of_cons.
    naive_solver.
  - rewrite E12, !fmap_app, fmap_cons in Hs. rewrite fmap_app.
    apply StronglySorted_app in Hs as (Hlt & Hs1 & Hs2). apply StronglySorted_app.
    apply StronglySorted_inv in Hs2 as [Hs2 _]. split_and!; [|done..].
    intros x1 x2 H1 H2. apply Hlt; [done|]. by right.
  - rewrite E12, length_app in Hnr. cbn [length] in Hnr. rewrite length_app. lia.
Qed.

Lemma ok_nr_pred T X D E k v :
  okv T X D E k v → okv T X D E (k - 1) (v <| v_nr ::= Z.pred |>).
Proof. intros []. split; vred v; try done. lia. Qed.

(** An object of ours enters the cache, at its place. *)
Lemma ok_link T X D E k v p o l1 l2 :
  okv T (p :: X) D E k v → v_heap v !! p = Some o → a_cached o = false →
  v_tree v = l1 ++ l2 → v_nr v < v_cap v →
  (∀ q, q ∈ l1 → dma_of (v_heap v) q < a_dma o) →
  (∀ q, q ∈ l2 → a_dma o < dma_of (v_heap v) q) →
  okv T X D E k (v <| v_heap ::= <[p := mkA (a_dma o) true (a_cnt o)]> |>
                   <| v_tree := l1 ++ p :: l2 |> <| v_nr ::= Z.succ |>).
Proof.
  intros Hok Hp Hco E12 Hcap H1 H2. pose proof Hok as [Hz Hl Hc Hn He Hpe Ht Hca Hs Hr Hnr ?].
  cbn [app] in *. apply NoDup_cons in Hn as [Hpx Hn].
  destruct (He p) as (_ & Hpu & Hpt); [by left|]. rewrite E12 in *.
  assert (Hin : ∀ q, q ∈ l1 ++ p :: l2 ↔ q = p ∨ q ∈ l1 ++ l2).
  { intros q. rewrite !elem_of_app, elem_of_cons. naive_solver. }
  assert (Hkey : ∀ l : list Z, p ∉ l →
    dma_of (<[p := mkA (a_dma o) true (a_cnt o)]> (v_heap v)) <$> l = dma_of (v_heap v) <$> l).
  { intros l Hpl. apply list_fmap_ext. intros i q Hq%list_elem_of_lookup_2. unfold dma_of.
    rewrite lookup_insert_ne; [done|]. by intros ->. }
  rewrite elem_of_app in Hpt.
  split; vred v; try done.
  - rewrite lookup_insert_ne; [done|]. by apply (ok_nonzero _ _ _ _ _ _ _ _ Hok Hp).
  - intros q Hq. rewrite lookup_insert_ne by congruence. auto.
  - intros q oq. destruct (decide (p = q)) as [<-|]; [|rewrite lookup_insert_ne by done; apply Hc].
    rewrite lookup_insert_eq. intros [= <-]. exact (Hc p o Hp).
  - intros q Hq. destruct (He q) as (Hsome & ? & Hqt); [by right|].
    assert (p ≠ q) by congruence. split_and!; [by rewrite lookup_insert_ne|done|].
    rewrite Hin. naive_solver.
  - split; [apply Hpe|]. intros q Hq. rewrite Hin. pose proof (pers_uses v q Hq) as Hu.
    apply Hpe in Hq. intros [->|]; [|done]. apply Hpu, elem_of_app. by right.
  - intros q. rewrite Hin. intros [->|Hq]; [rewrite lookup_insert_eq; eauto|].
    rewrite lookup_insert_ne; [auto|]. intros ->. apply elem_of_app in Hq. done.
  - intros q oq. rewrite Hin. destruct (decide (p = q)) as [<-|]; [by auto|].
    rewrite lookup_insert_ne by done. intros Hoq Hcq.
    destruct (Hca q oq Hoq Hcq) as [|Hx]; [by auto|]. apply elem_of_cons in Hx as [->|]; by auto.
  - rewrite fmap_app, fmap_cons, !Hkey by naive_solver.
    assert (Hpd : dma_of (<[p := mkA (a_dma o) true (a_cnt o)]> (v_heap v)) p = a_dma o).
    { unfold dma_of. by rewrite lookup_insert_eq. }
    rewrite Hpd, fmap_app in *. apply StronglySorted_app in Hs as (Hlt & Hs1 & Hs2).
    apply StronglySorted_app. split_and!; [|done|].
    + intros x1 x2 (q1 & -> & Hq1)%list_elem_of_fmap Hx2.
      apply elem_of_cons in Hx2 as [->|Hx2]; [by apply H1|]. apply Hlt; [|done].
      by apply list_elem_of_fmap_2.
    + constructor; [done|]. apply Forall_forall. intros x (q2 & -> & Hq2)%list_elem_of_fmap.
      by apply H2.
  - intros d Hd. pose proof (holds_update d p o (mkA (a_dma o) true (a_cnt o)) _ Hp) as Hh.
    cbn [a_dma] in Hh. specialize (Hr d Hd). lia.
  - rewrite length_app in Hnr. rewrite length_app. cbn [length]. lia.
Qed.

(** References move between the operation and the lists. *)
Lemma ok_relist T T' X D E k v v' :
  okv T X D E k v →
  v_heap v' = v_heap v → v_refs v' = v_refs v → v_tree v' = v_tree v → v_nr v' = v_nr v →
  v_cap v' = v_cap v → v_wncc v' = v_wncc v → v_num v' = v_num v → v_table v' = v_table v →
  T ++ uses v ≡ₚ T' ++ uses v' → NoDup (pers v') ∧ (∀ p, p ∈ pers v' → p ∉ v_tree v) →
  okv T' X D E k v'.
Proof.
  intros [Hz Hl Hc Hn He Hpe Ht Hca Hs Hr Hnr Hta] E1 E2 E3 E4 E5 E6 E7 E8 Hperm Hp.
  assert (Hw : wnccs v' = wnccs v) by (unfold wnccs; by rewrite E6).
  split; rewrite ?E1, ?E2, ?E3, ?E4, ?E5, ?E7, ?E8, ?Hw; try done.
  - intros p. rewrite <- Hperm. apply Hl.
  - intros p o. rewrite <- Hperm. apply Hc.
  - intros p. rewrite <- Hperm. apply He.
Qed.

Lemma ok_perm T T' X D E k v : okv T X D E k v → T ≡ₚ T' → okv T' X D E k v.
Proof.
  intros Hok HT. eapply ok_relist; [exact Hok|done..| |apply Hok]. by rewrite HT.
Qed.

(** Objects move between the operation and the Warp-NCC list. *)
Lemma ok_rewncc T X X' D E k v v' :
  okv T X D E k v →
  v_heap v' = v_heap v → v_refs v' = v_refs v → v_tree v' = v_tree v → v_nr v' = v_nr v →
  v_cap v' = v_cap v → v_frames v' = v_frames v → v_persist v' = v_persist v →
  X ++ wnccs v ≡ₚ X' ++ wnccs v' →
  (∀ p o, p ∈ X → v_heap v !! p = Some o → a_cached o = true → p ∈ X') →
  (v_num v' = 0 ∨ is_Some (v_table v'))
  ∧ (∀ t, v_table v' = Some t → Z.of_nat (length t) = EVA_KMD_WNCC_MAX_SRC_BUFS) →
  okv T X' D E k v'.
Proof.
  intros [Hz Hl Hc Hn He Hpe Ht Hca Hs Hr Hnr Hta] E1 E2 E3 E4 E5 E6 E7 Hperm Hx Hta'.
  assert (Hu : uses v' = uses v) by (unfold uses; by rewrite E6, E7).
  assert (Hp : pers v' = pers v) by (unfold pers; by rewrite E7).
  split; rewrite ?E1, ?E2, ?E3, ?E4, ?E5, ?Hu, ?Hp; try done.
  - by rewrite <- Hperm.
  - intros p. rewrite <- Hperm. apply He.
  - intros p o Hpo Hco. destruct (Hca p o Hpo Hco) as [|Hin]; [by left|]. right. eauto.
Qed.

End steps.
