(* ===== verification/BufferCache.v ===== *)
(** The mapping cache of a session: lookups agree with a plain search, and getting,
    caching and evicting mappings keep every reference accounted for. *)

From S2P Require Import Prelude Store HfiTypes HfiDefs Smem Buffers BufferView BufferInv.
From Stdlib Require Import Sorted.
From stdpp Require Import list sorting.
Open Scope Z_scope.

(** * The tree *)

(** The reference: the first node with this dma_buf, in order. *)
Fixpoint cache_search (m : gmap Z msm_cvp_smem) (dma_buf : Z) (l : list Z) : option Z :=
  match l with
  | [] => None
  | p :: l' =>
      if from_option sm_dma_buf 0 (m !! p) =? dma_buf then Some p
      else cache_search m dma_buf l'
  end.

(** A cache whose nodes are live objects, ordered by dma_buf. *)
Definition cache_ordered (m : gmap Z msm_cvp_smem) (l : list Z) : Prop :=
  (∀ p, p ∈ l → is_Some (m !! p)) ∧
  StronglySorted Z.lt ((λ p, from_option sm_dma_buf 0 (m !! p)) <$> l).

Section tree.
Implicit Types (m : gmap Z msm_cvp_smem) (t : rb_node).

Abbreviation key m := (λ p, from_option sm_dma_buf 0 (m !! p)).

Lemma cache_search_app m d l1 l2 :
  cache_search m d (l1 ++ l2) =
  match cache_search m d l1 with Some p => Some p | None => cache_search m d l2 end.
Proof. induction l1 as [|p l1 IH]; cbn [app cache_search]; [done|]. by destruct (_ =? d). Qed.

Lemma cache_search_none m d l : (∀ p, p ∈ l → key m p ≠ d) → cache_search m d l = None.
Proof.
  induction l as [|p l IH]; intros Hl; cbn [cache_search]; [done|].
  rewrite (proj2 (Z.eqb_neq _ d)) by (apply Hl; left). apply IH. intros q Hq. apply Hl. by right.
Qed.

Lemma cache_search_some m d l p : cache_search m d l = Some p → p ∈ l ∧ key m p = d.
Proof.
  induction l as [|q l IH]; cbn [cache_search]; [done|].
  destruct (Z.eqb_spec (key m q) d) as [Hq|]; [intros [= <-]; by split; [left|]|].
  intros [Hp ?]%IH. split; [by right|done].
Qed.

Lemma cache_search_none_inv m d l p : cache_search m d l = None → p ∈ l → key m p ≠ d.
Proof.
  induction l as [|q l IH]; cbn [cache_search]; [by intros _ ?%elem_of_nil|].
  destruct (Z.eqb_spec (key m q) d); [done|]. intros E [->|Hp]%elem_of_cons; auto.
Qed.

Lemma ordered_node m l p r :
  cache_ordered m (inorder l ++ p :: inorder r) →
  cache_ordered m (inorder l) ∧ cache_ordered m (inorder r) ∧ is_Some (m !! p) ∧
  (∀ q, q ∈ inorder l → key m q < key m p) ∧ (∀ q, q ∈ inorder r → key m p < key m q).
Proof.
  intros [Hl Hs]. rewrite fmap_app, fmap_cons in Hs.
  apply StronglySorted_app in Hs as (Hlt & Hs1 & Hs2).
  apply StronglySorted_inv in Hs2 as [Hs2 Hp]. rewrite Forall_forall in Hp.
  assert (Hin : ∀ q, q ∈ inorder l ++ p :: inorder r ↔ q ∈ inorder l ∨ q = p ∨ q ∈ inorder r).
  { intros q. by rewrite elem_of_app, elem_of_cons. }
  split_and!.
  - split; [|done]. intros q Hq. apply Hl, Hin. auto.
  - split; [|done]. intros q Hq. apply Hl, Hin. auto.
  - apply Hl, Hin. auto.
  - intros q Hq. apply Hlt; [by apply (list_elem_of_fmap_2 (key m))|left].
  - intros q Hq. apply Hp. by apply (list_elem_of_fmap_2 (key m)).
Qed.

Lemma find_node_search m d t :
  cache_ordered m (inorder t) → find_node m d t = Done (cache_search m d (inorder t)).
Proof.
  induction t as [|l IHl p r IHr]; cbn [inorder find_node]; [done|].
  intros (Hl & Hr & [a Ha] & Hlt & Hgt)%ordered_node. rewrite Ha, cache_search_app.
  cbn [cache_search]. rewrite Ha in *. cbn [from_option] in *.
  destruct (Z.ltb_spec d (sm_dma_buf a)).
  - rewrite IHl by done. destruct (cache_search m d (inorder l)); [done|].
    rewrite (proj2 (Z.eqb_neq _ d)) by lia. rewrite cache_search_none; [done|].
    intros q Hq%Hgt. lia.
  - assert (Hn : cache_search m d (inorder l) = None).
    { apply cache_search_none. intros q Hq%Hlt. lia. }
    rewrite Hn, Z.gtb_ltb. destruct (Z.ltb_spec (sm_dma_buf a) d).
    + rewrite (proj2 (Z.eqb_neq _ d)) by lia. by apply IHr.
    + by rewrite (proj2 (Z.eqb_eq _ d)) by lia.
Qed.

(** Insertion puts the node between the smaller and the greater ones. *)
Lemma link_node_inorder m d p t :
  cache_ordered m (inorder t) → (∀ q, q ∈ inorder t → key m q ≠ d) →
  ∃ t' l1 l2, link_node m d p t = Done t' ∧ inorder t = l1 ++ l2 ∧
    inorder t' = l1 ++ p :: l2 ∧
    (∀ q, q ∈ l1 → key m q < d) ∧ (∀ q, q ∈ l2 → d < key m q).
Proof.
  induction t as [|l IHl x r IHr]; cbn [inorder link_node].
  - intros _ _. exists (rb_at rb_null p rb_null), [], [].
    split_and!; [done..| |]; intros q Hq; by apply elem_of_nil in Hq.
  - intros (Hl & Hr & [a Ha] & Hlt & Hgt)%ordered_node Hne. rewrite Ha in *.
    cbn [from_option] in *.
    assert (Hx : sm_dma_buf a ≠ d).
    { specialize (Hne x). rewrite Ha in Hne. apply Hne, elem_of_app. right. left. }
    destruct (Z.ltb_spec d (sm_dma_buf a)).
    + destruct IHl as (t' & l1 & l2 & -> & E & E' & H1 & H2); [done| |].
      { intros q Hq. apply Hne, elem_of_app. by left. }
      exists (rb_at t' x r), l1, (l2 ++ x :: inorder r). cbn [inorder obind].
      rewrite E, E', <- !app_assoc. split_and!; [done..|].
      intros q. rewrite elem_of_app, elem_of_cons. intros [Hq|[->|Hq]]; [auto| |].
      * by rewrite Ha.
      * apply Hgt in Hq. lia.
    + destruct IHr as (t' & l1 & l2 & -> & E & E' & H1 & H2); [done| |].
      { intros q Hq. apply Hne, elem_of_app. right. by right. }
      exists (rb_at l x t'), (inorder l ++ x :: l1), l2. cbn [inorder obind].
      rewrite E, E', <- !app_assoc. split_and!; [done..| |done].
      intros q. rewrite elem_of_app, elem_of_cons. intros [Hq|[->|Hq]]; [|rewrite Ha; cbn; lia|auto].
      apply Hlt in Hq. lia.
Qed.

End tree.

(** A state that is accounted for has an ordered cache. *)
Lemma ok_ordered T X D E k s :
  okv T X D E k (view_of s) → cache_ordered (b_smems s) (inorder (b_rbtree s)).
Proof.
  intros Hok. split.
  - intros p Hp. destruct (ok_tree _ _ _ _ _ _ Hok p Hp) as (o & Ho & _).
    rewrite view_heap in Ho. destruct (b_smems s !! p); [by eexists|done].
  - erewrite list_fmap_ext; [exact (ok_sorted _ _ _ _ _ _ Hok)|]. intros i p _. unfold dma_of.
    rewrite view_heap. by destruct (b_smems s !! p).
Qed.

(** * Operations *)

Definition same_lists (v v' : view) : Prop :=
  v_frames v' = v_frames v ∧ v_persist v' = v_persist v ∧ v_wncc v' = v_wncc v
  ∧ v_num v' = v_num v ∧ v_table v' = v_table v.

Lemma same_lists_uses v v' : same_lists v v' → uses v' = uses v.
Proof. intros (E1 & E2 & _). unfold uses. by rewrite E1, E2. Qed.

Lemma same_lists_pers v v' : same_lists v v' → pers v' = pers v.
Proof. intros (_ & E & _). unfold pers. by rewrite E. Qed.

Lemma same_lists_wnccs v v' : same_lists v v' → wnccs v' = wnccs v.
Proof. intros (_ & _ & E & _). unfold wnccs. by rewrite E. Qed.

Lemma same_lists_trans v1 v2 v3 : same_lists v1 v2 → same_lists v2 v3 → same_lists v1 v3.
Proof. unfold same_lists. intuition congruence. Qed.

(** What evictions may change: nodes of the tree go, the other objects stay as they are. *)
Definition shrunk (v v' : view) : Prop :=
  same_lists v v' ∧ v_cap v' = v_cap v ∧
  (∀ q, q ∈ v_tree v' → q ∈ v_tree v) ∧
  (∀ q, q ∈ v_tree v' ∨ q ∉ v_tree v → v_heap v' !! q = v_heap v !! q).

Lemma shrunk_refl v : shrunk v v.
Proof. split_and!; try done. Qed.

Lemma shrunk_trans v1 v2 v3 : shrunk v1 v2 → shrunk v2 v3 → shrunk v1 v3.
Proof.
  intros (S1 & C1 & T1 & H1) (S2 & C2 & T2 & H2).
  split_and!; [by eapply same_lists_trans|congruence|auto|].
  intros q Hq. rewrite H2, H1; [done| |]; destruct Hq as [Hq|Hq]; auto.
Qed.

Section cache.
Context `{BufEnv} `{RbLaws} `{!BufLaws}.
Implicit Types (v : view) (p d : Z) (T X D : list Z).

Lemma from_put v d :
  (d ≠ 0 → 0 < ref_of d (v_refs v)) →
  from v (msm_cvp_smem_put_dma_buf d) (λ _ v', v' = put_ref d v).
Proof.
  intros Hd. eapply from_post; [by apply from_put_dma|]. intros [] v' ->.
  unfold put_ref. by destruct (d =? 0).
Qed.

(** The reference of a live object of ours is given back. *)
Lemma from_put_debt T X D k v p o :
  okv T X D [] k v → v_heap v !! p = Some o →
  from v (msm_cvp_smem_put_dma_buf (a_dma o)) (λ _ v', v' = put_ref (a_dma o) v).
Proof. intros Hok Hp. apply from_put. intros Hd. by eapply ok_debt_pos. Qed.

Lemma put_ref_heap d v : v_heap (put_ref d v) = v_heap v.
Proof. unfold put_ref. by destruct (d =? 0). Qed.
Lemma put_ref_tree d v : v_tree (put_ref d v) = v_tree v.
Proof. unfold put_ref. by destruct (d =? 0). Qed.
Lemma put_ref_same d v : same_lists v (put_ref d v).
Proof. unfold put_ref. by destruct (d =? 0). Qed.

(** Giving back, or not, the reference of an object of ours. *)
Definition given_back T X D k p (o : aobj) v v' : Prop :=
  ∃ E r, (E = [] ∨ E = [a_dma o]) ∧ okv T (p :: X) D E k v' ∧ v' = v <| v_refs := r |>.

Lemma from_giveback1 T X D k v p o (b : bool) :
  okv T (p :: X) D [] k v → v_heap v !! p = Some o →
  from v (whenS b (msm_cvp_smem_put_dma_buf (a_dma o))) (λ _, given_back T X D k p o v).
Proof.
  intros Hok Hp. destruct b; cbn [whenS].
  - eapply from_post; [by eapply from_put_debt|]. intros [] v' ->. exists [a_dma o].
    exists (v_refs (put_ref (a_dma o) v)). split_and!; [by right|by apply ok_put_debt|].
    unfold put_ref. destruct v, (a_dma o =? 0); done.
  - apply from_ret. exists [], (v_refs v). split_and!; [by left|done|]. by destruct v.
Qed.

Lemma from_giveback T X D k v p o (b : bool) (mid : B unit) :
  okv T (p :: X) D [] k v → v_heap v !! p = Some o → (∀ w, keeps w mid) →
  from v (whenS b (msm_cvp_smem_put_dma_buf (a_dma o) ;; mid))
    (λ _, given_back T X D k p o v).
Proof.
  intros Hok Hp Hmid. destruct b; cbn [whenS].
  - eapply from_bind; [by apply (from_giveback1 T X D k v p o true)|]. intros [] v' Hg.
    eapply from_post; [apply Hmid|]. by intros [] ? ->.
  - by apply (from_giveback1 T X D k v p o false).
Qed.

Lemma unlink_view s p :
  view_of (s <| b_rbtree ::= rb_erase p |>) = view_of s <| v_tree ::= filter (λ q, q ≠ p) |>.
Proof. unfold view_of, put_field_to. cbn. by rewrite rb_erase_inorder. Qed.

(** A cached object nobody uses leaves the cache: what [msm_cvp_free_unused_mapping] and the
    end of a session do with a node. *)
Definition evict (p : Z) (a : msm_cvp_smem) (k : Z → B Z) : B Z :=
  modify (λ s, s <| b_rbtree ::= rb_erase p |>) ;;
  rc ← msm_cvp_unmap_smem p;
  whenS (rc =? 0) (msm_cvp_smem_put_dma_buf (sm_dma_buf a) ;; va_sub (sm_size a)) ;;
  smem_kfree p ;;
  modify (λ s, s <| b_nr ::= Z.pred |>) ;;
  k rc.

Lemma from_evict T X D v p a k Q :
  okv T X D [] 0 v → p ∈ v_tree v → v_heap v !! p = Some (abs_smem a) → p ∉ T ++ uses v →
  (∀ rc v', okv T X D [] 0 v' → shrunk v v' → v_nr v' = v_nr v - 1 →
            v_tree v' = filter (λ q, q ≠ p) (v_tree v) → from v' (k rc) Q) →
  from v (evict p a k) Q.
Proof.
  intros Hok Hpt Hp Hu Hk. unfold evict.
  pose proof (ok_unlink _ _ _ _ _ _ _ _ Hok Hpt Hp Hu) as Hok1.
  eapply (from_modify _ _ (λ v, v <| v_tree ::= filter (λ q, q ≠ p) |>));
    [intros s; apply unlink_view|].
  eapply from_keeps; [by apply (keeps_unmap_smem _ p (abs_smem a))|]. intros rc.
  eapply from_bind.
  { apply (from_giveback T X D (0 + 1) _ p (abs_smem a) (rc =? 0) _ Hok1 Hp).
    intros w. apply keeps_va_sub. }
  intros [] v1 (E & r & HE & Hok2 & ->).
  eapply from_bind; [by apply (from_kfree _ p (abs_smem a))|]. intros [] v2 ->.
  pose proof (ok_nr_pred _ _ _ _ _ _ (ok_free _ _ _ _ _ _ _ _ Hok2 Hp HE)) as Hok3.
  eapply (from_modify _ _ (λ v, v <| v_nr ::= Z.pred |>)); [done|].
  apply Hk; [exact Hok3| |done|done].
  split_and!; [done|done| |]; unfold put_field_to; cbn [v_tree v_heap].
  - intros q Hq. by apply list_elem_of_filter in Hq as [_ ?].
  - intros q Hq. rewrite lookup_delete_ne; [done|]. intros ->.
    destruct Hq as [Hq|]; [|done]. apply list_elem_of_filter in Hq as [? _]. done.
Qed.

Lemma free_if_unused_ok T X D v p :
  okv T X D [] 0 v → p ∈ v_tree v →
  from v (free_if_unused p) (λ n v',
    okv T X D [] 0 v' ∧ shrunk v v' ∧ 0 <= n ∧ v_nr v' = v_nr v - n ∧
    (∀ q, q ∈ v_tree v → q ≠ p → q ∈ v_tree v')).
Proof.
  intros Hok Hpt. destruct (ok_tree _ _ _ _ _ _ Hok p Hpt) as (o & Hp & Hco).
  unfold free_if_unused. eapply from_smem_get; [exact Hp|]. intros a <-.
  apply from_if; intros Hz; zify_bool.
  - apply (from_evict T X D v p a (λ _, mret 1) _ Hok Hpt Hp).
    { eapply ok_unused; [exact Hok|exact Hp|]. cbn. lia. }
    intros rc v' Hok' Hs Hn Ht. apply from_ret. split_and!; try done.
    intros q Hq Hne. rewrite Ht. by apply list_elem_of_filter.
  - apply from_ret. split_and!; [done|apply shrunk_refl|lia|lia|done].
Qed.

Lemma free_unused_in_ok T X D l : ∀ v n,
  okv T X D [] 0 v → NoDup l → (∀ p, p ∈ l → p ∈ v_tree v) →
  from v (free_unused_in l n) (λ n' v',
    okv T X D [] 0 v' ∧ shrunk v v' ∧ n <= n' ∧ v_nr v' = v_nr v - (n' - n)).
Proof.
  induction l as [|p l IH]; intros v n Hok Hn Hl; cbn [free_unused_in].
  - apply from_ret. split_and!; [done|apply shrunk_refl|lia|lia].
  - apply NoDup_cons in Hn as [Hpl Hn].
    eapply from_bind; [apply (free_if_unused_ok T X D v p Hok); apply Hl; left|].
    intros n1 v1 (Hok1 & Hs1 & Hge & Hn1 & Ht1).
    eapply from_post; [apply (IH v1 (n + n1) Hok1 Hn)|].
    + intros q Hq. apply Ht1; [apply Hl; by right|by intros ->].
    + intros n2 v2 (Hok2 & Hs2 & Hle & Hn2).
      split_and!; [done|by eapply shrunk_trans|lia|lia].
Qed.

Lemma free_unused_ok T X D v :
  okv T X D [] 0 v →
  from v msm_cvp_free_unused_mapping (λ n v',
    okv T X D [] 0 v' ∧ shrunk v v' ∧ 0 <= n ∧ v_nr v' = v_nr v - n).
Proof.
  intros Hok. unfold msm_cvp_free_unused_mapping. apply (from_gets _ _ v_tree); [done|].
  eapply from_post; [apply (free_unused_in_ok T X D (v_tree v) v 0 Hok)|].
  - by eapply ok_tree_nodup.
  - done.
  - intros n v' (? & ? & ? & ?). split_and!; [done..|lia].
Qed.

(** ** Caching a mapping *)

Lemma from_link {C} T X D v p o (f : unit → B C) Q :
  okv T (p :: X) D [] 0 v → v_heap v !! p = Some o → a_cached o = false →
  v_nr v < v_cap v → (∀ q, q ∈ v_tree v → dma_of (v_heap v) q ≠ a_dma o) →
  (∀ v', okv T X D [] 0 v' → same_lists v v' →
     v_heap v' !! p = Some (mkA (a_dma o) true (a_cnt o)) → from v' (f tt) Q) →
  from v (msm_cvp_add_smem_rb_node p ≫= f) Q.
Proof.
  intros Hok Hp Hco Hcap Hne Hf. unfold msm_cvp_add_smem_rb_node.
  apply from_assoc. eapply from_smem_get; [exact Hp|]. intros a <-.
  apply from_assoc. eapply (from_gets_spec _ _ (λ r, ∃ t' l1 l2, r = Done t' ∧
    v_tree v = l1 ++ l2 ∧ inorder t' = l1 ++ p :: l2 ∧
    (∀ q, q ∈ l1 → dma_of (v_heap v) q < sm_dma_buf a) ∧
    (∀ q, q ∈ l2 → sm_dma_buf a < dma_of (v_heap v) q))).
  { intros s <-. apply ok_ordered in Hok as Hord.
    assert (Hkey : ∀ q, dma_of (v_heap (view_of s)) q = from_option sm_dma_buf 0 (b_smems s !! q)).
    { intros q. unfold dma_of. rewrite view_heap. by destruct (b_smems s !! q). }
    destruct (link_node_inorder (b_smems s) (sm_dma_buf a) p (b_rbtree s))
      as (t' & l1 & l2 & Hlink & E & E' & Hl1 & Hl2); [done| |].
    { intros q Hq. rewrite <- Hkey. by apply Hne. }
    exists t', l1, l2. split_and!; [done..| |]; intros q; rewrite Hkey; auto. }
  intros ? (t' & l1 & l2 & -> & E & E' & Hl1 & Hl2).
  apply from_assoc. eapply from_outcome; [done|]. apply from_assoc.
  eapply from_bind.
  { apply (from_smem_mod _ _ _ _ (mkA (sm_dma_buf a) true (sm_refcount a)) Hp).
    intros a' Ha. injection Ha as E1 E2 E3. unfold abs_smem. cbn. congruence. }
  intros [] v1 ->. apply from_assoc.
  eapply (from_modify _ _ (λ v, v <| v_tree := l1 ++ p :: l2 |> <| v_nr ::= Z.succ |>)).
  { intros s. unfold view_of, put_field_to. cbn. by rewrite rb_insert_color_inorder, E'. }
  eapply from_keeps; [by apply keeps_modify|]. intros []. apply Hf.
  - by apply (ok_link T X D [] 0 v p (abs_smem a) l1 l2).
  - done.
  - apply lookup_insert_eq.
Qed.

Lemma add_smem_ok T X D v p o :
  okv T (p :: X) D [] 0 v → v_heap v !! p = Some o → a_cached o = false → 0 <= a_cnt o →
  (∀ q, q ∈ v_tree v → dma_of (v_heap v) q ≠ a_dma o) →
  from v (msm_cvp_session_add_smem p) (λ rc v',
    (rc = 0 ∨ rc = - ENOMEM) ∧ okv (p :: T) X D [] 0 v' ∧ same_lists v v').
Proof.
  intros Hok Hp Hco Hcnt Hne. unfold msm_cvp_session_add_smem.
  apply (from_gets _ _ v_nr); [done|]. apply (from_gets _ _ v_cap); [done|].
  assert (Hpx : ∀ w, okv T X D [] 0 w → same_lists v w → p ∉ X ++ wnccs w).
  { intros w _ Hs. rewrite (same_lists_wnccs _ _ Hs).
    pose proof (ok_nodup _ _ _ _ _ _ Hok) as Hn. by apply NoDup_cons in Hn as [? _]. }
  eapply (from_bind _ _ _ (λ full w, same_lists v w ∧
    if full : bool then okv T (p :: X) D [] 0 w ∧ v_heap w !! p = Some o
    else okv T X D [] 0 w ∧ ∃ o', v_heap w !! p = Some o')).
  { apply from_if; intros Hlt; zify_bool.
    - eapply from_link; [done..|lia|done|]. intros w Hw Hs Hpw. apply from_ret. eauto.
    - eapply from_bind; [by apply (free_unused_ok T (p :: X) D)|].
      intros n w (Hw & (Hs & Hc & Ht & Hh) & Hn0 & Hnr).
      pose proof (ok_nr _ _ _ _ _ _ Hok) as (_ & Hcap & Hcaps).
      eapply (from_modify _ _ (λ v, v <| v_cap ::= λ c, if c <? 256 then 256 else c |>)); [done|].
      set (w' := w <| v_cap ::= λ c, if c <? 256 then 256 else c |>).
      assert (Hw' : okv T (p :: X) D [] 0 w').
      { destruct Hw as [? ? ? ? ? ? ? ? ? ? (Hk1 & Hk2 & Hk3) ?].
        split; try done. unfold w', put_field_to; cbn [v_nr v_tree v_cap].
        destruct Hk3 as [E|E]; rewrite E in *; cbn; lia. }
      assert (Hpt : p ∉ v_tree v) by (apply (ok_excl _ _ _ _ _ _ Hok); left).
      assert (Hpw : v_heap w' !! p = Some o) by (rewrite <- Hp; apply Hh; by right).
      apply from_if; intros Hz; zify_bool; [by apply from_ret|].
      eapply from_link; [exact Hw'|exact Hpw|done| | |].
      + unfold w', put_field_to; cbn [v_nr v_cap]. rewrite Hc in *.
        destruct Hcaps as [E|E]; rewrite E in *; cbn; lia.
      + intros q Hq. unfold dma_of. rewrite Hh by (by left). apply Hne, Ht, Hq.
      + intros u Hu Hsu Hpu. apply from_ret. split; [|eauto].
        eapply same_lists_trans; [exact Hs|exact Hsu]. }
  intros full w [Hs Hw].
  eapply (from_bind _ _ _ (λ _ u, okv (p :: T) X D [] 0 u ∧ same_lists v u)).
  { destruct full.
    - destruct Hw as [Hw Hpw]. eapply from_post; [by apply from_ref_inc|]. intros [] u ->.
      split; [|exact Hs]. pose proof (ok_raise _ _ _ _ _ _ _ _ Hw Hpw) as Hr.
      eapply ok_share; [exact Hr|apply lookup_insert_eq|cbn; lia|done].
    - destruct Hw as [Hw [o' Hpw]]. eapply from_post; [by apply from_ref_inc|]. intros [] u ->.
      split; [|exact Hs]. apply ok_inc; [done..|by apply Hpx]. }
  intros [] u [Hu Hsu]. destruct full; [apply from_ret; auto|].
  eapply from_keeps; [apply keeps_gets|]. intros va.
  eapply from_keeps; [keeps_tac|]. intros []. apply from_ret. auto.
Qed.

(** ** Finding a mapping *)

Lemma find_dma_spec m d l :
  (∀ p, p ∈ ib_smem <$> l → is_Some (m !! p)) →
  ∃ o, find_dma m d l = Done o ∧ ∀ p, o = Some p → p ∈ ib_smem <$> l.
Proof.
  induction l as [|b l IH]; intros Hl; cbn [find_dma]; [by exists None|].
  rewrite fmap_cons in *.
  destruct IH as (o & Eo & Hin); [intros p Hp; apply Hl; by right|].
  assert (Ho : ∀ p, o = Some p → p ∈ ib_smem b :: (ib_smem <$> l)) by (intros; right; auto).
  destruct (ib_smem b =? 0); [by exists o|].
  destruct (Hl (ib_smem b)) as [a ->]; [left|].
  destruct (sm_dma_buf a =? d); [|by exists o].
  exists (Some (ib_smem b)). split; [done|]. intros p [= <-]. left.
Qed.

(** A search of one of the lists. *)
Lemma from_find_dma {C} T X D E k v d (l : view → list cvp_internal_buf) lst
    (f : outcome (option Z) → B C) Q :
  okv T X D E k v → (∀ s, lst s = l (view_of s)) →
  (∀ p, p ∈ ib_smem <$> l v → p ∈ uses v) →
  (∀ o, (∀ p, o = Some p → p ∈ ib_smem <$> l v ∧ is_Some (v_heap v !! p) ∧ p ∉ X ++ wnccs v) →
    from v (f (Done o)) Q) →
  from v (gets (λ s, find_dma (b_smems s) d (lst s)) ≫= f) Q.
Proof.
  intros Hok Hlst Hl Hf s Hs.
  assert (Hlive : ∀ p, p ∈ ib_smem <$> l v → is_Some (b_smems s !! p)).
  { intros p Hp. assert (Hin : p ∈ T ++ uses v) by (apply elem_of_app; right; auto).
    apply (ok_live _ _ _ _ _ _ Hok) in Hin. rewrite <- Hs, view_heap in Hin.
    by apply fmap_is_Some in Hin. }
  destruct (find_dma_spec (b_smems s) d (l v) Hlive) as (o & Eo & Hin).
  destruct (Hf o) with (s := s) as (c & s' & Ec & Hc); [|done|].
  { intros p Hp. pose proof (Hin p Hp) as Hpl. split_and!; [done| |].
    - rewrite <- Hs, view_heap. apply fmap_is_Some. auto.
    - intros Hx. destruct (ok_excl _ _ _ _ _ _ Hok p Hx) as (_ & Hu & _). apply Hu.
      apply elem_of_app. right. auto. }
  exists c, s'. split; [|done]. srun. by rewrite Hlst, Hs, Eo.
Qed.

Lemma find_smem_ok T X D v d t :
  okv T X (d :: D) [] 0 v → 0 < d →
  from v (msm_cvp_session_find_smem d t) (λ o v', same_lists v v' ∧
    match o with
    | Some p => okv (p :: T) X D [] 0 v'
    | None => v' = v ∧ ∀ q, q ∈ v_tree v → dma_of (v_heap v) q ≠ d
    end).
Proof.
  intros Hok Hd. unfold msm_cvp_session_find_smem, find_smem_rb_node.
  apply from_assoc. eapply (from_gets_spec _ _ (λ r, ∃ o, r = Done o ∧
    match o with
    | Some p => p ∈ v_tree v ∧ dma_of (v_heap v) p = d
    | None => ∀ q, q ∈ v_tree v → dma_of (v_heap v) q ≠ d
    end)).
  { intros s <-. apply ok_ordered in Hok as Hord. rewrite (find_node_search _ _ _ Hord).
    eexists. split; [reflexivity|].
    assert (Hkey : ∀ q, dma_of (v_heap (view_of s)) q = from_option sm_dma_buf 0 (b_smems s !! q)).
    { intros q. unfold dma_of. rewrite view_heap. by destruct (b_smems s !! q). }
    destruct (cache_search _ _ _) as [p|] eqn:E.
    - apply cache_search_some in E as [Hp Hk]. by rewrite Hkey.
    - intros q Hq. rewrite Hkey. by eapply cache_search_none_inv. }
  intros ? (o & -> & Ho). eapply from_outcome; [done|]. destruct o as [p|].
  - destruct Ho as [Hpt Hk]. destruct (ok_tree _ _ _ _ _ _ Hok p Hpt) as (o & Hp & Hco).
    unfold dma_of in Hk. rewrite Hp in Hk. cbn [from_option] in Hk.
    assert (Hpx : p ∉ X ++ wnccs v) by by intros (_ & _ & ?)%(ok_excl _ _ _ _ _ _ Hok).
    eapply (from_bind _ _ _ (λ _ w, w = v)).
    { eapply from_post; [apply (from_smem_mod v p _ o o Hp)|].
      - intros a <-. cbn in Hco. unfold abs_smem. cbn. by rewrite Hco.
      - intros [] w ->. by apply view_heap_same. }
    intros [] w ->. eapply from_bind; [by apply from_ref_inc|]. intros [] w ->.
    eapply from_smem_get; [apply lookup_insert_eq|]. intros a Ha.
    apply (f_equal a_dma) in Ha. cbn in Ha. rewrite Ha, Hk.
    pose proof (ok_inc _ _ _ _ _ _ _ _ Hok Hp Hpx) as Hi.
    eapply from_bind; [apply from_put; intros _; eapply ok_put_pos; [exact Hi|lia]|].
    intros [] w ->. apply from_ret. split; [|by apply ok_put].
    eapply same_lists_trans; [|apply put_ref_same]. done.
  - eapply (from_find_dma _ _ _ _ _ _ _ v_persist); [exact Hok|done|apply pers_uses|].
    intros o Hin. eapply from_outcome; [done|]. destruct o as [p|].
    + destruct (Hin p eq_refl) as (_ & [o Hp] & Hpx).
      eapply from_bind; [by apply from_ref_inc|]. intros [] w ->. apply from_ret.
      split; [done|]. by eapply ok_leak, ok_inc.
    + eapply (from_find_dma _ _ _ _ _ _ _ (λ v, frame_bufs (v_frames v))); [exact Hok|done| |].
      { intros p Hp. unfold uses. rewrite fmap_app, elem_of_app. auto. }
      intros o Hinf. eapply from_outcome; [done|]. destruct o as [p|].
      * destruct (Hinf p eq_refl) as (_ & [o Hp] & Hpx).
        eapply from_bind; [by apply from_ref_inc|]. intros [] w ->. apply from_ret.
        split; [done|]. by eapply ok_leak, ok_inc.
      * apply from_ret. done.
Qed.

(** ** Getting a mapping *)

(** The end of [msm_cvp_session_get_smem] when a fresh object is given up. *)
Lemma get_smem_exit_ok T X D v p o :
  okv T (p :: X) D [] 0 v → v_heap v !! p = Some o →
  from v (get_smem_exit p (a_dma o)) (λ r v', r = 0 ∧ okv T X D [] 0 v' ∧ same_lists v v').
Proof.
  intros Hok Hp. unfold get_smem_exit.
  eapply from_bind; [by apply (from_giveback1 T X D 0 v p o true)|].
  intros [] v1 (E & r & HE & Hok1 & ->).
  eapply from_bind; [by apply (from_kfree _ p o)|]. intros [] v2 ->. apply from_ret.
  split_and!; [done| |done]. by eapply ok_free.
Qed.

Lemma get_smem_exit2_ok T X D v p o :
  okv T (p :: X) D [] 0 v → v_heap v !! p = Some o →
  from v (get_smem_exit2 p (a_dma o)) (λ r v', r = 0 ∧ okv T X D [] 0 v' ∧ same_lists v v').
Proof.
  intros Hok Hp. unfold get_smem_exit2.
  eapply from_keeps; [by apply (keeps_unmap_smem _ p o)|]. intros rc.
  apply from_if; intros _; by apply get_smem_exit_ok.
Qed.

(** What [msm_cvp_session_get_smem] promises: nothing, or a mapping and a reference to it;
    a mapping for a persistent buffer is a new one. *)
Definition got T X D (is_persist : bool) v (p : Z) v' : Prop :=
  same_lists v v' ∧
  (p = 0 ∧ okv T X D [] 0 v' ∨
   p ≠ 0 ∧ okv (p :: T) X D [] 0 v' ∧
   (is_persist = true → p ∉ pers v' ∧ p ∉ v_tree v')).

(** A fresh object that takes over a dma_buf reference. *)
Lemma from_fresh T X D v d f (k : Z → B Z) Q :
  okv T X (d :: D) [] 0 v → 0 < d →
  (∀ a, abs_smem a = mkA 0 false 0 → abs_smem (f a) = mkA d false 0) →
  Q 0 v →
  (∀ p, p ≠ 0 → v_heap v !! p = None →
    let v' := v <| v_heap ::= <[p := mkA d false 0]> |> in
    okv T (p :: X) D [] 0 v' → from v' (k p) Q) →
  from v (p ← smem_zalloc; if p =? 0 then mret 0 else smem_mod p f ;; k p) Q.
Proof.
  intros Hok Hd Hf HQ Hk. eapply from_bind; [apply from_zalloc|].
  intros p v1 [[-> ->]|(Hp0 & Hp & ->)]; [by apply from_ret|].
  rewrite (proj2 (Z.eqb_neq p 0)) by done.
  pose proof (ok_alloc _ _ _ _ _ _ _ Hok Hp Hp0) as Hok1.
  eapply from_bind; [by apply (from_smem_mod _ _ _ _ _ (lookup_insert_eq _ _ _) Hf)|].
  intros [] v2 ->.
  pose proof (ok_set_dma _ _ _ _ _ _ p d _ Hok1 (lookup_insert_eq _ _ _) eq_refl
    ltac:(left) ltac:(lia)) as Hok2.
  assert (E : v <| v_heap ::= <[p := mkA 0 false 0]> |> <| v_heap ::= <[p := mkA d false 0]> |>
              = v <| v_heap ::= <[p := mkA d false 0]> |>).
  { destruct v. unfold put_field_to. cbn. by rewrite insert_insert_eq. }
  cbn [a_cached a_cnt] in Hok2. rewrite E in *. by apply Hk.
Qed.

Lemma fresh_not_used T X D v p o :
  okv T (p :: X) D [] 0 v → v_heap v !! p = Some o → p ∉ pers v ∧ p ∉ v_tree v.
Proof.
  intros Hok Hp. destruct (ok_excl _ _ _ _ _ _ Hok p) as (_ & Hu & Ht); [left|].
  split; [|done]. intros Hin%pers_uses. apply Hu, elem_of_app. by right.
Qed.

Lemma got_nothing T X D b v v' : same_lists v v' → okv T X D [] 0 v' → got T X D b v 0 v'.
Proof. intros Hs Hok. split; [done|]. by left. Qed.

Lemma got_fresh T X D v v' p o :
  same_lists v v' → okv T (p :: X) D [] 0 v' → v_heap v' !! p = Some o → 1 <= a_cnt o →
  a_cached o = false → got T X D true v p v'.
Proof.
  intros Hs Hok Hp Hn Hco. split; [done|]. right.
  split_and!; [by eapply ok_nonzero|by eapply ok_share|]. intros _. by eapply fresh_not_used.
Qed.

Lemma get_persist_ok T X D v d buf t :
  okv T X (d :: D) [] 0 v → 0 < d →
  from v (p ← smem_zalloc;
    if p =? 0 then mret 0
    else
      smem_mod p (λ a, a <| sm_dma_buf := d |> <| sm_pkt_type := t |>
                         <| sm_cached := false |> <| sm_flags ::= Z.lor SMEM_PERSIST |>
                         <| sm_fd := bt_fd buf |>) ;;
      ref_inc p ;;
      rc ← msm_cvp_map_smem p;
      if negb (rc =? 0) then get_smem_exit p d
      else
        a ← smem_get p;
        if negb (IS_CVP_BUF_VALID buf a) then get_smem_exit2 p d else mret p)
    (got T X D true v).
Proof.
  intros Hok Hd. eapply from_fresh; [done..| | |].
  - intros a Ha. injection Ha as ? ? ?. unfold abs_smem. cbn. congruence.
  - apply got_nothing; [done|by eapply ok_leak].
  - intros p Hp0 Hp v1 Hok1.
    assert (Hp1 : v_heap v1 !! p = Some (mkA d false 0)) by apply lookup_insert_eq.
    eapply from_bind; [by apply from_ref_inc|]. intros [] v2 ->.
    pose proof (ok_raise _ _ _ _ _ _ _ _ Hok1 Hp1) as Hok2.
    set (o := add_cnt 1 (mkA d false 0)) in *. set (v2 := v1 <| v_heap ::= <[p := o]> |>) in *.
    assert (Hp2 : v_heap v2 !! p = Some o) by apply lookup_insert_eq.
    eapply from_keeps; [by eapply keeps_map_smem|]. intros rc.
    apply from_if; intros _.
    { eapply from_post; [by apply (get_smem_exit_ok _ _ _ _ _ _ Hok2 Hp2)|].
      intros r w (-> & Hw & Hs). by apply got_nothing. }
    eapply from_smem_get; [exact Hp2|]. intros a _. apply from_if; intros _.
    { eapply from_post; [by apply (get_smem_exit2_ok _ _ _ _ _ _ Hok2 Hp2)|].
      intros r w (-> & Hw & Hs). by apply got_nothing. }
    apply from_ret. eapply got_fresh; [done|done|exact Hp2|by cbn|done].
Qed.

Lemma get_smem_ok T X D v buf is_persist t :
  okv T X D [] 0 v →
  from v (msm_cvp_session_get_smem buf is_persist t) (got T X D is_persist v).
Proof.
  intros Hok. unfold msm_cvp_session_get_smem.
  eapply from_bind; [apply from_get_dma|]. intros d v1 [[-> ->]|[Hd ->]].
  { cbn. apply from_ret. by apply got_nothing. }
  rewrite (proj2 (Z.eqb_neq d 0)) by lia. apply ok_get_ref with (d := d) in Hok.
  set (v1 := v <| v_refs ::= _ |>) in *.
  destruct is_persist; [by apply (get_persist_ok T X D v1)|].
  eapply from_bind; [by apply find_smem_ok|]. intros [p|] v2 [Hs Ho].
  - destruct (ok_live _ _ _ _ _ _ Ho p) as [o Hp]; [left|].
    eapply from_smem_get; [exact Hp|]. intros a _. apply from_if; intros _.
    + eapply from_bind; [by apply from_ref_dec|]. intros z w [_ ->]. apply from_ret.
      apply got_nothing; [exact Hs|]. by eapply ok_dec.
    + apply from_ret. split; [exact Hs|]. right. split_and!; [by eapply ok_nonzero|done|done].
  - destruct Ho as [-> Hne]. eapply from_fresh; [done..| | |].
    + intros a Ha. injection Ha as ? ? ?. unfold abs_smem. cbn. congruence.
    + apply got_nothing; [done|by eapply ok_leak].
    + intros p Hp0 Hp v2 Hok2. cbn [is_params_pkt whenS].
      assert (Hp2 : v_heap v2 !! p = Some (mkA d false 0)) by apply lookup_insert_eq.
      eapply from_keeps; [apply keeps_ret|]. intros [].
      eapply from_keeps; [by eapply keeps_map_smem|]. intros rc.
      apply from_if; intros _.
      { eapply from_post; [by apply (get_smem_exit_ok _ _ _ _ _ _ Hok2 Hp2)|].
        intros r w (-> & Hw & Hsw). by apply got_nothing. }
      eapply from_smem_get; [exact Hp2|]. intros a _. apply from_if; intros _.
      { eapply from_post; [by apply (get_smem_exit2_ok _ _ _ _ _ _ Hok2 Hp2)|].
        intros r w (-> & Hw & Hsw). by apply got_nothing. }
      eapply from_bind; [apply (add_smem_ok T X D v2 p _ Hok2 Hp2); [done|done|]|].
      { intros q Hq. unfold dma_of, v2, put_field_to. cbn [v_heap].
        rewrite lookup_insert_ne; [by apply Hne|]. intros ->.
        by destruct (fresh_not_used _ _ _ _ _ _ Hok2 Hp2). }
      intros rc2 w (Hrc & Hw & Hsw). apply from_if; intros Hc.
      { exfalso. apply andb_true_iff in Hc as [Hc1 Hc2]. zify_bool.
        destruct Hrc as [-> | ->]; congruence. }
      apply from_ret. split; [exact Hsw|]. right.
      destruct (ok_live _ _ _ _ _ _ Hw p) as [o Ho]; [left|].
      split_and!; [by eapply ok_nonzero|done|done].
Qed.

End cache.
