(* ===== verification/BufferFrames.v ===== *)
(** Frames keep every reference accounted for: mapping and unmapping the buffers of a frame,
    whatever the packet says and whichever kernel call fails. *)

From S2P Require Import Prelude Store HfiTypes HfiDefs Smem Buffers BufferView BufferInv.
From S2P Require Import BufferCache.
From stdpp Require Import list.
Open Scope Z_scope.

(** * Packet words *)

Lemma get_buf_ok pkt off :
  0 <= off → off + 12 <= Z.of_nat (length pkt) → ∃ b, get_buf pkt off = Done b.
Proof.
  intros. unfold get_buf. rewrite !word_at_ok by lia. cbn. eauto.
Qed.

Lemma words_write_done m off data :
  0 <= off → off + Z.of_nat (length data) <= Z.of_nat (length m) →
  ∃ m', words_write m off data = Done m' ∧ length m' = length m.
Proof.
  intros. eexists. split; [by apply words_write_ok|].
  eapply length_words_write. by apply words_write_ok.
Qed.

Lemma put_buf_ok pkt off b :
  0 <= off → off + 12 <= Z.of_nat (length pkt) →
  ∃ pkt', put_buf pkt off b = Done pkt' ∧ length pkt' = length pkt.
Proof.
  intros. unfold put_buf.
  destruct (words_write_done pkt off [bt_fd b; bt_size b]) as (p1 & -> & E1); [lia|cbn; lia|].
  destruct (words_write_done p1 (off + 11) [bt_context_bank_id b]) as (p2 & E & E2);
    [lia|cbn; lia|]. exists p2. split; [exact E|congruence].
Qed.

Lemma set_kdata_ok pkt k :
  10 <= Z.of_nat (length pkt) → ∃ pkt', set_kdata pkt k = Done pkt' ∧ length pkt' = length pkt.
Proof. intros. apply words_write_done; [lia|cbn; lia]. Qed.

Lemma is_config_pkt_ok ver defs t : ∃ b, is_config_pkt ver defs t = Done b.
Proof.
  unfold is_config_pkt. destruct (get_pkt_index_range ver defs (Some t)) as (i & -> & Hi).
  cbn [obind]. destruct (Z.ltb_spec i 0); [eauto|].
  destruct Hi as [->|[Hi _]]; [unfold EINVAL in *; lia|]. rewrite table_at_ok by done. cbn. eauto.
Qed.

(** * Frames *)

Definition toks (f : msm_cvp_frame) : list Z := ib_smem <$> fr_bufs f.

Lemma frame_bufs_app l k : frame_bufs (l ++ k) = frame_bufs l ++ frame_bufs k.
Proof. apply bind_app. Qed.

Section frames.
Context `{BufEnv} `{RbLaws} `{!BufLaws}.
Implicit Types (v : view) (p : Z) (T X D : list Z).

(** An object whose last reference is given up outside the cache. *)
Lemma ok_last T X D v p o :
  okv (p :: T) X D [] 0 v → v_heap v !! p = Some o → a_cached o = false → a_cnt o - 1 = 0 →
  okv T (p :: X) D [] 0 (v <| v_heap ::= <[p := add_cnt (-1) o]> |>).
Proof.
  intros Hok Hp Hco Hz. pose proof (ok_dec _ _ _ _ _ _ _ _ Hok Hp) as Hd.
  assert (Hp' : v_heap (v <| v_heap ::= <[p := add_cnt (-1) o]> |>) !! p
                = Some (add_cnt (-1) o)) by apply lookup_insert_eq.
  apply ok_own; [done|by eexists| | |].
  - eapply ok_unused; [exact Hd|exact Hp'|]. cbn. lia.
  - intros Ht. destruct (ok_tree _ _ _ _ _ _ Hok p Ht) as (o' & Ho' & Hc'). congruence.
  - intros Hx. destruct (ok_excl _ _ _ _ _ _ Hok p Hx) as (_ & Hu & _). apply Hu. left.
Qed.

Lemma unmap_one_ok T X D v b :
  okv (ib_smem b :: T) X D [] 0 v →
  from v (unmap_one b) (λ _ v', okv T X D [] 0 v' ∧ same_lists v v').
Proof.
  intros Hok. unfold unmap_one. set (p := ib_smem b) in *.
  destruct (ok_live _ _ _ _ _ _ Hok p) as [o Hp]; [left|].
  eapply from_keeps; [apply keeps_cache_ops; by eexists|]. intros [].
  rewrite (proj2 (Z.eqb_neq p 0)) by by eapply ok_nonzero.
  eapply from_smem_get; [exact Hp|]. intros a Ha.
  eapply (from_bind _ _ _ (λ _ w, okv T X D [] 0 w ∧ same_lists v w)).
  2: { intros [] w Hw. eapply from_post; [by apply keeps_modify|]. by intros [] ? ->. }
  pose proof (ok_dec _ _ _ _ _ _ _ _ Hok Hp) as Hd.
  assert (Hp' : v_heap (v <| v_heap ::= <[p := add_cnt (-1) o]> |>) !! p
                = Some (add_cnt (-1) o)) by apply lookup_insert_eq.
  apply from_if; intros Hco.
  - eapply from_bind; [by apply from_ref_dec|]. intros z w [-> ->].
    eapply from_post; [apply keeps_whenS; intros _; by eapply keeps_smem_mod|].
    intros [] ? ->. done.
  - eapply from_bind; [by apply from_ref_dec|]. intros z w [-> ->].
    destruct (Z.eqb_spec (a_cnt o - 1) 0) as [Hz|]; cbn [whenS]; [|by apply from_ret].
    assert (Hcf : a_cached o = false) by by rewrite <- Ha.
    pose proof (ok_last _ _ _ _ _ _ Hok Hp Hcf Hz) as Hl.
    eapply from_keeps; [by eapply keeps_unmap_smem|]. intros rc.
    replace (sm_dma_buf a) with (a_dma (add_cnt (-1) o)) by by rewrite <- Ha.
    eapply from_bind; [by apply from_giveback1|].
    intros [] w (E & r & HE & Hok1 & ->).
    eapply from_keeps; [by eapply (keeps_smem_mod _ p _ (add_cnt (-1) o))|]. intros [].
    eapply from_post; [by apply (from_kfree _ p (add_cnt (-1) o))|]. intros [] w ->.
    split; [|done]. by eapply ok_free.
Qed.

(** The loop over buffers whose references we hold. *)
Lemma unmap_bufs_ok T X D l : ∀ v,
  okv ((ib_smem <$> l) ++ T) X D [] 0 v →
  from v (each l unmap_one) (λ _ v', okv T X D [] 0 v' ∧ same_lists v v').
Proof.
  induction l as [|b l IH]; intros v Hok; cbn [each]; [by apply from_ret|].
  rewrite fmap_cons in Hok. eapply from_bind; [by apply unmap_one_ok|].
  intros [] w [Hw Hs]. eapply from_post; [by apply IH|]. intros [] u [Hu Hsu].
  split; [done|by eapply same_lists_trans].
Qed.

Lemma unmap_frame_buf_ok T X D v f :
  okv (toks f ++ T) X D [] 0 v →
  from v (msm_cvp_unmap_frame_buf f) (λ _ v', okv T X D [] 0 v' ∧ same_lists v v').
Proof. apply unmap_bufs_ok. Qed.

Lemma keeps_smmu_fault v iova : keeps v (smmu_fault_iova iova).
Proof.
  unfold smmu_fault_iova. apply keeps_bind; [apply keeps_gets|]. intros t. keeps_tac.
  apply keeps_gets.
Qed.

Lemma map_frame_buf_ok v buf f t i :
  okv (toks f) [] [] [] 0 v →
  from v (msm_cvp_map_frame_buf buf f t i) (λ r v',
    okv (toks r.1.2) [] [] [] 0 v' ∧ same_lists v v' ∧ fr_pkt_type r.1.2 = fr_pkt_type f
    ∧ fr_ktid r.1.2 = fr_ktid f).
Proof.
  intros Hok. unfold msm_cvp_map_frame_buf. apply from_if; intros _; [by apply from_ret|].
  eapply from_bind; [by apply get_smem_ok|]. intros p w [Hs [[-> Hw]|(Hp0 & Hw & _)]].
  { cbn. by apply from_ret. }
  rewrite (proj2 (Z.eqb_neq p 0)) by done.
  destruct (ok_live _ _ _ _ _ _ Hw p) as [o Hp]; [left|].
  eapply from_smem_get; [exact Hp|]. intros a _.
  eapply from_keeps; [by eapply keeps_smem_mod|]. intros [].
  eapply from_keeps; [by apply keeps_modify|]. intros [].
  eapply from_keeps; [apply keeps_cache_ops; by eexists|]. intros [].
  eapply from_smem_get; [exact Hp|]. intros a' _.
  eapply from_keeps; [apply keeps_smmu_fault|]. intros iova. apply from_ret. cbn [fst snd].
  split_and!; [|done..]. eapply ok_perm; [exact Hw|]. unfold toks, put_field_to. cbn [fr_bufs].
  rewrite fmap_app. cbn. by rewrite Permutation_app_comm.
Qed.

Lemma keeps_mapped_persist T X D E k v fd size :
  okv T X D E k v → keeps v (is_mapped_persist_buf fd size).
Proof.
  intros Hok. unfold is_mapped_persist_buf.
  eapply (from_gets_spec _ _ (λ r, ∃ o, r = Done o)).
  { intros s <-. cbn. assert (Hl : ∀ b, b ∈ b_persistbufs s → is_Some (b_smems s !! ib_smem b)).
    { intros b Hb. destruct (ok_live _ _ _ _ _ _ Hok (ib_smem b)) as [o Ho].
      - apply elem_of_app. right. unfold uses. rewrite fmap_app. apply elem_of_app. right.
        by apply list_elem_of_fmap_2.
      - rewrite view_heap in Ho. destruct (b_smems s !! ib_smem b); [by eexists|done]. }
    induction (b_persistbufs s) as [|b l IH]; cbn [find_persist]; [eauto|].
    destruct (_ && _); [|apply IH; intros b' Hb; apply Hl; by right].
    destruct (Hl b) as [a ->]; [left|]. eauto. }
  intros ? [o ->]. by apply from_ret.
Qed.

Lemma map_frame_bufs_ok n : ∀ v i pkt off f,
  okv (toks f) [] [] [] 0 v → 0 <= off → off + 12 * Z.of_nat n <= Z.of_nat (length pkt) →
  from v (map_frame_bufs n i pkt off f) (λ r v', same_lists v v' ∧
    match r.1 with
    | Some f' => okv (toks f') [] [] [] 0 v' ∧ fr_ktid f' = fr_ktid f
    | None => okv [] [] [] [] 0 v'
    end).
Proof.
  induction n as [|n IH]; intros v i pkt off f Hok Hoff Hlen; cbn [map_frame_bufs];
    [by apply from_ret|].
  destruct (get_buf_ok pkt off) as [buf Eb]; [lia..|]. eapply from_outcome; [exact Eb|].
  assert (Hput : ∀ b, ∃ pkt', put_buf pkt off b = Done pkt' ∧ length pkt' = length pkt).
  { intros b. apply put_buf_ok; lia. }
  unfold buf_type_words. apply from_if; intros Hz.
  { destruct (Hput (buf <| bt_fd := 0 |> <| bt_size := 0 |>)) as (pkt' & Ep & El).
    eapply from_outcome; [exact Ep|]. apply IH; [done|lia|lia]. }
  destruct (is_config_pkt_ok b_hfi_ver b_cvp_hfi_defs (fr_pkt_type f)) as [c Ec].
  eapply from_outcome; [exact Ec|].
  eapply from_keeps.
  { destruct c; [by eapply keeps_mapped_persist|apply keeps_ret]. }
  intros [iova|].
  - destruct (Hput (buf <| bt_fd := iova |>)) as (pkt' & Ep & El).
    eapply from_outcome; [exact Ep|]. apply IH; [done|lia|lia].
  - eapply from_bind; [by apply map_frame_buf_ok|]. intros [[iova f'] buf'] w (Hw & Hs & Ht & Hk).
    cbn [fst snd] in *. apply from_if; intros Hi.
    + destruct (Hput buf') as (pkt' & Ep & El). eapply from_outcome; [exact Ep|].
      eapply from_bind.
      { apply (unmap_frame_buf_ok []). by rewrite app_nil_r. }
      intros [] u [Hu Hsu]. apply from_ret. split; [by eapply same_lists_trans|done].
    + destruct (Hput (buf' <| bt_fd := iova |>)) as (pkt' & Ep & El).
      eapply from_outcome; [exact Ep|].
      eapply from_post; [apply IH; [done|lia|lia]|]. intros [[f2|] pkt2] u [Hsu Hu];
        cbn [fst] in *; (split; [by eapply same_lists_trans|]); [|done].
      destruct Hu as [Hu Hk2]. split; [done|congruence].
Qed.

Lemma keeps_next_trans v : keeps v next_trans_id.
Proof. unfold next_trans_id. keeps_tac. apply keeps_gets. Qed.

(** A packet that passed [is_buf_param_valid]. *)
Definition packet_fits (pkt : list Z) (offset buf_num : Z) : Prop :=
  Z.of_nat (length pkt) = hfi_packet_words ∧ 0 <= offset ∧ 0 <= buf_num
  ∧ is_buf_param_valid buf_num offset = true.

Lemma packet_fits_bound pkt off n :
  packet_fits pkt off n → off + 12 * Z.of_nat (Z.to_nat n) <= Z.of_nat (length pkt).
Proof.
  unfold packet_fits, is_buf_param_valid, hfi_packet_words, buf_type_words, MAX_HFI_PKT_SIZE.
  intros (-> & Hoff & Hn & Hv). revert Hv. rewrite !Z.gtb_ltb.
  repeat case_match; zify_bool; intros; try done. lia.
Qed.

Lemma map_frame_ok v pkt off n :
  okv [] [] [] [] 0 v → packet_fits pkt off n →
  from v (msm_cvp_map_frame pkt off n) (λ _ v', okv [] [] [] [] 0 v').
Proof.
  intros Hok Hfit. pose proof (packet_fits_bound _ _ _ Hfit) as Hb.
  destruct Hfit as (Hlen & Hoff & Hn & _). unfold hfi_packet_words, MAX_HFI_PKT_SIZE in Hlen.
  unfold msm_cvp_map_frame. eapply from_keeps; [apply keeps_next_trans|]. intros ktid.
  destruct (set_kdata_ok pkt ktid) as (pkt1 & E1 & El); [lia|].
  eapply from_outcome; [exact E1|].
  apply from_if; intros _; [by apply from_ret|]. apply from_if; intros _; [by apply from_ret|].
  eapply from_keeps; [apply keeps_bext|]. intros fa.
  apply from_if; intros _; [by apply from_ret|].
  eapply from_outcome; [apply word_at_ok; lia|]. eapply from_outcome; [apply word_at_ok; lia|].
  eapply from_bind; [apply map_frame_bufs_ok; [done|lia|lia]|].
  intros [[f|] pkt2] w [Hs Hw]; cbn [fst] in *; [|by apply from_ret].
  destruct Hw as [Hw _].
  eapply (from_modify _ _ (λ v, v <| v_frames ::= λ l, l ++ [f] |>)); [done|]. apply from_ret.
  eapply ok_relist; [exact Hw|done..| |apply (ok_pers _ _ _ _ _ _ Hw)].
  unfold uses, put_field_to. cbn [v_frames v_persist]. rewrite frame_bufs_app.
  unfold frame_bufs at 3. cbn [mbind list_bind app]. rewrite app_nil_r, !fmap_app.
  unfold toks. cbn [app]. rewrite <- !app_assoc, !(assoc_L (++)).
  by rewrite (Permutation_app_comm (ib_smem <$> fr_bufs f)).
Qed.

Lemma take_frame_perm k l f r :
  take_frame k l = Some (f, r) → frame_bufs l ≡ₚ fr_bufs f ++ frame_bufs r.
Proof.
  revert r. induction l as [|g l IH]; intros r; cbn [take_frame]; [done|].
  destruct (fr_ktid g =? k); [by intros [= -> ->]|].
  destruct (take_frame k l) as [[g' r']|] eqn:E; [|done]. intros [= -> <-].
  unfold frame_bufs in *. cbn [mbind list_bind]. rewrite (IH r' eq_refl).
  rewrite !(assoc_L (++)). by rewrite (Permutation_app_comm (fr_bufs g)).
Qed.

Lemma keeps_backup v f :
  (∀ p, p ∈ toks f → is_Some (v_heap v !! p)) → keeps v (backup_frame_buffers f).
Proof.
  intros Hl. unfold backup_frame_buffers. keeps_step; [keeps_tac|].
  apply keeps_bind; [by apply keeps_modify|]. intros [].
  assert (Hr : ∀ b, b ∈ rev (fr_bufs f) → is_Some (v_heap v !! ib_smem b)).
  { intros b Hb. apply Hl, list_elem_of_fmap_2, list_elem_of_In, in_rev.
    by apply list_elem_of_In. }
  generalize (Z.of_nat (length (fr_bufs f)) - 1) as i.
  induction (rev (fr_bufs f)) as [|b l IH]; intros i; cbn [backup_bufs]; [apply keeps_ret|].
  destruct (Hr b) as [o Ho]; [left|]. eapply keeps_get_bind; [exact Ho|]. intros a _.
  keeps_tac. apply IH. intros b' Hb'. apply Hr. by right.
Qed.

Lemma unmap_frame_ok v ktid :
  okv [] [] [] [] 0 v → from v (msm_cvp_unmap_frame ktid) (λ _ v', okv [] [] [] [] 0 v').
Proof.
  intros Hok. unfold msm_cvp_unmap_frame. apply (from_gets _ _ v_frames); [done|].
  destruct (take_frame _ _) as [[f rest]|] eqn:E; [|by apply from_ret].
  eapply (from_modify _ _ (λ v, v <| v_frames := rest |>)); [done|].
  set (w := v <| v_frames := rest |>).
  assert (Hw : okv (toks f ++ []) [] [] [] 0 w).
  { eapply ok_relist; [exact Hok|done..| |apply (ok_pers _ _ _ _ _ _ Hok)].
    rewrite app_nil_r. unfold uses, w, put_field_to. cbn [v_frames v_persist app].
    rewrite (take_frame_perm _ _ _ _ E), !fmap_app. by rewrite <- (assoc_L (++)). }
  eapply from_keeps.
  { apply keeps_backup. intros p Hp. apply (ok_live _ _ _ _ _ _ Hw). set_solver. }
  intros []. eapply from_post; [by apply unmap_frame_buf_ok|]. by intros [] u [Hu _].
Qed.

End frames.
