(* ===== verification/BufferSafe.v ===== *)
(** Every operation on a session's buffers completes without touching freed memory and
    keeps every reference accounted for. *)

From S2P Require Import Prelude Store HfiTypes HfiDefs Smem Buffers BufferView BufferInv.
From S2P Require Import BufferCache BufferFrames.
From stdpp Require Import list.
Open Scope Z_scope.

(** Device addresses of driver-owned memory fit the device's 32-bit address space. *)
Class IovaLaws `{BufEnv} := sgl_iova_32 n t : b_answer n (Sgl_dma_address t) < 2 ^ 32.

Section persist.
Context `{BufEnv} `{RbLaws} `{!BufLaws}.
Implicit Types (v : view) (p d : Z) (T X D : list Z).

(** ** Persistent buffers *)

Lemma live_pers T X D E k v b :
  okv T X D E k v → b ∈ v_persist v → is_Some (v_heap v !! ib_smem b).
Proof.
  intros Hok Hb. apply (ok_live _ _ _ _ _ _ Hok), elem_of_app. right.
  by apply pers_uses, list_elem_of_fmap_2.
Qed.

(** A new entry of the persistent list. *)
Lemma ok_push_persist v b :
  okv [ib_smem b] [] [] [] 0 v → ib_smem b ∉ pers v → ib_smem b ∉ v_tree v →
  okv [] [] [] [] 0 (v <| v_persist ::= λ l, l ++ [b] |>).
Proof.
  intros Hok Hp Ht. eapply ok_relist; [exact Hok|done..| |].
  - unfold uses, put_field_to. cbn [v_frames v_persist]. rewrite !fmap_app. cbn.
    by rewrite (assoc_L (++)), Permutation_cons_append.
  - destruct (ok_pers _ _ _ _ _ _ Hok) as [Hn Hd]. unfold pers, put_field_to.
    cbn [v_persist]. rewrite fmap_app. cbn. split.
    + apply NoDup_app. split_and!; [done| |apply NoDup_singleton].
      intros q Hq ->%list_elem_of_singleton. done.
    + intros q [Hq|Hq]%elem_of_app; [by apply Hd|].
      by apply list_elem_of_singleton in Hq as ->.
Qed.

(** An entry taken out of the list leaves its reference with the operation. *)
Lemma ok_pop_persist T X D E k v kept b l :
  okv T X D E k v → v_persist v = kept ++ b :: l →
  okv (ib_smem b :: T) X D E k (v <| v_persist := kept ++ l |>).
Proof.
  intros Hok El. eapply ok_relist; [exact Hok|done..| |].
  - unfold uses, put_field_to. cbn [v_frames v_persist]. rewrite El, !fmap_app, fmap_cons.
    cbn [app]. by rewrite <- !Permutation_middle.
  - destruct (ok_pers _ _ _ _ _ _ Hok) as [Hn Hd]. unfold pers in Hn, Hd.
    rewrite El, fmap_app, fmap_cons in Hn. unfold pers, put_field_to. cbn [v_persist].
    rewrite fmap_app. split.
    + apply NoDup_app in Hn as (Hn1 & Hn12 & Hn2). apply NoDup_cons in Hn2 as [_ Hn2].
      apply NoDup_app. split_and!; [done| |done]. intros q Hq Hq'. apply (Hn12 q Hq). by right.
    + intros q Hq. apply Hd. rewrite El, fmap_app, fmap_cons.
      apply elem_of_app in Hq as [Hq|Hq]; apply elem_of_app; [by left|]. right. by right.
Qed.

Lemma popped_unused T X D E k v kept b l :
  okv T X D E k v → v_persist v = kept ++ b :: l →
  ib_smem b ∉ T ++ (ib_smem <$> frame_bufs (v_frames v)) →
  ib_smem b ∉ T ++ uses (v <| v_persist := kept ++ l |>).
Proof.
  intros Hok El Hf Hin. destruct (ok_pers _ _ _ _ _ _ Hok) as [Hn _].
  unfold pers in Hn. rewrite El, fmap_app, fmap_cons in Hn.
  apply NoDup_app in Hn as (_ & Hn12 & Hn2). apply NoDup_cons in Hn2 as [Hn2 _].
  unfold uses, put_field_to in Hin. cbn [v_frames v_persist] in Hin.
  rewrite !fmap_app, !elem_of_app in Hin. rewrite elem_of_app in Hf.
  destruct Hin as [?|[?|[Hq|?]]]; [naive_solver..| |done]. apply (Hn12 _ Hq). left.
Qed.

(** What [msm_cvp_smem_free] leaves of a view. *)
Definition released (p : Z) (o : aobj) (v : view) : view :=
  if a_dma o =? 0 then v
  else put_ref (a_dma o) v <| v_heap ::= <[p := mkA 0 (a_cached o) (a_cnt o)]> |>.

Lemma smem_free_view v p o :
  p ≠ 0 → v_heap v !! p = Some o → (a_dma o ≠ 0 → 0 < ref_of (a_dma o) (v_refs v)) →
  from v (msm_cvp_smem_free p) (λ _ v', v' = released p o v).
Proof.
  intros Hp0 Hp Hr. unfold msm_cvp_smem_free, free_dma_mem.
  rewrite (proj2 (Z.eqb_neq p 0)) by done.
  eapply from_smem_get; [exact Hp|]. intros a <-.
  eapply from_keeps.
  { apply keeps_whenS. intros _. apply keeps_bind; [by eapply keeps_put_address|].
    intros rc. keeps_tac. }
  intros []. eapply from_keeps; [keeps_tac|]. intros [].
  eapply (from_bind _ _ _ (λ _ w, w = released p (abs_smem a) v));
    [|intros [] w ->; by apply from_ret].
  unfold released. cbn [abs_smem a_dma a_cached a_cnt].
  destruct (sm_dma_buf a =? 0) eqn:Ed; cbn [negb whenS]; [by apply from_ret|].
  eapply from_bind; [by apply from_put_dma|].
  intros [] w ->. rewrite Ed.
  assert (Hp' : v_heap (put_ref (sm_dma_buf a) v) !! p = Some (abs_smem a))
    by by rewrite put_ref_heap.
  unfold put_ref in *. rewrite Ed in *.
  eapply from_post.
  { apply (from_smem_mod _ p _ _ (mkA 0 (sm_cached a) (sm_refcount a)) Hp').
    intros a' Ha. injection Ha as ? ? ?. unfold abs_smem. cbn. congruence. }
  by intros [] u ->.
Qed.

Lemma released_lists p o v : same_lists v (released p o v).
Proof.
  unfold released. destruct (a_dma o =? 0); [done|].
  eapply same_lists_trans; [apply put_ref_same|]. done.
Qed.

(** [msm_cvp_smem_free] on an object of ours. *)
Lemma from_smem_free T X D k v p o :
  okv T (p :: X) D [] k v → v_heap v !! p = Some o →
  from v (msm_cvp_smem_free p) (λ _ v',
    okv T (p :: X) D [] k v' ∧ same_lists v v' ∧ v_tree v' = v_tree v
    ∧ is_Some (v_heap v' !! p)).
Proof.
  intros Hok Hp. eapply from_post.
  { apply (smem_free_view v p o); [by eapply ok_nonzero|done|]. intros Hd.
    by apply (ok_debt_pos T (p :: X) D k v p o). }
  intros _ v' ->. split_and!; [|apply released_lists| |]; unfold released.
  - destruct (Z.eqb_spec (a_dma o) 0); [done|].
    apply (ok_clear_dma T X D k _ p o); [by apply ok_put_debt|by rewrite put_ref_heap].
  - destruct (a_dma o =? 0); [done|]. apply put_ref_tree.
  - destruct (a_dma o =? 0); [by eexists|]. eexists. apply lookup_insert_eq.
Qed.

(** A list entry that only the list refers to is freed. *)
Lemma from_free_entry {C} v kept b l (g : bufs → bufs) (f : B C) Q :
  okv [] [] [] [] 0 v → v_persist v = kept ++ b :: l →
  ib_smem b ∉ ib_smem <$> frame_bufs (v_frames v) →
  (∀ s, view_of (g s) = view_of s) →
  (∀ v', okv [] [] [] [] 0 v' → v_persist v' = kept ++ l → v_frames v' = v_frames v →
         from v' f Q) →
  from (v <| v_persist := kept ++ l |>)
    (_ ← ref_dec (ib_smem b); modify g ;; _ ← msm_cvp_smem_free (ib_smem b);
     smem_kfree (ib_smem b) ;; f) Q.
Proof.
  intros Hok El Hf Hg Hk. set (w := v <| v_persist := kept ++ l |>).
  pose proof (ok_pop_persist _ _ _ _ _ _ _ _ _ Hok El) as Hw. fold w in Hw.
  destruct (ok_live _ _ _ _ _ _ Hw (ib_smem b)) as [o Ho]; [left|].
  eapply from_bind; [by apply from_ref_dec|]. intros z w1 [_ ->].
  pose proof (ok_dec _ _ _ _ _ _ _ _ Hw Ho) as Hd.
  set (w1 := w <| v_heap ::= <[ib_smem b := add_cnt (-1) o]> |>) in *.
  assert (Ho1 : v_heap w1 !! ib_smem b = Some (add_cnt (-1) o)) by apply lookup_insert_eq.
  eapply from_keeps; [by apply keeps_modify|]. intros [].
  assert (Hown : okv [] [ib_smem b] [] [] 0 w1).
  { apply ok_own; [done|by eexists| | |].
    - by apply (popped_unused [] [] [] [] 0 v kept b l).
    - apply (ok_pers _ _ _ _ _ _ Hok). unfold pers. rewrite El, fmap_app, fmap_cons.
      apply elem_of_app. right. left.
    - intros Hx. destruct (ok_excl _ _ _ _ _ _ Hw _ Hx) as (_ & Hu & _). apply Hu. left. }
  eapply from_bind; [by apply (from_smem_free _ _ _ _ _ _ _ Hown Ho1)|].
  intros z2 w2 (Hok2 & Hs & Ht & [o2 Ho2]).
  eapply from_bind; [by apply (from_kfree _ _ o2)|]. intros [] w3 ->. apply Hk.
  - eapply ok_free; [exact Hok2|exact Ho2|by left].
  - by destruct Hs as (_ & E & _).
  - by destruct Hs as (E & _).
Qed.

Lemma find_pbuf_ok m d l : ∀ i,
  (∀ b, b ∈ l → is_Some (m !! ib_smem b)) → ∃ o, find_pbuf m d i l = Done o.
Proof.
  induction l as [|b l IH]; intros i Hl; cbn [find_pbuf]; [eauto|].
  destruct (Hl b) as [a ->]; [left|]. destruct (d =? sm_dma_buf a); [eauto|].
  apply IH. intros b' Hb. apply Hl. by right.
Qed.

Lemma map_persist_buf_ok v buf t i :
  okv [] [] [] [] 0 v →
  from v (msm_cvp_map_user_persist_buf buf t i) (λ _ v', okv [] [] [] [] 0 v').
Proof.
  intros Hok. unfold msm_cvp_map_user_persist_buf.
  eapply from_bind; [apply from_get_dma|]. intros d v1 [[-> ->]|[Hd ->]]; [by apply from_ret|].
  rewrite (proj2 (Z.eqb_neq d 0)) by lia. apply ok_get_ref with (d := d) in Hok.
  set (v1 := v <| v_refs ::= _ |>) in *.
  assert (Hput : from v1 (dma_buf_put d) (λ _ w, w = put_ref d v1)).
  { apply from_put. intros _. eapply ok_put_pos; [exact Hok|lia]. }
  eapply (from_gets_spec _ _ (λ r, ∃ o, r = Done o)).
  { intros s Hs. apply find_pbuf_ok. intros b Hb. rewrite <- Hs in Hok.
    destruct (live_pers _ _ _ _ _ _ _ Hok Hb) as [o Ho]. rewrite view_heap in Ho.
    destruct (b_smems s !! ib_smem b); [by eexists|done]. }
  intros ? [o ->]. eapply from_outcome; [done|].
  apply (from_gets _ _ v_persist); [done|].
  destruct (o ≫= _) as [[j pbuf]|] eqn:Eo.
  - assert (Hj : v_persist v1 !! j = Some pbuf).
    { apply bind_Some in Eo as (j' & -> & (b & E & [= -> ->])%fmap_Some). exact E. }
    destruct (live_pers _ _ _ _ _ _ pbuf Hok) as [ob Hob]; [by eapply list_elem_of_lookup_2|].
    eapply from_smem_get; [exact Hob|]. intros a _.
    set (pb := pbuf <| ib_size := _ |>).
    eapply (from_modify _ _ (λ v, v <| v_persist ::= <[j := pb]> |>)); [done|].
    set (v2 := v1 <| v_persist ::= <[j := pb]> |>).
    assert (Hsame : ib_smem <$> v_persist v2 = ib_smem <$> v_persist v1).
    { unfold v2, put_field_to. cbn [v_persist]. rewrite list_fmap_insert. cbn.
      rewrite list_insert_id; [done|]. rewrite list_lookup_fmap.
      exact (f_equal (fmap ib_smem) Hj). }
    assert (Hok2 : okv [] [] [d] [] 0 v2).
    { eapply ok_relist; [exact Hok|done..| |].
      - unfold uses. rewrite !fmap_app, Hsame. done.
      - unfold pers. rewrite Hsame. apply (ok_pers _ _ _ _ _ _ Hok). }
    eapply from_bind; [by apply from_ref_inc|]. intros [] v3 ->.
    assert (Hob2 : v_heap v2 !! ib_smem pbuf = Some ob) by done.
    pose proof (ok_raise _ _ _ _ _ _ _ _ Hok2 Hob2) as Hok3.
    eapply from_bind; [apply from_put; intros _; eapply ok_put_pos; [exact Hok3|lia]|].
    intros [] v4 ->. apply from_ret. by apply ok_put.
  - eapply from_bind; [exact Hput|]. intros [] v2 ->. apply ok_put in Hok.
    eapply from_keeps; [apply keeps_bext|]. intros n.
    apply from_if; intros _; [by apply from_ret|].
    eapply from_bind; [by apply get_smem_ok|]. intros p w [Hs [[-> Hw]|(Hp0 & Hw & Hnew)]].
    { cbn. by apply from_ret. }
    rewrite (proj2 (Z.eqb_neq p 0)) by done. destruct (Hnew eq_refl) as [Hnp Hnt].
    destruct (ok_live _ _ _ _ _ _ Hw p) as [ob Hob]; [left|].
    eapply from_smem_get; [exact Hob|]. intros a _.
    eapply from_keeps; [by eapply keeps_smem_mod|]. intros [].
    match goal with |- context [mkIbuf ?a ?b ?c ?d ?e ?f ?g p] =>
      set (nb := mkIbuf a b c d e f g p) end.
    eapply (from_modify _ _ (λ v, v <| v_persist ::= λ l, l ++ [nb] |>)); [done|].
    apply from_ret. by apply ok_push_persist.
Qed.

Lemma map_persist_bufs_ok n : ∀ v i pkt off t fds,
  okv [] [] [] [] 0 v → 0 <= off → off + 12 * Z.of_nat n <= Z.of_nat (length pkt) →
  0 <= i → i + Z.of_nat n <= Z.of_nat (length fds) →
  from v (map_persist_bufs n i pkt off t fds) (λ _ v', okv [] [] [] [] 0 v').
Proof.
  induction n as [|n IH]; intros v i pkt off t fds Hok Hoff Hlen Hi Hfd;
    cbn [map_persist_bufs]; [by apply from_ret|].
  destruct (get_buf_ok pkt off) as [buf Eb]; [lia..|]. eapply from_outcome; [exact Eb|].
  unfold buf_type_words. apply from_if; intros _; [apply IH; auto with lia|].
  eapply from_bind; [by apply map_persist_buf_ok|]. intros [[ret iova] buf'] w Hw.
  apply from_if; intros _.
  - destruct (put_buf_ok pkt off buf') as (pkt' & Ep & El); [lia..|].
    eapply from_outcome; [exact Ep|]. by apply from_ret.
  - destruct (words_write_done fds i [bt_fd buf']) as (fds' & Ef & Elf); [done|cbn; lia|].
    eapply from_outcome; [exact Ef|].
    destruct (put_buf_ok pkt off (buf' <| bt_fd := iova |>)) as (pkt' & Ep & El); [lia..|].
    eapply from_outcome; [exact Ep|]. apply IH; auto with lia.
Qed.

Lemma map_user_persist_ok v pkt off n fds :
  okv [] [] [] [] 0 v → packet_fits pkt off n → Z.of_nat (length fds) = n →
  from v (msm_cvp_map_user_persist pkt off n fds) (λ _ v', okv [] [] [] [] 0 v').
Proof.
  intros Hok Hfit Hfd. pose proof (packet_fits_bound _ _ _ Hfit) as Hb.
  destruct Hfit as (Hlen & Hoff & Hn & _). unfold hfi_packet_words, MAX_HFI_PKT_SIZE in Hlen.
  unfold msm_cvp_map_user_persist. apply from_if; intros _; [by apply from_ret|].
  apply from_if; intros _; [by apply from_ret|].
  eapply from_keeps; [apply keeps_next_trans|]. intros ktid.
  destruct (set_kdata_ok pkt ktid) as (pkt1 & E1 & El); [lia|].
  eapply from_outcome; [exact E1|]. eapply from_outcome; [apply word_at_ok; lia|].
  apply map_persist_bufs_ok; auto with lia.
Qed.

(** ** Buffers of features *)

Lemma map_feature_ok v session buf :
  okv [] [] [] [] 0 v →
  from v (msm_cvp_map_feature_persist session buf) (λ _ v', okv [] [] [] [] 0 v').
Proof.
  intros Hok. unfold msm_cvp_map_feature_persist. apply from_if; intros _; [by apply from_ret|].
  eapply from_keeps; [by eapply keeps_mapped_persist|]. intros [iova|]; [by apply from_ret|].
  eapply from_keeps; [apply keeps_bext|]. intros n.
  apply from_if; intros _; [by apply from_ret|].
  eapply from_bind; [by apply get_smem_ok|]. intros p w [Hs [[-> Hw]|(Hp0 & Hw & Hnew)]].
  { cbn. by apply from_ret. }
  rewrite (proj2 (Z.eqb_neq p 0)) by done. destruct (Hnew eq_refl) as [Hnp Hnt].
  destruct (ok_live _ _ _ _ _ _ Hw p) as [ob Hob]; [left|].
  eapply from_keeps; [by eapply keeps_smem_mod|]. intros [].
  match goal with |- context [mkIbuf ?a ?b ?c ?d ?e ?f ?g p] =>
    set (nb := mkIbuf a b c d e f g p) end.
  eapply (from_modify _ _ (λ v, v <| v_persist ::= λ l, l ++ [nb] |>)); [done|].
  apply from_ret. by apply ok_push_persist.
Qed.

(** No frame in flight uses a buffer of the persistent list. *)
Definition persist_idle (v : view) : Prop :=
  ∀ p, p ∈ pers v → p ∉ ib_smem <$> frame_bufs (v_frames v).

Lemma free_feature_ok fd size l : ∀ v kept,
  okv [] [] [] [] 0 v → persist_idle v → v_persist v = kept ++ l →
  from v (free_feature_persist fd size kept l) (λ _ v', okv [] [] [] [] 0 v').
Proof.
  induction l as [|b l IH]; intros v kept Hok Hidle El; cbn [free_feature_persist];
    [by apply from_ret|].
  apply from_if; intros _; [by apply from_ret|]. apply from_if; intros _.
  - eapply (from_modify _ _ (λ v, v <| v_persist := kept ++ l |>)); [done|].
    apply (from_free_entry v kept b l); [done|done| |done|by intros w Hw _ _; apply from_ret].
    apply Hidle. unfold pers. rewrite El, fmap_app, fmap_cons. apply elem_of_app. right. left.
  - apply IH; [done..|]. by rewrite <- (assoc_L (++)).
Qed.

Lemma unmap_feature_ok v session buf :
  okv [] [] [] [] 0 v → persist_idle v →
  from v (msm_cvp_unmap_feature_persist session buf) (λ _ v', okv [] [] [] [] 0 v').
Proof.
  intros Hok Hidle. unfold msm_cvp_unmap_feature_persist.
  apply from_if; intros _; [by apply from_ret|].
  eapply from_keeps; [by eapply keeps_mapped_persist|]. intros [iova|]; [|by apply from_ret].
  apply (from_gets _ _ v_persist); [done|]. by apply free_feature_ok.
Qed.

End persist.

(** * Warp-NCC source buffers *)
Section wncc.
Context `{BufEnv} `{RbLaws} `{!BufLaws}.
Implicit Types (v : view) (p d : Z).

(** What happens to the Warp-NCC list leaves the lists of frames and persistent buffers. *)
Definition keeps_lists (v v' : view) : Prop :=
  v_frames v' = v_frames v ∧ v_persist v' = v_persist v.

Lemma map_wncc_exit_ok v p o rc :
  okv [] [p] [] [] 0 v → v_heap v !! p = Some o →
  from v (map_wncc_exit p rc) (λ _ v', okv [] [] [] [] 0 v').
Proof.
  intros Hok Hp. unfold map_wncc_exit. eapply from_smem_get; [exact Hp|]. intros a Ha.
  eapply (from_bind _ _ _ (λ _ w, given_back [] [] [] 0 p o v w)).
  { apply from_if; intros _.
    - apply from_ret. exists [], (v_refs v). split_and!; [by left|done|by destruct v].
    - eapply from_keeps; [by eapply keeps_unmap_smem|]. intros rc'.
      replace (sm_dma_buf a) with (a_dma o) by by rewrite <- Ha.
      eapply from_bind; [by apply (from_giveback1 [] [] [] 0 v p o)|].
      intros [] w Hw. by apply from_ret. }
  intros rc' w (E & r & HE & Hw & ->).
  eapply from_bind; [by apply (from_kfree _ p o)|]. intros [] u ->. apply from_ret.
  by eapply ok_free.
Qed.

Lemma ok_set_table v p t :
  okv [] [p] [] [] 0 v → Z.of_nat (length t) = EVA_KMD_WNCC_MAX_SRC_BUFS →
  okv [] [p] [] [] 0 (v <| v_table := Some t |>).
Proof.
  intros Hok Hl. eapply ok_rewncc; [exact Hok|done..| | |]; unfold put_field_to;
    cbn [v_num v_table]; [done|done|]. split; [right; by eexists|]. by intros t' [= <-].
Qed.

Lemma map_wncc_ok v session buf :
  okv [] [] [] [] 0 v →
  from v (msm_cvp_map_buf_wncc session buf) (λ _ v', okv [] [] [] [] 0 v').
Proof.
  intros Hok. unfold msm_cvp_map_buf_wncc. apply from_if; intros _; [by apply from_ret|].
  apply (from_gets _ _ v_wncc); [done|]. destruct (find_fd _ _); [by apply from_ret|].
  eapply from_bind; [apply from_get_dma|]. intros d v1 [[-> ->]|[Hd ->]]; [by apply from_ret|].
  rewrite (proj2 (Z.eqb_neq d 0)) by lia. apply ok_get_ref with (d := d) in Hok.
  set (v1 := v <| v_refs ::= _ |>) in *.
  assert (Hput : from v1 (msm_cvp_smem_put_dma_buf d) (λ _ w, okv [] [] [] [] 0 w)).
  { eapply from_post; [apply from_put; intros _; eapply ok_put_pos; [exact Hok|lia]|].
    intros [] w ->. by apply ok_put. }
  eapply from_keeps; [apply keeps_bext|]. intros n. apply from_if; intros _.
  { eapply from_bind; [exact Hput|]. intros [] w Hw. by apply from_ret. }
  eapply from_bind; [apply from_zalloc|]. intros p v2 [[-> ->]|(Hp0 & Hp & ->)].
  { cbn. eapply from_bind; [exact Hput|]. intros [] w Hw. by apply from_ret. }
  rewrite (proj2 (Z.eqb_neq p 0)) by done.
  pose proof (ok_alloc _ _ _ _ _ _ _ Hok Hp Hp0) as Hok1.
  eapply from_bind.
  { apply (from_smem_mod _ _ _ (mkA 0 false 0) (mkA d false 0)); [apply lookup_insert_eq|].
    intros a Ha. injection Ha as ? ? ?. unfold abs_smem. cbn. congruence. }
  intros [] v2 ->.
  pose proof (ok_set_dma _ _ _ _ _ _ p d _ Hok1 (lookup_insert_eq _ _ _) eq_refl
    ltac:(left) ltac:(lia)) as Hok2. cbn [a_cached a_cnt] in Hok2.
  match goal with |- from ?w _ _ => set (v2 := w) in * end.
  assert (Hp2 : v_heap v2 !! p = Some (mkA d false 0)) by apply lookup_insert_eq.
  eapply from_keeps; [by eapply keeps_map_smem|]. intros rc.
  assert (Hexit : ∀ w rc, okv [] [p] [] [] 0 w → v_heap w !! p = Some (mkA d false 0) →
    from w (rc ← map_wncc_exit p rc; mret (rc, kb_reserved0 buf)) (λ _ v', okv [] [] [] [] 0 v')).
  { intros w rc' Hw Hpw. eapply from_bind; [by eapply map_wncc_exit_ok|].
    intros rc'' u Hu. by apply from_ret. }
  apply from_if; intros _; [by apply Hexit|].
  apply (from_gets _ _ v_table); [done|].
  eapply (from_bind _ _ _ (λ t w, okv [] [p] [] [] 0 w ∧
    v_heap w !! p = Some (mkA d false 0) ∧ ∀ t', t = Some t' → v_table w = Some t')).
  { destruct (v_table v2) as [t|] eqn:Et.
    { apply from_ret. split_and!; [done|done|by intros t' [= <-]]. }
    eapply from_keeps; [apply keeps_bext|]. intros m. apply from_if; intros _; [by apply from_ret|].
    eapply (from_modify _ _ (λ v, v <| v_table := Some _ |>)); [done|]. apply from_ret.
    split_and!; [|done|by intros t' [= <-]]. apply ok_set_table; [done|]. by rewrite length_replicate. }
  intros [t|] w (Hw & Hpw & Ht); [|by apply Hexit].
  destruct (free_slot 0 t) as [i|]; [|by apply Hexit].
  eapply from_smem_get; [exact Hpw|]. intros a _.
  match goal with |- context [mkIbuf ?a ?b ?c ?d ?e ?f ?g p] =>
    set (nb := mkIbuf a b c d e f g p) end.
  match goal with |- context [<[i := ?x]> t] => set (row := x) end.
  eapply (from_modify _ _ (λ v, v <| v_wncc ::= λ l, l ++ [nb] |>
    <| v_num ::= λ n, u32 (n + 1) |> <| v_table := Some (<[i := row]> t) |>)); [done|].
  apply from_ret. eapply ok_rewncc; [exact Hw|done..| | |]; unfold put_field_to;
    cbn [v_num v_table wnccs v_wncc].
  - unfold wnccs. cbn [v_wncc]. rewrite fmap_app. cbn. by rewrite Permutation_cons_append.
  - intros q o ->%list_elem_of_singleton Ho Hc. rewrite Hpw in Ho. by simplify_eq.
  - split; [right; by eexists|]. intros t' [= <-]. rewrite length_insert.
    by apply (ok_table _ _ _ _ _ _ Hw), Ht.
Qed.

Lemma find_fd_del fd l b :
  find_fd fd l = Some b → l ≡ₚ b :: del_fd fd l.
Proof.
  induction l as [|c l IH]; cbn [find_fd del_fd]; [done|].
  destruct (u32 (ib_fd c) =? fd); [by intros [= ->]|]. intros Hb%IH. rewrite Hb at 1.
  apply Permutation_swap.
Qed.

Lemma unmap_wncc_ok v session buf :
  okv [] [] [] [] 0 v →
  from v (msm_cvp_unmap_buf_wncc session buf) (λ _ v',
    okv [] [] [] [] 0 v' ∧ keeps_lists v v' ∧ v_tree v' = v_tree v).
Proof.
  intros Hok. unfold msm_cvp_unmap_buf_wncc. apply from_if; intros _; [by apply from_ret|].
  apply from_if; intros Hid; [by apply from_ret|]. apply (from_gets _ _ v_num); [done|].
  apply from_if; intros Hnum; [by apply from_ret|]. zify_bool.
  apply (from_gets _ _ v_table); [done|].
  destruct (ok_table _ _ _ _ _ _ Hok) as [[?|[t Et]] Hlen]; [done|].
  rewrite Et. cbn [mbind option_bind]. specialize (Hlen t Et).
  unfold EVA_KMD_WNCC_SRC_BUF_ID_OFFSET in *. set (idx := Z.to_nat _).
  destruct (t !! idx) as [wb|] eqn:Ewb.
  2: { apply lookup_ge_None in Ewb. zify_bool. lia. }
  apply from_if; intros _; [by apply from_ret|].
  apply (from_gets _ _ v_wncc); [done|].
  destruct (find_fd (wb_fd wb) (v_wncc v)) as [cb|] eqn:Ef; [|by apply from_ret].
  set (p := ib_smem cb).
  assert (Hperm : wnccs v ≡ₚ p :: (ib_smem <$> del_fd (wb_fd wb) (v_wncc v))).
  { unfold wnccs. by rewrite (find_fd_del _ _ _ Ef) at 1. }
  set (v0 := v <| v_wncc ::= del_fd (wb_fd wb) |>).
  assert (Hok0 : okv [] [p] [] [] 0 v0).
  { eapply ok_rewncc; [exact Hok|done..| | |]; [exact Hperm| |apply (ok_table _ _ _ _ _ _ Hok)].
    intros q o Hq. by apply elem_of_nil in Hq. }
  destruct (ok_excl _ _ _ _ _ _ Hok p) as ([o Hp] & _).
  { cbn. rewrite Hperm. left. }
  eapply from_smem_get; [exact Hp|]. intros a Ha.
  eapply (from_bind _ _ _ (λ _ w, ∃ E r, (E = [] ∨ E = [a_dma o]) ∧ w = v <| v_refs := r |> ∧
    okv [] [p] [] E 0 (v0 <| v_refs := r |>))).
  { apply from_if; intros _.
    - apply from_ret. exists [], (v_refs v). split_and!; [by left|by destruct v|].
      by destruct v.
    - unfold save_unused_wncc. eapply from_keeps; [by apply keeps_modify|]. intros [].
      eapply from_keeps; [by eapply keeps_unmap_smem|]. intros rc.
      assert (Hd : sm_dma_buf a = a_dma o) by by rewrite <- Ha. rewrite Hd.
      eapply (from_bind _ _ _ (λ _ w, ∃ E r, (E = [] ∨ E = [a_dma o]) ∧
        w = v <| v_refs := r |> ∧ okv [] [p] [] E 0 (v0 <| v_refs := r |>)));
        [|intros [] w Hw; by apply from_ret].
      destruct (rc =? 0); cbn [whenS].
      + eapply from_post; [by eapply from_put_debt|]. intros [] w ->.
        exists [a_dma o], (v_refs (put_ref (a_dma o) v)). split_and!; [by right| |].
        * unfold put_ref. destruct v, (a_dma o =? 0); done.
        * pose proof (ok_put_debt _ _ _ _ _ (a_dma o) Hok0) as Hd0. revert Hd0.
          unfold put_ref, v0. destruct v, (a_dma o =? 0); done.
      + apply from_ret. exists [], (v_refs v). split_and!; [by left|by destruct v|].
        by destruct v. }
  intros rc w (E & r & HE & -> & Hw).
  eapply (from_modify _ _ (λ v, v <| v_wncc ::= del_fd (wb_fd wb) |>
    <| v_table ::= fmap (<[idx := mkWncc 0 0 0]>) |> <| v_num ::= λ n, u32 (n - 1) |>)); [done|].
  apply (from_gets _ _ v_num); [done|].
  match goal with |- from ?x _ _ => set (w1 := x) in * end.
  assert (Hw1 : okv [] [p] [] E 0 w1).
  { eapply ok_rewncc; [exact Hw|done..| |]; unfold w1, put_field_to; cbn [v_num v_table].
    - intros q o' ->%list_elem_of_singleton _ _. left.
    - rewrite Et. cbn. split; [right; by eexists|]. intros t' [= <-]. by rewrite length_insert. }
  eapply (from_bind _ _ _ (λ _ u, okv [] [p] [] E 0 u ∧ keeps_lists v u ∧ v_tree u = v_tree v
    ∧ v_heap u = v_heap v)).
  { destruct (v_num w1 =? 0) eqn:Ez; cbn [whenS]; [|by apply from_ret]. zify_bool.
    eapply (from_modify_last _ _ (λ v, v <| v_table := None |>)); [done|].
    split_and!; [|done..]. eapply ok_rewncc; [exact Hw1|done..| |]; unfold put_field_to;
      cbn [v_num v_table].
    - intros q o' ->%list_elem_of_singleton _ _. left.
    - split; [by left|done]. }
  intros [] u (Hu & Hl & Htr & Hh).
  assert (Hpu : v_heap u !! p = Some o) by by rewrite Hh.
  eapply from_bind; [by apply (from_kfree _ p o)|]. intros [] u' ->. apply from_ret.
  split; [by eapply ok_free|]. done.
Qed.

(** With anything but 0 in the uninitialised index, no buffer is unregistered. *)
Lemma deinit_wncc_index v session idx : idx ≠ 0 → keeps v (deinit_wncc session idx).
Proof.
  intros Hidx. unfold deinit_wncc. apply keeps_bind; [apply keeps_gets|]. intros l.
  induction l as [|b l IH]; cbn [each]; [apply keeps_ret|].
  apply keeps_bind; [|intros []; exact IH]. apply keeps_bind; [|intros; apply keeps_ret].
  unfold msm_cvp_unmap_buf_wncc. cbn [kb_index].
  rewrite (proj2 (Z.eqb_neq idx 0)), orb_true_r by done. apply keeps_ret.
Qed.

Lemma deinit_wncc_ok v session idx :
  okv [] [] [] [] 0 v →
  from v (deinit_wncc session idx) (λ _ v',
    okv [] [] [] [] 0 v' ∧ keeps_lists v v' ∧ v_tree v' = v_tree v).
Proof.
  intros Hok. unfold deinit_wncc. apply (from_gets _ _ v_wncc); [done|].
  assert (Hall : ∀ l w, okv [] [] [] [] 0 w → keeps_lists v w → v_tree w = v_tree v →
    from w (each l (λ cbuf, _ ← msm_cvp_unmap_buf_wncc session
      (mkKbuf idx 0 (u32 (ib_fd cbuf)) 0 0 (u32 (ib_ktid cbuf))); mret tt))
      (λ _ v', okv [] [] [] [] 0 v' ∧ keeps_lists v v' ∧ v_tree v' = v_tree v)).
  { induction l as [|b l IH]; intros w Hw Hl Ht; cbn [each]; [by apply from_ret|].
    apply from_assoc. eapply from_bind; [by apply unmap_wncc_ok|].
    intros rc u (Hu & [E1 E2] & Htu). eapply from_keeps; [apply keeps_ret|].
    intros []. apply IH; [done| |congruence].
    destruct Hl. split; congruence. }
  by apply Hall.
Qed.

End wncc.

(** * The driver's own buffers, the end of a session *)
Section session_end.
Context `{BufEnv} `{RbLaws} `{!BufLaws}.
Implicit Types (v : view) (p d : Z).

Lemma alloc_dma_ok `{!IovaLaws} v p size :
  okv [] [p] [] [] 0 v → v_heap v !! p = Some (mkA 0 false 0) →
  from v (msm_cvp_smem_alloc size false p) (λ rc v', same_lists v v' ∧ ∃ E d,
    (E = [] ∨ E = [d]) ∧ okv [] [p] [] E 0 v' ∧ v_heap v' !! p = Some (mkA d false 0) ∧
    (rc = 0 → E = [])).
Proof.
  intros Hok Hp. unfold msm_cvp_smem_alloc.
  assert (Hstop : ∀ rc, rc ≠ 0 → from v (mret rc) (λ rc v', same_lists v v' ∧ ∃ E d,
    (E = [] ∨ E = [d]) ∧ okv [] [p] [] E 0 v' ∧ v_heap v' !! p = Some (mkA d false 0) ∧
    (rc = 0 → E = []))).
  { intros rc Hrc. apply from_ret. split; [done|]. exists [], 0. split_and!; try done. by left. }
  apply from_if; intros _; [by apply Hstop|]. unfold alloc_dma_mem.
  eapply from_keeps; [apply keeps_bext|]. intros d. apply from_if; intros Hd; [by apply Hstop|].
  zify_bool. clear Hstop.
  eapply (from_modify _ _ (λ v, v <| v_refs ::= λ m, <[d := ref_of d m + 1]> m |>)); [done|].
  apply ok_get_ref with (d := d) in Hok. set (v1 := v <| v_refs ::= _ |>) in *.
  eapply from_bind.
  { apply (from_smem_mod v1 p _ (mkA 0 false 0) (mkA d false 0)); [done|].
    intros a Ha. injection Ha as ? ? ?. unfold abs_smem. cbn. congruence. }
  intros [] v2 ->.
  pose proof (ok_set_dma _ _ _ _ _ _ p d _ Hok Hp eq_refl ltac:(left) ltac:(lia)) as Hok2.
  cbn [a_cached a_cnt] in Hok2.
  match goal with |- from ?w _ _ => set (v2 := w) in * end.
  assert (Hp2 : v_heap v2 !! p = Some (mkA d false 0)) by apply lookup_insert_eq.
  assert (Hs : same_lists v v2) by done.
  eapply from_smem_get; [exact Hp2|]. intros a _.
  eapply (from_bind _ _ _ (λ r w, w = v2 ∧ 0 <= r.2 < 2 ^ 32)).
  { unfold msm_dma_get_device_address. destruct is_iommu_present; [|by apply from_ret].
    destruct (msm_cvp_smem_get_context_bank _); [|by apply from_ret].
    eapply from_keeps; [apply keeps_bext|]. intros at_. apply from_if; intros _; [by apply from_ret|].
    eapply from_keeps; [apply keeps_bext|]. intros tb. apply from_if; intros _.
    { eapply from_keeps; [apply keeps_bext|]. intros _. by apply from_ret. }
    eapply (from_bind _ _ _ (λ r w, w = v2 ∧ r < 2 ^ 32)).
    { unfold bext. eapply from_keeps; [apply keeps_gets|]. intros k.
      eapply from_keeps; [by apply keeps_modify|]. intros []. apply from_ret.
      split; [done|apply sgl_iova_32]. }
    intros r w [-> Hr]. apply from_if; intros Hneg.
    { eapply from_keeps; [apply keeps_bext|]. intros _.
      eapply from_keeps; [apply keeps_bext|]. intros _. by apply from_ret. }
    zify_bool. eapply from_keeps; [by eapply keeps_smem_mod|]. intros []. apply from_ret.
    split; [done|]. cbn. lia. }
  intros [rc iova] w [-> Hiova]. cbn [snd] in Hiova.
  assert (Hrel : from v2 (msm_cvp_smem_put_dma_buf d ;; mret rc) (λ rc' v', rc' = rc ∧
    same_lists v v' ∧ okv [] [p] [] [d] 0 v' ∧ v_heap v' !! p = Some (mkA d false 0))).
  { eapply from_bind; [by apply (from_put_debt [] [p] [] 0 v2 p (mkA d false 0))|].
    intros [] w ->. apply from_ret. cbn [a_dma]. split_and!; [done| | |].
    - eapply same_lists_trans; [exact Hs|apply put_ref_same].
    - by apply ok_put_debt.
    - by rewrite put_ref_heap. }
  apply from_if; intros Hrc; zify_bool.
  { eapply from_post; [exact Hrel|]. intros r w (-> & Hsw & Hw & Hpw). split; [done|].
    exists [d], d. split_and!; try done. by right. }
  eapply from_keeps; [by eapply keeps_smem_mod|]. intros [].
  rewrite u32_small by done. rewrite Z.eqb_refl. cbn [negb]. apply from_ret.
  split; [done|]. exists [], d. split_and!; try done. by left.
Qed.

Lemma alloc_arp_ok `{!IovaLaws} v size :
  okv [] [] [] [] 0 v → from v (cvp_allocate_arp_bufs size) (λ _ v', okv [] [] [] [] 0 v').
Proof.
  intros Hok. unfold cvp_allocate_arp_bufs. apply from_if; intros _; [by apply from_ret|].
  eapply from_keeps; [apply keeps_bext|]. intros n. apply from_if; intros _; [by apply from_ret|].
  eapply from_bind; [apply from_zalloc|]. intros p v1 [[-> ->]|(Hp0 & Hp & ->)]; [by apply from_ret|].
  rewrite (proj2 (Z.eqb_neq p 0)) by done.
  pose proof (ok_alloc _ _ _ _ _ _ _ Hok Hp Hp0) as Hok1.
  set (v1 := v <| v_heap ::= <[p := mkA 0 false 0]> |>) in *.
  assert (Hp1 : v_heap v1 !! p = Some (mkA 0 false 0)) by apply lookup_insert_eq.
  eapply from_keeps; [by eapply keeps_smem_mod|]. intros [].
  eapply from_bind; [by apply alloc_dma_ok|]. intros rc w (Hs & E & d & HE & Hw & Hpw & Hrc).
  apply from_if; intros Hz; zify_bool.
  { eapply from_bind; [by apply (from_kfree _ p (mkA d false 0))|]. intros [] u ->.
    apply from_ret. by eapply ok_free. }
  rewrite (Hrc Hz) in Hw.
  eapply from_keeps; [by eapply keeps_smem_mod|]. intros [].
  eapply from_bind; [by apply from_ref_inc|]. intros [] u ->.
  pose proof (ok_raise _ _ _ _ _ _ _ _ Hw Hpw) as Hr.
  match type of Hr with okv _ _ _ _ _ ?x => set (u := x) in * end.
  assert (Hpu : v_heap u !! p = Some (add_cnt 1 (mkA d false 0))) by apply lookup_insert_eq.
  destruct (fresh_not_used _ _ _ _ _ _ Hr Hpu) as [Hnp Hnt].
  eapply from_smem_get; [exact Hpu|]. intros a _.
  match goal with |- context [mkIbuf ?a ?b ?c ?d ?e ?f ?g p] =>
    set (nb := mkIbuf a b c d e f g p) end.
  eapply (from_modify _ _ (λ v, v <| v_persist ::= λ l, l ++ [nb] |>)); [done|].
  apply from_ret. apply ok_push_persist; [|done..].
  eapply ok_share; [exact Hr|exact Hpu|cbn; lia|done].
Qed.

Lemma release_arp_loop_ok l : ∀ v kept rc,
  okv [] [] [] [] 0 v → persist_idle v → v_persist v = kept ++ l →
  from v (release_arp kept l rc) (λ _ v', okv [] [] [] [] 0 v').
Proof.
  induction l as [|b l IH]; intros v kept rc Hok Hidle El; cbn [release_arp];
    [by apply from_ret|].
  apply from_if; intros _; [by apply from_ret|]. apply from_if; intros _.
  - eapply (from_modify _ _ (λ v, v <| v_persist := kept ++ l |>)); [done|].
    assert (Hb : ib_smem b ∈ pers v).
    { unfold pers. rewrite El, fmap_app, fmap_cons. apply elem_of_app. right. left. }
    pose proof (from_free_entry v kept b l (λ s, s) (release_arp kept l rc)
      (λ _ v', okv [] [] [] [] 0 v') Hok El (Hidle _ Hb) (λ s, eq_refl)) as Hfree.
    eapply total_conseq; [|by intros s Hs; exact Hs|by intros r s Hs; exact Hs].
    assert (Hk : ∀ v', okv [] [] [] [] 0 v' → v_persist v' = kept ++ l →
      v_frames v' = v_frames v → from v' (release_arp kept l rc) (λ _ v', okv [] [] [] [] 0 v')).
    { intros w Hw Ew Efw. apply IH; [done| |done]. intros p Hp. rewrite Efw. apply Hidle.
      unfold pers in *. rewrite Ew, fmap_app in Hp. rewrite El, fmap_app, fmap_cons.
      apply elem_of_app in Hp as [?|?]; apply elem_of_app; [by left|]. right. by right. }
    exact (Hfree Hk).
  - apply IH; [done..|]. by rewrite <- (assoc_L (++)).
Qed.

Lemma release_arp_ok v live :
  okv [] [] [] [] 0 v → persist_idle v →
  from v (cvp_release_arp_buffers live) (λ _ v', okv [] [] [] [] 0 v').
Proof.
  intros Hok Hidle. unfold cvp_release_arp_buffers.
  eapply from_keeps; [destruct live; keeps_tac|]. intros rc.
  apply (from_gets _ _ v_persist); [done|]. by apply release_arp_loop_ok.
Qed.

(** ** [msm_cvp_session_deinit_buffers] *)

Lemma deinit_frames_ok v :
  okv [] [] [] [] 0 v →
  from v deinit_frames (λ _ v', okv [] [] [] [] 0 v' ∧ v_frames v' = []
    ∧ v_persist v' = v_persist v ∧ v_wncc v' = v_wncc v).
Proof.
  intros Hok. unfold deinit_frames. apply (from_gets _ _ v_frames); [done|].
  assert (Hall : ∀ l w, okv [] [] [] [] 0 w → v_frames w = l → v_persist w = v_persist v →
    v_wncc w = v_wncc v →
    from w (each l (λ frame, modify (λ s, s <| b_frames ::= tail |>) ;;
      msm_cvp_unmap_frame_buf frame))
      (λ _ v', okv [] [] [] [] 0 v' ∧ v_frames v' = [] ∧ v_persist v' = v_persist v
               ∧ v_wncc v' = v_wncc v)).
  { induction l as [|f l IH]; intros w Hw El Ep Ew; cbn [each]; [by apply from_ret|].
    apply from_assoc. eapply (from_modify _ _ (λ v, v <| v_frames ::= tail |>)); [done|].
    eapply from_bind.
    - apply (unmap_frame_buf_ok [] [] []).
      eapply ok_relist; [exact Hw|done..| |apply (ok_pers _ _ _ _ _ _ Hw)].
      unfold uses, put_field_to. cbn [v_frames v_persist]. rewrite El, app_nil_r. cbn [tail].
      unfold frame_bufs. cbn [mbind list_bind app]. rewrite <- !(assoc_L (++)), !fmap_app.
      done.
    - intros [] u (Hu & E1 & E2 & E3 & _). apply IH; [done| |by rewrite E2|by rewrite E3].
      rewrite E1. unfold put_field_to. cbn [v_frames]. by rewrite El. }
  by apply Hall.
Qed.

(** The persistent list keeps the driver's own buffers, if all entries could be freed. *)
Lemma deinit_persist_ok l : ∀ v kept rc,
  okv [] [] [] [] 0 v → v_frames v = [] → v_persist v = kept ++ l →
  Forall (λ b, ib_ownership b = DRIVER) kept →
  from v (deinit_persist kept l rc) (λ r v', okv [] [] [] [] 0 v' ∧ v_frames v' = [] ∧
    r ≠ None ∧ Forall (λ b, ib_ownership b = DRIVER) (v_persist v') ∧ v_wncc v' = v_wncc v).
Proof.
  induction l as [|b l IH]; intros v kept rc Hok Ef El Hk; cbn [deinit_persist].
  { apply from_ret. rewrite El, app_nil_r. done. }
  assert (Hb : b ∈ v_persist v) by (rewrite El; apply elem_of_app; right; left).
  destruct (live_pers _ _ _ _ _ _ _ Hok Hb) as [o Hp].
  rewrite (proj2 (Z.eqb_neq (ib_smem b) 0)) by by eapply ok_nonzero.
  apply from_if; intros Hown.
  { apply bool_decide_eq_true in Hown. apply IH; [done|done|by rewrite <- (assoc_L (++))|].
    apply Forall_app. by split; [|constructor]. }
  eapply (from_modify _ _ (λ v, v <| v_persist := kept ++ l |>)); [done|].
  pose proof (ok_pop_persist _ _ _ _ _ _ _ _ _ Hok El) as Hw.
  assert (Hu : ib_smem b ∉ [] ++ uses (v <| v_persist := kept ++ l |>)).
  { eapply popped_unused; [exact Hok|exact El|]. rewrite Ef. by apply not_elem_of_nil. }
  set (w := v <| v_persist := kept ++ l |>) in *.
  eapply from_smem_get; [exact Hp|]. intros a Ha.
  apply from_if; intros Hco.
  { eapply from_post; [apply (IH w kept rc); [by eapply ok_forget|done..]|].
    intros r' u' Hr'. exact Hr'. }
  assert (Hown2 : okv [] [ib_smem b] [] [] 0 w).
  { apply ok_own; [by eapply ok_forget|by eexists|exact Hu| |].
    - apply (ok_pers _ _ _ _ _ _ Hok). by apply list_elem_of_fmap_2.
    - intros Hx. destruct (ok_excl _ _ _ _ _ _ Hw _ Hx) as (_ & Hu' & _). apply Hu'. left. }
  eapply (from_bind _ _ _ (λ _ u, given_back [] [] [] 0 (ib_smem b) o w u)).
  { apply from_if; intros _.
    - apply from_ret. exists [], (v_refs w). split_and!; [by left|done|by destruct w].
    - eapply from_keeps; [by eapply keeps_unmap_smem|]. intros rc'.
      replace (sm_dma_buf a) with (a_dma o) by by rewrite <- Ha.
      eapply from_bind; [by apply (from_giveback1 [] [] [] 0 w (ib_smem b) o)|].
      intros [] u Hg. pose proof Hg as (E & r & HE & Hu1 & ->).
      eapply from_keeps; [by eapply (keeps_smem_mod _ _ _ o)|]. intros []. by apply from_ret. }
  intros rc' u (E & r & HE & Hu1 & ->).
  eapply from_bind; [by apply (from_kfree _ (ib_smem b) o)|]. intros [] u ->.
  eapply from_post; [apply IH; [by eapply ok_free|done..]|]. intros r' u' Hr'. exact Hr'.
Qed.

Lemma drain_cache_ok n : ∀ v rc,
  okv [] [] [] [] 0 v → v_frames v = [] → (length (v_tree v) <= n)%nat →
  from v (drain_cache n rc) (λ _ v', okv [] [] [] [] 0 v' ∧ v_tree v' = [] ∧ same_lists v v').
Proof.
  induction n as [|n IH]; intros v rc Hok Ef Hn; cbn [drain_cache];
    (apply (from_gets _ _ v_tree); [done|]); (apply (from_gets _ _ v_nr); [done|]);
    destruct (v_tree v) as [|p t] eqn:Et; try (by apply from_ret).
  { cbn in Hn. lia. }
  destruct (ok_nr _ _ _ _ _ _ Hok) as (Hnr & _). rewrite Et in Hnr. cbn [length] in Hnr.
  rewrite (proj2 (Z.leb_gt _ _)) by lia.
  assert (Hpt : p ∈ v_tree v) by (rewrite Et; left).
  destruct (ok_tree _ _ _ _ _ _ Hok p Hpt) as (o & Hp & _).
  eapply from_smem_get; [exact Hp|]. intros a <-.
  apply (from_evict [] [] [] v p a (drain_cache n) _ Hok Hpt Hp).
  { cbn. unfold uses. rewrite Ef. cbn. intros Hin. by apply (ok_pers _ _ _ _ _ _ Hok) in Hin. }
  intros rc' w Hw (Hs & _) _ Ht.
  eapply from_post; [apply IH; [done|by destruct Hs as (-> & _)|]|].
  - rewrite Ht, Et. rewrite filter_cons_False by naive_solver.
    pose proof (length_filter (λ q, q ≠ p) t). cbn in Hn. lia.
  - intros _ u (Hu & Htu & Hsu). split_and!; [done..|by eapply same_lists_trans].
Qed.

Lemma deinit_ok v session idx :
  okv [] [] [] [] 0 v →
  from v (msm_cvp_session_deinit_buffers session idx) (λ _ v', okv [] [] [] [] 0 v'
    ∧ v_frames v' = [] ∧ v_tree v' = [] ∧ Forall (λ b, ib_ownership b = DRIVER) (v_persist v')
    ∧ (idx ≠ 0 → v_wncc v' = v_wncc v)).
Proof.
  intros Hok. unfold msm_cvp_session_deinit_buffers.
  eapply from_bind; [by apply deinit_frames_ok|]. intros [] v1 (Hok1 & Ef1 & Ep1 & Ew1).
  apply (from_gets _ _ v_persist); [done|].
  eapply from_bind; [by apply deinit_persist_ok|].
  intros [rc|] v2 (Hok2 & Ef2 & Hr & Hd2 & Ew2); [|done].
  apply (from_gets _ _ (λ v, length (v_tree v))); [done|].
  eapply from_bind; [by apply drain_cache_ok|].
  intros rc' v3 (Hok3 & Et3 & Ef3 & Ep3 & Ew3 & _).
  eapply (from_bind _ _ _ (λ _ v4, okv [] [] [] [] 0 v4 ∧ keeps_lists v3 v4 ∧
    v_tree v4 = v_tree v3 ∧ (idx ≠ 0 → v_wncc v4 = v_wncc v3))).
  { destruct (decide (idx = 0)) as [->|Hidx].
    - eapply from_post; [by apply deinit_wncc_ok|]. intros [] v4 (? & ? & ?). done.
    - eapply from_post; [by apply deinit_wncc_index|]. by intros [] v4 ->. }
  intros [] v4 (Hok4 & [Ef4 Ep4] & Et4 & Ew4).
  apply from_ret. split_and!; [done|congruence|congruence| |].
  - by rewrite Ep4, Ep3.
  - intros Hidx. rewrite (Ew4 Hidx). congruence.
Qed.

End session_end.
