(* ===== verification/SessionBuffers.v ===== *)
(** The theorems about the buffers of a session (Smem.v, Buffers.v): memory safety and
    accounting over any history of operations, the cache against a plain search, the end of
    a session, and three places where the code does not do what it means to. *)

From S2P Require Import Prelude Store HfiTypes HfiDefs Smem Buffers BufferView BufferInv.
From S2P Require Import BufferCache BufferFrames BufferSafe.
From stdpp Require Import list strings.
Open Scope Z_scope.

(** * Histories *)

(** The operations of a session, as the rest of the driver calls them. *)
Inductive buffer_op :=
| Map_frame (pkt : list Z) (offset buf_num : Z)
| Unmap_frame (ktid : Z)
| Map_user_persist (pkt : list Z) (offset buf_num : Z) (fd_arr : list Z)
| Register (session : bool) (buf : eva_kmd_buffer)
| Unregister (session : bool) (buf : eva_kmd_buffer)
| Iova_cleanup
| Allocate_arp (size : Z)
| Release_arp (live : bool)
| Deinit (session : bool) (stack_index : Z).

Section histories.
Context `{BufEnv} `{RbLaws} `{!BufLaws} `{!IovaLaws}.

Definition run_op (op : buffer_op) : B unit :=
  match op with
  | Map_frame pkt off n => _ ← msm_cvp_map_frame pkt off n; mret tt
  | Unmap_frame ktid => msm_cvp_unmap_frame ktid
  | Map_user_persist pkt off n fds => _ ← msm_cvp_map_user_persist pkt off n fds; mret tt
  | Register session buf =>
      _ ← msm_cvp_register_buffer (λ b, mret (- EINVAL, kb_reserved0 b)) session buf; mret tt
  | Unregister session buf =>
      _ ← msm_cvp_unregister_buffer (λ _, mret (- EINVAL)) session buf; mret tt
  | Iova_cleanup => _ ← msm_cvp_free_unused_mapping; mret tt
  | Allocate_arp size => _ ← cvp_allocate_arp_bufs size; mret tt
  | Release_arp live => _ ← cvp_release_arp_buffers live; mret tt
  | Deinit session idx => _ ← msm_cvp_session_deinit_buffers session idx; mret tt
  end.

(** When an operation may be called: packets have passed [is_buf_param_valid], buffers with
    an index are the DSP's business, and a persistent buffer is not given up while a frame
    in flight uses one. *)
Definition op_ok (op : buffer_op) (s : bufs) : Prop :=
  match op with
  | Map_frame pkt off n => packet_fits pkt off n
  | Map_user_persist pkt off n fds => packet_fits pkt off n ∧ Z.of_nat (length fds) = n
  | Unregister _ buf =>
      kb_index buf = 0 ∧ (kb_type buf = EVA_KMD_BUFTYPE_INTERNAL_1 → persist_idle (view_of s))
  | Release_arp _ => persist_idle (view_of s)
  | _ => True
  end.

(** The buffers of a new session ([INIT_DMAMAP_CACHE], empty lists); the counters of the
    core and the dma_buf references are what they are. *)
Definition new_session (refs : gmap Z Z) (va ktid : Z) (t : list bcall) : bufs :=
  mkBufs ∅ refs rb_null 0 128 [] [] [] 0 None (mkFbufs 0 0 ∅) (mkFbufs 0 0 ∅) 0 0 0 0 va false
    ktid false 0 t.

Inductive reachable : bufs → Prop :=
| reach_new refs va ktid t :
    (∀ d, 0 <= ref_of d refs) → reachable (new_session refs va ktid t)
| reach_op s op s' : reachable s → op_ok op s → run_op op s = Done (tt, s') → reachable s'.

Lemma new_session_ok refs va ktid t :
  (∀ d, 0 <= ref_of d refs) → buffers_ok (new_session refs va ktid t).
Proof.
  intros Hr. unfold buffers_ok, new_session, view_of. cbn. rewrite fmap_empty.
  split; unfold uses, pers, wnccs; cbn; try done.
  - by intros p ?%elem_of_nil.
  - constructor.
  - by intros p ?%elem_of_nil.
  - split; [constructor|]. by intros p ?%elem_of_nil.
  - by intros p ?%elem_of_nil.
  - constructor.
  - intros d _. unfold holds, dmas. rewrite map_to_list_empty. cbn. specialize (Hr d). lia.
  - split_and!; [done|done|by left].
  - split; [by left|done].
Qed.

Lemma run_op_ok op s :
  buffers_ok s → op_ok op s → ∃ s', run_op op s = Done (tt, s') ∧ buffers_ok s'.
Proof.
  intros Hok Hop.
  assert (Hrun : from (view_of s) (run_op op) (λ _ v', okv [] [] [] [] 0 v')).
  { assert (Hd : ∀ A (m : B A), from (view_of s) m (λ _ v', okv [] [] [] [] 0 v') →
      from (view_of s) (_ ← m; mret tt) (λ _ v', okv [] [] [] [] 0 v')).
    { intros A m Hm. eapply from_bind; [exact Hm|]. intros a v' Hv'. by apply from_ret. }
    destruct op; cbn [run_op op_ok] in *; try apply Hd.
    - by apply map_frame_ok.
    - by apply unmap_frame_ok.
    - destruct Hop. by apply map_user_persist_ok.
    - unfold msm_cvp_register_buffer. apply from_if; intros _; [by apply from_ret|].
      apply from_if; intros _; [by apply from_ret|]. apply from_if; intros _; [|by apply map_wncc_ok].
      eapply from_bind; [by apply map_feature_ok|]. intros rc v' Hv'. by apply from_ret.
    - unfold msm_cvp_unregister_buffer. destruct Hop as [-> Hidle]. cbn [negb Z.eqb].
      apply from_if; intros Ht; zify_bool; [by apply unmap_feature_ok; auto|].
      eapply from_post; [by apply unmap_wncc_ok|]. by intros rc v' [? _].
    - eapply from_post; [by apply free_unused_ok|]. by intros n v' [? _].
    - by apply alloc_arp_ok.
    - by apply release_arp_ok.
    - eapply from_post; [by apply deinit_ok|]. by intros n v' [? _]. }
  destruct (Hrun s eq_refl) as ([] & s' & E & Hs'). eauto.
Qed.

Lemma reachable_ok s : reachable s → buffers_ok s.
Proof.
  induction 1 as [refs va ktid t Hr|s op s' _ IH Hop E]; [by apply new_session_ok|].
  destruct (run_op_ok op s IH Hop) as (s2 & E2 & Hs2). congruence.
Qed.


(** * The cache *)

(** C14. In an accounted-for state the descent of the red-black tree answers what a search of
    the whole cache answers: the cached object with this dma_buf if there is one, and there
    is at most one. *)
Theorem cache_lookup_is_search s d :
  buffers_ok s →
  find_smem_rb_node d s = Done (cache_search (b_smems s) d (inorder (b_rbtree s)), s) ∧
  ∀ p, cache_search (b_smems s) d (inorder (b_rbtree s)) = Some p ↔
       ∃ a, b_smems s !! p = Some a ∧ sm_cached a = true ∧ sm_dma_buf a = d.
Proof.
  intros Hok. pose proof (ok_ordered _ _ _ _ _ _ Hok) as Hord. split.
  { unfold find_smem_rb_node. srun. by rewrite (find_node_search _ _ _ Hord). }
  intros p. destruct Hord as [Hlive Hs]. split.
  - intros [Hin Hk]%cache_search_some. destruct (ok_tree _ _ _ _ _ _ Hok p Hin) as (o & Ho & Hc).
    rewrite view_heap in Ho. apply fmap_Some in Ho as (a & Ha & ->). rewrite Ha in Hk. eauto.
  - intros (a & Ha & Hc & Hd).
    assert (Hin : p ∈ inorder (b_rbtree s)).
    { destruct (ok_cached _ _ _ _ _ _ Hok p (abs_smem a)) as [|Hx]; [|done|done|].
      - by rewrite view_heap, Ha.
      - by apply elem_of_nil in Hx. }
    destruct (cache_search _ _ _) as [q|] eqn:E.
    + apply cache_search_some in E as [Hq Hkq]. f_equal.
      apply sorted_nodup in Hs. apply list_elem_of_lookup in Hin as [i Hi].
      apply list_elem_of_lookup in Hq as [j Hj].
      assert (i = j) as ->.
      { eapply NoDup_lookup; [exact Hs|rewrite list_lookup_fmap, Hi; reflexivity|].
        rewrite list_lookup_fmap, Hj. cbn. rewrite Hkq, Ha. cbn. by rewrite Hd. }
      congruence.
    + exfalso. apply (cache_search_none_inv _ _ _ p E Hin). by rewrite Ha.
Qed.

(** * The end of a session *)

(** C15. The clean-up at the end of a session always completes: it gives up every frame,
    every client-owned persistent buffer and every cached mapping, and keeps the rest
    accounted for.  But the Warp-NCC source buffers stay registered whenever the local
    [buf], whose field [index] is never set, holds anything but 0 there. *)
Theorem session_deinit_empties s session idx :
  buffers_ok s →
  ∃ rc s', msm_cvp_session_deinit_buffers session idx s = Done (rc, s') ∧
    buffers_ok s' ∧ b_frames s' = [] ∧ inorder (b_rbtree s') = [] ∧ b_nr s' = 0 ∧
    Forall (λ b, ib_ownership b = DRIVER) (b_persistbufs s') ∧
    (idx ≠ 0 → b_cvpwnccbufs s' = b_cvpwnccbufs s).
Proof.
  intros Hok. destruct (deinit_ok (view_of s) session idx Hok s eq_refl)
    as (rc & s' & E & Hok' & Hf & Ht & Hp & Hw).
  exists rc, s'. split_and!; try done. destruct (ok_nr _ _ _ _ _ _ Hok') as (Hn & _).
  rewrite Ht in Hn. exact Hn.
Qed.

(** * Which parts of a buffer are accepted *)

(** The bounds check on a descriptor is computed in 32 bits, so it also accepts every
    offset past the end of the mapping that is far enough from the end of the address space:
    the address the device is then given lies outside the mapping. *)
Theorem buf_valid_wraps buf a :
  is_u32 (bt_size buf) → is_u32 (bt_offset buf) → is_u32 (sm_size a) →
  is_u32 (sm_device_addr a) → sm_device_addr a + sm_size a <= 2 ^ 32 →
  (IS_CVP_BUF_VALID buf a = true ↔
   bt_size buf <= sm_size a ∧
   (bt_offset buf + bt_size buf <= sm_size a ∨
    sm_size a < bt_offset buf ∧ bt_offset buf - sm_size a + bt_size buf <= 2 ^ 32)) ∧
  let iova := u32_add (sm_device_addr a) (bt_offset buf) in
  (bt_offset buf + bt_size buf <= sm_size a → 0 < bt_size buf →
   sm_device_addr a <= iova ∧ iova + bt_size buf <= sm_device_addr a + sm_size a) ∧
  (sm_size a < bt_offset buf → iova < sm_device_addr a ∨ sm_device_addr a + sm_size a < iova).
Proof.
  unfold is_u32. intros Hsz Hoff HS Ha Hend. split.
  { unfold IS_CVP_BUF_VALID, u32_sub, u32. rewrite andb_true_iff, !Z.leb_le.
    destruct (decide (bt_offset buf <= sm_size a)).
    - rewrite Z.mod_small by lia. lia.
    - rewrite <- (Z.mod_unique (sm_size a - bt_offset buf) (2 ^ 32) (-1)
        (sm_size a - bt_offset buf + 2 ^ 32)) by lia. lia. }
  unfold u32_add, u32. cbn zeta. split; [intros; rewrite Z.mod_small by lia; lia|]. intros Hpast.
  destruct (decide (sm_device_addr a + bt_offset buf < 2 ^ 32)).
  - rewrite Z.mod_small by lia. lia.
  - rewrite <- (Z.mod_unique (sm_device_addr a + bt_offset buf) (2 ^ 32) 1
      (sm_device_addr a + bt_offset buf - 2 ^ 32)) by lia. lia.
Qed.

(** * A buffer that is unregistered too early *)

(** The entry [unregister] is about to free. *)
Definition feature_match (buf : eva_kmd_buffer) (b : cvp_internal_buf) : bool :=
  (ib_type b =? EVA_KMD_BUFTYPE_INTERNAL_1) && (u32 (ib_fd b) =? kb_fd buf)
  && (ib_size b =? kb_size buf).

(** The entry's object is freed, whoever else uses it. *)
Lemma free_feature_frees b rest buf l : ∀ v kept,
  okv [] [] [] [] 0 v → v_persist v = kept ++ l ++ b :: rest →
  Forall (λ c, feature_match buf c = false) l → feature_match buf b = true →
  from v (free_feature_persist (kb_fd buf) (kb_size buf) kept (l ++ b :: rest))
    (λ rc v', rc = 0 ∧ v_heap v' !! ib_smem b = None ∧ v_frames v' = v_frames v).
Proof.
  induction l as [|c l IH]; intros v kept Hok El Hl Hb; cbn [app free_feature_persist].
  - destruct (live_pers _ _ _ _ _ _ b Hok) as [o Ho].
    { rewrite El. apply elem_of_app. right. left. }
    pose proof (ok_nonzero _ _ _ _ _ _ _ _ Hok Ho) as Hp0.
    rewrite (proj2 (Z.eqb_neq _ _) Hp0). unfold feature_match in Hb. rewrite Hb.
    eapply (from_modify _ _ (λ v, v <| v_persist := kept ++ rest |>)); [done|].
    eapply from_bind; [by apply (from_ref_dec _ _ o)|]. intros z w1 [_ ->].
    eapply from_keeps; [by apply keeps_modify|]. intros [].
    eapply from_bind.
    { apply (smem_free_view _ _ (add_cnt (-1) o)); [done|apply lookup_insert_eq|].
      intros Hd. by by apply (ok_debt_pos [] [] [] 0 v (ib_smem b) o). }
    intros z2 w2 ->. eapply from_bind.
    { destruct (v_heap (released (ib_smem b) (add_cnt (-1) o) (v <| v_persist := kept ++ rest |>
        <| v_heap ::= <[ib_smem b := add_cnt (-1) o]> |>)) !! ib_smem b) as [o2|] eqn:E.
      - by apply (from_kfree _ _ o2).
      - exfalso. revert E. unfold released. destruct (_ =? 0); cbn; by rewrite lookup_insert_eq. }
    intros [] w3 ->. apply from_ret. split_and!; [done|apply lookup_delete_eq|].
    unfold put_field_to. cbn [v_frames]. by rewrite (proj1 (released_lists _ _ _)).
  - destruct (live_pers _ _ _ _ _ _ c Hok) as [o Ho].
    { rewrite El. apply elem_of_app. right. left. }
    rewrite (proj2 (Z.eqb_neq _ _) (ok_nonzero _ _ _ _ _ _ _ _ Hok Ho)).
    apply Forall_cons in Hl as [Hc Hl]. unfold feature_match in Hc. rewrite Hc.
    apply IH; [done| |done|done]. by rewrite <- (assoc_L (++)).
Qed.

Lemma match_is_mapped v b fd size :
  okv [] [] [] [] 0 v → b ∈ v_persist v → u32 (ib_fd b) = fd → ib_size b = size →
  from v (is_mapped_persist_buf fd size) (λ o v', is_Some o ∧ v' = v).
Proof.
  intros Hok Hin Hfd Hsz s Es.
  destruct (keeps_mapped_persist _ _ _ _ _ v fd size Hok s Es) as (o & s' & E & Hs').
  exists o, s'. split_and!; [done| |done]. revert E. unfold is_mapped_persist_buf. srun.
  rewrite <- Es in Hin. change (v_persist (view_of s)) with (b_persistbufs s) in Hin.
  induction (b_persistbufs s) as [|c l IH]; cbn [find_persist]; [by apply elem_of_nil in Hin|].
  destruct (_ && _) eqn:Em.
  - destruct (b_smems s !! ib_smem c); [|done]. cbn. intros [= <- _]. eauto.
  - apply elem_of_cons in Hin as [<-|Hin]; [|by apply IH]. by rewrite Hfd, Hsz, !Z.eqb_refl in Em.
Qed.

(** A persistent buffer a client registered can be unregistered while a frame in flight
    uses the same memory: the call succeeds, frees the object whatever its reference count,
    and the frame's completion then reads freed memory. *)
Theorem unregister_in_use_faults s buf l b rest ktid f frames bs c :
  buffers_ok s →
  kb_index buf = 0 → kb_type buf = EVA_KMD_BUFTYPE_INTERNAL_1 →
  b_persistbufs s = l ++ b :: rest →
  Forall (λ c, feature_match buf c = false) l → feature_match buf b = true →
  take_frame (Z.land ktid (FENCE_BIT - 1)) (b_frames s) = Some (f, frames) →
  fr_bufs f = bs ++ [c] → ib_smem c = ib_smem b → (length bs < 40)%nat →
  ∃ s', msm_cvp_unregister_buffer (λ _, mret (- EINVAL)) true buf s = Done (0, s') ∧
        msm_cvp_unmap_frame ktid s' = Fault.
Proof.
  intros Hok Hi Ht El Hl Hb Hf Hbs Hc Hlen.
  assert (Hrun : from (view_of s) (msm_cvp_unregister_buffer (λ _, mret (- EINVAL)) true buf)
    (λ rc v', rc = 0 ∧ v_heap v' !! ib_smem b = None ∧ v_frames v' = b_frames s)).
  { unfold msm_cvp_unregister_buffer, msm_cvp_unmap_feature_persist. rewrite Hi, Ht. cbn [negb orb Z.eqb].
    pose proof Hb as Hb'. unfold feature_match in Hb'.
    apply andb_true_iff in Hb' as [[_ Hfd%Z.eqb_eq]%andb_true_iff Hsz%Z.eqb_eq].
    eapply from_bind.
    { apply (match_is_mapped _ b); [done| |done..]. cbn. rewrite El. apply elem_of_app. right. left. }
    intros o v' [[iova ->] ->]. apply (from_gets _ _ v_persist); [done|]. cbn [v_persist view_of].
    rewrite El. by apply (free_feature_frees b rest buf l (view_of s) []). }
  destruct (Hrun s eq_refl) as (rc & s' & E & -> & Hnone & Hfr). exists s'. split; [exact E|].
  unfold msm_cvp_unmap_frame. srun. cbn in Hfr. rewrite Hfr, Hf. cbv beta iota. srun.
  unfold backup_frame_buffers. rewrite Hbs, length_app. cbn [length].
  unfold MAX_FRAME_BUFFER_NUMS. rewrite Z.gtb_ltb, (proj2 (Z.eqb_neq _ _)) by lia.
  rewrite (proj2 (Z.ltb_ge _ _)) by lia.
  rewrite rev_app_distr. cbn [rev app backup_bufs]. unfold smem_get. srun. cbn [b_smems].
  assert (Hp : b_smems s' !! ib_smem c = None); [|unfold mbind, St_bind, gets, modify; cbn; by rewrite Hp].
  rewrite Hc. rewrite view_heap in Hnone. by destruct (b_smems s' !! ib_smem b).
Qed.

End histories.

(** * A concrete session *)
Module BufferScenario.

Fixpoint spine (l : list Z) : rb_node :=
  match l with [] => rb_null | p :: l' => rb_at rb_null p (spine l') end.

Lemma spine_inorder l : inorder (spine l) = l.
Proof. induction l as [|p l IH]; cbn; [done|]. by rewrite IH. Qed.

(** A tree library that never rebalances, and rebuilds the tree when it erases. *)
#[export] Instance tree : RbTree := {|
  rb_insert_color _ t := t;
  rb_erase p t := spine (filter (λ q, q ≠ p) (inorder t))
|}.
#[export] Instance tree_laws : RbLaws tree.
Proof. split; [done|]. intros p t. apply spine_inorder. Qed.

Definition fresh_address (live : gset Z) : Z := 1 + fold_right Z.max 0 (elements live).

Lemma fresh_address_ok live : fresh_address live ∉ live.
Proof.
  unfold fresh_address. rewrite <- elem_of_elements.
  assert (Hmax : ∀ l p, p ∈ l → p <= fold_right Z.max 0 l).
  { induction l as [|q l IH]; intros p; [by intros ?%elem_of_nil|]. cbn.
    intros [->|Hp]%elem_of_cons; [lia|]. pose proof (IH _ Hp). lia. }
  intros Hin. pose proof (Hmax _ _ Hin). lia.
Qed.

(** Every allocation succeeds, the dma_buf of a descriptor is a number one above it, and its
    64 KiB are mapped at its number. *)
#[export] Instance env : BufEnv := {|
  b_answer _ c := match c with
    | Zalloc_smem live => fresh_address live
    | Dma_buf_get fd => fd + 1
    | Dma_buf_attach d _ => d
    | Dma_buf_map a => a
    | Sgl_dma_address t => u32 (Z.shiftl t 16)
    | Alloc_dma_buffer _ => 1000
    | Dma_buf_unmap _ | Dma_buf_detach _ => 0
    | _ => 1
    end;
  b_dma_buf_size _ := 0x10000;
  b_hfi_ver := 2;
  b_cvp_hfi_defs := table_v2;
  b_context_banks := [("eva_hlos", false)]%string;
  is_iommu_present := true;
  msm_cvp_cacheop_disabled := false;
  msm_cvp_iova_leak_recovery := true;
  ipcc_reg_base_iova := 0;
  ipcc_reg_size := 0
|}.
#[export] Instance env_laws : BufLaws.
Proof. split; [|done]. intros n live. apply fresh_address_ok. Qed.
#[export] Instance env_iova : IovaLaws.
Proof. intros n t. apply u32_range. Qed.

Definition start : bufs := new_session ∅ 0 0 [].

Definition after (ops : list buffer_op) : bufs :=
  foldl (λ s op, match run_op op s with Done (_, s') => s' | Fault => s end) start ops.

Lemma after_reachable ops :
  Forall (λ op, ∀ s, op_ok op s) ops → reachable (after ops).
Proof.
  intros Hall. unfold after. assert (Hs : reachable start) by by apply reach_new.
  revert Hs. generalize start. induction Hall as [|op ops Hop _ IH]; intros s Hs; [done|].
  cbn. apply IH. destruct (run_op_ok op s) as (s' & E & _); [by apply reachable_ok|done|].
  rewrite E. by eapply reach_op.
Qed.

(** A client registers 4 KiB of descriptor 7 and a Warp-NCC source buffer, and sends a frame
    with a buffer of its own and one that lies in the registered memory. *)
Definition persistent : eva_kmd_buffer := mkKbuf 0 EVA_KMD_BUFTYPE_INTERNAL_1 7 4096 0 0.
Definition source : eva_kmd_buffer := mkKbuf 0 0 9 4096 0 0.
Definition descriptor (fd size offset : Z) : list Z := [fd; size; offset] ++ replicate 9 0.
Definition packet : list Z :=
  replicate 16 0 ++ descriptor 8 2048 0 ++ descriptor 7 2048 0 ++ replicate 562 0.
Definition in_flight : list buffer_op :=
  [Register true persistent; Register true source; Map_frame packet 16 2].

Lemma in_flight_reachable : reachable (after in_flight).
Proof.
  apply after_reachable. do 2 (apply Forall_cons; split; [done|]).
  apply Forall_cons; split; [|done]. intros s. by vm_compute.
Qed.


Lemma cache_lookup_is_search_witness :
  find_smem_rb_node 9 (after in_flight) = Done (Some 3, after in_flight).
Proof.
  destruct (cache_lookup_is_search (after in_flight) 9) as [E _].
  - apply reachable_ok, in_flight_reachable.
  - rewrite E. apply (f_equal (λ o, Done (o, after in_flight))). by vm_compute.
Defined.

Lemma session_deinit_empties_witness :
  ∃ rc s', msm_cvp_session_deinit_buffers true 5 (after in_flight) = Done (rc, s') ∧
    b_frames s' = [] ∧ b_nr s' = 0 ∧ length (b_cvpwnccbufs s') = 1%nat.
Proof.
  destruct (session_deinit_empties (after in_flight) true 5) as
    (rc & s' & E & _ & Hf & _ & Hn & _ & Hw).
  - apply reachable_ok, in_flight_reachable.
  - exists rc, s'. split_and!; [done|done|done|]. rewrite Hw by done. by vm_compute.
Defined.

Lemma buf_valid_wraps_witness :
  let buf := mkBt 7 4096 0xfffff000 0 in
  let a := mkSmem 1 8 0 0x20000 0x10000 false 0 0 0 7 true in
  IS_CVP_BUF_VALID buf a = true ∧ u32_add (sm_device_addr a) (bt_offset buf) < sm_device_addr a.
Proof.
  cbn zeta. pose proof (buf_valid_wraps (mkBt 7 4096 0xfffff000 0)
    (mkSmem 1 8 0 0x20000 0x10000 false 0 0 0 7 true)) as Hb.
  unfold is_u32 in Hb. cbn -[IS_CVP_BUF_VALID u32_add] in Hb.
  destruct Hb as [Hv [_ Hp]]; [lia..|]. split; [apply Hv; lia|].
  destruct Hp as [Hp|Hp]; [lia|exact Hp|]. by vm_compute in Hp.
Defined.

Lemma unregister_in_use_faults_witness :
  ∃ s', msm_cvp_unregister_buffer (λ _, mret (- EINVAL)) true persistent (after in_flight)
        = Done (0, s') ∧ msm_cvp_unmap_frame 1 s' = Fault.
Proof.
  apply (unregister_in_use_faults (after in_flight) persistent []
    (mkIbuf 7 4096 0 EVA_KMD_BUFTYPE_INTERNAL_1 0 0 CLIENT 1) [] 1
    (mkFrame [mkIbuf 8 2048 0 0 0 0 DRIVER 3; mkIbuf 7 2048 0 0 0 0 DRIVER 1] 1 0 0) []
    [mkIbuf 8 2048 0 0 0 0 DRIVER 3] (mkIbuf 7 2048 0 0 0 0 DRIVER 1)).
  - apply reachable_ok, in_flight_reachable.
  - done.
  - done.
  - by vm_compute.
  - done.
  - by vm_compute.
  - by vm_compute.
  - done.
  - done.
  - cbn. lia.
Defined.
End BufferScenario.
