(* ===== verification/UserMem.v ===== *)
(** User memory: what the kernel reads with [get_user] and [copy_from_user].

    A client can change its memory between two fetches, so the value of a fetch depends on
    how many were made before; a fetch can fail.  Addresses are in 32-bit words from the
    start of the structure the code works on. *)

From S2P Require Import Prelude Store HfiTypes.
Open Scope Z_scope.

(** The answer to the [n]-th fetch, from word [a]; and whether a range of words is the
    client's ([access_ok]). *)
Class UserMem := {
  fetch : nat → Z → option Z;
  access_ok : Z → Z → bool
}.

(** Fetched values are 32-bit words. *)
Class UserLaws `{UserMem} := fetch_u32 n a x : fetch n a = Some x → is_u32 x.

(** A component that fetches keeps the number of fetches made. *)
Class Fetches (S : Type) := {
  fetched : S → nat;
  count_fetch : S → S
}.

Section operations.
Context `{UserMem} {S : Type} `{Fetches S}.

Definition get_user (a : Z) : St S (option Z) :=
  n ← gets fetched; modify count_fetch ;; mret (fetch n a).

(** [copy_from_user] of [n] words: those read up to the first failure, and how many were
    not. *)
Fixpoint copy_from_user (a : Z) (n : nat) : St S (list Z * nat) :=
  match n with
  | O => mret ([], O)
  | Datatypes.S n' =>
      o ← get_user a;
      match o with
      | None => mret ([], n)
      | Some x => r ← copy_from_user (a + 1) n'; mret (x :: r.1, r.2)
      end
  end.

End operations.
