(* ===== verification/Wncc.v ===== *)
(** Out-of-band data of Warp-NCC frames: the client names registered source buffers and
    offsets in a structure of its own memory, and the driver writes their device addresses
    into the metadata buffers the frame carries.

    Source: [msm_cvp_proc_oob] and what it calls in src/msm/eva/msm_cvp_buf.c, with the
    structures of eva_shared_def.h.  A metadata buffer is 64-bit words, two per entry; the
    device address of an entry is split over the top 22 bits of the first word and the low
    10 bits of the second.  The kernel sees a buffer through a mapping ([vmap]) of its
    dma_buf: an access without one, or past the end, is a [Fault], and so is giving back a
    mapping of a dma_buf that has none, where the kernel stops with [BUG_ON]. *)

From S2P Require Import Prelude Store HfiTypes HfiDefs Smem Buffers UserMem.
Open Scope Z_scope.

(** * Data *)

Definition EVA_KMD_WNCC_MAX_LAYERS : Z := 4.
Definition EVA_KMD_WNCC_MAX_ADDRESSES : Z := 4095.
Definition EVA_KMD_OOB_WNCC : Z := 1.
Definition HFI_CMD_SESSION_CVP_WARP_NCC_FRAME : Z := 0x120301c.

(** [struct eva_kmd_oob_wncc]; a layer is its addresses, pairs of a buffer id and an
    offset. *)
Record eva_kmd_oob_wncc := mkOob {
  metadata_bufs_offset : Z;
  num_layers : Z;
  layers : list (list (Z * Z))
}.

(** The session's buffers, the contents of dma_bufs in 64-bit words, how often each is mapped
    into the kernel, the pool of kernel copies ([struct cvp_oob_pool]) and the fetches from
    user memory. *)
Record wncc_state := mkWs {
  x_bufs : bufs;
  x_mem : gmap Z (list Z);
  x_vmaps : gmap Z Z;
  x_used_bitmap : Z;
  x_allocated : bool;
  x_fetched : nat
}.

#[global] Instance eta_ws : Eta wncc_state :=
  λ r, mkWs (x_bufs r) (x_mem r) (x_vmaps r) (x_used_bitmap r) (x_allocated r) (x_fetched r).

#[global] Instance ws_fetches : Fetches wncc_state :=
  {| fetched := x_fetched; count_fetch s := s <| x_fetched ::= S |> |}.

Abbreviation W := (St wncc_state).

(** * Operations *)
Section operations.
Context `{BufEnv} `{UserMem}.

(** A buffer operation. *)
Definition on_buffers {A} (m : B A) : W A :=
  λ s, let! r := m (x_bufs s) in Done (fst r, s <| x_bufs := snd r |>).

(** [dma_buf_get] and [dma_buf_put]; an error is negative, and NULL is not tested for. *)
Definition dma_buf_get (fd : Z) : W Z :=
  d ← on_buffers (bext (Dma_buf_get fd));
  if d =? 0 then stuck
  else if d <? 0 then mret d
  else on_buffers (modify (λ s, s <| b_refs ::= λ m, <[d := ref_of d m + 1]> m |>)) ;; mret d.

Definition put_dma_buf (d : Z) : W unit := on_buffers (msm_cvp_smem_put_dma_buf d).

Definition vmaps_of (d : Z) (m : gmap Z Z) : Z := default 0 (m !! d).

(** [msm_cvp_dma_buf_vmap]: the error code. *)
Definition msm_cvp_dma_buf_vmap (d : Z) : W Z :=
  r ← on_buffers (bext (Vmap d));
  if negb (r =? 0) then mret r
  else modify (λ s, s <| x_vmaps ::= λ m, <[d := vmaps_of d m + 1]> m |>) ;; mret 0.

Definition msm_cvp_dma_buf_vunmap (d : Z) : W unit :=
  n ← gets (λ s, vmaps_of d (x_vmaps s));
  if n <=? 0 then stuck
  else
    _ ← on_buffers (bext (Vunmap d));
    modify (λ s, s <| x_vmaps ::= <[d := n - 1]> |>).

(** The content of a dma_buf; one that was never written holds zeros. *)
Definition content (d : Z) (s : wncc_state) : list Z :=
  default (replicate (Z.to_nat (b_dma_buf_size d / 8)) 0) (x_mem s !! d).

(** Access to word [k] of the mapping of [d]. *)
Definition qword (d : Z) (k : nat) : W Z :=
  s ← gets (λ s, s);
  if vmaps_of d (x_vmaps s) <=? 0 then stuck
  else match content d s !! k with Some x => mret x | None => stuck end.

Definition set_qword (d : Z) (k : nat) (x : Z) : W unit :=
  _ ← qword d k; modify (λ s, s <| x_mem ::= <[d := <[k := x]> (content d s)]> |>).

(** [iova_lsb : 22] at bit 42 of the first word and [iova_msb : 10] at bit 0 of the second. *)
Definition put_iova_lsb (q iova : Z) : Z := q mod 2 ^ 42 + (iova mod 2 ^ 22) * 2 ^ 42.
Definition put_iova_msb (q iova : Z) : Z := (q / 2 ^ 10) * 2 ^ 10 + (Z.shiftr iova 22) mod 2 ^ 10.

(** [wncc_metadata[i][j].iova_lsb = iova; .iova_msb = iova >> 22]. *)
Definition write_iova (d : Z) (j : nat) (iova : Z) : W unit :=
  q ← qword d (2 * j);
  set_qword d (2 * j) (put_iova_lsb q iova) ;;
  q ← qword d (2 * j + 1);
  set_qword d (2 * j + 1) (put_iova_msb q iova).

(** ** The pool of kernel copies *)

(** [init_wncc_bufs]: the eight copies, or none. *)
Fixpoint init_wncc_bufs (n : nat) : W Z :=
  match n with
  | O => modify (λ s, s <| x_used_bitmap := 0 |> <| x_allocated := true |>) ;; mret 0
  | S n' =>
      p ← on_buffers (bext Kzalloc_wncc_table);
      if p =? 0 then mret (- ENOMEM) else init_wncc_bufs n'
  end.

(** The first clear bit of the bitmap from bit [i] on. *)
Fixpoint free_bit (n : nat) (i bitmap : Z) : option Z :=
  match n with
  | O => None
  | S n' => if Z.testbit bitmap i then free_bit n' (i + 1) bitmap else Some i
  end.

(** The error code and [bitmap_idx], 0xff for a copy that is not of the pool. *)
Definition alloc_wncc_buf : W (Z * Z) :=
  allocated ← gets x_allocated;
  rc ← (if allocated : bool then mret 0 else init_wncc_bufs (Z.to_nat NUM_WNCC_BUFS));
  if negb (rc =? 0) then mret (rc, 0)
  else
    bitmap ← gets x_used_bitmap;
    match free_bit (Z.to_nat NUM_WNCC_BUFS) 0 bitmap with
    | Some i => modify (λ s, s <| x_used_bitmap ::= λ b, Z.setbit b i |>) ;; mret (0, i)
    | None =>
        p ← on_buffers (bext Kzalloc_wncc_table);
        mret (if p =? 0 then - ENOMEM else 0, 0xff)
    end.

Definition free_wncc_buf (idx : Z) : W unit :=
  if idx =? 0xff then mret tt
  else whenS (idx <? NUM_WNCC_BUFS) (modify (λ s, s <| x_used_bitmap ::= λ b, Z.clearbit b idx |>)).

(** ** The client's structure *)

(** Words of [struct eva_kmd_oob_buf]: the type, then [struct eva_kmd_oob_wncc]. *)
Definition oob_words : Z := 3 + EVA_KMD_WNCC_MAX_LAYERS * (1 + 2 * EVA_KMD_WNCC_MAX_ADDRESSES).
Definition layer_at (i : Z) : Z := 3 + i * (1 + 2 * EVA_KMD_WNCC_MAX_ADDRESSES).

Fixpoint pairs (l : list Z) : list (Z * Z) :=
  match l with a :: b :: l' => (a, b) :: pairs l' | _ => [] end.

(** One checked fetch: the error code or the value. *)
Definition fetch_word (a : Z) : W (Z + Z) :=
  if negb (access_ok a 1) then mret (inl (- EINVAL))
  else
    o ← get_user a;
    mret (match o with Some x => inr x | None => inl (- EFAULT) end).

(** The loop over the layers; [copy_from_user] returns how many bytes it did not copy, and
    that number is the result. *)
Fixpoint copy_layers (n : nat) (i : Z) (done : list (list (Z * Z))) :
    W (Z * list (list (Z * Z))) :=
  match n with
  | O => mret (0, done)
  | S n' =>
      r ← fetch_word (layer_at i);
      match r with
      | inl rc => mret (rc, done)
      | inr num_addrs =>
          if (num_addrs <? 1) || (num_addrs >? EVA_KMD_WNCC_MAX_ADDRESSES) then mret (- EINVAL, done)
          else if negb (access_ok (layer_at i + 1) (2 * num_addrs))
                  || negb (access_ok (layer_at i + 1 + 2 * (num_addrs - 1)) 2)
          then mret (- EINVAL, done)
          else
            c ← copy_from_user (layer_at i + 1) (2 * Z.to_nat num_addrs);
            if negb (c.2 =? 0)%nat then mret (4 * Z.of_nat c.2, done)
            else copy_layers n' (i + 1) (done ++ [pairs c.1])
      end
  end.

Definition no_oob : eva_kmd_oob_wncc := mkOob 0 0 [].

Definition _wncc_copy_oob_from_user : W (Z * eva_kmd_oob_wncc) :=
  if negb (access_ok 0 oob_words) then mret (- EINVAL, no_oob)
  else
    r ← fetch_word 0;
    match r with
    | inl rc => mret (rc, no_oob)
    | inr oob_type =>
        if negb (oob_type =? EVA_KMD_OOB_WNCC) then mret (- EINVAL, no_oob)
        else
          r ← fetch_word 1;
          match r with
          | inl rc => mret (rc, no_oob)
          | inr off =>
              if off >? (4 * MAX_HFI_PKT_SIZE - 4 * buf_type_words) / 4 then mret (- EINVAL, no_oob)
              else
                r ← fetch_word 2;
                match r with
                | inl rc => mret (rc, no_oob)
                | inr n =>
                    if (n <? 1) || (n >? EVA_KMD_WNCC_MAX_LAYERS) then mret (- EINVAL, no_oob)
                    else
                      l ← copy_layers (Z.to_nat n) 0 [];
                      mret (l.1, mkOob off n l.2)
                end
          end
    end.

(** ** The metadata buffers *)

(** [metadata_bufs_offset > (sizeof(pkt_data) - num_layers * sizeof(struct cvp_buf_type)) /
    sizeof(__u32)]. *)
Definition bad_metadata_offset (o : eva_kmd_oob_wncc) : bool :=
  metadata_bufs_offset o >? (4 * MAX_HFI_PKT_SIZE - num_layers o * (4 * buf_type_words)) / 4.

(** The descriptor of the metadata buffer of layer [i]. *)
Definition metadata_word (pkt : list Z) (o : eva_kmd_oob_wncc) (i field : Z) : W Z :=
  of_outcome (word_at pkt (metadata_bufs_offset o + i * buf_type_words + field)).

(** [_wncc_unmap_metadata_bufs]: [md] holds, per layer, the dma_buf that was mapped, 0 for
    NULL.  The dma_buf is looked up again. *)
Fixpoint unmap_layers (n : nat) (i : Z) (pkt : list Z) (o : eva_kmd_oob_wncc) (md : list Z) :
    W Z :=
  match n with
  | O => mret 0
  | S n' =>
      if default 0 (md !! Z.to_nat i) =? 0 then unmap_layers n' (i + 1) pkt o md
      else
        fd ← metadata_word pkt o i 0;
        d ← dma_buf_get fd;
        if d <? 0 then mret (- d)
        else
          msm_cvp_dma_buf_vunmap d ;;
          rc ← on_buffers (bext (End_cpu_access d));
          put_dma_buf d ;;
          if negb (rc =? 0) then mret rc else unmap_layers n' (i + 1) pkt o md
  end.

Definition _wncc_unmap_metadata_bufs (pkt : list Z) (o : eva_kmd_oob_wncc) (md : list Z) : W Z :=
  if (num_layers o <? 1) || (num_layers o >? EVA_KMD_WNCC_MAX_LAYERS) then mret (- EINVAL)
  else if bad_metadata_offset o then mret (- EINVAL)
  else unmap_layers (Z.to_nat (num_layers o)) 0 pkt o md.

(** The loop of [_wncc_map_metadata_bufs]. *)
Fixpoint map_layers (n : nat) (i : Z) (pkt : list Z) (o : eva_kmd_oob_wncc) (md : list Z) :
    W (Z * list Z) :=
  match n with
  | O => mret (0, md)
  | S n' =>
      fd ← metadata_word pkt o i 0;
      d ← dma_buf_get fd;
      if d <? 0 then mret (d, md)
      else
        let num_addrs := Z.of_nat (length (default [] (layers o !! Z.to_nat i))) in
        if b_dma_buf_size d <? num_addrs * 16 then put_dma_buf d ;; mret (- EINVAL, md)
        else
          rc ← on_buffers (bext (Begin_cpu_access d));
          if negb (rc =? 0) then put_dma_buf d ;; mret (rc, md)
          else
            rc ← msm_cvp_dma_buf_vmap d;
            if negb (rc =? 0) then
              _ ← on_buffers (bext (End_cpu_access d)); put_dma_buf d ;; mret (rc, md)
            else put_dma_buf d ;; map_layers n' (i + 1) pkt o (<[Z.to_nat i := d]> md)
  end.

Definition _wncc_map_metadata_bufs (pkt : list Z) (o : eva_kmd_oob_wncc) (md : list Z) :
    W (Z * list Z) :=
  if (num_layers o <? 1) || (num_layers o >? EVA_KMD_WNCC_MAX_LAYERS) then mret (- EINVAL, md)
  else if bad_metadata_offset o then mret (- EINVAL, md)
  else
    r ← map_layers (Z.to_nat (num_layers o)) 0 pkt o md;
    whenS (negb (r.1 =? 0)) (_ ← _wncc_unmap_metadata_bufs pkt o r.2; mret tt) ;;
    mret r.

(** ** Writing the addresses *)

(** The inner loop: it stops at the first address that is refused. *)
Fixpoint write_addrs (table : list msm_cvp_wncc_buffer) (d : Z) (j : nat)
    (addrs : list (Z * Z)) : W Z :=
  match addrs with
  | [] => mret 0
  | (buf_id, buf_offset) :: addrs' =>
      if (buf_id <? EVA_KMD_WNCC_SRC_BUF_ID_OFFSET)
         || (buf_id >=? EVA_KMD_WNCC_SRC_BUF_ID_OFFSET + EVA_KMD_WNCC_MAX_SRC_BUFS)
      then mret (- EINVAL)
      else
        match table !! Z.to_nat (buf_id - EVA_KMD_WNCC_SRC_BUF_ID_OFFSET) with
        | None => stuck
        | Some wb =>
            if wb_iova wb =? 0 then mret (- EINVAL)
            else if buf_offset >=? wb_size wb then mret (- EINVAL)
            else
              write_iova d j (u32_add (wb_iova wb) buf_offset) ;;
              write_addrs table d (S j) addrs'
        end
  end.

(** [eva_calculate_crc] over [n] words of the mapping of [d]. *)
Fixpoint eva_calculate_crc (d : Z) (n : nat) : W Z :=
  match n with
  | O => mret 0
  | S n' =>
      crc ← eva_calculate_crc d n';
      q ← qword d (Nat.div2 n');
      mret (u32 (crc + u32 (Z.shiftr q (if Nat.odd n' then 32 else 0))))
  end.

(** The loop over the layers: the error code and the packet with the check sums.  An
    address that is refused does not end it. *)
Fixpoint fill_layers (n : nat) (i : Z) (table : list msm_cvp_wncc_buffer) (pkt : list Z)
    (o : eva_kmd_oob_wncc) (md : list Z) (rc : Z) : W (Z * list Z) :=
  match n with
  | O => mret (rc, pkt)
  | S n' =>
      let m := default 0 (md !! Z.to_nat i) in
      e ← write_addrs table m 0 (default [] (layers o !! Z.to_nat i));
      let rc := if e =? 0 then rc else e in
      fd ← metadata_word pkt o i 0;
      size ← metadata_word pkt o i 1;
      flags ← metadata_word pkt o i 9;
      d ← dma_buf_get fd;
      if d <? 0 then mret (d, pkt)
      else if b_dma_buf_size d <? size then put_dma_buf d ;; mret (- EINVAL, pkt)
      else
        put_dma_buf d ;;
        pkt ← (if Z.testbit flags 0 then
                 crc ← eva_calculate_crc m (Z.to_nat (size / 4));
                 of_outcome (words_write pkt (metadata_bufs_offset o + i * buf_type_words + 10) [crc])
               else mret pkt);
        fill_layers n' (i + 1) table pkt o md rc
  end.

Definition msm_cvp_proc_oob_wncc (pkt : list Z) : W (Z * list Z) :=
  '(rc, idx) ← alloc_wncc_buf;
  if negb (rc =? 0) then mret (- ENOMEM, pkt)
  else
    '(rc, o) ← _wncc_copy_oob_from_user;
    r ← (if negb (rc =? 0) then mret (rc, pkt)
         else
           '(rc, md) ← _wncc_map_metadata_bufs pkt o (replicate (Z.to_nat EVA_KMD_WNCC_MAX_LAYERS) 0);
           if negb (rc =? 0) then mret (rc, pkt)
           else
             num ← gets (λ s, b_cvpwnccbufs_num (x_bufs s));
             table ← gets (λ s, b_cvpwnccbufs_table (x_bufs s));
             r ← (match table with
                  | Some t =>
                      if num =? 0 then mret (- EINVAL, pkt)
                      else fill_layers (Z.to_nat (num_layers o)) 0 t pkt o md 0
                  | None => mret (- EINVAL, pkt)
                  end);
             _ ← _wncc_unmap_metadata_bufs r.2 o md;
             mret r);
    free_wncc_buf idx ;; mret r.

(** [msm_cvp_proc_oob] on a packet that is there. *)
Definition msm_cvp_proc_oob (pkt : list Z) : W (Z * list Z) :=
  packet_type ← of_outcome (word_at pkt 1);
  if packet_type =? HFI_CMD_SESSION_CVP_WARP_NCC_FRAME then msm_cvp_proc_oob_wncc pkt
  else mret (0, pkt).

End operations.
