(* ===== verification/WnccSafe.v ===== *)
(** Out-of-band Warp-NCC data: a frame's addresses end up inside registered buffers, and the
    kernel's mappings, references and copies are given back; what a client that swaps a
    descriptor in between can do. *)

From S2P Require Import Prelude Store HfiTypes HfiDefs Smem Buffers UserMem Wncc.
From S2P Require Import BufferInv BufferFrames SessionBuffers.
Open Scope Z_scope.

(** What is assumed of the kernel and, while the call lasts, of the client's descriptors:
    [dma_buf_get] never answers NULL, and answers the same each time; dma_bufs are whole
    pages. *)
Class WnccLaws `{BufEnv} := {
  fd_of : Z → Z;
  fd_of_ok n fd : b_answer n (Dma_buf_get fd) = fd_of fd;
  fd_of_nonnull fd : fd_of fd ≠ 0;
  dma_buf_pages d : ∃ k, 0 <= k ∧ b_dma_buf_size d = k * PAGE_SIZE
}.

(** [dma_buf_end_cpu_access] may fail; the rest of the mappings then stays. *)
Definition end_access_ok `{BufEnv} : Prop := ∀ n d, b_answer n (End_cpu_access d) = 0.

(** * Entries *)

(** The device address of the entry in two words. *)
Definition iova_of (q0 q1 : Z) : Z := q0 / 2 ^ 42 + (q1 mod 2 ^ 10) * 2 ^ 22.

Definition is_u64 (z : Z) : Prop := 0 <= z < 2 ^ 64.

Lemma put_iova_lsb_spec q iova :
  is_u64 (put_iova_lsb q iova) ∧ put_iova_lsb q iova mod 2 ^ 42 = q mod 2 ^ 42
  ∧ put_iova_lsb q iova / 2 ^ 42 = iova mod 2 ^ 22.
Proof.
  unfold put_iova_lsb, is_u64.
  pose proof (Z.mod_pos_bound q (2 ^ 42)). pose proof (Z.mod_pos_bound iova (2 ^ 22)).
  split_and!; [lia|lia| |].
  - rewrite Z_mod_plus_full. apply Z.mod_small. lia.
  - rewrite Z_div_plus_full by lia. rewrite Z.div_small by lia. lia.
Qed.

Lemma put_iova_msb_spec q iova :
  is_u64 q →
  is_u64 (put_iova_msb q iova) ∧ put_iova_msb q iova / 2 ^ 10 = q / 2 ^ 10
  ∧ put_iova_msb q iova mod 2 ^ 10 = (iova / 2 ^ 22) mod 2 ^ 10.
Proof.
  unfold put_iova_msb, is_u64. intros Hq. rewrite Z.shiftr_div_pow2 by lia.
  pose proof (Z.mod_pos_bound (iova / 2 ^ 22) (2 ^ 10)). pose proof (Z.div_mod q (2 ^ 10)).
  pose proof (Z.mod_pos_bound q (2 ^ 10)).
  assert (q / 2 ^ 10 < 2 ^ 54) by (apply Z.div_lt_upper_bound; lia).
  split_and!; [lia|nia| |].
  - rewrite Z.add_comm, Z_div_plus_full by lia. rewrite Z.div_small by lia. lia.
  - rewrite Z.add_comm, Z_mod_plus_full. apply Z.mod_small. lia.
Qed.

Lemma iova_written q0 q1 iova :
  is_u32 iova → is_u64 q1 → iova_of (put_iova_lsb q0 iova) (put_iova_msb q1 iova) = iova.
Proof.
  intros Hi Hq. unfold iova_of. destruct (put_iova_lsb_spec q0 iova) as (_ & _ & ->).
  destruct (put_iova_msb_spec q1 iova Hq) as (_ & _ & ->). unfold is_u32 in Hi.
  rewrite (Z.mod_small (iova / 2 ^ 22)); [pose proof (Z.div_mod iova (2 ^ 22)); lia|].
  split; [apply Z.div_pos; lia|]. apply Z.div_lt_upper_bound; lia.
Qed.

(** A device address inside a registered source buffer. *)
Definition registered (table : list msm_cvp_wncc_buffer) (iova : Z) : Prop :=
  ∃ wb, wb ∈ table ∧ wb_iova wb ≠ 0 ∧ wb_iova wb <= iova < wb_iova wb + wb_size wb.

(** What may become of a metadata buffer: entry by entry, nothing, or a registered address
    in the address field and nothing in the others. *)
Definition filled (table : list msm_cvp_wncc_buffer) (l l' : list Z) : Prop :=
  length l' = length l ∧
  ∀ k q0 q1 q0' q1',
    l !! (2 * k)%nat = Some q0 → l !! (2 * k + 1)%nat = Some q1 →
    l' !! (2 * k)%nat = Some q0' → l' !! (2 * k + 1)%nat = Some q1' →
    (q0' = q0 ∧ q1' = q1) ∨
    (q0' mod 2 ^ 42 = q0 mod 2 ^ 42 ∧ q1' / 2 ^ 10 = q1 / 2 ^ 10
     ∧ registered table (iova_of q0' q1')).

Lemma filled_refl table l : filled table l l.
Proof. split; [done|]. intros. left. by simplify_eq. Qed.

Lemma filled_write table l l' j q0 q1 iova :
  filled table l l' → Forall is_u64 l' →
  l' !! (2 * j)%nat = Some q0 → l' !! (2 * j + 1)%nat = Some q1 →
  is_u32 iova → registered table iova →
  let l2 := <[(2 * j + 1)%nat := put_iova_msb q1 iova]> (<[(2 * j)%nat := put_iova_lsb q0 iova]> l') in
  filled table l l2 ∧ Forall is_u64 l2.
Proof.
  intros [Hlen Hf] Hall H0 H1 Hi Hreg l2.
  assert (Hq1 : is_u64 q1) by by eapply Forall_lookup_1.
  destruct (put_iova_lsb_spec q0 iova) as (Hl64 & Hl & _).
  destruct (put_iova_msb_spec q1 iova Hq1) as (Hm64 & Hm & _).
  split; [split|].
  - unfold l2. by rewrite !length_insert.
  - intros k p0 p1 p0' p1' E0 E1 E0' E1'. unfold l2 in E0', E1'.
    rewrite list_lookup_insert_ne in E0' by lia.
    destruct (decide (k = j)) as [->|Hne].
    + rewrite list_lookup_insert_eq in E0' by by eapply lookup_lt_Some.
      rewrite list_lookup_insert_eq in E1' by (rewrite length_insert; by eapply lookup_lt_Some).
      simplify_eq. right. rewrite Hl, Hm, iova_written by done.
      destruct (Hf j p0 p1 q0 q1 E0 E1 H0 H1) as [[-> ->]|(-> & -> & _)]; done.
    + rewrite list_lookup_insert_ne in E0' by lia. rewrite !list_lookup_insert_ne in E1' by lia.
      by apply (Hf k).
  - unfold l2. by apply Forall_insert; [apply Forall_insert|].
Qed.

(** * Layers, descriptors and mappings *)
Section layers.
Context `{WnccLaws}.

Definition address_ok (a : Z * Z) : Prop := is_u32 a.1 ∧ is_u32 a.2.
Definition layer_ok (l : list (Z * Z)) : Prop := Forall address_ok l.

Lemma pairs_ok l : Forall is_u32 l → layer_ok (pairs l).
Proof.
  remember (length l) as n eqn:Hn. assert (length l <= n)%nat as Hle by lia. clear Hn.
  revert l Hle. induction n as [|n IH]; intros [|a [|b l]] Hle Hl; cbn in *; try by constructor.
  - lia.
  - apply Forall_cons_1 in Hl as [Ha Hl]. apply Forall_cons_1 in Hl as [Hb Hl].
    constructor; [done|]. apply IH; [lia|done].
Qed.

Definition oob_ok (o : eva_kmd_oob_wncc) : Prop :=
  0 <= metadata_bufs_offset o ∧ 1 <= num_layers o <= 4
  ∧ Z.of_nat (length (layers o)) = num_layers o ∧ Forall layer_ok (layers o).

(** The packet has room for the descriptors of the layers. *)
Definition packet_ok (pkt : list Z) (o : eva_kmd_oob_wncc) : Prop :=
  0 <= metadata_bufs_offset o
  ∧ metadata_bufs_offset o + num_layers o * buf_type_words <= Z.of_nat (length pkt).

Definition meta_fd (pkt : list Z) (o : eva_kmd_oob_wncc) (i : Z) : Z :=
  pkt !!! Z.to_nat (metadata_bufs_offset o + i * buf_type_words + 0).

(** The mapping of layer [i] is that of the buffer its descriptor names, and holds the
    entries. *)
Definition slot_ok (pkt : list Z) (o : eva_kmd_oob_wncc) (i : nat) (d : Z) : Prop :=
  Z.of_nat i < num_layers o ∧ d = fd_of (meta_fd pkt o (Z.of_nat i)) ∧ 0 < d
  ∧ 16 * Z.of_nat (length (default [] (layers o !! i))) <= b_dma_buf_size d.

Definition mapped_ok (pkt : list Z) (o : eva_kmd_oob_wncc) (md : list Z) : Prop :=
  length md = 4%nat ∧ ∀ i d, md !! i = Some d → d ≠ 0 → slot_ok pkt o i d.

(** The mappings held for the layers from [i] on. *)
Definition held (i : nat) (md : list Z) : list Z := filter (λ d, d ≠ 0) (drop i md).

Lemma held_cons i md d :
  md !! i = Some d → held i md = if d =? 0 then held (S i) md else d :: held (S i) md.
Proof.
  intros Hd. unfold held. rewrite (drop_S _ _ _ Hd).
  destruct (Z.eqb_spec d 0) as [->|Hne]; [by rewrite filter_cons_False by (intros []; done)|].
  by rewrite filter_cons_True.
Qed.

Lemma held_none i md : (∀ j d, md !! j = Some d → (i <= j)%nat → d = 0) → held i md = [].
Proof.
  intros Hz. destruct (held i md) as [|d l] eqn:E; [done|].
  assert (Hd : d ∈ held i md) by (rewrite E; left).
  apply list_elem_of_filter in Hd as [Hd (k & Hk)%list_elem_of_lookup_1].
  rewrite lookup_drop in Hk. destruct Hd. eapply Hz; [exact Hk|lia].
Qed.

Lemma held_insert i md d :
  md !! i = Some 0 → d ≠ 0 → held 0 (<[i := d]> md) ≡ₚ d :: held 0 md.
Proof.
  intros Hi Hd. unfold held. rewrite !drop_0.
  rewrite insert_take_drop by by eapply lookup_lt_Some.
  rewrite <- (take_drop_middle md i 0 Hi) at 3. rewrite !list.filter_app, filter_cons_True by done.
  rewrite filter_cons_False by (intros []; done). by rewrite Permutation_middle.
Qed.

Lemma layers_in_bounds o :
  oob_ok o → (num_layers o <? 1) || (num_layers o >? EVA_KMD_WNCC_MAX_LAYERS) = false.
Proof.
  intros (_ & Hn & _). unfold EVA_KMD_WNCC_MAX_LAYERS. rewrite Z.gtb_ltb.
  by rewrite !(proj2 (Z.ltb_ge _ _)) by lia.
Qed.

Lemma mapped_insert pkt o md i d :
  mapped_ok pkt o md → md !! i = Some 0 → slot_ok pkt o i d → mapped_ok pkt o (<[i := d]> md).
Proof.
  intros [Hlen Hmd] Hi Hd. split; [by rewrite length_insert|]. intros j e.
  destruct (decide (j = i)) as [->|Hne].
  - rewrite list_lookup_insert_eq by by eapply lookup_lt_Some. by intros [= <-].
  - rewrite list_lookup_insert_ne by done. apply Hmd.
Qed.

(** The layers from [i] on have not been mapped. *)
Definition rest_zero (i : nat) (md : list Z) : Prop := ∀ j, (i <= j < 4)%nat → md !! j = Some 0.

(** The first [i] layers have. *)
Definition first_mapped (i : nat) (md : list Z) : Prop :=
  ∀ j, (j < i)%nat → ∃ d, md !! j = Some d ∧ d ≠ 0.

Lemma metadata_fits pkt o :
  Z.of_nat (length pkt) = hfi_packet_words → oob_ok o → bad_metadata_offset o = false →
  packet_ok pkt o.
Proof.
  unfold hfi_packet_words, bad_metadata_offset, packet_ok, buf_type_words, MAX_HFI_PKT_SIZE.
  intros Hl (Hoff & Hn & _) Hb. zify_bool.
  pose proof (Z.mul_div_le (4 * 600 - num_layers o * (4 * 12)) 4). lia.
Qed.

Lemma zeros_held : held 0 (replicate (Z.to_nat EVA_KMD_WNCC_MAX_LAYERS) 0) = [].
Proof. reflexivity. Qed.

Lemma zeros_lookup j d :
  replicate (Z.to_nat EVA_KMD_WNCC_MAX_LAYERS) 0 !! j = Some d → d = 0.
Proof. by intros [-> _]%lookup_replicate. Qed.

Lemma words_write_one m k x :
  0 <= k < Z.of_nat (length m) → words_write m k [x] = Done (<[Z.to_nat k := x]> m).
Proof.
  intros Hk. rewrite words_write_ok by (cbn; lia).
  rewrite insert_take_drop by lia. do 4 f_equal. cbn. lia.
Qed.

Lemma held_elem md i d : md !! i = Some d → d ≠ 0 → d ∈ held 0 md.
Proof.
  intros Hi Hd. apply list_elem_of_filter. rewrite drop_0. split; [done|].
  by eapply list_elem_of_lookup_2.
Qed.

(** A packet with the same descriptors. *)
Definition same_fds (o : eva_kmd_oob_wncc) (pkt pkt' : list Z) : Prop :=
  length pkt' = length pkt ∧
  ∀ i, 0 <= i < num_layers o → meta_fd pkt' o i = meta_fd pkt o i.

Lemma mapped_same_fds o pkt pkt' md :
  same_fds o pkt pkt' → mapped_ok pkt o md → mapped_ok pkt' o md.
Proof.
  intros [_ Hf] [Hl Hmd]. split; [done|]. intros i d Hi Hd.
  destruct (Hmd i d Hi Hd) as (H1' & H2' & H3'). split_and!; [done| |apply H3'|apply H3'].
  rewrite Hf by lia. done.
Qed.

Lemma crc_same_fds o pkt i crc :
  packet_ok pkt o → 0 <= i < num_layers o →
  ∃ pkt', words_write pkt (metadata_bufs_offset o + i * buf_type_words + 10) [crc] = Done pkt'
          ∧ same_fds o pkt pkt'.
Proof.
  unfold packet_ok, buf_type_words. intros [Hoff Hl] Hi. rewrite words_write_one by lia.
  eexists. split; [reflexivity|]. split; [apply length_insert|]. intros j Hj.
  unfold meta_fd, buf_type_words. apply list_lookup_total_insert_ne. lia.
Qed.

Lemma packet_same_fds o pkt pkt' : same_fds o pkt pkt' → packet_ok pkt o → packet_ok pkt' o.
Proof. intros [Hl _] [H1' H2']. split; [done|]. by rewrite Hl. Qed.

End layers.

(** * Accounting *)
Section accounting.
Context `{WnccLaws} `{UserMem}.

(** The state a call may start from. *)
Record wncc_ok (s : wncc_state) : Prop := {
  wo_refs : ∀ d, 0 <= ref_of d (b_refs (x_bufs s));
  wo_vmaps : ∀ d, 0 <= vmaps_of d (x_vmaps s);
  wo_u64 : ∀ d, Forall is_u64 (content d s);
  wo_size : ∀ d, 8 * Z.of_nat (length (content d s)) = b_dma_buf_size d;
  wo_table : ∀ t, b_cvpwnccbufs_table (x_bufs s) = Some t →
    Z.of_nat (length t) = EVA_KMD_WNCC_MAX_SRC_BUFS ∧
    Forall (λ wb, 0 <= wb_iova wb ∧ wb_iova wb + wb_size wb <= 2 ^ 32) t;
  wo_pool : x_allocated s = false → x_used_bitmap s = 0
}.

(** What has changed since [s0], while the call holds references [R] and mappings [M]. *)
Record since (s0 : wncc_state) (table : list msm_cvp_wncc_buffer) (pool : Z * bool)
    (R M : list Z) (s : wncc_state) : Prop := mkSince {
  si_bufs : ∃ refs tr, x_bufs s = x_bufs s0 <| b_refs := refs |> <| b_trace := tr |> ∧
    ∀ d, ref_of d refs = ref_of d (b_refs (x_bufs s0)) + count d R;
  si_vmaps : ∀ d, vmaps_of d (x_vmaps s) = vmaps_of d (x_vmaps s0) + count d M;
  si_mem : ∀ d, filled table (content d s0) (content d s) ∧ Forall is_u64 (content d s);
  si_pool : (x_used_bitmap s, x_allocated s) = pool
}.

Context (s0 : wncc_state) (Hs0 : wncc_ok s0) (table : list msm_cvp_wncc_buffer)
  (pool : Z * bool).
Local Abbreviation I := (since s0 table pool).

Lemma since_perm R R' M M' s : R ≡ₚ R' → M ≡ₚ M' → I R M s → I R' M' s.
Proof.
  intros HR HM [(refs & tr & E & Hr) Hv Hm Hp]. split; try done.
  - exists refs, tr. split; [done|]. intros d. by rewrite Hr, HR.
  - intros d. by rewrite Hv, HM.
Qed.

Lemma since_bext R M c :
  total (I R M) (on_buffers (bext c)) (λ r s, (∃ n, r = b_answer n c) ∧ I R M s).
Proof.
  intros s [(refs & tr & E & Hr) Hv Hm Hp]. unfold on_buffers, bext. srun.
  eexists _, _. split; [reflexivity|]. split; [by eexists|]. split; try done.
  exists refs, (tr ++ [c]). split; [|done]. unfold put_field_to. cbn. rewrite E.
  unfold put_field_to. reflexivity.
Qed.

Lemma since_get R M fd :
  total (I R M) (dma_buf_get fd) (λ d s, d = fd_of fd ∧
    (d < 0 ∧ I R M s ∨ 0 < d ∧ I (d :: R) M s)).
Proof.
  unfold dma_buf_get. eapply total_bind; [apply since_bext|]. intros d. apply total_pure.
  intros [n ->]. rewrite fd_of_ok. pose proof (fd_of_nonnull fd) as Hnz.
  rewrite (proj2 (Z.eqb_neq _ 0)) by done.
  apply total_if; intros Hd; zify_bool; [apply total_ret; intros s Hs; auto with lia|].
  eapply (total_bind _ _ (λ _ s, I (fd_of fd :: R) M s)).
  - intros s [(refs & tr & E & Hr) Hv Hm Hp]. unfold on_buffers. srun.
    eexists _, _. split; [reflexivity|]. split; try done.
    eexists _, tr. split.
    + unfold put_field_to. cbn. rewrite E. unfold put_field_to. cbn. reflexivity.
    + intros d. cbn. rewrite ref_of_insert. cbn [count]. specialize (Hr d).
      destruct (Z.eqb_spec (fd_of fd) d) as [->|]; lia.
  - intros _. apply total_ret. intros s Hs. split; [done|]. right. split; [lia|done].
Qed.

Lemma since_put R M d :
  d ≠ 0 → total (I (d :: R) M) (put_dma_buf d) (λ _, I R M).
Proof.
  intros Hd s [(refs & tr & E & Hr) Hv Hm Hp]. unfold put_dma_buf, on_buffers,
    msm_cvp_smem_put_dma_buf. rewrite (proj2 (Z.eqb_neq d 0)) by done. srun.
  assert (Er : b_refs (x_bufs s) = refs) by by rewrite E.
  pose proof (wo_refs _ Hs0 d) as Hd0. pose proof (Hr d) as Hrd. cbn [count] in Hrd.
  rewrite Z.eqb_refl in Hrd. pose proof (count_nonneg d R).
  rewrite Er, (proj2 (Z.leb_gt _ _)) by lia. srun.
  eexists _, _. split; [reflexivity|]. split; try done.
  eexists _, tr. split.
  - unfold put_field_to. cbn. rewrite E. unfold put_field_to. cbn. reflexivity.
  - intros d'. cbn. rewrite ref_of_insert. specialize (Hr d'). cbn [count] in Hr.
    destruct (Z.eqb_spec d d') as [->|]; lia.
Qed.

Lemma vmaps_of_insert d d' n m :
  vmaps_of d' (<[d := n]> m) = if d =? d' then n else vmaps_of d' m.
Proof.
  unfold vmaps_of. destruct (Z.eqb_spec d d') as [->|]; [by rewrite lookup_insert_eq|].
  by rewrite lookup_insert_ne.
Qed.

Lemma since_vmap R M d :
  total (I R M) (msm_cvp_dma_buf_vmap d) (λ rc s,
    rc ≠ 0 ∧ I R M s ∨ rc = 0 ∧ I R (d :: M) s).
Proof.
  unfold msm_cvp_dma_buf_vmap. eapply total_bind; [apply since_bext|]. intros r.
  apply total_pure. intros _. apply total_if; intros Hr.
  - apply negb_true_iff, Z.eqb_neq in Hr. apply total_ret. intros s Hs. by left.
  - eapply (total_bind _ _ (λ _ s, I R (d :: M) s)).
    + apply total_modify. intros s [Hb Hv Hm Hp]. split; try done.
      intros d'. cbn. rewrite vmaps_of_insert. cbn [count]. specialize (Hv d').
      destruct (Z.eqb_spec d d') as [->|]; lia.
    + intros _. apply total_ret. auto.
Qed.

Lemma since_vunmap R M d :
  total (I R (d :: M)) (msm_cvp_dma_buf_vunmap d) (λ _, I R M).
Proof.
  unfold msm_cvp_dma_buf_vunmap.
  eapply (total_bind _ _ (λ n s, 0 < n ∧ n = vmaps_of d (x_vmaps s) ∧ I R (d :: M) s)).
  { apply total_gets. intros s Hs. split_and!; [|done|done].
    rewrite (si_vmaps _ _ _ _ _ _ Hs). cbn [count]. rewrite Z.eqb_refl.
    pose proof (wo_vmaps _ Hs0 d). pose proof (count_nonneg d M). lia. }
  intros n. apply total_pure. intros Hn. rewrite (proj2 (Z.leb_gt _ _)) by lia.
  intros s [-> Hs]. destruct (since_bext R (d :: M) (Vunmap d) s Hs) as (r & s1 & E & _ & Hs1).
  assert (Ev : x_vmaps s1 = x_vmaps s).
  { revert E. unfold on_buffers, bext. srun. by intros [= _ <-]. }
  rewrite St_bind_run, E. srun. eexists _, _. split; [reflexivity|].
  destruct Hs1 as [Hb Hv Hm Hp]. split; try done. intros d'. cbn. rewrite vmaps_of_insert.
  specialize (Hv d'). rewrite Ev in *. cbn [count] in Hv.
  destruct (Z.eqb_spec d d') as [->|]; lia.
Qed.

Lemma since_length R M s d : I R M s → length (content d s) = length (content d s0).
Proof. intros Hs. apply (si_mem _ _ _ _ _ _ Hs d). Qed.

(** An access through a mapping the call holds. *)
Lemma since_qword R M d k :
  d ∈ M → 8 * Z.of_nat k < b_dma_buf_size d →
  total (I R M) (qword d k) (λ x s, content d s !! k = Some x ∧ I R M s).
Proof.
  intros Hd Hk s Hs. unfold qword. srun.
  rewrite (si_vmaps _ _ _ _ _ _ Hs). apply count_pos in Hd. pose proof (wo_vmaps _ Hs0 d).
  rewrite (proj2 (Z.leb_gt _ _)) by lia.
  destruct (lookup_lt_is_Some_2 (content d s) k) as [x Hx].
  { rewrite (since_length _ _ _ _ Hs). pose proof (wo_size _ Hs0 d). lia. }
  rewrite Hx. by exists x, s.
Qed.

Lemma content_insert d d' l s :
  content d' (s <| x_mem ::= <[d := l]> |>) = if d =? d' then l else content d' s.
Proof.
  unfold content. cbn. destruct (Z.eqb_spec d d') as [->|]; [by rewrite lookup_insert_eq|].
  by rewrite lookup_insert_ne.
Qed.

Lemma qword_run d k x s :
  0 < vmaps_of d (x_vmaps s) → content d s !! k = Some x → qword d k s = Done (x, s).
Proof.
  intros Hv Hx. unfold qword. srun. rewrite (proj2 (Z.leb_gt _ _)) by done. by rewrite Hx.
Qed.

Lemma since_mapped R M s d : I R M s → d ∈ M → 0 < vmaps_of d (x_vmaps s).
Proof.
  intros Hs Hd. rewrite (si_vmaps _ _ _ _ _ _ Hs). apply count_pos in Hd.
  pose proof (wo_vmaps _ Hs0 d). lia.
Qed.

(** The bounds of the table are those of the starting state. *)
Definition table_ok : Prop := Forall (λ wb, 0 <= wb_iova wb ∧ wb_iova wb + wb_size wb <= 2 ^ 32) table.

Lemma since_write_iova R M d j iova :
  d ∈ M → 16 * (Z.of_nat j + 1) <= b_dma_buf_size d → is_u32 iova → registered table iova →
  total (I R M) (write_iova d j iova) (λ _, I R M).
Proof.
  intros Hd Hj Hi Hreg s Hs. pose proof (since_mapped _ _ _ _ Hs Hd) as Hv.
  pose proof (since_length _ _ _ d Hs) as Hlen. pose proof (wo_size _ Hs0 d) as Hsize.
  destruct (lookup_lt_is_Some_2 (content d s) (2 * j)) as [q0 E0]; [lia|].
  destruct (lookup_lt_is_Some_2 (content d s) (2 * j + 1)) as [q1 E1]; [lia|].
  destruct (si_mem _ _ _ _ _ _ Hs d) as [Hf H64].
  pose proof (filled_write _ _ _ _ _ _ _ Hf H64 E0 E1 Hi Hreg) as Hf2.
  unfold write_iova, set_qword. rewrite St_bind_run, (qword_run _ _ _ _ Hv E0). srun.
  rewrite (qword_run _ _ _ _ Hv E0). srun.
  set (s1 := s <| x_mem ::= _ |>).
  assert (Ec : content d s1 = <[(2 * j)%nat := put_iova_lsb q0 iova]> (content d s))
    by (unfold s1; by rewrite content_insert, Z.eqb_refl).
  assert (E1' : content d s1 !! (2 * j + 1)%nat = Some q1)
    by (by rewrite Ec, list_lookup_insert_ne by lia).
  rewrite (qword_run d _ q1 s1 Hv E1'). srun. rewrite (qword_run d _ q1 s1 Hv E1'). srun.
  eexists _, _. split; [reflexivity|]. destruct Hs as [Hb Hvm Hm Hp]. split; try done.
  intros d'. rewrite content_insert, Ec. unfold s1. rewrite content_insert.
  destruct (Z.eqb_spec d d') as [<-|Hne]; [exact Hf2|apply Hm].
Qed.

Lemma since_get_user R M a :
  total (I R M) (get_user a) (λ o s, (∃ n, o = fetch n a) ∧ I R M s).
Proof.
  intros s Hs. unfold get_user. srun. eexists _, _. split; [reflexivity|].
  split; [by eexists|]. by destruct Hs as [Hb Hvm Hm Hp].
Qed.

Lemma since_outcome {A} R M (o : outcome A) a (Q : A → wncc_state → Prop) :
  o = Done a → (∀ s, I R M s → Q a s) → total (I R M) (of_outcome o) Q.
Proof. apply total_of_outcome. Qed.

(** ** The client's structure *)
Context `{!UserLaws}.

Lemma since_fetch_word R M a :
  total (I R M) (fetch_word a) (λ r s, match r with inl e => e ≠ 0 | inr x => is_u32 x end ∧ I R M s).
Proof.
  unfold fetch_word. apply total_if; intros _; [by apply total_ret|].
  eapply total_bind; [apply since_get_user|]. intros o. apply total_pure. intros [n Ho].
  apply total_ret. intros s Hs. split; [|done]. destruct o as [x|]; [|done].
  symmetry in Ho. by apply fetch_u32 in Ho.
Qed.

Lemma since_copy_from_user R M a n :
  total (I R M) (copy_from_user a n) (λ r s,
    (Forall is_u32 r.1 ∧ length r.1 + r.2 = n)%nat ∧ I R M s).
Proof.
  revert a. induction n as [|n IH]; intros a; cbn [copy_from_user].
  { apply total_ret. intros s Hs. split; [|done]. cbn. split; [done|lia]. }
  eapply total_bind; [apply since_get_user|]. intros o. apply total_pure. intros [k Ho].
  destruct o as [x|].
  - eapply total_bind; [apply IH|]. intros r. apply total_pure. intros [Hr Hl].
    apply total_ret. intros s Hs. split; [|done]. cbn. split; [|lia].
    constructor; [|done]. symmetry in Ho. by apply fetch_u32 in Ho.
  - apply total_ret. intros s Hs. split; [|done]. cbn. split; [done|lia].
Qed.

Lemma since_copy_layers R M n i acc :
  Forall layer_ok acc →
  total (I R M) (copy_layers n i acc) (λ r s,
    (Forall layer_ok r.2 ∧ (r.1 = 0%Z → length r.2 = length acc + n)%nat) ∧ I R M s).
Proof.
  revert i acc. induction n as [|n IH]; intros i acc Hacc; cbn [copy_layers].
  { apply total_ret. intros s Hs. split; [|done]. split; [done|]. cbn. lia. }
  assert (Herr : ∀ rc, rc ≠ 0 → total (I R M) (mret (rc, acc)) (λ r s,
    (Forall layer_ok r.2 ∧ (r.1 = 0%Z → length r.2 = length acc + S n)%nat) ∧ I R M s)).
  { intros rc Hrc. apply total_ret. intros s Hs. split; [|done]. by split. }
  eapply total_bind; [apply since_fetch_word|]. intros r. apply total_pure. intros Hr.
  destruct r as [e|num]; [by apply Herr|].
  apply total_if; intros _; [by apply Herr|]. apply total_if; intros _; [by apply Herr|].
  eapply total_bind; [apply since_copy_from_user|]. intros c. apply total_pure. intros [Hc _].
  apply total_if; intros Hz.
  - apply Herr. apply negb_true_iff, Nat.eqb_neq in Hz. lia.
  - eapply total_post; [apply IH|].
    + apply Forall_app. split; [done|]. constructor; [by apply pairs_ok|done].
    + cbn. intros [rc l] s [[Hl Hn] Hs]. split; [|done]. split; [done|]. cbn in *.
      intros E. rewrite (Hn E), length_app. cbn. lia.
Qed.

Lemma since_copy_oob R M :
  total (I R M) _wncc_copy_oob_from_user (λ r s, (r.1 = 0 → oob_ok r.2) ∧ I R M s).
Proof.
  assert (Herr : ∀ rc, rc ≠ 0 → total (I R M) (mret (rc, no_oob)) (λ r s,
    (r.1 = 0 → oob_ok r.2) ∧ I R M s)).
  { intros rc Hrc. apply total_ret. intros s Hs. by split. }
  unfold _wncc_copy_oob_from_user. apply total_if; intros _; [by apply Herr|].
  eapply total_bind; [apply since_fetch_word|]. intros r. apply total_pure. intros Hr.
  destruct r as [e|ty]; [by apply Herr|]. apply total_if; intros _; [by apply Herr|].
  eapply total_bind; [apply since_fetch_word|]. intros r. apply total_pure. intros Hoff.
  destruct r as [e|off]; [by apply Herr|]. apply total_if; intros _; [by apply Herr|].
  eapply total_bind; [apply since_fetch_word|]. intros r. apply total_pure. intros Hn.
  destruct r as [e|n]; [by apply Herr|]. apply total_if; intros Hb; [by apply Herr|].
  unfold EVA_KMD_WNCC_MAX_LAYERS in Hb. zify_bool.
  eapply total_bind; [by apply since_copy_layers|]. intros l. apply total_pure. intros [Hl Hlen].
  apply total_ret. intros s Hs. split; [|done]. cbn. intros E. unfold oob_ok. cbn.
  rewrite (Hlen E). unfold is_u32 in *. cbn. split_and!; [lia|lia|lia|lia|done].
Qed.

(** ** Metadata buffers *)

Lemma since_metadata_word R M pkt o i field :
  packet_ok pkt o → 0 <= i < num_layers o → 0 <= field < buf_type_words →
  total (I R M) (metadata_word pkt o i field) (λ x s,
    x = pkt !!! Z.to_nat (metadata_bufs_offset o + i * buf_type_words + field) ∧ I R M s).
Proof.
  intros [Hoff Hlen] Hi Hf. eapply since_outcome; [apply word_at_ok|by intros].
  unfold buf_type_words in *. lia.
Qed.

(** Giving the mappings back: only a failure of [dma_buf_end_cpu_access] leaves some. *)
Lemma since_unmap_layers pkt o md n i :
  packet_ok pkt o → mapped_ok pkt o md → Z.of_nat (i + n) = num_layers o →
  total (I [] (held i md)) (unmap_layers n (Z.of_nat i) pkt o md)
    (λ _ s, ∃ M, I [] M s ∧ (end_access_ok → M = [])).
Proof.
  intros Hp [Hlen Hmd]. revert i. induction n as [|n IH]; intros i Hi; cbn [unmap_layers].
  { apply total_ret. intros s Hs. eexists. split; [exact Hs|]. intros _. apply held_none.
    intros j d Hj Hle. destruct (Z.eq_dec d 0) as [|Hd]; [done|].
    destruct (Hmd j d Hj Hd) as [Hlt _]. lia. }
  rewrite Nat2Z.id. replace (Z.of_nat i + 1) with (Z.of_nat (S i)) by lia.
  destruct (md !! i) as [d|] eqn:Ed; cbn [from_option id].
  2:{ unfold held. rewrite drop_ge by by apply lookup_ge_None_1.
      eapply total_pre; [apply IH; lia|]. intros s Hs. unfold held. rewrite drop_ge; [done|].
      apply lookup_ge_None_1 in Ed. lia. }
  rewrite (held_cons _ _ _ Ed). destruct (Z.eqb_spec d 0) as [->|Hd]; [apply IH; lia|].
  destruct (Hmd i d Ed Hd) as (Hlt & Efd & Hpos & _).
  eapply total_bind; [apply since_metadata_word; [done|lia|unfold buf_type_words; lia]|]. intros fd. apply total_pure. intros Hfd.
  eapply total_bind; [apply since_get|]. intros d'.
  apply total_pure. intros ->. fold (meta_fd pkt o (Z.of_nat i)) in Hfd. rewrite Hfd, <- Efd.
  eapply (total_pre _ (I [d] (d :: held (S i) md))); [|intros s [[Hneg _]|[_ Hs]]; [lia|exact Hs]].
  rewrite (proj2 (Z.ltb_ge _ _)) by lia.
  eapply total_bind; [apply since_vunmap|]. intros [].
  eapply total_bind; [apply since_bext|]. intros rc. apply total_pure. intros [k Hrc].
  eapply total_bind; [by apply since_put|]. intros [].
  apply total_if; intros Hz.
  - apply total_ret. intros s Hs. eexists. split; [exact Hs|]. intros Hend.
    rewrite Hrc, Hend in Hz. done.
  - apply IH. lia.
Qed.

Lemma since_unmap pkt o md :
  packet_ok pkt o → oob_ok o → mapped_ok pkt o md → bad_metadata_offset o = false →
  total (I [] (held 0 md)) (_wncc_unmap_metadata_bufs pkt o md)
    (λ _ s, ∃ M, I [] M s ∧ (end_access_ok → M = [])).
Proof.
  intros Hp Ho Hmd Hb. unfold _wncc_unmap_metadata_bufs. rewrite layers_in_bounds, Hb by done.
  destruct Ho as (_ & Hn & _). apply (since_unmap_layers _ _ _ _ 0); [done|done|lia].
Qed.

Definition map_post (pkt : list Z) (o : eva_kmd_oob_wncc) (r : Z * list Z) (s : wncc_state) : Prop :=
  I [] (held 0 r.2) s ∧ mapped_ok pkt o r.2
  ∧ (r.1 = 0 → first_mapped (Z.to_nat (num_layers o)) r.2).

Lemma since_map_layers pkt o n i md :
  packet_ok pkt o → oob_ok o → mapped_ok pkt o md → rest_zero i md → first_mapped i md →
  Z.of_nat (i + n) = num_layers o →
  total (I [] (held 0 md)) (map_layers n (Z.of_nat i) pkt o md) (map_post pkt o).
Proof.
  intros Hp Ho. revert i md. induction n as [|n IH]; intros i md Hmd Hz Hf Hi; cbn [map_layers].
  { apply total_ret. intros s Hs. split; [done|]. split; [done|]. intros _.
    replace (Z.to_nat (num_layers o)) with i by lia. done. }
  assert (Hstop : ∀ rc R, rc ≠ 0 → R = [] →
            total (I R (held 0 md)) (mret (rc, md)) (map_post pkt o)).
  { intros rc R Hrc ->. apply total_ret. intros s Hs. split; [done|]. by split. }
  destruct (proj1 (proj2 Ho)) as [Hn1 Hn4].
  eapply total_bind; [apply since_metadata_word; [done|lia|unfold buf_type_words; lia]|].
  intros fd. apply total_pure. intros Hfd. fold (meta_fd pkt o (Z.of_nat i)) in Hfd.
  eapply total_bind; [apply since_get|]. intros d. apply total_pure. intros Hd.
  apply total_if; intros Hneg; zify_bool.
  { eapply total_pre; [by apply (Hstop d []); [lia|]|]. intros s [[_ Hs]|[Hpos _]]; [done|lia]. }
  eapply (total_pre _ (I [d] (held 0 md))); [|intros s [[Hlt _]|[_ Hs]]; [lia|done]].
  assert (Hd0 : d ≠ 0) by (rewrite Hd; apply fd_of_nonnull).
  rewrite Nat2Z.id. apply total_if; intros Hsize; zify_bool.
  { eapply total_bind; [by apply since_put|]. intros []. by apply Hstop. }
  eapply total_bind; [apply since_bext|]. intros rc. apply total_pure. intros _.
  apply total_if; intros Hrc.
  { eapply total_bind; [by apply since_put|]. intros []. apply Hstop; [|done].
    by apply negb_true_iff, Z.eqb_neq in Hrc. }
  eapply total_bind; [apply since_vmap|]. intros rc2.
  apply total_if; intros Hrc2; [apply negb_true_iff, Z.eqb_neq in Hrc2|
    apply negb_false_iff, Z.eqb_eq in Hrc2].
  { eapply (total_pre _ (I [d] (held 0 md))); [|intros s [[_ Hs]|[E _]]; [done|lia]].
    eapply total_bind; [apply since_bext|]. intros rc3. apply total_pure. intros _.
    eapply total_bind; [by apply since_put|]. intros []. by apply Hstop. }
  eapply (total_pre _ (I [d] (d :: held 0 md))); [|intros s [[Hne _]|[_ Hs]]; [lia|done]].
  eapply total_bind; [by apply since_put|]. intros [].
  assert (Hi0 : md !! i = Some 0) by (apply Hz; lia).
  replace (Z.of_nat i + 1) with (Z.of_nat (S i)) by lia.
  eapply total_pre; [apply IH|].
  - apply mapped_insert; [done|done|]. split_and!; [lia|by rewrite Hd, Hfd|lia|lia].
  - intros j Hj. rewrite list_lookup_insert_ne by lia. apply Hz. lia.
  - intros j Hj. destruct (decide (j = i)) as [->|Hne].
    + exists d. by rewrite list_lookup_insert_eq by by eapply lookup_lt_Some.
    + rewrite list_lookup_insert_ne by done. apply Hf. lia.
  - lia.
  - intros s Hs. eapply since_perm; [done| |exact Hs]. by rewrite held_insert.
Qed.

Definition returned (s : wncc_state) : Prop := ∃ M, I [] M s ∧ (end_access_ok → M = []).

Lemma returned_all s : I [] [] s → returned s.
Proof. intros Hs. by exists []. Qed.

Lemma since_map pkt o :
  Z.of_nat (length pkt) = hfi_packet_words → oob_ok o →
  total (I [] []) (_wncc_map_metadata_bufs pkt o (replicate (Z.to_nat EVA_KMD_WNCC_MAX_LAYERS) 0))
    (λ r s, if r.1 =? 0 then bad_metadata_offset o = false ∧ map_post pkt o r s else returned s).
Proof.
  intros Hl Ho. unfold _wncc_map_metadata_bufs. rewrite layers_in_bounds by done.
  apply total_if; intros Hb; [apply total_ret; apply returned_all|].
  pose proof (metadata_fits _ _ Hl Ho Hb) as Hp.
  eapply total_bind.
  { change (I [] []) with (I [] (held 0 (replicate (Z.to_nat EVA_KMD_WNCC_MAX_LAYERS) 0))).
    apply (since_map_layers _ _ _ 0); [done|done| | | |].
    - split; [done|]. intros i d Hd Hd0. by apply zeros_lookup in Hd.
    - intros j Hj. apply lookup_replicate. split; [done|]. change (j < 4)%nat. lia.
    - intros j Hj. lia.
    - destruct Ho as (_ & Ho & _). lia. }
  intros [rc md]. cbn [fst snd]. destruct (Z.eqb_spec rc 0) as [->|Hrc]; cbn [negb whenS].
  - eapply total_bind; [apply (total_ret _ tt (λ _, map_post pkt o (0, md))); auto|].
    intros []. apply total_ret. intros s Hs. by split.
  - eapply (total_bind _ _ (λ _, returned)).
    + intros s (Hs & Hmd & _).
      destruct (since_unmap pkt o md Hp Ho Hmd Hb s Hs) as (e & s' & E & Hs').
      exists tt, s'. split; [|exact Hs']. rewrite St_bind_run. cbn [snd]. by rewrite E.
    + intros []. apply total_ret. intros s Hs. cbn.
      by rewrite (proj2 (Z.eqb_neq _ _)) by done.
Qed.

(** ** Writing the addresses *)
Context (Htable : table_ok) (Hlen_table : Z.of_nat (length table) = EVA_KMD_WNCC_MAX_SRC_BUFS).

Lemma since_write_addrs R M d j addrs :
  d ∈ M → layer_ok addrs → 16 * (Z.of_nat j + Z.of_nat (length addrs)) <= b_dma_buf_size d →
  total (I R M) (write_addrs table d j addrs) (λ _, I R M).
Proof.
  intros Hd. revert j. induction addrs as [|[buf_id off] addrs IH]; intros j Ha Hj;
    cbn [write_addrs]; [by apply total_ret|].
  apply Forall_cons_1 in Ha as [[_ Hoff] Ha]. cbn [snd] in Hoff. cbn [length] in Hj.
  apply total_if; intros Hid; [by apply total_ret|].
  unfold EVA_KMD_WNCC_SRC_BUF_ID_OFFSET in *. zify_bool.
  destruct (lookup_lt_is_Some_2 table (Z.to_nat (buf_id - 1))) as [wb Hwb]; [lia|].
  rewrite Hwb. apply total_if; intros Hnz; zify_bool; [by apply total_ret|].
  apply total_if; intros Hs; zify_bool; [by apply total_ret|].
  pose proof (Forall_lookup_1 _ _ _ _ Htable Hwb) as [Hw0 Hw]. unfold is_u32 in Hoff.
  assert (Eu : u32_add (wb_iova wb) off = wb_iova wb + off) by (apply Z.mod_small; lia).
  rewrite Eu. eapply total_bind.
  - apply (since_write_iova _ _ _ _ _ Hd); [lia|unfold is_u32; lia|].
    exists wb. split_and!; [by eapply list_elem_of_lookup_2|done|lia|lia].
  - intros []. apply IH; [done|lia].
Qed.

Lemma since_crc R M d n :
  d ∈ M → 4 * Z.of_nat n <= b_dma_buf_size d →
  total (I R M) (eva_calculate_crc d n) (λ _, I R M).
Proof.
  intros Hd. induction n as [|n IH]; intros Hn; cbn [eva_calculate_crc]; [by apply total_ret|].
  eapply total_bind; [apply IH; lia|]. intros crc.
  eapply total_bind; [apply (since_qword _ _ _ _ Hd)|].
  - pose proof (Nat.div2_odd n). lia.
  - intros q. apply total_ret. by intros s [_ Hs].
Qed.

Lemma since_fill_layers pkt o md n i rc :
  packet_ok pkt o → oob_ok o → mapped_ok pkt o md →
  first_mapped (Z.to_nat (num_layers o)) md → Z.of_nat (i + n) = num_layers o →
  total (I [] (held 0 md)) (fill_layers n (Z.of_nat i) table pkt o md rc)
    (λ r s, same_fds o pkt r.2 ∧ I [] (held 0 md) s).
Proof.
  intros Hp Ho Hmd Hf. revert i pkt rc Hp Hmd.
  induction n as [|n IH]; intros i pkt rc Hp Hmd Hi; cbn [fill_layers].
  { apply total_ret. intros s Hs. split; [by split|done]. }
  assert (Hstop : ∀ e : Z, total (I [] (held 0 md)) (mret (e, pkt))
                          (λ r s, same_fds o pkt r.2 ∧ I [] (held 0 md) s)).
  { intros e. apply total_ret. intros s Hs. split; [by split|done]. }
  destruct (Hf i) as (d & Hd & Hd0); [lia|]. pose proof (held_elem _ _ _ Hd Hd0) as Hheld.
  destruct (proj2 Hmd i d Hd Hd0) as (Hlt & Efd & Hpos & Hfit).
  rewrite Nat2Z.id, Hd. cbn [from_option id].
  eapply total_bind.
  { apply (since_write_addrs _ _ _ 0 _ Hheld); [|lia].
    destruct (layers o !! i) as [l|] eqn:El; [|by constructor].
    destruct Ho as (_ & _ & _ & Hall). by eapply Forall_lookup_1. }
  intros e. set (rc' := if e =? 0 then rc else e).
  eapply total_bind; [apply since_metadata_word; [done|lia|unfold buf_type_words; lia]|].
  intros fd. apply total_pure. intros Hfd. fold (meta_fd pkt o (Z.of_nat i)) in Hfd.
  eapply total_bind; [apply since_metadata_word; [done|lia|unfold buf_type_words; lia]|].
  intros size. apply total_pure. intros _.
  eapply total_bind; [apply since_metadata_word; [done|lia|unfold buf_type_words; lia]|].
  intros flags. apply total_pure. intros _.
  eapply total_bind; [apply since_get|]. intros d'. apply total_pure. intros ->.
  rewrite Hfd, <- Efd. eapply (total_pre _ (I [d] (held 0 md)));
    [|intros s [[Hneg _]|[_ Hs]]; [lia|exact Hs]].
  rewrite (proj2 (Z.ltb_ge _ _)) by lia. apply total_if; intros Hsize; zify_bool.
  { eapply total_bind; [by apply since_put|]. intros []. apply Hstop. }
  eapply total_bind; [by apply since_put|]. intros [].
  eapply (total_bind _ _ (λ pkt' s, same_fds o pkt pkt' ∧ I [] (held 0 md) s)).
  - apply total_if; intros _; [|apply total_ret; intros s Hs; split; [by split|done]].
    eapply total_bind; [apply (since_crc _ _ _ _ Hheld)|].
    { assert (4 * (size / 4) <= size) by (apply Z.mul_div_le; lia). lia. }
    intros crc. destruct (crc_same_fds o pkt (Z.of_nat i) crc Hp) as (pkt' & Ew & Hsame); [lia|].
    eapply since_outcome; [exact Ew|]. by intros s Hs.
  - intros pkt'. apply total_pure. intros Hsame.
    replace (Z.of_nat i + 1) with (Z.of_nat (S i)) by lia.
    eapply total_post; [apply IH|].
    + by eapply packet_same_fds.
    + by eapply mapped_same_fds.
    + lia.
    + intros r s [[Hl Hr] Hs]. split; [|done]. destruct Hsame as [Hl' Hr'].
      split; [congruence|]. intros j Hj. by rewrite Hr, Hr'.
Qed.

End accounting.

(** ** The pool of copies *)
Section pool.
Context `{WnccLaws} `{UserMem}.
Context (s0 : wncc_state) (table : list msm_cvp_wncc_buffer).

Lemma since_start :
  (∀ d, Forall is_u64 (content d s0)) →
  since s0 table (x_used_bitmap s0, x_allocated s0) [] [] s0.
Proof.
  intros H64. split; [|intros d; cbn; lia|intros d; split; [apply filled_refl|done]|done].
  exists (b_refs (x_bufs s0)), (b_trace (x_bufs s0)). split; [|intros d; cbn; lia].
  unfold put_field_to. cbn. by destruct (x_bufs s0).
Qed.

Lemma since_pool b a b' a' R M s :
  since s0 table (b, a) R M s →
  since s0 table (b', a') R M (s <| x_used_bitmap := b' |> <| x_allocated := a' |>).
Proof. by intros [Hb Hv Hm Hp]. Qed.

Lemma since_init b n :
  total (since s0 table (b, false) [] []) (init_wncc_bufs n) (λ rc s,
    since s0 table (if rc =? 0 then (0, true) else (b, false)) [] [] s).
Proof.
  induction n as [|n IH]; cbn [init_wncc_bufs].
  - intros s Hs. srun. eexists _, _. split; [reflexivity|]. by eapply since_pool.
  - eapply total_bind; [apply since_bext|]. intros p. apply total_pure. intros _.
    apply total_if; intros _; [by apply total_ret|exact IH].
Qed.

Lemma free_bit_spec n i b j : 0 <= i → free_bit n i b = Some j →
  i <= j < i + Z.of_nat n ∧ Z.testbit b j = false.
Proof.
  revert i. induction n as [|n IH]; intros i Hi; cbn [free_bit]; [done|].
  destruct (Z.testbit b i) eqn:E; [intros Hj; apply IH in Hj as [Hj Hb]; [split; [lia|done]|lia]|]. intros [= <-]. split; [lia|done].
Qed.

(** What the bitmap is after the copy is given back. *)
Definition freed (idx b : Z) : Z :=
  if idx =? 0xff then b else if idx <? NUM_WNCC_BUFS then Z.clearbit b idx else b.

Lemma freed_set i b : 0 <= i < 8 → Z.testbit b i = false → freed i (Z.setbit b i) = b.
Proof.
  intros Hi Hb. unfold freed, NUM_WNCC_BUFS. rewrite (proj2 (Z.eqb_neq _ _)) by lia.
  rewrite (proj2 (Z.ltb_lt _ _)) by lia. apply Z.bits_inj_iff'. intros n Hn.
  rewrite Z.clearbit_eqb, Z.setbit_eqb by lia.
  destruct (Z.eqb_spec i n) as [->|]; cbn; [by rewrite Hb|by rewrite andb_true_r].
Qed.

Lemma since_free idx b R M :
  total (since s0 table (b, true) R M) (free_wncc_buf idx)
    (λ _, since s0 table (freed idx b, true) R M).
Proof.
  unfold free_wncc_buf, freed. destruct (idx =? 0xff); [by apply total_ret|].
  destruct (idx <? NUM_WNCC_BUFS); cbn [whenS]; [|by apply total_ret].
  apply total_modify. intros s [Hb Hv Hm Hp]. split; try done.
  injection Hp as <- Ha. cbn. by rewrite Ha.
Qed.

Lemma since_alloc :
  (x_allocated s0 = false → x_used_bitmap s0 = 0) →
  total (since s0 table (x_used_bitmap s0, x_allocated s0) [] []) alloc_wncc_buf (λ r s,
    if r.1 =? 0 then ∃ b, freed r.2 b = x_used_bitmap s0 ∧ since s0 table (b, true) [] [] s
    else since s0 table (x_used_bitmap s0, x_allocated s0) [] [] s
         ∨ since s0 table (x_used_bitmap s0, true) [] [] s).
Proof.
  intros Hpool. unfold alloc_wncc_buf.
  eapply (total_bind _ _ (λ a s, a = x_allocated s0 ∧ since s0 table (x_used_bitmap s0, x_allocated s0) [] [] s)).
  { apply total_gets. intros s Hs. split; [|done]. by injection (si_pool _ _ _ _ _ _ Hs). }
  intros a. apply total_pure. intros ->.
  eapply (total_bind _ _ (λ rc, since s0 table (x_used_bitmap s0,
    if rc =? 0 then true else x_allocated s0) [] [])).
  { destruct (x_allocated s0); [by apply total_ret|]. rewrite Hpool by done.
    eapply total_post; [apply since_init|]. intros rc s. cbn. by destruct (rc =? 0). }
  intros rc. destruct (Z.eqb_spec rc 0) as [->|Hrc]; cbn [negb].
  2:{ apply total_ret. intros s Hs. cbn. rewrite (proj2 (Z.eqb_neq _ _)) by done. by left. }
  eapply (total_bind _ _ (λ b s, b = x_used_bitmap s0 ∧ since s0 table (x_used_bitmap s0, true) [] [] s)).
  { apply total_gets. intros s Hs. split; [|done]. by injection (si_pool _ _ _ _ _ _ Hs). }
  intros b. apply total_pure. intros ->.
  destruct (free_bit _ 0 _) as [i|] eqn:Ei.
  - apply free_bit_spec in Ei as [Hi Hbit]; [|done]. unfold NUM_WNCC_BUFS in Hi.
    intros s [Hb Hv Hm Hp]. srun. eexists _, _. split; [reflexivity|]. cbn.
    exists (Z.setbit (x_used_bitmap s0) i). split; [apply freed_set; [lia|done]|].
    split; try done. injection Hp as Hu Ha. cbn. by rewrite Hu, Ha.
  - eapply total_bind; [apply since_bext|]. intros p. apply total_pure. intros _.
    apply total_ret. intros s Hs. cbn. destruct (p =? 0); cbn; [by right|]. by eexists.
Qed.

End pool.

(** * The whole call *)
Section whole.
Context `{WnccLaws} `{UserMem} `{!UserLaws}.
Implicit Types (s : wncc_state).

(** What a call leaves behind. *)
Definition wncc_done (s0 : wncc_state) (table : list msm_cvp_wncc_buffer) (n : nat)
    (r : Z * list Z) (s : wncc_state) : Prop :=
  length r.2 = n
  ∧ (∀ d, ref_of d (b_refs (x_bufs s)) = ref_of d (b_refs (x_bufs s0)))
  ∧ (end_access_ok → ∀ d, vmaps_of d (x_vmaps s) = vmaps_of d (x_vmaps s0))
  ∧ x_used_bitmap s = x_used_bitmap s0
  ∧ ∀ d, filled table (content d s0) (content d s).

Lemma since_done s0 table al M n r s :
  since s0 table (x_used_bitmap s0, al) [] M s → (end_access_ok → M = []) → length r.2 = n →
  wncc_done s0 table n r s.
Proof.
  intros [(refs & tr & Eb & Hr) Hv Hm Hp] HM Hl. split_and!; [done| | | |].
  - intros d. rewrite Eb. cbn. rewrite Hr. cbn. lia.
  - intros Hend d. rewrite Hv, HM by done. cbn. lia.
  - by injection Hp.
  - intros d. apply Hm.
Qed.

Section one_call.
Context (s0 : wncc_state) (Hs0 : wncc_ok s0) (pkt : list Z)
  (Hpkt : Z.of_nat (length pkt) = hfi_packet_words).
Local Abbreviation table := (default [] (b_cvpwnccbufs_table (x_bufs s0))).

(** What the part that holds mappings leaves. *)
Definition back (pool : Z * bool) (r : Z * list Z) (s : wncc_state) : Prop :=
  length r.2 = length pkt ∧ returned s0 table pool s.

Lemma since_filled pool o md :
  oob_ok o → bad_metadata_offset o = false → mapped_ok pkt o md →
  first_mapped (Z.to_nat (num_layers o)) md →
  total (since s0 table pool [] (held 0 md))
    (num ← gets (λ s, b_cvpwnccbufs_num (x_bufs s));
     table ← gets (λ s, b_cvpwnccbufs_table (x_bufs s));
     r ← (match table with
          | Some t =>
              if num =? 0 then mret (- EINVAL, pkt)
              else fill_layers (Z.to_nat (num_layers o)) 0 t pkt o md 0
          | None => mret (- EINVAL, pkt)
          end);
     _ ← _wncc_unmap_metadata_bufs r.2 o md;
     mret r) (back pool).
Proof.
  intros Ho Hb Hmd Hf. pose proof (metadata_fits _ _ Hpkt Ho Hb) as Hp.
  eapply total_bind; [apply (total_gets _ _ (λ _, since s0 table pool [] (held 0 md))); auto|].
  intros num.
  eapply (total_bind _ _ (λ t s, t = b_cvpwnccbufs_table (x_bufs s0)
                                 ∧ since s0 table pool [] (held 0 md) s)).
  { apply total_gets. intros s Hs. split; [|done].
    destruct (si_bufs _ _ _ _ _ _ Hs) as (refs & tr & -> & _). done. }
  intros t. apply total_pure. intros ->.
  eapply (total_bind _ _ (λ r s, same_fds o pkt r.2 ∧ since s0 table pool [] (held 0 md) s)).
  - destruct (b_cvpwnccbufs_table (x_bufs s0)) as [t|] eqn:Et; cbn [from_option id].
    + destruct (wo_table _ Hs0 t Et) as [Hl Hok].
      apply total_if; intros _; [apply total_ret; intros s Hs; split; [by split|done]|].
      apply (since_fill_layers _ Hs0 t pool Hok Hl pkt o md _ 0); try done.
      destruct Ho as (_ & Ho & _). lia.
    + apply total_ret. intros s Hs. split; [by split|done].
  - intros r. apply total_pure. intros Hsame.
    eapply total_bind.
    + apply (since_unmap _ Hs0); [by eapply packet_same_fds|done| |done].
      eapply mapped_same_fds; [exact Hsame|exact Hmd].
    + intros e. apply total_ret. intros s Hs. split; [apply Hsame|exact Hs].
Qed.

Lemma since_proc_oob_wncc :
  total (λ s, s = s0) (msm_cvp_proc_oob_wncc pkt) (wncc_done s0 table (length pkt)).
Proof.
  unfold msm_cvp_proc_oob_wncc.
  eapply total_bind.
  { eapply total_pre; [apply since_alloc, (wo_pool _ Hs0)|]. intros s ->. apply since_start, (wo_u64 _ Hs0). }
  intros [rc idx]. cbn [fst snd].
  destruct (Z.eqb_spec rc 0) as [->|Hrc]; cbn [negb].
  2:{ apply total_ret. intros s [Hs|Hs]; by eapply since_done. }
  intros s (b & Hb & Hs). revert s Hs.
  change (total (since s0 table (b, true) [] [])
    ('(rc, o) ← _wncc_copy_oob_from_user;
     r ← (if negb (rc =? 0) then mret (rc, pkt)
         else
           '(rc, md) ← _wncc_map_metadata_bufs pkt o (replicate (Z.to_nat EVA_KMD_WNCC_MAX_LAYERS) 0);
           if negb (rc =? 0) then mret (rc, pkt)
           else
             num ← gets (λ s, b_cvpwnccbufs_num (x_bufs s));
             table ← gets (λ s, b_cvpwnccbufs_table (x_bufs s));
             r ← (match table with
                  | Some t =>
                      if num =? 0 then mret (- EINVAL, pkt)
                      else fill_layers (Z.to_nat (num_layers o)) 0 t pkt o md 0
                  | None => mret (- EINVAL, pkt)
                  end);
             _ ← _wncc_unmap_metadata_bufs r.2 o md;
             mret r);
     free_wncc_buf idx ;; mret r) (wncc_done s0 table (length pkt))).
  eapply total_bind; [by apply since_copy_oob|]. intros [rc o]. cbn [fst snd].
  apply total_pure. intros Ho.
  eapply (total_bind _ _ (back (b, true))).
  - destruct (Z.eqb_spec rc 0) as [->|Hrc]; cbn [negb].
    2:{ apply total_ret. intros s Hs. split; [done|by apply returned_all]. }
    specialize (Ho eq_refl). eapply total_bind; [by apply since_map|].
    intros [rc md]. cbn [fst snd]. destruct (Z.eqb_spec rc 0) as [->|Hrc]; cbn [negb].
    2:{ apply total_ret. intros s Hs. by split. }
    intros s (Hbad & Hs & Hmd & Hf). revert s Hs. by apply since_filled; [..|apply Hf].
  - intros r s (Hl & M & Hs & HM).
    destruct (since_free s0 table idx b [] M s Hs) as ([] & s' & E & Hs').
    rewrite Hb in Hs'. exists r, s'. split; [by rewrite St_bind_run, E|].
    by eapply since_done.
Qed.

End one_call.


End whole.

(** * A frame of one layer with two addresses *)
Module WnccScenario.

(** Everything succeeds; the dma_buf of a descriptor is a number one above it and one page
    long.  [swap n] is what the client has done to descriptor 4 by call [n]. *)
Definition env_of (swap : nat → bool) : BufEnv := {|
  b_answer n c := match c with
    | Dma_buf_get fd => if fd <? 0 then -9 else if swap n then fd + 2 else fd + 1
    | Kzalloc_wncc_table => 1
    | _ => 0
    end;
  b_dma_buf_size _ := PAGE_SIZE;
  b_hfi_ver := 2;
  b_cvp_hfi_defs := table_v2;
  b_context_banks := [];
  is_iommu_present := true;
  msm_cvp_cacheop_disabled := false;
  msm_cvp_iova_leak_recovery := true;
  ipcc_reg_base_iova := 0;
  ipcc_reg_size := 0
|}.

Definition env : BufEnv := env_of (λ _, false).

Definition env_laws : @WnccLaws env.
Proof.
  refine (@Build_WnccLaws env (λ fd, if fd <? 0 then -9 else fd + 1) _ _ _).
  - done.
  - intros fd. destruct (Z.ltb_spec fd 0); lia.
  - intros d. exists 1. split; [lia|]. cbn. lia.
Defined.

(** One layer at packet word 100, with addresses in the source buffers 1 and 3. *)
Definition client : list Z := [EVA_KMD_OOB_WNCC; 100; 1; 2; 1; 0x10; 3; 0x20].

#[local] Instance mem : UserMem := {|
  fetch _ a := if a <? 0 then None else client !! Z.to_nat a;
  access_ok _ _ := true
|}.

#[local] Instance mem_laws : UserLaws.
Proof.
  intros n a x. cbn. destruct (a <? 0); [done|]. intros Hx.
  assert (Hall : Forall is_u32 client) by (unfold client, is_u32;
    repeat (apply Forall_cons_2; [unfold EVA_KMD_OOB_WNCC; lia|]); apply Forall_nil_2).
  by eapply Forall_lookup_1.
Qed.

Definition sources : list msm_cvp_wncc_buffer :=
  [mkWncc 7 0x10000000 0x1000; mkWncc 0 0 0; mkWncc 8 0xfffff000 0x1000]
  ++ replicate 2397 (mkWncc 0 0 0).

Definition start : wncc_state :=
  mkWs (new_session ∅ 0 0 [] <| b_cvpwnccbufs_num := 2 |> <| b_cvpwnccbufs_table := Some sources |>)
    ∅ ∅ 0 false 0.

Definition packet : list Z :=
  <[109%nat := 1]> (<[101%nat := 32]> (<[100%nat := 4]> (<[1%nat := HFI_CMD_SESSION_CVP_WARP_NCC_FRAME]>
    (replicate 602 0)))).

Lemma start_ok : @wncc_ok env start.
Proof.
  split.
  - intros d. unfold ref_of. cbn. by rewrite lookup_empty.
  - intros d. unfold vmaps_of. cbn. by rewrite lookup_empty.
  - intros d. apply Forall_replicate. done.
  - intros d. reflexivity.
  - intros t [= <-]. split; [reflexivity|]. apply Forall_app. split;
      [|by apply Forall_replicate]. repeat (apply Forall_cons_2; [cbn; lia|]). apply Forall_nil_2.
  - done.
Qed.


(** The two addresses, and the check sum over the 32 bytes. *)
Example addresses_written :
  match @msm_cvp_proc_oob env mem packet start with
  | Done ((rc, pkt), s) =>
      (rc, iova_of ((@content env 5 s) !!! 0%nat) ((@content env 5 s) !!! 1%nat),
       iova_of ((@content env 5 s) !!! 2%nat) ((@content env 5 s) !!! 3%nat), pkt !!! 110%nat)
      = (0, 0x10000010, 0xfffff020, 4290823231)
  | Fault => False
  end.
Proof. vm_compute. reflexivity. Qed.

(** A client that makes its descriptor name another dma_buf after the metadata buffer has
    been mapped stops the kernel: the buffer that is unmapped has no mapping. *)
Example swapped_descriptor_stops_kernel :
  @msm_cvp_proc_oob (env_of (λ n, 11 <? Z.of_nat n)) mem packet start = Fault.
Proof. vm_compute. reflexivity. Qed.

End WnccScenario.
