(* ===== verification/Fences.v ===== *)
(** Fences of frame commands: the synx operations (src/msm/eva/msm_cvp_synx.c), the scan of a
    packet's buffers for fence handles ([cvp_populate_fences] of msm_cvp.c), the queue the
    fence threads take commands from, and sending a packet ([iris_hfi_session_send] of
    cvp_hfi.c).

    The synx framework is outside src/: each call to it is a [call], and so is the handle an
    import stores.  A packet is its words; descriptor words 6 to 8 are [fence_type],
    [input_handle] and [output_handle]. *)

From S2P Require Import Prelude HfiTypes HfiPacket HfiDefs Driver Instance HfiSession Response Session.
From S2P Require Import Smem Buffers.
Open Scope Z_scope.

(** * Data *)

Definition MAX_HFI_FENCE_SIZE : Z := 64.
Definition INPUT_FENCE_BITMASK : Z := 1.
Definition OUTPUT_FENCE_BITMASK : Z := 2.
Definition KERNEL_FENCE : Z := 0xFEEDFACE.
Definition HFI_DEBUG_CFG_BUF_CRC_EN : Z := 0x100.
Definition HFI_CMD_CLIENT_DATA_RESERVE_2_OFFSET_IN_UWORD32 : Z := 0xC.

(** Bytes of [struct cvp_hfi_msg_session_hdr_ext]: the header, an error code, two counters
    and the per-block cycles. *)
Definition msg_session_hdr_ext_bytes : Z := 4 * (16 + 3 + 9 * 6 + 6).

(** [enum cvp_synx_type]. *)
Inductive cvp_synx_type := CVP_UINIT_SYNX | CVP_INPUT_SYNX | CVP_OUTPUT_SYNX | CVP_INVALID_SYNX.

#[global] Instance eta_fence : Eta cvp_fence_command :=
  λ r, mkFence (f_frame_id r) (f_signature r) (f_num_fences r) (f_output_index r) (f_type r)
    (f_synx r) (f_pkt r).

(** What the synx framework's constants are, and [cvp_kernel_fence_enabled]. *)
Class FenceEnv := {
  SYNX_STATE_SIGNALED_SUCCESS : Z;
  SYNX_STATE_SIGNALED_CANCEL : Z;
  cvp_kernel_fence_enabled : Z
}.

(** * Operations *)
Section operations.
Context `{Env} `{FenceEnv}.

Definition lift {A} (o : outcome A) : M A := λ w, let! a := o in Done (a, w).

(** ** Synx *)

(** Handle [i] of a command: the array has [MAX_HFI_FENCE_SIZE] elements. *)
Definition synx_at (fc : cvp_fence_command) (i : Z) : M Z := word (f_synx fc) i.

(** [cvp_import_synx_v2]: the last error, and the command with the imported handles. *)
Fixpoint import_synx (fs : list Z) (i : Z) (fc : cvp_fence_command) (rr : Z) :
    M (Z * cvp_fence_command) :=
  match fs with
  | [] => mret (rr, fc)
  | h_synx :: fs' =>
      if h_synx =? 0 then import_synx fs' (i + 1) fc rr
      else
        rc ← ext (Synx_import h_synx);
        if negb (rc =? 0) then import_synx fs' (i + 1) fc rc
        else
          h ← ext (Synx_imported h_synx);
          l ← lift (words_write (f_synx fc) i [h]);
          import_synx fs' (i + 1) (fc <| f_synx := l |>) rr
  end.

Definition cvp_import_synx (fc : cvp_fence_command) (fences : list Z) :
    M (Z * cvp_fence_command) :=
  import_synx (take (Z.to_nat (f_num_fences fc)) fences) 0 fc 0.

(** [m] on the handles from [i] on that are not 0; the last result. *)
Fixpoint on_handles (n : nat) (i : Z) (fc : cvp_fence_command) (m : Z → M Z) (rc : Z) : M Z :=
  match n with
  | O => mret rc
  | S n' =>
      h ← synx_at fc i;
      rc ← (if h =? 0 then mret rc else m h);
      on_handles n' (i + 1) fc m rc
  end.

Definition cvp_release_synx (fc : cvp_fence_command) : M Z :=
  on_handles (Z.to_nat (f_num_fences fc)) 0 fc (λ h, ext (Synx_release h)) 0.

(** The handles of one kind: where they start and how many there are. *)
Definition cvp_cancel_synx (type : cvp_synx_type) (fc : cvp_fence_command) (synx_state : Z) : M Z :=
  match type with
  | CVP_INPUT_SYNX =>
      on_handles (Z.to_nat (f_output_index fc)) 0 fc (λ h, ext (Synx_signal h synx_state)) 0
  | CVP_OUTPUT_SYNX =>
      on_handles (Z.to_nat (f_num_fences fc - f_output_index fc)) (f_output_index fc) fc
        (λ h, ext (Synx_signal h synx_state)) 0
  | _ => mret (- EINVAL)
  end.

(** [cvp_wait_synx]: the error and [*synx_state]. *)
Fixpoint cvp_wait_synx (n : nat) (i : Z) (fc : cvp_fence_command) (synx_state : Z) :
    M (Z * Z) :=
  match n with
  | O => mret (0, synx_state)
  | S n' =>
      h_synx ← synx_at fc i;
      if h_synx =? 0 then cvp_wait_synx n' (i + 1) fc synx_state
      else
        rc ← ext (Synx_wait h_synx);
        if rc =? 0 then cvp_wait_synx n' (i + 1) fc synx_state
        else
          st ← ext (Synx_get_status h_synx);
          if st =? SYNX_STATE_SIGNALED_SUCCESS then cvp_wait_synx n' (i + 1) fc st
          else mret (rc, SYNX_STATE_SIGNALED_CANCEL)
  end.

(** [cvp_signal_synx]: once a signal fails the rest are cancelled; the last error. *)
Fixpoint cvp_signal_synx (n : nat) (i : Z) (fc : cvp_fence_command) (synx_state rc : Z) : M Z :=
  match n with
  | O => mret rc
  | S n' =>
      h_synx ← synx_at fc i;
      if h_synx =? 0 then cvp_signal_synx n' (i + 1) fc synx_state rc
      else
        rc ← ext (Synx_signal h_synx synx_state);
        cvp_signal_synx n' (i + 1) fc
          (if rc =? 0 then synx_state else SYNX_STATE_SIGNALED_CANCEL) rc
  end.

Definition cvp_synx_ops (type : cvp_synx_type) (fc : cvp_fence_command) (synx_state : Z) :
    M (Z * Z) :=
  if f_signature fc =? SOC_FENCE then mret (0, synx_state)
  else
    match type with
    | CVP_INPUT_SYNX => cvp_wait_synx (Z.to_nat (f_output_index fc)) 0 fc synx_state
    | CVP_OUTPUT_SYNX =>
        rc ← cvp_signal_synx (Z.to_nat (f_num_fences fc - f_output_index fc))
               (f_output_index fc) fc synx_state 0;
        mret (rc, synx_state)
    | _ => mret (- EINVAL, synx_state)
    end.

(** ** Sending a packet *)

(** The sum over the first [n] words from [idx] on. *)
Fixpoint crc_words (n : nat) (idx : Z) (pkt : list Z) : outcome Z :=
  match n with
  | O => Done 0
  | S n' =>
      let! v := (if idx =? HFI_CMD_CLIENT_DATA_RESERVE_2_OFFSET_IN_UWORD32 then Done 0
                 else word_at pkt idx) in
      let! r := crc_words n' (idx + 1) pkt in Done (v + r)
  end.

Definition cvp_add_hfi_crc (pkt : list Z) : outcome (list Z) :=
  if Z.land msm_cvp_fw_debug HFI_DEBUG_CFG_BUF_CRC_EN =? 0 then Done pkt
  else
    let! size := word_at pkt 0 in
    let! crc := crc_words (Z.to_nat (size / 4)) 0 pkt in
    words_write pkt 13 [u32 crc].

(** [iris_hfi_session_send]: the error code and the packet with its check sum. *)
Definition iris_hfi_session_send (sess : Z) (pkt : list Z) : M (Z * list Z) :=
  if sess =? 0 then mret (- ENODEV, pkt)
  else
    s ← get_session sess;
    if negb (hs_device s) then mret (- ENODEV, pkt)
    else
      v ← __is_session_valid sess;
      if negb v then mret (- ECONNRESET, pkt)
      else
        pkt ← lift (cvp_add_hfi_crc pkt);
        ps ← packet_session sess;
        rc ← lift (cvp_create_pkt_cmd_session_send env_hfi_ver env_cvp_hfi_defs (Some ps) (Some pkt));
        if negb (rc =? 0) then mret (rc, pkt)
        else
          r ← __iface_cmdq_write (Some pkt);
          mret (if r =? 0 then 0 else - ENOTEMPTY, pkt).

(** ** Fence data *)

(** [memcpy] of [size] bytes of the packet to the front of [dst]. *)
Definition copy_bytes (dst pkt : list Z) (size : Z) : outcome (list Z) :=
  let n := size / 4 in
  let! l := words_read pkt 0 n in
  let! dst := words_write dst 0 l in
  if size mod 4 =? 0 then Done dst
  else
    let k := 2 ^ (8 * (size mod 4)) in
    let! a := word_at pkt n in
    let! b := word_at dst n in
    words_write dst n [a mod k + (b / k) * k].

(** The words of the packet a fence command carries; [None] when it cannot be allocated. *)
Definition cvp_alloc_fence_data (size : Z) : M (option (list Z)) :=
  f ← ext (Kmalloc 0);
  if f =? 0 then mret None
  else
    let n := Z.to_nat ((Z.max msg_session_hdr_ext_bytes size + 3) / 4) in
    p ← ext (Kmalloc n);
    mret (if p =? 0 then None else Some (replicate n 0)).

(** The scan for fences the firmware handles: how many buffers have one, and how many an
    input. *)
Fixpoint soc_fences (n : nat) (off : Z) (pkt : list Z) : outcome (Z * Z) :=
  match n with
  | O => Done (0, 0)
  | S n' =>
      let! input_handle := word_at pkt (off + 7) in
      let! output_handle := word_at pkt (off + 8) in
      let! r := soc_fences n' (off + buf_type_words) pkt in
      Done (if (input_handle =? 0) && (output_handle =? 0) then r
            else (fst r + 1, snd r + (if input_handle =? 0 then 0 else 1)))
  end.

(** The first pass for kernel fences: input handles move from the packet to [fences], an
    array of [MAX_HFI_FENCE_SIZE], and both kinds are counted. *)
Fixpoint input_fences (n : nat) (off : Z) (pkt fences : list Z) (total : Z) :
    outcome (list Z * list Z * Z) :=
  match n with
  | O => Done (pkt, fences, total)
  | S n' =>
      let! input_handle := word_at pkt (off + 7) in
      let! output_handle := word_at pkt (off + 8) in
      let total := if output_handle =? 0 then total else total + 1 in
      if input_handle =? 0 then input_fences n' (off + buf_type_words) pkt fences total
      else if Z.of_nat (length fences) >=? MAX_HFI_FENCE_SIZE then Fault
      else
        let! fence_type := word_at pkt (off + 6) in
        let! pkt := words_write pkt (off + 6) [Z.ldiff fence_type INPUT_FENCE_BITMASK; 0] in
        input_fences n' (off + buf_type_words) pkt (fences ++ [input_handle]) (total + 1)
  end.

(** The second pass: output handles. *)
Fixpoint output_fences (n : nat) (off : Z) (pkt fences : list Z) : outcome (list Z * list Z) :=
  match n with
  | O => Done (pkt, fences)
  | S n' =>
      let! output_handle := word_at pkt (off + 8) in
      if output_handle =? 0 then output_fences n' (off + buf_type_words) pkt fences
      else if Z.of_nat (length fences) >=? MAX_HFI_FENCE_SIZE then Fault
      else
        let! fence_type := word_at pkt (off + 6) in
        let! pkt := words_write pkt (off + 6) [Z.ldiff fence_type OUTPUT_FENCE_BITMASK] in
        let! pkt := words_write pkt (off + 8) [0] in
        output_fences n' (off + buf_type_words) pkt (fences ++ [output_handle])
  end.

(** [kdata |= FENCE_BIT]. *)
Definition set_fence_bit (pkt : list Z) : outcome (list Z) :=
  let! hi := word_at pkt 9 in words_write pkt 9 [Z.lor hi (2 ^ 31)].

(** The end of both paths: the command goes to the waiting list. *)
Definition queue_fence (p : Z) (f : cvp_fence_command) (pkt : list Z) : M (Z * list Z) :=
  mod_fq p (λ q, q <| fq_wait_list ::= λ l, l ++ [f] |>) ;; mret (f_num_fences f, pkt).

(** A new command: [kzalloc]ed, with its type and signature. *)
Definition new_fence (signature num output type : Z) (fpkt : list Z) : cvp_fence_command :=
  mkFence 0 signature num output type (replicate (Z.to_nat MAX_HFI_FENCE_SIZE) 0) fpkt.

Definition soc_fence (p : Z) (pkt fpkt : list Z) (packet_type offset num : Z) : M (Z * list Z) :=
  '(num_fences, output_index) ← lift (soc_fences (Z.to_nat num) offset pkt);
  if num_fences =? 0 then mret (0, pkt)
  else
    pkt ← lift (set_fence_bit pkt);
    fpkt ← lift (copy_bytes fpkt pkt (4 * session_hdr_words));
    i ← get_i p;
    '(rc, pkt) ← iris_hfi_session_send (i_session i) pkt;
    if negb (rc =? 0) then mret (rc, pkt)
    else queue_fence p (new_fence SOC_FENCE num_fences output_index packet_type fpkt) pkt.

Definition kernel_fence (p : Z) (pkt fpkt : list Z) (packet_type offset num : Z) : M (Z * list Z) :=
  '(pkt, fences, total) ← lift (input_fences (Z.to_nat num) offset pkt [] 0);
  if total >? MAX_HFI_FENCE_SIZE then mret (- EINVAL, pkt)
  else
    let output_index := Z.of_nat (length fences) in
    '(pkt, fences) ← lift (output_fences (Z.to_nat num) offset pkt fences);
    let num_fences := Z.of_nat (length fences) in
    if num_fences =? 0 then mret (0, pkt)
    else
      '(rc, f) ← cvp_import_synx (new_fence KERNEL_FENCE num_fences output_index packet_type fpkt) fences;
      if negb (rc =? 0) then mret (rc, pkt)
      else
        size ← word pkt 0;
        fpkt ← lift (copy_bytes fpkt pkt size);
        fpkt ← lift (set_fence_bit fpkt);
        queue_fence p (f <| f_pkt := fpkt |>) pkt.

(** How many fences the command has when it was queued; 0 when it has none; or an error. *)
Definition cvp_populate_fences (p : Z) (pkt : list Z) (offset num : Z) : M (Z * list Z) :=
  if (offset =? 0) || (num =? 0) then mret (0, pkt)
  else if offset <? session_hdr_words then mret (- EINVAL, pkt)
  else
    packet_type ← word pkt 1;
    override ← lift (get_pkt_fenceoverride env_hfi_ver env_cvp_hfi_defs packet_type);
    size ← word pkt 0;
    f ← cvp_alloc_fence_data size;
    match f with
    | None => mret (- ENOMEM, pkt)
    | Some fpkt =>
        if cvp_kernel_fence_enabled =? 0 then soc_fence p pkt fpkt packet_type offset num
        else if cvp_kernel_fence_enabled =? 1 then kernel_fence p pkt fpkt packet_type offset num
        else if cvp_kernel_fence_enabled =? 2 then
          if override : bool then kernel_fence p pkt fpkt packet_type offset num
          else soc_fence p pkt fpkt packet_type offset num
        else mret (- EINVAL, pkt)
    end.

(** [cvp_fence_wait]: whether the thread wakes up, the state it saw and the command it
    takes, which moves to the scheduled list. *)
Definition cvp_fence_wait (p : Z) : M (bool * queue_state * option cvp_fence_command) :=
  i ← get_i p;
  let q := i_fence_cmd_queue i in
  if negb (bool_decide (fq_state q = QUEUE_START)) then mret (true, fq_state q, None)
  else
    match fq_wait_list q with
    | [] => mret (false, fq_state q, None)
    | f :: l =>
        mod_fq p (λ q, q <| fq_wait_list := l |> <| fq_sched_list ::= λ s, s ++ [f] |>) ;;
        mret (true, fq_state q, Some f)
    end.

End operations.
