(* ===== verification/Commands.v ===== *)
(** Commands and messages of a session (src/msm/eva/msm_cvp.c): sending a client's packet
    with its buffers and fences, receiving the firmware's messages, and the fence threads.

    These operations work on a session as a whole: the driver's world (Driver.v), and the
    buffers and out-of-band data of the session at hand (Buffers.v, Wncc.v).  Where an
    operation on the world unmaps a frame, which there is the call [Unmap_frame], the
    frame is unmapped in the buffers. *)

From S2P Require Import Prelude Store HfiTypes HfiPacket HfiDefs Driver Instance HfiSession.
From S2P Require Import Response Session Smem Buffers UserMem Wncc Fences.
Open Scope Z_scope.

(** * Data *)

Definition HFI_CMD_SESSION_CVP_SET_SNAPSHOT_BUFFERS : Z := 0x1200070.
Definition HFI_CMD_SESSION_CVP_RELEASE_SNAPSHOT_BUFFERS : Z := 0x1200071.

Inductive buf_map_type := MAP_PERSIST | UNMAP_PERSIST | MAP_FRAME.

#[global] Instance buf_map_type_eq_dec : EqDecision buf_map_type.
Proof. solve_decision. Defined.

Definition cvp_find_map_type (pkt_type : Z) : buf_map_type :=
  if (pkt_type =? HFI_CMD_SESSION_CVP_SET_PERSIST_BUFFERS)
     || (pkt_type =? HFI_CMD_SESSION_CVP_SET_SNAPSHOT_BUFFERS) then MAP_PERSIST
  else if (pkt_type =? HFI_CMD_SESSION_CVP_RELEASE_PERSIST_BUFFERS)
          || (pkt_type =? HFI_CMD_SESSION_CVP_RELEASE_SNAPSHOT_BUFFERS) then UNMAP_PERSIST
  else MAP_FRAME.

Record ses := mkSes { z_world : world; z_wncc : wncc_state }.

#[global] Instance eta_ses : Eta ses := λ r, mkSes (z_world r) (z_wncc r).

Abbreviation U := (St ses).

(** The [kdata] of a packet or a message. *)
Definition kdata_of (pkt : list Z) : outcome Z :=
  let! lo := word_at pkt 8 in let! hi := word_at pkt 9 in Done (lo + Z.shiftl hi 32).

#[global] Instance fence_eq_dec : EqDecision cvp_fence_command.
Proof. solve_decision. Defined.

(** A list without the first copy of an element. *)
Fixpoint remove_fence (f : cvp_fence_command) (l : list cvp_fence_command) :
    list cvp_fence_command :=
  match l with
  | [] => []
  | g :: l' => if decide (g = f) then l' else g :: remove_fence f l'
  end.

(** * Operations *)
Section operations.
Context `{Env} `{FenceEnv} `{BufEnv} `{RbTree} `{UserMem}.

(** The session's buffers; the transaction counter is the core's. *)
Definition on_bufs {A} (m : B A) : U A := λ s,
  let! r := m (x_bufs (z_wncc s) <| b_kernel_trans_id := c_kernel_trans_id (w_core (z_world s)) |>) in
  Done (fst r, s <| z_wncc ::= λ x, x <| x_bufs := snd r |> |>
                 <| z_world ::= λ w, w <| w_core ::= λ c,
                      c <| c_kernel_trans_id := b_kernel_trans_id (snd r) |> |> |>).

Definition on_wncc {A} (m : W A) : U A := λ s,
  let! r := m (z_wncc s) in Done (fst r, s <| z_wncc := snd r |>).

Definition unmaps (c : call) : list Z :=
  match c with Driver.Unmap_frame ktid => [ktid] | _ => [] end.

(** An operation on the world, and the frames it unmaps. *)
Definition on_world {A} (m : M A) : U A := λ s,
  let! r := m (z_world s) in
  (each (drop (length (w_trace (z_world s))) (w_trace (snd r)) ≫= unmaps)
     (λ ktid, on_bufs (msm_cvp_unmap_frame ktid)) ;; mret (fst r))
    (s <| z_world := snd r |>).

Definition of_world {A} (f : world → A) : U A := gets (λ s, f (z_world s)).

(** ** Messages *)

(** The first message with this [kdata], and the others. *)
Fixpoint take_msg (ktid : Z) (l : list (list Z)) : outcome (option (list Z * list (list Z))) :=
  match l with
  | [] => Done None
  | m :: l' =>
      let! k := kdata_of m in
      if ktid =? k then Done (Some (m, l'))
      else let! r := take_msg ktid l' in
           Done (match r with Some (x, r') => Some (x, m :: r') | None => None end)
  end.

Definition pop_msg (l : list (list Z)) (q : cvp_session_queue) : cvp_session_queue :=
  q <| sq_msgs := l |> <| sq_msg_count ::= λ n, u32_sub n 1 |>.

(** [cvp_msg_pending]: whether the wait is over, and the message that was taken. *)
Definition cvp_msg_pending (p : Z) (fenced : bool) (ktid : option Z) : M (bool * option (list Z)) :=
  i ← get_i p;
  let q := get_sq fenced i in
  if bool_decide (sq_state q = QUEUE_INIT) || bool_decide (sq_state q = QUEUE_INVALID)
  then mret (true, None)
  else
    match sq_msgs q with
    | [] => mret (false, None)
    | m :: l =>
        match ktid with
        | None => mod_i p (mod_sq fenced (pop_msg l)) ;; mret (true, Some m)
        | Some k =>
            r ← lift (take_msg k (m :: l));
            match r with
            | Some (m, l) => mod_i p (mod_sq fenced (pop_msg l)) ;; mret (true, Some m)
            | None => mret (false, None)
            end
        end
    end.

(** The firmware's packets that arrive while a client waits for a message. *)
Definition receive_messages (fenced : bool) : M unit :=
  w ← get_world;
  ext (Wait_msg fenced) ;;
  mod_world (λ w', w' <| w_msgq ::= λ q, q ++ arrivals (length (w_trace w)) |>) ;;
  w' ← get_world;
  interrupts (length (w_msgq w')).

(** [wait_event_timeout(sq->wq, cvp_msg_pending(sq, &msg, ktid), timeout)]. *)
Definition wait_msg (p : Z) (fenced : bool) (ktid : option Z) : M (bool * option (list Z)) :=
  r ← cvp_msg_pending p fenced ktid;
  if fst r : bool then mret r
  else receive_messages fenced ;; cvp_msg_pending p fenced ktid.

(** The words of a message that are copied out: the old format's, or by its type. *)
Definition msg_words (msg : list Z) : M Z :=
  if env_hfi_ver =? 1 then mret 15 else n ← get_msg_size msg; mret (Z.shiftr n 2).

(** [cvp_wait_process_message]: the error code and what is in [out] then. *)
Definition cvp_wait_process_message (p : Z) (fenced : bool) (ktid : option Z) (out : list Z) :
    U (Z * list Z) :=
  r ← on_world (wait_msg p fenced ktid);
  if negb (fst r) then
    on_world (handle_session_timeout p true) ;; mret (- ETIMEDOUT, out)
  else
    match snd r with
    | None =>
        i ← on_world (get_i p);
        let q := get_sq fenced i in
        if (st MSM_CVP_CLOSE_DONE <=? st (i_state i))
           || negb (bool_decide (sq_state q = QUEUE_ACTIVE)) && negb (bool_decide (sq_state q = QUEUE_START))
        then mret (- ECONNRESET, out)
        else on_world (msm_cvp_comm_kill_session p) ;; mret (0, out)
    | Some msg =>
        n ← on_world (msg_words msg);
        l ← of_outcome (words_read msg 0 n);
        out ← of_outcome (words_write out 0 l);
        k ← of_outcome (kdata_of msg);
        whenS (k >=? MAX_PKT_IDX) (on_bufs (msm_cvp_unmap_frame k)) ;;
        mret (0, out)
    end.

Definition msm_cvp_session_receive_hfi (p : Z) (out_pkt : list Z) : U (Z * list Z) :=
  if p =? 0 then mret (- EINVAL, out_pkt)
  else
    s ← on_world (cvp_get_inst_validate p);
    if s =? 0 then mret (- ECONNRESET, out_pkt)
    else
      r ← cvp_wait_process_message p false None out_pkt;
      on_world (cvp_put_inst p) ;;
      mret r.

(** ** Commands *)

(** Puts the descriptors back into the packet. *)
Fixpoint restore_fds (fds : list Z) (offset : Z) (pkt : list Z) : outcome (list Z) :=
  match fds with
  | [] => Done pkt
  | fd :: fds' =>
      if offset + buf_type_words >? MAX_HFI_PKT_SIZE then Done pkt
      else
        let! size := word_at pkt (offset + 1) in
        let! pkt := (if size =? 0 then Done pkt else words_write pkt offset [fd]) in
        restore_fds fds' (offset + buf_type_words) pkt
  end.

(** What is undone when the command is not sent. *)
Definition undo_map (map_type : buf_map_type) (pkt fd_arr : list Z) (in_offset in_buf_num rc : Z) :
    U (Z * list Z) :=
  match map_type with
  | MAP_FRAME =>
      k ← of_outcome (kdata_of pkt);
      on_bufs (msm_cvp_unmap_frame k) ;; mret (rc, pkt)
  | MAP_PERSIST =>
      pkt ← of_outcome (restore_fds fd_arr in_offset pkt);
      rc ← on_bufs (msm_cvp_unmap_user_persist pkt in_offset in_buf_num);
      mret (rc, pkt)
  | UNMAP_PERSIST => mret (rc, pkt)
  end.

(** Mapping the command's buffers: the error code, the packet and the descriptors. *)
Definition map_buffers (map_type : buf_map_type) (pkt : list Z) (in_offset in_buf_num : Z) :
    U (Z * list Z * list Z) :=
  match map_type with
  | MAP_PERSIST =>
      a ← on_world (ext (Kcalloc in_buf_num));
      if a =? 0 then mret (- ENOMEM, pkt, [])
      else
        on_bufs (msm_cvp_map_user_persist pkt in_offset in_buf_num
                   (replicate (Z.to_nat in_buf_num) (2 ^ 32 - 1)))
  | UNMAP_PERSIST =>
      rc ← on_bufs (msm_cvp_unmap_user_persist pkt in_offset in_buf_num); mret (rc, pkt, [])
  | MAP_FRAME =>
      r ← on_bufs (msm_cvp_map_frame pkt in_offset in_buf_num); mret (r.1, r.2, [])
  end.

(** [send_count]: the commands on their way. *)
Definition add_sending (p n : Z) : M unit := mod_fq p (λ q, q <| fq_send_count ::= Z.add n |>).

(** The part of [cvp_enqueue_pkt] while the command is counted as being sent: the error code
    and the packet, which is changed in place. *)
Definition enqueue_counted (p : Z) (pkt : list Z) (in_offset in_buf_num : Z) : U (Z * list Z) :=
  pkt_type ← of_outcome (word_at pkt 1);
  let map_type := cvp_find_map_type pkt_type in
  '(rc, pkt, fd_arr) ← map_buffers map_type pkt in_offset in_buf_num;
  if negb (rc =? 0) then mret (rc, pkt)
  else
    '(rc, pkt) ← on_world (cvp_populate_fences p pkt in_offset in_buf_num);
    if rc =? 0 then
      i ← on_world (get_i p);
      '(rc, pkt) ← on_world (iris_hfi_session_send (i_session i) pkt);
      if rc =? 0 then mret (0, pkt)
      else undo_map map_type pkt fd_arr in_offset in_buf_num rc
    else if rc >? 0 then mret (0, pkt)
    else undo_map map_type pkt fd_arr in_offset in_buf_num rc.

Definition cvp_enqueue_pkt (p : Z) (in_pkt : list Z) (in_offset in_buf_num : Z) : U (Z * list Z) :=
  if (in_offset >? MAX_HFI_PKT_SIZE) || (in_buf_num >? MAX_HFI_PKT_SIZE)
  then mret (- EINVAL, in_pkt)
  else
    pkt ← of_outcome (words_write in_pkt 8 [0; 0]);
    i ← on_world (get_i p);
    if bool_decide (fq_mode (i_fence_cmd_queue i) = OP_DRAINING) then mret (- EBUSY, pkt)
    else
      on_world (add_sending p 1) ;;
      r ← enqueue_counted p pkt in_offset in_buf_num;
      on_world (add_sending p (-1)) ;;
      mret r.

(** What a packet needs to be accepted by the session in its state: [None] when it is
    rejected without an error. *)
Definition admit_hfi (p : Z) (in_pkt : list Z) (in_offset in_buf_num : Z) :
    M (option (Z * Z * Z)) :=
  i ← get_i p;
  if bool_decide (i_state i = MSM_CVP_CORE_INVALID) then mret (Some (- ECONNRESET, 0, 0))
  else
    let q := qst (sq_state (i_session_queue i)) in
    if q >? qst QUEUE_STOP then mret (Some (- EINVAL, 0, 0))
    else
      packet_type ← word in_pkt 1;
      pkt_idx ← lift (get_pkt_index env_hfi_ver env_cvp_hfi_defs (Some packet_type));
      if pkt_idx <? 0 then mret None
      else
        d ← lift (table_at env_cvp_hfi_defs pkt_idx);
        if bool_decide (def_resp d = HAL_NO_RESP)
           && negb (q =? qst QUEUE_START) && negb (def_is_config_pkt d)
        then mret (Some (- EINVAL, 0, 0))
        else
          let '(offset, buf_num) :=
            (if negb (in_offset =? 0) && negb (in_buf_num =? 0) then (in_offset, in_buf_num)
             else (0, 0)) in
          if negb (is_buf_param_valid buf_num offset) then mret (Some (- EINVAL, 0, 0))
          else mret (Some (0, offset, buf_num)).

Definition msm_cvp_session_process_hfi (p : Z) (in_pkt : list Z) (in_offset in_buf_num : Z) :
    U (Z * list Z) :=
  if p =? 0 then mret (- EINVAL, in_pkt)
  else
    s ← on_world (cvp_get_inst_validate p);
    if s =? 0 then mret (- ECONNRESET, in_pkt)
    else
      a ← on_world (admit_hfi p in_pkt in_offset in_buf_num);
      r ← (match a with
           | None => mret (0, in_pkt)
           | Some (rc, offset, buf_num) =>
               if negb (rc =? 0) then mret (rc, in_pkt)
               else
                 '(rc, pkt) ← on_wncc (msm_cvp_proc_oob in_pkt);
                 if negb (rc =? 0) then mret (rc, pkt)
                 else cvp_enqueue_pkt p pkt offset buf_num
           end);
      on_world (cvp_put_inst p) ;;
      mret r.

(** ** Fence threads *)

(** The firmware's answer to a fenced command: the result and the state for the output
    fences. *)
Definition receive_fenced (p ktid : Z) : U (Z * Z) :=
  hdr ← on_world (stack_packet (Z.to_nat (msg_session_hdr_ext_bytes / 4)));
  '(rc, hdr) ← cvp_wait_process_message p true (Some ktid) hdr;
  hfi_err ← of_outcome (word_at hdr 16);
  mret (rc, if negb (rc =? 0) then SYNX_STATE_SIGNALED_CANCEL
            else if hfi_err =? HFI_ERR_SESSION_FLUSHED then SYNX_STATE_SIGNALED_CANCEL
            else if hfi_err =? HFI_ERR_SESSION_STREAM_CORRUPT then SYNX_STATE_SIGNALED_SUCCESS
            else if negb (hfi_err =? HFI_ERR_NONE) then SYNX_STATE_SIGNALED_CANCEL
            else SYNX_STATE_SIGNALED_SUCCESS).

Definition cvp_fence_proc (p : Z) (fc : cvp_fence_command) : U Z :=
  let pkt := f_pkt fc in
  ktid ← of_outcome (kdata_of pkt);
  '(rc, synx_state) ←
    (if f_signature fc =? SOC_FENCE then receive_fenced p ktid
     else
       '(rc, synx_state) ← on_world (cvp_synx_ops CVP_INPUT_SYNX fc SYNX_STATE_SIGNALED_SUCCESS);
       if negb (rc =? 0) then on_bufs (msm_cvp_unmap_frame ktid) ;; mret (rc, synx_state)
       else
         i ← on_world (get_i p);
         '(rc, _) ← on_world (iris_hfi_session_send (i_session i) pkt);
         if negb (rc =? 0) then mret (rc, SYNX_STATE_SIGNALED_CANCEL)
         else receive_fenced p ktid);
  if f_signature fc =? KERNEL_FENCE then
    r ← on_world (cvp_synx_ops CVP_OUTPUT_SYNX fc synx_state); mret r.1
  else mret rc.

(** Nobody reads the result of the thread. *)
Inductive thread_step := Sleeping | Again | Exited.

(** One round of [cvp_fence_thread], up to its next wait. *)
Definition cvp_fence_thread_round (p : Z) : U thread_step :=
  '(woken, state, f) ← on_world (cvp_fence_wait p);
  if negb woken then mret Sleeping
  else if negb (bool_decide (state = QUEUE_START)) then
    on_world (cvp_put_inst p) ;; mret Exited
  else
    match f with
    | None => mret Again
    | Some fc =>
        rc ← cvp_fence_proc p fc;
        on_world (cvp_release_synx fc) ;;
        on_world (mod_fq p (λ q, q <| fq_sched_list ::= remove_fence fc |>)) ;;
        i ← on_world (get_i p);
        if negb (rc =? 0) && negb (bool_decide (fq_state (i_fence_cmd_queue i) = QUEUE_START))
        then on_world (cvp_put_inst p) ;; mret Exited
        else mret Again
    end.

(** [n] rounds of the thread. *)
Fixpoint cvp_fence_thread (n : nat) (p : Z) : U thread_step :=
  match n with
  | O => mret Again
  | S n' =>
      r ← cvp_fence_thread_round p;
      match r with Again => cvp_fence_thread n' p | _ => mret r end
  end.

End operations.
