(* ===== verification/Enqueue.v ===== *)
(** What sending a command leaves behind: the frames of the session and the instance, whether
    the command was sent or had to be undone. *)

From S2P Require Import Prelude Store HfiTypes HfiPacket HfiDefs Driver Local Instance HfiSession.
From S2P Require Import Response Session Smem Buffers BufferView BufferInv BufferFrames UserMem Wncc Fences Commands.
Open Scope Z_scope.

(** * The frame list and the transaction counter *)

(** [m] leaves the frames and the counter alone, and its result satisfies [R]. *)
Definition stays {A} (m : B A) (R : A → Prop) : Prop :=
  ∀ s a s', m s = Done (a, s') →
    b_frames s' = b_frames s ∧ b_kernel_trans_id s' = b_kernel_trans_id s ∧ R a.

Abbreviation stay m := (stays m (λ _, True)).

Lemma stays_ret {A} (a : A) (R : A → Prop) : R a → stays (mret a) R.
Proof. intros HR s a' s' [= <- <-]. done. Qed.

Lemma stays_bind {A C} (m : B A) (f : A → B C) R1 R2 :
  stays m R1 → (∀ a, R1 a → stays (f a) R2) → stays (m ≫= f) R2.
Proof.
  intros Hm Hf s c s'. rewrite St_bind_run. destruct (m s) as [[a s1]|] eqn:E; [|done].
  cbn. intros Ec. destruct (Hm s a s1 E) as (F1 & K1 & HR).
  destruct (Hf a HR s1 c s' Ec) as (F2 & K2 & HR2). split_and!; congruence.
Qed.

Lemma stay_bind {A C} (m : B A) (f : A → B C) R :
  stay m → (∀ a, stays (f a) R) → stays (m ≫= f) R.
Proof. intros Hm Hf. eapply stays_bind; [exact Hm|auto]. Qed.

Lemma stays_post {A} (m : B A) (R R' : A → Prop) : stays m R → (∀ a, R a → R' a) → stays m R'.
Proof. intros Hm HR s a s' E. destruct (Hm s a s' E) as (? & ? & ?). auto. Qed.

Lemma stay_gets {A} (f : bufs → A) : stay (gets f).
Proof. by intros s a s' [= <- <-]. Qed.

Lemma stays_outcome {A} (o : outcome A) : stays (of_outcome o) (λ a, o = Done a).
Proof. intros s a s'. destruct o; [|done]. by intros [= -> <-]. Qed.

Lemma stay_outcome {A} (o : outcome A) : stay (of_outcome o).
Proof. by eapply stays_post; [apply stays_outcome|]. Qed.

Lemma stay_stuck {A} : stay (stuck : B A).
Proof. done. Qed.

Lemma stay_modify f :
  (∀ s, b_frames (f s) = b_frames s ∧ b_kernel_trans_id (f s) = b_kernel_trans_id s) →
  stay (modify f).
Proof. intros Hf s a s' [= <- <-]. destruct (Hf s). done. Qed.

Lemma stay_each {A} (l : list A) m : (∀ a, stay (m a)) → stay (each l m).
Proof.
  intros Hm. induction l as [|a l IH]; cbn [each]; [by apply stays_ret|].
  apply stay_bind; [apply Hm|by intros []].
Qed.

Create HintDb stay.

(** One step of a proof that an operation leaves the frames alone. *)
Ltac stay_step :=
  lazymatch goal with
  | |- ∀ _, _ => intros ?
  | |- stays (mret _) _ => apply stays_ret; try done
  | |- stays (_ ≫= _) _ => apply stay_bind
  | |- stays (gets _) _ => apply stay_gets
  | |- stays (of_outcome _) _ => apply stay_outcome
  | |- stays stuck _ => apply stay_stuck
  | |- stays (modify _) _ => apply stay_modify; done
  | |- stays (each _ _) _ => apply stay_each
  | |- stays (whenS ?b _) _ => destruct b; cbn [whenS]
  | |- stays (match ?x with _ => _ end) _ => destruct x
  | |- stays _ _ => solve [auto with stay nocore]
  end.

Ltac stay_tac := repeat stay_step.

Section operations.
Context `{BufEnv} `{RbTree}.

Lemma bext_run c s :
  bext c s = Done (b_answer (length (b_trace s)) c, s <| b_trace ::= λ t, t ++ [c] |>).
Proof. reflexivity. Qed.

Lemma stay_bext c : stay (bext c).
Proof. unfold bext. stay_tac. Qed.
Hint Resolve stay_bext : stay.

Lemma stay_smem_get p : stay (smem_get p).
Proof. unfold smem_get. stay_tac. Qed.
Hint Resolve stay_smem_get : stay.

Lemma stay_smem_mod p f : stay (smem_mod p f).
Proof. unfold smem_mod. stay_tac. Qed.
Hint Resolve stay_smem_mod : stay.

Lemma stay_kfree p : stay (smem_kfree p).
Proof. unfold smem_kfree. stay_tac. Qed.
Hint Resolve stay_kfree : stay.

Lemma stay_zalloc : stay smem_zalloc.
Proof. unfold smem_zalloc. stay_tac. Qed.
Hint Resolve stay_zalloc : stay.

Lemma stay_ref_dec p : stay (ref_dec p).
Proof. unfold ref_dec. stay_tac. Qed.
Hint Resolve stay_ref_dec : stay.

Lemma stay_get_dma fd : stay (msm_cvp_smem_get_dma_buf fd).
Proof. unfold msm_cvp_smem_get_dma_buf. stay_tac. Qed.
Hint Resolve stay_get_dma : stay.

Lemma stay_put_dma d : stay (msm_cvp_smem_put_dma_buf d).
Proof. unfold msm_cvp_smem_put_dma_buf. stay_tac. Qed.
Hint Resolve stay_put_dma : stay.

Lemma stay_map_smem p : stay (msm_cvp_map_smem p).
Proof.
  unfold msm_cvp_map_smem, msm_cvp_map_smem_helper, msm_dma_get_device_address,
    checksum_enabled. stay_tac.
Qed.
Hint Resolve stay_map_smem : stay.

Lemma stay_unmap_smem p : stay (msm_cvp_unmap_smem p).
Proof.
  unfold msm_cvp_unmap_smem, msm_cvp_unmap_smem_helper, msm_dma_put_device_address,
    checksum_enabled. stay_tac.
Qed.
Hint Resolve stay_unmap_smem : stay.

Lemma stay_cache_ops p t off size : stay (msm_cvp_cache_operations p t off size).
Proof. unfold msm_cvp_cache_operations, msm_cvp_smem_cache_operations. stay_tac. Qed.
Hint Resolve stay_cache_ops : stay.

Lemma stay_find_smem d t : stay (msm_cvp_session_find_smem d t).
Proof. unfold msm_cvp_session_find_smem, find_smem_rb_node, ref_inc. stay_tac. Qed.
Hint Resolve stay_find_smem : stay.

Lemma stay_free_unused_in l n : stay (free_unused_in l n).
Proof.
  revert n. induction l as [|p l IH]; intros n; cbn [free_unused_in]; [by apply stays_ret|].
  apply stay_bind; [|intros k; apply IH]. unfold free_if_unused, va_sub. stay_tac.
Qed.
Hint Resolve stay_free_unused_in : stay.

Lemma stay_add_node p : stay (msm_cvp_add_smem_rb_node p).
Proof. unfold msm_cvp_add_smem_rb_node. stay_tac. Qed.
Hint Resolve stay_add_node : stay.

Lemma stay_add_smem p : stay (msm_cvp_session_add_smem p).
Proof. unfold msm_cvp_session_add_smem, msm_cvp_free_unused_mapping, ref_inc. stay_tac. Qed.
Hint Resolve stay_add_smem : stay.

Lemma stay_get_smem buf b t : stay (msm_cvp_session_get_smem buf b t).
Proof.
  unfold msm_cvp_session_get_smem, get_smem_exit2, get_smem_exit, ref_inc. stay_tac.
Qed.
Hint Resolve stay_get_smem : stay.

Lemma stay_smmu_fault i : stay (smmu_fault_iova i).
Proof. unfold smmu_fault_iova. stay_tac. Qed.
Hint Resolve stay_smmu_fault : stay.

Lemma stay_unmap_bufs f : stay (msm_cvp_unmap_frame_buf f).
Proof. unfold msm_cvp_unmap_frame_buf, unmap_one, va_sub. stay_tac. Qed.
Hint Resolve stay_unmap_bufs : stay.

Lemma stay_backup f : stay (backup_frame_buffers f).
Proof.
  unfold backup_frame_buffers. stay_tac. generalize (rev (fr_bufs f)). intros l.
  generalize (Z.of_nat (length (fr_bufs f)) - 1). induction l as [|b l IH]; intros i;
    cbn [backup_bufs]; stay_tac; apply IH.
Qed.
Hint Resolve stay_backup : stay.

(** ** Packets *)

(** The same header, the same length. *)
Definition same_head (pkt pkt' : list Z) : Prop :=
  take 16 pkt' = take 16 pkt ∧ length pkt' = length pkt.

Lemma same_head_trans pkt pkt1 pkt2 :
  same_head pkt pkt1 → same_head pkt1 pkt2 → same_head pkt pkt2.
Proof. intros [] []. split; congruence. Qed.

Lemma words_write_head pkt off d pkt' :
  16 <= off → words_write pkt off d = Done pkt' → same_head pkt pkt'.
Proof.
  intros Hoff E. split; [|by eapply length_words_write].
  unfold words_write in E. case_match eqn:Eb; [|done]. injection E as <-.
  apply andb_true_iff in Eb as [_ Hl%Z.leb_le].
  rewrite take_app_le by (rewrite length_take; lia).
  rewrite take_take. f_equal. lia.
Qed.

Lemma put_buf_head pkt off b pkt' :
  16 <= off → put_buf pkt off b = Done pkt' → same_head pkt pkt'.
Proof.
  intros Hoff E. unfold put_buf in E.
  destruct (words_write pkt off _) as [p1|] eqn:E1; [|done]. cbn in E.
  eapply same_head_trans; (eapply words_write_head; [|eassumption]; lia).
Qed.

Lemma same_head_word pkt pkt' j :
  same_head pkt pkt' → 0 <= j < 16 → word_at pkt' j = word_at pkt j.
Proof.
  intros [Ht _] Hj. unfold word_at. rewrite (proj2 (Z.leb_le 0 j)) by lia.
  assert (E : take 16 pkt' !! Z.to_nat j = take 16 pkt !! Z.to_nat j) by by rewrite Ht.
  rewrite !lookup_take_lt in E by lia. by rewrite E.
Qed.

(** ** Mapping and unmapping a frame *)

Lemma stays_map_buf buf f t i :
  stays (msm_cvp_map_frame_buf buf f t i) (λ r, fr_ktid r.1.2 = fr_ktid f).
Proof. unfold msm_cvp_map_frame_buf, ref_inc. stay_tac. Qed.

Definition mapped_frame (pkt : list Z) (f : msm_cvp_frame)
    (r : option msm_cvp_frame * list Z) : Prop :=
  same_head pkt r.2 ∧ match r.1 with Some g => fr_ktid g = fr_ktid f | None => True end.

Lemma stays_map_bufs n : ∀ i pkt off f,
  16 <= off → stays (map_frame_bufs n i pkt off f) (mapped_frame pkt f).
Proof.
  assert (Hput : ∀ pkt off b C (g : list Z → B C) R,
    16 <= off → (∀ pkt', same_head pkt pkt' → stays (g pkt') R) →
    stays (of_outcome (put_buf pkt off b) ≫= g) R).
  { intros pkt off b C g R Hoff Hg. eapply stays_bind; [apply stays_outcome|].
    intros pkt' E. by apply Hg, (put_buf_head _ _ _ _ Hoff E). }
  induction n as [|n IH]; intros i pkt off f Hoff; cbn [map_frame_bufs].
  { by apply stays_ret. }
  assert (Hnext : ∀ i pkt' g, same_head pkt pkt' → fr_ktid g = fr_ktid f →
    stays (map_frame_bufs n i pkt' (off + buf_type_words) g) (mapped_frame pkt f)).
  { intros j pkt' g Hh Hg. eapply stays_post; [apply IH; unfold buf_type_words; lia|].
    intros r [Hr Hk]. split; [by eapply same_head_trans|]. destruct (r.1); congruence. }
  apply stay_bind; [apply stay_outcome|]. intros buf.
  destruct (bt_size buf =? 0); [apply Hput; [done|]; intros pkt' Hh; by apply Hnext|].
  apply stay_bind; [apply stay_outcome|]. intros config.
  apply stay_bind; [unfold is_mapped_persist_buf; stay_tac|].
  intros [iova|]; [apply Hput; [done|]; intros pkt' Hh; by apply Hnext|].
  eapply stays_bind; [apply stays_map_buf|]. intros [[iova g] b]. cbn [fst snd]. intros Hg.
  destruct (iova =? 0); apply Hput; try done; intros pkt' Hh; [|by apply Hnext].
  apply stay_bind; [apply stay_unmap_bufs|]. intros _. by apply stays_ret.
Qed.

(** The transaction id of the next command. *)
Definition next_id (s : bufs) : Z := Z.land (u64 (b_kernel_trans_id s + 1)) (FENCE_BIT - 1).

Lemma next_id_range s : 0 <= next_id s < 2 ^ 63.
Proof.
  unfold next_id, FENCE_BIT. change (2 ^ 63 - 1) with (Z.ones 63).
  rewrite Z.land_ones by lia. apply Z.mod_pos_bound. lia.
Qed.

Lemma kdata_split k : 0 <= k < 2 ^ 64 → u32 k + Z.shiftl (u32 (Z.shiftr k 32)) 32 = k.
Proof.
  intros Hk. unfold u32. rewrite Z.shiftl_mul_pow2, Z.shiftr_div_pow2 by lia.
  rewrite (Z.mod_small (k / 2 ^ 32)); [pose proof (Z.div_mod k (2 ^ 32)); lia|].
  split; [apply Z.div_pos; lia|]. apply Z.div_lt_upper_bound; lia.
Qed.

(** The packet carries transaction id [k], with the fence bit or without. *)
Definition has_kdata (k : Z) (fenced : bool) (pkt : list Z) : Prop :=
  word_at pkt 8 = Done (u32 k)
  ∧ word_at pkt 9 = Done (u32 (Z.shiftr k 32) + if fenced then 2 ^ 31 else 0).

Lemma has_kdata_masked k b pkt :
  0 <= k < 2 ^ 63 → has_kdata k b pkt →
  ∃ kd, kdata_of pkt = Done kd ∧ Z.land kd (FENCE_BIT - 1) = k.
Proof.
  intros Hk [E8 E9]. unfold kdata_of. rewrite E8, E9. cbn [obind]. eexists. split; [reflexivity|].
  unfold FENCE_BIT. change (2 ^ 63 - 1) with (Z.ones 63). rewrite Z.land_ones by lia.
  replace (u32 k + Z.shiftl (u32 (Z.shiftr k 32) + if b then 2 ^ 31 else 0) 32)
    with (k + (if b then 1 else 0) * 2 ^ 63).
  - rewrite Z_mod_plus_full. by apply Z.mod_small.
  - rewrite <- (kdata_split k) at 1 by lia. rewrite !Z.shiftl_mul_pow2 by lia. destruct b; lia.
Qed.

Lemma set_kdata_spec pkt k pkt' :
  set_kdata pkt k = Done pkt' →
  has_kdata k false pkt' ∧ length pkt' = length pkt ∧ ∀ j, 0 <= j < 8 → word_at pkt' j = word_at pkt j.
Proof.
  intros E. pose proof (length_words_write _ _ _ _ E) as Hl. unfold set_kdata, words_write in E.
  case_match eqn:Eb; [|done]. cbn [length] in Eb. apply andb_true_iff in Eb as [_ Hn%Z.leb_le].
  injection E as <-. split; [|split; [done|]].
  - unfold has_kdata, word_at. change (0 <=? 8) with true. change (0 <=? 9) with true.
    change (Z.to_nat 8) with 8%nat. change (Z.to_nat 9) with 9%nat. cbv iota.
    rewrite !lookup_app_r by (rewrite length_take; lia).
    rewrite !length_take, !Nat.min_l by lia. cbn [Nat.sub lookup list_lookup app].
    by rewrite Z.add_0_r.
  - intros j Hj. unfold word_at. rewrite (proj2 (Z.leb_le 0 j)) by lia.
    rewrite lookup_app_l by (rewrite length_take; lia).
    by rewrite lookup_take_lt by lia.
Qed.

Record mapped (s : bufs) (pkt : list Z) (r : Z * list Z) (s' : bufs) : Prop := mkMapped {
  ma_length : length r.2 = length pkt;
  ma_kdata : has_kdata (next_id s) false r.2;
  ma_words : ∀ j, 0 <= j < 8 → word_at r.2 j = word_at pkt j;
  ma_counter : b_kernel_trans_id s' = u64 (b_kernel_trans_id s + 1);
  ma_frames : b_frames s' = b_frames s ∨
    r.1 = 0 ∧ ∃ f, fr_ktid f = next_id s ∧ b_frames s' = b_frames s ++ [f]
}.

Lemma map_frame_spec pkt off n s r s' :
  msm_cvp_map_frame pkt off n s = Done (r, s') → mapped s pkt r s'.
Proof.
  intros E. unfold msm_cvp_map_frame, next_trans_id in E. revert E. srun.
  set (s1 := s <| b_kernel_trans_id ::= _ |>).
  assert (Ek : Z.land (b_kernel_trans_id s1) (FENCE_BIT - 1) = next_id s) by done.
  rewrite Ek. destruct (set_kdata pkt (next_id s)) as [pkt1|] eqn:E1; [|done]. srun.
  destruct (set_kdata_spec pkt (next_id s) pkt1) as (K1 & L1 & W1); [done|].
  assert (Hstop : ∀ (rc : Z) s2, b_frames s2 = b_frames s →
    b_kernel_trans_id s2 = u64 (b_kernel_trans_id s + 1) → mapped s pkt (rc, pkt1) s2).
  { intros rc s2 F2 K2. split; try done. by left. }
  destruct ((off =? 0) || (n =? 0)); [intros [= <- <-]; by apply Hstop|].
  destruct (off <? session_hdr_words) eqn:Eoff; [intros [= <- <-]; by apply Hstop|].
  apply Z.ltb_ge in Eoff. unfold session_hdr_words in Eoff.
  unfold bext. srun. set (s2 := s1 <| b_trace ::= _ |>).
  assert (F2 : b_frames s2 = b_frames s1) by done.
  assert (K2 : b_kernel_trans_id s2 = b_kernel_trans_id s1) by done.
  destruct (_ =? 0); [intros [= <- <-]; apply Hstop; by rewrite ?F2, ?K2|].
  destruct (word_at pkt1 1) as [t|]; [|done]. srun.
  destruct (word_at pkt1 14) as [sx|]; [|done]. srun.
  destruct (map_frame_bufs (Z.to_nat n) 0 pkt1 off (mkFrame [] (next_id s) t sx) s2)
    as [[[o pkt2] s3]|] eqn:E3; [|done]. srun.
  destruct (stays_map_bufs _ _ _ _ _ Eoff _ _ _ E3) as (F3 & K3 & [Hh Hf]).
  cbn [fst snd] in Hh, Hf.
  assert (K : has_kdata (next_id s) false pkt2).
  { destruct K1 as [K8 K9]. split; by rewrite (same_head_word pkt1 pkt2) by (done || lia). }
  assert (L : length pkt2 = length pkt) by (destruct Hh; congruence).
  assert (W : ∀ j, 0 <= j < 8 → word_at pkt2 j = word_at pkt j).
  { intros j Hj. rewrite (same_head_word pkt1 pkt2) by (done || lia). by apply W1. }
  destruct o as [f|]; intros [= <- <-]; (split; [done..| |]).
  - transitivity (b_kernel_trans_id s3); [done|]. by rewrite K3, K2.
  - right. split; [done|]. exists f. split; [done|].
    transitivity (b_frames s3 ++ [f]); [done|]. by rewrite F3, F2.
  - by rewrite K3, K2.
  - left. by rewrite F3, F2.
Qed.

Lemma take_frame_last k l f :
  fr_ktid f = k → (∀ g, g ∈ l → fr_ktid g ≠ k) → take_frame k (l ++ [f]) = Some (f, l).
Proof.
  intros Hf. induction l as [|g l IH]; cbn [app take_frame]; intros Hl.
  - by rewrite Hf, Z.eqb_refl.
  - rewrite (proj2 (Z.eqb_neq _ _)) by (apply Hl; left).
    by rewrite IH by (intros h Hh; apply Hl; by right).
Qed.

Lemma take_frame_none k l : (∀ g, g ∈ l → fr_ktid g ≠ k) → take_frame k l = None.
Proof.
  induction l as [|g l IH]; cbn [take_frame]; [done|]. intros Hl.
  rewrite (proj2 (Z.eqb_neq _ _)) by (apply Hl; left).
  by rewrite IH by (intros h Hh; apply Hl; by right).
Qed.

Lemma unmap_frame_spec kd s s' :
  msm_cvp_unmap_frame kd s = Done (tt, s') →
  b_kernel_trans_id s' = b_kernel_trans_id s ∧
  b_frames s' = match take_frame (Z.land kd (FENCE_BIT - 1)) (b_frames s) with
                | Some (_, rest) => rest | None => b_frames s end.
Proof.
  unfold msm_cvp_unmap_frame. srun.
  destruct (take_frame _ (b_frames s)) as [[f rest]|]; [|by intros [= <-]]. srun.
  intros E. assert (Hs : stay (backup_frame_buffers f ;; msm_cvp_unmap_frame_buf f)).
  { apply stay_bind; [apply stay_backup|intros _; apply stay_unmap_bufs]. }
  destruct (Hs _ _ _ E) as (F & K & _). split; [by rewrite K|by rewrite F].
Qed.

End operations.
