(* ===== verification/FenceSafe.v ===== *)
(** Scanning a packet for fences and sending it never leave the packet, the array of fences
    or the copy of the packet; what they change of the instance and of the packet's head. *)

From S2P Require Import Prelude Store HfiTypes HfiPacket HfiDefs Driver Local Instance HfiSession.
From S2P Require Import Response Session Smem Buffers UserMem Wncc Fences Commands Enqueue.
Open Scope Z_scope.

(** * Runs on one instance *)

(** A call that unmaps no frame. *)
Definition silent (c : call) : Prop := unmaps c = [].

(** From an instance in [P] and device state [h], [m] completes; it changes only that
    instance, makes silent calls, and ends in [Q]. *)
Definition runs (p : Z) (h : iris_hfi_device) {A} (P : msm_cvp_inst → Prop) (m : M A)
    (Q : A → msm_cvp_inst → Prop) : Prop :=
  ∀ w i, inst_at p w = Some i → w_hdev w = h → P i →
    ∃ a i' t, m w = Done (a, upd p i' (w_trace w ++ t) w) ∧ Forall silent t ∧ Q a i'.

Section rules.
Context (p : Z) (h : iris_hfi_device).

Lemma runs_ret {A} P (a : A) (Q : A → msm_cvp_inst → Prop) :
  (∀ i, P i → Q a i) → runs p h P (mret a) Q.
Proof.
  intros HQ w i Hi Hh HP. exists a, i, []. rewrite app_nil_r, upd_same by done.
  split; [done|]. split; [constructor|auto].
Qed.

Lemma runs_bind {A C} P (m : M A) R (f : A → M C) Q :
  runs p h P m R → (∀ a, runs p h (R a) (f a) Q) → runs p h P (m ≫= f) Q.
Proof.
  intros Hm Hf w i Hi Hh HP. destruct (Hm w i Hi Hh HP) as (a & i1 & t1 & E1 & S1 & H1).
  destruct (Hf a _ i1 (inst_at_upd_same p i i1 (w_trace w ++ t1) w Hi) Hh H1) as (c & i2 & t2 & E2 & S2 & H2).
  exists c, i2, (t1 ++ t2). rewrite bind_run, E1. cbn [obind fst snd].
  rewrite E2, upd_upd. cbn [w_trace upd put_field_to]. split; [|split; [by apply Forall_app|done]].
  do 3 f_equal. by rewrite (assoc_L (++)).
Qed.

Lemma runs_pre {A} P P' (m : M A) Q : runs p h P' m Q → (∀ i, P i → P' i) → runs p h P m Q.
Proof. intros Hm HP w i Hi Hh Hp. apply (Hm w i Hi Hh). auto. Qed.

Lemma runs_post {A} P (m : M A) Q Q' :
  runs p h P m Q' → (∀ a i, Q' a i → Q a i) → runs p h P m Q.
Proof.
  intros Hm HQ w i Hi Hh Hp. destruct (Hm w i Hi Hh Hp) as (a & i' & t & E & S & H). eauto 8.
Qed.

Lemma runs_get_i P (Q : msm_cvp_inst → msm_cvp_inst → Prop) :
  (∀ i, P i → Q i i) → runs p h P (get_i p) Q.
Proof.
  intros HQ w i Hi Hh HP. exists i, i, []. rewrite app_nil_r, upd_same by done.
  rewrite (get_i_some p i w Hi). split; [done|]. split; [constructor|auto].
Qed.

Lemma runs_mod_i P f (Q : unit → msm_cvp_inst → Prop) :
  (∀ i, P i → Q tt (f i)) → runs p h P (mod_i p f) Q.
Proof.
  intros HQ w i Hi Hh HP. exists tt, (f i), []. rewrite app_nil_r, (mod_i_some p f i w Hi).
  split; [|split; [constructor|auto]]. unfold upd.
  rewrite (put_i_ext p f (λ _, f i)); [by destruct w|]. intros; congruence.
Qed.

Lemma runs_lift {A} P (o : outcome A) a (Q : A → msm_cvp_inst → Prop) :
  o = Done a → (∀ i, P i → Q a i) → runs p h P (lift o) Q.
Proof. intros -> HQ. by apply runs_ret. Qed.

Lemma runs_word P pkt k v (Q : Z → msm_cvp_inst → Prop) :
  word_at pkt k = Done v → (∀ i, P i → Q v i) → runs p h P (word pkt k) Q.
Proof. exact (runs_lift P (word_at pkt k) v Q). Qed.

Lemma runs_get_hdev P (Q : iris_hfi_device → msm_cvp_inst → Prop) :
  (∀ i, P i → Q h i) → runs p h P get_hdev Q.
Proof.
  intros HQ w i Hi Hh HP. exists h, i, []. rewrite app_nil_r, upd_same by done.
  rewrite get_hdev_run, Hh. split; [done|]. split; [constructor|auto].
Qed.

Lemma runs_if {A} P (b : bool) (m1 m2 : M A) Q :
  (b = true → runs p h P m1 Q) → (b = false → runs p h P m2 Q) →
  runs p h P (if b then m1 else m2) Q.
Proof. destruct b; auto. Qed.

Lemma runs_pure {A} (φ : Prop) P (m : M A) Q :
  (φ → runs p h P m Q) → runs p h (λ i, φ ∧ P i) m Q.
Proof. intros Hm w i Hi Hh [Hφ HP]. exact (Hm Hφ w i Hi Hh HP). Qed.

Context `{Env}.

Lemma runs_ext P c (Q : Z → msm_cvp_inst → Prop) :
  silent c → (∀ a i, P i → Q a i) → runs p h P (ext c) Q.
Proof.
  intros Hc HQ w i Hi Hh HP. exists (answer (length (w_trace w)) c), i, [c].
  rewrite ext_run. split; [|split; [by constructor|auto]].
  do 2 f_equal. unfold upd. rewrite (put_i_ext p _ (λ j, j)); [|intros; congruence].
  by rewrite put_i_id.
Qed.

End rules.

(** * Packets *)

Lemma words_write_done2 pkt off d :
  0 <= off → off + Z.of_nat (length d) <= Z.of_nat (length pkt) →
  ∃ pkt', words_write pkt off d = Done pkt' ∧ length pkt' = length pkt.
Proof. intros. apply BufferFrames.words_write_done; done. Qed.

(** The same length, and the same words before [k]. *)
Definition same_below (k : Z) (pkt pkt' : list Z) : Prop :=
  length pkt' = length pkt ∧ ∀ j, j < k → word_at pkt' j = word_at pkt j.

Lemma same_below_refl k pkt : same_below k pkt pkt.
Proof. done. Qed.

Lemma same_below_trans k k' pkt pkt1 pkt2 :
  k <= k' → same_below k pkt pkt1 → same_below k' pkt1 pkt2 → same_below k pkt pkt2.
Proof.
  intros Hk [L1 W1] [L2 W2]. split; [congruence|]. intros j Hj. rewrite W2 by lia. auto.
Qed.

Lemma write_same_below pkt off d pkt' :
  words_write pkt off d = Done pkt' → same_below off pkt pkt'.
Proof.
  intros E. split; [by eapply length_words_write|].
  intros j Hj. by apply (words_write_before _ _ _ _ _ E).
Qed.

(** A command: a packet of the client with its transaction id. *)
Record cmd (k size type : Z) (pkt : list Z) : Prop := mkCmd {
  cmd_length : Z.of_nat (length pkt) = hfi_packet_words;
  cmd_size : word_at pkt 0 = Done size;
  cmd_type : word_at pkt 1 = Done type;
  cmd_kdata : ∃ b, has_kdata k b pkt
}.

Lemma cmd_same_below k size type pkt pkt' :
  same_below 10 pkt pkt' → cmd k size type pkt → cmd k size type pkt'.
Proof.
  intros [L W] [? ? ? [b [E8 E9]]]. split; [congruence|by rewrite W|by rewrite W|].
  exists b. split; by rewrite W.
Qed.

Lemma cmd_word k size type pkt j :
  cmd k size type pkt → 0 <= j < hfi_packet_words → ∃ v, word_at pkt j = Done v.
Proof. intros [L _ _ _] Hj. eexists. apply word_at_ok. lia. Qed.

(** * Scanning for fences *)

(** How many buffers from [off] on have an output fence. *)
Fixpoint outputs (n : nat) (off : Z) (pkt : list Z) : Z :=
  match n with
  | O => 0
  | S n' =>
      match word_at pkt (off + 8) with
      | Done o => (if o =? 0 then 0 else 1) + outputs n' (off + buf_type_words) pkt
      | Fault => 0
      end
  end.

Lemma outputs_same_below n : ∀ k off pkt pkt',
  same_below k pkt pkt' → off + 12 * Z.of_nat n <= k → outputs n off pkt' = outputs n off pkt.
Proof.
  induction n as [|n IH]; intros k off pkt pkt' Hs Hk; cbn [outputs]; [done|].
  unfold buf_type_words. rewrite (IH k _ pkt) by (done || lia).
  destruct Hs as [_ ->]; [done|lia].
Qed.

Lemma outputs_range n : ∀ off pkt, 0 <= outputs n off pkt <= Z.of_nat n.
Proof.
  induction n as [|n IH]; intros off pkt; cbn [outputs]; [lia|].
  specialize (IH (off + buf_type_words) pkt). destruct (word_at _ _) as [o|]; [|lia].
  destruct (o =? 0); lia.
Qed.

Lemma soc_fences_ok n : ∀ off pkt,
  0 <= off → off + 12 * Z.of_nat n <= Z.of_nat (length pkt) →
  ∃ a b, soc_fences n off pkt = Done (a, b) ∧ 0 <= b <= a ∧ a <= Z.of_nat n.
Proof.
  induction n as [|n IH]; intros off pkt Hoff Hl; cbn [soc_fences].
  { exists 0, 0. split; [done|lia]. }
  rewrite !word_at_ok by lia. cbn [obind].
  destruct (IH (off + buf_type_words) pkt) as (a & b & -> & Hb & Ha);
    [unfold buf_type_words; lia..|]. cbn [obind fst snd].
  destruct (_ && _); [exists a, b; split; [done|lia]|].
  eexists _, _. split; [reflexivity|]. destruct (_ =? 0); lia.
Qed.

(** A write of the first pass at a descriptor leaves the output handles. *)
Lemma outputs_write n off pkt pkt' d :
  words_write pkt (off + 6) d = Done pkt' → length d = 2%nat →
  outputs n (off + 12) pkt' = outputs n (off + 12) pkt.
Proof.
  intros E Hd. assert (Hw : ∀ j, off + 8 <= j → word_at pkt' j = word_at pkt j).
  { intros j Hj. eapply words_write_after; [exact E|]. rewrite Hd. lia. }
  assert (Hgen : ∀ m o, off + 12 <= o → outputs m o pkt' = outputs m o pkt).
  { induction m as [|m IH]; intros o Ho; cbn [outputs]; [done|].
    rewrite Hw, IH by (unfold buf_type_words; lia). done. }
  apply Hgen. lia.
Qed.

Lemma input_fences_ok n : ∀ off pkt fences total,
  16 <= off → off + 12 * Z.of_nat n <= Z.of_nat (length pkt) →
  Z.of_nat (length fences) + Z.of_nat n <= MAX_HFI_FENCE_SIZE →
  ∃ pkt' fences' total', input_fences n off pkt fences total = Done (pkt', fences', total')
    ∧ same_below (off + 6) pkt pkt'
    ∧ outputs n off pkt' = outputs n off pkt
    ∧ (length fences <= length fences')%nat
    ∧ total' + Z.of_nat (length fences) = total + Z.of_nat (length fences') + outputs n off pkt.
Proof.
  induction n as [|n IH]; intros off pkt fences total Hoff Hl Hf; cbn [input_fences].
  { exists pkt, fences, total. split_and!; [done|done|done|done|cbn; lia]. }
  rewrite !word_at_ok by lia. cbn [obind outputs].
  set (inp := pkt !!! _). set (outp := pkt !!! _).
  assert (Eo : word_at pkt (off + 8) = Done outp) by (apply word_at_ok; lia).
  set (total1 := if outp =? 0 then total else total + 1). unfold buf_type_words.
  destruct (inp =? 0).
  - destruct (IH (off + 12) pkt fences total1) as (pkt' & fs & t & E & Hs & Ho & Hle & Ht);
      [lia..|].
    exists pkt', fs, t. split; [done|]. split; [|split; [|split; [done|]]].
    + destruct Hs as [L W]. split; [done|]. intros j Hj. apply W. lia.
    + destruct Hs as [L W]. rewrite W by lia. rewrite Eo, Ho. done.
    + unfold total1 in Ht. rewrite ?Eo. fold outp. destruct (outp =? 0); lia.
  - rewrite Z.geb_leb, (proj2 (Z.leb_gt _ _)) by lia.
    rewrite word_at_ok by lia. cbn [obind].
    destruct (words_write_done2 pkt (off + 6) [Z.ldiff (pkt !!! Z.to_nat (off + 6)) INPUT_FENCE_BITMASK; 0])
      as (pkt1 & E1 & L1); [lia|cbn; lia|].
    rewrite E1. cbn [obind].
    destruct (IH (off + 12) pkt1 (fences ++ [inp]) (total1 + 1))
      as (pkt' & fs & t & E & Hs & Ho & Hle & Ht); [lia|lia|rewrite length_app; cbn; lia|].
    rewrite length_app in Hle, Ht. cbn [length] in Hle, Ht.
    rewrite (outputs_write _ _ _ _ _ E1) in Ho, Ht by done.
    exists pkt', fs, t. split; [done|]. split; [|split; [|split; [lia|]]].
    + eapply same_below_trans; [|by eapply write_same_below|exact Hs]. lia.
    + destruct Hs as [L W]. rewrite W by lia.
      assert (Eo1 : word_at pkt1 (off + 8) = Done outp).
      { rewrite <- Eo. eapply words_write_after; [exact E1|]. cbn. lia. }
      rewrite Eo1, Ho. done.
    + unfold total1 in Ht. rewrite ?Eo. fold outp. destruct (outp =? 0); lia.
Qed.

Lemma output_fences_ok n : ∀ off pkt fences,
  16 <= off → off + 12 * Z.of_nat n <= Z.of_nat (length pkt) →
  Z.of_nat (length fences) + outputs n off pkt <= MAX_HFI_FENCE_SIZE →
  ∃ pkt' fences', output_fences n off pkt fences = Done (pkt', fences')
    ∧ same_below (off + 6) pkt pkt'
    ∧ Z.of_nat (length fences') = Z.of_nat (length fences) + outputs n off pkt.
Proof.
  induction n as [|n IH]; intros off pkt fences Hoff Hl Hf; cbn [output_fences outputs] in *.
  { exists pkt, fences. split; [done|]. split; [apply same_below_refl|lia]. }
  pose proof (outputs_range n (off + 12) pkt) as Hr.
  rewrite (word_at_ok pkt (off + 8)) in Hf |- * by lia. cbn [obind].
  set (outp := pkt !!! Z.to_nat (off + 8)) in *. unfold buf_type_words in *.
  destruct (outp =? 0).
  { destruct (IH (off + 12) pkt fences) as (pkt' & fs & E & [L W] & Hn); [lia..|].
    exists pkt', fs. split; [done|]. split; [|lia]. split; [done|]. intros j Hj. apply W. lia. }
  rewrite Z.geb_leb, (proj2 (Z.leb_gt _ _)) by lia. rewrite word_at_ok by lia. cbn [obind].
  destruct (words_write_done2 pkt (off + 6) [Z.ldiff (pkt !!! Z.to_nat (off + 6)) OUTPUT_FENCE_BITMASK])
    as (p1 & E1 & L1); [lia|cbn; lia|].
  rewrite E1. cbn [obind].
  destruct (words_write_done2 p1 (off + 8) [0]) as (p2 & E2 & L2); [lia|cbn; lia|].
  rewrite E2. cbn [obind].
  assert (Ho : outputs n (off + 12) p2 = outputs n (off + 12) pkt).
  { assert (Hw : ∀ j, off + 12 <= j → word_at p2 j = word_at pkt j).
    { intros j Hj. rewrite (words_write_after _ _ _ _ j E2) by (cbn; lia).
      apply (words_write_after _ _ _ _ j E1). cbn. lia. }
    assert (Hgen : ∀ m o, off + 12 <= o → outputs m o p2 = outputs m o pkt).
    { induction m as [|m IHm]; intros o Hm; cbn [outputs]; [done|].
      unfold buf_type_words. by rewrite Hw, IHm by lia. }
    apply Hgen. lia. }
  destruct (IH (off + 12) p2 (fences ++ [outp])) as (pkt' & fs & E & Hs & Hn);
    [lia|lia|rewrite length_app, Ho; cbn; lia|].
  rewrite length_app, Ho in Hn. cbn [length] in Hn.
  exists pkt', fs. split; [done|]. split; [|lia].
  eapply (same_below_trans _ (off + 6)); [lia|by eapply write_same_below|].
  eapply (same_below_trans _ (off + 8)); [lia| |].
  { destruct (write_same_below _ _ _ _ E2) as [L W]. split; [done|]. intros j Hj. apply W. lia. }
  destruct Hs as [L W]. split; [done|]. intros j Hj. apply W. lia.
Qed.

(** * Sending *)

Lemma crc_words_ok n : ∀ idx pkt,
  0 <= idx → idx + Z.of_nat n <= Z.of_nat (length pkt) → ∃ v, crc_words n idx pkt = Done v.
Proof.
  induction n as [|n IH]; intros idx pkt Hidx Hl; cbn [crc_words]; [by eexists|].
  destruct (IH (idx + 1) pkt) as [v E]; [lia..|].
  destruct (_ =? _); cbn [obind]; [rewrite E; by eexists|].
  rewrite word_at_ok by lia. cbn [obind]. rewrite E. by eexists.
Qed.

Section sending.
Context `{Env}.

Lemma add_crc_ok k size type pkt :
  cmd k size type pkt → size <= 4 * hfi_packet_words →
  ∃ pkt', cvp_add_hfi_crc pkt = Done pkt' ∧ cmd k size type pkt'.
Proof.
  intros Hc Hsize. unfold cvp_add_hfi_crc. destruct (_ =? 0); [by exists pkt|].
  rewrite (cmd_size _ _ _ _ Hc). cbn [obind]. pose proof (cmd_length _ _ _ _ Hc) as L.
  destruct (crc_words_ok (Z.to_nat (size / 4)) 0 pkt) as [v ->].
  - done.
  - assert (size / 4 <= hfi_packet_words) by (apply Z.div_le_upper_bound; lia).
    assert (0 <= hfi_packet_words) by done. lia.
  - cbn [obind]. destruct (words_write_done2 pkt 13 [u32 v]) as (pkt' & E & _).
    { done. } { rewrite L. done. }
    exists pkt'. split; [done|]. eapply cmd_same_below; [|exact Hc].
    pose proof (write_same_below _ _ _ _ E) as [L' W']. split; [done|].
    intros j Hj. apply W'. lia.
Qed.

Lemma session_send_check_ok ps pkt k size type :
  cmd k size type pkt →
  ∃ rc, cvp_create_pkt_cmd_session_send env_hfi_ver env_cvp_hfi_defs (Some ps) (Some pkt) = Done rc
    ∧ rc <= 0.
Proof.
  intros Hc. unfold cvp_create_pkt_cmd_session_send. destruct (session_inst ps) as [ii|]; [|by eexists].
  rewrite (cmd_size _ _ _ _ Hc), (cmd_type _ _ _ _ Hc). cbn [obind].
  destruct (cmd_word _ _ _ _ 2 Hc) as [v ->]; [done|]. cbn [obind].
  destruct (_ >? _); [by eexists|]. destruct (negb _); [by eexists|].
  destruct (get_pkt_index_range env_hfi_ver env_cvp_hfi_defs (Some type)) as (idx & E & Hidx).
  rewrite E. cbn [obind]. destruct (idx <? 0) eqn:Eneg; [by eexists|]. apply Z.ltb_ge in Eneg.
  destruct Hidx as [->|[Hidx _]]; [done|].
  rewrite table_at_ok by done. cbn [obind]. destruct (negb _); by eexists.
Qed.

(** The session object an instance refers to is there, and refers back or to nothing. *)
Definition session_live (p : Z) (h : iris_hfi_device) (s0 : Z) : Prop :=
  s0 = 0 ∨ ∃ hs, obj_find s0 (hd_sessions h) = Some hs ∧ (hs_session_id hs = 0 ∨ hs_session_id hs = p).

Lemma runs_session_send p h P sess k size type pkt :
  session_live p h sess → cmd k size type pkt → size <= 4 * hfi_packet_words →
  runs p h P (iris_hfi_session_send sess pkt) (λ r i, r.1 <= 0 ∧ cmd k size type r.2 ∧ P i).
Proof.
  intros Hlive Hc Hsize. unfold iris_hfi_session_send.
  destruct (Z.eqb_spec sess 0) as [|Hs0]; [by apply runs_ret|].
  destruct Hlive as [|(hs & Ehs & Hback)]; [done|].
  assert (Hget : ∀ (Q : cvp_hal_session → msm_cvp_inst → Prop) P',
    (∀ i, P' i → Q hs i) → runs p h P' (get_session sess) Q).
  { intros Q P' HQ. unfold get_session. eapply runs_bind; [by apply (runs_get_hdev _ _ _ (λ d i, d = h ∧ P' i))|].
    intros d. apply runs_pure. intros ->. rewrite Ehs. by apply runs_ret. }
  eapply runs_bind; [by apply (Hget (λ s i, s = hs ∧ P i))|]. intros s. apply runs_pure. intros ->.
  apply runs_if; intros _; [by apply runs_ret|].
  eapply (runs_bind _ _ _ _ (λ _, P)).
  { unfold __is_session_valid. rewrite (proj2 (Z.eqb_neq _ _)) by done.
    eapply runs_bind; [by apply (runs_get_hdev _ _ _ (λ _, P))|]. intros d. by apply runs_ret. }
  intros v. apply runs_if; intros _; [by apply runs_ret|].
  destruct (add_crc_ok _ _ _ _ Hc Hsize) as (pkt1 & E1 & Hc1).
  eapply runs_bind; [apply (runs_lift _ _ _ _ _ (λ a i, a = pkt1 ∧ P i) E1); auto|].
  intros a. apply runs_pure. intros ->.
  eapply (runs_bind _ _ _ _ (λ _, P)).
  { unfold packet_session. eapply runs_bind; [by apply (Hget (λ s i, s = hs ∧ P i))|].
    intros s. apply runs_pure. intros ->. destruct (Z.eqb_spec (hs_session_id hs) 0); [by apply runs_ret|].
    destruct Hback as [| ->]; [done|]. eapply runs_bind; [by apply (runs_get_i _ _ _ (λ _, P))|].
    intros i. by apply runs_ret. }
  intros ps. destruct (session_send_check_ok ps _ _ _ _ Hc1) as (rc & Erc & Hrc).
  eapply runs_bind; [apply (runs_lift _ _ _ _ _ (λ a i, a = rc ∧ P i) Erc); auto|].
  intros a. apply runs_pure. intros ->. apply runs_if; intros _; [by apply runs_ret|].
  eapply (runs_bind _ _ _ _ (λ _, P)); [by apply runs_ext|]. intros r. apply runs_ret.
  intros i Hi. by destruct (r =? 0).
Qed.

End sending.
