(* ===== verification/Populate.v ===== *)
(** Queueing a command for the fence threads: [cvp_populate_fences] completes on every packet
    that passed [is_buf_param_valid]; it queues at most one command, whose handles are within
    its array, and otherwise leaves the instance alone. *)

From S2P Require Import Prelude Store HfiTypes HfiPacket HfiDefs Driver Local Instance HfiSession.
From S2P Require Import Response Session Smem Buffers BufferFrames UserMem Wncc Fences Commands Enqueue FenceSafe.
Open Scope Z_scope.

(** * Packets *)

(** The fence bit is above the transaction id. *)
Lemma lor_top x (b : bool) :
  0 <= x < 2 ^ 31 → Z.lor (x + if b then 2 ^ 31 else 0) (2 ^ 31) = x + 2 ^ 31.
Proof.
  intros Hx. assert (E : x + 2 ^ 31 = Z.lor x (2 ^ 31)).
  { rewrite <- Z.add_lor_land. replace (Z.land x (2 ^ 31)) with 0; [lia|].
    symmetry. apply Z.bits_inj'. intros n Hn. rewrite Z.land_spec, Z.bits_0, Z.pow2_bits_eqb by lia.
    destruct (Z.eqb_spec 31 n) as [<-|]; [|apply andb_false_r].
    rewrite andb_true_r. apply Z.testbit_false; [lia|]. by rewrite Z.div_small. }
  destruct b; [|by rewrite Z.add_0_r].
  rewrite E, <- Z.lor_assoc. by rewrite Z.lor_diag.
Qed.

Lemma set_fence_bit_ok k size type pkt :
  0 <= k < 2 ^ 63 → cmd k size type pkt →
  ∃ pkt', set_fence_bit pkt = Done pkt' ∧ cmd k size type pkt'.
Proof.
  intros Hk [L Es Et (b & E8 & E9)]. unfold set_fence_bit. rewrite E9. cbn [obind].
  rewrite lor_top.
  2: { unfold u32. rewrite Z.shiftr_div_pow2 by lia.
       assert (0 <= k / 2 ^ 32 < 2 ^ 31).
       { split; [apply Z.div_pos; lia|apply Z.div_lt_upper_bound; lia]. }
       rewrite Z.mod_small; lia. }
  destruct (words_write_done2 pkt 9 [u32 (Z.shiftr k 32) + 2 ^ 31]) as (pkt' & E & L');
    [lia|rewrite L; done|].
  exists pkt'. split; [done|]. destruct (write_same_below _ _ _ _ E) as [_ W].
  split; [lia|rewrite W; done..|]. exists true. split; [by rewrite W|].
  by apply words_write_at in E.
Qed.

Lemma copy_bytes_ok dst pkt size :
  0 <= size → size <= 4 * Z.of_nat (length pkt) → size <= 4 * Z.of_nat (length dst) →
  ∃ dst', copy_bytes dst pkt size = Done dst' ∧ length dst' = length dst.
Proof.
  intros Hs Hp Hd. unfold copy_bytes.
  pose proof (Z.div_mod size 4 ltac:(done)). pose proof (Z.mod_pos_bound size 4 ltac:(done)).
  rewrite words_read_ok by lia. cbn [obind].
  set (l := take _ _). assert (El : Z.of_nat (length l) = size / 4).
  { unfold l. rewrite length_take, length_drop. lia. }
  destruct (words_write_done2 dst 0 l) as (d1 & E1 & L1); [lia|lia|]. rewrite E1. cbn [obind].
  destruct (Z.eqb_spec (size mod 4) 0); [by exists d1|].
  rewrite !word_at_ok by lia. cbn [obind].
  match goal with |- context [words_write d1 ?o ?d] =>
    destruct (words_write_done2 d1 o d) as (d2 & E2 & L2); [lia|cbn; lia|] end.
  exists d2. split; [done|congruence].
Qed.

(** * Fence commands *)

(** A command with [num] fences, the first [out] of them inputs. *)
Record fence_ok (num out : Z) (f : cvp_fence_command) : Prop := mkFenceOk {
  fo_num : f_num_fences f = num;
  fo_out : f_output_index f = out;
  fo_synx : Z.of_nat (length (f_synx f)) = MAX_HFI_FENCE_SIZE;
  fo_range : 0 <= out <= num;
  fo_bound : 0 < num <= MAX_HFI_FENCE_SIZE
}.

Lemma new_fence_ok sig num out type fpkt :
  0 <= out <= num → 0 < num <= MAX_HFI_FENCE_SIZE → fence_ok num out (new_fence sig num out type fpkt).
Proof. intros. split; done. Qed.

Definition add_waiting (f : cvp_fence_command) (i : msm_cvp_inst) : msm_cvp_inst :=
  i <| i_fence_cmd_queue ::= λ q, q <| fq_wait_list ::= λ l, l ++ [f] |> |>.

(** The result of populating: an error or no fences, and nothing changed; or the number of
    fences of the command that was queued. *)
Definition populated (i : msm_cvp_inst) (rc : Z) (i' : msm_cvp_inst) : Prop :=
  rc <= 0 ∧ i' = i ∨ ∃ f out, fence_ok rc out f ∧ i' = add_waiting f i.

(** Synx answers 0 or a negative error. *)
Class SynxLaws `{Env} := {
  synx_import_error n h : answer n (Synx_import h) <= 0
}.

Section populate.
Context `{Env} `{FenceEnv} `{!SynxLaws}.
Context (p : Z) (h : iris_hfi_device).

Lemma runs_import P fs : ∀ i fc rr num out,
  fence_ok num out fc → 0 <= i → i + Z.of_nat (length fs) <= MAX_HFI_FENCE_SIZE → rr <= 0 →
  runs p h P (import_synx fs i fc rr) (λ r j, r.1 <= 0 ∧ fence_ok num out r.2 ∧ P j).
Proof.
  induction fs as [|hs fs IH]; intros i fc rr num out Hf Hi Hl Hr; cbn [import_synx].
  { by apply runs_ret. }
  cbn [length] in Hl. apply runs_if; intros _; [apply IH; auto with lia|].
  eapply (runs_bind _ _ _ _ (λ a j, a <= 0 ∧ P j)).
  { intros w j Hj Hh HP. destruct (runs_ext p h P (Synx_import hs) (λ _, P)) with w j
      as (a & j' & t & E & St & HQ); [done|auto|done..|].
    exists a, j', t. split; [exact E|]. split; [exact St|]. split; [|exact HQ].
    rewrite ext_run in E. injection E as <- _. apply synx_import_error. }
  intros rc. apply runs_pure. intros Hrc. apply runs_if; intros _; [apply IH; auto with lia|].
  eapply runs_bind; [by apply (runs_ext _ _ _ _ (λ _, P))|]. intros hd.
  destruct (words_write_done2 (f_synx fc) i [hd]) as (l & E & L);
    [lia|rewrite (fo_synx _ _ _ Hf); cbn; lia|].
  eapply runs_bind; [apply (runs_lift _ _ _ _ _ (λ a j, a = l ∧ P j) E); auto|].
  intros a. apply runs_pure. intros ->. apply IH; [|lia..].
  destruct Hf. split; cbn; congruence || done.
Qed.

Lemma runs_queue i0 pkt num out f k size type :
  fence_ok num out f → cmd k size type pkt →
  runs p h (λ i, i = i0) (queue_fence p f pkt) (λ r i, cmd k size type r.2 ∧ populated i0 r.1 i).
Proof.
  intros Hf Hc. unfold queue_fence, mod_fq.
  eapply runs_bind; [by apply (runs_mod_i _ _ _ _ (λ _ i, i = add_waiting f i0)); intros ? ->|].
  intros []. apply runs_ret. intros i ->. split; [done|]. right. exists f, out.
  split; [|done]. cbn. by rewrite (fo_num _ _ _ Hf).
Qed.

Lemma populated_none i rc : rc <= 0 → populated i rc i.
Proof. by left. Qed.

Lemma runs_soc_fence i0 sess k size type pkt fpkt off n :
  session_live p h sess → i_session i0 = sess → cmd k size type pkt → 0 <= k < 2 ^ 63 →
  size <= 4 * hfi_packet_words → 64 <= 4 * Z.of_nat (length fpkt) →
  0 <= off → 0 <= n → off + 12 * n <= Z.of_nat (length pkt) →
  runs p h (λ i, i = i0) (soc_fence p pkt fpkt type off n)
    (λ r i, cmd k size type r.2 ∧ populated i0 r.1 i).
Proof.
  intros Hlive Hs Hc Hk Hsize Hf Hoff Hn Hl. unfold soc_fence.
  destruct (soc_fences_ok (Z.to_nat n) off pkt) as (a & b & E & Hb & Ha); [lia..|].
  eapply runs_bind; [apply (runs_lift _ _ _ _ _ (λ r i, r = (a, b) ∧ i = i0) E); auto|].
  intros r. apply runs_pure. intros ->. apply runs_if; intros Ha0; zify_bool.
  { apply runs_ret. intros i ->. split; [done|]. by apply populated_none. }
  destruct (set_fence_bit_ok _ _ _ _ Hk Hc) as (pkt1 & E1 & Hc1).
  eapply runs_bind; [apply (runs_lift _ _ _ _ _ (λ r i, r = pkt1 ∧ i = i0) E1); auto|].
  intros r. apply runs_pure. intros ->.
  destruct (copy_bytes_ok fpkt pkt1 (4 * session_hdr_words)) as (fp & E2 & L2); [done| |done|].
  { rewrite (cmd_length _ _ _ _ Hc1). done. }
  eapply runs_bind; [apply (runs_lift _ _ _ _ _ (λ r i, r = fp ∧ i = i0) E2); auto|].
  intros r. apply runs_pure. intros ->.
  eapply runs_bind; [apply (runs_get_i _ _ _ (λ j i, j = i0 ∧ i = i0)); auto|].
  intros j. apply runs_pure. intros ->.
  eapply runs_bind; [apply (runs_session_send p h (λ i, i = i0)); [by rewrite Hs|done|done]|].
  intros [rc pkt2]. cbn [fst snd]. apply runs_pure. intros Hrc. apply runs_pure. intros Hc2.
  apply runs_if; intros _.
  { apply runs_ret. intros i ->. split; [done|]. by apply populated_none. }
  eapply runs_queue; [|done]. apply new_fence_ok; [lia|].
  rewrite (cmd_length _ _ _ _ Hc) in Hl. unfold hfi_packet_words, MAX_HFI_PKT_SIZE, MAX_HFI_FENCE_SIZE in *. lia.
Qed.

Lemma runs_kernel_fence i0 k size type pkt fpkt off n :
  cmd k size type pkt → 0 <= size <= 4 * hfi_packet_words →
  size <= 4 * Z.of_nat (length fpkt) → 10 <= Z.of_nat (length fpkt) →
  16 <= off → 0 <= n → off + 12 * n <= Z.of_nat (length pkt) →
  runs p h (λ i, i = i0) (kernel_fence p pkt fpkt type off n)
    (λ r i, cmd k size type r.2 ∧ populated i0 r.1 i).
Proof.
  intros Hc Hsize Hf1 Hf2 Hoff Hn Hl. unfold kernel_fence.
  assert (Hn64 : n <= MAX_HFI_FENCE_SIZE).
  { rewrite (cmd_length _ _ _ _ Hc) in Hl.
    unfold hfi_packet_words, MAX_HFI_PKT_SIZE, MAX_HFI_FENCE_SIZE in *. lia. }
  destruct (input_fences_ok (Z.to_nat n) off pkt [] 0) as (pkt1 & ins & total & E & Hs & Ho & Hle & Ht);
    [lia|lia|cbn; lia|].
  eapply runs_bind; [apply (runs_lift _ _ _ _ _ (λ r i, r = (pkt1, ins, total) ∧ i = i0) E); auto|].
  intros r. apply runs_pure. intros ->.
  assert (Hc1 : cmd k size type pkt1).
  { eapply cmd_same_below; [|exact Hc]. destruct Hs as [L W]. split; [done|].
    intros j Hj. apply W. lia. }
  pose proof (outputs_range (Z.to_nat n) off pkt) as Hor. cbn [length] in Ht.
  apply runs_if; intros Hmax; zify_bool.
  { apply runs_ret. intros i ->. split; [done|]. by apply populated_none. }
  destruct (output_fences_ok (Z.to_nat n) off pkt1 ins) as (pkt2 & fs & E2 & Hs2 & Hfs);
    [lia|rewrite (proj1 Hs); lia|lia|].
  eapply runs_bind; [apply (runs_lift _ _ _ _ _ (λ r i, r = (pkt2, fs) ∧ i = i0) E2); auto|].
  intros r. apply runs_pure. intros ->.
  assert (Hc2 : cmd k size type pkt2).
  { eapply cmd_same_below; [|exact Hc1]. destruct Hs2 as [L W]. split; [done|].
    intros j Hj. apply W. lia. }
  apply runs_if; intros Hfs0; zify_bool.
  { apply runs_ret. intros i ->. split; [done|]. by apply populated_none. }
  assert (Hfs64 : Z.of_nat (length fs) <= MAX_HFI_FENCE_SIZE) by lia.
  eapply runs_bind.
  { unfold cvp_import_synx. cbn [f_num_fences new_fence]. rewrite Nat2Z.id.
    apply (runs_import (λ i, i = i0) _ 0 _ 0 (Z.of_nat (length fs)) (Z.of_nat (length ins)));
      [apply new_fence_ok; lia|done|rewrite length_take; lia|done]. }
  intros [rc f]. cbn [fst snd]. apply runs_pure. intros Hrc. apply runs_pure. intros Hf.
  apply runs_if; intros _.
  { apply runs_ret. intros i ->. split; [done|]. by apply populated_none. }
  eapply runs_bind; [apply (runs_word _ _ _ _ _ _ (λ r i, r = size ∧ i = i0) (cmd_size _ _ _ _ Hc2)); auto|].
  intros r. apply runs_pure. intros ->.
  destruct (copy_bytes_ok fpkt pkt2 size) as (fp & E3 & L3);
    [lia|rewrite (cmd_length _ _ _ _ Hc2); lia|lia|].
  eapply runs_bind; [apply (runs_lift _ _ _ _ _ (λ r i, r = fp ∧ i = i0) E3); auto|].
  intros r. apply runs_pure. intros ->.
  destruct (words_write_done2 fp 9 [Z.lor (fp !!! 9%nat) (2 ^ 31)]) as (fp2 & E4 & L4);
    [lia|cbn; lia|].
  assert (E5 : set_fence_bit fp = Done fp2).
  { unfold set_fence_bit. rewrite word_at_ok by lia. exact E4. }
  eapply runs_bind; [apply (runs_lift _ _ _ _ _ (λ r i, r = fp2 ∧ i = i0) E5); auto|].
  intros r. apply runs_pure. intros ->.
  eapply runs_queue; [|done]. destruct Hf. by split.
Qed.

Lemma runs_alloc P size :
  runs p h P (cvp_alloc_fence_data size) (λ o i,
    match o with
    | Some l => size <= 4 * Z.of_nat (length l) ∧ 16 <= Z.of_nat (length l)
    | None => True end ∧ P i).
Proof.
  unfold cvp_alloc_fence_data.
  eapply runs_bind; [by apply (runs_ext _ _ _ _ (λ _, P))|]. intros f.
  apply runs_if; intros _; [by apply runs_ret|].
  eapply runs_bind; [by apply (runs_ext _ _ _ _ (λ _, P))|]. intros a.
  apply runs_ret. intros i Hi. split; [|done]. destruct (a =? 0); [done|].
  rewrite length_replicate. unfold msg_session_hdr_ext_bytes.
  set (m := Z.max _ _). pose proof (Z.div_mod (m + 3) 4 ltac:(done)).
  pose proof (Z.mod_pos_bound (m + 3) 4 ltac:(done)). lia.
Qed.

Lemma runs_populate i0 k size type pkt off n idx :
  session_live p h (i_session i0) → cmd k size type pkt → 0 <= k < 2 ^ 63 →
  0 <= size <= 4 * hfi_packet_words → is_u32 type →
  get_pkt_index env_hfi_ver env_cvp_hfi_defs (Some type) = Done idx → 0 <= idx →
  packet_fits pkt off n →
  runs p h (λ i, i = i0) (cvp_populate_fences p pkt off n)
    (λ r i, cmd k size type r.2 ∧ populated i0 r.1 i).
Proof.
  intros Hlive Hc Hk Hsize Ht Hidx Hidx0 Hfit. pose proof (packet_fits_bound _ _ _ Hfit) as Hb.
  destruct Hfit as (_ & Hoff & Hn & _). rewrite Z2Nat.id in Hb by done.
  assert (Hnone : ∀ rc, rc <= 0 → runs p h (λ i, i = i0) (mret (rc, pkt))
    (λ r i, cmd k size type r.2 ∧ populated i0 r.1 i)).
  { intros rc Hrc. apply runs_ret. intros i ->. split; [done|]. by apply populated_none. }
  unfold cvp_populate_fences. apply runs_if; intros _; [by apply Hnone|].
  apply runs_if; intros H16; zify_bool; [by apply Hnone|]. unfold session_hdr_words in H16.
  eapply runs_bind; [apply (runs_word _ _ _ _ _ _ (λ r i, r = type ∧ i = i0) (cmd_type _ _ _ _ Hc)); auto|].
  intros r. apply runs_pure. intros ->.
  pose proof (get_pkt_fenceoverride_ok _ _ _ _ Ht Hidx Hidx0) as Eo. set (ov := def_force_kernel_fence _) in Eo.
  eapply runs_bind; [apply (runs_lift _ _ _ _ _ (λ r i, r = ov ∧ i = i0) Eo); auto|].
  intros r. apply runs_pure. intros ->.
  eapply runs_bind; [apply (runs_word _ _ _ _ _ _ (λ r i, r = size ∧ i = i0) (cmd_size _ _ _ _ Hc)); auto|].
  intros r. apply runs_pure. intros ->.
  eapply runs_bind; [apply runs_alloc|]. intros [fpkt|]; apply runs_pure; [|intros _; by apply Hnone].
  intros [Hf1 Hf2].
  assert (Hsoc : runs p h (λ i, i = i0) (soc_fence p pkt fpkt type off n)
    (λ r i, cmd k size type r.2 ∧ populated i0 r.1 i)).
  { by apply (runs_soc_fence i0 (i_session i0)); auto with lia. }
  assert (Hker : runs p h (λ i, i = i0) (kernel_fence p pkt fpkt type off n)
    (λ r i, cmd k size type r.2 ∧ populated i0 r.1 i)).
  { apply runs_kernel_fence; auto with lia. }
  repeat (apply runs_if; intros _; [done|]). apply runs_if; intros _; [|by apply Hnone].
  by apply runs_if.
Qed.

End populate.
