(* ===== verification/Send.v ===== *)
(** Sending a client's frame command: the command with its buffers mapped is either on its
    way (sent, or queued for the fence threads), or everything is as it was before. *)

From S2P Require Import Prelude Store HfiTypes HfiPacket HfiDefs Driver Local Instance HfiSession.
From S2P Require Import Response Session Smem Buffers BufferView BufferInv BufferCache BufferFrames.
From S2P Require Import SessionBuffers Scenario UserMem Wncc WnccSafe Fences Commands Enqueue FenceSafe Populate.
Open Scope Z_scope.

(** The session's buffers, and the transaction id of its next command. *)
Definition ses_bufs (s : ses) : bufs := x_bufs (z_wncc s).
Definition command_ktid (s : ses) : Z :=
  Z.land (u64 (c_kernel_trans_id (w_core (z_world s)) + 1)) (FENCE_BIT - 1).

(** An instance that counts one more command being sent. *)
Definition sending (i : msm_cvp_inst) : msm_cvp_inst :=
  i <| i_fence_cmd_queue ::= λ q, q <| fq_send_count ::= Z.add 1 |> |>.
Definition unsending (i : msm_cvp_inst) : msm_cvp_inst :=
  i <| i_fence_cmd_queue ::= λ q, q <| fq_send_count ::= Z.add (-1) |> |>.

Lemma unsending_sending i : unsending (sending i) = i.
Proof.
  destruct i. destruct i_fence_cmd_queue. unfold unsending, sending, put_field_to.
  cbn -[Z.add]. do 2 f_equal. lia.
Qed.

Lemma unsending_waiting f i : unsending (add_waiting f (sending i)) = add_waiting f i.
Proof.
  rewrite <- (unsending_sending i) at 2. reflexivity.
Qed.

(** * The session at hand *)
Section sending.
Context `{Env} `{FenceEnv} `{!SynxLaws} `{BufEnv} `{RbLaws} `{!BufLaws} `{UserMem}.
Context (p : Z) (h : iris_hfi_device).

(** The instance is [i], the frames are [fr], [c] is the transaction counter, and every
    buffer is accounted for. *)
Record holds (i : msm_cvp_inst) (fr : list msm_cvp_frame) (c : Z) (s : ses) : Prop := mkHolds {
  ho_inst : inst_at p (z_world s) = Some i;
  ho_hdev : w_hdev (z_world s) = h;
  ho_count : c_kernel_trans_id (w_core (z_world s)) = c;
  ho_bufs : buffers_ok (ses_bufs s);
  ho_frames : b_frames (ses_bufs s) = fr
}.

Lemma each_nil {A} (m : A → U unit) s : each [] m s = Done (tt, s).
Proof. reflexivity. Qed.

Lemma silent_unmaps t : Forall silent t → t ≫= unmaps = [].
Proof. induction 1 as [|c t Hc _ IH]; [done|]. cbn. by rewrite Hc. Qed.

(** Silent operations on the instance. *)
Lemma holds_world {A} i fr c (m : M A) Q :
  runs p h (λ j, j = i) m Q →
  total (holds i fr c) (on_world m) (λ a s, ∃ j, Q a j ∧ holds j fr c s).
Proof.
  intros Hm s [Hi Hh Hc Hb Hf]. destruct (Hm _ _ Hi Hh eq_refl) as (a & j & t & E & St & HQ).
  unfold on_world. rewrite E. cbn [obind fst snd].
  change (w_trace (upd p j (w_trace (z_world s) ++ t) (z_world s))) with (w_trace (z_world s) ++ t).
  rewrite drop_app_length, (silent_unmaps _ St), St_bind_run, each_nil. cbn [obind fst snd].
  eexists a, _. split; [reflexivity|]. exists j. split; [done|]. split.
  - by apply (inst_at_upd_same p i).
  - exact Hh.
  - exact Hc.
  - exact Hb.
  - exact Hf.
Qed.

Lemma holds_get_i i fr c :
  total (holds i fr c) (on_world (get_i p)) (λ j s, j = i ∧ holds i fr c s).
Proof.
  eapply total_post; [apply (holds_world _ _ _ _ (λ a j, a = i ∧ j = i)), runs_get_i; by intros ? ->|].
  by intros a s (j & [-> ->] & Hs).
Qed.

Lemma holds_mod_i i fr c f :
  total (holds i fr c) (on_world (mod_i p f)) (λ _, holds (f i) fr c).
Proof.
  eapply total_post; [apply (holds_world _ _ _ _ (λ _ j, j = f i)), runs_mod_i; by intros ? ->|].
  by intros a s (j & -> & Hs).
Qed.

(** Operations on the buffers. *)
Lemma holds_bufs {A} i fr c (m : B A) (Q : bufs → A → bufs → Prop) :
  (∀ b, buffers_ok b → b_frames b = fr → b_kernel_trans_id b = c →
    ∃ a b', m b = Done (a, b') ∧ buffers_ok b' ∧ Q b a b') →
  total (holds i fr c) (on_bufs m) (λ a s, ∃ b b',
    b_frames b = fr ∧ b_kernel_trans_id b = c ∧ Q b a b' ∧
    holds i (b_frames b') (b_kernel_trans_id b') s).
Proof.
  intros Hm s [Hi Hh Hc Hb Hf]. unfold on_bufs. rewrite Hc.
  destruct (Hm (x_bufs (z_wncc s) <| b_kernel_trans_id := c |>)) as (a & b' & E & Hb' & HQ);
    [exact Hb|exact Hf|done|].
  rewrite E. cbn [obind fst snd]. eexists a, _. split; [reflexivity|].
  exists (x_bufs (z_wncc s) <| b_kernel_trans_id := c |>), b'.
  split; [exact Hf|]. split; [done|]. split; [done|]. by split.
Qed.

Lemma from_run {A} (m : B A) (b : bufs) Q :
  from (view_of b) m Q → ∃ a b', m b = Done (a, b') ∧ Q a (view_of b').
Proof. intros Hm. by apply (Hm b). Qed.

Lemma holds_map_frame i fr c pkt off n :
  packet_fits pkt off n →
  total (holds i fr c) (on_bufs (msm_cvp_map_frame pkt off n)) (λ r s,
    let k := Z.land (u64 (c + 1)) (FENCE_BIT - 1) in
    length r.2 = length pkt ∧ has_kdata k false r.2 ∧ (∀ j, 0 <= j < 8 → word_at r.2 j = word_at pkt j)
    ∧ ∃ fr', holds i fr' (u64 (c + 1)) s ∧
        (fr' = fr ∨ r.1 = 0 ∧ ∃ f, fr_ktid f = k ∧ fr' = fr ++ [f])).
Proof.
  intros Hfit. eapply total_post.
  { apply (holds_bufs _ _ _ _ (λ b r b', mapped b pkt r b')). intros b Hb _ _.
    destruct (from_run _ _ _ (map_frame_ok (view_of b) pkt off n Hb Hfit)) as (r & b' & E & Hb').
    exists r, b'. split; [done|]. split; [done|]. by eapply map_frame_spec. }
  intros r s (b & b' & Hf & Hc & [L K W C F] & Hs). unfold next_id in *.
  rewrite Hc in *. rewrite Hf in F. rewrite C in Hs.
  split; [done|]. split; [done|]. split; [done|]. eexists. split; [exact Hs|done].
Qed.

Lemma holds_unmap_frame i fr c kd :
  total (holds i fr c) (on_bufs (msm_cvp_unmap_frame kd)) (λ _ s,
    holds i (match take_frame (Z.land kd (FENCE_BIT - 1)) fr with
             | Some (_, rest) => rest | None => fr end) c s).
Proof.
  eapply total_post.
  { apply (holds_bufs _ _ _ _ (λ b _ b', b_kernel_trans_id b' = b_kernel_trans_id b ∧
      b_frames b' = match take_frame (Z.land kd (FENCE_BIT - 1)) (b_frames b) with
                    | Some (_, rest) => rest | None => b_frames b end)).
    intros b Hb _ _. destruct (from_run _ _ _ (unmap_frame_ok (view_of b) kd Hb)) as ([] & b' & E & Hb').
    exists tt, b'. split; [done|]. split; [done|]. by eapply unmap_frame_spec. }
  intros [] s (b & b' & Hf & Hc & [K F] & Hs). by rewrite F, K, Hf, Hc in Hs.
Qed.

(** What was sent, or the reason it was not. *)
Definition sent (i : msm_cvp_inst) (fr : list msm_cvp_frame) (k rc : Z) (i' : msm_cvp_inst)
    (fr' : list msm_cvp_frame) : Prop :=
  rc ≠ 0 ∧ i' = i ∧ fr' = fr ∨
  rc = 0 ∧ (fr' = fr ∨ ∃ f, fr_ktid f = k ∧ fr' = fr ++ [f])
         ∧ (i' = i ∨ ∃ f, fence_ok (f_num_fences f) (f_output_index f) f ∧ i' = add_waiting f i).

(** An admitted frame command, not yet mapped. *)
Record admitted (size type : Z) (pkt : list Z) (off n : Z) : Prop := mkAdmitted {
  ad_fits : packet_fits pkt off n;
  ad_size : word_at pkt 0 = Done size;
  ad_range : 0 <= size <= 4 * MAX_HFI_PKT_SIZE;
  ad_type : word_at pkt 1 = Done type;
  ad_u32 : is_u32 type;
  ad_frame : cvp_find_map_type type = MAP_FRAME;
  ad_known : ∃ idx, get_pkt_index env_hfi_ver env_cvp_hfi_defs (Some type) = Done idx ∧ 0 <= idx
}.

(** A command that is not sent: its frame goes, if it has one. *)
Lemma holds_undo i fr fr' c k size type pkt rc :
  cmd k size type pkt → 0 <= k < 2 ^ 63 → (∀ g, g ∈ fr → fr_ktid g ≠ k) →
  fr' = fr ∨ (∃ f, fr_ktid f = k ∧ fr' = fr ++ [f]) →
  total (holds i fr' c) (undo_map MAP_FRAME pkt [] 0 0 rc) (λ r s, r.1 = rc ∧ holds i fr c s).
Proof.
  intros Hc Hk Hnew Hfr. destruct (cmd_kdata _ _ _ _ Hc) as [b Hb].
  destruct (has_kdata_masked _ _ _ Hk Hb) as (kd & Ekd & Hkd).
  assert (Hu : total (holds i fr' c) (on_bufs (msm_cvp_unmap_frame kd)) (λ _, holds i fr c)).
  { eapply total_post; [apply holds_unmap_frame|]. intros [] s. rewrite Hkd.
    destruct Hfr as [->|(f & Ef & ->)]; [by rewrite take_frame_none|by rewrite take_frame_last]. }
  intros s Hs. unfold undo_map. rewrite !St_bind_run. cbn [of_outcome]. unfold of_outcome. rewrite Ekd.
  cbn [obind fst snd]. destruct (Hu s Hs) as ([] & s' & E & Hs'). rewrite St_bind_run, E. cbn [obind fst snd].
  exists (rc, pkt), s'. split; [reflexivity|done].
Qed.

Lemma undo_map_args pkt fds off n rc s :
  undo_map MAP_FRAME pkt fds off n rc s = undo_map MAP_FRAME pkt [] 0 0 rc s.
Proof. reflexivity. Qed.

Lemma holds_enqueue i fr c size type pkt off n :
  session_live p h (i_session i) → admitted size type pkt off n →
  (∀ g, g ∈ fr → fr_ktid g ≠ Z.land (u64 (c + 1)) (FENCE_BIT - 1)) →
  total (holds i fr c) (enqueue_counted p pkt off n) (λ r s, ∃ i' fr',
    sent i fr (Z.land (u64 (c + 1)) (FENCE_BIT - 1)) r.1 i' fr' ∧ holds i' fr' (u64 (c + 1)) s).
Proof.
  intros Hlive [Hfit Es Hsize Et Ht Hmap (idx & Hidx & Hidx0)].
  set (k := Z.land _ _). intros Hnew.
  assert (Hk : 0 <= k < 2 ^ 63).
  { unfold k, FENCE_BIT. change (2 ^ 63 - 1) with (Z.ones 63). rewrite Z.land_ones by lia.
    by apply Z.mod_pos_bound. }
  unfold enqueue_counted. eapply total_bind.
  { eapply (total_of_outcome _ _ _ (λ t s, t = type ∧ holds i fr c s)); [exact Et|auto]. }
  intros t. apply total_pure. intros ->. rewrite Hmap. cbn [map_buffers].
  set (c' := u64 (c + 1)) in *.
  set (Mapped := λ (x : Z * list Z * list Z) (s : ses), x.2 = [] ∧ cmd k size type x.1.2 ∧
    ∃ fr', (fr' = fr ∨ x.1.1 = 0 ∧ ∃ f, fr_ktid f = k ∧ fr' = fr ++ [f]) ∧ holds i fr' c' s).
  eapply (total_bind _ _ Mapped).
  { eapply total_bind; [by apply holds_map_frame|]. intros r. apply total_ret.
    intros s (L & K & W & fr' & Hs & Hfr). split; [done|]. split; [|by exists fr'].
    cbn [fst snd]. split; [by rewrite L, (proj1 Hfit)|by rewrite W|by rewrite W|by exists false]. }
  intros [[rc pkt1] fds]. apply total_pure. cbn [snd fst]. intros ->. apply total_pure. intros Hc1.
  apply total_ex. intros fr1. apply total_pure. intros Hfr1.
  apply total_if; intros Hrc; zify_bool.
  { apply total_ret. intros s Hs. destruct Hfr1 as [->|[? _]]; [|done].
    exists i, fr. split; [by left|done]. }
  assert (Hfr : fr1 = fr ∨ ∃ f, fr_ktid f = k ∧ fr1 = fr ++ [f]) by (destruct Hfr1 as [|[_ ?]]; auto).
  assert (Hundo : ∀ pkt' rc', cmd k size type pkt' → rc' ≠ 0 →
    total (holds i fr1 c') (undo_map MAP_FRAME pkt' [] off n rc')
      (λ r s, ∃ i' fr', sent i fr k r.1 i' fr' ∧ holds i' fr' c' s)).
  { intros pkt' rc' Hc' Hrc'. eapply total_post; [by eapply (holds_undo i fr fr1)|].
    intros r s [Er Hs]. exists i, fr. rewrite Er. split; [by left|done]. }
  assert (Hfit1 : packet_fits pkt1 off n).
  { destruct Hfit as (_ & ?). split; [apply (cmd_length _ _ _ _ Hc1)|done]. }
  unfold MAX_HFI_PKT_SIZE in *.
  eapply total_bind; [eapply holds_world, (runs_populate p h i k size type _ _ _ idx); try done|].
  { unfold hfi_packet_words, MAX_HFI_PKT_SIZE. lia. }
  intros [rc1 pkt2]. apply total_ex. intros j. cbn [fst snd].
  apply total_pure. intros [Hc2 Hpop]. apply total_if; intros Hrc1; zify_bool.
  - destruct Hpop as [[_ ->]|(f & out & Hf & _)]; [|destruct (fo_bound _ _ _ Hf); lia].
    eapply total_bind; [apply holds_get_i|]. intros j. apply total_pure. intros ->.
    eapply total_bind.
    { eapply holds_world, (runs_session_send p h (λ j, j = i)); [done|exact Hc2|].
      unfold hfi_packet_words, MAX_HFI_PKT_SIZE; lia. }
    intros [rc2 pkt3]. apply total_ex. intros j. cbn [fst snd].
    apply total_pure. intros (Hrc2 & Hc3 & ->). apply total_if; intros Hrc3; zify_bool; [|by apply Hundo].
    apply total_ret. intros s Hs. exists i, fr1. split; [|done]. right. auto.
  - apply total_if; intros Hpos; zify_bool.
    + destruct Hpop as [[? _]|(f & out & Hf & ->)]; [lia|].
      apply total_ret. intros s Hs. eexists _, fr1. split; [|exact Hs]. right.
      split; [done|]. split; [done|]. right. exists f. split; [|done].
      by rewrite (fo_num _ _ _ Hf), (fo_out _ _ _ Hf).
    + destruct Hpop as [[_ ->]|(f & out & Hf & _)]; [by apply Hundo|].
      destruct (fo_bound _ _ _ Hf). lia.
Qed.

End sending.

(** * Theorem *)
Section theorem.
Context `{Env} `{FenceEnv} `{!SynxLaws} `{BufEnv} `{RbLaws} `{!BufLaws} `{UserMem}.

Lemma admitted_masked size type pkt off n pkt' :
  words_write pkt 8 [0; 0] = Done pkt' → admitted size type pkt off n → admitted size type pkt' off n.
Proof.
  intros E [(L & Hfit) Es Hr Et Hu Hm Hk]. destruct (write_same_below _ _ _ _ E) as [L' W].
  split; [split; [lia|done]|by rewrite W|done|by rewrite W|done..].
Qed.

(** C17. A frame command that was admitted, of a session that is not draining, either gets on
    its way - with at most one new frame, tagged with the command's transaction id, and with
    at most one new command for the fence threads, whose handles are within its array - or
    fails and leaves the frames and the instance exactly as they were; in both cases the
    call completes without touching memory outside the packet, its fence arrays or its copy,
    and every buffer stays accounted for. *)
Theorem enqueue_all_or_nothing (p size type off n : Z) (pkt : list Z) (i : msm_cvp_inst) (s : ses) :
  inst_at p (z_world s) = Some i →
  session_live p (w_hdev (z_world s)) (i_session i) →
  fq_mode (i_fence_cmd_queue i) ≠ OP_DRAINING →
  buffers_ok (ses_bufs s) →
  (∀ g, g ∈ b_frames (ses_bufs s) → fr_ktid g ≠ command_ktid s) →
  admitted size type pkt off n →
  ∃ rc pkt' s' i', cvp_enqueue_pkt p pkt off n s = Done (rc, pkt', s') ∧ inst_at p (z_world s') = Some i'
    ∧ buffers_ok (ses_bufs s')
    ∧ sent i (b_frames (ses_bufs s)) (command_ktid s) rc i' (b_frames (ses_bufs s')).
Proof.
  intros Hi Hlive Hmode Hb Hnew Had. set (h := w_hdev (z_world s)) in *.
  set (fr := b_frames _) in *. set (c := c_kernel_trans_id (w_core (z_world s))).
  fold (command_ktid s). set (k := command_ktid s) in *.
  assert (Hs : holds p h i fr c s) by by split.
  enough (Ht : total (holds p h i fr c) (cvp_enqueue_pkt p pkt off n)
    (λ (r : Z * list Z) s', ∃ i' fr', sent i fr k r.1 i' fr' ∧ holds p h i' fr' (c_kernel_trans_id (w_core (z_world s'))) s')).
  { destruct (Ht s Hs) as ([rc pkt'] & s' & E & i' & fr' & Hsent & Hs').
    exists rc, pkt', s', i'. rewrite (ho_frames _ _ _ _ _ _ Hs').
    split; [done|]. split; [by eapply ho_inst|]. split; [by eapply ho_bufs|done]. }
  assert (Hstop : ∀ rc pkt', rc ≠ 0 → total (holds p h i fr c) (mret (rc, pkt'))
    (λ (r : Z * list Z) s', ∃ i' fr', sent i fr k r.1 i' fr' ∧ holds p h i' fr' (c_kernel_trans_id (w_core (z_world s'))) s')).
  { intros rc pkt' Hrc. apply total_ret. intros s1 Hs1. exists i, fr. split; [by left|].
    by rewrite (ho_count _ _ _ _ _ _ Hs1). }
  unfold cvp_enqueue_pkt. apply total_if; intros _; [by apply Hstop|].
  destruct (words_write_done2 pkt 8 [0; 0]) as (pkt1 & E1 & L1);
    [done|rewrite (proj1 (ad_fits _ _ _ _ _ Had)); done|].
  eapply total_bind.
  { eapply (total_of_outcome _ _ _ (λ x s, x = pkt1 ∧ holds p h i fr c s)); [exact E1|auto]. }
  intros x. apply total_pure. intros ->.
  eapply total_bind; [apply holds_get_i|]. intros j. apply total_pure. intros ->.
  rewrite bool_decide_eq_false_2 by done.
  eapply total_bind; [apply holds_mod_i|]. intros [].
  change (i <| i_fence_cmd_queue ::= _ |>) with (sending i).
  eapply total_bind.
  { apply (holds_enqueue p h (sending i) fr c size type pkt1 off n); [exact Hlive| |exact Hnew].
    by eapply admitted_masked. }
  intros [rc pkt2]. apply total_ex. intros i1. apply total_ex. intros fr1. apply total_pure. intros Hsent.
  eapply total_bind; [apply holds_mod_i|]. intros []. apply total_ret. intros s1 Hs1.
  exists (unsending i1), fr1. rewrite (ho_count _ _ _ _ _ _ Hs1). split; [|exact Hs1].
  cbn [fst] in *. destruct Hsent as [(Hrc & -> & ->)|(-> & Hfr & Hq)].
  - left. by rewrite unsending_sending.
  - right. split; [done|]. split; [exact Hfr|].
    destruct Hq as [->|(f & Hf & ->)]; [left; apply unsending_sending|right].
    exists f. by rewrite unsending_waiting.
Qed.

End theorem.

(** * A client that sends a frame *)
Module SendScenario.

#[local] Existing Instances WnccScenario.mem BufferScenario.env BufferScenario.env_laws
  BufferScenario.tree BufferScenario.tree_laws.

#[local] Instance driver : Env := small_env no_call Scenario.silent.

(** Kernel fences are on. *)
#[local] Instance fences : FenceEnv := {|
  SYNX_STATE_SIGNALED_SUCCESS := 2;
  SYNX_STATE_SIGNALED_CANCEL := 4;
  cvp_kernel_fence_enabled := 1
|}.

#[local] Instance synx : SynxLaws.
Proof. split. intros n h. reflexivity. Qed.

(** A session that has been created, with no buffers. *)
Definition start : ses :=
  mkSes (world_with MSM_CVP_OPEN_DONE CVP_CORE_INIT_DONE true)
    (mkWs BufferScenario.start ∅ ∅ 0 false 0).

(** A frame of two buffers: the second has an input and an output fence. *)
Definition buffer (fd size inp outp : Z) : list Z := [fd; size; 0; 0; 0; 0; 3; inp; outp; 0; 0; 0].
Definition frame : list Z :=
  [160; 0x1203003; 0x7FFF0000] ++ replicate 13 0 ++ buffer 8 2048 0 0 ++ buffer 9 2048 51 52
  ++ replicate 562 0.

Lemma enqueue_all_or_nothing_witness :
  ∃ pkt' s' f g i', cvp_enqueue_pkt 64 frame 16 2 start = Done (0, pkt', s')
    ∧ b_frames (ses_bufs s') = [f] ∧ fr_ktid f = 513
    ∧ inst_at 64 (z_world s') = Some i' ∧ i' = add_waiting g (client MSM_CVP_OPEN_DONE 4096)
    ∧ f_num_fences g = 2.
Proof.
  destruct (enqueue_all_or_nothing 64 160 0x1203003 16 2 frame (client MSM_CVP_OPEN_DONE 4096) start)
    as (rc & pkt' & s' & i' & E & Hi & _ & Hsent).
  - reflexivity.
  - right. exists (mkHs 64 true). split; [reflexivity|by right].
  - done.
  - by apply new_session_ok.
  - intros g Hg. by apply elem_of_nil in Hg.
  - split; [by vm_compute|done|done|done|done|done|]. eexists. split; [by vm_compute|done].
  - assert (Hrun : (λ r : Z * list Z * ses, (r.1.1, length (b_frames (ses_bufs r.2)),
        (λ i, f_num_fences <$> fq_wait_list (i_fence_cmd_queue i)) <$> inst_at 64 (z_world r.2)))
      <$> (match cvp_enqueue_pkt 64 frame 16 2 start with Done r => Some r | Fault => None end)
      = Some (0, 1%nat, Some [2])) by by vm_compute.
    rewrite E in Hrun. cbn [fmap option_fmap option_map fst snd] in Hrun. rewrite Hi in Hrun.
    injection Hrun as -> Hlen Hq.
    destruct Hsent as [[Hrc _]|(_ & [Hf|(f & Hk & Hf)] & Hi')].
    + by destruct Hrc.
    + rewrite Hf in Hlen. discriminate Hlen.
    + destruct Hi' as [->|(g & Hg & ->)]; [discriminate Hq|].
      exists pkt', s', f, g, (add_waiting g (client MSM_CVP_OPEN_DONE 4096)).
      split; [exact E|]. split; [exact Hf|]. split; [rewrite Hk; vm_compute; reflexivity|]. split; [exact Hi|].
      split; [reflexivity|]. by injection Hq.
Defined.

End SendScenario.
