(* ===== verification/Deliver.v ===== *)
(** Delivering a message to the waiting client or fence thread: the oldest message, or the
    oldest one of the transaction that is waited for. *)

From S2P Require Import Prelude Store HfiTypes HfiPacket HfiDefs Driver Local Instance HfiSession.
From S2P Require Import Response Session Smem Buffers BufferView BufferInv BufferCache BufferFrames.
From S2P Require Import SessionBuffers Scenario UserMem Wncc WnccSafe Fences Commands Enqueue FenceSafe Populate Send.
Open Scope Z_scope.

(** * The choice of a message *)

(** [m] is the first message of [l], or the first one of transaction [k]; [l'] is what is
    left, in order. *)
Definition picks (ktid : option Z) (l : list (list Z)) (m : list Z) (l' : list (list Z)) : Prop :=
  ∃ pre post, l = pre ++ m :: post ∧ l' = pre ++ post ∧
    match ktid with
    | None => pre = []
    | Some k => kdata_of m = Done k ∧ ∀ x, x ∈ pre → kdata_of x ≠ Done k
    end.

(** The words of a message that are copied out. *)
Definition out_words `{Env} (m : list Z) : Z :=
  if env_hfi_ver =? 1 then 15
  else match word_at m 1 with
       | Done t => if t =? HFI_MSG_SESSION_CVP_RELEASE_BUFFERS then 15 else 17
       | Fault => 17
       end.

(** A message as [hfi_process_session_cvp_msg] stores it. *)
Definition msg_ok `{Env} (m : list Z) : Prop := 10 <= out_words m <= Z.of_nat (length m).

Section choice.
Context `{Env}.

Lemma kdata_of_ok m : 10 <= Z.of_nat (length m) → ∃ k, kdata_of m = Done k.
Proof.
  intros. unfold kdata_of. rewrite !word_at_ok by lia. cbn [obind]. eauto.
Qed.

Lemma take_msg_picks k l m l' :
  Forall msg_ok l → picks (Some k) l m l' → take_msg k l = Done (Some (m, l')).
Proof.
  intros Hok (pre & post & -> & -> & Hk & Hpre). revert Hok Hpre.
  induction pre as [|x pre IH]; cbn [app take_msg]; intros Hok Hpre.
  { rewrite Hk. cbn [obind]. by rewrite Z.eqb_refl. }
  apply Forall_cons_1 in Hok as [Hx Hok]. destruct (kdata_of_ok x) as [k' Ek]; [destruct Hx; lia|].
  rewrite Ek. cbn [obind]. destruct (Z.eqb_spec k k') as [<-|].
  { exfalso. apply (Hpre x); [left|exact Ek]. }
  rewrite IH; [done|done|]. intros y Hy. apply Hpre. by right.
Qed.

Lemma picks_in ktid l m l' : picks ktid l m l' → m ∈ l.
Proof. intros (pre & post & -> & _). set_solver. Qed.

Lemma runs_msg_words p h P m :
  msg_ok m → runs p h P (msg_words m) (λ n i, n = out_words m ∧ P i).
Proof.
  intros [Hn Hl]. unfold msg_words, out_words in *. destruct (env_hfi_ver =? 1); [by apply runs_ret|].
  assert (E1 : word_at m 1 = Done (m !!! 1%nat)).
  { apply word_at_ok. destruct (word_at m 1) as [t|]; [destruct (t =? _)|]; lia. }
  rewrite E1. unfold get_msg_size.
  eapply (runs_bind _ _ _ _ (λ n j, n = (if m !!! 1%nat =? HFI_MSG_SESSION_CVP_RELEASE_BUFFERS
    then 60 else 68) ∧ P j)).
  { eapply runs_bind; [apply (runs_word _ _ _ _ _ _ (λ t i, t = m !!! 1%nat ∧ P i) E1); auto|].
    intros t. apply runs_pure. intros ->. by apply runs_ret. }
  intros n. apply runs_pure. intros ->. apply runs_ret. intros i Hi. split; [|done].
  by destruct (_ =? HFI_MSG_SESSION_CVP_RELEASE_BUFFERS).
Qed.

Lemma runs_pending p h i fenced ktid m l :
  sq_state (get_sq fenced i) ≠ QUEUE_INIT → sq_state (get_sq fenced i) ≠ QUEUE_INVALID →
  Forall msg_ok (sq_msgs (get_sq fenced i)) → picks ktid (sq_msgs (get_sq fenced i)) m l →
  runs p h (λ j, j = i) (wait_msg p fenced ktid)
    (λ r j, r = (true, Some m) ∧ j = mod_sq fenced (pop_msg l) i).
Proof.
  intros Hs1 Hs2 Hok Hp. unfold wait_msg.
  assert (Hpop : runs p h (λ j, j = i) (mod_i p (mod_sq fenced (pop_msg l)) ;; mret (true, Some m))
    (λ r j, r = (true, Some m) ∧ j = mod_sq fenced (pop_msg l) i)).
  { eapply runs_bind; [by apply (runs_mod_i _ _ _ _ (λ _ j, j = mod_sq fenced (pop_msg l) i)); intros ? ->|].
    intros []. by apply runs_ret. }
  eapply (runs_bind _ _ _ _ (λ r j, r = (true, Some m) ∧ j = mod_sq fenced (pop_msg l) i)).
  2: { intros r. apply runs_pure. intros ->. by apply runs_ret. }
  unfold cvp_msg_pending.
  eapply runs_bind; [by apply (runs_get_i _ _ _ (λ a j, a = i ∧ j = i)); intros ? ->|].
  intros a. apply runs_pure. intros ->. cbv zeta.
  rewrite !bool_decide_eq_false_2 by done. cbn [orb].
  pose proof (picks_in _ _ _ _ Hp) as Hin.
  destruct (sq_msgs (get_sq fenced i)) as [|x rest] eqn:El; [by apply elem_of_nil in Hin|].
  destruct ktid as [k|].
  - eapply runs_bind; [apply (runs_lift _ _ _ _ _ (λ a j, a = Some (m, l) ∧ j = i)
      (take_msg_picks _ _ _ _ Hok Hp)); auto|].
    intros a. apply runs_pure. intros ->. exact Hpop.
  - destruct Hp as (pre & post & E & -> & ->). cbn in E. injection E as <- <-. exact Hpop.
Qed.

End choice.

(** * Theorem *)
Section theorem.
Context `{Env} `{FenceEnv} `{BufEnv} `{RbLaws} `{!BufLaws} `{UserMem}.

(** The frames after the message of transaction [kd] has been delivered. *)
Definition frames_after (kd : Z) (fr : list msm_cvp_frame) : list msm_cvp_frame :=
  if kd >=? MAX_PKT_IDX then
    match take_frame (Z.land kd (FENCE_BIT - 1)) fr with Some (_, rest) => rest | None => fr end
  else fr.

(** C18. Waiting on an active queue that has a matching message delivers the oldest one (of
    the transaction, where one is asked for): its words are copied to the front of the
    client's packet, it leaves the queue with the other messages in order and the count one
    lower, the frame of its transaction is unmapped, and nothing else of the instance or
    the buffers changes. *)
Theorem message_delivered (p kd : Z) (fenced : bool) (ktid : option Z) (out m : list Z)
    (l : list (list Z)) (i : msm_cvp_inst) (s : ses) :
  inst_at p (z_world s) = Some i →
  sq_state (get_sq fenced i) ≠ QUEUE_INIT → sq_state (get_sq fenced i) ≠ QUEUE_INVALID →
  Forall msg_ok (sq_msgs (get_sq fenced i)) → picks ktid (sq_msgs (get_sq fenced i)) m l →
  kdata_of m = Done kd → out_words m <= Z.of_nat (length out) → buffers_ok (ses_bufs s) →
  ∃ s', cvp_wait_process_message p fenced ktid out s
      = Done ((0, take (Z.to_nat (out_words m)) m ++ drop (Z.to_nat (out_words m)) out), s')
    ∧ inst_at p (z_world s') = Some (mod_sq fenced (pop_msg l) i)
    ∧ buffers_ok (ses_bufs s')
    ∧ b_frames (ses_bufs s') = frames_after kd (b_frames (ses_bufs s)).
Proof.
  intros Hi Hs1 Hs2 Hok Hp Hkd Hout Hb.
  pose proof (picks_in _ _ _ _ Hp) as Hin. pose proof (proj1 (list.Forall_forall _ _) Hok m Hin) as Hm.
  set (h := w_hdev (z_world s)). set (fr := b_frames _).
  set (c := c_kernel_trans_id (w_core (z_world s))). set (n := out_words m) in *.
  set (out' := take (Z.to_nat n) m ++ drop (Z.to_nat n) out). set (j := mod_sq _ _ i).
  assert (Hs : holds p h i fr c s) by by split.
  enough (Ht : total (holds p h i fr c) (cvp_wait_process_message p fenced ktid out)
    (λ r s', r = (0, out') ∧ holds p h j (frames_after kd fr) c s')).
  { destruct (Ht s Hs) as (r & s' & E & -> & [Hi' _ _ Hb' Hf']). eauto. }
  unfold cvp_wait_process_message.
  eapply total_bind; [by eapply holds_world, runs_pending|]. intros r. apply total_ex. intros j'.
  apply total_pure. intros [-> ->]. cbn [fst snd negb]. fold j.
  eapply total_bind; [eapply holds_world, (runs_msg_words _ _ (λ x, x = j)); exact Hm|].
  intros n'. apply total_ex. intros j'. apply total_pure. intros [-> ->]. fold n.
  destruct Hm as [Hn Hl]. fold n in Hn, Hl.
  assert (Er : words_read m 0 n = Done (take (Z.to_nat n) m)).
  { rewrite words_read_ok by lia. by rewrite drop_0. }
  eapply total_bind.
  { eapply (total_of_outcome _ _ _ (λ x s, x = take (Z.to_nat n) m ∧ holds p h j fr c s)); [exact Er|auto]. }
  intros x. apply total_pure. intros ->.
  assert (Ew : words_write out 0 (take (Z.to_nat n) m) = Done out').
  { rewrite words_write_ok by (rewrite ?length_take; lia). unfold out'.
    rewrite length_take, Nat.min_l by lia. done. }
  eapply total_bind.
  { eapply (total_of_outcome _ _ _ (λ x s, x = out' ∧ holds p h j fr c s)); [exact Ew|auto]. }
  intros x. apply total_pure. intros ->.
  eapply total_bind.
  { eapply (total_of_outcome _ _ _ (λ x s, x = kd ∧ holds p h j fr c s)); [exact Hkd|auto]. }
  intros x. apply total_pure. intros ->. unfold frames_after.
  eapply (total_bind _ _ (λ _, holds p h j (if kd >=? MAX_PKT_IDX then _ else fr) c)).
  { apply total_whenS; [|by intros s1 ->]. intros ->. apply holds_unmap_frame. }
  intros []. apply total_ret. auto.
Qed.

End theorem.

(** * A fence thread that waits *)
Module DeliverScenario.

#[local] Existing Instances WnccScenario.mem BufferScenario.env BufferScenario.env_laws
  BufferScenario.env_iova BufferScenario.tree BufferScenario.tree_laws.
#[local] Instance driver : Env := small_env no_call Scenario.silent.

(** The answers to transactions 600 and 513. *)
Definition answer_to (k : Z) : list Z := [68; 0x2203003; 0x7FFF0000; 0; 0; 0; 0; 0; k; 0] ++ replicate 7 0.

Definition waiting : msm_cvp_inst :=
  client MSM_CVP_OPEN_DONE 4096 <| i_session_queue := mkSq QUEUE_ACTIVE 2 [answer_to 600; answer_to 513] |>.

(** A session with the frame of transaction 513 in flight. *)
Definition flying : bufs :=
  match run_op (Map_frame BufferScenario.packet 16 2) (new_session ∅ 0 0x200 []) with
  | Done (_, s) => s | Fault => new_session ∅ 0 0 []
  end.

Definition start : ses :=
  mkSes (put_i 64 (λ _, waiting) (world_with MSM_CVP_OPEN_DONE CVP_CORE_INIT_DONE true))
    (mkWs flying ∅ ∅ 0 false 0).

Lemma flying_ok : buffers_ok flying.
Proof.
  unfold flying. destruct (run_op_ok (Map_frame BufferScenario.packet 16 2) (new_session ∅ 0 0x200 []))
    as (s & -> & Hs); [by apply new_session_ok|by vm_compute|done].
Qed.

Lemma message_delivered_witness :
  length (b_frames (ses_bufs start)) = 1%nat ∧
  ∃ s', cvp_wait_process_message 64 false (Some 513) (replicate 20 7) start
      = Done ((0, answer_to 513 ++ [7; 7; 7]), s')
    ∧ (λ i, sq_msgs (i_session_queue i)) <$> inst_at 64 (z_world s') = Some [answer_to 600]
    ∧ b_frames (ses_bufs s') = [].
Proof.
  split; [by vm_compute|].
  destruct (message_delivered 64 513 false (Some 513) (replicate 20 7) (answer_to 513) [answer_to 600]
    waiting start) as (s' & E & Hi & _ & Hf).
  - reflexivity.
  - discriminate.
  - discriminate.
  - apply Forall_cons_2; [by split; vm_compute|]. apply Forall_cons_2; [by split; vm_compute|].
    apply Forall_nil_2.
  - exists [answer_to 600], []. split; [reflexivity|]. split; [reflexivity|]. split; [reflexivity|].
    intros x Hx. apply list_elem_of_singleton in Hx as ->. discriminate.
  - reflexivity.
  - by vm_compute.
  - exact flying_ok.
  - exists s'. split; [exact E|]. split; [by rewrite Hi|]. rewrite Hf. by vm_compute.
Defined.

End DeliverScenario.
