(* ===== verification/Ioctl.v ===== *)
(** The ioctl of a client (src/msm/eva/msm_cvp_ioctl.c): its argument copied from the
    client's memory, the system call, and the answer copied back.

    User addresses are words from the start of the client's [struct eva_kmd_arg]: the type,
    the offset and number of buffers, a word of padding, and the union from word 4 on.  The
    64-bit members ([oob_buf], [frame_id]) are two words, which are fetched one after the
    other; the client may change its memory before each of them. *)

From S2P Require Import Prelude Store HfiTypes HfiDefs Driver UserMem.
Open Scope Z_scope.

(** * Data *)

Definition EVA_KMD_CMD_START : Z := 0x10001000.
Definition EVA_KMD_GET_SESSION_INFO : Z := EVA_KMD_CMD_START + 1.
Definition EVA_KMD_REGISTER_BUFFER : Z := EVA_KMD_CMD_START + 3.
Definition EVA_KMD_UNREGISTER_BUFFER : Z := EVA_KMD_CMD_START + 4.
Definition EVA_KMD_UPDATE_POWER : Z := EVA_KMD_CMD_START + 17.
Definition EVA_KMD_SEND_CMD_PKT : Z := EVA_KMD_CMD_START + 64.
Definition EVA_KMD_RECEIVE_MSG_PKT : Z := EVA_KMD_CMD_START + 65.
Definition EVA_KMD_SET_SYS_PROPERTY : Z := EVA_KMD_CMD_START + 66.
Definition EVA_KMD_GET_SYS_PROPERTY : Z := EVA_KMD_CMD_START + 67.
Definition EVA_KMD_SESSION_CONTROL : Z := EVA_KMD_CMD_START + 68.
Definition EVA_KMD_SEND_FENCE_CMD_PKT : Z := EVA_KMD_CMD_START + 69.
Definition EVA_KMD_FLUSH_ALL : Z := EVA_KMD_CMD_START + 70.
Definition EVA_KMD_FLUSH_FRAME : Z := EVA_KMD_CMD_START + 71.

Definition MAX_KMD_PROP_NUM_PER_PACKET : Z := 64.
Definition MAX_FENCE_DATA_SIZE : Z := 64 + 6.

(** Words of [union eva_data_t], and where they start in [struct eva_kmd_arg]. *)
Definition data_words : nat := 672.
Definition up_data : Z := 4.

(** Word offsets in the union: [oob_buf] of a packet; [fence_data], [oob_buf] of a synx
    packet; [frame_id] of a fence packet. *)
Definition hfi_oob : Z := MAX_HFI_PKT_SIZE.
Definition fence_data : Z := MAX_HFI_PKT_SIZE.
Definition synx_oob : Z := fence_data + MAX_FENCE_DATA_SIZE.
Definition fence_frame_id : Z := MAX_HFI_PKT_SIZE + 64.

(** [struct eva_kmd_arg]. *)
Record eva_kmd_arg := mkArg {
  a_type : Z;
  a_buf_offset : Z;
  a_buf_num : Z;
  a_data : list Z
}.

#[global] Instance eta_arg : Eta eva_kmd_arg :=
  λ r, mkArg (a_type r) (a_buf_offset r) (a_buf_num r) (a_data r).

(** Whether the [n]-th store, to word [a], succeeds. *)
Class UserOut := store_ok : nat → Z → bool.

(** A component that stores keeps what it has stored. *)
Class Stores (S : Type) := {
  stored : S → list (Z * Z);
  record_store : Z * Z → S → S
}.

(** [get_msg_size], by the type of the message. *)
Definition msg_bytes (packet_type : Z) : Z :=
  if packet_type =? HFI_MSG_SESSION_CVP_RELEASE_BUFFERS then 60 else 68.

(** * Operations *)
Section operations.
Context `{Env} `{UserMem} `{UserOut} {S : Type} `{Fetches S} `{Stores S}.

Definition put_user (v a : Z) : St S bool :=
  l ← gets stored;
  if store_ok (length l) a then modify (record_store (a, v)) ;; mret true else mret false.

(** [get_user] of the word at [a] of the union into word [k] of the kernel's copy: the error
    code and the copy. *)
Definition get_word (k a : Z) (kp : eva_kmd_arg) : St S (Z * eva_kmd_arg) :=
  o ← get_user (up_data + a);
  match o with
  | None => mret (- EFAULT, kp)
  | Some x =>
      l ← of_outcome (words_write (a_data kp) k [x]);
      mret (0, kp <| a_data := l |>)
  end.

(** The words at the offsets [l], up to the first that fails. *)
Fixpoint get_words (l : list Z) (kp : eva_kmd_arg) : St S (Z * eva_kmd_arg) :=
  match l with
  | [] => mret (0, kp)
  | a :: l' =>
      '(rc, kp) ← get_word a a kp;
      if rc =? 0 then get_words l' kp else mret (rc, kp)
  end.

(** [put_user] of word [a] of the copy. *)
Definition put_word (a : Z) (kp : eva_kmd_arg) : St S Z :=
  v ← of_outcome (word_at (a_data kp) a);
  ok ← put_user v (up_data + a);
  mret (if ok : bool then 0 else - EFAULT).

Fixpoint put_words (l : list Z) (kp : eva_kmd_arg) : St S Z :=
  match l with
  | [] => mret 0
  | a :: l' =>
      rc ← put_word a kp;
      if rc =? 0 then put_words l' kp else mret rc
  end.

(** Loop bounds as the C loops have them: words [start] to [start + n - 1] of an array of
    [len] words that begins at [base]. *)
Definition array_words (base len start n : Z) : outcome (list Z) :=
  if (start + n <=? len) || (n =? 0) then Done (Z.add base <$> seqZ start n) else Fault.

(** ** From the client *)

(** [_get_pkt_hdr_from_user]: the error code, and the size and type. *)
Definition _get_pkt_hdr_from_user : St S (Z * Z * Z) :=
  o ← get_user up_data;
  match o with
  | None => mret (- EFAULT, 0, 0)
  | Some size =>
      o ← get_user (up_data + 1);
      match o with
      | None => mret (- EFAULT, 0, 0)
      | Some packet_type =>
          idx ← of_outcome (get_pkt_index env_hfi_ver env_cvp_hfi_defs (Some packet_type));
          if idx <? 0 then mret (0, msg_bytes packet_type, packet_type)
          else if size >? MAX_HFI_PKT_SIZE * 4 then mret (- EINVAL, size, packet_type)
          else mret (0, size, packet_type)
      end
  end.

Definition _get_fence_pkt_hdr_from_user : St S (Z * Z * Z) :=
  o ← get_user up_data;
  match o with
  | None => mret (- EFAULT, 0, 0)
  | Some size =>
      o ← get_user (up_data + 1);
      match o with
      | None => mret (- EFAULT, 0, 0)
      | Some packet_type =>
          mret (if size >? MAX_HFI_PKT_SIZE * 4 then - EINVAL else 0, size, packet_type)
      end
  end.

(** Runs the second step when the first returned 0. *)
Definition then_words (r : Z * eva_kmd_arg) (m : eva_kmd_arg → St S (Z * eva_kmd_arg)) :
    St S (Z * eva_kmd_arg) :=
  if r.1 =? 0 then m r.2 else mret r.

Definition _copy_pkt_from_user (start size : Z) (kp : eva_kmd_arg) : St S (Z * eva_kmd_arg) :=
  l ← of_outcome (array_words 0 MAX_HFI_PKT_SIZE start size);
  r ← get_words l kp;
  then_words r (get_words [hfi_oob; hfi_oob + 1]).

Definition _copy_synx_data_from_user (kp : eva_kmd_arg) : St S (Z * eva_kmd_arg) :=
  r ← get_words (Z.add fence_data <$> seqZ 0 MAX_FENCE_DATA_SIZE) kp;
  then_words r (get_words [synx_oob; synx_oob + 1]).

Definition _copy_fence_data_from_user_deprecate (kp : eva_kmd_arg) : St S (Z * eva_kmd_arg) :=
  r ← get_words (Z.add fence_data <$> seqZ 0 64) kp;
  then_words r (get_words [fence_frame_id; fence_frame_id + 1]).

Definition _copy_fence_pkt_from_user (kp : eva_kmd_arg) : St S (Z * eva_kmd_arg) :=
  r ← get_words (seqZ 0 MAX_HFI_PKT_SIZE) kp;
  then_words r (λ kp,
    r ← get_words [fence_data] kp;
    then_words r (λ kp,
      w ← of_outcome (word_at (a_data kp) fence_data);
      if w =? 0xFEEDFACE then _copy_synx_data_from_user kp
      else _copy_fence_data_from_user_deprecate kp)).

Definition _copy_frameid_from_user : eva_kmd_arg → St S (Z * eva_kmd_arg) := get_words [0; 1].

Definition _copy_sysprop_from_user (kp : eva_kmd_arg) : St S (Z * eva_kmd_arg) :=
  r ← get_words [0] kp;
  then_words r (λ kp,
    prop_num ← of_outcome (word_at (a_data kp) 0);
    if (prop_num <? 1) || (prop_num >? MAX_KMD_PROP_NUM_PER_PACKET) then mret (- EFAULT, kp)
    else _copy_pkt_from_user 1 (prop_num * 2) kp).

Definition _get_session_ctrl_from_user : eva_kmd_arg → St S (Z * eva_kmd_arg) :=
  get_words (seqZ 0 9).

Definition _get_session_info_from_user : eva_kmd_arg → St S (Z * eva_kmd_arg) :=
  get_words (seqZ 0 11).

(** A buffer's type is fetched before its index, which comes first in memory. *)
Definition buffer_words : list Z := [1; 0; 2; 3; 4; 5; 6; 7; 8; 9; 10; 11].

(** [print_hfi_short] fetches what it prints. *)
Fixpoint fetch_all (l : list Z) : St S unit :=
  match l with
  | [] => mret tt
  | a :: l' => o ← get_user a; match o with None => mret tt | Some _ => fetch_all l' end
  end.

Definition print_hfi_short : St S unit := fetch_all [0; 1; 2; up_data; up_data + 1].

Definition faults (r : Z * eva_kmd_arg) : Z * eva_kmd_arg :=
  (if r.1 =? 0 then 0 else - EFAULT, r.2).

Definition convert_data_from_user (kp : eva_kmd_arg) : St S (Z * eva_kmd_arg) :=
  let t := a_type kp in
  if t =? EVA_KMD_GET_SESSION_INFO then r ← _get_session_info_from_user kp; mret (faults r)
  else if (t =? EVA_KMD_REGISTER_BUFFER) || (t =? EVA_KMD_UNREGISTER_BUFFER) then
    get_words buffer_words kp
  else if t =? EVA_KMD_SEND_CMD_PKT then
    '(rc, size, _) ← _get_pkt_hdr_from_user;
    if negb (rc =? 0) then mret (- EFAULT, kp)
    else
      r ← _copy_pkt_from_user 0 (Z.shiftr size 2) kp;
      then_words r (λ kp,
        l ← of_outcome (words_write (a_data kp) 0 [size]);
        mret (0, kp <| a_data := l |>))
  else if t =? EVA_KMD_SEND_FENCE_CMD_PKT then
    '(rc, _, packet_type) ← _get_fence_pkt_hdr_from_user;
    if negb (rc =? 0) then mret (- EFAULT, kp)
    else
      idx ← of_outcome (get_pkt_index env_hfi_ver env_cvp_hfi_defs (Some packet_type));
      if idx <? 0 then mret (- EFAULT, kp) else _copy_fence_pkt_from_user kp
  else if t =? EVA_KMD_RECEIVE_MSG_PKT then mret (0, kp)
  else if t =? EVA_KMD_SESSION_CONTROL then _get_session_ctrl_from_user kp
  else if (t =? EVA_KMD_GET_SYS_PROPERTY) || (t =? EVA_KMD_SET_SYS_PROPERTY) then
    r ← _copy_sysprop_from_user kp; mret (faults r)
  else if (t =? EVA_KMD_FLUSH_ALL) || (t =? EVA_KMD_UPDATE_POWER) then mret (0, kp)
  else if t =? EVA_KMD_FLUSH_FRAME then r ← _copy_frameid_from_user kp; mret (faults r)
  else mret (- EINVAL, kp).

(** [convert_from_user]; [up] is null when [present] is false. *)
Definition convert_from_user (present : bool) (kp : eva_kmd_arg) : St S (Z * eva_kmd_arg) :=
  if negb present then mret (- EINVAL, kp)
  else
    print_hfi_short ;;
    o ← get_user 0;
    match o with
    | None => mret (- EFAULT, kp)
    | Some t =>
        let kp := kp <| a_type := t |> in
        o ← get_user 1;
        match o with
        | None => mret (- EFAULT, kp)
        | Some off =>
            let kp := kp <| a_buf_offset := off |> in
            o ← get_user 2;
            match o with
            | None => mret (- EFAULT, kp)
            | Some num => convert_data_from_user (kp <| a_buf_num := num |>)
            end
        end
    end.

(** ** To the client *)

Definition _copy_pkt_to_user (size : Z) (kp : eva_kmd_arg) : St S Z :=
  l ← of_outcome (array_words 0 MAX_HFI_PKT_SIZE 0 size);
  put_words (l ++ [hfi_oob; hfi_oob + 1]) kp.

Definition _copy_fence_pkt_to_user : eva_kmd_arg → St S Z :=
  put_words (seqZ 0 MAX_HFI_PKT_SIZE ++ [synx_oob; synx_oob + 1]).

(** The data of the first 8 properties. *)
Definition _copy_sysprop_to_user : eva_kmd_arg → St S Z :=
  put_words ((λ i, 2 + 2 * i) <$> seqZ 0 8).

Definition _copy_session_ctrl_to_user : eva_kmd_arg → St S Z := put_words (seqZ 0 9).

Definition _put_user_session_info : eva_kmd_arg → St S Z := put_words (seqZ 0 11).

Definition convert_data_to_user (kp : eva_kmd_arg) : St S Z :=
  let t := a_type kp in
  if t =? EVA_KMD_RECEIVE_MSG_PKT then
    packet_type ← of_outcome (word_at (a_data kp) 1);
    l ← of_outcome (array_words 0 MAX_HFI_PKT_SIZE 0 (Z.shiftr (msg_bytes packet_type) 2));
    put_words l kp
  else if t =? EVA_KMD_GET_SESSION_INFO then _put_user_session_info kp
  else if (t =? EVA_KMD_REGISTER_BUFFER) || (t =? EVA_KMD_UNREGISTER_BUFFER) then
    put_words buffer_words kp
  else if t =? EVA_KMD_SEND_CMD_PKT then
    '(rc, size, _) ← _get_pkt_hdr_from_user;
    if negb (rc =? 0) then mret (- EFAULT) else _copy_pkt_to_user (Z.shiftr size 2) kp
  else if t =? EVA_KMD_SEND_FENCE_CMD_PKT then
    '(rc, _, _) ← _get_fence_pkt_hdr_from_user;
    if negb (rc =? 0) then mret (- EFAULT) else _copy_fence_pkt_to_user kp
  else if t =? EVA_KMD_SESSION_CONTROL then _copy_session_ctrl_to_user kp
  else if t =? EVA_KMD_GET_SYS_PROPERTY then _copy_sysprop_to_user kp
  else if (t =? EVA_KMD_FLUSH_ALL) || (t =? EVA_KMD_FLUSH_FRAME)
          || (t =? EVA_KMD_SET_SYS_PROPERTY) || (t =? EVA_KMD_UPDATE_POWER) then mret 0
  else mret (- EINVAL).

Definition convert_to_user (present : bool) (kp : eva_kmd_arg) : St S Z :=
  if negb present then mret (- EINVAL)
  else
    ok ← put_user (a_type kp) 0;
    if negb ok then mret (- EFAULT) else convert_data_to_user kp.

(** ** The system call *)

(** [cvp_ioctl], around [msm_cvp_private]; [karg] says whether its argument could be
    allocated. *)
Definition cvp_ioctl (inst : Z) (karg present : bool)
    (msm_cvp_private : eva_kmd_arg → St S (Z * eva_kmd_arg)) : St S Z :=
  if inst =? 0 then mret (- EINVAL)
  else if negb karg then mret (- ENOMEM)
  else
    '(rc, kp) ← convert_from_user present (mkArg 0 0 0 (replicate data_words 0));
    if negb (rc =? 0) then mret (- EFAULT)
    else
      '(rc, kp) ← msm_cvp_private kp;
      if negb (rc =? 0) then mret rc
      else
        rc ← convert_to_user present kp;
        mret (if rc =? 0 then 0 else - EFAULT).

End operations.
