(* ===== verification/IoctlSafe.v ===== *)
(** The ioctl is typed: whatever the client does to its memory meanwhile, the system call is
    handed a well-formed argument, and only words of the argument it gives back are stored
    to the client. *)

From S2P Require Import Prelude Store HfiTypes HfiDefs Driver Scenario UserMem Ioctl.
Open Scope Z_scope.

(** * Well-formed arguments *)

(** Everything a word and every word there. *)
Record arg_shape (k : eva_kmd_arg) : Prop := mkShape {
  sh_type : is_u32 (a_type k);
  sh_offset : is_u32 (a_buf_offset k);
  sh_num : is_u32 (a_buf_num k);
  sh_length : length (a_data k) = data_words;
  sh_words : Forall is_u32 (a_data k)
}.

Definition commands : list Z :=
  [EVA_KMD_GET_SESSION_INFO; EVA_KMD_REGISTER_BUFFER; EVA_KMD_UNREGISTER_BUFFER;
   EVA_KMD_UPDATE_POWER; EVA_KMD_SEND_CMD_PKT; EVA_KMD_RECEIVE_MSG_PKT;
   EVA_KMD_SET_SYS_PROPERTY; EVA_KMD_GET_SYS_PROPERTY; EVA_KMD_SESSION_CONTROL;
   EVA_KMD_SEND_FENCE_CMD_PKT; EVA_KMD_FLUSH_ALL; EVA_KMD_FLUSH_FRAME].

(** The argument of a system call: a command's packet has a size that was checked, and
    nothing behind it; a list of properties has a length that was checked. *)
Record arg_ok (k : eva_kmd_arg) : Prop := mkArgOk {
  ao_shape : arg_shape k;
  ao_command : a_type k ∈ commands;
  ao_packet : a_type k = EVA_KMD_SEND_CMD_PKT →
    ∃ size, word_at (a_data k) 0 = Done size ∧ 0 <= size <= 4 * MAX_HFI_PKT_SIZE
      ∧ ∀ j, 0 < j → size / 4 <= j < MAX_HFI_PKT_SIZE → word_at (a_data k) j = Done 0;
  ao_props : a_type k = EVA_KMD_SET_SYS_PROPERTY ∨ a_type k = EVA_KMD_GET_SYS_PROPERTY →
    ∃ n, word_at (a_data k) 0 = Done n ∧ 1 <= n <= MAX_KMD_PROP_NUM_PER_PACKET
}.

(** [k'] is [k] but for words of the union at the offsets [l]. *)
Record only (l : list Z) (k k' : eva_kmd_arg) : Prop := mkOnly {
  on_shape : arg_shape k → arg_shape k';
  on_type : a_type k' = a_type k;
  on_words : ∀ j, j ∉ l → word_at (a_data k') j = word_at (a_data k) j
}.

Lemma only_refl l k : only l k k.
Proof. by split. Qed.

Lemma only_trans l1 l2 k k1 k2 : only l1 k k1 → only l2 k1 k2 → only (l1 ++ l2) k k2.
Proof.
  intros [S1 T1 W1] [S2 T2 W2]. split; [auto|congruence|]. intros j Hj.
  rewrite not_elem_of_app in Hj. destruct Hj. rewrite W2 by done. auto.
Qed.

Lemma only_weaken l l' k k' : l ⊆ l' → only l k k' → only l' k k'.
Proof. intros Hl [S1 T1 W1]. split; auto. Qed.

Lemma write_word_only k a x l' :
  is_u32 x → words_write (a_data k) a [x] = Done l' → only [a] k (k <| a_data := l' |>).
Proof.
  intros Hx E. pose proof (length_words_write _ _ _ _ E) as Hl. split; [|done|].
  - intros [H1 H2 H3 H4 H5]. split; [done..| |]; cbn; [congruence|].
    unfold words_write in E. case_match; [|done]. injection E as <-.
    apply Forall_app. split; [by apply Forall_take|].
    constructor; [done|by apply Forall_drop].
  - intros j Hj. apply not_elem_of_cons in Hj as [Hj _]. cbn.
    destruct (Z_lt_ge_dec j a); [by eapply words_write_before|].
    eapply words_write_after; [exact E|cbn; lia].
Qed.

Lemma write_word_done k a x :
  length (a_data k) = data_words → 0 <= a < Z.of_nat data_words →
  ∃ l', words_write (a_data k) a [x] = Done l'.
Proof. intros Hl Ha. eexists. apply words_write_ok; [lia|]. rewrite Hl. cbn [length]. lia. Qed.

(** An array's words are offsets into the union. *)
Definition offsets (l : list Z) : Prop := Forall (λ a, 0 <= a < Z.of_nat data_words) l.

Lemma offsets_seqZ base start n :
  0 <= base + start → base + start + n <= Z.of_nat data_words → offsets (Z.add base <$> seqZ start n).
Proof.
  intros Hb Hn. apply Forall_fmap, list.Forall_forall. intros j Hj%elem_of_seqZ. cbn. lia.
Qed.

Lemma offsets_seqZ0 n : n <= Z.of_nat data_words → offsets (seqZ 0 n).
Proof. intros Hn. apply list.Forall_forall. intros j Hj%elem_of_seqZ. lia. Qed.

Lemma array_words_done base len start n :
  start + n <= len → array_words base len start n = Done (Z.add base <$> seqZ start n).
Proof. intros Hn. unfold array_words. by rewrite (proj2 (Z.leb_le _ _)). Qed.

Lemma msg_bytes_range t : 60 <= msg_bytes t <= 68.
Proof. unfold msg_bytes. destruct (_ =? _); lia. Qed.

(** * Runs of the ioctl *)

(** A store changes nothing but the list of stores; a fetch does not change that. *)
Class StoreLaws {S} `{Fetches S} `{Stores S} (P : S → Prop) := {
  store_adds : ∀ s x, stored (record_store x s) = stored s ++ [x];
  fetch_stores : ∀ s, stored (count_fetch s) = stored s;
  store_keeps : ∀ s x, P s → P (record_store x s);
  fetch_keeps : ∀ s, P s → P (count_fetch s)
}.

(** A word of the argument, at its address. *)
Definition from_arg (k : eva_kmd_arg) (x : Z * Z) : Prop :=
  x = (0, a_type k) ∨ ∃ j, x.1 = up_data + j ∧ word_at (a_data k) j = Done x.2.

Section runs.
Context `{Env} `{UserMem} `{UserOut} `{!UserLaws} {S : Type} `{Fetches S} `{Stores S}.
Context (P : S → Prop) `{!StoreLaws P}.

(** [P], with these stores. *)
Definition at_stores (l : list (Z * Z)) (s : S) : Prop := P s ∧ stored s = l.

Lemma total_fetch l a : total (at_stores l) (get_user a) (λ o s, (∀ x, o = Some x → is_u32 x) ∧ at_stores l s).
Proof.
  intros s [Hs Hl]. unfold get_user. srun. eexists _, _. split; [reflexivity|].
  split; [intros x Hx; by eapply fetch_u32|]. split; [by apply fetch_keeps|by rewrite fetch_stores].
Qed.

Lemma total_get_word l a k :
  arg_shape k → 0 <= a < Z.of_nat data_words →
  total (at_stores l) (get_word a a k) (λ r s, only [a] k r.2 ∧ (r.1 = 0 ∨ r.1 = - EFAULT) ∧ at_stores l s).
Proof.
  intros Hk Ha. unfold get_word. eapply total_bind; [apply total_fetch|]. intros [x|];
    apply total_pure; intros Hx; [|apply total_ret; intros s Hs; split; [apply only_refl|auto]].
  destruct (write_word_done k a x) as [d E]; [apply (sh_length _ Hk)|done|].
  eapply total_bind; [eapply (total_of_outcome _ _ _ (λ y s, y = d ∧ at_stores l s)); [exact E|auto]|].
  intros y. apply total_pure. intros ->. apply total_ret. intros s Hs. split; [|auto].
  by apply (write_word_only _ _ x); [apply Hx|].
Qed.

Lemma total_get_words l offs : ∀ k,
  arg_shape k → offsets offs →
  total (at_stores l) (get_words offs k) (λ r s, only offs k r.2 ∧ (r.1 = 0 ∨ r.1 = - EFAULT) ∧ at_stores l s).
Proof.
  induction offs as [|a offs IH]; intros k Hk Ho; cbn [get_words].
  { apply total_ret. intros s Hs. split; [apply only_refl|auto]. }
  apply Forall_cons_1 in Ho as [Ha Ho].
  eapply total_bind; [by apply total_get_word|]. intros [rc k1]. cbn [fst snd].
  apply total_pure. intros Hk1. apply total_pure. intros Hrc.
  apply total_if; intros E.
  - eapply total_post; [apply IH; [by apply (on_shape _ _ _ Hk1)|done]|].
    intros r s (Hr & Hs). split; [|done]. by apply (only_trans [a] offs _ k1).
  - apply total_ret. intros s Hs. split; [|done]. eapply only_weaken; [|exact Hk1]. set_solver.
Qed.

(** A second copy after the first. *)
Lemma total_then l offs1 offs2 k (m : St S (Z * eva_kmd_arg)) f :
  arg_shape k →
  total (at_stores l) m (λ r s, only offs1 k r.2 ∧ (r.1 = 0 ∨ r.1 = - EFAULT) ∧ at_stores l s) →
  (∀ k1, only offs1 k k1 → arg_shape k1 →
    total (at_stores l) (f k1) (λ r s, only offs2 k1 r.2 ∧ (r.1 = 0 ∨ r.1 = - EFAULT) ∧ at_stores l s)) →
  total (at_stores l) (m ≫= λ r, then_words r f)
    (λ r s, only (offs1 ++ offs2) k r.2 ∧ (r.1 = 0 ∨ r.1 = - EFAULT) ∧ at_stores l s).
Proof.
  intros Hk Hm Hf. eapply total_bind; [exact Hm|]. intros r. apply total_pure. intros Hr.
  apply total_pure. intros Hrc. unfold then_words. apply total_if; intros _.
  - eapply total_post; [apply Hf; [done|by apply (on_shape _ _ _ Hr)]|].
    intros r2 s (Hr2 & Hs). split; [|done]. by eapply only_trans.
  - apply total_ret. intros s Hs. split; [|done]. eapply only_weaken; [|exact Hr]. set_solver.
Qed.

Lemma total_copy_pkt l start n k :
  arg_shape k → 0 <= start → start + n <= MAX_HFI_PKT_SIZE →
  total (at_stores l) (_copy_pkt_from_user start n k)
    (λ r s, only (seqZ start n ++ [hfi_oob; hfi_oob + 1]) k r.2 ∧ (r.1 = 0 ∨ r.1 = - EFAULT) ∧ at_stores l s).
Proof.
  intros Hk Hs Hn. unfold _copy_pkt_from_user. rewrite array_words_done by done.
  intros s Hps. rewrite St_bind_run. unfold of_outcome. cbn [obind fst snd]. revert s Hps.
  assert (E : Z.add 0 <$> seqZ start n = seqZ start n).
  { rewrite <- (list_fmap_id (seqZ start n)) at 2. apply list_fmap_ext. intros; cbn; lia. }
  change (total (at_stores l) (get_words (Z.add 0 <$> seqZ start n) k ≫= λ r, then_words r (get_words [hfi_oob; hfi_oob + 1]))
    (λ r s, only (seqZ start n ++ [hfi_oob; hfi_oob + 1]) k r.2 ∧ (r.1 = 0 ∨ r.1 = - EFAULT) ∧ at_stores l s)).
  unfold MAX_HFI_PKT_SIZE in Hn.
  rewrite E. apply total_then; [done| |].
  - apply total_get_words; [done|]. rewrite <- E. apply offsets_seqZ; unfold data_words; lia.
  - intros k1 _ Hk1. apply total_get_words; [done|]. repeat (constructor; [done|]). constructor.
Qed.

(** ** From the client *)

(** What a copy of words may do: [k] changes at some offsets only, and the error is
    [-EFAULT]. *)
Definition copies (l : list (Z * Z)) (k : eva_kmd_arg) (m : St S (Z * eva_kmd_arg)) : Prop :=
  ∃ offs, total (at_stores l) m (λ r s, only offs k r.2 ∧ (r.1 = 0 ∨ r.1 = - EFAULT) ∧ at_stores l s).

Lemma copies_words l offs k : arg_shape k → offsets offs → copies l k (get_words offs k).
Proof. intros Hk Ho. exists offs. by apply total_get_words. Qed.

Lemma offsets_pair a : 0 <= a < 671 → offsets [a; a + 1].
Proof. intros Ha. unfold offsets, data_words. repeat constructor; lia. Qed.

Lemma total_fence_pkt l k :
  arg_shape k → copies l k (_copy_fence_pkt_from_user k).
Proof.
  intros Hk. eexists. unfold _copy_fence_pkt_from_user. apply total_then; [done| |].
  { apply total_get_words; [done|]. apply offsets_seqZ0. unfold MAX_HFI_PKT_SIZE, data_words. lia. }
  intros k1 _ Hk1. apply total_then; [done| |].
  { apply total_get_words; [done|]. constructor; [done|constructor]. }
  intros k2 _ Hk2.
  assert (Hw : ∃ w, word_at (a_data k2) fence_data = Done w).
  { eexists. apply word_at_ok. rewrite (sh_length _ Hk2). done. }
  destruct Hw as [w Ew].
  assert (Hsynx : total (at_stores l) (_copy_synx_data_from_user k2) (λ r s,
    only ((Z.add fence_data <$> seqZ 0 MAX_FENCE_DATA_SIZE) ++ [synx_oob; synx_oob + 1]) k2 r.2
    ∧ (r.1 = 0 ∨ r.1 = - EFAULT) ∧ at_stores l s)).
  { apply total_then; [done| |].
    - apply total_get_words; [done|]. by apply offsets_seqZ.
    - intros k3 _ Hk3. by apply total_get_words; [|apply offsets_pair]. }
  assert (Hold : total (at_stores l) (_copy_fence_data_from_user_deprecate k2) (λ r s,
    only ((Z.add fence_data <$> seqZ 0 64) ++ [fence_frame_id; fence_frame_id + 1]) k2 r.2
    ∧ (r.1 = 0 ∨ r.1 = - EFAULT) ∧ at_stores l s)).
  { apply total_then; [done| |].
    - apply total_get_words; [done|]. by apply offsets_seqZ.
    - intros k3 _ Hk3. by apply total_get_words; [|apply offsets_pair]. }
  eapply total_bind; [eapply (total_of_outcome _ _ _ (λ y s, y = w ∧ at_stores l s)); [exact Ew|auto]|].
  intros y. apply total_pure. intros ->.
  apply total_if; intros _; (eapply total_post; [eassumption|]); intros r s (Hr & Hs);
    (split; [|exact Hs]); (eapply only_weaken; [|exact Hr]).
  - apply (sublist_subseteq _ _), sublist_inserts_r. reflexivity.
  - apply (sublist_subseteq _ _), sublist_inserts_l. reflexivity.
Qed.

Lemma total_sysprops l k :
  arg_shape k →
  total (at_stores l) (_copy_sysprop_from_user k) (λ r s,
    arg_shape r.2 ∧ a_type r.2 = a_type k ∧ (r.1 = 0 ∨ r.1 = - EFAULT)
    ∧ (r.1 = 0 → ∃ n, word_at (a_data r.2) 0 = Done n ∧ 1 <= n <= MAX_KMD_PROP_NUM_PER_PACKET)
    ∧ at_stores l s).
Proof.
  intros Hk. unfold _copy_sysprop_from_user.
  eapply total_bind; [apply total_get_words; [done|constructor; [done|constructor]]|].
  intros [rc k1]. cbn [fst snd]. apply total_pure. intros Hk1. apply total_pure. intros Hrc.
  pose proof (on_shape _ _ _ Hk1 Hk) as Hs1. pose proof (on_type _ _ _ Hk1) as Ht1.
  unfold then_words. cbn [fst snd]. apply total_if; intros Hrc0; zify_bool; [|by apply total_ret].
  assert (E0 : word_at (a_data k1) 0 = Done (a_data k1 !!! 0%nat)).
  { apply word_at_ok. by rewrite (sh_length _ Hs1). }
  set (n := a_data k1 !!! 0%nat) in *.
  eapply total_bind; [eapply (total_of_outcome _ _ _ (λ y s, y = n ∧ at_stores l s)); [exact E0|auto]|].
  intros y. apply total_pure. intros ->. unfold MAX_KMD_PROP_NUM_PER_PACKET in *.
  apply total_if; intros Hn.
  { apply total_ret. intros s Hs. cbn [fst snd]. split; [done|]. split; [done|]. split; [by right|done]. }
  zify_bool.
  eapply total_post; [apply total_copy_pkt; [done|lia|unfold MAX_HFI_PKT_SIZE; lia]|].
  intros r s (Hr & Hrc' & Hs). split; [by apply (on_shape _ _ _ Hr)|].
  split; [by rewrite (on_type _ _ _ Hr)|]. split; [done|]. split; [|done]. intros _.
  exists n. split; [|lia]. rewrite (on_words _ _ _ Hr), E0; [done|].
  rewrite not_elem_of_app, elem_of_seqZ. split; [lia|]. unfold hfi_oob, MAX_HFI_PKT_SIZE. set_solver by lia.
Qed.

Lemma total_pkt_hdr l :
  total (at_stores l) _get_pkt_hdr_from_user (λ r s,
    (r.1.1 = 0 → 0 <= r.1.2 <= 4 * MAX_HFI_PKT_SIZE) ∧ at_stores l s).
Proof.
  unfold _get_pkt_hdr_from_user.
  eapply total_bind; [apply total_fetch|]. intros [size|]; apply total_pure; intros Hsize;
    [|by apply total_ret].
  eapply total_bind; [apply total_fetch|]. intros [t|]; apply total_pure; intros Ht;
    [|by apply total_ret].
  destruct (get_pkt_index_range env_hfi_ver env_cvp_hfi_defs (Some t)) as (idx & E & _).
  eapply total_bind; [eapply (total_of_outcome _ _ _ (λ y s, y = idx ∧ at_stores l s)); [exact E|auto]|].
  intros y. apply total_pure. intros ->. pose proof (msg_bytes_range t).
  pose proof (Hsize size eq_refl) as Hu. unfold is_u32 in Hu. unfold MAX_HFI_PKT_SIZE in *.
  apply total_if; intros _; [apply total_ret; intros s Hs; split; [cbn; lia|done]|].
  apply total_if; intros Hmax; [by apply total_ret|]. zify_bool.
  apply total_ret. intros s Hs. split; [cbn; lia|done].
Qed.

Lemma total_fence_hdr l :
  total (at_stores l) _get_fence_pkt_hdr_from_user (λ r s, at_stores l s).
Proof.
  unfold _get_fence_pkt_hdr_from_user.
  eapply total_bind; [apply total_fetch|]. intros [size|]; apply total_pure; intros _; [|by apply total_ret].
  eapply total_bind; [apply total_fetch|]. intros [t|]; apply total_pure; intros _; by apply total_ret.
Qed.

(** A packet: its size is the one that was checked, and the words behind are zero. *)
Lemma total_cmd_pkt l k size :
  arg_shape k → a_type k = EVA_KMD_SEND_CMD_PKT → a_data k = replicate data_words 0 →
  0 <= size <= 4 * MAX_HFI_PKT_SIZE →
  total (at_stores l)
    (_copy_pkt_from_user 0 (Z.shiftr size 2) k ≫= λ r, then_words r (λ kp,
       d ← of_outcome (words_write (a_data kp) 0 [size]); mret (0, kp <| a_data := d |>)))
    (λ r s, (r.1 = 0 → arg_ok r.2) ∧ at_stores l s).
Proof.
  intros Hk Ht Hz Hsize. rewrite Z.shiftr_div_pow2 by done. change (2 ^ 2) with 4.
  assert (Hdiv : 4 * (size / 4) <= size) by (apply Z.mul_div_le; lia).
  assert (Hpos : 0 <= size / 4) by (apply Z.div_pos; lia). unfold MAX_HFI_PKT_SIZE in *.
  eapply total_bind; [apply total_copy_pkt; [done|lia|unfold MAX_HFI_PKT_SIZE; lia]|].
  intros [rc k1]. cbn [fst snd]. apply total_pure. intros Hk1. apply total_pure. intros Hrc.
  unfold then_words. cbn [fst snd]. apply total_if; intros Hrc0; zify_bool; [|by apply total_ret].
  pose proof (on_shape _ _ _ Hk1 Hk) as Hs1.
  destruct (write_word_done k1 0 size) as [d E]; [apply (sh_length _ Hs1)|done|].
  eapply total_bind; [eapply (total_of_outcome _ _ _ (λ y s, y = d ∧ at_stores l s)); [exact E|auto]|].
  intros y. apply total_pure. intros ->. apply total_ret. intros s Hs. split; [|done]. intros _.
  cbn [snd]. assert (Ho : only [0] k1 (k1 <| a_data := d |>)).
  { apply (write_word_only _ _ size); [unfold is_u32; lia|done]. }
  assert (Et : a_type (k1 <| a_data := d |>) = EVA_KMD_SEND_CMD_PKT).
  { by rewrite (on_type _ _ _ Ho), (on_type _ _ _ Hk1). }
  split.
  - by apply (on_shape _ _ _ Ho).
  - rewrite Et. unfold commands. set_solver.
  - intros _. exists size. split; [by apply words_write_at in E|]. split; [done|].
    intros j Hj0 Hj. rewrite (on_words _ _ _ Ho) by set_solver by lia.
    rewrite (on_words _ _ _ Hk1).
    + rewrite Hz, word_at_ok by (rewrite length_replicate; unfold MAX_HFI_PKT_SIZE, data_words in *; lia).
      f_equal. apply lookup_total_replicate_2. unfold MAX_HFI_PKT_SIZE, data_words in *. lia.
    + rewrite not_elem_of_app, elem_of_seqZ. unfold hfi_oob, MAX_HFI_PKT_SIZE in *. set_solver by lia.
  - rewrite Et. intros [?|?]; done.
Qed.

(** A command without a size: any well-formed argument will do. *)
Lemma ok_plain k k' :
  arg_shape k' → a_type k' = a_type k → a_type k ∈ commands → a_type k ≠ EVA_KMD_SEND_CMD_PKT →
  a_type k ≠ EVA_KMD_SET_SYS_PROPERTY → a_type k ≠ EVA_KMD_GET_SYS_PROPERTY → arg_ok k'.
Proof. intros Hs Ht Hc N1 N2 N3. split; rewrite ?Ht; try done. by intros [?|?]. Qed.

Definition converts (l : list (Z * Z)) (m : St S (Z * eva_kmd_arg)) : Prop :=
  total (at_stores l) m (λ r s, (r.1 = 0 → arg_ok r.2) ∧ at_stores l s).

Lemma converts_copy l k m :
  arg_shape k → copies l k m →
  a_type k ∈ commands → a_type k ≠ EVA_KMD_SEND_CMD_PKT →
  a_type k ≠ EVA_KMD_SET_SYS_PROPERTY → a_type k ≠ EVA_KMD_GET_SYS_PROPERTY → converts l m.
Proof.
  intros Hk [offs Hm] Hc N1 N2 N3. eapply total_post; [exact Hm|]. intros r s (Hr & _ & Hs).
  split; [|done]. intros _. apply (ok_plain k); try done; [by apply (on_shape _ _ _ Hr)|apply (on_type _ _ _ Hr)].
Qed.

Lemma converts_faults l (m : St S (Z * eva_kmd_arg)) :
  converts l m → converts l (m ≫= λ r, mret (faults r)).
Proof.
  intros Hm. eapply total_bind; [exact Hm|]. intros r. apply total_ret. intros s [Hr Hs].
  split; [|done]. unfold faults. cbn. destruct (Z.eqb_spec r.1 0); [auto|done].
Qed.

Lemma converts_error l rc k : rc ≠ 0 → converts l (mret (rc, k)).
Proof. intros Hrc. by apply total_ret. Qed.

Lemma offsets_buffer : offsets buffer_words.
Proof. unfold offsets, buffer_words. repeat (constructor; [done|]). constructor. Qed.

Lemma total_convert_data l k :
  arg_shape k → a_data k = replicate data_words 0 → converts l (convert_data_from_user k).
Proof.
  intros Hk Hz. unfold convert_data_from_user. set (t := a_type k).
  assert (Hplain : ∀ c m, t = c → copies l k m → c ∈ commands → c ≠ EVA_KMD_SEND_CMD_PKT →
    c ≠ EVA_KMD_SET_SYS_PROPERTY → c ≠ EVA_KMD_GET_SYS_PROPERTY → converts l m).
  { intros c m <- ?????. by eapply converts_copy. }
  assert (Hret : ∀ c, t = c → c ∈ commands → c ≠ EVA_KMD_SEND_CMD_PKT →
    c ≠ EVA_KMD_SET_SYS_PROPERTY → c ≠ EVA_KMD_GET_SYS_PROPERTY → converts l (mret (0, k))).
  { intros c <- ????. apply total_ret. intros s Hs. split; [|done]. intros _. by apply (ok_plain k). }
  apply total_if; intros E1; zify_bool.
  { apply converts_faults, (Hplain _ _ E1); [|unfold commands; set_solver|done..].
    by apply copies_words, offsets_seqZ0. }
  apply total_if; intros E2.
  { assert (Ht : t = EVA_KMD_REGISTER_BUFFER ∨ t = EVA_KMD_UNREGISTER_BUFFER).
    { apply orb_true_iff in E2 as [?%Z.eqb_eq|?%Z.eqb_eq]; auto. }
    destruct Ht as [Ht|Ht]; (apply (Hplain _ _ Ht); [|unfold commands; set_solver|done..]);
      by apply copies_words, offsets_buffer. }
  apply total_if; intros E3; zify_bool.
  { eapply total_bind; [apply total_pkt_hdr|]. intros [[rc size] pt]. cbn [fst snd].
    apply total_pure. intros Hsize. apply total_if; intros Hrc; zify_bool; [by apply total_ret|].
    apply total_cmd_pkt; auto. }
  apply total_if; intros E4; zify_bool.
  { eapply total_bind; [apply total_fence_hdr|]. intros [[rc size] pt].
    apply total_if; intros Hrc; zify_bool; [by apply total_ret|].
    destruct (get_pkt_index_range env_hfi_ver env_cvp_hfi_defs (Some pt)) as (idx & E & _).
    eapply total_bind; [eapply (total_of_outcome _ _ _ (λ y s, y = idx ∧ at_stores l s)); [exact E|auto]|].
    intros y. apply total_pure. intros ->. apply total_if; intros _; [by apply total_ret|].
    apply (Hplain _ _ E4); [by apply total_fence_pkt|unfold commands; set_solver|done..]. }
  apply total_if; intros E5; zify_bool; [apply (Hret _ E5); [unfold commands; set_solver|done..]|].
  apply total_if; intros E6; zify_bool.
  { apply (Hplain _ _ E6); [|unfold commands; set_solver|done..]. by apply copies_words, offsets_seqZ0. }
  apply total_if; intros E7.
  { assert (Ht : t = EVA_KMD_GET_SYS_PROPERTY ∨ t = EVA_KMD_SET_SYS_PROPERTY).
    { apply orb_true_iff in E7 as [?%Z.eqb_eq|?%Z.eqb_eq]; auto. }
    apply converts_faults. eapply total_post; [by apply total_sysprops|].
    intros r s (Hs & Htr & _ & Hn & Hst). split; [|done]. intros Hrc.
    split; [done| | |auto]; rewrite Htr; fold t.
    - unfold commands. destruct Ht as [->| ->]; set_solver.
    - by destruct Ht as [->| ->]. }
  apply total_if; intros E8.
  { apply orb_true_iff in E8 as [E8%Z.eqb_eq|E8%Z.eqb_eq];
      (apply (Hret _ E8); [unfold commands; set_solver|done..]). }
  apply total_if; intros E9; zify_bool; [|by apply converts_error].
  apply converts_faults, (Hplain _ _ E9); [|unfold commands; set_solver|done..].
  by apply copies_words, (offsets_pair 0).
Qed.

Lemma total_fetch_all l offs : total (at_stores l) (fetch_all offs) (λ _ s, at_stores l s).
Proof.
  induction offs as [|a offs IH]; cbn [fetch_all]; [by apply total_ret|].
  eapply total_bind; [apply total_fetch|]. intros [x|]; apply total_pure; intros _; [exact IH|by apply total_ret].
Qed.

Lemma total_convert_from l present :
  converts l (convert_from_user present (mkArg 0 0 0 (replicate data_words 0))).
Proof.
  unfold convert_from_user. apply total_if; intros _; [by apply converts_error|].
  eapply total_bind; [apply total_fetch_all|]. intros [].
  eapply total_bind; [apply total_fetch|]. intros [t|]; apply total_pure; intros Ht; [|by apply total_ret].
  eapply total_bind; [apply total_fetch|]. intros [o|]; apply total_pure; intros Ho; [|by apply total_ret].
  eapply total_bind; [apply total_fetch|]. intros [n|]; apply total_pure; intros Hn; [|by apply total_ret].
  apply total_convert_data; [|done]. split; [by apply Ht|by apply Ho|by apply Hn|done|].
  apply (Forall_replicate is_u32 data_words 0). unfold is_u32. lia.
Qed.

(** ** To the client *)

(** [m] stores words of [k] only. *)
Definition copies_out (k : eva_kmd_arg) (m : St S Z) : Prop :=
  ∀ l, total (at_stores l) m (λ _ s, ∃ new, Forall (from_arg k) new ∧ at_stores (l ++ new) s).

Lemma copies_out_ret k rc : copies_out k (mret rc).
Proof. intros l. apply total_ret. intros s Hs. exists []. by rewrite app_nil_r. Qed.

Lemma copies_out_bind {A} k (m : St S A) R f :
  (∀ l, total (at_stores l) m (λ a s, R a ∧ ∃ new, Forall (from_arg k) new ∧ at_stores (l ++ new) s)) →
  (∀ a, R a → copies_out k (f a)) → copies_out k (m ≫= f).
Proof.
  intros Hm Hf l. eapply total_bind; [apply Hm|]. intros a. apply total_pure. intros Ha.
  apply total_ex. intros new. apply total_pure. intros Hnew.
  eapply total_post; [by apply Hf|]. intros b s (new2 & Hnew2 & Hs).
  exists (new ++ new2). rewrite (assoc_L (++)). split; [by apply Forall_app|done].
Qed.

(** Operations that store nothing. *)
Lemma copies_out_quiet {A} k (m : St S A) (R : A → Prop) f :
  (∀ l, total (at_stores l) m (λ a s, R a ∧ at_stores l s)) →
  (∀ a, R a → copies_out k (f a)) → copies_out k (m ≫= f).
Proof.
  intros Hm. apply copies_out_bind. intros l. eapply total_post; [apply Hm|].
  intros a s [Ha Hs]. split; [done|]. exists []. by rewrite app_nil_r.
Qed.

Lemma total_put_user k v a l :
  from_arg k (a, v) →
  total (at_stores l) (put_user v a) (λ _ s, True ∧ ∃ new, Forall (from_arg k) new ∧ at_stores (l ++ new) s).
Proof.
  intros Hf s [Hs Hl]. unfold put_user. srun. destruct (store_ok _ _); srun; eexists _, _;
    (split; [reflexivity|]); (split; [done|]).
  - exists [(a, v)]. split; [by constructor|]. split; [by apply store_keeps|by rewrite store_adds, Hl].
  - exists []. rewrite app_nil_r. by split.
Qed.

Lemma copies_out_words k offs :
  length (a_data k) = data_words → offsets offs → copies_out k (put_words offs k).
Proof.
  intros Hk. induction 1 as [|a offs Ha _ IH]; cbn [put_words]; [apply copies_out_ret|].
  assert (E : word_at (a_data k) a = Done (a_data k !!! Z.to_nat a)).
  { apply word_at_ok. by rewrite Hk. }
  eapply (copies_out_bind _ _ (λ _, True)).
  2: { intros rc _ l. apply total_if; intros _; [apply IH|apply copies_out_ret]. }
  intros l. unfold put_word. eapply total_bind.
  { eapply (total_of_outcome _ _ _ (λ y s, y = a_data k !!! Z.to_nat a ∧ at_stores l s)); [exact E|auto]. }
  intros v. apply total_pure. intros ->.
  eapply total_bind; [apply (total_put_user k); right; exists a; done|].
  intros ok. apply total_ret. auto.
Qed.

Lemma copies_out_array k n rest :
  length (a_data k) = data_words → n <= MAX_HFI_PKT_SIZE → offsets rest →
  copies_out k (of_outcome (array_words 0 MAX_HFI_PKT_SIZE 0 n) ≫= λ l, put_words (l ++ rest) k).
Proof.
  intros Hk Hn Hr. unfold MAX_HFI_PKT_SIZE in *.
  eapply (copies_out_quiet _ _ (λ l, l = Z.add 0 <$> seqZ 0 n)).
  { intros l. eapply total_of_outcome; [by apply array_words_done|auto]. }
  intros l ->. apply copies_out_words; [done|]. apply Forall_app. split; [|done].
  apply offsets_seqZ; unfold data_words; lia.
Qed.

Lemma copies_out_convert k present :
  length (a_data k) = data_words → copies_out k (convert_to_user present k).
Proof.
  intros Hk. unfold convert_to_user. destruct present; cbn [negb]; [|apply copies_out_ret].
  eapply (copies_out_bind _ _ (λ _, True)); [intros l; apply total_put_user; by left|].
  intros ok _. destruct ok; cbn [negb]; [|apply copies_out_ret]. unfold convert_data_to_user.
  assert (Hsz : ∀ n, n <= Z.of_nat data_words → copies_out k (put_words (seqZ 0 n) k)).
  { intros n Hn. by apply copies_out_words, offsets_seqZ0. }
  destruct (_ =? EVA_KMD_RECEIVE_MSG_PKT).
  { eapply (copies_out_quiet _ _ (λ _, True)).
    { intros l. eapply total_of_outcome; [apply word_at_ok; by rewrite Hk|auto]. }
    intros t _. pose proof (msg_bytes_range t). rewrite Z.shiftr_div_pow2 by done. change (2 ^ 2) with 4.
    assert (msg_bytes t / 4 < 18) by (apply Z.div_lt_upper_bound; lia).
    eapply (copies_out_quiet _ _ (λ l, l = Z.add 0 <$> seqZ 0 (msg_bytes t / 4))).
    { intros l. eapply total_of_outcome; [apply array_words_done; unfold MAX_HFI_PKT_SIZE; lia|auto]. }
    intros l ->. apply copies_out_words; [done|]. apply offsets_seqZ; unfold data_words; lia. }
  destruct (_ =? EVA_KMD_GET_SESSION_INFO); [by apply Hsz|].
  destruct (_ || _); [apply copies_out_words; [done|apply offsets_buffer]|].
  destruct (_ =? EVA_KMD_SEND_CMD_PKT).
  { eapply (copies_out_quiet _ _ (λ r, r.1.1 = 0 → 0 <= r.1.2 <= 4 * MAX_HFI_PKT_SIZE)); [intros l; apply total_pkt_hdr|].
    intros [[rc size] pt] Hsize. cbn [fst snd] in Hsize. destruct (Z.eqb_spec rc 0) as [->|]; [|apply copies_out_ret].
    cbn [negb]. specialize (Hsize eq_refl). apply copies_out_array; [done| |by apply offsets_pair].
    rewrite Z.shiftr_div_pow2 by done. change (2 ^ 2) with 4. apply Z.div_le_upper_bound; lia. }
  destruct (_ =? EVA_KMD_SEND_FENCE_CMD_PKT).
  { eapply (copies_out_quiet _ _ (λ _, True)).
    { intros l. eapply total_post; [apply total_fence_hdr|]. auto. }
    intros [[rc size] pt] _. destruct (negb _); [apply copies_out_ret|].
    apply copies_out_words; [done|]. apply Forall_app. split; [by apply offsets_seqZ0|by apply offsets_pair]. }
  destruct (_ =? EVA_KMD_SESSION_CONTROL); [by apply Hsz|].
  destruct (_ =? EVA_KMD_GET_SYS_PROPERTY).
  { apply copies_out_words; [done|]. unfold offsets, data_words. cbn. repeat (constructor; [lia|]). constructor. }
  destruct (_ || _); apply copies_out_ret.
Qed.

End runs.

(** * Theorem *)

(** C19. Whatever the client's memory holds and however it changes between two fetches, an
    ioctl completes, no index leaves the argument or its arrays, and the system call is
    handed a well-formed argument or is not reached.  Nothing is
    stored to the client when the system call fails, and else only words of the argument it
    gave back, each at its own address. *)
Theorem ioctl_typed `{Env} `{UserMem} `{UserOut} `{!UserLaws} {S : Type} `{Fetches S} `{Stores S}
    (P : S → Prop) `{!StoreLaws P} (inst : Z) (karg present : bool)
    (msm_cvp_private : eva_kmd_arg → St S (Z * eva_kmd_arg))
    (Post : eva_kmd_arg → Z → eva_kmd_arg → Prop) (l : list (Z * Z)) :
  (∀ k, arg_ok k → total (at_stores P l) (msm_cvp_private k) (λ r s,
    Post k r.1 r.2 ∧ length (a_data r.2) = data_words ∧ at_stores P l s)) →
  total (at_stores P l) (cvp_ioctl inst karg present msm_cvp_private) (λ rc s,
    P s ∧ (rc ≠ 0 ∧ stored s = l ∨
           ∃ k k' new, arg_ok k ∧ Post k 0 k' ∧ (rc = 0 ∨ rc = - EFAULT)
             ∧ stored s = l ++ new ∧ Forall (from_arg k') new)).
Proof.
  intros Hp. unfold cvp_ioctl.
  assert (Hstop : ∀ rc, rc ≠ 0 → total (at_stores P l) (mret rc) (λ rc s, P s ∧ (rc ≠ 0 ∧ stored s = l ∨
    ∃ k k' new, arg_ok k ∧ Post k 0 k' ∧ (rc = 0 ∨ rc = - EFAULT) ∧ stored s = l ++ new ∧ Forall (from_arg k') new))).
  { intros rc Hrc. apply total_ret. intros s [Hs Hl]. auto. }
  apply total_if; intros _; [by apply Hstop|]. apply total_if; intros _; [by apply Hstop|].
  eapply total_bind; [apply (total_convert_from P)|]. intros [rc k]. cbn [fst snd]. apply total_pure. intros Hk.
  apply total_if; intros Hrc; zify_bool; [by apply Hstop|]. specialize (Hk Hrc).
  eapply total_bind; [by apply Hp|]. intros [rc1 k']. cbn [fst snd]. apply total_pure. intros Hpost.
  apply total_pure. intros Hlen. apply total_if; intros Hrc1; zify_bool; [by apply Hstop|]. subst rc1.
  eapply total_bind; [by apply (copies_out_convert P)|]. intros rc2.
  apply total_ret. intros s (new & Hnew & Hs & Hst). split; [done|]. right.
  exists k, k', new. split; [done|]. split; [done|]. split; [destruct (rc2 =? 0); auto|done].
Qed.

(** * A client that grows its packet during the call *)
Module IoctlScenario.

(** Its state: the number of fetches, and the stores. *)
#[local] Instance run_fetches : Fetches (nat * list (Z * Z)) := {|
  fetched := fst;
  count_fetch s := (S s.1, s.2)
|}.
#[local] Instance run_stores : Stores (nat * list (Z * Z)) := {|
  stored := snd;
  record_store x s := (s.1, s.2 ++ [x])
|}.
#[local] Instance run_laws : StoreLaws (λ _ : nat * list (Z * Z), True).
Proof. by split. Qed.

#[local] Instance driver : Env := small_env no_call silent.

(** A command of 16 bytes; from the twelfth fetch on it says it has 20. *)
#[local] Instance mem : UserMem := {|
  fetch n a :=
    if a =? 0 then Some EVA_KMD_SEND_CMD_PKT
    else if a =? 4 then Some (if (n <? 12)%nat then 16 else 20)
    else if a =? 5 then Some 0x1203003
    else Some 7;
  access_ok _ _ := true
|}.
#[local] Instance mem_laws : UserLaws.
Proof.
  intros n a x. cbn. unfold EVA_KMD_SEND_CMD_PKT, EVA_KMD_CMD_START, is_u32.
  repeat case_match; intros [= <-]; lia.
Qed.
#[local] Instance out : UserOut := λ _ _, true.

Definition echo (k : eva_kmd_arg) : St (nat * list (Z * Z)) (Z * eva_kmd_arg) := mret (0, k).

(** The fifth word is not the client's seven, which was never copied. *)
Lemma ioctl_typed_witness :
  ∃ s, cvp_ioctl 64 true true echo (0%nat, []) = Done (0, s)
    ∧ s.2 = [(0, EVA_KMD_SEND_CMD_PKT); (4, 16); (5, 0x1203003); (6, 7); (7, 7); (8, 0); (604, 7); (605, 7)]
    ∧ ∃ k, arg_ok k ∧ Forall (from_arg k) s.2.
Proof.
  destruct (ioctl_typed (λ _ : nat * list (Z * Z), True) 64 true true echo (λ k rc k', rc = 0 ∧ k' = k) [])
    with (0%nat, @nil (Z * Z)) as (rc & s & E & _ & Hs).
  - intros k Hk. apply total_ret. intros s Hs. split; [done|]. split; [|done].
    apply (sh_length _ (ao_shape _ Hk)).
  - done.
  - assert (Hrun : (λ r : Z * (nat * list (Z * Z)), (r.1, r.2.2)) <$>
        (match cvp_ioctl 64 true true echo (0%nat, []) with Done r => Some r | Fault => None end)
      = Some (0, [(0, EVA_KMD_SEND_CMD_PKT); (4, 16); (5, 0x1203003); (6, 7); (7, 7); (8, 0); (604, 7); (605, 7)]))
      by by vm_compute.
    rewrite E in Hrun. cbn [fmap option_fmap option_map fst snd] in Hrun. injection Hrun as -> Hl.
    exists s. split; [exact E|]. split; [exact Hl|].
    destruct Hs as [[Hrc _]|(k & k' & new & Hk & [_ ->] & _ & Hnew & Hall)]; [by destruct Hrc|].
    exists k. split; [exact Hk|]. cbn [stored run_stores app] in Hnew. by rewrite Hnew.
Defined.

End IoctlScenario.
