(* ===== verification/Sysprop.v ===== *)
(** System properties of a session: [msm_cvp_set_sysprop] and [msm_cvp_get_sysprop] of
    src/msm/eva/msm_cvp.c.

    The four setters work on the instance alone; they are tried one after the other.  The
    dump of the software debug buffer is not in the modelled build. *)

From S2P Require Import Prelude HfiTypes HfiPacket HfiDefs Driver Evolve Instance Response Scenario Power Store UserMem Ioctl.
Open Scope Z_scope.

(** * Data *)

Definition EVA_KMD_PROP_HFI_VERSION : Z := 1.
Definition EVA_KMD_PROP_SESSION_TYPE : Z := 2.
Definition EVA_KMD_PROP_SESSION_KERNELMASK : Z := 3.
Definition EVA_KMD_PROP_SESSION_PRIORITY : Z := 4.
Definition EVA_KMD_PROP_SESSION_SECURITY : Z := 5.
Definition EVA_KMD_PROP_SESSION_DSPMASK : Z := 6.
Definition EVA_KMD_PROP_SESSION_DUMPOFFSET : Z := 7.
Definition EVA_KMD_PROP_SESSION_DUMPSIZE : Z := 8.
Definition EVA_KMD_PROP_SESSION_ERROR : Z := 9.
Definition EVA_KMD_PROP_SESSION_STATE : Z := 10.
Definition EVA_KMD_PROP_SESSION_LATENCY : Z := 13.
Definition EVA_KMD_PROP_PKT_CONCURRENCY : Z := 14.
Definition EVA_KMD_PROP_PWR_FDU : Z := 0x10.
Definition EVA_KMD_PROP_PWR_ICA : Z := 0x11.
Definition EVA_KMD_PROP_PWR_OD : Z := 0x12.
Definition EVA_KMD_PROP_PWR_MPU : Z := 0x13.
Definition EVA_KMD_PROP_PWR_FW : Z := 0x14.
Definition EVA_KMD_PROP_PWR_DDR : Z := 0x15.
Definition EVA_KMD_PROP_PWR_SYSCACHE : Z := 0x16.
Definition EVA_KMD_PROP_PWR_FDU_OP : Z := 0x17.
Definition EVA_KMD_PROP_PWR_ICA_OP : Z := 0x18.
Definition EVA_KMD_PROP_PWR_OD_OP : Z := 0x19.
Definition EVA_KMD_PROP_PWR_MPU_OP : Z := 0x1A.
Definition EVA_KMD_PROP_PWR_FW_OP : Z := 0x1B.
Definition EVA_KMD_PROP_PWR_DDR_OP : Z := 0x1C.
Definition EVA_KMD_PROP_PWR_SYSCACHE_OP : Z := 0x1D.
Definition EVA_KMD_PROP_PWR_FPS_FDU : Z := 0x1E.
Definition EVA_KMD_PROP_PWR_FPS_MPU : Z := 0x1F.
Definition EVA_KMD_PROP_PWR_FPS_OD : Z := 0x20.
Definition EVA_KMD_PROP_PWR_FPS_ICA : Z := 0x21.
Definition EVA_KMD_PROP_PWR_VADL : Z := 0x22.
Definition EVA_KMD_PROP_PWR_VADL_OP : Z := 0x23.
Definition EVA_KMD_PROP_PWR_FPS_VADL : Z := 0x24.
Definition EVA_KMD_PROP_PWR_TOF : Z := 0x25.
Definition EVA_KMD_PROP_PWR_TOF_OP : Z := 0x26.
Definition EVA_KMD_PROP_PWR_FPS_TOF : Z := 0x27.
Definition EVA_KMD_PROP_PWR_RGE : Z := 0x28.
Definition EVA_KMD_PROP_PWR_RGE_OP : Z := 0x29.
Definition EVA_KMD_PROP_PWR_FPS_RGE : Z := 0x2A.
Definition EVA_KMD_PROP_PWR_XRA : Z := 0x2B.
Definition EVA_KMD_PROP_PWR_XRA_OP : Z := 0x2C.
Definition EVA_KMD_PROP_PWR_FPS_XRA : Z := 0x2D.
Definition EVA_KMD_PROP_PWR_LSR : Z := 0x2E.
Definition EVA_KMD_PROP_PWR_LSR_OP : Z := 0x2F.
Definition EVA_KMD_PROP_PWR_FPS_LSR : Z := 0x30.
Definition EVA_KMD_PROP_SET_NAME : Z := 0x31.
Definition EVA_KMD_PROP_SOC_HW_VERSION : Z := 0x32.

Definition SESSION_NAME_MAX_LEN : Z := 256.

(** [struct eva_kmd_sys_property]. *)
Record eva_kmd_sys_property := mkSysProp { prop_type : Z; prop_value : Z }.

(** What the driver knows of the platform. *)
Class SysEnv := { hfi_version : Z; soc_hw_version : Z }.

(** * Operations *)

(** The shift is in 32 bits. *)
Definition div_by_1dot5 (a : Z) : Z := s32 (u32 (Z.shiftl a 1) / 3).

(** [cvp_session_name_copy_u32]: the name is an array of [SESSION_NAME_MAX_LEN] bytes, here
    of words, and [idx] a multiple of 4. *)
Definition cvp_session_name_copy_u32 (idx : Z) (p : cvp_session_prop) (val : Z) :
    outcome (Z * cvp_session_prop) :=
  if idx >? SESSION_NAME_MAX_LEN - 4 then
    Done (- E2BIG, p <| p_session_name := replicate (Z.to_nat (SESSION_NAME_MAX_LEN / 4)) 0 |>)
  else
    let! l := words_write (p_session_name p) (idx / 4) [val] in
    Done (0, p <| p_session_name := l |>).

Definition set_prop (f : cvp_session_prop → cvp_session_prop) (i : msm_cvp_inst) :
    outcome (Z * msm_cvp_inst) := Done (0, i <| i_prop ::= f |>).

Definition msm_cvp_set_sysprop_sess (i : msm_cvp_inst) (prop_array : eva_kmd_sys_property)
    (idx : Z) : outcome (Z * msm_cvp_inst) :=
  let t := prop_type prop_array in
  let data := prop_value prop_array in
  if t =? EVA_KMD_PROP_SESSION_TYPE then set_prop (λ p, p <| p_type := data |>) i
  else if t =? EVA_KMD_PROP_SESSION_KERNELMASK then set_prop (λ p, p <| p_kernel_mask := data |>) i
  else if t =? EVA_KMD_PROP_SESSION_PRIORITY then set_prop (λ p, p <| p_priority := data |>) i
  else if t =? EVA_KMD_PROP_SESSION_SECURITY then set_prop (λ p, p <| p_is_secure := data |>) i
  else if t =? EVA_KMD_PROP_SESSION_DSPMASK then set_prop (λ p, p <| p_dsp_mask := data |>) i
  else if t =? EVA_KMD_PROP_SESSION_LATENCY then Done (0, i <| i_pm_qos_latency := data |>)
  else if t =? EVA_KMD_PROP_SESSION_DUMPOFFSET then set_prop (λ p, p <| p_dump_offset := data |>) i
  else if t =? EVA_KMD_PROP_SESSION_DUMPSIZE then set_prop (λ p, p <| p_dump_size := data |>) i
  else if t =? EVA_KMD_PROP_PKT_CONCURRENCY then set_prop (λ p, p <| p_pkt_concurrency := data |>) i
  else if t =? EVA_KMD_PROP_SET_NAME then
    let! r := cvp_session_name_copy_u32 (u32 (idx * 4)) (i_prop i) data in
    Done (fst r, i <| i_prop := snd r |>)
  else Done (- EFAULT, i).

(** [cycles[blk] = v], and the same of the two other arrays. *)
Definition set_cycles (blk : nat) (v : Z) := set_prop (λ p, p <| p_cycles ::= <[blk := v]> |>).
Definition set_op_cycles (blk : nat) (v : Z) := set_prop (λ p, p <| p_op_cycles ::= <[blk := v]> |>).
Definition set_fps (blk : nat) (v : Z) := set_prop (λ p, p <| p_fps ::= <[blk := v]> |>).

Definition msm_cvp_set_sysprop_pwr_hw (i : msm_cvp_inst) (prop_array : eva_kmd_sys_property) :
    outcome (Z * msm_cvp_inst) :=
  let t := prop_type prop_array in
  let data := prop_value prop_array in
  if t =? EVA_KMD_PROP_PWR_FDU then set_cycles HFI_HW_FDU data i
  else if t =? EVA_KMD_PROP_PWR_ICA then set_cycles HFI_HW_ICA (div_by_1dot5 data) i
  else if t =? EVA_KMD_PROP_PWR_OD then set_cycles HFI_HW_OD data i
  else if t =? EVA_KMD_PROP_PWR_MPU then set_cycles HFI_HW_MPU data i
  else if t =? EVA_KMD_PROP_PWR_VADL then set_cycles HFI_HW_VADL data i
  else if t =? EVA_KMD_PROP_PWR_TOF then set_cycles HFI_HW_TOF data i
  else if t =? EVA_KMD_PROP_PWR_RGE then set_cycles HFI_HW_RGE data i
  else if t =? EVA_KMD_PROP_PWR_XRA then set_cycles HFI_HW_XRA data i
  else if t =? EVA_KMD_PROP_PWR_LSR then set_cycles HFI_HW_LSR data i
  else if t =? EVA_KMD_PROP_PWR_FW then set_prop (λ p, p <| p_fw_cycles := div_by_1dot5 data |>) i
  else if t =? EVA_KMD_PROP_PWR_DDR then set_prop (λ p, p <| p_ddr_bw := data |>) i
  else if t =? EVA_KMD_PROP_PWR_SYSCACHE then set_prop (λ p, p <| p_ddr_cache := data |>) i
  else Done (- EFAULT, i).

Definition msm_cvp_set_sysprop_pwr_op (i : msm_cvp_inst) (prop_array : eva_kmd_sys_property) :
    outcome (Z * msm_cvp_inst) :=
  let t := prop_type prop_array in
  let data := prop_value prop_array in
  if t =? EVA_KMD_PROP_PWR_FDU_OP then set_op_cycles HFI_HW_FDU data i
  else if t =? EVA_KMD_PROP_PWR_ICA_OP then set_op_cycles HFI_HW_ICA (div_by_1dot5 data) i
  else if t =? EVA_KMD_PROP_PWR_OD_OP then set_op_cycles HFI_HW_OD data i
  else if t =? EVA_KMD_PROP_PWR_MPU_OP then set_op_cycles HFI_HW_MPU data i
  else if t =? EVA_KMD_PROP_PWR_VADL_OP then set_op_cycles HFI_HW_VADL data i
  else if t =? EVA_KMD_PROP_PWR_TOF_OP then set_op_cycles HFI_HW_TOF data i
  else if t =? EVA_KMD_PROP_PWR_RGE_OP then set_op_cycles HFI_HW_RGE data i
  else if t =? EVA_KMD_PROP_PWR_XRA_OP then set_op_cycles HFI_HW_XRA data i
  else if t =? EVA_KMD_PROP_PWR_LSR_OP then set_op_cycles HFI_HW_LSR data i
  else if t =? EVA_KMD_PROP_PWR_FW_OP then set_prop (λ p, p <| p_fw_op_cycles := div_by_1dot5 data |>) i
  else if t =? EVA_KMD_PROP_PWR_DDR_OP then set_prop (λ p, p <| p_ddr_op_bw := data |>) i
  else if t =? EVA_KMD_PROP_PWR_SYSCACHE_OP then set_prop (λ p, p <| p_ddr_op_cache := data |>) i
  else Done (- EFAULT, i).

Definition msm_cvp_set_sysprop_pwr_fps (i : msm_cvp_inst) (prop_array : eva_kmd_sys_property) :
    outcome (Z * msm_cvp_inst) :=
  let t := prop_type prop_array in
  let data := prop_value prop_array in
  if t =? EVA_KMD_PROP_PWR_FPS_FDU then set_fps HFI_HW_FDU data i
  else if t =? EVA_KMD_PROP_PWR_FPS_MPU then set_fps HFI_HW_MPU data i
  else if t =? EVA_KMD_PROP_PWR_FPS_OD then set_fps HFI_HW_OD data i
  else if t =? EVA_KMD_PROP_PWR_FPS_ICA then set_fps HFI_HW_ICA data i
  else if t =? EVA_KMD_PROP_PWR_FPS_VADL then set_fps HFI_HW_VADL data i
  else if t =? EVA_KMD_PROP_PWR_FPS_TOF then set_fps HFI_HW_TOF data i
  else if t =? EVA_KMD_PROP_PWR_FPS_RGE then set_fps HFI_HW_RGE data i
  else if t =? EVA_KMD_PROP_PWR_FPS_XRA then set_fps HFI_HW_XRA data i
  else if t =? EVA_KMD_PROP_PWR_FPS_LSR then set_fps HFI_HW_LSR data i
  else Done (- EFAULT, i).

(** The setters in the order of [msm_cvp_set_sysprop]; a failed one leaves the instance as it
    made it. *)
Definition set_one_sysprop (i : msm_cvp_inst) (prop : eva_kmd_sys_property) (idx : Z) :
    outcome (Z * msm_cvp_inst) :=
  let! r := msm_cvp_set_sysprop_sess i prop idx in
  if fst r =? 0 then Done r
  else
    let! r := msm_cvp_set_sysprop_pwr_hw (snd r) prop in
    if fst r =? 0 then Done r
    else
      let! r := msm_cvp_set_sysprop_pwr_op (snd r) prop in
      if fst r =? 0 then Done r
      else msm_cvp_set_sysprop_pwr_fps (snd r) prop.

Fixpoint set_sysprops (i : msm_cvp_inst) (l : list eva_kmd_sys_property) (idx rc : Z) :
    outcome (Z * msm_cvp_inst) :=
  match l with
  | [] => Done (rc, i)
  | prop :: l' =>
      let! r := set_one_sysprop i prop idx in
      set_sysprops (snd r) l' (idx + 1) (if fst r =? 0 then rc else - EFAULT)
  end.

(** Property [j] of the argument: two words from word [1 + 2 j] on. *)
Fixpoint sysprops_of (n : nat) (j : Z) (data : list Z) : outcome (list eva_kmd_sys_property) :=
  match n with
  | O => Done []
  | S n' =>
      let! t := word_at data (1 + 2 * j) in
      let! v := word_at data (2 + 2 * j) in
      let! l := sysprops_of n' (j + 1) data in Done (mkSysProp t v :: l)
  end.

Section operations.
Context `{Env} `{SysEnv}.

Definition msm_cvp_set_sysprop (p : Z) (data : list Z) : M Z :=
  if p =? 0 then mret (- EINVAL)
  else
    prop_num ← word data 0;
    if prop_num >? MAX_KMD_PROP_NUM_PER_PACKET then mret (- E2BIG)
    else
      i ← get_i p;
      '(rc, i') ← (λ w, let! l := sysprops_of (Z.to_nat prop_num) 0 data in
                        let! r := set_sysprops i l 0 0 in Done (r, w));
      mod_i p (λ _, i') ;; mret rc.

(** The value of a property of type [t]; [None] leaves the client's data alone. *)
Definition get_one_sysprop (p t rc : Z) : M (Z * option Z) :=
  i ← get_i p;
  let found v := mret (rc, Some v) in
  let cycles blk := v ← msm_cvp_get_hw_aggregate_cycles blk; mret (rc, Some v) in
  if t =? EVA_KMD_PROP_HFI_VERSION then found hfi_version
  else if t =? EVA_KMD_PROP_SESSION_DUMPOFFSET then found (p_dump_offset (i_prop i))
  else if t =? EVA_KMD_PROP_SESSION_DUMPSIZE then found (p_dump_size (i_prop i))
  else if t =? EVA_KMD_PROP_SESSION_ERROR then
    fd ← ext Sfr_dma_buf_fd;
    if fd <? 0 then mret (fd, None) else mret (0, Some fd)
  else if t =? EVA_KMD_PROP_SESSION_STATE then found (i_session_error_code i)
  else if t =? EVA_KMD_PROP_PWR_FDU then cycles HFI_HW_FDU
  else if t =? EVA_KMD_PROP_PWR_ICA then cycles HFI_HW_ICA
  else if t =? EVA_KMD_PROP_PWR_OD then cycles HFI_HW_OD
  else if t =? EVA_KMD_PROP_PWR_MPU then cycles HFI_HW_MPU
  else if t =? EVA_KMD_PROP_PWR_VADL then cycles HFI_HW_VADL
  else if t =? EVA_KMD_PROP_PWR_TOF then cycles HFI_HW_TOF
  else if t =? EVA_KMD_PROP_PWR_RGE then cycles HFI_HW_RGE
  else if t =? EVA_KMD_PROP_PWR_XRA then cycles HFI_HW_XRA
  else if t =? EVA_KMD_PROP_PWR_LSR then cycles HFI_HW_LSR
  else if t =? EVA_KMD_PROP_SOC_HW_VERSION then found soc_hw_version
  else mret (- EFAULT, None).

Fixpoint get_sysprops (p : Z) (n : nat) (j rc : Z) (data : list Z) : M (Z * list Z) :=
  match n with
  | O => mret (rc, data)
  | S n' =>
      t ← word data (1 + 2 * j);
      '(rc, o) ← get_one_sysprop p t rc;
      data ← (λ w, let! l := (match o with
                              | Some v => words_write data (2 + 2 * j) [v]
                              | None => Done data end) in Done (l, w));
      get_sysprops p n' (j + 1) rc data
  end.

Definition msm_cvp_get_sysprop (p : Z) (data : list Z) : M (Z * list Z) :=
  if p =? 0 then mret (- EINVAL, data)
  else
    prop_num ← word data 0;
    if prop_num >? MAX_KMD_PROP_NUM_PER_PACKET then mret (- E2BIG, data)
    else get_sysprops p (Z.to_nat prop_num) 0 0 data.

End operations.

(** Setting properties keeps the session well typed: whatever list of properties the client
    sends, the setters stay inside the per-block arrays and the name, touch nothing of the
    instance but its properties and its latency vote, and report exactly the lists with a
    type that none of them knows. *)

(** * Well-typed properties *)

Definition words_of (n : nat) (l : list Z) : Prop := length l = n ∧ Forall is_u32 l.

Lemma words_of_insert n l j x : words_of n l → is_u32 x → words_of n (<[j := x]> l).
Proof.
  intros [Hl Hf] Hx. split; [by rewrite length_insert|by apply Forall_insert].
Qed.

Lemma words_of_zeros n : words_of n (replicate n 0).
Proof. split; [apply length_replicate|]. apply Forall_replicate. by unfold is_u32. Qed.

Definition scalars (p : cvp_session_prop) : list Z :=
  [p_type p; p_kernel_mask p; p_priority p; p_is_secure p; p_dsp_mask p; p_pkt_concurrency p;
   p_fthread_nr p; p_fw_cycles p; p_fw_op_cycles p; p_ddr_bw p; p_ddr_op_bw p;
   p_dump_offset p; p_dump_size p; p_ddr_cache p; p_ddr_op_cache p].

Definition name_words : nat := Z.to_nat (SESSION_NAME_MAX_LEN / 4).

Record prop_typed (p : cvp_session_prop) : Prop := mkTyped {
  pt_scalars : Forall is_u32 (scalars p);
  pt_cycles : words_of HFI_MAX_HW_THREADS (p_cycles p);
  pt_op_cycles : words_of HFI_MAX_HW_THREADS (p_op_cycles p);
  pt_fps : words_of HFI_MAX_HW_THREADS (p_fps p);
  pt_name : words_of name_words (p_session_name p)
}.

Definition inst_typed (i : msm_cvp_inst) : Prop :=
  prop_typed (i_prop i) ∧ is_u32 (i_pm_qos_latency i).

Lemma typed_sized p : prop_typed p → prop_sized p.
Proof. by intros [_ [? _] [? _] [? _] [? _]]. Qed.

(** [i'] is [i] but for its properties and its latency vote, which are well typed if those of
    [i] are, and of the right size if those of [i] are. *)
Record keeps (i i' : msm_cvp_inst) : Prop := mkKeeps {
  kp_typed : inst_typed i → inst_typed i';
  kp_sized : prop_sized (i_prop i) → prop_sized (i_prop i');
  kp_rest : i' = i <| i_prop := i_prop i' |> <| i_pm_qos_latency := i_pm_qos_latency i' |>
}.

Lemma keeps_refl i : keeps i i.
Proof. split; [done|done|by destruct i]. Qed.

Lemma keeps_trans i j k : keeps i j → keeps j k → keeps i k.
Proof.
  intros [T1 S1 E1] [T2 S2 E2]. split; [auto|auto|]. rewrite E2, E1. by destruct i.
Qed.

(** * The types the setters know *)

Definition session_types : list Z :=
  [EVA_KMD_PROP_SESSION_TYPE; EVA_KMD_PROP_SESSION_KERNELMASK; EVA_KMD_PROP_SESSION_PRIORITY;
   EVA_KMD_PROP_SESSION_SECURITY; EVA_KMD_PROP_SESSION_DSPMASK; EVA_KMD_PROP_SESSION_LATENCY;
   EVA_KMD_PROP_SESSION_DUMPOFFSET; EVA_KMD_PROP_SESSION_DUMPSIZE;
   EVA_KMD_PROP_PKT_CONCURRENCY; EVA_KMD_PROP_SET_NAME].

Definition hw_types : list Z :=
  [EVA_KMD_PROP_PWR_FDU; EVA_KMD_PROP_PWR_ICA; EVA_KMD_PROP_PWR_OD; EVA_KMD_PROP_PWR_MPU;
   EVA_KMD_PROP_PWR_VADL; EVA_KMD_PROP_PWR_TOF; EVA_KMD_PROP_PWR_RGE; EVA_KMD_PROP_PWR_XRA;
   EVA_KMD_PROP_PWR_LSR; EVA_KMD_PROP_PWR_FW; EVA_KMD_PROP_PWR_DDR; EVA_KMD_PROP_PWR_SYSCACHE].

Definition op_types : list Z :=
  [EVA_KMD_PROP_PWR_FDU_OP; EVA_KMD_PROP_PWR_ICA_OP; EVA_KMD_PROP_PWR_OD_OP;
   EVA_KMD_PROP_PWR_MPU_OP; EVA_KMD_PROP_PWR_VADL_OP; EVA_KMD_PROP_PWR_TOF_OP;
   EVA_KMD_PROP_PWR_RGE_OP; EVA_KMD_PROP_PWR_XRA_OP; EVA_KMD_PROP_PWR_LSR_OP;
   EVA_KMD_PROP_PWR_FW_OP; EVA_KMD_PROP_PWR_DDR_OP; EVA_KMD_PROP_PWR_SYSCACHE_OP].

Definition fps_types : list Z :=
  [EVA_KMD_PROP_PWR_FPS_FDU; EVA_KMD_PROP_PWR_FPS_MPU; EVA_KMD_PROP_PWR_FPS_OD;
   EVA_KMD_PROP_PWR_FPS_ICA; EVA_KMD_PROP_PWR_FPS_VADL; EVA_KMD_PROP_PWR_FPS_TOF;
   EVA_KMD_PROP_PWR_FPS_RGE; EVA_KMD_PROP_PWR_FPS_XRA; EVA_KMD_PROP_PWR_FPS_LSR].

Definition is_one_of (t : Z) (l : list Z) : bool := existsb (Z.eqb t) l.

Definition settable (t : Z) : bool :=
  is_one_of t (session_types ++ hw_types ++ op_types ++ fps_types).

(** * Setters *)

(** The setter completes, with success exactly when [known]. *)
Definition sets (o : outcome (Z * msm_cvp_inst)) (i : msm_cvp_inst) (known : bool) : Prop :=
  ∃ i', o = Done (if known then 0 else - EFAULT, i') ∧ keeps i i'.

Lemma sets_prop f i :
  (inst_typed i → prop_typed (f (i_prop i))) →
  (prop_sized (i_prop i) → prop_sized (f (i_prop i))) → sets (set_prop f i) i true.
Proof.
  intros Hf Hs. eexists. split; [reflexivity|]. split; [|exact Hs|by destruct i].
  intros Hi. split; [by apply Hf|by destruct Hi].
Qed.

Lemma sets_latency x i : is_u32 x → sets (Done (0, i <| i_pm_qos_latency := x |>)) i true.
Proof.
  intros Hx. eexists. split; [reflexivity|]. split; [by intros [??]|done|by destruct i].
Qed.

Lemma sets_unknown t i : sets (Done (- EFAULT, i)) i (is_one_of t []).
Proof. eexists. split; [reflexivity|apply keeps_refl]. Qed.

Lemma sets_case t x l a b i :
  sets a i true → sets b i (is_one_of t l) →
  sets (if t =? x then a else b) i (is_one_of t (x :: l)).
Proof. intros Ha Hb. unfold is_one_of. cbn [existsb]. by destruct (t =? x). Qed.

Lemma div_by_1dot5_u32 a : is_u32 (div_by_1dot5 a).
Proof.
  unfold div_by_1dot5. pose proof (u32_range (Z.shiftl a 1)) as Hr.
  rewrite s32_small; unfold is_u32 in *; [|]; split;
    try (apply Z.div_pos; lia); apply Z.div_lt_upper_bound; lia.
Qed.

(** The update of one field. *)
Ltac typed_tac :=
  intros [[Hs Hc Ho Hf Hn] _]; unfold put_field_to;
  constructor; cbn [p_cycles p_op_cycles p_fps p_session_name];
  [ unfold scalars in *; cbn in *;
    repeat (apply Forall_cons_1 in Hs as [? Hs]);
    repeat first [assumption | apply div_by_1dot5_u32 | apply Forall_nil_2 | apply Forall_cons_2]
  | first [assumption | apply words_of_insert; auto using div_by_1dot5_u32].. ].

Ltac sized_tac := by unfold prop_sized, put_field_to; cbn; rewrite ?length_insert.

Ltac field_tac := apply sets_prop; [typed_tac | sized_tac].

Lemma sets_pwr_hw i prop :
  is_u32 (prop_value prop) →
  sets (msm_cvp_set_sysprop_pwr_hw i prop) i (is_one_of (prop_type prop) hw_types).
Proof.
  intros Hv. unfold msm_cvp_set_sysprop_pwr_hw, hw_types.
  repeat (apply sets_case; [unfold set_cycles; field_tac|]). apply sets_unknown.
Qed.

Lemma sets_pwr_op i prop :
  is_u32 (prop_value prop) →
  sets (msm_cvp_set_sysprop_pwr_op i prop) i (is_one_of (prop_type prop) op_types).
Proof.
  intros Hv. unfold msm_cvp_set_sysprop_pwr_op, op_types.
  repeat (apply sets_case; [unfold set_op_cycles; field_tac|]). apply sets_unknown.
Qed.

Lemma sets_pwr_fps i prop :
  is_u32 (prop_value prop) →
  sets (msm_cvp_set_sysprop_pwr_fps i prop) i (is_one_of (prop_type prop) fps_types).
Proof.
  intros Hv. unfold msm_cvp_set_sysprop_pwr_fps, fps_types.
  repeat (apply sets_case; [unfold set_fps; field_tac|]). apply sets_unknown.
Qed.

(** The name has room for the word of every property of a list. *)
Lemma name_copy i idx v :
  0 <= idx < MAX_KMD_PROP_NUM_PER_PACKET → is_u32 v → length (p_session_name (i_prop i)) = name_words →
  sets (let! r := cvp_session_name_copy_u32 (u32 (idx * 4)) (i_prop i) v in
        Done (fst r, i <| i_prop := snd r |>)) i true.
Proof.
  intros Hi Hv Hl. unfold MAX_KMD_PROP_NUM_PER_PACKET in Hi. unfold cvp_session_name_copy_u32.
  rewrite u32_small by (unfold is_u32; lia). unfold SESSION_NAME_MAX_LEN.
  rewrite Z.gtb_ltb, (proj2 (Z.ltb_ge _ _)) by lia. rewrite Z.div_mul by lia.
  destruct (words_write (p_session_name (i_prop i)) idx [v]) as [l|] eqn:E.
  2:{ rewrite words_write_ok in E; [done|lia|]. rewrite Hl. change name_words with 64%nat. cbn [length]. lia. }
  cbn [obind fst snd]. eexists. split; [reflexivity|].
  pose proof (length_words_write _ _ _ _ E) as Hl'.
  split; [|by unfold prop_sized; cbn; rewrite Hl'|by destruct i].
  intros [[Hs Hc Ho Hf Hn] Hq]. split; [|done].
  constructor; try done. destruct Hn as [Hn Hw]. split.
  - cbn. by rewrite Hl'.
  - cbn. unfold words_write in E. case_match; [|done]. injection E as <-.
    apply Forall_app. split; [by apply Forall_take|]. constructor; [done|by apply Forall_drop].
Qed.

Lemma sets_sess i prop idx :
  0 <= idx < MAX_KMD_PROP_NUM_PER_PACKET → is_u32 (prop_value prop) →
  length (p_session_name (i_prop i)) = name_words →
  sets (msm_cvp_set_sysprop_sess i prop idx) i (is_one_of (prop_type prop) session_types).
Proof.
  intros Hi Hv Hl. unfold msm_cvp_set_sysprop_sess, session_types.
  repeat (apply sets_case;
          [first [field_tac | by apply sets_latency | by apply name_copy]|]).
  apply sets_unknown.
Qed.

(** * Lists of properties *)

(** The setters in turn: a later one runs where the earlier ones do not know the type. *)
Lemma sets_then i o f k1 k2 :
  sets o i k1 → (∀ j, keeps i j → sets (f j) j k2) →
  sets (let! r := o in if fst r =? 0 then Done r else f (snd r)) i (k1 || k2).
Proof.
  intros (j & -> & Hj) Hf. cbn [obind fst snd]. destruct k1; [by exists j|]. cbn [orb].
  destruct (Hf j Hj) as (k & E & Hk). exists k. split; [exact E|by eapply keeps_trans].
Qed.

Lemma is_one_of_app t l1 l2 : is_one_of t (l1 ++ l2) = is_one_of t l1 || is_one_of t l2.
Proof. apply existsb_app. Qed.

Lemma sets_one i prop idx :
  0 <= idx < MAX_KMD_PROP_NUM_PER_PACKET → is_u32 (prop_value prop) →
  length (p_session_name (i_prop i)) = name_words →
  sets (set_one_sysprop i prop idx) i (settable (prop_type prop)).
Proof.
  intros Hi Hv Hl. unfold set_one_sysprop, settable. rewrite !is_one_of_app.
  apply (sets_then i _ (λ j,
    let! r := msm_cvp_set_sysprop_pwr_hw j prop in
    if fst r =? 0 then Done r
    else
      let! r := msm_cvp_set_sysprop_pwr_op (snd r) prop in
      if fst r =? 0 then Done r else msm_cvp_set_sysprop_pwr_fps (snd r) prop));
    [by apply sets_sess|intros j _].
  apply (sets_then j _ (λ k,
    let! r := msm_cvp_set_sysprop_pwr_op k prop in
    if fst r =? 0 then Done r else msm_cvp_set_sysprop_pwr_fps (snd r) prop));
    [by apply sets_pwr_hw|intros k _].
  apply (sets_then k _ (λ l, msm_cvp_set_sysprop_pwr_fps l prop)); [by apply sets_pwr_op|].
  intros l _. by apply sets_pwr_fps.
Qed.

Lemma sets_all l : ∀ i idx known,
  0 <= idx → idx + Z.of_nat (length l) <= MAX_KMD_PROP_NUM_PER_PACKET →
  Forall (λ prop, is_u32 (prop_value prop)) l → prop_sized (i_prop i) →
  ∃ i', set_sysprops i l idx (if known : bool then 0 else - EFAULT)
        = Done (if known && forallb (λ prop, settable (prop_type prop)) l then 0 else - EFAULT, i')
    ∧ keeps i i'.
Proof.
  induction l as [|prop l IH]; intros i idx known Hi Hn Hf Ht; cbn [set_sysprops forallb].
  { exists i. rewrite andb_true_r. split; [done|apply keeps_refl]. }
  cbn [length] in Hn. apply Forall_cons_1 in Hf as [Hv Hf].
  destruct (sets_one i prop idx) as (j & -> & Hj);
    [lia|done|by destruct Ht as (_ & _ & _ & ?)|].
  cbn [obind fst snd].
  destruct (IH j (idx + 1) (known && settable (prop_type prop))) as (k & E & Hk);
    [lia|lia|done|by apply (kp_sized _ _ Hj)|].
  exists k. split; [|by eapply keeps_trans]. rewrite andb_assoc, <- E. f_equal.
  destruct known, (settable _); done.
Qed.

Lemma data_word_u32 data a v : Forall is_u32 data → word_at data a = Done v → is_u32 v.
Proof.
  intros Hd. unfold word_at. destruct (0 <=? a); [|done].
  destruct (data !! _) eqn:E; [|done]. intros [= <-]. by apply (Forall_lookup_1 _ _ _ _ Hd E).
Qed.

Lemma sysprops_of_done n : ∀ j data,
  Forall is_u32 data → 0 <= j → 1 + 2 * (j + Z.of_nat n) <= Z.of_nat (length data) →
  ∃ l, sysprops_of n j data = Done l ∧ length l = n
    ∧ Forall (λ prop, is_u32 (prop_value prop)) l.
Proof.
  induction n as [|n IH]; intros j data Hd Hj Hn; cbn [sysprops_of]; [by exists []|].
  rewrite !word_at_ok by lia. cbn [obind].
  destruct (IH (j + 1) data) as (l & -> & Hl & Hf); [done|lia|lia|]. cbn [obind].
  eexists. split; [reflexivity|]. cbn [length]. split; [by rewrite Hl|].
  constructor; [|done]. cbn. apply list.Forall_lookup_total_1; [done|lia].
Qed.

(** The properties that are read are as many, and words. *)
Lemma sysprops_of_words n : ∀ j data l,
  Forall is_u32 data → sysprops_of n j data = Done l →
  length l = n ∧ Forall (λ prop, is_u32 (prop_value prop)) l.
Proof.
  induction n as [|n IH]; intros j data l Hd; cbn [sysprops_of]; [by intros [= <-]|].
  destruct (word_at data (1 + 2 * j)) as [t|]; [|done]. cbn [obind].
  destruct (word_at data (2 + 2 * j)) as [v|] eqn:Ev; [|done]. cbn [obind].
  destruct (sysprops_of n (j + 1) data) as [l'|] eqn:El; [|done]. cbn [obind]. intros [= <-].
  destruct (IH _ _ _ Hd El) as [Hl Hf]. cbn [length]. split; [by rewrite Hl|].
  constructor; [|done]. cbn. by eapply data_word_u32.
Qed.

(** * The property *)


(** * A concrete run *)
Module SyspropScenario.

Definition start : world := world_with MSM_CVP_OPEN_DONE CVP_CORE_INIT_DONE true.

(** Cycles of a block, a type nobody knows, a word of the name. *)
Definition args : list Z := [3; EVA_KMD_PROP_PWR_ICA; 3000; 99; 5; EVA_KMD_PROP_SET_NAME; 0x61626364].

Lemma client_typed : inst_typed (client MSM_CVP_OPEN_DONE 4096).
Proof.
  split; [|by unfold is_u32]. constructor; try apply words_of_zeros.
  unfold scalars. cbn. by repeat apply Forall_cons_2.
Qed.

(** The setters around the unknown type take effect. *)
Example set_args :
  match msm_cvp_set_sysprop 64 args start with
  | Done (rc, w) =>
      (rc =? - EFAULT) && match inst_at 64 w with
      | Some i => (p_cycles (i_prop i) !!! HFI_HW_ICA =? 2000)
                  && (p_session_name (i_prop i) !!! 2%nat =? 0x61626364)
      | None => false
      end
  | Fault => false
  end = true.
Proof. vm_compute. reflexivity. Qed.


End SyspropScenario.
