(* ===== verification/Control.v ===== *)
(** Control of a session (src/msm/eva/msm_cvp.c): creation, start and stop, the driver's own
    buffer for the firmware (msm_cvp_common.c), and the system calls of a client.

    The argument of a system call is that of Ioctl.v: the words of its union.  A client's
    session has no DSP process, so registering a buffer with an index fails. *)

From S2P Require Import Prelude Store HfiTypes HfiPacket HfiDefs Driver Instance HfiSession.
From S2P Require Import Response Session Power Smem Buffers UserMem Wncc Fences Commands Ioctl Sysprop.
Open Scope Z_scope.

(** * Data *)

Definition SESSION_CREATE : Z := 1.
Definition SESSION_DELETE : Z := 2.
Definition SESSION_START : Z := 3.
Definition SESSION_STOP : Z := 4.

Definition ARP_BUF_SIZE : Z := 0x300000.
Definition ARP_CHUNK_SIZE : Z := 204800.

Definition ECHILD : Z := 10.
Definition EUCLEAN : Z := 117.

(** [ALIGN] of the kernel, to a power of two. *)
Definition ALIGN (x a : Z) : Z := Z.land (x + (a - 1)) (Z.lnot (a - 1)).

(** * Operations *)
Section operations.
Context `{Env} `{SysEnv} `{FenceEnv} `{BufEnv} `{RbTree} `{UserMem}.
Context (bus_tbl : list (String.string * Z)).

(** ** The driver's buffer for the firmware *)

(** The size of the buffer; [None] when the number of concurrent packets is refused. *)
Definition arp_size (pkt_concurrency : Z) : option Z :=
  if env_hfi_ver =? 1 then Some ARP_BUF_SIZE
  else
    let n := if pkt_concurrency =? 0 then 8 else pkt_concurrency in
    if n >? 16 then None else Some (u32 (ALIGN ARP_CHUNK_SIZE PAGE_SIZE * n)).

(** The address and the size of the buffer that was added last. *)
Definition last_persist : B (Z * Z) :=
  l ← gets b_persistbufs;
  match list.last l with
  | Some b => a ← smem_get (ib_smem b); mret (sm_device_addr a, sm_size a)
  | None => stuck
  end.

Definition set_internal_buf_on_fw (p iova size : Z) : M Z :=
  i ← get_i p; iris_hfi_session_set_buffers (i_session i) iova size.

(** [cvp_release_arp_buffers], on the session as a whole. *)
Definition release_arp_buffers (p : Z) : U Z :=
  i ← on_world (get_i p);
  rc ← (if (st (i_state i) >? st MSM_CVP_CORE_INIT_DONE) && (st (i_state i) <=? st MSM_CVP_CLOSE_DONE)
        then
          on_world (rc ← iris_hfi_session_release_buffers (i_session i);
                    if rc =? 0 then wait_for_sess_signal_receipt p HAL_SESSION_RELEASE_BUFFER_DONE
                    else mret rc)
        else mret 0);
  l ← on_bufs (gets b_persistbufs);
  on_bufs (release_arp [] l rc).

Definition cvp_comm_set_arp_buffers (p : Z) : U Z :=
  if p =? 0 then mret (- EINVAL)
  else
    i ← on_world (get_i p);
    match arp_size (p_pkt_concurrency (i_prop i)) with
    | None => mret (- EINVAL)
    | Some size =>
        ok ← on_bufs (cvp_allocate_arp_bufs size);
        if negb ok then mret (- ENOMEM)
        else
          '(iova, size) ← on_bufs last_persist;
          rc ← on_world (rc ← set_internal_buf_on_fw p iova size;
                         if rc =? 0 then wait_for_sess_signal_receipt p HAL_SESSION_SET_BUFFER_DONE
                         else mret rc);
          if (rc =? 0) || (rc =? - ENOMEM) then mret rc
          else release_arp_buffers p ;; mret rc
    end.

(** ** Creation *)

(** The check is compiled out: [CVP_TZ] is not defined. *)
Definition msm_cvp_secure_sess_check (p : Z) : M Z := mret 0.

Definition msm_cvp_session_create (p : Z) : U Z :=
  if p =? 0 then mret (- EINVAL)
  else
    i ← on_world (get_i p);
    if st (i_state i) >=? st MSM_CVP_CLOSE_DONE then mret (- ECONNRESET)
    else if negb (st (i_state i) =? st MSM_CVP_CORE_INIT_DONE)
            || (st (i_state i) >? st MSM_CVP_OPEN_DONE)
    then mret (- EINVAL)
    else
      rc ← on_world (msm_cvp_comm_try_state p (st MSM_CVP_OPEN_DONE));
      if negb (rc =? 0) then mret rc
      else
        rc ← on_world (msm_cvp_secure_sess_check p);
        if negb (rc =? 0) then mret rc
        else
          rc ← cvp_comm_set_arp_buffers p;
          if negb (rc =? 0) then
            on_world (msm_cvp_comm_try_state p (st MSM_CVP_CLOSE_DONE)) ;; mret rc
          else
            on_world (ext Init_synx) ;;
            on_world (mod_session_queue p (λ q, q <| sq_state := QUEUE_ACTIVE |>)) ;;
            mret rc.

Definition session_state_check_init (p : Z) : U Z :=
  i ← on_world (get_i p);
  if bool_decide (i_state i = MSM_CVP_OPEN) || bool_decide (i_state i = MSM_CVP_OPEN_DONE)
  then mret 0 else msm_cvp_session_create p.

Definition msm_cvp_session_delete (p : Z) : M Z := mret 0.

(** ** Start and stop *)

(** Every thread takes a reference of its own. *)
Fixpoint start_threads (n : nat) (p : Z) : M Z :=
  match n with
  | O => mret 0
  | S n' =>
      s ← cvp_get_inst_validate p;
      if s =? 0 then mret (- ECONNRESET)
      else
        thread ← ext Kthread_run;
        if thread =? 0 then mret (- ECHILD) else start_threads n' p
  end.

Definition cvp_fence_thread_start (p : Z) : M Z :=
  if p =? 0 then mret (- EINVAL)
  else
    inst ← cvp_get_inst_validate p;
    if inst =? 0 then mret (- EINVAL)
    else
      i ← get_i inst;
      if p_fthread_nr (i_prop i) =? 0 then cvp_put_inst inst ;; mret 0
      else
        mod_fq inst (λ q, q <| fq_state := QUEUE_START |>) ;;
        rc ← start_threads (Z.to_nat (p_fthread_nr (i_prop i))) inst;
        when (rc =? 0)
          (mod_i inst (λ i, i <| i_session_queue_fence ::= λ q, q <| sq_state := QUEUE_START |> |>)) ;;
        when (negb (rc =? 0)) (mod_fq inst (λ q, q <| fq_state := QUEUE_STOP |>)) ;;
        cvp_put_inst inst ;;
        mret rc.

Definition send_start_and_wait (p : Z) : M Z :=
  ktid ← next_ktid;
  i ← get_i p;
  rc ← iris_hfi_session_start (i_session i) ktid;
  if negb (rc =? 0) then mret rc else wait_for_sess_signal_receipt p HAL_SESSION_START_DONE.

Definition msm_cvp_session_start (p : Z) : M Z :=
  if p =? 0 then mret (- EINVAL)
  else
    i ← get_i p;
    if negb (sq_msg_count (i_session_queue i) =? 0) then mret (- EINVAL)
    else
      let old_state := sq_state (i_session_queue i) in
      let restore_state rc :=
        mod_session_queue p (λ q, q <| sq_state := old_state |>) ;; mret rc in
      mod_session_queue p (λ q, q <| sq_state := QUEUE_START |>) ;;
      ext Pm_qos_update ;;
      rc ← cvp_fence_thread_start p;
      if negb (rc =? 0) then restore_state rc
      else
        rc ← send_start_and_wait p;
        if negb (rc =? 0) then cvp_fence_thread_stop p ;; restore_state rc
        else mret 0.

(** The result, and what goes to the client's [ctrl_data[0]]. *)
Definition msm_cvp_session_stop (p : Z) : M (Z * option Z) :=
  if p =? 0 then mret (- EINVAL, None)
  else
    s ← cvp_get_inst_validate p;
    if s =? 0 then mret (- ECONNRESET, None)
    else
      i ← get_i p;
      let sq := i_session_queue i in
      r ← (if bool_decide (sq_state sq = QUEUE_STOP) then mret (0, None)
           else if negb (bool_decide (sq_state sq = QUEUE_INVALID)) && negb (sq_msg_count sq =? 0)
           then mret (- EUCLEAN, Some (sq_msg_count sq))
           else
             ktid ← next_ktid;
             rc ← iris_hfi_session_stop (i_session i) ktid;
             let finish rc := stop_thread p rc ;; ext Pm_qos_update ;; mret (rc, None) in
             if negb (rc =? 0) then finish rc
             else
               rc ← wait_for_sess_signal_receipt p HAL_SESSION_STOP_DONE;
               if negb (rc =? 0) then rc ← msm_cvp_session_flush_stop p; mret (rc, None)
               else finish rc);
      cvp_put_inst s ;; mret r.

Definition msm_cvp_session_queue_stop (p : Z) : M Z :=
  i ← get_i p;
  if bool_decide (sq_state (i_session_queue i) = QUEUE_STOP) then mret 0
  else
    mod_session_queue p (λ q, q <| sq_state := QUEUE_STOP |>) ;;
    cvp_fence_thread_stop p.

Definition msm_cvp_session_ctrl (p : Z) (data : list Z) : U (Z * list Z) :=
  ctrl_type ← of_outcome (word_at data 0);
  if (p =? 0) && negb (ctrl_type =? SESSION_CREATE) then mret (- EINVAL, data)
  else if ctrl_type =? SESSION_STOP then
    '(rc, o) ← on_world (msm_cvp_session_stop p);
    data ← of_outcome (match o with Some n => words_write data 1 [n] | None => Done data end);
    mret (rc, data)
  else if ctrl_type =? SESSION_START then
    rc ← on_world (msm_cvp_session_start p); mret (rc, data)
  else if ctrl_type =? SESSION_CREATE then rc ← msm_cvp_session_create p; mret (rc, data)
  else if ctrl_type =? SESSION_DELETE then
    rc ← on_world (msm_cvp_session_delete p); mret (rc, data)
  else mret (- EINVAL, data).

(** ** Registered buffers *)

(** [msm_cvp_map_buf_dsp] and [msm_cvp_unmap_buf_dsp] for an instance without a DSP task. *)
Definition map_buf_without_task (buf : eva_kmd_buffer) : B (Z * Z) :=
  mret (- EINVAL, kb_reserved0 buf).
Definition unmap_buf_without_task (buf : eva_kmd_buffer) : B Z := mret (- EINVAL).

Definition kbuf_of (data : list Z) : outcome eva_kmd_buffer :=
  let! index := word_at data 0 in
  let! type := word_at data 1 in
  let! fd := word_at data 2 in
  let! size := word_at data 3 in
  let! offset := word_at data 4 in
  let! reserved0 := word_at data 7 in
  Done (mkKbuf index type fd size offset reserved0).

Definition register (p : Z) (data : list Z) : U (Z * list Z) :=
  s ← on_world (cvp_get_inst_validate p);
  if s =? 0 then mret (- ECONNRESET, data)
  else
    i ← on_world (get_i p);
    buf ← of_outcome (kbuf_of data);
    '(rc, id) ← on_bufs (msm_cvp_register_buffer map_buf_without_task (negb (i_session i =? 0)) buf);
    data ← of_outcome (words_write data 7 [id]);
    on_world (cvp_put_inst s) ;;
    mret (rc, data).

Definition unregister (p : Z) (data : list Z) : U Z :=
  s ← on_world (cvp_get_inst_validate p);
  if s =? 0 then mret (- ECONNRESET)
  else
    i ← on_world (get_i p);
    buf ← of_outcome (kbuf_of data);
    rc ← on_bufs (msm_cvp_unregister_buffer unmap_buf_without_task (negb (i_session i =? 0)) buf);
    on_world (cvp_put_inst s) ;;
    mret rc.

(** ** System calls *)

Definition msm_cvp_session_process_hfi_fence (p : Z) : M Z := mret (- EINVAL).

(** The packet at the front of the union: its words and [oob_buf]. *)
Definition union_packet (data : list Z) : list Z := take (Z.to_nat hfi_packet_words) data.
Definition with_packet (data pkt : list Z) : list Z := pkt ++ drop (length pkt) data.

(** The switch of [msm_cvp_handle_syscall]. *)
Definition dispatch (p : Z) (arg : eva_kmd_arg) : U (Z * list Z) :=
  let t := a_type arg in
  let data := a_data arg in
  let same (m : U Z) : U (Z * list Z) := rc ← m; mret (rc, data) in
  if t =? EVA_KMD_GET_SESSION_INFO then
    '(rc, o) ← on_world (msm_cvp_get_session_info p);
    data ← of_outcome (match o with Some id => words_write data 0 [id] | None => Done data end);
    mret (rc, data)
  else if t =? EVA_KMD_UPDATE_POWER then same (on_world (msm_cvp_update_power bus_tbl p))
  else if t =? EVA_KMD_REGISTER_BUFFER then register p data
  else if t =? EVA_KMD_UNREGISTER_BUFFER then same (unregister p data)
  else if t =? EVA_KMD_RECEIVE_MSG_PKT then
    '(rc, pkt) ← msm_cvp_session_receive_hfi p (union_packet data);
    mret (rc, with_packet data pkt)
  else if t =? EVA_KMD_SEND_CMD_PKT then
    '(rc, pkt) ← msm_cvp_session_process_hfi p (union_packet data) (a_buf_offset arg) (a_buf_num arg);
    mret (rc, with_packet data pkt)
  else if t =? EVA_KMD_SEND_FENCE_CMD_PKT then same (on_world (msm_cvp_session_process_hfi_fence p))
  else if t =? EVA_KMD_SESSION_CONTROL then msm_cvp_session_ctrl p data
  else if t =? EVA_KMD_GET_SYS_PROPERTY then on_world (msm_cvp_get_sysprop p data)
  else if t =? EVA_KMD_SET_SYS_PROPERTY then same (on_world (msm_cvp_set_sysprop p data))
  else if t =? EVA_KMD_FLUSH_ALL then same (on_world (cvp_session_flush_all p))
  else if t =? EVA_KMD_FLUSH_FRAME then mret (0, data)
  else mret (- ENOTSUPP, data).

Definition msm_cvp_handle_syscall (p : Z) (arg : eva_kmd_arg) : U (Z * eva_kmd_arg) :=
  if p =? 0 then mret (- EINVAL, arg)
  else
    let t := a_type arg in
    rc ← (if (t =? EVA_KMD_SESSION_CONTROL) || (t =? EVA_KMD_SET_SYS_PROPERTY)
             || (t =? EVA_KMD_GET_SYS_PROPERTY)
          then mret 0 else session_state_check_init p);
    if negb (rc =? 0) then mret (rc, arg)
    else '(rc, data) ← dispatch p arg; mret (rc, arg <| a_data := data |>).

Definition msm_cvp_private (p : Z) (arg : eva_kmd_arg) : U (Z * eva_kmd_arg) :=
  if p =? 0 then mret (- EINVAL, arg) else msm_cvp_handle_syscall p arg.

(** ** The end of a session *)

(** What the uninitialised [index] of a local buffer holds. *)
Definition stack_word : M Z := l ← stack_packet 1; mret (l !!! 0%nat).

Definition msm_cvp_session_deinit (p : Z) : U Z :=
  if p =? 0 then mret (- EINVAL)
  else
    session ← on_world (get_sess_from_idr p);
    i ← on_world (get_i p);
    if (session =? 0) || negb (session =? i_session i) then mret 0
    else
      on_world (msm_cvp_comm_try_state p (st MSM_CVP_CLOSE_DONE)) ;;
      i ← on_world (get_i p);
      index ← on_world stack_word;
      on_bufs (msm_cvp_session_deinit_buffers (negb (i_session i =? 0)) index).

End operations.
