(* ===== verification/Life.v ===== *)
(** The life of a client's session (src/msm/eva/msm_cvp_core.c): [msm_cvp_open],
    [msm_cvp_close] and what they clean up.

    While [msm_cvp_cleanup_instance] sleeps between two looks at the frames, the interrupt
    handler runs; other threads of the client do not. *)

From S2P Require Import Prelude Store HfiTypes HfiPacket HfiDefs Driver Instance HfiSession.
From S2P Require Import Response Session Smem Buffers UserMem Wncc Fences Commands Control.
Open Scope Z_scope.

(** * Data *)

(** What the platform gives a new session. *)
Class LifeEnv := {
  msm_cvp_auto_pil : bool;
  max_secure_inst_count : Z;
  pm_qos_latency_us : Z
}.

Definition PM_QOS_RESUME_LATENCY_DEFAULT_VALUE : Z := 2147483647.
Definition REFCOUNT_SATURATED : Z := - 2 ^ 30.

(** * Operations *)
Section operations.
Context `{Env} `{SynxEnv : FenceEnv} `{BufEnv} `{RbTree} `{UserMem} `{LifeEnv}.

(** ** Opening *)

(** No instance has the flag [CVP_SECURE]: nothing sets it, so none is counted as secure. *)
Definition msm_cvp_check_for_inst_overload (c : msm_cvp_core) : bool :=
  let instance_count := Z.of_nat (length (c_instances c)) in
  (instance_count >=? c_max_inst_count c) || (0 >=? max_secure_inst_count).

Definition __init_session_queue (p : Z) : M Z :=
  mod_i p (λ i, i <| i_session_queue := mkSq QUEUE_ACTIVE 0 [] |>) ;; mret 0.

Definition __init_fence_queue (i : msm_cvp_inst) : msm_cvp_inst :=
  i <| i_fence_cmd_queue ::= λ q, q
         <| fq_wait_list := [] |> <| fq_sched_list := [] |>
         <| fq_state := QUEUE_ACTIVE |> <| fq_mode := OP_NORMAL |> |>
    <| i_session_queue_fence := mkSq QUEUE_ACTIVE 0 [] |>.

Definition msm_cvp_session_init (i : msm_cvp_inst) : msm_cvp_inst :=
  i <| i_prop ::= λ p, p
         <| p_type := 1 |> <| p_kernel_mask := 0xFFFFFFFF |> <| p_priority := 0 |>
         <| p_is_secure := 0 |> <| p_dsp_mask := 0 |> <| p_fthread_nr := 3 |> |>.

(** The memory that [kzalloc] gives. *)
Definition zero_prop : cvp_session_prop :=
  mkProp 0 0 0 0 0 0 0 (replicate HFI_MAX_HW_THREADS 0) 0 (replicate HFI_MAX_HW_THREADS 0) 0
    0 0 0 0 0 0 (replicate HFI_MAX_HW_THREADS 0) (replicate 64 0).

Definition session_msgs : nat := S (SESSION_MSG_INDEX HAL_SESSION_ERROR).

Definition zero_inst (session_type : session_type) : msm_cvp_inst :=
  mkInst session_type (mkSq QUEUE_INIT 0 []) (mkSq QUEUE_INIT 0 []) CVP_NO_EVENT 0 0
    MSM_CVP_CORE_UNINIT_DONE (replicate session_msgs 0%nat) 1 zero_prop 0 0 0
    (mkFq QUEUE_INIT OP_NORMAL [] [] 0) false pm_qos_latency_us.

(** [kref_put(&inst->kref, close_helper)]; a count that was not positive saturates. *)
Definition kref_put (p : Z) : M unit :=
  i ← get_i p;
  if i_kref i <? 1 then mod_i p (λ i, i <| i_kref := REFCOUNT_SATURATED |>)
  else
    mod_i p (λ i, i <| i_kref ::= Z.pred |>) ;;
    when (i_kref i =? 1) (msm_cvp_destroy p).

(** [msm_cvp_open]: the address of the new instance, 0 when there is none. *)
Definition msm_cvp_open (session_type : session_type) : M Z :=
  if negb msm_cvp_auto_pil && bool_decide (session_type = MSM_CVP_BOOT) then mret 0
  else
    mod_core (λ c, c <| c_max_inst_count := max_supported_inst_count |>) ;;
    c ← get_core;
    if msm_cvp_check_for_inst_overload c then mret 0
    else
      inst ← ext (Kzalloc (c_instances c).*1);
      if inst =? 0 then mret 0
      else
        let i := __init_fence_queue (msm_cvp_session_init (zero_inst session_type)) in
        mod_core (λ c, c <| c_instances ::= λ l, l ++ [(inst, i)] |>) ;;
        rc ← __init_session_queue inst;
        rc ← (if negb (rc =? 0) then mret rc
              else msm_cvp_comm_try_state inst (st MSM_CVP_CORE_INIT_DONE));
        if negb (rc =? 0) then
          msm_cvp_comm_session_clean inst ;; kref_put inst ;; mret 0
        else mret inst.

(** ** Cleaning up *)

(** The first message that carries a transaction id, and the others. *)
Fixpoint take_kdata (l : list (list Z)) : outcome (option (Z * list (list Z))) :=
  match l with
  | [] => Done None
  | m :: l' =>
      let! k := kdata_of m in
      if negb (k =? 0) then Done (Some (k, l'))
      else let! r := take_kdata l' in
           Done (match r with Some (k, r') => Some (k, m :: r') | None => None end)
  end.

(** [msm_cvp_clean_sess_queue]; every round takes a message, so as many rounds as messages
    and one more are enough. *)
Fixpoint clean_sess_queue (fuel : nat) (p : Z) (fenced : bool) : U unit :=
  i ← on_world (get_i p);
  let sq := get_sq fenced i in
  if (sq_msg_count sq =? 0) || bool_decide (sq_state sq = QUEUE_ACTIVE) then mret tt
  else
    r ← of_outcome (take_kdata (sq_msgs sq));
    match r, fuel with
    | None, _ => mret tt
    | Some _, O => stuck
    | Some (ktid, l), S fuel' =>
        on_world (mod_i p (mod_sq fenced (pop_msg l))) ;;
        on_bufs (msm_cvp_unmap_frame ktid) ;;
        clean_sess_queue fuel' p fenced
    end.

Definition msm_cvp_clean_sess_queue (p : Z) (fenced : bool) : U unit :=
  i ← on_world (get_i p);
  clean_sess_queue (length (sq_msgs (get_sq fenced i))) p fenced.

(** A sleep, and the interrupts of the firmware's packets that arrive in it. *)
Definition sleep_and_receive : M unit :=
  w ← get_world;
  ext Sleep ;;
  mod_world (λ w', w' <| w_msgq ::= λ q, q ++ arrivals (length (w_trace w)) |>) ;;
  w' ← get_world;
  interrupts (length (w_msgq w')).

(** The label [wait_frame], [max_retries] times at most. *)
Fixpoint wait_frames (max_retries : nat) (p : Z) : U unit :=
  frames ← on_bufs (gets b_frames);
  match frames, max_retries with
  | [], _ | _, O => mret tt
  | _, S n =>
      on_world sleep_and_receive ;;
      msm_cvp_clean_sess_queue p true ;;
      msm_cvp_clean_sess_queue p false ;;
      wait_frames n p
  end.

(** The label [exit], with the reference held. *)
Definition cleanup_exit (inst : Z) : U Z :=
  release_arp_buffers inst ;;
  on_world (mod_i inst (λ i, i <| i_pm_qos_latency := PM_QOS_RESUME_LATENCY_DEFAULT_VALUE |>)) ;;
  on_world (ext Pm_qos_update) ;;
  on_world (cvp_put_inst inst) ;;
  mret 0.

Definition msm_cvp_cleanup_instance (p : Z) : U Z :=
  if p =? 0 then mret (- EINVAL)
  else
    inst ← on_world (cvp_get_inst p);
    if inst =? 0 then mret 0
    else
      rc ← on_world (msm_cvp_session_flush_stop inst);
      if rc =? - ECONNRESET then cleanup_exit inst
      else if negb (rc =? 0) then on_world (cvp_put_inst inst) ;; mret rc
      else wait_frames (Z.to_nat (Z.shiftr msm_cvp_hw_rsp_timeout 1)) inst ;; cleanup_exit inst.

(** ** Closing *)

(** The label [exit]. *)
Definition close_exit (p : Z) : M Z :=
  msm_cvp_comm_session_clean p ;; kref_put p ;; mret 0.

Definition msm_cvp_close (p : Z) : U Z :=
  if p =? 0 then mret (- EINVAL)
  else
    i ← on_world (get_i p);
    let s := st (i_state i) in
    if (i_session i =? 0) && (st MSM_CVP_CORE_INIT_DONE <=? s) && (s <? st MSM_CVP_OPEN_DONE) then
      on_world (mod_i p (λ i, i <| i_state := MSM_CVP_CORE_UNINIT |>) ;; close_exit p)
    else if (i_session i =? 0) && (s =? st MSM_CVP_CORE_UNINIT) then mret (- EINVAL)
    else
      rc ← (if bool_decide (i_session_type i = MSM_CVP_BOOT) then mret 0
            else
              rc ← msm_cvp_cleanup_instance p;
              if negb (rc =? 0) then mret (- EINVAL) else msm_cvp_session_deinit p ;; mret 0);
      if negb (rc =? 0) then mret rc
      else
        on_world (rc ← msm_cvp_comm_try_state p (st MSM_CVP_CORE_UNINIT);
                  when (negb (rc =? 0)) (msm_cvp_deinit_core p ;; mret tt) ;;
                  close_exit p).

End operations.
