(* ===== verification/LifeSafe.v ===== *)
(** Whatever clients and firmware do, the driver's sessions stay well formed: an invariant of
    every run of system calls, sessions opened and closed, fence threads, interrupts, waits
    and errors (Life.v, Control.v, Commands.v, Machine.v). *)

From S2P Require Import Prelude HfiTypes HfiPacket HfiDefs Driver Evolve Local Instance HfiSession Response Session Scenario Power Machine Store Smem Buffers BufferView BufferInv BufferCache BufferFrames SessionBuffers UserMem Wncc WnccSafe Fences Commands Enqueue FenceSafe Populate Send Deliver Ioctl IoctlSafe Sysprop Control Life.
Open Scope Z_scope.

(** * Operations that let instances evolve *)
Section evolution.
Context `{Env} `{SysEnv} `{FenceEnv}.

Lemma pres_lift_outcome {A} P (o : outcome A) : pres P (lift o).
Proof. apply (pres_lift P (λ _, o)). Qed.
Hint Resolve pres_lift_outcome : pres.

Lemma pres_word_at P m i : pres P (word m i).
Proof. apply (pres_lift P (λ _, word_at m i)). Qed.
Hint Resolve pres_word_at : pres.

(** ** Fences *)

Lemma pres_import_synx fs : ∀ i fc rr, pres anywhere (import_synx fs i fc rr).
Proof. induction fs; intros; cbn [import_synx]; pres_tac. Qed.
Hint Resolve pres_import_synx : pres.

Lemma pres_on_handles n fc m : (∀ h, pres anywhere (m h)) → ∀ i rc, pres anywhere (on_handles n i fc m rc).
Proof. intros Hm. induction n; intros; cbn [on_handles]; unfold synx_at; pres_tac. Qed.

Lemma pres_release_synx fc : pres anywhere (cvp_release_synx fc).
Proof. apply pres_on_handles. intros. pres_tac. Qed.
Hint Resolve pres_release_synx : pres.

Lemma pres_wait_synx n fc : ∀ i s, pres anywhere (cvp_wait_synx n i fc s).
Proof. induction n; intros; cbn [cvp_wait_synx]; unfold synx_at; pres_tac. Qed.
Hint Resolve pres_wait_synx : pres.

Lemma pres_signal_synx n fc : ∀ i s rc, pres anywhere (cvp_signal_synx n i fc s rc).
Proof. induction n; intros; cbn [cvp_signal_synx]; unfold synx_at; pres_tac. Qed.
Hint Resolve pres_signal_synx : pres.

Lemma pres_synx_ops t fc s : pres anywhere (cvp_synx_ops t fc s).
Proof. unfold cvp_synx_ops. pres_tac. Qed.
Hint Resolve pres_synx_ops : pres.

Lemma pres_session_send s pkt : pres anywhere (iris_hfi_session_send s pkt).
Proof. unfold iris_hfi_session_send. pres_tac. Qed.
Hint Resolve pres_session_send : pres.

Lemma pres_alloc_fence n : pres anywhere (cvp_alloc_fence_data n).
Proof. unfold cvp_alloc_fence_data. pres_tac. Qed.
Hint Resolve pres_alloc_fence : pres.

Lemma pres_soc_fence p pkt f t o n : pres anywhere (soc_fence p pkt f t o n).
Proof. unfold soc_fence, queue_fence. pres_tac. Qed.
Hint Resolve pres_soc_fence : pres.

Lemma pres_kernel_fence p pkt f t o n : pres anywhere (kernel_fence p pkt f t o n).
Proof. unfold kernel_fence, queue_fence, cvp_import_synx. pres_tac. Qed.
Hint Resolve pres_kernel_fence : pres.

Lemma pres_populate p pkt o n : pres anywhere (cvp_populate_fences p pkt o n).
Proof. unfold cvp_populate_fences. pres_tac. Qed.
Hint Resolve pres_populate : pres.

Lemma pres_fence_wait p : pres anywhere (cvp_fence_wait p).
Proof. unfold cvp_fence_wait. pres_tac. Qed.
Hint Resolve pres_fence_wait : pres.

(** ** Messages *)

Lemma take_msg_length k l : ∀ m l', take_msg k l = Done (Some (m, l')) → length l = S (length l').
Proof.
  induction l as [|x l IH]; intros m l'; cbn [take_msg]; [done|].
  destruct (kdata_of x) as [d|]; cbn [obind]; [|done].
  destruct (k =? d); [by intros [= _ <-]|].
  destruct (take_msg k l) as [[[y r]|]|]; cbn [obind]; [|done..].
  intros [= _ <-]. cbn [length]. by rewrite (IH y r).
Qed.

(** Taking one message out of a queue. *)
Lemma evolve_pop fenced l i :
  length (sq_msgs (get_sq fenced i)) = S (length l) → evolve i (mod_sq fenced (pop_msg l) i).
Proof.
  intros Hl.
  assert (Hpop : sq_ok (get_sq fenced i) → sq_ok (pop_msg l (get_sq fenced i))).
  { unfold sq_ok, pop_msg, put_field_to, MAX_NUM_MSGS_PER_SESSION. cbn. rewrite Hl.
    intros [-> Hle]. rewrite u32_sub_small by (unfold is_u32; lia). lia. }
  destruct fenced; (constructor; [by left|done|done| |done|done]);
    intros [] Hq; cbn in *; try done; by apply Hpop.
Qed.

Lemma pres_pop p fenced l i :
  length (sq_msgs (get_sq fenced i)) = S (length l) →
  pres (λ w, inst_at p w = Some i) (mod_i p (mod_sq fenced (pop_msg l))).
Proof. intros Hl. apply pres_mod_i. intros w j Hi Hj. simplify_eq. by apply evolve_pop. Qed.

Lemma pres_msg_pending p fenced k : pres anywhere (cvp_msg_pending p fenced k).
Proof.
  unfold cvp_msg_pending. apply pres_bind_get_i. intros i. cbv zeta.
  case_match; [apply pres_ret|]. destruct (sq_msgs (get_sq fenced i)) as [|m l] eqn:El; [apply pres_ret|].
  intros w a w' [_ Hi]. destruct k as [k|].
  - mrun. unfold lift. destruct (take_msg k (m :: l)) as [[[x r]|]|] eqn:Et; cbn [obind fst snd]; [| |done].
    + apply (pres_bind (λ w, inst_at p w = Some i)); [|intros; apply pres_ret|done].
      apply pres_pop. rewrite El. by eapply take_msg_length.
    + by intros [= <- <-].
  - apply (pres_bind (λ w, inst_at p w = Some i)); [|intros; apply pres_ret|done].
    apply pres_pop. by rewrite El.
Qed.
Hint Resolve pres_msg_pending : pres.

Lemma pres_wait_msg p fenced k : pres anywhere (wait_msg p fenced k).
Proof. unfold wait_msg, receive_messages. pres_tac. Qed.
Hint Resolve pres_wait_msg : pres.

Lemma pres_msg_words m : pres anywhere (msg_words m).
Proof. unfold msg_words, get_msg_size. pres_tac. Qed.
Hint Resolve pres_msg_words : pres.

Lemma pres_timeout p b : pres anywhere (handle_session_timeout p b).
Proof. apply pres_timeout_with. intros. apply pres_flush_stop. Qed.
Hint Resolve pres_timeout : pres.

Lemma pres_admit p pkt o n : pres anywhere (admit_hfi p pkt o n).
Proof. unfold admit_hfi. pres_tac. Qed.
Hint Resolve pres_admit : pres.

(** ** Votes and properties *)

Lemma pres_update_power tbl p : pres anywhere (msm_cvp_update_power tbl p).
Proof. unfold msm_cvp_update_power, adjust_bw_freqs, msm_cvp_set_clocks. pres_tac. Qed.
Hint Resolve pres_update_power : pres.

Lemma pres_session_info p : pres anywhere (msm_cvp_get_session_info p).
Proof. unfold msm_cvp_get_session_info. pres_tac. Qed.
Hint Resolve pres_session_info : pres.

Lemma pres_get_one p t rc : pres anywhere (get_one_sysprop p t rc).
Proof. unfold get_one_sysprop, msm_cvp_get_hw_aggregate_cycles. pres_tac. Qed.
Hint Resolve pres_get_one : pres.

Lemma pres_get_sysprops p n : ∀ j rc data, pres anywhere (get_sysprops p n j rc data).
Proof.
  induction n; intros; cbn [get_sysprops]; pres_tac.
Qed.
Hint Resolve pres_get_sysprops : pres.

Lemma pres_get_sysprop p data : pres anywhere (msm_cvp_get_sysprop p data).
Proof. unfold msm_cvp_get_sysprop. pres_tac. Qed.
Hint Resolve pres_get_sysprop : pres.

(** ** Control *)

Lemma pres_start_threads n p : pres anywhere (start_threads n p).
Proof. induction n; cbn [start_threads]; pres_tac. Qed.
Hint Resolve pres_start_threads : pres.

Lemma pres_thread_start p : pres anywhere (cvp_fence_thread_start p).
Proof. unfold cvp_fence_thread_start. pres_tac. Qed.
Hint Resolve pres_thread_start : pres.

Lemma pres_session_start p : pres anywhere (msm_cvp_session_start p).
Proof. unfold msm_cvp_session_start, send_start_and_wait, mod_session_queue. pres_tac. Qed.
Hint Resolve pres_session_start : pres.

Lemma pres_session_stop p : pres anywhere (msm_cvp_session_stop p).
Proof. unfold msm_cvp_session_stop. pres_tac. Qed.
Hint Resolve pres_session_stop : pres.

Lemma pres_set_internal_buf p a n : pres anywhere (set_internal_buf_on_fw p a n).
Proof. unfold set_internal_buf_on_fw. pres_tac. Qed.
Hint Resolve pres_set_internal_buf : pres.

Lemma pres_sleep : pres anywhere sleep_and_receive.
Proof. unfold sleep_and_receive. pres_tac. Qed.
Hint Resolve pres_sleep : pres.

(** [kref_put] on a positive count. *)
Lemma pres_kref_put p : pres (λ w, ∀ i, inst_at p w = Some i → 0 < i_kref i) (kref_put p).
Proof.
  unfold kref_put. apply pres_bind_get_i. intros i w a w' [Hk Hi].
  rewrite (proj2 (Z.ltb_ge _ _)) by (specialize (Hk i Hi); lia).
  apply drop_reference; [done|by apply Hk].
Qed.

End evolution.

#[export] Hint Resolve pres_lift_outcome pres_word_at pres_release_synx pres_synx_ops pres_session_send
  pres_populate pres_fence_wait pres_wait_msg pres_msg_words pres_timeout pres_admit
  pres_update_power pres_session_info pres_get_sysprop pres_session_start pres_session_stop
  pres_set_internal_buf pres_sleep : pres.

(** * The invariant *)

(** An instance: its queues count their messages and keep the limit, there is a completion
    for every message, the arrays have their sizes, and it is referenced. *)
Record inst_wf (i : msm_cvp_inst) : Prop := mkIwf {
  iw_queues : ∀ fenced, sq_ok (get_sq fenced i);
  iw_completions : length (i_completions i) = session_msgs;
  iw_prop : prop_sized (i_prop i);
  iw_kref : 0 < i_kref i
}.

Section invariant.
Context `{Env}.

(** The instances are at different addresses, none of which is NULL, and there are not more
    than the platform supports. *)
Record world_wf (w : world) : Prop := mkWwf {
  ww_insts : ∀ p i, inst_at p w = Some i → inst_wf i;
  ww_unique : NoDup (addresses w);
  ww_null : 0 ∉ addresses w;
  ww_limit : Z.of_nat (length (addresses w)) <= Z.max 0 max_supported_inst_count
}.

Lemma world_wf_advances w w' : advances w w' → world_wf w → world_wf w'.
Proof.
  intros [Ha Hl] [Hi Hu Hn Hb]. split.
  - intros p i' Hi'. destruct (Ha p i' Hi') as (i & Hp & [_ _ Hc Hq Hs Hk]).
    destruct (Hi p i Hp) as [Q C P K]. split; [auto|congruence|auto|auto].
  - by eapply sublist_NoDup.
  - intros H0. apply Hn. by eapply elem_of_sublist.
  - apply sublist_length in Hl. lia.
Qed.

Lemma world_wf_same w w' : c_instances (w_core w') = c_instances (w_core w) → world_wf w → world_wf w'.
Proof. intros E. by apply world_wf_advances, evolves_advances, evolves_same. Qed.

(** ** Operations on the world that keep it *)

Definition keepsM {A} (m : M A) : Prop :=
  ∀ w a w', world_wf w → m w = Done (a, w') → world_wf w'.

Lemma keepsM_pres {A} (m : M A) : pres anywhere m → keepsM m.
Proof.
  intros Hm w a w' Hw E. eapply world_wf_advances; [|exact Hw]. by eapply evolves_advances, Hm.
Qed.

Lemma keepsM_bind {A B} (m : M A) (f : A → M B) :
  keepsM m → (∀ a, keepsM (f a)) → keepsM (m ≫= f).
Proof.
  intros Hm Hf w b w' Hw. rewrite bind_run. destruct (m w) as [[a w1]|] eqn:E; [|done].
  cbn [obind fst snd]. eapply Hf. by eapply Hm.
Qed.

Lemma keepsM_when b (m : M unit) : keepsM m → keepsM (when b m).
Proof. destruct b; [done|]. intros _ w a w' Hw [= <- <-]. done. Qed.

Lemma keepsM_try_state p s : keepsM (msm_cvp_comm_try_state p s).
Proof. intros w a w' Hw E. eapply world_wf_advances; [|exact Hw]. by eapply try_state_forward. Qed.

Lemma keepsM_mod_i p f :
  (∀ i, inst_wf i → inst_wf (f i)) → keepsM (mod_i p f).
Proof.
  intros Hf w a w' [Hi Hu Hn Hb]. unfold mod_i. destruct (inst_at p w) as [i|] eqn:E; [|done].
  intros [= <- <-].
  assert (Ea : addresses (put_i p f w) = addresses w).
  { unfold addresses, put_i, put_field_to. cbn. apply obj_alter_dom. }
  split; rewrite ?Ea; [|done..]. intros q j. rewrite inst_at_put.
  destruct (Z.eqb_spec q p) as [->|]; [|apply Hi]. rewrite E. intros [= <-]. eauto.
Qed.

Lemma keepsM_change p s : keepsM (change_cvp_inst_state p s).
Proof.
  unfold change_cvp_inst_state. case_match; [apply keepsM_pres, pres_ret|].
  apply keepsM_bind; [apply keepsM_pres, pres_get_i|]. intros i.
  case_bool_decide; [apply keepsM_pres, pres_ret|]. apply keepsM_mod_i.
  intros j [Q C P K]. split; [by intros []; [apply (Q true)|apply (Q false)]|done..].
Qed.

Lemma keepsM_deinit_core p : keepsM (msm_cvp_deinit_core p).
Proof.
  unfold msm_cvp_deinit_core. case_match; [apply keepsM_pres, pres_ret|].
  apply keepsM_bind; [apply keepsM_change|]. intros []. apply keepsM_pres, pres_ret.
Qed.

Lemma keepsM_kref_put p : keepsM (kref_put p).
Proof.
  intros w a w' Hw E. eapply world_wf_advances; [|exact Hw].
  apply evolves_advances. eapply pres_kref_put; [|exact E].
  intros i Hi. apply (iw_kref _ (ww_insts _ Hw p i Hi)).
Qed.

(** A list of properties of words. *)
Lemma keepsM_set_sysprop p data : Forall is_u32 data → keepsM (msm_cvp_set_sysprop p data).
Proof.
  intros Hd w a w' Hw. unfold msm_cvp_set_sysprop. case_match; [by intros [= <- <-]|].
  mrun. unfold word. destruct (word_at data 0) as [n|] eqn:En; [|done]. cbn [obind fst snd].
  destruct (Z.gtb_spec n MAX_KMD_PROP_NUM_PER_PACKET); [by intros [= <- <-]|]. mrun.
  unfold get_i. destruct (inst_at p w) as [i|] eqn:Hi; [|done]. cbn [obind fst snd].
  destruct (sysprops_of (Z.to_nat n) 0 data) as [l|] eqn:El; [|done]. cbn [obind].
  destruct (sysprops_of_words _ _ _ _ Hd El) as [Hlen Hf].
  pose proof (ww_insts _ Hw p i Hi) as [Q C P K].
  destruct (sets_all l i 0 true) as (i' & E & [Hk Hs Er]); [lia| |done|done|].
  { unfold MAX_KMD_PROP_NUM_PER_PACKET in *. lia. }
  change (if true then 0 else - EFAULT) with 0 in E. rewrite E. cbn [obind fst snd]. mrun.
  rewrite (mod_i_some _ _ i) by done. cbn [obind fst snd]. mrun. intros [= <- <-].
  refine (keepsM_mod_i p (λ _, i') _ w tt _ Hw _); [|by rewrite (mod_i_some _ _ i)].
  intros _ _. rewrite Er. split; [by intros []; [apply (Q true)|apply (Q false)]|done|by apply Hs|done].
Qed.

(** ** Opening a session *)

(** An allocated instance is somewhere else than the listed ones. *)
Class InstLaws := kzalloc_fresh : ∀ n live, answer n (Kzalloc live) ∉ live.

Lemma inst_wf_zero ty `{LifeEnv} :
  inst_wf (__init_fence_queue (msm_cvp_session_init (zero_inst ty))).
Proof. split; [by intros []|done..]. Qed.

(** A new instance at a new address, within the limit. *)
Lemma world_wf_add w p i :
  world_wf w → inst_wf i → p ≠ 0 → p ∉ addresses w →
  Z.of_nat (length (addresses w)) < max_supported_inst_count →
  world_wf (w <| w_core ::= λ c, c <| c_instances ::= λ l, l ++ [(p, i)] |> |>).
Proof.
  intros [Hi Hu Hn Hb] Hwf Hp Hfresh Hlt.
  assert (Ea : addresses (w <| w_core ::= λ c, c <| c_instances ::= λ l, l ++ [(p, i)] |> |>)
               = addresses w ++ [p]) by (unfold addresses, put_field_to; cbn; by rewrite fmap_app).
  split; rewrite ?Ea.
  - intros q j. unfold inst_at, put_field_to. cbn. rewrite obj_find_app.
    destruct (obj_find q (c_instances (w_core w))) as [k|] eqn:Eq; [intros [= <-]; by eapply Hi|].
    cbn [obj_find]. destruct (q =? p); [by intros [= <-]|done].
  - apply list.NoDup_app. split; [done|]. split; [|apply NoDup_singleton].
    intros x Hx ->%list_elem_of_singleton. done.
  - rewrite elem_of_app, list_elem_of_singleton. intros [?|?]; [done|congruence].
  - rewrite length_app. cbn. lia.
Qed.

Lemma keepsM_open `{!InstLaws} `{LifeEnv} ty : keepsM (msm_cvp_open ty).
Proof.
  unfold msm_cvp_open. case_match; [apply keepsM_pres, pres_ret|].
  intros w a w' Hw. rewrite bind_run, mod_core_run. cbn [obind fst snd].
  set (w1 := w <| w_core ::= _ |>). rewrite bind_run, get_core_run. cbn [obind fst snd].
  assert (Hw1 : world_wf w1) by by apply (world_wf_same w).
  destruct (msm_cvp_check_for_inst_overload (w_core w1)) eqn:Eo; [by intros [= <- <-]|].
  rewrite bind_run, ext_run. cbn [obind fst snd].
  set (w2 := w1 <| w_trace ::= _ |>).
  assert (Hw2 : world_wf w2) by by apply (world_wf_same w1).
  set (p := answer _ _). destruct (Z.eqb_spec p 0) as [|Hp]; [by intros [= <- <-]|].
  rewrite bind_run, mod_core_run. cbn [obind fst snd].
  set (w3 := w2 <| w_core ::= _ |>). intros E. assert (Hw3 : world_wf w3).
  { apply world_wf_add; [done|apply inst_wf_zero|done|apply kzalloc_fresh|].
    unfold msm_cvp_check_for_inst_overload in Eo. unfold addresses. rewrite length_fmap.
    change (c_max_inst_count (w_core w1)) with max_supported_inst_count in Eo.
    change (c_instances (w_core w2)) with (c_instances (w_core w1)). lia. }
  eapply (keepsM_bind (__init_session_queue p)); [| |exact Hw3|exact E].
  { unfold __init_session_queue. apply keepsM_bind; [|intros; apply keepsM_pres, pres_ret].
    apply keepsM_mod_i. intros i [Q C P K]. split; [|done..]. intros []; [apply (Q true)|done]. }
  intros rc. apply keepsM_bind; [case_match; [apply keepsM_pres, pres_ret|apply keepsM_try_state]|].
  intros rc1. case_match; [|apply keepsM_pres, pres_ret].
  apply keepsM_bind; [apply keepsM_pres, pres_comm_session_clean|]. intros [].
  apply keepsM_bind; [apply keepsM_kref_put|]. intros []. apply keepsM_pres, pres_ret.
Qed.

End invariant.

(** ** Operations on a session that keep it *)
Section sessions.
Context `{Env} `{!InstLaws} `{LifeEnv} `{SysEnv} `{FenceEnv} `{BufEnv} `{RbTree} `{UserMem}.
Context (bus_tbl : list (String.string * Z)).

Definition keepsU {A} (m : U A) : Prop :=
  ∀ s a s', world_wf (z_world s) → m s = Done (a, s') → world_wf (z_world s').

Section rules.
Context {A B : Type}.

Lemma keepsU_ret (a : A) : keepsU (mret a).
Proof. by intros s b s' Hs [= <- <-]. Qed.

Lemma keepsU_stuck : keepsU (@stuck ses A).
Proof. by intros s b s' _. Qed.

Lemma keepsU_outcome (o : outcome A) : keepsU (of_outcome o).
Proof. intros s b s' Hs. unfold of_outcome. destruct o; [|done]. by intros [= <- <-]. Qed.

Lemma keepsU_bind (m : U A) (f : A → U B) :
  keepsU m → (∀ a, keepsU (f a)) → keepsU (m ≫= f).
Proof.
  intros Hm Hf s b s' Hs. rewrite St_bind_run. destruct (m s) as [[a s1]|] eqn:E; [|done].
  cbn [obind fst snd]. eapply Hf. by eapply Hm.
Qed.

Lemma keepsU_whenS b (m : U unit) : keepsU m → keepsU (whenS b m).
Proof. destruct b; [done|]. intros _ s a s' Hs [= <- <-]. done. Qed.

Lemma keepsU_bufs (m : Smem.B A) : keepsU (on_bufs m).
Proof.
  intros s a s' Hs. unfold on_bufs. destruct (m _) as [[b x]|]; [|done]. cbn [obind fst snd].
  intros [= <- <-]. by eapply world_wf_same; [|exact Hs].
Qed.

Lemma keepsU_wncc (m : W A) : keepsU (on_wncc m).
Proof.
  intros s a s' Hs. unfold on_wncc. destruct (m _) as [[b x]|]; [|done]. cbn [obind fst snd].
  by intros [= <- <-].
Qed.

Lemma keepsU_each (l : list B) (m : B → U unit) : (∀ b, keepsU (m b)) → keepsU (each l m).
Proof.
  intros Hm. induction l as [|b l IH]; cbn [each]; intros s a s' Hs.
  - by intros [= <- <-].
  - rewrite St_bind_run. destruct (m b s) as [[u s1]|] eqn:E; [|done].
    cbn [obind fst snd]. apply IH. by eapply Hm.
Qed.

End rules.

Lemma on_world_wf {A} (m : M A) s b s' :
  (∀ a w, m (z_world s) = Done (a, w) → world_wf w) → on_world m s = Done (b, s') →
  world_wf (z_world s').
Proof.
  unfold on_world. intros Hm. destruct (m (z_world s)) as [[a w]|] eqn:E; [|done].
  cbn [obind fst snd]. intros Er.
  eapply (keepsU_bind _ (λ _, mret a)); [apply (keepsU_each (B := Z)); intros; apply keepsU_bufs
    |intros []; apply keepsU_ret| |exact Er]. by apply (Hm a).
Qed.

Lemma keepsU_world {A} (m : M A) : keepsM m → keepsU (on_world m).
Proof. intros Hm s a s' Hs. apply on_world_wf. intros b w. by apply Hm. Qed.

Lemma on_world_get_i p i s :
  inst_at p (z_world s) = Some i → on_world (get_i p) s = Done (i, s).
Proof.
  intros Hi. unfold on_world. rewrite (get_i_some _ _ _ Hi). cbn [obind fst snd].
  rewrite drop_all. by destruct s.
Qed.

Create HintDb keeps.

Hint Resolve keepsU_ret keepsU_stuck keepsU_outcome keepsU_bufs keepsU_wncc : keeps.
Hint Resolve keepsM_try_state keepsM_deinit_core keepsM_kref_put keepsM_set_sysprop keepsM_open : keeps.

Ltac keeps1 :=
  match goal with
  | |- keepsU (_ ≫= _) => apply keepsU_bind; [|intros ?]
  | |- keepsU (on_world _) => apply keepsU_world
  | |- keepsU (on_bufs _) => apply keepsU_bufs
  | |- keepsU (on_wncc _) => apply keepsU_wncc
  | |- keepsU (whenS _ _) => apply keepsU_whenS
  | |- keepsU (if ?b then _ else _) => destruct b
  | |- keepsU (match ?x with _ => _ end) => destruct x
  | |- keepsM (if ?b then _ else _) => destruct b
  | |- keepsU _ => solve [eauto with keeps nocore]
  | |- keepsM _ => first [solve [eauto with keeps nocore] | apply keepsM_pres; solve [pres_tac]
                         | apply keepsM_bind; [|intros ?] | apply keepsM_when]
  end.

Ltac keeps_tac := repeat keeps1.

Lemma keeps_wait_process p f k out : keepsU (cvp_wait_process_message p f k out).
Proof. unfold cvp_wait_process_message. keeps_tac. Qed.
Hint Resolve keeps_wait_process : keeps.

Lemma keeps_receive p pkt : keepsU (msm_cvp_session_receive_hfi p pkt).
Proof. unfold msm_cvp_session_receive_hfi. keeps_tac. Qed.
Hint Resolve keeps_receive : keeps.

Lemma keeps_undo t pkt l o n rc : keepsU (undo_map t pkt l o n rc).
Proof. unfold undo_map. keeps_tac. Qed.
Hint Resolve keeps_undo : keeps.

Lemma keeps_map t pkt o n : keepsU (map_buffers t pkt o n).
Proof. unfold map_buffers. keeps_tac. Qed.
Hint Resolve keeps_map : keeps.

Lemma keeps_enqueue p pkt o n : keepsU (cvp_enqueue_pkt p pkt o n).
Proof. unfold cvp_enqueue_pkt, enqueue_counted, add_sending. keeps_tac. Qed.
Hint Resolve keeps_enqueue : keeps.

Lemma keeps_process p pkt o n : keepsU (msm_cvp_session_process_hfi p pkt o n).
Proof. unfold msm_cvp_session_process_hfi. keeps_tac. Qed.
Hint Resolve keeps_process : keeps.

Lemma keeps_fence_proc p fc : keepsU (cvp_fence_proc p fc).
Proof. unfold cvp_fence_proc, receive_fenced. keeps_tac. Qed.
Hint Resolve keeps_fence_proc : keeps.

Lemma keeps_fence_round p : keepsU (cvp_fence_thread_round p).
Proof. unfold cvp_fence_thread_round. keeps_tac. Qed.
Hint Resolve keeps_fence_round : keeps.

Lemma keeps_release_arp p : keepsU (release_arp_buffers p).
Proof. unfold release_arp_buffers. keeps_tac. Qed.
Hint Resolve keeps_release_arp : keeps.

Lemma keeps_set_arp p : keepsU (cvp_comm_set_arp_buffers p).
Proof. unfold cvp_comm_set_arp_buffers. keeps_tac. Qed.
Hint Resolve keeps_set_arp : keeps.

Lemma keeps_create p : keepsU (msm_cvp_session_create p).
Proof. unfold msm_cvp_session_create, msm_cvp_secure_sess_check, mod_session_queue. keeps_tac. Qed.
Hint Resolve keeps_create : keeps.

Lemma keeps_ctrl p data : keepsU (msm_cvp_session_ctrl p data).
Proof. unfold msm_cvp_session_ctrl, msm_cvp_session_delete. keeps_tac. Qed.
Hint Resolve keeps_ctrl : keeps.

Lemma keeps_syscall p arg : arg_shape arg → keepsU (msm_cvp_private bus_tbl p arg).
Proof.
  intros [_ _ _ _ Hd]. unfold msm_cvp_private, msm_cvp_handle_syscall, session_state_check_init,
    dispatch, register, unregister, msm_cvp_session_process_hfi_fence. cbv zeta. keeps_tac.
Qed.

(** Taking a message out of a queue that is cleaned. *)
Lemma take_kdata_length l : ∀ k l', take_kdata l = Done (Some (k, l')) → length l = S (length l').
Proof.
  induction l as [|x l IH]; intros k l'; cbn [take_kdata]; [done|].
  destruct (kdata_of x) as [d|]; cbn [obind]; [|done].
  destruct (d =? 0); cbn [negb]; [|by intros [= _ <-]].
  destruct (take_kdata l) as [[[y r]|]|]; cbn [obind]; [|done..].
  intros [= _ <-]. cbn [length]. by rewrite (IH y r).
Qed.

Lemma keeps_clean_queue fuel p fenced : keepsU (clean_sess_queue fuel p fenced).
Proof.
  induction fuel as [|n IH]; intros s a s' Hs; cbn [clean_sess_queue]; rewrite St_bind_run;
    (destruct (inst_at p (z_world s)) as [i|] eqn:Hi;
      [|unfold on_world, get_i; by rewrite Hi]);
    rewrite (on_world_get_i _ _ _ Hi); cbn [obind fst snd]; cbv zeta;
    (case_match; [by intros [= <- <-]|]); rewrite St_bind_run; unfold of_outcome;
    (destruct (take_kdata _) as [[[k l]|]|] eqn:Et; cbn [obind fst snd]; [|by intros [= <- <-]|done]);
    [done|].
  rewrite St_bind_run. destruct (on_world _ s) as [[[] s1]|] eqn:E1; [|done]. cbn [obind fst snd].
  assert (Hs1 : world_wf (z_world s1)).
  { eapply on_world_wf; [|exact E1]. intros b w Ew. eapply world_wf_advances; [|exact Hs].
    apply evolves_advances. eapply pres_pop; [by eapply take_kdata_length|exact Hi|exact Ew]. }
  rewrite St_bind_run. destruct (on_bufs _ s1) as [[[] s2]|] eqn:E2; [|done]. cbn [obind fst snd].
  apply IH. by eapply keepsU_bufs.
Qed.
Hint Resolve keeps_clean_queue : keeps.

Lemma keeps_wait_frames n p : keepsU (wait_frames n p).
Proof. induction n; cbn [wait_frames]; unfold msm_cvp_clean_sess_queue; keeps_tac. Qed.
Hint Resolve keeps_wait_frames : keeps.

Lemma keepsM_latency p v : keepsM (mod_i p (λ i, i <| i_pm_qos_latency := v |>)).
Proof.
  apply keepsM_mod_i. intros i [Q C P K]. split; [by intros []; [apply (Q true)|apply (Q false)]|done..].
Qed.
Hint Resolve keepsM_latency : keeps.

Lemma keeps_cleanup p : keepsU (msm_cvp_cleanup_instance p).
Proof. unfold msm_cvp_cleanup_instance, cleanup_exit. keeps_tac. Qed.
Hint Resolve keeps_cleanup : keeps.

Lemma keepsM_uninit p : keepsM (mod_i p (λ i, i <| i_state := MSM_CVP_CORE_UNINIT |>)).
Proof.
  apply keepsM_mod_i. intros i [Q C P K]. split; [by intros []; [apply (Q true)|apply (Q false)]|done..].
Qed.
Hint Resolve keepsM_uninit : keeps.

Lemma keeps_close p : keepsU (msm_cvp_close p).
Proof.
  unfold msm_cvp_close, close_exit, msm_cvp_session_deinit, stack_word. keeps_tac.
Qed.

End sessions.

(** * Runs *)
Section runs.
Context `{Env} `{!InstLaws} `{LifeEnv} `{SysEnv} `{FenceEnv} `{BufEnv} `{RbTree} `{UserMem}.
Context (bus_tbl : list (String.string * Z)).

(** What clients do. *)
Inductive client_op :=
| Open (ty : session_type)
| Close (p : Z)
| Syscall (p : Z) (arg : eva_kmd_arg)
| Fence_round (p : Z).

Definition run_client (op : client_op) : U unit :=
  match op with
  | Open ty => on_world (msm_cvp_open ty) ;; mret tt
  | Close p => msm_cvp_close p ;; mret tt
  | Syscall p arg => msm_cvp_private bus_tbl p arg ;; mret tt
  | Fence_round p => cvp_fence_thread_round p ;; mret tt
  end.

(** The argument of a system call is what the ioctl makes of the client's memory. *)
Definition op_allowed (op : client_op) : Prop :=
  match op with Syscall _ arg => arg_shape arg | _ => True end.

(** A step of the driver: on its own, or for a client; the client's buffers and its user
    memory are whatever they are. *)
Inductive life_step : world → world → Prop :=
| life_driver w w' : driver_step w w' → life_step w w'
| life_client op s s' :
    op_allowed op → run_client op s = Done (tt, s') → life_step (z_world s) (z_world s').

Lemma keeps_client op : op_allowed op → keepsU (run_client op).
Proof.
  intros Hop. destruct op; cbn [run_client]; (apply keepsU_bind; [|intros; apply keepsU_ret]).
  - by apply keepsU_world, keepsM_open.
  - apply keeps_close.
  - by apply keeps_syscall.
  - apply keeps_fence_round.
Qed.

(** C21. From a driver without sessions, however clients open, use and close sessions,
    whatever the firmware sends and the calls out of the driver answer: there are never more
    sessions than the platform supports, they are at different addresses, and each of them
    has message queues that count their messages and keep their limit, a completion for every
    message, property arrays of their size, and a positive reference count. *)
Theorem sessions_stay_well_formed w w' :
  c_instances (w_core w) = [] → rtc life_step w w' →
  NoDup (addresses w') ∧ 0 ∉ addresses w'
  ∧ Z.of_nat (length (addresses w')) <= Z.max 0 max_supported_inst_count
  ∧ ∀ p i, inst_at p w' = Some i → inst_wf i.
Proof.
  intros Hnone Hrun. assert (Hw : world_wf w).
  { split; unfold inst_at, addresses; rewrite Hnone; [done|constructor|by apply not_elem_of_nil|cbn; lia]. }
  enough (world_wf w') as [Hi Hu Hn Hb] by done. clear Hnone.
  induction Hrun as [w|w1 w2 w3 Hstep _ IH]; [done|]. apply IH.
  destruct Hstep as [w1 w2 Hd|op s s' Hop E]; [by eapply world_wf_advances; [apply driver_step_advances|]|].
  by eapply keeps_client.
Qed.

End runs.

(** * A client's session from beginning to end *)
Module LifeScenario.

#[local] Existing Instances BufferScenario.env BufferScenario.tree WnccScenario.mem.

Definition fresh (live : list Z) : Z := 1 + foldr Z.max 0 live.

Lemma above_all live p : foldr Z.max 0 live < p → p ∉ live.
Proof.
  intros Hp Hin. induction live as [|q live IH]; [by apply not_elem_of_nil in Hin|]. cbn in Hp.
  apply elem_of_cons in Hin as [->|Hin]; [lia|]. apply IH; [lia|done].
Qed.

Lemma fresh_ok live : fresh live ∉ live.
Proof. apply above_all. unfold fresh. lia. Qed.

(** Firmware that always sends every acknowledgement. *)
Definition eager : firmware := λ _,
  (λ m, received [m.2; m.1; 0x7FFF0000; 0; 0]) <$>
    [(HFI_MSG_SYS_INIT_DONE, 16); (HFI_MSG_SYS_SESSION_INIT_DONE, 20);
     (HFI_MSG_SESSION_CVP_SET_BUFFERS, 60); (HFI_MSG_SESSION_EVA_START_DONE, 56);
     (HFI_MSG_SESSION_EVA_STOP_DONE, 56); (HFI_MSG_SESSION_CVP_RELEASE_BUFFERS, 60);
     (HFI_MSG_SYS_SESSION_END_DONE, 16)].

#[local] Instance driver : Env :=
  env_of (λ n c, match c with
                 | Kzalloc live => fresh live
                 | Kthread_run => 1
                 | _ => small_answer no_call n c
                 end) eager 1.

#[local] Instance driver_laws : InstLaws.
Proof. intros n live. apply fresh_ok. Qed.

#[local] Instance sys : SysEnv := {| hfi_version := 2; soc_hw_version := 1 |}.
#[local] Instance platform : LifeEnv :=
  {| msm_cvp_auto_pil := true; max_secure_inst_count := 1; pm_qos_latency_us := 0 |}.
#[local] Instance fences : FenceEnv :=
  {| SYNX_STATE_SIGNALED_SUCCESS := 2; SYNX_STATE_SIGNALED_CANCEL := 4; cvp_kernel_fence_enabled := 1 |}.

(** No sessions yet. *)
Definition boot : ses :=
  mkSes (mkWorld (mkCore [] CVP_CORE_UNINIT (replicate 9 0%nat) ∅ false false 0 8 0 0 0 0x200 0)
           (mkHdev [] [] 0 0 false) [] [])
    (mkWs BufferScenario.start ∅ ∅ 0 false 0).

Definition control (ctrl : Z) : client_op :=
  Syscall 1 (mkArg EVA_KMD_SESSION_CONTROL 0 0 (ctrl :: replicate 671 0)).

(** A second session is refused: the platform supports one. *)
Definition opening : list client_op :=
  [Open MSM_CVP_USER; control SESSION_CREATE; control SESSION_START; Open MSM_CVP_USER].

Definition closing : list client_op :=
  [control SESSION_STOP; Fence_round 1; Fence_round 1; Fence_round 1; Close 1].

Fixpoint run_clients (ops : list client_op) (s : ses) : outcome ses :=
  match ops with
  | [] => Done s
  | op :: ops' => let! r := run_client [] op s in run_clients ops' r.2
  end.

Lemma run_clients_rtc ops : ∀ s s',
  Forall op_allowed ops → run_clients ops s = Done s' → rtc (life_step []) (z_world s) (z_world s').
Proof.
  induction ops as [|op ops IH]; intros s s' Hops; cbn [run_clients]; [by intros [= <-]|].
  apply Forall_cons_1 in Hops as [Hop Hops].
  destruct (run_client [] op s) as [[[] s1]|] eqn:E; cbn [obind]; [|done]. intros Hr.
  eapply rtc_l; [by eapply life_client|by apply IH].
Qed.

(** Its fence threads stopped and itself closed, nothing of the session is left. *)
Example nothing_is_left :
  match run_clients (opening ++ closing) boot with
  | Done s => bool_decide (addresses (z_world s) = [] ∧ hd_sess_head (w_hdev (z_world s)) = []
                           ∧ b_persistbufs (x_bufs (z_wncc s)) = [])
  | Fault => false
  end = true.
Proof. vm_compute. reflexivity. Qed.

Definition opened : ses := match run_clients opening boot with Done s => s | Fault => boot end.

Lemma control_allowed ctrl : is_u32 ctrl → op_allowed (control ctrl).
Proof.
  intros Hc. split; [by unfold is_u32..|done|]. apply Forall_cons_2; [done|].
  apply Forall_replicate. by unfold is_u32.
Qed.

Lemma sessions_stay_well_formed_witness :
  addresses (z_world opened) = [1] ∧
  ∃ i, inst_at 1 (z_world opened) = Some i ∧ i_state i = MSM_CVP_OPEN_DONE ∧ i_kref i = 4 ∧ inst_wf i.
Proof.
  split; [by vm_compute|].
  assert (Hrtc : rtc (life_step []) (z_world boot) (z_world opened)).
  { apply (run_clients_rtc opening); [|by vm_compute].
    unfold opening. repeat (apply Forall_cons_2; [first [exact I | by apply control_allowed]|]).
    apply Forall_nil_2. }
  destruct (sessions_stay_well_formed [] (z_world boot) (z_world opened) eq_refl Hrtc)
    as (_ & _ & _ & Hwf).
  destruct (inst_at 1 (z_world opened)) as [i|] eqn:Hi; [|by vm_compute in Hi].
  exists i. split; [reflexivity|]. specialize (Hwf 1 i Hi).
  assert (Hst : ((λ i, (i_state i, i_kref i)) <$> inst_at 1 (z_world opened)) = Some (MSM_CVP_OPEN_DONE, 4))
    by by vm_compute.
  rewrite Hi in Hst. injection Hst as -> ->. split; [reflexivity|]. split; [reflexivity|exact Hwf].
Defined.

End LifeScenario.

(** What is left of a message queue when a session is closed (Life.v): the loop of
    [msm_cvp_clean_sess_queue] ends, gives up every message of a transaction with its frame,
    and keeps the others. *)

(** * Messages of a transaction *)

Definition kdata (m : list Z) : Z := match kdata_of m with Done k => k | Fault => 0 end.

Definition readable (m : list Z) : Prop := kdata_of m = Done (kdata m).

Lemma readable_long m : (10 <= length m)%nat → readable m.
Proof. intros Hm. unfold readable, kdata, kdata_of. by rewrite !word_at_ok by lia. Qed.

Definition tagged (l : list (list Z)) : list (list Z) := filter (λ m, kdata m ≠ 0) l.
Definition untagged (l : list (list Z)) : list (list Z) := filter (λ m, kdata m = 0) l.

Lemma take_kdata_spec l : Forall readable l →
  match tagged l with
  | [] => take_kdata l = Done None
  | m :: _ => ∃ l', take_kdata l = Done (Some (kdata m, l')) ∧ Forall readable l'
      ∧ tagged l = m :: tagged l' ∧ untagged l' = untagged l ∧ length l = S (length l')
  end.
Proof.
  induction 1 as [|x l Hx Hl IH]; [done|]. unfold tagged, untagged in *. cbn [take_kdata].
  rewrite Hx. cbn [obind]. rewrite !filter_cons. destruct (Z.eqb_spec (kdata x) 0) as [E|E]; cbn [negb].
  - rewrite (decide_False (P := kdata x ≠ 0)) by auto. rewrite (decide_True (P := kdata x = 0)) by done.
    destruct (filter (λ m, kdata m ≠ 0) l) as [|m t]; [by rewrite IH|].
    destruct IH as (l' & -> & Hr & Et & Eu & Elen). exists (x :: l'). cbn [obind].
    split; [done|]. split; [by constructor|]. rewrite !filter_cons.
    rewrite (decide_False (P := kdata x ≠ 0)) by auto. rewrite (decide_True (P := kdata x = 0)) by done.
    cbn [length]. by rewrite Et, Eu, Elen.
  - rewrite (decide_True (P := kdata x ≠ 0)) by done. rewrite (decide_False (P := kdata x = 0)) by done.
    by exists l.
Qed.

(** The queue without its messages of a transaction. *)
Definition clean_queue (q : cvp_session_queue) : cvp_session_queue :=
  q <| sq_msgs ::= untagged |> <| sq_msg_count := Z.of_nat (length (untagged (sq_msgs q))) |>.

(** The frames without those of the transactions [ks]. *)
Definition frame_gone (fr : list msm_cvp_frame) (k : Z) : list msm_cvp_frame :=
  match take_frame (Z.land k (FENCE_BIT - 1)) fr with Some (_, rest) => rest | None => fr end.
Definition frames_gone (fr : list msm_cvp_frame) (ks : list Z) : list msm_cvp_frame :=
  foldl frame_gone fr ks.

Lemma clean_queue_id q : sq_ok q → tagged (sq_msgs q) = [] → clean_queue q = q.
Proof.
  intros [Hn _] Ht. assert (Hu : untagged (sq_msgs q) = sq_msgs q).
  { clear Hn. unfold tagged, untagged in *. induction (sq_msgs q) as [|m l IH]; [done|].
    rewrite filter_cons in Ht. rewrite filter_cons. destruct (decide (kdata m = 0)) as [E|E].
    - rewrite (decide_False (P := kdata m ≠ 0)) in Ht by auto. by rewrite IH.
    - by rewrite (decide_True (P := kdata m ≠ 0)) in Ht. }
  destruct q. unfold clean_queue, put_field_to. cbn in *. by rewrite Hu, Hn.
Qed.

Lemma mod_sq_mod_sq fenced f g i :
  mod_sq fenced f (mod_sq fenced g i) = mod_sq fenced (λ q, f (g q)) i.
Proof. by destruct fenced. Qed.

Lemma get_mod_sq fenced f i : get_sq fenced (mod_sq fenced f i) = f (get_sq fenced i).
Proof. by destruct fenced. Qed.

Lemma mod_sq_id fenced f i : f (get_sq fenced i) = get_sq fenced i → mod_sq fenced f i = i.
Proof. destruct fenced, i; unfold mod_sq, put_field_to; cbn; by intros ->. Qed.

Lemma mod_sq_ext fenced f g i :
  f (get_sq fenced i) = g (get_sq fenced i) → mod_sq fenced f i = mod_sq fenced g i.
Proof. destruct fenced, i; unfold mod_sq, put_field_to; cbn; by intros ->. Qed.

(** * The loop *)
Section cleaning.
Context `{Env} `{FenceEnv} `{BufEnv} `{RbLaws} `{!BufLaws} `{UserMem}.

Lemma clean_loop p h fenced c fuel : ∀ i fr,
  sq_ok (get_sq fenced i) → sq_state (get_sq fenced i) ≠ QUEUE_ACTIVE →
  Forall readable (sq_msgs (get_sq fenced i)) →
  (length (tagged (sq_msgs (get_sq fenced i))) <= fuel)%nat →
  total (holds p h i fr c) (clean_sess_queue fuel p fenced)
    (λ _, holds p h (mod_sq fenced clean_queue i)
            (frames_gone fr (kdata <$> tagged (sq_msgs (get_sq fenced i)))) c).
Proof.
  induction fuel as [|n IH]; intros i fr Hok Hst Hr Hn; cbn [clean_sess_queue];
    (eapply total_bind; [apply holds_get_i|]; intros j; apply total_pure; intros ->);
    pose proof (take_kdata_spec _ Hr) as Ht;
    destruct (tagged (sq_msgs (get_sq fenced i))) as [|m t] eqn:Et; cbn [length] in Hn; try lia.
  1, 2: rewrite mod_sq_id by (by apply clean_queue_id); apply total_if; intros _; [by apply total_ret|];
    (eapply total_bind; [by eapply (total_of_outcome _ _ _ (λ o s, o = None ∧ holds p h i fr c s)); [exact Ht|]|]);
    intros o; apply total_pure; intros ->; by apply total_ret.
  destruct Ht as (l' & E & Hr' & Etag & Eun & Elen).
  assert (Et' : tagged l' = t) by congruence.
  apply total_if; intros Hif.
  { exfalso. destruct Hok as [Hc _]. rewrite Elen in Hc.
    apply orb_true_iff in Hif as [Hz|Hz]; [lia|]. by apply bool_decide_eq_true in Hz. }
  eapply total_bind.
  { eapply (total_of_outcome _ _ _ (λ o s, o = Some (kdata m, l') ∧ holds p h i fr c s)); [exact E|auto]. }
  intros o. apply total_pure. intros ->.
  eapply total_bind; [apply holds_mod_i|]. intros [].
  eapply total_bind; [apply holds_unmap_frame|]. intros [].
  set (j := mod_sq fenced (pop_msg l') i).
  assert (Hj : get_sq fenced j = pop_msg l' (get_sq fenced i)) by apply get_mod_sq.
  assert (Hcount : sq_msg_count (get_sq fenced j) = Z.of_nat (length l')
    ∧ sq_msg_count (get_sq fenced j) <= MAX_NUM_MSGS_PER_SESSION).
  { destruct Hok as [Hc Hle]. rewrite Hj. unfold pop_msg, put_field_to. cbn.
    unfold MAX_NUM_MSGS_PER_SESSION in *. rewrite u32_sub_small by (unfold is_u32; lia). lia. }
  eapply total_post; [apply (IH j (frame_gone fr (kdata m)))|]; rewrite ?Hj.
  - rewrite <- Hj. split; [rewrite (proj1 Hcount); by rewrite Hj|apply Hcount].
  - done.
  - done.
  - change (sq_msgs (pop_msg l' (get_sq fenced i))) with l'. rewrite Et'. lia.
  - intros [] s Hs. change (sq_msgs (pop_msg l' (get_sq fenced i))) with l' in Hs.
    rewrite Et' in Hs. unfold j in Hs. rewrite mod_sq_mod_sq in Hs.
    rewrite (mod_sq_ext _ _ clean_queue) in Hs; [exact Hs|].
    unfold clean_queue, pop_msg, put_field_to. cbn -[untagged]. by rewrite Eun.
Qed.

(** Cleaning the message queue of a session that is not idle ends, without a fault: as
    many rounds as messages are enough.  The messages of a transaction leave the queue and
    their frames are unmapped, in the order of the messages; the others stay in order and
    are counted; nothing else of the instance changes, and every buffer stays accounted
    for. *)
Theorem clean_sess_queue_ends (p : Z) (fenced : bool) (i : msm_cvp_inst) (s : ses) :
  inst_at p (z_world s) = Some i → buffers_ok (ses_bufs s) →
  sq_ok (get_sq fenced i) → sq_state (get_sq fenced i) ≠ QUEUE_ACTIVE →
  Forall readable (sq_msgs (get_sq fenced i)) →
  ∃ s', msm_cvp_clean_sess_queue p fenced s = Done (tt, s')
    ∧ inst_at p (z_world s') = Some (mod_sq fenced clean_queue i)
    ∧ buffers_ok (ses_bufs s')
    ∧ b_frames (ses_bufs s')
      = frames_gone (b_frames (ses_bufs s)) (kdata <$> tagged (sq_msgs (get_sq fenced i))).
Proof.
  intros Hi Hb Hok Hst Hr. set (h := w_hdev (z_world s)).
  set (c := c_kernel_trans_id (w_core (z_world s))).
  assert (Hs : holds p h i (b_frames (ses_bufs s)) c s) by by split.
  enough (Ht : total (holds p h i (b_frames (ses_bufs s)) c) (msm_cvp_clean_sess_queue p fenced)
    (λ _, holds p h (mod_sq fenced clean_queue i) (frames_gone (b_frames (ses_bufs s))
            (kdata <$> tagged (sq_msgs (get_sq fenced i)))) c)).
  { destruct (Ht s Hs) as ([] & s' & E & [Hi' _ _ Hb' Hf']). eauto. }
  unfold msm_cvp_clean_sess_queue.
  eapply total_bind; [apply holds_get_i|]. intros j. apply total_pure. intros ->.
  apply clean_loop; [done..|]. apply length_filter.
Qed.

End cleaning.

(** * A session that is stopped with answers in its queue *)
Module CleanScenario.

#[local] Existing Instances WnccScenario.mem BufferScenario.env BufferScenario.env_laws
  BufferScenario.env_iova BufferScenario.tree BufferScenario.tree_laws.
#[local] Instance driver : Env := small_env no_call Scenario.silent.
#[local] Instance fences : FenceEnv :=
  {| SYNX_STATE_SIGNALED_SUCCESS := 2; SYNX_STATE_SIGNALED_CANCEL := 4; cvp_kernel_fence_enabled := 1 |}.

(** Two answers of transactions around a message of none; 513 has a frame. *)
Definition stopped : msm_cvp_inst :=
  client MSM_CVP_OPEN_DONE 4096 <| i_session_queue := mkSq QUEUE_STOP 3
    [DeliverScenario.answer_to 600; DeliverScenario.answer_to 0; DeliverScenario.answer_to 513] |>.

Definition start : ses :=
  DeliverScenario.start <| z_world ::= put_i 64 (λ _, stopped) |>.

Lemma clean_sess_queue_ends_witness :
  length (b_frames (ses_bufs start)) = 1%nat ∧
  ∃ s', msm_cvp_clean_sess_queue 64 false start = Done (tt, s')
    ∧ (λ i, i_session_queue i) <$> inst_at 64 (z_world s')
      = Some (mkSq QUEUE_STOP 1 [DeliverScenario.answer_to 0])
    ∧ b_frames (ses_bufs s') = [].
Proof.
  split; [by vm_compute|].
  destruct (clean_sess_queue_ends 64 false stopped start) as (s' & E & Hi & _ & Hf).
  - reflexivity.
  - exact DeliverScenario.flying_ok.
  - by split.
  - discriminate.
  - repeat (apply Forall_cons_2; [reflexivity|]). apply Forall_nil_2.
  - exists s'. split; [exact E|]. split; [rewrite Hi; by vm_compute|]. rewrite Hf. by vm_compute.
Defined.

End CleanScenario.
