(* ===== verification/ControlSafe.v ===== *)
(** The references of the fence threads (Control.v): starting them takes one for each thread
    that was asked for, the one that could not be created included. *)

From S2P Require Import Prelude HfiTypes HfiPacket HfiDefs Driver Evolve Local Instance HfiSession.
From S2P Require Import Response Session Scenario Registry Fences Commands Control.
Open Scope Z_scope.

(** A referenced instance whose session is registered and known to the device. *)
Record valid (p : Z) (i : msm_cvp_inst) (w : world) : Prop := mkValid {
  va_inst : inst_at p w = Some i;
  va_addr : p ≠ 0;
  va_kref : 0 < i_kref i;
  va_session : i_session i ≠ 0;
  va_registered : registered i w = true;
  va_device : device_knows (i_session i) w = true
}.

(** An instance with [n] more references. *)
Definition ref_add (n : Z) (i : msm_cvp_inst) : msm_cvp_inst := i <| i_kref ::= Z.add n |>.

Lemma ref_add_add m n i : ref_add m (ref_add n i) = ref_add (m + n) i.
Proof. destruct i. unfold ref_add, put_field_to. cbn. f_equal. lia. Qed.

Lemma ref_add_0 i : ref_add 0 i = i.
Proof. by destruct i. Qed.

Section threads.
Context `{Env}.

Lemma valid_validate p i w :
  valid p i w → cvp_get_inst_validate p w = Done (p, upd p (ref_add 1 i) (w_trace w) w).
Proof.
  intros [Hi Hp Hk Hs Hr Hd]. rewrite (validate_run p i) by
    (done || (intros _; unfold device_knows in Hd; destruct (obj_find _ _); [by eexists|done])).
  rewrite Hr, Hd. do 2 f_equal. unfold kref_add, upd.
  rewrite (put_i_ext p _ (λ _, ref_add 1 i)); [by destruct w|]. intros j Hj. simplify_eq. done.
Qed.

(** An update of the instance that leaves its session and its references alone. *)
Lemma valid_upd p i j t w :
  valid p i w → i_session j = i_session i → i_sess_id j = i_sess_id i → 0 < i_kref j →
  valid p j (upd p j t w).
Proof.
  intros [Hi Hp Hk Hs Hr Hd] Es Ei Ek. split; rewrite ?Es; [|done..| |done].
  - by eapply inst_at_upd_same.
  - unfold registered in *. by rewrite Es, Ei.
Qed.

Lemma valid_put p i w :
  valid p i w → 1 < i_kref i →
  cvp_put_inst p w = Done (tt, upd p (ref_add (-1) i) (w_trace w) w).
Proof.
  intros [Hi Hp _ _ _ _] Hk. rewrite (cvp_put_inst_eq p i) by done. do 2 f_equal.
  unfold kref_add, upd. rewrite (put_i_ext p _ (λ _, ref_add (-1) i)); [by destruct w|].
  intros j Hj. simplify_eq. done.
Qed.

(** The loop: as many references as calls, up to the first thread that is not created. *)
Lemma start_threads_run p n : ∀ i w, valid p i w →
  ∃ j rc, start_threads n p w
      = Done (rc, upd p (ref_add (Z.of_nat j) i) (w_trace w ++ replicate j Kthread_run) w)
    ∧ (rc = 0 ∧ j = n ∨ rc = - ECHILD ∧ (0 < j <= n)%nat ∧
       answer (length (w_trace w) + (j - 1)) Kthread_run = 0).
Proof.
  induction n as [|n IH]; intros i w Hv; cbn [start_threads].
  { exists 0%nat, 0. rewrite ref_add_0, app_nil_r, upd_same by apply Hv. split; [done|by left]. }
  rewrite bind_run, (valid_validate p i) by done. cbn [obind fst snd].
  rewrite (proj2 (Z.eqb_neq _ _) (va_addr _ _ _ Hv)). rewrite bind_run, ext_run. cbn [obind fst snd].
  set (w1 := upd p (ref_add 1 i) (w_trace w) w).
  change (w_trace w1) with (w_trace w).
  assert (Hext : w1 <| w_trace ::= λ t, t ++ [Kthread_run] |>
    = upd p (ref_add 1 i) (w_trace w ++ [Kthread_run]) w) by done.
  destruct (Z.eqb_spec (answer (length (w_trace w)) Kthread_run) 0) as [Ha|Ha].
  { exists 1%nat, (- ECHILD). rewrite Hext. split; [done|]. right. split; [done|]. split; [lia|].
    by rewrite Nat.add_0_r. }
  rewrite Hext. set (w2 := upd p (ref_add 1 i) (w_trace w ++ [Kthread_run]) w).
  destruct (IH (ref_add 1 i) w2) as (j & rc & E & Hres).
  { apply (valid_upd p i); [done..|]. cbn. pose proof (va_kref _ _ _ Hv). lia. }
  exists (S j), rc. rewrite E. unfold w2. rewrite upd_upd, ref_add_add.
  change (w_trace w2) with (w_trace w ++ [Kthread_run]) in *.
  change (w_trace (upd p (ref_add 1 i) (w_trace w ++ [Kthread_run]) w)) with (w_trace w ++ [Kthread_run]).
  rewrite <- app_assoc. cbn [app replicate]. split.
  { do 3 f_equal. f_equal. lia. }
  destruct Hres as [[-> ->]|(-> & Hj & Hz)]; [by left|]. right. split; [done|]. split; [lia|].
  rewrite length_app in Hz. cbn [length] in Hz. rewrite <- Hz. f_equal. lia.
Qed.

Definition threads (i : msm_cvp_inst) : nat := Z.to_nat (p_fthread_nr (i_prop i)).

(** What becomes of the queues: both run, or the fence queue is stopped. *)
Definition queues_run (i : msm_cvp_inst) : msm_cvp_inst :=
  i <| i_fence_cmd_queue ::= λ q, q <| fq_state := QUEUE_START |> |>
    <| i_session_queue_fence ::= λ q, q <| sq_state := QUEUE_START |> |>.
Definition queue_stopped (i : msm_cvp_inst) : msm_cvp_inst :=
  i <| i_fence_cmd_queue ::= λ q, q <| fq_state := QUEUE_STOP |> |>.

(** Starting the fence threads of a valid session: either every thread is created, each
    with a reference of its own, and both queues run; or the creation of one fails, the fence
    queue is stopped, and the references of the threads before it and the one taken for it
    all stay - the last of them with no thread to give it back.  Nothing else changes. *)
Theorem thread_start_references p i w :
  valid p i w → p_fthread_nr (i_prop i) ≠ 0 →
  ∃ j rc, cvp_fence_thread_start p w
      = Done (rc, upd p (ref_add (Z.of_nat j) (if rc =? 0 then queues_run i else queue_stopped i))
                    (w_trace w ++ replicate j Kthread_run) w)
    ∧ (rc = 0 ∧ j = threads i ∨ rc = - ECHILD ∧ (0 < j <= threads i)%nat ∧
       answer (length (w_trace w) + (j - 1)) Kthread_run = 0).
Proof.
  intros Hv Hn. unfold cvp_fence_thread_start. rewrite (proj2 (Z.eqb_neq _ _) (va_addr _ _ _ Hv)).
  rewrite bind_run, (valid_validate p i) by done. cbn [obind fst snd].
  rewrite (proj2 (Z.eqb_neq _ _) (va_addr _ _ _ Hv)).
  set (w1 := upd p (ref_add 1 i) (w_trace w) w).
  assert (Hv1 : valid p (ref_add 1 i) w1).
  { apply (valid_upd p i); [done..|]. cbn. pose proof (va_kref _ _ _ Hv). lia. }
  rewrite bind_run, (get_i_some _ _ _ (va_inst _ _ _ Hv1)). cbn [obind fst snd].
  change (p_fthread_nr (i_prop (ref_add 1 i))) with (p_fthread_nr (i_prop i)).
  rewrite (proj2 (Z.eqb_neq _ _) Hn). unfold mod_fq. mrun.
  unfold w1. rewrite (mod_i_upd p _ i) by apply Hv. mrun.
  set (i2 := _ <| i_fence_cmd_queue ::= _ |>).
  assert (Hv2 : valid p i2 (upd p i2 (w_trace w) w)).
  { apply (valid_upd p i); [done..|]. cbn. pose proof (va_kref _ _ _ Hv). lia. }
  destruct (start_threads_run p (threads i) i2 _ Hv2) as (j & rc & E & Hres).
  unfold threads in E. rewrite E. rewrite upd_upd. mrun.
  change (w_trace (upd p i2 (w_trace w) w)) with (w_trace w) in *.
  set (t := w_trace w ++ replicate j Kthread_run). exists j, rc. split; [|exact Hres].
  assert (Hput : ∀ k, 1 < i_kref k → i_session k = i_session i → i_sess_id k = i_sess_id i →
    cvp_put_inst p (upd p k t w) = Done (tt, upd p (ref_add (-1) k) t w)).
  { intros k Hk Es Ei. rewrite (valid_put p k); [by rewrite upd_upd| |done].
    apply (valid_upd p i); [done..|lia]. }
  pose proof (va_kref _ _ _ Hv) as Hk0.
  destruct (Z.eqb_spec rc 0) as [->|Hrc]; cbn [negb when]; mrun; rewrite (mod_i_upd p _ i) by apply Hv;
    mrun; (rewrite Hput; [|cbn; lia|done|done]); mrun.
  - enough (ref_add (-1) (ref_add (Z.of_nat j) i2 <| i_session_queue_fence ::= λ q, q <| sq_state := QUEUE_START |> |>)
      = ref_add (Z.of_nat j) (queues_run i)) as -> by done.
    destruct i. unfold i2, ref_add, queues_run, put_field_to. cbn -[Z.add]. f_equal. lia.
  - enough (ref_add (-1) (ref_add (Z.of_nat j) i2 <| i_fence_cmd_queue ::= λ q, q <| fq_state := QUEUE_STOP |> |>)
      = ref_add (Z.of_nat j) (queue_stopped i)) as -> by done.
    destruct i. unfold i2, ref_add, queue_stopped, put_field_to. cbn -[Z.add]. f_equal. lia.
Qed.

End threads.

(** * The second of three threads cannot be created *)
Module ThreadScenario.

Definition refusing : Env :=
  env_of (λ n c, match c with
                 | Kthread_run => if (n =? 1)%nat then 0 else 1
                 | _ => small_answer no_call n c
                 end) silent 8.

Definition start : world := world_with MSM_CVP_OPEN_DONE CVP_CORE_INIT_DONE true.

(** One thread runs, and the instance has two more references. *)
Lemma thread_start_references_witness :
  ∃ w, cvp_fence_thread_start (H := refusing) 64 start = Done (- ECHILD, w)
    ∧ w_trace w = [Kthread_run; Kthread_run]
    ∧ i_kref <$> inst_at 64 w = Some 3.
Proof.
  destruct (thread_start_references (H := refusing) 64 (client MSM_CVP_OPEN_DONE 4096) start)
    as (j & rc & E & Hres).
  - split; [reflexivity|discriminate|reflexivity|discriminate|reflexivity|reflexivity].
  - discriminate.
  - destruct Hres as [[-> ->]|(-> & Hj & Ha)].
    + vm_compute in E. discriminate E.
    + change (threads (client MSM_CVP_OPEN_DONE 4096)) with 3%nat in Hj.
      assert (j = 2%nat) as ->.
      { destruct j as [|[|[|[|j]]]]; [lia|discriminate Ha|reflexivity|discriminate Ha|lia]. }
      eexists. split; [exact E|]. split; reflexivity.
Defined.

End ThreadScenario.
