(* ===== verification/Partial.v ===== *)
(** Partial-correctness triples over the state monad of Store.v, for operations that call
    others whose own faults are the subject of other files. *)

From S2P Require Import Prelude Store.
Open Scope Z_scope.

Section triples.
Context {S : Type}.

(** [steps P m Q]: from every state in [P], if [m] returns then in [Q]. *)
Definition steps {A} (P : S → Prop) (m : St S A) (Q : A → S → Prop) : Prop :=
  ∀ s a s', P s → m s = Done (a, s') → Q a s'.

Section rules.
Context {A B : Type}.

Lemma steps_ret (P : S → Prop) (a : A) (Q : A → S → Prop) :
  (∀ s, P s → Q a s) → steps P (mret a) Q.
Proof. intros HQ s b s' Hs [= <- <-]. auto. Qed.

Lemma steps_bind P (m : St S A) (R : A → S → Prop) (f : A → St S B) Q :
  steps P m R → (∀ a, steps (R a) (f a) Q) → steps P (m ≫= f) Q.
Proof.
  intros Hm Hf s b s' Hs. rewrite St_bind_run. destruct (m s) as [[a s1]|] eqn:E; [|done].
  cbn [obind fst snd]. eapply Hf. by eapply Hm.
Qed.

Lemma steps_gets (f : S → A) P (Q : A → S → Prop) :
  (∀ s, P s → Q (f s) s) → steps P (gets f) Q.
Proof. intros HQ s b s' Hs [= <- <-]. auto. Qed.

Lemma steps_modify f (P : S → Prop) (Q : unit → S → Prop) :
  (∀ s, P s → Q tt (f s)) → steps P (modify f) Q.
Proof. intros HQ s b s' Hs [= <- <-]. auto. Qed.

Lemma steps_stuck P (Q : A → S → Prop) : steps P stuck Q.
Proof. by intros s b s'. Qed.

Lemma steps_of_outcome (o : outcome A) P (Q : A → S → Prop) :
  (∀ a s, o = Done a → P s → Q a s) → steps P (of_outcome o) Q.
Proof.
  intros HQ s b s' Hs. unfold of_outcome. destruct o eqn:E; [|done]. intros [= <- <-]. auto.
Qed.

Lemma steps_conseq (P P' : S → Prop) (m : St S A) (Q Q' : A → S → Prop) :
  steps P' m Q' → (∀ s, P s → P' s) → (∀ a s, Q' a s → Q a s) → steps P m Q.
Proof. intros Hm HP HQ s a s' Hs E. eapply HQ, Hm; eauto. Qed.

Lemma steps_pre (P P' : S → Prop) (m : St S A) Q :
  steps P' m Q → (∀ s, P s → P' s) → steps P m Q.
Proof. intros Hm HP. eapply steps_conseq; eauto. Qed.

Lemma steps_post P (m : St S A) (Q Q' : A → S → Prop) :
  steps P m Q' → (∀ a s, Q' a s → Q a s) → steps P m Q.
Proof. intros Hm HQ. eapply steps_conseq; eauto. Qed.

Lemma steps_if (b : bool) P (m1 m2 : St S A) Q :
  (b = true → steps P m1 Q) → (b = false → steps P m2 Q) → steps P (if b then m1 else m2) Q.
Proof. destruct b; auto. Qed.

Lemma steps_pure (φ : Prop) P (m : St S A) Q :
  (φ → steps P m Q) → steps (λ s, φ ∧ P s) m Q.
Proof. intros Hm s a s' [Hφ Hs]. by eapply Hm. Qed.

End rules.

Lemma steps_whenS b P m (Q : unit → S → Prop) :
  (b = true → steps P m Q) → (∀ s, b = false → P s → Q tt s) → steps P (whenS b m) Q.
Proof. destruct b; intros H1 H2; [by apply H1|]. apply steps_ret. auto. Qed.

(** Two operations taken together. *)
Lemma steps_assoc {A} P (m1 m2 : St S unit) (m3 : St S A) Q :
  steps P ((m1 ;; m2) ;; m3) Q → steps P (m1 ;; m2 ;; m3) Q.
Proof.
  intros Hm s a s' Hs E. apply (Hm s a s' Hs). rewrite !St_bind_run in *.
  destruct (m1 s) as [[u s1]|]; [|done]. cbn [obind fst snd] in *. by rewrite St_bind_run in E.
Qed.

Lemma steps_each {A} (l : list A) m (I : S → Prop) :
  (∀ a, steps I (m a) (λ _, I)) → steps I (each l m) (λ _, I).
Proof.
  intros Hm. induction l as [|a l IH]; cbn [each]; [by apply steps_ret|].
  eapply steps_bind; [apply Hm|]. intros []. apply IH.
Qed.

(** ** Operations that keep a relation between states *)

(** [rel E m]: [m] only goes from a state to an [E]-related one. *)
Definition rel {A} (E : S → S → Prop) (m : St S A) : Prop :=
  ∀ s a s', m s = Done (a, s') → E s s'.

Section relations.
Context (E : S → S → Prop) `{!PreOrder E} {A B : Type}.

Lemma rel_ret (a : A) : rel E (mret a).
Proof. intros s b s' [= _ <-]. reflexivity. Qed.

Lemma rel_gets (f : S → A) : rel E (gets f).
Proof. intros s b s' [= _ <-]. reflexivity. Qed.

Lemma rel_stuck : rel E (@stuck S A).
Proof. by intros s b s'. Qed.

Lemma rel_of_outcome (o : outcome A) : rel E (of_outcome o).
Proof. intros s b s'. unfold of_outcome. destruct o; [|done]. intros [= _ <-]. reflexivity. Qed.

Lemma rel_bind (m : St S A) (f : A → St S B) : rel E m → (∀ a, rel E (f a)) → rel E (m ≫= f).
Proof.
  intros Hm Hf s b s'. rewrite St_bind_run. destruct (m s) as [[a s1]|] eqn:Em; [|done].
  cbn [obind fst snd]. intros Ef. etransitivity; [by eapply Hm|by eapply Hf].
Qed.

Lemma rel_modify f : (∀ s, E s (f s)) → rel E (modify f).
Proof. intros Hf s b s' [= _ <-]. apply Hf. Qed.

Lemma rel_whenS b (m : St S unit) : rel E m → rel E (whenS b m).
Proof. destruct b; [done|]. intros _ s a s' [= _ <-]. reflexivity. Qed.

(** A predicate that the relation keeps. *)
Lemma steps_rel (P : S → Prop) (m : St S A) :
  rel E m → (∀ s s', E s s' → P s → P s') → steps P m (λ _, P).
Proof. intros Hm HP s a s' Hs Em. eapply HP; [by eapply Hm|done]. Qed.

End relations.

Lemma rel_each E `{!PreOrder E} {A} (l : list A) (m : A → St S unit) :
  (∀ a, rel E (m a)) → rel E (each l m).
Proof.
  intros Hm. induction l as [|a l IH]; cbn [each]; [by apply rel_ret|].
  by apply rel_bind.
Qed.

End triples.
