(* ===== verification/Dsp.v ===== *)
(** The DSP's side of the driver (src/msm/eva/msm_cvp_dsp.c): the message channel to the DSP,
    the registry of the DSP's processes, the state machine of the interface, and the queue
    memory that is lent to the DSP.

    This is the build with the DSP and FastRPC (CONFIG_EVA_ART).  The state extends the
    session layer's: [struct cvp_dsp_apps], the process entries at their addresses, and of an
    instance the fields that only this file uses ([dsp_handle], [task], [fastrpc_entry]).
    The buffers of all DSP processes are objects of one store, that of Smem.v.  A message is
    the words the DSP sent and their length in bytes.  A destroyed instance is taken out of
    its process's list ([cvp_dsp_del_sess]) when the operation that destroyed it ends. *)

From S2P Require Import Prelude Store HfiQueue HfiTypes HfiPacket HfiDefs Driver Instance HfiSession.
From S2P Require Import Response Session Power Smem Buffers UserMem Wncc Fences Commands Ioctl Sysprop Control Life.
Open Scope Z_scope.

(** * Data *)

(** [enum dsp_state]. *)
Inductive dsp_state :=
  DSP_INVALID | DSP_UNINIT | DSP_PROBED | DSP_READY | DSP_SUSPEND | DSP_INACTIVE.

#[global] Instance dsp_state_eq_dec : EqDecision dsp_state.
Proof. solve_decision. Defined.

(** [enum CPU2DSP_STATUS] and [enum CVP_DSP_COMMAND]. *)
Definition CPU2DSP_SUCCESS : Z := 0.
Definition CPU2DSP_EFAIL : Z := 1.
Definition CPU2DSP_EFATAL : Z := 2.
Definition CPU2DSP_EUNAVAILABLE : Z := 3.
Definition CPU2DSP_EINVALSTATE : Z := 4.
Definition CPU2DSP_EUNSUPPORTED : Z := 5.

Definition CPU2DSP_SEND_HFI_QUEUE : Z := 0.
Definition CPU2DSP_SUSPEND : Z := 1.
Definition CPU2DSP_RESUME : Z := 2.
Definition CPU2DSP_SHUTDOWN : Z := 3.
Definition CPU2DSP_SET_DEBUG_LEVEL : Z := 7.
Definition CPU2DSP_MAX_CMD : Z := 8.
Definition DSP2CPU_POWERON : Z := 11.
Definition DSP2CPU_POWEROFF : Z := 12.
Definition DSP2CPU_CREATE_SESSION : Z := 13.
Definition DSP2CPU_DETELE_SESSION : Z := 14.
Definition DSP2CPU_POWER_REQUEST : Z := 15.
Definition DSP2CPU_REGISTER_BUFFER : Z := 17.
Definition DSP2CPU_DEREGISTER_BUFFER : Z := 18.
Definition DSP2CPU_MEM_ALLOC : Z := 19.
Definition DSP2CPU_MEM_FREE : Z := 20.
Definition DSP2CPU_START_SESSION : Z := 21.
Definition DSP2CPU_STOP_SESSION : Z := 22.
Definition DSP2CPU_SET_SESSION_NAME : Z := 23.
Definition DSP2CPU_PD_INIT : Z := 24.
Definition DSP2CPU_SET_SESSION_CONFIGS : Z := 25.
Definition CVP_DSP_MAX_CMD : Z := 26.

Definition CVP_INVALID_RPMSG_TYPE : Z := 0xBADDFACE.
Definition MAX_FASTRPC_DRIVER_NUM : nat := 8.
Definition DDR_TYPE_LPDDR4 : Z := 0x6.
Definition DDR_TYPE_LPDDR4X : Z := 0x7.
Definition DDR_TYPE_LPDDR5 : Z := 0x9.
Definition DRIVER_NAME_AVAILABLE : Z := 1.
Definition DRIVER_NAME_USED : Z := 2.

(** Sizes of the queues shared with the DSP, in bytes. *)
Definition CVP_IFACEQ_CMDQ_IDX : nat := 0.
Definition CVP_IFACEQ_MSGQ_IDX : nat := 1.
Definition CVP_IFACEQ_DBGQ_IDX : nat := 2.
Definition CVP_IFACEQ_NUMQ : Z := 3.
Definition CVP_DSP_IFACEQ_CMD_QUEUE_SIZE : Z := CVP_IFACEQ_MAX_PKT_SIZE * 25 * 8.
Definition CVP_DSP_IFACEQ_MSG_QUEUE_SIZE : Z := CVP_IFACEQ_MAX_PKT_SIZE * 25 * 8.
Definition CVP_DSP_IFACEQ_DBG_QUEUE_SIZE : Z := CVP_IFACEQ_MAX_PKT_SIZE * 40 * 8.

(** [sizeof] of [struct cvp_hfi_queue_table_header] and [struct cvp_hfi_queue_header]. *)
Definition sizeof_table_header : Z := 6 * 4 + 8 + 256.
Definition sizeof_queue_header : Z := 14 * 4.
Definition CVP_IFACEQ_TABLE_SIZE : Z := sizeof_table_header + sizeof_queue_header * CVP_IFACEQ_NUMQ.

(** [struct cvp_hfi_queue_table_header], without the name. *)
Record cvp_hfi_queue_table_header := mkQtbl {
  qtbl_version : Z;
  qtbl_size : Z;
  qtbl_qhdr0_offset : Z;
  qtbl_qhdr_size : Z;
  qtbl_num_q : Z;
  qtbl_num_active_q : Z
}.

(** [dsp_iface_q_table] and [dsp_iface_queues] of [struct iris_hfi_device]. *)
Record dsp_queues := mkDq {
  dq_align_virtual_addr : bool;
  dq_dma_handle : Z;
  dq_size : Z;
  dq_header : cvp_hfi_queue_table_header;
  dq_queues : list cvp_iface_q_info
}.

(** [struct eva_mem_remote], as far as it is read or written. *)
Record eva_mem_remote := mkRemote {
  rm_size : Z;
  rm_fd : Z;
  rm_offset : Z;
  rm_index : Z;
  rm_iova : Z;
  rm_v_dsp_addr : Z
}.

(** [struct cvp_dsp_cmd_msg], a command or an answer to the DSP. *)
Record cvp_dsp_cmd_msg := mkCmd {
  cm_type : Z;
  cm_ret : Z;
  cm_msg_ptr : Z;
  cm_msg_ptr_len : Z;
  cm_hfi_version : Z;
  cm_session_id : Z;
  cm_ddr_type : Z;
  cm_debug_mask : Z;
  cm_session_cpu_low : Z;
  cm_session_cpu_high : Z;
  cm_sbuf : eva_mem_remote
}.

(** [struct cvp_dsp_rsp_msg], as far as it is read, and [struct cvp_dsp_cmd_header]. *)
Record cvp_dsp_rsp_msg := mkRsp { rs_type : Z; rs_ret : Z; rs_dsp_state : Z }.
Record cvp_dsp_cmd_header := mkDh { dh_type : Z; dh_ver : Z; dh_len : Z }.

(** What the DSP sends: its words, and how many bytes it is long. *)
Record rpmsg := mkRpmsg { rp_data : list Z; rp_len : Z }.

(** [sizeof] of [struct cvp_dsp_rsp_msg], [cvp_dsp_cmd_header], [cvp_dsp2cpu_cmd] and
    [cvp_dsp2cpu_cmd_v2], in words. *)
Definition rsp_words : Z := 7.
Definition header_words : Z := 3.
Definition cmd_words : Z := 137.
Definition cmd_v2_words : Z := 334.

(** Words of [struct cvp_dsp2cpu_cmd] and of [struct cvp_dsp2cpu_cmd_v2]. *)
Definition at_session_type : Z := 3.
Definition at_kernel_mask : Z := 4.
Definition at_session_prio : Z := 5.
Definition at_is_secure : Z := 6.
Definition at_dsp_access_mask : Z := 7.
Definition at_session_cpu_low : Z := 9.
Definition at_session_cpu_high : Z := 10.
Definition at_pid : Z := 11.
Definition at_power_req : Z := 12.
Definition at_sbuf_type : Z := 56.
Definition at_sbuf_size : Z := 57.
Definition at_sbuf_fd : Z := 58.
Definition at_sbuf_offset : Z := 59.
Definition at_sbuf_index : Z := 60.
Definition at_sbuf_iova : Z := 61.
Definition at_sbuf_dsp_remote_map : Z := 62.
Definition at_session_name : Z := 66.
Definition at_v2_session_cpu_low : Z := 4.
Definition at_v2_session_cpu_high : Z := 5.
Definition at_v2_pid : Z := 6.
Definition at_v2_prop_num : Z := 188.
Definition at_v2_prop_data : Z := 189.

(** [struct cvp_dsp_apps]; [a_chan] says whether the channel is there, the driver names are
    their status words, and the list of processes their addresses. *)
Record cvp_dsp_apps := mkApps {
  a_chan : bool;
  a_state : dsp_state;
  a_debug_mask : Z;
  a_hyp_assigned : bool;
  a_addr : Z;
  a_size : Z;
  a_completions : list nat;
  a_pending_dsp2cpu_cmd_header : cvp_dsp_cmd_header;
  a_pending_dsp2cpu_cmd : list Z;
  a_pending_dsp2cpu_cmd_v2 : list Z;
  a_pending_dsp2cpu_rsp : cvp_dsp_rsp_msg;
  a_fastrpc_driver_list : list Z;
  a_cvp_fastrpc_name : list Z
}.

(** [struct cvp_dsp_fastrpc_driver_entry]: a process of the DSP. *)
Record frpc_entry := mkFrpc {
  fe_handle : Z;
  fe_session_cnt : Z;
  fe_driver_name_idx : nat;
  fe_refcount : Z;
  fe_cvp_fastrpc_device : Z;
  fe_probe_completion : nat;
  fe_dsp_sessions : list Z;
  fe_cvpdspbufs : list cvp_internal_buf;
  fe_unused_dsp_bufs : cvp_frame_bufs;
  fe_smem_count : Z;
  fe_dsp_usage : Z
}.

(** The fields of an instance that only the DSP's side uses. *)
Record dsp_inst := mkDinst { di_dsp_handle : Z; di_task : Z; di_fastrpc_entry : Z }.

(** Calls out of the file. *)
Inductive dcall :=
| Rpmsg_send (cmd : cvp_dsp_cmd_msg)
| Wait_rsp (type : Z)
| Wait_probe (node : Z)
| Scm_assign (to_dsp : bool) (addr size : Z)
| Fastrpc_register (node : Z)
| Fastrpc_unregister (node : Z)
| Fastrpc_map_dma (device dma_buf size : Z)
| Fastrpc_v_dsp_addr (dma_buf : Z)
| Fastrpc_unmap_dma (device dma_buf : Z)
| Fastrpc_get_hlos_pid (device : Z)
| Fastrpc_hlos_pid (device : Z)
| Find_get_pid (pid : Z)
| Get_pid_task (pid : Z)
| Put_task_struct (task : Z)
| Kzalloc_node (live : list Z)
| Kzalloc_kmd
| Dsp_zalloc_buf
| Fget (fd task : Z)
| File_dma_buf (file : Z)
| Fput (file : Z)
| Usleep_range
| Read_label
| Edge_is_cdsp
| Register_rpmsg_driver
| Run_dsp_thread.

Record dsp := mkDsp {
  d_ses : ses;
  d_apps : cvp_dsp_apps;
  d_nodes : list (Z * frpc_entry);
  d_insts : gmap Z dsp_inst;
  d_nr_maps : Z;
  d_queues : dsp_queues;
  d_smem_leak_count : Z;
  d_trace : list dcall
}.

#[global] Instance eta_remote : Eta eva_mem_remote :=
  λ r, mkRemote (rm_size r) (rm_fd r) (rm_offset r) (rm_index r) (rm_iova r) (rm_v_dsp_addr r).
#[global] Instance eta_cmd : Eta cvp_dsp_cmd_msg :=
  λ r, mkCmd (cm_type r) (cm_ret r) (cm_msg_ptr r) (cm_msg_ptr_len r) (cm_hfi_version r)
    (cm_session_id r) (cm_ddr_type r) (cm_debug_mask r) (cm_session_cpu_low r)
    (cm_session_cpu_high r) (cm_sbuf r).
#[global] Instance eta_rsp : Eta cvp_dsp_rsp_msg :=
  λ r, mkRsp (rs_type r) (rs_ret r) (rs_dsp_state r).
#[global] Instance eta_dh : Eta cvp_dsp_cmd_header :=
  λ r, mkDh (dh_type r) (dh_ver r) (dh_len r).
#[global] Instance eta_dq : Eta dsp_queues :=
  λ r, mkDq (dq_align_virtual_addr r) (dq_dma_handle r) (dq_size r) (dq_header r) (dq_queues r).
#[global] Instance eta_apps : Eta cvp_dsp_apps :=
  λ r, mkApps (a_chan r) (a_state r) (a_debug_mask r) (a_hyp_assigned r) (a_addr r) (a_size r)
    (a_completions r) (a_pending_dsp2cpu_cmd_header r) (a_pending_dsp2cpu_cmd r)
    (a_pending_dsp2cpu_cmd_v2 r) (a_pending_dsp2cpu_rsp r) (a_fastrpc_driver_list r)
    (a_cvp_fastrpc_name r).
#[global] Instance eta_frpc : Eta frpc_entry :=
  λ r, mkFrpc (fe_handle r) (fe_session_cnt r) (fe_driver_name_idx r) (fe_refcount r)
    (fe_cvp_fastrpc_device r) (fe_probe_completion r) (fe_dsp_sessions r) (fe_cvpdspbufs r)
    (fe_unused_dsp_bufs r) (fe_smem_count r) (fe_dsp_usage r).
#[global] Instance eta_dinst : Eta dsp_inst :=
  λ r, mkDinst (di_dsp_handle r) (di_task r) (di_fastrpc_entry r).
#[global] Instance eta_dsp : Eta dsp :=
  λ r, mkDsp (d_ses r) (d_apps r) (d_nodes r) (d_insts r) (d_nr_maps r) (d_queues r)
    (d_smem_leak_count r) (d_trace r).

(** What is outside: the answers to the calls, the messages and the FastRPC probes (handle
    and device) that arrive while a call waits, and what an uninitialised command holds. *)
Class DspEnv := {
  d_answer : nat → dcall → Z;
  rpmsg_arrivals : nat → list rpmsg;
  probe_arrivals : nat → list (Z * Z);
  stack_cmd : nat → cvp_dsp_cmd_msg
}.

Abbreviation D := (St dsp).

(** * Operations *)
Section operations.
Context `{Env} `{FenceEnv} `{BufEnv} `{RbTree} `{UserMem} `{LifeEnv} `{DspEnv}.

Definition dext (c : dcall) : D Z :=
  n ← gets (λ s, length (d_trace s));
  modify (λ s, s <| d_trace ::= λ t, t ++ [c] |>) ;;
  mret (d_answer n c).

Definition apps : D cvp_dsp_apps := gets d_apps.
Definition mod_apps (f : cvp_dsp_apps → cvp_dsp_apps) : D unit := modify (λ s, s <| d_apps ::= f |>).
Definition set_state (st : dsp_state) : D unit := mod_apps (λ a, a <| a_state := st |>).

(** Access to a process through its address. *)
Definition node_get (p : Z) : D frpc_entry := λ s,
  match obj_find p (d_nodes s) with Some e => Done (e, s) | None => Fault end.
Definition node_mod (p : Z) (f : frpc_entry → frpc_entry) : D unit :=
  _ ← node_get p; modify (λ s, s <| d_nodes ::= obj_alter f p |>).
Definition node_kfree (p : Z) : D unit :=
  _ ← node_get p; modify (λ s, s <| d_nodes ::= obj_del p |>).

(** The DSP's fields of an instance; they are zero in a new one. *)
Definition dinst_of (p : Z) (s : dsp) : dsp_inst := default (mkDinst 0 0 0) (d_insts s !! p).
Definition dinst_mod (p : Z) (f : dsp_inst → dsp_inst) : D unit :=
  modify (λ s, s <| d_insts := <[p := f (dinst_of p s)]> (d_insts s) |>).

(** ** Processes of the DSP *)

(** The first process with a handle. *)
Fixpoint with_handle (handle : Z) (nodes : list (Z * frpc_entry)) (l : list Z) : outcome Z :=
  match l with
  | [] => Done 0
  | p :: l' =>
      match obj_find p nodes with
      | None => Fault
      | Some e => if handle =? fe_handle e then Done p else with_handle handle nodes l'
      end
  end.

Definition find_handle (handle : Z) : D Z := λ s,
  let! p := with_handle handle (d_nodes s) (a_fastrpc_driver_list (d_apps s)) in Done (p, s).

Definition cvp_put_fastrpc_node (p : Z) : D unit :=
  if p =? 0 then mret tt
  else
    e ← node_get p;
    whenS (fe_refcount e >? 0) (node_mod p (λ e, e <| fe_refcount ::= Z.pred |>)).

Definition cvp_get_fastrpc_node_with_handle (handle : Z) : D Z :=
  p ← find_handle handle;
  whenS (negb (p =? 0)) (node_mod p (λ e, e <| fe_refcount ::= Z.succ |>)) ;;
  mret p.

(** A session leaves the list of its process. *)
Definition del_session (node inst : Z) : D unit :=
  node_mod node (λ e, e <| fe_dsp_sessions ::= filter (λ q, q ≠ inst) |>
                        <| fe_session_cnt ::= λ n, u32_sub n 1 |>).

Definition cvp_dsp_del_sess (handle inst : Z) : D Z :=
  node ← cvp_get_fastrpc_node_with_handle handle;
  if node =? 0 then mret (- EINVAL)
  else
    e ← node_get node;
    whenS (bool_decide (inst ∈ fe_dsp_sessions e)) (del_session node inst) ;;
    cvp_put_fastrpc_node node ;;
    mret 0.

(** ** The session layer below *)

Definition dsp_sessions_of (w : world) : list Z :=
  (filter (λ x, i_session_type x.2 = MSM_CVP_DSP) (c_instances (w_core w))).*1.

Definition gone (old new : world) : list Z :=
  filter (λ p, p ∉ (c_instances (w_core new)).*1) (dsp_sessions_of old).

(** An operation of the session layer, and the DSP's part of the destruction of the
    instances it destroys. *)
Definition on_ses {A} (m : U A) : D A := λ s,
  let! r := m (d_ses s) in
  (each (gone (z_world (d_ses s)) (z_world (snd r)))
     (λ p, di ← gets (dinst_of p);
           cvp_dsp_del_sess (di_dsp_handle di) p ;;
           modify (λ s, s <| d_insts ::= delete p |>)) ;;
   mret (fst r)) (s <| d_ses := snd r |>).

Definition on_core {A} (m : M A) : D A := on_ses (on_world m).

(** An operation on buffers, which destroys no instance. *)
Definition on_store {A} (m : Smem.B A) : D A := λ s,
  let! r := on_bufs m (d_ses s) in Done (fst r, s <| d_ses := snd r |>).

(** ** Messages *)

Definition complete_cmd (i : Z) : D unit :=
  mod_apps (λ a, a <| a_completions ::= alter Datatypes.S (Z.to_nat i) |>).

(** Whether a completion was signalled; it is consumed. *)
Definition try_completion (i : Z) : D bool :=
  a ← apps;
  match a_completions a !! Z.to_nat i with
  | None => stuck
  | Some 0%nat => mret false
  | Some _ => mod_apps (λ a, a <| a_completions ::= alter Nat.pred (Z.to_nat i) |>) ;; mret true
  end.

Definition rsp_of (l : list Z) : outcome cvp_dsp_rsp_msg :=
  let! m := words_read l 0 rsp_words in
  Done (mkRsp (m !!! 0%nat) (s32 (m !!! 1%nat)) (m !!! 2%nat)).

Definition header_of (l : list Z) : outcome cvp_dsp_cmd_header :=
  let! m := words_read l 0 header_words in
  Done (mkDh (m !!! 0%nat) (m !!! 1%nat) (m !!! 2%nat)).

(** A command of the DSP that is not an answer. *)
Definition receive_cmd (m : rpmsg) : D unit :=
  a ← apps;
  if rp_len m <? 4 * header_words then mret tt
  else if negb (dh_type (a_pending_dsp2cpu_cmd_header a) =? CVP_INVALID_RPMSG_TYPE) then mret tt
  else
    hdr ← of_outcome (header_of (rp_data m));
    mod_apps (λ a, a <| a_pending_dsp2cpu_cmd_header := hdr |>) ;;
    if (dh_ver hdr =? 0) && (rp_len m =? 4 * cmd_words) then
      l ← of_outcome (words_read (rp_data m) 0 cmd_words);
      mod_apps (λ a, a <| a_pending_dsp2cpu_cmd := l |>)  ;; complete_cmd CPU2DSP_MAX_CMD
    else if (dh_ver hdr =? 1) && (rp_len m =? 4 * cmd_v2_words) then
      l ← of_outcome (words_read (rp_data m) 0 cmd_v2_words);
      mod_apps (λ a, a <| a_pending_dsp2cpu_cmd_v2 := l |>)  ;; complete_cmd CPU2DSP_MAX_CMD
    else mret tt.

Definition cvp_dsp_rpmsg_callback (m : rpmsg) : D unit :=
  type ← of_outcome (word_at (rp_data m) 0);
  a ← apps;
  if (type <? CPU2DSP_MAX_CMD) && (rp_len m =? 4 * rsp_words) then
    if rs_type (a_pending_dsp2cpu_rsp a) =? type then
      rsp ← of_outcome (rsp_of (rp_data m));
      mod_apps (λ a, a <| a_pending_dsp2cpu_rsp := rsp |>) ;; complete_cmd type
    else mret tt
  else if (type <? CVP_DSP_MAX_CMD)
          && ((rp_len m =? 4 * cmd_words) || (rp_len m =? 4 * cmd_v2_words)) then receive_cmd m
  else mret tt.

Definition cvp_dsp_send_cmd (cmd : cvp_dsp_cmd_msg) : D Z :=
  a ← apps;
  if negb (a_chan a) then mret (- EINVAL)
  else
    rc ← dext (Rpmsg_send cmd);
    mret (if negb (rc =? 0) then - EINVAL else 0).

(** [wait_for_completion_timeout] on the completion of a command. *)
Definition wait_rsp (type : Z) : D bool :=
  ok ← try_completion type;
  if ok : bool then mret true
  else
    n ← gets (λ s, length (d_trace s));
    dext (Wait_rsp type) ;;
    each (rpmsg_arrivals n) cvp_dsp_rpmsg_callback ;;
    try_completion type.

Definition cvp_dsp_send_cmd_sync (cmd : cvp_dsp_cmd_msg) : D (Z * cvp_dsp_rsp_msg) :=
  mod_apps (λ a, a <| a_pending_dsp2cpu_rsp ::= λ r, r <| rs_type := cm_type cmd |> |>) ;;
  rc ← cvp_dsp_send_cmd cmd;
  rc ← (if negb (rc =? 0) then mret rc
        else ok ← wait_rsp (cm_type cmd); mret (if ok : bool then 0 else - ETIMEDOUT));
  a ← apps;
  mod_apps (λ a, a <| a_pending_dsp2cpu_rsp ::= λ r, r <| rs_type := CVP_INVALID_RPMSG_TYPE |> |>) ;;
  mret (rc, a_pending_dsp2cpu_rsp a).

(** A command on the stack, with its type. *)
Definition new_cmd (type : Z) : D cvp_dsp_cmd_msg :=
  n ← gets (λ s, length (d_trace s)); mret (stack_cmd n <| cm_type := type |>).

(** [cvp_of_fdt_get_ddrtype] of msm_cvp_platform.c. *)
Definition cvp_of_fdt_get_ddrtype : Z := DDR_TYPE_LPDDR5.

Definition cvp_dsp_send_cmd_hfi_queue (phys_addr size_in_bytes : Z) : D (Z * cvp_dsp_rsp_msg) :=
  cmd ← new_cmd CPU2DSP_SEND_HFI_QUEUE;
  let ddr := cvp_of_fdt_get_ddrtype in
  cvp_dsp_send_cmd_sync
    (cmd <| cm_msg_ptr := phys_addr |> <| cm_msg_ptr_len := size_in_bytes |>
         <| cm_hfi_version := 1 |>
         <| cm_ddr_type := if ddr <? 0 then DDR_TYPE_LPDDR5 else ddr |>).

(** ** The memory that is lent to the DSP *)

Definition cvp_hyp_assign_to_dsp (addr size : Z) : D Z :=
  a ← apps;
  if a_hyp_assigned a then mret 0
  else
    rc ← dext (Scm_assign true addr size);
    if negb (rc =? 0) then mret rc
    else
      mod_apps (λ a, a <| a_addr := addr |> <| a_size := size |> <| a_hyp_assigned := true |>) ;;
      mret rc.

Definition cvp_hyp_assign_from_dsp : D Z :=
  a ← apps;
  if negb (a_hyp_assigned a) then mret 0
  else
    rc ← dext (Scm_assign false (a_addr a) (a_size a));
    if negb (rc =? 0) then mret rc
    else
      mod_apps (λ a, a <| a_addr := 0 |> <| a_size := 0 |> <| a_hyp_assigned := false |>) ;;
      mret rc.

(** ** Buffers of a process *)

(** [cvp_allocate_dsp_bufs]: the result and the buffer; an smem object that could not be
    allocated is not reported. *)
Definition cvp_allocate_dsp_bufs (buf : cvp_internal_buf) (buffer_size secure_type : Z) :
    Smem.B (Z * cvp_internal_buf) :=
  if (buffer_size =? 0) || (secure_type >? 2) then mret (- EINVAL, buf)
  else
    let smem_flags :=
      if secure_type =? 1 then Z.lor SMEM_UNCACHED (Z.lor SMEM_SECURE SMEM_PIXEL)
      else if secure_type =? 2 then Z.lor SMEM_UNCACHED (Z.lor SMEM_SECURE SMEM_NON_PIXEL)
      else SMEM_UNCACHED in
    p ← smem_zalloc;
    if p =? 0 then mret (0, buf <| ib_smem := 0 |>)
    else
      smem_mod p (λ a, a <| sm_flags := smem_flags |>) ;;
      rc ← msm_cvp_smem_alloc buffer_size false p;
      if negb (rc =? 0) then smem_kfree p ;; mret (rc, buf <| ib_smem := p |>)
      else
        smem_mod p (λ a, a <| sm_pkt_type := 0 |> <| sm_buf_idx := 0 |>) ;;
        ref_inc p ;;
        a ← smem_get p;
        mret (rc, buf <| ib_smem := p |> <| ib_size := sm_size a |>
                      <| ib_type := HFI_BUFFER_INTERNAL_PERSIST_1 |> <| ib_ownership := DSP |>).

Definition cvp_release_dsp_buffers (buf : cvp_internal_buf) : Smem.B Z :=
  if ib_smem buf =? 0 then mret (- EINVAL)
  else if bool_decide (ib_ownership buf = DSP) then
    z ← ref_dec (ib_smem buf);
    whenS z (_ ← msm_cvp_smem_free (ib_smem buf); smem_kfree (ib_smem buf)) ;;
    mret 0
  else mret 0.

(** The result, the buffer with its [fd], and the address on the DSP. *)
Definition eva_fastrpc_dev_map_dma (frpc_device : Z) (buf : cvp_internal_buf)
    (dsp_remote_map : Z) : D (Z * cvp_internal_buf * Z) :=
  if dsp_remote_map =? 1 then
    a ← on_store (smem_get (ib_smem buf));
    rc ← dext (Fastrpc_map_dma frpc_device (sm_dma_buf a) (sm_size a));
    if negb (rc =? 0) then mret (rc, buf, 0)
    else
      v ← dext (Fastrpc_v_dsp_addr (sm_dma_buf a));
      modify (λ s, s <| d_nr_maps ::= Z.succ |>) ;;
      mret (rc, buf <| ib_fd := s32 v |>, u64 v)
  else mret (0, buf <| ib_fd := 0 |>, 0).

Definition eva_fastrpc_dev_unmap_dma (frpc_device : Z) (buf : cvp_internal_buf) : D Z :=
  if ib_fd buf =? 0 then mret 0
  else
    a ← on_store (smem_get (ib_smem buf));
    rc ← dext (Fastrpc_unmap_dma frpc_device (sm_dma_buf a));
    if negb (rc =? 0) then mret rc
    else modify (λ s, s <| d_nr_maps ::= λ n, if n >? 0 then n - 1 else n |>) ;; mret rc.

(** [eva_fastrpc_dev_get_pid]: the result and the process id. *)
Definition eva_fastrpc_dev_get_pid (frpc_device : Z) : D (Z * Z) :=
  rc ← dext (Fastrpc_get_hlos_pid frpc_device);
  if negb (rc =? 0) then mret (rc, 0) else pid ← dext (Fastrpc_hlos_pid frpc_device); mret (rc, u32 pid).

Definition cvp_dsp_fastrpc_unmap (handle : Z) (buf : cvp_internal_buf) : D Z :=
  node ← cvp_get_fastrpc_node_with_handle handle;
  if node =? 0 then mret (- EINVAL)
  else
    e ← node_get node;
    rc ← eva_fastrpc_dev_unmap_dma (fe_cvp_fastrpc_device e) buf;
    cvp_put_fastrpc_node node ;;
    mret rc.

(** [msm_cvp_unmap_smem_frpc] of cvp_smem.c. *)
Definition msm_cvp_unmap_smem_frpc (node smem : Z) : D Z :=
  if smem =? 0 then mret (- EINVAL)
  else
    rc ← on_store (msm_cvp_unmap_smem_helper smem);
    whenS (rc =? 0) (node_mod node (λ e, e <| fe_smem_count ::= Z.pred |>)) ;;
    mret rc.

(** ** Names of the drivers *)

Fixpoint free_name (i : nat) (l : list Z) : option nat :=
  match l with
  | [] => None
  | status :: l' => if status =? DRIVER_NAME_AVAILABLE then Some i else free_name (Datatypes.S i) l'
  end.

Definition eva_fastrpc_driver_get_name (node : Z) : D Z :=
  a ← apps;
  match free_name 0 (a_cvp_fastrpc_name a) with
  | None => mret (- 1)
  | Some i =>
      node_mod node (λ e, e <| fe_driver_name_idx := i |>) ;;
      mod_apps (λ a, a <| a_cvp_fastrpc_name ::= <[i := DRIVER_NAME_USED]> |>) ;;
      mret 0
  end.

Definition eva_fastrpc_driver_release_name (node : Z) : D unit :=
  e ← node_get node;
  mod_apps (λ a, a <| a_cvp_fastrpc_name ::= <[fe_driver_name_idx e := DRIVER_NAME_AVAILABLE]> |>).

(** ** Taking a process off the list *)

Definition unlink_node (p : Z) : D unit :=
  mod_apps (λ a, a <| a_fastrpc_driver_list ::= filter (λ q, q ≠ p) |>).

(** The label [search_again] of the three routines that take a process off the list: while
    it is referenced they look again, [max_count] times after the first. *)
Fixpoint take_node (max_count : nat) (search : D Z) : D Z :=
  p ← search;
  if p =? 0 then mret 0
  else
    e ← node_get p;
    if fe_refcount e >? 0 then
      dext Usleep_range ;;
      match max_count with O => mret 0 | Datatypes.S n => take_node n search end
    else unlink_node p ;; mret p.

Definition dequeue_frpc_node (node : Z) : D bool :=
  p ← take_node 10 (a ← apps; mret (if bool_decide (node ∈ a_fastrpc_driver_list a) then node else 0));
  mret (negb (p =? 0)).

Definition pop_frpc_node : D Z :=
  take_node 10 (a ← apps; mret (default 0 (head (a_fastrpc_driver_list a)))).

Definition pop_frpc_node_with_handle (handle : Z) : D Z := take_node 10 (find_handle handle).

(** ** Sessions of a process *)

Definition eva_fastrpc_driver_add_sess (node inst : Z) : D unit :=
  whenS (negb (inst =? 0)) (node_mod node (λ e, e <| fe_dsp_sessions ::= λ l, l ++ [inst] |>)) ;;
  node_mod node (λ e, e <| fe_session_cnt ::= λ n, u32_add n 1 |>).

(** [delete_dsp_session]: the second [return rc] is not inside the [if] that its indentation
    suggests, so the reference on [inst->task] is never given back. *)
Definition delete_dsp_session (inst : Z) : D Z :=
  if inst =? 0 then mret (- EINVAL)
  else
    on_core (mod_i inst (λ i, i <| i_pm_qos_latency := PM_QOS_RESUME_LATENCY_DEFAULT_VALUE |>)) ;;
    on_core (ext Pm_qos_update) ;;
    on_ses (msm_cvp_close inst).

(** The loops over [dsp_sessions] that delete every session. *)
Definition delete_sessions (node : Z) : D unit :=
  e ← node_get node;
  each (fe_dsp_sessions e) (λ inst, del_session node inst ;; _ ← delete_dsp_session inst; mret tt).

(** [eva_fastrpc_remove_buffers]; a buffer without an smem object stays in the list. *)
Fixpoint remove_buffers (node : Z) (kept l : list cvp_internal_buf) (rc : Z) : D Z :=
  match l with
  | [] => mret rc
  | b :: l' =>
      if ib_smem b =? 0 then remove_buffers node (kept ++ [b]) l' rc
      else
        e ← node_get node;
        _ ← eva_fastrpc_dev_unmap_dma (fe_cvp_fastrpc_device e) b;
        rc ← on_store (cvp_release_dsp_buffers b);
        node_mod node (λ e, e <| fe_cvpdspbufs := kept ++ l' |>) ;;
        remove_buffers node kept l' rc
  end.

Definition eva_fastrpc_remove_buffers (node : Z) : D Z :=
  if node =? 0 then mret (- EINVAL)
  else e ← node_get node; remove_buffers node [] (fe_cvpdspbufs e) 0.

(** [cvp_remove_dsp_sessions]: every round takes a process off the list. *)
Fixpoint remove_dsp_sessions (fuel : nat) : D unit :=
  p ← pop_frpc_node;
  if p =? 0 then mret tt
  else
    match fuel with
    | O => stuck
    | Datatypes.S fuel' =>
        delete_sessions p ;;
        _ ← eva_fastrpc_remove_buffers p;
        dext (Fastrpc_unregister p) ;;
        eva_fastrpc_driver_release_name p ;;
        node_kfree p ;;
        remove_dsp_sessions fuel'
    end.

Definition cvp_remove_dsp_sessions : D unit :=
  a ← apps; remove_dsp_sessions (length (a_fastrpc_driver_list a)).

(** The loop over [cvpdspbufs] of [eva_fastrpc_driver_unregister]. *)
Fixpoint clear_buffers (node : Z) (l : list cvp_internal_buf) : D unit :=
  match l with
  | [] => mret tt
  | b :: l' =>
      (match ib_ownership b with
       | CLIENT =>
           rc ← msm_cvp_unmap_smem_frpc node (ib_smem b);
           whenS (rc =? 0) (on_store (a ← smem_get (ib_smem b); msm_cvp_smem_put_dma_buf (sm_dma_buf a)))
       | DSP =>
           _ ← on_store (cvp_release_dsp_buffers b);
           node_mod node (λ e, e <| fe_dsp_usage ::= λ v, s32 (v - ib_size b) |>)
       | DRIVER => mret tt
       end) ;;
      node_mod node (λ e, e <| fe_cvpdspbufs := l' |>) ;;
      clear_buffers node l'
  end.

Definition eva_fastrpc_driver_unregister (handle : Z) (force_exit : bool) : D unit :=
  node ← pop_frpc_node_with_handle handle;
  if node =? 0 then mret tt
  else
    delete_sessions node ;;
    e ← node_get node;
    if (fe_session_cnt e =? 0) || force_exit then
      clear_buffers node (fe_cvpdspbufs e) ;;
      dext (Fastrpc_unregister node) ;;
      eva_fastrpc_driver_release_name node ;;
      e ← node_get node;
      whenS (fe_smem_count e >? 0) (
        modify (λ s, s <| d_smem_leak_count ::= λ n, n + fe_smem_count e |>) ;;
        if msm_cvp_iova_leak_recovery then mret tt else stuck) ;;
      node_kfree node
    else mret tt.

(** ** Registering a process *)

(** [cvp_fastrpc_probe] and [cvp_fastrpc_callback]. *)
Definition cvp_fastrpc_probe (handle device : Z) : D unit :=
  node ← cvp_get_fastrpc_node_with_handle handle;
  whenS (negb (node =? 0)) (
    node_mod node (λ e, e <| fe_cvp_fastrpc_device := device |>
                          <| fe_probe_completion ::= Datatypes.S |>) ;;
    cvp_put_fastrpc_node node).

Definition cvp_fastrpc_callback (handle : Z) : D Z :=
  eva_fastrpc_driver_unregister handle true ;; mret 0.

(** [wait_for_completion_timeout] on [fastrpc_probe_completion]. *)
Definition try_probe (node : Z) : D bool :=
  e ← node_get node;
  match fe_probe_completion e with
  | O => mret false
  | Datatypes.S n => node_mod node (λ e, e <| fe_probe_completion := n |>) ;; mret true
  end.

Definition wait_probe (node : Z) : D bool :=
  ok ← try_probe node;
  if ok : bool then mret true
  else
    n ← gets (λ s, length (d_trace s));
    dext (Wait_probe node) ;;
    each (probe_arrivals n) (λ x, cvp_fastrpc_probe x.1 x.2) ;;
    try_probe node.

Definition zero_node : frpc_entry :=
  mkFrpc 0 0 0 0 0 0 [] [] (mkFbufs 0 0 ∅) 0 0.

(** [kzalloc] of a process entry. *)
Definition node_zalloc : D Z :=
  live ← gets (λ s, (d_nodes s).*1);
  p ← dext (Kzalloc_node live);
  whenS (negb (p =? 0)) (modify (λ s, s <| d_nodes ::= λ l, l ++ [(p, zero_node)] |>)) ;;
  mret p.

(** The label [fail_fastrpc_driver_register]. *)
Definition fail_register (node : Z) (skip_deregister : bool) : D Z :=
  cvp_put_fastrpc_node node ;;
  ok ← dequeue_frpc_node node;
  if negb ok then mret (- EINVAL)
  else
    (if skip_deregister then mret tt else dext (Fastrpc_unregister node) ;; mret tt) ;;
    eva_fastrpc_driver_release_name node ;;
    node_kfree node ;;
    mret (- EINVAL).

Definition eva_fastrpc_driver_register (handle : Z) : D Z :=
  node ← cvp_get_fastrpc_node_with_handle handle;
  if negb (node =? 0) then cvp_put_fastrpc_node node ;; mret 0
  else
    node ← node_zalloc;
    if node =? 0 then mret (- EINVAL)
    else
      node_mod node (λ e, e <| fe_handle := handle |>) ;;
      rc ← eva_fastrpc_driver_get_name node;
      if negb (rc =? 0) then node_kfree node ;; mret (- EINVAL)
      else
        mod_apps (λ a, a <| a_fastrpc_driver_list ::= λ l, l ++ [node] |>) ;;
        node_mod node (λ e, e <| fe_refcount ::= Z.succ |>) ;;
        rc ← dext (Fastrpc_register node);
        if negb (rc =? 0) then fail_register node true
        else
          ok ← wait_probe node;
          if negb ok then fail_register node false
          else cvp_put_fastrpc_node node ;; mret rc.

(** ** The queues shared with the DSP *)

Definition queue_size (i : nat) : Z :=
  if Nat.eqb i CVP_IFACEQ_CMDQ_IDX then CVP_DSP_IFACEQ_CMD_QUEUE_SIZE
  else if Nat.eqb i CVP_IFACEQ_MSGQ_IDX then CVP_DSP_IFACEQ_MSG_QUEUE_SIZE
  else CVP_DSP_IFACEQ_DBG_QUEUE_SIZE.

Definition cvp_dsp_set_queue_hdr_defaults (h : cvp_hfi_queue_header) (i : nat) :
    cvp_hfi_queue_header :=
  mkQhdr 0x1 (qhdr_start_addr h) CVP_IFACEQ_DFLT_QHDR (queue_size i / 4)
    0 (qhdr_pkt_drop_cnt h) 0x1 0x1 0x1 0x0 0x0 0x0 0x0 0x0.

(** [qhdr_start_addr] and the id in [qhdr_type] of a queue. *)
Definition set_queue_start (start_addr id : Z) (h : cvp_hfi_queue_header) : cvp_hfi_queue_header :=
  mkQhdr (qhdr_status h) start_addr (Z.lor (qhdr_type h) id) (qhdr_q_size h)
    (qhdr_pkt_size h) (qhdr_pkt_drop_cnt h) (qhdr_rx_wm h) (qhdr_tx_wm h)
    (qhdr_rx_req h) (qhdr_tx_req h) (qhdr_rx_irq_status h) (qhdr_tx_irq_status h)
    (qhdr_read_idx h) (qhdr_write_idx h).

(** What [cvp_dsp_init_hfi_queue_hdr] does to the [i]-th queue. *)
Definition init_dsp_queue (i : nat) (q : cvp_iface_q_info) : cvp_iface_q_info :=
  let id := if Nat.eqb i CVP_IFACEQ_CMDQ_IDX then HFI_Q_ID_HOST_TO_CTRL_CMD_Q
            else if Nat.eqb i CVP_IFACEQ_MSGQ_IDX then HFI_Q_ID_CTRL_TO_HOST_MSG_Q
            else HFI_Q_ID_CTRL_TO_HOST_DEBUG_Q in
  let f h := set_queue_start (align_device_addr q) id (cvp_dsp_set_queue_hdr_defaults h i) in
  mkQinfo true (align_virtual_addr_present q) (align_device_addr q) (queue_size i)
    (upd_hdr (λ h, if Nat.eqb i CVP_IFACEQ_DBGQ_IDX then set_rx_req 0 (f h) else f h) (q_shared q)).

Definition cvp_dsp_init_hfi_queue_hdr (dq : dsp_queues) : dsp_queues :=
  dq <| dq_queues ::= imap init_dsp_queue |>
     <| dq_header := mkQtbl 0 CVP_IFACEQ_TABLE_SIZE sizeof_table_header sizeof_queue_header
                       CVP_IFACEQ_NUMQ CVP_IFACEQ_NUMQ |>.

(** ** The state of the interface *)

Definition cvp_dsp_shutdown : D Z :=
  cmd ← new_cmd CPU2DSP_SHUTDOWN;
  a ← apps;
  if bool_decide (a_state a = DSP_INVALID) then mret 0
  else
    set_state DSP_INACTIVE ;;
    '(rc, _) ← cvp_dsp_send_cmd_sync cmd;
    if negb (rc =? 0) then _ ← cvp_hyp_assign_from_dsp; mret rc else cvp_hyp_assign_from_dsp.

Definition __reinit_dsp : D Z :=
  rc ← cvp_dsp_shutdown;
  if negb (rc =? 0) then mret rc
  else
    cvp_remove_dsp_sessions ;;
    dq ← gets d_queues;
    if negb (dq_align_virtual_addr dq) then mret (- EINVAL)
    else if (dq_dma_handle dq =? 0) || (dq_size dq =? 0) then mret rc
    else
      rc ← cvp_hyp_assign_to_dsp (dq_dma_handle dq) (dq_size dq);
      if negb (rc =? 0) then mret rc
      else
        '(rc, rsp) ← cvp_dsp_send_cmd_hfi_queue (dq_dma_handle dq) (dq_size dq);
        if negb (rc =? 0) then mret rc
        else mret (if negb (rs_ret rsp =? 0) then - ENODEV else rc).

(** The interface is given up, and its memory taken back. *)
Definition abandon_dsp : D unit :=
  set_state DSP_INVALID ;; _ ← cvp_hyp_assign_from_dsp; mret tt.

Definition cvp_reinit_dsp : D Z :=
  rc ← __reinit_dsp;
  whenS (negb (rc =? 0)) abandon_dsp ;;
  mret rc.

Definition dsp_session_exist : D bool :=
  gets (λ s, bool_decide (dsp_sessions_of (z_world (d_ses s)) ≠ [])).

(** The label [retry] of [cvp_dsp_suspend]; the DSP is initialised again at most once. *)
Fixpoint suspend_try (retries : nat) (cmd : cvp_dsp_cmd_msg) : D Z :=
  '(rc, rsp) ← cvp_dsp_send_cmd_sync cmd;
  if negb (rc =? 0) then mret rc
  else if rs_ret rsp =? CPU2DSP_EUNAVAILABLE then abandon_dsp ;; mret (- ENOTSUPP)
  else if rs_ret rsp =? CPU2DSP_EFATAL then
    match retries with
    | O => abandon_dsp ;; mret (- ENOTSUPP)
    | Datatypes.S n =>
        rc ← cvp_reinit_dsp;
        if negb (rc =? 0) then abandon_dsp ;; mret (- ENOTSUPP) else suspend_try n cmd
    end
  else set_state DSP_SUSPEND ;; mret rc.

Definition cvp_dsp_suspend (force : bool) : D Z :=
  exist ← dsp_session_exist;
  a ← apps;
  if negb force && exist && negb (bool_decide (a_state a = DSP_SUSPEND)) then mret (- EBUSY)
  else
    cmd ← new_cmd CPU2DSP_SUSPEND;
    if negb (bool_decide (a_state a = DSP_READY)) then mret 0 else suspend_try 1 cmd.

Definition cvp_dsp_resume : D Z := mret 0.

Definition cvp_dsp_send_debug_mask : D unit :=
  cmd ← new_cmd CPU2DSP_SET_DEBUG_LEVEL;
  a ← apps;
  _ ← cvp_dsp_send_cmd_sync (cmd <| cm_debug_mask := a_debug_mask a |>);
  mret tt.

Definition cvp_dsp_send_hfi_queue : D unit :=
  dq ← gets d_queues;
  a ← apps;
  if negb (dq_align_virtual_addr dq) then mret tt
  else if (dq_dma_handle dq =? 0) || (dq_size dq =? 0) then mret tt
  else if negb (bool_decide (a_state a = DSP_PROBED)) && negb (bool_decide (a_state a = DSP_INACTIVE))
  then mret tt
  else
    rc ← cvp_hyp_assign_to_dsp (dq_dma_handle dq) (dq_size dq);
    if negb (rc =? 0) then mret tt
    else
      whenS (bool_decide (a_state a = DSP_PROBED))
        (modify (λ s, s <| d_queues ::= cvp_dsp_init_hfi_queue_hdr |>)) ;;
      '(rc, rsp) ← cvp_dsp_send_cmd_hfi_queue (dq_dma_handle dq) (dq_size dq);
      if negb (rc =? 0) then mret tt
      else if rs_ret rsp =? CPU2DSP_EUNSUPPORTED then mret tt
      else if (rs_ret rsp =? CPU2DSP_EFATAL) || (rs_ret rsp =? CPU2DSP_EUNAVAILABLE) then abandon_dsp
      else
        rc ← (if rs_ret rsp =? CPU2DSP_EINVALSTATE then cvp_reinit_dsp else mret 0);
        if negb (rc =? 0) then mret tt else set_state DSP_READY.

(** ** The channel comes and goes *)

Definition cvp_dsp_rpmsg_probe : D Z :=
  ret ← dext Read_label;
  if negb (ret =? 0) then mret ret
  else
    cdsp ← dext Edge_is_cdsp;
    if cdsp =? 0 then mret (- EINVAL)
    else
      mod_apps (λ a, a <| a_chan := true |> <| a_state := DSP_PROBED |>) ;;
      complete_cmd CPU2DSP_MAX_CMD ;;
      mret ret.

(** The wait for the command that is being processed. *)
Fixpoint wait_pending (max_num_retries : nat) : D unit :=
  match max_num_retries with
  | O => mret tt
  | Datatypes.S n =>
      a ← apps;
      if dh_type (a_pending_dsp2cpu_cmd_header a) =? CVP_INVALID_RPMSG_TYPE then mret tt
      else dext Usleep_range ;; wait_pending n
  end.

Definition cvp_dsp_rpmsg_remove : D unit :=
  wait_pending 100 ;;
  _ ← cvp_hyp_assign_from_dsp;
  mod_apps (λ a, a <| a_chan := false |> <| a_state := DSP_UNINIT |>) ;;
  cvp_remove_dsp_sessions.

Definition start_apps : cvp_dsp_apps :=
  mkApps false DSP_INVALID 0 false 0 0 (replicate (Datatypes.S (Z.to_nat CPU2DSP_MAX_CMD)) 0%nat)
    (mkDh CVP_INVALID_RPMSG_TYPE 0 0)
    (CVP_INVALID_RPMSG_TYPE :: replicate (Z.to_nat cmd_words - 1) 0)
    (CVP_INVALID_RPMSG_TYPE :: replicate (Z.to_nat cmd_v2_words - 1) 0)
    (mkRsp CVP_INVALID_RPMSG_TYPE 0 0) [] (replicate MAX_FASTRPC_DRIVER_NUM DRIVER_NAME_AVAILABLE).

Definition cvp_dsp_device_init : D Z :=
  mod_apps (λ _, start_apps) ;;
  rc ← dext Register_rpmsg_driver;
  if negb (rc =? 0) then mret rc
  else
    a ← apps;
    whenS (bool_decide (a_state a = DSP_INVALID)) (set_state DSP_UNINIT) ;;
    thread ← dext Run_dsp_thread;
    if thread =? 0 then set_state DSP_INVALID ;; mret (- ECHILD) else mret 0.

End operations.
