(* ===== verification/DspCmd.v ===== *)
(** Commands of the DSP (src/msm/eva/msm_cvp_dsp.c): sessions, power, buffers and processes,
    and the thread that serves them.

    A handler takes the answer it fills in ([cmd] of [cvp_dsp_thread]) and returns it.  The
    driver's core and device are there, as they are once the platform driver has probed. *)

From S2P Require Import Prelude Store HfiQueue HfiTypes HfiPacket HfiDefs Driver Instance HfiSession.
From S2P Require Import Response Session Power Smem Buffers UserMem Wncc Fences Commands Ioctl Sysprop Control Life Dsp.
Open Scope Z_scope.

(** * Data *)

Definition EVA_KMD_FLAG_UNSECURE : Z := 0x1.

#[global] Instance eta_kbuf : Eta eva_kmd_buffer :=
  λ r, mkKbuf (kb_index r) (kb_type r) (kb_fd r) (kb_size r) (kb_offset r) (kb_reserved0 r).

Definition zero_remote : eva_mem_remote := mkRemote 0 0 0 0 0 0.
Definition zero_cmd : cvp_dsp_cmd_msg := mkCmd 0 0 0 0 0 0 0 0 0 0 zero_remote.

(** * Operations *)
Section operations.
Context `{Env} `{FenceEnv} `{BufEnv} `{RbTree} `{UserMem} `{LifeEnv} `{DspEnv}.
Context (bus_tbl : list (String.string * Z)).

(** A word of the command that is being served, of the old and of the new format. *)
Definition cmd_word (i : Z) : D Z := a ← apps; of_outcome (word_at (a_pending_dsp2cpu_cmd a) i).
Definition cmd_v2_word (i : Z) : D Z := a ← apps; of_outcome (word_at (a_pending_dsp2cpu_cmd_v2 a) i).

Definition failed (cmd : cvp_dsp_cmd_msg) : cvp_dsp_cmd_msg := cmd <| cm_ret := -1 |>.

(** [get_inst_from_dsp], with 64-bit pointers. *)
Definition get_inst_from_dsp (session_cpu_high session_cpu_low : Z) : D Z :=
  if session_cpu_high =? 0 then mret 0
  else
    let inst := Z.lor (Z.shiftl session_cpu_high 32) session_cpu_low in
    gets (λ s, if bool_decide (inst ∈ dsp_sessions_of (z_world (d_ses s))) then inst else 0).

(** The instance the command is for. *)
Definition cmd_inst : D Z :=
  high ← cmd_word at_session_cpu_high;
  low ← cmd_word at_session_cpu_low;
  get_inst_from_dsp high low.

(** ** Creating and deleting sessions *)

(** An instance's properties, changed by a setter of msm_cvp.c. *)
Definition set_inst {A} (p : Z) (f : msm_cvp_inst → outcome (A * msm_cvp_inst)) : D A :=
  i ← on_core (get_i p);
  r ← of_outcome (f i);
  on_core (mod_i p (λ _, r.2)) ;;
  mret r.1.

(** The loop over the properties of a command; [false] when one is not recognised. *)
Fixpoint set_props (n : nat) (i : Z) (inst : Z) : D bool :=
  match n with
  | O => mret true
  | Datatypes.S n' =>
      type ← cmd_v2_word (at_v2_prop_data + 2 * i);
      data ← cmd_v2_word (at_v2_prop_data + 2 * i + 1);
      rc ← set_inst inst (λ j, msm_cvp_set_sysprop_sess j (mkSysProp type data) i);
      if negb (rc =? 0) then mret false else set_props n' (i + 1) inst
  end.

Definition set_v2_props (inst : Z) : D bool :=
  prop_num ← cmd_v2_word at_v2_prop_num;
  if prop_num >? MAX_KMD_PROP_NUM_PER_PACKET then mret false
  else set_props (Z.to_nat prop_num) 0 inst.

(** What a command of the old format says about its session. *)
Definition set_session_fields (inst : Z) : D unit :=
  kernel_mask ← cmd_word at_kernel_mask;
  type ← cmd_word at_session_type;
  prio ← cmd_word at_session_prio;
  is_secure ← cmd_word at_is_secure;
  dsp_mask ← cmd_word at_dsp_access_mask;
  on_core (mod_i inst (λ i, i <| i_prop ::= λ p, p
    <| p_kernel_mask := kernel_mask |> <| p_type := type |> <| p_priority := prio |>
    <| p_is_secure := is_secure |> <| p_dsp_mask := dsp_mask |> <| p_pkt_concurrency := 8 |> |>)).

(** The label [fail_get_session_info] and what follows it: the answer does not say that
    anything failed. *)
Definition fail_get_session_info (cmd : cvp_dsp_cmd_msg) (node inst task : Z) : D cvp_dsp_cmd_msg :=
  e ← node_get node;
  (if bool_decide (inst ∈ fe_dsp_sessions e)
   then del_session node inst ;; _ ← on_ses (msm_cvp_close inst); mret tt
   else mret tt) ;;
  dext (Put_task_struct task) ;;
  cvp_put_fastrpc_node node ;;
  mret cmd.

(** From [msm_cvp_open] on. *)
Definition create_session (cmd : cvp_dsp_cmd_msg) (version node task : Z) : D cvp_dsp_cmd_msg :=
  inst ← on_core (msm_cvp_open MSM_CVP_DSP);
  if inst =? 0 then
    dext (Put_task_struct task) ;; cvp_put_fastrpc_node node ;; mret cmd
  else
    pid ← cmd_word at_pid;
    dinst_mod inst (λ d, d <| di_dsp_handle := pid |> <| di_fastrpc_entry := node |>) ;;
    ok ← (if version =? 0 then set_session_fields inst ;; mret true else set_v2_props inst);
    if negb ok then fail_get_session_info cmd node inst task
    else
      eva_fastrpc_driver_add_sess node inst ;;
      rc ← on_ses (msm_cvp_session_create inst);
      if negb (rc =? 0) then fail_get_session_info cmd node inst task
      else
        '(rc, o) ← on_core (msm_cvp_get_session_info inst);
        let cmd := match o with Some id => cmd <| cm_session_id := id |> | None => cmd end in
        if negb (rc =? 0) then fail_get_session_info cmd node inst task
        else
          let cmd := cmd <| cm_session_cpu_high := u32 (Z.shiftr inst 32) |>
                         <| cm_session_cpu_low := u32 inst |> in
          cvp_put_fastrpc_node node ;;
          dinst_mod inst (λ d, d <| di_task := task |>) ;;
          on_core (ext Pm_qos_update) ;;
          mret cmd.

(** The task of a process: 0, or the task with a reference taken. *)
Definition task_of (device : Z) : D Z :=
  '(rc, pid) ← eva_fastrpc_dev_get_pid device;
  if negb (rc =? 0) then mret 0
  else
    pid_s ← dext (Find_get_pid pid);
    if pid_s =? 0 then mret 0 else dext (Get_pid_task pid_s).

Definition __dsp_cvp_sess_create (cmd : cvp_dsp_cmd_msg) : D cvp_dsp_cmd_msg :=
  let cmd := cmd <| cm_ret := 0 |> in
  a ← apps;
  let version := dh_ver (a_pending_dsp2cpu_cmd_header a) in
  pid ← cmd_word at_pid;
  pid_v2 ← cmd_v2_word at_v2_pid;
  rc ← (if (version =? 0) && (env_hfi_ver =? 1) then eva_fastrpc_driver_register pid else mret 0);
  if negb (rc =? 0) then mret (failed cmd)
  else
    node ← cvp_get_fastrpc_node_with_handle (if version =? 0 then pid else pid_v2);
    if node =? 0 then eva_fastrpc_driver_unregister pid false ;; mret (failed cmd)
    else
      e ← node_get node;
      task ← (if fe_cvp_fastrpc_device e =? 0 then mret 0 else task_of (fe_cvp_fastrpc_device e));
      if task =? 0 then cvp_put_fastrpc_node node ;; mret cmd
      else create_session cmd version node task.

Definition __dsp_cvp_sess_delete (cmd : cvp_dsp_cmd_msg) : D cvp_dsp_cmd_msg :=
  let cmd := cmd <| cm_ret := 0 |> in
  inst ← cmd_inst;
  if inst =? 0 then mret (failed cmd)
  else
    pid ← cmd_word at_pid;
    node ← cvp_get_fastrpc_node_with_handle pid;
    if node =? 0 then mret (failed cmd)
    else
      e ← node_get node;
      rc ← (if bool_decide (inst ∈ fe_dsp_sessions e)
            then del_session node inst ;; delete_dsp_session inst else mret 0);
      cvp_put_fastrpc_node node ;;
      mret (if negb (rc =? 0) then failed cmd else cmd).

(** A property that is not recognised is not reported. *)
Definition __dsp_cvp_set_session_configs (cmd : cvp_dsp_cmd_msg) : D cvp_dsp_cmd_msg :=
  let cmd := cmd <| cm_ret := 0 |> in
  high ← cmd_v2_word at_v2_session_cpu_high;
  low ← cmd_v2_word at_v2_session_cpu_low;
  inst ← get_inst_from_dsp high low;
  if inst =? 0 then mret (failed cmd) else _ ← set_v2_props inst; mret cmd.

(** ** Power *)

(** [w k] is the [k]-th word of [struct eva_power_req]. *)
Definition set_power_req (w : nat → Z) (p : cvp_session_prop) : cvp_session_prop :=
  p <| p_cycles ::= λ l, <[HFI_HW_LSR := w 8%nat]> (<[HFI_HW_XRA := w 7%nat]>
         (<[HFI_HW_RGE := w 6%nat]> (<[HFI_HW_TOF := w 5%nat]> (<[HFI_HW_VADL := w 4%nat]>
         (<[HFI_HW_ICA := w 3%nat]> (<[HFI_HW_OD := w 2%nat]> (<[HFI_HW_MPU := w 1%nat]>
         (<[HFI_HW_FDU := w 0%nat]> l)))))))) |>
    <| p_fw_cycles := w 9%nat |> <| p_ddr_bw := w 10%nat |> <| p_ddr_cache := w 11%nat |>
    <| p_op_cycles ::= λ l, <[HFI_HW_LSR := w 20%nat]> (<[HFI_HW_XRA := w 19%nat]>
         (<[HFI_HW_RGE := w 18%nat]> (<[HFI_HW_TOF := w 17%nat]> (<[HFI_HW_VADL := w 16%nat]>
         (<[HFI_HW_ICA := w 15%nat]> (<[HFI_HW_OD := w 14%nat]> (<[HFI_HW_MPU := w 13%nat]>
         (<[HFI_HW_FDU := w 12%nat]> l)))))))) |>
    <| p_fw_op_cycles := w 21%nat |> <| p_ddr_op_bw := w 22%nat |> <| p_ddr_op_cache := w 23%nat |>.

Definition __dsp_cvp_power_req (cmd : cvp_dsp_cmd_msg) : D cvp_dsp_cmd_msg :=
  let cmd := cmd <| cm_ret := 0 |> in
  inst ← cmd_inst;
  if inst =? 0 then mret (failed cmd)
  else
    a ← apps;
    l ← of_outcome (words_read (a_pending_dsp2cpu_cmd a) at_power_req 24);
    on_core (mod_i inst (λ i, i <| i_prop ::= set_power_req (λ k, l !!! k) |>)) ;;
    rc ← on_core (msm_cvp_update_power bus_tbl inst);
    mret (if negb (rc =? 0) then failed cmd else cmd).

(** ** Buffers the DSP registers *)

Definition __is_buf_valid (buf : eva_kmd_buffer) (node : Z) : D bool :=
  if negb (kb_offset buf =? 0) then mret false
  else
    e ← node_get node;
    mret (negb (existsb (λ b, u32 (ib_fd b) =? kb_fd buf) (fe_cvpdspbufs e))).

(** The label [exit] of [msm_cvp_map_buf_dsp]. *)
Definition map_buf_exit (smem dma_buf rc : Z) : Smem.B Z :=
  rc ← (if smem =? 0 then mret rc
        else
          a ← smem_get smem;
          rc ← (if sm_device_addr a =? 0 then mret rc else msm_cvp_unmap_smem smem);
          smem_kfree smem ;; mret rc);
  msm_cvp_smem_put_dma_buf dma_buf ;;
  mret rc.

(** [msm_cvp_map_buf_dsp] with the file found: its dma_buf, which the reference on the file
    keeps. *)
Definition map_dma_buf_dsp (buf : eva_kmd_buffer) (node dma_buf : Z) : D (Z * eva_kmd_buffer) :=
  let exit smem rc := rc ← on_store (map_buf_exit smem dma_buf rc); mret (rc, buf) in
  if b_dma_buf_size dma_buf <? kb_size buf then exit 0 (- EINVAL)
  else
    cbuf ← dext Dsp_zalloc_buf;
    if cbuf =? 0 then exit 0 (- ENOMEM)
    else
      smem ← on_store smem_zalloc;
      if smem =? 0 then exit 0 (- ENOMEM)
      else
        on_store (smem_mod smem (λ a, a <| sm_dma_buf := dma_buf |> <| sm_fd := kb_fd buf |>)) ;;
        rc ← on_store (msm_cvp_map_smem smem);
        if negb (rc =? 0) then exit smem rc
        else
          on_store (ref_inc smem) ;;
          a ← on_store (smem_get smem);
          node_mod node (λ e, e <| fe_cvpdspbufs ::= λ l, l ++
            [mkIbuf (kb_fd buf) (kb_size buf) (kb_offset buf) 0 (kb_index buf) 0 CLIENT smem] |>) ;;
          mret (rc, buf <| kb_reserved0 := u32 (sm_device_addr a) |>
                        <| kb_size := u32 (b_dma_buf_size dma_buf) |>).

Definition msm_cvp_map_buf_dsp (inst : Z) (buf : eva_kmd_buffer) : D (Z * eva_kmd_buffer) :=
  di ← gets (dinst_of inst);
  if (di_task di =? 0) || (di_fastrpc_entry di =? 0) then mret (- EINVAL, buf)
  else
    let node := di_fastrpc_entry di in
    ok ← __is_buf_valid buf node;
    if negb ok then mret (- EINVAL, buf)
    else
      file ← dext (Fget (kb_fd buf) (di_task di));
      if file =? 0 then mret (- EINVAL, buf)
      else
        dma_buf ← dext (File_dma_buf file);
        if dma_buf <=? 0 then dext (Fput file) ;; mret (- EINVAL, buf)
        else
          on_store (modify (λ s, s <| b_refs ::= λ m, <[dma_buf := ref_of dma_buf m + 1]> m |>)) ;;
          map_dma_buf_dsp buf node dma_buf.

(** A mapping that is given up, kept in a ring of [MAX_FRAME_BUFFER_NUMS]. *)
Definition save_unused_dsp (a : msm_cvp_smem) (f : cvp_frame_bufs) : cvp_frame_bufs :=
  f <| fb_smem ::= <[fb_ktid f := a]> |>
    <| fb_nr ::= λ n, if u32 (n + 1) >? MAX_FRAME_BUFFER_NUMS then MAX_FRAME_BUFFER_NUMS else u32 (n + 1) |>
    <| fb_ktid ::= λ idx, (idx + 1) mod MAX_FRAME_BUFFER_NUMS |>.

(** The first buffer of a process with a descriptor, and the others. *)
Fixpoint take_fd (fd : Z) (l : list cvp_internal_buf) : option (cvp_internal_buf * list cvp_internal_buf) :=
  match l with
  | [] => None
  | b :: l' =>
      if u32 (ib_fd b) =? fd then Some (b, l')
      else match take_fd fd l' with Some (x, r) => Some (x, b :: r) | None => None end
  end.

Definition unmap_dsp_smem (p : Z) : Smem.B Z :=
  rc ← msm_cvp_unmap_smem p;
  whenS (rc =? 0) (a ← smem_get p; msm_cvp_smem_put_dma_buf (sm_dma_buf a)) ;;
  smem_mod p (λ a, a <| sm_refcount ::= Z.pred |>) ;;
  mret rc.

Definition msm_cvp_unmap_buf_dsp (inst : Z) (buf : eva_kmd_buffer) : D Z :=
  i ← on_core (get_i inst);
  di ← gets (dinst_of inst);
  if (i_session i =? 0) || (di_fastrpc_entry di =? 0) then mret (- EINVAL)
  else
    let node := di_fastrpc_entry di in
    e ← node_get node;
    match take_fd (kb_fd buf) (fe_cvpdspbufs e) with
    | None => mret (- EINVAL)
    | Some (cbuf, l) =>
        a ← on_store (smem_get (ib_smem cbuf));
        rc ← (if sm_device_addr a =? 0 then mret 0
              else
                node_mod node (λ e, e <| fe_unused_dsp_bufs ::= save_unused_dsp a |>) ;;
                on_store (unmap_dsp_smem (ib_smem cbuf)));
        node_mod node (λ e, e <| fe_cvpdspbufs := l |>) ;;
        on_store (smem_kfree (ib_smem cbuf)) ;;
        mret rc
    end.

(** [msm_cvp_register_buffer] and [msm_cvp_unregister_buffer] for a session of the DSP. *)
Definition register_dsp_buffer (inst : Z) (buf : eva_kmd_buffer) : D (Z * eva_kmd_buffer) :=
  s ← on_core (cvp_get_inst_validate inst);
  if s =? 0 then mret (- ECONNRESET, buf)
  else
    i ← on_core (get_i inst);
    r ← (if i_session i =? 0 then mret (- EINVAL, buf)
         else if negb (kb_index buf =? 0) then msm_cvp_map_buf_dsp inst buf
         else
           '(rc, id) ← on_store (Buffers.msm_cvp_register_buffer map_buf_without_task true buf);
           mret (rc, buf <| kb_reserved0 := id |>));
    on_core (cvp_put_inst s) ;;
    mret r.

Definition unregister_dsp_buffer (inst : Z) (buf : eva_kmd_buffer) : D Z :=
  s ← on_core (cvp_get_inst_validate inst);
  if s =? 0 then mret (- ECONNRESET)
  else
    i ← on_core (get_i inst);
    rc ← (if negb (kb_index buf =? 0) then msm_cvp_unmap_buf_dsp inst buf
          else on_store (Buffers.msm_cvp_unregister_buffer unmap_buf_without_task
                           (negb (i_session i =? 0)) buf));
    on_core (cvp_put_inst s) ;;
    mret rc.

(** The buffer a command describes. *)
Definition cmd_buffer : D eva_kmd_buffer :=
  index ← cmd_word at_sbuf_index;
  fd ← cmd_word at_sbuf_fd;
  size ← cmd_word at_sbuf_size;
  offset ← cmd_word at_sbuf_offset;
  mret (mkKbuf index EVA_KMD_BUFTYPE_INPUT fd size offset 0).

(** [charge n size]: [n] buffers more, of [size] bytes, on a process's account. *)
Definition charge (node n size : Z) : D unit :=
  node_mod node (λ e, e <| fe_dsp_usage ::= λ v, s32 (v + size) |> <| fe_smem_count ::= Z.add n |>).

Definition __dsp_cvp_buf_register (cmd : cvp_dsp_cmd_msg) : D cvp_dsp_cmd_msg :=
  let cmd := cmd <| cm_ret := 0 |> in
  inst ← cmd_inst;
  if inst =? 0 then mret (failed cmd)
  else
    pid ← cmd_word at_pid;
    node ← cvp_get_fastrpc_node_with_handle pid;
    if node =? 0 then mret cmd
    else
      kmd ← dext Kzalloc_kmd;
      if kmd =? 0 then cvp_put_fastrpc_node node ;; mret (failed cmd)
      else
        buf ← cmd_buffer;
        '(rc, buf) ← register_dsp_buffer inst buf;
        if negb (rc =? 0) then cvp_put_fastrpc_node node ;; mret (failed cmd)
        else
          charge node 1 (kb_size buf) ;;
          cvp_put_fastrpc_node node ;;
          mret (cmd <| cm_sbuf ::= λ b, b <| rm_iova := kb_reserved0 buf |>
                  <| rm_size := kb_size buf |> <| rm_fd := kb_fd buf |>
                  <| rm_index := kb_index buf |> <| rm_offset := kb_offset buf |> |>).

Definition __dsp_cvp_buf_deregister (cmd : cvp_dsp_cmd_msg) : D cvp_dsp_cmd_msg :=
  let cmd := cmd <| cm_ret := 0 |> in
  inst ← cmd_inst;
  if inst =? 0 then mret (failed cmd)
  else
    pid ← cmd_word at_pid;
    node ← cvp_get_fastrpc_node_with_handle pid;
    if node =? 0 then mret cmd
    else
      kmd ← dext Kzalloc_kmd;
      if kmd =? 0 then cvp_put_fastrpc_node node ;; mret (failed cmd)
      else
        buf ← cmd_buffer;
        rc ← unregister_dsp_buffer inst buf;
        whenS (rc =? 0) (charge node (-1) (- kb_size buf)) ;;
        cvp_put_fastrpc_node node ;;
        mret (if negb (rc =? 0) then failed cmd else cmd).

(** ** Memory the DSP allocates *)

Definition zero_ibuf : cvp_internal_buf := mkIbuf 0 0 0 0 0 0 DRIVER 0.

Definition __dsp_cvp_mem_alloc (cmd : cvp_dsp_cmd_msg) : D cvp_dsp_cmd_msg :=
  let cmd := cmd <| cm_ret := 0 |> in
  pid ← cmd_word at_pid;
  node ← cvp_get_fastrpc_node_with_handle pid;
  if node =? 0 then mret (failed cmd)
  else
    e ← node_get node;
    n ← dext Dsp_zalloc_buf;
    if n =? 0 then cvp_put_fastrpc_node node ;; mret (failed cmd)
    else
      size ← cmd_word at_sbuf_size;
      type ← cmd_word at_sbuf_type;
      '(rc, buf) ← on_store (cvp_allocate_dsp_bufs zero_ibuf size type);
      if negb (rc =? 0) then cvp_put_fastrpc_node node ;; mret (failed cmd)
      else
        map ← cmd_word at_sbuf_dsp_remote_map;
        r ← eva_fastrpc_dev_map_dma (fe_cvp_fastrpc_device e) buf map;
        let '(rc, buf, v_dsp_addr) := r in
        if negb (rc =? 0) then
          _ ← on_store (cvp_release_dsp_buffers buf);
          cvp_put_fastrpc_node node ;; mret (failed cmd)
        else
          node_mod node (λ e, e <| fe_cvpdspbufs ::= λ l, l ++ [buf] |>) ;;
          a ← on_store (smem_get (ib_smem buf));
          charge node 1 (sm_size a) ;;
          cvp_put_fastrpc_node node ;;
          mret (cmd <| cm_sbuf ::= λ b, b <| rm_size := sm_size a |> <| rm_fd := u32 (ib_fd buf) |>
                  <| rm_offset := 0 |> <| rm_iova := sm_device_addr a |>
                  <| rm_v_dsp_addr := v_dsp_addr |> |>).

(** The loop of [__dsp_cvp_mem_free]; the result is what goes into the answer. *)
Fixpoint free_buffer (node device iova fd : Z) (kept l : list cvp_internal_buf) : D Z :=
  match l with
  | [] => mret 0
  | b :: l' =>
      if ib_smem b =? 0 then free_buffer node device iova fd (kept ++ [b]) l'
      else
        a ← on_store (smem_get (ib_smem b));
        if (sm_device_addr a =? iova) && (u32 (ib_fd b) =? fd) then
          rc ← eva_fastrpc_dev_unmap_dma device b;
          if negb (rc =? 0) then mret (-1)
          else
            rc ← on_store (cvp_release_dsp_buffers b);
            if negb (rc =? 0) then mret (-1)
            else
              node_mod node (λ e, e <| fe_cvpdspbufs := kept ++ l' |>) ;;
              charge node (-1) (- ib_size b) ;;
              mret 0
        else free_buffer node device iova fd (kept ++ [b]) l'
  end.

Definition __dsp_cvp_mem_free (cmd : cvp_dsp_cmd_msg) : D cvp_dsp_cmd_msg :=
  let cmd := cmd <| cm_ret := 0 |> in
  pid ← cmd_word at_pid;
  node ← cvp_get_fastrpc_node_with_handle pid;
  if node =? 0 then mret (failed cmd)
  else
    e ← node_get node;
    iova ← cmd_word at_sbuf_iova;
    fd ← cmd_word at_sbuf_fd;
    rc ← free_buffer node (fe_cvp_fastrpc_device e) iova fd [] (fe_cvpdspbufs e);
    cvp_put_fastrpc_node node ;;
    mret (cmd <| cm_ret := rc |>).

(** ** Starting, stopping and naming sessions *)

(** The instance the command is for, when it is listed and referenced. *)
Definition valid_cmd_inst : D Z :=
  inst ← cmd_inst;
  if inst =? 0 then mret 0
  else ok ← on_core (is_cvp_inst_valid inst); mret (if ok : bool then inst else 0).

Definition __dsp_cvp_sess_start (cmd : cvp_dsp_cmd_msg) : D cvp_dsp_cmd_msg :=
  let cmd := cmd <| cm_ret := 0 |> in
  inst ← valid_cmd_inst;
  if inst =? 0 then mret (failed cmd)
  else
    i ← on_core (get_i inst);
    if bool_decide (sq_state (i_session_queue i) = QUEUE_START) then mret cmd
    else
      rc ← on_core (msm_cvp_session_start inst);
      mret (if negb (rc =? 0) then failed cmd else cmd).

Definition __dsp_cvp_sess_stop (cmd : cvp_dsp_cmd_msg) : D cvp_dsp_cmd_msg :=
  let cmd := cmd <| cm_ret := 0 |> in
  inst ← valid_cmd_inst;
  if inst =? 0 then mret (failed cmd)
  else
    i ← on_core (get_i inst);
    if bool_decide (sq_state (i_session_queue i) = QUEUE_STOP) then mret cmd
    else
      '(rc, _) ← on_core (msm_cvp_session_stop inst);
      mret (if negb (rc =? 0) then failed cmd else cmd).

Definition __dsp_cvp_set_session_name (cmd : cvp_dsp_cmd_msg) : D cvp_dsp_cmd_msg :=
  let cmd := cmd <| cm_ret := 0 |> in
  inst ← valid_cmd_inst;
  if inst =? 0 then mret (failed cmd)
  else
    a ← apps;
    name ← of_outcome (words_read (a_pending_dsp2cpu_cmd a) at_session_name (SESSION_NAME_MAX_LEN / 4));
    on_core (mod_i inst (λ i, i <| i_prop ::= λ p, p <| p_session_name := name |> |>)) ;;
    mret cmd.

(** ** A process announces itself *)

Definition __dsp_cvp_pd_init (cmd : cvp_dsp_cmd_msg) : D cvp_dsp_cmd_msg :=
  let cmd := cmd <| cm_ret := 0 |> in
  pid ← cmd_word at_pid;
  rc ← eva_fastrpc_driver_register pid;
  if negb (rc =? 0) then mret (failed cmd)
  else
    node ← cvp_get_fastrpc_node_with_handle pid;
    task ← (if node =? 0 then mret 0
            else
              e ← node_get node;
              task ← (if fe_cvp_fastrpc_device e =? 0 then mret 0 else task_of (fe_cvp_fastrpc_device e));
              cvp_put_fastrpc_node node ;; mret task);
    if task =? 0 then eva_fastrpc_driver_unregister pid false ;; mret (failed cmd) else mret cmd.

(** ** The thread *)

(** The switch of [cvp_dsp_thread]. *)
Definition dsp_dispatch (cmd : cvp_dsp_cmd_msg) : D cvp_dsp_cmd_msg :=
  a ← apps;
  let t := dh_type (a_pending_dsp2cpu_cmd_header a) in
  if t =? DSP2CPU_POWERON then
    if bool_decide (a_state a = DSP_READY) then mret (cmd <| cm_ret := 0 |>)
    else
      set_state DSP_READY ;;
      rc ← on_core (ext Resume);
      if negb (rc =? 0) then set_state (a_state a) ;; mret (cmd <| cm_ret := 1 |>)
      else mret (cmd <| cm_ret := 0 |>)
  else if t =? DSP2CPU_POWEROFF then set_state DSP_SUSPEND ;; mret (cmd <| cm_ret := 0 |>)
  else if t =? DSP2CPU_CREATE_SESSION then __dsp_cvp_sess_create cmd
  else if t =? DSP2CPU_DETELE_SESSION then __dsp_cvp_sess_delete cmd
  else if t =? DSP2CPU_POWER_REQUEST then __dsp_cvp_power_req cmd
  else if t =? DSP2CPU_SET_SESSION_CONFIGS then __dsp_cvp_set_session_configs cmd
  else if t =? DSP2CPU_REGISTER_BUFFER then __dsp_cvp_buf_register cmd
  else if t =? DSP2CPU_DEREGISTER_BUFFER then __dsp_cvp_buf_deregister cmd
  else if t =? DSP2CPU_MEM_ALLOC then __dsp_cvp_mem_alloc cmd
  else if t =? DSP2CPU_MEM_FREE then __dsp_cvp_mem_free cmd
  else if t =? DSP2CPU_START_SESSION then __dsp_cvp_sess_start cmd
  else if t =? DSP2CPU_STOP_SESSION then __dsp_cvp_sess_stop cmd
  else if t =? DSP2CPU_SET_SESSION_NAME then __dsp_cvp_set_session_name cmd
  else if t =? DSP2CPU_PD_INIT then __dsp_cvp_pd_init cmd
  else mret cmd.

(** The command is done: the next one can be received. *)
Definition clear_pending (a : cvp_dsp_apps) : cvp_dsp_apps :=
  a <| a_pending_dsp2cpu_cmd ::= <[0%nat := CVP_INVALID_RPMSG_TYPE]> |>
    <| a_pending_dsp2cpu_cmd_v2 ::= <[0%nat := CVP_INVALID_RPMSG_TYPE]> |>
    <| a_pending_dsp2cpu_cmd_header ::= λ h, h <| dh_type := CVP_INVALID_RPMSG_TYPE |> |>.

(** The thread, woken by a completion or by a signal, up to the next [wait_dsp]; [false]
    when it ends. *)
Definition serve (interrupted : bool) : D bool :=
  a ← apps;
  if bool_decide (a_state a = DSP_INVALID) then mret false
  else if bool_decide (a_state a = DSP_UNINIT) then mret true
  else if bool_decide (a_state a = DSP_PROBED) then cvp_dsp_send_hfi_queue ;; mret true
  else
    let cmd := zero_cmd <| cm_type := dh_type (a_pending_dsp2cpu_cmd_header a) |> in
    cmd ← (if interrupted then mret cmd
           else cmd ← dsp_dispatch cmd; mod_apps clear_pending ;; mret cmd);
    _ ← cvp_dsp_send_cmd cmd;
    mret true.

(** One round of [cvp_dsp_thread]: nothing happens while there is neither a completion nor
    a signal. *)
Definition cvp_dsp_thread_round (interrupted : bool) : D bool :=
  if interrupted then serve true
  else ok ← try_completion CPU2DSP_MAX_CMD; if ok : bool then serve false else mret true.

End operations.
