(* ===== verification/DspRegistry.v ===== *)
(** The registry of the DSP's processes (Dsp.v): the invariant [dsp_ok], what taking and
    giving back references does to it, and how processes enter and leave it.

    The invariant also covers what goes along with it: the memory that is lent to the DSP, and
    the well-formedness of the driver's sessions (LifeSafe.v). *)

From S2P Require Import Prelude Store Partial HfiQueue HfiTypes HfiPacket HfiDefs Driver Evolve Instance.
From S2P Require Import HfiSession Response Session Machine Power Smem Buffers UserMem Wncc Fences Commands.
From S2P Require Import Scenario SessionBuffers WnccSafe Ioctl IoctlSafe Sysprop Control Life LifeSafe Dsp.
Open Scope Z_scope.

Section invariant.
Context `{Env} `{!InstLaws} `{LifeEnv} `{SysEnv} `{FenceEnv} `{BufEnv} `{RbTree} `{UserMem} `{DspEnv}.

(** * What is lent to the DSP *)

(** The region that is lent after a call, [None] when the call is wrong: lending what is
    lent already, or taking back what is not. *)
Definition lend_step (n : nat) (c : dcall) (r : option (Z * Z)) : option (option (Z * Z)) :=
  match c with
  | Scm_assign true a z =>
      match r with
      | Some _ => None
      | None => Some (if d_answer n c =? 0 then Some (a, z) else None)
      end
  | Scm_assign false a z =>
      if bool_decide (r = Some (a, z)) then Some (if d_answer n c =? 0 then None else r) else None
  | _ => Some r
  end.

Fixpoint lending (n : nat) (r : option (Z * Z)) (t : list dcall) : option (option (Z * Z)) :=
  match t with
  | [] => Some r
  | c :: t' => match lend_step n c r with Some r' => lending (Datatypes.S n) r' t' | None => None end
  end.

Lemma lending_snoc t c : ∀ n r,
  lending n r (t ++ [c]) = match lending n r t with
                           | Some r' => lend_step (n + length t) c r'
                           | None => None
                           end.
Proof.
  induction t as [|d t IH]; intros n r; cbn [lending app length].
  - rewrite Nat.add_0_r. by destruct (lend_step n c r).
  - destruct (lend_step n d r) as [r'|]; [|done]. rewrite IH.
    by replace (Datatypes.S n + length t)%nat with (n + Datatypes.S (length t))%nat by lia.
Qed.

Definition region (a : cvp_dsp_apps) : option (Z * Z) :=
  if a_hyp_assigned a then Some (a_addr a, a_size a) else None.

(** * The registry of processes *)

(** What the registry depends on of a process: handle, references and name. *)
Definition key (s : dsp) (p : Z) : option (Z * Z * nat) :=
  (λ e, (fe_handle e, fe_refcount e, fe_driver_name_idx e)) <$> obj_find p (d_nodes s).

Definition listed (s : dsp) : list Z := a_fastrpc_driver_list (d_apps s).
Definition names (s : dsp) : list Z := a_cvp_fastrpc_name (d_apps s).

Fixpoint refs_in (p : Z) (l : list Z) : Z :=
  match l with [] => 0 | q :: l' => (if q =? p then 1 else 0) + refs_in p l' end.

(** [dsp_ok hs ts s]: [hs] are the references that the operation in progress holds, [ts] the
    processes it has taken off the list. *)
Record dsp_ok (hs ts : list Z) (s : dsp) : Prop := mkDok {
  dk_nodup : NoDup (listed s ++ ts);
  dk_null : 0 ∉ listed s ++ ts;
  dk_ref : ∀ p, p ∈ listed s → ∃ h i, key s p = Some (h, refs_in p hs, i);
  dk_name : ∀ p, p ∈ listed s ++ ts → ∃ h r i, key s p = Some (h, r, i) ∧ names s !! i = Some DRIVER_NAME_USED;
  dk_names : ∀ p q h h' r r' i, p ∈ listed s ++ ts → q ∈ listed s ++ ts →
    key s p = Some (h, r, i) → key s q = Some (h', r', i) → p = q;
  dk_handles : ∀ p q h r r' i i', p ∈ listed s → q ∈ listed s →
    key s p = Some (h, r, i) → key s q = Some (h, r', i') → p = q;
  dk_held : ∀ p, p ∈ hs → p ∈ listed s;
  dk_sizes : length (names s) = MAX_FASTRPC_DRIVER_NUM ∧ length (a_completions (d_apps s)) = 9%nat;
  dk_lent : lending 0 None (d_trace s) = Some (region (d_apps s));
  dk_world : world_wf (z_world (d_ses s))
}.

(** What does not concern the registry. *)
Record same (s s' : dsp) : Prop := mkSame {
  sa_listed : listed s' = listed s;
  sa_names : names s' = names s;
  sa_key : ∀ p, key s' p = key s p;
  sa_completions : length (a_completions (d_apps s')) = length (a_completions (d_apps s));
  sa_lent : lending 0 None (d_trace s) = Some (region (d_apps s)) →
            lending 0 None (d_trace s') = Some (region (d_apps s'));
  sa_world : world_wf (z_world (d_ses s)) → world_wf (z_world (d_ses s'))
}.

#[local] Instance same_preorder : PreOrder same.
Proof.
  split; [by intros s|]. intros s1 s2 s3 [L1 N1 K1 C1 T1 W1] [L2 N2 K2 C2 T2 W2].
  split; [congruence|congruence| |congruence|auto|auto]. intros p. by rewrite K2.
Qed.

Lemma same_ok hs ts s s' : same s s' → dsp_ok hs ts s → dsp_ok hs ts s'.
Proof.
  intros [L N K C T W] [D1 D2 D3 D4 D5 D6 D7 [D8 D8'] D9 D10].
  assert (Hk : ∀ p, key s' p = key s p) by done.
  split; rewrite ?L, ?N; [done|done| | | | |done|by rewrite C|auto|auto].
  - intros p. rewrite Hk. apply D3.
  - intros p. rewrite Hk. apply D4.
  - intros p q h h' r r' i. rewrite !Hk. apply D5.
  - intros p q h r r' i i'. rewrite !Hk. apply D6.
Qed.

(** ** Operations that do not concern it *)

Abbreviation quiet := (rel same).

Lemma quiet_ret {A} (a : A) : quiet (mret a). Proof. by apply rel_ret; apply _. Qed.
Lemma quiet_gets {A} (f : dsp → A) : quiet (gets f). Proof. by apply rel_gets; apply _. Qed.
Lemma quiet_outcome {A} (o : outcome A) : quiet (of_outcome o). Proof. by apply rel_of_outcome; apply _. Qed.
Lemma quiet_bind {A B} (m : D A) (f : A → D B) : quiet m → (∀ a, quiet (f a)) → quiet (m ≫= f).
Proof. apply rel_bind, _. Qed.

Definition lends (c : dcall) : bool := match c with Scm_assign _ _ _ => true | _ => false end.

Lemma quiet_dext c : lends c = false → quiet (dext c).
Proof.
  intros Hc s a s' [= <- <-]. split; try done. intros HL. cbn. rewrite lending_snoc, HL.
  by destruct c.
Qed.

Lemma quiet_mod_apps f :
  (∀ a, (a_fastrpc_driver_list (f a), a_cvp_fastrpc_name (f a), region (f a), length (a_completions (f a)))
        = (a_fastrpc_driver_list a, a_cvp_fastrpc_name a, region a, length (a_completions a))) →
  quiet (mod_apps f).
Proof.
  intros Hf s a s' [= <- <-]. specialize (Hf (d_apps s)). injection Hf as E1 E2 E3 E4.
  split; try done. intros HL.
  change (lending 0 None (d_trace s) = Some (region (f (d_apps s)))). by rewrite HL, E3.
Qed.

Lemma node_get_run p s e s' : node_get p s = Done (e, s') → s' = s ∧ obj_find p (d_nodes s) = Some e.
Proof. unfold node_get. destruct (obj_find p (d_nodes s)); [|done]. by intros [= <- <-]. Qed.

Lemma quiet_node_get p : quiet (node_get p).
Proof. intros s e s' [-> _]%node_get_run. reflexivity. Qed.

Lemma node_mod_run p f s a s' :
  node_mod p f s = Done (a, s') →
  ∃ e, obj_find p (d_nodes s) = Some e ∧ s' = s <| d_nodes ::= obj_alter f p |>.
Proof.
  unfold node_mod. rewrite St_bind_run. destruct (node_get p s) as [[e s1]|] eqn:E; [|done].
  apply node_get_run in E as [-> E]. cbn [obind fst snd]. intros [= _ <-]. eauto.
Qed.

Lemma key_alter f p s q :
  key (s <| d_nodes ::= obj_alter f p |>) q
  = if q =? p then (λ e, (fe_handle e, fe_refcount e, fe_driver_name_idx e)) ∘ f <$> obj_find p (d_nodes s)
    else key s q.
Proof.
  unfold key, put_field_to. cbn. rewrite obj_find_alter. destruct (q =? p); [|done].
  by destruct (obj_find p (d_nodes s)).
Qed.

Lemma quiet_node_mod p f :
  (∀ e, (fe_handle (f e), fe_refcount (f e), fe_driver_name_idx (f e))
        = (fe_handle e, fe_refcount e, fe_driver_name_idx e)) →
  quiet (node_mod p f).
Proof.
  intros Hf s a s' (e & He & ->)%node_mod_run. split; try done. intros q. rewrite key_alter.
  destruct (Z.eqb_spec q p) as [->|]; [|done]. unfold key. rewrite He. cbn. by rewrite Hf.
Qed.

Lemma quiet_modify f :
  (∀ s, d_apps (f s) = d_apps s ∧ d_nodes (f s) = d_nodes s ∧ d_trace (f s) = d_trace s
        ∧ d_ses (f s) = d_ses s) → quiet (modify f).
Proof.
  intros Hf. apply rel_modify. intros s. destruct (Hf s) as (E1 & E2 & E3 & E4).
  split; unfold listed, names, key; rewrite ?E1, ?E2, ?E3, ?E4; try done.
Qed.

Lemma quiet_on_store {A} (m : Smem.B A) : quiet (on_store m).
Proof.
  intros s a s'. unfold on_store. destruct (on_bufs m (d_ses s)) as [[b z]|] eqn:E; [|done].
  cbn [obind fst snd]. intros [= <- <-]. split; try done. intros Hw. by eapply keepsU_bufs.
Qed.

(** ** References *)

Definition hold (p : Z) (l : list Z) : list Z := if p =? 0 then l else p :: l.

(** No process in the list has the handle. *)
Definition handle_free (h : Z) (s : dsp) : Prop :=
  ∀ q r i, q ∈ listed s → key s q ≠ Some (h, r, i).

Lemma refs_in_nonneg p l : 0 <= refs_in p l.
Proof. induction l as [|q l IH]; cbn; [done|]. destruct (q =? p); lia. Qed.

Lemma refs_in_absent p l : p ∉ l → refs_in p l = 0.
Proof.
  induction l as [|q l IH]; [done|]. intros [Hq Hl]%not_elem_of_cons. cbn.
  rewrite IH by done. by rewrite (proj2 (Z.eqb_neq q p)) by congruence.
Qed.

Lemma refs_in_pos p l : p ∈ l → 0 < refs_in p l.
Proof.
  induction l as [|q l IH]; [by intros ?%elem_of_nil|]. cbn. pose proof (refs_in_nonneg p l).
  intros [->|Hl]%elem_of_cons; [rewrite Z.eqb_refl; lia|]. destruct (q =? p); pose proof (IH Hl); lia.
Qed.

Lemma with_handle_spec h nodes l p :
  0 ∉ l → with_handle h nodes l = Done p →
  (p = 0 ∧ ∀ q e, q ∈ l → obj_find q nodes = Some e → fe_handle e ≠ h)
  ∨ (p ≠ 0 ∧ p ∈ l ∧ ∃ e, obj_find p nodes = Some e ∧ fe_handle e = h).
Proof.
  induction l as [|q l IH]; cbn [with_handle].
  - intros _ [= <-]. left. split; [done|]. by intros ? ? ?%elem_of_nil.
  - intros [Hq Hl]%not_elem_of_cons. destruct (obj_find q nodes) as [e|] eqn:E; [|done].
    destruct (Z.eqb_spec h (fe_handle e)) as [He|He].
    + intros [= <-]. right. split; [congruence|]. split; [by left|]. eauto.
    + intros Hp. destruct (IH Hl Hp) as [[-> Hn]|(Hp0 & Hin & Hex)].
      * left. split; [done|]. intros r e' [->|Hr]%elem_of_cons He'; [|by eapply Hn].
        assert (e' = e) as -> by congruence. congruence.
      * right. split; [done|]. split; [by right|done].
Qed.

Lemma find_handle_steps hs ts h :
  steps (dsp_ok hs ts) (find_handle h)
    (λ p s, dsp_ok hs ts s ∧ ((p = 0 ∧ handle_free h s) ∨ (p ≠ 0 ∧ p ∈ listed s))).
Proof.
  intros s p s' Hs. unfold find_handle.
  destruct (with_handle h (d_nodes s) (a_fastrpc_driver_list (d_apps s))) as [q|] eqn:E; [|done].
  cbn [obind]. intros [= <- <-]. split; [done|].
  apply with_handle_spec in E; [|intros Hz; apply (dk_null _ _ _ Hs), elem_of_app; by left].
  destruct E as [[-> Hn]|(Hp & Hin & _)]; [left|by right]. split; [done|].
  intros r c i Hr Hk. unfold key in Hk. destruct (obj_find r (d_nodes s)) as [e|] eqn:Er; [|done].
  injection Hk as Hh _ _. by eapply (Hn r e).
Qed.

(** A listed process takes or gives up a reference. *)
Lemma ok_refs hs hs' ts s p d :
  dsp_ok hs ts s → p ∈ listed s →
  (∀ q, refs_in q hs' = refs_in q hs + (if q =? p then d else 0)) → (∀ q, q ∈ hs' → q ∈ listed s) →
  dsp_ok hs' ts (s <| d_nodes ::= obj_alter (λ e, e <| fe_refcount ::= Z.add d |>) p |>).
Proof.
  intros [D1 D2 D3 D4 D5 D6 D7 D8 D9 D10] Hp Hr Hh.
  assert (Hk : ∀ q, key (s <| d_nodes ::= obj_alter (λ e, e <| fe_refcount ::= Z.add d |>) p |>) q
    = (λ x, (x.1.1, (if q =? p then d else 0) + x.1.2, x.2)) <$> key s q).
  { intros q. rewrite key_alter. destruct (Z.eqb_spec q p) as [->|].
    - unfold key. destruct (obj_find p (d_nodes s)); done.
    - destruct (key s q) as [[[? ?] ?]|]; done. }
  split; try done.
  - intros q Hq. destruct (D3 q Hq) as (h & i & E). exists h, i. rewrite Hk, E. cbn.
    rewrite Hr. do 3 f_equal. lia.
  - intros q Hq. destruct (D4 q Hq) as (h & r & i & E & Hn). rewrite Hk, E. cbn. eauto 6.
  - intros q q' h h' r r' i Hq Hq'. rewrite !Hk.
    destruct (key s q) as [[[a b] c]|] eqn:E1; [|done]. destruct (key s q') as [[[a' b'] c']|] eqn:E2; [|done].
    cbn. intros [= <- _ <-] [= <- _ Ec]. subst c'. by eapply D5.
  - intros q q' h r r' i i' Hq Hq'. rewrite !Hk.
    destruct (key s q) as [[[a b] c]|] eqn:E1; [|done]. destruct (key s q') as [[[a' b'] c']|] eqn:E2; [|done].
    cbn. intros [= <- _ <-] [= Ea _ Ec]. subst a' c'. by eapply D6.
Qed.

Lemma alter_ext_eq (f g : frpc_entry → frpc_entry) p s :
  (∀ e, f e = g e) → s <| d_nodes ::= obj_alter f p |> = s <| d_nodes ::= obj_alter g p |>.
Proof. intros Hfg. unfold put_field_to. cbn. f_equal. by apply obj_alter_ext. Qed.

Lemma get_steps hs ts h :
  steps (dsp_ok hs ts) (cvp_get_fastrpc_node_with_handle h)
    (λ p s, dsp_ok (hold p hs) ts s ∧ (p = 0 → handle_free h s)).
Proof.
  eapply steps_bind; [apply find_handle_steps|]. intros p.
  apply (steps_bind _ _ (λ _ s, dsp_ok (hold p hs) ts s ∧ (p = 0 → handle_free h s)));
    [|intros []; by apply steps_ret].
  intros s a s' [Hs Hp] E. unfold hold in *. destruct Hp as [[-> Hf]|[Hp0 Hp]].
  - injection E as _ <-. by split.
  - rewrite (proj2 (Z.eqb_neq p 0) Hp0) in *. split; [|done].
    apply node_mod_run in E as (e & He & ->).
    rewrite (alter_ext_eq _ (λ e, e <| fe_refcount ::= Z.add 1 |>))
      by (intros x; unfold put_field_to; cbn; f_equal; lia).
    apply (ok_refs hs); [done|done| |].
    + intros q. cbn [refs_in]. rewrite (Z.eqb_sym p q). destruct (q =? p); lia.
    + intros q [->|Hq]%elem_of_cons; [done|]. by apply (dk_held _ _ _ Hs).
Qed.

Lemma put_steps hs ts p :
  steps (dsp_ok (hold p hs) ts) (cvp_put_fastrpc_node p) (λ _, dsp_ok hs ts).
Proof.
  unfold cvp_put_fastrpc_node, hold. destruct (Z.eqb_spec p 0); [by apply steps_ret|].
  intros s a s' Hs. rewrite St_bind_run. destruct (node_get p s) as [[e s1]|] eqn:Eg; [|done].
  apply node_get_run in Eg as [-> He]. cbn [obind fst snd].
  assert (Hp : p ∈ listed s) by (apply (dk_held _ _ _ Hs); by left).
  destruct (dk_ref _ _ _ Hs p Hp) as (h & i & Hk). unfold key in Hk. rewrite He in Hk.
  injection Hk as _ Hr _. cbn [refs_in] in Hr. rewrite Z.eqb_refl in Hr.
  pose proof (refs_in_nonneg p hs).
  rewrite Z.gtb_ltb, (proj2 (Z.ltb_lt _ _)) by lia. cbn [whenS].
  intros (e' & _ & ->)%node_mod_run.
  rewrite (alter_ext_eq _ (λ e, e <| fe_refcount ::= Z.add (-1) |>))
    by (intros x; unfold put_field_to; cbn; f_equal; lia).
  apply (ok_refs (p :: hs)); [done|done| |].
  - intros q. cbn [refs_in]. rewrite (Z.eqb_sym p q). destruct (q =? p); lia.
  - intros q Hq. apply (dk_held _ _ _ Hs). by right.
Qed.

(** Anything quiet, with what the registry says and what else it does not change. *)
Lemma steps_quiet {A} (Q : dsp → Prop) (m : D A) :
  quiet m → (∀ s s', same s s' → Q s → Q s') → steps Q m (λ _, Q).
Proof. apply steps_rel. Qed.

Lemma steps_ok {A} hs ts (m : D A) : quiet m → steps (dsp_ok hs ts) m (λ _, dsp_ok hs ts).
Proof. intros Hm. apply steps_quiet; [done|]. intros. by eapply same_ok. Qed.

Lemma quiet_del_session n p : quiet (del_session n p).
Proof. by apply quiet_node_mod. Qed.

Lemma del_sess_steps hs ts h p : steps (dsp_ok hs ts) (cvp_dsp_del_sess h p) (λ _, dsp_ok hs ts).
Proof.
  eapply steps_bind; [apply get_steps|]. intros n.
  apply (steps_pre _ (dsp_ok (hold n hs) ts)); [|by intros s [? _]].
  apply steps_if; intros Hn.
  - apply steps_ret. intros s. unfold hold. by rewrite Hn.
  - eapply steps_bind; [apply steps_ok, quiet_node_get|]. intros e.
    eapply steps_bind; [apply steps_ok; apply rel_whenS; [apply _|apply quiet_del_session]|]. intros [].
    eapply steps_bind; [apply put_steps|]. intros []. by apply steps_ret.
Qed.

(** ** Operations of the session layer *)

Lemma ses_steps {A} hs ts (m : U A) (R : A → ses → Prop) :
  (∀ s a s', world_wf (z_world s) → m s = Done (a, s') → world_wf (z_world s') ∧ R a s') →
  steps (dsp_ok hs ts) (on_ses m) (λ a s, dsp_ok hs ts s ∧ ∃ z, R a z).
Proof.
  intros Hm s a s' Hs. unfold on_ses. destruct (m (d_ses s)) as [[b z]|] eqn:E; [|done].
  cbn [obind fst snd]. destruct (Hm _ _ _ (dk_world _ _ _ Hs) E) as [Hw HR]. intros Er.
  assert (Hs1 : dsp_ok hs ts (s <| d_ses := z |>)).
  { eapply same_ok; [|exact Hs]. by split. }
  enough (Hp : steps (dsp_ok hs ts)
    (each (gone (z_world (d_ses s)) (z_world z))
       (λ p, di ← gets (dinst_of p); cvp_dsp_del_sess (di_dsp_handle di) p ;;
             modify (λ s, s <| d_insts ::= delete p |>)) ;; mret b)
    (λ c s, dsp_ok hs ts s ∧ c = b)).
  { destruct (Hp _ _ _ Hs1 Er) as [Hok ->]. eauto. }
  apply (steps_bind _ _ (λ _, dsp_ok hs ts)); [|by intros []; apply steps_ret].
  apply steps_each. intros p. eapply steps_bind; [apply steps_ok, quiet_gets|]. intros di.
  eapply steps_bind; [apply del_sess_steps|]. intros ?. apply steps_ok, quiet_modify. by intros.
Qed.

Lemma on_ses_steps {A} hs ts (m : U A) :
  keepsU m → steps (dsp_ok hs ts) (on_ses m) (λ _, dsp_ok hs ts).
Proof.
  intros Hm. eapply steps_post; [apply (ses_steps _ _ _ (λ _ _, True))|by intros a s [? _]].
  intros s a s' Hs E. split; [by eapply Hm|done].
Qed.

Lemma on_core_steps {A} hs ts (m : M A) :
  keepsM m → steps (dsp_ok hs ts) (on_core m) (λ _, dsp_ok hs ts).
Proof. intros Hm. by apply on_ses_steps, keepsU_world. Qed.

(** An instance that is read is well formed. *)
Lemma get_i_steps hs ts p :
  steps (dsp_ok hs ts) (on_core (get_i p)) (λ i s, inst_wf i ∧ dsp_ok hs ts s).
Proof.
  eapply steps_post; [apply (ses_steps _ _ _ (λ i _, inst_wf i))|by intros i s [? [_ ?]]].
  intros s i s' Hs. unfold on_world, get_i. destruct (inst_at p (z_world s)) as [j|] eqn:Ej; [|done].
  cbn [obind fst snd]. rewrite drop_all. cbn. intros [= <- <-].
  split; [by destruct s|]. by eapply (ww_insts _ Hs).
Qed.

(** ** Processes come and go *)

(** A process that is neither in the list nor taken off it. *)
Definition apart (ts : list Z) (p : Z) (s : dsp) : Prop := p ≠ 0 ∧ p ∉ listed s ++ ts.

Lemma apart_same ts p s s' : same s s' → apart ts p s → apart ts p s'.
Proof. intros [L _ _ _ _ _] [? ?]. split; [done|]. by rewrite L. Qed.

(** The registry only depends on the keys of the processes it knows. *)
Lemma ok_keys hs ts s s' :
  dsp_ok hs ts s → listed s' = listed s → d_apps s' = d_apps s → d_trace s' = d_trace s →
  d_ses s' = d_ses s → (∀ p, p ∈ listed s ++ ts → key s' p = key s p) → dsp_ok hs ts s'.
Proof.
  intros [D1 D2 D3 D4 D5 D6 D7 D8 D9 D10] EL EA ET ES Hk.
  assert (Hl : ∀ p, p ∈ listed s → key s' p = key s p).
  { intros p Hp. apply Hk, elem_of_app. by left. }
  split; unfold names; rewrite ?EL, ?EA, ?ET, ?ES; try done.
  - intros p Hp. rewrite Hl by done. by apply D3.
  - intros p Hp. rewrite Hk by done. by apply D4.
  - intros p q h h' r r' i Hp Hq. rewrite !Hk by done. by apply D5.
  - intros p q h r r' i i' Hp Hq. rewrite !Hl by done. by apply D6.
Qed.

Lemma dsp_ok_unlink hs ts s p :
  dsp_ok hs ts s → p ∈ listed s → p ∉ hs →
  dsp_ok hs (p :: ts) (s <| d_apps ::= λ a, a <| a_fastrpc_driver_list ::= filter (λ q, q ≠ p) |> |>).
Proof.
  intros [D1 D2 D3 D4 D5 D6 D7 D8 D9 D10] Hp Hh.
  set (s' := s <| d_apps ::= _ |>).
  assert (EL : listed s' = filter (λ q, q ≠ p) (listed s)) by done.
  assert (Hin : ∀ q, q ∈ listed s' → q ∈ listed s) by (intros q; rewrite EL, list_elem_of_filter; tauto).
  assert (Hall : ∀ q, q ∈ listed s' ++ p :: ts → q ∈ listed s ++ ts).
  { intros q. rewrite !elem_of_app, elem_of_cons. intros [Hq|[->|Hq]]; [left; auto|by left|by right]. }
  split; try done.
  - rewrite EL. apply list.NoDup_app in D1 as (N1 & N2 & N3).
    apply list.NoDup_app. split; [by apply list.NoDup_filter|]. split.
    + intros q [Hq Hql]%list_elem_of_filter [->|Hqt]%elem_of_cons; [done|by eapply N2].
    + constructor; [by apply N2|done].
  - intros Hz. by apply D2, Hall.
  - intros q Hq. by apply D3, Hin.
  - intros q Hq. by apply D4, Hall.
  - intros q q' h h' r r' i Hq Hq'. eapply D5; by apply Hall.
  - intros q q' h r r' i i' Hq Hq'. eapply D6; by apply Hin.
  - intros q Hq. rewrite EL. apply list_elem_of_filter. split; [congruence|by apply D7].
Qed.

Lemma take_node_steps hs ts search (R : Z → Prop) :
  steps (dsp_ok hs ts) search (λ p s, dsp_ok hs ts s ∧ (p ≠ 0 → p ∈ listed s ∧ R p)) →
  ∀ n, steps (dsp_ok hs ts) (take_node n search) (λ p s, dsp_ok hs (hold p ts) s ∧ (p ≠ 0 → R p)).
Proof.
  intros Hs. induction n as [|n IH]; cbn [take_node];
    (eapply steps_bind; [apply Hs|]; intros p; unfold hold; apply steps_if; intros Hp;
     [apply steps_ret; intros s [Hok _]; zify_bool; subst p; by split|]).
  all: intros s a s' [Hok HR]; rewrite St_bind_run; destruct (node_get p s) as [[e s1]|] eqn:Eg; [|done];
    apply node_get_run in Eg as [-> He]; cbn [obind fst snd]; zify_bool; destruct (HR Hp) as [Hl HRp];
    destruct (fe_refcount e >? 0) eqn:Er.
  1: intros [= <- <-]; by (split; [eapply same_ok; [|exact Hok]; by eapply (quiet_dext Usleep_range)|]).
  2: { rewrite St_bind_run. destruct (dext Usleep_range s) as [[b s1]|] eqn:Ed; [|done]. cbn [obind fst snd].
       apply IH. eapply same_ok; [|exact Hok]. by eapply (quiet_dext Usleep_range). }
  all: intros [= <- <-]; rewrite (proj2 (Z.eqb_neq p 0)) by done; split; [|done];
    apply dsp_ok_unlink; [done|done|]; intros Hh; apply refs_in_pos in Hh;
    destruct (dk_ref _ _ _ Hok p Hl) as (h & i & Hk); unfold key in Hk; rewrite He in Hk;
    injection Hk as _ Hr _; zify_bool; lia.
Qed.

Lemma pop_steps hs ts :
  steps (dsp_ok hs ts) pop_frpc_node (λ p, dsp_ok hs (hold p ts)).
Proof.
  eapply steps_post; [apply (take_node_steps _ _ _ (λ _, True))|by intros p s [? _]].
  eapply steps_bind; [apply (steps_gets _ _ (λ a s, dsp_ok hs ts s ∧ a = d_apps s)); eauto|]. intros a.
  apply steps_ret. intros s [Hs ->]. split; [done|]. intros Hp. split; [|done].
  unfold listed. destruct (a_fastrpc_driver_list (d_apps s)); [done|left].
Qed.

Lemma pop_handle_steps hs ts h :
  steps (dsp_ok hs ts) (pop_frpc_node_with_handle h) (λ p, dsp_ok hs (hold p ts)).
Proof.
  eapply steps_post; [apply (take_node_steps _ _ _ (λ _, True))|by intros p s [? _]].
  eapply steps_post; [apply find_handle_steps|]. intros p s [? [[-> _]|[? ?]]]; (split; [done|]); tauto.
Qed.

Lemma dequeue_steps hs ts n :
  steps (dsp_ok hs ts) (dequeue_frpc_node n) (λ b, dsp_ok hs (if b then n :: ts else ts)).
Proof.
  eapply steps_bind; [apply (take_node_steps _ _ _ (λ p, p = n))|].
  - eapply steps_bind; [apply (steps_gets _ _ (λ a s, dsp_ok hs ts s ∧ a = d_apps s)); eauto|]. intros a.
    apply steps_ret. intros s [Hs ->]. split; [done|]. case_bool_decide; [|done]. by intros.
  - intros p. apply steps_ret. intros s [Hs Hp]. unfold hold in Hs.
    destruct (Z.eqb_spec p 0) as [|Hp0]; cbn [negb]; [done|]. by rewrite <- (Hp Hp0).
Qed.

Lemma release_name_steps hs ts p :
  steps (dsp_ok hs (p :: ts)) (eva_fastrpc_driver_release_name p)
    (λ _ s, dsp_ok hs ts s ∧ apart ts p s).
Proof.
  intros s a s' [D1 D2 D3 D4 D5 D6 D7 [D8 D8'] D9 D10]. unfold eva_fastrpc_driver_release_name.
  rewrite St_bind_run. destruct (node_get p s) as [[e s1]|] eqn:Eg; [|done].
  apply node_get_run in Eg as [-> He]. cbn [obind fst snd]. intros [= <- <-].
  assert (Hp : p ∈ listed s ++ p :: ts) by (apply elem_of_app; right; left).
  assert (Hkp : ∃ h r, key s p = Some (h, r, fe_driver_name_idx e)) by (unfold key; rewrite He; eauto).
  destruct Hkp as (hp & rp & Hkp).
  pose proof (list.NoDup_app (listed s) (p :: ts)) as [Hn _]. destruct (Hn D1) as (N1 & N2 & [N3 N4]%list.NoDup_cons).
  assert (Hap : p ∉ listed s ++ ts).
  { rewrite elem_of_app. intros [Hl|Ht]; [|done]. apply (N2 p Hl). left. }
  assert (Hall : ∀ q, q ∈ listed s ++ ts → q ∈ listed s ++ p :: ts).
  { intros q. rewrite !elem_of_app, elem_of_cons. tauto. }
  split; [|split; [intros ->; by apply D2|done]].
  split; try done.
  - apply list.NoDup_app. split; [done|]. split; [|done]. intros q Hq Ht. apply (N2 q Hq). by right.
  - intros Hz. by apply D2, Hall.
  - intros q Hq. destruct (D4 q (Hall q Hq)) as (h & r & i & Hk & Hi). exists h, r, i. split; [done|].
    unfold names in *. cbn. rewrite list_lookup_insert_ne; [done|]. intros Ei. subst i.
    assert (q = p) as -> by (eapply D5; eauto). done.
  - intros q q' h h' r r' i Hq Hq'. eapply D5; by apply Hall.
  - unfold names in *. cbn. by rewrite length_insert.
Qed.

Lemma kfree_steps hs ts p :
  steps (λ s, dsp_ok hs ts s ∧ apart ts p s) (node_kfree p) (λ _, dsp_ok hs ts).
Proof.
  intros s a s' [Hs [_ Hp]]. unfold node_kfree. rewrite St_bind_run.
  destruct (node_get p s) as [[e s1]|] eqn:Eg; [|done]. apply node_get_run in Eg as [-> _].
  cbn [obind fst snd]. intros [= <- <-]. eapply ok_keys; [exact Hs|done..|].
  intros q Hq. unfold key, put_field_to. cbn. rewrite obj_find_del.
  by rewrite (proj2 (Z.eqb_neq q p)) by congruence.
Qed.

(** Taken off the list, without its name, and freed. *)
Lemma discard_steps hs ts p :
  steps (dsp_ok hs (p :: ts)) (eva_fastrpc_driver_release_name p ;; node_kfree p) (λ _, dsp_ok hs ts).
Proof. eapply steps_bind; [apply release_name_steps|]. intros ?. apply kfree_steps. Qed.

(** An allocated process is somewhere else than the others. *)
Class DspLaws := kzalloc_node_fresh : ∀ n live, d_answer n (Kzalloc_node live) ∉ live.

Lemma ok_allocated hs ts s p : dsp_ok hs ts s → p ∈ listed s ++ ts → p ∈ (d_nodes s).*1.
Proof.
  intros Hs Hp. destruct (dk_name _ _ _ Hs p Hp) as (h & r & i & Hk & _). unfold key in Hk.
  destruct (obj_find p (d_nodes s)) as [e|] eqn:E; [|done].
  apply obj_find_elem in E. by apply (list_elem_of_fmap_2 fst _ (p, e)).
Qed.

Definition key_is (p : Z) (k : Z * Z * nat) (s : dsp) : Prop := key s p = Some k.

Lemma zalloc_steps `{!DspLaws} hs ts h :
  steps (λ s, dsp_ok hs ts s ∧ handle_free h s) node_zalloc
    (λ p s, dsp_ok hs ts s ∧ handle_free h s ∧ (p ≠ 0 → apart ts p s ∧ key_is p (0, 0, 0%nat) s)).
Proof.
  intros s p s' [Hs Hf]. unfold node_zalloc. rewrite St_bind_run, gets_run. cbn [obind fst snd].
  rewrite St_bind_run. destruct (dext _ s) as [[q s1]|] eqn:Ed; [|done]. cbn [obind fst snd].
  assert (Hfr : q ∉ (d_nodes s).*1) by (injection Ed as <- _; apply kzalloc_node_fresh).
  assert (Hsm : same s s1) by (by eapply (quiet_dext (Kzalloc_node (d_nodes s).*1))).
  assert (Hn : d_nodes s1 = d_nodes s) by (by injection Ed as _ <-).
  assert (Hs1 : dsp_ok hs ts s1) by (by eapply same_ok).
  assert (Hf1 : handle_free h s1).
  { intros r c i Hr. rewrite (sa_key _ _ Hsm), (sa_listed _ _ Hsm) in *. by apply Hf. }
  clear Ed Hsm Hs Hf. rewrite <- Hn in Hfr. clear Hn s. rename s1 into s.
  rewrite St_bind_run. destruct (Z.eqb_spec q 0) as [|Hq]; cbn [negb whenS];
    intros [= <- <-]; [done|].
  assert (Hk : ∀ r, r ∈ listed s ++ ts → key (s <| d_nodes ::= λ l, l ++ [(q, zero_node)] |>) r = key s r).
  { intros r Hr. pose proof (ok_allocated _ _ _ _ Hs1 Hr). unfold key, put_field_to. cbn.
    rewrite obj_find_app. destruct (obj_find r (d_nodes s)) as [e|] eqn:E; [done|].
    exfalso. destruct (dk_name _ _ _ Hs1 r Hr) as (? & ? & ? & Hk & _). unfold key in Hk. by rewrite E in Hk. }
  split; [by eapply ok_keys|]. split.
  { intros r c i Hr. rewrite Hk by (apply elem_of_app; by left). by apply Hf1. }
  intros _. split.
  - split; [done|]. intros Hin. by apply Hfr, (ok_allocated hs ts s q).
  - unfold key_is, key, put_field_to. cbn. rewrite obj_find_app.
    rewrite (proj2 (obj_find_none _ _)) by done. cbn [obj_find]. by rewrite Z.eqb_refl.
Qed.

(** What a new process goes through, while no other has its handle. *)
Definition fresh_node (hs ts : list Z) (h p : Z) (k : Z * Z * nat) (s : dsp) : Prop :=
  dsp_ok hs ts s ∧ handle_free h s ∧ apart ts p s ∧ key_is p k s.

Lemma handle_steps hs ts h p :
  steps (fresh_node hs ts h p (0, 0, 0%nat)) (node_mod p (λ e, e <| fe_handle := h |>))
    (λ _, fresh_node hs ts h p (h, 0, 0%nat)).
Proof.
  intros s a s' (Hs & Hf & [Hp Ha] & Hk) (e & He & ->)%node_mod_run.
  assert (Ho : ∀ q, q ∈ listed s ++ ts → key (s <| d_nodes ::= obj_alter (λ e, e <| fe_handle := h |>) p |>) q = key s q).
  { intros q Hq. rewrite key_alter. by rewrite (proj2 (Z.eqb_neq q p)) by (intros ->; done). }
  split; [by eapply ok_keys|]. split; [|split; [done|]].
  - intros q r i Hq. rewrite Ho by (apply elem_of_app; by left). by apply Hf.
  - unfold key_is in *. rewrite key_alter, Z.eqb_refl, He. unfold key in Hk. rewrite He in Hk.
    injection Hk as _ E2 E3. cbn. by rewrite E2, E3.
Qed.

Lemma free_name_spec l : ∀ i j, free_name i l = Some j → (i <= j)%nat ∧ l !! (j - i)%nat = Some DRIVER_NAME_AVAILABLE.
Proof.
  induction l as [|x l IH]; intros i j; cbn [free_name]; [done|].
  destruct (Z.eqb_spec x DRIVER_NAME_AVAILABLE) as [->|].
  - intros [= ->]. split; [lia|]. by replace (j - j)%nat with 0%nat by lia.
  - intros [Hj Hl]%IH. split; [lia|]. by replace (j - i)%nat with (Datatypes.S (j - Datatypes.S i)) by lia.
Qed.

(** With a name, the process counts as taken off the list. *)
Lemma get_name_steps hs ts h p :
  steps (fresh_node hs ts h p (h, 0, 0%nat)) (eva_fastrpc_driver_get_name p)
    (λ rc s, (rc ≠ 0 ∧ dsp_ok hs ts s ∧ apart ts p s)
             ∨ (rc = 0 ∧ dsp_ok hs (p :: ts) s ∧ handle_free h s ∧ ∃ i, key_is p (h, 0, i) s)).
Proof.
  intros s rc s' (Hs & Hf & [Hp Ha] & Hk). unfold eva_fastrpc_driver_get_name, apps.
  rewrite St_bind_run, gets_run. cbn [obind fst snd].
  destruct (free_name 0 _) as [i|] eqn:Ei; [|by intros [= <- <-]; left].
  apply free_name_spec in Ei as [_ Ei]. rewrite Nat.sub_0_r in Ei.
  rewrite St_bind_run. destruct (node_mod p _ s) as [[u s1]|] eqn:E1; [|done].
  apply node_mod_run in E1 as (e & He & ->). cbn [obind fst snd]. intros [= <- <-]. right.
  split; [done|]. unfold key_is in Hk. pose proof Hk as Hk'. unfold key in Hk. rewrite He in Hk. injection Hk as E1 E2 E3.
  set (s1 := s <| d_nodes ::= _ |> <| d_apps ::= _ |>).
  assert (Ho : ∀ q, q ∈ listed s ++ ts → key s1 q = key s q).
  { intros q Hq. change (key s1 q) with (key (s <| d_nodes ::= obj_alter (λ e, e <| fe_driver_name_idx := i |>) p |>) q).
    rewrite key_alter. by rewrite (proj2 (Z.eqb_neq q p)) by (intros ->; done). }
  assert (Hkp : key s1 p = Some (h, 0, i)).
  { change (key s1 p) with (key (s <| d_nodes ::= obj_alter (λ e, e <| fe_driver_name_idx := i |>) p |>) p).
    rewrite key_alter, Z.eqb_refl, He. cbn. by rewrite E1, E2. }
  assert (EN : names s1 = <[i := DRIVER_NAME_USED]> (names s)) by done.
  assert (Hall : ∀ q, q ∈ listed s1 ++ p :: ts → q = p ∨ q ∈ listed s ++ ts).
  { intros q. change (listed s1) with (listed s). rewrite !elem_of_app, elem_of_cons. tauto. }
  assert (Hi : ∀ q r c, q ∈ listed s ++ ts → key s q ≠ Some (r, c, i)).
  { intros q r c Hq Hkq. destruct (dk_name _ _ _ Hs q Hq) as (? & ? & ? & Hk2 & Hu).
    rewrite Hkq in Hk2. injection Hk2 as <- <- <-. unfold names in Hu. by rewrite Ei in Hu. }
  pose proof (list.NoDup_app (listed s) ts) as [Hn _].
  destruct Hs as [D1 D2 D3 D4 D5 D6 D7 [D8 D8'] D9 D10]. destruct (Hn D1) as (N1 & N2 & N3).
  split; [|split; [intros q r c Hq; rewrite Ho by (apply elem_of_app; by left); by apply Hf|by exists i]].
  split; try done.
  - apply list.NoDup_app. split; [done|]. split.
    + intros q Hq [->|Ht]%elem_of_cons; [apply Ha, elem_of_app; by left|by apply (N2 q Hq)].
    + apply list.NoDup_cons. split; [intros Ht; apply Ha, elem_of_app; by right|done].
  - intros Hz%Hall. destruct Hz as [<-| ]; [by apply Hp|done].
  - intros q Hq. rewrite Ho by (apply elem_of_app; by left). by apply D3.
  - intros q [->|Hq]%Hall; rewrite EN.
    + exists h, 0, i. split; [done|]. apply list_lookup_insert_eq. by eapply lookup_lt_Some.
    + rewrite Ho by done. destruct (D4 q Hq) as (r & c & j & Hkq & Hj). exists r, c, j. split; [done|].
      rewrite list_lookup_insert_ne; [done|]. intros ->. by eapply Hi.
  - intros q q' a a' r r' j [->|Hq]%Hall [->|Hq']%Hall; rewrite ?Hkp, ?Ho by done; [done| | |by apply D5].
    + intros [= _ _ <-] Hq2. exfalso. by eapply Hi.
    + intros Hq2 [= _ _ <-]. exfalso. by eapply Hi.
  - intros q q' a r r' j j' Hq Hq'. rewrite !Ho by (apply elem_of_app; by left). by apply D6.
  - split; [|done]. rewrite EN. by rewrite length_insert.
Qed.

(** The process joins the list. *)
Lemma publish_steps hs ts h p :
  steps (λ s, dsp_ok hs (p :: ts) s ∧ handle_free h s ∧ ∃ i, key_is p (h, 0, i) s)
    (mod_apps (λ a, a <| a_fastrpc_driver_list ::= λ l, l ++ [p] |>) ;;
     node_mod p (λ e, e <| fe_refcount ::= Z.succ |>))
    (λ _, dsp_ok (p :: hs) ts).
Proof.
  intros s u s' (Hs & Hf & i & Hk). rewrite St_bind_run. unfold mod_apps. rewrite modify_run.
  cbn [obind fst snd]. set (s1 := s <| d_apps ::= _ |>). intros (e & He & ->)%node_mod_run.
  rewrite (alter_ext_eq _ (λ e, e <| fe_refcount ::= Z.add 1 |>))
    by (intros x; unfold put_field_to; cbn; f_equal; lia).
  assert (EL : listed s1 = listed s ++ [p]) by done.
  assert (Hs1 : dsp_ok hs ts s1).
  { pose proof (list.NoDup_app (listed s) (p :: ts)) as [Hn _].
    destruct Hs as [D1 D2 D3 D4 D5 D6 D7 D8 D9 D10].
    destruct (Hn D1) as (N1 & N2 & [N3 N4]%list.NoDup_cons).
    assert (Hall : ∀ q, q ∈ listed s1 ++ ts → q ∈ listed s ++ p :: ts).
    { intros q. rewrite EL, !elem_of_app, !elem_of_cons, elem_of_nil. tauto. }
    assert (Hpl : p ∉ listed s) by (intros Hl; apply (N2 p Hl); left).
    split; try done.
    - rewrite EL, <- app_assoc. done.
    - intros Hz. by apply D2, Hall.
    - intros q. rewrite EL, elem_of_app, list_elem_of_singleton. intros [Hq| ->]; [by apply D3|].
      exists h, i. change (key s1 p) with (key s p). rewrite Hk. do 3 f_equal.
      rewrite refs_in_absent; [done|]. intros Hh. by apply Hpl, D7.
    - intros q Hq. by apply D4, Hall.
    - intros q q' a a' r r' j Hq Hq'. eapply D5; by apply Hall.
    - intros q q' a r r' j j'. rewrite EL, !elem_of_app, !list_elem_of_singleton.
      change (key s1 q) with (key s q). change (key s1 q') with (key s q').
      unfold key_is in Hk. intros [Hq| ->] [Hq'| ->]; rewrite ?Hk; [by apply D6| | |done].
      + intros Hkq [= <- _ _]. exfalso. by eapply Hf.
      + intros [= <- _ _] Hkq. exfalso. by eapply Hf.
    - intros q Hq. rewrite EL. apply elem_of_app. left. by apply D7. }
  assert (Hp : p ∈ listed s1) by (rewrite EL; apply elem_of_app; right; by left).
  apply (ok_refs hs); [done|done| |].
  - intros q. cbn [refs_in]. rewrite (Z.eqb_sym p q). destruct (q =? p); lia.
  - intros q [->|Hq]%elem_of_cons; [done|]. by apply (dk_held _ _ _ Hs1).
Qed.

End invariant.
