(* ===== verification/DspSafe.v ===== *)
(** Whatever the DSP sends and whichever call fails, the registry of its processes stays
    consistent, the references on a process are given back, the memory that is lent to it is
    lent once and taken back as it was, and the driver's sessions stay well formed (Dsp.v and
    DspCmd.v, with the invariant of DspRegistry.v). *)

From S2P Require Import Prelude Store Partial HfiQueue HfiTypes HfiPacket HfiDefs Driver Evolve Instance.
From S2P Require Import HfiSession Response Session Machine Power Smem Buffers UserMem Wncc Fences Commands.
From S2P Require Import Scenario SessionBuffers WnccSafe Ioctl IoctlSafe Sysprop Control Life LifeSafe.
From S2P Require Import Dsp DspCmd DspRegistry.
Open Scope Z_scope.

Section operations.
Context `{Env} `{!InstLaws} `{LifeEnv} `{SysEnv} `{FenceEnv} `{BufEnv} `{RbTree} `{UserMem} `{DspEnv} `{!DspLaws}.
Context (bus_tbl : list (String.string * Z)).

Abbreviation quiet := (rel same).
#[local] Existing Instance same_preorder.

(** * Operations that do not concern the registry *)

Create HintDb quiet discriminated.
Hint Constants Opaque : quiet.
Hint Resolve quiet_ret quiet_gets quiet_outcome quiet_node_get quiet_on_store : quiet.

Lemma quiet_if {A} (b : bool) (m1 m2 : D A) : quiet m1 → quiet m2 → quiet (if b then m1 else m2).
Proof. by destruct b. Qed.
Lemma quiet_when b (m : D unit) : quiet m → quiet (whenS b m).
Proof. apply rel_whenS, _. Qed.
Lemma quiet_each {A} (l : list A) (m : A → D unit) : (∀ a, quiet (m a)) → quiet (each l m).
Proof. apply rel_each, _. Qed.
Lemma quiet_stuck {A} : quiet (@stuck dsp A).
Proof. apply rel_stuck. Qed.
Hint Resolve quiet_stuck : quiet.

Ltac quiet1 :=
  match goal with
  | |- rel same (_ ≫= _) => apply quiet_bind; [|intros ?]
  | |- rel same (if _ then _ else _) => apply quiet_if
  | |- rel same (whenS _ _) => apply quiet_when
  | |- rel same (each _ _) => apply quiet_each; intros ?
  | |- rel same (dext _) => apply quiet_dext; reflexivity
  | |- rel same (match ?x with _ => _ end) => destruct x
  | |- rel same (mod_apps _) => apply quiet_mod_apps; intros ?; cbn; by rewrite ?length_alter, ?length_insert
  | |- rel same (node_mod _ _) => by apply quiet_node_mod
  | |- rel same (modify _) => by apply quiet_modify
  | |- rel same _ => solve [eauto with quiet nocore]
  end.
Ltac quiet_tac := repeat quiet1.

Lemma quiet_apps : quiet apps. Proof. apply quiet_gets. Qed.
Hint Resolve quiet_apps : quiet.

Lemma quiet_complete i : quiet (complete_cmd i).
Proof. unfold complete_cmd. quiet_tac. Qed.
Hint Resolve quiet_complete : quiet.

Lemma quiet_try_completion i : quiet (try_completion i).
Proof. unfold try_completion. quiet_tac. Qed.
Hint Resolve quiet_try_completion : quiet.

Lemma quiet_callback m : quiet (cvp_dsp_rpmsg_callback m).
Proof. unfold cvp_dsp_rpmsg_callback, receive_cmd. quiet_tac. Qed.
Hint Resolve quiet_callback : quiet.

Lemma quiet_send_cmd cmd : quiet (cvp_dsp_send_cmd cmd).
Proof. unfold cvp_dsp_send_cmd. quiet_tac. Qed.
Hint Resolve quiet_send_cmd : quiet.

Lemma quiet_send_sync cmd : quiet (cvp_dsp_send_cmd_sync cmd).
Proof. unfold cvp_dsp_send_cmd_sync, wait_rsp. quiet_tac. Qed.
Hint Resolve quiet_send_sync : quiet.

Lemma quiet_send_queue a z : quiet (cvp_dsp_send_cmd_hfi_queue a z).
Proof. unfold cvp_dsp_send_cmd_hfi_queue, new_cmd. quiet_tac. Qed.
Hint Resolve quiet_send_queue : quiet.

(** Lending keeps the account of what is lent. *)
Lemma quiet_assign_to a z : quiet (cvp_hyp_assign_to_dsp a z).
Proof.
  intros s rc s'. unfold cvp_hyp_assign_to_dsp, apps. rewrite St_bind_run, gets_run.
  cbn [obind fst snd]. destruct (a_hyp_assigned (d_apps s)) eqn:Ea; [by intros [= _ <-]|].
  rewrite St_bind_run. destruct (dext _ s) as [[b s1]|] eqn:Ed; [|done]. cbn [obind fst snd].
  injection Ed as <- <-. set (c := Scm_assign true a z). set (n := length (d_trace s)).
  assert (HL : ∀ r, lending 0 None (d_trace s) = Some (region (d_apps s)) → r = (if d_answer n c =? 0 then Some (a, z) else None) →
                    lending 0 None (d_trace s ++ [c]) = Some r).
  { intros r HL ->. rewrite lending_snoc, HL. unfold region. rewrite Ea. done. }
  destruct (Z.eqb_spec (d_answer n c) 0) as [E|E]; cbn [negb].
  - unfold mod_apps. rewrite St_bind_run, modify_run. cbn [obind fst snd]. intros [= _ <-].
    split; try done. intros Hl. by apply HL.
  - intros [= _ <-]. split; try done. intros Hl. apply HL; [done|]. unfold region. cbn. by rewrite Ea.
Qed.

Lemma quiet_assign_from : quiet cvp_hyp_assign_from_dsp.
Proof.
  intros s rc s'. unfold cvp_hyp_assign_from_dsp, apps. rewrite St_bind_run, gets_run.
  cbn [obind fst snd]. destruct (a_hyp_assigned (d_apps s)) eqn:Ea; cbn [negb]; [|by intros [= _ <-]].
  rewrite St_bind_run. destruct (dext _ s) as [[b s1]|] eqn:Ed; [|done]. cbn [obind fst snd].
  injection Ed as <- <-. set (c := Scm_assign false _ _). set (n := length (d_trace s)).
  assert (HL : ∀ r, lending 0 None (d_trace s) = Some (region (d_apps s)) →
                    r = (if d_answer n c =? 0 then None else region (d_apps s)) →
                    lending 0 None (d_trace s ++ [c]) = Some r).
  { intros r HL ->. rewrite lending_snoc, HL. unfold region. rewrite Ea. cbn [lend_step c].
    by rewrite bool_decide_true. }
  destruct (Z.eqb_spec (d_answer n c) 0) as [E|E]; cbn [negb].
  - unfold mod_apps. rewrite St_bind_run, modify_run. cbn [obind fst snd]. intros [= _ <-].
    split; try done. intros Hl. by apply HL.
  - intros [= _ <-]. split; try done. intros Hl. by apply HL.
Qed.
Hint Resolve quiet_assign_to quiet_assign_from : quiet.

Lemma quiet_set_state st : quiet (set_state st).
Proof. unfold set_state. quiet_tac. Qed.
Hint Resolve quiet_set_state : quiet.

Lemma quiet_new_cmd t : quiet (new_cmd t).
Proof. unfold new_cmd. quiet_tac. Qed.
Hint Resolve quiet_new_cmd : quiet.

Lemma quiet_shutdown : quiet cvp_dsp_shutdown.
Proof. unfold cvp_dsp_shutdown. quiet_tac. Qed.
Hint Resolve quiet_shutdown : quiet.

Lemma quiet_abandon : quiet abandon_dsp.
Proof. unfold abandon_dsp. quiet_tac. Qed.
Hint Resolve quiet_abandon : quiet.

Lemma quiet_map_dma d b m : quiet (eva_fastrpc_dev_map_dma d b m).
Proof. unfold eva_fastrpc_dev_map_dma. quiet_tac. Qed.
Lemma quiet_unmap_dma d b : quiet (eva_fastrpc_dev_unmap_dma d b).
Proof. unfold eva_fastrpc_dev_unmap_dma. quiet_tac. Qed.
Hint Resolve quiet_map_dma quiet_unmap_dma : quiet.

Lemma quiet_unmap_frpc n p : quiet (msm_cvp_unmap_smem_frpc n p).
Proof. unfold msm_cvp_unmap_smem_frpc. quiet_tac. Qed.
Hint Resolve quiet_unmap_frpc : quiet.

Lemma quiet_remove_buffers n l : ∀ kept rc, quiet (remove_buffers n kept l rc).
Proof. induction l; intros; cbn [remove_buffers]; quiet_tac. Qed.
Hint Resolve quiet_remove_buffers : quiet.

Lemma quiet_fastrpc_remove n : quiet (eva_fastrpc_remove_buffers n).
Proof. unfold eva_fastrpc_remove_buffers. quiet_tac. Qed.
Hint Resolve quiet_fastrpc_remove : quiet.

Lemma quiet_clear_buffers n l : quiet (clear_buffers n l).
Proof. induction l; cbn [clear_buffers]; quiet_tac. Qed.
Hint Resolve quiet_clear_buffers : quiet.

Lemma quiet_add_sess n p : quiet (eva_fastrpc_driver_add_sess n p).
Proof. unfold eva_fastrpc_driver_add_sess. quiet_tac. Qed.
Hint Resolve quiet_add_sess quiet_del_session : quiet.

(** * Operations on the registry *)

Lemma hold_zero p l : (p =? 0) = true → hold p l = l.
Proof. unfold hold. by intros ->. Qed.

Lemma hold_pos p l : (p =? 0) = false → hold p l = p :: l.
Proof. unfold hold. by intros ->. Qed.

(** A process that was taken off the list and is not given back. *)
Lemma dsp_ok_leak hs ts p s : dsp_ok hs (p :: ts) s → dsp_ok hs ts s.
Proof.
  intros [D1 D2 D3 D4 D5 D6 D7 D8 D9 D10].
  assert (Hall : ∀ q, q ∈ listed s ++ ts → q ∈ listed s ++ p :: ts).
  { intros q. rewrite !elem_of_app, elem_of_cons. tauto. }
  split; try done.
  - apply list.NoDup_app in D1 as (N1 & N2 & [N3 N4]%list.NoDup_cons).
    apply list.NoDup_app. split; [done|]. split; [|done]. intros q Hq Ht. apply (N2 q Hq). by right.
  - intros Hz. by apply D2, Hall.
  - intros q Hq. by apply D4, Hall.
  - intros q q' h h' r r' i Hq Hq'. eapply D5; by apply Hall.
Qed.

Lemma steps_apart {A} hs ts p (m : D A) :
  quiet m → steps (λ s, dsp_ok hs ts s ∧ apart ts p s) m (λ _ s, dsp_ok hs ts s ∧ apart ts p s).
Proof.
  intros Hm. apply steps_quiet; [done|]. intros s s' Hs [? ?].
  split; [by eapply same_ok|by eapply apart_same].
Qed.

Lemma get_ok hs ts h :
  steps (dsp_ok hs ts) (cvp_get_fastrpc_node_with_handle h) (λ p, dsp_ok (hold p hs) ts).
Proof. eapply steps_post; [apply get_steps|]. by intros p s [? _]. Qed.

Create HintDb registry discriminated.
Hint Constants Opaque : registry.
Hint Resolve on_ses_steps on_core_steps del_sess_steps put_steps get_ok pop_steps pop_handle_steps
  release_name_steps kfree_steps : registry.

(** One step through an operation that keeps the registry; what it holds is counted. *)
Ltac regs1 :=
  cbv beta;
  match goal with
  | E : (?p =? 0) = true |- steps (dsp_ok (hold ?p _) _) _ _ => rewrite (hold_zero p _ E)
  | E : (?p =? 0) = true |- steps (dsp_ok _ (hold ?p _)) _ _ => rewrite (hold_zero p _ E)
  | E : (?p =? 0) = false |- steps (dsp_ok _ (hold ?p _)) _ _ => rewrite (hold_pos p _ E)
  | |- steps _ (mret _) _ => apply steps_ret; first [by intros ? | by intros ? ?%dsp_ok_leak]
  | |- steps _ (_ ≫= _) _ => eapply steps_bind; [|intros ?]
  | |- steps _ (if _ then _ else _) _ => apply steps_if; intros ?
  | |- steps _ (whenS _ _) _ => apply steps_whenS; [intros ?|
      let s := fresh in let E := fresh in let Hs := fresh in
      intros s E Hs; first [exact Hs | apply negb_false_iff in E; by rewrite (hold_zero _ _ E) in Hs]]
  | E : negb _ = true |- _ => apply negb_true_iff in E
  | E : negb _ = false |- _ => apply negb_false_iff in E
  | |- steps _ (each _ _) _ => apply steps_each; intros ?
  | |- steps _ stuck _ => apply steps_stuck
  | |- steps _ _ _ => solve [eauto with registry nocore | apply steps_ok; quiet_tac | apply steps_apart; quiet_tac]
  | |- steps _ (match ?x with _ => _ end) _ => destruct x
  end.
Ltac regs := repeat regs1.

Lemma delete_session_ok hs ts p : steps (dsp_ok hs ts) (delete_dsp_session p) (λ _, dsp_ok hs ts).
Proof.
  unfold delete_dsp_session. regs.
  - apply on_core_steps, keepsM_latency.
  - apply on_core_steps, keepsM_pres. pres_tac.
  - apply on_ses_steps, keeps_close.
Qed.
Hint Resolve delete_session_ok : registry.

Lemma delete_sessions_ok hs ts n : steps (dsp_ok hs ts) (delete_sessions n) (λ _, dsp_ok hs ts).
Proof. unfold delete_sessions. regs. Qed.
Hint Resolve delete_sessions_ok : registry.

Lemma remove_sessions_ok n : ∀ hs ts, steps (dsp_ok hs ts) (remove_dsp_sessions n) (λ _, dsp_ok hs ts).
Proof. induction n as [|n IH]; intros hs ts; cbn [remove_dsp_sessions]; regs. Qed.
Hint Resolve remove_sessions_ok : registry.

Lemma remove_dsp_sessions_ok hs ts : steps (dsp_ok hs ts) cvp_remove_dsp_sessions (λ _, dsp_ok hs ts).
Proof. unfold cvp_remove_dsp_sessions. regs. Qed.
Hint Resolve remove_dsp_sessions_ok : registry.

Lemma unregister_ok hs ts h f : steps (dsp_ok hs ts) (eva_fastrpc_driver_unregister h f) (λ _, dsp_ok hs ts).
Proof. unfold eva_fastrpc_driver_unregister. regs. Qed.
Hint Resolve unregister_ok : registry.

Lemma probe_ok hs ts h d : steps (dsp_ok hs ts) (cvp_fastrpc_probe h d) (λ _, dsp_ok hs ts).
Proof. unfold cvp_fastrpc_probe. regs. Qed.
Hint Resolve probe_ok : registry.

Lemma wait_probe_ok hs ts n : steps (dsp_ok hs ts) (wait_probe n) (λ _, dsp_ok hs ts).
Proof. unfold wait_probe, try_probe. regs. Qed.
Hint Resolve wait_probe_ok : registry.

Lemma fail_register_ok hs ts n b :
  n ≠ 0 → steps (dsp_ok (n :: hs) ts) (fail_register n b) (λ _, dsp_ok hs ts).
Proof.
  intros Hn. unfold fail_register.
  eapply steps_bind; [apply (steps_pre _ (dsp_ok (hold n hs) ts)); [apply put_steps|]|].
  { intros s. unfold hold. by rewrite (proj2 (Z.eqb_neq n 0)). }
  intros ?. eapply steps_bind; [apply dequeue_steps|]. intros [|]; cbn [negb]; [|by apply steps_ret].
  eapply steps_bind; [apply steps_ok; quiet_tac|]. intros ?.
  eapply steps_bind; [apply release_name_steps|]. intros ?.
  eapply steps_bind; [apply kfree_steps|]. intros ?. by apply steps_ret.
Qed.

(** A process with its handle and its name, from the list to the end of the registration. *)
Lemma announce_ok hs ts h n :
  n ≠ 0 →
  steps (λ s, dsp_ok hs (n :: ts) s ∧ handle_free h s ∧ ∃ i, key_is n (h, 0, i) s)
    (mod_apps (λ a, a <| a_fastrpc_driver_list ::= λ l, l ++ [n] |>) ;;
     node_mod n (λ e, e <| fe_refcount ::= Z.succ |>) ;;
     rc ← dext (Fastrpc_register n);
     if negb (rc =? 0) then fail_register n true
     else
       ok ← wait_probe n;
       if negb ok then fail_register n false else cvp_put_fastrpc_node n ;; mret rc)
    (λ _, dsp_ok hs ts).
Proof.
  intros Hn. apply steps_assoc.
  apply (steps_bind _ _ (λ _, dsp_ok (hold n hs) ts)); [|intros []].
  { eapply steps_post; [apply publish_steps|]. intros ? s1. unfold hold. by rewrite (proj2 (Z.eqb_neq n 0)). }
  assert (Hh : hold n hs = n :: hs) by (unfold hold; by rewrite (proj2 (Z.eqb_neq n 0))).
  regs; rewrite Hh; by apply fail_register_ok.
Qed.

Lemma register_ok hs ts h : steps (dsp_ok hs ts) (eva_fastrpc_driver_register h) (λ _, dsp_ok hs ts).
Proof.
  unfold eva_fastrpc_driver_register.
  eapply steps_bind; [apply get_steps|]. intros n. apply steps_if; intros En.
  { eapply steps_bind; [eapply steps_pre; [apply put_steps|by intros s [? _]]|]. intros ?. by apply steps_ret. }
  apply negb_false_iff in En. pose proof (proj1 (Z.eqb_eq _ _) En) as En0. rewrite (hold_zero _ _ En).
  eapply steps_bind; [eapply steps_pre; [apply (zalloc_steps hs ts h)|]|].
  { intros s [? Hf]. split; [done|by apply Hf]. }
  intros p. apply steps_if; intros Ep; [apply steps_ret; by intros s [? _]|]. zify_bool.
  eapply steps_bind; [eapply steps_pre; [apply (handle_steps hs ts h p)|]|].
  { intros s (Hs & Hf & Hp). destruct (Hp Ep). by split. }
  intros ?. eapply steps_bind; [apply get_name_steps|]. intros rc. apply steps_if; intros Erc; zify_bool.
  - eapply steps_bind; [eapply steps_pre; [apply (kfree_steps hs ts p)|]|intros ?; by apply steps_ret].
    intros s [(_ & Hs & Ha)|(-> & _)]; done.
  - eapply steps_pre; [by apply (announce_ok hs ts h p)|]. intros s [(Hne & _)|(_ & Hs)]; done.
Qed.
Hint Resolve register_ok : registry.

(** * The interface *)

Lemma reinit_ok hs ts : steps (dsp_ok hs ts) cvp_reinit_dsp (λ _, dsp_ok hs ts).
Proof. unfold cvp_reinit_dsp, __reinit_dsp. regs. Qed.
Hint Resolve reinit_ok : registry.

Lemma suspend_try_ok n : ∀ cmd hs ts, steps (dsp_ok hs ts) (suspend_try n cmd) (λ _, dsp_ok hs ts).
Proof. induction n; intros; cbn [suspend_try]; regs. Qed.
Hint Resolve suspend_try_ok : registry.

Lemma suspend_ok hs ts f : steps (dsp_ok hs ts) (cvp_dsp_suspend f) (λ _, dsp_ok hs ts).
Proof. unfold cvp_dsp_suspend, dsp_session_exist. regs. Qed.

Lemma send_hfi_queue_ok hs ts : steps (dsp_ok hs ts) cvp_dsp_send_hfi_queue (λ _, dsp_ok hs ts).
Proof. unfold cvp_dsp_send_hfi_queue. regs. Qed.
Hint Resolve send_hfi_queue_ok : registry.

Lemma quiet_wait_pending n : quiet (wait_pending n).
Proof. induction n; cbn [wait_pending]; quiet_tac. Qed.
Hint Resolve quiet_wait_pending : quiet.

Lemma rpmsg_remove_ok hs ts : steps (dsp_ok hs ts) cvp_dsp_rpmsg_remove (λ _, dsp_ok hs ts).
Proof. unfold cvp_dsp_rpmsg_remove. regs. Qed.

Lemma quiet_rpmsg_probe : quiet cvp_dsp_rpmsg_probe.
Proof. unfold cvp_dsp_rpmsg_probe. quiet_tac. Qed.

Lemma send_mask_ok hs ts : steps (dsp_ok hs ts) cvp_dsp_send_debug_mask (λ _, dsp_ok hs ts).
Proof. unfold cvp_dsp_send_debug_mask. regs. Qed.

Lemma device_init_ok :
  steps (λ s, d_trace s = [] ∧ world_wf (z_world (d_ses s))) cvp_dsp_device_init (λ _, dsp_ok [] []).
Proof.
  unfold cvp_dsp_device_init. apply (steps_bind _ _ (λ _, dsp_ok [] [])).
  - apply steps_modify. intros s [Ht Hw]. split; try done; [constructor|by apply not_elem_of_nil|..].
    all: try (intros ? Hp; by apply not_elem_of_nil in Hp).
    all: try (intros ? ? ? ? ? ? ? Hp; by apply not_elem_of_nil in Hp).
    cbn. by rewrite Ht.
  - intros ?. regs.
Qed.

Lemma fastrpc_unmap_ok hs ts h b : steps (dsp_ok hs ts) (cvp_dsp_fastrpc_unmap h b) (λ _, dsp_ok hs ts).
Proof. unfold cvp_dsp_fastrpc_unmap. regs. Qed.

(** * Commands *)

Lemma quiet_cmd_word i : quiet (cmd_word i).
Proof. unfold cmd_word. quiet_tac. Qed.
Lemma quiet_cmd_v2_word i : quiet (cmd_v2_word i).
Proof. unfold cmd_v2_word. quiet_tac. Qed.
Hint Resolve quiet_cmd_word quiet_cmd_v2_word : quiet.

Lemma quiet_get_inst h l : quiet (get_inst_from_dsp h l).
Proof. unfold get_inst_from_dsp. quiet_tac. Qed.
Hint Resolve quiet_get_inst : quiet.

Lemma quiet_cmd_inst : quiet cmd_inst.
Proof. unfold cmd_inst. quiet_tac. Qed.
Hint Resolve quiet_cmd_inst : quiet.

Lemma quiet_task_of d : quiet (task_of d).
Proof. unfold task_of, eva_fastrpc_dev_get_pid. quiet_tac. Qed.
Hint Resolve quiet_task_of : quiet.

(** ** Properties of an instance *)

Lemma inst_wf_prop f i :
  (∀ p, prop_sized p → prop_sized (f p)) → inst_wf i → inst_wf (i <| i_prop ::= f |>).
Proof.
  intros Hf [Q C P K]. split; [by intros []; [apply (Q true)|apply (Q false)]|done|by apply Hf|done].
Qed.

Lemma inst_wf_latency v i : inst_wf i → inst_wf (i <| i_pm_qos_latency := v |>).
Proof. intros [Q C P K]. split; [by intros []; [apply (Q true)|apply (Q false)]|done..]. Qed.

Lemma sysprop_sess_wf i prop idx r :
  msm_cvp_set_sysprop_sess i prop idx = Done r → inst_wf i → inst_wf r.2.
Proof.
  unfold msm_cvp_set_sysprop_sess, set_prop. intros E Hi.
  repeat match type of E with
  | (if ?b then _ else _) = _ => destruct b
  end; try (injection E as <-; first [exact Hi | by apply inst_wf_latency | by apply inst_wf_prop]).
  unfold cvp_session_name_copy_u32 in E. destruct (_ >? _).
  - injection E as <-. apply (inst_wf_prop (λ p, p <| p_session_name := _ |>)); [|done].
    intros p (? & ? & ? & ?). repeat split; try done.
  - destruct (words_write _ _ _) as [l|] eqn:El; [|done]. injection E as <-.
    apply length_words_write in El.
    destruct Hi as [Q C [? [? [? ?]]] K]. split; [by intros []; [apply (Q true)|apply (Q false)]|done| |done].
    repeat split; try done. cbn. congruence.
Qed.

Lemma set_inst_ok {A} hs ts p (f : msm_cvp_inst → outcome (A * msm_cvp_inst)) :
  (∀ i r, f i = Done r → inst_wf i → inst_wf r.2) →
  steps (dsp_ok hs ts) (set_inst p f) (λ _, dsp_ok hs ts).
Proof.
  intros Hf. unfold set_inst. eapply steps_bind; [apply get_i_steps|]. intros i.
  apply steps_pure. intros Hi. eapply steps_bind.
  { apply (steps_of_outcome (f i) _ (λ r s, inst_wf r.2 ∧ dsp_ok hs ts s)). intros r s E Hs. split; [|done]. by eapply Hf. }
  intros r. apply steps_pure. intros Hr.
  eapply steps_bind; [apply on_core_steps, keepsM_mod_i; by intros|]. intros ?. by apply steps_ret.
Qed.

Lemma set_sysprop_ok hs ts p prop idx :
  steps (dsp_ok hs ts) (set_inst p (λ j, msm_cvp_set_sysprop_sess j prop idx)) (λ _, dsp_ok hs ts).
Proof. apply set_inst_ok. intros j r. apply sysprop_sess_wf. Qed.
Hint Resolve set_sysprop_ok : registry.

Lemma set_props_ok n : ∀ i p hs ts, steps (dsp_ok hs ts) (set_props n i p) (λ _, dsp_ok hs ts).
Proof.
  induction n as [|n IH]; intros; cbn [set_props]; [by apply steps_ret|]. regs.
Qed.
Hint Resolve set_props_ok : registry.

Lemma set_v2_props_ok hs ts p : steps (dsp_ok hs ts) (set_v2_props p) (λ _, dsp_ok hs ts).
Proof. unfold set_v2_props. regs. Qed.
Hint Resolve set_v2_props_ok : registry.

Lemma mod_prop_ok hs ts p f :
  (∀ q, prop_sized q → prop_sized (f q)) →
  steps (dsp_ok hs ts) (on_core (mod_i p (λ i, i <| i_prop ::= f |>))) (λ _, dsp_ok hs ts).
Proof. intros Hf. apply on_core_steps, keepsM_mod_i. intros i. by apply inst_wf_prop. Qed.

Lemma session_fields_ok hs ts p : steps (dsp_ok hs ts) (set_session_fields p) (λ _, dsp_ok hs ts).
Proof. unfold set_session_fields. regs. by apply mod_prop_ok. Qed.
Hint Resolve session_fields_ok : registry.

(** ** Operations of the session layer that commands use *)

Lemma core_pres {A} hs ts (m : M A) :
  pres anywhere m → steps (dsp_ok hs ts) (on_core m) (λ _, dsp_ok hs ts).
Proof. intros Hm. by apply on_core_steps, keepsM_pres. Qed.

Lemma close_ok hs ts p : steps (dsp_ok hs ts) (on_ses (msm_cvp_close p)) (λ _, dsp_ok hs ts).
Proof. apply on_ses_steps, keeps_close. Qed.
Lemma create_ok hs ts p : steps (dsp_ok hs ts) (on_ses (msm_cvp_session_create p)) (λ _, dsp_ok hs ts).
Proof. apply on_ses_steps, keeps_create. Qed.
Lemma open_ok hs ts t : steps (dsp_ok hs ts) (on_core (msm_cvp_open t)) (λ _, dsp_ok hs ts).
Proof. apply on_core_steps, keepsM_open. Qed.
Hint Resolve close_ok create_ok open_ok : registry.

Lemma read_inst_ok hs ts p : steps (dsp_ok hs ts) (on_core (get_i p)) (λ _, dsp_ok hs ts).
Proof. apply core_pres. pres_tac. Qed.
Lemma validate_ok hs ts p : steps (dsp_ok hs ts) (on_core (cvp_get_inst_validate p)) (λ _, dsp_ok hs ts).
Proof. apply core_pres. pres_tac. Qed.
Lemma put_inst_ok hs ts p : steps (dsp_ok hs ts) (on_core (cvp_put_inst p)) (λ _, dsp_ok hs ts).
Proof. apply core_pres. pres_tac. Qed.
Lemma core_ext_ok hs ts c : steps (dsp_ok hs ts) (on_core (ext c)) (λ _, dsp_ok hs ts).
Proof. apply core_pres. pres_tac. Qed.
Lemma valid_inst_ok hs ts p : steps (dsp_ok hs ts) (on_core (is_cvp_inst_valid p)) (λ _, dsp_ok hs ts).
Proof. apply core_pres. unfold is_cvp_inst_valid. pres_tac. Qed.
Lemma session_info_ok hs ts p : steps (dsp_ok hs ts) (on_core (msm_cvp_get_session_info p)) (λ _, dsp_ok hs ts).
Proof. apply core_pres, pres_session_info. Qed.
Lemma update_power_ok hs ts p : steps (dsp_ok hs ts) (on_core (msm_cvp_update_power bus_tbl p)) (λ _, dsp_ok hs ts).
Proof. apply core_pres, pres_update_power. Qed.
Lemma dsp_start_ok hs ts p : steps (dsp_ok hs ts) (on_core (msm_cvp_session_start p)) (λ _, dsp_ok hs ts).
Proof. apply core_pres, pres_session_start. Qed.
Lemma stop_ok hs ts p : steps (dsp_ok hs ts) (on_core (msm_cvp_session_stop p)) (λ _, dsp_ok hs ts).
Proof. apply core_pres, pres_session_stop. Qed.
Hint Resolve read_inst_ok validate_ok put_inst_ok core_ext_ok valid_inst_ok session_info_ok
  update_power_ok dsp_start_ok stop_ok : registry.

(** ** Handlers *)

Lemma quiet_dinst_mod p f : quiet (dinst_mod p f).
Proof. unfold dinst_mod. quiet_tac. Qed.
Hint Resolve quiet_dinst_mod : quiet.

Lemma fail_session_info_ok cmd hs ts n p t :
  steps (dsp_ok (hold n hs) ts) (fail_get_session_info cmd n p t) (λ _, dsp_ok hs ts).
Proof. unfold fail_get_session_info. regs. Qed.
Hint Resolve fail_session_info_ok : registry.

Lemma create_session_ok cmd v hs ts n t :
  steps (dsp_ok (hold n hs) ts) (create_session cmd v n t) (λ _, dsp_ok hs ts).
Proof. unfold create_session. regs. Qed.
Hint Resolve create_session_ok : registry.

Lemma sess_create_ok cmd hs ts : steps (dsp_ok hs ts) (__dsp_cvp_sess_create cmd) (λ _, dsp_ok hs ts).
Proof. unfold __dsp_cvp_sess_create. cbv zeta. regs. Qed.

Lemma sess_delete_ok cmd hs ts : steps (dsp_ok hs ts) (__dsp_cvp_sess_delete cmd) (λ _, dsp_ok hs ts).
Proof. unfold __dsp_cvp_sess_delete. cbv zeta. regs. Qed.

Lemma set_configs_ok cmd hs ts : steps (dsp_ok hs ts) (__dsp_cvp_set_session_configs cmd) (λ _, dsp_ok hs ts).
Proof. unfold __dsp_cvp_set_session_configs. cbv zeta. regs. Qed.

Lemma power_fields_ok hs ts p w :
  steps (dsp_ok hs ts) (on_core (mod_i p (λ i, i <| i_prop ::= set_power_req w |>))) (λ _, dsp_ok hs ts).
Proof.
  apply mod_prop_ok. intros q (? & ? & ? & ?). unfold set_power_req, prop_sized. cbn.
  by rewrite !length_insert.
Qed.
Hint Resolve power_fields_ok : registry.

Lemma power_req_ok cmd hs ts : steps (dsp_ok hs ts) (__dsp_cvp_power_req bus_tbl cmd) (λ _, dsp_ok hs ts).
Proof. unfold __dsp_cvp_power_req. cbv zeta. regs. Qed.

Lemma quiet_map_dma_buf b n d : quiet (map_dma_buf_dsp b n d).
Proof. unfold map_dma_buf_dsp. cbv zeta. quiet_tac. Qed.
Hint Resolve quiet_map_dma_buf : quiet.

Lemma quiet_map_buf p b : quiet (msm_cvp_map_buf_dsp p b).
Proof. unfold msm_cvp_map_buf_dsp, __is_buf_valid. cbv zeta. quiet_tac. Qed.
Hint Resolve quiet_map_buf : quiet.

Lemma unmap_buf_ok hs ts p b : steps (dsp_ok hs ts) (msm_cvp_unmap_buf_dsp p b) (λ _, dsp_ok hs ts).
Proof. unfold msm_cvp_unmap_buf_dsp. cbv zeta. regs. Qed.
Hint Resolve unmap_buf_ok : registry.

Lemma register_buffer_ok hs ts p b : steps (dsp_ok hs ts) (register_dsp_buffer p b) (λ _, dsp_ok hs ts).
Proof. unfold register_dsp_buffer. regs. Qed.
Lemma unregister_buffer_ok hs ts p b : steps (dsp_ok hs ts) (unregister_dsp_buffer p b) (λ _, dsp_ok hs ts).
Proof. unfold unregister_dsp_buffer. regs. Qed.
Hint Resolve register_buffer_ok unregister_buffer_ok : registry.

Lemma quiet_cmd_buffer : quiet cmd_buffer.
Proof. unfold cmd_buffer. quiet_tac. Qed.
Lemma quiet_charge n k z : quiet (charge n k z).
Proof. unfold charge. quiet_tac. Qed.
Hint Resolve quiet_cmd_buffer quiet_charge : quiet.

Lemma buf_register_ok cmd hs ts : steps (dsp_ok hs ts) (__dsp_cvp_buf_register cmd) (λ _, dsp_ok hs ts).
Proof. unfold __dsp_cvp_buf_register. cbv zeta. regs. Qed.

Lemma buf_deregister_ok cmd hs ts : steps (dsp_ok hs ts) (__dsp_cvp_buf_deregister cmd) (λ _, dsp_ok hs ts).
Proof. unfold __dsp_cvp_buf_deregister. cbv zeta. regs. Qed.

Lemma mem_alloc_ok cmd hs ts : steps (dsp_ok hs ts) (__dsp_cvp_mem_alloc cmd) (λ _, dsp_ok hs ts).
Proof. unfold __dsp_cvp_mem_alloc. cbv zeta. regs. Qed.

Lemma quiet_free_buffer n d i f l : ∀ kept, quiet (free_buffer n d i f kept l).
Proof. induction l; intros; cbn [free_buffer]; quiet_tac. Qed.
Hint Resolve quiet_free_buffer : quiet.

Lemma mem_free_ok cmd hs ts : steps (dsp_ok hs ts) (__dsp_cvp_mem_free cmd) (λ _, dsp_ok hs ts).
Proof. unfold __dsp_cvp_mem_free. cbv zeta. regs. Qed.

Lemma valid_cmd_inst_ok hs ts : steps (dsp_ok hs ts) valid_cmd_inst (λ _, dsp_ok hs ts).
Proof. unfold valid_cmd_inst. regs. Qed.
Hint Resolve valid_cmd_inst_ok : registry.

Lemma sess_start_ok cmd hs ts : steps (dsp_ok hs ts) (__dsp_cvp_sess_start cmd) (λ _, dsp_ok hs ts).
Proof. unfold __dsp_cvp_sess_start. cbv zeta. regs. Qed.

Lemma sess_stop_ok cmd hs ts : steps (dsp_ok hs ts) (__dsp_cvp_sess_stop cmd) (λ _, dsp_ok hs ts).
Proof. unfold __dsp_cvp_sess_stop. cbv zeta. regs. Qed.

Lemma session_name_ok cmd hs ts : steps (dsp_ok hs ts) (__dsp_cvp_set_session_name cmd) (λ _, dsp_ok hs ts).
Proof.
  unfold __dsp_cvp_set_session_name. cbv zeta. eapply steps_bind; [apply valid_cmd_inst_ok|]. intros p.
  apply steps_if; intros _; [by apply steps_ret|].
  eapply steps_bind; [apply steps_ok; quiet_tac|]. intros a. eapply steps_bind.
  { apply (steps_of_outcome _ _ (λ name s, length name = 64%nat ∧ dsp_ok hs ts s)). intros name s E Hs.
    split; [by rewrite (length_words_read _ _ _ _ E)|exact Hs]. }
  intros name. apply steps_pure. intros Hn.
  eapply steps_bind; [apply (mod_prop_ok hs ts p (λ q, q <| p_session_name := name |>))|intros ?; by apply steps_ret].
  intros q (? & ? & ? & ?). by repeat split.
Qed.

Lemma pd_init_ok cmd hs ts : steps (dsp_ok hs ts) (__dsp_cvp_pd_init cmd) (λ _, dsp_ok hs ts).
Proof. unfold __dsp_cvp_pd_init. cbv zeta. regs. Qed.

Hint Resolve sess_create_ok sess_delete_ok set_configs_ok power_req_ok buf_register_ok buf_deregister_ok
  mem_alloc_ok mem_free_ok sess_start_ok sess_stop_ok session_name_ok pd_init_ok : registry.

Lemma dispatch_ok cmd hs ts : steps (dsp_ok hs ts) (dsp_dispatch bus_tbl cmd) (λ _, dsp_ok hs ts).
Proof. unfold dsp_dispatch. cbv zeta. regs. Qed.
Hint Resolve dispatch_ok : registry.

Lemma serve_ok hs ts b : steps (dsp_ok hs ts) (serve bus_tbl b) (λ _, dsp_ok hs ts).
Proof. unfold serve, clear_pending. cbv zeta. regs. Qed.
Hint Resolve serve_ok : registry.

Lemma thread_round_ok hs ts b : steps (dsp_ok hs ts) (cvp_dsp_thread_round bus_tbl b) (λ _, dsp_ok hs ts).
Proof. unfold cvp_dsp_thread_round. regs. Qed.

End operations.
