(* ===== verification/DspRuns.v ===== *)
(** Runs of the driver with the DSP: messages of the DSP, rounds of its thread, the channel
    and the processes that come and go, the driver's own requests and its clients, in any
    order (Dsp.v and DspCmd.v; the rules are those of DspSafe.v). *)

From S2P Require Import Prelude Store Partial HfiQueue HfiTypes HfiPacket HfiDefs Driver Evolve Instance.
From S2P Require Import HfiSession Response Session Machine Power Smem Buffers UserMem Wncc Fences Commands.
From S2P Require Import Scenario SessionBuffers WnccSafe Ioctl IoctlSafe Sysprop Control Life LifeSafe.
From S2P Require Import Dsp DspCmd DspRegistry DspSafe.
Open Scope Z_scope.

(** * Runs *)
Section runs.
Context `{Env} `{!InstLaws} `{LifeEnv} `{SysEnv} `{FenceEnv} `{BufEnv} `{RbTree} `{UserMem} `{DspEnv} `{!DspLaws}.
Context (bus_tbl : list (String.string * Z)).

Inductive dsp_op :=
| Message (m : rpmsg)
| Thread_round (interrupted : bool)
| Channel_probe
| Channel_remove
| Process_probe (handle device : Z)
| Process_gone (handle : Z)
| Process_unmap (handle : Z) (buf : cvp_internal_buf)
| Suspend_dsp (force : bool)
| Resume_dsp
| Shutdown_dsp
| Send_queue
| Send_mask
| Client (op : client_op).

Definition run_dsp (op : dsp_op) : D unit :=
  match op with
  | Message m => cvp_dsp_rpmsg_callback m
  | Thread_round b => _ ← cvp_dsp_thread_round bus_tbl b; mret tt
  | Channel_probe => _ ← cvp_dsp_rpmsg_probe; mret tt
  | Channel_remove => cvp_dsp_rpmsg_remove
  | Process_probe handle device => cvp_fastrpc_probe handle device
  | Process_gone handle => _ ← cvp_fastrpc_callback handle; mret tt
  | Process_unmap handle buf => _ ← cvp_dsp_fastrpc_unmap handle buf; mret tt
  | Suspend_dsp force => _ ← cvp_dsp_suspend force; mret tt
  | Resume_dsp => _ ← cvp_dsp_resume; mret tt
  | Shutdown_dsp => _ ← cvp_dsp_shutdown; mret tt
  | Send_queue => cvp_dsp_send_hfi_queue
  | Send_mask => cvp_dsp_send_debug_mask
  | Client op => on_ses (run_client bus_tbl op)
  end.

(** The driver without clients and without the DSP's processes, as the interface is set up. *)
Definition set_up (s : dsp) : Prop :=
  ∃ s0 rc, c_instances (w_core (z_world (d_ses s0))) = [] ∧ d_trace s0 = []
           ∧ cvp_dsp_device_init s0 = Done (rc, s).

(** An operation of the DSP's side, or a step of the driver below it. *)
Inductive dsp_step : dsp → dsp → Prop :=
| dsp_does op s s' :
    (∀ c, op = Client c → op_allowed c) → run_dsp op s = Done (tt, s') → dsp_step s s'
| driver_does s w :
    driver_step (z_world (d_ses s)) w → dsp_step s (s <| d_ses ::= λ z, z <| z_world := w |> |>).

Lemma set_up_ok s : set_up s → dsp_ok [] [] s.
Proof.
  intros (s0 & rc & Hnone & Ht & E). apply (device_init_ok s0 rc); [|done]. split; [done|].
  split; unfold inst_at, addresses; rewrite Hnone; [done|constructor|by apply not_elem_of_nil|cbn; lia].
Qed.

Lemma ignore_result {A} P (m : D A) :
  steps P m (λ _, P) → steps P (m ≫= λ _, mret tt) (λ _, P).
Proof. intros Hm. eapply steps_bind; [exact Hm|]. intros ?. by apply steps_ret. Qed.

Lemma run_dsp_ok op :
  (∀ c, op = Client c → op_allowed c) → steps (dsp_ok [] []) (run_dsp op) (λ _, dsp_ok [] []).
Proof.
  intros Hop. destruct op; cbn [run_dsp]; try apply send_mask_ok; try apply ignore_result.
  - apply steps_ok, quiet_callback.
  - apply thread_round_ok.
  - apply steps_ok, quiet_rpmsg_probe.
  - apply rpmsg_remove_ok.
  - apply probe_ok.
  - unfold cvp_fastrpc_callback. eapply steps_bind; [apply unregister_ok|]. intros ?. by apply steps_ret.
  - apply fastrpc_unmap_ok.
  - apply suspend_ok.
  - by apply steps_ret.
  - apply steps_ok, quiet_shutdown.
  - apply send_hfi_queue_ok.
  - apply on_ses_steps, keeps_client. by apply Hop.
Qed.

Lemma runs_ok s s' : rtc dsp_step s s' → dsp_ok [] [] s → dsp_ok [] [] s'.
Proof.
  induction 1 as [|s1 s2 s3 Hstep _ IH]; [done|]. intros Hs. apply IH. clear IH.
  destruct Hstep as [op s s' Hop E|s w Hd]; [by eapply run_dsp_ok|].
  eapply same_ok; [|exact Hs]. split; try done. intros Hw.
  eapply world_wf_advances; [by apply driver_step_advances|done].
Qed.

Definition name_of (s : dsp) (p : Z) : nat := match key s p with Some (_, _, i) => i | None => O end.

(** Every process in the list has a name of its own. *)
Lemma few_processes s : dsp_ok [] [] s → (length (listed s) <= MAX_FASTRPC_DRIVER_NUM)%nat.
Proof.
  intros Hs. rewrite <- (length_fmap (name_of s)).
  rewrite <- (length_seq MAX_FASTRPC_DRIVER_NUM 0). apply submseteq_length, NoDup_submseteq.
  - apply NoDup_fmap_2_strong.
    + intros p q Hp Hq. unfold name_of.
      destruct (dk_name _ _ _ Hs p) as (h & r & i & Hk & _); [by rewrite app_nil_r|].
      destruct (dk_name _ _ _ Hs q) as (h' & r' & i' & Hk' & _); [by rewrite app_nil_r|].
      rewrite Hk, Hk'. intros ->. eapply (dk_names _ _ _ Hs); rewrite ?app_nil_r; eauto.
    + pose proof (dk_nodup _ _ _ Hs) as Hn. by rewrite app_nil_r in Hn.
  - intros j (p & -> & Hp)%list_elem_of_fmap. unfold name_of.
    destruct (dk_name _ _ _ Hs p) as (h & r & i & Hk & Hn); [by rewrite app_nil_r|]. rewrite Hk.
    apply lookup_lt_Some in Hn. rewrite (proj1 (dk_sizes _ _ _ Hs)) in Hn. apply elem_of_seq. lia.
Qed.

(** C22. Whatever the DSP sends, whichever call fails, and however processes, the channel and
    clients come and go: the registered processes are at different addresses and at most eight;
    none of them is referenced between operations, so every reference an operation took was given
    back on each of its paths; each has a driver name of its own that is marked used, and no
    other one has its handle. *)
Theorem registry_stays_consistent s s' :
  set_up s → rtc dsp_step s s' →
  NoDup (listed s') ∧ 0 ∉ listed s' ∧ (length (listed s') <= MAX_FASTRPC_DRIVER_NUM)%nat
  ∧ ∀ p, p ∈ listed s' → ∃ e, obj_find p (d_nodes s') = Some e ∧ fe_refcount e = 0
      ∧ names s' !! fe_driver_name_idx e = Some DRIVER_NAME_USED
      ∧ ∀ q e', q ∈ listed s' → obj_find q (d_nodes s') = Some e' →
          fe_handle e' = fe_handle e ∨ fe_driver_name_idx e' = fe_driver_name_idx e → q = p.
Proof.
  intros Hset Hrun. assert (Hs : dsp_ok [] [] s') by by eapply runs_ok; [|apply set_up_ok].
  pose proof (few_processes s' Hs) as Hfew.
  destruct Hs as [D1 D2 D3 D4 D5 D6 _ _ _ _]. rewrite app_nil_r in *.
  split; [done|]. split; [done|]. split; [done|]. intros p Hp.
  destruct (D3 p Hp) as (h & i & Hk). destruct (D4 p Hp) as (h' & r' & i' & Hk' & Hn).
  rewrite Hk in Hk'. injection Hk' as <- <- <-. pose proof Hk as Hk2. unfold key in Hk2.
  destruct (obj_find p (d_nodes s')) as [e|] eqn:He; [|done]. injection Hk2 as E1 E2 E3.
  exists e. subst h i. split; [done|]. split; [done|]. split; [done|].
  intros q e' Hq He' [Eh|Ei].
  - eapply D6; [done..| |exact Hk]. unfold key. rewrite He'. cbn. by rewrite Eh.
  - eapply D5; [done..| |exact Hk]. unfold key. rewrite He'. cbn. by rewrite Ei.
Qed.

(** C23. The queue memory is lent to the DSP at most once at a time, and what is taken back is
    what was lent: over every run the calls of the hypervisor, in their order, add up to exactly
    the region that the driver has on record as lent, and to none when it has none. *)
Theorem memory_is_lent_once s s' :
  set_up s → rtc dsp_step s s' → lending 0 None (d_trace s') = Some (region (d_apps s')).
Proof. intros Hset Hrun. apply (dk_lent [] []). by eapply runs_ok; [|apply set_up_ok]. Qed.

(** C24. Sessions that the DSP opens count like those of clients: over every run there are never
    more sessions than the platform supports, at different addresses, each with bounded message
    queues, sized property arrays and a positive reference count. *)
Theorem dsp_sessions_stay_well_formed s s' :
  set_up s → rtc dsp_step s s' →
  NoDup (addresses (z_world (d_ses s'))) ∧ 0 ∉ addresses (z_world (d_ses s'))
  ∧ Z.of_nat (length (addresses (z_world (d_ses s')))) <= Z.max 0 max_supported_inst_count
  ∧ ∀ p i, inst_at p (z_world (d_ses s')) = Some i → inst_wf i.
Proof.
  intros Hset Hrun. assert (Hs : dsp_ok [] [] s') by by eapply runs_ok; [|apply set_up_ok].
  by destruct (dk_world _ _ _ Hs) as [Hi Hu Hn Hb].
Qed.

End runs.

(** * A process of the DSP and its session, from beginning to end *)
Module DspScenario.

#[local] Existing Instances LifeScenario.driver LifeScenario.sys LifeScenario.platform
  LifeScenario.fences BufferScenario.env BufferScenario.tree WnccScenario.mem.

(** The address space of the kernel is above 4 GB. *)
Definition high (live : list Z) : Z := 2 ^ 32 + LifeScenario.fresh live.

#[local] Instance kernel : Env :=
  env_of (λ n c, match c with
                 | Kzalloc live => high live
                 | Kthread_run => 1
                 | _ => small_answer no_call n c
                 end) LifeScenario.eager 1.

Lemma high_ok live : high live ∉ live.
Proof. apply LifeScenario.above_all. unfold high, LifeScenario.fresh. lia. Qed.

#[local] Instance kernel_laws : InstLaws.
Proof. intros n live. apply high_ok. Qed.

(** An answer of the DSP to a command: it succeeds. *)
Definition reply (type : Z) : rpmsg := mkRpmsg [type; 0; 0; 0; 0; 0; 0] (4 * rsp_words).

(** FastRPC finds the processes 77 and 78 at the devices 500 and 501. *)
Definition outside (n : nat) (c : dcall) : Z :=
  match c with
  | Kzalloc_node live => high live
  | Edge_is_cdsp | Run_dsp_thread | Kzalloc_kmd | Dsp_zalloc_buf => 1
  | Fastrpc_hlos_pid device => device - 423
  | Find_get_pid pid => pid + 1000
  | Get_pid_task pid => pid + 1000
  | _ => 0
  end.

#[local] Instance dsp_side : DspEnv :=
  {| d_answer := outside;
     rpmsg_arrivals _ := reply <$> [CPU2DSP_SEND_HFI_QUEUE; CPU2DSP_SUSPEND; CPU2DSP_SHUTDOWN];
     probe_arrivals _ := [(77, 500); (78, 501)];
     stack_cmd _ := zero_cmd |}.

#[local] Instance dsp_laws : DspLaws.
Proof. intros n live. apply high_ok. Qed.

(** A command in the old format, with these words set. *)
Definition command (type : Z) (words : list (Z * Z)) : dsp_op :=
  Message (mkRpmsg (foldr (λ w l, <[Z.to_nat w.1 := w.2]> l) (replicate (Z.to_nat cmd_words) 0)
                     ((0, type) :: (2, cmd_words) :: words)) (4 * cmd_words)).

Definition queue : cvp_iface_q_info :=
  mkQinfo false true 0x2000 0 (mkShared (mkQhdr 0 0 0 0 0 0 0 0 0 0 0 0 0 0) []).

Definition off : dsp :=
  mkDsp LifeScenario.boot start_apps [] ∅ 0
    (mkDq true 0x1000 0x8000 (mkQtbl 0 0 0 0 0 0) [queue; queue; queue]) 0 [].

Definition booted : dsp := match cvp_dsp_device_init off with Done (_, s) => s | Fault => off end.

Fixpoint run_ops (ops : list dsp_op) (s : dsp) : outcome dsp :=
  match ops with
  | [] => Done s
  | op :: ops' => let! r := run_dsp [] op s in run_ops ops' r.2
  end.

(** A command, and the round of the thread that serves it. *)
Definition served (type : Z) (words : list (Z * Z)) : list dsp_op :=
  [command type words; Thread_round false].

Definition session : list (Z * Z) :=
  [(at_pid, 77); (at_session_cpu_high, 1); (at_session_cpu_low, 1)].

Definition connect : list dsp_op := [Channel_probe; Thread_round false].
Definition announce : list dsp_op := served DSP2CPU_PD_INIT [(at_pid, 77)].
Definition create : list dsp_op := served DSP2CPU_CREATE_SESSION [(at_pid, 77)].

(** The three fence threads of the session end once its queue is stopped. *)
Definition finish : list dsp_op :=
  served DSP2CPU_START_SESSION session ++ served DSP2CPU_STOP_SESSION session
  ++ replicate 3 (Client (Fence_round (2 ^ 32 + 1))) ++ served DSP2CPU_DETELE_SESSION session.

Lemma booted_set_up : set_up booted.
Proof. exists off, 0. split; [reflexivity|]. split; [reflexivity|]. by vm_compute. Qed.

Lemma run_ops_rtc ops : ∀ s s',
  Forall (λ op, ∀ c, op = Client c → op_allowed c) ops →
  run_ops ops s = Done s' → rtc (dsp_step []) s s'.
Proof.
  induction ops as [|op ops IH]; intros s s' Hops; cbn [run_ops]; [by intros [= <-]|].
  apply Forall_cons_1 in Hops as [Hop Hops].
  destruct (run_dsp [] op s) as [[[] s1]|] eqn:E; cbn [obind]; [|done]. intros Hr.
  eapply rtc_l; [by eapply dsp_does|by apply IH].
Qed.

Definition in_use : dsp :=
  match run_ops (connect ++ announce ++ create) booted with Done s => s | Fault => off end.

Lemma in_use_reached : rtc (dsp_step []) booted in_use.
Proof.
  apply (run_ops_rtc (connect ++ announce ++ create)); [|by vm_compute].
  cbn [app connect announce create served].
  repeat (apply Forall_cons_2; [by intros|]). apply Forall_nil_2.
Qed.

Definition count (f : dcall → bool) (s : dsp) : nat := length (filter f (d_trace s)).

(** The session deleted, its process has none and the driver neither; but the references on
    the task, of the announcement and of the session, were not given back. *)
Example task_is_kept :
  match run_ops (connect ++ announce ++ create ++ finish) booted with
  | Done s => bool_decide (addresses (z_world (d_ses s)) = []
      ∧ fe_dsp_sessions <$> (d_nodes s).*2 = [[]]
      ∧ count (λ c, match c with Get_pid_task _ => true | _ => false end) s = 2%nat
      ∧ count (λ c, match c with Put_task_struct _ => true | _ => false end) s = 0%nat)
  | Fault => false
  end = true.
Proof. vm_compute. reflexivity. Qed.

Lemma registry_stays_consistent_witness :
  listed in_use = [2 ^ 32 + 1] ∧ (length (listed in_use) <= MAX_FASTRPC_DRIVER_NUM)%nat.
Proof.
  split; [by vm_compute|].
  exact (proj1 (proj2 (proj2 (registry_stays_consistent [] booted in_use booted_set_up in_use_reached)))).
Defined.

Lemma memory_is_lent_once_witness :
  lending 0 None (d_trace in_use) = Some (Some (0x1000, 0x8000)).
Proof. exact (memory_is_lent_once [] booted in_use booted_set_up in_use_reached). Defined.

Lemma dsp_sessions_stay_well_formed_witness :
  addresses (z_world (d_ses in_use)) = [2 ^ 32 + 1] ∧ NoDup (addresses (z_world (d_ses in_use))).
Proof.
  split; [by vm_compute|].
  exact (proj1 (dsp_sessions_stay_well_formed [] booted in_use booted_set_up in_use_reached)).
Defined.

End DspScenario.
