(* ===== verification/DspMessages.v ===== *)
(** Messages between the driver and the DSP: which reply a command gets, and what a command
    of the DSP in an unknown format does (the callback and the synchronous send of Dsp.v). *)

From S2P Require Import Prelude HfiQueue HfiTypes HfiPacket HfiDefs Driver Evolve Instance HfiSession Response Session Scenario Power Machine Store Smem Buffers SessionBuffers UserMem Wncc WnccSafe Fences Commands Ioctl IoctlSafe Sysprop Control Life LifeSafe Partial Dsp DspCmd DspRegistry DspSafe DspRuns.
Open Scope Z_scope.

Section messages.
Context `{Env} `{FenceEnv} `{BufEnv} `{RbTree} `{UserMem} `{LifeEnv} `{DspEnv}.

Abbreviation total := Store.total.

(** The channel delivers at least one word, and as many bytes as it says. *)
Definition delivered (m : rpmsg) : Prop := 4 <= rp_len m <= 4 * Z.of_nat (length (rp_data m)).

Definition word0 (m : rpmsg) : Z := rp_data m !!! 0%nat.

(** The answer a message is to a command of this type. *)
Definition reply_to (type : Z) (m : rpmsg) : option cvp_dsp_rsp_msg :=
  if (word0 m =? type) && (rp_len m =? 4 * rsp_words)
  then Some (mkRsp type (s32 (rp_data m !!! 1%nat)) (rp_data m !!! 2%nat))
  else None.

Definition replies (type : Z) (l : list rpmsg) : list cvp_dsp_rsp_msg := omap (reply_to type) l.

(** * A command of the driver and its reply *)

Record awaiting (type : Z) (r : cvp_dsp_rsp_msg) (k : nat) (s : dsp) : Prop := mkAwait {
  aw_type : 0 <= type < CPU2DSP_MAX_CMD;
  aw_rsp : a_pending_dsp2cpu_rsp (d_apps s) = r;
  aw_rtype : rs_type r = type;
  aw_done : a_completions (d_apps s) !! Z.to_nat type = Some k
}.

Lemma total_apps (P : dsp → Prop) (Q : cvp_dsp_apps → dsp → Prop) : (∀ s, P s → Q (d_apps s) s) → total P apps Q.
Proof. apply total_gets. Qed.

(** What a message does to neither of them. *)
Lemma await_mod type r k f :
  (∀ a, a_pending_dsp2cpu_rsp (f a) = a_pending_dsp2cpu_rsp a ∧ a_completions (f a) = a_completions a) →
  total (awaiting type r k) (mod_apps f) (λ _, awaiting type r k).
Proof.
  intros Hf. apply total_modify. intros s [H1' H2' H3' H4']. destruct (Hf (d_apps s)) as [E1 E2].
  split; [done| |done|]; cbn; [by rewrite E1|by rewrite E2].
Qed.

Lemma await_wake type r k :
  total (awaiting type r k) (complete_cmd CPU2DSP_MAX_CMD) (λ _, awaiting type r k).
Proof.
  apply total_modify. intros s [Ht Hr Hrt Hk]. split; [done..|]. cbn.
  rewrite list_lookup_alter_ne; [done|]. unfold CPU2DSP_MAX_CMD in *. lia.
Qed.

Lemma header_done m : delivered m → 4 * header_words <= rp_len m →
  ∃ h, header_of (rp_data m) = Done h.
Proof.
  unfold delivered, header_words, header_of. intros Hd Hl. unfold header_words.
  rewrite words_read_ok by lia. cbn [obind]. eauto.
Qed.

Lemma await_receive type r k m :
  delivered m → total (awaiting type r k) (receive_cmd m) (λ _, awaiting type r k).
Proof.
  intros Hd. eapply total_bind; [by apply (total_apps _ (λ _, awaiting type r k))|]. intros a.
  apply total_if; intros Hl; [by apply total_ret|]. zify_bool.
  apply total_if; intros _; [by apply total_ret|].
  destruct (header_done m Hd) as [h Eh]; [lia|].
  eapply total_bind; [by apply (total_of_outcome _ h _ (λ _, awaiting type r k))|]. intros hdr.
  eapply total_bind; [by apply await_mod|]. intros [].
  apply total_if; intros H1'; zify_bool; [|apply total_if; intros H2'; zify_bool; [|by apply total_ret]].
  all: eapply total_bind; [eapply (total_of_outcome _ _ _ (λ _, awaiting type r k));
    [apply words_read_ok; unfold delivered, cmd_words, cmd_v2_words in *; lia|done]|].
  all: intros l; (eapply total_bind; [by apply await_mod|]); intros []; apply await_wake.
Qed.

(** A reply to the command replaces the answer and is counted; any other message does not. *)
Lemma await_callback type r k m :
  delivered m →
  total (awaiting type r k) (cvp_dsp_rpmsg_callback m)
    (λ _, awaiting type (default r (reply_to type m))
            (k + match reply_to type m with Some _ => 1 | None => 0 end)).
Proof.
  intros Hd. pose proof Hd as [Hl1 Hl2]. unfold cvp_dsp_rpmsg_callback, reply_to.
  eapply total_bind.
  { apply (total_of_outcome _ (word0 m) _ (λ w s, w = word0 m ∧ awaiting type r k s)); [|done].
    apply word_at_ok. lia. }
  intros w. apply total_pure. intros ->.
  eapply total_bind.
  { apply (total_apps _ (λ a s, (rs_type (a_pending_dsp2cpu_rsp a) = type ∧ type < CPU2DSP_MAX_CMD) ∧ awaiting type r k s)).
    intros s Hs. split; [|done]. destruct Hs as [[_ ?] -> ? _]. done. }
  intros a. apply total_pure. intros [Ha Ht]. rewrite Ha.
  apply total_if; intros Hs.
  - apply andb_true_iff in Hs as [_ Hlen]. rewrite Hlen, andb_true_r, (Z.eqb_sym type). zify_bool.
    apply total_if; intros E; rewrite E; [|cbn [default]; rewrite Nat.add_0_r; by apply total_ret].
    zify_bool. cbn [default]. unfold rsp_of, rsp_words in *.
    eapply total_bind.
    { eapply (total_of_outcome _ _ _ (λ v s, v = mkRsp type (s32 (rp_data m !!! 1%nat)) (rp_data m !!! 2%nat) ∧ awaiting type r k s));
        [rewrite words_read_ok by lia; reflexivity|].
      intros s Hw. split; [|done]. f_equal; [|f_equal|]; (rewrite lookup_total_take by lia); cbn [Z.to_nat];
        rewrite lookup_total_drop; [by rewrite <- E|done|done]. }
    intros v. apply total_pure. intros ->. unfold mod_apps, complete_cmd, mod_apps.
    set (v := mkRsp type (s32 (rp_data m !!! 1%nat)) (rp_data m !!! 2%nat)).
    eapply total_bind; [apply (total_modify _ _ (λ _, awaiting type v k)); intros s [T1 T2 T3 T4]; by split|].
    intros []. apply total_modify. intros s [T1 T2 T3 T4]. split; [done..|]. cbn.
    rewrite E, list_lookup_alter_eq, T4. cbn. by rewrite Nat.add_1_r.
  - replace ((word0 m =? type) && (rp_len m =? 4 * rsp_words)) with false.
    { cbn [default]. rewrite Nat.add_0_r. apply total_if; intros _; [by apply await_receive|by apply total_ret]. }
    symmetry. apply andb_false_iff in Hs as [Hs|Hs]; [|by rewrite Hs, andb_false_r].
    zify_bool. by rewrite (proj2 (Z.eqb_neq _ _)) by lia.
Qed.


Lemma replies_cons type m l :
  replies type (m :: l) = match reply_to type m with Some r => r :: replies type l | None => replies type l end.
Proof. unfold replies. cbn. by destruct (reply_to type m). Qed.

Lemma await_callbacks type l : Forall delivered l → ∀ r k,
  total (awaiting type r k) (each l cvp_dsp_rpmsg_callback)
    (λ _, awaiting type (default r (list.last (replies type l))) (k + length (replies type l))).
Proof.
  induction 1 as [|m l Hm _ IH]; intros r k; cbn [each].
  { apply total_ret. intros s. cbn. by rewrite Nat.add_0_r. }
  eapply total_bind; [by apply await_callback|]. intros []. eapply total_post; [apply IH|].
  intros [] s. rewrite replies_cons. destruct (reply_to type m) as [v|]; cbn [default].
  - cbn [length]. replace (k + 1 + length (replies type l))%nat with (k + Datatypes.S (length (replies type l)))%nat by lia.
    destruct (replies type l) as [|x l']; [done|]. rewrite last_cons_cons. destruct (list.last (x :: l')) eqn:E; [done|].
    by apply last_None in E.
  - by rewrite Nat.add_0_r.
Qed.

Lemma await_try type r k n :
  total (λ s, length (d_trace s) = n ∧ awaiting type r k s) (try_completion type)
    (λ b s, b = negb (Nat.eqb k 0) ∧ length (d_trace s) = n ∧ awaiting type r (Nat.pred k) s).
Proof.
  intros s [Hn Hs]. unfold try_completion, apps. srun. rewrite (aw_done _ _ _ _ Hs).
  destruct k as [|k]; [by exists false, s|]. unfold mod_apps. srun.
  eexists true, _. split; [reflexivity|]. split; [done|]. split; [done|].
  destruct Hs as [T1 T2 T3 T4]. split; [done..|]. cbn. by rewrite list_lookup_alter_eq, T4.
Qed.

(** The answer on record and the completions left when the wait is over. *)
Definition awaited (k : nat) (old : cvp_dsp_rsp_msg) (l : list cvp_dsp_rsp_msg) :
    bool * cvp_dsp_rsp_msg * nat :=
  match k, list.last l with
  | Datatypes.S k', _ => (true, old, k')
  | O, None => (false, old, O)
  | O, Some r => (true, r, Nat.pred (length l))
  end.

Lemma await_wait type r k n :
  let w := awaited k r (replies type (rpmsg_arrivals n)) in
  Forall delivered (rpmsg_arrivals n) →
  total (λ s, length (d_trace s) = n ∧ awaiting type r k s) (wait_rsp type)
    (λ b s, b = w.1.1 ∧ awaiting type w.1.2 w.2 s).
Proof.
  cbv zeta. intros Hdel. unfold wait_rsp. eapply total_bind; [apply await_try|]. intros b.
  apply total_pure. intros ->. destruct k as [|k]; cbn [Nat.eqb negb]; [|by apply total_ret; intros s [_ Hs]].
  eapply total_bind.
  { apply (total_gets _ _ (λ m s, m = n ∧ awaiting type r 0 s)). by intros s [-> Hs]. }
  intros m. apply total_pure. intros ->.
  apply (total_bind _ _ (λ _, awaiting type r 0)).
  { intros s [T1 T2 T3 T4]. unfold dext. srun. eexists _, _. split; [reflexivity|]. by split. }
  intros _. eapply total_bind; [by apply await_callbacks|]. intros [].
  set (l := replies type (rpmsg_arrivals n)).
  intros s Hs. destruct (await_try type _ _ (length (d_trace s)) s (conj eq_refl Hs)) as (b & s' & E & -> & _ & Hs').
  eexists _, s'. split; [exact E|]. cbn [awaited]. destruct (list.last l) as [v|] eqn:El.
  - split; [|done]. by destruct l.
  - apply last_None in El. rewrite El in *. done.
Qed.

(** A synchronous command, when the channel takes it: if a completion of its type is left
    over from before, the command is answered at once with the reply on record, whatever the DSP
    will say; otherwise its answer is the last of the replies of its type that arrive while it
    waits, or a timeout when there is none.  All replies but one leave a completion over. *)
Theorem sync_command_answer cmd s k :
  let type := cm_type cmd in
  let old := (a_pending_dsp2cpu_rsp (d_apps s)) <| rs_type := type |> in
  let arrived := replies type (rpmsg_arrivals (Datatypes.S (length (d_trace s)))) in
  a_chan (d_apps s) = true → 0 <= type < CPU2DSP_MAX_CMD →
  d_answer (length (d_trace s)) (Rpmsg_send cmd) = 0 →
  a_completions (d_apps s) !! Z.to_nat type = Some k →
  Forall delivered (rpmsg_arrivals (Datatypes.S (length (d_trace s)))) →
  ∃ s', cvp_dsp_send_cmd_sync cmd s =
        Done (match k, list.last arrived with
              | Datatypes.S _, _ => (0, old)
              | O, Some r => (0, r)
              | O, None => (- ETIMEDOUT, old)
              end, s')
      ∧ a_completions (d_apps s') !! Z.to_nat type
        = Some (Nat.pred (match k with Datatypes.S _ => k | O => length arrived end))
      ∧ rs_type (a_pending_dsp2cpu_rsp (d_apps s')) = CVP_INVALID_RPMSG_TYPE.
Proof.
  cbv zeta. set (type := cm_type cmd). intros Hchan Htype Hsend Hk Hdel.
  set (old := _ <| rs_type := type |>).
  unfold cvp_dsp_send_cmd_sync, cvp_dsp_send_cmd, dext, mod_apps, apps. srun.
  match goal with |- context [a_chan ?a] => change (a_chan a) with (a_chan (d_apps s)) end.
  rewrite Hchan. cbn [negb]. srun.
  match goal with |- context [d_answer ?n _] => change n with (length (d_trace s)) end. rewrite Hsend. cbn [Z.eqb negb]. srun.
  match goal with |- context [wait_rsp _ ?x] => set (s1 := x) end.
  destruct (await_wait type old k (Datatypes.S (length (d_trace s))) Hdel s1) as (b & s2 & E & -> & Hs2).
  { split; [cbn; rewrite length_app; cbn; lia|]. by split. }
  rewrite (E : wait_rsp (cm_type cmd) s1 = _). srun. destruct Hs2 as [T1 T2 T3 T4]. rewrite T2. clear E.
  set (l := replies type _) in *. eexists. split; [|split].
  - apply (f_equal Done), (f_equal2 pair); [|reflexivity]. by destruct k; cbn; [destruct (list.last l)|].
  - cbn. rewrite T4. f_equal. destruct k; [|done]. cbn. destruct (list.last l) eqn:El; [done|].
    by apply last_None in El as ->.
  - done.
Qed.

(** * Commands of the DSP *)

Definition is_command (m : rpmsg) : Prop := rp_len m = 4 * cmd_words ∨ rp_len m = 4 * cmd_v2_words.

Lemma command_test m : is_command m →
  (rp_len m =? 4 * rsp_words) = false ∧ (rp_len m =? 4 * cmd_words) || (rp_len m =? 4 * cmd_v2_words) = true
  ∧ (rp_len m <? 4 * header_words) = false.
Proof. by intros [-> | ->]. Qed.

(** While a command is pending, another one is dropped. *)
Lemma pending_command_drops m s :
  delivered m → is_command m → dh_type (a_pending_dsp2cpu_cmd_header (d_apps s)) ≠ CVP_INVALID_RPMSG_TYPE →
  cvp_dsp_rpmsg_callback m s = Done (tt, s).
Proof.
  intros [Hd1 Hd2] Hc Hp. destruct (command_test m Hc) as (E1 & E2 & E3).
  unfold cvp_dsp_rpmsg_callback, receive_cmd, apps. srun.
  rewrite word_at_ok by lia. srun. rewrite E1, andb_false_r, E2, andb_true_r.
  destruct (_ <? CVP_DSP_MAX_CMD); [|done]. srun. rewrite E3.
  by rewrite (proj2 (Z.eqb_neq _ _)) by done.
Qed.

(** A command of the DSP whose version and length do not belong together is recorded as
    pending, but wakes no one and is never cleared: every later command of the DSP, however many
    and whatever they ask, is dropped without a trace. *)
Theorem unknown_format_blocks_commands m s :
  delivered m → is_command m → word0 m < CVP_DSP_MAX_CMD →
  ¬ (rp_data m !!! 1%nat = 0 ∧ rp_len m = 4 * cmd_words) →
  ¬ (rp_data m !!! 1%nat = 1 ∧ rp_len m = 4 * cmd_v2_words) →
  dh_type (a_pending_dsp2cpu_cmd_header (d_apps s)) = CVP_INVALID_RPMSG_TYPE →
  ∃ s', cvp_dsp_rpmsg_callback m s = Done (tt, s')
      ∧ a_completions (d_apps s') = a_completions (d_apps s)
      ∧ ∀ ms, Forall (λ m, delivered m ∧ is_command m) ms → each ms cvp_dsp_rpmsg_callback s' = Done (tt, s').
Proof.
  intros Hd Hc Hw Hv0 Hv1 Hp. pose proof Hd as [Hd1 Hd2]. destruct (command_test m Hc) as (E1 & E2 & E3).
  assert (Hh : header_of (rp_data m) = Done (mkDh (word0 m) (rp_data m !!! 1%nat) (rp_data m !!! 2%nat))).
  { unfold header_of, header_words. rewrite words_read_ok; [|lia..|destruct Hc as [E|E]; rewrite E in Hd2; unfold cmd_words, cmd_v2_words in Hd2; lia].
    cbn [obind]. do 2 f_equal; rewrite lookup_total_take by (cbn; lia); by rewrite lookup_total_drop. }
  exists (s <| d_apps ::= λ a, a <| a_pending_dsp2cpu_cmd_header :=
            mkDh (word0 m) (rp_data m !!! 1%nat) (rp_data m !!! 2%nat) |> |>).
  split; [|split; [done|]].
  - unfold cvp_dsp_rpmsg_callback, receive_cmd, apps. srun.
    rewrite word_at_ok by lia. srun. rewrite E1, andb_false_r, E2, andb_true_r.
    change (rp_data m !!! Z.to_nat 0) with (word0 m).
    rewrite (proj2 (Z.ltb_lt _ _) Hw). srun. rewrite E3, (proj2 (Z.eqb_eq _ _) Hp). cbn [negb].
    srun. rewrite Hh. unfold mod_apps. srun. cbn [dh_ver].
    repeat match goal with |- context [if ?b then _ else _] => destruct b eqn:?; zify_bool end; tauto || done.
  - intros ms Hms. induction Hms as [|m' ms [Hm' Hc'] _ IH]; [done|]. cbn [each]. srun.
    rewrite pending_command_drops; [by srun|done|done|]. cbn. unfold CVP_DSP_MAX_CMD in Hw.
    unfold CVP_INVALID_RPMSG_TYPE. lia.
Qed.

End messages.

(** * A DSP that answers twice *)
Module MessageScenario.

#[local] Existing Instances DspScenario.kernel LifeScenario.sys LifeScenario.platform
  LifeScenario.fences BufferScenario.env BufferScenario.tree WnccScenario.mem.

(** The second answer says that the DSP cannot suspend. *)
Definition answers : list rpmsg :=
  [DspScenario.reply CPU2DSP_SUSPEND; mkRpmsg [CPU2DSP_SUSPEND; CPU2DSP_EFAIL; 0; 0; 0; 0; 0] (4 * rsp_words)].

#[local] Instance twice : DspEnv :=
  {| d_answer := DspScenario.outside; rpmsg_arrivals _ := answers; probe_arrivals _ := [];
     stack_cmd _ := zero_cmd |}.

Definition connected : dsp := DspScenario.booted <| d_apps ::= λ a, a <| a_chan := true |> |>.
Definition suspend : cvp_dsp_cmd_msg := zero_cmd <| cm_type := CPU2DSP_SUSPEND |>.

Lemma answers_delivered : Forall delivered answers.
Proof. unfold answers. repeat (apply Forall_cons_2; [split; vm_compute; discriminate|]). apply Forall_nil_2. Qed.

(** The first answer is lost, and a completion is left. *)
Lemma sync_command_answer_witness :
  ∃ s', cvp_dsp_send_cmd_sync suspend connected = Done ((0, mkRsp CPU2DSP_SUSPEND CPU2DSP_EFAIL 0), s')
      ∧ a_completions (d_apps s') !! 1%nat = Some 1%nat.
Proof.
  destruct (sync_command_answer suspend connected 0) as (s' & E & Hc & _);
    [by vm_compute|by vm_compute|by vm_compute|by vm_compute|exact answers_delivered|].
  exists s'. split; [exact E|exact Hc].
Defined.

(** The next command gets the reply on record without waiting for its own. *)
Example stale_answer :
  match (cvp_dsp_send_cmd_sync suspend;; cvp_dsp_send_cmd_sync suspend) connected with
  | Done ((rc, rsp), s) =>
      bool_decide (rc = 0 ∧ rs_ret rsp = CPU2DSP_EFAIL)
      && match list.last (d_trace s) with Some (Rpmsg_send _) => true | _ => false end
  | Fault => false
  end = true.
Proof. vm_compute. reflexivity. Qed.

(** A session is created in the new format's length but with the old format's version. *)
Definition mixed : rpmsg :=
  mkRpmsg ([DSP2CPU_CREATE_SESSION; 0; cmd_v2_words] ++ replicate 331 0) (4 * cmd_v2_words).

Lemma unknown_format_blocks_commands_witness :
  ∃ s', cvp_dsp_rpmsg_callback mixed connected = Done (tt, s')
      ∧ cvp_dsp_rpmsg_callback mixed s' = Done (tt, s').
Proof.
  assert (Hd : delivered mixed) by (split; vm_compute; discriminate).
  assert (Hc : is_command mixed) by by right.
  destruct (unknown_format_blocks_commands mixed connected Hd Hc) as (s' & E & _ & Hdrop);
    [by vm_compute|intros [_ ?]; discriminate|intros [? _]; discriminate|by vm_compute|].
  exists s'. split; [exact E|]. specialize (Hdrop [mixed] (Forall_cons_2 _ _ _ (conj Hd Hc) (Forall_nil_2 _))).
  cbn [each] in Hdrop. rewrite St_bind_run in Hdrop.
  destruct (cvp_dsp_rpmsg_callback mixed s') as [[[] s2]|]; [|discriminate]. exact Hdrop.
Defined.

End MessageScenario.

(** The removal of all processes of the DSP (the loop of [cvp_remove_dsp_sessions], Dsp.v):
    it ends, and leaves none in the list. *)

Section removal.
Context `{Env} `{!InstLaws} `{LifeEnv} `{SysEnv} `{FenceEnv} `{BufEnv} `{RbTree} `{UserMem} `{DspEnv} `{!DspLaws}.
Context (bus_tbl : list (String.string * Z)).

(** * Operations that leave the list as it is *)

Definition same_list (s s' : dsp) : Prop := listed s' = listed s.

#[local] Instance same_list_preorder : PreOrder same_list.
Proof. unfold same_list. split; [by intros s|]. intros s1 s2 s3 E1 E2. congruence. Qed.

Abbreviation stable := (rel same_list).

Lemma stable_quiet {A} (m : D A) : rel same m → stable m.
Proof. intros Hm s a s' E. apply (sa_listed _ _ (Hm _ _ _ E)). Qed.

Lemma stable_bind {A B} (m : D A) (f : A → D B) : stable m → (∀ a, stable (f a)) → stable (m ≫= f).
Proof. apply rel_bind, _. Qed.

Lemma stable_node_mod p f : stable (node_mod p f).
Proof. by intros s a s' (e & _ & ->)%node_mod_run. Qed.

Lemma stable_when b m : stable m → stable (whenS b m).
Proof. apply rel_whenS, _. Qed.

Lemma stable_find h : stable (find_handle h).
Proof.
  intros s p s'. unfold find_handle. destruct (with_handle _ _ _); cbn [obind]; [|done]. by intros [= _ <-].
Qed.

Lemma stable_get h : stable (cvp_get_fastrpc_node_with_handle h).
Proof.
  apply stable_bind; [apply stable_find|]. intros p. apply stable_bind; [|intros ?; apply stable_quiet, quiet_ret].
  apply stable_when, stable_node_mod.
Qed.

Lemma stable_put p : stable (cvp_put_fastrpc_node p).
Proof.
  unfold cvp_put_fastrpc_node. destruct (p =? 0); [apply stable_quiet, quiet_ret|].
  apply stable_bind; [apply stable_quiet, quiet_node_get|]. intros e. apply stable_when, stable_node_mod.
Qed.

Lemma stable_del_sess h p : stable (cvp_dsp_del_sess h p).
Proof.
  apply stable_bind; [apply stable_get|]. intros n. destruct (n =? 0); [apply stable_quiet, quiet_ret|].
  apply stable_bind; [apply stable_quiet, quiet_node_get|]. intros e.
  apply stable_bind; [apply stable_when, stable_quiet, quiet_del_session|]. intros [].
  apply stable_bind; [apply stable_put|]. intros []. apply stable_quiet, quiet_ret.
Qed.

Lemma stable_on_ses {A} (m : U A) : stable (on_ses m).
Proof.
  intros s a s'. unfold on_ses. destruct (m (d_ses s)) as [[b z]|]; cbn [obind fst snd]; [|done].
  change (same_list s s') with (same_list (s <| d_ses := z |>) s').
  revert a s'. generalize (s <| d_ses := z |>).
  refine (stable_bind _ _ _ (λ _, stable_quiet _ (quiet_ret b))).
  apply rel_each; [apply _|]. intros p. apply stable_bind; [apply stable_quiet, quiet_gets|]. intros di.
  apply stable_bind; [apply stable_del_sess|]. intros ?. by apply stable_quiet, quiet_modify.
Qed.

Lemma stable_delete_session p : stable (delete_dsp_session p).
Proof.
  unfold delete_dsp_session. destruct (p =? 0); [apply stable_quiet, quiet_ret|].
  repeat (apply stable_bind; [apply stable_on_ses|intros ?]). apply stable_on_ses.
Qed.

Lemma stable_delete_sessions n : stable (delete_sessions n).
Proof.
  apply stable_bind; [apply stable_quiet, quiet_node_get|]. intros e. apply rel_each; [apply _|]. intros p.
  apply stable_bind; [apply stable_quiet, quiet_del_session|]. intros ?.
  apply stable_bind; [apply stable_delete_session|]. intros ?. apply stable_quiet, quiet_ret.
Qed.

(** What a round does after it has taken a process off the list. *)
Definition removal_round (p : Z) : D unit :=
  delete_sessions p ;;
  _ ← eva_fastrpc_remove_buffers p;
  dext (Fastrpc_unregister p) ;;
  eva_fastrpc_driver_release_name p ;;
  node_kfree p.

Lemma stable_round p : stable (removal_round p).
Proof.
  apply stable_bind; [apply stable_delete_sessions|]. intros _.
  apply stable_bind; [apply stable_quiet, quiet_fastrpc_remove|]. intros _.
  apply stable_bind; [by apply stable_quiet, quiet_dext|]. intros _.
  apply stable_bind.
  - unfold eva_fastrpc_driver_release_name. apply stable_bind; [apply stable_quiet, quiet_node_get|].
    intros e s a s'. unfold mod_apps. rewrite modify_run. by intros [= _ <-].
  - intros _ s a s'. unfold node_kfree. rewrite St_bind_run.
    destruct (node_get p s) as [[e s1]|] eqn:Eg; [|done]. apply node_get_run in Eg as [-> _].
    cbn [obind fst snd]. by intros [= _ <-].
Qed.

(** The loop, a round at a time. *)
Lemma remove_unfold n s :
  remove_dsp_sessions n s =
  let! r := pop_frpc_node s in
  if fst r =? 0 then Done (tt, snd r)
  else match n with
       | O => Fault
       | Datatypes.S n' => let! r' := removal_round (fst r) (snd r) in remove_dsp_sessions n' (snd r')
       end.
Proof.
  destruct n as [|n]; cbn [remove_dsp_sessions]; rewrite St_bind_run;
    (destruct (pop_frpc_node s) as [[p s1]|]; cbn [obind fst snd]; [|done]); destruct (p =? 0); try done.
  unfold removal_round. rewrite !St_bind_run. destruct (delete_sessions p s1) as [[? s2]|]; [|done].
  cbn [obind fst snd]. rewrite !St_bind_run. destruct (eva_fastrpc_remove_buffers p s2) as [[? s3]|]; [|done].
  cbn [obind fst snd]. rewrite !St_bind_run. destruct (dext _ s3) as [[? s4]|]; [|done].
  cbn [obind fst snd]. rewrite !St_bind_run. by destruct (eva_fastrpc_driver_release_name p s4) as [[? s5]|].
Qed.

(** A process taken off the list is not in it any more. *)
Lemma pop_shrinks s p s' :
  pop_frpc_node s = Done (p, s') → p ≠ 0 → (length (listed s') < length (listed s))%nat.
Proof.
  unfold pop_frpc_node. generalize 10%nat. intros n. revert s. induction n as [|n IH]; intros s.
  all: cbn [take_node]; rewrite St_bind_run; unfold apps; srun;
    set (q := default 0 (head (a_fastrpc_driver_list (d_apps s))));
    destruct (Z.eqb_spec q 0) as [Eq|Eq]; [by intros [= <- <-]|]; rewrite St_bind_run;
    destruct (node_get q s) as [[e s1]|] eqn:Eg; [|done]; apply node_get_run in Eg as [-> _];
    cbn [obind fst snd]; destruct (fe_refcount e >? 0).
  1: by intros [= <- <-].
  2: { unfold dext. srun. intros E Hp. specialize (IH _ E Hp). exact IH. }
  all: unfold unlink_node, mod_apps; srun; intros [= <- <-] _; unfold listed; cbn;
    subst q; destruct (a_fastrpc_driver_list (d_apps s)) as [|x l]; [done|]; cbn [default head];
    rewrite filter_cons_False by (intros Hx; by apply Hx); cbn; pose proof (list.length_filter (λ q, q ≠ x) l); lia.
Qed.

(** The first process of the list is taken when it is not referenced. *)
Lemma pop_none ts s s' : dsp_ok [] ts s → pop_frpc_node s = Done (0, s') → listed s' = [].
Proof.
  intros Hs. unfold pop_frpc_node. generalize 10%nat. intros n.
  destruct n; cbn [take_node]; rewrite St_bind_run; unfold apps; srun;
    (destruct (a_fastrpc_driver_list (d_apps s)) as [|x l] eqn:El; cbn [list.head default];
     [by intros [= <-]|]);
    assert (Hx : x ∈ listed s) by (unfold listed; rewrite El; left);
    unfold id;
    (destruct (Z.eqb_spec x 0) as [->|Hx0];
     [exfalso; apply (dk_null _ _ _ Hs), elem_of_app; by left|]);
    destruct (dk_ref _ _ _ Hs x Hx) as (h & i & Hk); unfold key in Hk; rewrite St_bind_run;
    (destruct (node_get x s) as [[e s1]|] eqn:Eg; [|done]); apply node_get_run in Eg as [-> He];
    rewrite He in Hk; injection Hk as _ Hr _; cbn [obind fst snd]; rewrite Hr; cbn [refs_in Z.gtb Z.compare];
    unfold unlink_node, mod_apps; srun; by intros [= ].
Qed.

Lemma round_ok ts p : steps (dsp_ok [] (p :: ts)) (removal_round p) (λ _, dsp_ok [] ts).
Proof.
  eapply steps_bind; [apply delete_sessions_ok|]. intros ?.
  eapply steps_bind; [apply steps_ok, quiet_fastrpc_remove|]. intros ?.
  eapply steps_bind; [by apply steps_ok, quiet_dext|]. intros ?. apply discard_steps.
Qed.

Lemma remove_fuel n : ∀ m s,
  (length (listed s) <= n)%nat → (length (listed s) <= m)%nat → remove_dsp_sessions n s = remove_dsp_sessions m s.
Proof.
  induction n as [|n IH]; intros m s Hn Hm; rewrite !remove_unfold;
    destruct (pop_frpc_node s) as [[p s1]|] eqn:Ep; cbn [obind fst snd]; try done;
    destruct (Z.eqb_spec p 0) as [|Hp]; try done; pose proof (pop_shrinks _ _ _ Ep Hp); [lia|].
  destruct m as [|m]; [lia|]. destruct (removal_round p s1) as [[u s2]|] eqn:Er; cbn [obind fst snd]; [|done].
  pose proof (stable_round p s1 u s2 Er) as El. unfold same_list in El. apply IH; rewrite El; lia.
Qed.

Lemma remove_empties n : ∀ ts s s',
  dsp_ok [] ts s → remove_dsp_sessions n s = Done (tt, s') → listed s' = [].
Proof.
  induction n as [|n IH]; intros ts s s' Hs; rewrite remove_unfold;
    (destruct (pop_frpc_node s) as [[p s1]|] eqn:Ep; cbn [obind fst snd]; [|done]);
    (destruct (Z.eqb_spec p 0) as [->|Hp]; [intros [= <-]; by eapply pop_none|]); [done|].
  destruct (removal_round p s1) as [[u s2]|] eqn:Er; cbn [obind fst snd]; [|done]. apply (IH ts).
  apply (pop_steps [] ts) in Ep; [|done]. unfold hold in Ep. rewrite (proj2 (Z.eqb_neq p 0)) in Ep by done.
  by eapply round_ok.
Qed.


End removal.

(** * The channel goes while a session is open *)
Module RemovalScenario.

#[local] Existing Instances DspScenario.kernel DspScenario.kernel_laws DspScenario.dsp_side
  DspScenario.dsp_laws LifeScenario.sys LifeScenario.platform LifeScenario.fences
  BufferScenario.env BufferScenario.tree WnccScenario.mem.


End RemovalScenario.
