(* ===== verification/QueueMem.v ===== *)
(** The memory of the interface queues (src/msm/eva/cvp_core_hfi.h): blocks of 32-bit
    words, the layout of the queue headers and the rings in one block, and the view of a
    queue in its block, which is the queue that HfiQueue.v reads and writes. *)

From S2P Require Import Prelude HfiQueue Dsp.
Open Scope Z_scope.
Open Scope cvp_scope.

(** * Words of a block *)

(** [m] with the words [d] in place from word [off] on. *)
Definition splice (m : list Z) (off : nat) (d : list Z) : list Z :=
  take off m ++ d ++ drop (off + length d) m.

Definition slice (m : list Z) (off n : nat) : list Z := take n (drop off m).

Lemma length_splice m off d : (off + length d <= length m)%nat → length (splice m off d) = length m.
Proof. intros. unfold splice. rewrite !length_app, length_take, length_drop. lia. Qed.

Lemma length_slice m off n : (off + n <= length m)%nat → length (slice m off n) = n.
Proof. intros. unfold slice. rewrite length_take, length_drop. lia. Qed.

Lemma slice_splice_same m off d :
  (off + length d <= length m)%nat → slice (splice m off d) off (length d) = d.
Proof.
  intros. unfold slice, splice. rewrite drop_app_length' by (rewrite length_take; lia).
  by rewrite take_app_length.
Qed.

(** A write leaves the words before it and after it. *)
Lemma slice_splice_other m off d o n :
  (off + length d <= length m)%nat → (o + n <= off ∨ off + length d <= o)%nat →
  slice (splice m off d) o n = slice m o n.
Proof.
  intros Hd Ho. unfold slice, splice. apply list_eq. intros i.
  destruct (decide (i < n)%nat) as [Hi|Hi]; [|by rewrite !lookup_take_ge by lia].
  rewrite !lookup_take_lt, !lookup_drop by lia. destruct Ho as [Ho|Ho].
  - rewrite lookup_app_l by (rewrite length_take; lia). by rewrite lookup_take_lt by lia.
  - rewrite lookup_app_r by (rewrite length_take; lia).
    rewrite lookup_app_r by (rewrite length_take; lia). rewrite lookup_drop, length_take.
    f_equal. lia.
Qed.

Lemma splice_slice_same m off n : (off + n <= length m)%nat → splice m off (slice m off n) = m.
Proof.
  intros Hn. unfold splice. rewrite length_slice by done. unfold slice.
  rewrite <- drop_drop, take_drop. apply take_drop.
Qed.

Lemma words_read_slice m off n :
  0 <= off → 0 <= n → off + n <= Z.of_nat (length m) →
  words_read m off n = Done (slice m (Z.to_nat off) (Z.to_nat n)).
Proof. apply words_read_ok. Qed.

Lemma words_write_splice m off d :
  0 <= off → off + Z.of_nat (length d) <= Z.of_nat (length m) →
  words_write m off d = Done (splice m (Z.to_nat off) d).
Proof. apply words_write_ok. Qed.

(** * Queue headers in memory *)

Definition qhdr_words (h : cvp_hfi_queue_header) : list Z :=
  [qhdr_status h; qhdr_start_addr h; qhdr_type h; qhdr_q_size h; qhdr_pkt_size h;
   qhdr_pkt_drop_cnt h; qhdr_rx_wm h; qhdr_tx_wm h; qhdr_rx_req h; qhdr_tx_req h;
   qhdr_rx_irq_status h; qhdr_tx_irq_status h; qhdr_read_idx h; qhdr_write_idx h].

Definition qhdr_of_words (l : list Z) : cvp_hfi_queue_header :=
  let w i := nth i l 0 in
  mkQhdr (w 0%nat) (w 1%nat) (w 2%nat) (w 3%nat) (w 4%nat) (w 5%nat) (w 6%nat) (w 7%nat)
    (w 8%nat) (w 9%nat) (w 10%nat) (w 11%nat) (w 12%nat) (w 13%nat).

(** Words of a header. *)
Definition QHDR_WORDS : nat := 14.

Lemma qhdr_of_words_of h : qhdr_of_words (qhdr_words h) = h.
Proof. by destruct h. Qed.

Lemma length_qhdr_words h : length (qhdr_words h) = QHDR_WORDS.
Proof. done. Qed.

(** * Blocks and pointers *)

(** A kernel pointer: NULL, or a block and an offset in bytes. *)
Abbreviation vptr := (option (nat * Z)).

(** [struct cvp_mem_addr]; [ma_smem] is the address of its [mem_data]. *)
Record cvp_mem_addr := mkMemAddr {
  ma_device : Z;
  ma_virtual : vptr;
  ma_mem_size : Z;
  ma_smem : Z
}.

(** [struct cvp_iface_q_info]: the array of the ring and the header. *)
Record iface_q := mkIq {
  iq_device : Z;
  iq_virtual : vptr;
  iq_mem_size : Z;
  iq_hdr : vptr
}.

Definition iface_q_zero : iface_q := mkIq 0 None 0 None.

(** The bytes from [p] on, as words. *)
Definition words_of (blocks : list (list Z)) (p : vptr) (n : nat) : list Z :=
  match p with
  | Some (b, off) => slice (default [] (blocks !! b)) (Z.to_nat (off / 4)) n
  | None => []
  end.

Definition with_words (blocks : list (list Z)) (p : vptr) (d : list Z) : list (list Z) :=
  match p with
  | Some (b, off) => alter (λ m, splice m (Z.to_nat (off / 4)) d) b blocks
  | None => blocks
  end.

Definition ring_words (q : iface_q) : nat := Z.to_nat (iq_mem_size q / 4).

(** The queue the driver and the firmware see: the header and the ring, in the block. *)
Definition queue_view (blocks : list (list Z)) (q : iface_q) : cvp_iface_q_info :=
  mkQinfo (bool_decide (is_Some (iq_hdr q))) (bool_decide (is_Some (iq_virtual q)))
    (iq_device q) (iq_mem_size q)
    (mkShared (qhdr_of_words (words_of blocks (iq_hdr q) QHDR_WORDS))
              (words_of blocks (iq_virtual q) (ring_words q))).

(** The blocks after the shared memory of queue [q] became [s]. *)
Definition queue_store (blocks : list (list Z)) (q : iface_q) (s : qshared) : list (list Z) :=
  with_words (with_words blocks (iq_hdr q) (qhdr_words (sh_hdr s))) (iq_virtual q) (sh_mem s).

(** ** The layout *)

(** Words of the table of headers, of a header, of a ring. *)
Definition TABLE_WORDS : nat := 114.
Definition hdr_word (i : nat) : nat := (72 + QHDR_WORDS * i)%nat.
Definition RING_WORDS : nat := Z.to_nat (CVP_IFACEQ_QUEUE_SIZE / 4).
Definition ring_word (i : nat) : nat := (TABLE_WORDS + RING_WORDS * i)%nat.

(** Where queue [i] lies, for the table at device address [dev] in block [b]. *)
Definition laid_out (dev : Z) (b i : nat) : iface_q :=
  let off := CVP_IFACEQ_TABLE_SIZE + Z.of_nat i * CVP_IFACEQ_QUEUE_SIZE in
  mkIq (u32_add dev off) (Some (b, off)) CVP_IFACEQ_QUEUE_SIZE
    (Some (b, sizeof_table_header + Z.of_nat i * sizeof_queue_header)).

Lemma hdr_word_offset i :
  Z.to_nat ((sizeof_table_header + Z.of_nat i * sizeof_queue_header) / 4) = hdr_word i.
Proof.
  unfold sizeof_table_header, sizeof_queue_header, hdr_word, QHDR_WORDS.
  replace (6 * 4 + 8 + 256 + Z.of_nat i * (14 * 4)) with ((72 + Z.of_nat i * 14) * 4) by lia.
  rewrite Z.div_mul by done. lia.
Qed.

Lemma ring_words_of : Z.of_nat RING_WORDS = 204800.
Proof. unfold RING_WORDS, CVP_IFACEQ_QUEUE_SIZE, CVP_IFACEQ_MAX_PKT_SIZE. rewrite Z2Nat.id; done. Qed.

Lemma ring_word_offset i :
  Z.to_nat ((CVP_IFACEQ_TABLE_SIZE + Z.of_nat i * CVP_IFACEQ_QUEUE_SIZE) / 4) = ring_word i.
Proof.
  unfold ring_word, TABLE_WORDS.
  replace (CVP_IFACEQ_TABLE_SIZE + Z.of_nat i * CVP_IFACEQ_QUEUE_SIZE)
    with ((114 + Z.of_nat i * 204800) * 4).
  2: { unfold CVP_IFACEQ_TABLE_SIZE, sizeof_table_header, sizeof_queue_header, CVP_IFACEQ_NUMQ,
       CVP_IFACEQ_QUEUE_SIZE, CVP_IFACEQ_MAX_PKT_SIZE, CVP_IFACEQ_MAX_BUF_COUNT,
       CVP_IFACE_MAX_PARALLEL_CLNTS. lia. }
  rewrite Z.div_mul by done. pose proof ring_words_of. nia.
Qed.

Lemma with_words_lookup blocks b off d m :
  blocks !! b = Some m →
  with_words blocks (Some (b, off)) d !! b = Some (splice m (Z.to_nat (off / 4)) d).
Proof. intros E. cbn [with_words]. by rewrite list_lookup_alter_eq, E. Qed.

(** ** The rings and the headers do not overlap *)
Section layout.
Context (blocks : list (list Z)) (b : nat) (m : list Z) (dev : Z).
Context (Hb : blocks !! b = Some m) (Hlen : (TABLE_WORDS + 3 * RING_WORDS <= length m)%nat).

Definition well_sized (s : qshared) : Prop := length (sh_mem s) = RING_WORDS.

Lemma view_laid_out bs mm i :
  bs !! b = Some mm →
  queue_view bs (laid_out dev b i) =
    mkQinfo true true (iq_device (laid_out dev b i)) CVP_IFACEQ_QUEUE_SIZE
      (mkShared (qhdr_of_words (slice mm (hdr_word i) QHDR_WORDS))
                (slice mm (ring_word i) RING_WORDS)).
Proof.
  intros E. unfold queue_view, laid_out. cbn [iq_hdr iq_virtual iq_device iq_mem_size words_of].
  rewrite E. cbn [default]. rewrite hdr_word_offset, ring_word_offset.
  rewrite !bool_decide_true by eauto. reflexivity.
Qed.

Lemma store_laid_out i s :
  (i < 3)%nat → well_sized s →
  queue_store blocks (laid_out dev b i) s !! b =
    Some (splice (splice m (hdr_word i) (qhdr_words (sh_hdr s))) (ring_word i) (sh_mem s)).
Proof.
  intros Hi Hs. unfold queue_store, laid_out. cbn [iq_hdr iq_virtual].
  erewrite with_words_lookup; [|by apply with_words_lookup].
  by rewrite hdr_word_offset, ring_word_offset.
Qed.

Lemma queue_store_view i s :
  (i < 3)%nat → well_sized s →
  q_shared (queue_view (queue_store blocks (laid_out dev b i) s) (laid_out dev b i)) = s.
Proof.
  intros Hi Hs. rewrite (view_laid_out _ _ _ (store_laid_out i s Hi Hs)). cbn [q_shared].
  unfold well_sized in Hs. destruct s as [h w]. cbn [sh_hdr sh_mem] in *.
  assert (Hl : length (splice m (hdr_word i) (qhdr_words h)) = length m).
  { apply length_splice. rewrite length_qhdr_words. unfold hdr_word, TABLE_WORDS, QHDR_WORDS in *. nia. }
  f_equal.
  - rewrite slice_splice_other.
    + rewrite <- (length_qhdr_words h), slice_splice_same; [apply qhdr_of_words_of|].
      rewrite length_qhdr_words. unfold hdr_word, TABLE_WORDS, QHDR_WORDS in *. nia.
    + rewrite Hl, Hs. unfold ring_word. nia.
    + left. unfold hdr_word, ring_word, TABLE_WORDS, QHDR_WORDS. nia.
  - rewrite <- Hs. apply slice_splice_same. rewrite Hl, Hs. unfold ring_word. nia.
Qed.

Lemma queue_store_other i j s :
  (i < 3)%nat → (j < 3)%nat → i ≠ j → well_sized s →
  queue_view (queue_store blocks (laid_out dev b i) s) (laid_out dev b j)
  = queue_view blocks (laid_out dev b j).
Proof.
  intros Hi Hj Hij Hs. rewrite (view_laid_out _ _ _ (store_laid_out i s Hi Hs)).
  rewrite (view_laid_out _ _ _ Hb). unfold well_sized in Hs. destruct s as [h w].
  cbn [sh_hdr sh_mem] in *.
  assert (Hh : (hdr_word i + length (qhdr_words h) <= length m)%nat).
  { rewrite length_qhdr_words. unfold hdr_word, TABLE_WORDS, QHDR_WORDS in *. nia. }
  assert (Hw : (ring_word i + length w <= length (splice m (hdr_word i) (qhdr_words h)))%nat).
  { rewrite length_splice by done. rewrite Hs. unfold ring_word. nia. }
  f_equal. f_equal; [f_equal|].
  - rewrite slice_splice_other; [|done|].
    + apply slice_splice_other; [done|]. rewrite length_qhdr_words.
      unfold hdr_word, QHDR_WORDS. nia.
    + left. unfold hdr_word, ring_word, TABLE_WORDS, QHDR_WORDS. nia.
  - rewrite slice_splice_other; [|done|].
    + apply slice_splice_other; [done|]. rewrite length_qhdr_words. right.
      unfold hdr_word, ring_word, TABLE_WORDS, QHDR_WORDS. nia.
    + rewrite Hs. unfold ring_word. nia.
Qed.

End layout.
