(* ===== verification/QueueSetup.v ===== *)
(** The set-up of the interface memory (src/msm/eva/cvp_hfi.c: [__smem_alloc],
    [__interface_queues_init], [__hfi_queue_init], [__sfr_init],
    [__get_qdss_iommu_virtual_addr], [__interface_dsp_queues_init] and
    [__setup_ucregion_memory_map]): the queues, the crash log, the trace area and the
    queues of the DSP are allocated, or cleared when they already exist, laid out and
    announced to the firmware. *)

From S2P Require Import Prelude HfiTypes Driver HfiQueue Store Smem Dsp QueueMem.
Open Scope Z_scope.
Open Scope cvp_scope.

(** * Data *)

Definition QDSS_IOVA_START : Z := 0x80001000.
Definition SZ_1M : Z := 1048576.
Definition max_retries : nat := 10.

Definition ALIGN (x a : Z) : Z := (x + (a - 1)) / a * a.
Definition ALIGNED_QDSS_SIZE : Z := ALIGN 4096 PAGE_SIZE.
Definition ALIGNED_SFR_SIZE : Z := ALIGN SZ_1M PAGE_SIZE.
Definition QUEUE_SIZE : Z := CVP_IFACEQ_TABLE_SIZE + 3 * CVP_IFACEQ_QUEUE_SIZE.
Definition ALIGNED_QUEUE_SIZE : Z := ALIGN QUEUE_SIZE PAGE_SIZE.
Definition SHARED_QSIZE : Z := ALIGN (ALIGNED_SFR_SIZE + ALIGNED_QUEUE_SIZE + ALIGNED_QDSS_SIZE) SZ_1M.
Definition DSP_QUEUE_SIZE : Z :=
  CVP_IFACEQ_TABLE_SIZE + (CVP_DSP_IFACEQ_CMD_QUEUE_SIZE + CVP_DSP_IFACEQ_MSG_QUEUE_SIZE
                           + CVP_DSP_IFACEQ_DBG_QUEUE_SIZE).

(** Registers written by [__setup_ucregion_memory_map]. *)
Inductive uc_register :=
| CVP_UC_REGION_ADDR | CVP_UC_REGION_SIZE | CVP_QTBL_ADDR | CVP_QTBL_INFO
| CVP_SFR_ADDR | CVP_MMAP_ADDR.

(** Calls out of the component. *)
Inductive qcall :=
| Iommu_map (iova start size : Z)
| Iommu_unmap (iova size : Z)
| Dma_alloc_coherent (size : Z)
| Dma_handle_of (kvaddr : Z)
| Dma_map_single (handle size : Z)
| Dma_free_coherent (kvaddr : Z)
| Usleep_range
| Write_register (reg : uc_register) (value : Z)
| Setup_dsp_uc_memmap.

(** The interface memory of [struct iris_hfi_device]: the smem objects, the blocks of
    mapped memory, the areas in them, the queues, the DSP's queues and what is mapped in
    the IOMMU domain of the firmware. *)
Record iface := mkIface {
  if_bufs : bufs;
  if_blocks : list (list Z);
  if_mem_addr : cvp_mem_addr;
  if_iface_q_table : cvp_mem_addr;
  if_sfr : cvp_mem_addr;
  if_qdss : cvp_mem_addr;
  if_iface_queues : list iface_q;
  if_dsp : dsp_queues;
  if_domain : list (Z * Z);
  if_trace : list qcall
}.

#[global] Instance eta_mem_addr : Eta cvp_mem_addr :=
  λ r, mkMemAddr (ma_device r) (ma_virtual r) (ma_mem_size r) (ma_smem r).
#[global] Instance eta_iface_q : Eta iface_q :=
  λ r, mkIq (iq_device r) (iq_virtual r) (iq_mem_size r) (iq_hdr r).
#[global] Instance eta_iface : Eta iface :=
  λ r, mkIface (if_bufs r) (if_blocks r) (if_mem_addr r) (if_iface_q_table r) (if_sfr r)
    (if_qdss r) (if_iface_queues r) (if_dsp r) (if_domain r) (if_trace r).

(** The kernel below the set-up: the answers to its calls, the contents of fresh memory
    ([fresh_words n k] for block [n] of [k] words), and the platform. *)
Class SetupEnv := {
  q_answer : nat → qcall → Z;
  fresh_words : nat → nat → list Z;
  qdss_addr_tbl : list (Z * Z);
  firmware_base : Z;
  msm_cvp_fw_debug_mode : Z;
  cb_domain : bool;
  device_ptr_lo : Z;
  device_ptr_hi : Z
}.

Abbreviation Q := (St iface).

(** * Operations *)
Section operations.
Context `{BufEnv} `{SetupEnv}.

Definition qext (c : qcall) : Q Z :=
  n ← gets (λ s, length (if_trace s));
  modify (λ s, s <| if_trace ::= λ t, t ++ [c] |>) ;;
  mret (q_answer n c).

(** An operation on the smem objects. *)
Definition in_bufs {A} (m : B A) : Q A :=
  λ s, match m (if_bufs s) with
       | Done (a, b) => Done (a, s <| if_bufs := b |>)
       | Fault => Fault
       end.

(** Reads and writes through a kernel pointer, NULL or out of range a fault. *)
Definition load (p : vptr) (n : Z) : Q (list Z) :=
  match p with
  | None => stuck
  | Some (b, off) =>
      bs ← gets if_blocks;
      match bs !! b with None => stuck | Some m => of_outcome (words_read m (off / 4) n) end
  end.

Definition store (p : vptr) (d : list Z) : Q unit :=
  match p with
  | None => stuck
  | Some (b, off) =>
      bs ← gets if_blocks;
      match bs !! b with
      | None => stuck
      | Some m =>
          m' ← of_outcome (words_write m (off / 4) d);
          modify (λ s, s <| if_blocks ::= <[b := m']> |>)
      end
  end.

Definition ptr_add (p : vptr) (off : Z) : vptr :=
  match p with None => None | Some (b, o) => Some (b, o + off) end.

Definition memset_zero (p : vptr) (size : Z) : Q unit :=
  store p (replicate (Z.to_nat (size / 4)) 0).

(** The kernel mapping of a fresh buffer is a fresh block. *)
Definition map_block (kvaddr size : Z) : Q vptr :=
  if kvaddr =? 0 then mret None
  else
    n ← gets (λ s, length (if_blocks s));
    modify (λ s, s <| if_blocks ::= λ l, l ++ [fresh_words n (Z.to_nat (size / 4))] |>) ;;
    mret (Some (n, 0)).

(** [__smem_alloc], only ever called on [mem_addr]. *)
Definition __smem_alloc (size flags : Z) : Q Z :=
  mem ← gets if_mem_addr;
  if size =? 0 then mret (- EINVAL)
  else
    in_bufs (smem_mod (ma_smem mem) (λ a, a <| sm_flags := flags |>)) ;;
    rc ← in_bufs (msm_cvp_smem_alloc size true (ma_smem mem));
    if negb (rc =? 0) then mret (- ENOMEM)
    else
      a ← in_bufs (smem_get (ma_smem mem));
      v ← map_block (sm_kvaddr a) (sm_size a);
      modify (λ s, s <| if_mem_addr := mkMemAddr (sm_device_addr a) v (sm_size a) (ma_smem mem) |>) ;;
      in_bufs (smem_mod (ma_smem mem) (λ a, a <| sm_pkt_type := 0 |> <| sm_buf_idx := 0 |>)) ;;
      mret rc.

(** [x->mem_data = mem_addr->mem_data]. *)
Definition copy_mem_data (dst : Z) : Q unit :=
  mem ← gets if_mem_addr;
  a ← in_bufs (smem_get (ma_smem mem));
  in_bufs (smem_mod dst (λ _, a)).

(** ** The queues *)

Definition CVP_IFACEQ_GET_QHDR_START_ADDR (p : vptr) (i : nat) : vptr :=
  ptr_add p (sizeof_table_header + Z.of_nat i * sizeof_queue_header).

Definition hdr_update (p : vptr) (f : cvp_hfi_queue_header → cvp_hfi_queue_header) : Q unit :=
  l ← load p (Z.of_nat QHDR_WORDS); store p (qhdr_words (f (qhdr_of_words l))).

(** One round of the loop of [__hfi_queue_init]; [offset] has grown by the size of a queue
    in each round before. *)
Definition init_queue (i : nat) : Q unit :=
  t ← gets if_iface_q_table;
  let offset := ma_mem_size t + Z.of_nat i * CVP_IFACEQ_QUEUE_SIZE in
  let hdr := CVP_IFACEQ_GET_QHDR_START_ADDR (ma_virtual t) i in
  modify (λ s, s <| if_iface_queues ::=
    <[i := mkIq (u32_add (ma_device t) offset) (ptr_add (ma_virtual t) offset)
             CVP_IFACEQ_QUEUE_SIZE hdr]> |>) ;;
  hdr_update hdr Queue.__set_queue_hdr_defaults.

(** The start address and the id of queue [i]. *)
Definition start_queue (i : nat) (id : Z) : Q unit :=
  qs ← gets if_iface_queues;
  let q := nth i qs iface_q_zero in
  hdr_update (iq_hdr q) (set_queue_start (iq_device q) id).

(** ["msm_cvp"], in words. *)
Definition queue_table_name : list Z := [0x5f6d736d; 0x00707663].

Definition queue_table_words : list Z :=
  [0; CVP_IFACEQ_TABLE_SIZE; sizeof_table_header; sizeof_queue_header; CVP_IFACEQ_NUMQ;
   CVP_IFACEQ_NUMQ; device_ptr_lo; device_ptr_hi] ++ queue_table_name.

Definition __hfi_queue_init : Q unit :=
  each (seq 0 3) init_queue ;;
  t ← gets if_iface_q_table;
  store (ma_virtual t) queue_table_words ;;
  start_queue CVP_IFACEQ_CMDQ_IDX HFI_Q_ID_HOST_TO_CTRL_CMD_Q ;;
  start_queue CVP_IFACEQ_MSGQ_IDX HFI_Q_ID_CTRL_TO_HOST_MSG_Q ;;
  start_queue CVP_IFACEQ_DBGQ_IDX HFI_Q_ID_CTRL_TO_HOST_DEBUG_Q ;;
  qs ← gets if_iface_queues;
  hdr_update (iq_hdr (nth CVP_IFACEQ_DBGQ_IDX qs iface_q_zero)) (set_rx_req 0).

(** ** The crash log *)

Definition __sfr_init : Q unit :=
  sfr ← gets if_sfr;
  whenS (bool_decide (is_Some (ma_virtual sfr))) (store (ma_virtual sfr) [ALIGNED_SFR_SIZE]).

(** ** The trace area *)

(** [cvp_iommu_map] and [iommu_unmap] on the firmware's domain. *)
Definition domain_map (iova start size : Z) : Q Z :=
  rc ← qext (Iommu_map iova start size);
  whenS (rc =? 0) (modify (λ s, s <| if_domain ::= λ l, (iova, size) :: l |>)) ;;
  mret rc.

Definition remove_one (p : Z * Z) (l : list (Z * Z)) : list (Z * Z) :=
  match list_find (λ x, x = p) l with
  | Some (i, _) => delete i l
  | None => l
  end.

Definition domain_unmap (iova size : Z) : Q unit :=
  qext (Iommu_unmap iova size) ;; modify (λ s, s <| if_domain ::= remove_one (iova, size) |>).

(** Entry [i] of [mem_map], the table after the two words of its header. *)
Definition mem_map_at (p : vptr) (i : nat) : vptr := ptr_add p (Z.of_nat i * 16).

(** The loop over the ranges: the entries filled in and the error code. *)
Fixpoint map_entries (p : vptr) (domain : bool) (i : nat) (iova : Z) (tbl : list (Z * Z)) :
    Q (nat * Z) :=
  match tbl with
  | [] => mret (i, 0)
  | (start, size) :: tbl =>
      rc ← (if domain then domain_map iova start size else mret 0);
      if negb (rc =? 0) then mret (i, - ENOMEM)
      else
        let iova := if domain then iova else start in
        store (mem_map_at p i) [u32 iova; start; size; 0] ;;
        map_entries p domain (S i) (u64 (iova + size)) tbl
  end.

(** The unwinding loop, from entry [i - 1] down. *)
Fixpoint unmap_entries (p : vptr) (i : nat) : Q unit :=
  match i with
  | O => mret tt
  | S i =>
      e ← load (mem_map_at p i) 4;
      domain_unmap (nth 0 e 0) (nth 2 e 0) ;;
      unmap_entries p i
  end.

Definition __get_qdss_iommu_virtual_addr (mem_map : vptr) (domain : bool) : Q Z :=
  if bool_decide (qdss_addr_tbl = []) then mret (- ENODATA)
  else
    '(i, rc) ← map_entries mem_map domain 0 QDSS_IOVA_START qdss_addr_tbl;
    whenS ((i <? length qdss_addr_tbl)%nat && domain) (unmap_entries mem_map i) ;;
    mret rc.

(** ** The queues of the DSP *)

(** [dma_alloc_coherent], tried again at most [n] times. *)
Fixpoint dsp_alloc (n : nat) (q_size : Z) : Q Z :=
  match n with
  | O => mret 0
  | S n =>
      kvaddr ← qext (Dma_alloc_coherent q_size);
      if kvaddr <=? 0 then qext Usleep_range ;; (match n with O => mret kvaddr | _ => dsp_alloc n q_size end)
      else mret kvaddr
  end.

(** Queue [i] in the memory of the DSP's queues, at byte [offset]. *)
Definition dsp_queue_in (m : list Z) (dev offset : Z) (i : nat) : cvp_iface_q_info :=
  mkQinfo false true (u32 (dev + offset)) (queue_size i)
    (mkShared
       (qhdr_of_words (slice m (hdr_word i) QHDR_WORDS))
       (slice m (Z.to_nat (offset / 4)) (Z.to_nat (queue_size i / 4)))).

Fixpoint dsp_offset (i : nat) : Z :=
  match i with O => CVP_IFACEQ_TABLE_SIZE | S i => dsp_offset i + queue_size i end.

Definition zero_queue (q : cvp_iface_q_info) : cvp_iface_q_info :=
  set_shared (mkShared (qhdr_of_words []) (replicate (length (sh_mem (q_shared q))) 0)) q.

Definition __interface_dsp_queues_init : Q Z :=
  let q_size := ALIGN DSP_QUEUE_SIZE SZ_1M in
  dq ← gets if_dsp;
  if dq_align_virtual_addr dq then
    modify (λ s, s <| if_dsp := cvp_dsp_init_hfi_queue_hdr (dq <| dq_queues ::= fmap zero_queue |>) |>) ;;
    mret 0
  else
    kvaddr ← dsp_alloc max_retries q_size;
    if kvaddr <=? 0 then mret (- ENOMEM)
    else
      dma_handle ← qext (Dma_handle_of kvaddr);
      match msm_cvp_smem_get_context_bank SMEM_CDSP with
      | None => qext (Dma_free_coherent kvaddr) ;; mret (- ENOMEM)
      | Some cb =>
          iova ← qext (Dma_map_single dma_handle q_size);
          if iova <? 0 then qext (Dma_free_coherent kvaddr) ;; mret (- ENOMEM)
          else
            n ← gets (λ s, length (if_blocks s));
            let fw_bias := if is_iommu_present then 0 else firmware_base in
            let m := fresh_words n (Z.to_nat (q_size / 4)) in
            modify (λ s, s <| if_dsp := cvp_dsp_init_hfi_queue_hdr
              (mkDq true dma_handle q_size (dq_header dq)
                (map (λ i, dsp_queue_in m (iova - fw_bias) (dsp_offset i) i) (seq 0 3))) |>) ;;
            mret 0
      end.

(** ** Announcing the memory *)

Definition __setup_ucregion_memory_map : Q unit :=
  s ← gets id;
  qext (Write_register CVP_UC_REGION_ADDR (ma_device (if_iface_q_table s))) ;;
  qext (Write_register CVP_UC_REGION_SIZE SHARED_QSIZE) ;;
  qext (Write_register CVP_QTBL_ADDR (ma_device (if_iface_q_table s))) ;;
  qext (Write_register CVP_QTBL_INFO 0x01) ;;
  whenS (negb (ma_device (if_sfr s) =? 0))
    (qext (Write_register CVP_SFR_ADDR (ma_device (if_sfr s))) ;; mret tt) ;;
  whenS (negb (ma_device (if_qdss s) =? 0))
    (qext (Write_register CVP_MMAP_ADDR (ma_device (if_qdss s))) ;; mret tt) ;;
  qext Setup_dsp_uc_memmap ;; mret tt.

(** ** The whole set-up *)

Definition q_size : Z := SHARED_QSIZE - ALIGNED_SFR_SIZE - ALIGNED_QDSS_SIZE.
Definition fw_bias : Z := if is_iommu_present then 0 else firmware_base.

(** The area [mem_addr] describes, as [iface_q_table], [sfr] or [qdss] takes it over. *)
Definition taken (mem old : cvp_mem_addr) (size : Z) : cvp_mem_addr :=
  mkMemAddr (u32 (ma_device mem - fw_bias)) (ma_virtual mem) size (ma_smem old).

(** Up to the label [hfi_queue_init]. *)
Definition queue_memory : Q Z :=
  t ← gets if_iface_q_table;
  if bool_decide (is_Some (ma_virtual t)) then memset_zero (ma_virtual t) q_size ;; mret 0
  else
    rc ← __smem_alloc q_size SMEM_UNCACHED;
    if negb (rc =? 0) then mret (- ENOMEM)
    else
      modify (λ s, s <| if_iface_q_table := taken (if_mem_addr s) t CVP_IFACEQ_TABLE_SIZE |>) ;;
      copy_mem_data (ma_smem t) ;;
      mret 0.

(** Up to the label [sfr_init]. *)
Definition sfr_memory : Q unit :=
  sfr ← gets if_sfr;
  if bool_decide (is_Some (ma_virtual sfr)) then memset_zero (ma_virtual sfr) ALIGNED_SFR_SIZE
  else
    rc ← __smem_alloc ALIGNED_SFR_SIZE SMEM_UNCACHED;
    if negb (rc =? 0) then modify (λ s, s <| if_sfr ::= λ a, a <| ma_device := 0 |> |>)
    else
      modify (λ s, s <| if_sfr := taken (if_mem_addr s) sfr ALIGNED_SFR_SIZE |>) ;;
      copy_mem_data (ma_smem sfr).

(** The table of the trace area and its mapping. *)
Definition qdss_table : Q Z :=
  a ← gets if_qdss;
  if negb (bool_decide (is_Some (ma_virtual a))) then mret 0
  else
    store (ma_virtual a) [Z.of_nat (length qdss_addr_tbl); u32_add (ma_device a) 8] ;;
    match msm_cvp_smem_get_context_bank 0 with
    | None => mret (- EINVAL)
    | Some _ =>
        rc ← __get_qdss_iommu_virtual_addr (ptr_add (ma_virtual a) 8) cb_domain;
        whenS (negb (rc =? 0)) (
          _ ← in_bufs (msm_cvp_smem_free (ma_smem a));
          modify (λ s, s <| if_qdss ::= λ a, a <| ma_virtual := None |> <| ma_device := 0 |> |>)) ;;
        mret 0
    end.

(** Up to the label [dsp_hfi_queue_init]. *)
Definition qdss_memory : Q Z :=
  a ← gets if_qdss;
  if bool_decide (is_Some (ma_virtual a)) then mret 0
  else
    whenS (flag msm_cvp_fw_debug_mode HFI_DEBUG_MODE_QDSS && negb (bool_decide (qdss_addr_tbl = []))) (
      rc ← __smem_alloc ALIGNED_QDSS_SIZE SMEM_UNCACHED;
      if negb (rc =? 0) then modify (λ s, s <| if_qdss ::= λ a, a <| ma_device := 0 |> |>)
      else
        modify (λ s, s <| if_qdss := taken (if_mem_addr s) a ALIGNED_QDSS_SIZE |>) ;;
        copy_mem_data (ma_smem a)) ;;
    qdss_table.

Definition __interface_queues_init : Q Z :=
  rc ← queue_memory;
  if negb (rc =? 0) then mret (- ENOMEM)
  else
    __hfi_queue_init ;;
    sfr_memory ;;
    __sfr_init ;;
    rc ← qdss_memory;
    if negb (rc =? 0) then mret rc
    else
      rc ← __interface_dsp_queues_init;
      if negb (rc =? 0) then mret (- ENOMEM)
      else __setup_ucregion_memory_map ;; mret 0.

End operations.
