(* ===== verification/QueueReady.v ===== *)
(** The queues are ready after the set-up of the interface memory (QueueSetup.v): every
    queue, of the firmware and of the DSP, is an empty ring in the sense of HfiQueue.v. *)

From S2P Require Import Prelude Driver HfiQueue Store Smem Dsp QueueMem QueueSetup.
Open Scope Z_scope.
Open Scope cvp_scope.

(** * Empty rings *)

Lemma empty_holds q :
  Queue.queue_mem_ok q → qhdr_read_idx (sh_hdr (q_shared q)) = 0 →
  qhdr_write_idx (sh_hdr (q_shared q)) = 0 → Queue.holds q [].
Proof.
  intros Hq Hr Hw. assert (0 < Queue.queue_words q).
  { destruct Hq as [_ _ _ _ _ Hh]. change (CVP_IFACEQ_VAR_HUGE_PKT_SIZE / 4) with 3072 in Hh. lia. }
  split_and!; [constructor; [done|lia..]| |constructor].
  unfold Queue.contents. by rewrite Hr, Hw.
Qed.

(** What the set-up promises of a queue of [size] bytes: it is present and empty, its
    header says where it is, how large it is and which queue it is. *)
Definition queue_ready (q : cvp_iface_q_info) (size id : Z) : Prop :=
  let h := sh_hdr (q_shared q) in
  Queue.holds q [] ∧ mem_size q = size ∧ qhdr_status h = 1 ∧
  qhdr_start_addr h = align_device_addr q ∧ 4 * qhdr_q_size h = size ∧
  qhdr_type h = Z.lor CVP_IFACEQ_DFLT_QHDR id ∧
  (id = HFI_Q_ID_CTRL_TO_HOST_DEBUG_Q → qhdr_rx_req h = 0).

(** * The queues of the DSP *)

Definition dsp_id (i : nat) : Z :=
  if Nat.eqb i CVP_IFACEQ_CMDQ_IDX then HFI_Q_ID_HOST_TO_CTRL_CMD_Q
  else if Nat.eqb i CVP_IFACEQ_MSGQ_IDX then HFI_Q_ID_CTRL_TO_HOST_MSG_Q
  else HFI_Q_ID_CTRL_TO_HOST_DEBUG_Q.

(** The DSP's queues have the memory their sizes ask for. *)
Definition dsp_sized (i : nat) (q : cvp_iface_q_info) : Prop :=
  align_virtual_addr_present q = true ∧ length (sh_mem (q_shared q)) = Z.to_nat (queue_size i / 4).

Definition dsp_wf (dq : dsp_queues) : Prop :=
  dq_align_virtual_addr dq = true →
  length (dq_queues dq) = 3%nat ∧ (∀ i q, dq_queues dq !! i = Some q → dsp_sized i q).

Lemma queue_size_cases i :
  queue_size i = 204800 ∨ queue_size i = 327680.
Proof. unfold queue_size. repeat case_match; auto. Qed.

Lemma init_dsp_queue_ready i q :
  (i < 3)%nat → dsp_sized i q → queue_ready (init_dsp_queue i q) (queue_size i) (dsp_id i) ∧
                  dsp_sized i (init_dsp_queue i q).
Proof.
  intros Hi [Hp Hl]. unfold queue_ready, dsp_sized.
  assert (Hs : sh_mem (q_shared (init_dsp_queue i q)) = sh_mem (q_shared q)).
  { unfold init_dsp_queue. by repeat case_match. }
  assert (Hr : qhdr_read_idx (sh_hdr (q_shared (init_dsp_queue i q))) = 0 ∧
               qhdr_write_idx (sh_hdr (q_shared (init_dsp_queue i q))) = 0).
  { unfold init_dsp_queue. by repeat case_match. }
  rewrite Hs. split; [|by split].
  split; [|destruct i as [|[|[|]]]; [..|lia]; split_and!; done].
  apply empty_holds; [|apply Hr..].
  assert (Hm : mem_size (init_dsp_queue i q) = queue_size i) by done.
  assert (Hw : Queue.queue_words (init_dsp_queue i q) = queue_size i / 4).
  { unfold Queue.queue_words, u32_shr. rewrite Hm, shr2_div. done. }
  constructor; rewrite ?Hw, ?Hm, ?Hs, ?Hl.
  - done.
  - done.
  - unfold is_u32. destruct (queue_size_cases i) as [-> | ->]; lia.
  - by destruct (queue_size_cases i) as [-> | ->].
  - destruct (queue_size_cases i) as [-> | ->]; rewrite Z2Nat.id; done.
  - by destruct (queue_size_cases i) as [-> | ->].
Qed.

Definition dsp_ready (dq : dsp_queues) : Prop :=
  dq_align_virtual_addr dq = true ∧
  ∀ i, (i < 3)%nat → ∃ q, dq_queues dq !! i = Some q ∧ queue_ready q (queue_size i) (dsp_id i).

Lemma dsp_init_ready dq :
  dq_align_virtual_addr dq = true → dsp_wf dq →
  dsp_ready (cvp_dsp_init_hfi_queue_hdr dq) ∧ dsp_wf (cvp_dsp_init_hfi_queue_hdr dq).
Proof.
  intros Hv Hw. destruct (Hw Hv) as [Hl Hq]. unfold dsp_ready, dsp_wf, cvp_dsp_init_hfi_queue_hdr.
  cbn. split; [split; [done|]|intros _; split].
  - intros i Hi. destruct (lookup_lt_is_Some_2 (dq_queues dq) i) as [q E]; [lia|].
    exists (init_dsp_queue i q). rewrite list_lookup_imap, E. split; [done|].
    apply init_dsp_queue_ready; [done|by apply Hq].
  - by rewrite length_imap.
  - intros i q. rewrite list_lookup_imap. intros (q0 & E & ->)%fmap_Some.
    apply init_dsp_queue_ready; [|by apply Hq]. rewrite <- Hl. by eapply lookup_lt_Some.
Qed.

Lemma zero_queue_sized i q : dsp_sized i q → dsp_sized i (zero_queue q).
Proof. intros [Hp Hl]. split; [done|]. cbn. by rewrite length_replicate. Qed.

Lemma dsp_wf_zero dq : dsp_wf dq → dsp_wf (dq <| dq_queues ::= fmap zero_queue |>).
Proof.
  intros Hw Hv. cbn in *. destruct (Hw Hv) as [Hl Hq]. split; [by rewrite length_fmap|].
  intros i q. rewrite list_lookup_fmap. intros (q0 & E & ->)%fmap_Some. by apply zero_queue_sized, Hq.
Qed.

Lemma fresh_dsp_wf handle size hdr m dev :
  (DSP_QUEUE_SIZE / 4 <= Z.of_nat (length m)) →
  dsp_wf (mkDq true handle size hdr (map (λ i, dsp_queue_in m dev (dsp_offset i) i) (seq 0 3))).
Proof.
  intros Hm _. split; [done|]. intros i q. cbn [dq_queues].
  change (DSP_QUEUE_SIZE / 4) with 184434 in Hm.
  assert (Hs : ∀ i, (i < 3)%nat →
    (Z.to_nat (dsp_offset i / 4) + Z.to_nat (queue_size i / 4) <= length m)%nat).
  { intros j Hj. destruct j as [|[|[|]]]; [..|lia]; cbn [dsp_offset];
      match goal with |- context [Z.to_nat (?a / 4)] =>
        let v := eval vm_compute in (a / 4) in change (a / 4) with v end;
      match goal with |- context [(_ + Z.to_nat (?a / 4))%nat] =>
        let v := eval vm_compute in (a / 4) in change (a / 4) with v end; lia. }
  rewrite list_lookup_fmap. intros (j & Ej & ->)%fmap_Some.
  apply lookup_seq in Ej as [-> Hj]. split; [done|].
  cbn [dsp_queue_in q_shared sh_mem]. rewrite length_slice; [done|]. by apply Hs.
Qed.

(** * The headers and the rings in their block *)
Section queues.
Context `{!BufEnv} `{!SetupEnv}.
Abbreviation total := Store.total.

(** [s] with the block [b] and the queues replaced. *)
Definition with_queues (s : iface) (b : nat) (m : list Z) (qs : list iface_q) : iface :=
  s <| if_blocks ::= <[b := m]> |> <| if_iface_queues := qs |>.

Definition hdr_in (m : list Z) (i : nat) : cvp_hfi_queue_header :=
  qhdr_of_words (slice m (hdr_word i) QHDR_WORDS).

(** Between the steps of [__hfi_queue_init]: only the block of the queues and the queues
    have changed; the headers are [f]. *)
Definition hdrs_are (s0 : iface) (b : nat) (n : nat) (f : nat → cvp_hfi_queue_header)
    (qs : list iface_q) (s : iface) : Prop :=
  ∃ m, s = with_queues s0 b m qs ∧ length m = n ∧ ∀ i, (i < 3)%nat → hdr_in m i = f i.

Definition upd {A} (f : nat → A) (i : nat) (a : A) : nat → A :=
  λ j, if Nat.eqb j i then a else f j.

Context (s0 : iface) (b n : nat) (dev : Z).
Context (Hb : (b < length (if_blocks s0))%nat) (Hn : (TABLE_WORDS + 3 * RING_WORDS <= n)%nat).

Lemma block_here m qs : if_blocks (with_queues s0 b m qs) !! b = Some m.
Proof. cbn -[insert lookup]. by apply list_lookup_insert_eq. Qed.

Lemma table_words_bound : (TABLE_WORDS <= n)%nat.
Proof. lia. Qed.

Lemma store_block m qs off d :
  0 <= off → off / 4 + Z.of_nat (length d) <= Z.of_nat (length m) →
  store (Some (b, off)) d (with_queues s0 b m qs) =
    Done (tt, with_queues s0 b (splice m (Z.to_nat (off / 4)) d) qs).
Proof.
  intros Ho Hd. unfold store. srun. rewrite block_here. srun.
  rewrite words_write_splice by (try done; by apply Z.div_pos). srun.
  unfold with_queues. cbv [put_field_to]. cbn -[insert]. by rewrite list_insert_insert_eq.
Qed.

Lemma hdr_offset i :
  0 <= sizeof_table_header + Z.of_nat i * sizeof_queue_header ∧
  (sizeof_table_header + Z.of_nat i * sizeof_queue_header) / 4 = Z.of_nat (hdr_word i).
Proof.
  rewrite <- (hdr_word_offset i). unfold sizeof_table_header, sizeof_queue_header.
  split; [lia|]. rewrite Z2Nat.id; [done|]. apply Z.div_pos; lia.
Qed.

Lemma hdr_word_bound i (m : list Z) : (i < 3)%nat → length m = n → (hdr_word i + QHDR_WORDS <= length m)%nat.
Proof. intros Hi Hm. pose proof table_words_bound. unfold hdr_word, QHDR_WORDS, TABLE_WORDS in *. lia. Qed.

Lemma hdr_update_ok i g f qs :
  (i < 3)%nat →
  total (hdrs_are s0 b n f qs)
    (hdr_update (Some (b, sizeof_table_header + Z.of_nat i * sizeof_queue_header)) g)
    (λ _, hdrs_are s0 b n (upd f i (g (f i))) qs).
Proof.
  intros Hi s (m & -> & Hm & Hf). destruct (hdr_offset i) as [Ho Hw].
  pose proof (hdr_word_bound i m Hi Hm) as Hbd.
  unfold hdr_update, load. srun. rewrite block_here, Hw, words_read_slice by lia. srun.
  rewrite !Nat2Z.id. fold (hdr_in m i). rewrite Hf by done.
  rewrite store_block by (rewrite ?Hw, ?length_qhdr_words; lia).
  eexists _, _; split; [done|]. rewrite Hw, Nat2Z.id.
  assert (Hs : (hdr_word i + length (qhdr_words (g (f i))) <= length m)%nat)
    by by rewrite length_qhdr_words.
  eexists; split_and!; [done|by rewrite length_splice|].
  intros j Hj. unfold upd, hdr_in. destruct (Nat.eqb_spec j i) as [-> | Hne].
  - rewrite <- (length_qhdr_words (g (f i))), slice_splice_same by done. apply qhdr_of_words_of.
  - rewrite slice_splice_other; [by apply Hf|done|].
    rewrite length_qhdr_words. unfold hdr_word, QHDR_WORDS. lia.
Qed.

(** The header of the table lies before the headers of the queues. *)
Lemma table_store_ok f qs :
  total (hdrs_are s0 b n f qs) (store (Some (b, 0)) queue_table_words)
    (λ _, hdrs_are s0 b n f qs).
Proof.
  intros s (m & -> & Hm & Hf). pose proof table_words_bound.
  assert (Hl : length queue_table_words = 10%nat) by done.
  assert (H10 : (10 <= TABLE_WORDS)%nat) by (unfold TABLE_WORDS; lia).
  rewrite store_block by (rewrite ?Hl; change (0 / 4) with 0; lia).
  eexists _, _; split; [done|]. change (Z.to_nat (0 / 4)) with 0%nat.
  eexists; split_and!; [done|rewrite length_splice; [done|rewrite Hl; lia]|].
  intros i Hi. unfold hdr_in. rewrite slice_splice_other; [by apply Hf|rewrite Hl; lia|].
  right. rewrite Hl. unfold hdr_word. lia.
Qed.

Context (Htbl : ∃ p, if_iface_q_table s0 = mkMemAddr dev (Some (b, 0)) CVP_IFACEQ_TABLE_SIZE p).

Lemma init_queue_ok i f qs :
  (i < 3)%nat →
  total (hdrs_are s0 b n f qs) (init_queue i)
    (λ _, hdrs_are s0 b n (upd f i (Queue.__set_queue_hdr_defaults (f i)))
            (<[i := laid_out dev b i]> qs)).
Proof.
  intros Hi. unfold init_queue. destruct Htbl as [p Ht].
  eapply (total_bind _ _ (λ t s, t = mkMemAddr dev (Some (b, 0)) CVP_IFACEQ_TABLE_SIZE p ∧
                                hdrs_are s0 b n f qs s)).
  { apply total_gets. intros s (m & -> & ?). split; [done|]. by exists m. }
  intros t. apply total_pure. intros ->. cbn [ma_virtual ma_device ma_mem_size].
  eapply (total_bind _ _ (λ _, hdrs_are s0 b n f (<[i := laid_out dev b i]> qs))).
  { apply total_modify. intros s (m & -> & Hm & Hf). by exists m. }
  intros _. by apply hdr_update_ok.
Qed.

Definition ready_hdr (f : nat → cvp_hfi_queue_header) (i : nat) : cvp_hfi_queue_header :=
  let h := set_queue_start (iq_device (laid_out dev b i)) (dsp_id i)
             (Queue.__set_queue_hdr_defaults (f i)) in
  if Nat.eqb i CVP_IFACEQ_DBGQ_IDX then set_rx_req 0 h else h.

Definition ready_queues : list iface_q := map (laid_out dev b) (seq 0 3).

Lemma total_queues f :
  total (hdrs_are s0 b n f ready_queues) (gets if_iface_queues)
    (λ qs s, qs = ready_queues ∧ hdrs_are s0 b n f ready_queues s).
Proof. apply total_gets. intros s (m & -> & ?). split; [done|]. by exists m. Qed.

Lemma start_queue_ok i f :
  (i < 3)%nat →
  total (hdrs_are s0 b n f ready_queues) (start_queue i (dsp_id i))
    (λ _, hdrs_are s0 b n
            (upd f i (set_queue_start (iq_device (laid_out dev b i)) (dsp_id i) (f i)))
            ready_queues).
Proof.
  intros Hi. unfold start_queue.
  eapply total_bind; [apply total_queues|].
  intros qs. apply total_pure. intros ->.
  destruct i as [|[|[|]]]; [..|lia]; by apply hdr_update_ok.
Qed.

Lemma hdrs_ext f g qs s :
  (∀ i, (i < 3)%nat → f i = g i) → hdrs_are s0 b n f qs s → hdrs_are s0 b n g qs s.
Proof. intros Hfg (m & -> & Hm & Hf). exists m. split_and!; [done..|]. intros i Hi. rewrite Hf, Hfg; done. Qed.

Lemma hfi_queue_init_ok f :
  length (if_iface_queues s0) = 3%nat →
  total (hdrs_are s0 b n f (if_iface_queues s0)) __hfi_queue_init
    (λ _, hdrs_are s0 b n (ready_hdr f) ready_queues).
Proof.
  intros Hq. unfold __hfi_queue_init.
  destruct (if_iface_queues s0) as [|q0 [|q1 [|q2 [|]]]] eqn:E; try done. clear Hq.
  cbn [seq each].
  eapply (total_bind _ _ (λ _, hdrs_are s0 b n (λ i, Queue.__set_queue_hdr_defaults (f i)) ready_queues)).
  { eapply total_bind; [by apply init_queue_ok, Nat.lt_0_succ|]. intros ?.
    eapply total_bind; [by apply init_queue_ok, Nat.ltb_lt|]. intros ?.
    eapply total_bind; [by apply init_queue_ok, Nat.ltb_lt|]. intros ?.
    apply total_ret. intros s. cbn [list_insert insert]. apply hdrs_ext.
    intros i Hi. destruct i as [|[|[|]]]; [..|lia]; done. }
  intros ?. destruct Htbl as [p Ht].
  eapply (total_bind _ _ (λ t s, t = mkMemAddr dev (Some (b, 0)) CVP_IFACEQ_TABLE_SIZE p ∧
                                hdrs_are s0 b n (λ i, Queue.__set_queue_hdr_defaults (f i)) ready_queues s)).
  { apply total_gets. intros s (m & -> & ?). split; [done|]. by exists m. }
  intros t. apply total_pure. intros ->. cbn [ma_virtual].
  eapply total_bind; [apply table_store_ok|]. intros ?.
  eapply total_bind; [by apply (start_queue_ok 0), Nat.ltb_lt|]. intros ?.
  eapply total_bind; [by apply (start_queue_ok 1), Nat.ltb_lt|]. intros ?.
  eapply total_bind; [by apply (start_queue_ok 2), Nat.ltb_lt|]. intros ?.
  eapply total_bind; [apply total_queues|].
  intros qs. apply total_pure. intros ->.
  eapply total_post; [by apply (hdr_update_ok 2), Nat.ltb_lt|]. intros ? s. apply hdrs_ext.
  intros i Hi. destruct i as [|[|[|]]]; [..|lia]; done.
Qed.

(** The queues are ready in such a state. *)
Lemma hdrs_ready f s i :
  hdrs_are s0 b n (ready_hdr f) ready_queues s → (i < 3)%nat →
  queue_ready (queue_view (if_blocks s) (laid_out dev b i)) CVP_IFACEQ_QUEUE_SIZE (dsp_id i).
Proof.
  intros (m & -> & Hm & Hf) Hi. rewrite (view_laid_out _ _ _ _ _ (block_here m _)).
  fold (hdr_in m i). rewrite Hf by done.
  assert (Hl : length (slice m (ring_word i) RING_WORDS) = RING_WORDS).
  { apply length_slice. unfold ring_word. nia. }
  split; [|destruct i as [|[|[|]]]; [..|lia]; split_and!; done].
  apply empty_holds; [|by destruct i as [|[|[|]]]; [..|lia]..].
  constructor; cbn [q_hdr_present align_virtual_addr_present mem_size q_shared sh_mem]; try done.
  rewrite Hl. apply ring_words_of.
Qed.

End queues.
