(* ===== verification/QueueInit.v ===== *)
(** The set-up of the interface memory always returns, and leaves every queue ready when it
    succeeds (QueueSetup.v, QueueReady.v): the invariant of the interface memory, which the
    first set-up establishes from nothing and each later one finds and keeps. *)

From stdpp Require Import strings.
From S2P Require Import Prelude HfiTypes Driver HfiQueue Store Partial Smem Dsp QueueMem QueueSetup QueueReady.
Open Scope Z_scope.
Open Scope cvp_scope.

(** * Allocation *)

(** The smem objects of the areas exist; reference counts are counts. *)
Definition bufs_ok (ps : list Z) (b : bufs) : Prop :=
  Forall (λ p, p ≠ 0 ∧ is_Some (b_smems b !! p)) ps ∧ ∀ d, 0 <= ref_of d (b_refs b).

(** The object at [p] describes a mapped buffer of [size] bytes that is held. *)
Definition allocated (p size : Z) (b : bufs) : Prop :=
  ∃ a, b_smems b !! p = Some a ∧ sm_kvaddr a ≠ 0 ∧ sm_size a = u32 (align_page size) ∧
       0 < ref_of (sm_dma_buf a) (b_refs b).

Section init.
Context `{!BufEnv} `{!SetupEnv}.
Abbreviation total := Store.total.

(** Device addresses fit 32 bits; fresh memory has the size it was asked for; the trace
    area is large enough for the ranges of the platform. *)
Context (Hiova : ∀ n t, b_answer n (Sgl_dma_address t) < 2 ^ 32).
Context (Hfresh : ∀ n k, length (fresh_words n k) = k).
Context (Hqdss : (length qdss_addr_tbl <= 255)%nat).

Lemma bext_any (P : bufs → Prop) c :
  (∀ s t, P s → P (s <| b_trace := t |>)) → total P (bext c) (λ _, P).
Proof. intros HP s Hs. eexists _, _. split; [done|]. by apply HP. Qed.

Lemma bext_sgl (P : bufs → Prop) t :
  (∀ s t, P s → P (s <| b_trace := t |>)) →
  total P (bext (Sgl_dma_address t)) (λ v s, v < 2 ^ 32 ∧ P s).
Proof. intros HP s Hs. eexists _, _. split; [done|]. split; [apply Hiova|by apply HP]. Qed.

(** What is known of the object [p] while a buffer is set up: it holds [dbuf]. *)
Definition holding (ps : list Z) (p size dbuf : Z) (b : bufs) : Prop :=
  bufs_ok ps b ∧ 0 < ref_of dbuf (b_refs b) ∧
  ∃ a, b_smems b !! p = Some a ∧ sm_dma_buf a = dbuf ∧ sm_size a = u32 (align_page size).

Lemma bufs_ok_mod ps b p f :
  bufs_ok ps b → bufs_ok ps (b <| b_smems ::= <[p := f]> |>).
Proof.
  intros [Hp Hr]. split; [|done]. eapply Forall_impl; [|exact Hp].
  intros q [Hq Hs]. split; [done|]. cbn.
  destruct (decide (q = p)) as [-> | Hne]; [rewrite lookup_insert_eq; eauto|].
  by rewrite lookup_insert_ne.
Qed.

Lemma holding_mod ps p size dbuf f :
  (∀ a, sm_dma_buf (f a) = sm_dma_buf a) → (∀ a, sm_size (f a) = sm_size a) →
  total (holding ps p size dbuf) (smem_mod p f) (λ _, holding ps p size dbuf).
Proof.
  intros Hd Hs b (Hb & Hr & a & Ea & Hda & Hsz). unfold smem_mod, smem_get. srun. rewrite Ea. srun.
  eexists _, _. split; [done|]. split_and!; [by apply bufs_ok_mod|done|].
  exists (f a). cbn. rewrite lookup_insert_eq, Hd, Hs. done.
Qed.

Lemma holding_put ps p size dbuf :
  total (holding ps p size dbuf) (msm_cvp_smem_put_dma_buf dbuf) (λ _, bufs_ok ps).
Proof.
  intros b ([Hp Hr] & Hd & _). unfold msm_cvp_smem_put_dma_buf. case_match; [by eexists _, _|].
  srun. rewrite (proj2 (Z.leb_gt _ _)) by lia. srun. eexists _, _. split; [done|].
  split; [done|]. intros d. unfold ref_of in *. cbn.
  destruct (decide (d = dbuf)) as [-> | Hne]; [rewrite lookup_insert_eq; cbn; lia|].
  rewrite lookup_insert_ne by done. apply Hr.
Qed.

Lemma holding_trace ps p size dbuf b t :
  holding ps p size dbuf b → holding ps p size dbuf (b <| b_trace := t |>).
Proof. done. Qed.

Lemma holding_device ps p size dbuf flags :
  total (holding ps p size dbuf) (msm_dma_get_device_address p dbuf flags)
    (λ r b, holding ps p size dbuf b ∧ (fst r = 0 → 0 <= snd r < 2 ^ 32)).
Proof.
  unfold msm_dma_get_device_address. apply total_if; intros _; [|by apply total_ret].
  case_match; [|by apply total_ret].
  eapply total_bind; [apply bext_any, holding_trace|]. intros attach.
  apply total_if; intros Ha.
  { apply total_ret. intros b Hb. split; [done|]. cbn. zify_bool. unfold ptr_err_or_nomem.
    case_match; zify_bool; intros; [done|lia]. }
  eapply total_bind; [apply bext_any, holding_trace|]. intros table.
  apply total_if; intros Ht.
  { eapply total_bind; [apply bext_any, holding_trace|]. intros ?.
    apply total_ret. intros b Hb. split; [done|]. cbn. zify_bool. unfold ptr_err_or_nomem.
    case_match; zify_bool; intros; [done|lia]. }
  eapply total_bind; [apply bext_sgl, holding_trace|]. intros iova.
  apply total_pure. intros Hi. apply total_if; intros Hneg.
  { do 2 (eapply total_bind; [apply bext_any, holding_trace|]; intros ?). by apply total_ret. }
  eapply total_bind; [by apply holding_mod|]. intros ?. apply total_ret. intros b Hb.
  split; [done|]. intros _. cbn. zify_bool. lia.
Qed.

Lemma alloc_ok ps p size :
  p ∈ ps → size ≠ 0 →
  total (bufs_ok ps) (msm_cvp_smem_alloc size true p)
    (λ rc b, bufs_ok ps b ∧ (rc = 0 → allocated p size b)).
Proof.
  intros Hp Hsz. unfold msm_cvp_smem_alloc, alloc_dma_mem.
  apply total_if; intros Hz.
  { apply total_ret. done. }
  eapply total_bind; [by apply bext_any|]. intros dbuf. apply total_if; intros Hd; [by apply total_ret|].
  eapply (total_bind _ _ (λ _ b, bufs_ok ps b ∧ 0 < ref_of dbuf (b_refs b))).
  { apply total_modify. intros b [Hps Hr]. unfold ref_of in *. cbn. rewrite lookup_insert_eq. cbn.
    split; [split; [done|]|specialize (Hr dbuf); lia]. intros d. unfold ref_of. cbn.
    destruct (decide (d = dbuf)) as [-> | Hne]; [rewrite lookup_insert_eq; cbn; specialize (Hr dbuf); lia|].
    rewrite lookup_insert_ne by done. apply Hr. }
  intros ?. eapply (total_bind _ _ (λ _, holding ps p size dbuf)).
  { intros b [Hps Hr]. destruct (proj1 (list.Forall_forall _ _) (proj1 Hps) p Hp) as [_ [o Ea]].
    unfold smem_mod, smem_get. srun. rewrite Ea. srun. eexists _, _. split; [done|].
    split_and!; [by apply bufs_ok_mod|done|]. eexists. cbn. by rewrite lookup_insert_eq. }
  intros ?. eapply (total_bind _ _ (λ _, holding ps p size dbuf)).
  { intros b Hb. destruct (Hb) as (_ & _ & o & Ea & _). unfold smem_get. srun. rewrite Ea.
    by eexists _, _. }
  intros ?. eapply total_bind; [apply holding_device|]. intros [rc iova]. cbn [fst snd].
  apply total_if; intros Hrc.
  { eapply total_bind; [eapply total_pre; [apply holding_put|by intros b [? _]]|]. intros ?.
    apply total_ret. intros b Hb. split; [done|]. intros ->. by zify_bool. }
  assert (rc = 0) as -> by by zify_bool.
  eapply (total_bind _ _ (λ _ b, (0 <= iova < 2 ^ 32) ∧ holding ps p size dbuf b)).
  { intros b [Hb Hi]. destruct (holding_mod ps p size dbuf (λ a, a <| sm_device_addr := u32 iova |>)
      ltac:(done) ltac:(done) b Hb) as (r & b' & E & Hb'). exists r, b'. by split; [|split; [apply Hi|]]. }
  intros ?. apply total_pure. intros Hi. rewrite (u32_small iova), Z.eqb_refl by done. cbn [negb].
  eapply total_bind; [apply bext_any, holding_trace|]. intros ?.
  eapply total_bind; [apply bext_any, holding_trace|]. intros v.
  eapply (total_bind _ _ (λ _ b, holding ps p size dbuf b ∧ ∃ a, b_smems b !! p = Some a ∧ sm_kvaddr a = v)).
  { intros b Hb. destruct (holding_mod ps p size dbuf (λ a, a <| sm_kvaddr := v |>)
      ltac:(done) ltac:(done) b Hb) as (r & b' & E & Hb'). exists r, b'. split; [done|]. split; [done|].
    destruct Hb as (_ & _ & o & Ea & _). revert E. unfold smem_mod, smem_get. srun. rewrite Ea. srun.
    intros [= _ <-]. eexists. cbn. by rewrite lookup_insert_eq. }
  intros ?. apply total_if; intros Hv.
  { eapply total_bind; [apply bext_any; by intros|]. intros ?.
    eapply total_bind; [eapply total_pre; [apply holding_put|by intros b [? _]]|]. intros ?.
    by apply total_ret. }
  apply total_ret. intros b [(Hb & Hr & o1 & Ea1 & Hd1 & Hs1) (o2 & Ea2 & Hk)]. split; [done|]. intros _.
  rewrite Ea1 in Ea2. injection Ea2 as <-. exists o1. split_and!; [done|by zify_bool; congruence|done|by rewrite Hd1].
Qed.

(** * The invariant of the interface memory *)

(** A pointer is NULL or points to the start of a block of at least [size] bytes. *)
Definition area_in (bs : list (list Z)) (p : vptr) (size : Z) : Prop :=
  match p with
  | None => True
  | Some (b, off) => off = 0 ∧ ∃ m, bs !! b = Some m ∧ size / 4 <= Z.of_nat (length m)
  end.

Definition apart (p q : vptr) : Prop :=
  match p, q with Some (b, _), Some (b', _) => b ≠ b' | _, _ => True end.

Record areas (s : iface) : Prop := {
  ar_table : area_in (if_blocks s) (ma_virtual (if_iface_q_table s)) q_size;
  ar_tsize : is_Some (ma_virtual (if_iface_q_table s)) →
             ma_mem_size (if_iface_q_table s) = CVP_IFACEQ_TABLE_SIZE;
  ar_sfr : area_in (if_blocks s) (ma_virtual (if_sfr s)) ALIGNED_SFR_SIZE;
  ar_qdss : area_in (if_blocks s) (ma_virtual (if_qdss s)) ALIGNED_QDSS_SIZE;
  ar_apart_sfr : apart (ma_virtual (if_iface_q_table s)) (ma_virtual (if_sfr s));
  ar_apart_qdss : apart (ma_virtual (if_iface_q_table s)) (ma_virtual (if_qdss s));
  ar_queues : length (if_iface_queues s) = 3%nat;
  ar_dsp : dsp_wf (if_dsp s)
}.

Definition smems_of (s : iface) : list Z :=
  [ma_smem (if_mem_addr s); ma_smem (if_iface_q_table s); ma_smem (if_sfr s); ma_smem (if_qdss s)].

(** The firmware's queues are laid out in the block of the table and ready. *)
Definition firmware_ready (s : iface) : Prop :=
  ∃ b, let dev := ma_device (if_iface_q_table s) in
    ma_virtual (if_iface_q_table s) = Some (b, 0) ∧
    if_iface_queues s = map (laid_out dev b) (seq 0 3) ∧
    ∀ i, (i < 3)%nat →
      queue_ready (queue_view (if_blocks s) (laid_out dev b i)) CVP_IFACEQ_QUEUE_SIZE (dsp_id i).

Definition interface_ok (s : iface) : Prop := areas s ∧ bufs_ok (smems_of s) (if_bufs s).

Context (ps : list Z).

(** The invariant inside a set-up: [r] once the queues are ready, [F] of the smem objects. *)
Definition inv (r : bool) (F : bufs → Prop) (s : iface) : Prop :=
  (areas s ∧ smems_of s = ps ∧ (r = true → firmware_ready s)) ∧
  bufs_ok ps (if_bufs s) ∧ F (if_bufs s).

Lemma inv_weaken r (F G : bufs → Prop) s : (∀ b, F b → G b) → inv r F s → inv r G s.
Proof. intros HFG ([? ?] & ? & ?). split; [done|]. split; auto. Qed.

Lemma inv_bufs {A} r F (m : B A) G :
  total (λ b, bufs_ok ps b ∧ F b) m (λ a b, bufs_ok ps b ∧ G a b) →
  total (inv r F) (in_bufs m) (λ a, inv r (G a)).
Proof.
  intros Hm s [Hs Hb]. destruct (Hm _ Hb) as (a & b & E & HG). unfold in_bufs. rewrite E.
  eexists _, _. split; [done|]. split; [|done]. destruct Hs as ([] & Hps & Hr).
  split_and!; [constructor; done|done|done].
Qed.

Lemma inv_bufs_with {A} (K : iface → Prop) r F (m : B A) G :
  (∀ s b, K s → K (s <| if_bufs := b |>)) →
  total (λ b, bufs_ok ps b ∧ F b) m (λ a b, bufs_ok ps b ∧ G a b) →
  total (λ s, K s ∧ inv r F s) (in_bufs m) (λ a s, K s ∧ inv r (G a) s).
Proof.
  intros HK Hm s [Hs Hi]. destruct (inv_bufs r F m G Hm s Hi) as (a & s' & E & Hi').
  exists a, s'. split; [done|]. split; [|done]. revert E. unfold in_bufs.
  destruct (m (if_bufs s)) as [[? ?]|]; [|done]. intros [= _ <-]. by apply HK.
Qed.

Lemma inv_get {A} r F (f : iface → A) :
  total (inv r F) (gets f) (λ a s, a = f s ∧ inv r F s).
Proof. by apply total_gets. Qed.

(** The words of a block outside the queues' memory may change; blocks may be added. *)
Definition blocks_step (s : iface) (bs : list (list Z)) : Prop :=
  (∀ b m, if_blocks s !! b = Some m →
     ∃ m', bs !! b = Some m' ∧ length m' = length m ∧
           (fst <$> ma_virtual (if_iface_q_table s) = Some b → m' = m)).

Lemma area_step s bs p n : blocks_step s bs → area_in (if_blocks s) p n → area_in bs p n.
Proof.
  destruct p as [[b off]|]; [|done]. intros Hs [-> (m & E & Hl)]. split; [done|].
  destruct (Hs b m E) as (m' & E' & Hl' & _). exists m'. split; [done|]. by rewrite Hl'.
Qed.

Lemma view_step s bs b dev i :
  blocks_step s bs → area_in (if_blocks s) (Some (b, 0)) q_size →
  ma_virtual (if_iface_q_table s) = Some (b, 0) →
  queue_view bs (laid_out dev b i) = queue_view (if_blocks s) (laid_out dev b i).
Proof.
  intros Hs [_ (m & E & _)] Ht. destruct (Hs b m E) as (m' & E' & _ & Hm).
  rewrite Ht in Hm. rewrite (view_laid_out _ _ _ _ _ E'), (view_laid_out _ _ _ _ _ E).
  by rewrite Hm.
Qed.

Lemma inv_blocks r F s bs :
  inv r F s → blocks_step s bs → inv r F (s <| if_blocks := bs |>).
Proof.
  intros ([Ha (Hps & Hr)] & HF) Hs. split; [|done].
  split; [destruct Ha; constructor; try done; by eapply area_step|]. split; [done|].
  intros Hr'. destruct (Hr Hr') as (b & Ht & Hq & Hi). exists b. split_and!; [done..|].
  intros i Hi'. specialize (Hi i Hi'). cbn. erewrite view_step; [done| |by rewrite <- Ht; destruct Ha|done].
  done.
Qed.

(** A write into an area away from the queues. *)
Lemma inv_store r F s p n off d :
  inv r F s → area_in (if_blocks s) p n → apart (ma_virtual (if_iface_q_table s)) p →
  is_Some p → 0 <= off → off / 4 + Z.of_nat (length d) <= n / 4 →
  ∃ s', store (ptr_add p off) d s = Done (tt, s') ∧ inv r F s' ∧
        ∃ bs, s' = s <| if_blocks := bs |> ∧ blocks_step s bs.
Proof.
  intros Hs Ha Hap [[b o] ->] Ho Hd. destruct Ha as [-> (m & E & Hl)]. cbn [ptr_add].
  rewrite Z.add_0_l. unfold store. srun. rewrite E. srun.
  assert (Hd2 : 0 <= off / 4) by (apply Z.div_pos; lia).
  rewrite words_write_splice by lia. srun.
  assert (Hst : blocks_step s (<[b := splice m (Z.to_nat (off / 4)) d]> (if_blocks s))).
  { intros b' m' E'. destruct (decide (b' = b)) as [-> | Hne].
    - rewrite E in E'. injection E' as <-. rewrite list_lookup_insert_eq by by eapply lookup_lt_Some.
      eexists; split_and!; [done|apply length_splice; lia|]. intros Hb.
      destruct (ma_virtual (if_iface_q_table s)) as [[b' ?]|]; [|done]. cbn in *. congruence.
    - rewrite list_lookup_insert_ne by done. by exists m'. }
  eexists; split; [done|]. split; [by apply inv_blocks|]. by eexists.
Qed.

(** ** The steps *)

Definition anything (b : bufs) : Prop := True.

(** A pointer to a fresh block of at least [size] bytes. *)
Definition new_area (s : iface) (p : vptr) (size : Z) : Prop :=
  is_Some p ∧ area_in (if_blocks s) p size ∧ apart (ma_virtual (if_iface_q_table s)) p ∧
  apart (ma_virtual (if_sfr s)) p ∧ apart (ma_virtual (if_qdss s)) p.

Lemma apart_sym p q : apart p q → apart q p.
Proof. destruct p as [[]|], q as [[]|]; cbn; auto. Qed.

Lemma apart_fresh bs p n l : area_in bs p n → l = length bs → apart p (Some (l, 0)).
Proof.
  destruct p as [[b off]|]; [|done]. intros [_ (m & E & _)] ->. cbn.
  apply lookup_lt_Some in E. lia.
Qed.

Lemma map_block_ok r F kvaddr size :
  kvaddr ≠ 0 → 0 <= size →
  total (inv r F) (map_block kvaddr size) (λ p s, new_area s p size ∧ inv r F s).
Proof.
  intros Hk Hsz s Hs. unfold map_block. rewrite (proj2 (Z.eqb_neq _ _)) by done. srun.
  eexists _, _. split; [done|]. split.
  - destruct Hs as ([[] _] & _). unfold new_area. cbn.
    split; [eauto|]. split; [|split; [|split]; by eapply apart_fresh].
    split; [done|]. eexists. rewrite lookup_app_r, Nat.sub_diag by done. split; [done|].
    rewrite Hfresh, Z2Nat.id; [done|]. apply Z.div_pos; lia.
  - apply inv_blocks; [done|]. intros b m E. exists m. split_and!; [|done..].
    by apply lookup_app_l_Some.
Qed.

(** An update of one object that exists. *)
Lemma mod_any p f (F G : bufs → Prop) :
  p ∈ ps → (∀ b a, F b → b_smems b !! p = Some a → G (b <| b_smems ::= <[p := f a]> |>)) →
  total (λ b, bufs_ok ps b ∧ F b) (smem_mod p f) (λ _ b, bufs_ok ps b ∧ G b).
Proof.
  intros Hp HG b [Hb HF]. destruct (proj1 (list.Forall_forall _ _) (proj1 Hb) p Hp) as [_ [o Eo]].
  unfold smem_mod, smem_get. srun. rewrite Eo. srun. eexists _, _. split; [done|].
  split; [by apply bufs_ok_mod|by apply HG].
Qed.

Lemma allocated_mod p size b a f :
  allocated p size b → b_smems b !! p = Some a → sm_kvaddr (f a) = sm_kvaddr a →
  sm_size (f a) = sm_size a → sm_dma_buf (f a) = sm_dma_buf a →
  allocated p size (b <| b_smems ::= <[p := f a]> |>).
Proof.
  intros (a' & E & Hk & Hs & Hd) Ea Ek Es Ed. rewrite Ea in E. injection E as <-.
  exists (f a). cbn. rewrite lookup_insert_eq, Ek, Es, Ed. done.
Qed.

(** The sizes the set-up asks for. *)
Definition page_sized (size : Z) : Prop := 0 < size ∧ u32 (align_page size) = size.

Definition mem_smem : Z := hd 0 ps.

Lemma inv_mem r F s : inv r F s → ma_smem (if_mem_addr s) = mem_smem ∧ mem_smem ∈ ps.
Proof. intros ((_ & E & _) & _). unfold mem_smem. rewrite <- E. split; [done|apply list_elem_of_here]. Qed.

Lemma total_inv_mem {A} r F (m : cvp_mem_addr → St iface A) Q :
  (∀ mem, ma_smem mem = mem_smem → mem_smem ∈ ps → total (inv r F) (m mem) Q) →
  total (inv r F) (mem ← gets if_mem_addr; m mem) Q.
Proof. intros Hm s Hs. destruct (inv_mem _ _ _ Hs) as [E Hp]. srun. by apply Hm. Qed.

Definition alloc_post (r : bool) (size : Z) (rc : Z) (s : iface) : Prop :=
  if rc =? 0
  then new_area s (ma_virtual (if_mem_addr s)) size ∧ inv r (allocated mem_smem size) s
  else inv r anything s.

Lemma smem_alloc_ok r size flags :
  page_sized size →
  total (inv r anything) (__smem_alloc size flags) (alloc_post r size).
Proof.
  intros [Hpos Hsz]. unfold __smem_alloc. apply total_inv_mem. intros mem -> Hp.
  rewrite (proj2 (Z.eqb_neq _ _)) by lia.
  eapply total_bind; [apply inv_bufs, (mod_any _ _ _ (λ _, True)); [done|by intros]|].
  intros ?. eapply total_bind.
  { apply inv_bufs. eapply total_conseq; [by apply (alloc_ok ps mem_smem size); [|lia]|by intros b [? _]|].
    intros rc b [Hb Ha]. split; [done|]. exact Ha. }
  intros rc. cbn beta. unfold alloc_post. apply total_if; intros Hrc.
  { apply total_ret. intros s Hs. change (- ENOMEM =? 0) with false. cbn iota.
    by eapply inv_weaken. }
  assert (rc = 0) as -> by by zify_bool.
  eapply (total_bind _ _ (λ a s, (sm_kvaddr a ≠ 0 ∧ sm_size a = size) ∧ inv r (allocated mem_smem size) s)).
  { intros s Hs. eapply inv_weaken in Hs; [|intros b Hb; by apply Hb].
    destruct Hs as (Hs & Hb & o & Ea & Hk & Hz & Hd). unfold smem_get, in_bufs. srun. rewrite Ea. srun.
    eexists _, _. split; [done|]. split; [by rewrite Hz|]. destruct Hs as ([] & ? & ?).
    split; [split_and!; [constructor; done|done|done]|]. split; [done|]. by exists o. }
  intros o. apply total_pure. intros [Hk Hs].
  eapply total_bind; [apply map_block_ok; [done|lia]|]. intros v.
  eapply (total_bind _ _ (λ _ s, new_area s (ma_virtual (if_mem_addr s)) size ∧
                               inv r (allocated mem_smem size) s)).
  { apply total_modify. rewrite Hs. intros s [Hn Hi]. split; [done|].
    destruct (inv_mem _ _ _ Hi) as [Hm _]. destruct Hi as (([] & Hps & Hr) & HF).
    split; [|done]. split; [constructor; done|]. split; [|done]. rewrite <- Hps. unfold smems_of. cbn.
    by rewrite Hm. }
  intros ?. eapply total_bind.
  { apply (inv_bufs_with (λ s, new_area s (ma_virtual (if_mem_addr s)) size)); [done|].
    apply (mod_any _ _ _ (allocated mem_smem size)); [done|]. intros b ? Ho Eo.
    eapply (allocated_mod _ _ _ _ (λ x : msm_cvp_smem, x <| sm_pkt_type := 0 |> <| sm_buf_idx := 0 |>));
      [exact Ho|exact Eo|done..]. }
  intros ?. by apply total_ret.
Qed.

(** ** The memory of the queues *)

Lemma inv_smems r F s :
  inv r F s → ma_smem (if_iface_q_table s) = nth 1 ps 0 ∧ ma_smem (if_sfr s) = nth 2 ps 0 ∧
              ma_smem (if_qdss s) = nth 3 ps 0.
Proof. intros ((_ & E & _) & _). by rewrite <- E. Qed.

Lemma inv_in r F s i : inv r F s → (i < 4)%nat → nth i ps 0 ∈ ps.
Proof.
  intros ((_ & E & _) & _) Hi. apply list_elem_of_lookup. exists i.
  rewrite <- E. destruct i as [|[|[|[|]]]]; [done..|lia].
Qed.

Lemma copy_ok (K : iface → Prop) r dst size :
  (∀ s b, K s → K (s <| if_bufs := b |>)) → dst ∈ ps →
  total (λ s, K s ∧ inv r (allocated mem_smem size) s) (copy_mem_data dst)
    (λ _ s, K s ∧ inv r (allocated dst size) s).
Proof.
  intros HK Hd s Hs. destruct (inv_mem _ _ _ (proj2 Hs)) as [E Hp]. unfold copy_mem_data. srun.
  rewrite E. clear E. revert s Hs.
  change (total (λ s, K s ∧ inv r (allocated mem_smem size) s)
    (a ← in_bufs (smem_get mem_smem); in_bufs (smem_mod dst (λ _, a)))
    (λ _ s, K s ∧ inv r (allocated dst size) s)).
  eapply total_bind.
  { apply (inv_bufs_with K _ _ _ (λ a b, allocated mem_smem size b ∧ b_smems b !! mem_smem = Some a)); [done|].
    intros b [Hb (o & E & Ho)]. unfold smem_get. srun. rewrite E. srun.
    eexists _, _. split; [done|]. split; [done|]. split; [by exists o|done]. }
  intros o. apply (inv_bufs_with K); [done|]. apply mod_any; [done|].
  intros b o' [(a & E & Hk & Hs & Hr) E'] Eo.
  rewrite E in E'. injection E' as ->. exists o. cbn. by rewrite lookup_insert_eq.
Qed.

Lemma inv_resize r F s bs :
  inv r F s →
  (∀ b m, if_blocks s !! b = Some m → ∃ m', bs !! b = Some m' ∧ length m' = length m) →
  inv false F (s <| if_blocks := bs |>).
Proof.
  intros ([Ha (Hps & _)] & HF) Hs. split; [|done]. split; [|done].
  assert (Hin : ∀ p n, area_in (if_blocks s) p n → area_in bs p n).
  { intros [[b off]|] n; [|done]. intros [-> (m & E & Hl)]. split; [done|].
    destruct (Hs b m E) as (m' & E' & Hl'). exists m'. by rewrite Hl'. }
  destruct Ha. constructor; try done; by apply Hin.
Qed.

Lemma store_at s b m off d :
  if_blocks s !! b = Some m → 0 <= off → off / 4 + Z.of_nat (length d) <= Z.of_nat (length m) →
  store (Some (b, off)) d s =
    Done (tt, s <| if_blocks ::= <[b := splice m (Z.to_nat (off / 4)) d]> |>).
Proof.
  intros E Ho Hd. unfold store. srun. rewrite E. srun.
  rewrite words_write_splice by (try done; by apply Z.div_pos). done.
Qed.

Lemma memset_table_ok r F t :
  total (λ s, if_iface_q_table s = t ∧ is_Some (ma_virtual t) ∧ inv r F s)
    (memset_zero (ma_virtual t) q_size)
    (λ _ s, is_Some (ma_virtual (if_iface_q_table s)) ∧ inv false F s).
Proof.
  intros s (<- & [[b o] Ev] & Hs). pose proof (ar_table _ (proj1 (proj1 Hs))) as Ha.
  rewrite Ev in *. destruct Ha as [-> (m & E & Hl)].
  assert (Hlen : Z.of_nat (length (replicate (Z.to_nat (q_size / 4)) 0)) = q_size / 4).
  { rewrite length_replicate, Z2Nat.id; [done|by vm_compute]. }
  unfold memset_zero. rewrite (store_at _ _ m) by (rewrite ?Hlen; done).
  eexists _, _. split; [done|]. split; [cbn; rewrite Ev; eauto|].
  apply (inv_resize _ _ _ _ Hs). intros b' m' E'. destruct (decide (b' = b)) as [-> | Hne].
  - rewrite E in E'. injection E' as <-. rewrite list_lookup_insert_eq by by eapply lookup_lt_Some.
    eexists; split; [done|]. apply length_splice. change (Z.to_nat (0 / 4)) with 0%nat. lia.
  - rewrite list_lookup_insert_ne by done. exists m'. by split; [exact E'|].
Qed.

Lemma take_table_ok t F :
  total (λ s, (ma_smem t = nth 1 ps 0) ∧ new_area s (ma_virtual (if_mem_addr s)) q_size ∧ inv false F s)
    (modify (λ s, s <| if_iface_q_table := taken (if_mem_addr s) t CVP_IFACEQ_TABLE_SIZE |>))
    (λ _ s, is_Some (ma_virtual (if_iface_q_table s)) ∧ inv false F s).
Proof.
  apply total_modify. intros s (Ht & (Hv & Ha & _ & Hs & Hq) & Hi).
  pose proof (inv_smems _ _ _ Hi) as (E1 & _). destruct Hi as ((Har & Hps & _) & HF).
  split; [done|]. split; [|done]. split; [|split; [|done]].
  - destruct Har. constructor; try done; by apply apart_sym.
  - rewrite <- Hps. unfold smems_of, taken. cbn. by rewrite Ht, <- E1.
Qed.

Lemma queue_memory_ok r :
  total (inv r anything) queue_memory
    (λ rc s, inv false anything s ∧ (rc = 0 → is_Some (ma_virtual (if_iface_q_table s)))).
Proof.
  unfold queue_memory.
  eapply (total_bind _ _ (λ t s, if_iface_q_table s = t ∧ inv r anything s)); [by apply total_gets|].
  intros t. apply total_if; intros Hv.
  { apply bool_decide_eq_true in Hv.
    eapply total_bind; [eapply total_pre; [apply memset_table_ok|by intros s [? ?]]|].
    intros ?. apply total_ret. intros s [Hi Hs]. done. }
  assert (Hweak : ∀ s, inv r anything s → inv false anything s).
  { intros s ((? & ? & _) & ?). by split. }
  apply (total_pre _ (λ s, (ma_smem t = nth 1 ps 0 ∧ nth 1 ps 0 ∈ ps) ∧ inv false anything s)).
  2: { intros s [<- Hs]. split; [split; [apply (inv_smems _ _ _ Hs)|eapply inv_in; [done|lia]]|by apply Hweak]. }
  apply total_pure. intros [Ht Hin].
  eapply total_bind; [by apply (smem_alloc_ok false q_size)|]. intros rc. unfold alloc_post.
  destruct (rc =? 0) eqn:Hrc; cbn [negb]; [|by apply total_ret].
  eapply total_bind.
  { eapply total_pre; [apply (take_table_ok t)|]. intros s [Hn Hs]. split_and!; done. }
  intros ?. rewrite Ht. eapply total_bind.
  { by apply (copy_ok (λ s, is_Some (ma_virtual (if_iface_q_table s)))). }
  intros ?. apply total_ret. intros s [Hv' Hs]. split; [by eapply inv_weaken|done].
Qed.

(** ** The queues *)

Lemma hfi_queue_init_inv :
  total (λ s, is_Some (ma_virtual (if_iface_q_table s)) ∧ inv false anything s) __hfi_queue_init
    (λ _, inv true anything).
Proof.
  intros s [[[b o] Ev] Hs]. pose proof (ar_table _ (proj1 (proj1 Hs))) as Ha.
  pose proof (ar_tsize _ (proj1 (proj1 Hs)) ltac:(by rewrite Ev)) as Hz.
  pose proof (ar_queues _ (proj1 (proj1 Hs))) as Hq.
  rewrite Ev in Ha. destruct Ha as [-> (m & E & Hl)].
  set (dev := ma_device (if_iface_q_table s)).
  assert (Hb : (b < length (if_blocks s))%nat) by by eapply lookup_lt_Some.
  assert (Hn : (TABLE_WORDS + 3 * RING_WORDS <= length m)%nat).
  { pose proof ring_words_of. unfold TABLE_WORDS. change (q_size / 4) with 785408 in Hl. lia. }
  assert (Htbl : ∃ p, if_iface_q_table s = mkMemAddr dev (Some (b, 0)) CVP_IFACEQ_TABLE_SIZE p).
  { exists (ma_smem (if_iface_q_table s)). rewrite <- Ev, <- Hz. unfold dev.
    by destruct (if_iface_q_table s). }
  destruct (hfi_queue_init_ok s b (length m) dev Hb Hn Htbl (hdr_in m) Hq s) as (u & s' & E1 & Hs').
  { exists m. split_and!; [|done..]. unfold with_queues. destruct s. cbn in *.
    cbv [put_field_to]. cbn -[insert]. by rewrite list_insert_id. }
  exists u, s'. split; [done|].
  pose proof (λ i, hdrs_ready s b (length m) dev Hb Hn _ _ i Hs') as Hr.
  destruct Hs' as (m' & -> & Hm' & _).
  assert (Hres : inv false anything (s <| if_blocks := <[b := m']> (if_blocks s) |>)).
  { eapply inv_resize; [exact Hs|]. intros b' m0 E'. destruct (decide (b' = b)) as [-> | Hne].
    - rewrite E in E'. injection E' as <-. rewrite list_lookup_insert_eq by done. by exists m'.
    - rewrite list_lookup_insert_ne by done. exists m0. by split; [exact E'|]. }
  destruct Hres as ((Har & Hps & _) & HF). split; [|done]. split; [|split; [done|]].
  - destruct Har. by constructor.
  - intros _. exists b. by split_and!.
Qed.

(** ** The crash log *)

(** A write at the start of an area away from the queues. *)
Lemma store_area_ok r F (p : iface → vptr) n d :
  (∀ s, inv r F s → area_in (if_blocks s) (p s) n ∧ apart (ma_virtual (if_iface_q_table s)) (p s)) →
  Z.of_nat (length d) <= n / 4 →
  total (λ s, is_Some (p s) ∧ inv r F s) (λ s, store (p s) d s) (λ _, inv r F).
Proof.
  intros Hp Hd s [Hsome Hs]. destruct (Hp s Hs) as [Ha Hap].
  destruct (inv_store r F s (p s) n 0 d Hs Ha Hap Hsome) as (s' & E & Hs' & _); [lia|done|].
  assert (Hadd : ptr_add (p s) 0 = p s).
  { destruct (p s) as [[b o]|]; [|done]. destruct Ha as [-> _]. done. }
  rewrite Hadd in E. by exists tt, s'.
Qed.

Lemma inv_sfr r F s :
  inv r F s → area_in (if_blocks s) (ma_virtual (if_sfr s)) ALIGNED_SFR_SIZE ∧
              apart (ma_virtual (if_iface_q_table s)) (ma_virtual (if_sfr s)).
Proof. intros ((Har & _) & _). split; apply Har. Qed.

Lemma inv_qdss r F s :
  inv r F s → area_in (if_blocks s) (ma_virtual (if_qdss s)) ALIGNED_QDSS_SIZE ∧
              apart (ma_virtual (if_iface_q_table s)) (ma_virtual (if_qdss s)).
Proof. intros ((Har & _) & _). split; apply Har. Qed.

Lemma inv_take_sfr r F s a :
  inv r F s → ma_smem a = nth 2 ps 0 → area_in (if_blocks s) (ma_virtual a) ALIGNED_SFR_SIZE →
  apart (ma_virtual (if_iface_q_table s)) (ma_virtual a) → inv r F (s <| if_sfr := a |>).
Proof.
  intros Hs Ha Hin Hap. pose proof (inv_smems _ _ _ Hs) as (_ & E & _).
  destruct Hs as ((Har & Hps & Hr) & HF). split; [|done]. split; [|split; [|done]].
  - destruct Har. by constructor.
  - rewrite <- Hps. unfold smems_of. cbn. by rewrite Ha, <- E.
Qed.

Lemma inv_take_qdss r F s a :
  inv r F s → ma_smem a = nth 3 ps 0 → area_in (if_blocks s) (ma_virtual a) ALIGNED_QDSS_SIZE →
  apart (ma_virtual (if_iface_q_table s)) (ma_virtual a) → inv r F (s <| if_qdss := a |>).
Proof.
  intros Hs Ha Hin Hap. pose proof (inv_smems _ _ _ Hs) as (_ & _ & E).
  destruct Hs as ((Har & Hps & Hr) & HF). split; [|done]. split; [|split; [|done]].
  - destruct Har. by constructor.
  - rewrite <- Hps. unfold smems_of. cbn. by rewrite Ha, <- E.
Qed.

Lemma sfr_memory_ok r : total (inv r anything) sfr_memory (λ _, inv r anything).
Proof.
  unfold sfr_memory.
  eapply (total_bind _ _ (λ t s, (if_sfr s = t ∧ inv r anything s) ∧ (ma_smem t = nth 2 ps 0 ∧ nth 2 ps 0 ∈ ps))).
  { apply total_gets. intros s Hs. split; [done|]. split; [apply (inv_smems _ _ _ Hs)|].
    eapply inv_in; [done|lia]. }
  intros t. apply total_if; intros Hv.
  { apply bool_decide_eq_true in Hv. intros s [[<- Hs] _].
    apply (store_area_ok r anything (λ s, ma_virtual (if_sfr s)) ALIGNED_SFR_SIZE).
    - intros s' Hs'. by apply (inv_sfr r anything).
    - rewrite length_replicate, Z2Nat.id; [lia|by vm_compute].
    - done. }
  apply (total_pre _ (λ s, (ma_smem t = nth 2 ps 0 ∧ nth 2 ps 0 ∈ ps) ∧ inv r anything s)).
  2: { by intros s [[? ?] ?]. }
  apply total_pure. intros [Ht Hin].
  eapply total_bind; [by apply (smem_alloc_ok r ALIGNED_SFR_SIZE)|]. intros rc. unfold alloc_post.
  destruct (rc =? 0) eqn:Hrc; cbn [negb].
  2: { apply total_modify. intros s Hs. pose proof (inv_sfr _ _ _ Hs) as [? ?].
       by apply inv_take_sfr; [|apply (inv_smems _ _ _ Hs)|..]. }
  eapply (total_bind _ _ (λ _ s, True ∧ inv r (allocated mem_smem ALIGNED_SFR_SIZE) s)).
  { apply total_modify. intros s ((Hv' & Ha & Hap & _) & Hs). split; [done|]. by apply inv_take_sfr. }
  intros ?. rewrite Ht. eapply total_post; [by apply (copy_ok (λ _, True))|].
  intros ? s [_ Hs]. by eapply inv_weaken.
Qed.

Lemma sfr_init_ok r : total (inv r anything) __sfr_init (λ _, inv r anything).
Proof.
  unfold __sfr_init. intros s Hs. srun. destruct (bool_decide _) eqn:Hv.
  - apply bool_decide_eq_true in Hv.
    apply (store_area_ok r anything (λ s, ma_virtual (if_sfr s)) ALIGNED_SFR_SIZE); [|by vm_compute|done].
    intros s' Hs'. by apply (inv_sfr r anything).
  - srun. by exists tt, s.
Qed.

(** ** The trace area *)

(** The trace area is [a], in memory, inside the invariant. *)
Definition tracing (a : cvp_mem_addr) (r : bool) (F : bufs → Prop) (s : iface) : Prop :=
  if_qdss s = a ∧ inv r F s.

Lemma inv_trace r F s t : inv r F s → inv r F (s <| if_trace := t |>).
Proof. intros (([] & Hps & Hr) & HF). by split; [split; [constructor|]|]. Qed.

Lemma inv_domain r F s d : inv r F s → inv r F (s <| if_domain := d |>).
Proof. intros (([] & Hps & Hr) & HF). by split; [split; [constructor|]|]. Qed.

Lemma qext_ok r F (K : iface → Prop) c :
  (∀ s t, K s → K (s <| if_trace := t |>)) →
  total (λ s, K s ∧ inv r F s) (qext c) (λ _ s, K s ∧ inv r F s).
Proof. intros HK s [Hs Hi]. eexists _, _. split; [done|]. split; [by apply HK|by apply inv_trace]. Qed.

Lemma qext_tracing a r F c : total (tracing a r F) (qext c) (λ _, tracing a r F).
Proof. by apply (qext_ok r F (λ s, if_qdss s = a)). Qed.

Lemma tracing_domain a r F f :
  total (tracing a r F) (modify (λ s, s <| if_domain ::= f |>)) (λ _, tracing a r F).
Proof. apply total_modify. intros s [E Hs]. split; [done|]. by apply inv_domain. Qed.

Lemma entry_offset p i : mem_map_at (ptr_add p 8) i = ptr_add p (8 + Z.of_nat i * 16).
Proof. destruct p as [[b o]|]; [|done]. cbn. do 2 f_equal. lia. Qed.

Lemma entry_bound i (d : list Z) :
  (i < 255)%nat → length d = 4%nat →
  0 <= 8 + Z.of_nat i * 16 ∧
  (8 + Z.of_nat i * 16) / 4 + Z.of_nat (length d) <= ALIGNED_QDSS_SIZE / 4.
Proof.
  intros Hi ->. split; [lia|]. replace (8 + Z.of_nat i * 16) with ((2 + Z.of_nat i * 4) * 4) by lia.
  rewrite Z.div_mul by done. change (ALIGNED_QDSS_SIZE / 4) with 1024. lia.
Qed.

Lemma tracing_store a r F off d :
  is_Some (ma_virtual a) → 0 <= off → off / 4 + Z.of_nat (length d) <= ALIGNED_QDSS_SIZE / 4 →
  total (tracing a r F) (store (ptr_add (ma_virtual a) off) d) (λ _, tracing a r F).
Proof.
  intros Hv Ho Hd s [<- Hs]. destruct (inv_qdss _ _ _ Hs) as [Ha Hap].
  destruct (inv_store r F s _ _ off d Hs Ha Hap Hv Ho Hd) as (s' & E & Hs' & bs & -> & _).
  eexists _, _. by split; [exact E|].
Qed.

Lemma tracing_load a r F i :
  is_Some (ma_virtual a) → (i < 255)%nat →
  total (tracing a r F) (load (mem_map_at (ptr_add (ma_virtual a) 8) i) 4) (λ _, tracing a r F).
Proof.
  intros [[b o] Ev] Hi s [<- Hs]. destruct (inv_qdss _ _ _ Hs) as [Ha _].
  rewrite entry_offset, Ev in *. destruct Ha as [-> (m & E & Hl)].
  destruct (entry_bound i [0; 0; 0; 0] Hi eq_refl) as [Ho Hb].
  unfold load, ptr_add. srun. rewrite E. srun. rewrite Z.add_0_l.
  rewrite words_read_ok; [|by apply Z.div_pos|done|cbn in Hb; lia]. srun. by eexists _, _.
Qed.

Lemma map_entries_ok a r F domain tbl i iova :
  is_Some (ma_virtual a) → (i + length tbl <= 255)%nat →
  total (tracing a r F) (map_entries (ptr_add (ma_virtual a) 8) domain i iova tbl)
    (λ res s, (fst res <= i + length tbl)%nat ∧ tracing a r F s).
Proof.
  intros Hv. revert i iova. induction tbl as [|[start size] tbl IH]; intros i iova Hi; cbn [map_entries].
  { apply total_ret. intros s Hs. split; [cbn; lia|done]. }
  eapply (total_bind _ _ (λ _, tracing a r F)).
  { apply total_if; intros _; [|by apply total_ret]. unfold domain_map.
    eapply total_bind; [apply qext_tracing|]. intros rc.
    eapply (total_bind _ _ (λ _, tracing a r F)); [|intros ?; by apply total_ret].
    apply total_whenS; [intros _; apply tracing_domain|done]. }
  intros rc. apply total_if; intros Hrc; [apply total_ret; intros s Hs; split; [cbn; lia|done]|].
  cbn [length] in *. rewrite entry_offset.
  eapply total_bind.
  { destruct (entry_bound i [u32 (if domain then iova else start); start; size; 0]) as [Ho Hb]; [lia|done|].
    by apply tracing_store. }
  intros ?. eapply total_post; [apply IH; lia|]. intros [i' ?] s [Hle Hs]. split; [cbn in *; lia|done].
Qed.

Lemma unmap_entries_ok a r F i :
  is_Some (ma_virtual a) → (i <= 255)%nat →
  total (tracing a r F) (unmap_entries (ptr_add (ma_virtual a) 8) i) (λ _, tracing a r F).
Proof.
  intros Hv. induction i as [|i IH]; intros Hi; cbn [unmap_entries]; [by apply total_ret|].
  eapply total_bind; [apply tracing_load; [done|lia]|]. intros e. unfold domain_unmap.
  eapply (total_bind _ _ (λ _, tracing a r F)); [|intros ?; apply IH; lia].
  eapply total_bind; [apply qext_tracing|]. intros ?. apply tracing_domain.
Qed.

Lemma qdss_addr_ok a r F domain :
  is_Some (ma_virtual a) →
  total (tracing a r F) (__get_qdss_iommu_virtual_addr (ptr_add (ma_virtual a) 8) domain)
    (λ _, tracing a r F).
Proof.
  intros Hv. unfold __get_qdss_iommu_virtual_addr. apply total_if; intros _; [by apply total_ret|].
  eapply total_bind; [by apply (map_entries_ok a)|]. intros [i rc]. cbn [fst].
  apply total_pure. intros Hi.
  eapply (total_bind _ _ (λ _, tracing a r F)); [|intros ?; by apply total_ret].
  apply total_whenS; [intros _; apply unmap_entries_ok; [done|lia]|done].
Qed.

(** An allocation does not touch the trace area. *)
Lemma smem_alloc_qdss size flags s rc s' :
  __smem_alloc size flags s = Done (rc, s') → if_qdss s' = if_qdss s.
Proof.
  assert (Hpre : PreOrder (λ s s' : iface, if_qdss s' = if_qdss s)).
  { split; [by intros ?|]. intros s1 s2 s3 E1 E2. by rewrite E2. }
  assert (Hb : ∀ A (m : B A), rel (λ s s' : iface, if_qdss s' = if_qdss s) (in_bufs m)).
  { intros A m s1 a s2. unfold in_bufs. destruct (m _) as [[? ?]|]; [|done]. by intros [= _ <-]. }
  enough (Hrel : rel (λ s s' : iface, if_qdss s' = if_qdss s) (__smem_alloc size flags)) by apply Hrel.
  unfold __smem_alloc. apply (rel_bind _); [by apply rel_gets|]. intros mem.
  case_match; [by apply rel_ret|].
  apply (rel_bind _); [apply Hb|]. intros ?. apply (rel_bind _); [apply Hb|]. intros ?.
  case_match; [by apply rel_ret|]. apply (rel_bind _); [apply Hb|]. intros ?.
  apply (rel_bind _); [|intros ?; repeat (apply (rel_bind _); [|intros ?]);
    [by apply rel_modify|apply Hb|by apply rel_ret]].
  unfold map_block. case_match; [by apply rel_ret|].
  apply (rel_bind _); [by apply rel_gets|]. intros ?. apply (rel_bind _); [by apply rel_modify|].
  intros ?. by apply rel_ret.
Qed.

(** The object at [p] can be given back: what it holds is counted. *)
Definition freeable (p : Z) (b : bufs) : Prop :=
  ∀ a, b_smems b !! p = Some a → sm_dma_buf a ≠ 0 → 0 < ref_of (sm_dma_buf a) (b_refs b).

(** While the object is given back: it holds [d]. *)
Definition held (p d : Z) (b : bufs) : Prop :=
  (∃ a, b_smems b !! p = Some a ∧ sm_dma_buf a = d) ∧ (d ≠ 0 → 0 < ref_of d (b_refs b)).

Lemma held_mod p d f :
  p ∈ ps → (∀ a, sm_dma_buf (f a) = sm_dma_buf a) →
  total (λ b, bufs_ok ps b ∧ held p d b) (smem_mod p f) (λ _ b, bufs_ok ps b ∧ held p d b).
Proof.
  intros Hp Hf. apply mod_any; [done|]. intros b o [(o' & E & Hd) Hr] Eo. split; [|done].
  rewrite E in Eo. injection Eo as ->. exists (f o). cbn. by rewrite lookup_insert_eq, Hf.
Qed.

Lemma held_ext p d c :
  total (λ b, bufs_ok ps b ∧ held p d b) (bext c) (λ _ b, bufs_ok ps b ∧ held p d b).
Proof. by apply bext_any. Qed.

Lemma held_put_device p d :
  p ∈ ps →
  total (λ b, bufs_ok ps b ∧ held p d b) (msm_dma_put_device_address p)
    (λ _ b, bufs_ok ps b ∧ held p d b).
Proof.
  intros Hp. unfold msm_dma_put_device_address.
  eapply (total_bind _ _ (λ _ b, bufs_ok ps b ∧ held p d b)).
  { intros b [Hb Hh]. destruct (Hh) as [(o & E & _) _]. unfold smem_get. srun. rewrite E. srun.
    by eexists _, _. }
  intros o. apply total_if; intros _; [by apply total_ret|].
  do 2 (eapply total_bind; [apply held_ext|]; intros ?).
  eapply total_bind; [by apply held_mod|]. intros ?. by apply total_ret.
Qed.

Lemma held_put p d :
  p ∈ ps → d ≠ 0 →
  total (λ b, bufs_ok ps b ∧ held p d b)
    (msm_cvp_smem_put_dma_buf d ;; smem_mod p (λ a, a <| sm_dma_buf := 0 |>))
    (λ _ b, bufs_ok ps b ∧ anything b).
Proof.
  intros Hp Hd. eapply (total_bind _ _ (λ _ b, bufs_ok ps b ∧ anything b)).
  - intros b [[Hs Hr] [_ Hpos]]. unfold msm_cvp_smem_put_dma_buf. rewrite (proj2 (Z.eqb_neq _ _)) by done.
    srun. rewrite (proj2 (Z.leb_gt _ _)) by by apply Hpos. srun. eexists _, _. split; [done|].
    split; [|done]. split; [done|]. intros d'. unfold ref_of in *. cbn.
    destruct (decide (d' = d)) as [-> | Hne]; [rewrite lookup_insert_eq; cbn; specialize (Hpos Hd); lia|].
    rewrite lookup_insert_ne by done. apply Hr.
  - intros ?. by apply mod_any.
Qed.

Lemma free_ok p :
  p ∈ ps →
  total (λ b, bufs_ok ps b ∧ freeable p b) (msm_cvp_smem_free p) (λ _ b, bufs_ok ps b ∧ anything b).
Proof.
  intros Hp. unfold msm_cvp_smem_free. apply total_if; intros _; [by apply total_ret; intros b []|].
  unfold free_dma_mem.
  eapply (total_bind _ _ (λ o b, bufs_ok ps b ∧ held p (sm_dma_buf o) b)).
  { intros b [Hb Hf]. destruct (proj1 (list.Forall_forall _ _) (proj1 Hb) p Hp) as [_ [o Eo]].
    unfold smem_get. srun. rewrite Eo. srun. eexists _, _. split; [done|]. split; [done|].
    split; [by exists o|]. by apply Hf. }
  intros o.
  eapply (total_bind _ _ (λ _ b, bufs_ok ps b ∧ held p (sm_dma_buf o) b)).
  { apply total_whenS; [|done]. intros _. eapply total_bind; [by apply held_put_device|].
    intros ?. by apply held_mod. }
  intros ?. eapply (total_bind _ _ (λ _ b, bufs_ok ps b ∧ held p (sm_dma_buf o) b)).
  { apply total_whenS; [|done]. intros _. eapply total_bind; [apply held_ext|]. intros ?.
    eapply total_bind; [by apply held_mod|]. intros ?. eapply total_bind; [apply held_ext|].
    intros ?. by apply total_ret. }
  intros ?. eapply (total_bind _ _ (λ _ b, bufs_ok ps b ∧ anything b)); [|intros ?; by apply total_ret].
  apply total_whenS; [|by intros b _ [? _]]. intros Hd%negb_true_iff%Z.eqb_neq. by apply held_put.
Qed.

Lemma qdss_table_ok r :
  total (λ s, inv r anything s ∧ (is_Some (ma_virtual (if_qdss s)) → freeable (nth 3 ps 0) (if_bufs s)))
    qdss_table (λ rc s, inv r anything s ∧ (rc = 0 ∨ rc = - EINVAL)).
Proof.
  unfold qdss_table.
  eapply (total_bind _ _ (λ a s, ((ma_smem a = nth 3 ps 0 ∧ nth 3 ps 0 ∈ ps) ∧ if_qdss s = a) ∧
            inv r anything s ∧ (is_Some (ma_virtual a) → freeable (nth 3 ps 0) (if_bufs s)))).
  { apply total_gets. intros s [Hs Hf]. split_and!; try done; [apply (inv_smems _ _ _ Hs)|].
    eapply inv_in; [done|lia]. }
  intros a. apply total_if; intros Hv; [apply total_ret; intros s (_ & Hs & _); by auto|].
  apply negb_false_iff, bool_decide_eq_true in Hv.
  apply (total_pre _ (λ s, (ma_smem a = nth 3 ps 0 ∧ nth 3 ps 0 ∈ ps) ∧ tracing a r (freeable (nth 3 ps 0)) s)).
  2: { intros s [[? ?] [Hs Hf]]. split; [done|]. split; [done|]. destruct Hs as (? & ? & _).
       split; [done|]. split; [done|]. by apply Hf. }
  apply total_pure. intros [Ha Hin].
  eapply total_bind.
  { intros s Hs. destruct (tracing_store a r (freeable (nth 3 ps 0)) 0
      [Z.of_nat (length qdss_addr_tbl); u32_add (ma_device a) 8] Hv ltac:(lia) ltac:(by vm_compute) s Hs)
      as (u & s' & E & Hs'). exists u, s'. split; [|exact Hs'].
    destruct Hs as [<- Hs]. destruct (inv_qdss _ _ _ Hs) as [Hq _].
    destruct (ma_virtual (if_qdss s)) as [[b o]|]; [|done]. destruct Hq as [-> _]. exact E. }
  intros ?. destruct (msm_cvp_smem_get_context_bank 0) as [cb|];
    [|apply total_ret; intros s [_ Hs]; split; [by eapply inv_weaken|by right]].
  eapply total_bind; [by apply qdss_addr_ok|]. intros rc.
  eapply (total_bind _ _ (λ _, inv r anything)); [|intros ?; apply total_ret; by auto].
  apply total_whenS; [intros _|intros s' _ [_ Hs']; by eapply inv_weaken].
  rewrite Ha. eapply (total_bind _ _ (λ _ s, if_qdss s = a ∧ inv r anything s)).
  { apply (inv_bufs_with (λ s, if_qdss s = a)); [done|]. by apply free_ok. }
  intros ?. apply total_modify. intros s [Hq Hs].
  apply (inv_take_qdss _ _ _ ((if_qdss s) <| ma_virtual := None |> <| ma_device := 0 |>));
    [done|apply (inv_smems _ _ _ Hs)|done|]. cbn. unfold apart. by repeat case_match.
Qed.

Lemma qdss_memory_ok r :
  total (inv r anything) qdss_memory (λ rc s, inv r anything s ∧ (rc = 0 ∨ rc = - EINVAL)).
Proof.
  unfold qdss_memory.
  eapply (total_bind _ _ (λ t s, (ma_smem t = nth 3 ps 0 ∧ nth 3 ps 0 ∈ ps) ∧ if_qdss s = t ∧ inv r anything s)).
  { apply total_gets. intros s Hs. split; [|done]. split; [apply (inv_smems _ _ _ Hs)|].
    eapply inv_in; [done|lia]. }
  intros t. apply total_pure. intros [Ht Hin].
  apply total_if; intros Hv; [apply total_ret; intros s [_ Hs]; by auto|].
  apply bool_decide_eq_false in Hv.
  eapply (total_bind _ _ (λ _ s, inv r anything s ∧
            (is_Some (ma_virtual (if_qdss s)) → freeable (nth 3 ps 0) (if_bufs s)))).
  2: { intros ?. apply qdss_table_ok. }
  apply total_whenS.
  2: { intros s _ [Hq Hs]. split; [done|]. by rewrite Hq. }
  intros _. eapply (total_bind _ _ (λ rc s, if_qdss s = t ∧ alloc_post r ALIGNED_QDSS_SIZE rc s)).
  { intros s [Hq Hs]. destruct (smem_alloc_ok r ALIGNED_QDSS_SIZE SMEM_UNCACHED) with s
      as (rc & s' & E & Hp); [done..|]. exists rc, s'. split; [done|]. split; [|done].
    by rewrite <- Hq, (smem_alloc_qdss _ _ _ _ _ E). }
  intros rc. unfold alloc_post. destruct (rc =? 0) eqn:Hrc; cbn [negb].
  2: { apply total_modify. intros s [Hq Hs]. pose proof (inv_qdss _ _ _ Hs) as [? ?].
       split; [by apply inv_take_qdss; [|apply (inv_smems _ _ _ Hs)|..]|]. cbn. by rewrite Hq. }
  eapply (total_bind _ _ (λ _ s, True ∧ inv r (allocated mem_smem ALIGNED_QDSS_SIZE) s)).
  { apply total_modify. intros s (_ & (Hv' & Ha & Hap & _) & Hs). split; [done|]. by apply inv_take_qdss. }
  intros ?. rewrite Ht. eapply total_post; [by apply (copy_ok (λ _, True))|].
  intros ? s [_ Hs]. split; [by eapply inv_weaken|]. intros _.
  destruct Hs as (_ & _ & o & E & _ & _ & Hr). intros o' E' _. rewrite E in E'. by injection E' as <-.
Qed.

(** ** The queues of the DSP, and the whole *)

Lemma inv_dsp r F s dq : inv r F s → dsp_wf dq → inv r F (s <| if_dsp := dq |>).
Proof. intros (([] & Hps & Hr) & HF) Hd. by split; [split; [constructor|]|]. Qed.

Lemma qext_inv r F c : total (inv r F) (qext c) (λ _, inv r F).
Proof.
  eapply total_conseq; [apply (qext_ok r F (λ _, True)); done|by intros s|by intros ? s [_ ?]].
Qed.

Lemma dsp_alloc_ok r F n size : total (inv r F) (dsp_alloc n size) (λ _, inv r F).
Proof.
  induction n as [|n IH]; cbn [dsp_alloc]; [by apply total_ret|].
  eapply total_bind; [apply qext_inv|]. intros v. apply total_if; intros _; [|by apply total_ret].
  eapply total_bind; [apply qext_inv|]. intros ?. destruct n; [by apply total_ret|apply IH].
Qed.

Definition dsp_post (r : bool) (F : bufs → Prop) (rc : Z) (s : iface) : Prop :=
  inv r F s ∧ (rc = 0 → dsp_ready (if_dsp s)) ∧ (rc = 0 ∨ rc = - ENOMEM).

Lemma dsp_queues_ok r F : total (inv r F) __interface_dsp_queues_init (dsp_post r F).
Proof.
  assert (Hfail : ∀ s, inv r F s → dsp_post r F (- ENOMEM) s).
  { intros s Hs. split; [done|]. split; [done|by right]. }
  unfold __interface_dsp_queues_init.
  eapply (total_bind _ _ (λ dq s, dsp_wf dq ∧ inv r F s)).
  { apply total_gets. intros s Hs. split; [|done]. by destruct Hs as (([] & _) & _). }
  intros dq. apply total_pure. intros Hdq. apply total_if; intros Hv.
  { pose proof (dsp_wf_zero _ Hdq) as Hz. apply dsp_init_ready in Hz as [Hr Hw]; [|exact Hv].
    eapply (total_bind _ _ (λ _, dsp_post r F 0)); [|intros ?; by apply total_ret].
    apply total_modify. intros s Hs. split; [by apply inv_dsp|]. by auto. }
  eapply total_bind; [apply dsp_alloc_ok|]. intros kv. apply total_if; intros _; [by apply total_ret|].
  eapply total_bind; [apply qext_inv|]. intros handle.
  destruct (msm_cvp_smem_get_context_bank SMEM_CDSP) as [cb|].
  2: { eapply total_bind; [apply qext_inv|]. intros ?. by apply total_ret. }
  eapply total_bind; [apply qext_inv|]. intros iova. apply total_if; intros _.
  { eapply total_bind; [apply qext_inv|]. intros ?. by apply total_ret. }
  eapply (total_bind _ _ (λ _, inv r F)); [by apply total_gets|]. intros n.
  set (m := fresh_words n (Z.to_nat (ALIGN DSP_QUEUE_SIZE SZ_1M / 4))).
  assert (Hm : DSP_QUEUE_SIZE / 4 <= Z.of_nat (length m)).
  { unfold m. rewrite Hfresh, Z2Nat.id; by vm_compute. }
  set (fwb := if is_iommu_present then 0 else firmware_base).
  pose proof (fresh_dsp_wf handle (ALIGN DSP_QUEUE_SIZE SZ_1M) (dq_header dq) m (iova - fwb) Hm) as Hz.
  apply dsp_init_ready in Hz as [Hr Hw]; [|done].
  eapply (total_bind _ _ (λ _, dsp_post r F 0)); [|intros ?; by apply total_ret].
  apply total_modify. intros s Hs. split; [by apply inv_dsp|]. by auto.
Qed.

Lemma ucregion_ok r F (K : iface → Prop) :
  (∀ s t, K s → K (s <| if_trace := t |>)) →
  total (λ s, K s ∧ inv r F s) __setup_ucregion_memory_map (λ _ s, K s ∧ inv r F s).
Proof.
  intros HK. unfold __setup_ucregion_memory_map.
  eapply (total_bind _ _ (λ _ s, K s ∧ inv r F s)); [by apply total_gets|]. intros s.
  do 4 (eapply total_bind; [by apply qext_ok|]; intros ?).
  do 2 (eapply (total_bind _ _ (λ _ s, K s ∧ inv r F s));
    [apply total_whenS; [intros _; eapply total_bind; [by apply qext_ok|intros ?; by apply total_ret]|done]|];
    intros ?).
  eapply total_bind; [by apply qext_ok|]. intros ?. by apply total_ret.
Qed.

Lemma interface_queues_init_inv r :
  total (inv r anything) __interface_queues_init
    (λ rc s, inv false anything s ∧ (rc = 0 → firmware_ready s ∧ dsp_ready (if_dsp s)) ∧
             (rc = 0 ∨ rc = - ENOMEM ∨ rc = - EINVAL)).
Proof.
  assert (Hweak : ∀ s, inv true anything s → inv false anything s).
  { intros s ((? & ? & _) & ?). by split. }
  unfold __interface_queues_init. eapply total_bind; [apply queue_memory_ok|]. intros rc.
  apply total_if; intros Hrc.
  { apply total_ret. intros s [Hs _]. split; [done|]. split; [done|by right; left]. }
  eapply total_bind.
  { eapply total_pre; [apply hfi_queue_init_inv|]. intros s [Hs Hr]. split; [|done].
    apply Hr. by zify_bool. }
  intros ?. eapply total_bind; [apply sfr_memory_ok|]. intros ?.
  eapply total_bind; [apply sfr_init_ok|]. intros ?.
  eapply total_bind; [apply qdss_memory_ok|]. intros rc2. apply total_if; intros Hrc2.
  { apply total_ret. intros s [Hs Hr]. zify_bool. split; [by apply Hweak|]. split; [done|].
    destruct Hr; [done|by auto]. }
  eapply total_bind; [eapply total_pre; [apply dsp_queues_ok|by intros s [? _]]|]. intros rc3.
  apply total_if; intros Hrc3.
  { apply total_ret. intros s [Hs _]. split; [by apply Hweak|]. split; [done|by auto]. }
  eapply (total_bind _ _ (λ _ s, dsp_ready (if_dsp s) ∧ inv true anything s)).
  { eapply total_pre; [by apply (ucregion_ok _ _ (λ s, dsp_ready (if_dsp s)))|].
    intros s (Hs & Hr & _). split; [apply Hr; by zify_bool|done]. }
  intros ?. apply total_ret. intros s [Hd Hs]. split; [by apply Hweak|]. split; [|by left].
  intros _. split; [|done]. by destruct Hs as ((_ & _ & Hr) & _); apply Hr.
Qed.

End init.

(** * Properties *)


(** C27. The queues do not share a word: what is stored in the header and the ring of one
    queue is what a reader of that queue sees, and no reader of another queue sees it. *)
Theorem queues_do_not_overlap s i j qi qj sh :
  interface_ok s → firmware_ready s → well_sized sh →
  if_iface_queues s !! i = Some qi → if_iface_queues s !! j = Some qj → i ≠ j →
  let blocks := queue_store (if_blocks s) qi sh in
  q_shared (queue_view blocks qi) = sh ∧ queue_view blocks qj = queue_view (if_blocks s) qj.
Proof.
  intros [Ha _] (b & Ev & Hq & _) Hsh. rewrite Hq, !list_lookup_fmap.
  intros (i' & Ei & ->)%fmap_Some (j' & Ej & ->)%fmap_Some Hij.
  apply lookup_seq in Ei as [-> Hi]. apply lookup_seq in Ej as [-> Hj].
  pose proof (ar_table _ Ha) as Ht. rewrite Ev in Ht. destruct Ht as [_ (m & E & Hl)].
  assert (Hn : (TABLE_WORDS + 3 * RING_WORDS <= length m)%nat).
  { pose proof ring_words_of. unfold TABLE_WORDS. change (q_size / 4) with 785408 in Hl. lia. }
  split; [by apply (queue_store_view _ _ m)|by apply (queue_store_other _ _ m)].
Qed.

(** * A concrete set-up *)
Module SetupScenario.

(** Every allocation succeeds; the device addresses are pages. *)
Definition env : BufEnv := {|
  b_answer n c := match c with
    | Sgl_dma_address _ => u32 (0x80000000 + 4096 * Z.of_nat n)
    | Dma_buf_unmap _ | Dma_buf_detach _ => 0
    | _ => 4096
    end;
  b_dma_buf_size _ := 0;
  b_hfi_ver := 2;
  b_cvp_hfi_defs := ∅;
  b_context_banks := [("eva_hlos", false); ("cvp_dsp", false)]%string;
  is_iommu_present := true;
  msm_cvp_cacheop_disabled := false;
  msm_cvp_iova_leak_recovery := true;
  ipcc_reg_base_iova := 0;
  ipcc_reg_size := 0
|}.

Definition setup_env : SetupEnv := {|
  q_answer _ c := match c with Iommu_map _ _ _ => 0 | _ => 8192 end;
  fresh_words _ k := replicate k 0;
  qdss_addr_tbl := [(0x10000, 4096); (0x20000, 8192)];
  firmware_base := 0;
  msm_cvp_fw_debug_mode := HFI_DEBUG_MODE_QDSS;
  cb_domain := true;
  device_ptr_lo := 0;
  device_ptr_hi := 0
|}.

(** Nothing is allocated: the smem objects of the four areas are clear. *)
Definition no_bufs : bufs :=
  mkBufs (list_to_map [(1, smem_zero); (2, smem_zero); (3, smem_zero); (4, smem_zero)]) ∅
    rb_null 0 0 [] [] [] 0 None (mkFbufs 0 0 ∅) (mkFbufs 0 0 ∅) 0 0 0 0 0 false 0 false 0 [].

Definition probed : iface :=
  mkIface no_bufs [] (mkMemAddr 0 None 0 1) (mkMemAddr 0 None 0 2) (mkMemAddr 0 None 0 3)
    (mkMemAddr 0 None 0 4) (replicate 3 iface_q_zero)
    (mkDq false 0 0 (mkQtbl 0 0 0 0 0 0) []) [] [].

Lemma probed_ok : interface_ok probed.
Proof.
  split.
  - constructor; try done. intros [? ?]. done.
  - split; [|done]. repeat (constructor; [split; [done|by eexists]|]). constructor.
Qed.

Definition result {A} (o : outcome (A * iface)) (d : A) : A * iface :=
  match o with Done r => r | Fault => (d, probed) end.

Lemma setup_returns_0 :
  fst (result (@__interface_queues_init env setup_env probed) 1) = 0.
Proof. by vm_compute. Qed.

Lemma fresh_sizes n k : length (@fresh_words setup_env n k) = k.
Proof. apply length_replicate. Qed.

Lemma setup_iovas n t : @b_answer env n (Sgl_dma_address t) < 2 ^ 32.
Proof. apply u32_range. Qed.

Lemma setup_entries : (length (@qdss_addr_tbl setup_env) <= 255)%nat.
Proof. vm_compute. repeat constructor. Qed.

Lemma ready_state : ∃ s, interface_ok s ∧ firmware_ready s.
Proof.
  destruct (@interface_queues_init_inv env setup_env setup_iovas fresh_sizes setup_entries
    (smems_of probed) false probed) as (rc & s & E & Hs & Hr & _).
  { destruct probed_ok. by split. }
  pose proof setup_returns_0 as Hrc. rewrite E in Hrc. cbn in Hrc. subst rc.
  exists s. destruct Hs as ((Ha & Hps & _) & Hb & _). destruct (Hr eq_refl) as [Hf _].
  split; [split; [done|by rewrite Hps]|done].
Qed.

(** A device address beyond 32 bits is truncated, the allocation reports success without a
    kernel mapping, and the set-up writes through a null pointer. *)
Definition high_env : BufEnv := {|
  b_answer n c := match c with Sgl_dma_address _ => 2 ^ 32 | _ => 4096 end;
  b_dma_buf_size _ := 0;
  b_hfi_ver := 2;
  b_cvp_hfi_defs := ∅;
  b_context_banks := [("eva_hlos", false)]%string;
  is_iommu_present := true;
  msm_cvp_cacheop_disabled := false;
  msm_cvp_iova_leak_recovery := true;
  ipcc_reg_base_iova := 0;
  ipcc_reg_size := 0
|}.

Lemma truncated_iova_faults : @__interface_queues_init high_env setup_env probed = Fault.
Proof. by vm_compute. Qed.


(** The command queue is overwritten; the message queue is not touched. *)
Definition garbage : qshared := mkShared (qhdr_of_words (replicate 14 7)) (replicate RING_WORDS 7).

Lemma queues_do_not_overlap_witness :
  ∃ s cmdq msgq, if_iface_queues s !! 0%nat = Some cmdq ∧ if_iface_queues s !! 1%nat = Some msgq ∧
    q_shared (queue_view (queue_store (if_blocks s) cmdq garbage) cmdq) = garbage ∧
    queue_view (queue_store (if_blocks s) cmdq garbage) msgq = queue_view (if_blocks s) msgq.
Proof.
  destruct ready_state as (s & Hs & Hr). destruct (Hr) as (b & _ & Hq & _).
  exists s, (laid_out (ma_device (if_iface_q_table s)) b 0), (laid_out (ma_device (if_iface_q_table s)) b 1).
  split; [by rewrite Hq|]. split; [by rewrite Hq|].
  apply (queues_do_not_overlap s 0 1 _ _ garbage Hs Hr); [apply length_replicate|by rewrite Hq..|done].
Defined.

End SetupScenario.
