(* ===== verification/QdssMap.v ===== *)
(** The mapping of the trace area's address ranges
    (src/msm/eva/cvp_hfi.c, [__get_qdss_iommu_virtual_addr], modelled in QueueSetup.v):
    either every range of the platform is mapped, one behind the other, and listed in the
    table in memory, or none is. *)

From S2P Require Import Prelude HfiTypes HfiQueue Store Smem QueueMem QueueSetup.
Open Scope Z_scope.
Open Scope cvp_scope.

(** The entries of the table: the ranges, mapped one behind the other from [iova] on. *)
Fixpoint entries (iova : Z) (tbl : list (Z * Z)) : list (Z * Z * Z) :=
  match tbl with
  | [] => []
  | (start, size) :: tbl => (iova, start, size) :: entries (iova + size) tbl
  end.

Definition entry_words (e : Z * Z * Z) : list Z := let '(iova, start, size) := e in [iova; start; size; 0].
Definition entry_mapping (e : Z * Z * Z) : Z * Z := let '(iova, start, size) := e in (iova, size).

(** The end of the ranges mapped from [iova] on. *)
Definition end_of (iova : Z) (tbl : list (Z * Z)) : Z := fold_left (λ a r, a + snd r) tbl iova.

Lemma length_entries iova tbl : length (entries iova tbl) = length tbl.
Proof. revert iova. induction tbl as [|[st sz] tbl IH]; intros iova; [done|]. cbn. by rewrite IH. Qed.

Lemma end_of_le iova tbl : Forall (λ r, 0 <= snd r) tbl → iova <= end_of iova tbl.
Proof.
  revert iova. induction tbl as [|[st sz] tbl IH]; intros iova Hs; [done|].
  inversion_clear Hs as [|? ? H1 H2]. cbn [snd] in H1. specialize (IH (iova + sz) H2). unfold end_of in *. cbn [fold_left snd]. lia.
Qed.

Lemma remove_head x l : remove_one x (x :: l) = l.
Proof. unfold remove_one. cbn. by rewrite decide_True. Qed.

Section mapping.
Context `{!SetupEnv}.
Abbreviation total := Store.total.
Context (b : nat) (off n : Z) (D : list (Z * Z)).
Context (Hoff : 0 <= off).

(** Entry [i] in the words [m] of the block. *)
Definition entry_word (i : nat) : nat := (Z.to_nat (off / 4) + 4 * i)%nat.

(** The domain is [d], and the table in the block starts with the entries [l]. *)
Definition table_of (d : list (Z * Z)) (l : list (Z * Z * Z)) (s : iface) : Prop :=
  if_domain s = d ∧
  ∃ m, if_blocks s !! b = Some m ∧ Z.of_nat (length m) = n ∧
       ∀ i e, l !! i = Some e → slice m (entry_word i) 4 = entry_words e.

(** The ranges of the entries [l] are mapped. *)
Definition mapped (l : list (Z * Z * Z)) : iface → Prop :=
  table_of (rev (map entry_mapping l) ++ D) l.

Lemma entry_at i :
  mem_map_at (Some (b, off)) i = Some (b, off + Z.of_nat i * 16) ∧
  0 <= off + Z.of_nat i * 16 ∧ (off + Z.of_nat i * 16) / 4 = Z.of_nat (entry_word i).
Proof.
  split; [done|]. split; [lia|]. replace (off + Z.of_nat i * 16) with (off + (4 * Z.of_nat i) * 4) by lia.
  rewrite Z.div_add by done. unfold entry_word. pose proof (Z.div_pos off 4 Hoff ltac:(lia)). lia.
Qed.

(** The entry after the ones in the table is written behind them. *)
Lemma store_entry d l e :
  Z.of_nat (entry_word (length l)) + 4 <= n →
  total (table_of d l) (store (mem_map_at (Some (b, off)) (length l)) (entry_words e))
    (λ _, table_of d (l ++ [e])).
Proof.
  intros Hn s (Hd & m & E & Hm & Hl). destruct (entry_at (length l)) as (-> & Ho & Hw).
  assert (Hlen : length (entry_words e) = 4%nat) by by destruct e as [[? ?] ?].
  unfold store. srun. rewrite E. srun. rewrite Hw, words_write_splice, Nat2Z.id by lia. srun.
  eexists _, _. split; [done|]. split; [done|]. eexists. split.
  { cbn -[insert]. apply list_lookup_insert_eq. by eapply lookup_lt_Some. }
  split; [by rewrite length_splice by lia|]. intros i e' Hi.
  destruct (decide (i < length l)%nat) as [Hlt|Hge].
  - rewrite lookup_app_l in Hi by done. rewrite slice_splice_other; [by apply Hl|lia|].
    left. unfold entry_word. lia.
  - assert (i = length l) as ->.
    { apply lookup_lt_Some in Hi. rewrite length_app in Hi. cbn in Hi. lia. }
    rewrite lookup_app_r, Nat.sub_diag in Hi by done. injection Hi as <-.
    rewrite <- Hlen. apply slice_splice_same. lia.
Qed.

Lemma load_entry d l e :
  Z.of_nat (entry_word (length l)) + 4 <= n →
  total (table_of d (l ++ [e])) (load (mem_map_at (Some (b, off)) (length l)) 4)
    (λ w s, w = entry_words e ∧ table_of d l s).
Proof.
  intros Hn s (Hd & m & E & Hm & Hl). destruct (entry_at (length l)) as (-> & Ho & Hw).
  unfold load. srun. rewrite E. srun. rewrite Hw, words_read_slice, Nat2Z.id by lia. srun.
  eexists _, _. split; [done|]. split.
  - apply Hl. rewrite lookup_app_r, Nat.sub_diag by done. done.
  - split; [done|]. exists m. split_and!; [done..|]. intros i e' Hi. apply Hl.
    by apply lookup_app_l_Some.
Qed.

Lemma domain_map_ok d l iova start size :
  total (table_of d l) (domain_map iova start size)
    (λ rc, table_of (if rc =? 0 then (iova, size) :: d else d) l).
Proof.
  unfold domain_map. eapply (total_bind _ _ (λ _, table_of d l)).
  { intros s Hs. by eexists _, _. }
  intros rc. eapply (total_bind _ _ (λ _, table_of (if rc =? 0 then (iova, size) :: d else d) l)).
  - apply total_whenS; [|by intros s ->]. intros ->. apply total_modify. intros s (Hd & Hm).
    split; [cbn; by rewrite Hd|done].
  - intros ?. by apply total_ret.
Qed.

Lemma domain_unmap_ok d l iova size :
  total (table_of ((iova, size) :: d) l) (domain_unmap iova size) (λ _, table_of d l).
Proof.
  unfold domain_unmap. eapply (total_bind _ _ (λ _, table_of ((iova, size) :: d) l)).
  { intros s Hs. by eexists _, _. }
  intros ?. apply total_modify. intros s (Hd & Hm). split; [|done].
  change (remove_one (iova, size) (if_domain s) = d). by rewrite Hd, remove_head.
Qed.

Lemma mapped_snoc l e :
  rev (map entry_mapping (l ++ [e])) ++ D = entry_mapping e :: rev (map entry_mapping l) ++ D.
Proof. rewrite map_app, rev_app_distr. done. Qed.

Lemma map_entries_spec tbl iova l :
  0 <= iova → end_of iova tbl < 2 ^ 32 → Forall (λ r, 0 <= snd r) tbl →
  Z.of_nat (entry_word (length l + length tbl)) <= n →
  total (mapped l) (map_entries (Some (b, off)) true (length l) iova tbl)
    (λ res s, ∃ k, fst res = (length l + k)%nat ∧ mapped (l ++ take k (entries iova tbl)) s ∧
       (snd res = 0 ∧ k = length tbl ∨ snd res = - ENOMEM ∧ (k < length tbl)%nat)).
Proof.
  revert iova l. induction tbl as [|[start size] tbl IH]; intros iova l Hi He Hs Hn; cbn [map_entries].
  { apply total_ret. intros s Hm. exists 0%nat. rewrite take_0, app_nil_r. cbn. split; [lia|]. by auto. }
  inversion_clear Hs as [|? ? Hsz Hs']. cbn [snd] in Hsz.
  assert (Hle : iova + size <= end_of (iova + size) tbl) by by apply end_of_le.
  assert (He' : end_of (iova + size) tbl < 2 ^ 32) by done.
  cbn [length] in Hn. unfold entry_word in Hn.
  eapply total_bind; [apply domain_map_ok|]. intros rc. cbn beta.
  destruct (rc =? 0) eqn:Hrc; cbn [negb].
  2: { apply total_ret. intros s Hm. exists 0%nat. rewrite take_0, app_nil_r. cbn. split; [lia|].
       split; [exact Hm|]. right. split; [reflexivity|lia]. }
  rewrite (u32_small iova), (u64_small (iova + size)) by (unfold is_u32, is_u64; lia).
  eapply total_bind.
  { apply (store_entry _ l (iova, start, size)). unfold entry_word. lia. }
  intros ?. pose proof (mapped_snoc l (iova, start, size)) as Hsn. cbn [entry_mapping] in Hsn.
  rewrite <- Hsn. fold (mapped (l ++ [(iova, start, size)])).
  assert (Hlen : S (length l) = length (l ++ [(iova, start, size)])) by (rewrite length_app; cbn; lia).
  rewrite Hlen. eapply total_post.
  { apply IH; [lia|done|done|]. rewrite length_app. unfold entry_word. cbn [length]. lia. }
  intros [i rc'] s (k & Hk & Hm & Hr). cbn [fst snd] in *. exists (S k).
  rewrite length_app in Hk. cbn [length] in *. split; [lia|]. split.
  - rewrite <- app_assoc in Hm. exact Hm.
  - destruct Hr as [[? ?]|[? ?]]; [left|right]; (split; [done|lia]).
Qed.

Lemma unmap_entries_spec l :
  Z.of_nat (entry_word (length l)) <= n →
  total (mapped l) (unmap_entries (Some (b, off)) (length l)) (λ _ s, if_domain s = D).
Proof.
  induction l as [|e l IH] using rev_ind; intros Hn.
  { cbn [length unmap_entries]. apply total_ret. by intros s [? _]. }
  rewrite length_app, Nat.add_1_r in *. unfold entry_word in Hn. cbn [unmap_entries]. eapply total_bind.
  { eapply load_entry. unfold entry_word. lia. }
  intros w. apply total_pure. intros ->. rewrite mapped_snoc. destruct e as [[iova start] size].
  cbn [entry_words nth entry_mapping]. eapply total_bind; [apply domain_unmap_ok|].
  intros ?. apply IH. unfold entry_word. lia.
Qed.

End mapping.

(** Mapping the trace area's ranges is all or nothing: when the routine succeeds, the
    domain has gained exactly the platform's ranges, one behind the other from
    [QDSS_IOVA_START] on, and the table in memory lists them; when it fails, whichever range
    the IOMMU refused, every range mapped before it is unmapped again. *)
Theorem qdss_mapping_all_or_nothing `{!SetupEnv} b off m s :
  if_blocks s !! b = Some m → 0 <= off →
  off / 4 + 4 * Z.of_nat (length qdss_addr_tbl) <= Z.of_nat (length m) →
  Forall (λ r, 0 <= snd r) qdss_addr_tbl → end_of QDSS_IOVA_START qdss_addr_tbl < 2 ^ 32 →
  ∃ rc s', __get_qdss_iommu_virtual_addr (Some (b, off)) true s = Done (rc, s') ∧
    let es := entries QDSS_IOVA_START qdss_addr_tbl in
    (rc = 0 ∧ if_domain s' = rev (map entry_mapping es) ++ if_domain s ∧
       ∃ m', if_blocks s' !! b = Some m' ∧
             ∀ i e, es !! i = Some e → slice m' (entry_word off i) 4 = entry_words e)
    ∨ (rc = - ENODATA ∨ rc = - ENOMEM) ∧ if_domain s' = if_domain s.
Proof.
  intros Hb Hoff Hn Hs He. unfold __get_qdss_iommu_virtual_addr.
  case_bool_decide as Hnil; [by eexists _, _; split; [done|right; split; [left|]]|].
  assert (Hw : ∀ k, (k <= length qdss_addr_tbl)%nat →
    Z.of_nat (entry_word off k) <= Z.of_nat (length m)).
  { intros k Hk. unfold entry_word. pose proof (Z.div_pos off 4 Hoff ltac:(lia)). lia. }
  set (n := Z.of_nat (length m)) in *.
  destruct (map_entries_spec b off n (if_domain s) Hoff qdss_addr_tbl QDSS_IOVA_START [])
    with s as ([i rc] & s1 & E & k & Hk & Hm & Hr); [done|done|done|by apply Hw|..].
  { split; [done|]. exists m. split_and!; [done..|]. by intros ? ?. }
  cbn [length app fst snd] in *. rewrite St_bind_run, E. cbn [obind fst snd]. subst i.
  destruct Hr as [[-> ->]|[-> Hlt]].
  - rewrite (proj2 (Nat.ltb_ge _ _)) by done. srun. eexists _, _. split; [done|]. left.
    assert (Hfull : take (length qdss_addr_tbl) (entries QDSS_IOVA_START qdss_addr_tbl)
                    = entries QDSS_IOVA_START qdss_addr_tbl).
    { apply take_ge. by rewrite length_entries. }
    rewrite Hfull in Hm. destruct Hm as (Hd & m' & E' & _ & Hl). split; [done|]. split; [done|]. by exists m'.
  - rewrite (proj2 (Nat.ltb_lt _ _)) by done. cbn [andb whenS]. rewrite St_bind_run.
    assert (Hlen : length (take k (entries QDSS_IOVA_START qdss_addr_tbl)) = k).
    { rewrite length_take, length_entries. lia. }
    destruct (unmap_entries_spec b off n (if_domain s) Hoff
      (take k (entries QDSS_IOVA_START qdss_addr_tbl))) with s1 as (u & s2 & E2 & Hd);
      [rewrite Hlen; apply Hw; lia|exact Hm|].
    rewrite Hlen in E2. rewrite Nat.add_0_l, E2. srun. eexists _, _. split; [done|]. right. by split; [right|].
Qed.

(** * A concrete platform *)
Module QdssScenario.

(** Three ranges; the IOMMU refuses the third. *)
Definition refuse_third : SetupEnv := {|
  q_answer n c := match c with Iommu_map _ _ _ => if Nat.eqb n 2 then -12 else 0 | _ => 0 end;
  fresh_words _ k := replicate k 0;
  qdss_addr_tbl := [(0x10000, 4096); (0x20000, 8192); (0x30000, 4096)];
  firmware_base := 0;
  msm_cvp_fw_debug_mode := HFI_DEBUG_MODE_QDSS;
  cb_domain := true;
  device_ptr_lo := 0;
  device_ptr_hi := 0
|}.

Definition area : iface :=
  mkIface (mkBufs ∅ ∅ rb_null 0 0 [] [] [] 0 None (mkFbufs 0 0 ∅) (mkFbufs 0 0 ∅) 0 0 0 0 0
      false 0 false 0 [])
    [replicate 16 0] (mkMemAddr 0 None 0 1) (mkMemAddr 0 None 0 2) (mkMemAddr 0 None 0 3)
    (mkMemAddr 0 (Some (0%nat, 0)) 64 4) [] (Dsp.mkDq false 0 0 (Dsp.mkQtbl 0 0 0 0 0 0) []) [(5, 6)] [].

Definition result {A} (o : outcome (A * iface)) : option (A * list (Z * Z)) :=
  match o with Done (a, s) => Some (a, if_domain s) | Fault => None end.

Lemma qdss_mapping_all_or_nothing_witness :
  result (@__get_qdss_iommu_virtual_addr refuse_third (Some (0%nat, 8)) true area)
    = Some (- ENOMEM, [(5, 6)]) ∧
  ∃ rc s', @__get_qdss_iommu_virtual_addr refuse_third (Some (0%nat, 8)) true area = Done (rc, s') ∧
    if_domain s' = if_domain area.
Proof.
  assert (Hrun : result (@__get_qdss_iommu_virtual_addr refuse_third (Some (0%nat, 8)) true area)
    = Some (- ENOMEM, [(5, 6)])) by by vm_compute.
  split; [exact Hrun|].
  destruct (@qdss_mapping_all_or_nothing refuse_third 0 8 (replicate 16 0) area)
    as (rc & s' & E & Hr); [done|done|by vm_compute|repeat constructor; done|done|].
  exists rc, s'. split; [exact E|]. rewrite E in Hrun. injection Hrun as Hrc Hd.
  destruct Hr as [[Hz _]|[_ Hr]]; [by rewrite Hz in Hrc|exact Hr].
Defined.

End QdssScenario.
