(* ===== verification/PakalaIo.v ===== *)
(** The registers of the processor (src/msm/eva/target/cvp_pakala_io.h): the offsets and bit
    masks that the power sequences use, in the header that a build for the Pakala target
    selects (cvp_hfi_io.h). *)

From S2P Require Import Prelude.
Open Scope Z_scope.

Definition CVP_TOP_BASE_OFFS : Z := 0x00000000.
Definition CVP_SS_IDLE_STATUS : Z := CVP_TOP_BASE_OFFS + 0x50.
Definition CVP_CPU_BASE_OFFS : Z := 0x000A0000.
Definition CVP_AON_BASE_OFFS : Z := 0x000E0000.
Definition CVP_CPU_CS_VMIMSG : Z := CVP_CPU_BASE_OFFS + 0x34.
Definition CVP_CPU_CS_VMIMSGAG0 : Z := CVP_CPU_BASE_OFFS + 0x38.
Definition CVP_CPU_CS_VMIMSGAG1 : Z := CVP_CPU_BASE_OFFS + 0x3C.
Definition CVP_CPU_CS_AXI4_QOS : Z := CVP_CPU_BASE_OFFS + 0x13C.
Definition CVP_CPU_CS_SCIACMDARG0 : Z := CVP_CPU_BASE_OFFS + 0x4C.
Definition CVP_AHB_BRIDGE_SYNC_RESET : Z := CVP_CPU_BASE_OFFS + 0x160.
Definition CVP_CPU_CS_X2RPMh : Z := CVP_CPU_BASE_OFFS + 0x168.
Definition CVP_CPU_CS_X2RPMh_SWOVERRIDE_BMSK : Z := 0x4.
Definition CVP_CPU_CS_X2RPMh_STATUS : Z := CVP_CPU_BASE_OFFS + 0x170.
Definition CVP_WRAPPER_BASE_OFFS : Z := 0x000B0000.
Definition CVP_SS_IRQ_MASK : Z := CVP_TOP_BASE_OFFS + 0x04.
Definition CVP_SS_INTR_BMASK : Z := 0x100.
Definition CVP_WRAPPER_INTR_MASK : Z := CVP_WRAPPER_BASE_OFFS + 0x10.
Definition CVP_WRAPPER_INTR_MASK_CPU_NOC_BMSK : Z := 0x40.
Definition CVP_WRAPPER_INTR_MASK_CORE_NOC_BMSK : Z := 0x20.
Definition CVP_FATAL_INTR_BMSK : Z := Z.lor CVP_WRAPPER_INTR_MASK_CPU_NOC_BMSK CVP_WRAPPER_INTR_MASK_CORE_NOC_BMSK.
Definition CVP_WRAPPER_INTR_MASK_A2HCPU_BMSK : Z := 0x4.
Definition CVP_WRAPPER_TZ_BASE_OFFS : Z := 0x000C0000.
Definition CVP_WRAPPER_CPU_STATUS : Z := CVP_WRAPPER_TZ_BASE_OFFS + 0x10.
Definition CVP_WRAPPER_DEBUG_BRIDGE_LPI_CONTROL : Z := CVP_WRAPPER_BASE_OFFS + 0x54.
Definition CVP_WRAPPER_DEBUG_BRIDGE_LPI_STATUS : Z := CVP_WRAPPER_BASE_OFFS + 0x58.
Definition CVP_WRAPPER_CPU_NOC_LPI_CONTROL : Z := CVP_WRAPPER_BASE_OFFS + 0x5C.
Definition CVP_WRAPPER_CPU_NOC_LPI_STATUS : Z := CVP_WRAPPER_BASE_OFFS + 0x60.
Definition CVP_WRAPPER_CORE_CLOCK_CONFIG : Z := CVP_WRAPPER_BASE_OFFS + 0x88.
Definition CVP_CTRL_STATUS : Z := CVP_CPU_CS_SCIACMDARG0.
Definition HFI_DSP_QTBL_ADDR : Z := CVP_CPU_CS_VMIMSG.
Definition HFI_DSP_UC_REGION_ADDR : Z := CVP_CPU_CS_VMIMSGAG0.
Definition HFI_DSP_UC_REGION_SIZE : Z := CVP_CPU_CS_VMIMSGAG1.
Definition CVP_WRAPPER_XTS_OFFS : Z := 0x000C0000.
Definition CVP_WRAPPER_XTSS_SW_RESET_RO : Z := CVP_WRAPPER_XTS_OFFS + 0x20.
Definition CVP_NOC_BASE_OFFS : Z := 0x000D0000.
Definition CVP_NOC_ERR_SWID_LOW_OFFS : Z := CVP_NOC_BASE_OFFS + 0x0.
Definition CVP_NOC_ERR_SWID_HIGH_OFFS : Z := CVP_NOC_BASE_OFFS + 0x4.
Definition CVP_NOC_ERR_MAINCTL_LOW_OFFS : Z := CVP_NOC_BASE_OFFS + 0x8.
Definition CVP_NOC_ERR_ERRVLD_LOW_OFFS : Z := CVP_NOC_BASE_OFFS + 0x10.
Definition CVP_NOC_ERR_ERRCLR_LOW_OFFS : Z := CVP_NOC_BASE_OFFS + 0x18.
Definition CVP_NOC_ERR_ERRLOG0_LOW_OFFS : Z := CVP_NOC_BASE_OFFS + 0x20.
Definition CVP_NOC_ERR_ERRLOG0_HIGH_OFFS : Z := CVP_NOC_BASE_OFFS + 0x24.
Definition CVP_NOC_ERR_ERRLOG1_LOW_OFFS : Z := CVP_NOC_BASE_OFFS + 0x28.
Definition CVP_NOC_ERR_ERRLOG1_HIGH_OFFS : Z := CVP_NOC_BASE_OFFS + 0x2C.
Definition CVP_NOC_ERR_ERRLOG2_LOW_OFFS : Z := CVP_NOC_BASE_OFFS + 0x30.
Definition CVP_NOC_ERR_ERRLOG2_HIGH_OFFS : Z := CVP_NOC_BASE_OFFS + 0x34.
Definition CVP_NOC_ERR_ERRLOG3_LOW_OFFS : Z := CVP_NOC_BASE_OFFS + 0x38.
Definition CVP_NOC_ERR_ERRLOG3_HIGH_OFFS : Z := CVP_NOC_BASE_OFFS + 0x3C.
Definition CVP_NOC_SBM_FAULTINSTATUS0_LOW : Z := CVP_NOC_BASE_OFFS + 0x248.
Definition CVP_NOC_SBM_SENSELN0_LOW : Z := CVP_NOC_BASE_OFFS + 0x300.
Definition CVP_NOC_CORE_BASE_OFFS : Z := 0x00010000.
Definition CVP_NOC_A_NIU_DECCTL_LOW : Z := CVP_NOC_CORE_BASE_OFFS + 0x3108.
Definition CVP_NOC_A_NIU_ENCCTL_LOW : Z := CVP_NOC_CORE_BASE_OFFS + 0x3188.
Definition CVP_NOC_B_NIU_DECCTL_LOW : Z := CVP_NOC_CORE_BASE_OFFS + 0x3508.
Definition CVP_NOC_B_NIU_ENCCTL_LOW : Z := CVP_NOC_CORE_BASE_OFFS + 0x3588.
Definition CVP_NOC_MAIN_SIDEBANDMANAGER_FAULTINEN0_LOW : Z := CVP_NOC_CORE_BASE_OFFS + 0x7040.
Definition CVP_NOC_MAIN_SIDEBANDMANAGER_SENSELN0_LOW : Z := CVP_NOC_CORE_BASE_OFFS + 0x7100.
Definition CVP_NOC_MAIN_SIDEBANDMANAGER_SENSELN0_HIGH : Z := CVP_NOC_CORE_BASE_OFFS + 0x7104.
Definition CVP_NOC_MAIN_SIDEBANDMANAGER_SENSELN1_LOW : Z := CVP_NOC_CORE_BASE_OFFS + 0x7108.
Definition CVP_NOC_MAIN_SIDEBANDMANAGER_SENSELN1_HIGH : Z := CVP_NOC_CORE_BASE_OFFS + 0x710C.
Definition CVP_NOC_MAIN_SIDEBANDMANAGER_SENSELN2_LOW : Z := CVP_NOC_CORE_BASE_OFFS + 0x7110.
Definition CVP_NOC_CORE_ERR_SWID_LOW_OFFS : Z := CVP_NOC_CORE_BASE_OFFS + 0xA000.
Definition CVP_NOC_CORE_ERR_SWID_HIGH_OFFS : Z := CVP_NOC_CORE_BASE_OFFS + 0xA004.
Definition CVP_NOC_CORE_ERR_MAINCTL_LOW_OFFS : Z := CVP_NOC_CORE_BASE_OFFS + 0xA008.
Definition CVP_NOC_CORE_ERR_ERRVLD_LOW_OFFS : Z := CVP_NOC_CORE_BASE_OFFS + 0xA010.
Definition CVP_NOC_CORE_ERR_ERRCLR_LOW_OFFS : Z := CVP_NOC_CORE_BASE_OFFS + 0xA018.
Definition CVP_NOC_CORE_ERR_ERRLOG0_LOW_OFFS : Z := CVP_NOC_CORE_BASE_OFFS + 0xA020.
Definition CVP_NOC_CORE_ERR_ERRLOG0_HIGH_OFFS : Z := CVP_NOC_CORE_BASE_OFFS + 0xA024.
Definition CVP_NOC_CORE_ERR_ERRLOG1_LOW_OFFS : Z := CVP_NOC_CORE_BASE_OFFS + 0xA028.
Definition CVP_NOC_CORE_ERR_ERRLOG1_HIGH_OFFS : Z := CVP_NOC_CORE_BASE_OFFS + 0xA02C.
Definition CVP_NOC_CORE_ERR_ERRLOG2_LOW_OFFS : Z := CVP_NOC_CORE_BASE_OFFS + 0xA030.
Definition CVP_NOC_CORE_ERR_ERRLOG2_HIGH_OFFS : Z := CVP_NOC_CORE_BASE_OFFS + 0xA034.
Definition CVP_NOC_CORE_ERR_ERRLOG3_LOW_OFFS : Z := CVP_NOC_CORE_BASE_OFFS + 0xA038.
Definition CVP_NOC_CORE_ERR_ERRLOG3_HIGH_OFFS : Z := CVP_NOC_CORE_BASE_OFFS + 0xA03C.
Definition CVP_NOC_RCG_VNOC_NOC_CLK_FORCECLOCKON_LOW : Z := CVP_NOC_CORE_BASE_OFFS + 0xE018.
Definition CVP_NOC_RCG_VNOC_NOC_CLK_ENABLE_LOW : Z := CVP_NOC_CORE_BASE_OFFS + 0xE020.
Definition CVP_NOC_A_PRIORITYLUT_LOW : Z := CVP_NOC_CORE_BASE_OFFS + 0x3030.
Definition CVP_NOC_A_PRIORITYLUT_HIGH : Z := CVP_NOC_CORE_BASE_OFFS + 0x3034.
Definition CVP_NOC_A_URGENCY_LOW : Z := CVP_NOC_CORE_BASE_OFFS + 0x3038.
Definition CVP_NOC_A_DANGERLUT_LOW : Z := CVP_NOC_CORE_BASE_OFFS + 0x3040.
Definition CVP_NOC_A_SAFELUT_LOW : Z := CVP_NOC_CORE_BASE_OFFS + 0x3048.
Definition CVP_NOC_B_PRIORITYLUT_LOW : Z := CVP_NOC_CORE_BASE_OFFS + 0x3430.
Definition CVP_NOC_B_PRIORITYLUT_HIGH : Z := CVP_NOC_CORE_BASE_OFFS + 0x3434.
Definition CVP_NOC_B_URGENCY_LOW : Z := CVP_NOC_CORE_BASE_OFFS + 0x3438.
Definition CVP_NOC_B_DANGERLUT_LOW : Z := CVP_NOC_CORE_BASE_OFFS + 0x3440.
Definition CVP_NOC_B_SAFELUT_LOW : Z := CVP_NOC_CORE_BASE_OFFS + 0x3448.
Definition CVP_NOC_C_PRIORITYLUT_LOW : Z := CVP_NOC_CORE_BASE_OFFS + 0x3830.
Definition CVP_NOC_C_PRIORITYLUT_HIGH : Z := CVP_NOC_CORE_BASE_OFFS + 0x3834.
Definition CVP_NOC_C_URGENCY_LOW : Z := CVP_NOC_CORE_BASE_OFFS + 0x3838.
Definition CVP_NOC_C_DANGERLUT_LOW : Z := CVP_NOC_CORE_BASE_OFFS + 0x3840.
Definition CVP_NOC_C_SAFELUT_LOW : Z := CVP_NOC_CORE_BASE_OFFS + 0x3848.
Definition CVP_VIDEO_B_NOC_A_QOSGEN_MAINCTL_LOW : Z := CVP_NOC_CORE_BASE_OFFS + 0x0008.
Definition CVP_VIDEO_B_NOC_B_QOSGEN_MAINCTL_LOW : Z := CVP_NOC_CORE_BASE_OFFS + 0x0088.
Definition CVP_VIDEO_B_NOC_C_QOSGEN_MAINCTL_LOW : Z := CVP_NOC_CORE_BASE_OFFS + 0x0108.
Definition CVP_NOC_RCGCONTROLLER_HYSTERESIS_LOW : Z := CVP_NOC_CORE_BASE_OFFS + 0xC010.
Definition CVP_NOC_RCGCONTROLLER_WAKEUP_LOW : Z := CVP_NOC_CORE_BASE_OFFS + 0xC018.
Definition CVP_NOC_RESET_ACK : Z := CVP_NOC_CORE_BASE_OFFS + 0xf004.
Definition CVP_AON_WRAPPER_CVP_NOC_LPI_CONTROL : Z := CVP_AON_BASE_OFFS + 0x8.
Definition CVP_AON_WRAPPER_CVP_NOC_LPI_STATUS : Z := CVP_AON_BASE_OFFS + 0xC.
Definition CVP_AON_WRAPPER_CVP_NOC_ARCG_CONTROL : Z := CVP_AON_BASE_OFFS + 0x14.
Definition CVP_AON_WRAPPER_CVP_NOC_CORE_CLK_CONTROL : Z := CVP_AON_BASE_OFFS + 0x24.
Definition CVP_AON_WRAPPER_CVP_VIDEO_CTL_NOC_LPI_CONTROL : Z := CVP_AON_BASE_OFFS + 0x2C.
Definition CVP_AON_WRAPPER_CVP_VIDEO_CTL_NOC_LPI_STATUS : Z := CVP_AON_BASE_OFFS + 0x30.
Definition CVP_CC_BASE_OFFS : Z := 0xF8000.
Definition CVP_CC_MVS0C_GDSCR : Z := CVP_CC_BASE_OFFS + 0x34.
Definition CVP_CC_MVS0C_CBCR : Z := CVP_CC_BASE_OFFS + 0x4C.
Definition CVP_CC_MVS0_GDSCR : Z := CVP_CC_BASE_OFFS + 0x68.
Definition CVP_CC_MVS0_CBCR : Z := CVP_CC_BASE_OFFS + 0x7C.
Definition CVP_GCC_EVA_AXI0_CBCR : Z := 0x8F008.
