(* ===== verification/Hw.v ===== *)
(** The hardware of the processor as the driver reaches it: registers (src/msm/eva/cvp_hfi.c:
    [__write_register], [__read_register]), power domains and regulators ([__enable_gdsc],
    [__disable_gdsc] and what they call), clocks (msm_cvp_clocks.c) and bus votes.

    The kernel frameworks below are not under src/: every call to one is recorded in a
    trace with the answer of the environment, and what the driver owes a framework, its
    [account] with it, is read off the trace. *)

From stdpp Require Import strings.
From S2P Require Import Prelude Store.
Open Scope Z_scope.

(** * Data *)

Inductive core_gdsc_dest := TO_SW_CTRL | TO_HW_CTRL.
Inductive enter_noc_lpi_caller := IRIS_POWER_ON | POWER_OFF_CORE | POWER_OFF_CNTRL.
Inductive regulator_mode := REGULATOR_MODE_NORMAL | REGULATOR_MODE_FAST.
Inductive tzbsp_subsys_state :=
| TZ_SUBSYS_STATE_SUSPEND | TZ_SUBSYS_STATE_RESUME | TZ_SUBSYS_STATE_RESTORE_THRESHOLD.

(** The register windows that are mapped. *)
Inductive reg_base := register_base | gcc_reg_base | tcsr_reg_base.

Record clock_info := mkClock { clk_name : string; clk_clk : Z }.
Record power_domain_info :=
  mkPd { pd_name : string; pd_device : Z; pd_has_hw_power_collapse : bool }.
Record regulator_info :=
  mkRegulator { rg_name : string; rg_regulator : Z; rg_has_hw_power_collapse : bool }.
Record bus_info := mkBus { bus_client : Z; bus_max : Z }.
Record subcache_info :=
  mkSubcache { sc_name : string; sc_isactive : bool; sc_isset : bool; sc_subcache : Z }.

(** Calls out of the driver. *)
Inductive hcall :=
| Readl (b : reg_base) (reg : Z)
| Writel (reg value : Z)
| Fatal_hw_error
| Clk_prepare_enable (clk : Z)
| Clk_is_enabled (clk : Z)
| Clk_disable_unprepare (clk : Z)
| Devfreq_recommended_opp (freq : Z)
| Pm_opp_set_opp (opp : Z)
| Pm_opp_put (opp : Z)
| Pm_runtime_get_sync (dev : Z)
| Pm_runtime_put_sync (dev : Z)
| Pm_genpd_set_hwmode (dev : Z) (enable : bool)
| Regulator_enable (r : Z)
| Regulator_is_enabled (r : Z)
| Regulator_disable (r : Z)
| Regulator_set_mode (r : Z) (m : regulator_mode)
| Kmemdup
| Icc_set_bw (client bw : Z)
| Enable_irq
| Disable_irq_nosync
| Scm_set_remote_state (st : tzbsp_subsys_state)
| Llcc_slice_activate (s : Z)
| Llcc_slice_deactivate (s : Z)
| Pm_qos_update_request (core latency : Z)
| Mutex_trylock
| Queue_pm_work
| Cancel_pm_work.

(** The hardware's part of [struct iris_hfi_device] and of its resources. *)
Record hw := mkHw {
  hw_power_enabled : bool;
  hw_intr_status : Z;
  hw_freq : Z;
  hw_bus_vote : option (list Z) * Z;
  hw_clocks : list clock_info;
  hw_buses : list bus_info;
  hw_subcaches : list subcache_info;
  hw_sys_cache_res_set : bool;
  hw_soc_hw_version : Z;
  hw_skip_pc_count : Z;
  hw_pm_qos_latency : Z;
  hw_noc_used : bool;
  hw_noc_log : list (Z * Z);
  hw_last_packet_type : Z;
  hw_state_init : bool;
  hw_trace : list (hcall * Z)
}.

#[global] Instance eta_subcache : Eta subcache_info :=
  λ r, mkSubcache (sc_name r) (sc_isactive r) (sc_isset r) (sc_subcache r).
#[global] Instance eta_hw : Eta hw :=
  λ r, mkHw (hw_power_enabled r) (hw_intr_status r) (hw_freq r) (hw_bus_vote r) (hw_clocks r)
    (hw_buses r) (hw_subcaches r) (hw_sys_cache_res_set r) (hw_soc_hw_version r)
    (hw_skip_pc_count r) (hw_pm_qos_latency r) (hw_noc_used r) (hw_noc_log r) (hw_last_packet_type r) (hw_state_init r) (hw_trace r).

(** [struct msm_cvp_qos_setting] of the platform data. *)
Record msm_cvp_qos_setting := mkQos {
  axi_qos : Z; prioritylut_low : Z; prioritylut_high : Z; urgency_low : Z;
  urgency_low_ro : Z; dangerlut_low : Z; safelut_low : Z
}.

(** The environment: the answers of the frameworks and of the hardware, the device tree and
    the module's parameters.  A pointer of value 0 is NULL. *)
Class HwEnv := {
  hw_answer : nat → hcall → Z;
  pd_tbl : list power_domain_info;
  regulator_tbl : list regulator_info;
  gdsc_framework_type : bool;
  fw_low_power_mode : bool;
  core_noc_cx_pd_disable : bool;
  sw_power_collapsible : bool;
  clock_rates : list Z;
  tcsr_mapped : bool;
  reg_tbl : list (Z * Z);
  noc_qos : msm_cvp_qos_setting;
  qos_noc_urgency_low_a_bitmask : Z;
  qos_noc_urgency_low_b_bitmask : Z;
  noc_log_required : bool;
  soc_version : Z;
  pm_qos_hdls : bool;
  silver_cores : list Z;
  cpu_possible : Z → bool;
  pm_qos_min_latency : Z;
  resume_latency_default : Z;
  sys_cache_present : bool;
  syscache_disable : bool;
  config_eva_art : bool;
  slice_id : Z → Z;
  rcg_vnoc_clk_en_low : Z
}.

Abbreviation P := (St hw).

(** * Loops *)

(** [loop n body a]: at most [n] rounds; [Some] what the round that leaves the loop
    produces, or [None] when the rounds are used up. *)
Fixpoint loop {A B} (n : nat) (body : A → P (A + B)) (a : A) : P (A + B) :=
  match n with
  | O => mret (inl a)
  | S n' => r ← body a; match r with inl a' => loop n' body a' | inr b => mret (inr b) end
  end.

(** [v & m] as a C condition. *)
Definition anyb (v m : Z) : bool := negb (Z.land v m =? 0).

Definition named {A} (name : A → string) (n : string) (l : list A) : option A :=
  List.find (λ x, String.eqb (name x) n) l.

(** * Operations *)
Section operations.
Context `{HwEnv}.

Definition hext (c : hcall) : P Z :=
  n ← gets (λ s, length (hw_trace s));
  modify (λ s, s <| hw_trace ::= cons (c, hw_answer n c) |>) ;;
  mret (hw_answer n c).

Definition hcall_ (c : hcall) : P unit := hext c ;; mret tt.

(** ** Registers *)

(** Every access needs the power: without it the access is refused and reported. *)
Definition __write_register (reg value : Z) : P unit :=
  pw ← gets hw_power_enabled;
  if negb pw then hcall_ Fatal_hw_error else hcall_ (Writel reg value).

Definition __read_window (b : reg_base) (reg : Z) : P Z :=
  pw ← gets hw_power_enabled;
  if negb pw then hcall_ Fatal_hw_error ;; mret (- EINVAL)
  else v ← hext (Readl b reg); mret (s32 v).

Definition __read_register (reg : Z) : P Z := __read_window register_base reg.
Definition __read_gcc_register (reg : Z) : P Z := __read_window gcc_reg_base reg.
Definition __read_tcsr_register (reg : Z) : P Z :=
  pw ← gets hw_power_enabled;
  if negb pw then __read_window tcsr_reg_base reg
  else if negb tcsr_mapped then mret (- EINVAL)
  else __read_window tcsr_reg_base reg.

(** A register read into a [u32]. *)
Definition read32 (reg : Z) : P Z := v ← __read_register reg; mret (u32 v).

(** Reads [reg] until [stop] holds, at most [n] times; whether it did. *)
Definition poll (n : nat) (reg : Z) (stop : Z → bool) : P bool :=
  r ← loop n (λ _ : unit, v ← read32 reg; mret (if stop v then inr v else inl tt)) tt;
  mret (match r with inr _ => true | inl _ => false end).

(** Reads whose values are only printed. *)
Definition show (regs : list Z) : P unit := each regs (λ r, read32 r ;; mret tt).

(** Steps that are each undone, last first, when a later one fails: the chain of labels at
    the end of a power-up routine. *)
Fixpoint all_or_undo (steps : list (P Z * P Z)) (undo : list (P Z)) : P Z :=
  match steps with
  | [] => mret 0
  | (on, off) :: steps' =>
      rc ← on;
      if negb (rc =? 0) then each undo (λ m, m ;; mret tt) ;; mret rc
      else all_or_undo steps' (off :: undo)
  end.

(** ** Power domains and regulators *)

Definition switch_core_gdsc_mode (dest : core_gdsc_dest) (name : string) : P Z :=
  match named pd_name name pd_tbl with
  | None => mret (- EINVAL)
  | Some pd =>
      if pd_has_hw_power_collapse pd
      then hext (Pm_genpd_set_hwmode (pd_device pd)
                   (match dest with TO_HW_CTRL => true | TO_SW_CTRL => false end))
      else mret 0
  end.

Definition __acquire_regulator (ri : regulator_info) : P Z :=
  rc ← (if rg_has_hw_power_collapse ri
        then hext (Regulator_set_mode (rg_regulator ri) REGULATOR_MODE_NORMAL) else mret 0);
  on ← hext (Regulator_is_enabled (rg_regulator ri));
  whenS (on =? 0) (hcall_ Fatal_hw_error) ;;
  mret rc.

Definition __hand_off_regulator (ri : regulator_info) : P Z :=
  if rg_has_hw_power_collapse ri
  then hext (Regulator_set_mode (rg_regulator ri) REGULATOR_MODE_FAST) else mret 0.

(** The regulators handed off so far, last first, when one is refused. *)
Fixpoint hand_off_regulators (done left : list regulator_info) : P Z :=
  match left with
  | [] => mret 0
  | ri :: left' =>
      rc ← __hand_off_regulator ri;
      if negb (rc =? 0)
      then each (ri :: done) (λ r, __acquire_regulator r ;; mret tt) ;; mret rc
      else hand_off_regulators (ri :: done) left'
  end.

Definition __hand_off_regulators : P Z := hand_off_regulators [] regulator_tbl.

Fixpoint acquire_regulators (l : list regulator_info) : P Z :=
  match l with
  | [] => mret 0
  | ri :: l' => rc ← __acquire_regulator ri; if negb (rc =? 0) then mret rc else acquire_regulators l'
  end.

Definition __take_back_regulators (name : string) : P Z :=
  if gdsc_framework_type then switch_core_gdsc_mode TO_SW_CTRL name
  else acquire_regulators regulator_tbl.

Definition __disable_hw_power_collapse (name : string) : P Z :=
  if negb fw_low_power_mode then mret 0 else __take_back_regulators name.

Definition __enable_power_domain (name : string) : P Z :=
  match named pd_name name pd_tbl with
  | None => mret (- EINVAL)
  | Some pd =>
      rc ← hext (Pm_runtime_get_sync (pd_device pd));
      if rc <? 0 then mret rc
      else if pd_has_hw_power_collapse pd
      then rc ← switch_core_gdsc_mode TO_SW_CTRL name;
           if negb (rc =? 0) then mret rc else mret 0
      else mret 0
  end.

Definition __disable_power_domain (name : string) : P Z :=
  match named pd_name name pd_tbl with
  | None => mret (- EINVAL)
  | Some pd =>
      rc ← hext (Pm_runtime_put_sync (pd_device pd));
      if rc <? 0 then mret rc else mret 0
  end.

Definition __enable_regulator (name : string) : P Z :=
  match named rg_name name regulator_tbl with
  | None => mret (- EINVAL)
  | Some ri =>
      rc ← hext (Regulator_enable (rg_regulator ri));
      if negb (rc =? 0) then mret rc
      else on ← hext (Regulator_is_enabled (rg_regulator ri));
           if on =? 0 then hext (Regulator_disable (rg_regulator ri)) ;; mret (- EINVAL)
           else mret 0
  end.

Definition __disable_regulator_impl (ri : regulator_info) : P Z :=
  rc ← __acquire_regulator ri;
  if negb (rc =? 0) then hcall_ Fatal_hw_error ;; mret rc
  else rc ← hext (Regulator_disable (rg_regulator ri));
       if negb (rc =? 0) then hcall_ Fatal_hw_error ;; mret rc else mret 0.

Definition __disable_regulator (name : string) : P Z :=
  match named rg_name name (rev regulator_tbl) with
  | None => mret (- EINVAL)
  | Some ri => __disable_regulator_impl ri ;; mret 0
  end.

(** The regulator behind a name: the callers' names are those of power domains. *)
Definition gdsc_regulator (name : string) : string :=
  if String.eqb name "controller" then "cvp" else "cvp-core".

Definition __enable_gdsc (name : string) : P Z :=
  if gdsc_framework_type then __enable_power_domain name
  else __enable_regulator (gdsc_regulator name).

Definition __disable_gdsc (name : string) : P Z :=
  if gdsc_framework_type
  then rc ← __disable_hw_power_collapse name;
       if rc =? 0 then __disable_power_domain name
       else hcall_ Fatal_hw_error ;; mret rc
  else __disable_regulator (gdsc_regulator name).

(** ** Clocks *)

Definition opp_set_rate (freq : Z) : P Z :=
  modify (λ s, s <| hw_freq := freq |>) ;;
  opp ← hext (Devfreq_recommended_opp freq);
  if opp <? 0 then mret opp
  else rc ← hext (Pm_opp_set_opp opp);
       hcall_ (Pm_opp_put opp) ;;
       if negb (rc =? 0) then mret rc
       else modify (λ s, s <| hw_freq := freq |>) ;; mret 0.

Definition msm_cvp_scale_clocks : P Z :=
  f ← gets hw_freq;
  if negb (f =? 0) then opp_set_rate f
  else match head clock_rates with None => stuck | Some r => opp_set_rate r end.

Definition msm_cvp_prepare_enable_clk (name : string) : P Z :=
  cs ← gets hw_clocks;
  match named clk_name name cs with
  | None => mret (- EINVAL)
  | Some cl =>
      if clk_clk cl =? 0 then mret 0
      else
        whenS (String.eqb (clk_name cl) "eva0") (opp_set_rate 0 ;; mret tt) ;;
        rc ← hext (Clk_prepare_enable (clk_clk cl));
        if negb (rc =? 0) then mret rc
        else on ← hext (Clk_is_enabled (clk_clk cl));
             if on =? 0 then hext (Clk_disable_unprepare (clk_clk cl)) ;; mret (- EINVAL)
             else mret 0
  end.

Definition msm_cvp_disable_unprepare_clk (name : string) : P Z :=
  cs ← gets hw_clocks;
  match named clk_name name (rev cs) with
  | None => mret (- EINVAL)
  | Some cl =>
      if clk_clk cl =? 0 then mret 0
      else
        hext (Clk_disable_unprepare (clk_clk cl)) ;;
        whenS (String.eqb (clk_name cl) "eva0") (opp_set_rate 0 ;; mret tt) ;;
        mret 0
  end.

(** ** Buses *)

Definition cvp_set_bw (b : bus_info) (bw : Z) : P Z :=
  if bus_client b =? 0 then mret (- EINVAL) else hext (Icc_set_bw (bus_client b) bw).

Fixpoint unvote_each (l : list bus_info) : P Z :=
  match l with
  | [] => mret 0
  | b :: l' => rc ← cvp_set_bw b 0; if negb (rc =? 0) then mret rc else unvote_each l'
  end.

Definition __unvote_buses : P Z :=
  modify (λ s, s <| hw_bus_vote := (None, 0) |>) ;;
  bs ← gets hw_buses;
  unvote_each bs.

(** The result of the last bus is the result. *)
Fixpoint vote_each (l : list bus_info) (rc : Z) : P Z :=
  match l with [] => mret rc | b :: l' => rc ← cvp_set_bw b (bus_max b); vote_each l' rc end.

Definition set_bus_vote (new_data : option (list Z)) (num_data : Z) : P Z :=
  modify (λ s, s <| hw_bus_vote := (new_data, num_data) |>) ;;
  bs ← gets hw_buses;
  vote_each bs 0.

Definition __vote_buses (data : option (list Z)) (num_data : Z) : P Z :=
  if num_data =? 0 then set_bus_vote None num_data
  else match data with
       | None => mret (- EINVAL)
       | Some d =>
           p ← hext Kmemdup;
           if p =? 0 then mret (- ENOMEM) else set_bus_vote (Some d) num_data
       end.

End operations.

(** * The account with the frameworks *)

(** What is taken from a framework and has to be given back. *)
Inductive vote := V_clk (clk : Z) | V_pd (dev : Z) | V_reg (r : Z) | V_irq.

#[global] Instance vote_eq_dec : EqDecision vote.
Proof. solve_decision. Defined.

(** What a call takes (1) or gives back (-1), by its documentation: a clock or a regulator
    counts when the call succeeds, the usage count of a power domain in any case. *)
Definition effect (e : hcall * Z) : option (vote * Z) :=
  match e.1 with
  | Clk_prepare_enable c => if e.2 =? 0 then Some (V_clk c, 1) else None
  | Clk_disable_unprepare c => Some (V_clk c, -1)
  | Pm_runtime_get_sync d => Some (V_pd d, 1)
  | Pm_runtime_put_sync d => Some (V_pd d, -1)
  | Regulator_enable r => if e.2 =? 0 then Some (V_reg r, 1) else None
  | Regulator_disable r => if e.2 =? 0 then Some (V_reg r, -1) else None
  | Enable_irq => Some (V_irq, 1)
  | Disable_irq_nosync => Some (V_irq, -1)
  | _ => None
  end.

Definition one (v w : vote) : Z := if decide (v = w) then 1 else 0.

Fixpoint account (t : list (hcall * Z)) (w : vote) : Z :=
  match t with
  | [] => 0
  | e :: t' => (match effect e with Some (v, k) => k * one v w | None => 0 end) + account t' w
  end.

(** Accesses and power switches that were refused and reported. *)
Definition is_fatal (e : hcall * Z) : bool :=
  match e.1 with Fatal_hw_error => true | _ => false end.
Definition fatals (t : list (hcall * Z)) : nat := length (List.filter is_fatal t).
