(* ===== verification/HwRules.v ===== *)
(** Rules for the hardware operations of Hw.v.

    [held C L b q]: the driver's account with the frameworks is [L], the power flag is [b],
    the clock table is [C], and [q] refused accesses have been reported (if counted at
    all).  [gives m δ]: [m] completes and changes the account by [δ].  [acquires m δ]: it
    completes, with result 0 and the account changed by [δ], or with an error and a leak. *)

From stdpp Require Import strings.
From S2P Require Import Prelude Store Hw.
Open Scope Z_scope.

(** * Accounts *)

(** Changes of an account, pointwise. *)
Definition change := vote → Z.
Definition none : change := λ _, 0.
Definition plus (d e : change) : change := λ v, d v + e v.
Definition minus (d e : change) : change := λ v, d v - e v.
Definition sum (l : list change) : change := foldr plus none l.

Infix "⊕" := plus (at level 50, left associativity).
Infix "⊖" := minus (at level 50, left associativity).

(** The effect of one call. *)
Definition eff (e : hcall * Z) : change :=
  match effect e with Some (v, k) => λ w, k * one v w | None => none end.

Lemma account_cons e t v : account (e :: t) v = eff e v + account t v.
Proof. unfold eff. cbn. by destruct (effect e) as [[? ?]|]. Qed.

(** The fields a power sequence leaves alone. *)
Definition rest (s : hw) :=
  (hw_intr_status s, hw_buses s, hw_subcaches s, hw_bus_vote s, hw_state_init s).

Record held (s0 : hw) (C : list clock_info) (L : change) (b : bool) (q : option nat) (s : hw)
    : Prop := mkHeld {
  held_account : ∀ v, account (hw_trace s) v = L v;
  held_power : hw_power_enabled s = b;
  held_fatals : match q with Some n => fatals (hw_trace s) = n | None => True end;
  held_clocks : hw_clocks s = C;
  held_rest : rest s = rest s0;
  held_grows : (length (hw_trace s0) ≤ length (hw_trace s))%nat
}.

(** Register accesses are allowed: with the power on, or when refusals are not counted. *)
Definition may_access (b : bool) (q : option nat) : Prop := b = true ∨ q = None.

Lemma held_eq s0 C L L' b q s : (∀ v, L v = L' v) → held s0 C L b q s → held s0 C L' b q s.
Proof. intros E []. split; auto. intros v. by rewrite <- E. Qed.

Lemma held_self s C L b q s0 : held s0 C L b q s → held s C L b q s.
Proof. intros []. by split. Qed.

Lemma held_start s :
  held s (hw_clocks s) (account (hw_trace s)) (hw_power_enabled s) (Some (fatals (hw_trace s))) s.
Proof. by split. Qed.

Lemma held_uncounted s0 C L b q s : held s0 C L b q s → held s0 C L b None s.
Proof. intros []. by split. Qed.

(** Pointwise equality of changes. *)
Ltac change_tac := intros ?; unfold eff, plus, minus, none, sum; cbn -[Z.mul Z.add Z.sub Z.opp one none]; unfold none; lia.

(** The accounts of two states differ by [d]. *)
Definition moved (s s' : hw) (d : change) : Prop :=
  ∀ v, account (hw_trace s') v = account (hw_trace s) v + d v.

(** * Triples about accounts *)
Section rules.
Context `{HwEnv}.
Variable C : list clock_info.

Definition gives {A} (m : P A) (δ : change) : Prop :=
  ∀ s0 L b q, may_access b q →
    total (held s0 C L b q) m (λ _, held s0 C (L ⊕ δ) b q).

Definition calm {A} (m : P A) : Prop := gives m none.

(** A leak: nothing, or one of [ks]. *)
Definition leak (ks : list change) (k : change) : Prop := (∀ v, k v = 0) ∨ ∃ k', k' ∈ ks ∧ ∀ v, k v = k' v.

Definition acquires (m : P Z) (δ : change) (ks : list change) : Prop :=
  ∀ s0 L b q, may_access b q →
    total (held s0 C L b q) m (λ rc s,
      (rc = 0 ∧ held s0 C (L ⊕ δ) b q s) ∨
      (rc ≠ 0 ∧ ∃ k, leak ks k ∧ held s0 C (L ⊕ k) b q s)).

Lemma gives_eq {A} (m : P A) δ δ' : (∀ v, δ v = δ' v) → gives m δ → gives m δ'.
Proof.
  intros E Hm s0 L b q Hb. eapply total_post; [by apply Hm|]. intros ? s. apply held_eq.
  intros v. unfold plus. by rewrite E.
Qed.

Lemma gives_ret {A} (a : A) : calm (mret a).
Proof. intros s0 L b q _. apply total_ret. intros s. apply held_eq. change_tac. Qed.

Lemma gives_bind {A B} (m : P A) (f : A → P B) δ ε :
  gives m δ → (∀ a, gives (f a) ε) → gives (m ≫= f) (δ ⊕ ε).
Proof.
  intros Hm Hf s0 L b q Hb.
  eapply total_bind; [by apply Hm|]. intros a.
  eapply total_post; [by apply Hf|]. intros ? s. apply held_eq. change_tac.
Qed.

Lemma calm_bind {A B} (m : P A) (f : A → P B) ε :
  calm m → (∀ a, gives (f a) ε) → gives (m ≫= f) ε.
Proof.
  intros Hm Hf. eapply gives_eq; [|eapply gives_bind; [exact Hm|exact Hf]]. change_tac.
Qed.

Lemma gives_map {A B} (m : P A) (f : A → B) δ : gives m δ → gives (a ← m; mret (f a)) δ.
Proof.
  intros Hm. eapply gives_eq; [|eapply gives_bind; [exact Hm|intros; apply gives_ret]]. change_tac.
Qed.

Lemma gives_if {A} (c : bool) (m1 m2 : P A) δ : gives m1 δ → gives m2 δ → gives (if c then m1 else m2) δ.
Proof. by destruct c. Qed.

Lemma calm_whenS (c : bool) (m : P unit) : (c = true → calm m) → calm (whenS c m).
Proof. destruct c; [auto|]. intros _. apply gives_ret. Qed.

Lemma calm_each {A} (l : list A) (m : A → P unit) : (∀ a, calm (m a)) → calm (each l m).
Proof.
  intros Hm. induction l as [|a l IH]; cbn [each]; [apply gives_ret|].
  eapply calm_bind; [apply Hm|]. by intros ?.
Qed.

Lemma calm_gets {A} (f : hw → A) : calm (gets f).
Proof. intros s0 L b q _. apply total_gets. intros s. apply held_eq. change_tac. Qed.

Lemma calm_loop {A B} n (body : A → P (A + B)) a : (∀ a, calm (body a)) → calm (loop n body a).
Proof.
  intros Hb. revert a. induction n as [|n IH]; intros a; cbn [loop]; [apply gives_ret|].
  eapply calm_bind; [apply Hb|]. intros [a'|r]; [apply IH|apply gives_ret].
Qed.

(** A call changes the account by its effect. *)
Definition after (c : hcall) (s : hw) : hw :=
  s <| hw_trace ::= cons (c, hw_answer (length (hw_trace s)) c) |>.

Lemma hext_run c s : hext c s = Done (hw_answer (length (hw_trace s)) c, after c s).
Proof. reflexivity. Qed.

Lemma held_after s0 L b q c s :
  (q = None ∨ ∀ a, is_fatal (c, a) = false) → held s0 C L b q s →
  held s0 C (L ⊕ eff (c, hw_answer (length (hw_trace s)) c)) b q (after c s).
Proof.
  intros Hf []. split; try done.
  - intros v. change (hw_trace (after c s)) with ((c, hw_answer (length (hw_trace s)) c) :: hw_trace s).
    rewrite account_cons, held_account0. unfold plus. lia.
  - destruct q; [|done]. destruct Hf as [|Hf]; [done|].
    change (hw_trace (after c s)) with ((c, hw_answer (length (hw_trace s)) c) :: hw_trace s).
    unfold fatals in *. cbn [List.filter]. by rewrite Hf.
  - change (hw_trace (after c s)) with ((c, hw_answer (length (hw_trace s)) c) :: hw_trace s).
    cbn [length]. lia.
Qed.

Lemma hext_total s0 L b q c :
  (q = None ∨ ∀ a, is_fatal (c, a) = false) →
  total (held s0 C L b q) (hext c) (λ a s,
    (∃ n, a = hw_answer n c) ∧ held s0 C (L ⊕ eff (c, a)) b q s).
Proof.
  intros Hf s Hs. rewrite hext_run. do 2 eexists. split; [reflexivity|].
  split; [by eexists|by apply held_after].
Qed.

Lemma gives_hext c δ : (∀ a v, eff (c, a) v = δ v) → (∀ a, is_fatal (c, a) = false) → gives (hext c) δ.
Proof.
  intros E Hf s0 L b q _. eapply total_post; [apply hext_total; by right|].
  intros a s [_ Hs]. revert Hs. apply held_eq. intros v. unfold plus. by rewrite E.
Qed.

Lemma calm_hext c : (∀ a, effect (c, a) = None) → (∀ a, is_fatal (c, a) = false) → calm (hext c).
Proof. intros E Hf. apply gives_hext; [|done]. intros a v. unfold eff. by rewrite E. Qed.

(** A report of a refused access, where such reports are not counted. *)
Lemma fatal_total s0 L b :
  total (held s0 C L b None) (hcall_ Fatal_hw_error) (λ _, held s0 C (L ⊕ none) b None).
Proof.
  unfold hcall_. eapply total_bind; [apply hext_total; by left|]. intros a.
  apply total_ret. intros s [_ Hs]. exact Hs.
Qed.

Lemma calm_modify f :
  (∀ s, hw_trace (f s) = hw_trace s ∧ hw_power_enabled (f s) = hw_power_enabled s ∧
        hw_clocks (f s) = hw_clocks s ∧ rest (f s) = rest s) → calm (modify f).
Proof.
  intros Hf s0 L b q _. apply total_modify. intros s []. destruct (Hf s) as (E1 & E2 & E3 & E4).
  split; rewrite ?E1, ?E2, ?E3, ?E4; auto. intros v. rewrite held_account0. unfold plus, none. lia.
Qed.

(** ** Registers *)

Lemma calm_write r v : calm (__write_register r v).
Proof.
  intros s0 L b q Hb. unfold __write_register.
  eapply (total_bind _ _ (λ p s, p = b ∧ held s0 C L b q s)).
  { apply total_gets. intros s Hs. split; [apply (held_power _ _ _ _ _ _ Hs)|done]. }
  intros p s [-> Hs]. destruct b; cbn.
  - revert s Hs. unfold hcall_. apply (gives_map _ (λ _, tt) none); [|by left]. by apply calm_hext.
  - destruct Hb as [| ->]; [done|]. by apply fatal_total.
Qed.

Lemma calm_window w r : calm (__read_window w r).
Proof.
  intros s0 L b q Hb. unfold __read_window.
  eapply (total_bind _ _ (λ p s, p = b ∧ held s0 C L b q s)).
  { apply total_gets. intros s Hs. split; [apply (held_power _ _ _ _ _ _ Hs)|done]. }
  intros p s [-> Hs]. destruct b; cbn.
  - revert s Hs. apply (gives_map _ s32 none); [|by left]. by apply calm_hext.
  - destruct Hb as [| ->]; [done|]. revert s Hs.
    eapply total_bind; [apply fatal_total|]. intros ?. by apply total_ret.
Qed.

Lemma calm_read r : calm (__read_register r).
Proof. apply calm_window. Qed.

Lemma calm_read32 r : calm (read32 r).
Proof. apply gives_map, calm_read. Qed.


(** With the power on the first read is answered by the hardware; what follows may depend on
    the answer. *)
Lemma read32_then {A} r (f : Z → P A) (δ : Z → change) s :
  hw_clocks s = C → hw_power_enabled s = true → (∀ v, gives (f v) (δ v)) →
  let v := u32 (s32 (hw_answer (length (hw_trace s)) (Readl register_base r))) in
  ∃ a s', (x ← read32 r; f x) s = Done (a, s') ∧ moved s s' (δ v) ∧ hw_clocks s' = C ∧
    hw_power_enabled s' = true.
Proof.
  intros Hc Hp Hf v. set (s1 := after (Readl register_base r) s).
  assert (Hr : read32 r s = Done (v, s1)).
  { unfold read32, __read_register, __read_window. rewrite !St_bind_run, gets_run. cbn [obind fst snd].
    rewrite Hp. cbn [negb]. rewrite St_bind_run, hext_run. reflexivity. }
  rewrite St_bind_run, Hr. cbn [obind fst snd].
  destruct (Hf v s1 (account (hw_trace s)) true None (or_introl eq_refl) s1) as (a & s' & E & Hs').
  { by split. }
  exists a, s'. split; [exact E|]. destruct Hs'. split_and!; [|done..].
  intros w. rewrite held_account0. reflexivity.
Qed.

Lemma calm_poll n r stop : calm (poll n r stop).
Proof.
  unfold poll. apply gives_map, calm_loop. intros ?. apply gives_map, calm_read32.
Qed.

Lemma calm_show l : calm (show l).
Proof. apply calm_each. intros r. apply gives_map, calm_read32. Qed.

(** ** Clocks *)

(** Names are unique, so that a search from either end finds the same entry. *)
Lemma named_rev {A} (f : A → string) n (l : list A) : NoDup (f <$> l) → named f n (rev l) = named f n l.
Proof.
  unfold named. intros Hl. destruct (List.find _ l) as [a|] eqn:E.
  - apply List.find_some in E as [Ha Hn]. apply String.eqb_eq in Hn.
    destruct (List.find _ (rev l)) as [a'|] eqn:E'.
    + apply List.find_some in E' as [Ha' Hn']. apply String.eqb_eq in Hn'.
      apply List.in_rev, list_elem_of_In in Ha'. apply list_elem_of_In in Ha. f_equal.
      apply list_elem_of_lookup in Ha as [i Hi], Ha' as [j Hj].
      assert (i = j) as ->.
      { eapply (NoDup_lookup (f <$> l)); [done|rewrite list_lookup_fmap, Hi; reflexivity|].
        rewrite list_lookup_fmap, Hj. cbn. congruence. }
      congruence.
    + eapply List.find_none in E'; [|by apply List.in_rev; rewrite rev_involutive].
      by rewrite Hn, String.eqb_refl in E'.
  - destruct (List.find _ (rev l)) as [a'|] eqn:E'; [|done].
    apply List.find_some in E' as [Ha' Hn']. apply List.in_rev in Ha'.
    by rewrite (List.find_none _ _ E _ Ha') in Hn'.
Qed.

Definition clk_change (name : string) : change :=
  match named clk_name name C with
  | Some cl => if clk_clk cl =? 0 then none else one (V_clk (clk_clk cl))
  | None => none
  end.

Lemma calm_opp_set_rate f : calm (opp_set_rate f).
Proof.
  unfold opp_set_rate. eapply calm_bind; [apply calm_modify; by intros|]. intros _.
  eapply calm_bind; [by apply calm_hext|]. intros opp.
  apply gives_if; [apply gives_ret|].
  eapply calm_bind; [by apply calm_hext|]. intros rc.
  eapply calm_bind; [by apply gives_map, calm_hext|]. intros _.
  apply gives_if; [apply gives_ret|].
  eapply calm_bind; [apply calm_modify; by intros|]. intros _. apply gives_ret.
Qed.

Lemma calm_opp_eva0 (b : bool) f : calm (whenS b (opp_set_rate f ;; mret tt)).
Proof. apply calm_whenS. intros _. apply gives_map, calm_opp_set_rate. Qed.

(** The clock table is [C]. *)
Lemma with_clocks {A} (f : list clock_info → P A) s0 L b q Q :
  total (held s0 C L b q) (f C) Q → total (held s0 C L b q) (cs ← gets hw_clocks; f cs) Q.
Proof. intros Hf s Hs. rewrite St_bind_run, gets_run. cbn. rewrite (held_clocks _ _ _ _ _ _ Hs). by apply Hf. Qed.

Lemma acquires_clk name : acquires (msm_cvp_prepare_enable_clk name) (clk_change name) [].
Proof.
  intros s0 L b q Hb. unfold msm_cvp_prepare_enable_clk. apply with_clocks. unfold clk_change.
  destruct (named clk_name name C) as [cl|].
  2: { apply total_ret. intros s Hs. right. split; [done|]. exists none. split; [left; done|].
       revert Hs. apply held_eq. change_tac. }
  destruct (clk_clk cl =? 0).
  { apply total_ret. intros s Hs. left. split; [done|]. revert Hs. apply held_eq. change_tac. }
  eapply total_bind; [by apply calm_opp_eva0|]. intros [].
  eapply total_bind; [apply hext_total; by right|]. intros rc.
  apply total_if; intros Hrc.
  { apply total_ret. intros s [_ Hs]. apply negb_true_iff, Z.eqb_neq in Hrc. right. split; [done|].
    exists none. split; [left; done|]. revert Hs. apply held_eq. intros v. unfold eff. cbn.
    rewrite (proj2 (Z.eqb_neq _ _) Hrc). revert v. change_tac. }
  apply negb_false_iff, Z.eqb_eq in Hrc as ->.
  eapply total_bind.
  { eapply total_pre; [apply hext_total; by right|]. intros s [_ Hs]. exact Hs. }
  intros on. apply total_if; intros _.
  - eapply total_bind.
    { eapply total_pre; [apply hext_total; by right|]. intros s [_ Hs]. exact Hs. }
    intros ?. apply total_ret. intros s [_ Hs]. right. split; [done|]. exists none.
    split; [left; done|]. revert Hs. apply held_eq. change_tac.
  - apply total_ret. intros s [_ Hs]. left. split; [done|]. revert Hs. apply held_eq.
    change_tac.
Qed.

Hypothesis HC : NoDup (clk_name <$> C).

Lemma gives_clk name : gives (msm_cvp_disable_unprepare_clk name) (none ⊖ clk_change name).
Proof.
  intros s0 L b q Hb. unfold msm_cvp_disable_unprepare_clk. apply with_clocks.
  rewrite named_rev by done. unfold clk_change.
  destruct (named clk_name name C) as [cl|].
  2: { apply total_ret. intros s. apply held_eq. change_tac. }
  destruct (clk_clk cl =? 0).
  { apply total_ret. intros s. apply held_eq. change_tac. }
  eapply total_bind; [apply hext_total; by right|]. intros ?.
  eapply total_bind.
  { eapply total_pre; [by apply calm_opp_eva0|]. intros s [_ Hs]. exact Hs. }
  intros []. apply total_ret. intros s. apply held_eq. change_tac.
Qed.

(** ** Power domains *)

(** The firmware of the power domains does what it is asked. *)
Class Obedient := {
  obedient_framework : gdsc_framework_type = true;
  obedient_mode : ∀ n d m, hw_answer n (Pm_genpd_set_hwmode d m) = 0
}.

Context `{!Obedient}.

Definition gdsc_change (name : string) : change :=
  match named pd_name name pd_tbl with Some pd => one (V_pd (pd_device pd)) | None => none end.

Lemma switch_ok s0 L b q dest name :
  total (held s0 C L b q) (switch_core_gdsc_mode dest name)
    (λ rc s, held s0 C L b q s ∧ (rc = if named pd_name name pd_tbl is Some _ then 0 else - EINVAL)).
Proof.
  unfold switch_core_gdsc_mode. destruct (named _ _ _) as [pd|]; [|by apply total_ret].
  destruct (pd_has_hw_power_collapse pd); [|by apply total_ret].
  eapply total_post; [apply hext_total; by right|]. intros rc s [[n ->] Hs].
  split; [|apply obedient_mode]. revert Hs. apply held_eq. change_tac.
Qed.

Lemma calm_switch dest name : calm (switch_core_gdsc_mode dest name).
Proof.
  intros s0 L b q _. eapply total_post; [apply switch_ok|]. intros ? s [Hs _].
  revert Hs. apply held_eq. change_tac.
Qed.

Definition known (name : string) : Prop := named pd_name name pd_tbl ≠ None.

Lemma gives_gdsc name : known name → gives (__disable_gdsc name) (none ⊖ gdsc_change name).
Proof.
  unfold known. intros Hn s0 L b q Hb. unfold __disable_gdsc. rewrite obedient_framework.
  unfold __disable_hw_power_collapse, __take_back_regulators. rewrite obedient_framework.
  eapply (total_bind _ _ (λ rc s, rc = 0 ∧ held s0 C L b q s)).
  { apply total_if; intros _; [by apply total_ret|].
    eapply total_post; [apply switch_ok|]. intros rc s [Hs ->]. split; [|done].
    by destruct (named _ _ _). }
  intros rc. apply total_pure. intros ->. cbn. unfold __disable_power_domain, gdsc_change.
  destruct (named _ _ _) as [pd|]; [|done].
  eapply total_bind; [apply hext_total; by right|]. intros r.
  apply total_if; intros _; apply total_ret; intros s [_ Hs]; revert Hs; apply held_eq; change_tac.
Qed.

(** A domain that refuses keeps the usage count it was given. *)
Lemma acquires_gdsc name :
  acquires (__enable_gdsc name) (gdsc_change name) [gdsc_change name].
Proof.
  intros s0 L b q Hb. unfold __enable_gdsc. rewrite obedient_framework.
  unfold __enable_power_domain, gdsc_change.
  destruct (named pd_name name pd_tbl) as [pd|] eqn:E.
  2: { apply total_ret. intros s Hs. right. split; [done|]. exists none. split; [left; done|].
       revert Hs. apply held_eq. change_tac. }
  eapply total_bind; [apply hext_total; by right|]. intros rc. apply total_if; intros Hrc.
  { apply total_ret. intros s [_ Hs]. right. split; [lia|]. eexists. split; [|exact Hs].
    right. eexists. split; [apply list_elem_of_here|]. change_tac. }
  eapply (total_pre _ (held s0 C (L ⊕ one (V_pd (pd_device pd))) b q)).
  2: { intros s [_ Hs]. revert Hs. apply held_eq. change_tac. }
  apply total_if; intros _; [|apply total_ret; auto].
  eapply total_bind; [apply switch_ok|]. intros r. rewrite E.
  eapply total_pre; [|intros s [Hs Hr]; exact (conj Hr Hs)]. apply total_pure. intros ->. cbn.
  apply total_ret. auto.
Qed.

(** ** Sequences of steps *)

Definition settles (m : P Z) (δ : change) : Prop := gives m (none ⊖ δ).

(** [steps_ok steps δs ks]: step by step the changes are [δs], and a step that fails may
    leave one of [ks]. *)
Inductive steps_ok : list (P Z * P Z) → list change → list change → Prop :=
| steps_nil : steps_ok [] [] []
| steps_clean on off δ l δs ks :
    acquires on δ [] → settles off δ → steps_ok l δs ks → steps_ok ((on, off) :: l) (δ :: δs) ks
| steps_leaky on off δ k l δs ks :
    acquires on δ [k] → settles off δ → steps_ok l δs ks →
    steps_ok ((on, off) :: l) (δ :: δs) (k :: ks).

Lemma sum_cons d l v : sum (d :: l) v = d v + sum l v.
Proof. reflexivity. Qed.

Lemma undo_ok (undo : list (P Z)) (δs : list change) s0 L b q :
  may_access b q → Forall2 settles undo δs →
  total (held s0 C (L ⊕ sum δs) b q) (each undo (λ m, m ;; mret tt)) (λ _, held s0 C L b q).
Proof.
  intros Hb Hu. induction Hu as [|m δ undo δs Hm Hu IH]; cbn [each].
  { apply total_ret. intros s. apply held_eq. change_tac. }
  eapply total_bind.
  { apply (gives_map m (λ _, tt) _ Hm). exact Hb. }
  intros ?. eapply total_pre; [exact IH|]. intros s. apply held_eq. intros v.
  unfold plus, minus, none. rewrite sum_cons. lia.
Qed.

Lemma leak_mono ks ks' k : ks ⊆ ks' → leak ks k → leak ks' k.
Proof. intros Hs [?|(k' & ? & ?)]; [by left|]. right. exists k'. auto. Qed.

(** What one step and the undoing of the earlier ones leave. *)
Lemma step_ok (on : P Z) δ ks1 ks δs (rest_ : P Z) undo us s0 L b q :
  may_access b q → acquires on δ ks1 → Forall2 settles undo us → ks1 ⊆ ks →
  total (held s0 C (L ⊕ sum (δ :: us)) b q) rest_ (λ rc s,
    (rc = 0 ∧ held s0 C (L ⊕ (sum (δ :: us) ⊕ sum δs)) b q s) ∨
    (rc ≠ 0 ∧ ∃ k, leak ks k ∧ held s0 C (L ⊕ k) b q s)) →
  total (held s0 C (L ⊕ sum us) b q)
    (rc ← on; if negb (rc =? 0) then each undo (λ m, m ;; mret tt) ;; mret rc else rest_)
    (λ rc s,
      (rc = 0 ∧ held s0 C (L ⊕ (sum us ⊕ sum (δ :: δs))) b q s) ∨
      (rc ≠ 0 ∧ ∃ k, leak ks k ∧ held s0 C (L ⊕ k) b q s)).
Proof.
  intros Hb Hon Hu Hks Hrest. eapply total_bind; [by apply Hon|]. intros rc.
  apply total_if; intros Hrc.
  - apply negb_true_iff, Z.eqb_neq in Hrc.
    eapply (total_pre _ (λ s, ∃ k, leak ks1 k ∧ held s0 C ((L ⊕ k) ⊕ sum us) b q s)).
    2: { intros s [[? _]|(_ & k & Hk & Hs)]; [done|]. exists k. split; [done|]. revert Hs.
         apply held_eq. change_tac. }
    apply total_ex. intros k. apply total_pure. intros Hk.
    eapply total_bind; [by apply undo_ok|]. intros ?. apply total_ret. intros s Hs.
    right. split; [done|]. exists k. split; [by eapply leak_mono|done].
  - apply negb_false_iff, Z.eqb_eq in Hrc as ->.
    eapply total_conseq; [exact Hrest| |].
    + intros s [[_ Hs]|[? _]]; [|done]. revert Hs. apply held_eq. intros v. unfold plus.
      rewrite sum_cons. lia.
    + intros rc s [[-> Hs]|Hs]; [left|by right]. split; [done|]. revert Hs. apply held_eq.
      intros v. unfold plus. rewrite !sum_cons. lia.
Qed.

Lemma all_or_undo_ok steps δs ks undo us s0 L b q :
  may_access b q → steps_ok steps δs ks → Forall2 settles undo us →
  total (held s0 C (L ⊕ sum us) b q) (all_or_undo steps undo) (λ rc s,
    (rc = 0 ∧ held s0 C (L ⊕ (sum us ⊕ sum δs)) b q s) ∨
    (rc ≠ 0 ∧ ∃ k, leak ks k ∧ held s0 C (L ⊕ k) b q s)).
Proof.
  intros Hb Hs. revert undo us.
  induction Hs as [|on off δ l δs ks Hon Hoff Hl IH|on off δ k l δs ks Hon Hoff Hl IH];
    intros undo us Hu.
  { apply total_ret. intros s Hs. left. split; [done|]. revert Hs. apply held_eq. change_tac. }
  - cbn [all_or_undo]. eapply step_ok; [done..|apply list_subseteq_nil|]. apply IH. by constructor.
  - cbn [all_or_undo]. eapply step_ok; [done..| |].
    { intros k' Hk'. apply list_elem_of_singleton in Hk' as ->. apply list_elem_of_here. }
    eapply total_post; [apply IH; by constructor|].
    intros rc s [?|(? & k' & Hk' & ?)]; [by left|]. right. split; [done|]. exists k'.
    split; [|done]. eapply leak_mono; [|exact Hk']. apply list_subseteq_cons, reflexivity.
Qed.

Lemma acquires_steps steps δs ks : steps_ok steps δs ks → acquires (all_or_undo steps []) (sum δs) ks.
Proof.
  intros Hs s0 L b q Hb.
  eapply total_conseq; [eapply (all_or_undo_ok _ _ _ [] [] s0 L b q); [exact Hb|exact Hs|constructor]|..].
  - intros s. apply held_eq. change_tac.
  - intros rc s [[-> Hs']|Hs']; [left|by right]. split; [done|]. revert Hs'. apply held_eq. change_tac.
Qed.

End rules.

(** A small device, for the witnesses: its hardware answers as given, its tables are short. *)

Definition small_device (answer : nat → hcall → Z) (domains : list power_domain_info) : HwEnv := {|
  hw_answer := answer;
  pd_tbl := domains;
  regulator_tbl := [];
  gdsc_framework_type := true;
  fw_low_power_mode := true;
  core_noc_cx_pd_disable := false;
  sw_power_collapsible := true;
  clock_rates := [400000000];
  tcsr_mapped := true;
  reg_tbl := [];
  noc_qos := mkQos 1 2 3 4 5 6 7;
  qos_noc_urgency_low_a_bitmask := 0;
  qos_noc_urgency_low_b_bitmask := 0;
  noc_log_required := true;
  soc_version := 0x20000;
  pm_qos_hdls := false;
  silver_cores := [];
  cpu_possible := λ _, true;
  pm_qos_min_latency := 0;
  resume_latency_default := 0x7fffffff;
  sys_cache_present := true;
  syscache_disable := false;
  config_eva_art := true;
  slice_id := λ s, s;
  rcg_vnoc_clk_en_low := 0x30
|}.

(** Calls succeed, and registers read as [reg_value] says. *)
Definition obliging (reg_value : Z → Z) (n : nat) (c : hcall) : Z :=
  match c with
  | Readl register_base r => reg_value r
  | Clk_is_enabled _ | Kmemdup | Mutex_trylock => 1
  | _ => 0
  end.

Lemma small_device_obedient reg_value domains :
  @Obedient (small_device (obliging reg_value) domains).
Proof. by split. Qed.

(** The powered-off device with a table of clocks. *)
Definition powered_off (clocks : list clock_info) : hw :=
  mkHw false 0 0 (Some [1], 1) clocks [mkBus 31 100] [mkSubcache "cvp" false false 41] false 0 0 0
    false [] 0 true [].
