(* ===== verification/Hal.v ===== *)
(** The interface between the driver and a target (src/msm/eva/cvp_core_hfi.h,
    [struct cvp_hal_ops]): one operation per step of the power sequences, set by
    [set_<target>_hal_functions], and the routines that every target's file repeats. *)

From stdpp Require Import strings.
From S2P Require Import Prelude Store Hw HwRules.
Open Scope Z_scope.

(** The operations a target provides; a target may leave one out. *)
Record cvp_hal_ops := mkHal {
  interrupt_init : option (P unit);
  setup_dsp_uc_memmap : option (Z → Z → P unit);
  power_off_controller : option (P Z);
  power_off_core : option (P Z);
  power_on_controller : option (P Z);
  power_on_core : option (P Z);
  noc_error_info : option (P unit);
  check_ctl_power_on : option (P Z);
  check_core_power_on : option (P Z);
  print_sbm_regs : option (P unit);
  set_registers : option (P Z);
  dump_noc_regs : option (P unit);
  enable_hw_power_collapse : option (P Z);
  check_tensilica_in_reset : option (P unit);
  pm_qos_update : option (list (bool * Z) → P Z);
  noc_lpi : option (enter_noc_lpi_caller → P unit)
}.

(** A missing operation is skipped and counts as successful. *)
Definition call_iris_op (o : option (P Z)) : P Z := match o with Some m => m | None => mret 0 end.
Definition call_iris_op_ (o : option (P unit)) : P unit := match o with Some m => m | None => mret tt end.

(** * What the targets have in common *)

Definition CVP_SS_CLK_HALT : Z := 0x8.
Definition CVP_SS_CLK_EN : Z := 0xC.
Definition CVP_VPU_WRAPPER_CORE_CONFIG : Z := 0xB0088.

Section common.
Context `{HwEnv}.

(** Low-power handshake with a network on the chip: ask, and ask again while it denies, at
    most 2000 times; [again] is what a target does between withdrawing and asking. *)
Definition lpi_denied (v : Z) : bool :=
  (Z.testbit v 1 || Z.testbit v 2) && negb (Z.testbit v 0).

(** The older targets also ask again when the network both denies and accepts. *)
Definition lpi_denied_or_active (v : Z) : bool :=
  Z.testbit v 1 || (Z.testbit v 2 && negb (Z.testbit v 0)).

Definition lpi_round (denied : Z → bool) (control status : Z) (again : P unit) (_ : unit) : P (unit + unit) :=
  v ← read32 status;
  if denied v
  then __write_register control 0 ;; again ;; __write_register control 1 ;; mret (inl tt)
  else mret (inr tt).

Definition lpi_request (denied : Z → bool) (control status : Z) (again : P unit) : P bool :=
  __write_register control 1 ;;
  r ← loop 2000 (lpi_round denied control status again) tt;
  mret (match r with inr _ => true | inl _ => false end).

(** The aggregated latency the driver asks of the silver cores. *)
Definition cvp_pm_qos_update (vote_on : bool) : P unit :=
  g ← gets hw_pm_qos_latency;
  let latency := if vote_on then g else resume_latency_default in
  whenS (negb (g =? 0) && pm_qos_hdls)
    (each silver_cores (λ c, whenS (cpu_possible c) (hcall_ (Pm_qos_update_request c latency)))).

(** [insts]: for every open session whether it is started, and the latency it asks for. *)
Definition iris_pm_qos_aggregate (insts : list (bool * Z)) : P Z :=
  g ← gets hw_pm_qos_latency;
  let lat := foldl (λ m i, if (i : bool * Z).1 then (if m <? i.2 then m else i.2) else m)
               resume_latency_default insts in
  whenS (negb (lat =? g))
    (whenS (pm_qos_min_latency <? lat)
       (modify (λ s, s <| hw_pm_qos_latency := lat |>) ;; cvp_pm_qos_update true)) ;;
  mret 0.

(** A word of the error log, kept when the log is wanted. *)
Definition __err_log (reg val : Z) : P unit :=
  whenS noc_log_required (modify (λ s, s <| hw_noc_log ::= λ l, l ++ [(reg, val)] |>)).

Definition log_reg (reg : Z) : P unit := v ← read32 reg; __err_log reg v.

(** A step of a power-up routine and what undoes it. *)
Definition clk_step (name : string) : P Z * P Z :=
  (msm_cvp_prepare_enable_clk name, msm_cvp_disable_unprepare_clk name).
Definition gdsc_step (name : string) : P Z * P Z := (__enable_gdsc name, __disable_gdsc name).

(** The regulators named [cvp-core] in turn; the last result is the result. *)
Fixpoint core_regulators (m : regulator_info → P Z) (l : list regulator_info) (rc : Z) : P Z :=
  match l with
  | [] => mret rc
  | ri :: l' =>
      if String.eqb (rg_name ri) "cvp-core"
      then rc ← m ri; core_regulators m l' rc
      else core_regulators m l' rc
  end.

End common.

(** What [__print_reg_details_errlog1_high] says of a transaction: who and what. *)
Definition __print_reg_details_errlog1_high (val : Z) : Z * Z * option string :=
  let mid := Z.land val 0x1F in
  let pid := Z.land (Z.shiftr val 5) 0x1F in
  let rw := if Z.land (Z.shiftr mid 5) 1 =? 1 then Some "Write to DDR"%string
            else if Z.land (Z.shiftr mid 5) 1 =? 0 then Some "Read from DDR"%string else None in
  (mid, pid, rw).

(** What a target promises to the driver: its power-up routines take what they announce or
    leave at most a known leak, its power-down routines give back what they announce, and
    together they balance; everything else leaves the accounts alone. *)

Class HalLaws `{HwEnv} (C : list clock_info) (ops : cvp_hal_ops)
    (ctl_on core_on core_off ctl_off : change) (ctl_leak core_leak : list change) : Prop := {
  hal_on_controller : acquires C (call_iris_op (power_on_controller ops)) ctl_on ctl_leak;
  hal_on_core : acquires C (call_iris_op (power_on_core ops)) core_on core_leak;
  hal_off_core : gives C (call_iris_op (power_off_core ops)) (none ⊖ core_off);
  hal_off_controller : gives C (call_iris_op (power_off_controller ops)) (none ⊖ ctl_off);
  hal_set_registers : calm C (call_iris_op (set_registers ops));
  hal_check_core : calm C (call_iris_op (check_core_power_on ops));
  hal_check_ctl : calm C (call_iris_op (check_ctl_power_on ops));
  hal_interrupt_init : calm C (call_iris_op_ (interrupt_init ops));
  hal_noc_lpi : ∀ caller,
    calm C (call_iris_op_ (match noc_lpi ops with Some f => Some (f caller) | None => None end));
  hal_hw_collapse : calm C (call_iris_op (enable_hw_power_collapse ops));
  hal_tensilica : calm C (call_iris_op_ (check_tensilica_in_reset ops))
}.

(** Register code leaves the accounts alone, by its structure. *)
Ltac calm_tac :=
  repeat first
    [ progress intros | match goal with Hc : _ |- _ => solve [apply Hc] end | (apply calm_hext; by intros)
    | apply calm_read32 | apply calm_write | apply calm_poll | apply calm_show
    | apply calm_window | apply calm_switch | apply calm_opp_set_rate
    | apply gives_ret | apply calm_gets | (apply calm_modify; by intros)
    | apply calm_whenS | apply calm_each | apply calm_loop | apply gives_if
    | (eapply calm_bind) ].

Section helpers.
Context `{HwEnv}.
Variable C : list clock_info.

Lemma calm_lpi_request denied control status again :
  calm C again → calm C (lpi_request denied control status again).
Proof.
  intros Ha. unfold lpi_request. eapply calm_bind; [apply calm_write|]. intros _.
  apply gives_map, calm_loop. intros ?. unfold lpi_round. calm_tac.
Qed.

Lemma calm_qos_update b : calm C (cvp_pm_qos_update b).
Proof. unfold cvp_pm_qos_update, hcall_. calm_tac. Qed.

Hypothesis HC : NoDup (clk_name <$> C).

Lemma settles_clk name : settles C (msm_cvp_disable_unprepare_clk name) (clk_change C name).
Proof. by apply gives_clk. Qed.

Lemma gives_nothing {A} (m : P A) ζ : calm C m → (∀ v, ζ v = 0) → gives C m (none ⊖ ζ).
Proof. intros Hm E. eapply gives_eq; [|exact Hm]. intros v. unfold minus, none. rewrite E. lia. Qed.

End helpers.

(** A chain of steps, each undone by its counterpart. *)
Ltac steps_tac :=
  repeat first
    [ apply steps_nil
    | apply steps_leaky; [apply acquires_gdsc; exact _|apply gives_gdsc; first [exact _|by auto]|]
    | apply steps_clean; [apply acquires_clk|by apply settles_clk|] ].

(** Calls that give back, one after the other: their changes add up. *)
Ltac returns_tac HC :=
  eapply gives_eq;
  [|repeat first
      [ apply gives_ret
      | eapply gives_bind; [first [apply (gives_clk _ HC) | apply gives_gdsc; first [exact _|done]
                                  | apply calm_write]|intros ?] ]];
  intros ?; unfold plus, minus, none; lia.
