(* ===== verification/HalHawi.v ===== *)
(** The power sequences of the Hawi target (src/msm/eva/target/cvp_hawi_hal.c). *)

From stdpp Require Import strings.
From S2P Require Import Prelude Store HawiIo Hw HwRules Hal.
Open Scope Z_scope.

Definition mid_names_hawi : list string :=
  ["CVP_FW"; "ARP_DATA"; "CDM_DATA"; "Invalid"; "CVP_MPU_PIXEL"; "CVP_MPU_NON_PIXEL";
   "Invalid"; "Invalid"; "CVP_FDU_PIXEL"; "CVP_FDU_NON_PIXEL"; "Invalid"; "Invalid";
   "CVP_GCE_PIXEL"; "CVP_GCE_NON_PIXEL"; "Invalid"; "Invalid"; "CVP_TOF_PIXEL";
   "CVP_TOF_NON_PIXEL"; "Invalid"; "Invalid"; "Invalid"; "Invalid"; "Invalid"; "Invalid";
   "CVP_RGE_NON_PIXEL"].

Section hawi.
Context `{HwEnv}.

(** * Diagnosis *)

Definition __print_sidebandmanager_regs_hawi : P unit :=
  read32 CVP_NOC_SBM_SENSELN0_LOW ;;
  x ← read32 CVP_CPU_CS_X2RPMh;
  __write_register CVP_CPU_CS_X2RPMh (Z.lor x CVP_CPU_CS_X2RPMh_SWOVERRIDE_BMSK) ;;
  show [CVP_CPU_CS_X2RPMh; CVP_CPU_CS_X2RPMh_STATUS] ;;
  x ← read32 CVP_CPU_CS_X2RPMh;
  (if negb (anyb x CVP_CPU_CS_X2RPMh_SWOVERRIDE_BMSK) then mret tt
   else
     cbcr ← __read_gcc_register CVP_GCC_EVA_AXI0_CBCR;
     if anyb (u32 cbcr) 0x80000000 then mret tt
     else show
       [CVP_NOC_ERR_ERRVLD_LOW_OFFS; CVP_NOC_SBM_FAULTINSTATUS0_LOW;
        CVP_NOC_ERR_ERRLOG0_LOW_OFFS; CVP_NOC_ERR_ERRLOG0_HIGH_OFFS;
        CVP_NOC_ERR_ERRLOG1_LOW_OFFS; CVP_NOC_ERR_ERRLOG1_HIGH_OFFS;
        CVP_NOC_ERR_ERRLOG2_LOW_OFFS; CVP_NOC_ERR_ERRLOG2_HIGH_OFFS;
        CVP_NOC_ERR_ERRLOG3_LOW_OFFS; CVP_NOC_ERR_ERRLOG3_HIGH_OFFS;
        CVP_NOC_MAIN_SIDEBANDMANAGER_SENSELN0_LOW; CVP_NOC_MAIN_SIDEBANDMANAGER_SENSELN0_HIGH;
        CVP_NOC_MAIN_SIDEBANDMANAGER_SENSELN1_HIGH]) ;;
  __write_register CVP_CPU_CS_X2RPMh (Z.ldiff x CVP_CPU_CS_X2RPMh_SWOVERRIDE_BMSK).

Definition __check_tensilica_in_reset_hawi : P unit := mret tt.

(** * Low-power handshakes *)

Definition __enter_cpu_noc_lpi (caller : enter_noc_lpi_caller) : P unit :=
  lpi_request lpi_denied CVP_WRAPPER_CPU_NOC_LPI_CONTROL CVP_WRAPPER_CPU_NOC_LPI_STATUS (mret tt) ;;
  accepted ← poll 2000 CVP_WRAPPER_CPU_NOC_LPI_STATUS (λ v, anyb v 1);
  __write_register CVP_WRAPPER_CPU_NOC_LPI_CONTROL 0 ;;
  whenS (negb accepted)
    (show [CVP_WRAPPER_CPU_STATUS; CVP_CTRL_STATUS] ;; __print_sidebandmanager_regs_hawi).

Definition __enter_video_ctl_noc_lpi (caller : enter_noc_lpi_caller) : P unit :=
  lpi_request lpi_denied CVP_AON_WRAPPER_CVP_VIDEO_CTL_NOC_LPI_CONTROL
    CVP_AON_WRAPPER_CVP_VIDEO_CTL_NOC_LPI_STATUS (mret tt) ;;
  accepted ← poll 2000 CVP_AON_WRAPPER_CVP_VIDEO_CTL_NOC_LPI_STATUS (λ v, anyb v 1);
  __write_register CVP_AON_WRAPPER_CVP_VIDEO_CTL_NOC_LPI_CONTROL 0 ;;
  whenS (negb accepted) __print_sidebandmanager_regs_hawi.

Definition __noc_lpi_hawi (caller : enter_noc_lpi_caller) : P unit :=
  __enter_cpu_noc_lpi caller ;; __enter_video_ctl_noc_lpi caller.

(** * Set-up of registers *)

Definition setup_dsp_uc_memmap_vpu5_hawi (align_device_addr size : Z) : P unit :=
  __write_register HFI_DSP_QTBL_ADDR (u32 align_device_addr) ;;
  __write_register HFI_DSP_UC_REGION_ADDR (u32 align_device_addr) ;;
  __write_register HFI_DSP_UC_REGION_SIZE size.

Definition interrupt_init_iris2_hawi : P unit :=
  m ← read32 CVP_WRAPPER_INTR_MASK;
  __write_register CVP_WRAPPER_INTR_MASK
    (Z.ldiff m (Z.lor CVP_FATAL_INTR_BMSK CVP_WRAPPER_INTR_MASK_A2HCPU_BMSK)) ;;
  m ← read32 CVP_SS_IRQ_MASK;
  __write_register CVP_SS_IRQ_MASK (Z.ldiff m CVP_SS_INTR_BMASK).

Definition __check_ctl_power_on_hawi : P Z :=
  r ← read32 CVP_CC_MVS0C_GDSCR;
  if negb (anyb r 0x80000000) then mret (-1)
  else r ← read32 CVP_CC_MVS0C_CBCR;
       if anyb r 0x80000000 then mret (-2)
       else r ← read32 CVP_CC_MVS0C_DEBUG_CBCR;
            if anyb r 0x80000000 then mret (-3) else mret 0.

Definition __check_core_power_on_hawi : P Z :=
  r ← read32 CVP_CC_MVS0_GDSCR;
  if negb (anyb r 0x80000000) then mret (-1)
  else r ← read32 CVP_CC_MVS0_CBCR;
       if anyb r 0x80000000 then mret (-2)
       else
         cx ← (if core_noc_cx_pd_disable then mret true
               else r ← read32 CVP_CC_AXI0_CX_INT_GDSCR; mret (anyb r 0x80000000));
         if negb cx then mret (-3)
         else r ← read32 CVP_CC_MM_INT_GDSCR;
              if negb (anyb r 0x80000000) then mret (-4) else mret 0.

Definition __set_registers_hawi : P Z :=
  each reg_tbl (λ rv, __write_register rv.1 rv.2) ;;
  __write_register CVP_NOC_RCGCONTROLLER_HYSTERESIS_LOW 0xff ;;
  __write_register CVP_NOC_RCGCONTROLLER_WAKEUP_LOW 0x7 ;;
  __write_register CVP_NOC_RCG_VNOC_NOC_CLK_FORCECLOCKON_LOW 0x1 ;;
  __write_register CVP_NOC_RCG_VNOC_NOC_CLK_ENABLE_LOW 0x1 ;;
  __write_register CVP_NOC_RCG_VNOC_NOC_CLK_FORCECLOCKON_LOW 0x0 ;;
  __write_register CVP_AON_WRAPPER_CVP_NOC_ARCG_CONTROL 0x0 ;;
  __write_register CVP_CPU_CS_AXI4_QOS (axi_qos noc_qos) ;;
  __write_register CVP_NOC_A_PRIORITYLUT_LOW (prioritylut_low noc_qos) ;;
  __write_register CVP_NOC_A_PRIORITYLUT_HIGH (prioritylut_high noc_qos) ;;
  __write_register CVP_NOC_A_URGENCY_LOW
    (u32 (Z.lxor (urgency_low noc_qos) qos_noc_urgency_low_a_bitmask)) ;;
  __write_register CVP_NOC_A_DANGERLUT_LOW (dangerlut_low noc_qos) ;;
  __write_register CVP_NOC_A_SAFELUT_LOW (safelut_low noc_qos) ;;
  __write_register CVP_NOC_B_PRIORITYLUT_LOW (prioritylut_low noc_qos) ;;
  __write_register CVP_NOC_B_PRIORITYLUT_HIGH (prioritylut_high noc_qos) ;;
  __write_register CVP_NOC_B_URGENCY_LOW
    (u32 (Z.lxor (urgency_low noc_qos) qos_noc_urgency_low_b_bitmask)) ;;
  __write_register CVP_NOC_B_DANGERLUT_LOW (dangerlut_low noc_qos) ;;
  __write_register CVP_NOC_B_SAFELUT_LOW (safelut_low noc_qos) ;;
  __write_register CVP_NOC_C_PRIORITYLUT_LOW (prioritylut_low noc_qos) ;;
  __write_register CVP_NOC_C_PRIORITYLUT_HIGH (prioritylut_high noc_qos) ;;
  __write_register CVP_NOC_C_URGENCY_LOW (urgency_low_ro noc_qos) ;;
  __write_register CVP_NOC_C_DANGERLUT_LOW (dangerlut_low noc_qos) ;;
  __write_register CVP_NOC_C_SAFELUT_LOW (safelut_low noc_qos) ;;
  __write_register CVP_NOC_A_NIU_DECCTL_LOW 0x1 ;;
  whenS (negb core_noc_cx_pd_disable)
    (__write_register CVP_NOC_A_NIU_ENCCTL_LOW 0x1 ;;
     __write_register CVP_NOC_B_NIU_DECCTL_LOW 0x1) ;;
  __write_register CVP_NOC_B_NIU_ENCCTL_LOW 0x1 ;;
  __write_register CVP_NOC_CORE_ERR_MAINCTL_LOW_OFFS 0x3 ;;
  __write_register CVP_NOC_MAIN_SIDEBANDMANAGER_FAULTINEN0_LOW 0x1 ;;
  mret 0.

(** * Power on *)

(** Bits of GPIO_OUT are set, and after the handshake with GPIO_IN set again: the masks of
    the second pair have the bit clear and are meant for an AND. *)
Definition __controller_fallback_mode : P unit :=
  reg ← read32 CVP_WRAPPER_GPIO_IN;
  whenS (anyb reg 0x1)
    (reg ← read32 CVP_WRAPPER_GPIO_OUT;
     __write_register CVP_WRAPPER_GPIO_OUT (Z.lor reg 0x8) ;;
     reg ← read32 CVP_WRAPPER_GPIO_OUT;
     __write_register CVP_WRAPPER_GPIO_OUT (Z.lor reg 0x4) ;;
     reg ← read32 CVP_WRAPPER_GPIO_IN;
     whenS (anyb reg 0x20)
       (poll 1000 CVP_WRAPPER_GPIO_IN (λ v, negb (anyb v 0x20)) ;; mret tt) ;;
     reg ← read32 CVP_WRAPPER_GPIO_OUT;
     __write_register CVP_WRAPPER_GPIO_OUT (Z.lor reg 0xFFFFFFFB) ;;
     reg ← read32 CVP_WRAPPER_GPIO_OUT;
     __write_register CVP_WRAPPER_GPIO_OUT (Z.lor reg 0xFFFFFFF7)).

Definition controller_steps_hawi : list (P Z * P Z) :=
  [gdsc_step "controller_pd"; clk_step "sleep_clk"; clk_step "core_axi_clock";
   clk_step "cvp_axi_clock"; clk_step "cvp_clk"; clk_step "cvp_freerun_clk";
   clk_step "cvp_ctl_freerun_clk"; clk_step "cvp_debug_clk"].

Definition __power_on_controller_hawi : P Z :=
  rc ← all_or_undo controller_steps_hawi [];
  if negb (rc =? 0) then mret rc else __controller_fallback_mode ;; mret 0.

Definition core_steps_hawi : list (P Z * P Z) :=
  (if core_noc_cx_pd_disable then [] else [gdsc_step "core_noc_cx_pd"]) ++
  [gdsc_step "core_noc_mm_pd"; gdsc_step "core_pd"; clk_step "eva_cc_mvs0_clk_src";
   clk_step "core_clk"] ++
  (if core_noc_cx_pd_disable then [clk_step "core_freerun_clk"] else []).

Definition __power_on_core_hawi : P Z := all_or_undo core_steps_hawi [].

(** * Power off *)

Definition __power_off_core_noc_hawi : P unit :=
  __disable_gdsc "core_noc_mm_pd" ;;
  whenS (negb core_noc_cx_pd_disable) (__disable_gdsc "core_noc_cx_pd" ;; mret tt).

(** The core is off already, or stays on for its network: only the accounts are settled. *)
Definition core_released_hawi : P Z :=
  whenS (negb core_noc_cx_pd_disable) (__disable_gdsc "core_noc_cx_pd" ;; mret tt) ;;
  __disable_gdsc "core_noc_mm_pd" ;;
  __disable_gdsc "core_pd" ;;
  msm_cvp_disable_unprepare_clk "core_clk" ;;
  mret 0.

Definition __power_off_core_hawi : P Z :=
  value ← read32 CVP_CC_MVS0_GDSCR;
  if negb (anyb value 0x80000000) then
    ack ← read32 CVP_NOC_RESET_ACK;
    whenS (negb (ack =? 0)) __print_sidebandmanager_regs_hawi ;;
    core_released_hawi
  else if negb (anyb value 0x2) && fw_low_power_mode then core_released_hawi
  else
    config ← read32 CVP_WRAPPER_CORE_CLOCK_CONFIG;
    whenS (negb (config =? 0)) (__write_register CVP_WRAPPER_CORE_CLOCK_CONFIG 0) ;;
    poll 10 CVP_SS_IDLE_STATUS (λ v, anyb v 0x400000) ;;
    __write_register CVP_NOC_RESET_REQ 0xffff0000 ;;
    __write_register CVP_NOC_RESET_REQ 0xffff5a3f ;;
    poll 10 CVP_NOC_RESET_ACK (λ v, anyb v 0x5a3f) ;;
    __write_register CVP_NOC_RESET_SYNCRST 0x5a3f ;;
    __write_register CVP_NOC_RESET_SYNCRST 0x0 ;;
    __write_register CVP_NOC_RESET_REQ 0xffff0000 ;;
    poll 10 CVP_NOC_RESET_ACK (λ v, v =? 0) ;;
    __write_register CVP_NOC_RESET_REQ 0xffff0000 ;;
    __write_register CVP_NOC_RESET_REQ 0x0 ;;
    __write_register CVP_AHB_BRIDGE_SYNC_RESET 0x3 ;;
    __write_register CVP_AHB_BRIDGE_SYNC_RESET 0x2 ;;
    __write_register CVP_AHB_BRIDGE_SYNC_RESET 0x0 ;;
    __disable_gdsc "core_pd" ;;
    msm_cvp_disable_unprepare_clk "core_clk" ;;
    __power_off_core_noc_hawi ;;
    mret 0.

Definition __power_off_controller_hawi : P Z :=
  __write_register CVP_CPU_CS_X2RPMh 0x3 ;;
  __enter_cpu_noc_lpi POWER_OFF_CNTRL ;;
  __enter_video_ctl_noc_lpi POWER_OFF_CNTRL ;;
  __write_register CVP_WRAPPER_DEBUG_BRIDGE_LPI_CONTROL 0x0 ;;
  poll 1000 CVP_WRAPPER_DEBUG_BRIDGE_LPI_STATUS (λ v, v =? 0) ;;
  lpi ← read32 CVP_AON_WRAPPER_CVP_NOC_LPI_CONTROL;
  __write_register CVP_AON_WRAPPER_CVP_NOC_LPI_CONTROL (Z.lor lpi 0x10) ;;
  __write_register CVP_AON_WRAPPER_CVP_NOC_LPI_CONTROL (Z.ldiff (Z.lor lpi 0x10) 0x10) ;;
  whenS core_noc_cx_pd_disable (msm_cvp_disable_unprepare_clk "core_freerun_clk" ;; mret tt) ;;
  msm_cvp_disable_unprepare_clk "cvp_debug_clk" ;;
  msm_cvp_disable_unprepare_clk "cvp_ctl_freerun_clk" ;;
  msm_cvp_disable_unprepare_clk "cvp_freerun_clk" ;;
  msm_cvp_disable_unprepare_clk "cvp_clk" ;;
  msm_cvp_disable_unprepare_clk "sleep_clk" ;;
  __disable_gdsc "controller_pd" ;;
  msm_cvp_disable_unprepare_clk "core_axi_clock" ;;
  msm_cvp_disable_unprepare_clk "cvp_axi_clock" ;;
  msm_cvp_disable_unprepare_clk "eva_cc_mvs0_clk_src" ;;
  mret 0.

(** * Power collapse between frames *)

Definition gdsc_set_check (check_reg_status : bool) (reg : Z) (name : string)
    (dest : core_gdsc_dest) : P Z :=
  let power_mask := match dest with TO_HW_CTRL => 1 | TO_SW_CTRL => 0 end in
  rc ← switch_core_gdsc_mode dest name;
  if negb (rc =? 0) then mret rc
  else if negb check_reg_status then mret rc
  else moved ← poll 10 reg (λ v, negb (Z.shiftr v 31 =? power_mask));
       if (moved : bool) then mret rc else mret (- EINVAL).

Definition gdsc_hw_ctl : list (Z * string) :=
  [(CVP_CC_MVS0_GDSCR, "core_pd"%string); (CVP_CC_MM_INT_GDSCR, "core_noc_mm_pd"%string)] ++
  (if core_noc_cx_pd_disable then [] else [(CVP_CC_AXI0_CX_INT_GDSCR, "core_noc_cx_pd"%string)]).

Definition gdsc_sw_ctl : list (Z * string) :=
  (if core_noc_cx_pd_disable then [] else [(CVP_CC_AXI0_CX_INT_GDSCR, "core_noc_cx_pd"%string)]) ++
  [(CVP_CC_MM_INT_GDSCR, "core_noc_mm_pd"%string); (CVP_CC_MVS0_GDSCR, "core_pd"%string)].

(** The domains in turn; when one fails, the first [i] of the list for hardware control are
    switched back. *)
Fixpoint switch_gdscs (check_reg_status : bool) (dest : core_gdsc_dest) (i : nat)
    (l : list (Z * string)) : P Z :=
  match l with
  | [] => mret 0
  | (reg, name) :: l' =>
      rc ← gdsc_set_check check_reg_status reg name dest;
      if negb (rc =? 0)
      then each (rev (take i gdsc_hw_ctl)) (λ g, gdsc_set_check false g.1 g.2 TO_SW_CTRL ;; mret tt) ;;
           mret (- EINVAL)
      else switch_gdscs check_reg_status dest (S i) l'
  end.

Definition switch_all_core_gdsc (check_reg_status : bool) (dest : core_gdsc_dest) : P Z :=
  if negb gdsc_framework_type then mret (- EINVAL)
  else switch_gdscs check_reg_status dest 0
         (match dest with TO_HW_CTRL => gdsc_hw_ctl | TO_SW_CTRL => gdsc_sw_ctl end).

Definition __enable_hw_power_collapse_hawi : P Z :=
  if negb fw_low_power_mode then mret 0
  else rc ← switch_all_core_gdsc true TO_HW_CTRL;
       if negb (rc =? 0) then switch_all_core_gdsc false TO_SW_CTRL else mret rc.

(** * The error log of the networks *)

(** The client a word of the error log names: [mid_names_hawi] has 25 entries, the field
    five bits. *)
Definition __print_reg_details_errlog3_low_hawi (val : Z) : P (string * Z) :=
  let mid := Z.land (Z.shiftr val 7) 0x1F in
  let sid := Z.land (Z.shiftr val 2) 0x7 in
  match mid_names_hawi !! Z.to_nat mid with None => stuck | Some n => mret (n, sid) end.

Definition __clear_pd_noc_req : P unit :=
  whenS (negb core_noc_cx_pd_disable)
    (v ← read32 CVP_WRAPPER_CVP_NOC_CX_LPI_CONTROL;
     __write_register CVP_WRAPPER_CVP_NOC_CX_LPI_CONTROL (Z.ldiff v 0x01) ;;
     poll 10 CVP_WRAPPER_CVP_NOC_CX_LPI_STATUS (λ v, negb (anyb v 0x1)) ;; mret tt) ;;
  v ← read32 CVP_WRAPPER_CVP_NOC_LPI_CONTROL;
  __write_register CVP_WRAPPER_CVP_NOC_LPI_CONTROL (Z.ldiff v 0x01) ;;
  poll 10 CVP_WRAPPER_CVP_NOC_LPI_STATUS (λ v, negb (anyb v 0x1)) ;;
  mret tt.

Definition cpu_noc_regs : list Z :=
  [CVP_NOC_ERR_MAINCTL_LOW_OFFS; CVP_NOC_ERR_ERRVLD_LOW_OFFS; CVP_NOC_ERR_ERRLOG0_LOW_OFFS;
   CVP_NOC_ERR_ERRLOG0_HIGH_OFFS; CVP_NOC_ERR_ERRLOG1_LOW_OFFS; CVP_NOC_ERR_ERRLOG1_HIGH_OFFS;
   CVP_NOC_ERR_ERRLOG2_LOW_OFFS; CVP_NOC_ERR_ERRLOG2_HIGH_OFFS; CVP_NOC_ERR_ERRLOG3_LOW_OFFS;
   CVP_NOC_ERR_ERRLOG3_HIGH_OFFS].

Definition core_noc_regs : list Z :=
  [CVP_NOC_CORE_ERR_SWID_LOW_OFFS; CVP_NOC_CORE_ERR_SWID_HIGH_OFFS;
   CVP_NOC_CORE_ERR_MAINCTL_LOW_OFFS; CVP_NOC_CORE_ERR_ERRVLD_LOW_OFFS;
   CVP_NOC_CORE_ERR_ERRCLR_LOW_OFFS; CVP_NOC_CORE_ERR_ERRLOG0_LOW_OFFS;
   CVP_NOC_CORE_ERR_ERRLOG0_HIGH_OFFS; CVP_NOC_CORE_ERR_ERRLOG1_LOW_OFFS;
   CVP_NOC_CORE_ERR_ERRLOG1_HIGH_OFFS; CVP_NOC_CORE_ERR_ERRLOG2_LOW_OFFS;
   CVP_NOC_CORE_ERR_ERRLOG2_HIGH_OFFS].

Definition __dump_noc_regs_hawi : P unit :=
  whenS fw_low_power_mode
    ((if gdsc_framework_type then switch_all_core_gdsc true TO_SW_CTRL
      else core_regulators __acquire_regulator regulator_tbl 0) ;; mret tt) ;;
  __clear_pd_noc_req ;;
  show [CVP_CC_MVS0_GDSCR; CVP_CC_MM_INT_GDSCR] ;;
  whenS (negb core_noc_cx_pd_disable) (show [CVP_CC_AXI0_CX_INT_GDSCR]) ;;
  show [CVP_CC_XO_CBCR; CVP_CC_SLEEP_CBCR; CVP_CC_AHB_CBCR; CVP_CC_DBGCH_XO_CBCR;
        CVP_CC_CC_MVS0C_CTL_FREERUN_CBCR; CVP_CC_MVS0C_FREERUN_CBCR] ;;
  config ← read32 CVP_WRAPPER_CORE_CLOCK_CONFIG;
  whenS (negb (config =? 0)) (__write_register CVP_WRAPPER_CORE_CLOCK_CONFIG 0) ;;
  show [CVP_NOC_A_NIU_DECCTL_LOW; CVP_NOC_A_NIU_ENCCTL_LOW; CVP_NOC_B_NIU_DECCTL_LOW;
        CVP_NOC_B_NIU_ENCCTL_LOW; CVP_NOC_MAIN_SIDEBANDMANAGER_FAULTINEN0_LOW;
        CVP_NOC_MAIN_SIDEBANDMANAGER_SENSELN0_LOW; CVP_NOC_MAIN_SIDEBANDMANAGER_SENSELN0_HIGH;
        CVP_NOC_MAIN_SIDEBANDMANAGER_SENSELN1_LOW; CVP_NOC_MAIN_SIDEBANDMANAGER_SENSELN1_HIGH;
        CVP_NOC_MAIN_SIDEBANDMANAGER_SENSELN2_LOW] ;;
  show cpu_noc_regs ;;
  show core_noc_regs ;;
  v ← read32 CVP_NOC_CORE_ERR_ERRLOG3_LOW_OFFS;
  __print_reg_details_errlog3_low_hawi v ;;
  show [CVP_NOC_CORE_ERR_ERRLOG3_HIGH_OFFS] ;;
  __write_register CVP_NOC_CORE_ERR_ERRCLR_LOW_OFFS 0x1 ;;
  whenS fw_low_power_mode
    (rc ← (if gdsc_framework_type then switch_all_core_gdsc true TO_HW_CTRL
           else core_regulators __hand_off_regulator regulator_tbl 0);
     whenS (negb (rc =? 0)) (switch_all_core_gdsc false TO_SW_CTRL ;; mret tt)) ;;
  __write_register CVP_WRAPPER_CORE_CLOCK_CONFIG config.

Definition __noc_error_info_iris2_hawi : P unit :=
  used ← gets hw_noc_used;
  if (used : bool) then mret tt
  else
    modify (λ s, s <| hw_noc_used := true |>) ;;
    whenS (negb core_noc_cx_pd_disable) (__disable_hw_power_collapse "core_noc_cx_pd" ;; mret tt) ;;
    __disable_hw_power_collapse "core_noc_mm_pd" ;;
    __disable_hw_power_collapse "core_pd" ;;
    __check_core_power_on_hawi ;;
    show [CVP_AON_WRAPPER_CVP_NOC_CORE_CLK_CONTROL; CVP_WRAPPER_CORE_CLOCK_CONFIG] ;;
    each [CVP_NOC_ERR_SWID_LOW_OFFS; CVP_NOC_ERR_SWID_HIGH_OFFS; CVP_NOC_ERR_MAINCTL_LOW_OFFS;
          CVP_NOC_ERR_ERRVLD_LOW_OFFS; CVP_NOC_ERR_ERRCLR_LOW_OFFS; CVP_NOC_ERR_ERRLOG0_LOW_OFFS;
          CVP_NOC_ERR_ERRLOG0_HIGH_OFFS; CVP_NOC_ERR_ERRLOG1_LOW_OFFS;
          CVP_NOC_ERR_ERRLOG1_HIGH_OFFS; CVP_NOC_ERR_ERRLOG2_LOW_OFFS;
          CVP_NOC_ERR_ERRLOG2_HIGH_OFFS; CVP_NOC_ERR_ERRLOG3_LOW_OFFS;
          CVP_NOC_ERR_ERRLOG3_HIGH_OFFS] log_reg ;;
    each core_noc_regs log_reg ;;
    v ← read32 CVP_NOC_CORE_ERR_ERRLOG3_LOW_OFFS;
    __err_log CVP_NOC_CORE_ERR_ERRLOG3_LOW_OFFS v ;;
    __print_reg_details_errlog3_low_hawi v ;;
    log_reg CVP_NOC_CORE_ERR_ERRLOG3_HIGH_OFFS ;;
    __write_register CVP_NOC_CORE_ERR_ERRCLR_LOW_OFFS 0x1 ;;
    __write_register CVP_SS_CLK_HALT 0 ;;
    __write_register CVP_SS_CLK_EN 0x3f ;;
    __write_register CVP_VPU_WRAPPER_CORE_CONFIG 0.

Definition hal_ops_hawi : cvp_hal_ops := {|
  interrupt_init := Some interrupt_init_iris2_hawi;
  setup_dsp_uc_memmap := Some setup_dsp_uc_memmap_vpu5_hawi;
  power_off_controller := Some __power_off_controller_hawi;
  power_off_core := Some __power_off_core_hawi;
  power_on_controller := Some __power_on_controller_hawi;
  power_on_core := Some __power_on_core_hawi;
  noc_error_info := Some __noc_error_info_iris2_hawi;
  check_ctl_power_on := Some __check_ctl_power_on_hawi;
  check_core_power_on := Some __check_core_power_on_hawi;
  print_sbm_regs := Some __print_sidebandmanager_regs_hawi;
  set_registers := Some __set_registers_hawi;
  dump_noc_regs := Some __dump_noc_regs_hawi;
  enable_hw_power_collapse := Some __enable_hw_power_collapse_hawi;
  check_tensilica_in_reset := Some __check_tensilica_in_reset_hawi;
  pm_qos_update := Some iris_pm_qos_aggregate;
  noc_lpi := Some __noc_lpi_hawi
|}.

End hawi.

(** The Hawi target keeps the promises of a target (Hal.v), whatever its registers say. *)

#[local] Opaque loop poll lpi_request hext.

Section hawi.
Context `{HwEnv} `{!Obedient}.
Variable C : list clock_info.
Hypothesis HC : NoDup (clk_name <$> C).

(** The power domains the sequences name. *)
Definition hawi_domains : list string :=
  ["controller_pd"; "core_noc_mm_pd"; "core_pd"] ++
  (if core_noc_cx_pd_disable then [] else ["core_noc_cx_pd"%string]).

Hypothesis Hpd : Forall known hawi_domains.

Abbreviation clk := (clk_change C).
Abbreviation gdsc := gdsc_change.

Lemma hawi_known n : n ∈ hawi_domains → known n.
Proof. apply list.Forall_forall, Hpd. Qed.

Lemma known_cx : core_noc_cx_pd_disable = false → known "core_noc_cx_pd".
Proof. intros E. apply hawi_known. unfold hawi_domains. rewrite E. do 3 right. apply list_elem_of_here. Qed.

(** ** What the sequences take and give back *)

Definition hawi_ctl_on : list change :=
  [gdsc "controller_pd"; clk "sleep_clk"; clk "core_axi_clock"; clk "cvp_axi_clock";
   clk "cvp_clk"; clk "cvp_freerun_clk"; clk "cvp_ctl_freerun_clk"; clk "cvp_debug_clk"].

Definition hawi_cx : change := if core_noc_cx_pd_disable then none else gdsc "core_noc_cx_pd".
Definition hawi_freerun : change := if core_noc_cx_pd_disable then clk "core_freerun_clk" else none.

Definition hawi_core_on : list change :=
  (if core_noc_cx_pd_disable then [] else [gdsc "core_noc_cx_pd"]) ++
  [gdsc "core_noc_mm_pd"; gdsc "core_pd"; clk "eva_cc_mvs0_clk_src"; clk "core_clk"] ++
  (if core_noc_cx_pd_disable then [clk "core_freerun_clk"] else []).

Definition hawi_core_off : change :=
  hawi_cx ⊕ gdsc "core_noc_mm_pd" ⊕ gdsc "core_pd" ⊕ clk "core_clk".

Definition hawi_ctl_off : change :=
  hawi_freerun ⊕ clk "cvp_debug_clk" ⊕ clk "cvp_ctl_freerun_clk" ⊕ clk "cvp_freerun_clk"
  ⊕ clk "cvp_clk" ⊕ clk "sleep_clk" ⊕ gdsc "controller_pd" ⊕ clk "core_axi_clock"
  ⊕ clk "cvp_axi_clock" ⊕ clk "eva_cc_mvs0_clk_src".

(** Taken by the power-up routines is what the power-down routines give back. *)
Lemma hawi_balance v :
  sum hawi_ctl_on v + sum hawi_core_on v = hawi_core_off v + hawi_ctl_off v.
Proof.
  unfold hawi_ctl_on, hawi_core_on, hawi_core_off, hawi_ctl_off, hawi_cx, hawi_freerun, sum, plus, none.
  destruct core_noc_cx_pd_disable; cbn -[Z.add clk_change gdsc_change]; lia.
Qed.

(** ** The routines *)

Lemma calm_sbm_hawi : calm C __print_sidebandmanager_regs_hawi.
Proof. unfold __print_sidebandmanager_regs_hawi, __read_gcc_register. calm_tac. Qed.

Lemma calm_cpu_lpi caller : calm C (__enter_cpu_noc_lpi caller).
Proof.
  unfold __enter_cpu_noc_lpi. eapply calm_bind; [apply calm_lpi_request, gives_ret|].
  pose proof calm_sbm_hawi. calm_tac.
Qed.

Lemma calm_video_lpi caller : calm C (__enter_video_ctl_noc_lpi caller).
Proof.
  unfold __enter_video_ctl_noc_lpi. eapply calm_bind; [apply calm_lpi_request, gives_ret|].
  pose proof calm_sbm_hawi. calm_tac.
Qed.

Lemma calm_noc_lpi_hawi caller : calm C (__noc_lpi_hawi caller).
Proof. unfold __noc_lpi_hawi. eapply calm_bind; [apply calm_cpu_lpi|]. intros _. apply calm_video_lpi. Qed.

Lemma calm_set_registers_hawi : calm C __set_registers_hawi.
Proof. unfold __set_registers_hawi. calm_tac. Qed.

Lemma calm_check_core_hawi : calm C __check_core_power_on_hawi.
Proof. unfold __check_core_power_on_hawi. calm_tac. Qed.

Lemma calm_check_ctl_hawi : calm C __check_ctl_power_on_hawi.
Proof. unfold __check_ctl_power_on_hawi. calm_tac. Qed.

Lemma calm_interrupt_hawi : calm C interrupt_init_iris2_hawi.
Proof. unfold interrupt_init_iris2_hawi. calm_tac. Qed.

Lemma calm_fallback : calm C __controller_fallback_mode.
Proof. unfold __controller_fallback_mode. calm_tac. Qed.

Lemma calm_gdsc_set_check chk reg name dest : calm C (gdsc_set_check chk reg name dest).
Proof. unfold gdsc_set_check. calm_tac. Qed.

Lemma calm_switch_gdscs chk dest i l : calm C (switch_gdscs chk dest i l).
Proof.
  revert i. induction l as [|[reg name] l IH]; intros i; cbn [switch_gdscs]; [apply gives_ret|].
  eapply calm_bind; [apply calm_gdsc_set_check|]. intros rc. apply gives_if; [|apply IH].
  eapply calm_bind; [|intros _; apply gives_ret]. apply calm_each. intros g.
  apply gives_map, calm_gdsc_set_check.
Qed.

Lemma calm_collapse_hawi : calm C __enable_hw_power_collapse_hawi.
Proof.
  unfold __enable_hw_power_collapse_hawi, switch_all_core_gdsc.
  pose proof calm_switch_gdscs. calm_tac.
Qed.

Lemma hawi_on_controller :
  acquires C __power_on_controller_hawi (sum hawi_ctl_on) [gdsc "controller_pd"].
Proof.
  intros s0 L b q Hb. unfold __power_on_controller_hawi.
  assert (known "controller_pd") by apply hawi_known, list_elem_of_here.
  eapply total_bind.
  { refine (acquires_steps C _ _ [gdsc "controller_pd"] _ s0 L b q Hb).
    unfold controller_steps_hawi, hawi_ctl_on, gdsc_step, clk_step.
    steps_tac. }
  intros rc. apply total_if; intros Hrc.
  - apply total_ret. auto.
  - apply negb_false_iff, Z.eqb_eq in Hrc as ->.
    eapply (total_pre _ (held s0 C (L ⊕ sum hawi_ctl_on) b q)); [|intros s [[_ ?]|[? _]]; done].
    eapply total_bind; [by apply calm_fallback|]. intros ?. apply total_ret. intros s Hs.
    left. split; [done|]. revert Hs. apply held_eq. change_tac.
Qed.

Lemma hawi_on_core :
  acquires C __power_on_core_hawi (sum hawi_core_on)
    (hawi_cx :: [gdsc "core_noc_mm_pd"; gdsc "core_pd"]).
Proof.
  unfold __power_on_core_hawi, core_steps_hawi, hawi_cx, gdsc_step, clk_step.
  pose proof known_cx as Hcx. pose proof hawi_known as Hk.
  intros s0 L b q Hb. eapply total_post.
  { refine (acquires_steps C _ hawi_core_on
      ((if core_noc_cx_pd_disable then [] else [gdsc "core_noc_cx_pd"]) ++
       [gdsc "core_noc_mm_pd"; gdsc "core_pd"]) _ s0 L b q Hb).
    assert (Hmm : known "core_noc_mm_pd").
    { apply Hk. right. apply list_elem_of_here. }
    assert (Hpd' : known "core_pd").
    { apply Hk. do 2 right. apply list_elem_of_here. }
    unfold hawi_core_on. destruct core_noc_cx_pd_disable; cbn [app]; steps_tac. }
  intros rc s [?|(Hrc & k & Hk' & Hs)]; [by left|]. right. split; [done|].
  exists k. split; [|done]. destruct Hk' as [?|(k' & Hin & ?)]; [by left|]. right. exists k'.
  split; [|done]. destruct core_noc_cx_pd_disable; [by right|exact Hin].
Qed.

Lemma gives_cx_off :
  gives C (whenS (negb core_noc_cx_pd_disable) (__disable_gdsc "core_noc_cx_pd" ;; mret tt))
    (none ⊖ hawi_cx).
Proof.
  unfold hawi_cx. pose proof known_cx as Hcx. destruct core_noc_cx_pd_disable; cbn.
  - apply gives_nothing; [apply gives_ret|done].
  - by apply gives_map, gives_gdsc, Hcx.
Qed.

Ltac give :=
  first [ apply gives_cx_off
        | apply gives_gdsc; first [exact _ | apply hawi_known; unfold hawi_domains; repeat first [apply list_elem_of_here | right]]
        | by apply gives_clk ].

(** Calls that give back, one after the other; [t] says what each of the others does. *)
Ltac gives_tac t :=
  eapply gives_eq; [|repeat first [ apply gives_ret | eapply gives_bind; [first [give | t]|intros ?] | give | t ]];
  intros v; unfold hawi_core_off, hawi_ctl_off, hawi_freerun, plus, minus, none; lia.

Lemma gives_released : gives C core_released_hawi (none ⊖ hawi_core_off).
Proof. unfold core_released_hawi. gives_tac fail. Qed.

Lemma gives_core_noc : gives C __power_off_core_noc_hawi (none ⊖ (gdsc "core_noc_mm_pd" ⊕ hawi_cx)).
Proof. unfold __power_off_core_noc_hawi. gives_tac fail. Qed.

Lemma hawi_off_core : gives C __power_off_core_hawi (none ⊖ hawi_core_off).
Proof.
  unfold __power_off_core_hawi. eapply calm_bind; [apply calm_read32|]. intros value.
  pose proof calm_sbm_hawi.
  apply gives_if; [|apply gives_if].
  - eapply calm_bind; [apply calm_read32|]. intros ack.
    eapply calm_bind; [by apply calm_whenS|]. intros _. apply gives_released.
  - apply gives_released.
  - do 15 (eapply calm_bind; [solve [calm_tac]|intros ?]).
    gives_tac ltac:(apply gives_core_noc).
Qed.

Lemma gives_freerun_off :
  gives C (whenS core_noc_cx_pd_disable (msm_cvp_disable_unprepare_clk "core_freerun_clk" ;; mret tt))
    (none ⊖ hawi_freerun).
Proof.
  unfold hawi_freerun. destruct core_noc_cx_pd_disable; cbn.
  - by apply gives_map, gives_clk.
  - apply gives_nothing; [apply gives_ret|done].
Qed.

Lemma hawi_off_controller : gives C __power_off_controller_hawi (none ⊖ hawi_ctl_off).
Proof.
  unfold __power_off_controller_hawi.
  eapply calm_bind; [apply calm_write|intros ?].
  eapply calm_bind; [apply calm_cpu_lpi|intros ?].
  eapply calm_bind; [apply calm_video_lpi|intros ?].
  do 5 (eapply calm_bind; [solve [calm_tac]|intros ?]).
  gives_tac ltac:(apply gives_freerun_off).
Qed.

#[export] Instance hawi_laws :
  HalLaws C hal_ops_hawi (sum hawi_ctl_on) (sum hawi_core_on) hawi_core_off hawi_ctl_off
    [gdsc "controller_pd"] (hawi_cx :: [gdsc "core_noc_mm_pd"; gdsc "core_pd"]).
Proof.
  split; cbn [hal_ops_hawi call_iris_op call_iris_op_ power_on_controller power_on_core
    power_off_core power_off_controller set_registers check_core_power_on check_ctl_power_on
    interrupt_init noc_lpi enable_hw_power_collapse check_tensilica_in_reset].
  - apply hawi_on_controller.
  - apply hawi_on_core.
  - apply hawi_off_core.
  - apply hawi_off_controller.
  - apply calm_set_registers_hawi.
  - apply calm_check_core_hawi.
  - apply calm_check_ctl_hawi.
  - apply calm_interrupt_hawi.
  - apply calm_noc_lpi_hawi.
  - apply calm_collapse_hawi.
  - apply gives_ret.
Qed.

End hawi.
