(* ===== verification/HalKaanapali.v ===== *)
(** The power sequences of the Kaanapali target (src/msm/eva/target/cvp_kaanapali_hal.c).

    What differs from Hawi: one power domain for the core, handshakes that first clear the
    error log of their network, a fresh set of clocks, and hardware control of the core's
    domain that is confirmed by polling the domain's status. *)

From stdpp Require Import strings.
From S2P Require Import Prelude Store KaanapaliIo Hw HwRules Hal.
Open Scope Z_scope.

Definition mid_names_kaanapali : list string :=
  ["CVP_FW"; "ARP_DATA"; "CDM_DATA"; "Invalid"; "CVP_MPU_PIXEL"; "CVP_MPU_NON_PIXEL";
   "Invalid"; "Invalid"; "CVP_FDU_PIXEL"; "CVP_FDU_NON_PIXEL"; "Invalid"; "Invalid";
   "CVP_GCE_PIXEL"; "CVP_GCE_NON_PIXEL"; "Invalid"; "Invalid"; "CVP_TOF_PIXEL";
   "CVP_TOF_NON_PIXEL"; "Invalid"; "Invalid"; "Invalid"; "Invalid"; "Invalid"; "Invalid";
   "CVP_RGE_NON_PIXEL"].

Section kaanapali.
Context `{HwEnv}.

(** * Diagnosis *)

Definition __print_sidebandmanager_regs_kaanapali : P unit :=
  read32 CVP_NOC_SBM_SENSELN0_LOW ;;
  x ← read32 CVP_CPU_CS_X2RPMh;
  __write_register CVP_CPU_CS_X2RPMh (Z.lor x CVP_CPU_CS_X2RPMh_SWOVERRIDE_BMSK) ;;
  show [CVP_CPU_CS_X2RPMh; CVP_CPU_CS_X2RPMh_STATUS] ;;
  x ← read32 CVP_CPU_CS_X2RPMh;
  (if negb (anyb x CVP_CPU_CS_X2RPMh_SWOVERRIDE_BMSK) then mret tt
   else
     cbcr ← __read_gcc_register CVP_GCC_EVA_AXI0_CBCR;
     if anyb (u32 cbcr) 0x80000000 then mret tt
     else show
       [CVP_NOC_ERR_ERRVLD_LOW_OFFS; CVP_NOC_SBM_FAULTINSTATUS0_LOW;
        CVP_NOC_ERR_ERRLOG0_LOW_OFFS; CVP_NOC_ERR_ERRLOG0_HIGH_OFFS;
        CVP_NOC_ERR_ERRLOG1_LOW_OFFS; CVP_NOC_ERR_ERRLOG1_HIGH_OFFS;
        CVP_NOC_ERR_ERRLOG2_LOW_OFFS; CVP_NOC_ERR_ERRLOG2_HIGH_OFFS;
        CVP_NOC_ERR_ERRLOG3_LOW_OFFS; CVP_NOC_ERR_ERRLOG3_HIGH_OFFS;
        CVP_NOC_MAIN_SIDEBANDMANAGER_SENSELN0_LOW; CVP_NOC_MAIN_SIDEBANDMANAGER_SENSELN0_HIGH;
        CVP_NOC_MAIN_SIDEBANDMANAGER_SENSELN1_HIGH]) ;;
  __write_register CVP_CPU_CS_X2RPMh (Z.ldiff x CVP_CPU_CS_X2RPMh_SWOVERRIDE_BMSK).

Definition __check_tensilica_in_reset_kaanapali : P unit := show [CVP_WRAPPER_XTSS_SW_RESET_RO].

(** * Low-power handshakes *)

Definition __enter_cpu_noc_lpi_kaanapali (caller : enter_noc_lpi_caller) : P unit :=
  __write_register CVP_NOC_ERR_ERRCLR_LOW_OFFS 0x1 ;;
  entered ← lpi_request lpi_denied CVP_WRAPPER_CPU_NOC_LPI_CONTROL CVP_WRAPPER_CPU_NOC_LPI_STATUS
              (__write_register CVP_NOC_ERR_ERRCLR_LOW_OFFS 0x1);
  __write_register CVP_WRAPPER_CPU_NOC_LPI_CONTROL 0 ;;
  whenS (negb entered)
    (show [CVP_WRAPPER_CPU_STATUS; CVP_CTRL_STATUS] ;; __print_sidebandmanager_regs_kaanapali).

(** The last poll tests [value & 0x0] and always takes its ten reads. *)
Definition __enter_core_noc_lpi_kaanapali (caller : enter_noc_lpi_caller) : P unit :=
  __write_register CVP_NOC_CORE_ERR_ERRCLR_LOW_OFFS 0x1 ;;
  entered ← lpi_request lpi_denied CVP_AON_WRAPPER_CVP_NOC_LPI_CONTROL CVP_AON_WRAPPER_CVP_NOC_LPI_STATUS
    (__write_register CVP_NOC_CORE_ERR_ERRCLR_LOW_OFFS 0x1 ;;
     v ← read32 CVP_NOC_CORE_ERR_MAINCTL_LOW_OFFS;
     __write_register CVP_NOC_CORE_ERR_MAINCTL_LOW_OFFS (Z.ldiff v 0x3));
  __write_register CVP_AON_WRAPPER_CVP_NOC_LPI_CONTROL 0 ;;
  whenS (negb entered) __print_sidebandmanager_regs_kaanapali ;;
  poll 10 CVP_AON_WRAPPER_CVP_NOC_LPI_STATUS (λ v, anyb v 0x0) ;;
  __write_register CVP_AON_WRAPPER_CVP_NOC_LPI_CONTROL 0.

Definition __enter_video_ctl_noc_lpi_kaanapali (caller : enter_noc_lpi_caller) : P unit :=
  entered ← lpi_request lpi_denied CVP_AON_WRAPPER_CVP_VIDEO_CTL_NOC_LPI_CONTROL
              CVP_AON_WRAPPER_CVP_VIDEO_CTL_NOC_LPI_STATUS (mret tt);
  __write_register CVP_AON_WRAPPER_CVP_VIDEO_CTL_NOC_LPI_CONTROL 0 ;;
  whenS (negb entered) __print_sidebandmanager_regs_kaanapali.

Definition __noc_lpi_kaanapali (caller : enter_noc_lpi_caller) : P unit :=
  __enter_cpu_noc_lpi_kaanapali caller ;; __enter_video_ctl_noc_lpi_kaanapali caller ;;
  __enter_core_noc_lpi_kaanapali caller.

(** * Set-up of registers *)

Definition setup_dsp_uc_memmap_vpu5_kaanapali (align_device_addr size : Z) : P unit :=
  __write_register HFI_DSP_QTBL_ADDR (u32 align_device_addr) ;;
  __write_register HFI_DSP_UC_REGION_ADDR (u32 align_device_addr) ;;
  __write_register HFI_DSP_UC_REGION_SIZE size.

Definition interrupt_init_iris2_kaanapali : P unit :=
  m ← read32 CVP_WRAPPER_INTR_MASK;
  __write_register CVP_WRAPPER_INTR_MASK
    (Z.ldiff m (Z.lor CVP_FATAL_INTR_BMSK CVP_WRAPPER_INTR_MASK_A2HCPU_BMSK)) ;;
  m ← read32 CVP_SS_IRQ_MASK;
  __write_register CVP_SS_IRQ_MASK (Z.ldiff m CVP_SS_INTR_BMASK).

Definition __check_ctl_power_on_kaanapali : P Z :=
  r ← read32 CVP_CC_MVS0C_GDSCR;
  if negb (anyb r 0x80000000) then mret (-1)
  else r ← read32 CVP_CC_MVS0C_CBCR;
       if anyb r 0x80000000 then mret (-2) else mret 0.

Definition __check_core_power_on_kaanapali : P Z :=
  r ← read32 CVP_CC_MVS0_GDSCR;
  if negb (anyb r 0x80000000) then mret (-1)
  else r ← read32 CVP_CC_MVS0_CBCR;
       if anyb r 0x80000000 then mret (-2) else mret 0.

Definition clear_qosgen_kaanapali (reg : Z) : P unit :=
  val ← __read_register reg;
  __write_register reg (u32 (Z.ldiff val 0x4)).

Definition __set_registers_kaanapali : P Z :=
  each reg_tbl (λ rv, __write_register rv.1 rv.2) ;;
  clear_qosgen_kaanapali CVP_VIDEO_B_NOC_A_QOSGEN_MAINCTL_LOW ;;
  clear_qosgen_kaanapali CVP_VIDEO_B_NOC_B_QOSGEN_MAINCTL_LOW ;;
  clear_qosgen_kaanapali CVP_VIDEO_B_NOC_C_QOSGEN_MAINCTL_LOW ;;
  __write_register CVP_NOC_RCGCONTROLLER_HYSTERESIS_LOW 0xff ;;
  __write_register CVP_NOC_RCGCONTROLLER_WAKEUP_LOW 0x7 ;;
  __write_register CVP_NOC_RCG_VNOC_NOC_CLK_FORCECLOCKON_LOW 0x1 ;;
  __write_register CVP_NOC_RCG_VNOC_NOC_CLK_ENABLE_LOW 0x1 ;;
  __write_register CVP_NOC_RCG_VNOC_NOC_CLK_FORCECLOCKON_LOW 0x0 ;;
  __write_register CVP_AON_WRAPPER_CVP_NOC_ARCG_CONTROL 0x0 ;;
  __write_register CVP_CPU_CS_AXI4_QOS (axi_qos noc_qos) ;;
  __write_register CVP_NOC_A_PRIORITYLUT_LOW (prioritylut_low noc_qos) ;;
  __write_register CVP_NOC_A_PRIORITYLUT_HIGH (prioritylut_high noc_qos) ;;
  __write_register CVP_NOC_A_URGENCY_LOW
    (u32 (Z.lxor (urgency_low noc_qos) qos_noc_urgency_low_a_bitmask)) ;;
  __write_register CVP_NOC_A_DANGERLUT_LOW (dangerlut_low noc_qos) ;;
  __write_register CVP_NOC_A_SAFELUT_LOW (safelut_low noc_qos) ;;
  __write_register CVP_NOC_B_PRIORITYLUT_LOW (prioritylut_low noc_qos) ;;
  __write_register CVP_NOC_B_PRIORITYLUT_HIGH (prioritylut_high noc_qos) ;;
  __write_register CVP_NOC_B_URGENCY_LOW
    (u32 (Z.lxor (urgency_low noc_qos) qos_noc_urgency_low_b_bitmask)) ;;
  __write_register CVP_NOC_B_DANGERLUT_LOW (dangerlut_low noc_qos) ;;
  __write_register CVP_NOC_B_SAFELUT_LOW (safelut_low noc_qos) ;;
  __write_register CVP_NOC_C_PRIORITYLUT_LOW (prioritylut_low noc_qos) ;;
  __write_register CVP_NOC_C_PRIORITYLUT_HIGH (prioritylut_high noc_qos) ;;
  __write_register CVP_NOC_C_URGENCY_LOW (urgency_low_ro noc_qos) ;;
  __write_register CVP_NOC_C_DANGERLUT_LOW (dangerlut_low noc_qos) ;;
  __write_register CVP_NOC_C_SAFELUT_LOW (safelut_low noc_qos) ;;
  __write_register CVP_NOC_A_NIU_DECCTL_LOW 0x1 ;;
  __write_register CVP_NOC_A_NIU_ENCCTL_LOW 0x1 ;;
  __write_register CVP_NOC_B_NIU_DECCTL_LOW 0x1 ;;
  __write_register CVP_NOC_B_NIU_ENCCTL_LOW 0x1 ;;
  __write_register CVP_NOC_CORE_ERR_MAINCTL_LOW_OFFS 0x3 ;;
  __write_register CVP_NOC_MAIN_SIDEBANDMANAGER_FAULTINEN0_LOW 0x1 ;;
  mret 0.

(** * Power on *)

Definition controller_steps_kaanapali : list (P Z * P Z) :=
  [gdsc_step "eva"; clk_step "sleep"; clk_step "core_iface"; clk_step "eva_iface";
   clk_step "eva0"; clk_step "eva_freerun"].

Definition __power_on_controller_kaanapali : P Z := all_or_undo controller_steps_kaanapali [].

Definition core_steps_kaanapali : list (P Z * P Z) :=
  [gdsc_step "core"; clk_step "core0"; clk_step "core_freerun"].

Definition __power_on_core_kaanapali : P Z := all_or_undo core_steps_kaanapali [].

(** * Power off *)

(** The core is off already, or stays on for its network: only the accounts are settled. *)
Definition core_released_kaanapali : P Z :=
  __disable_gdsc "core" ;;
  msm_cvp_disable_unprepare_clk "core0" ;;
  mret 0.

Definition __power_off_core_kaanapali : P Z :=
  value ← read32 CVP_CC_MVS0_GDSCR;
  if negb (anyb value 0x80000000) then
    ack ← read32 CVP_NOC_RESET_ACK;
    whenS (negb (ack =? 0)) __print_sidebandmanager_regs_kaanapali ;;
    core_released_kaanapali
  else if negb (anyb value 0x2) && fw_low_power_mode then core_released_kaanapali
  else
    config ← read32 CVP_WRAPPER_CORE_CLOCK_CONFIG;
    whenS (negb (config =? 0)) (__write_register CVP_WRAPPER_CORE_CLOCK_CONFIG 0) ;;
    poll 10 CVP_SS_IDLE_STATUS (λ v, anyb v 0x400000) ;;
    __enter_core_noc_lpi_kaanapali POWER_OFF_CORE ;;
    __write_register CVP_NOC_RESET_REQ 0xffff0000 ;;
    __write_register CVP_NOC_RESET_REQ 0xffff5fbf ;;
    poll 10 CVP_NOC_RESET_ACK (λ v, anyb v 0x5fbf) ;;
    __write_register CVP_NOC_RESET_SYNCRST 0x5fbf ;;
    __write_register CVP_NOC_RESET_SYNCRST 0x0 ;;
    __write_register CVP_NOC_RESET_REQ 0xffff0000 ;;
    poll 10 CVP_NOC_RESET_ACK (λ v, anyb v 0x0) ;;
    __write_register CVP_NOC_RESET_REQ 0xffff0000 ;;
    __write_register CVP_NOC_RESET_REQ 0x0 ;;
    __write_register CVP_AHB_BRIDGE_SYNC_RESET 0x3 ;;
    __write_register CVP_AHB_BRIDGE_SYNC_RESET 0x2 ;;
    __write_register CVP_AHB_BRIDGE_SYNC_RESET 0x0 ;;
    __write_register CVP_WRAPPER_CORE_CLOCK_CONFIG config ;;
    core_released_kaanapali.

Definition __power_off_controller_kaanapali : P Z :=
  __write_register CVP_CPU_CS_X2RPMh 0x3 ;;
  __enter_cpu_noc_lpi_kaanapali POWER_OFF_CNTRL ;;
  __enter_video_ctl_noc_lpi_kaanapali POWER_OFF_CNTRL ;;
  __write_register CVP_WRAPPER_DEBUG_BRIDGE_LPI_CONTROL 0x0 ;;
  poll 1000 CVP_WRAPPER_DEBUG_BRIDGE_LPI_STATUS (λ v, v =? 0) ;;
  lpi ← read32 CVP_AON_WRAPPER_CVP_NOC_LPI_CONTROL;
  __write_register CVP_AON_WRAPPER_CVP_NOC_LPI_CONTROL (Z.lor lpi 0x10) ;;
  __write_register CVP_AON_WRAPPER_CVP_NOC_LPI_CONTROL (Z.ldiff (Z.lor lpi 0x10) 0x10) ;;
  msm_cvp_disable_unprepare_clk "core_freerun" ;;
  msm_cvp_disable_unprepare_clk "eva_freerun" ;;
  msm_cvp_disable_unprepare_clk "eva0" ;;
  msm_cvp_disable_unprepare_clk "sleep" ;;
  __disable_gdsc "eva" ;;
  __write_register CVP_AON_WRAPPER_CVP_NOC_ARCG_CONTROL 0x1 ;;
  msm_cvp_disable_unprepare_clk "core_iface" ;;
  msm_cvp_disable_unprepare_clk "eva_iface" ;;
  mret 0.

(** * Power collapse between frames *)

Definition __enable_hw_power_collapse_kaanapali : P Z :=
  if negb fw_low_power_mode then mret 0
  else
    rc ← (if gdsc_framework_type then switch_core_gdsc_mode TO_HW_CTRL "core"
          else __hand_off_regulators);
    if negb (rc =? 0) then mret rc
    else off ← poll 10 CVP_CC_MVS0_GDSCR (λ v, negb (anyb v 0x80000000));
         if (off : bool) then mret rc else mret (- EINVAL).

(** * The error log of the networks *)

(** The client a word of the error log names: [mid_names_kaanapali] has 25 entries, the field
    five bits. *)
Definition __print_reg_details_errlog3_low_kaanapali (val : Z) : P (string * Z) :=
  let mid := Z.land (Z.shiftr val 7) 0x1F in
  let sid := Z.land (Z.shiftr val 2) 0x7 in
  match mid_names_kaanapali !! Z.to_nat mid with None => stuck | Some n => mret (n, sid) end.

Definition core_noc_regs_kaanapali : list Z :=
  [CVP_NOC_CORE_ERR_SWID_LOW_OFFS; CVP_NOC_CORE_ERR_SWID_HIGH_OFFS;
   CVP_NOC_CORE_ERR_MAINCTL_LOW_OFFS; CVP_NOC_CORE_ERR_ERRVLD_LOW_OFFS;
   CVP_NOC_CORE_ERR_ERRCLR_LOW_OFFS; CVP_NOC_CORE_ERR_ERRLOG0_LOW_OFFS;
   CVP_NOC_CORE_ERR_ERRLOG0_HIGH_OFFS; CVP_NOC_CORE_ERR_ERRLOG1_LOW_OFFS;
   CVP_NOC_CORE_ERR_ERRLOG1_HIGH_OFFS; CVP_NOC_CORE_ERR_ERRLOG2_LOW_OFFS;
   CVP_NOC_CORE_ERR_ERRLOG2_HIGH_OFFS].

Definition __dump_noc_regs_kaanapali : P unit :=
  whenS fw_low_power_mode
    ((if gdsc_framework_type then switch_core_gdsc_mode TO_SW_CTRL "core"
      else core_regulators __acquire_regulator regulator_tbl 0) ;; mret tt) ;;
  show [CVP_CC_MVS0_GDSCR] ;;
  config ← read32 CVP_WRAPPER_CORE_CLOCK_CONFIG;
  whenS (negb (config =? 0)) (__write_register CVP_WRAPPER_CORE_CLOCK_CONFIG 0) ;;
  show [CVP_NOC_A_NIU_DECCTL_LOW; CVP_NOC_A_NIU_ENCCTL_LOW; CVP_NOC_B_NIU_DECCTL_LOW;
        CVP_NOC_B_NIU_ENCCTL_LOW; CVP_NOC_MAIN_SIDEBANDMANAGER_FAULTINEN0_LOW;
        CVP_NOC_MAIN_SIDEBANDMANAGER_SENSELN0_LOW; CVP_NOC_MAIN_SIDEBANDMANAGER_SENSELN0_HIGH;
        CVP_NOC_MAIN_SIDEBANDMANAGER_SENSELN1_LOW; CVP_NOC_MAIN_SIDEBANDMANAGER_SENSELN1_HIGH;
        CVP_NOC_MAIN_SIDEBANDMANAGER_SENSELN2_LOW] ;;
  show core_noc_regs_kaanapali ;;
  v ← read32 CVP_NOC_CORE_ERR_ERRLOG3_LOW_OFFS;
  __print_reg_details_errlog3_low_kaanapali v ;;
  show [CVP_NOC_CORE_ERR_ERRLOG3_HIGH_OFFS] ;;
  __write_register CVP_NOC_CORE_ERR_ERRCLR_LOW_OFFS 0x1 ;;
  whenS fw_low_power_mode
    ((if gdsc_framework_type then switch_core_gdsc_mode TO_HW_CTRL "core"
      else core_regulators __hand_off_regulator regulator_tbl 0) ;; mret tt) ;;
  __write_register CVP_WRAPPER_CORE_CLOCK_CONFIG config.

Definition __noc_error_info_iris2_kaanapali : P unit :=
  used ← gets hw_noc_used;
  if (used : bool) then mret tt
  else
    modify (λ s, s <| hw_noc_used := true |>) ;;
    __disable_hw_power_collapse "core" ;;
    __check_core_power_on_kaanapali ;;
    show [CVP_AON_WRAPPER_CVP_NOC_CORE_CLK_CONTROL; CVP_WRAPPER_CORE_CLOCK_CONFIG] ;;
    each [CVP_NOC_ERR_SWID_LOW_OFFS; CVP_NOC_ERR_SWID_HIGH_OFFS; CVP_NOC_ERR_MAINCTL_LOW_OFFS;
          CVP_NOC_ERR_ERRVLD_LOW_OFFS; CVP_NOC_ERR_ERRCLR_LOW_OFFS; CVP_NOC_ERR_ERRLOG0_LOW_OFFS;
          CVP_NOC_ERR_ERRLOG0_HIGH_OFFS; CVP_NOC_ERR_ERRLOG1_LOW_OFFS;
          CVP_NOC_ERR_ERRLOG1_HIGH_OFFS; CVP_NOC_ERR_ERRLOG2_LOW_OFFS;
          CVP_NOC_ERR_ERRLOG2_HIGH_OFFS; CVP_NOC_ERR_ERRLOG3_LOW_OFFS;
          CVP_NOC_ERR_ERRLOG3_HIGH_OFFS] log_reg ;;
    each core_noc_regs_kaanapali log_reg ;;
    v ← read32 CVP_NOC_CORE_ERR_ERRLOG3_LOW_OFFS;
    __err_log CVP_NOC_CORE_ERR_ERRLOG3_LOW_OFFS v ;;
    __print_reg_details_errlog3_low_kaanapali v ;;
    log_reg CVP_NOC_CORE_ERR_ERRLOG3_HIGH_OFFS ;;
    __write_register CVP_NOC_CORE_ERR_ERRCLR_LOW_OFFS 0x1 ;;
    __write_register CVP_SS_CLK_HALT 0 ;;
    __write_register CVP_SS_CLK_EN 0x3f ;;
    __write_register CVP_VPU_WRAPPER_CORE_CONFIG 0.

(** The file has its own copy of the aggregation. *)
Definition iris_pm_qos_aggregate_kaanapali (insts : list (bool * Z)) : P Z := iris_pm_qos_aggregate insts.

Definition hal_ops_kaanapali : cvp_hal_ops := {|
  interrupt_init := Some interrupt_init_iris2_kaanapali;
  setup_dsp_uc_memmap := Some setup_dsp_uc_memmap_vpu5_kaanapali;
  power_off_controller := Some __power_off_controller_kaanapali;
  power_off_core := Some __power_off_core_kaanapali;
  power_on_controller := Some __power_on_controller_kaanapali;
  power_on_core := Some __power_on_core_kaanapali;
  noc_error_info := Some __noc_error_info_iris2_kaanapali;
  check_ctl_power_on := Some __check_ctl_power_on_kaanapali;
  check_core_power_on := Some __check_core_power_on_kaanapali;
  print_sbm_regs := Some __print_sidebandmanager_regs_kaanapali;
  set_registers := Some __set_registers_kaanapali;
  dump_noc_regs := Some __dump_noc_regs_kaanapali;
  enable_hw_power_collapse := Some __enable_hw_power_collapse_kaanapali;
  check_tensilica_in_reset := Some __check_tensilica_in_reset_kaanapali;
  pm_qos_update := Some iris_pm_qos_aggregate_kaanapali;
  noc_lpi := Some __noc_lpi_kaanapali
|}.

End kaanapali.

(** The Kaanapali target keeps the promises of a target (Hal.v), whatever its registers
    say. *)

#[local] Opaque loop poll lpi_request hext.

Section kaanapali.
Context `{HwEnv} `{!Obedient}.
Variable C : list clock_info.
Hypothesis HC : NoDup (clk_name <$> C).

(** The power domains the sequences name. *)
Definition kaanapali_domains : list string := ["eva"; "core"].
Hypothesis Hpd : Forall known kaanapali_domains.

Abbreviation clk := (clk_change C).
Abbreviation gdsc := gdsc_change.

Definition kaanapali_ctl_on : list change :=
  [gdsc "eva"; clk "sleep"; clk "core_iface"; clk "eva_iface"; clk "eva0"; clk "eva_freerun"].
Definition kaanapali_core_on : list change := [gdsc "core"; clk "core0"; clk "core_freerun"].
Definition kaanapali_core_off : change := gdsc "core" ⊕ clk "core0".
Definition kaanapali_ctl_off : change :=
  clk "core_freerun" ⊕ clk "eva_freerun" ⊕ clk "eva0" ⊕ clk "sleep" ⊕ gdsc "eva"
  ⊕ clk "core_iface" ⊕ clk "eva_iface".

(** Taken by the power-up routines is what the power-down routines give back. *)
Lemma kaanapali_balance v :
  sum kaanapali_ctl_on v + sum kaanapali_core_on v = kaanapali_core_off v + kaanapali_ctl_off v.
Proof.
  unfold kaanapali_ctl_on, kaanapali_core_on, kaanapali_core_off, kaanapali_ctl_off, sum, plus, none.
  cbn -[Z.add clk_change gdsc_change]. lia.
Qed.

Lemma kaanapali_known : known "eva" ∧ known "core".
Proof. revert Hpd. unfold kaanapali_domains. rewrite !list.Forall_cons. tauto. Qed.

Lemma calm_sbm_kaanapali : calm C __print_sidebandmanager_regs_kaanapali.
Proof. unfold __print_sidebandmanager_regs_kaanapali, __read_gcc_register. calm_tac. Qed.

Lemma calm_core_lpi_kaanapali caller : calm C (__enter_core_noc_lpi_kaanapali caller).
Proof.
  unfold __enter_core_noc_lpi_kaanapali. eapply calm_bind; [apply calm_write|intros ?].
  eapply calm_bind; [apply calm_lpi_request; calm_tac|intros ?].
  pose proof calm_sbm_kaanapali. calm_tac.
Qed.

Lemma calm_cpu_lpi_kaanapali caller : calm C (__enter_cpu_noc_lpi_kaanapali caller).
Proof.
  unfold __enter_cpu_noc_lpi_kaanapali. eapply calm_bind; [apply calm_write|intros ?].
  eapply calm_bind; [apply calm_lpi_request; calm_tac|intros ?].
  pose proof calm_sbm_kaanapali. calm_tac.
Qed.

Lemma calm_video_lpi_kaanapali caller : calm C (__enter_video_ctl_noc_lpi_kaanapali caller).
Proof.
  unfold __enter_video_ctl_noc_lpi_kaanapali.
  eapply calm_bind; [apply calm_lpi_request, gives_ret|intros ?].
  pose proof calm_sbm_kaanapali. calm_tac.
Qed.

Lemma calm_noc_lpi_kaanapali caller : calm C (__noc_lpi_kaanapali caller).
Proof.
  unfold __noc_lpi_kaanapali.
  eapply calm_bind; [apply calm_cpu_lpi_kaanapali|intros ?].
  eapply calm_bind; [apply calm_video_lpi_kaanapali|intros ?].
  apply calm_core_lpi_kaanapali.
Qed.

Lemma calm_set_registers_kaanapali : calm C __set_registers_kaanapali.
Proof. unfold __set_registers_kaanapali, clear_qosgen_kaanapali, __read_register. calm_tac. Qed.

Lemma calm_collapse_kaanapali : calm C __enable_hw_power_collapse_kaanapali.
Proof.
  unfold __enable_hw_power_collapse_kaanapali. rewrite obedient_framework. calm_tac.
Qed.

Lemma kaanapali_on_controller :
  acquires C __power_on_controller_kaanapali (sum kaanapali_ctl_on) [gdsc "eva"].
Proof.
  destruct kaanapali_known. apply acquires_steps.
  unfold controller_steps_kaanapali, kaanapali_ctl_on, gdsc_step, clk_step. steps_tac.
Qed.

Lemma kaanapali_on_core :
  acquires C __power_on_core_kaanapali (sum kaanapali_core_on) [gdsc "core"].
Proof.
  destruct kaanapali_known. apply acquires_steps.
  unfold core_steps_kaanapali, kaanapali_core_on, gdsc_step, clk_step. steps_tac.
Qed.

Lemma gives_released_kaanapali : gives C core_released_kaanapali (none ⊖ kaanapali_core_off).
Proof.
  destruct kaanapali_known. unfold core_released_kaanapali, kaanapali_core_off. returns_tac HC.
Qed.

Lemma kaanapali_off_core : gives C __power_off_core_kaanapali (none ⊖ kaanapali_core_off).
Proof.
  unfold __power_off_core_kaanapali. eapply calm_bind; [apply calm_read32|intros value].
  pose proof calm_sbm_kaanapali. pose proof calm_core_lpi_kaanapali.
  apply gives_if; [|apply gives_if; [apply gives_released_kaanapali|]].
  - do 2 (eapply calm_bind; [solve [calm_tac]|intros ?]). apply gives_released_kaanapali.
  - do 17 (eapply calm_bind; [solve [calm_tac]|intros ?]). apply gives_released_kaanapali.
Qed.

Lemma kaanapali_off_controller :
  gives C __power_off_controller_kaanapali (none ⊖ kaanapali_ctl_off).
Proof.
  destruct kaanapali_known. unfold __power_off_controller_kaanapali, kaanapali_ctl_off.
  pose proof calm_cpu_lpi_kaanapali. pose proof calm_video_lpi_kaanapali.
  do 8 (eapply calm_bind; [solve [calm_tac]|intros ?]). returns_tac HC.
Qed.

#[export] Instance kaanapali_laws :
  HalLaws C hal_ops_kaanapali (sum kaanapali_ctl_on) (sum kaanapali_core_on)
    kaanapali_core_off kaanapali_ctl_off [gdsc "eva"] [gdsc "core"].
Proof.
  split; cbn [hal_ops_kaanapali call_iris_op call_iris_op_ power_on_controller power_on_core
    power_off_core power_off_controller set_registers check_core_power_on check_ctl_power_on
    interrupt_init noc_lpi enable_hw_power_collapse check_tensilica_in_reset].
  - apply kaanapali_on_controller.
  - apply kaanapali_on_core.
  - apply kaanapali_off_core.
  - apply kaanapali_off_controller.
  - apply calm_set_registers_kaanapali.
  - unfold __check_core_power_on_kaanapali. calm_tac.
  - unfold __check_ctl_power_on_kaanapali. calm_tac.
  - unfold interrupt_init_iris2_kaanapali. calm_tac.
  - apply calm_noc_lpi_kaanapali.
  - apply calm_collapse_kaanapali.
  - unfold __check_tensilica_in_reset_kaanapali. calm_tac.
Qed.


End kaanapali.

(** * A small Kaanapali device *)
Module KaanapaliScenario.

#[export] Instance env : HwEnv :=
  small_device (obliging (λ _, 0)) [mkPd "eva" 1 false; mkPd "core" 2 true].

#[export] Instance obedient : Obedient.
Proof. apply small_device_obedient. Qed.

Definition clocks : list clock_info := [mkClock "core0" 11; mkClock "core_freerun" 12].


End KaanapaliScenario.
