(* ===== verification/HalPakala.v ===== *)
(** The power sequences of the Pakala target (src/msm/eva/target/cvp_pakala_hal.c).

    Like Glymur's, with the clocks of Hawi; the power sequences name the core's domain
    ["core"], the switches of its control ["core_pd"]. *)

From stdpp Require Import strings.
From S2P Require Import Prelude Store PakalaIo Hw Hal.
Open Scope Z_scope.

Definition mid_names_pakala : list string :=
  ["CVP_FW"; "ARP_DATA"; "CDM_DATA"; "Invalid"; "CVP_MPU_PIXEL"; "CVP_MPU_NON_PIXEL";
   "Invalid"; "Invalid"; "CVP_FDU_PIXEL"; "CVP_FDU_NON_PIXEL"; "Invalid"; "Invalid";
   "CVP_GCE_PIXEL"; "CVP_GCE_NON_PIXEL"; "Invalid"; "Invalid"; "CVP_TOF_PIXEL";
   "CVP_TOF_NON_PIXEL"; "Invalid"; "Invalid"; "Invalid"; "Invalid"; "Invalid"; "Invalid";
   "CVP_RGE_NON_PIXEL"].

Section pakala.
Context `{HwEnv}.

(** * Diagnosis *)

Definition __print_sidebandmanager_regs_pakala : P unit :=
  read32 CVP_NOC_SBM_SENSELN0_LOW ;;
  x ← read32 CVP_CPU_CS_X2RPMh;
  __write_register CVP_CPU_CS_X2RPMh (Z.lor x CVP_CPU_CS_X2RPMh_SWOVERRIDE_BMSK) ;;
  show [CVP_CPU_CS_X2RPMh; CVP_CPU_CS_X2RPMh_STATUS] ;;
  x ← read32 CVP_CPU_CS_X2RPMh;
  (if negb (anyb x CVP_CPU_CS_X2RPMh_SWOVERRIDE_BMSK) then mret tt
   else
     cbcr ← __read_gcc_register CVP_GCC_EVA_AXI0_CBCR;
     if anyb (u32 cbcr) 0x80000000 then mret tt
     else show
       [CVP_NOC_ERR_ERRVLD_LOW_OFFS; CVP_NOC_SBM_FAULTINSTATUS0_LOW;
        CVP_NOC_ERR_ERRLOG0_LOW_OFFS; CVP_NOC_ERR_ERRLOG0_HIGH_OFFS;
        CVP_NOC_ERR_ERRLOG1_LOW_OFFS; CVP_NOC_ERR_ERRLOG1_HIGH_OFFS;
        CVP_NOC_ERR_ERRLOG2_LOW_OFFS; CVP_NOC_ERR_ERRLOG2_HIGH_OFFS;
        CVP_NOC_ERR_ERRLOG3_LOW_OFFS; CVP_NOC_ERR_ERRLOG3_HIGH_OFFS;
        CVP_NOC_MAIN_SIDEBANDMANAGER_SENSELN0_LOW; CVP_NOC_MAIN_SIDEBANDMANAGER_SENSELN0_HIGH;
        CVP_NOC_MAIN_SIDEBANDMANAGER_SENSELN1_HIGH]) ;;
  __write_register CVP_CPU_CS_X2RPMh (Z.ldiff x CVP_CPU_CS_X2RPMh_SWOVERRIDE_BMSK).

Definition __check_tensilica_in_reset_pakala : P unit := show [CVP_WRAPPER_XTSS_SW_RESET_RO].

(** * Low-power handshakes *)

(** The handshake with the network of the CPU is not withdrawn. *)
Definition __enter_cpu_noc_lpi_pakala : P unit :=
  __write_register CVP_NOC_ERR_ERRCLR_LOW_OFFS 0x1 ;;
  entered ← lpi_request lpi_denied_or_active CVP_WRAPPER_CPU_NOC_LPI_CONTROL CVP_WRAPPER_CPU_NOC_LPI_STATUS
              (__write_register CVP_NOC_ERR_ERRCLR_LOW_OFFS 0x1);
  whenS (negb entered)
    (show [CVP_WRAPPER_CPU_STATUS; CVP_CTRL_STATUS] ;; __print_sidebandmanager_regs_pakala).

(** The last poll tests [value & 0x0] and always takes its ten reads. *)
Definition __enter_core_noc_lpi_pakala : P unit :=
  __write_register CVP_NOC_CORE_ERR_ERRCLR_LOW_OFFS 0x1 ;;
  entered ← lpi_request lpi_denied_or_active CVP_AON_WRAPPER_CVP_NOC_LPI_CONTROL CVP_AON_WRAPPER_CVP_NOC_LPI_STATUS
    (__write_register CVP_NOC_CORE_ERR_ERRCLR_LOW_OFFS 0x1);
  whenS (negb entered) __print_sidebandmanager_regs_pakala ;;
  poll 10 CVP_AON_WRAPPER_CVP_NOC_LPI_STATUS (λ v, anyb v 0x0) ;;
  __write_register CVP_AON_WRAPPER_CVP_NOC_LPI_CONTROL 0.

Definition __enter_video_ctl_noc_lpi_pakala : P unit :=
  entered ← lpi_request lpi_denied_or_active CVP_AON_WRAPPER_CVP_VIDEO_CTL_NOC_LPI_CONTROL
              CVP_AON_WRAPPER_CVP_VIDEO_CTL_NOC_LPI_STATUS (mret tt);
  __write_register CVP_AON_WRAPPER_CVP_VIDEO_CTL_NOC_LPI_CONTROL 0 ;;
  whenS (negb entered) __print_sidebandmanager_regs_pakala.

Definition __noc_lpi_pakala (caller : enter_noc_lpi_caller) : P unit := mret tt.

(** * Set-up of registers *)

Definition setup_dsp_uc_memmap_vpu5_pakala (align_device_addr size : Z) : P unit :=
  __write_register HFI_DSP_QTBL_ADDR (u32 align_device_addr) ;;
  __write_register HFI_DSP_UC_REGION_ADDR (u32 align_device_addr) ;;
  __write_register HFI_DSP_UC_REGION_SIZE size.

Definition interrupt_init_iris2_pakala : P unit :=
  m ← read32 CVP_WRAPPER_INTR_MASK;
  __write_register CVP_WRAPPER_INTR_MASK
    (Z.ldiff m (Z.lor CVP_FATAL_INTR_BMSK CVP_WRAPPER_INTR_MASK_A2HCPU_BMSK)) ;;
  m ← read32 CVP_SS_IRQ_MASK;
  __write_register CVP_SS_IRQ_MASK (Z.ldiff m CVP_SS_INTR_BMASK).

Definition __check_ctl_power_on_pakala : P Z :=
  r ← read32 CVP_CC_MVS0C_GDSCR;
  if negb (anyb r 0x80000000) then mret (-1)
  else r ← read32 CVP_CC_MVS0C_CBCR;
       if anyb r 0x80000000 then mret (-2) else mret 0.

Definition __check_core_power_on_pakala : P Z :=
  r ← read32 CVP_CC_MVS0_GDSCR;
  if negb (anyb r 0x80000000) then mret (-1)
  else r ← read32 CVP_CC_MVS0_CBCR;
       if anyb r 0x80000000 then mret (-2) else mret 0.

Definition clear_qosgen_pakala (reg : Z) : P unit :=
  val ← __read_register reg;
  __write_register reg (u32 (Z.ldiff val 0x4)).

Definition __set_registers_pakala : P Z :=
  each reg_tbl (λ rv, __write_register rv.1 rv.2) ;;
  __write_register CVP_NOC_RCGCONTROLLER_HYSTERESIS_LOW 0xff ;;
  __write_register CVP_NOC_RCGCONTROLLER_WAKEUP_LOW 0x7 ;;
  __write_register CVP_NOC_RCG_VNOC_NOC_CLK_FORCECLOCKON_LOW 0x1 ;;
  __write_register CVP_NOC_RCG_VNOC_NOC_CLK_ENABLE_LOW 0x1 ;;
  __write_register CVP_NOC_RCG_VNOC_NOC_CLK_FORCECLOCKON_LOW 0x1 ;;
  __write_register (u32 (CVP_NOC_RCG_VNOC_NOC_CLK_ENABLE_LOW + rcg_vnoc_clk_en_low)) 0x1 ;;
  __write_register CVP_NOC_RCG_VNOC_NOC_CLK_FORCECLOCKON_LOW 0x0 ;;
  __write_register CVP_AON_WRAPPER_CVP_NOC_ARCG_CONTROL 0x0 ;;
  __write_register CVP_CPU_CS_AXI4_QOS (axi_qos noc_qos) ;;
  __write_register CVP_NOC_A_PRIORITYLUT_LOW (prioritylut_low noc_qos) ;;
  __write_register CVP_NOC_A_PRIORITYLUT_HIGH (prioritylut_high noc_qos) ;;
  __write_register CVP_NOC_A_URGENCY_LOW (urgency_low noc_qos) ;;
  __write_register CVP_NOC_A_DANGERLUT_LOW (dangerlut_low noc_qos) ;;
  __write_register CVP_NOC_A_SAFELUT_LOW (safelut_low noc_qos) ;;
  __write_register CVP_NOC_B_PRIORITYLUT_LOW (prioritylut_low noc_qos) ;;
  __write_register CVP_NOC_B_PRIORITYLUT_HIGH (prioritylut_high noc_qos) ;;
  __write_register CVP_NOC_B_URGENCY_LOW (urgency_low noc_qos) ;;
  __write_register CVP_NOC_B_DANGERLUT_LOW (dangerlut_low noc_qos) ;;
  __write_register CVP_NOC_B_SAFELUT_LOW (safelut_low noc_qos) ;;
  __write_register CVP_NOC_C_PRIORITYLUT_LOW (prioritylut_low noc_qos) ;;
  __write_register CVP_NOC_C_PRIORITYLUT_HIGH (prioritylut_high noc_qos) ;;
  __write_register CVP_NOC_C_URGENCY_LOW (urgency_low_ro noc_qos) ;;
  __write_register CVP_NOC_C_DANGERLUT_LOW (dangerlut_low noc_qos) ;;
  __write_register CVP_NOC_C_SAFELUT_LOW (safelut_low noc_qos) ;;
  __write_register CVP_NOC_A_NIU_DECCTL_LOW 0x1 ;;
  __write_register CVP_NOC_A_NIU_ENCCTL_LOW 0x1 ;;
  __write_register CVP_NOC_B_NIU_DECCTL_LOW 0x1 ;;
  __write_register CVP_NOC_B_NIU_ENCCTL_LOW 0x1 ;;
  __write_register CVP_NOC_CORE_ERR_MAINCTL_LOW_OFFS 0x3 ;;
  __write_register CVP_NOC_MAIN_SIDEBANDMANAGER_FAULTINEN0_LOW 0x1 ;;
  clear_qosgen_pakala CVP_VIDEO_B_NOC_A_QOSGEN_MAINCTL_LOW ;;
  clear_qosgen_pakala CVP_VIDEO_B_NOC_B_QOSGEN_MAINCTL_LOW ;;
  clear_qosgen_pakala CVP_VIDEO_B_NOC_C_QOSGEN_MAINCTL_LOW ;;
  mret 0.

(** * Power on *)

(** The clock [cvp_clk] would be disabled under another name. *)
Definition controller_steps_pakala : list (P Z * P Z) :=
  [gdsc_step "controller"; clk_step "sleep_clk"; clk_step "core_axi_clock";
   clk_step "cvp_axi_clock";
   (msm_cvp_prepare_enable_clk "cvp_clk", msm_cvp_disable_unprepare_clk "cvp");
   clk_step "cvp_freerun_clk"].

Definition __power_on_controller_pakala : P Z := all_or_undo controller_steps_pakala [].

Definition core_steps_pakala : list (P Z * P Z) :=
  [gdsc_step "core"; clk_step "eva_cc_mvs0_clk_src"; clk_step "core_clk";
   clk_step "core_freerun_clk"].

Definition __power_on_core_pakala : P Z := all_or_undo core_steps_pakala [].

(** * Power off *)

(** What every way of powering the core off gives back. *)
Definition core_released_pakala : P Z :=
  __disable_gdsc "core" ;;
  msm_cvp_disable_unprepare_clk "core_clk" ;;
  mret 0.

Definition __power_off_core_pakala : P Z :=
  value ← read32 CVP_CC_MVS0_GDSCR;
  if negb (anyb value 0x80000000) then
    ack ← read32 CVP_NOC_RESET_ACK;
    whenS (negb (ack =? 0)) __print_sidebandmanager_regs_pakala ;;
    core_released_pakala
  else if negb (anyb value 0x2) && fw_low_power_mode then
    __disable_gdsc "core" ;;
    msm_cvp_disable_unprepare_clk "core_clk" ;;
    msm_cvp_disable_unprepare_clk "core_freerun_clk" ;;
    mret 0
  else
    config ← read32 CVP_WRAPPER_CORE_CLOCK_CONFIG;
    whenS (negb (config =? 0)) (__write_register CVP_WRAPPER_CORE_CLOCK_CONFIG 0) ;;
    poll 10 CVP_SS_IDLE_STATUS (λ v, anyb v 0x400000) ;;
    __enter_core_noc_lpi_pakala ;;
    __write_register CVP_AHB_BRIDGE_SYNC_RESET 0x3 ;;
    __write_register CVP_AHB_BRIDGE_SYNC_RESET 0x2 ;;
    __write_register CVP_AHB_BRIDGE_SYNC_RESET 0x0 ;;
    __write_register CVP_WRAPPER_CORE_CLOCK_CONFIG config ;;
    core_released_pakala.

Definition __power_off_controller_pakala : P Z :=
  __write_register CVP_CPU_CS_X2RPMh 0x3 ;;
  __enter_cpu_noc_lpi_pakala ;;
  __enter_video_ctl_noc_lpi_pakala ;;
  __write_register CVP_WRAPPER_DEBUG_BRIDGE_LPI_CONTROL 0x0 ;;
  poll 1000 CVP_WRAPPER_DEBUG_BRIDGE_LPI_STATUS (λ v, v =? 0) ;;
  lpi ← read32 CVP_AON_WRAPPER_CVP_NOC_LPI_CONTROL;
  __write_register CVP_AON_WRAPPER_CVP_NOC_LPI_CONTROL (Z.lor lpi 0x10) ;;
  __write_register CVP_AON_WRAPPER_CVP_NOC_LPI_CONTROL (Z.ldiff (Z.lor lpi 0x10) 0x10) ;;
  msm_cvp_disable_unprepare_clk "core_freerun_clk" ;;
  msm_cvp_disable_unprepare_clk "cvp_freerun_clk" ;;
  msm_cvp_disable_unprepare_clk "cvp_clk" ;;
  msm_cvp_disable_unprepare_clk "sleep_clk" ;;
  __disable_gdsc "controller" ;;
  msm_cvp_disable_unprepare_clk "core_axi_clock" ;;
  msm_cvp_disable_unprepare_clk "cvp_axi_clock" ;;
  msm_cvp_disable_unprepare_clk "eva_cc_mvs0_clk_src" ;;
  mret 0.

(** * Power collapse between frames *)

Definition __enable_hw_power_collapse_pakala : P Z :=
  if negb fw_low_power_mode then mret 0
  else
    rc ← (if gdsc_framework_type then switch_core_gdsc_mode TO_HW_CTRL "core_pd"
          else __hand_off_regulators);
    if negb (rc =? 0) then mret rc
    else off ← poll 10 CVP_CC_MVS0_GDSCR (λ v, negb (anyb v 0x80000000));
         if (off : bool) then mret rc else mret (- EINVAL).

(** * The error log of the networks *)

(** The client a word of the error log names: [mid_names_pakala] has 25 entries, the field
    five bits. *)
Definition __print_reg_details_errlog3_low_pakala (val : Z) : P (string * Z) :=
  let mid := Z.land (Z.shiftr val 7) 0x1F in
  let sid := Z.land (Z.shiftr val 2) 0x7 in
  match mid_names_pakala !! Z.to_nat mid with None => stuck | Some n => mret (n, sid) end.

Definition core_noc_regs_pakala : list Z :=
  [CVP_NOC_CORE_ERR_SWID_LOW_OFFS; CVP_NOC_CORE_ERR_SWID_HIGH_OFFS;
   CVP_NOC_CORE_ERR_MAINCTL_LOW_OFFS; CVP_NOC_CORE_ERR_ERRVLD_LOW_OFFS;
   CVP_NOC_CORE_ERR_ERRCLR_LOW_OFFS; CVP_NOC_CORE_ERR_ERRLOG0_LOW_OFFS;
   CVP_NOC_CORE_ERR_ERRLOG0_HIGH_OFFS; CVP_NOC_CORE_ERR_ERRLOG1_LOW_OFFS;
   CVP_NOC_CORE_ERR_ERRLOG1_HIGH_OFFS; CVP_NOC_CORE_ERR_ERRLOG2_LOW_OFFS;
   CVP_NOC_CORE_ERR_ERRLOG2_HIGH_OFFS].

Definition __dump_noc_regs_pakala : P unit :=
  whenS fw_low_power_mode
    ((if gdsc_framework_type then switch_core_gdsc_mode TO_SW_CTRL "core_pd"
      else core_regulators __acquire_regulator regulator_tbl 0) ;; mret tt) ;;
  show [CVP_CC_MVS0_GDSCR] ;;
  config ← read32 CVP_WRAPPER_CORE_CLOCK_CONFIG;
  whenS (negb (config =? 0)) (__write_register CVP_WRAPPER_CORE_CLOCK_CONFIG 0) ;;
  show [CVP_NOC_A_NIU_DECCTL_LOW; CVP_NOC_A_NIU_ENCCTL_LOW; CVP_NOC_B_NIU_DECCTL_LOW;
        CVP_NOC_B_NIU_ENCCTL_LOW; CVP_NOC_MAIN_SIDEBANDMANAGER_FAULTINEN0_LOW;
        CVP_NOC_MAIN_SIDEBANDMANAGER_SENSELN0_LOW; CVP_NOC_MAIN_SIDEBANDMANAGER_SENSELN0_HIGH;
        CVP_NOC_MAIN_SIDEBANDMANAGER_SENSELN1_LOW; CVP_NOC_MAIN_SIDEBANDMANAGER_SENSELN1_HIGH;
        CVP_NOC_MAIN_SIDEBANDMANAGER_SENSELN2_LOW] ;;
  show core_noc_regs_pakala ;;
  v ← read32 CVP_NOC_CORE_ERR_ERRLOG3_LOW_OFFS;
  __print_reg_details_errlog3_low_pakala v ;;
  show [CVP_NOC_CORE_ERR_ERRLOG3_HIGH_OFFS] ;;
  __write_register CVP_NOC_CORE_ERR_ERRCLR_LOW_OFFS 0x1 ;;
  whenS fw_low_power_mode
    ((if gdsc_framework_type then switch_core_gdsc_mode TO_HW_CTRL "core_pd"
      else core_regulators __hand_off_regulator regulator_tbl 0) ;; mret tt) ;;
  __write_register CVP_WRAPPER_CORE_CLOCK_CONFIG config.

Definition __noc_error_info_iris2_pakala : P unit :=
  used ← gets hw_noc_used;
  if (used : bool) then mret tt
  else
    modify (λ s, s <| hw_noc_used := true |>) ;;
    __disable_hw_power_collapse "core_pd" ;;
    __check_core_power_on_pakala ;;
    show [CVP_AON_WRAPPER_CVP_NOC_CORE_CLK_CONTROL; CVP_WRAPPER_CORE_CLOCK_CONFIG] ;;
    each [CVP_NOC_ERR_SWID_LOW_OFFS; CVP_NOC_ERR_SWID_HIGH_OFFS; CVP_NOC_ERR_MAINCTL_LOW_OFFS;
          CVP_NOC_ERR_ERRVLD_LOW_OFFS; CVP_NOC_ERR_ERRCLR_LOW_OFFS; CVP_NOC_ERR_ERRLOG0_LOW_OFFS;
          CVP_NOC_ERR_ERRLOG0_HIGH_OFFS; CVP_NOC_ERR_ERRLOG1_LOW_OFFS;
          CVP_NOC_ERR_ERRLOG1_HIGH_OFFS; CVP_NOC_ERR_ERRLOG2_LOW_OFFS;
          CVP_NOC_ERR_ERRLOG2_HIGH_OFFS; CVP_NOC_ERR_ERRLOG3_LOW_OFFS;
          CVP_NOC_ERR_ERRLOG3_HIGH_OFFS] log_reg ;;
    each core_noc_regs_pakala log_reg ;;
    v ← read32 CVP_NOC_CORE_ERR_ERRLOG3_LOW_OFFS;
    __err_log CVP_NOC_CORE_ERR_ERRLOG3_LOW_OFFS v ;;
    __print_reg_details_errlog3_low_pakala v ;;
    log_reg CVP_NOC_CORE_ERR_ERRLOG3_HIGH_OFFS ;;
    __write_register CVP_NOC_CORE_ERR_ERRCLR_LOW_OFFS 0x1 ;;
    __write_register CVP_SS_CLK_HALT 0 ;;
    __write_register CVP_SS_CLK_EN 0x3f ;;
    __write_register CVP_VPU_WRAPPER_CORE_CONFIG 0.

Definition iris_pm_qos_update_pakala (insts : list (bool * Z)) : P Z :=
  cvp_pm_qos_update true ;; mret 0.

Definition hal_ops_pakala : cvp_hal_ops := {|
  interrupt_init := Some interrupt_init_iris2_pakala;
  setup_dsp_uc_memmap := Some setup_dsp_uc_memmap_vpu5_pakala;
  power_off_controller := Some __power_off_controller_pakala;
  power_off_core := Some __power_off_core_pakala;
  power_on_controller := Some __power_on_controller_pakala;
  power_on_core := Some __power_on_core_pakala;
  noc_error_info := Some __noc_error_info_iris2_pakala;
  check_ctl_power_on := Some __check_ctl_power_on_pakala;
  check_core_power_on := Some __check_core_power_on_pakala;
  print_sbm_regs := Some __print_sidebandmanager_regs_pakala;
  set_registers := Some __set_registers_pakala;
  dump_noc_regs := Some __dump_noc_regs_pakala;
  enable_hw_power_collapse := Some __enable_hw_power_collapse_pakala;
  check_tensilica_in_reset := Some __check_tensilica_in_reset_pakala;
  pm_qos_update := Some iris_pm_qos_update_pakala;
  noc_lpi := Some __noc_lpi_pakala
|}.

End pakala.
