(* ===== verification/OldTargets.v ===== *)
(** The Glymur and Pakala targets: what their power-down routines give back. *)

From stdpp Require Import strings.
From S2P Require Import Prelude Store GlymurIo PakalaIo Hw HwRules Hal HalGlymur HalPakala.
Open Scope Z_scope.

#[local] Opaque loop poll lpi_request hext.

(** The core is on, its power domain is under software control, and the firmware is meant to
    control it: the core was kept on for an access to its network. *)
Definition kept_on `{HwEnv} (gdscr : Z) : bool :=
  anyb gdscr 0x80000000 && (negb (anyb gdscr 0x2) && fw_low_power_mode).

(** Both power-down routines, as [power_off_iris2] calls them. *)
Definition power_down `{HwEnv} (ops : cvp_hal_ops) : P Z :=
  call_iris_op (power_off_core ops) ;; call_iris_op (power_off_controller ops).

Section old_targets.
Context `{HwEnv} `{!Obedient}.
Variable C : list clock_info.
Hypothesis HC : NoDup (clk_name <$> C).

Abbreviation clk := (clk_change C).
Abbreviation gdsc := gdsc_change.

(** One routine after the other. *)
Lemma power_down_moves ops s δ ε η :
  (∃ rc s1, call_iris_op (power_off_core ops) s = Done (rc, s1) ∧ moved s s1 δ ∧
     hw_clocks s1 = C ∧ hw_power_enabled s1 = true) →
  gives C (call_iris_op (power_off_controller ops)) ε →
  (∀ v, δ v + ε v = η v) →
  ∃ rc s', power_down ops s = Done (rc, s') ∧ moved s s' η.
Proof.
  intros (rc & s1 & E & Hm & Hc & Hp) Hg Hη.
  destruct (Hg s1 (account (hw_trace s1)) true None (or_introl eq_refl) s1) as (rc' & s' & E' & Hs').
  { by split. }
  exists rc', s'. unfold power_down. rewrite St_bind_run, E. cbn [obind fst snd].
  split; [exact E'|]. intros v. rewrite (held_account _ _ _ _ _ _ Hs'), <- Hη.
  unfold plus. rewrite (Hm v). lia.
Qed.

Ltac sum_tac :=
  unfold sum, plus, minus, none; cbn -[Z.add Z.sub clk_change gdsc_change kept_on]; lia.

(** * Glymur *)

Definition glymur_taken : change :=
  sum [gdsc "eva"; clk "sleep"; clk "core_iface"; clk "eva_iface"; clk "eva0"; clk "eva_freerun";
       gdsc "core"; clk "core0"; clk "core_freerun"].

Lemma calm_sbm_glymur : calm C __print_sidebandmanager_regs_glymur.
Proof. unfold __print_sidebandmanager_regs_glymur, __read_gcc_register. calm_tac. Qed.

Lemma calm_core_lpi_glymur : calm C __enter_core_noc_lpi_glymur.
Proof.
  unfold __enter_core_noc_lpi_glymur. eapply calm_bind; [apply calm_write|intros ?].
  eapply calm_bind; [apply calm_lpi_request; calm_tac|intros ?].
  pose proof calm_sbm_glymur. calm_tac.
Qed.

Lemma calm_cpu_lpi_glymur : calm C __enter_cpu_noc_lpi_glymur.
Proof.
  unfold __enter_cpu_noc_lpi_glymur. eapply calm_bind; [apply calm_write|intros ?].
  eapply calm_bind; [apply calm_lpi_request; calm_tac|intros ?].
  pose proof calm_sbm_glymur. calm_tac.
Qed.

Lemma calm_video_lpi_glymur : calm C __enter_video_ctl_noc_lpi_glymur.
Proof.
  unfold __enter_video_ctl_noc_lpi_glymur.
  eapply calm_bind; [apply calm_lpi_request, gives_ret|intros ?].
  pose proof calm_sbm_glymur. calm_tac.
Qed.

Section glymur.
Hypothesis (Heva : known "eva") (Hcore : known "core").

Lemma glymur_on_controller :
  acquires C __power_on_controller_glymur
    (sum [gdsc "eva"; clk "sleep"; clk "core_iface"; clk "eva_iface"; clk "eva0"; clk "eva_freerun"])
    [gdsc "eva"].
Proof. apply acquires_steps. unfold controller_steps_glymur, gdsc_step, clk_step. steps_tac. Qed.

Lemma glymur_on_core :
  acquires C __power_on_core_glymur (sum [gdsc "core"; clk "core0"; clk "core_freerun"]) [gdsc "core"].
Proof. apply acquires_steps. unfold core_steps_glymur, gdsc_step, clk_step. steps_tac. Qed.

Lemma glymur_off_controller :
  gives C __power_off_controller_glymur
    (none ⊖ (clk "core_freerun" ⊕ clk "eva_freerun" ⊕ clk "eva0" ⊕ clk "sleep" ⊕ gdsc "eva"
             ⊕ clk "core_iface" ⊕ clk "eva_iface")).
Proof.
  unfold __power_off_controller_glymur.
  pose proof calm_cpu_lpi_glymur. pose proof calm_video_lpi_glymur.
  do 8 (eapply calm_bind; [solve [calm_tac]|intros ?]). returns_tac HC.
Qed.

Lemma glymur_released : gives C core_released_glymur (none ⊖ (gdsc "core" ⊕ clk "core0")).
Proof. unfold core_released_glymur. returns_tac HC. Qed.

(** What the answer to the first read decides. *)
Lemma glymur_off_core s :
  hw_clocks s = C → hw_power_enabled s = true →
  let v := u32 (s32 (hw_answer (length (hw_trace s))
                       (Readl register_base GlymurIo.CVP_CC_MVS0_GDSCR))) in
  ∃ rc s', __power_off_core_glymur s = Done (rc, s') ∧
    moved s s' (none ⊖ (gdsc "core" ⊕ clk "core0" ⊕ if kept_on v then clk "core_freerun" else none)) ∧
    hw_clocks s' = C ∧ hw_power_enabled s' = true.
Proof.
  intros Hc Hp. apply (read32_then C _ _ (λ v, none ⊖ (gdsc "core" ⊕ clk "core0" ⊕
    if kept_on v then clk "core_freerun" else none))); [done..|].
  intros v. unfold kept_on. pose proof calm_sbm_glymur. pose proof calm_core_lpi_glymur.
  destruct (anyb v 0x80000000); cbn [negb andb].
  - destruct (negb (anyb v 0x2) && fw_low_power_mode).
    + returns_tac HC.
    + do 8 (eapply calm_bind; [solve [calm_tac]|intros ?]).
      eapply gives_eq; [|apply glymur_released]. change_tac.
  - do 2 (eapply calm_bind; [solve [calm_tac]|intros ?]).
    eapply gives_eq; [|apply glymur_released]. change_tac.
Qed.

End glymur.
(** * Pakala *)

Definition pakala_taken : change :=
  sum [gdsc "controller"; clk "sleep_clk"; clk "core_axi_clock"; clk "cvp_axi_clock"; clk "cvp_clk"; clk "cvp_freerun_clk";
       gdsc "core"; clk "eva_cc_mvs0_clk_src"; clk "core_clk"; clk "core_freerun_clk"].

Lemma calm_sbm_pakala : calm C __print_sidebandmanager_regs_pakala.
Proof. unfold __print_sidebandmanager_regs_pakala, __read_gcc_register. calm_tac. Qed.

Lemma calm_core_lpi_pakala : calm C __enter_core_noc_lpi_pakala.
Proof.
  unfold __enter_core_noc_lpi_pakala. eapply calm_bind; [apply calm_write|intros ?].
  eapply calm_bind; [apply calm_lpi_request; calm_tac|intros ?].
  pose proof calm_sbm_pakala. calm_tac.
Qed.

Lemma calm_cpu_lpi_pakala : calm C __enter_cpu_noc_lpi_pakala.
Proof.
  unfold __enter_cpu_noc_lpi_pakala. eapply calm_bind; [apply calm_write|intros ?].
  eapply calm_bind; [apply calm_lpi_request; calm_tac|intros ?].
  pose proof calm_sbm_pakala. calm_tac.
Qed.

Lemma calm_video_lpi_pakala : calm C __enter_video_ctl_noc_lpi_pakala.
Proof.
  unfold __enter_video_ctl_noc_lpi_pakala.
  eapply calm_bind; [apply calm_lpi_request, gives_ret|intros ?].
  pose proof calm_sbm_pakala. calm_tac.
Qed.

Section pakala.
Hypothesis (Hctl : known "controller") (Hcore : known "core").

Lemma pakala_on_core :
  acquires C __power_on_core_pakala (sum [gdsc "core"; clk "eva_cc_mvs0_clk_src"; clk "core_clk"; clk "core_freerun_clk"]) [gdsc "core"].
Proof. apply acquires_steps. unfold core_steps_pakala, gdsc_step, clk_step. steps_tac. Qed.

Lemma pakala_off_controller :
  gives C __power_off_controller_pakala
    (none ⊖ (clk "core_freerun_clk" ⊕ clk "cvp_freerun_clk" ⊕ clk "cvp_clk" ⊕ clk "sleep_clk" ⊕ gdsc "controller"
             ⊕ clk "core_axi_clock" ⊕ clk "cvp_axi_clock" ⊕ clk "eva_cc_mvs0_clk_src")).
Proof.
  unfold __power_off_controller_pakala.
  pose proof calm_cpu_lpi_pakala. pose proof calm_video_lpi_pakala.
  do 8 (eapply calm_bind; [solve [calm_tac]|intros ?]). returns_tac HC.
Qed.

Lemma pakala_released : gives C core_released_pakala (none ⊖ (gdsc "core" ⊕ clk "core_clk")).
Proof. unfold core_released_pakala. returns_tac HC. Qed.

(** What the answer to the first read decides. *)
Lemma pakala_off_core s :
  hw_clocks s = C → hw_power_enabled s = true →
  let v := u32 (s32 (hw_answer (length (hw_trace s))
                       (Readl register_base PakalaIo.CVP_CC_MVS0_GDSCR))) in
  ∃ rc s', __power_off_core_pakala s = Done (rc, s') ∧
    moved s s' (none ⊖ (gdsc "core" ⊕ clk "core_clk" ⊕ if kept_on v then clk "core_freerun_clk" else none)) ∧
    hw_clocks s' = C ∧ hw_power_enabled s' = true.
Proof.
  intros Hc Hp. apply (read32_then C _ _ (λ v, none ⊖ (gdsc "core" ⊕ clk "core_clk" ⊕
    if kept_on v then clk "core_freerun_clk" else none))); [done..|].
  intros v. unfold kept_on. pose proof calm_sbm_pakala. pose proof calm_core_lpi_pakala.
  destruct (anyb v 0x80000000); cbn [negb andb].
  - destruct (negb (anyb v 0x2) && fw_low_power_mode).
    + returns_tac HC.
    + do 8 (eapply calm_bind; [solve [calm_tac]|intros ?]).
      eapply gives_eq; [|apply pakala_released]. change_tac.
  - do 2 (eapply calm_bind; [solve [calm_tac]|intros ?]).
    eapply gives_eq; [|apply pakala_released]. change_tac.
Qed.

End pakala.

End old_targets.

(** * A small device of each target *)
Module OldTargetsScenario.

(** The core is on under software control: bit 31 of its domain's status is set. *)
Definition reg_value (r : Z) : Z := if r =? GlymurIo.CVP_CC_MVS0_GDSCR then 0x80000000 else 0.

#[export] Instance env : HwEnv := small_device (obliging reg_value)
  [mkPd "eva" 1 false; mkPd "core" 2 true; mkPd "controller" 3 false].

#[export] Instance obedient : Obedient.
Proof. apply small_device_obedient. Qed.

Definition clocks : list clock_info := [mkClock "core0" 11; mkClock "core_freerun" 12].
Definition on : hw := powered_off clocks <| hw_power_enabled := true |>.

Lemma old_clocks_named_apart : NoDup (clk_name <$> clocks).
Proof. apply (bool_decide_unpack _). vm_compute. done. Qed.


(** On Pakala a clock stays taken when the controller fails to power on. *)
Definition no_freerun (n : nat) (c : hcall) : Z :=
  match c with Clk_prepare_enable 12 => - EIO | _ => obliging reg_value n c end.

Example pakala_keeps_cvp_clk :
  ∃ s', @__power_on_controller_pakala (small_device no_freerun [mkPd "controller" 3 false])
          (powered_off [mkClock "cvp_clk" 11; mkClock "cvp_freerun_clk" 12; mkClock "sleep_clk" 13;
                        mkClock "core_axi_clock" 14; mkClock "cvp_axi_clock" 15]) = Done (- EIO, s') ∧
    account (hw_trace s') (V_clk 11) = 1 ∧ account (hw_trace s') (V_clk 15) = 0.
Proof. eexists. split; [vm_compute; reflexivity|]. by vm_compute. Qed.

End OldTargetsScenario.
