(* ===== verification/HwPower.v ===== *)
(** The power of the processor (src/msm/eva/cvp_hfi.c): powering on and off, the boot of the
    firmware, suspend and resume, the collapse of power while the processor is idle, and the
    system cache.  The targets' sequences are a parameter (Hal.v); what the power code asks
    of other components is the class [Peers]. *)

From stdpp Require Import strings.
From S2P Require Import Prelude HfiTypes Store HawiIo Hw Hal.
Open Scope Z_scope.

Definition CVP_MAX_PC_SKIP_COUNT : Z := 10.
Definition HFI_SYSCACHE_TARGET_EVA_CPU : Z := 0.
Definition HFI_SYSCACHE_TARGET_FDU : Z := 1.
Definition HFI_SYSCACHE_TARGET_MPU : Z := 2.

(** Operations of other components: the memory announced to the firmware (QueueSetup.v),
    commands to the firmware (HfiSession.v), the DSP (Dsp.v), the debug queue. *)
Class Peers := {
  peer_setup_ucregion_memory_map : P unit;
  peer_sys_set_debug : P unit;
  peer_core_set_resource : list (Z * Z) → P Z;
  peer_core_release_resource : list (Z * Z) → P Z;
  peer_dsp_suspend : bool → P Z;
  peer_dsp_resume : P Z;
  peer_dsp_suspended : P bool;
  peer_flush_debug_queue : P unit;
  peer_prepare_pc : P Z;
  peer_fatal_error : P unit
}.

Section operations.
Context `{HwEnv} `{Peers}.
Variable ops : cvp_hal_ops.

(** * System cache *)

Definition set_subcache (i : nat) (f : subcache_info → subcache_info) : P unit :=
  modify (λ s, s <| hw_subcaches ::= alter f i |>).

(** The subcaches in order, as [iris_hfi_for_each_subcache], and in reverse. *)
Fixpoint each_subcache (n i : nat) (m : nat → subcache_info → P bool) : P bool :=
  match n with
  | O => mret true
  | S n' =>
      l ← gets hw_subcaches;
      match l !! i with
      | None => stuck
      | Some sc => more ← m i sc; if (more : bool) then each_subcache n' (S i) m else mret false
      end
  end.

(** What the firmware is told of a slice: who may use it. *)
Definition subcache_entries (sc : subcache_info) : list (Z * Z) :=
  let id := slice_id (sc_subcache sc) in
  if String.eqb "cvp" (sc_name sc)
  then (HFI_SYSCACHE_TARGET_FDU, id) ::
       (if config_eva_art then [(HFI_SYSCACHE_TARGET_MPU, id)] else [])
  else if String.eqb "cvpfw" (sc_name sc) then [(HFI_SYSCACHE_TARGET_EVA_CPU, id)] else [].

Definition __disable_subcaches : P Z :=
  if syscache_disable || negb sys_cache_present then mret 0
  else
    l ← gets hw_subcaches;
    each (rev (seq 0 (length l))) (λ i,
      l ← gets hw_subcaches;
      match l !! i with
      | None => stuck
      | Some sc =>
          whenS (sc_isactive sc)
            (hext (Llcc_slice_deactivate (sc_subcache sc)) ;;
             set_subcache i (λ c, c <| sc_isactive := false |>))
      end) ;;
    mret 0.

Definition __release_subcaches : P Z :=
  if syscache_disable || negb sys_cache_present then mret 0
  else
    l ← gets hw_subcaches;
    let entries := concat (subcache_entries <$> List.filter sc_isset (rev l)) in
    modify (λ s, s <| hw_subcaches ::= fmap (λ c, c <| sc_isset := false |>) |>) ;;
    whenS (bool_decide (0 < length entries)%nat) (peer_core_release_resource entries ;; mret tt) ;;
    modify (λ s, s <| hw_sys_cache_res_set := false |>) ;;
    mret 0.

Definition __enable_subcaches : P Z :=
  if syscache_disable || negb sys_cache_present then mret 0
  else
    l ← gets hw_subcaches;
    all ← each_subcache (length l) 0 (λ i sc,
      rc ← hext (Llcc_slice_activate (sc_subcache sc));
      if negb (rc =? 0) then hcall_ Fatal_hw_error ;; mret false
      else set_subcache i (λ c, c <| sc_isactive := true |>) ;; mret true);
    if (all : bool) then mret 0
    else __release_subcaches ;; __disable_subcaches ;; mret 0.

Definition __set_subcaches : P Z :=
  set ← gets hw_sys_cache_res_set;
  if set || syscache_disable then mret 0
  else
    l ← gets hw_subcaches;
    let entries := concat (subcache_entries <$> List.filter sc_isactive l) in
    if bool_decide (length entries = 0)%nat then mret 0
    else
      rc ← peer_core_set_resource entries;
      if negb (rc =? 0) then __disable_subcaches ;; mret 0
      else
        modify (λ s, s <| hw_subcaches ::=
          fmap (λ c, if sc_isactive c then c <| sc_isset := true |> else c) |>) ;;
        modify (λ s, s <| hw_sys_cache_res_set := true |>) ;;
        mret 0.

(** * Power on and off *)

Definition __tzbsp_set_cvp_state (st : tzbsp_subsys_state) : P Z := hext (Scm_set_remote_state st).

Definition __set_threshold_registers : P unit :=
  v ← read32 CVP_WRAPPER_HW_VERSION;
  if negb (Z.ldiff v (Z.ones 16) =? Z.lor (Z.shiftl 0x3 28) (Z.shiftl 0x43 16)) then mret tt
  else __tzbsp_set_cvp_state TZ_SUBSYS_STATE_RESTORE_THRESHOLD ;; mret tt.

(** The labels at the end of [__iris_power_on]. *)
Definition fail_enable_controller (rc : Z) : P Z :=
  __unvote_buses ;; modify (λ s, s <| hw_power_enabled := false |>) ;; mret rc.
Definition fail_enable_core (rc : Z) : P Z :=
  call_iris_op (power_off_controller ops) ;; fail_enable_controller rc.

(** The registers a fresh power-on programs first. *)
Definition power_on_registers : P unit :=
  __write_register CVP_NOC_SBM_FAULTINEN0_LOW 0x1 ;;
  __write_register CVP_NOC_ERR_MAINCTL_LOW_OFFS 0x3 ;;
  reg ← __read_tcsr_register TCSR_SOW_HW_VERSION;
  __write_register CVP_CPU_CS_SCIBCMDARG3 (u32 reg) ;;
  modify (λ s, s <| hw_soc_hw_version := u32 reg |>) ;;
  __write_register CVP_WRAPPER_SPARE_0 soc_version ;;
  whenS (soc_version =? 0x20000) (__write_register CVP_CC_SPARE1 1).

Definition power_on_finish : P Z :=
  call_iris_op_ (interrupt_init ops) ;;
  modify (λ s, s <| hw_intr_status := 0 |>) ;;
  hcall_ Enable_irq ;;
  __write_register CVP_WRAPPER_DEBUG_BRIDGE_LPI_CONTROL 0x7 ;;
  mret 0.

(** From the moment the registers may be accessed. *)
Definition power_on_programmed : P Z :=
  power_on_registers ;;
  call_iris_op_ (match noc_lpi ops with Some f => Some (f IRIS_POWER_ON) | None => None end) ;;
  rc ← call_iris_op (set_registers ops);
  if negb (rc =? 0) then fail_enable_core rc
  else rc ← call_iris_op (check_core_power_on ops);
       if negb (rc =? 0) then fail_enable_core (- EINVAL)
       else rc ← call_iris_op (check_ctl_power_on ops);
            if negb (rc =? 0) then fail_enable_core (- EINVAL) else power_on_finish.

Definition __iris_power_on : P Z :=
  pw ← gets hw_power_enabled;
  if (pw : bool) then mret 0
  else
    bv ← gets hw_bus_vote;
    rc ← __vote_buses bv.1 bv.2;
    if negb (rc =? 0) then modify (λ s, s <| hw_power_enabled := false |>) ;; mret rc
    else rc ← call_iris_op (power_on_controller ops);
         if negb (rc =? 0) then fail_enable_controller rc
         else rc ← call_iris_op (power_on_core ops);
              if negb (rc =? 0) then fail_enable_core rc
              else
                msm_cvp_scale_clocks ;;
                modify (λ s, s <| hw_power_enabled := true |>) ;;
                power_on_programmed.

Definition power_off_iris2 : P unit :=
  pw ← gets hw_power_enabled;
  if negb pw || negb sw_power_collapsible then mret tt
  else
    intr ← gets hw_intr_status;
    whenS (negb (anyb intr CVP_WRAPPER_INTR_STATUS_A2HWD_BMSK)) (hcall_ Disable_irq_nosync) ;;
    modify (λ s, s <| hw_intr_status := 0 |>) ;;
    call_iris_op (power_off_core ops) ;;
    call_iris_op (power_off_controller ops) ;;
    __unvote_buses ;;
    modify (λ s, s <| hw_power_enabled := false |>).

(** * The firmware *)

(** One look at the firmware's status: it has booted, it reports an error, or go on. *)
Definition boot_round (status : Z) : P (Z + Z * Z) :=
  v ← read32 CVP_CTRL_STATUS;
  mret (if Z.land v CVP_CTRL_ERROR_STATUS__M =? 0x4 then inr (v, - ENODATA)
        else if anyb v CVP_CTRL_INIT_STATUS__M then inr (v, 0) else inl v).

Definition __boot_firmware : P Z :=
  __write_register CVP_CTRL_INIT 1 ;;
  r ← loop 5000 boot_round 0;
  let '(status, rc) := match r with inr x => x | inl v => (v, 0) end in
  rc ← (if negb (anyb status CVP_CTRL_INIT_STATUS__M)
        then read32 CVP_CTRL_INIT ;; call_iris_op_ (check_tensilica_in_reset ops) ;; mret (- ENODEV)
        else mret rc);
  call_iris_op (enable_hw_power_collapse ops) ;;
  __write_register CVP_CPU_CS_H2XSOFTINTEN 0x1 ;;
  __write_register CVP_CPU_CS_X2RPMh 0x0 ;;
  mret rc.

(** * Suspend and resume *)

Definition __suspend : P Z :=
  pw ← gets hw_power_enabled;
  if negb pw then mret 0
  else
    rc ← __tzbsp_set_cvp_state TZ_SUBSYS_STATE_SUSPEND;
    if negb (rc =? 0) then mret rc
    else
      __disable_subcaches ;;
      power_off_iris2 ;;
      q ← gets hw_pm_qos_latency;
      whenS (negb (q =? 0) && pm_qos_hdls) (cvp_pm_qos_update false) ;;
      mret rc.

Definition resume_exit (rc : Z) : P Z :=
  t ← gets hw_last_packet_type;
  whenS (negb (t =? HFI_CMD_SYS_PC_PREP)) (modify (λ s, s <| hw_skip_pc_count := 0 |>)) ;;
  mret rc.

Definition resume_booted : P Z :=
  __set_threshold_registers ;;
  q ← gets hw_pm_qos_latency;
  whenS (negb (q =? 0) && pm_qos_hdls) (cvp_pm_qos_update true) ;;
  peer_sys_set_debug ;;
  __enable_subcaches ;;
  __set_subcaches ;;
  peer_dsp_resume ;;
  resume_exit 0.

Definition resume_powered : P Z :=
  peer_setup_ucregion_memory_map ;;
  rc ← __tzbsp_set_cvp_state TZ_SUBSYS_STATE_RESUME;
  if negb (rc =? 0) then power_off_iris2 ;; mret rc
  else rc ← __boot_firmware;
       if negb (rc =? 0)
       then __tzbsp_set_cvp_state TZ_SUBSYS_STATE_SUSPEND ;; power_off_iris2 ;; mret rc
       else resume_booted.

Definition __resume : P Z :=
  pw ← gets hw_power_enabled;
  if (pw : bool) then resume_exit 0
  else
    valid ← gets hw_state_init;
    if negb valid then mret (- EINVAL)
    else
      rc ← __iris_power_on;
      if negb (rc =? 0) then mret rc else resume_powered.

(** * Power collapse *)

Definition skip_power_off : P Z := peer_flush_debug_queue ;; mret (- EAGAIN).

(** The firmware has been told to prepare: wait until it waits for interrupts and is ready. *)
Definition pc_round (_ : unit) : P (unit + unit) :=
  wfi ← read32 CVP_WRAPPER_CPU_STATUS;
  pc ← read32 CVP_CTRL_STATUS;
  mret (if Z.testbit wfi 0 && anyb pc CVP_CTRL_STATUS_PC_READY then inr tt else inl tt).

Definition collapse_prepare : P Z :=
  wfi ← read32 CVP_WRAPPER_CPU_STATUS;
  idle ← read32 CVP_CTRL_STATUS;
  if negb (Z.testbit wfi 0) then skip_power_off
  else if negb (Z.testbit idle 30) then skip_power_off
  else rc ← peer_prepare_pc;
       if negb (rc =? 0) then skip_power_off
       else r ← loop 150 pc_round tt;
            match r with inl _ => skip_power_off | inr _ => __suspend end.

Definition collapse_ready : P Z :=
  wfi ← read32 CVP_WRAPPER_CPU_STATUS;
  if negb (Z.testbit wfi 0) then skip_power_off else __suspend.

Definition __power_collapse (force : bool) : P Z :=
  pw ← gets hw_power_enabled;
  if negb pw then mret 0
  else
    valid ← gets hw_state_init;
    if negb valid then mret (- EINVAL)
    else
      rc ← peer_dsp_suspend force;
      if (rc =? - EBUSY) || (rc =? - EINVAL) then mret rc
      else if negb (rc =? 0) then skip_power_off
      else
        peer_flush_debug_queue ;;
        st ← read32 CVP_CTRL_STATUS;
        if negb (anyb st CVP_CTRL_STATUS_PC_READY) then collapse_prepare else collapse_ready.

Definition iris_hfi_pm_handler : P unit :=
  n ← gets hw_skip_pc_count;
  if CVP_MAX_PC_SKIP_COUNT <=? n
  then modify (λ s, s <| hw_skip_pc_count := 0 |>) ;; peer_fatal_error
  else
    force ← peer_dsp_suspended;
    rc ← __power_collapse force;
    if rc =? 0 then modify (λ s, s <| hw_skip_pc_count := 0 |>) ;; hcall_ Cancel_pm_work
    else if rc =? - EBUSY then modify (λ s, s <| hw_skip_pc_count := 0 |>) ;; hcall_ Queue_pm_work
    else if rc =? - EAGAIN
    then modify (λ s, s <| hw_skip_pc_count ::= λ n, u32 (n + 1) |>) ;; hcall_ Queue_pm_work
    else mret tt.

Definition iris_hfi_resume : P Z := __resume.

Definition iris_hfi_suspend : P Z :=
  if negb sw_power_collapsible then mret (- ENOTSUPP)
  else
    locked ← hext Mutex_trylock;
    if locked =? 0 then mret (- EBUSY)
    else
      rc ← __power_collapse true;
      if negb (rc =? 0) then mret (- EBUSY) else hcall_ Cancel_pm_work ;; mret 0.

Definition iris_hfi_noc_error_info : P Z := call_iris_op_ (noc_error_info ops) ;; mret 0.

End operations.
