(* ===== verification/HwPowerRules.v ===== *)
(** The power operations of HwPower.v leave the accounts as they should, for any target that
    keeps its promises (Hal.v) and other components that keep theirs ([PeersLaws]). *)

From stdpp Require Import strings.
From S2P Require Import Prelude HfiTypes Store HawiIo Hw HwRules Hal HwPower.
Open Scope Z_scope.

(** What other components do for the power code: they finish, and leave the power alone. *)
Class PeersLaws `{HwEnv} `{Peers} (C : list clock_info) : Prop := {
  peers_setup : calm C peer_setup_ucregion_memory_map;
  peers_debug : calm C peer_sys_set_debug;
  peers_set_resource : ∀ l, calm C (peer_core_set_resource l);
  peers_release_resource : ∀ l, calm C (peer_core_release_resource l);
  peers_suspend : ∀ f, calm C (peer_dsp_suspend f);
  peers_resume : calm C peer_dsp_resume;
  peers_flush : calm C peer_flush_debug_queue;
  peers_prepare : calm C peer_prepare_pc
}.

(** The handles of the buses and of the slices of the system cache. *)
Definition handles (s : hw) : list bus_info * list Z :=
  (hw_buses s, sc_subcache <$> hw_subcaches s).

(** The same device at an earlier moment: what no power operation changes. *)
Definition near (s0 s1 : hw) : Prop :=
  length (hw_trace s0) = length (hw_trace s1) ∧ hw_state_init s0 = hw_state_init s1 ∧
  handles s0 = handles s1.

Lemma handles_length s s' : handles s = handles s' → length (hw_subcaches s) = length (hw_subcaches s').
Proof. intros [= _ E]. by rewrite <- (length_fmap sc_subcache), E, length_fmap. Qed.

(** [held] up to the fields the power operations set. *)
Definition kept (s0 : hw) C L b q (s : hw) : Prop := ∃ s1, near s0 s1 ∧ held s1 C L b q s.

Section rules.
Context `{HwEnv}.
Variable C : list clock_info.

Lemma kept_held s0 L b q s : held s0 C L b q s → kept s0 C L b q s.
Proof. by exists s0. Qed.

Lemma kept_eq s0 L L' b q s : (∀ v, L v = L' v) → kept s0 C L b q s → kept s0 C L' b q s.
Proof. intros E (s1 & Hn & Hs). exists s1. split; [done|]. by eapply held_eq. Qed.

Lemma kept_facts s0 L b q s :
  kept s0 C L b q s →
  (∀ v, account (hw_trace s) v = L v) ∧ hw_power_enabled s = b ∧ hw_clocks s = C ∧
  hw_state_init s = hw_state_init s0 ∧ (length (hw_trace s0) ≤ length (hw_trace s))%nat ∧
  length (hw_subcaches s) = length (hw_subcaches s0).
Proof.
  intros (s1 & (Hn & Hv & Hc%handles_length) & []). split_and!; auto; [|lia|]; unfold rest in *; congruence.
Qed.

Lemma kept_handles s0 L b q s : kept s0 C L b q s → handles s = handles s0.
Proof. intros (s1 & (_ & _ & Hh) & []). unfold handles, rest in *. congruence. Qed.

Lemma gives_kept {A} (m : P A) δ s0 L b q :
  gives C m δ → may_access b q → total (kept s0 C L b q) m (λ _, kept s0 C (L ⊕ δ) b q).
Proof.
  intros Hm Hb. apply total_ex. intros s1. apply total_pure. intros Hn.
  eapply total_post; [by apply Hm|]. intros ? s Hs. by exists s1.
Qed.

Lemma calm_kept {A} (m : P A) s0 L b q :
  calm C m → may_access b q → total (kept s0 C L b q) m (λ _, kept s0 C L b q).
Proof.
  intros Hm Hb. eapply total_post; [by apply gives_kept|]. intros ? s. apply kept_eq. change_tac.
Qed.

(** A first step that leaves the accounts alone. *)
Lemma kept_calm {A B} (m : P A) (k : A → P B) s0 L b q Q :
  calm C m → may_access b q → (∀ a, total (kept s0 C L b q) (k a) Q) →
  total (kept s0 C L b q) (m ≫= k) Q.
Proof. intros Hm Hb Hk. eapply total_bind; [by apply calm_kept|]. done. Qed.

Lemma acquires_kept m δ ks s0 L b q :
  acquires C m δ ks → may_access b q →
  total (kept s0 C L b q) m (λ rc s,
    (rc = 0 ∧ kept s0 C (L ⊕ δ) b q s) ∨ (rc ≠ 0 ∧ ∃ k, leak ks k ∧ kept s0 C (L ⊕ k) b q s)).
Proof.
  intros Hm Hb. apply total_ex. intros s1. apply total_pure. intros Hn.
  eapply total_post; [by apply Hm|]. intros rc s [[-> Hs]|(Hr & k & Hk & Hs)].
  - left. split; [done|]. by exists s1.
  - right. split; [done|]. exists k. split; [done|]. by exists s1.
Qed.

(** Setting a field. *)
Definition harmless (f : hw → hw) : Prop :=
  ∀ s, hw_trace (f s) = hw_trace s ∧ hw_power_enabled (f s) = hw_power_enabled s ∧
       hw_clocks (f s) = hw_clocks s ∧ hw_state_init (f s) = hw_state_init s ∧
       handles (f s) = handles s.

Lemma kept_modify f s0 L b q :
  harmless f → total (kept s0 C L b q) (modify f) (λ _, kept s0 C L b q).
Proof.
  intros Hf. apply total_modify. intros s (s1 & (Hn & Hv & Hc) & []).
  destruct (Hf s) as (E1 & E2 & E3 & E4 & E5). exists (f s <| hw_trace := hw_trace s1 |>).
  split; [split_and!; cbn; [done|rewrite E4; unfold rest in *; congruence|]|].
  { unfold handles in *. cbn. rewrite Hc. unfold rest in *. congruence. }
  split; rewrite ?E1, ?E2, ?E3; auto.
Qed.

Lemma kept_power b' s0 L b q :
  may_access b' q →
  total (kept s0 C L b q) (modify (λ s, s <| hw_power_enabled := b' |>)) (λ _, kept s0 C L b' q).
Proof.
  intros _. apply total_modify. intros s (s1 & Hn & []). exists s1. split; [done|]. by split.
Qed.

(** A field whose value is known. *)
Lemma kept_gets {A B} (f : hw → A) v (k : A → P B) (I : hw → Prop) Q :
  (∀ s, I s → f s = v) → total I (k v) Q → total I (x ← gets f; k x) Q.
Proof.
  intros Hv Hk s Hs. rewrite St_bind_run, gets_run. cbn. rewrite (Hv s Hs). by apply Hk.
Qed.

Lemma kept_gets_any {A B} (f : hw → A) (k : A → P B) (I : hw → Prop) Q :
  (∀ v, total I (k v) Q) → total I (x ← gets f; k x) Q.
Proof. intros Hk s Hs. rewrite St_bind_run, gets_run. cbn. by apply Hk. Qed.

(** ** Buses *)

Lemma calm_set_bw bus bw : calm C (cvp_set_bw bus bw).
Proof. unfold cvp_set_bw. calm_tac. Qed.

Lemma calm_unvote_each l : calm C (unvote_each l).
Proof.
  induction l as [|bus l IH]; cbn [unvote_each]; [apply gives_ret|].
  eapply calm_bind; [apply calm_set_bw|]. intros rc. apply gives_if; [apply gives_ret|apply IH].
Qed.

Lemma calm_vote_each l rc : calm C (vote_each l rc).
Proof.
  revert rc. induction l as [|bus l IH]; intros rc; cbn [vote_each]; [apply gives_ret|].
  eapply calm_bind; [apply calm_set_bw|]. intros rc'. apply IH.
Qed.

Lemma kept_unvote s0 L b q :
  may_access b q → total (kept s0 C L b q) __unvote_buses (λ _, kept s0 C L b q).
Proof.
  intros Hb. unfold __unvote_buses. eapply total_bind; [by apply kept_modify|]. intros [].
  apply kept_gets_any. intros bs. by apply calm_kept; [apply calm_unvote_each|].
Qed.

Lemma kept_vote d n s0 L b q :
  may_access b q → total (kept s0 C L b q) (__vote_buses d n) (λ _, kept s0 C L b q).
Proof.
  intros Hb. unfold __vote_buses, set_bus_vote.
  assert (Hset : ∀ nd k, total (kept s0 C L b q)
    (modify (λ s, s <| hw_bus_vote := (nd, k) |>) ;; bs ← gets hw_buses; vote_each bs 0)
    (λ _, kept s0 C L b q)).
  { intros nd k. eapply total_bind; [by apply kept_modify|]. intros [].
    apply kept_gets_any. intros bs. by apply calm_kept; [apply calm_vote_each|]. }
  apply total_if; intros _; [apply Hset|]. destruct d; [|by apply total_ret].
  apply kept_calm; [by apply calm_hext|done|]. intros p.
  apply total_if; intros _; [by apply total_ret|apply Hset].
Qed.

Lemma kept_qos s0 L b q f :
  may_access b q → total (kept s0 C L b q) (cvp_pm_qos_update f) (λ _, kept s0 C L b q).
Proof. intros Hb. by apply calm_kept; [apply calm_qos_update|]. Qed.

End rules.

(** * Powering on and off *)
Section power.
Context `{HwEnv}.
Variables (C : list clock_info) (ops : cvp_hal_ops).
Variables (ctl_on core_on core_off ctl_off : change) (ctl_leak core_leak : list change).
Context `{HL : !HalLaws C ops ctl_on core_on core_off ctl_off ctl_leak core_leak}.
Hypothesis Hrates : clock_rates ≠ [].

(** What a successful power-on takes. *)
Definition full_votes : change := ctl_on ⊕ core_on ⊕ one V_irq.

(** What a failed power-on leaves: nothing, the leak of a domain that refused, or, once the
    core's sequence has started, the difference between what was taken and what the
    controller's sequence gives back. *)
Inductive residue (k : change) : Prop :=
| residue_none : (∀ v, k v = 0) → residue k
| residue_controller : leak ctl_leak k → residue k
| residue_core k' : leak core_leak k' → (∀ v, k v = ctl_on v + k' v - ctl_off v) → residue k
| residue_registers : (∀ v, k v = ctl_on v + core_on v - ctl_off v) → residue k.

Definition refused s0 L (rc : Z) (s : hw) : Prop :=
  rc ≠ 0 ∧ ∃ k, residue k ∧ kept s0 C (L ⊕ k) false None s.

Definition powered s0 L (rc : Z) (s : hw) : Prop :=
  rc = 0 ∧ hw_intr_status s = 0 ∧ kept s0 C (L ⊕ full_votes) true None s.

Lemma fail_controller_ok s0 L k b rc :
  rc ≠ 0 → residue k →
  total (kept s0 C (L ⊕ k) b None) (fail_enable_controller rc) (λ r s, r = rc ∧ refused s0 L r s).
Proof.
  intros Hrc Hk. unfold fail_enable_controller.
  eapply total_bind; [apply kept_unvote; by right|]. intros ?.
  eapply total_bind; [apply kept_power; by right|]. intros [].
  apply total_ret. intros s Hs. split; [done|]. split; [done|]. by exists k.
Qed.

Lemma fail_core_ok s0 L k b rc :
  rc ≠ 0 → residue (k ⊖ ctl_off) →
  total (kept s0 C (L ⊕ k) b None) (fail_enable_core ops rc) (λ r s, r = rc ∧ refused s0 L r s).
Proof.
  intros Hrc Hk. unfold fail_enable_core.
  eapply total_bind; [apply gives_kept; [apply hal_off_controller|by right]|]. intros ?.
  eapply total_pre; [by apply fail_controller_ok|]. intros s. apply kept_eq. change_tac.
Qed.

Lemma calm_registers : calm C power_on_registers.
Proof.
  unfold power_on_registers.
  assert (Ht : calm C (__read_tcsr_register TCSR_SOW_HW_VERSION)).
  { unfold __read_tcsr_register. calm_tac. }
  calm_tac.
Qed.

Lemma finish_ok s0 L :
  total (kept s0 C (L ⊕ (ctl_on ⊕ core_on)) true None) (power_on_finish ops) (powered s0 L).
Proof.
  unfold power_on_finish.
  apply kept_calm; [apply hal_interrupt_init|by left|]. intros ?.
  eapply (total_bind _ _ (λ _ s, ∃ s1, near s0 s1 ∧ hw_intr_status s1 = 0 ∧
    held s1 C (L ⊕ (ctl_on ⊕ core_on)) true None s)).
  { apply total_modify. intros s (s1 & (Hn & Hv & Hc) & []).
    exists (s <| hw_intr_status := 0 |> <| hw_trace := hw_trace s1 |>).
    split; [split_and!; [done|cbn; unfold rest in *; congruence|rewrite Hc; unfold handles, rest in *; cbn; congruence]|]. split; [done|]. by split. }
  intros []. apply total_ex. intros s1. apply total_pure. intros Hn. apply total_pure. intros Hi.
  eapply total_bind.
  { unfold hcall_. refine (gives_map C (hext Enable_irq) (λ _, tt) (one V_irq) _ _ _ _ _ _);
      [apply gives_hext; [intros ?; change_tac|done]|by left]. }
  intros []. eapply total_bind; [apply calm_write; by left|]. intros [].
  apply total_ret. intros s Hs. split; [done|]. split.
  - pose proof (held_rest _ _ _ _ _ _ Hs) as Hr. unfold rest in Hr. congruence.
  - exists s1. split; [done|]. revert Hs. apply held_eq. intros v. unfold full_votes. revert v. change_tac.
Qed.

Lemma programmed_ok s0 L :
  total (kept s0 C (L ⊕ (ctl_on ⊕ core_on)) true None) (power_on_programmed ops)
    (λ rc s, powered s0 L rc s ∨ refused s0 L rc s).
Proof.
  assert (Hres : residue (ctl_on ⊕ core_on ⊖ ctl_off)).
  { apply residue_registers. intros v. reflexivity. }
  assert (Hfail : ∀ rc, rc ≠ 0 → total (kept s0 C (L ⊕ (ctl_on ⊕ core_on)) true None)
    (fail_enable_core ops rc) (λ rc s, powered s0 L rc s ∨ refused s0 L rc s)).
  { intros rc Hrc. eapply total_post; [by apply fail_core_ok|]. intros r s [_ ?]. by right. }
  unfold power_on_programmed.
  apply kept_calm; [apply calm_registers|by left|]. intros ?.
  apply kept_calm; [apply hal_noc_lpi|by left|]. intros ?.
  apply kept_calm; [apply hal_set_registers|by left|]. intros rc.
  apply total_if; intros Hrc; [apply Hfail; by apply negb_true_iff, Z.eqb_neq in Hrc|].
  apply kept_calm; [apply hal_check_core|by left|]. intros rc2.
  apply total_if; intros _; [by apply Hfail|].
  apply kept_calm; [apply hal_check_ctl|by left|]. intros rc3.
  apply total_if; intros _; [by apply Hfail|].
  eapply total_post; [apply finish_ok|]. intros r s ?. by left.
Qed.

Lemma calm_scale : calm C msm_cvp_scale_clocks.
Proof.
  unfold msm_cvp_scale_clocks. eapply calm_bind; [apply calm_gets|]. intros f.
  apply gives_if; [apply calm_opp_set_rate|]. destruct clock_rates; [done|]. apply calm_opp_set_rate.
Qed.

Lemma power_on_ok s0 L :
  total (kept s0 C L false None) (__iris_power_on ops)
    (λ rc s, powered s0 L rc s ∨ refused s0 L rc s).
Proof.
  unfold __iris_power_on.
  apply kept_gets with (v := false); [intros s Hs; by apply kept_facts in Hs as (_ & ? & _)|].
  apply kept_gets_any. intros bv.
  eapply total_bind; [apply kept_vote; by right|]. intros rc.
  apply total_if; intros Hrc.
  { apply negb_true_iff, Z.eqb_neq in Hrc.
    eapply total_bind; [apply kept_power; by right|]. intros [].
    apply total_ret. intros s Hs. right. split; [done|]. exists none.
    split; [by apply residue_none|]. revert Hs. apply kept_eq. change_tac. }
  eapply total_bind; [apply acquires_kept; [apply hal_on_controller|by right]|]. intros rc2.
  apply total_if; intros Hrc2.
  { apply negb_true_iff, Z.eqb_neq in Hrc2.
    eapply (total_pre _ (λ s, ∃ k, leak ctl_leak k ∧ kept s0 C (L ⊕ k) false None s)).
    2: { by intros s [[? _]|[_ ?]]. }
    apply total_ex. intros k. apply total_pure. intros Hk.
    eapply total_post; [apply fail_controller_ok; [done|by apply residue_controller]|].
    intros r s [_ ?]. by right. }
  apply negb_false_iff, Z.eqb_eq in Hrc2 as ->.
  eapply (total_pre _ (kept s0 C (L ⊕ ctl_on) false None)); [|by intros s [[_ ?]|[? _]]].
  eapply total_bind; [apply acquires_kept; [apply hal_on_core|by right]|]. intros rc3.
  apply total_if; intros Hrc3.
  { apply negb_true_iff, Z.eqb_neq in Hrc3.
    eapply (total_pre _ (λ s, ∃ k, leak core_leak k ∧ kept s0 C (L ⊕ (ctl_on ⊕ k)) false None s)).
    2: { intros s [[? _]|(_ & k & ? & Hs)]; [done|]. exists k. split; [done|].
         revert Hs. apply kept_eq. change_tac. }
    apply total_ex. intros k. apply total_pure. intros Hk.
    eapply total_post; [apply fail_core_ok; [done|]|intros r s [_ ?]; by right].
    by eapply residue_core. }
  apply negb_false_iff, Z.eqb_eq in Hrc3 as ->.
  eapply (total_pre _ (kept s0 C (L ⊕ (ctl_on ⊕ core_on)) false None)).
  2: { intros s [[_ Hs]|[? _]]; [|done]. revert Hs. apply kept_eq. change_tac. }
  apply kept_calm; [apply calm_scale|by right|]. intros ?.
  eapply total_bind; [apply (kept_power C true); by left|]. intros [].
  apply programmed_ok.
Qed.

(** What powering off gives back: the interrupt too, unless the watchdog has taken it. *)
Definition returned (intr : Z) : change :=
  core_off ⊕ ctl_off ⊕ (if anyb intr CVP_WRAPPER_INTR_STATUS_A2HWD_BMSK then none else one V_irq).

Lemma power_off_ok s0 L intr :
  sw_power_collapsible = true →
  total (λ s, kept s0 C L true None s ∧ hw_intr_status s = intr) (power_off_iris2 ops)
    (λ _, kept s0 C (L ⊖ returned intr) false None).
Proof.
  intros Hsw. unfold power_off_iris2.
  apply kept_gets with (v := true); [intros s [Hs _]; by apply kept_facts in Hs as (_ & ? & _)|].
  rewrite Hsw. cbn [negb orb].
  apply kept_gets with (v := intr); [by intros s [_ ?]|].
  eapply (total_pre _ (kept s0 C L true None)); [|by intros s [? _]].
  eapply (total_bind _ _ (λ _, kept s0 C (L ⊖ (if anyb intr CVP_WRAPPER_INTR_STATUS_A2HWD_BMSK
    then none else one V_irq)) true None)).
  { destruct (anyb intr _); cbn [negb whenS].
    - apply total_ret. intros s. apply kept_eq. change_tac.
    - unfold hcall_. eapply total_post.
      { apply gives_kept with (δ := none ⊖ one V_irq); [|by left].
        apply gives_map, gives_hext; [intros ?; change_tac|done]. }
      intros ? s. apply kept_eq. change_tac. }
  intros []. eapply total_bind; [by apply kept_modify|]. intros [].
  eapply total_bind; [apply gives_kept; [apply hal_off_core|by left]|]. intros ?.
  eapply total_bind; [apply gives_kept; [apply hal_off_controller|by left]|]. intros ?.
  eapply total_bind; [apply kept_unvote; by left|]. intros ?.
  eapply total_post; [apply (kept_power C false); by right|]. intros ? s. apply kept_eq.
  intros v. unfold returned. destruct (anyb intr _); revert v; change_tac.
Qed.

End power.

(** The boot of the firmware, suspend, resume and the collapse of power (HwPower.v): what
    each returns and what it leaves behind, whatever the hardware answers. *)

#[local] Opaque loop.

(** * The boot of the firmware *)
Section boot.
Context `{HwEnv}.

(** The status register as the driver sees it at the [i]-th look after [n] calls. *)
Definition look (n i : nat) : Z := u32 (s32 (hw_answer (n + i) (Readl register_base CVP_CTRL_STATUS))).

Definition reports_error (v : Z) : Prop := Z.land v CVP_CTRL_ERROR_STATUS__M = 0x4.
Definition reports_init (v : Z) : Prop := anyb v CVP_CTRL_INIT_STATUS__M = true.
Definition undecided (v : Z) : Prop := ¬ reports_error v ∧ ¬ reports_init v.

#[global] Instance reports_error_dec v : Decision (reports_error v).
Proof. unfold reports_error. apply _. Defined.
#[global] Instance reports_init_dec v : Decision (reports_init v).
Proof. unfold reports_init. apply _. Defined.

Lemma read32_run r s :
  hw_power_enabled s = true →
  read32 r s = Done (u32 (s32 (hw_answer (length (hw_trace s)) (Readl register_base r))),
                     after (Readl register_base r) s).
Proof.
  intros Hp. unfold read32, __read_register, __read_window. srun. rewrite Hp. cbn [negb].
  rewrite St_bind_run, hext_run. reflexivity.
Qed.

(** What the loop of [__boot_firmware] finds: the first look that decides, or that none of
    [k] looks does. *)
Definition boot_found (k n : nat) (v : Z) (r : Z + Z * Z) : Prop :=
  match r with
  | inr (w, rc) => ∃ i, (i < k)%nat ∧ (∀ j, (j < i)%nat → undecided (look n j)) ∧ w = look n i ∧
                   (reports_error w ∧ rc = - ENODATA ∨ ¬ reports_error w ∧ reports_init w ∧ rc = 0)
  | inl w => (∀ j, (j < k)%nat → undecided (look n j)) ∧ (w = v ∨ ∃ j, (j < k)%nat ∧ w = look n j)
  end.

Lemma boot_found_later k n v w r :
  undecided (look n 0) → w = look n 0 → boot_found k (S n) w r → boot_found (S k) n v r.
Proof.
  intros H0 ->. assert (Hl : ∀ j, look (S n) j = look n (S j)) by (intros j; unfold look; do 3 f_equal; lia).
  assert (Hall : ∀ m, (∀ j, (j < m)%nat → undecided (look (S n) j)) →
    ∀ j, (j < S m)%nat → undecided (look n j)).
  { intros m Hj [|j] Hlt; [done|]. rewrite <- Hl. apply Hj. lia. }
  destruct r as [w|[w rc]]; cbn.
  - intros [Hj Hw]. split; [by apply Hall|]. right. destruct Hw as [->|(j & Hj' & ->)].
    + exists 0%nat. split; [lia|done].
    + exists (S j). split; [lia|apply Hl].
  - intros (i & Hi & Hj & -> & Hr). exists (S i). split; [lia|]. split; [by apply Hall|].
    split; [apply Hl|done].
Qed.

Lemma boot_loop_ok C s0 L k n v :
  total (λ s, held s0 C L true None s ∧ length (hw_trace s) = n) (loop k boot_round v)
    (λ r s, boot_found k n v r ∧ held s0 C L true None s).
Proof.
  revert n v. induction k as [|k IH]; intros n v.
  { Transparent loop. cbn [loop]. apply total_ret. intros s [Hs _]. split; [|done].
    split; [intros i Hi; lia|by left]. }
  cbn [loop]. Opaque loop.
  intros s [Hs Hn]. unfold boot_round. rewrite !St_bind_run, read32_run by apply (held_power _ _ _ _ _ _ Hs).
  rewrite Hn. cbn [obind fst snd]. rewrite St_ret_run. cbn [obind fst snd].
  replace (hw_answer n) with (hw_answer (n + 0)) by (f_equal; lia). fold (look n 0).
  set (s' := after (Readl register_base CVP_CTRL_STATUS) s).
  assert (Hs' : held s0 C L true None s').
  { eapply held_eq; [|apply held_after; [by left|exact Hs]]. change_tac. }
  assert (Hn' : length (hw_trace s') = S n) by (cbn; by rewrite Hn).
  destruct (decide (reports_error (look n 0))) as [He|He].
  { rewrite (proj2 (Z.eqb_eq _ _) He). do 2 eexists. split; [reflexivity|]. split; [|done].
    exists 0%nat. split; [lia|]. split; [intros i Hi; lia|]. split; [done|]. by left. }
  rewrite (proj2 (Z.eqb_neq _ _) He).
  destruct (anyb (look n 0) CVP_CTRL_INIT_STATUS__M) eqn:Ei.
  { do 2 eexists. split; [reflexivity|]. split; [|done].
    exists 0%nat. split; [lia|]. split; [intros i Hi; lia|]. split; [done|]. by right. }
  destruct (IH (S n) (look n 0) s') as (r & s2 & E2 & Hr & Hs2); [done|].
  exists r, s2. split; [exact E2|]. split; [|done].
  eapply boot_found_later; [|reflexivity|exact Hr]. split; [done|]. unfold reports_init. by rewrite Ei.
Qed.

End boot.

Section safe.
Context `{HwEnv} `{Peers}.
Variables (C : list clock_info) (ops : cvp_hal_ops).
Variables (ctl_on core_on core_off ctl_off : change) (ctl_leak core_leak : list change).
Context `{HL : !HalLaws C ops ctl_on core_on core_off ctl_off ctl_leak core_leak}.

(** How [k] looks at the status decide the result: it is 0 exactly when the first look that
    decides shows the firmware initialised and no error. *)
Definition boot_result (k n : nat) (rc : Z) : Prop :=
  (∃ i, (i < k)%nat ∧ (∀ j, (j < i)%nat → undecided (look n j)) ∧ reports_init (look n i) ∧
        (reports_error (look n i) ∧ rc = - ENODATA ∨ ¬ reports_error (look n i) ∧ rc = 0)) ∨
  (rc = - ENODEV ∧
   ((∃ i, (i < k)%nat ∧ (∀ j, (j < i)%nat → undecided (look n j)) ∧
          reports_error (look n i) ∧ ¬ reports_init (look n i)) ∨
    ∀ j, (j < k)%nat → undecided (look n j))).

Lemma init_zero : ¬ reports_init 0.
Proof. done. Qed.

(** The status the loop ends with, and the result it stands for. *)
Lemma boot_found_result k n r :
  boot_found k n 0 r →
  let '(status, rc) := match r with inr x => x | inl v => (v, 0) end in
  boot_result k n (if negb (anyb status CVP_CTRL_INIT_STATUS__M) then - ENODEV else rc).
Proof.
  destruct r as [w|[w rc]]; cbn.
  - intros [Hj Hw]. assert (Hi : ¬ reports_init w).
    { destruct Hw as [->|(j & Hlt & ->)]; [apply init_zero|by apply Hj]. }
    unfold reports_init in Hi. destruct (anyb w _); [done|]. cbn. right. split; [done|]. by right.
  - intros (i & Hi & Hj & -> & Hr). destruct (anyb (look n i) CVP_CTRL_INIT_STATUS__M) eqn:E; cbn.
    + left. exists i. split_and!; [done|done|done|].
      destruct Hr as [[? ->]|(? & ? & ->)]; [by left|by right].
    + right. split; [done|]. left. exists i. split_and!; [done|done| |].
      * destruct Hr as [[? _]|(_ & Hin & _)]; [done|]. unfold reports_init in Hin. congruence.
      * unfold reports_init. congruence.
Qed.

Lemma boot_ok s0 L n :
  total (λ s, held s0 C L true None s ∧ length (hw_trace s) = n) (__boot_firmware ops)
    (λ rc s, boot_result 5000 (S n) rc ∧ held s0 C L true None s).
Proof.
  assert (Hm : may_access true None) by by left.
  assert (Hcalm : ∀ A B (m : P A) (k : A → P B) (φ : B → Prop), calm C m →
    (∀ a, total (held s0 C L true None) (k a) (λ b s, φ b ∧ held s0 C L true None s)) →
    total (held s0 C L true None) (m ≫= k) (λ b s, φ b ∧ held s0 C L true None s)).
  { intros A B m k φ Hc Hk. eapply total_bind; [by apply Hc|]. intros a.
    eapply total_pre; [apply Hk|]. intros s. apply held_eq. change_tac. }
  unfold __boot_firmware.
  eapply (total_bind _ _ (λ _ s, held s0 C L true None s ∧ length (hw_trace s) = S n)).
  { intros s [Hs Hn]. unfold __write_register. srun. rewrite (held_power _ _ _ _ _ _ Hs). cbn [negb].
    unfold hcall_. rewrite St_bind_run, hext_run. do 2 eexists. split; [reflexivity|].
    split; [|cbn; by rewrite Hn]. eapply held_eq; [|apply held_after; [by left|exact Hs]]. change_tac. }
  intros []. eapply total_bind; [apply boot_loop_ok|]. intros r. apply total_pure. intros Hr.
  apply boot_found_result in Hr.
  destruct (match r with inr x => x | inl v => (v, 0) end) as [status rc].
  eapply (total_bind _ _ (λ rc' s, boot_result 5000 (S n) rc' ∧ held s0 C L true None s)).
  { apply total_if; intros Hi; rewrite Hi in Hr; [|by apply total_ret].
    apply Hcalm; [apply calm_read32|]. intros ?.
    apply Hcalm; [apply hal_tensilica|]. intros ?. by apply total_ret. }
  intros rc'. apply total_pure. intros Hrc.
  apply Hcalm; [apply hal_hw_collapse|]. intros ?.
  apply Hcalm; [apply calm_write|]. intros ?.
  apply Hcalm; [apply calm_write|]. intros ?. by apply total_ret.
Qed.

(** * The system cache *)

Context `{PL : !PeersLaws C}.

Lemma kept_subcache {A} s0 L b q i (k : subcache_info → P A) Q :
  (i < length (hw_subcaches s0))%nat → (∀ sc, total (kept s0 C L b q) (k sc) Q) →
  total (kept s0 C L b q)
    (l ← gets hw_subcaches; match l !! i with None => stuck | Some sc => k sc end) Q.
Proof.
  intros Hi Hk s Hs. rewrite St_bind_run, gets_run. cbn.
  destruct (kept_facts _ _ _ _ _ _ Hs) as (_ & _ & _ & _ & _ & Hl).
  destruct (hw_subcaches s !! i) as [sc|] eqn:E; [by apply Hk|].
  apply lookup_ge_None in E. lia.
Qed.

Lemma alter_handles i f (l : list subcache_info) :
  (∀ c, sc_subcache (f c) = sc_subcache c) → sc_subcache <$> alter f i l = sc_subcache <$> l.
Proof.
  intros Hf. revert i. induction l as [|c l IH]; intros [|i]; cbn; f_equal; [apply Hf|apply IH].
Qed.

Lemma fmap_handles f (l : list subcache_info) :
  (∀ c, sc_subcache (f c) = sc_subcache c) → sc_subcache <$> (f <$> l) = sc_subcache <$> l.
Proof. intros Hf. induction l; cbn; by f_equal. Qed.

Lemma kept_set_subcache s0 L b q i f :
  (∀ c, sc_subcache (f c) = sc_subcache c) →
  total (kept s0 C L b q) (set_subcache i f) (λ _, kept s0 C L b q).
Proof.
  intros Hf. apply kept_modify. intros s. do 4 (split; [done|]). unfold handles. cbn. by rewrite alter_handles.
Qed.

Lemma kept_disable_subcaches s0 L b q :
  may_access b q → total (kept s0 C L b q) __disable_subcaches (λ _, kept s0 C L b q).
Proof.
  intros Hb. unfold __disable_subcaches. apply total_if; intros _; [by apply total_ret|].
  intros s Hs. rewrite St_bind_run, gets_run. cbn [obind fst snd].
  destruct (kept_facts _ _ _ _ _ _ Hs) as (_ & _ & _ & _ & _ & Hl). rewrite Hl.
  revert s Hs Hl. intros s Hs _. revert s Hs.
  eapply (total_bind _ _ (λ _, kept s0 C L b q)); [|intros ?; by apply total_ret].
  apply total_each_inv. intros i Hi. apply list_elem_of_In, in_rev, in_seq in Hi.
  apply kept_subcache; [lia|]. intros sc. apply total_whenS; [intros _|done].
  apply kept_calm; [by apply calm_hext|done|]. intros ?. by apply kept_set_subcache.
Qed.

Lemma kept_release_subcaches s0 L b q :
  may_access b q → total (kept s0 C L b q) __release_subcaches (λ _, kept s0 C L b q).
Proof.
  intros Hb. unfold __release_subcaches. apply total_if; intros _; [by apply total_ret|].
  apply kept_gets_any. intros l. eapply total_bind.
  { apply kept_modify. intros s. do 4 (split; [done|]). unfold handles. cbn. rewrite fmap_handles; [done|]. by intros [? [] ? ?]. }
  intros []. apply kept_calm; [|done|].
  { apply calm_whenS. intros _. apply gives_map, peers_release_resource. }
  intros []. eapply total_bind; [by apply kept_modify|]. intros []. by apply total_ret.
Qed.

Lemma kept_each_subcache s0 L b q n i m :
  (i + n ≤ length (hw_subcaches s0))%nat →
  (∀ j sc, total (kept s0 C L b q) (m j sc) (λ _, kept s0 C L b q)) →
  total (kept s0 C L b q) (each_subcache n i m) (λ _, kept s0 C L b q).
Proof.
  revert i. induction n as [|n IH]; intros i Hi Hm; cbn [each_subcache]; [by apply total_ret|].
  apply kept_subcache; [lia|]. intros sc. eapply total_bind; [apply Hm|]. intros [].
  - apply IH; [lia|done].
  - by apply total_ret.
Qed.

Lemma kept_enable_subcaches s0 L q :
  may_access true q → q = None →
  total (kept s0 C L true q) __enable_subcaches (λ _, kept s0 C L true q).
Proof.
  intros Hb ->. unfold __enable_subcaches. apply total_if; intros _; [by apply total_ret|].
  intros s Hs. rewrite St_bind_run, gets_run. cbn [obind fst snd].
  destruct (kept_facts _ _ _ _ _ _ Hs) as (_ & _ & _ & _ & _ & Hl). rewrite Hl.
  revert s Hs Hl. intros s Hs _. revert s Hs.
  eapply total_bind.
  { apply kept_each_subcache; [lia|]. intros j sc.
    apply kept_calm; [by apply calm_hext|done|]. intros rc. apply total_if; intros _.
    - eapply (total_bind _ _ (λ _, kept s0 C L true None)); [|intros ?; by apply total_ret].
      apply total_ex. intros s1. apply total_pure. intros Hn.
      eapply total_post; [apply fatal_total|]. intros ? s Hs. exists s1. split; [done|].
      revert Hs. apply held_eq. change_tac.
    - eapply total_bind; [by apply kept_set_subcache|]. intros []. by apply total_ret. }
  intros all. apply total_if; intros _; [by apply total_ret|].
  eapply total_bind; [by apply kept_release_subcaches|]. intros ?.
  eapply total_bind; [by apply kept_disable_subcaches|]. intros ?. by apply total_ret.
Qed.

Lemma kept_set_subcaches s0 L b q :
  may_access b q → total (kept s0 C L b q) __set_subcaches (λ _, kept s0 C L b q).
Proof.
  intros Hb. unfold __set_subcaches. apply kept_gets_any. intros set.
  apply total_if; intros _; [by apply total_ret|].
  apply kept_gets_any. intros l. apply total_if; intros _; [by apply total_ret|].
  apply kept_calm; [apply peers_set_resource|done|]. intros rc. apply total_if; intros _.
  - eapply total_bind; [by apply kept_disable_subcaches|]. intros ?. by apply total_ret.
  - eapply total_bind.
    { apply kept_modify. intros s. do 4 (split; [done|]). unfold handles. cbn. rewrite fmap_handles; [done|]. by intros [? [] ? ?]. }
    intros []. eapply total_bind; [by apply kept_modify|]. intros []. by apply total_ret.
Qed.

(** * Suspend *)

Hypothesis Hsw : sw_power_collapsible = true.

Abbreviation returned := (returned core_off ctl_off).
Abbreviation full_votes := (full_votes ctl_on core_on).
Abbreviation residue := (residue ctl_on core_on ctl_off ctl_leak core_leak).

(** Off with everything given back, or still on with nothing changed. *)
Definition suspended s0 L (s : hw) : Prop := ∃ intr, kept s0 C (L ⊖ returned intr) false None s.

Lemma kept_power_off s0 L :
  total (kept s0 C L true None) (power_off_iris2 ops) (λ _, suspended s0 L).
Proof.
  intros s Hs.
  destruct (power_off_ok C ops _ _ _ _ _ _ s0 L (hw_intr_status s) Hsw s) as (a & s' & E & Hs'); [done|].
  exists a, s'. split; [done|]. by eexists.
Qed.

Lemma hw_suspend_ok s0 L :
  total (kept s0 C L true None) (__suspend ops) (λ rc s,
    (rc = 0 ∧ suspended s0 L s) ∨ (rc ≠ 0 ∧ kept s0 C L true None s)).
Proof.
  assert (Hm : may_access true None) by by left.
  unfold __suspend.
  apply kept_gets with (v := true); [intros s Hs; by apply kept_facts in Hs as (_ & ? & _)|]. cbn [negb].
  apply kept_calm; [by apply calm_hext|done|]. intros rc. apply total_if; intros Hrc.
  { apply negb_true_iff, Z.eqb_neq in Hrc. apply total_ret. by right. }
  apply negb_false_iff, Z.eqb_eq in Hrc as ->.
  eapply total_bind; [by apply kept_disable_subcaches|]. intros ?.
  eapply total_bind; [apply kept_power_off|]. intros [].
  apply total_ex. intros intr. apply kept_gets_any. intros g.
  eapply total_bind.
  { apply calm_kept; [|by right]. apply calm_whenS. intros _. apply calm_qos_update. }
  intros []. apply total_ret. intros s Hs. left. split; [done|]. by exists intr.
Qed.

(** * Resume *)

Hypothesis Hbal : ∀ v, ctl_on v + core_on v = core_off v + ctl_off v.

(** Some look after [n0] calls found the firmware initialised, without an error. *)
Definition booted (n0 : nat) : Prop :=
  ∃ n i, (n0 ≤ n)%nat ∧ reports_init (look n i) ∧ ¬ reports_error (look n i).

Lemma boot_result_zero k n : boot_result k n 0 → ∃ i, reports_init (look n i) ∧ ¬ reports_error (look n i).
Proof. intros [(i & _ & _ & Hi & [[_ ?]|[? _]])|[? _]]; [done|by exists i|done]. Qed.

Lemma kept_resume_exit s0 L b q rc :
  total (kept s0 C L b q) (resume_exit rc) (λ r s, r = rc ∧ kept s0 C L b q s).
Proof.
  unfold resume_exit. apply kept_gets_any. intros t.
  eapply (total_bind _ _ (λ _, kept s0 C L b q)).
  { apply total_whenS; intros ?; [by apply kept_modify|done]. }
  intros []. by apply total_ret.
Qed.

Lemma resume_booted_ok s0 L :
  total (kept s0 C L true None) resume_booted (λ r s, r = 0 ∧ kept s0 C L true None s).
Proof.
  assert (Hm : may_access true None) by by left.
  unfold resume_booted. apply kept_calm; [|done|].
  { unfold __set_threshold_registers, __tzbsp_set_cvp_state. calm_tac. }
  intros ?. apply kept_gets_any. intros g.
  apply kept_calm; [|done|].
  { apply calm_whenS. intros _. apply calm_qos_update. }
  intros ?. apply kept_calm; [apply peers_debug|done|]. intros ?.
  eapply total_bind; [by apply kept_enable_subcaches|]. intros ?.
  eapply total_bind; [by apply kept_set_subcaches|]. intros ?.
  apply kept_calm; [apply peers_resume|done|]. intros ?. apply kept_resume_exit.
Qed.

(** Powered on with the interrupt state clear, as [__iris_power_on] leaves it. *)
Definition fresh s0 L (s : hw) : Prop :=
  ∃ s1, near s0 s1 ∧ hw_intr_status s1 = 0 ∧ held s1 C (L ⊕ full_votes) true None s.

Lemma fresh_calm {A B} (m : P A) (k : A → P B) s0 L Q :
  calm C m → (∀ a, total (fresh s0 L) (k a) Q) → total (fresh s0 L) (m ≫= k) Q.
Proof.
  intros Hm Hk. eapply (total_bind _ _ (λ _, fresh s0 L)); [|done].
  apply total_ex. intros s1. apply total_pure. intros Hn. apply total_pure. intros Hi.
  eapply total_post; [apply Hm; by left|]. intros ? s Hs. exists s1. split_and!; [done..|].
  revert Hs. apply held_eq. change_tac.
Qed.

Lemma powered_fresh s0 L s :
  hw_intr_status s = 0 ∧ kept s0 C (L ⊕ full_votes) true None s → fresh s0 L s.
Proof.
  intros (Hi & s1 & Hn & Hs). exists s1. split_and!; [done| |done].
  pose proof (held_rest _ _ _ _ _ _ Hs) as Hr. unfold rest in Hr. congruence.
Qed.

Lemma fresh_kept s0 L s : fresh s0 L s → kept s0 C (L ⊕ full_votes) true None s.
Proof. intros (s1 & ? & _ & ?). by exists s1. Qed.

Lemma fresh_power_off s0 L :
  total (fresh s0 L) (power_off_iris2 ops) (λ _, kept s0 C L false None).
Proof.
  eapply total_conseq; [eapply (power_off_ok C ops _ _ _ _ _ _ s0 (L ⊕ full_votes) 0 Hsw)|..].
  - intros s Hs. split; [by apply fresh_kept|]. destruct Hs as (s1 & _ & Hi & Hs).
    pose proof (held_rest _ _ _ _ _ _ Hs) as Hr. unfold rest in Hr. congruence.
  - intros ? s. apply kept_eq. intros v. unfold full_votes, returned, plus, minus. pose proof (Hbal v).
    change (anyb 0 CVP_WRAPPER_INTR_STATUS_A2HWD_BMSK) with false. cbn -[one Z.add Z.sub]. lia.
Qed.

Definition resumed s0 L (rc : Z) (s : hw) : Prop :=
  rc = 0 ∧ kept s0 C (L ⊕ full_votes) true None s ∧ booted (length (hw_trace s0)).

(** After a successful power-on. *)
Lemma resume_powered_ok s0 L :
  total (fresh s0 L) (resume_powered ops) (λ rc s,
    resumed s0 L rc s ∨ (rc ≠ 0 ∧ kept s0 C L false None s)).
Proof.
  unfold resume_powered.
  apply fresh_calm; [apply peers_setup|]. intros ?.
  apply fresh_calm; [by apply calm_hext|]. intros rc. apply total_if; intros Hrc.
  { apply negb_true_iff, Z.eqb_neq in Hrc. eapply total_bind; [apply fresh_power_off|].
    intros ?. apply total_ret. auto. }
  eapply (total_bind _ _ (λ rc s, fresh s0 L s ∧ (rc = 0 → booted (length (hw_trace s0))))).
  { intros s (s1 & Hn & Hi & Hs).
    destruct (boot_ok s1 (L ⊕ full_votes) (length (hw_trace s)) s (conj Hs eq_refl))
      as (rc2 & s2 & E & Hb & Hs2).
    exists rc2, s2. split; [done|]. split; [by exists s1|]. intros ->.
    apply boot_result_zero in Hb as (i & Hb). exists (S (length (hw_trace s))), i.
    split; [|done]. pose proof (held_grows _ _ _ _ _ _ Hs). destruct Hn as [? _]. lia. }
  intros rc2. apply total_if; intros Hrc2.
  { apply negb_true_iff, Z.eqb_neq in Hrc2.
    eapply (total_pre _ (fresh s0 L)); [|by intros s [? _]].
    apply fresh_calm; [by apply calm_hext|]. intros ?.
    eapply total_bind; [apply fresh_power_off|]. intros ?. apply total_ret. auto. }
  apply negb_false_iff, Z.eqb_eq in Hrc2 as ->.
  eapply (total_pre _ (λ s, booted (length (hw_trace s0)) ∧ kept s0 C (L ⊕ full_votes) true None s)).
  2: { intros s [Hf Hb]. split; [by apply Hb|by apply fresh_kept]. }
  apply total_pure. intros Hb. eapply total_post; [apply resume_booted_ok|].
  intros r s [-> Hs]. by left.
Qed.

(** * Collapse *)

(** The driver saw the processor wait for interrupts, and the firmware ready. *)
Definition seen (n0 : nat) (reg : Z) (φ : Z → Prop) : Prop :=
  ∃ n, (n0 ≤ n)%nat ∧ φ (u32 (s32 (hw_answer n (Readl register_base reg)))).

Definition idle_seen (n0 : nat) : Prop :=
  seen n0 CVP_WRAPPER_CPU_STATUS (λ v, Z.testbit v 0 = true) ∧
  seen n0 CVP_CTRL_STATUS (λ v, anyb v CVP_CTRL_STATUS_PC_READY = true).

Lemma kept_read {A} s0 L r (k : Z → P A) Q :
  (∀ v, (∀ φ : Z → Prop, φ v → seen (length (hw_trace s0)) r φ) → total (kept s0 C L true None) (k v) Q) →
  total (kept s0 C L true None) (v ← read32 r; k v) Q.
Proof.
  intros Hk s Hs. destruct (kept_facts _ _ _ _ _ _ Hs) as (_ & Hp & _ & _ & Hl & _).
  rewrite St_bind_run, read32_run by done. cbn [obind fst snd].
  refine (Hk _ _ _ _).
  - intros φ Hφ. exists (length (hw_trace s)). split; [lia|done].
  - destruct Hs as (s1 & Hn & Hs). exists s1. split; [done|].
    eapply held_eq; [|apply held_after; [by left|exact Hs]]. change_tac.
Qed.

Definition collapsed s0 L (rc : Z) (s : hw) : Prop :=
  (rc = 0 ∧ idle_seen (length (hw_trace s0)) ∧ suspended s0 L s) ∨
  (rc ≠ 0 ∧ kept s0 C L true None s).

Lemma collapse_suspends s0 L :
  idle_seen (length (hw_trace s0)) → total (kept s0 C L true None) (__suspend ops) (collapsed s0 L).
Proof.
  intros Hi. eapply total_post; [apply hw_suspend_ok|]. intros rc s [[-> ?]|?]; [by left|by right].
Qed.

Lemma skip_ok s0 L : total (kept s0 C L true None) skip_power_off (collapsed s0 L).
Proof.
  unfold skip_power_off. apply kept_calm; [apply peers_flush|by left|]. intros ?.
  apply total_ret. intros s Hs. by right.
Qed.

Lemma pc_loop_ok s0 L k :
  total (kept s0 C L true None) (loop k pc_round tt) (λ r s,
    kept s0 C L true None s ∧ (r = inr tt → idle_seen (length (hw_trace s0)))).
Proof.
  Transparent loop. induction k as [|k IH]; cbn [loop]; [by apply total_ret|]. Opaque loop.
  eapply (total_bind _ _ (λ r s, kept s0 C L true None s ∧ (r = inr tt → idle_seen (length (hw_trace s0))))).
  { unfold pc_round. apply kept_read. intros wfi Hwfi. apply kept_read. intros pc Hpc.
    apply total_ret. intros s Hs. split; [done|].
    destruct (Z.testbit wfi 0) eqn:E1; [|done]. destruct (anyb pc _) eqn:E2; [|done].
    intros _. split; [by apply Hwfi|by apply Hpc]. }
  intros [[]|[]].
  - eapply total_pre; [apply IH|]. by intros s [? _].
  - by apply total_ret.
Qed.

Lemma collapse_ok s0 L force :
  hw_state_init s0 = true →
  total (kept s0 C L true None) (__power_collapse ops force) (collapsed s0 L).
Proof.
  intros Hinit. assert (Hm : may_access true None) by by left. unfold __power_collapse.
  apply kept_gets with (v := true); [intros s Hs; by apply kept_facts in Hs as (_ & ? & _)|].
  apply kept_gets with (v := true).
  { intros s Hs. apply kept_facts in Hs as (_ & _ & _ & -> & _). done. }
  cbn [negb]. apply kept_calm; [apply peers_suspend|done|]. intros rc.
  apply total_if; intros Hrc.
  { apply total_ret. intros s Hs. right. split; [|done].
    apply orb_true_iff in Hrc as [->%Z.eqb_eq| ->%Z.eqb_eq]; done. }
  apply total_if; intros _; [apply skip_ok|].
  apply kept_calm; [apply peers_flush|done|]. intros ?.
  apply kept_read. intros st Hst. apply total_if; intros Hready.
  - unfold collapse_prepare. apply kept_read. intros wfi Hwfi. apply kept_read. intros idle _.
    apply total_if; intros _; [apply skip_ok|]. apply total_if; intros _; [apply skip_ok|].
    apply kept_calm; [apply peers_prepare|done|]. intros rc2.
    apply total_if; intros _; [apply skip_ok|].
    eapply total_bind; [apply pc_loop_ok|]. intros [[]|[]].
    + eapply total_pre; [apply skip_ok|]. by intros s [? _].
    + eapply total_pre; [|intros s [Hs Hi]; exact (conj (Hi eq_refl) Hs)].
      apply total_pure. apply collapse_suspends.
  - apply negb_false_iff in Hready. unfold collapse_ready. apply kept_read. intros wfi Hwfi.
    apply total_if; intros Hw; [apply skip_ok|]. apply negb_false_iff in Hw.
    apply collapse_suspends. split; [by apply Hwfi|by apply Hst].
Qed.

End safe.
