(* ===== verification/HwMain.v ===== *)
(** The theorems about the power of the processor, and a small device they apply to. *)

From stdpp Require Import strings.
From S2P Require Import Prelude HfiTypes Store HawiIo Hw HwRules Hal HalHawi HwPower HwPowerRules.
Open Scope Z_scope.

Section theorems.
Context `{HwEnv} `{Peers}.
Variables (C : list clock_info) (ops : cvp_hal_ops).
Variables (ctl_on core_on core_off ctl_off : change) (ctl_leak core_leak : list change).
Context `{HL : !HalLaws C ops ctl_on core_on core_off ctl_off ctl_leak core_leak}.
Hypothesis Hbal : ∀ v, ctl_on v + core_on v = core_off v + ctl_off v.
Hypothesis Hrates : clock_rates ≠ [].
Hypothesis Hsw : sw_power_collapsible = true.

Abbreviation residue := (residue ctl_on core_on ctl_off ctl_leak core_leak).

Lemma kept_start s b :
  hw_clocks s = C → hw_power_enabled s = b → kept s C (account (hw_trace s)) b None s.
Proof. intros Hc <-. exists s. split; [done|]. rewrite <- Hc. eapply held_uncounted, held_start. Qed.

Lemma kept_moved s L k b s' :
  kept s C (L ⊕ k) b None s' → (∀ v, L v = account (hw_trace s) v) → moved s s' k.
Proof. intros Hs HL' v. apply kept_facts in Hs as (-> & _). unfold plus. by rewrite HL'. Qed.


(** C29. The boot of the firmware always ends, and its result is decided by the first of 5000
    looks at the status register that shows the firmware initialised or an error: 0 when it
    is initialised without an error, -ENODATA when it is initialised with one, -ENODEV in
    every other case; the power and the accounts are as they were. *)
Theorem boot_firmware_result s :
  hw_clocks s = C → hw_power_enabled s = true →
  ∃ rc s', __boot_firmware ops s = Done (rc, s') ∧
    boot_result 5000 (S (length (hw_trace s))) rc ∧
    hw_power_enabled s' = true ∧ moved s s' none.
Proof.
  intros Hc Hp.
  assert (Hs : held s C (account (hw_trace s)) true None s).
  { rewrite <- Hc, <- Hp. eapply held_uncounted, held_start. }
  destruct (boot_ok C ops _ _ _ _ _ _ s (account (hw_trace s)) (length (hw_trace s)) s
    (conj Hs eq_refl)) as (rc & s' & E & Hb & []).
  exists rc, s'. split_and!; [done..|]. intros v. rewrite held_account. unfold none. lia.
Qed.

Context `{PL : !PeersLaws C}.



End theorems.

(** * The Hawi target *)

(** The fall-back mode of the Hawi controller is never entered: it is run before the
    driver may access registers, so its one read is refused and reported, and the error it
    gets instead of a value has the bit clear that would ask for the mode. *)
Theorem fallback_mode_never_entered `{HwEnv} s :
  hw_power_enabled s = false → __controller_fallback_mode s = Done (tt, after Fatal_hw_error s).
Proof.
  intros Hp. unfold __controller_fallback_mode, read32, __read_register, __read_window. srun.
  rewrite Hp. reflexivity.
Qed.

(** The client in a word of the error log of the network is a five-bit field, and the
    table of names has 25 entries: printing the word reads past the table exactly when the
    field is 25 or more. *)
Theorem error_log_names_overrun `{HwEnv} (val : Z) (s : hw) :
  __print_reg_details_errlog3_low_hawi val s = Fault ↔ 25 ≤ Z.land (Z.shiftr val 7) 0x1F.
Proof.
  unfold __print_reg_details_errlog3_low_hawi. set (mid := Z.land _ _).
  assert (Hm : 0 ≤ mid).
  { unfold mid. apply Z.land_nonneg. right. lia. }
  destruct (mid_names_hawi !! Z.to_nat mid) as [n|] eqn:E.
  - apply lookup_lt_Some in E. cbn in E. split; [done|lia].
  - apply lookup_ge_None in E. cbn in E. split; [lia|done].
Qed.

(** * A small Hawi device *)
Module PowerScenario.

Definition powered_regs : list Z :=
  [CVP_CC_MVS0C_GDSCR; CVP_CC_MVS0_GDSCR; CVP_CC_AXI0_CX_INT_GDSCR; CVP_CC_MM_INT_GDSCR].
Definition accepting_regs : list Z :=
  [CVP_WRAPPER_CPU_NOC_LPI_STATUS; CVP_AON_WRAPPER_CVP_VIDEO_CTL_NOC_LPI_STATUS;
   CVP_WRAPPER_CPU_STATUS].

(** Registers of a healthy device whose firmware is ready for a power collapse. *)
Definition reg_value (r : Z) : Z :=
  if bool_decide (r ∈ powered_regs) then 0x80000000
  else if bool_decide (r ∈ accepting_regs) then 1
  else if r =? CVP_CTRL_STATUS then 0x101
  else if r =? CVP_SS_IDLE_STATUS then 0x400000 else 0.

#[export] Instance env : HwEnv := small_device (obliging reg_value)
  [mkPd "controller_pd" 1 false; mkPd "core_noc_cx_pd" 2 true; mkPd "core_noc_mm_pd" 3 true;
   mkPd "core_pd" 4 true].

#[export] Instance obedient : Obedient.
Proof. apply small_device_obedient. Qed.

#[export] Instance peers : Peers := {
  peer_setup_ucregion_memory_map := mret tt;
  peer_sys_set_debug := mret tt;
  peer_core_set_resource := λ _, mret 0;
  peer_core_release_resource := λ _, mret 0;
  peer_dsp_suspend := λ _, mret 0;
  peer_dsp_resume := mret 0;
  peer_dsp_suspended := mret false;
  peer_flush_debug_queue := mret tt;
  peer_prepare_pc := mret 0;
  peer_fatal_error := mret tt
}.

#[export] Instance peers_laws C : PeersLaws C.
Proof. split; intros; apply gives_ret. Qed.

Definition clocks : list clock_info :=
  [mkClock "sleep_clk" 11; mkClock "core_axi_clock" 12; mkClock "cvp_axi_clock" 13;
   mkClock "cvp_clk" 14; mkClock "cvp_freerun_clk" 15; mkClock "cvp_ctl_freerun_clk" 16;
   mkClock "cvp_debug_clk" 17; mkClock "eva_cc_mvs0_clk_src" 18; mkClock "core_clk" 19].

Lemma clocks_named_apart : NoDup (clk_name <$> clocks).
Proof. apply (bool_decide_unpack _). vm_compute. done. Qed.

Lemma domains_known : Forall known hawi_domains.
Proof. unfold known. repeat (apply Forall_cons_2; [by vm_compute|]). apply Forall_nil_2. Qed.

Lemma rates_given : clock_rates ≠ [].
Proof. done. Qed.

Lemma collapsible : sw_power_collapsible = true.
Proof. reflexivity. Qed.

#[export] Instance laws : HalLaws clocks hal_ops_hawi _ _ _ _ _ _ :=
  hawi_laws clocks clocks_named_apart domains_known.

Definition off : hw := powered_off clocks.

Definition on : hw := off <| hw_power_enabled := true |>.


Lemma boot_firmware_witness :
  ∃ rc s', __boot_firmware hal_ops_hawi on = Done (rc, s') ∧ rc = 0 ∧ boot_result 5000 1 rc.
Proof.
  destruct (boot_firmware_result clocks hal_ops_hawi _ _ _ _ _ _ on eq_refl eq_refl)
    as (rc & s' & E & Hb & _ & _).
  exists rc, s'. split; [exact E|]. split; [|exact Hb].
  vm_compute in E. injection E as <- _. reflexivity.
Defined.



Lemma fallback_witness :
  hw_power_enabled off = false ∧ __controller_fallback_mode off = Done (tt, after Fatal_hw_error off).
Proof. split; [reflexivity|]. apply (fallback_mode_never_entered off). reflexivity. Defined.

End PowerScenario.
