(* ===== verification/Bringup.v ===== *)
(** Bringing the core up and shutting it down (src/msm/eva/cvp_hfi.c, [iris_hfi_core_init],
    [iris_hfi_core_release] and what they call; msm_cvp_clocks.c; cvp_fw_load.c): the handles
    of clocks, resets, buses and the system cache, the register windows of the fence
    hardware, power, the interface memory and the firmware.

    [k_live] lists what is held; giving back what is not held is a fault.  A pointer to a
    handle is 0 for NULL and negative for an error. *)

From stdpp Require Import strings.
From S2P Require Import Prelude HfiTypes Store Smem QueueSetup HawiIo Hw Hal HwPower.
Open Scope Z_scope.

Definition CVP_POWER_TURBO : Z := 2.
Definition MAX_FIRMWARE_NAME_SIZE : nat := 128.

(** * State *)

Inductive resource :=
| R_clk (h : Z) | R_reset (h : Z) | R_icc (h : Z) | R_llcc (h : Z) | R_capabilities
| R_iova (iova size : Z) | R_ipcc (iova : Z) | R_firmware | R_memremap (virt : Z) | R_pas (id : Z)
| R_qos_table | R_qos (i : nat).

#[global] Instance resource_eq : EqDecision resource.
Proof. solve_decision. Defined.

Inductive action_stage := CVP_ON_INIT | CVP_ON_USE | CVP_ON_INVALID.
Inductive reset_clk_state := RESET_INIT | RESET_ACQUIRED | RESET_RELEASED.
#[global] Instance reset_clk_state_eq : EqDecision reset_clk_state.
Proof. solve_decision. Defined.

Record reset_info := mkReset {
  rst_rst : Z; rst_required_stage : action_stage; rst_state : reset_clk_state; rst_name : string
}.
#[global] Instance eta_reset : Eta reset_info :=
  λ r, mkReset (rst_rst r) (rst_required_stage r) (rst_state r) (rst_name r).

(** Calls out of the driver. *)
Inductive ccall :=
| Clk_get (name : string)
| Reset_control_get_exclusive_released (name : string)
| Devm_reset_control_get (name : string)
| Reset_control_assert (rst : Z) | Reset_control_deassert (rst : Z) | Reset_control_acquire (rst : Z)
| Of_icc_get (b : bus_info)
| Llcc_slice_getd (name : string)
| Kzalloc
| Iommu_map_regs (phys iova size : Z)
| Dma_map_resource (phys size : Z)
| Synx_recover
| Of_address_to_resource | Request_firmware (name : string) | Qcom_mdt_get_size
| Memremap | Qcom_mdt_load (id virt : Z) | Pas_auth_and_reset (id : Z)
| Flush_pm_workq
| Dev_pm_qos_add_request (cpu latency : Z).

(** The core: its hardware (Hw.v), its interface memory (QueueSetup.v; the registers that
    announce it are part of that state), the reset controls (empty for a table that was not
    allocated), what is held, [sys_init_capabilities], [pkt_ops], the firmware's cookie, the
    requests for latency and the address [ipcc_reg_base_iova]. *)
Record core := mkCore {
  k_hw : hw;
  k_if : iface;
  k_resets : list reset_info;
  k_live : list resource;
  k_capabilities : bool;
  k_pkt_ops : bool;
  k_cookie : Z;
  k_qos : option (list bool);
  k_ipcc_iova : Z;
  k_version : Z;
  k_calls : nat
}.
#[global] Instance eta_core : Eta core :=
  λ k, mkCore (k_hw k) (k_if k) (k_resets k) (k_live k) (k_capabilities k) (k_pkt_ops k)
    (k_cookie k) (k_qos k) (k_ipcc_iova k) (k_version k) (k_calls k).

(** The answers to the calls, and what was read from the platform: the windows of the fence
    hardware (address, address for the firmware, size), the IPC controller, the firmware. *)
Class CoreEnv := {
  c_answer : nat → ccall → Z;
  reg_mappings : list (Z * Z * Z);
  ipcc_regs : Z * Z;
  mmrm_enabled : bool;
  use_non_secure_pil : bool;
  res_firmware_base : Z;
  fw_name : option string;
  memory_region : option Z;
  pas_id : Z;
  dsp_disable : bool
}.

(** Operations of other components (HfiSession.v, Dsp.v). *)
Class CorePeers := {
  peer_sys_init : P Z;
  peer_cmdq_write_sys_init : P Z;
  peer_image_version : P Z;
  peer_set_ubwc_config : P Z;
  peer_idle_indicator : P Z;
  peer_send_hfi_queue : P unit;
  peer_dsp_shutdown : P Z
}.

Abbreviation K := (St core).

(** * Operations *)
Section operations.
Context `{HwEnv} `{Peers} `{BufEnv} `{SetupEnv} `{CoreEnv} `{CorePeers}.
Variable ops : cvp_hal_ops.

Definition on_hw {A} (m : P A) : K A :=
  λ k, let! r := m (k_hw k) in Done (r.1, k <| k_hw := r.2 |>).
Definition on_if {A} (m : Q A) : K A :=
  λ k, let! r := m (k_if k) in Done (r.1, k <| k_if := r.2 |>).

Definition kext (c : ccall) : K Z :=
  n ← gets k_calls; modify (λ k, k <| k_calls ::= S |>) ;; mret (c_answer n c).

Definition take (r : resource) : K unit := modify (λ k, k <| k_live ::= (r ::.) |>).

Fixpoint without (r : resource) (l : list resource) : list resource :=
  match l with [] => [] | x :: l' => if decide (x = r) then l' else x :: without r l' end.

Definition drop (r : resource) : K unit :=
  l ← gets k_live;
  if bool_decide (r ∈ l) then modify (λ k, k <| k_live := without r l |>) else stuck.

(** For functions that accept what is not there. *)
Definition drop_if (r : resource) : K unit :=
  l ← gets k_live; whenS (bool_decide (r ∈ l)) (drop r).

(** A table filled in order, up to the first entry that fails. *)
Fixpoint set_up {A} (f : A → K (A * Z)) (l : list A) : K (list A * Z) :=
  match l with
  | [] => mret ([], 0)
  | a :: l' =>
      r ← f a;
      if negb (r.2 =? 0) then mret (r.1 :: l', r.2)
      else t ← set_up f l'; mret (r.1 :: t.1, t.2)
  end.

(** ** Clocks *)

Definition get_clock (cl : clock_info) : K (clock_info * Z) :=
  if negb (clk_clk cl =? 0) then mret (cl, 0)
  else
    h ← kext (Clk_get (clk_name cl));
    if h <? 0 then mret (mkClock (clk_name cl) 0, h)
    else whenS (negb (h =? 0)) (take (R_clk h)) ;; mret (mkClock (clk_name cl) h, 0).

Definition msm_cvp_deinit_clocks : K unit :=
  on_hw (modify (λ s, s <| hw_freq := 0 |>)) ;;
  cs ← on_hw (gets hw_clocks);
  each (rev cs) (λ cl, whenS (negb (clk_clk cl =? 0)) (drop (R_clk (clk_clk cl)))) ;;
  on_hw (modify (λ s, s <| hw_clocks := (λ cl, mkClock (clk_name cl) 0) <$> cs |>)).

Definition msm_cvp_init_clocks : K Z :=
  cs ← on_hw (gets hw_clocks);
  r ← set_up get_clock cs;
  on_hw (modify (λ s, s <| hw_clocks := r.1 |>)) ;;
  if negb (r.2 =? 0) then msm_cvp_deinit_clocks ;; mret r.2
  else on_hw (modify (λ s, s <| hw_freq := 0 |>)) ;; mret 0.

(** ** Reset controls *)

Definition __init_reset_clk (r : reset_info) : K (reset_info * Z) :=
  if negb (rst_rst r =? 0) then mret (r, 0)
  else
    match rst_required_stage r with
    | CVP_ON_USE =>
        h ← kext (Reset_control_get_exclusive_released (rst_name r));
        if h <? 0 then mret (r, h)
        else
          whenS (negb (h =? 0)) (take (R_reset h)) ;;
          mret (r <| rst_rst := h |> <| rst_state := RESET_INIT |>, 0)
    | CVP_ON_INIT =>
        h ← kext (Devm_reset_control_get (rst_name r));
        if h <? 0 then mret (r, h)
        else mret (r <| rst_rst := h |> <| rst_state := RESET_INIT |>, 0)
    | CVP_ON_INVALID => mret (r, - EINVAL)
    end.

(** The first reset control of a name, with its place. *)
Definition reset_named (name : string) : K (option (nat * reset_info)) :=
  t ← gets k_resets; mret (list_find (λ r, rst_name r = name) t).

Definition __reset_control_assert_name (name : string) : K Z :=
  r ← reset_named name;
  match r with None => mret (- EINVAL) | Some (_, r) => kext (Reset_control_assert (rst_rst r)) end.

Definition __reset_control_deassert_name (name : string) : K Z :=
  r ← reset_named name;
  match r with None => mret (- EINVAL) | Some (_, r) => kext (Reset_control_deassert (rst_rst r)) end.

(** [acquire_again], at most [n] times while the control is busy. *)
Fixpoint acquire_again (n : nat) (rst : Z) : K Z :=
  match n with
  | O => mret (- EINVAL)
  | S n' =>
      rc ← kext (Reset_control_acquire rst);
      if rc =? 0 then mret 0
      else if rc =? - EBUSY then acquire_again n' rst
      else mret (- EINVAL)
  end.

Definition set_reset_state (i : nat) (st : reset_clk_state) : K unit :=
  modify (λ k, k <| k_resets ::= alter (λ r, r <| rst_state := st |>) i |>).

Definition __reset_control_acquire (name : string) : K Z :=
  r ← reset_named name;
  match r with
  | None => mret (- EINVAL)
  | Some (i, r) =>
      if decide (rst_state r = RESET_ACQUIRED) then mret 0
      else
        rc ← acquire_again 10 (rst_rst r);
        whenS (rc =? 0) (set_reset_state i RESET_ACQUIRED) ;; mret rc
  end.

Definition __reset_control_release (name : string) : K Z :=
  r ← reset_named name;
  match r with
  | None => mret (- EINVAL)
  | Some (i, r) =>
      if decide (rst_state r = RESET_ACQUIRED) then set_reset_state i RESET_RELEASED ;; mret 0
      else mret (- EINVAL)
  end.

(** ** Buses *)

Definition get_bus (b : bus_info) : K (bus_info * Z) :=
  h ← kext (Of_icc_get b);
  if h <=? 0 then mret (mkBus 0 (bus_max b), if h =? 0 then - EBADHANDLE else h)
  else take (R_icc h) ;; mret (mkBus h (bus_max b), 0).

Definition __deinit_bus : K unit :=
  on_hw (modify (λ s, s <| hw_bus_vote := (None, 0) |>)) ;;
  bs ← on_hw (gets hw_buses);
  each (rev bs) (λ b, whenS (negb (bus_client b =? 0)) (drop (R_icc (bus_client b)))) ;;
  on_hw (modify (λ s, s <| hw_buses := (λ b, mkBus 0 (bus_max b)) <$> bs |>)).

Definition __init_bus : K Z :=
  bs ← on_hw (gets hw_buses);
  r ← set_up get_bus bs;
  on_hw (modify (λ s, s <| hw_buses := r.1 |>)) ;;
  if negb (r.2 =? 0) then __deinit_bus ;; mret r.2 else mret 0.

(** ** System cache *)

(** A slice of an unknown name keeps the handle it has. *)
Definition get_subcache (sc : subcache_info) : K (subcache_info * Z) :=
  let ours := String.eqb "cvp" (sc_name sc) || String.eqb "cvpfw" (sc_name sc) in
  h ← (if ours then kext (Llcc_slice_getd (sc_name sc)) else mret (sc_subcache sc));
  if h <=? 0 then mret (sc <| sc_subcache := 0 |>, if h =? 0 then - EBADHANDLE else h)
  else whenS ours (take (R_llcc h)) ;; mret (sc <| sc_subcache := h |>, 0).

Definition __deinit_subcaches : K unit :=
  if negb sys_cache_present || syscache_disable then mret tt
  else
    l ← on_hw (gets hw_subcaches);
    each (rev l) (λ sc, whenS (negb (sc_subcache sc =? 0)) (drop (R_llcc (sc_subcache sc)))) ;;
    on_hw (modify (λ s, s <| hw_subcaches := (λ sc, sc <| sc_subcache := 0 |>) <$> l |>)).

Definition __init_subcaches : K Z :=
  if negb sys_cache_present || syscache_disable then mret 0
  else
    l ← on_hw (gets hw_subcaches);
    r ← set_up get_subcache l;
    on_hw (modify (λ s, s <| hw_subcaches := r.1 |>)) ;;
    if negb (r.2 =? 0) then __deinit_subcaches ;; mret r.2 else mret 0.

(** ** All resources *)

(** The power domains belong to the generic framework, so there are no regulators to look up.
    A failed system cache is only warned about, and its error returned nevertheless. *)
Definition __init_resources : K Z :=
  rc ← msm_cvp_init_clocks;
  if negb (rc =? 0) then mret (- ENODEV)
  else
    rs ← gets k_resets;
    r ← set_up __init_reset_clk rs;
    modify (λ k, k <| k_resets := r.1 |>) ;;
    if negb (r.2 =? 0) then msm_cvp_deinit_clocks ;; mret (- ENODEV)
    else
      rc ← __init_bus;
      if negb (rc =? 0) then msm_cvp_deinit_clocks ;; mret rc
      else
        rc ← __init_subcaches;
        p ← kext Kzalloc;
        modify (λ k, k <| k_capabilities := negb (p =? 0) |>) ;;
        whenS (negb (p =? 0)) (take R_capabilities) ;;
        mret rc.

Definition __deinit_resources : K unit :=
  __deinit_subcaches ;;
  __deinit_bus ;;
  msm_cvp_deinit_clocks ;;
  c ← gets k_capabilities;
  whenS (c : bool) (drop R_capabilities) ;;
  modify (λ k, k <| k_capabilities := false |>).

(** ** The windows of the fence hardware *)

Fixpoint map_regs (l : list (Z * Z * Z)) : K Z :=
  match l with
  | [] => mret 0
  | (phys, iova, size) :: l' =>
      rc ← (if phys =? 0 then mret 0
            else
              rc ← kext (Iommu_map_regs phys iova size);
              whenS (rc =? 0) (take (R_iova iova size)) ;; mret rc);
      if negb (rc =? 0) then mret rc else map_regs l'
  end.

Definition __hwfence_regs_map : K Z :=
  match msm_cvp_smem_get_context_bank 0 with
  | None => mret (- EINVAL)
  | Some _ => map_regs reg_mappings
  end.

Definition __hwfence_regs_unmap : K Z :=
  match msm_cvp_smem_get_context_bank 0 with
  | None => mret (- EINVAL)
  | Some _ =>
      each reg_mappings (λ '(phys, iova, size),
        whenS (negb (iova =? 0)) (drop_if (R_iova iova size))) ;;
      mret 0
  end.

(** The address of a failed mapping, all ones in 64 bits, is compared in 32 bits: the test
    never holds. *)
Definition msm_cvp_map_ipcc_regs : K (Z * Z) :=
  let (paddr, size) := ipcc_regs in
  if (paddr =? 0) || (size =? 0) then mret (- EINVAL, 0)
  else
    match msm_cvp_smem_get_context_bank 0 with
    | None => mret (- EINVAL, 0)
    | Some _ =>
        a ← kext (Dma_map_resource paddr size);
        let iova := u32 a in
        whenS (negb (u64 a =? 2 ^ 64 - 1)) (take (R_ipcc iova)) ;;
        if iova =? 2 ^ 64 - 1 then mret (- EFAULT, iova)
        else modify (λ k, k <| k_ipcc_iova := iova |>) ;; mret (0, iova)
    end.

Definition msm_cvp_unmap_ipcc_regs (iova : Z) : K Z :=
  if (iova =? 0) || (ipcc_regs.2 =? 0) then mret (- EINVAL)
  else
    match msm_cvp_smem_get_context_bank 0 with
    | None => mret (- EINVAL)
    | Some _ => drop_if (R_ipcc iova) ;; mret 0
    end.

(** ** Firmware *)

(** From the request of the image on; the labels [err_mem_unmap] and [err_release_fw]. *)
Definition fw_image_to_memory (res_size : Z) : K Z :=
  let err_release_fw rc := drop R_firmware ;; mret rc in
  fw_size ← kext Qcom_mdt_get_size;
  if (fw_size <? 0) || (res_size <? fw_size) then err_release_fw (- EINVAL)
  else
    virt ← kext Memremap;
    if virt =? 0 then err_release_fw (- ENOMEM)
    else
      take (R_memremap virt) ;;
      let err_mem_unmap rc := drop (R_memremap virt) ;; err_release_fw rc in
      rc ← kext (Qcom_mdt_load pas_id virt);
      if negb (rc =? 0) then err_mem_unmap rc
      else
        rc ← kext (Pas_auth_and_reset pas_id);
        if negb (rc =? 0) then err_mem_unmap rc
        else
          take (R_pas pas_id) ;;
          drop (R_memremap virt) ;;
          drop R_firmware ;;
          mret pas_id.

Definition __load_fw_to_memory : K Z :=
  match fw_name with
  | None => mret (- EINVAL)
  | Some name =>
      if bool_decide (String.length name = 0%nat) then mret (- EINVAL)
      else if bool_decide (MAX_FIRMWARE_NAME_SIZE - 4 ≤ String.length name)%nat then mret (- EINVAL)
      else
        match memory_region with
        | None => mret (- EINVAL)
        | Some res_size =>
            rc ← kext Of_address_to_resource;
            if negb (rc =? 0) then mret rc
            else
              rc ← kext (Request_firmware (String.append name ".mbn"));
              if negb (rc =? 0) then mret rc
              else take R_firmware ;; fw_image_to_memory res_size
        end
  end.

Definition load_cvp_fw_impl : K Z :=
  c ← gets k_cookie;
  if negb (c =? 0) then mret 0
  else
    c ← __load_fw_to_memory;
    modify (λ k, k <| k_cookie := c |>) ;;
    if c <=? 0 then modify (λ k, k <| k_cookie := 0 |>) ;; mret (- ENOMEM) else mret 0.

Definition unload_cvp_fw_impl : K Z :=
  c ← gets k_cookie;
  drop (R_pas c) ;;
  modify (λ k, k <| k_cookie := 0 |>) ;;
  mret 0.

(** The driver loads the firmware itself. *)
Definition loads_firmware : bool :=
  (negb use_non_secure_pil && (res_firmware_base =? 0)) || use_non_secure_pil.

Definition __load_fw : K Z :=
  if loads_firmware then
    rc ← load_cvp_fw_impl;
    if negb (rc =? 0) then on_hw (power_off_iris2 ops) ;; mret rc else mret 0
  else mret 0.

Definition __unload_fw : K unit :=
  c ← gets k_cookie;
  if c =? 0 then mret tt
  else
    on_hw (hcall_ Cancel_pm_work) ;;
    valid ← on_hw (gets hw_state_init);
    whenS (valid : bool) (kext Flush_pm_workq ;; mret tt) ;;
    unload_cvp_fw_impl ;;
    on_hw (power_off_iris2 ops) ;;
    __deinit_resources.

(** ** Power *)

(** There is one set of packet operations, so this succeeds. *)
Definition __initialize_packetization : K Z :=
  modify (λ k, k <| k_pkt_ops := true |>) ;; mret 0.

Definition __power_on_init : K Z :=
  rc ← __init_resources;
  if negb (rc =? 0) then mret rc
  else
    rc ← __initialize_packetization;
    if negb (rc =? 0) then __deinit_resources ;; mret rc
    else
      rc ← on_hw (__iris_power_on ops);
      if negb (rc =? 0) then __deinit_resources ;; mret rc else mret 0.

(** ** The core *)

(** In a build without the resource manager of the clocks. *)
Definition msm_cvp_mmrm_register : K Z := mret (- EINVAL).
Definition msm_cvp_mmrm_deregister : K Z := mret (- EINVAL).

Definition __set_state (init : bool) : K unit := on_hw (modify (λ s, s <| hw_state_init := init |>)).

Definition core_err_load_fw (rc : Z) : K Z := __hwfence_regs_unmap ;; mret rc.

Definition core_err_core_init (rc : Z) : K Z :=
  __set_state false ;; __unload_fw ;; core_err_load_fw rc.

(** [__interface_queues_release] has no body outside the trusted virtual machine. *)
Definition core_err_init_queues (rc : Z) : K Z :=
  on_hw (power_off_iris2 ops) ;; __deinit_resources ;; core_err_core_init rc.

(** A request for the silver cores, and whether it is active. *)
Fixpoint add_qos (i : nat) (latency : Z) (cpus : list Z) : K (list bool) :=
  match cpus with
  | [] => mret []
  | cpu :: cpus' =>
      act ← (if cpu_possible cpu
             then err ← kext (Dev_pm_qos_add_request cpu latency);
                  whenS (negb (err <? 0)) (take (R_qos i)) ;; mret (negb (err <? 0))
             else mret false);
      l ← add_qos (S i) latency cpus'; mret (act :: l)
  end.

Definition core_qos : K unit :=
  q ← on_hw (gets hw_pm_qos_latency);
  if q =? 0 then mret tt
  else
    p ← kext Kzalloc;
    if p =? 0 then modify (λ k, k <| k_qos := None |>)
    else
      take R_qos_table ;;
      l ← add_qos 0 q silver_cores;
      modify (λ k, k <| k_qos := Some l |>).

(** The firmware has booted. *)
Definition core_booted : K Z :=
  v ← on_hw (__read_register CVP_VERSION_INFO);
  modify (λ k, k <| k_version := u32 v |>) ;;
  rc ← on_hw peer_sys_init;
  if negb (rc =? 0) then core_err_core_init rc
  else
    rc ← on_hw peer_cmdq_write_sys_init;
    if negb (rc =? 0) then core_err_core_init (- ENOTEMPTY)
    else
      on_hw peer_image_version ;;
      on_hw peer_sys_set_debug ;;
      on_hw __enable_subcaches ;;
      on_hw __set_subcaches ;;
      on_hw peer_set_ubwc_config ;;
      on_hw peer_idle_indicator ;;
      core_qos ;;
      on_hw peer_send_hfi_queue ;;
      mret 0.

(** The queues are set up. *)
Definition core_queued : K Z :=
  r ← msm_cvp_map_ipcc_regs;
  whenS (r.1 =? 0) (on_hw (__write_register CVP_MMAP_ADDR r.2)) ;;
  rc ← __load_fw;
  if negb (rc =? 0) then core_err_core_init rc
  else
    rc ← on_hw (__boot_firmware ops);
    if negb (rc =? 0) then core_err_core_init (- ENODEV) else core_booted.

(** The power is on. *)
Definition core_powered : K Z :=
  rc ← kext Synx_recover;
  if negb (rc =? 0) then core_err_core_init rc
  else
    rc ← (if mmrm_enabled then msm_cvp_mmrm_register else mret 0);
    if negb (rc =? 0) then core_err_core_init rc
    else
      __set_state true ;;
      rc ← on_if __interface_queues_init;
      if negb (rc =? 0) then core_err_init_queues (- ENOMEM) else core_queued.

Definition iris_hfi_core_init : K Z :=
  p ← kext Kzalloc;
  if p =? 0 then mret (- ENOMEM)
  else
    on_hw (modify (λ s, s <| hw_bus_vote := (Some [0; 0; 0; CVP_POWER_TURBO; 0], 1) |>)) ;;
    __hwfence_regs_map ;;
    rc ← __power_on_init;
    if negb (rc =? 0) then core_err_load_fw rc else core_powered.

Fixpoint remove_qos (i : nat) (l : list bool) : K unit :=
  match l with
  | [] => mret tt
  | act :: l' => whenS (act : bool) (drop (R_qos i)) ;; remove_qos (S i) l'
  end.

Definition release_qos : K unit :=
  q ← on_hw (gets hw_pm_qos_latency);
  t ← gets k_qos;
  match t with
  | Some l =>
      whenS (negb (q =? 0)) (
        remove_qos 0 l ;; drop R_qos_table ;; modify (λ k, k <| k_qos := None |>))
  | None => mret tt
  end.

(** Up to the sessions, which [unlink_sessions] (HfiSession.v) takes from the device. *)
Definition iris_hfi_core_release : K Z :=
  release_qos ;;
  on_hw (__resume ops) ;;
  __set_state false ;;
  rc ← on_hw (__tzbsp_set_cvp_state TZ_SUBSYS_STATE_SUSPEND);
  whenS (negb dsp_disable) (on_hw peer_dsp_shutdown ;; mret tt) ;;
  on_hw __disable_subcaches ;;
  v ← on_hw (__read_register CVP_MMAP_ADDR);
  msm_cvp_unmap_ipcc_regs (u32 v) ;;
  __unload_fw ;;
  __hwfence_regs_unmap ;;
  if mmrm_enabled then msm_cvp_mmrm_deregister else mret rc.

End operations.
