(* ===== verification/BringupLaws.v ===== *)
(** What the core holds while it is brought up and shut down (Bringup.v).

    [st V X f]: the hardware satisfies [V], what is held is [X] in any order, and the rest of
    the core's state that matters is [f].  [dev i b L C B S]: the account with the frameworks
    is [L], the power flag is [b], [i] tells whether the core counts as initialised, and the
    handles are those of the clocks [C], the buses [B] and the slices [S]. *)

From stdpp Require Import strings.
From S2P Require Import Prelude HfiTypes Store Smem QueueSetup QueueReady QueueInit HawiIo Hw HwRules Hal HwPower HwPowerRules Bringup.
Open Scope Z_scope.

(** * Rules *)
Section rules.
Context `{HwEnv} `{Peers} `{!BufEnv} `{!SetupEnv} `{CoreEnv} `{CorePeers}.

(** The cookie, the capabilities, the requests and the reset controls; and whether the
    queues have been set up. *)
Definition flags : Type := Z * bool * option (list bool) * list reset_info * bool.
Definition flags_of (k : core) := (k_cookie k, k_capabilities k, k_qos k, k_resets k).

Definition queues_set_up (s : iface) : Prop := firmware_ready s ∧ dsp_ready (if_dsp s).

Definition st (V : hw → Prop) (X : list resource) (f : flags) (k : core) : Prop :=
  V (k_hw k) ∧ k_live k ≡ₚ X ∧ flags_of k = f.1 ∧
  interface_ok (k_if k) ∧ (f.2 = true → queues_set_up (k_if k)).

Lemma st_perm V X Y f k : X ≡ₚ Y → st V X f k → st V Y f k.
Proof. intros E (? & Hl & ?). split; [done|]. split; [by rewrite <- E|done]. Qed.

Lemma st_weaken (V V' : hw → Prop) X f k : (∀ s, V s → V' s) → st V X f k → st V' X f k.
Proof. intros HH (? & ? & ?). split; auto. Qed.

Lemma st_hw {A} (m : P A) V Q X f :
  total V m Q → total (st V X f) (on_hw m) (λ a, st (Q a) X f).
Proof.
  intros Hm k (Hk & Hl & Hf). destruct (Hm _ Hk) as (a & s & E & Hs). unfold on_hw. rewrite E.
  eexists _, _. split; [done|]. by split.
Qed.

Lemma st_ret {A} (a : A) V X f (Q : A → core → Prop) :
  (∀ k, st V X f k → Q a k) → total (st V X f) (mret a) Q.
Proof. apply total_ret. Qed.

Lemma st_kext c V X f : total (st V X f) (kext c) (λ _, st V X f).
Proof.
  unfold kext. eapply total_bind; [by apply (total_gets _ _ (λ _, st V X f))|]. intros n.
  eapply (total_bind _ _ (λ _, st V X f)); [by apply total_modify|]. intros []. by apply total_ret.
Qed.

Lemma st_gets {A B} (g : core → A) v (k : A → K B) V X f Q :
  (∀ s, flags_of s = f.1 → g s = v) → total (st V X f) (k v) Q → total (st V X f) (x ← gets g; k x) Q.
Proof.
  intros Hg Hk s Hs. rewrite St_bind_run, gets_run. cbn. rewrite Hg by apply Hs. by apply Hk.
Qed.

Lemma st_modify g V X f f' :
  (∀ k, k_hw (g k) = k_hw k ∧ k_live (g k) = k_live k ∧ k_if (g k) = k_if k) →
  (∀ k, flags_of k = f.1 → flags_of (g k) = f'.1) → f'.2 = f.2 →
  total (st V X f) (modify g) (λ _, st V X f').
Proof.
  intros Hg Hf Hr. apply total_modify. intros k (Hk & Hl & Hfk & Hi & Hq).
  destruct (Hg k) as (E1 & E2 & E3).
  split; [by rewrite E1|]. split; [by rewrite E2|]. split; [by apply Hf|]. by rewrite E3, Hr.
Qed.

Lemma st_take r V X f : total (st V X f) (take r) (λ _, st V (r :: X) f).
Proof. apply total_modify. intros k (? & Hl & ?). split; [done|]. split; [|done]. cbn. by rewrite Hl. Qed.

Lemma without_perm r l : r ∈ l → l ≡ₚ r :: without r l.
Proof.
  induction l as [|x l IH]; [intros Hr; by apply not_elem_of_nil in Hr|]. intros Hr. cbn [without].
  case_decide as E; [by subst|]. apply elem_of_cons in Hr as [->|Hr]; [done|].
  rewrite (IH Hr) at 1. apply Permutation_swap.
Qed.

Lemma st_drop r V X Y f :
  X ≡ₚ r :: Y → total (st V X f) (drop r) (λ _, st V Y f).
Proof.
  intros E k (Hk & Hl & Hf). unfold drop. srun.
  assert (Hr : r ∈ k_live k) by (rewrite Hl, E; left).
  rewrite bool_decide_eq_true_2 by done. srun. eexists _, _. split; [done|].
  split; [done|]. split; [|done]. cbn. apply (Permutation_cons_inv (a := r)).
  by rewrite <- E, <- Hl, <- without_perm.
Qed.

Lemma st_drop_if r V X f (Q : core → Prop) :
  (∀ Y, X ≡ₚ r :: Y → ∀ k, st V Y f k → Q k) → (r ∉ X → ∀ k, st V X f k → Q k) →
  total (st V X f) (drop_if r) (λ _, Q).
Proof.
  intros Hin Hout. unfold drop_if. intros k Hk. pose proof Hk as (_ & Hl & _). srun.
  destruct (decide (r ∈ X)) as [Hr|Hr].
  - rewrite bool_decide_eq_true_2 by by rewrite Hl. cbn [whenS].
    destruct (st_drop r V X (without r X) f (without_perm r X Hr) k Hk) as ([] & k' & E & Hk').
    exists tt, k'. split; [done|]. by apply (Hin (without r X)), Hk'; apply without_perm.
  - rewrite bool_decide_eq_false_2 by by rewrite Hl. cbn [whenS].
    exists tt, k. split; [done|]. by apply Hout.
Qed.

(** ** Tables of handles *)

Lemma Forall2_same {A} (same : A → A → Prop) l : (∀ a, same a a) → Forall2 same l l.
Proof. intros Hs. by induction l; constructor. Qed.

(** A table that is filled in order: whatever happens, exactly the handles in the table are
    held; when it is filled, every entry is as it should be. *)
Lemma st_set_up {A} (g : A → K (A * Z)) (own : A → list resource) (good : A → Prop) (same : A → A → Prop) V X f l :
  (∀ a, same a a) →
  (∀ a Y, a ∈ l → total (st V (own a ++ Y) f) (g a) (λ r k,
     st V (own r.1 ++ Y) f k ∧ (r.2 = 0 → good r.1) ∧ same a r.1)) →
  total (st V (concat (own <$> l) ++ X) f) (set_up g l) (λ r k,
    st V (concat (own <$> r.1) ++ X) f k ∧ (r.2 = 0 → Forall good r.1) ∧ Forall2 same l r.1).
Proof.
  intros Hs. revert X. induction l as [|a l IH]; intros X Hg; cbn [set_up fmap list_fmap concat].
  { apply total_ret. intros k Hk. split; [done|]. split; [intros ?; constructor|constructor]. }
  eapply total_bind.
  { eapply total_pre; [apply Hg; left|]. intros k. apply st_perm. by rewrite <- app_assoc. }
  intros [a' rc]. cbn [fst snd].
  eapply (total_pre _ (λ k, ((rc = 0 → good a') ∧ same a a') ∧
    st V (concat (own <$> l) ++ (own a' ++ X)) f k)).
  2: { intros k (Hk & ? & ?). split; [done|]. revert Hk. apply st_perm. rewrite (Permutation_app_swap_app (own a')). done. }
  apply total_pure. intros [Ha Hsame]. apply total_if; intros Hrc.
  - apply negb_true_iff, Z.eqb_neq in Hrc. apply total_ret. intros k Hk. cbn [fst snd fmap list_fmap concat].
    split; [|split; [done|]].
    + revert Hk. apply st_perm. rewrite (Permutation_app_swap_app (concat _)). by rewrite <- app_assoc.
    + constructor; [done|]. by apply Forall2_same.
  - apply negb_false_iff, Z.eqb_eq in Hrc.
    eapply total_bind; [apply IH; intros b Y Hb; apply Hg; by right|].
    intros [t rc']. cbn [fst snd]. apply total_ret. intros k (Hk & Hgood & Hl).
    cbn [fst snd fmap list_fmap concat]. split; [|split].
    + revert Hk. apply st_perm. rewrite (Permutation_app_swap_app (concat _)). by rewrite <- app_assoc.
    + intros E. constructor; auto.
    + by constructor.
Qed.

(** Giving back the handles of a table. *)
Lemma st_drop_all {A} (h : A → Z) (c : Z → resource) V X f l :
  let own a := if h a =? 0 then [] else [c (h a)] in
  total (st V (concat (own <$> l) ++ X) f)
    (each (rev l) (λ a, whenS (negb (h a =? 0)) (drop (c (h a))))) (λ _, st V X f).
Proof.
  intros own. eapply (total_pre _ (st V (concat (own <$> rev l) ++ X) f)).
  2: { intros k. apply st_perm. apply Permutation_app_tail. unfold own. rewrite <- !flat_map_concat_map.
       apply Permutation_flat_map, Permutation_rev. }
  induction (rev l) as [|a l' IH]; cbn [each fmap list_fmap concat]; [by apply total_ret|].
  eapply (total_bind _ _ (λ _, st V (concat (own <$> l') ++ X) f)).
  - unfold own at 1. destruct (h a =? 0) eqn:E; cbn [negb whenS app]; [by apply total_ret|].
    apply st_drop. done.
  - intros []. apply IH.
Qed.

End rules.

(** * The hardware's side *)

Definition dev (i b : bool) (L : change) (C : list clock_info) (B : list bus_info) (S : list Z)
    (s : hw) : Prop :=
  (∀ v, account (hw_trace s) v = L v) ∧ hw_power_enabled s = b ∧ hw_clocks s = C ∧
  hw_state_init s = i ∧ hw_buses s = B ∧ sc_subcache <$> hw_subcaches s = S.

Lemma dev_kept i b L C B S s : dev i b L C B S s → kept s C L b None s.
Proof.
  intros (Ha & Hp & Hc & _). exists s. split; [done|]. by split.
Qed.

Lemma kept_dev s0 i b0 b L0 L C B S s :
  dev i b0 L0 C B S s0 → kept s0 C L b None s → dev i b L C B S s.
Proof.
  intros (_ & _ & _ & Hi & Hb & Hs) Hk. pose proof (kept_facts _ _ _ _ _ _ Hk) as (Ha & Hp & Hc & Hi' & _).
  pose proof (kept_handles _ _ _ _ _ _ Hk) as Hh. unfold handles in Hh.
  injection Hh as Hb' Hs'. repeat split; congruence.
Qed.

Lemma dev_eq i b L L' C B S s : (∀ v, L v = L' v) → dev i b L C B S s → dev i b L' C B S s.
Proof. intros E (Ha & ?). split; [|done]. intros v. by rewrite <- E. Qed.

(** Handles, and what they stand for. *)
Definition own_clk (cl : clock_info) : list resource :=
  if clk_clk cl =? 0 then [] else [R_clk (clk_clk cl)].
Definition own_bus (b : bus_info) : list resource :=
  if bus_client b =? 0 then [] else [R_icc (bus_client b)].
Definition own_slice (h : Z) : list resource := if h =? 0 then [] else [R_llcc h].
Definition own_sc (sc : subcache_info) : list resource := own_slice (sc_subcache sc).
Definition own_reset (r : reset_info) : list resource :=
  if rst_rst r =? 0 then []
  else match rst_required_stage r with CVP_ON_USE => [R_reset (rst_rst r)] | _ => [] end.

Definition clks (C : list clock_info) := concat (own_clk <$> C).
Definition buses (B : list bus_info) := concat (own_bus <$> B).
Definition slices (S : list Z) := concat (own_slice <$> S).
Definition resets (rs : list reset_info) := concat (own_reset <$> rs).
Definition caps (c : bool) : list resource := if c then [R_capabilities] else [].

Definition no_clks (names : list string) : list clock_info := (λ n, mkClock n 0) <$> names.
Definition no_buses (maxs : list Z) : list bus_info := (λ m, mkBus 0 m) <$> maxs.

Lemma clks_none names : clks (no_clks names) = [].
Proof. by induction names. Qed.
Lemma buses_none maxs : buses (no_buses maxs) = [].
Proof. by induction maxs. Qed.
Lemma slices_none S : Forall (λ h, h = 0) S → slices S = [].
Proof. by induction 1 as [|h S -> _ IH]. Qed.
Lemma slices_of l : concat (own_sc <$> l) = slices (sc_subcache <$> l).
Proof. unfold slices. by rewrite <- list_fmap_compose. Qed.

Lemma same_fmap {A B} (g : A → B) l l' : Forall2 (λ a b, g b = g a) l l' → g <$> l' = g <$> l.
Proof. induction 1; cbn; congruence. Qed.

(** * Taking and giving back the resources *)
Section resources.
Context `{HwEnv} `{Peers} `{!BufEnv} `{!SetupEnv} `{CoreEnv} `{CorePeers}.

Lemma st_hw_gets {A B} (g : hw → A) v (k : A → K B) V X f Q :
  (∀ s, V s → g s = v) → total (st V X f) (k v) Q → total (st V X f) (x ← on_hw (gets g); k x) Q.
Proof.
  intros Hg Hk s Hs. rewrite St_bind_run. unfold on_hw. rewrite gets_run. cbn.
  rewrite Hg by apply Hs. apply Hk. revert Hs. destruct s. done.
Qed.

Lemma st_hw_modify g V V' X f :
  (∀ s, V s → V' (g s)) → total (st V X f) (on_hw (modify g)) (λ _, st V' X f).
Proof. intros Hg. apply (st_hw _ V (λ _, V')). by apply total_modify. Qed.

(** The slices' table is known by its handles. *)
Lemma st_slices {B} i b L C Bs S (k : list subcache_info → K B) X f Q :
  (∀ l, sc_subcache <$> l = S → total (st (dev i b L C Bs S) X f) (k l) Q) →
  total (st (dev i b L C Bs S) X f) (l ← on_hw (gets hw_subcaches); k l) Q.
Proof.
  intros Hk s Hs. rewrite St_bind_run. unfold on_hw. rewrite gets_run. cbn.
  apply Hk; [apply Hs|]. revert Hs. by destruct s.
Qed.

Lemma get_clock_ok V f cl Y :
  total (st V (own_clk cl ++ Y) f) (get_clock cl) (λ r k,
    st V (own_clk r.1 ++ Y) f k ∧ (r.2 = 0 → True) ∧ clk_name r.1 = clk_name cl).
Proof.
  unfold get_clock, own_clk. destruct (clk_clk cl =? 0) eqn:E; cbn [negb app].
  2: { apply total_ret. intros k Hk. cbn. by rewrite E. }
  eapply total_bind; [apply st_kext|]. intros h. apply total_if; intros Hh.
  { apply total_ret. intros k Hk. by cbn. }
  destruct (h =? 0) eqn:E0; cbn [negb whenS].
  - eapply (total_bind _ _ (λ _, st V Y f)); [by apply total_ret|]. intros []. apply total_ret. intros k Hk.
    cbn. by rewrite E0.
  - eapply total_bind; [apply st_take|]. intros []. apply total_ret. intros k Hk. cbn. by rewrite E0.
Qed.

Lemma get_bus_ok V f b Y :
  bus_client b = 0 →
  total (st V (own_bus b ++ Y) f) (get_bus b) (λ r k,
    st V (own_bus r.1 ++ Y) f k ∧ (r.2 = 0 → bus_client r.1 ≠ 0) ∧ bus_max r.1 = bus_max b).
Proof.
  intros Hb. unfold get_bus, own_bus. rewrite Hb. cbn [Z.eqb app].
  eapply total_bind; [apply st_kext|]. intros h. apply total_if; intros Hh.
  - apply total_ret. intros k Hk. cbn. split; [done|]. split; [|done].
    destruct (h =? 0) eqn:E; [done|]. intros ->. done.
  - eapply total_bind; [apply st_take|]. intros []. apply total_ret. intros k Hk. cbn.
    apply Z.leb_gt in Hh. rewrite (proj2 (Z.eqb_neq h 0)) by lia. split; [done|]. split; [lia|done].
Qed.

Lemma get_slice_ok V f sc Y :
  sc_subcache sc = 0 →
  total (st V (own_sc sc ++ Y) f) (get_subcache sc) (λ r k,
    st V (own_sc r.1 ++ Y) f k ∧ (r.2 = 0 → True) ∧ True).
Proof.
  intros Hs. unfold get_subcache, own_sc, own_slice. rewrite Hs. cbn [Z.eqb app].
  destruct (String.eqb _ _ || String.eqb _ _); cbn [whenS].
  - eapply total_bind; [apply st_kext|]. intros h. apply total_if; intros Hh.
    { apply total_ret. intros k Hk. by cbn. }
    eapply total_bind; [apply st_take|]. intros []. apply total_ret. intros k Hk. cbn.
    apply Z.leb_gt in Hh. by rewrite (proj2 (Z.eqb_neq h 0)) by lia.
  - eapply (total_bind _ _ (λ h k, h = 0 ∧ st V Y f k)); [by apply total_ret|]. intros h. apply total_pure.
    intros ->. apply total_ret. intros k Hk. by cbn.
Qed.

Lemma init_reset_ok V f r Y :
  total (st V (own_reset r ++ Y) f) (__init_reset_clk r) (λ x k,
    st V (own_reset x.1 ++ Y) f k ∧ (x.2 = 0 → True) ∧ True).
Proof.
  unfold __init_reset_clk, own_reset. destruct (rst_rst r =? 0) eqn:E; cbn [negb app].
  2: { apply total_ret. intros k Hk. cbn. by rewrite E. }
  destruct (rst_required_stage r) eqn:Es.
  - eapply total_bind; [apply st_kext|]. intros h. apply total_if; intros Hh; apply total_ret; intros k Hk; cbn.
    + by rewrite E.
    + rewrite Es. by destruct (h =? 0).
  - eapply total_bind; [apply st_kext|]. intros h. apply total_if; intros Hh.
    { apply total_ret; intros k Hk; cbn. by rewrite E. }
    destruct (h =? 0) eqn:E0; cbn [negb whenS].
    + eapply (total_bind _ _ (λ _, st V Y f)); [by apply total_ret|]. intros []. apply total_ret. intros k Hk.
      cbn. by rewrite E0.
    + eapply total_bind; [apply st_take|]. intros []. apply total_ret. intros k Hk. cbn. by rewrite E0, Es.
  - apply total_ret. intros k Hk. cbn. by rewrite E.
Qed.

Lemma no_clks_names C : (λ cl, mkClock (clk_name cl) 0) <$> C = no_clks (clk_name <$> C).
Proof. unfold no_clks. by rewrite <- list_fmap_compose. Qed.
Lemma no_buses_maxs B : (λ b, mkBus 0 (bus_max b)) <$> B = no_buses (bus_max <$> B).
Proof. unfold no_buses. by rewrite <- list_fmap_compose. Qed.

Lemma deinit_clocks_ok i b L C B S X f :
  total (st (dev i b L C B S) (clks C ++ X) f) msm_cvp_deinit_clocks
    (λ _, st (dev i b L (no_clks (clk_name <$> C)) B S) X f).
Proof.
  unfold msm_cvp_deinit_clocks. eapply total_bind; [by apply (st_hw_modify _ _ (dev i b L C B S))|]. intros [].
  eapply st_hw_gets; [intros s Hs; apply Hs|].
  eapply total_bind; [apply (st_drop_all clk_clk R_clk)|]. intros [].
  apply st_hw_modify. intros s (? & ? & ? & ?). rewrite no_clks_names. by split.
Qed.

Lemma init_clocks_ok i b L C B S X f :
  total (st (dev i b L C B S) (clks C ++ X) f) msm_cvp_init_clocks (λ rc k,
    (rc = 0 ∧ ∃ C', clk_name <$> C' = clk_name <$> C ∧ st (dev i b L C' B S) (clks C' ++ X) f k) ∨
    (rc ≠ 0 ∧ st (dev i b L (no_clks (clk_name <$> C)) B S) X f k)).
Proof.
  unfold msm_cvp_init_clocks. eapply st_hw_gets; [intros s Hs; apply Hs|].
  eapply total_bind.
  { apply (st_set_up get_clock own_clk (λ _, True) (λ c c', clk_name c' = clk_name c)); [done|].
    intros cl Y _. apply get_clock_ok. }
  intros [C' rc]. cbn [fst snd].
  eapply (total_pre _ (λ k, clk_name <$> C' = clk_name <$> C ∧ st (dev i b L C B S) (clks C' ++ X) f k)).
  { apply total_pure. intros Hn.
    eapply total_bind.
    { apply (st_hw_modify _ _ (dev i b L C' B S)). intros s (? & ? & ? & ?). by split. }
    intros []. apply total_if; intros Hrc.
    - apply negb_true_iff, Z.eqb_neq in Hrc. eapply total_bind; [apply deinit_clocks_ok|]. intros [].
      apply total_ret. intros k Hk. right. rewrite <- Hn. done.
    - eapply total_bind; [by apply (st_hw_modify _ _ (dev i b L C' B S))|]. intros []. apply total_ret. intros k Hk. left.
      split; [done|]. by exists C'. }
  intros k (Hk & _ & Hs). split; [by apply same_fmap|done].
Qed.

Lemma deinit_bus_ok i b L C B S X f :
  total (st (dev i b L C B S) (buses B ++ X) f) __deinit_bus
    (λ _, st (dev i b L C (no_buses (bus_max <$> B)) S) X f).
Proof.
  unfold __deinit_bus. eapply total_bind; [by apply (st_hw_modify _ _ (dev i b L C B S))|]. intros [].
  eapply st_hw_gets; [intros s Hs; apply Hs|].
  eapply total_bind; [apply (st_drop_all bus_client R_icc)|]. intros [].
  apply st_hw_modify. intros s (? & ? & ? & ? & ? & ?). rewrite no_buses_maxs. by repeat split.
Qed.

Lemma init_bus_ok i b L C B S X f :
  Forall (λ b, bus_client b = 0) B →
  total (st (dev i b L C B S) X f) __init_bus (λ rc k,
    (rc = 0 ∧ ∃ B', bus_max <$> B' = bus_max <$> B ∧ Forall (λ b, bus_client b ≠ 0) B' ∧
       st (dev i b L C B' S) (buses B' ++ X) f k) ∨
    (rc ≠ 0 ∧ st (dev i b L C (no_buses (bus_max <$> B)) S) X f k)).
Proof.
  intros HB.
  assert (EB : concat (own_bus <$> B) = []).
  { clear -HB. induction HB as [|a l Ha _ IH]; [done|]. cbn. unfold own_bus at 1. by rewrite Ha. }
  unfold __init_bus. eapply st_hw_gets; [intros s Hs; apply Hs|].
  eapply total_bind.
  { eapply total_pre; [apply (st_set_up get_bus own_bus (λ b, bus_client b ≠ 0) (λ c c', bus_max c' = bus_max c)); [done|]|].
    - intros a Y Ha. apply get_bus_ok. by apply (proj1 (list.Forall_forall _ _) HB).
    - intros k. rewrite EB. exact (λ x, x). }
  intros [B' rc]. cbn [fst snd].
  eapply (total_pre _ (λ k, (bus_max <$> B' = bus_max <$> B ∧ (rc = 0 → Forall (λ b, bus_client b ≠ 0) B')) ∧
    st (dev i b L C B S) (buses B' ++ X) f k)).
  { apply total_pure. intros [Hn Hg].
    eapply total_bind.
    { apply (st_hw_modify _ _ (dev i b L C B' S)). intros s (? & ? & ? & ? & ? & ?). by repeat split. }
    intros []. apply total_if; intros Hrc.
    - apply negb_true_iff, Z.eqb_neq in Hrc. eapply total_bind; [apply deinit_bus_ok|]. intros [].
      apply total_ret. intros k Hk. right. rewrite <- Hn. done.
    - apply negb_false_iff, Z.eqb_eq in Hrc. apply total_ret. intros k Hk. left.
      split; [done|]. exists B'. auto. }
  intros k (Hk & Hg & Hs). split; [split; [by apply same_fmap|done]|done].
Qed.

Definition no_cache : bool := negb sys_cache_present || syscache_disable.
Definition unused (S : list Z) : Prop := Forall (λ h, h = 0) S.

Lemma deinit_subcaches_ok i b L C B S X f :
  (no_cache = true → unused S) →
  total (st (dev i b L C B S) (slices S ++ X) f) __deinit_subcaches
    (λ _ k, ∃ S', unused S' ∧ st (dev i b L C B S') X f k).
Proof.
  intros HS. unfold __deinit_subcaches. fold no_cache. apply total_if; intros Hc.
  { apply total_ret. intros k Hk. exists S. specialize (HS Hc). split; [done|].
    by rewrite slices_none in Hk. }
  apply st_slices. intros l <-.
  eapply total_bind.
  { rewrite <- slices_of. apply (st_drop_all sc_subcache R_llcc). }
  intros []. eapply total_post.
  { apply (st_hw_modify _ _ (dev i b L C B (sc_subcache <$> ((λ sc, sc <| sc_subcache := 0 |>) <$> l)))).
    intros s (? & ? & ? & ? & ? & ?). by repeat split. }
  intros [] k Hk. eexists. split; [|exact Hk]. unfold unused. by rewrite !Forall_fmap; apply Forall_true.
Qed.

Lemma init_subcaches_ok i b L C B S X f :
  unused S →
  total (st (dev i b L C B S) X f) __init_subcaches (λ rc k,
    ∃ S', (no_cache = true → unused S') ∧ (rc ≠ 0 → unused S') ∧
          st (dev i b L C B S') (slices S' ++ X) f k).
Proof.
  intros HS. unfold __init_subcaches. fold no_cache. apply total_if; intros Hc.
  { apply total_ret. intros k Hk. exists S. rewrite slices_none by done. done. }
  apply st_slices. intros l <-. unfold unused in HS. rewrite Forall_fmap, list.Forall_forall in HS.
  eapply total_bind.
  { eapply total_pre; [apply (st_set_up get_subcache own_sc (λ _, True) (λ _ _, True)); [done|]|].
    - intros a Y Ha. apply get_slice_ok. by apply HS.
    - intros k. rewrite slices_of, slices_none; [exact (λ x, x)|]. rewrite Forall_fmap, list.Forall_forall. exact HS. }
  intros [l' rc]. cbn [fst snd]. rewrite slices_of.
  eapply (total_pre _ (st (dev i b L C B (sc_subcache <$> l)) (slices (sc_subcache <$> l') ++ X) f)).
  2: { by intros k [? _]. }
  eapply total_bind.
  { apply (st_hw_modify _ _ (dev i b L C B (sc_subcache <$> l'))).
    intros s (? & ? & ? & ? & ? & ?). by repeat split. }
  intros []. apply total_if; intros Hrc.
  - eapply total_bind; [apply deinit_subcaches_ok|].
    { unfold no_cache. intros Hc'. unfold no_cache in Hc. congruence. }
    intros []. apply total_ret. intros k (S' & HS' & Hk). exists S'. rewrite slices_none by done. done.
  - apply total_ret. intros k Hk. exists (sc_subcache <$> l').
    split; [unfold no_cache in *; congruence|]. done.
Qed.

(** ** All of them *)

(** Every resource is held, or none is; the requests [q] and [X] are held besides. *)
Definition family : Type := list clock_info → list bus_info → list Z → hw → Prop.

Definition equipped (D : family) X (c : Z) q (r : bool) (names : list string) (maxs : list Z) (k : core) : Prop :=
  ∃ C B S cap rs, clk_name <$> C = names ∧ bus_max <$> B = maxs ∧
    Forall (λ b, bus_client b ≠ 0) B ∧ (no_cache = true → unused S) ∧
    st (D C B S) (clks C ++ buses B ++ slices S ++ caps cap ++ resets rs ++ X) (c, cap, q, rs, r) k.

Definition bare (D : family) X (c : Z) q (r : bool) (names : list string) (maxs : list Z) (k : core) : Prop :=
  ∃ S rs, unused S ∧
    st (D (no_clks names) (no_buses maxs) S) (resets rs ++ X) (c, false, q, rs, r) k.

Lemma names_of names : clk_name <$> no_clks names = names.
Proof. unfold no_clks. rewrite <- list_fmap_compose. apply list_fmap_id. Qed.
Lemma maxs_of maxs : bus_max <$> no_buses maxs = maxs.
Proof. unfold no_buses. rewrite <- list_fmap_compose. apply list_fmap_id. Qed.

Lemma init_resources_ok i b L X c q r names maxs :
  total (bare (dev i b L) X c q r names maxs) __init_resources (λ rc k,
    (rc = 0 ∧ equipped (dev i b L) X c q r names maxs k) ∨
    (rc ≠ 0 ∧ (bare (dev i b L) X c q r names maxs k ∨ equipped (dev i b L) X c q r names maxs k))).
Proof.
  intros k0 (S & rs & HS & Hk0). revert k0 Hk0.
  set (C0 := no_clks names). set (B0 := no_buses maxs).
  assert (Hbare : ∀ rs' k S', unused S' →
    st (dev i b L (no_clks (clk_name <$> C0)) B0 S') (resets rs' ++ X) (c, false, q, rs', r) k →
    bare (dev i b L) X c q r names maxs k).
  { intros rs' k S' HS' Hk. unfold C0 in Hk. rewrite names_of in Hk. by exists S', rs'. }
  unfold __init_resources.
  eapply total_bind.
  { eapply total_pre; [apply (init_clocks_ok i b L C0 B0 S)|]. intros k.
    change (clks C0) with (clks (no_clks names)). by rewrite clks_none. }
  intros rc. apply total_if; intros Hrc.
  { apply total_ret. intros k [[-> _]|[_ Hk]]; [done|]. right. split; [done|]. left. by eapply Hbare. }
  apply negb_false_iff, Z.eqb_eq in Hrc as ->.
  eapply (total_pre _ (λ k, ∃ C, clk_name <$> C = clk_name <$> C0 ∧
    st (dev i b L C B0 S) (clks C ++ resets rs ++ X) (c, false, q, rs, r) k)).
  2: { by intros k [[_ ?]|[? _]]. }
  apply total_ex. intros C. apply total_pure. intros HC. rewrite <- HC in Hbare.
  eapply st_gets; [intros k; unfold flags_of; cbn; by intros [= _ _ _ ->]|].
  eapply total_bind.
  { eapply total_pre; [apply (st_set_up __init_reset_clk own_reset (λ _, True) (λ _ _, True)); [done|]|].
    - intros x Y _. apply init_reset_ok.
    - intros k. apply st_perm. rewrite (Permutation_app_swap_app (clks C)). unfold resets. done. }
  intros [rs' rc]. cbn [fst snd].
  eapply (total_pre _ (st (dev i b L C B0 S) (clks C ++ resets rs' ++ X) (c, false, q, rs, r))).
  2: { intros k [Hk _]. revert Hk. apply st_perm. by rewrite (Permutation_app_swap_app (clks C)). }
  eapply total_bind.
  { apply (st_modify _ _ _ _ (c, false, q, rs', r)); [done| |done]. intros k. unfold flags_of. cbn. by intros [= -> -> -> _]. }
  intros []. apply total_if; intros Hrc.
  { eapply total_bind; [apply deinit_clocks_ok|]. intros []. apply total_ret. intros k Hk.
    right. split; [done|]. left. by eapply Hbare. }
  eapply total_bind.
  { apply (init_bus_ok i b L C B0 S). unfold B0, no_buses. rewrite Forall_fmap. by apply Forall_true. }
  intros rc2. apply total_if; intros Hrc2.
  { eapply (total_pre _ (st (dev i b L C B0 S) (clks C ++ resets rs' ++ X) (c, false, q, rs', r))).
    - eapply total_bind; [apply deinit_clocks_ok|]. intros []. apply total_ret. intros k Hk.
      right. split; [by apply negb_true_iff, Z.eqb_neq in Hrc2|]. left. by eapply Hbare.
    - intros k [[-> _]|[_ Hk]]; [done|]. unfold B0 in Hk. by rewrite maxs_of in Hk. }
  apply negb_false_iff, Z.eqb_eq in Hrc2 as ->.
  eapply (total_pre _ (λ k, ∃ B, (bus_max <$> B = bus_max <$> B0 ∧ Forall (λ b, bus_client b ≠ 0) B) ∧
    st (dev i b L C B S) (buses B ++ clks C ++ resets rs' ++ X) (c, false, q, rs', r) k)).
  2: { intros k [[_ (B & ? & ? & ?)]|[? _]]; [|done]. by exists B. }
  apply total_ex. intros B. apply total_pure. intros [HB HB'].
  eapply total_bind; [by apply init_subcaches_ok|]. intros rc3.
  apply total_ex. intros S'. apply total_pure. intros Hn. apply total_pure. intros _.
  eapply total_bind; [apply st_kext|]. intros p.
  eapply total_bind.
  { apply (st_modify _ _ _ _ (c, negb (p =? 0), q, rs', r)); [done| |done]. intros k. unfold flags_of. cbn. by intros [= -> _ -> ->]. }
  intros [].
  eapply (total_bind _ _ (λ _, equipped (dev i b L) X c q r names maxs)).
  { assert (Heq : ∀ cap k, st (dev i b L C B S')
      (caps cap ++ slices S' ++ buses B ++ clks C ++ resets rs' ++ X) (c, cap, q, rs', r) k →
      equipped (dev i b L) X c q r names maxs k).
    { intros cap k Hk. exists C, B, S', cap, rs'. unfold C0, B0 in HC, HB. rewrite names_of in HC. rewrite maxs_of in HB.
      split_and!; [done..|]. revert Hk. apply st_perm. solve_Permutation. }
    destruct (p =? 0); cbn [negb whenS].
    - apply total_ret. intros k. apply (Heq false).
    - eapply total_post; [apply st_take|]. intros [] k. apply (Heq true). }
  intros []. apply total_ret. intros k Hk. destruct (decide (rc3 = 0)); auto.
Qed.

Lemma deinit_resources_ok i b L X c q r names maxs :
  total (equipped (dev i b L) X c q r names maxs) __deinit_resources (λ _, bare (dev i b L) X c q r names maxs).
Proof.
  intros k0 (C & B & S & cap & rs & <- & <- & _ & HS & Hk0). revert k0 Hk0.
  unfold __deinit_resources.
  eapply total_bind.
  { eapply total_pre; [by apply (deinit_subcaches_ok i b L C B S (clks C ++ buses B ++ caps cap ++ resets rs ++ X))|].
    intros k. apply st_perm. solve_Permutation. }
  intros []. apply total_ex. intros S'. apply total_pure. intros HS'.
  eapply total_bind.
  { eapply total_pre; [by apply (deinit_bus_ok i b L C B S' (clks C ++ caps cap ++ resets rs ++ X))|].
    intros k. apply st_perm. solve_Permutation. }
  intros []. eapply total_bind; [apply deinit_clocks_ok|]. intros [].
  eapply st_gets; [intros k; unfold flags_of; cbn; by intros [= _ -> _ _]|].
  eapply (total_bind _ _ (λ _, st (dev i b L (no_clks (clk_name <$> C)) (no_buses (bus_max <$> B)) S')
    (resets rs ++ X) (c, cap, q, rs, r))).
  { destruct cap; cbn [whenS caps app]; [by apply st_drop|by apply total_ret]. }
  intros []. eapply total_post.
  { apply (st_modify _ _ _ _ (c, false, q, rs, r)); [done| |done]. intros k. unfold flags_of. cbn. by intros [= -> _ -> ->]. }
  intros [] k Hk. by exists S', rs.
Qed.

End resources.
