(* ===== verification/BringupMain.v ===== *)
(** The outcomes of [iris_hfi_core_init] and [iris_hfi_core_release] (Bringup.v): what is
    held and what the power is after every way they can end. *)

From stdpp Require Import strings.
From S2P Require Import Prelude HfiTypes Store Smem QueueSetup QueueReady QueueInit HawiIo Hw HwRules Hal HalHawi HwPower HwPowerRules HwMain Bringup BringupLaws.
Open Scope Z_scope.

#[local] Opaque __interface_queues_init __iris_power_on __boot_firmware __resume.

(** * Windows, firmware and requests *)
Section parts.
Context `{HwEnv} `{Peers} `{!BufEnv} `{!SetupEnv} `{CoreEnv} `{CorePeers}.

(** The windows that [__hwfence_regs_unmap] gives back. *)
Definition window (w : Z * Z * Z) : list resource :=
  let '(_, iova, size) := w in if iova =? 0 then [] else [R_iova iova size].
Definition windows (l : list (Z * Z * Z)) : list resource := concat (window <$> l).

(** A window that is mapped has an address for the firmware, and no two are the same. *)
Definition windows_ok : Prop :=
  NoDup (windows reg_mappings) ∧
  Forall (λ '(phys, iova, _), phys ≠ 0 → iova ≠ 0) reg_mappings.

Lemma map_regs_ok V X f l :
  Forall (λ '(phys, iova, _), phys ≠ 0 → iova ≠ 0) l →
  total (st V X f) (map_regs l) (λ _ k, ∃ M, M `sublist_of` windows l ∧ st V (M ++ X) f k).
Proof.
  intros Hl. revert X. induction Hl as [|[[phys iova] size] l Hw _ IH]; intros X; cbn [map_regs].
  { apply total_ret. intros k Hk. by exists []. }
  eapply (total_bind _ _ (λ _ k, ∃ M, M `sublist_of` window (phys, iova, size) ∧ st V (M ++ X) f k)).
  { apply total_if; intros Hp.
    - apply total_ret. intros k Hk. exists []. split; [apply sublist_nil_l|done].
    - apply Z.eqb_neq in Hp. eapply total_bind; [apply st_kext|]. intros rc. destruct (rc =? 0) eqn:E; cbn [whenS].
      + eapply total_bind; [apply st_take|]. intros []. apply total_ret. intros k Hk.
        exists [R_iova iova size]. unfold window. rewrite (proj2 (Z.eqb_neq _ _) (Hw Hp)).
        split; [by apply reflexivity|done].
      + eapply (total_bind _ _ (λ _, st V X f)); [by apply total_ret|]. intros []. apply total_ret.
        intros k Hk. exists []. split; [apply sublist_nil_l|done]. }
  intros rc. apply total_ex. intros M. apply total_pure. intros HM.
  apply total_if; intros _.
  - apply total_ret. intros k Hk. exists M. split; [|done].
    unfold windows. cbn [fmap list_fmap concat]. by apply sublist_inserts_r.
  - eapply total_post; [apply IH|]. intros ? k (M' & HM' & Hk). exists (M ++ M'). split; [by apply sublist_app|].
    revert Hk. apply st_perm. solve_Permutation.
Qed.

Lemma unmap_regs_ok V X f l M :
  NoDup (windows l) → M `sublist_of` windows l → (∀ r, r ∈ windows l → r ∉ X) →
  total (st V (M ++ X) f)
    (each l (λ '(_, iova, size), whenS (negb (iova =? 0)) (drop_if (R_iova iova size))))
    (λ _, st V X f).
Proof.
  revert M. induction l as [|[[phys iova] size] l IH]; intros M Hn HM Hx; cbn [each].
  { apply sublist_nil_r in HM as ->. by apply total_ret. }
  unfold windows in *. cbn [fmap list_fmap concat window] in Hn, HM, Hx.
  destruct (iova =? 0); cbn [negb whenS app] in *.
  { eapply (total_bind _ _ (λ _, st V (M ++ X) f)); [by apply total_ret|]. intros []. by apply IH. }
  apply list.NoDup_cons in Hn as [Hr Hn].
  eapply (total_bind _ _ (λ _ k, ∃ M', M' `sublist_of` concat (window <$> l) ∧ st V (M' ++ X) f k)).
  - apply sublist_cons_r in HM as [HM|(M' & -> & HM)].
    + apply st_drop_if.
      * intros Y HY k _. exfalso.
        assert (Hin : R_iova iova size ∈ M ++ X) by (rewrite HY; left).
        apply elem_of_app in Hin as [Hin|Hin].
        -- apply Hr. by apply (elem_of_sublist M).
        -- by apply (Hx (R_iova iova size)); [left|].
      * intros _ k Hk. by exists M.
    + apply st_drop_if.
      * intros Y HY k Hk. exists M'. split; [done|]. revert Hk. apply st_perm.
        apply (Permutation_cons_inv (a := R_iova iova size)). by rewrite <- HY.
      * intros Hout. exfalso. apply Hout. left.
  - intros []. apply total_ex. intros M'. apply total_pure. intros HM'.
    apply IH; [done..|]. intros r Hin. apply Hx. by right.
Qed.

Hypothesis Hwin : windows_ok.

(** What [__hwfence_regs_map] can leave mapped. *)
Definition mapped (M : list resource) : Prop :=
  M `sublist_of` windows reg_mappings ∧ (msm_cvp_smem_get_context_bank 0 = None → M = []).

Lemma hwfence_map_ok V X f :
  total (st V X f) __hwfence_regs_map (λ _ k, ∃ M, mapped M ∧ st V (M ++ X) f k).
Proof.
  unfold __hwfence_regs_map, mapped. destruct (msm_cvp_smem_get_context_bank 0).
  - eapply total_post; [apply map_regs_ok, Hwin|]. intros ? k (M & ? & ?). by exists M.
  - apply total_ret. intros k Hk. exists []. split; [|done]. split; [apply sublist_nil_l|done].
Qed.

(** Resources of other kinds. *)
Definition no_iova (X : list resource) : Prop :=
  Forall (λ r, match r with R_iova _ _ => False | _ => True end) X.
Definition no_ipcc (X : list resource) : Prop :=
  Forall (λ r, match r with R_ipcc _ => False | _ => True end) X.

Lemma windows_iova r l : r ∈ windows l → ∃ iova size, r = R_iova iova size.
Proof.
  induction l as [|[[p i] sz] l IH]; [intros Hr; by apply not_elem_of_nil in Hr|].
  unfold windows. cbn [fmap list_fmap concat window]. intros [Hr|Hr]%elem_of_app; [|by apply IH].
  destruct (i =? 0); [by apply not_elem_of_nil in Hr|]. apply list_elem_of_singleton in Hr as ->. by eexists _, _.
Qed.

Lemma hwfence_unmap_ok V X f M :
  mapped M → no_iova X → total (st V (M ++ X) f) __hwfence_regs_unmap (λ _, st V X f).
Proof.
  intros [HM Hcb] HX. unfold __hwfence_regs_unmap. destruct (msm_cvp_smem_get_context_bank 0).
  - eapply total_bind; [apply unmap_regs_ok; [apply Hwin|done|]|].
    + intros r (iova & size & ->)%windows_iova Hr. by apply (proj1 (list.Forall_forall _ _) HX) in Hr.
    + intros []. by apply total_ret.
  - apply total_ret. by rewrite Hcb.
Qed.

(** Nothing, or one mapping of the IPC controller. *)
Definition ipcc (I : list resource) : Prop := I = [] ∨ ∃ iova, I = [R_ipcc iova].

Lemma map_ipcc_ok V X c cap q rs r :
  total (st V X (c, cap, q, rs, r)) msm_cvp_map_ipcc_regs
    (λ _ k, ∃ I, ipcc I ∧ st V (I ++ X) (c, cap, q, rs, r) k).
Proof.
  assert (Hno : ∀ a, total (st V X (c, cap, q, rs, r)) (mret a)
    (λ (_ : Z * Z) k, ∃ I, ipcc I ∧ st V (I ++ X) (c, cap, q, rs, r) k)).
  { intros a. apply total_ret. intros k Hk. exists []. split; [by left|done]. }
  unfold msm_cvp_map_ipcc_regs. destruct ipcc_regs as [paddr size].
  apply total_if; intros _; [apply Hno|]. destruct (msm_cvp_smem_get_context_bank 0); [|apply Hno].
  eapply total_bind; [apply st_kext|]. intros a.
  eapply (total_bind _ _ (λ _ k, ∃ I, ipcc I ∧ st V (I ++ X) (c, cap, q, rs, r) k)).
  { apply total_whenS.
    - intros _. eapply total_post; [apply st_take|]. intros [] k Hk. exists [R_ipcc (u32 a)]. split; [right; by eexists|done].
    - intros k _ Hk. exists []. split; [by left|done]. }
  intros []. apply total_ex. intros I. apply total_pure. intros HI. apply total_if; intros _.
  - apply total_ret. intros k Hk. by exists I.
  - eapply total_bind; [by apply (st_modify _ _ _ _ (c, cap, q, rs, r))|]. intros [].
    apply total_ret. intros k Hk. by exists I.
Qed.

Lemma unmap_ipcc_ok V X f I iova :
  ipcc I → no_ipcc X →
  total (st V (I ++ X) f) (msm_cvp_unmap_ipcc_regs iova) (λ _ k, ∃ I', ipcc I' ∧ st V (I' ++ X) f k).
Proof.
  intros HI HX. unfold msm_cvp_unmap_ipcc_regs.
  apply total_if; intros _; [apply total_ret; intros k Hk; by exists I|].
  destruct (msm_cvp_smem_get_context_bank 0); [|apply total_ret; intros k Hk; by exists I].
  eapply (total_bind _ _ (λ _ k, ∃ I', ipcc I' ∧ st V (I' ++ X) f k)).
  - apply st_drop_if; [|intros _ k Hk; by exists I].
    intros Y HY k Hk. exists []. split; [by left|]. revert Hk. apply st_perm.
    destruct HI as [->|[a ->]]; cbn [app] in HY.
    + exfalso. unfold no_ipcc in HX. rewrite HY in HX. by apply list.Forall_cons in HX as [? _].
    + assert (Hin : R_ipcc iova ∈ R_ipcc a :: X) by (rewrite HY; left).
      apply elem_of_cons in Hin as [Hin|Hin]; [|by apply (proj1 (list.Forall_forall _ _) HX) in Hin].
      rewrite <- Hin in HY. symmetry. by apply Permutation_cons_inv in HY.
  - intros []. by apply total_ret.
Qed.

(** ** Firmware *)

(** The loader's functions return 0 or a negative error, as the kernel's do; the firmware's
    identifier is positive. *)
Definition loader_ok : Prop :=
  (∀ n c, match c with
          | Of_address_to_resource | Request_firmware _ | Qcom_mdt_load _ _ | Pas_auth_and_reset _ =>
              c_answer n c <= 0
          | _ => True end) ∧ 0 < pas_id.

Hypothesis Hfw : loader_ok.

Lemma st_answer c V X f :
  total (st V X f) (kext c) (λ a k, (∃ n, a = c_answer n c) ∧ st V X f k).
Proof.
  intros k Hk. destruct (st_kext c V X f k Hk) as (a & k' & E & Hk'). exists a, k'. split; [done|].
  split; [|done]. unfold kext in E. cbn in E. injection E as <- _. by eexists.
Qed.

(** The firmware runs, or nothing is left of the attempt. *)
Definition loaded V X f (rc : Z) (k : core) : Prop :=
  (rc = pas_id ∧ st V (R_pas pas_id :: X) f k) ∨ (rc <= 0 ∧ st V X f k).

Lemma fw_image_ok V X f n :
  total (st V (R_firmware :: X) f) (fw_image_to_memory n) (loaded V X f).
Proof.
  unfold fw_image_to_memory.
  assert (Herr : ∀ rc, rc <= 0 → total (st V (R_firmware :: X) f) (drop R_firmware ;; mret rc) (loaded V X f)).
  { intros rc Hrc. eapply total_bind; [by apply st_drop|]. intros []. apply total_ret. intros k Hk. by right. }
  eapply total_bind; [apply st_kext|]. intros sz. apply total_if; intros _; [by apply Herr|].
  eapply total_bind; [apply st_kext|]. intros virt. apply total_if; intros _; [by apply Herr|].
  eapply total_bind; [apply st_take|]. intros [].
  assert (Hunmap : ∀ rc, rc <= 0 → total (st V (R_memremap virt :: R_firmware :: X) f)
    (drop (R_memremap virt) ;; drop R_firmware ;; mret rc) (loaded V X f)).
  { intros rc Hrc. eapply total_bind; [by apply st_drop|]. intros []. by apply Herr. }
  eapply total_bind; [apply st_answer|]. intros rc. apply total_pure. intros [i ->].
  apply total_if; intros _; [apply Hunmap, (proj1 Hfw i (Qcom_mdt_load pas_id virt))|].
  eapply total_bind; [apply st_answer|]. intros rc. apply total_pure. intros [j ->].
  apply total_if; intros _; [apply Hunmap, (proj1 Hfw j (Pas_auth_and_reset pas_id))|].
  eapply total_bind; [apply st_take|]. intros [].
  eapply total_bind; [apply (st_drop _ _ _ (R_pas pas_id :: R_firmware :: X)), Permutation_swap|]. intros [].
  eapply total_bind; [apply (st_drop _ _ _ (R_pas pas_id :: X)), Permutation_swap|]. intros [].
  apply total_ret. intros k Hk. by left.
Qed.

Lemma load_fw_to_memory_ok V X f : total (st V X f) __load_fw_to_memory (loaded V X f).
Proof.
  assert (Herr : ∀ rc, rc <= 0 → total (st V X f) (mret rc) (loaded V X f)).
  { intros rc Hrc. apply total_ret. by right. }
  unfold __load_fw_to_memory. destruct fw_name; [|by apply Herr].
  apply total_if; intros _; [by apply Herr|]. apply total_if; intros _; [by apply Herr|].
  destruct memory_region as [n|]; [|by apply Herr].
  eapply total_bind; [apply st_answer|]. intros rc. apply total_pure. intros [i ->].
  apply total_if; intros _; [apply Herr, (proj1 Hfw i Of_address_to_resource)|].
  eapply total_bind; [apply st_answer|]. intros rc. apply total_pure. intros [j ->].
  apply total_if; intros _; [apply Herr, (proj1 Hfw j (Request_firmware _))|].
  eapply total_bind; [apply st_take|]. intros []. apply fw_image_ok.
Qed.

Lemma load_fw_impl_ok V X cap q rs r :
  total (st V X (0, cap, q, rs, r)) load_cvp_fw_impl (λ rc k,
    (rc = 0 ∧ st V (R_pas pas_id :: X) (pas_id, cap, q, rs, r) k) ∨
    (rc ≠ 0 ∧ st V X (0, cap, q, rs, r) k)).
Proof.
  unfold load_cvp_fw_impl. eapply st_gets; [intros k; unfold flags_of; cbn; by intros [= -> _ _ _]|].
  cbn [Z.eqb negb]. eapply total_bind; [apply load_fw_to_memory_ok|]. intros c.
  eapply (total_bind _ _ (λ _ k,
    (c = pas_id ∧ st V (R_pas pas_id :: X) (pas_id, cap, q, rs, r) k) ∨
    (c <= 0 ∧ st V X (c, cap, q, rs, r) k))).
  { intros k [[-> Hk]|[Hc Hk]].
    - destruct (st_modify (λ k, k <| k_cookie := pas_id |>) V (R_pas pas_id :: X) (0, cap, q, rs, r)
        (pas_id, cap, q, rs, r)) with k as (? & ? & E & ?); [done| |done..|].
      { intros k'. unfold flags_of. cbn. by intros [= _ -> -> ->]. }
      eexists _, _. split; [exact E|]. by left.
    - destruct (st_modify (λ k, k <| k_cookie := c |>) V X (0, cap, q, rs, r)
        (c, cap, q, rs, r)) with k as (? & ? & E & ?); [done| |done..|].
      { intros k'. unfold flags_of. cbn. by intros [= _ -> -> ->]. }
      eexists _, _. split; [exact E|]. by right. }
  intros []. pose proof (proj2 Hfw). apply total_if; intros Hc.
  - eapply (total_pre _ (st V X (c, cap, q, rs, r))); [|intros k [[-> _]|[_ ?]]; [lia|done]].
    eapply total_bind.
    { apply (st_modify _ _ _ _ (0, cap, q, rs, r)); [done| |done].
      intros k'. unfold flags_of. cbn. by intros [= _ -> -> ->]. }
    intros []. apply total_ret. by right.
  - apply total_ret. intros k [[-> Hk]|[? _]]; [by left|lia].
Qed.

(** ** Requests for latency *)

Fixpoint requests (i : nat) (l : list bool) : list resource :=
  match l with [] => [] | act :: l' => (if act then [R_qos i] else []) ++ requests (S i) l' end.

Definition requested (q : option (list bool)) : list resource :=
  match q with Some l => R_qos_table :: requests 0 l | None => [] end.

Lemma add_qos_ok V X f i latency cpus :
  total (st V X f) (add_qos i latency cpus) (λ l, st V (requests i l ++ X) f).
Proof.
  revert i X. induction cpus as [|cpu cpus IH]; intros i X; cbn [add_qos]; [by apply total_ret|].
  eapply (total_bind _ _ (λ act, st V ((if act : bool then [R_qos i] else []) ++ X) f)).
  { apply total_if; intros _; [|by apply total_ret].
    eapply total_bind; [apply st_kext|]. intros err. destruct (negb (err <? 0)); cbn [whenS].
    - eapply total_bind; [apply st_take|]. intros []. by apply total_ret.
    - eapply (total_bind _ _ (λ _, st V X f)); [by apply total_ret|]. intros []. by apply total_ret. }
  intros act. eapply total_bind; [apply IH|]. intros l. apply total_ret. intros k. cbn [requests].
  apply st_perm. solve_Permutation.
Qed.

Lemma core_qos_ok V X c cap rs r :
  total (st V X (c, cap, None, rs, r)) core_qos (λ _ k,
    ∃ q, st V (requested q ++ X) (c, cap, q, rs, r) k).
Proof.
  unfold core_qos. intros k Hk. rewrite St_bind_run. unfold on_hw at 1. rewrite gets_run. cbn [obind fst snd].
  assert (Hk' : st V X (c, cap, None, rs, r) (k <| k_hw := k_hw k |>)) by (revert Hk; by destruct k).
  revert Hk'. generalize (k <| k_hw := k_hw k |>). intros k'. revert k'.
  apply total_if; intros _; [apply total_ret; intros k' Hk'; by exists None|].
  eapply total_bind; [apply st_kext|]. intros p. apply total_if; intros _.
  { eapply total_post.
    { apply (st_modify _ _ _ _ (c, cap, None, rs, r)); [done| |done].
      intros k'. unfold flags_of. cbn. by intros [= -> -> _ ->]. }
    intros [] k' Hk'. by exists None. }
  eapply total_bind; [apply st_take|]. intros [].
  eapply total_bind; [apply add_qos_ok|]. intros l.
  eapply total_post.
  { apply (st_modify _ _ _ _ (c, cap, Some l, rs, r)); [done| |done].
    intros k'. unfold flags_of. cbn. by intros [= -> -> _ ->]. }
  intros [] k' Hk'. exists (Some l). revert Hk'. apply st_perm. cbn. solve_Permutation.
Qed.

Lemma remove_qos_ok V X f i l : total (st V (requests i l ++ X) f) (remove_qos i l) (λ _, st V X f).
Proof.
  revert i. induction l as [|act l IH]; intros i; cbn [remove_qos requests]; [by apply total_ret|].
  eapply (total_bind _ _ (λ _, st V (requests (S i) l ++ X) f)); [|intros []; apply IH].
  destruct act; cbn [whenS app]; [by apply st_drop|by apply total_ret].
Qed.

End parts.

(** * With the power on *)

Section bringup.
Context `{HwEnv} `{Peers} `{!BufEnv} `{!SetupEnv} `{CoreEnv} `{CorePeers}.
Variables (ops : cvp_hal_ops) (names : list string) (maxs : list Z).
Variables ctl_on core_on core_off ctl_off : list clock_info → change.
Variables ctl_leak core_leak : list clock_info → list change.
Context (HL : ∀ C, clk_name <$> C = names →
  HalLaws C ops (ctl_on C) (core_on C) (core_off C) (ctl_off C) (ctl_leak C) (core_leak C)).
Hypothesis Hbal : ∀ C v, ctl_on C v + core_on C v = core_off C v + ctl_off C v.
Hypothesis Hrates : clock_rates ≠ [].
Hypothesis Hsw : sw_power_collapsible = true.

(** The other components finish, and leave the power alone. *)
Definition calm_core {A} (m : P A) : Prop := ∀ C, calm C m.
Class CorePeersLaws : Prop := {
  core_sys_init : calm_core peer_sys_init;
  core_cmdq_write : calm_core peer_cmdq_write_sys_init;
  core_image_version : calm_core peer_image_version;
  core_ubwc : calm_core peer_set_ubwc_config;
  core_idle : calm_core peer_idle_indicator;
  core_hfi_queue : calm_core peer_send_hfi_queue;
  core_dsp_shutdown : calm_core peer_dsp_shutdown
}.
Context {PL : ∀ C, PeersLaws C} `{CL : !CorePeersLaws}.
#[local] Existing Instance PL.


(** The votes of a core that is on. *)
Definition votes (C : list clock_info) : change := full_votes (ctl_on C) (core_on C).

(** On since [__iris_power_on]: [fresh] of HwPowerRules.v. *)
Definition lit (i : bool) (L : change) : family := λ C B S s,
  ∃ s0, hw_state_init s0 = i ∧ handles s0 = (B, S) ∧ fresh C (ctl_on C) (core_on C) s0 L s.

(** On, in any state of its interrupt. *)
Definition on (i : bool) (L : change) : family := λ C B S, dev i true (L ⊕ votes C) C B S.

Definition off (i : bool) (L : change) : family := λ C B S, dev i false L C B S.

Abbreviation eqp D X c q r := (equipped D X c q r names maxs).
Abbreviation bar D X c q r := (bare D X c q r names maxs).

(** The handles that tables hold. *)
Definition in_table (Y : list resource) : Prop :=
  Forall (λ r, match r with
               | R_clk _ | R_reset _ | R_icc _ | R_llcc _ | R_capabilities => True | _ => False end) Y.

Lemma in_table_concat {A} (own : A → list resource) l :
  (∀ a, in_table (own a)) → in_table (concat (own <$> l)).
Proof. intros Ho. induction l; cbn; [constructor|]. unfold in_table in *. rewrite list.Forall_app. auto. Qed.

Lemma in_table_resets rs : in_table (resets rs).
Proof.
  apply in_table_concat. intros r. unfold own_reset. destruct (_ =? 0); [constructor|].
  destruct (rst_required_stage r); repeat constructor.
Qed.

Lemma in_table_all C B S cap rs : in_table (clks C ++ buses B ++ slices S ++ caps cap ++ resets rs).
Proof.
  unfold in_table. rewrite !list.Forall_app. split_and!.
  - apply in_table_concat. intros cl. unfold own_clk. destruct (_ =? 0); repeat constructor.
  - apply in_table_concat. intros b. unfold own_bus. destruct (_ =? 0); repeat constructor.
  - apply in_table_concat. intros h. unfold own_slice. destruct (_ =? 0); repeat constructor.
  - destruct cap; repeat constructor.
  - apply in_table_resets.
Qed.

Lemma table_no_iova Y : in_table Y → no_iova Y.
Proof. intros HY. eapply list.Forall_impl; [exact HY|]. by intros []. Qed.
Lemma table_no_ipcc Y : in_table Y → no_ipcc Y.
Proof. intros HY. eapply list.Forall_impl; [exact HY|]. by intros []. Qed.

(** An operation on what is held and on the flags. *)
Lemma eq_lift {A} (m : K A) D X c q r (Q : A → list resource → Z → option (list bool) → bool → Prop) :
  (∀ V Y cap rs, in_table Y → total (st V (X ++ Y) (c, cap, q, rs, r)) m
     (λ a k, ∃ X' c' q' r', Q a X' c' q' r' ∧ st V (X' ++ Y) (c', cap, q', rs, r') k)) →
  total (eqp D X c q r) m (λ a k, ∃ X' c' q' r', Q a X' c' q' r' ∧ eqp D X' c' q' r' k).
Proof.
  intros Hm k (C & B & S & cap & rs & Hn & Hx & Hb & Hs & Hk).
  destruct (Hm (D C B S) (clks C ++ buses B ++ slices S ++ caps cap ++ resets rs) cap rs
    (in_table_all C B S cap rs) k) as (a & k' & E & X' & c' & q' & r' & HQ & Hk').
  { revert Hk. apply st_perm. solve_Permutation. }
  exists a, k'. split; [done|]. exists X', c', q', r'. split; [done|].
  exists C, B, S, cap, rs. split_and!; [done..|]. revert Hk'. apply st_perm. solve_Permutation.
Qed.

(** An operation of the hardware. *)
Lemma eq_hw {A} (m : P A) (D : family) (Q : A → family) X c q r :
  (∀ C B S, clk_name <$> C = names → total (D C B S) m (λ a, Q a C B S)) →
  total (eqp D X c q r) (on_hw m) (λ a, eqp (Q a) X c q r).
Proof.
  intros Hm k (C & B & S & cap & rs & Hn & Hx & Hb & Hs & Hk).
  destruct (st_hw m (D C B S) (λ a, Q a C B S) _ _ (Hm C B S Hn) k Hk) as (a & k' & E & Hk').
  exists a, k'. split; [done|]. by exists C, B, S, cap, rs.
Qed.

Lemma eq_kext a D X c q r : total (eqp D X c q r) (kext a) (λ _, eqp D X c q r).
Proof.
  intros k (C & B & S & cap & rs & Hn & Hx & Hb & Hs & Hk).
  destruct (st_kext a _ _ _ k Hk) as (v & k' & E & Hk'). exists v, k'. split; [done|].
  by exists C, B, S, cap, rs.
Qed.

Lemma eq_perm D X Y c q r k : X ≡ₚ Y → eqp D X c q r k → eqp D Y c q r k.
Proof.
  intros E (C & B & S & cap & rs & ? & ? & ? & ? & Hk). exists C, B, S, cap, rs. split_and!; [done..|].
  revert Hk. apply st_perm. by rewrite E.
Qed.

Lemma eq_weaken (D D' : family) X c q r k :
  (∀ C B S s, D C B S s → D' C B S s) → eqp D X c q r k → eqp D' X c q r k.
Proof.
  intros HD (C & B & S & cap & rs & ? & ? & ? & ? & Hk). exists C, B, S, cap, rs. split_and!; [done..|].
  revert Hk. apply st_weaken, HD.
Qed.

(** ** What the power operations do to these states *)

Lemma kept_off i b0 L0 L C B S s0 s : dev i b0 L0 C B S s0 → kept s0 C L false None s → off i L C B S s.
Proof. apply kept_dev. Qed.

Lemma kept_base i b L C B S s0 s :
  hw_state_init s0 = i → handles s0 = (B, S) → kept s0 C L b None s → dev i b L C B S s.
Proof.
  intros Hi Hh Hk. pose proof (kept_facts _ _ _ _ _ _ Hk) as (Ha & Hp & Hc & Hi' & _).
  pose proof (kept_handles _ _ _ _ _ _ Hk) as Hh'. rewrite Hh in Hh'. injection Hh' as ??.
  repeat split; congruence.
Qed.

Lemma dev_base i b L C B S s : dev i b L C B S s → hw_state_init s = i ∧ handles s = (B, S).
Proof. intros (_ & _ & _ & ? & ? & ?). split; [done|]. unfold handles. congruence. Qed.

Lemma lit_on i L C B S s : lit i L C B S s → on i L C B S s.
Proof.
  intros (s0 & Hi & Hh & Hs). eapply kept_base; [done..|]. by apply fresh_kept.
Qed.

Definition residue_of (d : change) : Prop :=
  ∃ C, residue (ctl_on C) (core_on C) (ctl_off C) (ctl_leak C) (core_leak C) d.

Lemma power_on_dev i L C B S :
  clk_name <$> C = names →
  total (off i L C B S) (__iris_power_on ops) (λ rc s,
    (rc = 0 ∧ lit i L C B S s) ∨ (rc ≠ 0 ∧ ∃ d, residue_of d ∧ off i (L ⊕ d) C B S s)).
Proof.
  intros Hn s Hs. pose proof (HL C Hn).
  destruct (power_on_ok C ops _ _ _ _ _ _ Hrates s L s (dev_kept _ _ _ _ _ _ _ Hs)) as (rc & s' & E & Hs').
  exists rc, s'. split; [done|]. apply dev_base in Hs as [Hi Hh].
  destruct Hs' as [(-> & Hp)|(Hrc & d & Hd & Hs')].
  - left. split; [done|]. exists s. split; [done|]. split; [done|]. by apply powered_fresh.
  - right. split; [done|]. exists d. split; [by exists C|]. by eapply kept_base.
Qed.

Lemma power_off_lit i L C B S :
  clk_name <$> C = names → total (lit i L C B S) (power_off_iris2 ops) (λ _, off i L C B S).
Proof.
  intros Hn s (s0 & Hi & Hh & Hs). pose proof (HL C Hn).
  destruct (fresh_power_off C ops _ _ _ _ _ _ Hsw (Hbal C) s0 L s Hs) as (a & s' & E & Hs').
  exists a, s'. split; [done|]. by eapply kept_base.
Qed.

(** Powering off a core in any state of its interrupt leaves its account even, or one
    interrupt too many, when the watchdog has taken it. *)
Definition leftover (d : change) : Prop := (∀ v, d v = 0) ∨ (∀ v, d v = one V_irq v).

Lemma power_off_on i L C B S :
  clk_name <$> C = names →
  total (on i L C B S) (power_off_iris2 ops) (λ _ s, ∃ d, leftover d ∧ off i (L ⊕ d) C B S s).
Proof.
  intros Hn s Hs. pose proof (HL C Hn). pose proof (dev_base _ _ _ _ _ _ _ Hs) as [Hi Hh].
  destruct (power_off_ok C ops _ _ _ _ _ _ s (L ⊕ votes C) (hw_intr_status s) Hsw s
    (conj (dev_kept _ _ _ _ _ _ _ Hs) eq_refl)) as (a & s' & E & Hs').
  exists a, s'. split; [done|].
  exists (if anyb (hw_intr_status s) CVP_WRAPPER_INTR_STATUS_A2HWD_BMSK then one V_irq else none).
  split; [by destruct (anyb _ _); [right|left]|]. eapply kept_base; [done..|]. revert Hs'. apply kept_eq.
  intros v. unfold votes, full_votes, returned, plus, minus, none. pose proof (Hbal C v). destruct (anyb _ _); lia.
Qed.

Lemma power_off_off i L C B S : total (off i L C B S) (power_off_iris2 ops) (λ _, off i L C B S).
Proof.
  intros s Hs. unfold power_off_iris2. srun. rewrite (proj1 (proj2 Hs)). cbn [negb orb]. by eexists _, _.
Qed.

Lemma lit_calm {A} (m : P A) i L C B S : calm C m → total (lit i L C B S) m (λ _, lit i L C B S).
Proof.
  intros Hm s (s0 & Hi & Hh & Hs).
  destruct (fresh_calm C (ctl_on C) (core_on C) m (λ a, mret a) s0 L (λ _, fresh C (ctl_on C) (core_on C) s0 L) Hm)
    with s as (a & s' & E & Hs'); [by intros a; apply total_ret|done|].
  rewrite St_bind_run in E. destruct (m s) as [[a1 s1]|]; [|done]. cbn in E. injection E as -> ->.
  exists a, s'. split; [done|]. by exists s0.
Qed.

Lemma on_kept {A} (m : P A) i L C B S :
  (∀ s0 L', total (kept s0 C L' true None) m (λ _, kept s0 C L' true None)) →
  total (on i L C B S) m (λ _, on i L C B S).
Proof.
  intros Hm s Hs. destruct (Hm s (L ⊕ votes C) s (dev_kept _ _ _ _ _ _ _ Hs)) as (a & s' & E & Hs').
  exists a, s'. split; [done|]. by eapply kept_dev.
Qed.

Lemma on_calm {A} (m : P A) i L C B S : calm C m → total (on i L C B S) m (λ _, on i L C B S).
Proof. intros Hm. apply on_kept. intros s0 L'. by apply calm_kept; [|left]. Qed.

Lemma dev_set_state i i' b L C B S :
  total (dev i b L C B S) (modify (λ s, s <| hw_state_init := i' |>)) (λ _, dev i' b L C B S).
Proof. apply total_modify. intros s (? & ? & ? & ? & ? & ?). by repeat split. Qed.

Lemma lit_set_state i i' L C B S :
  total (lit i L C B S) (modify (λ s, s <| hw_state_init := i' |>)) (λ _, lit i' L C B S).
Proof.
  apply total_modify. intros s (s0 & Hi & Hh & s1 & (Hn & Hv & Hc) & Hintr & []).
  exists (s0 <| hw_state_init := i' |>). split; [done|]. split; [done|].
  exists (s1 <| hw_state_init := i' |>). split; [by repeat split|]. split; [done|].
  split; try done. unfold rest in *. cbn. congruence.
Qed.

Lemma lit_boot i L C B S :
  clk_name <$> C = names → total (lit i L C B S) (__boot_firmware ops) (λ _, lit i L C B S).
Proof.
  intros Hn s (s0 & Hi & Hh & s1 & Hnear & Hintr & Hs). pose proof (HL C Hn).
  destruct (boot_ok C ops (ctl_on C) (core_on C) (core_off C) (ctl_off C) (ctl_leak C) (core_leak C) s1
    (L ⊕ full_votes (ctl_on C) (core_on C)) (length (hw_trace s)) s (conj Hs eq_refl))
    as (rc & s' & E & _ & Hs').
  exists rc, s'. split; [done|]. exists s0. split; [done|]. split; [done|]. by exists s1.
Qed.

(** ** The ends of a failed start *)

Hypothesis Hwin : windows_ok.
Hypothesis Hfw : loader_ok.

Lemma unmap_eq D M X c q r :
  mapped M → no_iova X → total (eqp D (M ++ X) c q r) __hwfence_regs_unmap (λ _, eqp D X c q r).
Proof.
  intros HM HX. eapply total_post.
  { apply (eq_lift _ _ _ _ _ _ (λ _ X' c' q' r', X' = X ∧ c' = c ∧ q' = q ∧ r' = r)).
    intros V Y cap rs HY. eapply total_pre.
    - eapply total_post; [apply (hwfence_unmap_ok Hwin V (X ++ Y) (c, cap, q, rs, r) M HM)|].
      + apply list.Forall_app. split; [done|]. by apply table_no_iova.
      + intros ? k Hk. by exists X, c, q, r.
    - intros k. by rewrite <- app_assoc. }
  by intros ? k (X' & c' & q' & r' & (-> & -> & -> & ->) & Hk).
Qed.

Lemma unmap_bare D M X c q r :
  mapped M → no_iova X → total (bar D (M ++ X) c q r) __hwfence_regs_unmap (λ _, bar D X c q r).
Proof.
  intros HM HX k (S & rs & HS & Hk).
  destruct (hwfence_unmap_ok Hwin (D (no_clks names) (no_buses maxs) S) (resets rs ++ X) (c, false, q, rs, r) M HM) with k as (a & k' & E & Hk').
  - apply list.Forall_app. split; [|done]. apply table_no_iova, in_table_resets.
  - revert Hk. apply st_perm. solve_Permutation.
  - exists a, k'. split; [done|]. by exists S, rs.
Qed.

Lemma eq_gets {A B} (g : core → A) v (k : A → K B) D X c q r Q :
  (∀ k cap rs, flags_of k = (c, cap, q, rs) → g k = v) →
  total (eqp D X c q r) (k v) Q → total (eqp D X c q r) (x ← gets g; k x) Q.
Proof.
  intros Hg Hk s Hs. rewrite St_bind_run, gets_run. cbn.
  pose proof Hs as (C & B' & S & cap & rs & _ & _ & _ & _ & (_ & _ & Hf & _)).
  rewrite (Hg s cap rs Hf). by apply Hk.
Qed.

(** Without the firmware's cookie nothing is given back but the windows. *)
Lemma err_core_kept (D D' : family) M X q r rc :
  (∀ C B S, total (D C B S) (modify (λ s, s <| hw_state_init := false |>)) (λ _, D' C B S)) →
  mapped M → no_iova X →
  total (eqp D (M ++ X) 0 q r) (core_err_core_init ops rc) (λ rc' k, rc' = rc ∧ eqp D' X 0 q r k).
Proof.
  intros HD HM HX. unfold core_err_core_init, core_err_load_fw, __set_state.
  eapply total_bind; [apply (eq_hw _ _ (λ _, D')); intros; apply HD|]. intros [].
  eapply (total_bind _ _ (λ _, eqp D' (M ++ X) 0 q r)).
  { unfold __unload_fw. eapply eq_gets; [intros k cap rs; unfold flags_of; by intros [= -> _ _ _]|].
    by apply total_ret. }
  intros []. eapply total_bind; [by apply unmap_eq|]. intros ?. by apply total_ret.
Qed.

Lemma err_core_bare i L M X q r rc :
  mapped M → no_iova X →
  total (bar (off i L) (M ++ X) 0 q r) (core_err_core_init ops rc) (λ rc' k, rc' = rc ∧ bar (off false L) X 0 q r k).
Proof.
  intros HM HX. unfold core_err_core_init, core_err_load_fw, __set_state.
  eapply (total_bind _ _ (λ _, bar (off false L) (M ++ X) 0 q r)).
  { intros k (S & rs & HS & Hk).
    destruct (st_hw _ _ _ _ _ (dev_set_state i false false L (no_clks names) (no_buses maxs) S) k Hk) as (a & k' & E & Hk').
    exists a, k'. split; [done|]. by exists S, rs. }
  intros [].
  eapply (total_bind _ _ (λ _, bar (off false L) (M ++ X) 0 q r)).
  { unfold __unload_fw. intros k Hk. rewrite St_bind_run, gets_run. cbn [obind fst snd].
    assert (E : k_cookie k = 0).
    { destruct Hk as (S & rs & _ & (_ & _ & Hf & _)). unfold flags_of in Hf. cbn in Hf. by injection Hf. }
    rewrite E. cbn. by eexists _, _. }
  intros []. eapply total_bind; [by apply unmap_bare|]. intros ?. by apply total_ret.
Qed.

(** With it, everything is. *)
Lemma unload_eq (D : family) (R : change → Prop) i L X q r :
  (∀ C B S, clk_name <$> C = names → total (D C B S) (gets hw_state_init) (λ _, D C B S)) →
  (∀ C B S, clk_name <$> C = names → total (D C B S) (hcall_ Cancel_pm_work) (λ _, D C B S)) →
  (∀ C B S, clk_name <$> C = names →
     total (D C B S) (power_off_iris2 ops) (λ _ s, ∃ d, R d ∧ off i (L ⊕ d) C B S s)) →
  total (eqp D (R_pas pas_id :: X) pas_id q r) (__unload_fw ops)
    (λ _ k, ∃ d, R d ∧ bar (off i (L ⊕ d)) X 0 q r k).
Proof.
  intros Hget Hcan Hoff. unfold __unload_fw.
  eapply eq_gets; [intros k cap rs; unfold flags_of; by intros [= -> _ _ _]|].
  rewrite (proj2 (Z.eqb_neq pas_id 0)) by (destruct Hfw; lia).
  eapply total_bind; [by apply (eq_hw _ _ (λ _, D))|]. intros [].
  eapply total_bind; [by apply (eq_hw _ _ (λ _, D))|]. intros valid.
  eapply (total_bind _ _ (λ _, eqp D (R_pas pas_id :: X) pas_id q r)).
  { apply total_whenS; [intros _|done]. eapply total_bind; [apply eq_kext|]. intros ?. by apply total_ret. }
  intros [].
  eapply (total_bind _ _ (λ _, eqp D X 0 q r)).
  { unfold unload_cvp_fw_impl.
    eapply eq_gets; [intros k cap rs; unfold flags_of; by intros [= -> _ _ _]|].
    eapply total_post.
    { apply (eq_lift _ _ _ _ _ _ (λ _ X' c' q' r', X' = X ∧ c' = 0 ∧ q' = q ∧ r' = r)).
      intros V Y cap rs HY. eapply total_bind; [by apply (st_drop _ _ _ (X ++ Y))|]. intros [].
      eapply total_bind.
      { apply (st_modify _ _ _ _ (0, cap, q, rs, r)); [done| |done].
        intros k. unfold flags_of. cbn. by intros [= _ -> -> ->]. }
      intros []. apply total_ret. intros k Hk. by exists X, 0, q, r. }
    by intros ? k (X' & c' & q' & r' & (-> & -> & -> & ->) & Hk). }
  intros _.
  eapply total_bind.
  { apply (eq_hw _ _ (λ _ C B S s, ∃ d, R d ∧ off i (L ⊕ d) C B S s)). exact Hoff. }
  intros [] k (C & B & S & cap & rs & ? & ? & ? & ? & ((d & Hd & Hk) & Hl)).
  destruct (deinit_resources_ok i false (L ⊕ d) X 0 q r names maxs k) as (a & k' & E & Hk').
  { exists C, B, S, cap, rs. split_and!; done. }
  exists a, k'. split; [done|]. by exists d.
Qed.

(** ** The ends of a start *)

Definition cookie : Z := if loads_firmware then pas_id else 0.
Definition fw : list resource := if loads_firmware then [R_pas pas_id] else [].

(** The power is off and every resource has been given back; [Y] is still held. *)
Definition released L Y (k : core) : Prop :=
  ∃ d r, ((∀ v, d v = 0) ∨ residue_of d) ∧ bar (off false (L ⊕ d)) Y 0 None r k.

(** The power is off, or on, with every resource held. *)
Definition left_off L Y (k : core) : Prop := ∃ r, eqp (off false L) Y 0 None r k.
Definition left_on L Y (k : core) : Prop := ∃ r, eqp (on false L) Y 0 None r k.

Definition failed L X (rc : Z) (k : core) : Prop :=
  rc ≠ 0 ∧ ∃ I, ipcc I ∧ (released L (I ++ X) k ∨ left_off L (I ++ X) k ∨ left_on L (I ++ X) k).

Definition started L X (rc : Z) (k : core) : Prop :=
  rc = 0 ∧ ∃ I M q, ipcc I ∧ mapped M ∧
    eqp (on true L) (fw ++ requested q ++ M ++ I ++ X) cookie q true k.

Definition ended L X (rc : Z) (k : core) : Prop := started L X rc k ∨ failed L X rc k.

Lemma ipcc_no_iova I X : ipcc I → no_iova X → no_iova (I ++ X).
Proof. intros [->|[a ->]] HX; [done|]. by constructor. Qed.

Lemma off_none i L C B S s : off i L C B S s → ∃ d, (∀ v, d v = 0) ∧ off i (L ⊕ d) C B S s.
Proof. intros Hs. exists none. split; [done|]. revert Hs. apply dev_eq. change_tac. Qed.

Lemma eq_lit {A B} (m : P A) (k : A → K B) i L X c q r Q :
  calm_core m → (∀ a, total (eqp (lit i L) X c q r) (k a) Q) →
  total (eqp (lit i L) X c q r) (a ← on_hw m; k a) Q.
Proof.
  intros Hm Hk. eapply total_bind; [|exact Hk].
  apply (eq_hw _ _ (λ _, lit i L)). intros C B' S _. apply lit_calm, Hm.
Qed.

Lemma eq_on {A B} (m : P A) (k : A → K B) i L X c q r Q :
  (∀ C s0 L', total (kept s0 C L' true None) m (λ _, kept s0 C L' true None)) →
  (∀ a, total (eqp (on i L) X c q r) (k a) Q) →
  total (eqp (on i L) X c q r) (a ← on_hw m; k a) Q.
Proof.
  intros Hm Hk. eapply total_bind; [|exact Hk].
  apply (eq_hw _ _ (λ _, on i L)). intros C B' S _. apply on_kept, Hm.
Qed.

Lemma calm_on {A} (m : P A) : calm_core m →
  ∀ C s0 L', total (kept s0 C L' true None) m (λ _, kept s0 C L' true None).
Proof. intros Hm C s0 L'. by apply calm_kept; [|left]. Qed.

Section start.
Variables (L : change) (X : list resource).
Hypotheses (HX : no_iova X) (HX' : no_ipcc X).

(** A failure once the firmware was to be loaded. *)
Lemma err_loaded i I M r rc :
  rc ≠ 0 → ipcc I → mapped M →
  total (eqp (lit i L) (fw ++ M ++ I ++ X) cookie None r) (core_err_core_init ops rc) (ended L X).
Proof.
  intros Hrc HI HM. pose proof (ipcc_no_iova I X HI HX) as HIX. unfold fw, cookie.
  destruct loads_firmware; cbn [app].
  - unfold core_err_core_init, core_err_load_fw, __set_state.
    eapply total_bind; [apply (eq_hw _ _ (λ _, lit false L)); intros; apply lit_set_state|]. intros [].
    eapply total_bind.
    { apply (unload_eq (lit false L) (λ d, ∀ v, d v = 0) false L (M ++ I ++ X)).
      - intros C B S _. apply lit_calm, calm_gets.
      - intros C B S _. apply lit_calm. unfold hcall_. apply gives_map. by apply calm_hext.
      - intros C B S Hn. eapply total_post; [by apply power_off_lit|]. intros ? s. apply off_none. }
    intros []. apply total_ex. intros d. apply total_pure. intros Hd.
    eapply total_bind; [by apply unmap_bare|]. intros ?. apply total_ret. intros k Hk. right.
    split; [done|]. exists I. split; [done|]. left. exists d, r. split; [by left|done].
  - eapply total_post; [apply (err_core_kept (lit i L) (lit false L)); [intros; apply lit_set_state|done..]|].
    intros rc' k [-> Hk]. right. split; [done|]. exists I. split; [done|]. right. right. exists r.
    revert Hk. apply eq_weaken. intros ????. apply lit_on.
Qed.

(** ** From the boot of the firmware on *)

Lemma core_booted_ok I M :
  ipcc I → mapped M →
  total (eqp (lit true L) (fw ++ M ++ I ++ X) cookie None true) (core_booted ops) (ended L X).
Proof.
  intros HI HM. unfold core_booted. apply eq_lit; [intros C; apply calm_read|]. intros v.
  eapply (total_bind _ _ (λ _, eqp (lit true L) (fw ++ M ++ I ++ X) cookie None true)).
  { eapply total_post.
    { apply (eq_lift _ _ _ _ _ _ (λ _ X' c' q' r', X' = fw ++ M ++ I ++ X ∧ c' = cookie ∧ q' = None ∧ r' = true)).
      intros V Y cap rs HY. eapply total_post; [by apply (st_modify _ _ _ _ (cookie, cap, None, rs, true))|].
      intros [] k Hk. exists (fw ++ M ++ I ++ X), cookie, None, true. split; [by split_and!|exact Hk]. }
    by intros ? k (X' & c' & q' & r' & (-> & -> & -> & ->) & Hk). }
  intros []. apply eq_lit; [apply core_sys_init|]. intros rc. apply total_if; intros Hrc.
  { apply negb_true_iff, Z.eqb_neq in Hrc. by apply err_loaded. }
  apply eq_lit; [apply core_cmdq_write|]. intros rc2. apply total_if; intros Hrc2; [by apply err_loaded|].
  eapply total_pre; [|intros k; apply eq_weaken; intros ????; apply lit_on].
  apply eq_on; [apply calm_on, core_image_version|]. intros _.
  apply eq_on; [apply calm_on; intros C; apply peers_debug|]. intros _.
  apply eq_on; [intros C s0 L'; refine (kept_enable_subcaches C s0 L' None _ eq_refl); by left|]. intros _.
  apply eq_on; [intros C s0 L'; refine (kept_set_subcaches C s0 L' true None _); by left|]. intros _.
  apply eq_on; [apply calm_on, core_ubwc|]. intros _.
  apply eq_on; [apply calm_on, core_idle|]. intros _.
  eapply total_bind.
  { apply (eq_lift _ _ _ _ _ _ (λ _ X' c' q' r', X' = requested q' ++ fw ++ M ++ I ++ X ∧ c' = cookie ∧ r' = true)).
    intros V Y cap rs HY. eapply total_post; [apply core_qos_ok|]. intros [] k (q & Hk).
    exists (requested q ++ fw ++ M ++ I ++ X), cookie, q, true. split; [done|]. by rewrite <- app_assoc. }
  intros []. apply total_ex. intros X'. apply total_ex. intros c'. apply total_ex. intros q.
  apply total_ex. intros r'. apply total_pure. intros (-> & -> & ->).
  apply eq_on; [apply calm_on, core_hfi_queue|]. intros _.
  apply total_ret. intros k Hk. left. split; [done|]. exists I, M, q. split; [done|]. split; [done|].
  revert Hk. apply eq_perm. solve_Permutation.
Qed.

Lemma core_queued_ok M :
  mapped M →
  total (eqp (lit true L) (M ++ X) 0 None true) (core_queued ops) (ended L X).
Proof.
  intros HM. unfold core_queued.
  eapply total_bind.
  { apply (eq_lift _ _ _ _ _ _ (λ _ X' c' q' r', (∃ I, ipcc I ∧ X' = M ++ I ++ X) ∧ c' = 0 ∧ q' = None ∧ r' = true)).
    intros V Y cap rs HY. eapply total_post; [apply map_ipcc_ok|]. intros a k (I & HI & Hk).
    exists (M ++ I ++ X), 0, None, true. split; [split; [by exists I|done]|]. revert Hk. apply st_perm. solve_Permutation. }
  intros [rc0 iova]. apply total_ex. intros X'. apply total_ex. intros c'. apply total_ex. intros q.
  apply total_ex. intros r'. apply total_pure. intros ((I & HI & ->) & -> & -> & ->).
  pose proof (ipcc_no_iova I X HI HX) as HIX. cbn [fst snd].
  eapply (total_bind _ _ (λ _, eqp (lit true L) (M ++ I ++ X) 0 None true)).
  { apply total_whenS; [intros _|done].
    apply (eq_hw _ _ (λ _, lit true L)). intros C B S _. apply lit_calm, calm_write. }
  intros [].
  eapply (total_bind _ _ (λ rc k,
    (rc = 0 ∧ eqp (lit true L) (fw ++ M ++ I ++ X) cookie None true k) ∨
    (rc ≠ 0 ∧ eqp (off true L) (M ++ I ++ X) 0 None true k))).
  { unfold __load_fw, fw, cookie. destruct loads_firmware; [|apply total_ret; by left].
    eapply total_bind.
    { apply (eq_lift _ _ _ _ _ _ (λ rc X' c' q' r', q' = None ∧ r' = true ∧
        ((rc = 0 ∧ X' = R_pas pas_id :: M ++ I ++ X ∧ c' = pas_id) ∨ (rc ≠ 0 ∧ X' = M ++ I ++ X ∧ c' = 0)))).
      intros V Y cap rs HY. eapply total_post; [by apply load_fw_impl_ok|]. intros rc k [[-> Hk]|[Hrc Hk]].
      - exists (R_pas pas_id :: M ++ I ++ X), pas_id, None, true. split; [|done]. split_and!; [done..|by left].
      - exists (M ++ I ++ X), 0, None, true. split; [|done]. split_and!; [done..|by right]. }
    intros rc. apply total_ex. intros X'. apply total_ex. intros c'. apply total_ex. intros q.
    apply total_ex. intros r'. apply total_pure. intros (-> & -> & Hc). apply total_if; intros Hrc.
    - apply negb_true_iff, Z.eqb_neq in Hrc. destruct Hc as [[? _]|(_ & -> & ->)]; [done|].
      eapply total_bind; [apply (eq_hw _ _ (λ _, off true L)); intros; by apply power_off_lit|]. intros ?.
      apply total_ret. by right.
    - apply negb_false_iff, Z.eqb_eq in Hrc as ->. destruct Hc as [(_ & -> & ->)|[? _]]; [|done].
      apply total_ret. by left. }
  intros rc. apply total_if; intros Hrc.
  { apply negb_true_iff, Z.eqb_neq in Hrc.
    eapply (total_pre _ (eqp (off true L) (M ++ I ++ X) 0 None true)); [|by intros k [[? _]|[_ ?]]].
    eapply total_post.
    { apply (err_core_kept (off true L) (off false L)); [intros; apply dev_set_state|done..]. }
    intros rc' k [-> Hk]. right. split; [done|]. exists I. split; [done|]. right. left. by exists true. }
  apply negb_false_iff, Z.eqb_eq in Hrc as ->.
  eapply (total_pre _ (eqp (lit true L) (fw ++ M ++ I ++ X) cookie None true)); [|by intros k [[_ ?]|[? _]]].
  eapply total_bind; [apply (eq_hw _ _ (λ _, lit true L)); intros; by apply lit_boot|]. intros rc.
  apply total_if; intros _; [by apply err_loaded|]. by apply core_booted_ok.
Qed.

(** ** The interface memory *)

Hypothesis Hiova : ∀ n t, b_answer n (Sgl_dma_address t) < 2 ^ 32.
Hypothesis Hfresh : ∀ n k, length (fresh_words n k) = k.
Hypothesis Hqdss : (length qdss_addr_tbl <= 255)%nat.

Lemma interface_set_up s :
  interface_ok s →
  ∃ rc s', __interface_queues_init s = Done (rc, s') ∧ interface_ok s' ∧ (rc = 0 → queues_set_up s').
Proof.
  intros [Ha Hb].
  destruct (interface_queues_init_inv Hiova Hfresh Hqdss (smems_of s) false s) as (rc & s' & E & Hs & Hr & _).
  { done. }
  exists rc, s'. split; [done|]. split; [|done].
  destruct Hs as ((Ha' & Hps & _) & Hb' & _). split; [done|]. by rewrite Hps.
Qed.

Lemma eq_queues D Y c q r :
  total (eqp D Y c q r) (on_if __interface_queues_init) (λ rc k,
    (rc = 0 ∧ eqp D Y c q true k) ∨ (rc ≠ 0 ∧ eqp D Y c q false k)).
Proof.
  intros k (C & B & S & cap & rs & Hn & Hx & Hb & Hs & (Hk & Hl & Hf & Hi & _)).
  destruct (interface_set_up (k_if k) Hi) as (rc & s' & E & Hi' & Hr).
  unfold on_if. rewrite E. eexists _, _. split; [done|]. destruct (decide (rc = 0)) as [->|Hrc].
  - left. split; [done|]. exists C, B, S, cap, rs. split_and!; [done..|]. split_and!; [done..|]. intros ?; by apply Hr.
  - right. split; [done|]. exists C, B, S, cap, rs. split_and!; [done..|]. by split_and!.
Qed.

Lemma core_powered_ok M r :
  mapped M →
  total (eqp (lit false L) (M ++ X) 0 None r) (core_powered ops) (ended L X).
Proof.
  intros HM. unfold core_powered.
  assert (Hkept : ∀ rc, rc ≠ 0 →
    total (eqp (lit false L) (M ++ X) 0 None r) (core_err_core_init ops rc) (ended L X)).
  { intros rc Hrc.
    eapply total_post; [apply (err_core_kept (lit false L) (lit false L)); [intros; apply lit_set_state|done..]|].
    intros rc' k [-> Hk]. right. split; [done|]. exists []. split; [by left|]. right. right. exists r.
    revert Hk. apply eq_weaken. intros ????. apply lit_on. }
  eapply total_bind; [apply eq_kext|]. intros rc. apply total_if; intros Hrc.
  { apply Hkept. by apply negb_true_iff, Z.eqb_neq in Hrc. }
  eapply (total_bind _ _ (λ _, eqp (lit false L) (M ++ X) 0 None r)).
  { apply total_if; intros _; by apply total_ret. }
  intros rc2. apply total_if; intros Hrc2.
  { apply Hkept. by apply negb_true_iff, Z.eqb_neq in Hrc2. }
  eapply total_bind; [apply (eq_hw _ _ (λ _, lit true L)); intros; apply lit_set_state|]. intros [].
  eapply total_bind; [apply eq_queues|]. intros rc3. apply total_if; intros Hrc3.
  2: { eapply total_pre; [by apply core_queued_ok|].
       apply negb_false_iff, Z.eqb_eq in Hrc3 as ->. by intros k [[_ ?]|[? _]]. }
  apply negb_true_iff, Z.eqb_neq in Hrc3.
  eapply (total_pre _ (eqp (lit true L) (M ++ X) 0 None false)); [|by intros k [[? _]|[_ ?]]].
  unfold core_err_init_queues.
  eapply total_bind; [apply (eq_hw _ _ (λ _, off true L)); intros; by apply power_off_lit|]. intros ?.
  eapply total_bind; [apply (deinit_resources_ok true false L)|]. intros [].
  eapply total_post; [by apply (err_core_bare true)|].
  intros rc' k [-> Hk]. right. split; [done|]. exists []. split; [by left|]. left. exists none, false.
  split; [by left|]. destruct Hk as (S & rs & HS & Hk). exists S, rs. split; [done|]. revert Hk. apply st_weaken.
  intros s. apply dev_eq. change_tac.
Qed.

(** ** The whole start *)

Lemma bare_lift {A} (m : K A) D Y c q r (Q : A → list resource → Prop) :
  (∀ V Z f, total (st V (Y ++ Z) f) m (λ a k, ∃ Y', Q a Y' ∧ st V (Y' ++ Z) f k)) →
  total (bar D Y c q r) m (λ a k, ∃ Y', Q a Y' ∧ bar D Y' c q r k).
Proof.
  intros Hm k (S & rs & HS & Hk).
  destruct (Hm (D (no_clks names) (no_buses maxs) S) (resets rs) (c, false, q, rs, r) k)
    as (a & k' & E & Y' & HQ & Hk').
  { revert Hk. apply st_perm. solve_Permutation. }
  exists a, k'. split; [done|]. exists Y'. split; [done|]. exists S, rs. split; [done|].
  revert Hk'. apply st_perm. solve_Permutation.
Qed.

Lemma bare_modify g D Y c q r :
  (∀ C B S s, D C B S s → D C B S (g s)) →
  total (bar D Y c q r) (on_hw (modify g)) (λ _, bar D Y c q r).
Proof.
  intros Hg k (S & rs & HS & Hk).
  destruct (st_hw_modify g (D (no_clks names) (no_buses maxs) S) (D (no_clks names) (no_buses maxs) S)
    (resets rs ++ Y) (c, false, q, rs, r) (Hg _ _ _) k Hk) as (a & k' & E & Hk').
  exists a, k'. split; [done|]. by exists S, rs.
Qed.

Lemma power_on_init_ok Y r :
  total (bar (off false L) Y 0 None r) (__power_on_init ops) (λ rc k,
    (rc = 0 ∧ eqp (lit false L) Y 0 None r k) ∨
    (rc ≠ 0 ∧ (released L Y k ∨ left_off L Y k))).
Proof.
  unfold __power_on_init.
  eapply total_bind; [apply (init_resources_ok false false L)|]. intros rc. apply total_if; intros Hrc.
  { apply negb_true_iff, Z.eqb_neq in Hrc. apply total_ret.
    intros k [[? _]|[_ [(S & rs & HS & Hk)|Hk]]]; [done|right; split; [done|]..].
    - left. exists none, r. split; [by left|]. exists S, rs. split; [done|]. revert Hk. apply st_weaken.
      intros s. apply dev_eq. change_tac.
    - right. by exists r. }
  apply negb_false_iff, Z.eqb_eq in Hrc as ->.
  eapply (total_pre _ (eqp (off false L) Y 0 None r)); [|by intros k [[_ ?]|[? _]]].
  unfold __initialize_packetization.
  eapply (total_bind _ _ (λ rc k, rc = 0 ∧ eqp (off false L) Y 0 None r k)).
  { eapply (total_bind _ _ (λ _, eqp (off false L) Y 0 None r)); [|intros ?; by apply total_ret].
    apply total_modify. intros k (C & B & S & cap & rs & ? & ? & ? & ? & Hk).
    exists C, B, S, cap, rs. by split_and!. }
  intros rc. apply total_pure. intros ->. cbn [Z.eqb negb].
  eapply total_bind.
  { apply (eq_hw _ _ (λ rc C B S s,
      (rc = 0 ∧ lit false L C B S s) ∨ (rc ≠ 0 ∧ ∃ d, residue_of d ∧ off false (L ⊕ d) C B S s))).
    intros. by apply power_on_dev. }
  intros rc. apply total_if; intros Hrc.
  - apply negb_true_iff, Z.eqb_neq in Hrc.
    intros k (C & B & S & cap & rs & ? & ? & ? & ? & ([[? _]|(_ & d & Hd & Hk)] & Hl)); [done|].
    destruct (deinit_resources_ok false false (L ⊕ d) Y 0 None r names maxs k) as (a & k' & E & Hk').
    { exists C, B, S, cap, rs. by split_and!. }
    rewrite St_bind_run, E. cbn [obind fst snd]. eexists _, _. split; [done|]. right. split; [done|].
    left. exists d, r. split; [by right|done].
  - apply negb_false_iff, Z.eqb_eq in Hrc. apply total_ret. intros k Hk. left. split; [done|].
    revert Hk. apply eq_weaken. by intros C B S s [[_ ?]|[? _]].
Qed.

Lemma core_init_ok r :
  total (bar (off false L) X 0 None r) (iris_hfi_core_init ops) (ended L X).
Proof.
  assert (Hrel : ∀ k, bar (off false L) X 0 None r k → released L X k).
  { intros k (S & rs & HS & Hk). exists none, r. split; [by left|]. exists S, rs. split; [done|].
    revert Hk. apply st_weaken. intros s. apply dev_eq. change_tac. }
  unfold iris_hfi_core_init.
  eapply (total_bind _ _ (λ _, bar (off false L) X 0 None r)).
  { intros k (S & rs & HS & Hk). destruct (st_kext Kzalloc _ _ _ k Hk) as (v & k' & E & Hk').
    exists v, k'. split; [done|]. by exists S, rs. }
  intros p. apply total_if; intros _.
  { apply total_ret. intros k Hk. right. split; [done|]. exists []. split; [by left|]. left. by apply Hrel. }
  eapply (total_bind _ _ (λ _, bar (off false L) X 0 None r)).
  { apply bare_modify. by intros C B S s. }
  intros ?. eapply total_bind.
  { apply (bare_lift _ _ _ _ _ _ (λ _ Y', ∃ M, mapped M ∧ Y' = M ++ X)).
    intros V Z f. eapply total_post; [by apply hwfence_map_ok|]. intros b k (M & HM & Hk).
    exists (M ++ X). split; [by exists M|]. by rewrite <- app_assoc. }
  intros ?. apply total_ex. intros Y. apply total_pure. intros (M & HM & ->).
  eapply total_bind; [apply power_on_init_ok|]. intros rc. apply total_if; intros Hrc.
  2: { eapply total_pre; [by apply core_powered_ok|]. apply negb_false_iff, Z.eqb_eq in Hrc as ->.
       by intros k [[_ ?]|[? _]]. }
  apply negb_true_iff, Z.eqb_neq in Hrc. unfold core_err_load_fw.
  eapply (total_bind _ _ (λ _ k, released L X k ∨ left_off L X k)).
  { intros k [[? _]|[_ [(d & r' & Hd & Hk)|(r' & Hk)]]]; [done|..].
    - destruct (unmap_bare (off false (L ⊕ d)) M X 0 None r' HM HX k Hk) as (b & k' & E & Hk').
      exists b, k'. split; [done|]. left. by exists d, r'.
    - destruct (unmap_eq (off false L) M X 0 None r' HM HX k Hk) as (b & k' & E & Hk').
      exists b, k'. split; [done|]. right. by exists r'. }
  intros ?. apply total_ret. intros k Hk. right. split; [done|]. exists []. split; [by left|].
  destruct Hk as [?|?]; auto.
Qed.

End start.

(** ** Shutting down *)
Section stop.
Variables (L : change) (X : list resource).
Hypotheses (HX : no_iova X) (HX' : no_ipcc X).

Variable collapsed : Prop.

(** On, or off with the residue of a resume that failed. *)
Definition any (i : bool) : family := λ C B S s,
  on i L C B S s ∨ ∃ d, ((∀ v, d v = 0) ∨ collapsed ∧ residue_of d) ∧ off i (L ⊕ d) C B S s.

Lemma any_kept {A} (m : P A) i C B S :
  (∀ s0 L' b, total (kept s0 C L' b None) m (λ _, kept s0 C L' b None)) →
  total (any i C B S) m (λ _, any i C B S).
Proof.
  intros Hm s [Hs|(d & Hd & Hs)].
  - destruct (Hm s _ _ s (dev_kept _ _ _ _ _ _ _ Hs)) as (a & s' & E & Hs'). exists a, s'. split; [done|].
    left. by eapply kept_dev.
  - destruct (Hm s _ _ s (dev_kept _ _ _ _ _ _ _ Hs)) as (a & s' & E & Hs'). exists a, s'. split; [done|].
    right. exists d. split; [done|]. by eapply kept_dev.
Qed.

Lemma any_calm {A} (m : P A) i C B S : calm C m → total (any i C B S) m (λ _, any i C B S).
Proof. intros Hm. apply any_kept. intros s0 L' b. apply calm_kept; [done|]. by right. Qed.

Lemma any_set_state i i' C B S :
  total (any i C B S) (modify (λ s, s <| hw_state_init := i' |>)) (λ _, any i' C B S).
Proof.
  intros s [Hs|(d & Hd & Hs)].
  - destruct (dev_set_state i i' _ _ _ _ _ s Hs) as (a & s' & E & Hs'). exists a, s'. split; [done|]. by left.
  - destruct (dev_set_state i i' _ _ _ _ _ s Hs) as (a & s' & E & Hs'). exists a, s'. split; [done|].
    right. by exists d.
Qed.

Lemma any_power_off i C B S :
  clk_name <$> C = names →
  total (any i C B S) (power_off_iris2 ops)
    (λ _ s, ∃ d, (leftover d ∨ collapsed ∧ residue_of d) ∧ off i (L ⊕ d) C B S s).
Proof.
  intros Hn s [Hs|(d & Hd & Hs)].
  - destruct (power_off_on i L C B S Hn s Hs) as (a & s' & E & d & Hd & Hs').
    exists a, s'. split; [done|]. exists d. split; [by left|done].
  - destruct (power_off_off i _ C B S s Hs) as (a & s' & E & Hs'). exists a, s'. split; [done|].
    exists d. split; [|done]. destruct Hd as [Hd|Hd]; [by left; left|by right].
Qed.

(** Resuming a core that is on, or whose power has collapsed. *)
Lemma resume_any C B S :
  clk_name <$> C = names →
  total (λ s, on true L C B S s ∨ collapsed ∧ off true L C B S s) (__resume ops) (λ _, any true C B S).
Proof.
  intros Hn s [Hs|[Hcol Hs]]; pose proof (HL C Hn); pose proof (dev_base _ _ _ _ _ _ _ Hs) as [Hi Hh].
  - destruct (kept_resume_exit C s (L ⊕ votes C) true None 0 s (dev_kept _ _ _ _ _ _ _ Hs))
      as (rc & s' & E & -> & Hs').
    exists 0, s'. split; [|left; by eapply kept_dev].
    with_strategy transparent [__resume] unfold __resume. srun. by rewrite (proj1 (proj2 Hs)).
  - with_strategy transparent [__resume] unfold __resume. srun. rewrite (proj1 (proj2 Hs)). srun.
    rewrite Hi. cbn [negb]. rewrite St_bind_run.
    destruct (power_on_ok C ops _ _ _ _ _ _ Hrates s L s (dev_kept _ _ _ _ _ _ _ Hs)) as (rc & s1 & E & Hs1).
    rewrite E. cbn [obind fst snd].
    destruct Hs1 as [(-> & Hp)|(Hrc & d & Hd & Hs1)].
    + cbn [Z.eqb negb].
      destruct (resume_powered_ok C ops _ _ _ _ _ _ Hsw (Hbal C) s L s1) as (rc & s' & E' & Hs').
      { by apply powered_fresh. }
      exists rc, s'. split; [done|]. destruct Hs' as [(_ & Hs' & _)|(_ & Hs')].
      * left. by eapply kept_base.
      * right. exists none. split; [by left|]. eapply kept_base; [done..|]. revert Hs'. apply kept_eq. change_tac.
    + rewrite (proj2 (Z.eqb_neq _ _) Hrc). cbn [negb]. eexists _, _. split; [done|].
      right. exists d. split; [right; split; [done|by exists C]|]. by eapply kept_base.
Qed.

(** A core that is up, on or collapsed. *)
Definition running : family := λ C B S s, on true L C B S s ∨ collapsed ∧ off true L C B S s.

Lemma release_qos_ok D Y c q r k :
  eqp D (requested q ++ Y) c q r k → q = None ∨ hw_pm_qos_latency (k_hw k) ≠ 0 →
  ∃ k', release_qos k = Done (tt, k') ∧ eqp D Y c None r k'.
Proof.
  intros Hk Hq. unfold release_qos. rewrite St_bind_run. unfold on_hw. rewrite gets_run. cbn [obind fst snd].
  assert (E : k <| k_hw := k_hw k |> = k) by by destruct k. rewrite E. clear E.
  assert (Ht : total (eqp D (requested q ++ Y) c q r)
    (t ← gets k_qos; match t with
     | Some l => whenS (negb (hw_pm_qos_latency (k_hw k) =? 0))
         (remove_qos 0 l ;; drop R_qos_table ;; modify (λ k, k <| k_qos := None |>))
     | None => mret tt end) (λ _, eqp D Y c None r)).
  { eapply eq_gets; [intros k0 cap rs; unfold flags_of; by intros [= _ _ -> _]|].
    destruct q as [l|]; [|by apply total_ret].
    destruct Hq as [?|Hq]; [done|]. rewrite (proj2 (Z.eqb_neq _ _) Hq). cbn [negb whenS].
    eapply total_post.
    { apply (eq_lift _ _ _ _ _ _ (λ _ X' c' q' r', X' = Y ∧ c' = c ∧ q' = None ∧ r' = r)).
      intros V Z cap rs HZ. cbn [requested].
      eapply total_bind.
      { eapply total_pre; [apply (remove_qos_ok V (R_qos_table :: Y ++ Z) (c, cap, Some l, rs, r) 0 l)|].
        intros k0. apply st_perm. solve_Permutation. }
      intros []. eapply total_bind; [by apply (st_drop _ _ _ (Y ++ Z))|]. intros [].
      eapply total_post.
      { apply (st_modify _ _ _ _ (c, cap, None, rs, r)); [done| |done].
        intros k0. unfold flags_of. cbn. by intros [= -> -> _ ->]. }
      intros [] k0 Hk0. by exists Y, c, None, r. }
    by intros [] k0 (X' & c' & q' & r' & (-> & -> & -> & ->) & Hk0). }
  destruct (Ht k Hk) as ([] & k' & E & Hk'). by exists k'.
Qed.

Lemma core_release_ok I M q r k :
  ipcc I → mapped M → q = None ∨ hw_pm_qos_latency (k_hw k) ≠ 0 →
  eqp running (requested q ++ R_pas pas_id :: M ++ I ++ X) pas_id q r k →
  ∃ rc k', iris_hfi_core_release ops k = Done (rc, k') ∧
    ∃ I' d, ipcc I' ∧ (leftover d ∨ collapsed ∧ residue_of d) ∧ bar (off false (L ⊕ d)) (I' ++ X) 0 None r k'.
Proof.
  intros HI HM Hq Hk. destruct (release_qos_ok _ _ _ _ _ _ Hk Hq) as (k1 & E1 & Hk1).
  unfold iris_hfi_core_release. rewrite St_bind_run, E1. cbn [obind fst snd]. revert k1 Hk1 E1. intros k1 Hk1 _.
  revert k1 Hk1.
  change (total (eqp running (R_pas pas_id :: M ++ I ++ X) pas_id None r)
    (on_hw (__resume ops) ;; __set_state false ;;
     rc ← on_hw (__tzbsp_set_cvp_state TZ_SUBSYS_STATE_SUSPEND);
     whenS (negb dsp_disable) (on_hw peer_dsp_shutdown ;; mret tt) ;;
     on_hw __disable_subcaches ;;
     v ← on_hw (__read_register CVP_MMAP_ADDR);
     msm_cvp_unmap_ipcc_regs (u32 v) ;;
     __unload_fw ops ;; __hwfence_regs_unmap ;;
     if mmrm_enabled then msm_cvp_mmrm_deregister else mret rc)
    (λ _ k', ∃ I' d, ipcc I' ∧ (leftover d ∨ collapsed ∧ residue_of d) ∧ bar (off false (L ⊕ d)) (I' ++ X) 0 None r k')).
  eapply total_bind; [apply (eq_hw _ _ (λ _, any true)); intros; by apply resume_any|]. intros ?.
  eapply total_bind; [apply (eq_hw _ _ (λ _, any false)); intros; apply any_set_state|]. intros [].
  eapply total_bind; [apply (eq_hw _ _ (λ _, any false)); intros; by apply any_calm, calm_hext|]. intros rc.
  eapply (total_bind _ _ (λ _, eqp (any false) (R_pas pas_id :: M ++ I ++ X) pas_id None r)).
  { apply total_whenS; [intros _|done].
    eapply total_bind; [apply (eq_hw _ _ (λ _, any false)); intros; apply any_calm, core_dsp_shutdown|].
    intros ?. by apply total_ret. }
  intros []. eapply total_bind.
  { apply (eq_hw _ _ (λ _, any false)). intros. apply any_kept. intros s0 L' b.
    refine (kept_disable_subcaches _ s0 L' b None _). by right. }
  intros ?. eapply total_bind; [apply (eq_hw _ _ (λ _, any false)); intros; apply any_calm, calm_read|]. intros v.
  eapply total_bind.
  { apply (eq_lift _ _ _ _ _ _ (λ _ X' c' q' r',
      (∃ I', ipcc I' ∧ X' = R_pas pas_id :: M ++ I' ++ X) ∧ c' = pas_id ∧ q' = None ∧ r' = r)).
    intros V Y cap rs HY. eapply total_conseq.
    - apply (unmap_ipcc_ok V (R_pas pas_id :: M ++ X ++ Y) (pas_id, cap, None, rs, r) I (u32 v) HI).
      constructor; [done|]. apply list.Forall_app. split; [|apply list.Forall_app; split; [done|by apply table_no_ipcc]].
      apply list.Forall_forall. intros x Hx. destruct HM as [HM _].
      by destruct (windows_iova x reg_mappings (elem_of_sublist _ _ _ Hx HM)) as (? & ? & ->).
    - intros k0. apply st_perm. solve_Permutation.
    - intros b k0 (I' & HI' & Hk0). exists (R_pas pas_id :: M ++ I' ++ X), pas_id, None, r.
      split; [split; [by exists I'|done]|]. revert Hk0. apply st_perm. solve_Permutation. }
  intros ?. apply total_ex. intros X'. apply total_ex. intros c'. apply total_ex. intros q'.
  apply total_ex. intros r'. apply total_pure. intros ((I' & HI' & ->) & -> & -> & ->).
  eapply total_bind.
  { apply (unload_eq (any false) (λ d, leftover d ∨ collapsed ∧ residue_of d) false L (M ++ I' ++ X)).
    - intros. apply any_calm, calm_gets.
    - intros. apply any_calm. unfold hcall_. apply gives_map. by apply calm_hext.
    - intros. by apply any_power_off. }
  intros []. apply total_ex. intros d. apply total_pure. intros Hd.
  eapply total_bind; [by apply unmap_bare; [|apply ipcc_no_iova]|]. intros ?.
  apply total_if; intros _; apply total_ret; intros k0 Hk0; by exists I', d.
Qed.

End stop.

(** ** The states of a core *)

(** Before a start and after an end: nothing is powered and there are no handles, but those
    of the reset controls, which are kept. *)
Definition at_rest (k : core) : Prop :=
  hw_power_enabled (k_hw k) = false ∧ hw_state_init (k_hw k) = false ∧
  hw_clocks (k_hw k) = no_clks names ∧ hw_buses (k_hw k) = no_buses maxs ∧
  unused (sc_subcache <$> hw_subcaches (k_hw k)) ∧
  k_capabilities k = false ∧ k_cookie k = 0 ∧ k_qos k = None ∧ interface_ok (k_if k).

(** Every handle is there. *)
Definition outfitted (k : core) : Prop :=
  clk_name <$> hw_clocks (k_hw k) = names ∧ bus_max <$> hw_buses (k_hw k) = maxs ∧
  Forall (λ b, bus_client b ≠ 0) (hw_buses (k_hw k)) ∧
  (no_cache = true → unused (sc_subcache <$> hw_subcaches (k_hw k))) ∧ interface_ok (k_if k).

(** What the core's tables say is held. *)
Definition tables (k : core) : list resource :=
  clks (hw_clocks (k_hw k)) ++ buses (hw_buses (k_hw k)) ++
  slices (sc_subcache <$> hw_subcaches (k_hw k)) ++ caps (k_capabilities k) ++ resets (k_resets k).

Lemma st_of (V : hw → Prop) k X f :
  V (k_hw k) → k_live k ≡ₚ X → interface_ok (k_if k) → flags_of k = f → st V X (f, false) k.
Proof. intros ? Hl ? ?. split; [done|]. split; [exact Hl|done]. Qed.

Lemma rest_bare k X :
  at_rest k → k_live k ≡ₚ tables k ++ X →
  bar (off false (account (hw_trace (k_hw k)))) X 0 None false k.
Proof.
  intros (Hp & Hi & Hc & Hb & Hs & Hcap & Hck & Hq & Hif) Hl.
  exists (sc_subcache <$> hw_subcaches (k_hw k)), (k_resets k). split; [done|].
  unfold tables in Hl. rewrite Hc, Hb, Hcap, clks_none, buses_none, (slices_none _ Hs) in Hl.
  apply st_of; [by repeat split|by rewrite Hl|done|]. unfold flags_of. congruence.
Qed.

Lemma bare_rest L X r k :
  bar (off false L) X 0 None r k →
  at_rest k ∧ k_live k ≡ₚ tables k ++ X ∧ ∀ v, account (hw_trace (k_hw k)) v = L v.
Proof.
  intros (S & rs & HS & (Ha & Hp & Hc & Hi & Hb & Hs) & Hl & Hf & Hif & _).
  unfold flags_of in Hf. injection Hf as Hck Hcap Hq Hrs. split; [|split; [|done]].
  - split_and!; try done. by rewrite Hs.
  - unfold tables. rewrite Hc, Hb, Hs, Hcap, Hrs, clks_none, buses_none, (slices_none _ HS). done.
Qed.

Lemma eq_outfitted b i L D X c q r k :
  eqp D X c q r k → (∀ C B S s, D C B S s → dev i b (L C) C B S s) →
  outfitted k ∧ k_live k ≡ₚ tables k ++ X ∧ k_cookie k = c ∧ k_qos k = q ∧
  hw_power_enabled (k_hw k) = b ∧ hw_state_init (k_hw k) = i ∧
  (∀ v, account (hw_trace (k_hw k)) v = L (hw_clocks (k_hw k)) v) ∧
  (r = true → queues_set_up (k_if k)).
Proof.
  intros (C & B & S & cap & rs & Hn & Hx & Hb & Hs & Hd & Hl & Hf & Hif & Hr) HD.
  apply HD in Hd as (Ha & Hp & Hc & Hi & HB & HS). unfold flags_of in Hf. injection Hf as Hck Hcap Hq Hrs.
  unfold outfitted, tables. rewrite Hc, HB, HS, Hcap, Hrs, !Hl. split_and!; try done. solve_Permutation.
Qed.

(** The votes of a core that is on or collapsed. *)
Definition current (k : core) : change :=
  if hw_power_enabled (k_hw k) then votes (hw_clocks (k_hw k)) else none.

Lemma outfitted_eq k X :
  outfitted k → hw_state_init (k_hw k) = true → k_live k ≡ₚ tables k ++ X →
  eqp (running (account (hw_trace (k_hw k)) ⊖ current k) (hw_power_enabled (k_hw k) = false)) X (k_cookie k) (k_qos k) false k.
Proof.
  intros (Hn & Hm & Hb & Hs & Hif) Hi Hl.
  exists (hw_clocks (k_hw k)), (hw_buses (k_hw k)), (sc_subcache <$> hw_subcaches (k_hw k)),
    (k_capabilities k), (k_resets k).
  split_and!; try done. apply st_of; [|by rewrite Hl; unfold tables; solve_Permutation|done|done].
  unfold running, current, on, off, dev. destruct (hw_power_enabled (k_hw k)); [left|right];
    split_and!; try done; intros v; unfold plus, minus, none; lia.
Qed.

(** * Properties *)



End bringup.

(** * A concrete core *)
Module CoreScenario.
Import PowerScenario.

#[local] Existing Instance SetupScenario.env.
#[local] Existing Instance SetupScenario.setup_env.

(** Every call succeeds; handles are told apart by the call that returned them. *)
Definition granting (n : nat) (c : ccall) : Z :=
  match c with
  | Clk_get _ | Reset_control_get_exclusive_released _ | Devm_reset_control_get _ | Of_icc_get _
  | Llcc_slice_getd _ => 100 + Z.of_nat n
  | Kzalloc | Dma_map_resource _ _ | Memremap | Qcom_mdt_get_size => 4096
  | _ => 0
  end.

Definition core_env (answer : nat → ccall → Z) : CoreEnv := {|
  c_answer := answer;
  reg_mappings := [(0x17A00000, 0xF0000000, 4096); (0, 0, 0); (0x17B00000, 0xF0010000, 4096)];
  ipcc_regs := (0x400000, 0x100000);
  mmrm_enabled := false;
  use_non_secure_pil := false;
  res_firmware_base := 0;
  fw_name := Some "evass"%string;
  memory_region := Some 0x700000;
  pas_id := 26;
  dsp_disable := true
|}.

#[export] Instance granting_env : CoreEnv := core_env granting.

#[export] Instance core_peers : CorePeers := {
  peer_sys_init := mret 0;
  peer_cmdq_write_sys_init := mret 0;
  peer_image_version := mret 0;
  peer_set_ubwc_config := mret 0;
  peer_idle_indicator := mret 0;
  peer_send_hfi_queue := mret tt;
  peer_dsp_shutdown := mret 0
}.

#[export] Instance core_peers_laws : CorePeersLaws.
Proof. split; intros C; apply gives_ret. Qed.

Definition the_names : list string := clk_name <$> clocks.
Definition the_maxs : list Z := [100].

#[export] Instance every_law C (HC : clk_name <$> C = the_names) : HalLaws C hal_ops_hawi _ _ _ _ _ _ :=
  hawi_laws C (eq_ind_r (λ l, NoDup l) clocks_named_apart HC) domains_known.

Lemma windows_given : windows_ok.
Proof. split; [apply (bool_decide_unpack _); by vm_compute|]. repeat (constructor; [done|]). constructor. Qed.

Lemma loader_given : loader_ok.
Proof. split; [|done]. by intros n []. Qed.

Definition resting : hw :=
  mkHw false 0 0 (None, 0) (no_clks the_names) (no_buses the_maxs)
    [mkSubcache "cvp" false false 0; mkSubcache "cvpfw" false false 0] false 0 0 70
    false [] 0 false [].

Definition reset_table : list reset_info :=
  [mkReset 0 CVP_ON_INIT RESET_INIT "cvp_axi_reset"; mkReset 0 CVP_ON_USE RESET_INIT "cvp_xo_reset"].

Definition core_at_rest : core :=
  mkCore resting SetupScenario.probed reset_table [] false false 0 None 0 0 0.

Lemma really_at_rest : at_rest the_names the_maxs core_at_rest.
Proof. split_and!; try done; [by repeat constructor|apply SetupScenario.probed_ok]. Qed.

(** What a start returns, and whether the power is on afterwards. *)
Definition start_result (o : outcome (Z * core)) : option (Z * bool * Z) :=
  match o with Done (rc, k) => Some (rc, hw_power_enabled (k_hw k), k_cookie k) | Fault => None end.

Lemma start_succeeds : start_result (iris_hfi_core_init hal_ops_hawi core_at_rest) = Some (0, true, 26).
Proof. by vm_compute. Qed.

(** The recovery of the fences fails: nothing is switched off again, and the handles stay. *)
Definition no_synx (n : nat) (c : ccall) : Z := if c is Synx_recover then -5 else granting n c.

Lemma failed_recovery_leaves_power_on :
  start_result (@iris_hfi_core_init _ _ _ _ (core_env no_synx) _ hal_ops_hawi core_at_rest) =
  Some (-5, true, 0).
Proof. by vm_compute. Qed.


(** A core that is up, its requests and its first window held. *)
Definition powered : hw :=
  mkHw true 0 400000000 (Some [0], 1) clocks [mkBus 31 100] [mkSubcache "cvp" true true 41]
    true 0 0 70 false [] 0 true [].

Definition core_up : core :=
  mkCore powered SetupScenario.probed [mkReset 7 CVP_ON_USE RESET_INIT "cvp_xo_reset"]
    ([R_clk 11; R_clk 12; R_clk 13; R_clk 14; R_clk 15; R_clk 16; R_clk 17; R_clk 18; R_clk 19;
      R_icc 31; R_llcc 41; R_capabilities; R_reset 7; R_qos_table; R_qos 0; R_pas 26;
      R_iova 0xF0000000 4096; R_ipcc 0x400000])
    true true 26 (Some [true; false]) 0x400000 0 0.

Lemma really_outfitted : outfitted the_names the_maxs core_up.
Proof.
  split_and!; try done; [by constructor|apply SetupScenario.probed_ok].
Qed.


End CoreScenario.
