(* ===== verification/Platform.v ===== *)
(** The platforms the driver knows (src/msm/eva/msm_cvp_platform.c): per platform the
    numbers and tables that its resources are read from, and the table of compatible strings
    that selects one.  Pointers that a platform leaves out are [None]; the identifiers of
    clocks come from headers of the kernel and are parameters ([ClockBindings]). *)

From stdpp Require Import strings.
From S2P Require Import Prelude Dsp HfiPacket Store Hw.
Open Scope Z_scope.

(** * Data *)

Definition VPU_VERSION_4 : Z := 1.
Definition VPU_VERSION_5 : Z := 2.
Definition DEFAULT_HAL_VER : Z := 1.
Definition KNP_HAL_VER : Z := 2.
Definition HAWI_HAL_VER : Z := 3.
Definition GLYMUR_HAL_VER : Z := 4.

(** The tables of packet definitions of the two interface versions (HfiDefs.v has the
    second). *)
Inductive hfi_tables := HFI_V1 | HFI_V2.

Record cvp_reg_region := mkRegion { rr_base : Z; rr_size : Z }.
Record cvp_bus_desc :=
  mkBusDesc { bd_name : string; bd_governor : option string; bd_min_bw : Z; bd_max_bw : Z }.
Record cvp_regspace_data := mkRegspace { rs_iova : Z; rs_size : Z; rs_phys : Z }.
Record cvp_regspace_mappings := mkRegspaces {
  rm_hwmutex : cvp_regspace_data; rm_aon : cvp_regspace_data; rm_aon_timer : cvp_regspace_data
}.
Record cvp_iommu_context_bank := mkBank {
  icb_name : string; icb_buffer_type : Z; icb_iova_start : Z; icb_iova_size : Z; icb_vmid : Z
}.

Class ClockBindings := {
  GCC_EVA_AXI0C_CLK : Z;
  GCC_EVA_AXI0_CLK : Z;
  EVA_CC_SLEEP_CLK : Z;
  EVA_CC_MVS0C_FREERUN_CLK : Z;
  EVA_CC_MVS0C_CLK : Z;
  EVA_CC_MVS0_FREERUN_CLK : Z;
  EVA_CC_MVS0_CLK : Z
}.

(** Descriptors of a table and its length are the table. *)
Record msm_cvp_platform_data := mkPdata {
  pdata_common_data : list (string * Z);
  pdata_common_data_length : nat;
  pdata_sku_version : Z;
  pdata_vpu_ver : Z;
  pdata_vm_id : Z;
  pdata_ubwc_config : option msm_cvp_ubwc_config_data;
  pdata_noc_qos : option msm_cvp_qos_setting;
  pdata_cvp_hfi : hfi_tables;
  pdata_hfi_ver : Z;
  pdata_hal_version : Z;
  pdata_pas_id : Z;
  pdata_gcc_regs : option cvp_reg_region;
  pdata_ipcc_regs : option cvp_reg_region;
  pdata_regspace_mappings : option cvp_regspace_mappings;
  pdata_reg_presets : option (list (Z * Z));
  pdata_reset_power_sets : option (list Z);
  pdata_power_domains : option (list Z);
  pdata_clock_props : option (list Z);
  pdata_clock_ids : option (list Z);
  pdata_num_clock_ids : nat;
  pdata_allowed_clk_rates : option (list Z);
  pdata_opp_clk_tbl : option (list string);
  pdata_opp_pd_tbl : option (list string);
  pdata_bus_descs : option (list cvp_bus_desc);
  pdata_subcache_desc : option (list string);
  pdata_ipclite_mappings : option Z;
  pdata_cb_data : option (list cvp_iommu_context_bank)
}.

#[global] Instance eta_ubwc : Eta msm_cvp_ubwc_config_data :=
  λ r, mkUbwc (max_channel_override r) (mal_length_override r) (hb_override r)
    (bank_swzl_level_override r) (bank_spreading_override r) (max_channels r) (mal_length r)
    (highest_bank_bit r) (bank_swzl_level r) (bank_spreading r).
#[global] Instance eta_pdata : Eta msm_cvp_platform_data :=
  λ r, mkPdata (pdata_common_data r) (pdata_common_data_length r) (pdata_sku_version r)
    (pdata_vpu_ver r) (pdata_vm_id r) (pdata_ubwc_config r) (pdata_noc_qos r) (pdata_cvp_hfi r)
    (pdata_hfi_ver r) (pdata_hal_version r) (pdata_pas_id r) (pdata_gcc_regs r)
    (pdata_ipcc_regs r) (pdata_regspace_mappings r) (pdata_reg_presets r)
    (pdata_reset_power_sets r) (pdata_power_domains r) (pdata_clock_props r)
    (pdata_clock_ids r) (pdata_num_clock_ids r) (pdata_allowed_clk_rates r)
    (pdata_opp_clk_tbl r) (pdata_opp_pd_tbl r) (pdata_bus_descs r) (pdata_subcache_desc r)
    (pdata_ipclite_mappings r) (pdata_cb_data r).

(** A platform that fills in the first fields only. *)
Definition plain_data (common : list (string * Z)) (len : nat) (vm_id : Z)
    (ubwc : option msm_cvp_ubwc_config_data) (qos : option msm_cvp_qos_setting)
    (hfi : hfi_tables) (hal : Z) : msm_cvp_platform_data :=
  mkPdata common len 0 VPU_VERSION_5 vm_id ubwc qos hfi
    (match hfi with HFI_V1 => 1 | HFI_V2 => 2 end) hal 0
    None None None None None None None None 0 None None None None None None None.

(** * The platforms *)

Definition default_common_data : list (string * Z) :=
  [("qcom,auto-pil", 1)].

Definition sm8450_common_data : list (string * Z) :=
  [("qcom,pm-qos-latency-us", 50); ("qcom,sw-power-collapse", 1);
   ("qcom,domain-attr-non-fatal-faults", 1); ("qcom,max-secure-instances", 2);
   ("qcom,max-supported-instances", 16); ("qcom,max-ssr-allowed", 1);
   ("qcom,power-collapse-delay", 3000); ("qcom,hw-resp-timeout", 2000);
   ("qcom,dsp-resp-timeout", 1000); ("qcom,debug-timeout", 0); ("qcom,dsp-enabled", 1)].

Definition sm8550_common_data : list (string * Z) :=
  [("qcom,pm-qos-latency-us", 50); ("qcom,sw-power-collapse", 1);
   ("qcom,domain-attr-non-fatal-faults", 0); ("qcom,max-secure-instances", 2);
   ("qcom,max-supported-instances", 16); ("qcom,max-ssr-allowed", 1);
   ("qcom,power-collapse-delay", 3000); ("qcom,hw-resp-timeout", 2000);
   ("qcom,dsp-resp-timeout", 1000); ("qcom,debug-timeout", 0); ("qcom,dsp-enabled", 1)].

Definition sm8550_tvm_common_data : list (string * Z) :=
  [("qcom,pm-qos-latency-us", 50); ("qcom,sw-power-collapse", 0);
   ("qcom,domain-attr-non-fatal-faults", 0); ("qcom,max-secure-instances", 2);
   ("qcom,max-supported-instances", 16); ("qcom,max-ssr-allowed", 1);
   ("qcom,power-collapse-delay", 3000); ("qcom,hw-resp-timeout", 2000);
   ("qcom,dsp-resp-timeout", 1000); ("qcom,debug-timeout", 0); ("qcom,dsp-enabled", 0)].

Definition sm8650_common_data : list (string * Z) :=
  [("qcom,pm-qos-latency-us", 50); ("qcom,sw-power-collapse", 0);
   ("qcom,domain-attr-non-fatal-faults", 0); ("qcom,max-secure-instances", 2);
   ("qcom,max-supported-instances", 16); ("qcom,max-ssr-allowed", 1);
   ("qcom,power-collapse-delay", 3000); ("qcom,hw-resp-timeout", 100000);
   ("qcom,dsp-resp-timeout", 100000); ("qcom,debug-timeout", 0); ("qcom,dsp-enabled", 1)].

Definition sm8750_common_data : list (string * Z) :=
  [("qcom,pm-qos-latency-us", 50); ("qcom,sw-power-collapse", 1);
   ("qcom,domain-attr-non-fatal-faults", 0); ("qcom,max-secure-instances", 2);
   ("qcom,max-supported-instances", 16); ("qcom,max-ssr-allowed", 1);
   ("qcom,power-collapse-delay", 3000); ("qcom,hw-resp-timeout", 2000);
   ("qcom,dsp-resp-timeout", 1000); ("qcom,debug-timeout", 0); ("qcom,dsp-enabled", 1)].

Definition sm8735_common_data : list (string * Z) :=
  [("qcom,pm-qos-latency-us", 50); ("qcom,sw-power-collapse", 1);
   ("qcom,domain-attr-non-fatal-faults", 0); ("qcom,max-secure-instances", 2);
   ("qcom,max-supported-instances", 16); ("qcom,max-ssr-allowed", 1);
   ("qcom,power-collapse-delay", 3000); ("qcom,hw-resp-timeout", 2000);
   ("qcom,dsp-resp-timeout", 1000); ("qcom,debug-timeout", 0); ("qcom,dsp-enabled", 1);
   ("qcom,rcg_vnoc_clk_en_low", 0x8)].

Definition sm8850_common_data : list (string * Z) :=
  [("qcom,pm-qos-latency-us", 50); ("qcom,sw-power-collapse", 0);
   ("qcom,domain-attr-non-fatal-faults", 0); ("qcom,max-secure-instances", 2);
   ("qcom,max-supported-instances", 32); ("qcom,max-ssr-allowed", 1);
   ("qcom,power-collapse-delay", 3000); ("qcom,hw-resp-timeout", 2000);
   ("qcom,dsp-resp-timeout", 1000); ("qcom,debug-timeout", 0); ("qcom,dsp-enabled", 0);
   ("CVP_GDSC_FRAMEWORK_TYPE", 1)].

Definition sm8845_common_data : list (string * Z) :=
  [("qcom,pm-qos-latency-us", 50); ("qcom,sw-power-collapse", 1);
   ("qcom,domain-attr-non-fatal-faults", 0); ("qcom,max-secure-instances", 2);
   ("qcom,max-supported-instances", 32); ("qcom,max-ssr-allowed", 1);
   ("qcom,power-collapse-delay", 3000); ("qcom,hw-resp-timeout", 2000);
   ("qcom,dsp-resp-timeout", 1000); ("qcom,debug-timeout", 0); ("qcom,dsp-enabled", 1);
   ("qcom,qos_noc_urgency_low_a_bitmask", 0x30); ("qcom,qos_noc_urgency_low_b_bitmask", 0x3)].

Definition sm8975_common_data : list (string * Z) :=
  [("qcom,pm-qos-latency-us", 50); ("qcom,sw-power-collapse", 1);
   ("qcom,domain-attr-non-fatal-faults", 0); ("qcom,max-secure-instances", 2);
   ("qcom,max-supported-instances", 32); ("qcom,max-ssr-allowed", 1);
   ("qcom,power-collapse-delay", 3000); ("qcom,hw-resp-timeout", 2000);
   ("qcom,dsp-resp-timeout", 1000); ("qcom,debug-timeout", 0); ("qcom,dsp-enabled", 1);
   ("qcom,qos_noc_urgency_low_a_bitmask", 0x30); ("qcom,qos_noc_urgency_low_b_bitmask", 0x3)].

Definition sm8950_common_data : list (string * Z) :=
  [("qcom,pm-qos-latency-us", 50); ("qcom,sw-power-collapse", 1);
   ("qcom,domain-attr-non-fatal-faults", 0); ("qcom,max-secure-instances", 2);
   ("qcom,max-supported-instances", 32); ("qcom,max-ssr-allowed", 1);
   ("qcom,power-collapse-delay", 3000); ("qcom,hw-resp-timeout", 2000);
   ("qcom,dsp-resp-timeout", 1000); ("qcom,debug-timeout", 0);
   ("qcom,qos_noc_urgency_low_a_bitmask", 0x30); ("qcom,qos_noc_urgency_low_b_bitmask", 0x3);
   ("qcom,core_noc_cx_pd_disable", 1)].

Definition kona_ubwc_data : msm_cvp_ubwc_config_data :=
  mkUbwc true true true false false 8 32 16 0 0.

Definition waipio_noc_qos : msm_cvp_qos_setting := {|
  axi_qos := 0x99;
  prioritylut_low := 0x22222222;
  prioritylut_high := 0x33333333;
  urgency_low := 0x1022;
  urgency_low_ro := 0;
  dangerlut_low := 0x0;
  safelut_low := 0xffff
|}.

Definition pakala_noc_qos : msm_cvp_qos_setting := {|
  axi_qos := 0x99;
  prioritylut_low := 0x33333333;
  prioritylut_high := 0x33333333;
  urgency_low := 0x1033;
  urgency_low_ro := 0x1003;
  dangerlut_low := 0x0;
  safelut_low := 0xffff
|}.

Definition cvp_glymur_desc : list string := ["cvp"].

Definition cvp_bus_glymur_descs : list cvp_bus_desc :=
  [mkBusDesc "eva-cfg" (Some "performance") 1000 1000;
   mkBusDesc "eva-ddr" (Some "performance") 1000 6533000].

Definition cvp_glymur_reg_presets : list (Z * Z) := [(0xB0088, 0x0)].

Definition cvp_glymur_gcc_reg : cvp_reg_region := mkRegion 0x110000 0x90000.

Definition cvp_glymur_ipcc_reg : cvp_reg_region := mkRegion 0x400000 0x100000.

Definition cvp_glymur_reset_power_set_desc : list Z := [0x0].

Definition cvp_glymur_regspace : cvp_regspace_mappings := {|
  rm_hwmutex := mkRegspace 0xFFB00000 0x2000 0x1f4a000;
  rm_aon := mkRegspace 0xFF80F000 0x1000 0x0ABE0000;
  rm_aon_timer := mkRegspace 0xFFA00000 0x1000 0xc220000
|}.

Definition glymur_power_domains : list Z := [0x0; 0x1].

Definition glymur_clock_props : list Z := [0x0; 0x0; 0x0; 0x1; 0x0; 0x0; 0x1].

Definition glymur_allowed_clocks : list Z :=
  [350000000; 400000000; 450000000; 500000000; 550000000].

Definition glymur_eva_opp_clk_names : list string := ["core0"; "eva0"].

Definition glymur_opp_pd_table : list string := ["mxc"; "mmcx"].

Definition cvp_glymur_ipclite_desc : Z := 0xFE500000.

Definition glymur_cvp_context_banks : list cvp_iommu_context_bank :=
  [mkBank "eva_hlos" 0xfff 0x4b000000 0x90000000 0;
   mkBank "eva_sec_nonpixel" 0x741 0x01000000 0x25800000 0xB;
   mkBank "eva_sec_pixel" 0x106 0x26800000 0x24800000 0xA].

Definition eva_glymur_clock_ids `{ClockBindings} : list Z :=
  [GCC_EVA_AXI0C_CLK; EVA_CC_SLEEP_CLK; EVA_CC_MVS0C_FREERUN_CLK; EVA_CC_MVS0C_CLK;
   GCC_EVA_AXI0_CLK; EVA_CC_MVS0_FREERUN_CLK; EVA_CC_MVS0_CLK].

Definition cvp_kaanapali_desc : list string := ["cvpfw"; "cvp"].

Definition cvp_bus_kaanapali_descs : list cvp_bus_desc :=
  [mkBusDesc "eva-cfg" (Some "performance") 1000 1000;
   mkBusDesc "eva-ddr" (Some "performance") 1000 6533000].

Definition cvp_kaanapali_reg_presets : list (Z * Z) := [(0xB0088, 0x0)].

Definition cvp_kaanapali_gcc_reg : cvp_reg_region := mkRegion 0x110000 0x90000.

Definition cvp_kaanapali_ipcc_reg : cvp_reg_region := mkRegion 0x400000 0x100000.

Definition cvp_kaanapali_reset_power_set_desc : list Z := [0x0].

Definition cvp_kaanapali_regspace : cvp_regspace_mappings := {|
  rm_hwmutex := mkRegspace 0xFFB00000 0x2000 0x1f4a000;
  rm_aon := mkRegspace 0xFF80F000 0x1000 0x0ABE0000;
  rm_aon_timer := mkRegspace 0xFFA00000 0x1000 0xc220000
|}.

Definition kaanapali_power_domains : list Z := [0x0; 0x1].

Definition kaanapali_clock_props : list Z := [0x0; 0x0; 0x0; 0x1; 0x0; 0x0; 0x1].

Definition kaanapali_allowed_clocks : list Z :=
  [350000000; 400000000; 450000000; 500000000; 550000000].

Definition kaanapali_eva_opp_clk_names : list string := ["core0"; "eva0"].

Definition kaanapali_opp_pd_table : list string := ["mxc"; "mmcx"].

Definition cvp_kaanapali_ipclite_desc : Z := 0xFE500000.

Definition kaanapali_cvp_context_banks : list cvp_iommu_context_bank :=
  [mkBank "eva_hlos" 0xfff 0x4b000000 0x90000000 0;
   mkBank "eva_sec_nonpixel" 0x741 0x01000000 0x25800000 0xB;
   mkBank "eva_sec_pixel" 0x106 0x26800000 0x24800000 0xA].

Definition eva_kaanapali_clock_ids `{ClockBindings} : list Z :=
  [GCC_EVA_AXI0C_CLK; EVA_CC_SLEEP_CLK; EVA_CC_MVS0C_FREERUN_CLK; EVA_CC_MVS0C_CLK;
   GCC_EVA_AXI0_CLK; EVA_CC_MVS0_FREERUN_CLK; EVA_CC_MVS0_CLK].

Definition default_data : msm_cvp_platform_data :=
  plain_data default_common_data (length default_common_data) 1 None None HFI_V1 DEFAULT_HAL_VER.

Definition sm8450_data : msm_cvp_platform_data :=
  plain_data sm8450_common_data (length sm8450_common_data) 1 (Some kona_ubwc_data) (Some waipio_noc_qos) HFI_V1 DEFAULT_HAL_VER.

Definition sm8550_data : msm_cvp_platform_data :=
  plain_data sm8550_common_data (length sm8550_common_data) 1 (Some kona_ubwc_data) (Some waipio_noc_qos) HFI_V1 DEFAULT_HAL_VER.

Definition sm8550_tvm_data : msm_cvp_platform_data :=
  plain_data sm8550_tvm_common_data (length sm8550_tvm_common_data) 2 (Some kona_ubwc_data) (Some waipio_noc_qos) HFI_V1 DEFAULT_HAL_VER.

Definition sm8650_data : msm_cvp_platform_data :=
  plain_data sm8650_common_data (length sm8650_common_data) 1 (Some kona_ubwc_data) (Some waipio_noc_qos) HFI_V1 DEFAULT_HAL_VER.

Definition sm8750_data : msm_cvp_platform_data :=
  plain_data sm8750_common_data (length sm8650_common_data) 1 (Some kona_ubwc_data) (Some pakala_noc_qos) HFI_V1 DEFAULT_HAL_VER.

Definition sm8735_data : msm_cvp_platform_data :=
  plain_data sm8735_common_data (length sm8735_common_data) 1 (Some kona_ubwc_data) (Some pakala_noc_qos) HFI_V1 DEFAULT_HAL_VER.

Definition sm8850_data `{ClockBindings} : msm_cvp_platform_data :=
  (plain_data sm8850_common_data (length sm8850_common_data) 1 (Some kona_ubwc_data) (Some pakala_noc_qos) HFI_V2 KNP_HAL_VER)
    <| pdata_pas_id := 26 |>
    <| pdata_gcc_regs := Some cvp_kaanapali_gcc_reg |>
    <| pdata_ipcc_regs := Some cvp_kaanapali_ipcc_reg |>
    <| pdata_regspace_mappings := Some cvp_kaanapali_regspace |>
    <| pdata_reg_presets := Some cvp_kaanapali_reg_presets |>
    <| pdata_reset_power_sets := Some cvp_kaanapali_reset_power_set_desc |>
    <| pdata_power_domains := Some kaanapali_power_domains |>
    <| pdata_clock_props := Some kaanapali_clock_props |>
    <| pdata_clock_ids := Some eva_kaanapali_clock_ids |>
    <| pdata_num_clock_ids := length eva_kaanapali_clock_ids |>
    <| pdata_allowed_clk_rates := Some kaanapali_allowed_clocks |>
    <| pdata_opp_clk_tbl := Some kaanapali_eva_opp_clk_names |>
    <| pdata_opp_pd_tbl := Some kaanapali_opp_pd_table |>
    <| pdata_bus_descs := Some cvp_bus_kaanapali_descs |>
    <| pdata_subcache_desc := Some cvp_kaanapali_desc |>
    <| pdata_ipclite_mappings := Some cvp_kaanapali_ipclite_desc |>
    <| pdata_cb_data := Some kaanapali_cvp_context_banks |>.

Definition glymur_data `{ClockBindings} : msm_cvp_platform_data :=
  (plain_data sm8850_common_data (length sm8850_common_data) 1 (Some kona_ubwc_data) (Some pakala_noc_qos) HFI_V2 GLYMUR_HAL_VER)
    <| pdata_pas_id := 26 |>
    <| pdata_gcc_regs := Some cvp_glymur_gcc_reg |>
    <| pdata_ipcc_regs := Some cvp_glymur_ipcc_reg |>
    <| pdata_regspace_mappings := Some cvp_glymur_regspace |>
    <| pdata_reg_presets := Some cvp_glymur_reg_presets |>
    <| pdata_reset_power_sets := Some cvp_glymur_reset_power_set_desc |>
    <| pdata_power_domains := Some glymur_power_domains |>
    <| pdata_clock_props := Some glymur_clock_props |>
    <| pdata_clock_ids := Some eva_glymur_clock_ids |>
    <| pdata_num_clock_ids := length eva_glymur_clock_ids |>
    <| pdata_allowed_clk_rates := Some glymur_allowed_clocks |>
    <| pdata_opp_clk_tbl := Some glymur_eva_opp_clk_names |>
    <| pdata_opp_pd_tbl := Some glymur_opp_pd_table |>
    <| pdata_bus_descs := Some cvp_bus_glymur_descs |>
    <| pdata_subcache_desc := Some cvp_glymur_desc |>
    <| pdata_ipclite_mappings := Some cvp_glymur_ipclite_desc |>
    <| pdata_cb_data := Some glymur_cvp_context_banks |>.

Definition sm8845_data : msm_cvp_platform_data :=
  plain_data sm8845_common_data (length sm8845_common_data) 1 (Some kona_ubwc_data) (Some pakala_noc_qos) HFI_V2 KNP_HAL_VER.

Definition sm8975_data : msm_cvp_platform_data :=
  plain_data sm8975_common_data (length sm8975_common_data) 1 (Some kona_ubwc_data) (Some pakala_noc_qos) HFI_V2 HAWI_HAL_VER.

Definition sm8950_data : msm_cvp_platform_data :=
  plain_data sm8950_common_data (length sm8950_common_data) 1 (Some kona_ubwc_data) (Some pakala_noc_qos) HFI_V2 HAWI_HAL_VER.

Definition msm_cvp_dt_match `{ClockBindings} : list (string * msm_cvp_platform_data) :=
  [("qcom,waipio-cvp", sm8450_data); ("qcom,kalama-cvp", sm8550_data);
   ("qcom,kalama-cvp-tvm", sm8550_tvm_data); ("qcom,pineapple-cvp", sm8650_data);
   ("qcom,sun-cvp", sm8750_data); ("qcom,tuna-cvp", sm8735_data);
   ("qcom,canoe-cvp", sm8850_data); ("qcom,kaanapali-eva", sm8850_data);
   ("qcom,glymur-eva", glymur_data); ("qcom,alor-cvp", sm8845_data);
   ("qcom,art-cvp", sm8975_data); ("qcom,pebble-cvp", sm8950_data)].

(** * Selection *)

Definition of_match_node `{ClockBindings} (compatible : string) : option msm_cvp_platform_data :=
  match List.find (λ e, String.eqb e.1 compatible) msm_cvp_dt_match with
  | Some e => Some e.2 | None => None
  end.

(** [None] is a device without a node of the device tree. *)
Definition cvp_get_drv_data `{ClockBindings} (node : option string) : option msm_cvp_platform_data :=
  match node with
  | None => Some default_data
  | Some compatible =>
      data ← of_match_node compatible;
      if String.eqb compatible "qcom,waipio-cvp"
      then
        let ddr_type := cvp_of_fdt_get_ddrtype in
        Some (if (ddr_type =? DDR_TYPE_LPDDR4) || (ddr_type =? DDR_TYPE_LPDDR4X)
              then data <| pdata_ubwc_config ::= option_map (λ u, u <| highest_bank_bit := 15 |>) |>
              else data)
      else Some data
  end.
