(* ===== verification/Resources.v ===== *)
(** Reading a platform's resources (src/msm/eva/msm_cvp_res_parse.c): from the driver's own
    tables (Platform.v) and from the device tree.

    The device tree, the allocators and the frameworks that domains, clocks and devices are
    registered with are outside the source: [DtEnv] gives their answers.  Memory that the
    kernel frees with its device is not tracked, except for the context banks, whose device
    is created and removed here. *)

From stdpp Require Import strings.
From S2P Require Import Prelude HfiPacket Store Hw Platform.
Open Scope Z_scope.

Definition MAX_SILVER_CORE_NUM : nat := 2.
Definition MAX_CLK_RESETS : Z := 5.
Definition CLOCK_PROP_HAS_SCALING : Z := 1.
Definition CLOCK_PROP_HAS_MEM_RETENTION : Z := 2.
Definition PERF_GOV : string := "performance".

(** * State *)

Record regulator_entry := mkRegulatorE { re_name : string; re_has_hw_power_collapse : bool }.
Record pd_entry :=
  mkPdE { pe_name : option string; pe_device : Z; pe_has_hw_power_collapse : bool }.
Record clock_entry := mkClockE {
  ce_name : option string; ce_clk_id : Z; ce_has_scaling : bool; ce_has_mem_retention : bool
}.
Record reset_entry := mkResetE { se_name : option string; se_required_stage : Z }.
Record bus_entry := mkBusE {
  be_name : string; be_governor : option string; be_is_prfm_gov_used : bool;
  be_min : Z; be_max : Z
}.
Record context_bank := mkCb {
  cb_name : string; cb_buffer_type : Z; cb_is_secure : bool; cb_start : Z; cb_size : Z;
  cb_dev : Z; cb_domain : Z
}.

(** [struct msm_cvp_platform_resources], and of the core: the devices of the context banks,
    the devices registered with the kernel, and how often memory has been asked for. *)
Record resources := mkRes {
  r_sku_version : Z;
  r_vpu_ver : Z;
  r_ubwc_config : option msm_cvp_ubwc_config_data;
  r_fatal_ssr : bool;
  r_dsp_enabled : bool;
  r_max_ssr_allowed : Z;
  r_sw_power_collapsible : bool;
  r_debug_timeout : bool;
  r_pm_qos_latency : Z;
  r_silver_cores : list Z;
  r_max_secure_inst_count : Z;
  r_max_supported_inst_count : Z;
  r_thermal_mitigable : bool;
  r_pwr_collapse_delay : Z;
  r_hw_rsp_timeout : Z;
  r_dsp_rsp_timeout : Z;
  r_non_fatal_pagefaults : bool;
  r_urgency_low_a : Z;
  r_urgency_low_b : Z;
  r_rcg_vnoc : Z;
  r_cx_pd_disable : bool;
  r_gdsc_type : Z;
  r_gcc_reg_base : Z;
  r_gcc_reg_size : Z;
  r_ipcc_reg_base : Z;
  r_ipcc_reg_size : Z;
  r_hwmutex : cvp_regspace_data;
  r_aon : cvp_regspace_data;
  r_timer : cvp_regspace_data;
  r_ipclite : cvp_regspace_data;
  r_subcaches : option (list string);
  r_subcache_count : nat;
  r_sys_cache_present : bool;
  r_reg_count : nat;
  r_reg_tbl : option (list (Z * Z));
  r_allowed_clks : option (list Z);
  r_allowed_clks_size : nat;
  r_qdss_count : nat;
  r_qdss_tbl : option (list (Z * Z));
  r_regulator_count : nat;
  r_regulators : option (list regulator_entry);
  r_pd_count : nat;
  r_pds : option (list pd_entry);
  r_clock_count : nat;
  r_clocks : option (list clock_entry);
  r_reset_count : nat;
  r_resets : option (list reset_entry);
  r_bus_count : nat;
  r_buses : option (list bus_entry);
  r_register_base : Z;
  r_register_size : Z;
  r_irq : Z;
  r_irq_wd : Z;
  r_fw_name : option string;
  r_use_non_secure_pil : bool;
  r_firmware_base : Z;
  r_mem_cdsp : option Z;
  r_context_banks : list context_bank;
  r_soc_ver : Z;
  r_hfi_defs : option hfi_tables;
  r_cb_devs : option (list Z);
  r_registered : list Z;
  r_mmrm_enabled : bool;
  r_allocations : nat
}.
#[global] Instance eta_resources : Eta resources :=
  λ r, mkRes (r_sku_version r) (r_vpu_ver r) (r_ubwc_config r) (r_fatal_ssr r) (r_dsp_enabled r)
    (r_max_ssr_allowed r) (r_sw_power_collapsible r) (r_debug_timeout r) (r_pm_qos_latency r)
    (r_silver_cores r) (r_max_secure_inst_count r) (r_max_supported_inst_count r)
    (r_thermal_mitigable r) (r_pwr_collapse_delay r) (r_hw_rsp_timeout r) (r_dsp_rsp_timeout r)
    (r_non_fatal_pagefaults r) (r_urgency_low_a r) (r_urgency_low_b r) (r_rcg_vnoc r)
    (r_cx_pd_disable r) (r_gdsc_type r) (r_gcc_reg_base r) (r_gcc_reg_size r)
    (r_ipcc_reg_base r) (r_ipcc_reg_size r) (r_hwmutex r) (r_aon r) (r_timer r) (r_ipclite r)
    (r_subcaches r) (r_subcache_count r) (r_sys_cache_present r) (r_reg_count r) (r_reg_tbl r)
    (r_allowed_clks r) (r_allowed_clks_size r) (r_qdss_count r) (r_qdss_tbl r)
    (r_regulator_count r) (r_regulators r) (r_pd_count r) (r_pds r) (r_clock_count r)
    (r_clocks r) (r_reset_count r) (r_resets r) (r_bus_count r) (r_buses r) (r_register_base r)
    (r_register_size r) (r_irq r) (r_irq_wd r) (r_fw_name r) (r_use_non_secure_pil r)
    (r_firmware_base r) (r_mem_cdsp r) (r_context_banks r) (r_soc_ver r) (r_hfi_defs r)
    (r_cb_devs r) (r_registered r) (r_mmrm_enabled r) (r_allocations r).


#[global] Instance eta_pd_entry : Eta pd_entry :=
  λ r, mkPdE (pe_name r) (pe_device r) (pe_has_hw_power_collapse r).
#[global] Instance eta_cb : Eta context_bank :=
  λ r, mkCb (cb_name r) (cb_buffer_type r) (cb_is_secure r) (cb_start r) (cb_size r) (cb_dev r)
    (cb_domain r).

(** Answers of the kernel and of the device tree.  [alloc_ok] says which requests for memory
    are met, [pd_names_ok] the one whose answer is not looked at; [dt_properties] lists the device's
    properties with the node each points to; the [dt_] reads give the value or the negative
    error; [register_device] and [device_domain] give a handle, 0 for a null pointer or a
    negative error. *)
Class DtEnv := {
  alloc_ok : nat → bool;
  pd_names_ok : bool;
  topology_cluster_id : nat → Z;
  sort_by : (Z → Z → Z) → list Z → list Z;
  dt_node : bool;
  dt_properties : list (string * option Z);
  dt_cells : string → option (list Z);
  dt_read_cells : string → nat → list Z + Z;
  dt_u32 : string → Z + Z;
  dt_bool : string → bool;
  node_bool : option Z → string → bool;
  dt_string : string → option string + Z;
  dt_count_strings : string → Z;
  dt_string_at : string → nat → string + Z;
  platform_mem : option (Z * Z);
  platform_irq : nat → Z;
  memory_region : nat → option ((Z * Z) + Z);
  reserved_mem_init : Z;
  pm_domain_attach_list : list (option string) → list Z + Z;
  opp_set_config : option (list string) → Z;
  opp_add_table : Z;
  dt_child : string → bool;
  register_device : string → Z;
  device_bus : Z → Z;
  device_domain : Z → Z
}.

Abbreviation R := (St resources).

Section operations.
Context `{DtEnv}.

Definition kzalloc : R bool :=
  n ← gets r_allocations; modify (λ s, s <| r_allocations ::= S |>) ;; mret (alloc_ok n).

(** A pointer that the code follows without a check. *)
Definition deref {A} (p : option A) : R A := match p with None => stuck | Some a => mret a end.

(** * The driver's tables *)

(** The key's value, 0 when it is missing; the search trusts the given length. *)
Fixpoint find_key (size : nat) (l : list (string * Z)) (key : string) : outcome Z :=
  match size with
  | O => Done 0
  | S size' =>
      match l with
      | [] => Fault
      | (k, v) :: l' => if String.eqb k key then Done v else find_key size' l' key
      end
  end.

Definition find_key_value (pd : msm_cvp_platform_data) (key : string) : R Z :=
  of_outcome (find_key (pdata_common_data_length pd) (pdata_common_data pd) key).

Definition load_key (pd : msm_cvp_platform_data) (key : string)
    (f : Z → resources → resources) : R unit :=
  v ← find_key_value pd key; modify (f v).

Definition flag (v : Z) : bool := negb (v =? 0).

Definition msm_cvp_free_allowed_clocks_table : R unit := modify (λ s, s <| r_allowed_clks := None |>).
Definition msm_cvp_free_reg_table : R unit := modify (λ s, s <| r_reg_tbl := None |>).
Definition err_load_load_PD_table : R unit := modify (λ s, s <| r_pds := None |>).
Definition msm_cvp_free_qdss_addr_table : R unit := modify (λ s, s <| r_qdss_tbl := None |>).
Definition msm_cvp_free_bus_vectors : R unit :=
  modify (λ s, s <| r_buses := None |> <| r_bus_count := O |>).
Definition msm_cvp_free_regulator_table : R unit :=
  modify (λ s, s <| r_regulators := None |> <| r_regulator_count := O |>).
Definition msm_cvp_free_pd_table : R unit :=
  modify (λ s, s <| r_pds := None |> <| r_pd_count := O |>).
Definition msm_cvp_free_clock_table : R unit :=
  modify (λ s, s <| r_clocks := None |> <| r_clock_count := O |>).

Definition msm_cvp_free_platform_resources : R unit :=
  msm_cvp_free_clock_table ;;
  msm_cvp_free_regulator_table ;;
  t ← gets r_gdsc_type;
  whenS (flag t) err_load_load_PD_table ;;
  msm_cvp_free_allowed_clocks_table ;;
  msm_cvp_free_reg_table ;;
  msm_cvp_free_qdss_addr_table ;;
  msm_cvp_free_bus_vectors.

Definition msm_cvp_load_gcc_regs (pd : msm_cvp_platform_data) : R Z :=
  g ← deref (pdata_gcc_regs pd);
  modify (λ s, s <| r_gcc_reg_base := rr_base g |> <| r_gcc_reg_size := rr_size g |>) ;; mret 0.

Definition msm_cvp_load_ipcc_regs (pd : msm_cvp_platform_data) : R Z :=
  g ← deref (pdata_ipcc_regs pd);
  modify (λ s, s <| r_ipcc_reg_base := rr_base g |> <| r_ipcc_reg_size := rr_size g |>) ;; mret 0.

Definition msm_cvp_load_subcache_info (pd : msm_cvp_platform_data) : R Z :=
  names ← deref (pdata_subcache_desc pd);
  ok ← kzalloc;
  if (ok : bool)
  then modify (λ s, s <| r_subcaches := Some names |> <| r_subcache_count := length names |>
                      <| r_sys_cache_present := true |>) ;; mret 0
  else modify (λ s, s <| r_subcaches := None |> <| r_subcache_count := O |>
                      <| r_sys_cache_present := false |>) ;; mret (- ENOMEM).

Definition msm_cvp_load_reg_table (pd : msm_cvp_platform_data) : R Z :=
  tbl ← deref (pdata_reg_presets pd);
  if bool_decide (length tbl = 0)%nat then mret 0
  else
    modify (λ s, s <| r_reg_count := length tbl |>) ;;
    ok ← kzalloc;
    if (ok : bool) then modify (λ s, s <| r_reg_tbl := Some tbl |>) ;; mret 0
    else msm_cvp_free_reg_table ;; mret (- ENOMEM).

Definition msm_cvp_load_regspace_mapping (pd : msm_cvp_platform_data) : R Z :=
  m ← deref (pdata_regspace_mappings pd);
  modify (λ s, s <| r_hwmutex := rm_hwmutex m |> <| r_aon := rm_aon m |>
                 <| r_timer := rm_aon_timer m |>) ;; mret 0.

(** The difference of two 32-bit rates, read as a signed number. *)
Definition cmp (a b : Z) : Z := s32 (u32 (a - b)).

Definition msm_cvp_load_allowed_clocks_table (pd : msm_cvp_platform_data) : R Z :=
  rates ← deref (pdata_allowed_clk_rates pd);
  if bool_decide (length rates = 0)%nat then mret 0
  else
    ok ← kzalloc;
    modify (λ s, s <| r_allowed_clks := if (ok : bool) then Some rates else None |>) ;;
    if negb ok then mret (- ENOMEM)
    else
      modify (λ s, s <| r_allowed_clks_size := length rates |>) ;;
      modify (λ s, s <| r_allowed_clks ::= option_map (sort_by cmp) |>) ;;
      mret 0.

(** The silver cores are the first ones, as far as their cluster is the first. *)
Fixpoint silver_count (n i : nat) : nat :=
  match n with
  | O => O
  | S n' => if topology_cluster_id i =? 0 then S (silver_count n' (S i)) else O
  end.

Definition load_keys (pd : msm_cvp_platform_data) : R unit :=
  load_key pd "qcom,dsp-enabled" (λ v s, s <| r_dsp_enabled := flag v |>) ;;
  load_key pd "qcom,max-ssr-allowed" (λ v s, s <| r_max_ssr_allowed := v |>) ;;
  load_key pd "qcom,sw-power-collapse" (λ v s, s <| r_sw_power_collapsible := flag v |>) ;;
  load_key pd "qcom,debug-timeout" (λ v s, s <| r_debug_timeout := flag v |>) ;;
  load_key pd "qcom,pm-qos-latency-us" (λ v s, s <| r_pm_qos_latency := v |>) ;;
  modify (λ s, s <| r_silver_cores := Z.of_nat <$> seq 0 (silver_count MAX_SILVER_CORE_NUM 0) |>) ;;
  load_key pd "qcom,max-secure-instances" (λ v s, s <| r_max_secure_inst_count := v |>) ;;
  load_key pd "qcom,max-supported-instances" (λ v s, s <| r_max_supported_inst_count := v |>) ;;
  load_key pd "qcom,enable-thermal-mitigation" (λ v s, s <| r_thermal_mitigable := flag v |>) ;;
  load_key pd "qcom,power-collapse-delay" (λ v s, s <| r_pwr_collapse_delay := v |>) ;;
  load_key pd "qcom,hw-resp-timeout" (λ v s, s <| r_hw_rsp_timeout := v |>) ;;
  load_key pd "qcom,dsp-resp-timeout" (λ v s, s <| r_dsp_rsp_timeout := v |>) ;;
  load_key pd "qcom,domain-attr-non-fatal-faults" (λ v s, s <| r_non_fatal_pagefaults := flag v |>) ;;
  load_key pd "qcom,qos_noc_urgency_low_a_bitmask" (λ v s, s <| r_urgency_low_a := v |>) ;;
  load_key pd "qcom,qos_noc_urgency_low_b_bitmask" (λ v s, s <| r_urgency_low_b := v |>) ;;
  load_key pd "qcom,rcg_vnoc_clk_en_low" (λ v s, s <| r_rcg_vnoc := v |>) ;;
  load_key pd "qcom,core_noc_cx_pd_disable" (λ v s, s <| r_cx_pd_disable := flag v |>) ;;
  load_key pd "CVP_GDSC_FRAMEWORK_TYPE" (λ v s, s <| r_gdsc_type := v |>).

Definition load_tables (pd : msm_cvp_platform_data) : R Z :=
  msm_cvp_load_gcc_regs pd ;;
  msm_cvp_load_ipcc_regs pd ;;
  msm_cvp_load_subcache_info pd ;;
  rc ← msm_cvp_load_reg_table pd;
  if negb (rc =? 0) then mret rc
  else
    msm_cvp_load_regspace_mapping pd ;;
    msm_cvp_load_allowed_clocks_table pd.

Definition cvp_read_platform_resources_from_drv_data (pdata : option msm_cvp_platform_data) : R Z :=
  match pdata with
  | None => mret (- ENOENT)
  | Some pd =>
      modify (λ s, s <| r_sku_version := pdata_sku_version pd |>) ;;
      load_keys pd ;;
      modify (λ s, s <| r_vpu_ver := pdata_vpu_ver pd |> <| r_ubwc_config := pdata_ubwc_config pd |>
                     <| r_fatal_ssr := false |>) ;;
      load_tables pd
  end.

End operations.

(** Reading a platform's resources from the device tree, and the devices of its context banks
    (src/msm/eva/msm_cvp_res_parse.c).  State and answers are those of Resources.v. *)

(** * Strings *)

(** [strnstr] from the beginning: what is left from the first occurrence on. *)
Fixpoint find_sub (sub s : string) : option string :=
  if String.prefix sub s then Some s
  else match s with EmptyString => None | String _ s' => find_sub sub s' end.

(** The supply's name, when the property's first "-supply" ends it. *)
Definition supply_name (prop : string) : option string :=
  rest ← find_sub "-supply" prop;
  if String.eqb rest "-supply"
  then Some (String.substring 0 (String.length prop - String.length rest) prop)
  else None.

Definition strip_mbn (fw : string) : option string :=
  let len := String.length fw in
  if bool_decide (4 < len)%nat && String.eqb (String.substring (len - 4) 4 fw) ".mbn"
  then Some (String.substring 0 (len - 4) fw) else None.

Fixpoint pairs (l : list Z) : list (Z * Z) :=
  match l with a :: b :: l' => (a, b) :: pairs l' | _ => [] end.

Section operations.
Context `{DtEnv}.

(** The element at [i], which the code reads without a check. *)
Definition element {A} (l : list A) (i : nat) : R A :=
  match l !! i with None => stuck | Some a => mret a end.

Definition string_or_null (p : string) (i : nat) : option string :=
  match dt_string_at p i with inl s => Some s | inr _ => None end.

(** [f] for each of the indices, giving the list of results; an error ends it. *)
Fixpoint fill {A} (n i : nat) (f : nat → R (A + Z)) : R (list A + Z) :=
  match n with
  | O => mret (inl [])
  | S n' =>
      r ← f i;
      match r with
      | inr e => mret (inr e)
      | inl a =>
          t ← fill n' (S i) f;
          mret (match t with inl l => inl (a :: l) | inr e => inr e end)
      end
  end.

Definition sure {A} (m : R A) : R (A + Z) := a ← m; mret (inl a).

(** * Tables *)

Definition get_u32_array_num_elements (name : string) : nat :=
  match dt_cells name with None => O | Some l => length l end.

Definition msm_cvp_load_qdss_table : R Z :=
  match dt_cells "qcom,qdss-presets" with
  | None => mret 0
  | Some _ =>
      let count := (get_u32_array_num_elements "qcom,qdss-presets" / 2)%nat in
      modify (λ s, s <| r_qdss_count := count |>) ;;
      if bool_decide (count = 0)%nat then mret 0
      else
        ok ← kzalloc;
        if negb ok then modify (λ s, s <| r_qdss_tbl := None |>) ;; mret (- ENOMEM)
        else
          match dt_read_cells "qcom,qdss-presets" (2 * count) with
          | inl l => modify (λ s, s <| r_qdss_tbl := Some (pairs l) |>) ;; mret 0
          | inr _ => msm_cvp_free_qdss_addr_table ;; mret (- EINVAL)
          end
  end.

(** A table of entries of [words] cells each; [None] leaves the caller's as they were. *)
Definition msm_cvp_load_u32_table (name : string) (words : nat) : R (Z * option (list Z * nat)) :=
  match dt_cells name with
  | None => mret (0, None)
  | Some _ =>
      let n := get_u32_array_num_elements name in
      if bool_decide (n = 0)%nat then mret (0, None)
      else
        ok ← kzalloc;
        if negb ok then mret (- ENOMEM, None)
        else
          match dt_read_cells name (n / words * words)%nat with
          | inl l => mret (0, Some (l, (n / words)%nat))
          | inr _ => mret (- EINVAL, None)
          end
  end.

(** A supply is counted before the name of its entry is allocated; of_parse_phandle answers
    with a null pointer, never with an error, so that no property is passed over. *)
Fixpoint load_regulators (props : list (string * option Z)) (acc : list regulator_entry)
    : R (list regulator_entry + Z) :=
  match props with
  | [] => mret (inl acc)
  | (name, node) :: props' =>
      match supply_name name with
      | None => load_regulators props' acc
      | Some supply =>
          ok ← kzalloc;
          if negb ok then mret (inr (- ENOMEM))
          else load_regulators props'
                 (acc ++ [mkRegulatorE supply (node_bool node "qcom,support-hw-trigger")])
      end
  end.

Definition msm_cvp_load_regulator_table : R Z :=
  modify (λ s, s <| r_regulator_count := O |> <| r_regulators := None |>) ;;
  ok ← kzalloc;
  if negb ok then msm_cvp_free_regulator_table ;; mret (- ENOMEM)
  else
    r ← load_regulators dt_properties [];
    match r with
    | inl l =>
        modify (λ s, s <| r_regulators := Some l |> <| r_regulator_count := length l |>) ;; mret 0
    | inr e => msm_cvp_free_regulator_table ;; mret e
    end.

Definition opp_domains (pd : msm_cvp_platform_data) : Z :=
  match pdata_opp_pd_tbl pd with
  | None | Some [] => 0
  | Some names =>
      match pm_domain_attach_list (Some <$> names) with inl _ => 0 | inr e => e end
  end.

Definition __init_power_domains (pd : msm_cvp_platform_data) : R Z :=
  pds ← gets r_pds; pds ← deref pds;
  if negb pd_names_ok && negb (bool_decide (length pds = 0)%nat) then stuck
  else
    match pm_domain_attach_list (pe_name <$> pds) with
    | inr e => mret e
    | inl devs =>
        l ← fill (length pds) 0 (λ i, sure (p ← element pds i; d ← element devs i;
                                            mret (p <| pe_device := d |>)));
        modify (λ s, s <| r_pds := match l with inl l => Some l | inr _ => None end |>) ;;
        let ret := opp_domains pd in
        if ret <? 0 then mret ret
        else
          let ret := opp_set_config (pdata_opp_clk_tbl pd) in
          if negb (ret =? 0) then mret ret
          else
            let ret := opp_add_table in
            if negb (ret =? 0) && negb (ret =? - ENODEV) then mret ret else mret 0
    end.

Definition msm_cvp_load_PD_table (pd : msm_cvp_platform_data) : R Z :=
  modify (λ s, s <| r_pd_count := O |> <| r_pds := None |>) ;;
  hw_pc ← deref (pdata_power_domains pd);
  let count := length hw_pc in
  modify (λ s, s <| r_pd_count := count |>) ;;
  if bool_decide (count = 0)%nat then mret (- EINVAL)
  else
    ok ← kzalloc;
    if negb ok then modify (λ s, s <| r_pds := None |>) ;; mret (- ENOMEM)
    else
      ok ← kzalloc;
      if negb ok then msm_cvp_free_pd_table ;; mret (- ENOMEM)
      else
        l ← fill count 0 (λ i, v ← element hw_pc i;
                               mret (match dt_string_at "power-domain-names" i with
                                     | inl name => inl (mkPdE (Some name) 0 (flag v))
                                     | inr e => inr e
                                     end));
        match l with
        | inr e => msm_cvp_free_pd_table ;; mret e
        | inl l =>
            modify (λ s, s <| r_pds := Some l |>) ;;
            rc ← __init_power_domains pd;
            if negb (rc =? 0) then msm_cvp_free_pd_table ;; mret rc else mret 0
        end.

Definition clock_entry_at (pd : msm_cvp_platform_data) (props : list Z) (i : nat) : R clock_entry :=
  mmrm ← gets r_mmrm_enabled;
  id ← (if (mmrm : bool) then ids ← deref (pdata_clock_ids pd); element ids i else mret 0);
  prop ← element props i;
  mret (mkClockE (string_or_null "clock-names" i) id
          (negb (Z.land prop CLOCK_PROP_HAS_SCALING =? 0))
          (negb (Z.land prop CLOCK_PROP_HAS_MEM_RETENTION =? 0))).

Definition msm_cvp_load_clock_table (pd : msm_cvp_platform_data) : R Z :=
  let num := dt_count_strings "clock-names" in
  if num <=? 0 then modify (λ s, s <| r_clock_count := O |>) ;; mret 0
  else
    whenS (negb (num =? Z.of_nat (pdata_num_clock_ids pd)))
      (modify (λ s, s <| r_mmrm_enabled := false |>)) ;;
    props ← deref (pdata_clock_props pd);
    if negb (num =? Z.of_nat (length props)) then mret 0
    else
      ok ← kzalloc;
      if negb ok then modify (λ s, s <| r_clocks := None |>) ;; mret (- ENOMEM)
      else
        l ← fill (Z.to_nat num) 0 (λ i, sure (clock_entry_at pd props i));
        modify (λ s, s <| r_clock_count := Z.to_nat num |>
                       <| r_clocks := match l with inl l => Some l | inr _ => None end |>) ;;
        mret 0.

Definition msm_cvp_load_reset_table (pd : msm_cvp_platform_data) : R Z :=
  let num := dt_count_strings "reset-names" in
  if (num <=? 0) || (num >? MAX_CLK_RESETS)
  then modify (λ s, s <| r_reset_count := O |>) ;; mret 0
  else
    ok ← kzalloc;
    if negb ok then modify (λ s, s <| r_resets := None |>) ;; mret (- ENOMEM)
    else
      modify (λ s, s <| r_reset_count := Z.to_nat num |>) ;;
      l ← fill (Z.to_nat num) 0
            (λ i, sure (stats ← deref (pdata_reset_power_sets pd); v ← element stats i;
                        mret (mkResetE (string_or_null "reset-names" i) v)));
      modify (λ s, s <| r_resets := match l with inl l => Some l | inr _ => None end |>) ;;
      mret 0.

(** * The device's own resources *)

Definition read_device (pd : msm_cvp_platform_data) : R unit :=
  modify (λ s, s <| r_context_banks := [] |> <| r_firmware_base := 0 |>) ;;
  modify (λ s, s
    <| r_register_base := match platform_mem with Some k => k.1 | None => u64 (-1) end |>
    <| r_register_size := match platform_mem with
                          | Some k => u32 (k.2 + 1 - k.1) | None => u32 (-1) end |>) ;;
  modify (λ s, s <| r_irq := u32 (platform_irq 0) |> <| r_irq_wd := u32 (platform_irq 1) |>) ;;
  msm_cvp_load_qdss_table ;;
  modify (λ s, s <| r_soc_ver := match dt_u32 "soc_ver" with inl v => v | inr _ => 0x10000 end |>).

(** The firmware's name, without the suffix of its file. *)
Definition read_fw_name : R Z :=
  match dt_string "firmware-name" with
  | inr rc => mret rc
  | inl None | inl (Some EmptyString) => mret (- EINVAL)
  | inl (Some fw) =>
      match strip_mbn fw with
      | None => modify (λ s, s <| r_fw_name := Some fw |>) ;; mret 0
      | Some name =>
          ok ← kzalloc;
          if negb ok then mret (- ENOMEM)
          else modify (λ s, s <| r_fw_name := Some name |>) ;; mret 0
      end
  end.

(** The labels that the errors jump to, each falling through to the next. *)
Definition err_load_reg_table (rc : Z) : R Z := mret rc.
Definition err_load_regulator_table (rc : Z) : R Z := msm_cvp_free_reg_table ;; err_load_reg_table rc.
Definition err_load_PD (rc : Z) : R Z :=
  t ← gets r_gdsc_type; whenS (flag t) err_load_load_PD_table ;; err_load_regulator_table rc.
Definition err_load_clock_table (rc : Z) : R Z :=
  t ← gets r_gdsc_type;
  whenS (negb (flag t)) msm_cvp_free_regulator_table ;; err_load_PD rc.
Definition err_load_reset_table (rc : Z) : R Z :=
  msm_cvp_free_allowed_clocks_table ;; msm_cvp_free_clock_table ;; err_load_clock_table rc.

Definition load_supplies (pd : msm_cvp_platform_data) (k : R Z) : R Z :=
  t ← gets r_gdsc_type;
  if t =? 0 then
    rc ← msm_cvp_load_regulator_table; if negb (rc =? 0) then err_load_regulator_table rc else k
  else if t =? 1 then
    rc ← msm_cvp_load_PD_table pd; if negb (rc =? 0) then err_load_PD rc else k
  else k.

Definition cvp_read_platform_resources_from_dt (pd : msm_cvp_platform_data) : R Z :=
  if negb dt_node then mret (- ENOENT)
  else
    read_device pd ;;
    rc ← read_fw_name;
    if negb (rc =? 0) then mret rc
    else
      load_supplies pd (
        rc ← msm_cvp_load_clock_table pd;
        if negb (rc =? 0) then err_load_clock_table rc
        else
          rc ← msm_cvp_load_reset_table pd;
          if negb (rc =? 0) then err_load_reset_table rc
          else
            modify (λ s, s <| r_use_non_secure_pil := dt_bool "qcom,use-non-secure-pil" |>) ;;
            pil ← gets r_use_non_secure_pil; banks ← gets r_context_banks;
            whenS (pil || bool_decide (length banks = 0)%nat)
              (modify (λ s, s <| r_firmware_base :=
                                   match dt_u32 "qcom,fw-bias" with inl v => v | inr _ => 0 end |>)) ;;
            modify (λ s, s <| r_hfi_defs := Some (pdata_cvp_hfi pd) |>) ;;
            mret rc).

(** * Buses, shared memory *)

(** A bus with no description keeps no governor; only a null table's first entry has none. *)
Definition bus_entry_at (pd : msm_cvp_platform_data) (i : nat) : R (bus_entry + Z) :=
  match dt_string_at "interconnect-names" i with
  | inr e => mret (inr e)
  | inl name =>
      match pdata_bus_descs pd with
      | None => if bool_decide (i = 0)%nat then mret (inl (mkBusE name None false 0 0)) else stuck
      | Some descs =>
          d ← element descs i;
          let gov := default PERF_GOV (bd_governor d) in
          mret (inl (mkBusE name (Some gov) (String.eqb gov PERF_GOV) (bd_min_bw d) (bd_max_bw d)))
      end
  end.

Definition msm_cvp_populate_bus (pd : msm_cvp_platform_data) : R Z :=
  let count := dt_count_strings "interconnect-names" in
  if count <=? 0 then mret 0
  else
    ok ← kzalloc;
    if negb ok then modify (λ s, s <| r_buses := None |> <| r_bus_count := O |>) ;; mret (- ENOMEM)
    else
      modify (λ s, s <| r_bus_count := Z.to_nat count |>) ;;
      l ← fill (Z.to_nat count) 0 (bus_entry_at pd);
      match l with
      | inl l => modify (λ s, s <| r_buses := Some l |>) ;; mret 0
      | inr e => modify (λ s, s <| r_buses := None |> <| r_bus_count := O |>) ;; mret e
      end.

Definition msm_cvp_ipclite_mappings (pd : msm_cvp_platform_data) : R Z :=
  match memory_region 1 with
  | None => mret (- EINVAL)
  | Some (inr e) => mret e
  | Some (inl (start, last)) =>
      iova ← deref (pdata_ipclite_mappings pd);
      modify (λ s, s <| r_ipclite := mkRegspace iova (u32 (last - start + 1)) (u32 start) |>) ;;
      mret 0
  end.

Definition msm_cvp_populate_mem_cdsp (dev : Z) : R Z :=
  if bool_decide (is_Some (memory_region 0)) && negb (reserved_mem_init =? 0)
  then mret reserved_mem_init
  else modify (λ s, s <| r_mem_cdsp := Some dev |>) ;; mret 0.

(** * Context banks *)

Definition msm_cvp_setup_context_bank (cb : context_bank) (dev : Z) : context_bank * Z :=
  (cb <| cb_dev := dev |>,
   if device_bus dev =? 0 then - ENODEV else if device_bus dev <? 0 then device_bus dev else 0).

Definition bank_of (banks : list cvp_iommu_context_bank) (name : string) : context_bank :=
  match List.find (λ d, String.eqb name (icb_name d)) banks with
  | None => mkCb name 0 false 0 0 0 0
  | Some d =>
      mkCb name (icb_buffer_type d) (negb (icb_vmid d =? 0)) (icb_iova_start d) (icb_iova_size d) 0 0
  end.

(** The bank is on the list while it is set up, and taken off when that fails. *)
Definition msm_cvp_populate_context_bank (banks : list cvp_iommu_context_bank) (dev : Z)
    (name : string) : R Z :=
  ok ← kzalloc;
  if negb ok then mret (- ENOMEM)
  else if bool_decide (length banks = 0)%nat then mret (- EINVAL)
  else
    l ← gets r_context_banks;
    let put cb := modify (λ s, s <| r_context_banks := l ++ [cb] |>) in
    let cb := bank_of banks name in
    put cb ;;
    if String.eqb name "cvp_camera" then
      let '(cb, rc) := msm_cvp_setup_context_bank (cb <| cb_is_secure := true |>) dev in
      if negb (rc =? 0) then modify (λ s, s <| r_context_banks := l |>) ;; mret rc
      else put cb ;; mret 0
    else
      let domain := device_domain dev in
      if domain <=? 0 then modify (λ s, s <| r_context_banks := l |>) ;; mret (- ENODEV)
      else
        let '(cb, rc) := msm_cvp_setup_context_bank (cb <| cb_domain := domain |>) dev in
        if negb (rc =? 0) then modify (λ s, s <| r_context_banks := l |>) ;; mret rc
        else put cb ;; mret 0.

(** The new device, or the error. *)
Definition cvp_create_cb_dev (name : string) : R Z :=
  if negb (dt_child name) then mret 0
  else
    let dev := register_device name in
    whenS (0 <? dev) (modify (λ s, s <| r_registered ::= (dev ::.) |>)) ;;
    mret dev.

Definition platform_device_unregister (dev : Z) : R unit :=
  modify (λ s, s <| r_registered ::= filter (λ d, d ≠ dev) |>).

Definition cvp_deinit_context_bank_devices : R unit :=
  devs ← gets r_cb_devs;
  match devs with
  | None => mret tt
  | Some devs => each devs platform_device_unregister ;; modify (λ s, s <| r_cb_devs := None |>)
  end.

Fixpoint init_banks (all l : list cvp_iommu_context_bank) : R Z :=
  match l with
  | [] => mret 0
  | b :: l' =>
      dev ← cvp_create_cb_dev (icb_name b);
      if dev <=? 0 then
        cvp_deinit_context_bank_devices ;; mret (if dev =? 0 then - ENODEV else dev)
      else
        modify (λ s, s <| r_cb_devs ::= option_map (λ l, l ++ [dev]) |>) ;;
        rc ← msm_cvp_populate_context_bank all dev (icb_name b);
        if negb (rc =? 0) then cvp_deinit_context_bank_devices ;; mret rc
        else init_banks all l'
  end.

Definition cvp_init_context_bank_devices (pdata : option msm_cvp_platform_data) : R Z :=
  match pdata with
  | None => mret (- EINVAL)
  | Some pd =>
      match pdata_cb_data pd with
      | None | Some [] => mret (- EINVAL)
      | Some banks =>
          ok ← kzalloc;
          if negb ok then modify (λ s, s <| r_cb_devs := None |>) ;; mret (- ENOMEM)
          else modify (λ s, s <| r_cb_devs := Some [] |>) ;; init_banks banks banks
      end
  end.

End operations.
