(* ===== verification/ResourceLaws.v ===== *)
(** What reading a platform's resources gives.

    [plain] tables: every count is its table's length.  The two platforms that the driver
    binds to have every descriptor that reading follows, so that reading never faults and
    leaves the rates of the clocks sorted, as the votes (Power.v) need them. *)

From Stdlib Require Import Sorted.
From stdpp Require Import strings.
From S2P Require Import Prelude Store Hw Platform Resources.
Open Scope Z_scope.

(** * Sorting *)

(** [sort] with a comparison that is a total preorder on the elements. *)
Definition orders (c : Z → Z → Z) (l : list Z) : Prop :=
  (∀ a b, a ∈ l → b ∈ l → c a b <= 0 ∨ c b a <= 0) ∧
  (∀ a b d, a ∈ l → b ∈ l → d ∈ l → c a b <= 0 → c b d <= 0 → c a d <= 0).

Class SortLaw `{DtEnv} := sort_sorts : ∀ c l, orders c l →
  sort_by c l ≡ₚ l ∧ StronglySorted (λ a b, c a b <= 0) (sort_by c l).

Definition rate (r : Z) : Prop := 0 <= r < 2 ^ 31.

Lemma cmp_rates a b : rate a → rate b → cmp a b = a - b.
Proof.
  intros Ha Hb. unfold rate, cmp in *. destruct (decide (0 <= a - b)).
  - unfold u32. rewrite Z.mod_small by lia. apply s32_small. lia.
  - assert (E : u32 (a - b) = a - b + 2 ^ 32) by (symmetry; apply (Z.mod_unique _ _ (-1)); lia).
    unfold s32. rewrite E, Z.mod_small by lia. destruct (_ <? _) eqn:L; lia.
Qed.

Lemma cmp_orders l : Forall rate l → orders cmp l.
Proof.
  rewrite list.Forall_forall. intros Hl.
  assert (E : ∀ a b, a ∈ l → b ∈ l → cmp a b = a - b) by (intros; apply cmp_rates; auto).
  split.
  - intros a b Ha Hb. rewrite !E by done. lia.
  - intros a b d Ha Hb Hd. rewrite !E by done. lia.
Qed.

Lemma sorted_weaken {A} (R1 R2 : A → A → Prop) l :
  (∀ a b, a ∈ l → b ∈ l → R1 a b → R2 a b) → StronglySorted R1 l → StronglySorted R2 l.
Proof.
  intros HR Hs. induction Hs as [|a l Hs IH Ha]; constructor.
  - apply IH. intros b c Hb Hc. apply HR; by right.
  - rewrite list.Forall_forall in Ha |- *. intros b Hb. apply HR; [left|by right|auto].
Qed.

Lemma sorted_rates `{SortLaw} l :
  Forall rate l → sort_by cmp l ≡ₚ l ∧ StronglySorted Z.le (sort_by cmp l).
Proof.
  intros Hl. destruct (sort_sorts cmp l (cmp_orders l Hl)) as [Hp Hs]. split; [done|].
  rewrite list.Forall_forall in Hl.
  refine (sorted_weaken _ _ _ _ Hs). intros a b Ha Hb. rewrite Hp in Ha, Hb.
  rewrite cmp_rates; [lia|auto|auto].
Qed.

(** * Keys *)
Section laws.
Context `{DtEnv}.

Definition trusted (pd : msm_cvp_platform_data) : Prop :=
  (pdata_common_data_length pd <= length (pdata_common_data pd))%nat.

Lemma find_key_done n l key : (n <= length l)%nat → ∃ v, find_key n l key = Done v.
Proof.
  revert l. induction n as [|n IH]; intros l Hn; cbn [find_key]; [eauto|].
  destruct l as [|[k v] l]; cbn in Hn; [lia|]. destruct (String.eqb k key); [eauto|].
  apply IH. lia.
Qed.

Lemma load_key_total pd key f (P : resources → Prop) :
  trusted pd → (∀ v s, P s → P (f v s)) → total P (load_key pd key f) (λ _, P).
Proof.
  intros Ht Hf. destruct (find_key_done _ _ key Ht) as [v E].
  eapply total_bind; [apply (total_of_outcome _ v _ (λ w s, w = v ∧ P s)); auto|].
  intros w. apply total_modify. intros s [-> Hs]. auto.
Qed.

(** What the keys do not touch: the tables and the allocations. *)
Definition tables (s : resources) :=
  (r_reg_tbl s, r_reg_count s, r_pds s, r_pd_count s, r_clocks s, r_clock_count s,
   (r_resets s, r_reset_count s, r_buses s, r_bus_count s, r_regulators s, r_regulator_count s,
    r_allowed_clks s), r_mmrm_enabled s).

Definition over_tables (P : resources → Prop) : Prop :=
  ∀ s s', tables s = tables s' → P s → P s'.

Lemma load_keys_total pd P :
  trusted pd → over_tables P → total P (load_keys pd) (λ _, P).
Proof.
  intros Ht HP. unfold load_keys.
  repeat (eapply total_bind;
    [first [apply load_key_total; [done|intros ? s; by apply HP]
           |apply (total_modify _ _ (λ _, P)); intros s; by apply HP]
    |intros ?]).
  apply load_key_total; [done|intros ? s; by apply HP].
Qed.


(** * Tables *)

Definition fits_count {A} (n : nat) (t : option (list A)) : Prop :=
  n = O ∨ ∃ l, t = Some l ∧ length l = n.

Definition all_counted (s : resources) : Prop :=
  fits_count (r_reg_count s) (r_reg_tbl s) ∧ fits_count (r_pd_count s) (r_pds s) ∧
  fits_count (r_clock_count s) (r_clocks s) ∧ fits_count (r_reset_count s) (r_resets s) ∧
  fits_count (r_bus_count s) (r_buses s) ∧ fits_count (r_regulator_count s) (r_regulators s).

Lemma fits_some {A} (l : list A) : fits_count (length l) (Some l).
Proof. right. eauto. Qed.
Lemma fits_zero {A} (t : option (list A)) : fits_count O t.
Proof. by left. Qed.

Lemma total_kzalloc (P : resources → Prop) :
  over_tables P → total P kzalloc (λ _, P).
Proof.
  intros HP. unfold kzalloc. eapply total_bind; [apply (total_gets _ _ (λ _, P)); auto|]. intros n.
  eapply total_bind; [apply (total_modify _ _ (λ _, P)); intros s; by apply HP|]. intros [].
  by apply total_ret.
Qed.

Lemma total_deref {A} (p : option A) a P (Q : A → resources → Prop) :
  p = Some a → (∀ s, P s → Q a s) → total P (deref p) Q.
Proof. intros -> HQ. by apply total_ret. Qed.

Lemma total_modify_over f P : over_tables P → (∀ s, tables (f s) = tables s) →
  total P (modify f) (λ _, P).
Proof. intros HP Hf. apply total_modify. intros s. by apply HP. Qed.

Lemma all_counted_over : over_tables all_counted.
Proof. intros s s' E. unfold all_counted. unfold tables in E. congruence. Qed.

End laws.

(** * The driver's tables *)
Section driver_tables.
Context `{SortLaw}.

(** A platform with every descriptor that is followed, and rates that can be compared. *)
Record complete (pd : msm_cvp_platform_data) : Prop := mkComplete {
  complete_keys : trusted pd;
  complete_gcc : is_Some (pdata_gcc_regs pd);
  complete_ipcc : is_Some (pdata_ipcc_regs pd);
  complete_subcaches : is_Some (pdata_subcache_desc pd);
  complete_presets : is_Some (pdata_reg_presets pd);
  complete_regspaces : is_Some (pdata_regspace_mappings pd);
  complete_rates : ∃ l, pdata_allowed_clk_rates pd = Some l ∧ l ≠ [] ∧ Forall rate l
}.

(** The rates a vote chooses from: the platform's, sorted. *)
Definition rates_ready (pd : msm_cvp_platform_data) (s : resources) : Prop :=
  ∃ l t, pdata_allowed_clk_rates pd = Some l ∧ r_allowed_clks s = Some t ∧ t ≠ [] ∧
         t ≡ₚ l ∧ StronglySorted Z.le t ∧ r_allowed_clks_size s = length t.

Definition drv_post (pd : msm_cvp_platform_data) (rc : Z) (s : resources) : Prop :=
  rc = - ENOMEM ∨ rc = 0 ∧ all_counted s ∧ rates_ready pd s.

Lemma subcaches_total pd P : complete pd → over_tables P →
  total P (msm_cvp_load_subcache_info pd) (λ _, P).
Proof.
  intros Hc HP. destruct (complete_subcaches pd Hc) as [names E]. unfold msm_cvp_load_subcache_info.
  eapply total_bind; [apply (total_deref _ names _ (λ _, P)); auto|]. intros l.
  eapply total_bind; [by apply total_kzalloc|]. intros [];
    (eapply total_bind; [by apply total_modify_over|intros []; by apply total_ret]).
Qed.

Lemma regs_total {A} (o : option A) f (P : resources → Prop) :
  is_Some o → over_tables P → (∀ g s, tables (f g s) = tables s) →
  total P (g ← deref o; modify (f g) ;; (mret 0 : R Z)) (λ _, P).
Proof.
  intros [g E] HP Hf. eapply total_bind; [apply (total_deref _ g _ (λ _, P)); auto|]. intros g'.
  eapply total_bind; [by apply total_modify_over|intros []; by apply total_ret].
Qed.

Lemma reg_table_total pd : complete pd →
  total all_counted (msm_cvp_load_reg_table pd) (λ rc s, rc = - ENOMEM ∨ rc = 0 ∧ all_counted s).
Proof.
  intros Hc. destruct (complete_presets pd Hc) as [l E]. unfold msm_cvp_load_reg_table.
  eapply total_bind; [apply (total_deref _ l _ (λ t s, t = l ∧ all_counted s)); auto|]. intros t.
  apply total_pure. intros ->. case_bool_decide; [apply total_ret; auto|].
  set (P := λ s, all_counted (s <| r_reg_count := O |>) ∧ r_reg_count s = length l).
  eapply total_bind; [apply (total_modify _ _ (λ _, P)); intros s (?&?&?&?&?&?)|intros []].
  { split; [|done]. repeat split; try done. apply fits_zero. }
  eapply total_bind; [apply total_kzalloc; intros s s' Es; unfold P, all_counted; cbn;
                      unfold tables in Es; intros; simplify_eq; congruence|]. intros [].
  - eapply total_bind; [apply (total_modify _ _ (λ _, all_counted))|intros []; apply total_ret; auto].
    intros s ((?&?&?&?&?&?) & Hn). repeat split; try done. cbn. rewrite Hn. apply fits_some.
  - eapply total_bind; [apply (total_modify _ _ (λ _ _, True)); auto|intros []; apply total_ret; auto].
Qed.

Lemma allowed_clocks_total pd : complete pd →
  total all_counted (msm_cvp_load_allowed_clocks_table pd) (drv_post pd).
Proof.
  intros Hc. destruct (complete_rates pd Hc) as (l & E & Hne & Hr). unfold msm_cvp_load_allowed_clocks_table.
  eapply total_bind; [apply (total_deref _ l _ (λ t s, t = l ∧ all_counted s)); auto|]. intros t.
  apply total_pure. intros ->. rewrite bool_decide_eq_false_2 by (by destruct l).
  eapply total_bind; [apply total_kzalloc, all_counted_over|]. intros [].
  - eapply total_bind; [apply (total_modify _ _ (λ _ s, all_counted s ∧ r_allowed_clks s = Some l)); by intros|].
    intros []. cbn [negb].
    eapply total_bind; [apply (total_modify _ _ (λ _ s, all_counted s ∧ r_allowed_clks s = Some l
                                                       ∧ r_allowed_clks_size s = length l)); by intros s []|].
    intros []. apply (total_bind _ _ (λ _, drv_post pd 0)); [|intros []; by apply total_ret].
    apply total_modify. intros s (Hs & Ht & Hn). right. split; [done|]. split; [exact Hs|].
    destruct (sorted_rates l Hr) as [Hp Hsort]. exists l, (sort_by cmp l). repeat split; auto.
    + cbn. by rewrite Ht.
    + intros Hz. rewrite Hz in Hp. by apply Permutation_nil_l in Hp.
    + cbn. rewrite Hn. by rewrite Hp.
  - eapply total_bind; [apply (total_modify _ _ (λ _ _, True)); auto|intros []; apply total_ret; by left].
Qed.

Lemma drv_data_total pd : complete pd →
  total all_counted (cvp_read_platform_resources_from_drv_data (Some pd)) (drv_post pd).
Proof.
  intros Hc. pose proof all_counted_over as Ho. unfold cvp_read_platform_resources_from_drv_data.
  eapply total_bind; [by apply total_modify_over|intros []].
  eapply total_bind; [apply load_keys_total; [apply Hc|done]|intros []].
  eapply total_bind; [by apply total_modify_over|intros []]. unfold load_tables.
  eapply total_bind; [apply regs_total; [apply Hc|done|done]|intros ?].
  eapply total_bind; [apply regs_total; [apply Hc|done|done]|intros ?].
  eapply total_bind; [by apply subcaches_total|intros ?].
  eapply total_bind; [by apply reg_table_total|intros rc]. destruct (decide (rc = 0)) as [->|Hrc].
  - cbn [Z.eqb negb]. eapply total_pre with (P' := all_counted).
    + eapply total_bind; [apply regs_total; [apply Hc|done|done]|intros ?]. by apply allowed_clocks_total.
    + intros s [Hbad|[_ Hs]]; [discriminate|done].
  - rewrite (proj2 (Z.eqb_neq rc 0) Hrc). apply total_ret. intros s [->|[??]]; [by left|done].
Qed.

(** Without registers of the clock controller the reading follows a null pointer. *)
Lemma undescribed_faults pd s : trusted pd → pdata_gcc_regs pd = None →
  cvp_read_platform_resources_from_drv_data (Some pd) s = Fault.
Proof.
  intros Ht Hg. unfold cvp_read_platform_resources_from_drv_data, load_tables, msm_cvp_load_gcc_regs.
  rewrite Hg. srun.
  match goal with |- context [load_keys pd ?s0] =>
    destruct (load_keys_total pd (λ _, True) Ht (λ _ _ _ _, I) s0 I) as ([] & s1 & E & _) end.
  by rewrite E.
Qed.

End driver_tables.

(** * The platforms *)

Section platforms.
Context `{ClockBindings}.

(** The platforms that the table of compatible strings gives all the descriptors of. *)
Definition described : list string := ["qcom,canoe-cvp"; "qcom,kaanapali-eva"; "qcom,glymur-eva"].

Definition described_data (c : string) : Prop := c ∈ described.

Lemma match_cases c pd (Φ : string → msm_cvp_platform_data → Prop) :
  of_match_node c = Some pd → Forall (λ e, Φ e.1 e.2) msm_cvp_dt_match → Φ c pd.
Proof.
  unfold of_match_node. intros Hm HF. destruct (List.find _ _) as [[c' pd']|] eqn:E; [|done].
  apply List.find_some in E as [Hin Heq]. apply String.eqb_eq in Heq. cbn in Heq, Hm. simplify_eq.
  rewrite list.Forall_forall in HF. apply (HF (c, pd)). by apply list_elem_of_In.
Qed.

Definition rateb (r : Z) : bool := (0 <=? r) && (r <? 2 ^ 31).

Lemma rates_checked l : forallb rateb l = true → Forall rate l.
Proof.
  intros Hf. apply list.Forall_forall. intros r Hr. apply list_elem_of_In in Hr.
  rewrite forallb_forall in Hf. specialize (Hf r Hr). unfold rateb in Hf. unfold rate. lia.
Qed.

Lemma platforms_trusted c pd : of_match_node c = Some pd → trusted pd.
Proof.
  intros Hm. apply (match_cases c pd (λ _, trusted) Hm).
  repeat (constructor; [unfold trusted; vm_compute; lia|]). constructor.
Qed.

Lemma platforms_complete `{DtEnv} c pd : of_match_node c = Some pd → c ∈ described → complete pd.
Proof.
  intros Hm. apply (match_cases c pd (λ c pd, c ∈ described → complete pd) Hm).
  assert (Hsm : complete sm8850_data).
  { split; [unfold trusted; vm_compute; lia|eexists; reflexivity..|].
    eexists. split; [reflexivity|]. split; [done|]. by apply rates_checked. }
  assert (Hg : complete glymur_data).
  { split; [unfold trusted; vm_compute; lia|eexists; reflexivity..|].
    eexists. split; [reflexivity|]. split; [done|]. by apply rates_checked. }
  unfold msm_cvp_dt_match, described.
  repeat (constructor; [cbn [fst snd]; first [done|intros Hin; exfalso; revert Hin; by apply (bool_decide_unpack _)]|]). constructor.
Qed.

Lemma platforms_undescribed c pd : of_match_node c = Some pd → c ∉ described → pdata_gcc_regs pd = None.
Proof.
  intros Hm. apply (match_cases c pd (λ c pd, c ∉ described → pdata_gcc_regs pd = None) Hm).
  unfold msm_cvp_dt_match, described.
  repeat (constructor; [cbn [fst snd]; first [done|intros Hn; exfalso; apply Hn; by apply (bool_decide_unpack _)]|]). constructor.
Qed.

End platforms.

(** What reading the device tree gives: tables as long as their counts, and a fault in exactly
    the two places where the code trusts the tree or the allocator; and the fate of the
    context banks when one of them cannot be set up. *)

(** * Filling a table *)
Section filling.
Context `{DtEnv}.

Lemma total_element {A} (l : list A) i P :
  (i < length l)%nat → total P (element l i) (λ _, P).
Proof.
  intros Hi. unfold element. destruct (lookup_lt_is_Some_2 l i Hi) as [a ->]. by apply total_ret.
Qed.

Lemma total_fill {A} n i (f : nat → R (A + Z)) P :
  (∀ j, (i <= j < i + n)%nat → total P (f j) (λ _, P)) →
  total P (fill n i f) (λ r s, P s ∧ ∀ l, r = inl l → length l = n).
Proof.
  revert i. induction n as [|n IH]; intros i Hf; cbn [fill].
  { apply total_ret. intros s Hs. split; [done|]. by intros l [= <-]. }
  eapply total_bind; [apply Hf; lia|]. intros [a|e].
  - eapply total_bind; [apply IH; intros j Hj; apply Hf; lia|]. intros t. apply total_ret.
    intros s [Hs Hl]. split; [done|]. destruct t as [l|e]; intros l' [= <-]. cbn. f_equal. by apply Hl.
  - apply total_ret. by intros s Hs.
Qed.

Lemma fill_sure {A} n i (f : nat → R A) P :
  (∀ j, (i <= j < i + n)%nat → total P (f j) (λ _, P)) →
  total P (fill n i (λ j, sure (f j))) (λ r s, P s ∧ ∃ l, r = inl l ∧ length l = n).
Proof.
  revert i. induction n as [|n IH]; intros i Hf; cbn [fill].
  { apply total_ret. eauto. }
  apply (total_bind _ _ (λ r s, P s ∧ ∃ a, r = inl a)).
  { eapply total_bind; [apply Hf; lia|]. intros a. apply total_ret. eauto. }
  intros r. eapply total_pre with (P' := λ s, (∃ a, r = inl a) ∧ P s); [|by intros s [Hs Ha]].
  apply total_pure. intros [a ->].
  eapply total_bind; [apply IH; intros j Hj; apply Hf; lia|]. intros t. apply total_ret.
  intros s (Hs & l & -> & Hl). split; [done|]. eexists. split; [done|]. cbn. by f_equal.
Qed.

End filling.

(** * Laws of the kernel *)

(** As many domains are attached as were named. *)
Class DomainLaw `{DtEnv} := attached_domains : ∀ names devs,
  pm_domain_attach_list names = inl devs → length devs = length names.

(** Memory for the domains' names, which the code does not check, is given. *)
Class NamesLaw `{DtEnv} := names_given : pd_names_ok = true.

(** An error, or tables as long as their counts. *)
Definition dt_post (rc : Z) (s : resources) : Prop := rc ≠ 0 ∨ all_counted s.

(** A platform described for the device tree: the tree names no more resets than it has. *)
Record dt_complete `{DtEnv} (pd : msm_cvp_platform_data) : Prop := mkDtComplete {
  dtc_domains : is_Some (pdata_power_domains pd);
  dtc_clock_props : is_Some (pdata_clock_props pd);
  dtc_clock_ids : ∃ l, pdata_clock_ids pd = Some l ∧ length l = pdata_num_clock_ids pd;
  dtc_resets : ∃ l, pdata_reset_power_sets pd = Some l ∧
                    (dt_count_strings "reset-names" <= Z.of_nat (length l) ∨
                     MAX_CLK_RESETS < dt_count_strings "reset-names")
}.

Section reading.
Context `{DtEnv} `{!DomainLaw} `{!NamesLaw}.

(** Memory is given and the code goes on, or it is not. *)
Lemma with_memory {A} P (f : bool → R A) Q :
  over_tables P → total P (f false) Q → total P (f true) Q → total P (kzalloc ≫= f) Q.
Proof.
  intros HP Hf Ht. eapply total_bind; [by apply total_kzalloc|]. by intros [].
Qed.

Lemma then_modify f P (Q : Z → resources → Prop) (rc : Z) :
  (∀ s, P s → Q rc (f s)) → total P (modify f ;; (mret rc : R Z)) Q.
Proof.
  intros Hf. apply (total_bind _ _ (λ _ s, Q rc s)); [by apply total_modify|]. intros [].
  by apply total_ret.
Qed.

Hint Resolve all_counted_over : core.

Lemma qdss_total P : over_tables P → total P msm_cvp_load_qdss_table (λ _, P).
Proof.
  intros HP. unfold msm_cvp_load_qdss_table. destruct (dt_cells _); [|by apply total_ret].
  eapply total_bind; [by apply total_modify_over|intros []]. case_bool_decide; [by apply total_ret|].
  apply with_memory; [done|apply then_modify; intros ?; by apply HP|]. cbn [negb].
  destruct (dt_read_cells _ _) as [l'|e]; apply then_modify; intros ?; by apply HP.
Qed.

Lemma read_device_total pd P : over_tables P → total P (read_device pd) (λ _, P).
Proof.
  intros HP. unfold read_device.
  do 3 (eapply total_bind; [by apply total_modify_over|intros []]).
  eapply total_bind; [by apply qdss_total|intros ?]. by apply total_modify_over.
Qed.

Lemma fw_name_total P : over_tables P → total P read_fw_name (λ _, P).
Proof.
  intros HP. unfold read_fw_name. destruct (dt_string _) as [[[|c fw]|]|rc]; try by apply total_ret.
  destruct (strip_mbn _) as [fw'|].
  - apply with_memory; [done|by apply total_ret|]. apply then_modify. intros s. by apply HP.
  - apply then_modify. intros s. by apply HP.
Qed.

(** ** The tables *)

Lemma regulators_total props acc P :
  over_tables P → total P (load_regulators props acc) (λ _, P).
Proof.
  intros HP. revert acc. induction props as [|[name node] props IH]; intros acc; cbn [load_regulators].
  { by apply total_ret. }
  destruct (supply_name name) as [supply|]; [|apply IH]. apply with_memory; [done|by apply total_ret|]. apply IH.
Qed.

Lemma regulator_table_total : total all_counted msm_cvp_load_regulator_table dt_post.
Proof.
  unfold msm_cvp_load_regulator_table.
  apply (total_bind _ _ (λ _, all_counted)).
  { apply total_modify. intros s (?&?&?&?&?&?). repeat split; try done. apply fits_zero. }
  intros []. apply with_memory; [done|apply then_modify; by left|]. cbn [negb].
  eapply total_bind; [by apply regulators_total|]. intros [l|e];
    apply then_modify; intros s (?&?&?&?&?&?); right; repeat split; try done;
    [apply fits_some|apply fits_zero].
Qed.

(** All but the domains. *)
Definition apart (s : resources) : Prop :=
  ∃ n t, all_counted (s <| r_pd_count := n |> <| r_pds := t |>).

Lemma apart_over : over_tables apart.
Proof.
  intros s s' E (n & t & Hs). exists n, t. revert Hs. apply all_counted_over.
  unfold tables in *. cbn. congruence.
Qed.

Lemma apart_counted s : apart s → fits_count (r_pd_count s) (r_pds s) → all_counted s.
Proof. intros (n & t & ?&?&?&?&?&?) Hc. by repeat split. Qed.

Lemma counted_apart s : all_counted s → apart s.
Proof. intros Hs. exists (r_pd_count s), (r_pds s). by destruct s. Qed.

Lemma apart_set s n t : apart s → apart (s <| r_pd_count := n |> <| r_pds := t |>).
Proof. intros (n' & t' & Hs). by exists n', t'. Qed.

Hint Resolve apart_over : core.

Lemma free_pd_total (rc : Z) P : (∀ s, P s → apart s) →
  total P (msm_cvp_free_pd_table ;; mret rc) dt_post.
Proof.
  intros HP. apply then_modify. intros s Hs%HP. right. apply apart_counted; [|apply fits_zero].
  destruct Hs as (n & t & Hs). by exists n, t.
Qed.

(** The table of domains, before and after they are attached. *)
Definition with_domains (n : nat) (s : resources) : Prop :=
  apart s ∧ r_pd_count s = n ∧ ∃ l, r_pds s = Some l ∧ length l = n.

Lemma with_domains_counted n s : with_domains n s → all_counted s.
Proof. intros (Ha & <- & l & Hl & Hn). apply apart_counted; [done|]. right. eauto. Qed.

Lemma with_domains_over n : over_tables (with_domains n).
Proof.
  intros s s' E (Ha & Hn & l & Hl & Hlen).
  split; [by apply (apart_over s)|]. unfold tables in E. split; [congruence|].
  exists l. split; [congruence|done].
Qed.

Hint Resolve with_domains_over : core.

Lemma init_power_domains_total pd n :
  total (with_domains n) (__init_power_domains pd) (λ _, with_domains n).
Proof.
  unfold __init_power_domains.
  eapply total_bind; [apply (total_gets _ _ (λ p s, (∃ l, p = Some l ∧ length l = n) ∧ with_domains n s));
                      intros s Hs; split; [apply Hs|done]|].
  intros p. apply total_pure. intros (l & -> & Hn).
  eapply total_bind; [apply (total_deref _ l _ (λ x s, x = l ∧ with_domains n s)); auto|].
  intros x. apply total_pure. intros ->. rewrite names_given. cbn [negb andb].
  destruct (pm_domain_attach_list (pe_name <$> l)) as [devs|e] eqn:Ed; [|by apply total_ret].
  apply attached_domains in Ed. rewrite length_fmap in Ed.
  eapply total_bind.
  { apply fill_sure. intros j Hj.
    eapply total_bind; [apply total_element; lia|intros ?].
    eapply total_bind; [apply total_element; lia|intros ?]. by apply total_ret. }
  intros r. apply (total_bind _ _ (λ _, with_domains n)).
  { apply total_modify. intros s [(Ha & Hc & _) (l' & -> & Hl')].
    split; [|split; [done|]]; [|exists l'; split; [done|lia]].
    destruct Ha as (n' & t' & Ha). by exists n', t'. }
  intros []. repeat case_match; by apply total_ret.
Qed.

Lemma PD_table_total pd : dt_complete pd →
  total all_counted (msm_cvp_load_PD_table pd) dt_post.
Proof.
  intros Hd. destruct (dtc_domains pd Hd) as [hw_pc E]. unfold msm_cvp_load_PD_table.
  apply (total_bind _ _ (λ _, apart)).
  { apply total_modify. intros s Hs%counted_apart. by apply apart_set. }
  intros []. eapply total_bind; [apply (total_deref _ hw_pc _ (λ x s, x = hw_pc ∧ apart s)); auto|].
  intros x. apply total_pure. intros ->.
  apply (total_bind _ _ (λ _ s, apart s ∧ r_pd_count s = length hw_pc)).
  { apply total_modify. intros s (n & t & Ha). split; [|done]. by exists n, t. }
  assert (Ho : over_tables (λ s, apart s ∧ r_pd_count s = length hw_pc)).
  { intros s s' Es [Ha Hn]. split; [by apply (apart_over s)|]. unfold tables in Es. congruence. }
  intros []. case_bool_decide as Hz.
  { apply total_ret. intros s [Ha Hn]. right. apply apart_counted; [done|]. rewrite Hn, Hz. apply fits_zero. }
  apply with_memory; [done|apply then_modify; by left|].
  apply with_memory; [done|apply then_modify; by left|]. cbn [negb].
  eapply total_bind.
  { apply total_fill. intros j Hj. eapply total_bind; [apply total_element; lia|intros v].
    by apply total_ret. }
  intros [l|e].
  - apply (total_bind _ _ (λ _, with_domains (length hw_pc))).
    { apply total_modify. intros s [[(n & t & Ha) Hn] Hl].
      split; [by exists n, t|]. split; [done|]. exists l. split; [done|by apply Hl]. }
    intros []. eapply total_bind; [apply init_power_domains_total|intros rc].
    destruct (negb _); [apply free_pd_total; by intros s []|].
    apply total_ret. intros s Hs. right. by eapply with_domains_counted.
  - apply free_pd_total. by intros s [[] _].
Qed.

(** ** Clocks and resets *)

(** While clocks are managed by number, there are as many numbers as names. *)
Definition numbered (ids : list Z) (num : Z) (s : resources) : Prop :=
  all_counted s ∧ (r_mmrm_enabled s = true → num = Z.of_nat (length ids)).

Lemma numbered_over ids num : over_tables (numbered ids num).
Proof.
  intros s s' E [Hs Hm]. split; [by apply (all_counted_over s)|]. unfold tables in E.
  intros Ht. apply Hm. congruence.
Qed.

Hint Resolve numbered_over : core.

Lemma clock_entry_total pd ids props num i :
  pdata_clock_ids pd = Some ids → (i < length props)%nat → num = Z.of_nat (length props) →
  total (numbered ids num) (clock_entry_at pd props i) (λ _, numbered ids num).
Proof.
  intros E Hi Hn s [Hs Hm]. destruct (lookup_lt_is_Some_2 props i Hi) as [v Ev].
  unfold clock_entry_at, element. srun. rewrite E. destruct (r_mmrm_enabled s) eqn:Em.
  - specialize (Hm eq_refl). assert (Hi' : (i < length ids)%nat) by lia.
    destruct (lookup_lt_is_Some_2 ids i Hi') as [id Eid].
    unfold deref. srun. rewrite Eid. srun. rewrite Ev. srun. eexists _, _. split; [done|by split].
  - srun. rewrite Ev. srun. eexists _, _. split; [done|]. split; [done|]. congruence.
Qed.

Lemma clock_table_total pd : dt_complete pd →
  total all_counted (msm_cvp_load_clock_table pd) dt_post.
Proof.
  intros Hd. destruct (dtc_clock_props pd Hd) as [props E], (dtc_clock_ids pd Hd) as (ids & Ei & Hids).
  unfold msm_cvp_load_clock_table. set (num := dt_count_strings "clock-names").
  destruct (Z.leb_spec num 0).
  { apply then_modify. intros s (?&?&?&?&?&?). right. repeat split; try done. apply fits_zero. }
  apply (total_bind _ _ (λ _, numbered ids num)).
  { rewrite <- Hids. apply total_whenS.
    - intros _. apply total_modify. intros s Hs. by split.
    - intros s Hz Hs. split; [done|]. intros _. by apply negb_false_iff, Z.eqb_eq in Hz. }
  intros []. eapply total_bind; [apply (total_deref _ props _ (λ x s, x = props ∧ numbered ids num s)); auto|].
  intros x. apply total_pure. intros ->.
  destruct (Z.eqb_spec num (Z.of_nat (length props))) as [Hn|Hn]; cbn [negb];
    [|apply total_ret; intros s []; by right].
  apply with_memory; [done|apply then_modify; by left|]. cbn [negb].
  eapply total_bind.
  { apply fill_sure. intros j Hj. apply clock_entry_total; [done|lia|done]. }
  intros r. apply then_modify. intros s [[(?&?&?&?&?&?) _] (l & -> & Hl)].
  right. repeat split; try done. cbn. rewrite <- Hl. apply fits_some.
Qed.

Definition resets_apart (n : nat) (s : resources) : Prop :=
  all_counted (s <| r_reset_count := O |>) ∧ r_reset_count s = n.

Lemma resets_apart_over n : over_tables (resets_apart n).
Proof.
  intros s s' E [Hs Hn]. unfold tables in E. split; [|congruence].
  revert Hs. apply all_counted_over. unfold tables. cbn. congruence.
Qed.

Lemma reset_table_total pd : dt_complete pd →
  total all_counted (msm_cvp_load_reset_table pd) dt_post.
Proof.
  intros Hd. destruct (dtc_resets pd Hd) as (stats & E & Hlen). unfold msm_cvp_load_reset_table.
  set (num := dt_count_strings "reset-names") in *.
  destruct (_ || _) eqn:Ho.
  { apply then_modify. intros s (?&?&?&?&?&?). right. repeat split; try done. apply fits_zero. }
  apply orb_false_iff in Ho as [Hlow Hhigh]. apply with_memory; [done|apply then_modify; by left|]. cbn [negb].
  apply (total_bind _ _ (λ _, resets_apart (Z.to_nat num))).
  { apply total_modify. intros s (?&?&?&?&?&?). split; [|done]. repeat split; try done. apply fits_zero. }
  intros []. eapply total_bind.
  { apply fill_sure. intros j Hj.
    eapply total_bind; [apply (total_deref _ stats _ (λ x s, x = stats ∧ resets_apart (Z.to_nat num) s)); auto|].
    intros x. apply total_pure. intros ->.
    eapply total_bind; [apply total_element; lia|intros v]. by apply total_ret. }
  intros r. apply then_modify. intros s [[(?&?&?&?&?&?) Hn] (l & -> & Hl)].
  right. repeat split; try done. cbn. rewrite Hn, <- Hl. apply fits_some.
Qed.

(** ** The whole *)

Lemma unwound (m : Z → R Z) rc P :
  (∀ s, ∃ s', m rc s = Done (rc, s')) → rc ≠ 0 → total P (m rc) dt_post.
Proof. intros Hm Hrc s _. destruct (Hm s) as [s' E]. exists rc, s'. split; [done|by left]. Qed.

Lemma err_regulator_run rc s : ∃ s', err_load_regulator_table rc s = Done (rc, s').
Proof. eexists. reflexivity. Qed.
Lemma err_PD_run rc s : ∃ s', err_load_PD rc s = Done (rc, s').
Proof. unfold err_load_PD. srun. destruct (flag _); srun; eapply err_regulator_run. Qed.
Lemma err_clock_run rc s : ∃ s', err_load_clock_table rc s = Done (rc, s').
Proof. unfold err_load_clock_table. srun. destruct (negb _); srun; eapply err_PD_run. Qed.
Lemma err_reset_run rc s : ∃ s', err_load_reset_table rc s = Done (rc, s').
Proof. unfold err_load_reset_table. srun. eapply err_clock_run. Qed.

(** A step, and the label its error jumps to. *)
Lemma checked_step (m : R Z) (err : Z → R Z) (k : R Z) :
  total all_counted m dt_post → (∀ rc s, ∃ s', err rc s = Done (rc, s')) →
  total all_counted k dt_post →
  total all_counted (rc ← m; if negb (rc =? 0) then err rc else k) dt_post.
Proof.
  intros Hm He Hk. eapply total_bind; [exact Hm|]. intros rc.
  destruct (Z.eqb_spec rc 0) as [->|Hrc]; cbn [negb]; [|by apply unwound].
  apply (total_pre _ _ _ _ Hk). by intros s [].
Qed.

Lemma supplies_total pd k : dt_complete pd → total all_counted k dt_post →
  total all_counted (load_supplies pd k) dt_post.
Proof.
  intros Hd Hk. unfold load_supplies.
  eapply total_bind; [apply (total_gets _ _ (λ _, all_counted)); auto|intros t].
  destruct (t =? 0); [|destruct (t =? 1); [|done]]; apply checked_step; auto using
    regulator_table_total, err_regulator_run, PD_table_total, err_PD_run.
Qed.

Lemma dt_total pd : dt_complete pd →
  total all_counted (cvp_read_platform_resources_from_dt pd) dt_post.
Proof.
  intros Hd. unfold cvp_read_platform_resources_from_dt.
  destruct dt_node; [|by apply total_ret; left]. cbn [negb].
  eapply total_bind; [by apply read_device_total|intros []].
  eapply total_bind; [by apply fw_name_total|intros rc].
  destruct (Z.eqb_spec rc 0) as [->|Hrc]; cbn [negb]; [|by apply total_ret; left].
  apply supplies_total; [done|]. apply checked_step; [by apply clock_table_total|apply err_clock_run|].
  eapply total_bind; [by apply reset_table_total|intros rc].
  destruct (Z.eqb_spec rc 0) as [->|Hrc]; cbn [negb]; [|apply unwound; [apply err_reset_run|done]].
  apply (total_pre _ all_counted); [|by intros s []].
  eapply total_bind; [by apply total_modify_over|intros []].
  eapply total_bind; [apply (total_gets _ _ (λ _, all_counted)); auto|intros pil].
  eapply total_bind; [apply (total_gets _ _ (λ _, all_counted)); auto|intros banks].
  apply (total_bind _ _ (λ _, all_counted)).
  { apply total_whenS; [intros _; by apply total_modify_over|auto]. }
  intros []. apply then_modify. intros s Hs. by right.
Qed.

End reading.

(** * Context banks *)
Section context_banks.
Context `{DtEnv}.
Variable banks : list cvp_iommu_context_bank.
Hypothesis some_banks : banks ≠ [].

Definition bank_dev (b : cvp_iommu_context_bank) : Z := register_device (icb_name b).

(** A bank that has been set up. *)
Definition ready (b : cvp_iommu_context_bank) : context_bank :=
  let cb := bank_of banks (icb_name b) in
  (if String.eqb (icb_name b) "cvp_camera" then cb <| cb_is_secure := true |>
   else cb <| cb_domain := device_domain (bank_dev b) |>) <| cb_dev := bank_dev b |>.

(** What the state says of the devices of [done], on top of those registered before. *)
Definition set_up (reg : list Z) (done : list cvp_iommu_context_bank) (devs : list Z) (s : resources) : Prop :=
  r_context_banks s = ready <$> done ∧ r_cb_devs s = Some devs ∧ r_registered s = reverse devs ++ reg.

Lemma filter_keeps (P : Z → Prop) `{!∀ x, Decision (P x)} (l : list Z) : (∀ x, x ∈ l → P x) → filter P l = l.
Proof.
  induction l as [|a l IH]; intros HP; [done|].
  rewrite filter_cons_True by (apply HP; left). f_equal. apply IH. intros x Hx. apply HP. by right.
Qed.

Lemma filter_drops (P : Z → Prop) `{!∀ x, Decision (P x)} (l : list Z) : (∀ x, x ∈ l → ¬ P x) → filter P l = [].
Proof.
  induction l as [|a l IH]; intros HP; [done|].
  rewrite filter_cons_False by (apply HP; left). apply IH. intros x Hx. apply HP. by right.
Qed.

Lemma unregister_run devs s :
  each devs platform_device_unregister s =
  Done (tt, s <| r_registered := filter (λ d, d ∉ devs) (r_registered s) |>).
Proof.
  revert s. induction devs as [|d devs IH]; intros s; cbn [each].
  - srun. rewrite (filter_keeps (λ d, d ∉ [])) by (intros ? _; apply not_elem_of_nil). by destruct s.
  - unfold platform_device_unregister at 2. srun. rewrite IH. cbn. rewrite list_filter_filter.
    rewrite (list_filter_iff _ (λ e, e ∉ d :: devs)); [done|]. intros e. rewrite not_elem_of_cons. tauto.
Qed.

Lemma deinit_undoes reg done devs s :
  (∀ d, d ∈ devs → d ∉ reg) → set_up reg done devs s →
  ∃ s', cvp_deinit_context_bank_devices s = Done (tt, s') ∧ r_registered s' = reg ∧
        r_cb_devs s' = None ∧ r_context_banks s' = ready <$> done.
Proof.
  intros Hreg (Hb & Hd & Hr). unfold cvp_deinit_context_bank_devices. srun. rewrite Hd. cbv iota. srun.
  rewrite unregister_run. srun. eexists. split; [reflexivity|]. split; [|done]. cbn. rewrite Hr, list.filter_app.
  rewrite filter_drops, filter_keeps; [done|set_solver|].
  intros x Hx Hn. apply Hn. by apply elem_of_reverse.
Qed.

(** A bank is set up and on the list, or not on it. *)
Lemma populate_bank b s : let dev := bank_dev b in
  ∃ rc s', msm_cvp_populate_context_bank banks dev (icb_name b) s = Done (rc, s') ∧
    r_cb_devs s' = r_cb_devs s ∧ r_registered s' = r_registered s ∧
    r_context_banks s' = r_context_banks s ++ (if rc =? 0 then [ready b] else []).
Proof.
  intros dev. unfold msm_cvp_populate_context_bank, kzalloc. srun.
  destruct (alloc_ok _); cbn [negb]; [|srun; eexists _, _; split; [done|by rewrite app_nil_r]].
  rewrite bool_decide_eq_false_2 by (by destruct banks). srun. unfold ready, msm_cvp_setup_context_bank.
  destruct (String.eqb (icb_name b) "cvp_camera"); cbn [fst snd].
  - set (rc := if device_bus dev =? 0 then _ else _).
    destruct (Z.eqb_spec rc 0) as [->|Hrc]; cbn [negb]; srun; eexists _, _; (split; [reflexivity|]).
    + done.
    + rewrite (proj2 (Z.eqb_neq rc 0) Hrc), app_nil_r. done.
  - destruct (device_domain dev <=? 0); srun; [eexists _, _; split; [reflexivity|by rewrite app_nil_r]|].
    set (rc := if device_bus dev =? 0 then _ else _).
    destruct (Z.eqb_spec rc 0) as [->|Hrc]; cbn [negb]; srun; eexists _, _; (split; [reflexivity|]).
    + done.
    + rewrite (proj2 (Z.eqb_neq rc 0) Hrc), app_nil_r. done.
Qed.

Lemma create_dev b s : ∃ dev s', cvp_create_cb_dev (icb_name b) s = Done (dev, s') ∧
  r_cb_devs s' = r_cb_devs s ∧ r_context_banks s' = r_context_banks s ∧
  (dev <= 0 ∧ r_registered s' = r_registered s ∨
   0 < dev ∧ dev = bank_dev b ∧ r_registered s' = dev :: r_registered s).
Proof.
  unfold cvp_create_cb_dev. fold (bank_dev b). destruct (dt_child _); cbn [negb]; srun.
  - destruct (Z.ltb_spec 0 (bank_dev b)); srun; eexists _, _; (split; [reflexivity|]); auto 8 with lia.
  - eexists _, _. split; [reflexivity|]. auto with lia.
Qed.

(** Either every bank of [l] is set up, or no device is left, and on the list are the banks
    before the one that failed. *)
Definition outcome_of reg l rc s : Prop :=
  rc = 0 ∧ set_up reg l (bank_dev <$> l) s ∨
  rc ≠ 0 ∧ r_registered s = reg ∧ r_cb_devs s = None ∧
    ∃ k, (k < length l)%nat ∧ r_context_banks s = ready <$> take k l.

Lemma bail_out reg done b l devs rc s :
  rc ≠ 0 → (∀ d, d ∈ devs → d ∉ reg) → set_up reg done devs s →
  ∃ s', (cvp_deinit_context_bank_devices ;; mret rc) s = Done (rc, s') ∧
        outcome_of reg (done ++ b :: l) rc s'.
Proof.
  intros Hrc Hreg Hs. destruct (deinit_undoes reg done devs s Hreg Hs) as (s' & E & Hr & Hd & Hb).
  rewrite St_bind_run, E. srun. eexists. split; [done|]. right. repeat split; auto. exists (length done).
  rewrite length_app, take_app_length. cbn. split; [lia|done].
Qed.

(** The loop: every bank is set up, or none of the devices is left. *)
Lemma init_banks_run reg l done s :
  (∀ b, b ∈ done ++ l → bank_dev b ∉ reg) → set_up reg done (bank_dev <$> done) s →
  ∃ rc s', init_banks banks l s = Done (rc, s') ∧ outcome_of reg (done ++ l) rc s'.
Proof.
  revert done s. induction l as [|b l IH]; intros done s Hreg Hs; cbn [init_banks].
  { srun. eexists _, _. split; [done|]. left. by rewrite app_nil_r. }
  assert (Hdone : ∀ d, d ∈ bank_dev <$> done → d ∉ reg).
  { intros d (b' & -> & Hb')%list_elem_of_fmap. apply Hreg. set_solver. }
  destruct Hs as (Hb & Hd & Hr).
  destruct (create_dev b s) as (dev & s1 & E1 & Hd1 & Hb1 & Hr1). rewrite St_bind_run, E1. cbn [obind fst snd].
  destruct Hr1 as [[Hle Hr1]|(Hpos & -> & Hr1)].
  - rewrite (proj2 (Z.leb_le dev 0) Hle). eexists _. apply (bail_out _ _ _ _ (bank_dev <$> done)); [|done|].
    + destruct (Z.eqb_spec dev 0); [done|lia].
    + repeat split; congruence.
  - rewrite (proj2 (Z.leb_gt (bank_dev b) 0) Hpos). srun.
    destruct (populate_bank b (s1 <| r_cb_devs ::= option_map (λ l, l ++ [bank_dev b]) |>))
      as (rc & s2 & E2 & Hd2 & Hr2 & Hb2). rewrite E2. srun. cbn in Hd2, Hr2, Hb2.
    rewrite Hd1, Hd in Hd2. cbn in Hd2. rewrite Hb1, Hb in Hb2. rewrite Hr1, Hr in Hr2.
    assert (Hall : set_up reg (if rc =? 0 then done ++ [b] else done) (bank_dev <$> done ++ [b]) s2).
    { split; [|split].
      - rewrite Hb2. destruct (rc =? 0); [by rewrite fmap_app|by rewrite app_nil_r].
      - by rewrite fmap_app.
      - by rewrite fmap_app, reverse_app, Hr2. }
    destruct (Z.eqb_spec rc 0) as [->|Hrc]; cbn [negb].
    + replace (done ++ b :: l) with ((done ++ [b]) ++ l) in * by by rewrite <- app_assoc. by apply IH.
    + eexists _. eapply bail_out; [done| |done]. intros d (b' & -> & Hin)%list_elem_of_fmap.
      apply Hreg. rewrite elem_of_app in Hin |- *. rewrite list_elem_of_singleton in Hin.
      rewrite elem_of_cons. tauto.
Qed.

End context_banks.

(** * Readings that always complete *)
Create HintDb completes.
Section completing.
Context `{DtEnv}.

Definition completes {A} (m : R A) : Prop := total (λ _, True) m (λ _ _, True).

Lemma completes_ret {A} (a : A) : completes (mret a).
Proof. by apply total_ret. Qed.
Lemma completes_bind {A B} (m : R A) (f : A → R B) : completes m → (∀ a, completes (f a)) → completes (m ≫= f).
Proof. intros Hm Hf. by eapply total_bind. Qed.
Lemma completes_modify f : completes (modify f).
Proof. by apply total_modify. Qed.
Lemma completes_gets {A} (f : resources → A) : completes (gets f).
Proof. by apply total_gets. Qed.
Lemma completes_kzalloc : completes kzalloc.
Proof. by apply total_kzalloc. Qed.
Lemma completes_whenS b m : completes m → completes (whenS b m).
Proof. destruct b; [done|intros _; apply completes_ret]. Qed.

Hint Resolve completes_ret completes_modify completes_gets completes_kzalloc completes_whenS : completes.

Ltac completes_tac :=
  repeat first
    [ by auto with completes
    | apply completes_bind; [by auto with completes|intros ?]
    | case_match ].

Lemma completes_deinit : completes cvp_deinit_context_bank_devices.
Proof.
  unfold cvp_deinit_context_bank_devices. apply completes_bind; [auto with completes|intros [devs|]]; [|apply completes_ret].
  apply completes_bind; [|intros []; apply completes_modify].
  apply total_each_inv with (I := λ _, True). intros d _. apply completes_modify.
Qed.

Lemma completes_init_banks all l : completes (init_banks all l).
Proof.
  induction l as [|b l IH]; cbn [init_banks]; [apply completes_ret|].
  apply completes_bind; [unfold cvp_create_cb_dev; completes_tac|intros dev]. destruct (_ <=? 0).
  { apply completes_bind; [apply completes_deinit|intros []; apply completes_ret]. }
  apply completes_bind; [apply completes_modify|intros []]. apply completes_bind.
  - unfold msm_cvp_populate_context_bank, msm_cvp_setup_context_bank. completes_tac.
  - intros rc. destruct (negb _); [|apply IH]. apply completes_bind; [apply completes_deinit|intros []; apply completes_ret].
Qed.

Lemma completes_init pd : completes (cvp_init_context_bank_devices (Some pd)).
Proof.
  unfold cvp_init_context_bank_devices. destruct (pdata_cb_data pd) as [[|b l]|]; try apply completes_ret.
  apply completes_bind; [apply completes_kzalloc|intros [|]]; cbn [negb];
    (apply completes_bind; [apply completes_modify|intros []]); [apply completes_init_banks|apply completes_ret].
Qed.

(** The tree names no more buses than are described, and where shared memory is mapped. *)
Record bus_complete (pd : msm_cvp_platform_data) : Prop := mkBusComplete {
  buc_descs : ∃ l, pdata_bus_descs pd = Some l ∧ dt_count_strings "interconnect-names" <= Z.of_nat (length l);
  buc_ipclite : is_Some (pdata_ipclite_mappings pd)
}.

Lemma completes_bus pd : bus_complete pd → completes (msm_cvp_populate_bus pd).
Proof.
  intros [(l & E & Hl) _]. unfold msm_cvp_populate_bus. destruct (_ <=? 0) eqn:Hz; [apply completes_ret|].
  apply completes_bind; [apply completes_kzalloc|intros [|]]; cbn [negb]; [|completes_tac].
  apply completes_bind; [apply completes_modify|intros []]. apply completes_bind; [|intros r; completes_tac].
  eapply total_post; [apply total_fill|done]. intros j Hj. unfold bus_entry_at. rewrite E.
  destruct (dt_string_at _ _) as [name|e]; [|apply completes_ret].
  eapply total_bind; [apply total_element; lia|intros d]. by apply total_ret.
Qed.

Lemma completes_ipclite pd : bus_complete pd → completes (msm_cvp_ipclite_mappings pd).
Proof.
  intros [_ [iova E]]. unfold msm_cvp_ipclite_mappings. rewrite E. completes_tac.
  apply completes_bind; [by apply completes_ret|intros ?]. completes_tac.
Qed.

Lemma completes_free : completes msm_cvp_free_platform_resources.
Proof.
  unfold msm_cvp_free_platform_resources, msm_cvp_free_clock_table, msm_cvp_free_regulator_table,
    err_load_load_PD_table, msm_cvp_free_allowed_clocks_table, msm_cvp_free_reg_table,
    msm_cvp_free_qdss_addr_table, msm_cvp_free_bus_vectors. completes_tac.
Qed.

End completing.
