(* ===== verification/Probe.v ===== *)
(** The platform driver (src/msm/eva/cvp.c) and the device of the host-firmware interface
    (src/msm/eva/cvp_core_hfi.c, cvp_hfi.c): how a core is set up, unwound and removed.

    The state lists what is held ([p_live]); giving back what is not held is a fault.  The
    frameworks' answers are [ProbeEnv]'s; memory mapped and read through the device's own
    (devm) allocators is given back by the kernel and not listed.  The branches compiled in
    for presilicon and virtual machines are left out. *)

From stdpp Require Import strings.
From S2P Require Import Prelude Store Hw Platform Resources Dsp.
Open Scope Z_scope.

Definition CVP_INFO : Z := 4.
Definition FIRMWARE_SIZE : Z := 0xA00000.
Definition POLLIN : Z := 1.
Definition POLLPRI : Z := 2.

(** * State *)

Inductive thing :=
  | Driver | Core | Ops | Hdev | Response_pkt | Raw_packet | Hal_data | Irq (n : Z) | Cvp_workq | Pm_workq
  | Chrdev | Class_ | Device | Group (core_device : bool) | Cdev | Debugfs | Debug_log | Sub_devices
  | Driver_registered | Cache (n : nat).
#[global] Instance thing_eq : EqDecision thing.
Proof. solve_decision. Defined.

Record cvp_hal_data := mkHal {
  hd_irq : Z; hd_irq_wd : Z; hd_firmware_base : Z; hd_register_base : Z; hd_gcc_reg_base : Z;
  hd_tcsr_reg_base : Z; hd_register_size : Z; hd_gcc_reg_size : Z
}.

(** [p_cvp_core]: the driver's pointer to the core is set; [p_hal]: the device's pointer to
    its data, which may outlive them. *)
Record probe := mkProbe {
  p_res : resources;
  p_live : list thing;
  p_drvdata : bool;
  p_cvp_core : bool;
  p_hal : option cvp_hal_data;
  p_ops : bool;
  p_hal_version : option Z;
  p_sku_version : Z;
  p_irq_enabled : bool;
  p_dsp : dsp
}.
#[global] Instance eta_probe : Eta probe :=
  λ s, mkProbe (p_res s) (p_live s) (p_drvdata s) (p_cvp_core s) (p_hal s) (p_ops s)
    (p_hal_version s) (p_sku_version s) (p_irq_enabled s) (p_dsp s).

Class ProbeEnv := {
  msm_cvp_debug : Z;
  devm_ioremap : Z → Z → Z;
  request_irq : Z → Z;
  create_workqueue : nat → bool;
  alloc_chrdev_region : Z;
  class_create : Z;
  device_create : Z;
  cdev_add : Z;
  sysfs_create_group : Z;
  debugfs_create_dir : bool;
  vmalloc_log : bool;
  of_platform_populate : Z;
  register_driver : Z;
  tcsr_reg : Z * Z
}.

Abbreviation PR := (St probe).

Section operations.
Context `{ClockBindings} `{DtEnv} `{DspEnv} `{ProbeEnv}.

Definition on_res {A} (m : R A) : PR A :=
  λ s, let! r := m (p_res s) in Done (r.1, s <| p_res := r.2 |>).
Definition on_dsp {A} (m : D A) : PR A :=
  λ s, let! r := m (p_dsp s) in Done (r.1, s <| p_dsp := r.2 |>).

Definition acquire (t : thing) : PR unit := modify (λ s, s <| p_live ::= (t ::.) |>).

Fixpoint remove_thing (t : thing) (l : list thing) : list thing :=
  match l with [] => [] | u :: l' => if decide (u = t) then l' else u :: remove_thing t l' end.

Definition release (t : thing) : PR unit :=
  l ← gets p_live;
  if bool_decide (t ∈ l) then modify (λ s, s <| p_live := remove_thing t l |>) else stuck.

(** Functions that accept a null pointer, or something that is not there. *)
Definition release_if (t : thing) : PR unit :=
  l ← gets p_live; whenS (bool_decide (t ∈ l)) (release t).

Definition alloc (t : thing) : PR bool :=
  ok ← on_res kzalloc; whenS ok (acquire t) ;; mret ok.

(** * The interface's device *)

Definition CONTAINS (a sz t : Z) : bool := (a <=? t) && (t <? a + sz).
Definition OVERLAPS (t tsz a asz : Z) : bool := (t <=? a) && (a + asz <=? t + tsz).

Definition __check_core_registered (hal : option cvp_hal_data) (fw reg size irq : Z) : Z :=
  match hal with
  | None => - EINVAL
  | Some h =>
      let hfw := hd_firmware_base h in
      let hreg := hd_register_base h in
      if (hd_irq h =? irq) &&
         (CONTAINS hfw FIRMWARE_SIZE fw || CONTAINS fw FIRMWARE_SIZE hfw
          || CONTAINS hreg size reg || CONTAINS reg size hreg
          || OVERLAPS hreg size reg size || OVERLAPS reg size hreg size
          || OVERLAPS hfw FIRMWARE_SIZE fw FIRMWARE_SIZE || OVERLAPS fw FIRMWARE_SIZE hfw FIRMWARE_SIZE)
      then 0 else - EINVAL
  end.

Definition hal_of (r : resources) : cvp_hal_data :=
  mkHal (r_irq r) (r_irq_wd r) (r_firmware_base r) (devm_ioremap (r_register_base r) (r_register_size r))
    (if r_gcc_reg_base r =? 0 then 0 else devm_ioremap (r_gcc_reg_base r) (r_gcc_reg_size r))
    (devm_ioremap tcsr_reg.1 tcsr_reg.2) (r_register_size r)
    (if r_gcc_reg_base r =? 0 then 0 else r_gcc_reg_size r).

(** The error of registers that cannot be mapped is that of the first test. *)
Definition _vm_init_reg_and_irq : PR Z :=
  r ← gets p_res; old ← gets p_hal;
  let rc := __check_core_registered old (r_firmware_base r) (r_register_base r) (r_register_size r)
              (r_irq r) in
  if rc =? 0 then mret (- EEXIST)
  else
    ok ← alloc Hal_data;
    if negb ok then mret (- ENOMEM)
    else
      let hal := hal_of r in
      let fail rc := release Hal_data ;; mret rc in
      if hd_register_base hal =? 0 then fail rc
      else
        modify (λ s, s <| p_hal := Some hal |>) ;;
        let rc := request_irq (r_irq r) in
        if negb (rc =? 0) then fail rc
        else
          acquire (Irq (r_irq r)) ;;
          let rc := request_irq (r_irq_wd r) in
          if negb (rc =? 0) then fail rc
          else acquire (Irq (r_irq_wd r)) ;; modify (λ s, s <| p_irq_enabled := false |>) ;; mret rc.

(** A failed device frees itself, the queues that exist and its packets: not its data and
    interrupts. *)
Definition err_cleanup : PR bool :=
  release_if Pm_workq ;; release_if Cvp_workq ;; release_if Response_pkt ;; release_if Raw_packet ;;
  release Hdev ;; mret false.

Definition __add_device : PR bool :=
  ok ← alloc Hdev;
  if negb ok then mret false
  else
    modify (λ s, s <| p_hal := None |>) ;;
    ok ← alloc Response_pkt;
    if negb ok then err_cleanup
    else
      ok ← alloc Raw_packet;
      if negb ok then err_cleanup
      else
        rc ← _vm_init_reg_and_irq;
        if negb (rc =? 0) then err_cleanup
        else if negb (create_workqueue 0) then err_cleanup
        else
          acquire Cvp_workq ;;
          if negb (create_workqueue 1) then err_cleanup
          else acquire Pm_workq ;; mret true.

(** The message of level [CVP_INFO] follows the device's pointer before it is looked at. *)
Definition cvp_iris_hfi_initialize : PR Z :=
  ok ← __add_device;
  if negb ok && negb (Z.land msm_cvp_debug CVP_INFO =? 0) then stuck
  else if negb ok then mret (- EINVAL) else mret 0.

(** 0, or the error that the pointer is or stands for. *)
Definition cvp_hfi_initialize : PR Z :=
  ok ← alloc Ops;
  if negb ok then mret (- EBADHANDLE)
  else
    rc ← cvp_iris_hfi_initialize;
    if negb (rc =? 0) then release Ops ;; mret rc
    else modify (λ s, s <| p_ops := true |>) ;; mret 0.

(** The device is found through the driver's core; the watchdog's interrupt stays. *)
Definition cvp_iris_hfi_delete_device : PR unit :=
  core ← gets p_cvp_core;
  if negb core then mret tt
  else
    release Cvp_workq ;; release Pm_workq ;;
    hal ← gets p_hal; hal ← (match hal with None => stuck | Some h => mret h end);
    release (Irq (hd_irq hal)) ;;
    release Hal_data ;; release Response_pkt ;; release Raw_packet ;; release Hdev.

Definition cvp_hfi_deinitialize : PR unit :=
  ops ← gets p_ops;
  if negb ops then mret tt
  else cvp_iris_hfi_delete_device ;; release Ops ;; modify (λ s, s <| p_ops := false |>).

(** * The core *)

Definition read_platform_resources (pdata : option msm_cvp_platform_data) : PR Z :=
  if negb dt_node then mret (- EINVAL)
  else
    rc ← on_res (cvp_read_platform_resources_from_drv_data pdata);
    if negb (rc =? 0) then mret rc
    else
      match pdata with
      | None => stuck
      | Some pd => on_res (cvp_read_platform_resources_from_dt pd)
      end.

Definition msm_cvp_initialize_core := read_platform_resources.

(** The labels of the probe's errors, each falling through to the next. *)
Definition err_core_init (rc : Z) : PR Z :=
  modify (λ s, s <| p_drvdata := false |>) ;; release Core ;; mret rc.
Definition err_alloc_chrdev (rc : Z) : PR Z := release_if (Group false) ;; err_core_init rc.
Definition err_class_create (rc : Z) : PR Z := release Chrdev ;; err_alloc_chrdev rc.
Definition err_device_create (rc : Z) : PR Z := release Class_ ;; err_class_create rc.
(** Destroying the device takes its attributes with it. *)
Definition error_cdev_add (rc : Z) : PR Z :=
  release_if (Group true) ;; release Device ;; err_device_create rc.
Definition err_hfi_initialize (rc : Z) : PR Z := release Cdev ;; error_cdev_add rc.
Definition fail_dbglog_alloc (rc : Z) : PR Z :=
  cvp_hfi_deinitialize ;; release_if Debugfs ;;
  on_res cvp_deinit_context_bank_devices ;; err_hfi_initialize rc.
Definition err_fail_sub_device_probe (rc : Z) : PR Z := release Debug_log ;; fail_dbglog_alloc rc.

(** A step that fails with the error to unwind with. *)
Definition check (rc : Z) (bad : bool) (err : Z → PR Z) (k : PR Z) : PR Z :=
  if bad then err rc else k.

Definition set_hal_functions (ver : Z) (rc : Z) : PR Z :=
  if (ver =? DEFAULT_HAL_VER) || (ver =? KNP_HAL_VER) || (ver =? GLYMUR_HAL_VER) || (ver =? HAWI_HAL_VER)
  then modify (λ s, s <| p_hal_version := Some ver |>) ;; mret rc
  else mret (- EINVAL).

Definition probe_sub_devices (ipclite : bool) (pd : msm_cvp_platform_data) : PR Z :=
  check of_platform_populate (negb (of_platform_populate =? 0)) err_fail_sub_device_probe (
  acquire Sub_devices ;;
  rc ← on_res (msm_cvp_populate_bus pd);
  check rc (negb (rc =? 0)) err_fail_sub_device_probe (
  rc ← on_res (cvp_init_context_bank_devices (Some pd));
  check rc (negb (rc =? 0)) err_fail_sub_device_probe (
  rc ← (if ipclite then on_res (msm_cvp_ipclite_mappings pd) else mret 0);
  check rc (negb (rc =? 0)) err_fail_sub_device_probe (
  r ← gets p_res;
  rc ← (if r_dsp_enabled r then on_dsp cvp_dsp_device_init else mret 0);
  set_hal_functions (pdata_hal_version pd) rc)))).

Definition probe_char_device (k : PR Z) : PR Z :=
  check alloc_chrdev_region (alloc_chrdev_region <? 0) err_alloc_chrdev (
  acquire Chrdev ;;
  check class_create (class_create <? 0) err_class_create (
  acquire Class_ ;;
  check device_create (device_create <? 0) err_device_create (
  acquire Device ;;
  check cdev_add (cdev_add <? 0) error_cdev_add (
  acquire Cdev ;;
  check sysfs_create_group (negb (sysfs_create_group =? 0)) err_hfi_initialize (
  acquire (Group true) ;; k))))).

Definition msm_probe_cvp_device (ipclite : bool) (node : option string) : PR Z :=
  l ← gets p_live;
  if negb (bool_decide (Driver ∈ l)) then mret (- EINVAL)
  else
    ok ← alloc Core;
    if negb ok then mret (- ENOMEM)
    else
      let pdata := cvp_get_drv_data node in
      modify (λ s, s <| p_drvdata := true |>) ;;
      rc ← msm_cvp_initialize_core pdata;
      check rc (negb (rc =? 0)) err_core_init (
      probe_char_device (
      rc ← cvp_hfi_initialize;
      check rc (negb (rc =? 0)) err_hfi_initialize (
      modify (λ s, s <| p_cvp_core := true |>) ;;
      whenS debugfs_create_dir (acquire Debugfs) ;;
      modify (λ s, s <| p_sku_version := r_sku_version (p_res s) |>) ;;
      check (- ENOMEM) (negb vmalloc_log) fail_dbglog_alloc (
      acquire Debug_log ;;
      match pdata with None => stuck | Some pd => probe_sub_devices ipclite pd end)))).

(** ** Which device is probed *)

Definition mem_cdsp : string := "qcom,msm-cvp,mem-cdsp".

Definition msm_cvp_plat_match (dsp_enabled : bool) : list string :=
  ["qcom,kaanapali-eva"; "qcom,glymur-eva"] ++ (if dsp_enabled then [mem_cdsp] else []).

Definition of_match_device (dsp_enabled : bool) (compatible : string) : bool :=
  bool_decide (compatible ∈ msm_cvp_plat_match dsp_enabled).

Definition msm_cvp_probe (dsp_enabled ipclite allowed : bool) (compatible : string) (dev : Z) : PR Z :=
  if negb allowed then mret 0
  else if of_match_device dsp_enabled compatible then msm_probe_cvp_device ipclite (Some compatible)
  else if dsp_enabled && String.eqb compatible mem_cdsp then on_res (msm_cvp_populate_mem_cdsp dev)
  else mret (- EINVAL).

(** ** Removal *)

Definition msm_cvp_remove : PR unit :=
  core ← gets p_drvdata;
  if negb core then mret tt
  else
    release_if Debug_log ;;
    cvp_hfi_deinitialize ;;
    on_res msm_cvp_free_platform_resources ;;
    on_res cvp_deinit_context_bank_devices ;;
    release_if (Group false) ;;
    modify (λ s, s <| p_drvdata := false |>) ;;
    release Core.

(** ** The module *)

Definition caches : list thing := Cache <$> seq 0 4.

(** The driver is registered, and may be probed, before the caches exist. *)
Definition msm_cvp_init : PR Z :=
  ok ← alloc Driver;
  if negb ok then mret (- ENOMEM)
  else if negb (register_driver =? 0) then release Driver ;; mret register_driver
  else acquire Driver_registered ;; each caches acquire ;; mret register_driver.

(** Whether the caches exist is not looked at; freeing a null cache is harmless.  To
    unregister the driver removes its device. *)
Definition msm_cvp_exit : PR unit :=
  each caches release_if ;;
  msm_cvp_remove ;; release Driver_registered ;;
  release_if Debugfs ;; release Driver ;;
  modify (λ s, s <| p_cvp_core := false |>).

(** ** The device file and its attributes *)

Inductive file_event := NO_EVENT | EVA_EVENT | DUMP_EVENT.

(** The event is told once. *)
Definition cvp_poll (event : file_event) : Z * file_event :=
  (match event with EVA_EVENT => POLLPRI | DUMP_EVENT => POLLIN | NO_EVENT => 0 end, NO_EVENT).

(** [kstrtoul] gives the number that the text is. *)
Definition pwr_collapse_delay_store (kstrtoul : Z + Z) (count : Z) : PR Z :=
  match kstrtoul with
  | inr rc => mret rc
  | inl val =>
      if val =? 0 then mret (- EINVAL)
      else
        core ← gets p_cvp_core;
        if negb core then mret (- EINVAL)
        else on_res (modify (λ r, r <| r_pwr_collapse_delay := u32 val |>)) ;; mret count
  end.

End operations.
