(* ===== verification/ProbeLaws.v ===== *)
(** What the platform driver holds, after a probe that succeeds, one that fails, and a
    removal.  [holds L f s]: the things held are [L], in any order, and the pointers that the
    interface's device is found through are [f]. *)

From stdpp Require Import strings.
From S2P Require Import Prelude Store Hw Platform Resources ResourceLaws Dsp Probe.
Open Scope Z_scope.

(** * Rules *)
Section rules.
Context `{DtEnv} `{DspEnv} `{ProbeEnv}.

Definition flags (s : probe) := (p_ops s, p_cvp_core s, p_hal s, p_drvdata s).

Definition holds (L : list thing) (f : bool * bool * option cvp_hal_data * bool) (s : probe) : Prop :=
  p_live s ≡ₚ L ∧ flags s = f.

Lemma holds_perm L L' f s : L ≡ₚ L' → holds L f s → holds L' f s.
Proof. intros E [Hl Hf]. split; [by rewrite <- E|done]. Qed.

Lemma holds_modify f f' g L : (∀ s, p_live (g s) = p_live s) → (∀ s, flags s = f → flags (g s) = f') →
  total (holds L f) (modify g) (λ _, holds L f').
Proof. intros Hl Hf. apply total_modify. intros s [Hs Hfs]. split; [by rewrite Hl|auto]. Qed.

Lemma holds_on_res {A} (m : R A) (P : resources → Prop) (Q : A → resources → Prop) L f :
  total P m Q →
  total (λ s, P (p_res s) ∧ holds L f s) (on_res m) (λ a s, Q a (p_res s) ∧ holds L f s).
Proof.
  intros Hm s [HP [Hl Hf]]. destruct (Hm _ HP) as (a & r & E & HQ). unfold on_res. rewrite E.
  eexists _, _. split; [done|]. by repeat split.
Qed.

Lemma holds_runs {A} (m : R A) L f : completes m → total (holds L f) (on_res m) (λ _, holds L f).
Proof.
  intros Hm. eapply total_conseq; [exact (holds_on_res m _ _ L f Hm)|..]; cbn; tauto.
Qed.

Lemma holds_acquire t L f : total (holds L f) (acquire t) (λ _, holds (t :: L) f).
Proof. apply total_modify. intros s [Hl Hf]. split; [cbn; by rewrite Hl|done]. Qed.

Lemma remove_perm t l : t ∈ l → l ≡ₚ t :: remove_thing t l.
Proof.
  induction l as [|u l IH]; [by intros ?%not_elem_of_nil|]. cbn. intros [->|Hin]%elem_of_cons.
  - by rewrite decide_True by done.
  - destruct (decide (u = t)) as [->|Hne]; [done|]. rewrite (IH Hin) at 1. apply Permutation_swap.
Qed.

Lemma holds_release t L f : total (holds (t :: L) f) (release t) (λ _, holds L f).
Proof.
  intros s [Hl Hf]. assert (Hin : t ∈ p_live s) by (rewrite Hl; left).
  unfold release. srun. rewrite bool_decide_eq_true_2 by done. eexists _, _. split; [done|].
  split; [|done]. cbn. apply (Permutation_cons_inv (a := t)). by rewrite <- Hl, <- remove_perm.
Qed.

(** Releasing from anywhere in the list. *)
Lemma holds_release_at t L L' f : L ≡ₚ t :: L' → total (holds L f) (release t) (λ _, holds L' f).
Proof. intros E. eapply total_pre; [apply holds_release|]. intros s. by apply holds_perm. Qed.

Lemma holds_release_if_in t L L' f : L ≡ₚ t :: L' → total (holds L f) (release_if t) (λ _, holds L' f).
Proof.
  intros E s Hs. unfold release_if. srun. assert (Hin : t ∈ p_live s) by (destruct Hs as [-> _]; rewrite E; left).
  rewrite bool_decide_eq_true_2 by done. by apply (holds_release_at t L L' f E).
Qed.

Lemma holds_release_if_out t L f : t ∉ L → total (holds L f) (release_if t) (λ _, holds L f).
Proof.
  intros Hn s Hs. unfold release_if. srun. rewrite bool_decide_eq_false_2; [by eexists _, _|].
  by destruct Hs as [-> _].
Qed.

Lemma remove_absent t l : t ∉ l → remove_thing t l = l.
Proof.
  induction l as [|u l IH]; intros Hn; [done|]. cbn. rewrite not_elem_of_cons in Hn. destruct Hn as [Hu Hl].
  rewrite decide_False by congruence. f_equal. auto.
Qed.

Lemma remove_same t l : remove_thing t (t :: l) = l.
Proof. cbn. by rewrite decide_True. Qed.
Lemma remove_other t u l : u ≠ t → remove_thing t (u :: l) = u :: remove_thing t l.
Proof. intros Hn. cbn. by rewrite decide_False. Qed.

Lemma holds_release_if t L f : total (holds L f) (release_if t) (λ _, holds (remove_thing t L) f).
Proof.
  destruct (decide (t ∈ L)) as [Hin|Hn].
  - by apply holds_release_if_in, remove_perm.
  - rewrite remove_absent by done. by apply holds_release_if_out.
Qed.

Lemma holds_alloc t L f : total (holds L f) (alloc t) (λ ok s, holds (if ok then t :: L else L) f s).
Proof.
  unfold alloc. eapply total_bind; [apply holds_runs, completes_kzalloc|]. intros ok.
  apply (total_bind _ _ (λ _, holds (if ok then t :: L else L) f)); [|intros []; by apply total_ret].
  apply total_whenS; [intros ->; apply holds_acquire|by intros s ->].
Qed.

(** Allocation with both outcomes. *)
Lemma with_alloc {A} t L f (k : bool → PR A) Q :
  total (holds (t :: L) f) (k true) Q → total (holds L f) (k false) Q →
  total (holds L f) (alloc t ≫= k) Q.
Proof. intros Ht Hf. eapply total_bind; [apply holds_alloc|]. by intros []. Qed.

(** * The interface's device *)

(** What the device is made of, for the interrupts [i] and [w]. *)
Definition dev_things (i w : Z) : list thing :=
  [Pm_workq; Cvp_workq; Irq w; Irq i; Hal_data; Raw_packet; Response_pkt; Hdev].

(** What a failure may leave behind. *)
Definition stays (t : thing) : Prop :=
  match t with Irq _ | Hal_data | Sub_devices => True | _ => False end.

Definition left_over (L : list thing) f (s : probe) : Prop := ∃ k, Forall stays k ∧ holds (k ++ L) f s.

Lemma left_over_intro k L L' f s : L' ≡ₚ k ++ L → Forall stays k → holds L' f s → left_over L f s.
Proof. intros E Hk Hs. exists k. split; [done|]. by apply (holds_perm L'). Qed.

(** The list that the device is added to has none of its parts. *)
Definition no_device (L : list thing) : Prop :=
  Forall (λ t, t ∉ L) [Pm_workq; Cvp_workq; Response_pkt; Raw_packet].

Lemma check_fresh fw reg size irq : __check_core_registered None fw reg size irq = - EINVAL.
Proof. done. Qed.

Lemma reg_and_irq_total L o c d :
  total (holds L (o, c, None, d)) _vm_init_reg_and_irq
    (λ rc s, if rc =? 0
             then ∃ h w, holds (Irq w :: Irq (hd_irq h) :: Hal_data :: L) (o, c, Some h, d) s
             else ∃ k h, Forall stays k ∧ holds (k ++ L) (o, c, h, d) s).
Proof.
  unfold _vm_init_reg_and_irq.
  eapply total_bind; [apply (total_gets _ _ (λ _, holds L (o, c, None, d))); auto|intros r].
  eapply total_bind; [apply (total_gets _ _ (λ old s, old = None ∧ holds L (o, c, None, d) s))|intros old].
  { intros s Hs. split; [|done]. destruct Hs as [_ Hf]. by injection Hf. }
  apply total_pure. intros ->. rewrite check_fresh. change (- EINVAL =? 0) with false. cbv iota.
  apply with_alloc; cbn [negb]; [|apply total_ret; intros s Hs; by exists [], None].
  set (h := hal_of r).
  assert (Hfail : ∀ k o', Forall stays k → ∀ rc, rc ≠ 0 →
    total (holds (k ++ Hal_data :: L) (o, c, o', d)) (release Hal_data ;; mret rc)
      (λ rc s, if rc =? 0 then ∃ h w, holds (Irq w :: Irq (hd_irq h) :: Hal_data :: L) (o, c, Some h, d) s
               else ∃ k h, Forall stays k ∧ holds (k ++ L) (o, c, h, d) s)).
  { intros k o' Hk rc Hrc. apply (total_bind _ _ (λ _, holds (k ++ L) (o, c, o', d))).
    { apply holds_release_at. by rewrite Permutation_middle. }
    intros []. apply total_ret. intros s Hs. rewrite (proj2 (Z.eqb_neq rc 0) Hrc). eauto. }
  destruct (hd_register_base h =? 0); [by apply (Hfail [])|].
  apply (total_bind _ _ (λ _, holds (Hal_data :: L) (o, c, Some h, d))).
  { apply holds_modify; [done|]. intros s Hf. unfold flags in *. cbn. congruence. }
  intros []. destruct (Z.eqb_spec (request_irq (r_irq r)) 0) as [_|Hrc]; cbn [negb]; [|by apply (Hfail [])].
  eapply total_bind; [apply holds_acquire|intros []].
  destruct (Z.eqb_spec (request_irq (r_irq_wd r)) 0) as [E|Hrc]; cbn [negb].
  2: { apply (Hfail [Irq (r_irq r)]); [|done]. by repeat constructor. }
  eapply total_bind; [apply holds_acquire|intros []].
  eapply total_bind; [apply (holds_modify _ (o, c, Some h, d)); [done|by intros]|intros []].
  apply total_ret. intros s Hs. rewrite E. by exists h, (r_irq_wd r).
Qed.

(** The parts that exist go, whatever else is held. *)
Lemma err_cleanup_total L k parts f : no_device L → Forall stays k →
  parts ∈ [[]; [Response_pkt]; [Raw_packet; Response_pkt]; [Cvp_workq; Raw_packet; Response_pkt]] →
  total (holds (k ++ parts ++ Hdev :: L) f) err_cleanup (λ ok s, ok = false ∧ left_over L f s).
Proof.
  intros HL Hk Hp. unfold err_cleanup.
  assert (Hkn : ∀ t L', ¬ stays t → remove_thing t (k ++ L') = k ++ remove_thing t L').
  { intros t L' Ht. clear -Hk Ht. induction Hk as [|u k Hu Hk IH]; [done|]. cbn.
    rewrite decide_False by congruence. by rewrite IH. }
  assert (HLn : ∀ t, t ∈ [Pm_workq; Cvp_workq; Response_pkt; Raw_packet] → remove_thing t L = L).
  { intros t Ht. apply remove_absent. unfold no_device in HL. rewrite list.Forall_forall in HL. auto. }
  do 4 (eapply total_bind; [apply holds_release_if|intros []]).
  rewrite !Hkn by (by intros []).
  assert (E : remove_thing Raw_packet (remove_thing Response_pkt (remove_thing Cvp_workq
                (remove_thing Pm_workq (parts ++ Hdev :: L)))) = Hdev :: L).
  { rewrite !elem_of_cons, elem_of_nil in Hp. destruct Hp as [->|[->|[->|[->|[]]]]]; cbn [app];
      repeat first [rewrite remove_same | rewrite remove_other by done]; by rewrite !HLn by set_solver. }
  rewrite E. apply (total_bind _ _ (λ _, holds (k ++ L) f)).
  { apply holds_release_at. by rewrite Permutation_middle. }
  intros []. apply total_ret. intros s Hs. split; [done|]. by exists k.
Qed.

Lemma add_device_total L o c h d : no_device L →
  total (holds L (o, c, h, d)) __add_device
    (λ ok s, if ok : bool then ∃ h w, holds (dev_things (hd_irq h) w ++ L) (o, c, Some h, d) s
             else ∃ h, left_over L (o, c, h, d) s).
Proof.
  intros HL. unfold __add_device.
  apply with_alloc; cbn [negb]; [|apply total_ret; intros s Hs; exists h; by exists []].
  apply (total_bind _ _ (λ _, holds (Hdev :: L) (o, c, None, d))).
  { apply holds_modify; [done|]. intros s Hf. unfold flags in *. cbn. congruence. }
  intros [].
  assert (Hclean : ∀ k parts h', Forall stays k →
    parts ∈ [[]; [Response_pkt]; [Raw_packet; Response_pkt]; [Cvp_workq; Raw_packet; Response_pkt]] →
    total (holds (k ++ parts ++ Hdev :: L) (o, c, h', d)) err_cleanup
      (λ ok s, if ok : bool then ∃ h w, holds (dev_things (hd_irq h) w ++ L) (o, c, Some h, d) s
               else ∃ h, left_over L (o, c, h, d) s)).
  { intros k parts h' Hk Hp. eapply total_post; [by apply err_cleanup_total|]. intros a s [-> Hs]. eauto. }
  apply with_alloc; cbn [negb]; [|apply (Hclean [] []); [done|set_solver]].
  apply with_alloc; cbn [negb]; [|apply (Hclean [] [Response_pkt]); [done|set_solver]].
  eapply total_bind; [apply reg_and_irq_total|intros rc; cbv beta].
  destruct (Z.eqb_spec rc 0) as [->|Hrc]; cbn [negb].
  2: { apply total_ex. intros k. apply total_ex. intros h'. apply total_pure. intros Hk.
       apply (Hclean k [Raw_packet; Response_pkt]); [done|set_solver]. }
  apply total_ex. intros h'. apply total_ex. intros w.
  set (k := [Irq w; Irq (hd_irq h'); Hal_data]).
  assert (Hk : Forall stays k) by (by repeat constructor).
  destruct (create_workqueue 0); cbn [negb].
  2: { apply (Hclean k [Raw_packet; Response_pkt]); [done|set_solver]. }
  eapply total_bind; [apply holds_acquire|intros []].
  destruct (create_workqueue 1); cbn [negb].
  2: { eapply total_pre; [apply (Hclean k [Cvp_workq; Raw_packet; Response_pkt]); [done|set_solver]|].
       intros s. apply holds_perm. unfold k. solve_Permutation. }
  eapply total_bind; [apply holds_acquire|intros []]. apply total_ret. intros s Hs. by exists h', w.
Qed.

(** Messages of level [CVP_INFO] are off. *)
Class QuietLaw := info_off : Z.land msm_cvp_debug CVP_INFO = 0.

Context `{!QuietLaw}.

Lemma left_over_release t L f : total (left_over (t :: L) f) (release t) (λ _, left_over L f).
Proof.
  apply total_ex. intros k. apply total_pure. intros Hk.
  eapply total_post; [apply (holds_release_at t (k ++ t :: L) (k ++ L)); by rewrite Permutation_middle|].
  intros ? s Hs. by exists k.
Qed.

Lemma left_over_release_out t L f : ¬ stays t → t ∉ L →
  total (left_over L f) (release_if t) (λ _, left_over L f).
Proof.
  intros Ht HL. apply total_ex. intros k. apply total_pure. intros Hk.
  eapply total_post; [apply holds_release_if_out|intros ? s Hs; by exists k].
  rewrite elem_of_app. intros [Hin|]; [|done]. rewrite list.Forall_forall in Hk. auto.
Qed.

Lemma left_over_release_in t L f : total (left_over (t :: L) f) (release_if t) (λ _, left_over L f).
Proof.
  apply total_ex. intros k. apply total_pure. intros Hk.
  eapply total_post; [apply (holds_release_if_in t (k ++ t :: L) (k ++ L)); by rewrite Permutation_middle|].
  intros ? s Hs. by exists k.
Qed.

Lemma left_over_modify g L f f' : (∀ s, p_live (g s) = p_live s) → (∀ s, flags s = f → flags (g s) = f') →
  total (left_over L f) (modify g) (λ _, left_over L f').
Proof.
  intros Hl Hf. apply total_ex. intros k. apply total_pure. intros Hk.
  eapply total_post; [by apply holds_modify|]. intros ? s Hs. by exists k.
Qed.

Lemma left_over_runs {A} (m : R A) L f : completes m → total (left_over L f) (on_res m) (λ _, left_over L f).
Proof.
  intros Hm. apply total_ex. intros k. apply total_pure. intros Hk.
  eapply total_post; [by apply holds_runs|]. intros ? s Hs. by exists k.
Qed.

Lemma hfi_initialize_total L c h d : no_device L →
  total (holds L (false, c, h, d)) cvp_hfi_initialize
    (λ rc s, if rc =? 0 then ∃ h w, holds (dev_things (hd_irq h) w ++ Ops :: L) (true, c, Some h, d) s
             else ∃ h, left_over L (false, c, h, d) s).
Proof.
  intros HL. unfold cvp_hfi_initialize.
  apply with_alloc; cbn [negb]; [|apply total_ret; intros s Hs; exists h; by exists []].
  assert (HL' : no_device (Ops :: L)).
  { revert HL. unfold no_device. rewrite !list.Forall_cons, !not_elem_of_cons. intros (?&?&?&?&?). by repeat split. }
  unfold cvp_iris_hfi_initialize. rewrite info_off.
  apply (total_bind _ _ (λ rc s, if rc =? 0
    then ∃ h w, holds (dev_things (hd_irq h) w ++ Ops :: L) (false, c, Some h, d) s
    else ∃ h, left_over (Ops :: L) (false, c, h, d) s)).
  { eapply total_bind; [by apply add_device_total|]. intros [|]; by apply total_ret. }
  intros rc. cbv beta. destruct (Z.eqb_spec rc 0) as [->|Hrc]; cbn [negb].
  - apply total_ex. intros h'. apply total_ex. intros w.
    apply (total_bind _ _ (λ _, holds (dev_things (hd_irq h') w ++ Ops :: L) (true, c, Some h', d))).
    { apply holds_modify; [done|]. intros s Hf. unfold flags in *. cbn. congruence. }
    intros []. apply total_ret. intros s Hs. by exists h', w.
  - apply total_ex. intros h'. eapply total_bind; [apply left_over_release|intros []].
    apply total_ret. intros s Hs. rewrite (proj2 (Z.eqb_neq rc 0) Hrc). by exists h'.
Qed.

(** What the pointers are, read from the state. *)
Lemma holds_gets {A} (g : probe → A) a L f : (∀ s, flags s = f → g s = a) →
  ∀ B (k : A → PR B) Q, total (holds L f) (k a) Q → total (holds L f) (gets g ≫= k) Q.
Proof.
  intros Hg B k Q Hk. eapply total_bind; [apply (total_gets _ _ (λ x s, x = a ∧ holds L f s))|intros x].
  { intros s Hs. split; [apply Hg, Hs|done]. }
  apply total_pure. by intros ->.
Qed.

Lemma ret_then {A B} (a : A) (k : A → PR B) P Q : total P (k a) Q → total P (mret a ≫= k) Q.
Proof. intros Hk s Hs. destruct (Hk s Hs) as (b & s' & E & HQ). exists b, s'. by split. Qed.

Ltac read_flag a := eapply (holds_gets _ a); [intros s Hf; unfold flags in Hf; congruence|].
Ltac drop L' := eapply total_bind; [apply (holds_release_at _ _ L'); solve_Permutation|intros []].

Lemma hfi_deinitialize_total L h w d :
  total (holds (dev_things (hd_irq h) w ++ Ops :: L) (true, true, Some h, d)) cvp_hfi_deinitialize
    (λ _, holds (Irq w :: L) (false, true, Some h, d)).
Proof.
  unfold cvp_hfi_deinitialize, cvp_iris_hfi_delete_device, dev_things. cbn [app].
  read_flag true. cbn [negb].
  apply (total_bind _ _ (λ _, holds (Ops :: Irq w :: L) (true, true, Some h, d))).
  { read_flag true. cbn [negb].
    drop (Pm_workq :: Irq w :: Irq (hd_irq h) :: Hal_data :: Raw_packet :: Response_pkt :: Hdev :: Ops :: L).
    drop (Irq w :: Irq (hd_irq h) :: Hal_data :: Raw_packet :: Response_pkt :: Hdev :: Ops :: L).
    read_flag (Some h). apply ret_then.
    drop (Irq w :: Hal_data :: Raw_packet :: Response_pkt :: Hdev :: Ops :: L).
    drop (Irq w :: Raw_packet :: Response_pkt :: Hdev :: Ops :: L).
    drop (Irq w :: Raw_packet :: Hdev :: Ops :: L).
    drop (Irq w :: Hdev :: Ops :: L).
    apply holds_release_at. solve_Permutation. }
  intros []. eapply total_bind; [apply holds_release|intros []].
  apply holds_modify; [done|]. intros s Hf. unfold flags in *. cbn. congruence.
Qed.

(** * Unwinding *)

Definition module_thing (t : thing) : Prop :=
  match t with Driver | Driver_registered | Cache _ => True | _ => False end.

Variable M : list thing.
Hypothesis M_module : Forall module_thing M.

Lemma not_in_M t : ¬ module_thing t → t ∉ M.
Proof. rewrite list.Forall_forall in M_module. intros Ht Hin. auto. Qed.

(** At most [L] is held, and what a failure may leave. *)
Definition lo (L : list thing) (s : probe) : Prop := ∃ f, left_over L f s.

Definition gave_up (rc0 rc : Z) (s : probe) : Prop := rc = rc0 ∧ lo M s.

Lemma lo_intro L f s : holds L f s → lo L s.
Proof. intros Hs. exists f. by exists []. Qed.

Lemma lo_release t L : total (lo (t :: L)) (release t) (λ _, lo L).
Proof.
  apply total_ex. intros f. eapply total_post; [apply left_over_release|]. intros ? s Hs. by exists f.
Qed.

Lemma lo_release_out t L : ¬ stays t → t ∉ L → total (lo L) (release_if t) (λ _, lo L).
Proof.
  intros Ht HL. apply total_ex. intros f. eapply total_post; [by apply left_over_release_out|].
  intros ? s Hs. by exists f.
Qed.

Lemma lo_release_in t L : total (lo (t :: L)) (release_if t) (λ _, lo L).
Proof.
  apply total_ex. intros f. eapply total_post; [apply left_over_release_in|]. intros ? s Hs. by exists f.
Qed.

Lemma err_core_init_total rc : total (lo (Core :: M)) (err_core_init rc) (gave_up rc).
Proof.
  unfold err_core_init. apply (total_bind _ _ (λ _, lo (Core :: M))).
  { apply total_modify. intros s (f & k & Hk & Hl & Hf). eexists. exists k. split; [done|]. by split. }
  intros []. eapply total_bind; [apply lo_release|intros []]. by apply total_ret.
Qed.

Lemma err_alloc_chrdev_total rc : total (lo (Core :: M)) (err_alloc_chrdev rc) (gave_up rc).
Proof.
  unfold err_alloc_chrdev. eapply total_bind; [apply lo_release_out; [by intros []|]|intros []].
  - rewrite not_elem_of_cons. split; [done|]. apply not_in_M; by intros [].
  - apply err_core_init_total.
Qed.

Lemma err_class_create_total rc : total (lo (Chrdev :: Core :: M)) (err_class_create rc) (gave_up rc).
Proof.
  unfold err_class_create. eapply total_bind; [apply lo_release|intros []]. apply err_alloc_chrdev_total.
Qed.

Lemma err_device_create_total rc :
  total (lo (Class_ :: Chrdev :: Core :: M)) (err_device_create rc) (gave_up rc).
Proof.
  unfold err_device_create. eapply total_bind; [apply lo_release|intros []]. apply err_class_create_total.
Qed.

Lemma error_cdev_add_total rc G : G = [] ∨ G = [Group true] →
  total (lo (G ++ Device :: Class_ :: Chrdev :: Core :: M)) (error_cdev_add rc) (gave_up rc).
Proof.
  intros HG. unfold error_cdev_add.
  apply (total_bind _ _ (λ _, lo (Device :: Class_ :: Chrdev :: Core :: M))).
  - destruct HG as [->| ->]; [|apply lo_release_in]. apply lo_release_out; [by intros []|].
    cbn [app]. rewrite !not_elem_of_cons. repeat split; try done; apply not_in_M; by intros [].
  - intros []. eapply total_bind; [apply lo_release|intros []]. apply err_device_create_total.
Qed.

Lemma lo_perm L L' s : L ≡ₚ L' → lo L s → lo L' s.
Proof.
  intros E (f & k & Hk & Hs). exists f, k. split; [done|]. revert Hs. apply holds_perm. by rewrite E.
Qed.

Lemma err_hfi_initialize_total rc G : G = [] ∨ G = [Group true] →
  total (lo (G ++ Cdev :: Device :: Class_ :: Chrdev :: Core :: M)) (err_hfi_initialize rc) (gave_up rc).
Proof.
  intros HG. unfold err_hfi_initialize.
  apply (total_bind _ _ (λ _, lo (G ++ Device :: Class_ :: Chrdev :: Core :: M)));
    [|intros []; by apply error_cdev_add_total].
  eapply total_pre; [apply lo_release|]. intros s. apply lo_perm. by rewrite Permutation_middle.
Qed.

(** What the probe holds once the interface has a device. *)
Definition char_things : list thing := [Group true; Cdev; Device; Class_; Chrdev].

Definition full (D S : list thing) (i w : Z) : list thing :=
  D ++ S ++ dev_things i w ++ Ops :: char_things ++ Core :: M.

Lemma fail_dbglog_total rc D S h w d : D = [] ∨ D = [Debugfs] → Forall stays S → completes cvp_deinit_context_bank_devices →
  total (holds (full D S (hd_irq h) w) (true, true, Some h, d)) (fail_dbglog_alloc rc) (gave_up rc).
Proof.
  intros HD HS Hruns. unfold fail_dbglog_alloc, full.
  apply (total_bind _ _ (λ _, holds (Irq w :: S ++ D ++ char_things ++ Core :: M) (false, true, Some h, d))).
  { eapply total_pre; [apply hfi_deinitialize_total|]. intros s. apply holds_perm. solve_Permutation. }
  intros []. apply (total_bind _ _ (λ _ s, lo (char_things ++ Core :: M) s)).
  { eapply total_pre with (P' := lo (D ++ char_things ++ Core :: M)).
    - destruct HD as [->| ->]; [|apply lo_release_in]. apply lo_release_out; [by intros []|].
      unfold char_things. cbn [app]. rewrite !not_elem_of_cons. repeat split; try done; apply not_in_M; by intros [].
    - intros s Hs. exists (false, true, Some h, d), (Irq w :: S). split; [by constructor|done]. }
  intros []. apply (total_bind _ _ (λ _, lo (char_things ++ Core :: M))).
  { apply total_ex. intros f. eapply total_post; [by apply left_over_runs|]. intros ? s Hs. by exists f. }
  intros []. apply (err_hfi_initialize_total rc [Group true]). by right.
Qed.

(** * The probe *)

Lemma holds_dsp {A} (m : D A) L f : total (λ _, True) m (λ _ _, True) →
  total (holds L f) (on_dsp m) (λ _, holds L f).
Proof.
  intros Hm s [Hl Hf]. destruct (Hm (p_dsp s) I) as (a & d & E & _). unfold on_dsp. rewrite E.
  eexists _, _. split; [done|]. by split.
Qed.

Lemma dsp_init_total : total (λ _, True) cvp_dsp_device_init (λ _ _, True).
Proof.
  unfold cvp_dsp_device_init.
  assert (Hm : ∀ f, total (λ _, True) (mod_apps f) (λ _ _, True)) by (intros f; by apply total_modify).
  assert (Hd : ∀ c, total (λ _, True) (dext c) (λ _ _, True)) by (intros c s _; unfold dext; srun; eauto).
  eapply total_bind; [apply Hm|intros []]. eapply total_bind; [apply Hd|intros rc].
  destruct (negb _); [by apply total_ret|].
  eapply total_bind; [by apply (total_gets _ _ (λ _ _, True))|intros a].
  apply (total_bind _ _ (λ _ _, True)); [apply total_whenS; [intros _; apply Hm|done]|intros []].
  eapply total_bind; [apply Hd|intros thread]. destruct (thread =? 0); [|by apply total_ret].
  eapply total_bind; [apply Hm|intros []]. by apply total_ret.
Qed.

(** A probe that has come to its end. *)
Definition probed (pd : msm_cvp_platform_data) (s : probe) : Prop :=
  ∃ D h w, (D = [] ∨ D = [Debugfs]) ∧
    holds (full D [Debug_log; Sub_devices] (hd_irq h) w) (true, true, Some h, true) s ∧
    p_hal_version s = Some (pdata_hal_version pd).

Definition known_hal (v : Z) : Prop :=
  v = DEFAULT_HAL_VER ∨ v = KNP_HAL_VER ∨ v = GLYMUR_HAL_VER ∨ v = HAWI_HAL_VER.

(** A step whose error is unwound from [L]. *)
Lemma checked rc bad err (k : PR Z) (P : probe → Prop) Q :
  (bad = true → total P (err rc) Q) → total P k Q → total P (check rc bad err k) Q.
Proof. unfold check. destruct bad; auto. Qed.

Definition end_of pd (rc : Z) (s : probe) : Prop := probed pd s ∨ rc ≠ 0 ∧ lo M s.

Lemma failed_end pd rc P (m : PR Z) : rc ≠ 0 → total P m (gave_up rc) → total P m (end_of pd).
Proof. intros Hrc Hm. eapply total_post; [exact Hm|]. intros r s [-> Hs]. by right. Qed.

Lemma sub_devices_total ipclite pd D h w : D = [] ∨ D = [Debugfs] →
  bus_complete pd → known_hal (pdata_hal_version pd) →
  total (holds (full D [Debug_log] (hd_irq h) w) (true, true, Some h, true))
    (probe_sub_devices ipclite pd) (end_of pd).
Proof.
  intros HD Hb Hhal. unfold probe_sub_devices.
  assert (Hfail : ∀ S rc, Forall stays S → rc ≠ 0 →
    total (holds (full D (Debug_log :: S) (hd_irq h) w) (true, true, Some h, true))
      (err_fail_sub_device_probe rc) (end_of pd)).
  { intros S rc HS Hrc. apply (failed_end pd rc); [done|]. unfold err_fail_sub_device_probe.
    eapply total_bind; [apply (holds_release_at _ _ (full D S (hd_irq h) w)); unfold full; solve_Permutation|].
    intros []. eapply fail_dbglog_total; [done|done|apply completes_deinit]. }
  apply checked; [intros Hbad; apply (Hfail []); [done|]; by apply negb_true_iff, Z.eqb_neq in Hbad|].
  set (F := full D [Debug_log; Sub_devices] (hd_irq h) w).
  apply (total_bind _ _ (λ _, holds F (true, true, Some h, true))).
  { eapply total_post; [apply holds_acquire|]. intros ? s. apply holds_perm. unfold F, full. solve_Permutation. }
  intros [].
  assert (Hstep : ∀ (m : R Z) k, completes m → total (holds F (true, true, Some h, true)) k (end_of pd) →
    total (holds F (true, true, Some h, true))
      (rc ← on_res m; check rc (negb (rc =? 0)) err_fail_sub_device_probe k) (end_of pd)).
  { intros m k Hm Hk. eapply total_bind; [by apply holds_runs|]. intros rc. apply checked; [|done].
    intros Hbad. apply (Hfail [Sub_devices]); [by repeat constructor|]. by apply negb_true_iff, Z.eqb_neq in Hbad. }
  apply Hstep; [by apply completes_bus|]. apply Hstep; [apply completes_init|].
  assert (Hend : total (holds F (true, true, Some h, true))
    (r ← gets p_res; rc ← (if r_dsp_enabled r then on_dsp cvp_dsp_device_init else mret 0);
     set_hal_functions (pdata_hal_version pd) rc) (end_of pd)).
  { eapply total_bind; [apply (total_gets _ _ (λ _, holds F (true, true, Some h, true))); auto|intros r].
    apply (total_bind _ _ (λ _, holds F (true, true, Some h, true))).
    - destruct (r_dsp_enabled r); [apply holds_dsp, dsp_init_total|by apply total_ret].
    - intros rc. unfold set_hal_functions. replace (_ || _) with true.
      + apply (total_bind _ _ (λ _, probed pd)); [|intros []; apply total_ret; by left].
        apply total_modify. intros s [Hl Hf]. exists D, h, w. split; [done|]. split; [|done]. by split.
      + symmetry. rewrite !orb_true_iff, !Z.eqb_eq. unfold known_hal in Hhal. tauto. }
  destruct ipclite; [apply Hstep; [by apply completes_ipclite|done]|].
  apply ret_then. by apply checked.
Qed.

Lemma char_device_total pd k :
  (∀ h, total (holds (char_things ++ Core :: M) (false, false, h, true)) k (end_of pd)) →
  ∀ h, total (holds (Core :: M) (false, false, h, true)) (probe_char_device k) (end_of pd).
Proof.
  intros Hk h. unfold probe_char_device.
  apply checked; [intros Hbad; apply (failed_end pd alloc_chrdev_region); [lia|]|].
  { eapply total_pre; [apply err_alloc_chrdev_total|]. intros s. apply lo_intro. }
  eapply total_bind; [apply holds_acquire|intros []].
  apply checked; [intros Hbad; apply (failed_end pd class_create); [lia|]|].
  { eapply total_pre; [apply err_class_create_total|]. intros s. apply lo_intro. }
  eapply total_bind; [apply holds_acquire|intros []].
  apply checked; [intros Hbad; apply (failed_end pd device_create); [lia|]|].
  { eapply total_pre; [apply err_device_create_total|]. intros s. apply lo_intro. }
  eapply total_bind; [apply holds_acquire|intros []].
  apply checked; [intros Hbad; apply (failed_end pd cdev_add); [lia|]|].
  { eapply total_pre; [apply (error_cdev_add_total _ []); by left|]. intros s. apply lo_intro. }
  eapply total_bind; [apply holds_acquire|intros []].
  apply checked; [intros Hbad; apply (failed_end pd sysfs_create_group); [by apply negb_true_iff, Z.eqb_neq in Hbad|]|].
  { eapply total_pre; [apply (err_hfi_initialize_total _ []); by left|]. intros s. apply lo_intro. }
  eapply total_bind; [apply holds_acquire|intros []]. apply Hk.
Qed.

Lemma no_device_chars : no_device (char_things ++ Core :: M).
Proof.
  unfold no_device, char_things. cbn [app]. rewrite !list.Forall_cons, !not_elem_of_cons.
  repeat split; try done; apply not_in_M; by intros [].
Qed.

(** From the interface's device to the end. *)
Lemma hfi_part_total ipclite pd h :
  bus_complete pd → known_hal (pdata_hal_version pd) →
  total (holds (char_things ++ Core :: M) (false, false, h, true))
    (rc ← cvp_hfi_initialize;
     check rc (negb (rc =? 0)) err_hfi_initialize (
     modify (λ s, s <| p_cvp_core := true |>) ;;
     whenS debugfs_create_dir (acquire Debugfs) ;;
     modify (λ s, s <| p_sku_version := r_sku_version (p_res s) |>) ;;
     check (- ENOMEM) (negb vmalloc_log) fail_dbglog_alloc (
     acquire Debug_log ;; probe_sub_devices ipclite pd))) (end_of pd).
Proof.
  intros Hb Hhal. eapply total_bind; [apply hfi_initialize_total, no_device_chars|intros rc; cbv beta].
  destruct (Z.eqb_spec rc 0) as [->|Hrc]; cbn [negb]; unfold check at 1.
  2: { apply (failed_end pd rc); [done|]. eapply total_pre; [apply (err_hfi_initialize_total rc [Group true]); by right|].
       intros s (h' & Hs). by eexists. }
  apply total_ex. intros h'. apply total_ex. intros w.
  apply (total_bind _ _ (λ _, holds (full [] [] (hd_irq h') w) (true, true, Some h', true))).
  { apply holds_modify; [done|]. intros s Hf. unfold flags in *. cbn. congruence. }
  intros []. apply (total_bind _ _ (λ _ s, ∃ D, (D = [] ∨ D = [Debugfs]) ∧
                                        holds (full D [] (hd_irq h') w) (true, true, Some h', true) s)).
  { apply total_whenS; [|intros s _ Hs; exists []; auto]. intros _.
    eapply total_post; [apply holds_acquire|]. intros ? s Hs. exists [Debugfs]. auto. }
  intros []. apply total_ex. intros D. apply total_pure. intros HD.
  eapply total_bind; [apply (holds_modify _ (true, true, Some h', true)); [done|by intros]|intros []].
  apply checked.
  { intros _. apply (failed_end pd (- ENOMEM)); [done|]. apply fail_dbglog_total; [done|done|apply completes_deinit]. }
  eapply total_bind; [apply holds_acquire|intros []].
  eapply total_pre; [apply (sub_devices_total ipclite pd D h' w); done|].
  intros s. apply holds_perm. unfold full. solve_Permutation.
Qed.

End rules.
