(* ===== verification/ProbeMain.v ===== *)
(** The main theorems about the platform driver: what reading the resources of the platforms
    gives, what a probe leaves in every outcome, and what a removal leaves. *)

From Stdlib Require Import Sorted.
From stdpp Require Import strings.
From S2P Require Import Prelude Store Hw Platform Resources ResourceLaws Dsp DspCmd DspRuns Probe ProbeLaws.
Open Scope Z_scope.

(** * Platforms *)
Section platforms.
Context `{ClockBindings} `{SortLaw}.

(** C34. Reading a platform's tables.  For the three compatible strings whose platform is
    described in full it never faults, whatever memory is given: it returns -ENOMEM, or 0
    with every table as long as its count and the clock rates sorted, a permutation of the
    platform's, as the votes need them.  For every other platform of the table it follows a
    null pointer. *)
Theorem platform_data_read c pd s :
  of_match_node c = Some pd → all_counted s →
  let run := cvp_read_platform_resources_from_drv_data (Some pd) s in
  if bool_decide (c ∈ described)
  then ∃ rc s', run = Done (rc, s') ∧ (rc = - ENOMEM ∨ rc = 0 ∧ all_counted s' ∧ rates_ready pd s')
  else run = Fault.
Proof.
  intros Hm Hs. cbv zeta. case_bool_decide as Hc.
  - apply (drv_data_total pd (platforms_complete c pd Hm Hc) s Hs).
  - apply undescribed_faults; [by eapply platforms_trusted|by eapply platforms_undescribed].
Qed.

End platforms.

(** * The device tree *)
Section trees.
Context `{ClockBindings} `{SortLaw} `{!DomainLaw} `{!NamesLaw}.

(** The device tree names no more resets and buses than the platforms describe. *)
Definition tree_fits : Prop :=
  (dt_count_strings "reset-names" <= 1 ∨ MAX_CLK_RESETS < dt_count_strings "reset-names") ∧
  dt_count_strings "interconnect-names" <= 2.

Lemma bound_described c : c ∈ msm_cvp_plat_match false → c ∈ described.
Proof. unfold msm_cvp_plat_match, described. rewrite app_nil_r, !elem_of_cons. tauto. Qed.

(** What holds of the two platforms that the driver is bound to. *)
Lemma bound_platform (Φ : msm_cvp_platform_data → Prop) c :
  Φ sm8850_data → Φ glymur_data → c ∈ msm_cvp_plat_match false →
  ∃ pd, of_match_node c = Some pd ∧ cvp_get_drv_data (Some c) = Some pd ∧ Φ pd.
Proof.
  intros Hk Hg. unfold msm_cvp_plat_match. rewrite app_nil_r, elem_of_cons, list_elem_of_singleton.
  intros [->| ->]; eexists; (split; [reflexivity|]; split; [reflexivity|done]).
Qed.

Lemma bound_complete : tree_fits → ∀ c, c ∈ msm_cvp_plat_match false →
  ∃ pd, of_match_node c = Some pd ∧ cvp_get_drv_data (Some c) = Some pd ∧
        dt_complete pd ∧ bus_complete pd ∧ known_hal (pdata_hal_version pd).
Proof.
  intros [Hr Hb] c. apply bound_platform with (Φ := λ pd, dt_complete pd ∧ bus_complete pd ∧ known_hal _).
  - split; [split; [by eexists|by eexists|by eexists|eexists; split; [reflexivity|cbn; lia]]|].
    split; [split; [eexists; split; [reflexivity|cbn; lia]|by eexists]|]. by right; left.
  - split; [split; [by eexists|by eexists|by eexists|eexists; split; [reflexivity|cbn; lia]]|].
    split; [split; [eexists; split; [reflexivity|cbn; lia]|by eexists]|]. by do 2 right; left.
Qed.


End trees.

(** C36. Setting up the context banks: either every bank of the table has a registered device
    and is on the list, in the table's order; or the error leaves no device registered, while
    the banks before the one that failed stay on the list, pointing at devices that are gone. *)
Theorem context_banks_all_or_none `{DtEnv} pd banks s :
  pdata_cb_data pd = Some banks → banks ≠ [] → r_context_banks s = [] →
  (∀ b, b ∈ banks → bank_dev b ∉ r_registered s) →
  ∃ rc s', cvp_init_context_bank_devices (Some pd) s = Done (rc, s') ∧
    (rc = 0 ∧ r_context_banks s' = ready banks <$> banks ∧
       r_registered s' = reverse (bank_dev <$> banks) ++ r_registered s
     ∨ rc ≠ 0 ∧ r_registered s' = r_registered s ∧ r_cb_devs s' = None ∧
       ∃ k, (k < length banks)%nat ∧ r_context_banks s' = ready banks <$> take k banks).
Proof.
  intros Hb Hne Hl Hreg. unfold cvp_init_context_bank_devices. rewrite Hb. unfold kzalloc.
  destruct banks as [|b0 banks0]; [done|]. set (banks := b0 :: banks0) in *. srun.
  destruct (alloc_ok _); cbn [negb]; srun.
  - match goal with |- context [init_banks banks banks ?s1] =>
      destruct (init_banks_run banks Hne (r_registered s) banks [] s1) as (rc & s' & E & Ho) end.
    + done.
    + by repeat split.
    + exists rc, s'. split; [done|]. destruct Ho as [[-> (Hb' & _ & Hr)]|Hf]; [by left|by right].
  - eexists _, _. split; [done|]. right. repeat split; try done. exists O. split; [cbn; lia|done].
Qed.

(** * Probe and removal *)
Section probing.
Context `{ClockBindings} `{SortLaw} `{!DomainLaw} `{!NamesLaw} `{DspEnv} `{ProbeEnv} `{!QuietLaw}.

(** Before a probe: the module's things are held, and no core. *)
Definition unbound (M : list thing) (s : probe) : Prop :=
  Forall module_thing M ∧ Driver ∈ M ∧ p_live s ≡ₚ M ∧ p_ops s = false ∧ p_cvp_core s = false ∧
  all_counted (p_res s).

(** The core is allocated and its resources are read. *)
Lemma core_total (P : resources → Prop) M f (k : bool → PR Z) Q : over_tables P →
  total (λ s, P (p_res s) ∧ holds (Core :: M) f s) (k true) Q →
  total (holds M f) (k false) Q →
  total (λ s, P (p_res s) ∧ holds M f s) (alloc Core ≫= k) Q.
Proof.
  intros HP Ht Hf. apply (total_bind _ _ (λ (ok : bool) s, P (p_res s) ∧ holds (if ok then Core :: M else M) f s)).
  { unfold alloc. apply (total_bind _ _ (λ (ok : bool) s, P (p_res s) ∧ holds M f s)).
    { apply holds_on_res. by apply total_kzalloc. }
    intros ok. apply (total_bind _ _ (λ _ s, P (p_res s) ∧ holds (if ok then Core :: M else M) f s));
      [|intros []; by apply total_ret].
    apply total_whenS; [intros ->|by intros s ->]. apply total_modify.
    intros s [HPs [Hl Hfs]]. split; [done|]. split; [cbn; by rewrite Hl|done]. }
  intros [|]; [done|]. eapply total_pre; [exact Hf|]. by intros s [].
Qed.

Lemma reading_total c pd L f : tree_fits → c ∈ msm_cvp_plat_match false →
  of_match_node c = Some pd → dt_complete pd →
  total (λ s, all_counted (p_res s) ∧ holds L f s) (msm_cvp_initialize_core (Some pd)) (λ _, holds L f).
Proof.
  intros Ht Hc Hm Hd. unfold msm_cvp_initialize_core, read_platform_resources.
  destruct dt_node; cbn [negb]; [|apply total_ret; by intros s []].
  apply (total_bind _ _ (λ rc s, drv_post pd rc (p_res s) ∧ holds L f s)).
  { apply holds_on_res, drv_data_total. eapply platforms_complete; [done|by apply bound_described]. }
  intros rc. destruct (Z.eqb_spec rc 0) as [->|Hrc]; cbn [negb]; [|apply total_ret; by intros s []].
  eapply total_conseq; [apply (holds_on_res _ _ _ L f (dt_total pd Hd))|..].
  - intros s [[|[_ [Hs _]]] Hh]; [done|by split].
  - by intros rc s [_ Hh].
Qed.

Lemma probe_device_total M ipclite c :
  tree_fits → c ∈ msm_cvp_plat_match false →
  ∃ pd, cvp_get_drv_data (Some c) = Some pd ∧
    total (unbound M) (msm_probe_cvp_device ipclite (Some c)) (end_of M pd).
Proof.
  intros Ht Hc. destruct (bound_complete Ht c Hc) as (pd & Hm & Hg & Hd & Hb & Hhal).
  exists pd. split; [done|]. intros s (HM & Hdrv & Hl & Ho & Hcore & Hr).
  assert (Hs : all_counted (p_res s) ∧ holds M (false, false, p_hal s, p_drvdata s) s).
  { split; [done|]. split; [done|]. unfold flags. congruence. }
  unfold msm_probe_cvp_device. rewrite St_bind_run, gets_run. cbn [obind fst snd].
  rewrite bool_decide_eq_true_2 by (by rewrite Hl). cbn [negb]. rewrite Hg.
  generalize (p_hal s), (p_drvdata s), Hs. clear Hs Hl Ho Hcore Hr. intros h d Hs. revert s Hs.
  apply core_total; [apply all_counted_over|..]; cbn [negb].
  2: { apply total_ret. intros s Hs. right. split; [done|]. by apply lo_intro in Hs. }
  apply (total_bind _ _ (λ _ s, all_counted (p_res s) ∧ holds (Core :: M) (false, false, h, true) s)).
  { apply total_modify. intros s [Hr [Hl Hf]]. split; [done|]. split; [done|]. unfold flags in *. cbn. congruence. }
  intros []. eapply total_bind; [by apply (reading_total c)|intros rc].
  apply checked.
  { intros Hbad. apply (failed_end M pd rc); [by apply negb_true_iff, Z.eqb_neq in Hbad|].
    eapply total_pre; [by apply err_core_init_total|]. intros s. apply lo_intro. }
  apply char_device_total; [done|]. intros h'. by apply hfi_part_total.
Qed.


(** C38. Removing a probed device frees the core, while the character device with its
    attributes, the sub-devices and the watchdog's interrupt stay, and the driver keeps its
    pointer to the core: a client that opens the file then reaches freed memory. *)
Theorem removal_keeps_device_file M pd s :
  Forall module_thing M → probed M pd s →
  ∃ s' D w, msm_cvp_remove s = Done (tt, s') ∧ (D = [] ∨ D = [Debugfs]) ∧
    p_live s' ≡ₚ D ++ Sub_devices :: Irq w :: char_things ++ M ∧ ¬ Core ∈ p_live s' ∧
    p_cvp_core s' = true ∧ p_drvdata s' = false.
Proof.
  intros HM (D & h & w & HD & Hs & _). set (L := D ++ Sub_devices :: Irq w :: char_things ++ M).
  assert (Hr : total (holds (full M D [Debug_log; Sub_devices] (hd_irq h) w) (true, true, Some h, true))
            msm_cvp_remove (λ _, holds L (false, true, Some h, false))).
  { unfold msm_cvp_remove, full. eapply (holds_gets _ true); [intros s0 Hf; unfold flags in Hf; congruence|]. cbn [negb].
    eapply total_bind; [apply (holds_release_if_in Debug_log _
      (dev_things (hd_irq h) w ++ Ops :: D ++ Sub_devices :: char_things ++ Core :: M)); solve_Permutation|intros []].
    eapply total_bind; [apply hfi_deinitialize_total|intros []].
    eapply total_bind; [apply holds_runs, completes_free|intros []].
    eapply total_bind; [apply holds_runs, completes_deinit|intros []].
    eapply total_bind; [apply holds_release_if_out|intros []].
    { assert (Group false ∉ M) by (apply (not_in_M M HM); by intros []).
      unfold char_things. destruct HD as [->| ->]; cbn [app]; rewrite !not_elem_of_cons; by repeat split. }
    eapply total_bind; [apply (holds_modify _ (false, true, Some h, false)); [done|]|intros []].
    { intros s0 Hf. unfold flags in *. cbn. congruence. }
    apply holds_release_at. unfold L. solve_Permutation. }
  destruct (Hr s Hs) as ([] & s' & E & Hl & Hf). exists s', D, w. unfold flags in Hf.
  split; [done|]. split; [done|]. split; [done|]. split; [|split; congruence].
  rewrite Hl. unfold L, char_things. assert (Core ∉ M) by (apply (not_in_M M HM); by intros []).
  destruct HD as [->| ->]; cbn [app]; rewrite !not_elem_of_cons; by repeat split.
Qed.

End probing.

Lemma no_platform `{DtEnv} s : ∃ rc, read_platform_resources None s = Done (rc, s) ∧ rc ≠ 0.
Proof.
  unfold read_platform_resources. destruct dt_node; cbn [negb]; [|by exists (- EINVAL)].
  exists (- ENOENT). split; [|done]. by destruct s.
Qed.

(** With a DSP configured, the table of the main device lists the DSP's memory device too, so
    that the branch that would read it is never taken: its probe fails for want of data, and
    no memory device is recorded. *)
Theorem mem_cdsp_never_read `{ClockBindings} `{DtEnv} `{DspEnv} `{ProbeEnv} ipclite dev s :
  ∃ rc s', msm_cvp_probe true ipclite true mem_cdsp dev s = Done (rc, s') ∧ rc ≠ 0 ∧
           r_mem_cdsp (p_res s') = r_mem_cdsp (p_res s) ∧ p_live s' ≡ₚ p_live s.
Proof.
  unfold msm_cvp_probe, msm_probe_cvp_device. cbn [negb].
  replace (of_match_device true mem_cdsp) with true by reflexivity. srun.
  destruct (bool_decide (Driver ∈ p_live s)); cbn [negb]; [|srun; by eexists _, _].
  unfold alloc, kzalloc, on_res. srun.
  destruct (alloc_ok _); cbn [negb]; srun; [|by eexists _, _].
  replace (cvp_get_drv_data (Some mem_cdsp)) with (@None msm_cvp_platform_data) by reflexivity.
  unfold msm_cvp_initialize_core, acquire. srun. cbn [negb]. srun.
  match goal with |- context [read_platform_resources None ?s0] =>
    destruct (no_platform s0) as (rc & E & Hrc) end.
  rewrite E. cbn [obind fst snd]. unfold check. rewrite (proj2 (Z.eqb_neq rc 0) Hrc). cbn [negb].
  unfold err_core_init, release. srun. rewrite bool_decide_eq_true_2 by (cbn; left). srun.
  eexists _, _. split; [reflexivity|]. repeat split; [done|]. cbn. by rewrite decide_True.
Qed.

(** * A platform and a kernel *)

Fixpoint insert_by (c : Z → Z → Z) (a : Z) (l : list Z) : list Z :=
  match l with [] => [a] | b :: l' => if c a b <=? 0 then a :: l else b :: insert_by c a l' end.
Definition sort_list (c : Z → Z → Z) (l : list Z) : list Z := foldr (insert_by c) [] l.

Lemma insert_by_perm c a l : insert_by c a l ≡ₚ a :: l.
Proof.
  induction l as [|b l IH]; cbn; [done|]. destruct (_ <=? 0); [done|]. rewrite IH. apply Permutation_swap.
Qed.

Lemma sort_list_perm c l : sort_list c l ≡ₚ l.
Proof. induction l as [|a l IH]; cbn; [done|]. by rewrite insert_by_perm, IH. Qed.

Lemma orders_incl c l l' : (∀ x, x ∈ l' → x ∈ l) → orders c l → orders c l'.
Proof. intros Hi [Htot Htr]. split; [auto|]. intros a b d Ha Hb Hd. apply Htr; auto. Qed.

Lemma insert_by_sorted c a l : orders c (a :: l) →
  StronglySorted (λ x y, c x y <= 0) l → StronglySorted (λ x y, c x y <= 0) (insert_by c a l).
Proof.
  induction l as [|b l IH]; intros Ho Hs; cbn; [by repeat constructor|].
  assert (Ha : a ∈ a :: b :: l) by left. assert (Hb : b ∈ a :: b :: l) by (right; left).
  assert (Hl : ∀ x, x ∈ l → x ∈ a :: b :: l) by (intros x Hx; by do 2 right).
  apply StronglySorted_inv in Hs as [Hs Hbl]. rewrite list.Forall_forall in Hbl.
  destruct (Z.leb_spec (c a b) 0) as [Hab|Hab].
  - constructor; [constructor; [done|by apply list.Forall_forall]|].
    constructor; [done|]. apply list.Forall_forall. intros x Hx. apply (proj2 Ho a b x); auto.
  - constructor.
    + apply IH; [|done]. refine (orders_incl _ _ _ _ Ho). intros x [->|Hx]%elem_of_cons; auto.
    + apply list.Forall_forall. intros x. rewrite insert_by_perm, elem_of_cons.
      intros [->|Hx]; [|auto]. destruct (proj1 Ho a b Ha Hb); [lia|done].
Qed.

Lemma sort_list_sorted c l : orders c l → StronglySorted (λ x y, c x y <= 0) (sort_list c l).
Proof.
  induction l as [|a l IH]; intros Ho; [constructor|].
  change (sort_list c (a :: l)) with (insert_by c a (sort_list c l)). apply insert_by_sorted.
  - refine (orders_incl _ _ _ _ Ho). intros x. by rewrite !elem_of_cons, sort_list_perm.
  - apply IH. refine (orders_incl _ _ _ _ Ho). intros x Hx. by right.
Qed.

Module Sample.

#[local] Instance bindings : ClockBindings := {|
  GCC_EVA_AXI0C_CLK := 1; GCC_EVA_AXI0_CLK := 2; EVA_CC_SLEEP_CLK := 3;
  EVA_CC_MVS0C_FREERUN_CLK := 4; EVA_CC_MVS0C_CLK := 5; EVA_CC_MVS0_FREERUN_CLK := 6;
  EVA_CC_MVS0_CLK := 7
|}.

Definition names (p : string) : Z :=
  if String.eqb p "clock-names" then 7 else if String.eqb p "reset-names" then 1
  else if String.eqb p "interconnect-names" then 2 else -22.

Definition handle (name : string) : Z := 1000 + Z.of_nat (String.length name).

#[local] Instance tree : DtEnv := {|
  alloc_ok _ := true; pd_names_ok := true; topology_cluster_id _ := 0; sort_by := sort_list;
  dt_node := true; dt_properties := []; dt_cells _ := None; dt_read_cells _ n := inl (replicate n 0);
  dt_u32 _ := inr (-22); dt_bool _ := false; node_bool _ _ := false;
  dt_string _ := inl (Some "evass.mbn"); dt_count_strings := names; dt_string_at p _ := inl p;
  platform_mem := Some (0xab00000, 0xabfffff); platform_irq n := 100 + Z.of_nat n;
  memory_region _ := Some (inl (0x80000000, 0x800fffff)); reserved_mem_init := 0;
  pm_domain_attach_list l := inl (replicate (length l) 9); opp_set_config _ := 0; opp_add_table := 0;
  dt_child _ := true; register_device := handle; device_bus _ := 1; device_domain _ := 1
|}.

#[local] Instance sorts : SortLaw.
Proof. intros c l Ho. split; [apply sort_list_perm|by apply sort_list_sorted]. Qed.
#[local] Instance domains : DomainLaw.
Proof. intros l devs [= <-]. apply length_replicate. Qed.
#[local] Instance pd_names : NamesLaw.
Proof. reflexivity. Qed.

#[local] Instance dsp_side : DspEnv := {|
  d_answer _ c := match c with Run_dsp_thread => 1 | _ => 0 end; rpmsg_arrivals _ := []; probe_arrivals _ := [];
  stack_cmd _ := DspCmd.zero_cmd
|}.

#[local] Instance kernel : ProbeEnv := {|
  msm_cvp_debug := 0x1003; devm_ioremap base _ := base; request_irq _ := 0;
  create_workqueue _ := true; alloc_chrdev_region := 0; class_create := 0; device_create := 0;
  cdev_add := 0; sysfs_create_group := 0; debugfs_create_dir := true; vmalloc_log := true;
  of_platform_populate := 0; register_driver := 0; tcsr_reg := (0x1F40000, 0xC0000)
|}.
#[local] Instance quiet : QuietLaw.
Proof. reflexivity. Qed.

Definition no_space : cvp_regspace_data := mkRegspace 0 0 0.

(** Resources as they are allocated: all zero. *)
Definition blank : resources :=
  mkRes 0 0 None false false 0 false false 0 [] 0 0 false 0 0 0 false 0 0 0 false 0 0 0 0 0
    no_space no_space no_space no_space None 0 false 0 None None 0 0 None 0 None 0 None 0 None 0
    None 0 None 0 0 0 0 None false 0 None [] 0 None None [] true 0.

Definition module_things : list thing := caches ++ [Driver_registered; Driver].

Definition start : probe :=
  mkProbe blank module_things false false None false None 0 true DspScenario.off.

Definition knp : string := "qcom,kaanapali-eva".

Definition probed_core : probe :=
  match msm_cvp_probe false true true knp 7 start with Done (_, s) => s | Fault => start end.

Example probe_runs :
  match msm_cvp_probe false true true knp 7 start with
  | Done (rc, s) => rc = 0 ∧ r_allowed_clks (p_res s) = Some kaanapali_allowed_clocks ∧
                    cb_name <$> r_context_banks (p_res s) = ["eva_hlos"; "eva_sec_nonpixel"; "eva_sec_pixel"] ∧
                    r_fw_name (p_res s) = Some "evass"
  | Fault => False
  end.
Proof. vm_compute. repeat split. Qed.

Lemma blank_counted : all_counted blank.
Proof. repeat split; apply fits_zero. Qed.

Lemma fits : tree_fits.
Proof. split; [left|]; vm_compute; discriminate. Qed.

Lemma start_unbound : unbound module_things start.
Proof.
  split; [by repeat constructor|]. split; [by apply (bool_decide_unpack _)|].
  split; [done|]. split; [done|]. split; [done|]. apply blank_counted.
Qed.

Lemma probed_from h w s :
  p_live s = [Sub_devices; Debug_log; Debugfs] ++ full module_things [] [] (hd_irq h) w →
  flags s = (true, true, Some h, true) → p_hal_version s = Some (pdata_hal_version sm8850_data) →
  probed module_things sm8850_data s.
Proof.
  intros El Ef Ev. exists [Debugfs], h, w. split; [by right|]. split; [split; [|done]|done].
  rewrite El. unfold full. solve_Permutation.
Qed.

Definition mapped : cvp_hal_data := mkHal 100 101 0 0xab00000 0x110000 0x1F40000 0x100000 0x90000.

Lemma probed_core_probed : probed module_things sm8850_data probed_core.
Proof. apply (probed_from mapped 101); vm_compute; reflexivity. Qed.

Lemma platform_data_read_witness :
  (∃ rc s', cvp_read_platform_resources_from_drv_data (Some sm8850_data) blank = Done (rc, s') ∧
    (rc = - ENOMEM ∨ rc = 0 ∧ all_counted s' ∧ rates_ready sm8850_data s')) ∧
  cvp_read_platform_resources_from_drv_data (Some sm8750_data) blank = Fault.
Proof.
  split.
  - pose proof (platform_data_read knp sm8850_data blank eq_refl blank_counted) as W. cbv zeta in W.
    rewrite bool_decide_eq_true_2 in W; [exact W|by apply (bool_decide_unpack _)].
  - pose proof (platform_data_read "qcom,sun-cvp" sm8750_data blank eq_refl blank_counted) as W.
    cbv zeta in W. rewrite bool_decide_eq_false_2 in W; [exact W|by apply (bool_decide_unpack _)].
Defined.


Lemma context_banks_all_or_none_witness :
  ∃ rc s', cvp_init_context_bank_devices (Some glymur_data) blank = Done (rc, s') ∧
    (rc = 0 ∧ r_context_banks s' = ready glymur_cvp_context_banks <$> glymur_cvp_context_banks ∧
       r_registered s' = reverse (bank_dev <$> glymur_cvp_context_banks) ++ r_registered blank
     ∨ rc ≠ 0 ∧ r_registered s' = r_registered blank ∧ r_cb_devs s' = None ∧
       ∃ k, (k < length glymur_cvp_context_banks)%nat ∧
            r_context_banks s' = ready glymur_cvp_context_banks <$> take k glymur_cvp_context_banks).
Proof.
  apply (context_banks_all_or_none glymur_data glymur_cvp_context_banks blank); [done|done|done|].
  intros b _. apply not_elem_of_nil.
Defined.


Lemma removal_keeps_device_file_witness :
  ∃ s' D w, msm_cvp_remove probed_core = Done (tt, s') ∧ (D = [] ∨ D = [Debugfs]) ∧
    p_live s' ≡ₚ D ++ Sub_devices :: Irq w :: char_things ++ module_things ∧ ¬ Core ∈ p_live s' ∧
    p_cvp_core s' = true ∧ p_drvdata s' = false.
Proof.
  apply (removal_keeps_device_file module_things sm8850_data probed_core); [by repeat constructor|].
  apply probed_core_probed.
Defined.

(** The watchdog's interrupt is refused: the interface's device is freed, the interrupt it
    asked for first stays. *)
Example watchdog_refused :
  let refuses := {|
    msm_cvp_debug := 0x1003; devm_ioremap base _ := base; request_irq n := if n =? 101 then -16 else 0;
    create_workqueue _ := true; alloc_chrdev_region := 0; class_create := 0; device_create := 0;
    cdev_add := 0; sysfs_create_group := 0; debugfs_create_dir := true; vmalloc_log := true;
    of_platform_populate := 0; register_driver := 0; tcsr_reg := (0x1F40000, 0xC0000)
  |} in
  match msm_cvp_probe (H2 := refuses) false true true knp 7 start with
  | Done (rc, s) => rc = - EINVAL ∧ p_live s = Irq 100 :: module_things
  | Fault => False
  end.
Proof. vm_compute. by split. Qed.

(** The sub-devices are refused: the probe fails, the watchdog's interrupt stays, and the
    driver still points at the core that was freed. *)
Example failed_probe_keeps_pointer :
  let refuses := {|
    msm_cvp_debug := 0x1003; devm_ioremap base _ := base; request_irq _ := 0;
    create_workqueue _ := true; alloc_chrdev_region := 0; class_create := 0; device_create := 0;
    cdev_add := 0; sysfs_create_group := 0; debugfs_create_dir := true; vmalloc_log := true;
    of_platform_populate := -5; register_driver := 0; tcsr_reg := (0x1F40000, 0xC0000)
  |} in
  match msm_cvp_probe (H2 := refuses) false true true knp 7 start with
  | Done (rc, s) => rc = -5 ∧ p_live s = Irq 101 :: module_things ∧ p_cvp_core s = true
  | Fault => False
  end.
Proof. vm_compute. by repeat split. Qed.

End Sample.
